(* ===== verification/_CoqProject ===== *)
-Q . S2P
Prelude.v
CppString.v
FileUtils.v
UrlUtils.v
BootUtils.v
EnvironmentUtils.v
Application.v
ApplicationLaws.v
AppUrl.v
Logger.v
System.v
Directories.v
Boot.v
Double.v
Heap.v
JavaScriptCore.v
PythonCore.v
RubyCore.v
PhpCore.v
Virtual.v
KObject.v
StaticBound.v
StaticLaws.v
Namespace.v
Accessor.v
Wrappers.v
ArgList.v
Events.v
Blob.v
AsyncJob.v
Script.v
ApiObjects.v
Api.v
JavaScript.v
Ruby.v
RubyEvaluator.v
Php.v
PhpClasses.v
PhpEvaluator.v
Python.v
PythonEvaluator.v
PythonTextLaws.v
Dispatch.v
ValueLaws.v
DispatchLaws.v
EventLaws.v
JobLaws.v
JobQueueLaws.v
WrapperLaws.v
ScriptLaws.v
AccessorLaws.v
TypeLaws.v
JavaScriptEngine.v
JavaScriptLaws.v
JavaScriptCallLaws.v
PythonInterpreter.v
PythonLaws.v
PythonExceptionLaws.v
PythonListLaws.v
RubyInterpreter.v
RubyLaws.v
RubyCallLaws.v
PhpInterpreter.v
PhpLaws.v
ApiLaws.v
ApiListLaws.v
ApiAppLaws.v
Proxy.v
Host.v
HostSetup.v
HostLaws.v
StartLaws.v
LifecycleLaws.v
BootLaws.v
HostSetupLaws.v
