(* ===== verification/Prelude.v ===== *)
(** * Kroll: a verification library for the Kroll microkernel

    Kroll is the C++ kernel of a desktop application platform. A small boot
    program reads the manifest of an application, resolves its dependencies
    to installed components and starts a host; the host loads modules; the
    modules exchange objects through a binding layer that is common to all
    languages. This library models the kernel as its Linux build has it and
    proves what its parts promise to each other.

    ** The parts and the files

    Shared: [Prelude] (results, the state monad [ST] with its sum of
    outcomes, the rules [within] and [gets_bind], tactics and hints),
    [CppString] (std::string and C strings), [Double] (binary64 and the
    conversions to int).

    1. Start-up. [FileUtils] (api/utils/file_utils.cpp and its POSIX part:
       paths, tokens, queries of the file system), [UrlUtils] and [AppUrl]
       (api/utils/url_utils.cpp), [EnvironmentUtils]
       (api/utils/environment_utils.cpp), [BootUtils]
       (api/utils/boot_utils.cpp: the scan of installed components,
       dependencies, CompareVersions, ReadManifestFile), [Application] with
       [ApplicationLaws] (api/utils/application.cpp: NewApplication,
       ResolveDependencies, arguments, UsingModule), [Directories] (the making
       of directories and the directories of the user, the application and
       the process; api/utils/posix and api/utils/linux). State: a store of
       components, since a [SharedComponent] is a pointer that several
       vectors share, and the record of an application. [Boot] with
       [BootLaws] (boot/boot.cpp, boot/boot_linux.cpp) is the program that
       starts the host: two processes joined by the environment.
    2. The binding layer. [Heap] holds values, objects and all other state of
       api/binding: an address for each [SharedValue] and [SharedKObject], so
       that aliasing is as in the program. A virtual call goes through the
       record [VOps] of [Virtual], the interface that KObject, KMethod and
       KList declare; the functions of each class are written against it:
       [KObject] (kobject.cpp, kmethod.cpp, klist.cpp, value.cpp),
       [StaticBound] (static_bound_*.cpp, k_function_ptr_method.cpp),
       [Accessor] (accessor_bound_*.cpp), [Wrappers] (delegates, profiling
       wrappers, scopes), [ArgList] (arg_list.cpp), [Events] (event.cpp,
       read_event.cpp, k_event_object.cpp and the queue of the main thread),
       [Blob] (blob.cpp), [AsyncJob] (api/async_job.cpp). [Dispatch] ties the
       knot: [vt n] is the whole program with virtual calls nested at most
       [n] deep. [StaticLaws], [Namespace], [AccessorLaws], [WrapperLaws],
       [ValueLaws], [EventLaws], [JobLaws], [JobQueueLaws], [DispatchLaws] and
       [TypeLaws] hold the theorems.
    3. What scripts reach. [System] gathers the state of the other parts
       (components, applications, environment, loggers, file system) as one
       field of the heap; [Script] (api/script.cpp) is the registry of
       script evaluators; [ApiObjects] and [Api] (modules/api/*.cpp) are the
       object "API" and the objects for applications, components,
       dependencies, the environment and scripts; [ScriptLaws], [ApiLaws],
       [ApiListLaws] and [ApiAppLaws] hold the theorems. [JavaScript]
       (modules/javascript: kjs_util.cpp, k_kjs_*.cpp and the files of the
       module) is the border to JavaScript: conversions both ways, the
       callbacks behind the wrappers, the proxies and their global contexts,
       written against [JavaScriptCore], the interface of the engine. The
       state of the module is a field of [System]; its proxies are classes of
       [Heap] like the others, and [Dispatch] ties the callbacks into the
       knot, so that a script may call back at any depth. [JavaScriptEngine]
       states what JavaScriptCore promises, as a class, with a small engine
       that keeps the promises; [JavaScriptLaws] and [JavaScriptCallLaws] hold
       the theorems. [Python] (modules/python: python_utils.cpp and
       k_python_*.cpp) is the border to Python in the same way: conversions,
       the slots of the types of the program, the proxies; [PythonEvaluator]
       (python_evaluator.cpp, python_module.cpp) runs scripts and starts and
       stops the module. They are written against [PythonCore], the functions
       of CPython: queries of its memory, and a type of calls whose
       interpretation is a parameter that can come back through the slots.
       [PythonInterpreter] states the documented behaviour of these functions,
       reference counts included, as classes, with a small interpreter that
       has it; [PythonTextLaws], [PythonLaws], [PythonExceptionLaws] and
       [PythonListLaws] hold the theorems. [Ruby] (modules/ruby: ruby_utils.cpp
       and k_ruby_*.cpp) and [RubyEvaluator] (ruby_evaluator.cpp,
       ruby_module.cpp) do the same for Ruby over [RubyCore]; a call of Ruby
       answers with a value or an exception of Ruby, which is a jump.
       [RubyInterpreter] states its documented behaviour, with a small
       interpreter; [RubyLaws] and [RubyCallLaws] hold the theorems. [Php]
       (modules/php: php_utils.cpp and the proxies k_php_*.cpp), [PhpClasses]
       (php_k_classes.cpp: the handlers and methods of the classes of the
       program) and [PhpEvaluator] (php_evaluator.cpp, php_module.cpp) do it
       for PHP over [PhpCore], the functions of the Zend engine;
       [PhpInterpreter] states its documented behaviour, with a small engine,
       and [PhpLaws] holds the theorem.
    4. The host. [Logger] (api/logger.cpp), [Proxy] (api/net/proxy_config*.cpp),
       [Host] with [HostLaws], [StartLaws] and [LifecycleLaws] (api/host.cpp,
       api/module.h, host/linux/host.cpp: modules and the run), [HostSetup] with
       [HostSetupLaws] (the constructor: the parts above put together, the
       command line, the loggers, the profiler).
    Each function is one definition with the name it has in C++ (a class
    prefix where two classes have a function of that name). A function that
    may fail returns [res]: [Ret], [Throw] with the exception, [Undef] for
    undefined behaviour of C++ (a null dereference, a read of an indeterminate
    value, the use of a deleted object), [Fuel] when the bound of the model is
    reached. Stateful code is in the state monad over [res]; the state at the
    point of a throw is kept.

    ** What the theorems show

    - Start-up: the boot process is replaced only when every dependency is
      resolved and the application is installed, and the second process runs
      the host of the runtime found ([boot_hands_over]); without --start,
      --profile and an override, that host searches for modules in exactly the
      directories that were resolved ([boot_reaches_host]); the resolution of
      dependencies always returns and gives every dependency the bundled or
      the newest matching component among those that are on disk
      ([resolve_dependencies_spec], [resolve_dependency_best]); a directory is
      made with its missing parents, and nothing else
      ([create_directory_spec]); the scan is
      sorted and free of duplicates ([get_installed_components_sorted]);
      manifests, URLs, environments and arguments read back as they were
      printed (the [_roundtrip] theorems).
    - Objects: StaticBoundObject is a finite map and StaticBoundList a
      sequence (refinements, [static_bound_object_is_map],
      [static_bound_list_is_sequence]), GetNS finds what SetNS stored
      ([set_ns_get_ns], which also says what both do with a part that is no
      object), accessor objects call the right getter or setter, a delegate overlays
      two objects, profiling wrappers come off again, signatures are checked
      as they are written, DisplayString ends on cyclic graphs of
      objects (not so of lists), and the depth
      bound of the model is irrelevant ([depth_bound_irrelevant]).
    - The whole layer: whatever program runs over the interface, with native
      code and foreign objects that respect it, no live object disappears or
      changes its class ([dynamic_types_stable], by the rules of [within] for
      every function of [Dispatch]).
    - Scripts and the API: the evaluators are a sequence
      ([script_registry]) of which the first that says yes is found
      ([script_evaluator_dispatch]); the properties of an ApplicationBinding or
      ComponentBinding read the fields of the application or component
      ([application_binding_view], [component_binding_view]); the lists of
      installed components are the scanned ones, filtered, in order
      ([installed_components_listed]); [create_dependency_spec].
    - JavaScript: what crosses the border comes back, values and proxies
      ([js_value_roundtrip]) and objects of JavaScript, each with the proxy of
      its kind ([js_object_roundtrip]);
      a global context is retained exactly while a proxy holds it
      ([context_protection]); the callbacks for properties turn every
      exception into one of JavaScript, with its value or its text
      ([property_callbacks_contain]), and
      resize a list when its length is set ([js_length_resizes]).
    - Python: values and Python objects come back from the other side
      ([python_value_roundtrip], [python_object_roundtrip]), with the
      references that each conversion takes counted
      ([to_python_references]); an exception keeps its value on its way
      through Python ([python_exception_roundtrip]), and only the slot that
      calls methods contains it ([method_slot_contains]); a Python list can
      be written at any index and read back ([python_list_set_get]); what
      Python makes of a list of the program ([python_list_slots]); the text
      of a script is prepared as one pass would do
      ([convert_line_endings_one_pass], [strip_keeps_the_body]).
    - Ruby: values and Ruby objects come back from the other side
      ([ruby_value_roundtrip], [ruby_object_roundtrip]); a property that Ruby
      sets through [method_missing] is the one that it reads
      ([ruby_property_roundtrip]); each window has a context of its own
      ([ruby_context_ids]).
    - PHP: what goes to PHP is a zval that fits and comes back, but for lists,
      which come back as proxies of their wrappers ([php_value_roundtrip]).
    - The laws of the four engines are those of their documentation, no
      stronger: a conversion to Python may answer with an object that there is
      already (small integers, short texts); dropping a reference runs nothing
      only where another one is left or the object is a number, a text or
      [None]; [rb_obj_is_kind_of] goes up the ancestors of a class; reading a
      property in JavaScript runs nothing only for a plain object, whose
      properties are data ([JSView]).
    - Events and jobs: [fire_event_delivery] gives the exact sequence of
      callbacks, [event_exceptions_contained] that none of their exceptions
      gets out, [job_run_outcome] the three ends of an asynchronous job,
      [job_queue_drains] that the queue of the main thread empties when the
      jobs do not queue others for ever.
    - Host: in every run, however it ends, each module is initialized,
      started, stopped and unloaded in this order ([module_lifecycle], by an
      invariant of the host kept by every call that a module can make; that
      every module is started, by a second one in [StartLaws]); the
      scan of module files ends ([scan_complete]); loggers inherit levels and
      deliver each message once; the bypass list of the proxy is matched by
      suffix of the host, but for the entries that a fault of [EndsWith] makes
      match more or less ([should_bypass_spec] says which).
    Several lemmas that are no such promises pin down behaviour that looks
    unintended (for instance [equal_strings_differ],
    [removed_listener_is_used], [script_module_started_twice]).

    ** Fuel and bounds

    - [vt n] bounds the depth of virtual calls and [vFuel] the turns of the
      loops over objects whose size their own calls may change;
      [depth_bound_irrelevant] shows that an answer does not depend on [n],
      and each theorem about a call of the binding layer either gives a
      sufficient [n] or takes the depth of the callbacks as a number.
    - The loops over texts ([tokenize], [trim], [find], [get_ns_loop],
      [ReplaceString]) use the length of the text plus one, which their
      lemmas show to be enough: the position grows in every turn.
    - [GetImpl] recurses on the name before its last dot: length plus one.
      The scan of module files stops after a turn that loads nothing: one
      more than the number of waiting files. The unload loops erase one
      module per turn. [host_op] bounds the calls from modules back to the
      host that are nested; the theorems of [HostLaws] hold for every bound.
    - [PyToKrollValue] is recursive only in that converting the exception of
      a failed conversion may fail in turn: one level is enough for every
      object that is not a long. [PhpToKrollValue] goes into an array for each
      array in it: one level is enough for what is no array. [ConvertLineEndings] turns at most once per
      character ([convert_loop_run]).
    - Integers: positions of std::string are natural numbers with npos as
      [None], except where npos is an ordinary operand ([EndsWith]: 64-bit
      wrap-around); [int] results go through [int_of_double]; the identifiers
      of listeners and timestamps keep their width. Two numbers are not kept at
      theirs: the holders of a JavaScript context ([ProtectGlobalContext]) and
      the length of a text for [EncodeURIComponent], both [int] in the code and
      exact here; they differ only past 2^31 holders or 2^31/3 bytes.

    ** What is outside

    - Threads, mutexes, GTK and reference counts: one thread is modelled, the
      main thread, with its queue of asynchronous jobs. An object that the
      program has freed stays in the heap where nothing reaches it; where the
      program uses freed objects the model has a set of the deleted ones.
    - The operating system and third-party libraries are parameters: the file
      system ([FS]; mkdir is a function on it with the laws of POSIX), the
      answers of readdir and stat, Poco's URI, locale and
      log formats, libproxy, and what printf prints. The environment block is
      a list of texts with the POSIX functions on it.
    - JavaScriptCore, whose functions are the fields of two records, those
      that only look at its memory and those that may change it or run a
      script; strings are created and released within a call, so the releases
      are left out, and so is the garbage collector (FinalizeCallback is
      there for the engine to call).
    - CPython, whose calls are the type [pycmd]; a [PyObject*] is an address,
      and its memory is opaque. The lock of the interpreter is left out: there
      is one thread. The destructors of the proxies are functions that nothing
      calls, since objects of the program are never freed here.
    - Ruby, whose calls are the type [rbcmd]; an [ID] is the text it stands
      for. An exception of Ruby that would jump over frames of the program is
      undefined behaviour.
    - The Zend engine, whose calls are the type [phpcmd]; a [zval*] is an
      address. A jump of the engine over frames of the program is undefined
      behaviour.
    - Objects created outside of the modelled files are the class [Foreign],
      whose operations are fields of [World].
    - The text that the queue of the main thread logs for an exception
      ([LinuxJob_Execute]) is one text for each exception: [displayText()] of
      Poco and [what()] of the standard library are not told apart.
    - The thread that runs the installer ([API_RunInstaller]) is one step of
      the main thread.
    - Left out: CreateModule of JavascriptModule, PythonModule, RubyModule and PHPModule
      (they cut the names of a module with Poco::Path, and run its file), the
      copying of resources of modules, the profiler's times,
      digests and machine ids, dialogs, the installer's user interface, the
      crash reporter, the code for Windows and macOS, vendored code (unzip,
      breakpad, kashmir, digests). *)

From stdpp Require Export base decidable numbers list gmap strings pretty sorting.
From Stdlib Require Export Ascii.
From stdpp Require Import options.

#[global] Open Scope nat_scope.

(** ** Byte strings

    A [std::string] is a finite sequence of bytes: a list of [ascii] (8-bit)
    characters. The list representation gives every lemma of stdpp's lists. *)
Abbreviation str := (list ascii).

Definition lit (s : string) : str := Stdlib.Strings.String.list_ascii_of_string s.
Arguments lit _%_string.

(** ** Results of a computation

    - [Ret a]: the C++ function returns [a];
    - [Throw e]: it leaves by a C++ exception;
    - [Undef]: it reaches undefined behaviour (null dereference, use of a
      freed object, read of an indeterminate value, ...);
    - [Fuel]: the model ran out of recursion fuel. Theorems show when it
      does not. *)
Inductive exn :=
  | ValueException (value : option N)   (* kroll::ValueException, its SharedValue *)
  | SharedValueExn (value : N)          (* a SharedValue thrown as such *)
  | StdException (what : str)           (* std::exception and its subclasses *)
  | StdStringExn (what : str)           (* a std::string thrown as such *)
  | CStringExn (what : str).            (* a C string thrown as such *)

#[export] Instance exn_eq_dec : EqDecision exn.
Proof. solve_decision. Defined.

Inductive res (A : Type) :=
  | Ret (a : A)
  | Throw (e : exn)
  | Undef
  | Fuel.
Arguments Ret {A} a.
Arguments Throw {A} e.
Arguments Undef {A}.
Arguments Fuel {A}.

#[export] Instance res_eq_dec {A} `{EqDecision A} : EqDecision (res A).
Proof. solve_decision. Defined.

Definition res_map {A B} (f : A -> B) (r : res A) : res B :=
  match r with
  | Ret a => Ret (f a)
  | Throw e => Throw e
  | Undef => Undef
  | Fuel => Fuel
  end.

#[export] Instance res_ret : MRet res := fun A a => Ret a.
#[export] Instance res_bind : MBind res := fun A B f r =>
  match r with
  | Ret a => f a
  | Throw e => Throw e
  | Undef => Undef
  | Fuel => Fuel
  end.

Definition out_of_range : exn := StdException (lit "std::out_of_range").

Lemma res_bind_ret {A B} (a : A) (f : A -> res B) : (Ret a ≫= f) = f a.
Proof. done. Qed.

Lemma res_bind_Ret_inv {A B} (r : res A) (f : A -> res B) b :
  (r ≫= f) = Ret b <-> exists a, r = Ret a /\ f a = Ret b.
Proof. destruct r; naive_solver. Qed.

Lemma res_bind_assoc {A B C} (r : res A) (f : A -> res B) (g : B -> res C) :
  ((r ≫= f) ≫= g) = (r ≫= fun a => f a ≫= g).
Proof. by destruct r. Qed.

(** ** State and exceptions

    [ST S A]: a computation over a mutable state [S]. The state at the point
    of a C++ [throw] is kept, as in C++. *)
Definition ST (S A : Type) : Type := S -> res A * S.

#[export] Instance st_ret {S} : MRet (ST S) := fun A a s => (Ret a, s).
#[export] Instance st_bind {S} : MBind (ST S) := fun A B f m s =>
  match m s with
  | (Ret a, s') => f a s'
  | (Throw e, s') => (Throw e, s')
  | (Undef, s') => (Undef, s')
  | (Fuel, s') => (Fuel, s')
  end.

Definition lift {S A} (r : res A) : ST S A := fun s => (r, s).
Definition throw {S A} (e : exn) : ST S A := lift (Throw e).
Definition undef {S A} : ST S A := lift Undef.
Definition gets {S A} (f : S -> A) : ST S A := fun s => (Ret (f s), s).
Definition modify {S} (f : S -> S) : ST S unit := fun s => (Ret tt, f s).

(** [try { m } catch (...) { h }] *)
Definition try_catch {S A} (m : ST S A) (h : exn -> ST S A) : ST S A := fun s =>
  match m s with
  | (Throw e, s') => h e s'
  | r => r
  end.

(** dereference: an empty option is undefined behaviour *)
Definition some_or_undef {S A} (o : option A) : ST S A :=
  lift (match o with Some a => Ret a | None => Undef end).

Fixpoint st_map {S A B} (f : A -> ST S B) (l : list A) : ST S (list B) :=
  match l with
  | [] => mret []
  | a :: l' => b ← f a; bs ← st_map f l'; mret (b :: bs)
  end.

Fixpoint st_fold {S A B} (f : B -> A -> ST S B) (b : B) (l : list A) : ST S B :=
  match l with
  | [] => mret b
  | a :: l' => b' ← f b a; st_fold f b' l'
  end.

Lemma st_bind_Ret {S A B} (m : ST S A) (f : A -> ST S B) a s s' :
  m s = (Ret a, s') -> (m ≫= f) s = f a s'.
Proof. unfold mbind, st_bind. by intros ->. Qed.

Lemma bind_Throw {S A B} (m : ST S A) (f : A -> ST S B) e s s' :
  m s = (Throw e, s') -> (m ≫= f) s = (Throw e, s').
Proof. unfold mbind, st_bind. by intros ->. Qed.

Lemma st_bind_Ret_inv {S A B} (m : ST S A) (f : A -> ST S B) b s s' :
  (m ≫= f) s = (Ret b, s') <-> exists a s1, m s = (Ret a, s1) /\ f a s1 = (Ret b, s').
Proof. unfold mbind, st_bind. destruct (m s) as [[] ?]; naive_solver. Qed.

Lemma st_bind_assoc {S A B C} (m : ST S A) (f : A -> ST S B) (g : B -> ST S C) s :
  ((m ≫= f) ≫= g) s = (m ≫= fun a => f a ≫= g) s.
Proof. unfold mbind, st_bind. by destruct (m s) as [[] ?]. Qed.

Lemma st_fold_app {S A B} (f : B -> A -> ST S B) b l1 l2 s :
  st_fold f b (l1 ++ l2) s = (b' ← st_fold f b l1; st_fold f b' l2) s.
Proof.
  revert b s. induction l1 as [|a l1 IH]; intros b s; [done|]. cbn [app st_fold].
  unfold mbind, st_bind. destruct (f b a s) as [[] ?]; simpl; [apply IH|done..].
Qed.

(** [step H]: run the first operation of a sequence as [H] says. *)
Tactic Notation "step" uconstr(H) :=
  erewrite (st_bind_Ret _ _ _ _ _ H); cbv beta iota zeta.

(** [st_inv]: take apart the runs of a sequence of operations. *)
Ltac st_inv1 :=
  match goal with
  | H : (_ ≫= _) _ = (Ret _, _) |- _ =>
      let a := fresh "a" in let s := fresh "s" in let H1 := fresh "Hrun" in
      apply st_bind_Ret_inv in H as (a & s & H1 & H)
  | H : lift _ _ = (Ret _, _) |- _ => unfold lift in H; simplify_eq
  | H : mret _ _ = (Ret _, _) |- _ => unfold mret, st_ret in H; simplify_eq
  | H : gets _ _ = (Ret _, _) |- _ => unfold gets in H; simplify_eq
  | H : modify _ _ = (Ret _, _) |- _ => unfold modify in H; simplify_eq
  end.
Ltac st_inv := repeat st_inv1.

(** ** The exceptions that a computation can throw *)
Definition throws_only {S A} (P : exn -> Prop) (m : ST S A) : Prop :=
  forall s e s', m s = (Throw e, s') -> P e.
Abbreviation no_throw := (throws_only (fun _ => False)).

Lemma throws_only_weaken {S A} (P Q : exn -> Prop) (m : ST S A) :
  (forall e, P e -> Q e) -> throws_only P m -> throws_only Q m.
Proof. unfold throws_only. naive_solver. Qed.

Lemma throws_only_bind {S A B} P (m : ST S A) (f : A -> ST S B) :
  throws_only P m -> (forall a, throws_only P (f a)) -> throws_only P (m ≫= f).
Proof.
  intros Hm Hf s e s'. unfold mbind, st_bind. destruct (m s) as [[] s1] eqn:E; try done.
  - apply Hf.
  - intros [= -> ->]. by eapply Hm.
Qed.

Lemma throws_only_try_catch {S A} P Q (m : ST S A) (k : exn -> ST S A) :
  throws_only P m -> (forall e, P e -> throws_only Q (k e)) -> throws_only Q (try_catch m k).
Proof.
  intros Hm Hk s e s'. unfold try_catch. destruct (m s) as [[] s1] eqn:E; try done.
  intros E2. eapply Hk; [by eapply Hm|exact E2].
Qed.

Lemma throws_only_throw {S A} (P : exn -> Prop) e : P e -> throws_only P (throw e : ST S A).
Proof. intros He s e' s' [= <- _]. done. Qed.

Lemma throws_only_st_fold {S A B} P (f : B -> A -> ST S B) b l :
  (forall b a, throws_only P (f b a)) -> throws_only P (st_fold f b l).
Proof.
  intros Hf. revert b. induction l as [|a l IH]; intros b; simpl; [by intros ???|].
  by apply throws_only_bind.
Qed.

(** [quiet]: a computation built from parts that throw only as they may. *)
Create HintDb quiet.
Ltac quiet1 :=
  match goal with
  | |- forall _, _ => intros ?
  | |- throws_only _ (_ ≫= _) => apply throws_only_bind
  | |- throws_only _ (st_fold _ _ _) => apply throws_only_st_fold
  | |- throws_only _ (throw _) => apply throws_only_throw
  | |- throws_only _ (match ?x with _ => _ end) => destruct x
  | |- throws_only _ (mret _) => by intros ? ? ? [=]
  | |- throws_only _ (gets _) => by intros ? ? ? [=]
  | |- throws_only _ (modify _) => by intros ? ? ? [=]
  | |- throws_only _ undef => by intros ? ? ? [=]
  | |- throws_only _ _ => solve [eauto 3 with quiet]
  end.
Ltac quiet := repeat quiet1.

(** ** Invariants of stateful computations

    [within F P R m]: [m] keeps the invariant [P] and relates the states before
    and after by [R], however it ends; unless [F] it never runs out of fuel. *)
Definition within {S A} (F : bool) (P : S -> Prop) (R : relation S) (m : ST S A) : Prop :=
  forall s, P s -> P (m s).2 /\ R s (m s).2 /\ (F = true \/ (m s).1 <> Fuel).

Section Within.
Context {S : Type} (F : bool) (P : S -> Prop) (R : relation S) `{!PreOrder R}.
#[local] Set Default Proof Using "Type*".

Lemma within_lift {A} (r : res A) : r <> Fuel -> within F P R (lift r).
Proof. intros Hr s Hs. repeat split; [done|reflexivity|by right]. Qed.
Lemma within_some_or_undef {A} (o : option A) : within F P R (some_or_undef o).
Proof. apply within_lift. by destruct o. Qed.
Lemma within_ret {A} (a : A) : within F P R (mret a).
Proof. by apply within_lift. Qed.
Lemma within_gets {A} (f : S -> A) : within F P R (gets f).
Proof. intros s Hs. repeat split; [done|reflexivity|by right]. Qed.
Lemma within_modify (f : S -> S) :
  (forall s, P s -> P (f s) /\ R s (f s)) -> within F P R (modify f).
Proof. intros Hf s Hs. destruct (Hf s Hs). repeat split; [done|done|by right]. Qed.

Lemma within_step {A B} (m : ST S A) (f : A -> ST S B) s :
  P (m s).2 /\ R s (m s).2 /\ (F = true \/ (m s).1 <> Fuel) ->
  (forall a s', m s = (Ret a, s') ->
     P (f a s').2 /\ R s' (f a s').2 /\ (F = true \/ (f a s').1 <> Fuel)) ->
  P ((m ≫= f) s).2 /\ R s ((m ≫= f) s).2 /\ (F = true \/ ((m ≫= f) s).1 <> Fuel).
Proof.
  unfold mbind, st_bind. destruct (m s) as [[a| | |] s1]; simpl.
  - intros (H1 & H2 & H3) Hf. destruct (Hf a s1 eq_refl) as (? & ? & ?). repeat split; try done. by etrans.
  - intros (? & ? & _) _. repeat split; [done|done|by right].
  - intros (? & ? & _) _. repeat split; [done|done|by right].
  - intros (? & ? & [->|[]]) _; [|done]. repeat split; [done|done|by left].
Qed.

Lemma within_bind {A B} (m : ST S A) (f : A -> ST S B) :
  within F P R m -> (forall a, within F P R (f a)) -> within F P R (m ≫= f).
Proof.
  intros Hm Hf s Hs. apply within_step; [by apply Hm|]. intros a s' E. apply Hf.
  destruct (Hm s Hs) as (? & _ & _). by rewrite E in *.
Qed.

Lemma within_gets_bind {A B} (Q : A -> Prop) (g : S -> A) (f : A -> ST S B) :
  (forall s, P s -> Q (g s)) -> (forall a, Q a -> within F P R (f a)) -> within F P R (gets g ≫= f).
Proof. intros Hg Hf s Hs. exact (Hf (g s) (Hg s Hs) s Hs). Qed.

Lemma within_try_catch {A} (m : ST S A) (k : exn -> ST S A) :
  within F P R m -> (forall e, within F P R (k e)) -> within F P R (try_catch m k).
Proof.
  intros Hm Hk s Hs. specialize (Hm s Hs). unfold try_catch. destruct (m s) as [[] s1]; try done.
  simpl in Hm. destruct Hm as (H1 & H2 & _). destruct (Hk e s1 H1) as (? & ? & ?).
  repeat split; try done. by etrans.
Qed.

Lemma within_st_fold {A B} (f : B -> A -> ST S B) b l :
  (forall b a, a ∈ l -> within F P R (f b a)) -> within F P R (st_fold f b l).
Proof.
  revert b. induction l as [|a l IH]; intros b Hf; simpl; [apply within_ret|].
  apply within_bind; [apply Hf; by left|]. intros b'. apply IH. intros ???. apply Hf. by right.
Qed.
End Within.

Lemma within_imp {S A} F (P P' : S -> Prop) (R R' : relation S) (m : ST S A) :
  within F P R m -> (forall s, P' s -> P s) -> (forall s s', P' s -> P s' -> R s s' -> P' s' /\ R' s s') ->
  within F P' R' m.
Proof.
  intros Hm HP HR s Hs. destruct (Hm s (HP s Hs)) as (? & ? & ?). by destruct (HR s (m s).2) as [? ?].
Qed.

Create HintDb within.
Ltac within1 :=
  match goal with
  | |- forall _, _ => intros ?
  | |- within _ _ _ (_ ≫= _) => apply within_bind; [apply _| |]
  | |- within _ _ _ (try_catch _ _) => apply within_try_catch; [apply _| |]
  | |- within _ _ _ (st_fold _ _ _) => apply within_st_fold; [apply _|]
  | |- within _ _ _ (mret _) => apply within_ret; apply _
  | |- within _ _ _ (gets _) => apply within_gets; apply _
  | |- within _ _ _ (throw _) => apply within_lift; [apply _|done]
  | |- within _ _ _ (some_or_undef _) => apply within_some_or_undef; apply _
  | |- within _ _ _ undef => apply within_lift; [apply _|done]
  | |- within _ _ _ (match ?x with _ => _ end) => destruct x
  | |- within _ _ _ _ => solve [eauto 3 with within]
  end.
Ltac within := repeat within1.

(** ** Machine integers *)
Definition wrap32 (z : Z) : Z := (z `mod` 2 ^ 32)%Z.                 (* unsigned int *)
Definition to_signed32 (z : Z) : Z :=                                 (* int *)
  let w := wrap32 z in if (w <? 2 ^ 31)%Z then w else (w - 2 ^ 32)%Z.

Definition int_min : Z := (- 2 ^ 31)%Z.
Definition int_max : Z := (2 ^ 31 - 1)%Z.
Definition is_int (z : Z) : Prop := (int_min <= z <= int_max)%Z.

Lemma wrap32_range z : (0 <= wrap32 z < 2 ^ 32)%Z.
Proof. unfold wrap32. by apply Z.mod_pos_bound. Qed.

Lemma wrap32_id z : (0 <= z < 2 ^ 32)%Z -> wrap32 z = z.
Proof. apply Z.mod_small. Qed.

Lemma to_signed32_range z : is_int (to_signed32 z).
Proof.
  unfold is_int, to_signed32, int_min, int_max.
  pose proof (wrap32_range z). case_match eqn:E; lia.
Qed.

Lemma to_signed32_id z : is_int z -> to_signed32 z = z.
Proof.
  unfold is_int, to_signed32, int_min, int_max, wrap32. intros Hz.
  destruct (decide (0 <= z)%Z).
  - rewrite Z.mod_small by lia. case_match eqn:E; lia.
  - rewrite <- (Z.mod_unique_pos z (2 ^ 32) (-1) (z + 2 ^ 32)) by lia.
    case_match eqn:E; lia.
Qed.

Lemma to_signed32_wrap z : to_signed32 (wrap32 z) = to_signed32 z.
Proof. unfold to_signed32, wrap32. by rewrite Z.mod_mod. Qed.

(** ** Generic list lemmas *)
Lemma take_drop_middle_take {A} (l : list A) i k :
  i <= k -> take i l ++ take (k - i) (drop i l) = take k l.
Proof.
  intros Hik. rewrite <- (take_drop i (take k l)).
  rewrite take_take, skipn_firstn_comm. by rewrite Nat.min_l by lia.
Qed.

Lemma filter_keeps {A} (P : A -> Prop) `{!forall x, Decision (P x)} (l : list A) :
  Forall P l -> filter P l = l.
Proof. induction 1 as [|x l Hx _ IH]; [done|]. by rewrite filter_cons_True, IH. Qed.
