(* ===== verification/CppString.v ===== *)
(** * CppString: the operations of [std::string] and the C string functions
    that the source uses, with their laws

    Positions are [nat]; the value [std::string::npos] is [None]. *)

From S2P Require Import Prelude.
From stdpp Require Import options.

Definition NUL : ascii := Ascii.zero.

(** [s.c_str()]: what the C functions see of [s], up to its first NUL. *)
Fixpoint c_str (s : str) : str :=
  match s with
  | [] => []
  | c :: s' => if decide (c = NUL) then [] else c :: c_str s'
  end.

Fixpoint is_prefix (p s : str) : bool :=
  match p, s with
  | [], _ => true
  | a :: p', b :: s' => bool_decide (a = b) && is_prefix p' s'
  | _, _ => false
  end.

Fixpoint find_at (needle s : str) (i : nat) : option nat :=
  if is_prefix needle s then Some i
  else match s with
       | [] => None
       | _ :: s' => find_at needle s' (S i)
       end.

(** [s.find(needle, pos)] *)
Definition find (s needle : str) (pos : nat) : option nat :=
  if pos <=? length s then find_at needle (drop pos s) pos else None.

(** [s.rfind(needle, pos)]: the last match that starts at or before [pos]. *)
Fixpoint rfind_at (needle s : str) (i : nat) : option nat :=
  if is_prefix needle (drop i s) then Some i
  else match i with
       | O => None
       | S i' => rfind_at needle s i'
       end.
Definition rfind (s needle : str) (pos : nat) : option nat :=
  if length s <? length needle then None
  else rfind_at needle s (Nat.min pos (length s - length needle)).

(** the first position at or after [i] whose character satisfies [P] *)
Fixpoint find_char_at (P : ascii -> bool) (s : str) (i : nat) : option nat :=
  match s with
  | [] => None
  | c :: s' => if P c then Some i else find_char_at P s' (S i)
  end.

Definition in_set (delims : str) (c : ascii) : bool := bool_decide (c ∈ delims).

(** [s.find_first_of(delims, pos)] and [s.find_first_not_of(delims, pos)];
    a search that starts at [npos] finds nothing. *)
Definition find_first_of (s delims : str) (pos : option nat) : option nat :=
  p ← pos; find_char_at (in_set delims) (drop p s) p.
Definition find_first_not_of (s delims : str) (pos : option nat) : option nat :=
  p ← pos; find_char_at (fun c => negb (in_set delims c)) (drop p s) p.

(** [s.find_last_of(c)] *)
Fixpoint find_last_of_at (c : ascii) (s : str) (i : nat) (found : option nat) : option nat :=
  match s with
  | [] => found
  | d :: s' => find_last_of_at c s' (S i) (if decide (c = d) then Some i else found)
  end.
Definition find_last_of (s : str) (c : ascii) : option nat := find_last_of_at c s 0 None.

(** [s.substr(pos, count)]: [count = None] is [npos]. *)
Definition substr (s : str) (pos : nat) (count : option nat) : res str :=
  if pos <=? length s
  then Ret (match count with None => drop pos s | Some n => take n (drop pos s) end)
  else Throw out_of_range.

Lemma substr_Ret s pos count :
  pos <= length s ->
  substr s pos count = Ret (match count with None => drop pos s | Some n => take n (drop pos s) end).
Proof. intros H. unfold substr. by rewrite (proj2 (Nat.leb_le _ _)). Qed.

(** [s[i]]: the terminating NUL is readable at [size()], nothing beyond. *)
Definition char_at (s : str) (i : nat) : res ascii :=
  match s !! i with
  | Some c => Ret c
  | None => if decide (i = length s) then Ret NUL else Undef
  end.

(** [s.size() - 1] as a [size_t]: [npos] for the empty string. *)
Definition size_minus_1 (s : str) : option nat :=
  match length s with O => None | S n => Some n end.

(** [one.compare(two)]: byte-wise, by unsigned value. *)
Definition ascii_compare (a b : ascii) : comparison := N.compare (N_of_ascii a) (N_of_ascii b).
Fixpoint str_compare (s t : str) : comparison :=
  match s, t with
  | [], [] => Eq
  | [], _ :: _ => Lt
  | _ :: _, [] => Gt
  | a :: s', b :: t' =>
      match ascii_compare a b with
      | Eq => str_compare s' t'
      | o => o
      end
  end.
Definition str_le (s t : str) : Prop := str_compare s t <> Gt.
#[export] Instance str_le_dec : RelDecision str_le.
Proof. intros s t. unfold str_le. solve_decision. Defined.

(** [tolower], [toupper], [isdigit] in the "C" locale. *)
Definition in_range (lo hi : N) (c : ascii) : bool :=
  ((lo <=? N_of_ascii c)%N && (N_of_ascii c <=? hi)%N).
Definition tolower (c : ascii) : ascii :=
  if in_range 65 90 c then ascii_of_N (N_of_ascii c + 32) else c.
Definition toupper (c : ascii) : ascii :=
  if in_range 97 122 c then ascii_of_N (N_of_ascii c - 32) else c.
Definition isdigit (c : ascii) : bool := in_range 48 57 c.

(** decimal text of an unsigned integer, as [operator<<] prints it *)
Definition dec (n : N) : str := lit (pretty n).

(** ** Laws of the searches *)

Lemma is_prefix_spec p s : is_prefix p s = true <-> exists k, s = p ++ k.
Proof.
  revert s. induction p as [|a p IH]; intros [|b s]; simpl.
  - split; [|done]. by exists [].
  - split; [|done]. by exists (b :: s).
  - split; [done|]. by intros [k ?].
  - rewrite andb_true_iff, bool_decide_eq_true, IH. split.
    + intros [-> [k ->]]. by exists k.
    + intros [k [= -> ->]]. eauto.
Qed.

Lemma is_prefix_app p k : is_prefix p (p ++ k) = true.
Proof. apply is_prefix_spec. eauto. Qed.

Lemma is_prefix_nil_inv p : is_prefix p [] = true -> p = [].
Proof. by destruct p. Qed.

Lemma find_at_Some needle s i j :
  find_at needle s i = Some j <->
  i <= j /\ is_prefix needle (drop (j - i) s) = true /\ j - i <= length s /\
  forall k, i <= k < j -> is_prefix needle (drop (k - i) s) = false.
Proof.
  revert i. induction s as [|c s IH]; intros i.
  - assert (find_at needle [] i = if is_prefix needle [] then Some i else None) as ->.
    { done. }
    destruct (is_prefix needle []) eqn:E; split.
    + intros [= ->]. rewrite Nat.sub_diag. split_and!; [lia|done|done|lia].
    + intros (?&?&Hl&?). simpl in *. f_equal. lia.
    + done.
    + intros (?&Hp&?&?). rewrite drop_nil in Hp. congruence.
  - assert (find_at needle (c :: s) i
            = if is_prefix needle (c :: s) then Some i else find_at needle s (S i)) as ->.
    { done. }
    destruct (is_prefix needle (c :: s)) eqn:E.
    + split.
      * intros [= ->]. rewrite Nat.sub_diag. split_and!; [lia|done|simpl; lia|lia].
      * intros (?&?&?&Hmin). destruct (decide (i = j)) as [->|]; [done|].
        specialize (Hmin i ltac:(lia)). rewrite Nat.sub_diag in Hmin. simpl in Hmin. congruence.
    + rewrite IH. split; intros (?&Hp&?&Hmin).
      * destruct (j - i) as [|m] eqn:Em; [lia|].
        assert (j - S i = m) as Hm by lia. rewrite Hm in *.
        split_and!; [lia|done|simpl; lia|].
        intros k Hk. destruct (k - i) as [|m'] eqn:Ek; [done|].
        simpl. specialize (Hmin k ltac:(lia)). by replace (k - S i) with m' in Hmin by lia.
      * destruct (j - i) as [|m] eqn:Em; [simpl in Hp; congruence|].
        assert (j - S i = m) as -> by lia. simpl in *.
        split_and!; [lia|done|lia|].
        intros k Hk. specialize (Hmin k ltac:(lia)).
        by replace (k - i) with (S (k - S i)) in Hmin by lia.
Qed.

Lemma find_prefix s needle : find s needle 0 = Some 0 <-> is_prefix needle s = true.
Proof.
  unfold find. simpl. rewrite drop_0, find_at_Some. simpl. rewrite drop_0.
  split; [naive_solver|intros; split_and!; [lia|done|lia|lia]].
Qed.

(** [find] gives the first occurrence. *)
Lemma find_spec haystack needle i :
  find haystack needle 0 = Some i <->
  (exists r, haystack = take i haystack ++ needle ++ r) /\ i <= length haystack /\
  forall q r, haystack = q ++ needle ++ r -> i <= length q.
Proof.
  unfold find. simpl. rewrite drop_0, find_at_Some, Nat.sub_0_r. split.
  - intros (_ & [r Hr]%is_prefix_spec & Hlen & Hmin). split_and!; [|done|].
    + exists r. by rewrite <- Hr, take_drop.
    + intros q r' ->. destruct (decide (i <= length q)) as [|Hlt]; [done|].
      specialize (Hmin (length q) ltac:(lia)). rewrite Nat.sub_0_r, drop_app_length in Hmin.
      by rewrite is_prefix_app in Hmin.
  - intros ([r Hr] & Hlen & Hmin). split_and!; [lia| |done|].
    + rewrite Hr, drop_app_length' by (rewrite length_take; lia). apply is_prefix_app.
    + intros k Hk. rewrite Nat.sub_0_r. destruct (is_prefix _ _) eqn:E; [|done].
      apply is_prefix_spec in E as [r' E]. specialize (Hmin (take k haystack) r').
      rewrite <- E, take_drop, length_take in Hmin. specialize (Hmin eq_refl). lia.
Qed.

Lemma find_at_None needle s i :
  find_at needle s i = None -> forall q r, s <> q ++ needle ++ r.
Proof.
  revert i. induction s as [|c s IH]; intros i; cbn [find_at].
  - destruct (is_prefix needle []) eqn:E; [done|]. intros _ [|d q] r Hs; [|done].
    destruct needle; [done|]. done.
  - destruct (is_prefix needle (c :: s)) eqn:E; [done|]. intros Hn [|d q] r Hs.
    + simpl in Hs. by rewrite Hs, is_prefix_app in E.
    + injection Hs as -> Hs. by eapply IH.
Qed.
Lemma find_None s needle : find s needle 0 = None -> forall q r, s <> q ++ needle ++ r.
Proof. unfold find. simpl. rewrite drop_0. apply find_at_None. Qed.

(** [span P s]: the longest prefix of characters in [P], and the rest. *)
Fixpoint span (P : ascii -> bool) (s : str) : str * str :=
  match s with
  | [] => ([], [])
  | c :: s' => if P c then (c :: (span P s').1, (span P s').2) else ([], s)
  end.

Lemma span_app P s : (span P s).1 ++ (span P s).2 = s.
Proof. induction s as [|c s IH]; simpl; [done|]. case_match; simpl; congruence. Qed.

Lemma span_Forall P s : Forall (fun c => P c = true) (span P s).1.
Proof. induction s as [|c s IH]; simpl; [done|]. case_match; constructor; auto. Qed.

Lemma span_snd P s : (span P s).2 = [] \/ exists c k, (span P s).2 = c :: k /\ P c = false.
Proof. induction s as [|c s IH]; simpl; [auto|]. case_match; simpl; eauto. Qed.

Lemma span_length P s : length (span P s).1 + length (span P s).2 = length s.
Proof. rewrite <- length_app. by rewrite span_app. Qed.

Lemma span_all P s : Forall (fun c => P c = true) s -> span P s = (s, []).
Proof. induction 1 as [|c s Hc Hs IH]; simpl; [done|]. by rewrite Hc, IH. Qed.

Lemma find_char_at_span P s i :
  find_char_at P s i =
  match (span (fun c => negb (P c)) s).2 with
  | [] => None
  | _ => Some (i + length (span (fun c => negb (P c)) s).1)
  end.
Proof.
  revert i. induction s as [|c s IH]; intros i; simpl; [done|].
  destruct (P c); simpl; [f_equal; lia|].
  rewrite IH. case_match; [done|]. f_equal. lia.
Qed.

(** [find] of a one-character needle is a character search. *)
Lemma find_at_char c s i :
  find_at [c] s i = find_char_at (fun d => bool_decide (c = d)) s i.
Proof.
  revert i. induction s as [|d s IH]; intros i; simpl; [done|].
  rewrite andb_true_r. case_bool_decide; auto.
Qed.

Lemma find_char_at_None P s i :
  find_char_at P s i = None <-> Forall (fun c => P c = false) s.
Proof.
  revert i. induction s as [|c s IH]; intros i; simpl; [done|].
  rewrite Forall_cons. destruct (P c) eqn:E; [naive_solver|]. rewrite IH. naive_solver.
Qed.

Lemma find_char_None c s : find s [c] 0 = None <-> c ∉ s.
Proof.
  unfold find. simpl. rewrite drop_0, find_at_char, find_char_at_None. rewrite Forall_forall.
  setoid_rewrite bool_decide_eq_false. naive_solver.
Qed.

(** ** [std::string::compare] is a total order *)

Lemma ascii_compare_eq a b : ascii_compare a b = Eq <-> a = b.
Proof.
  unfold ascii_compare. rewrite N.compare_eq_iff. split; [|by intros ->].
  intros H. rewrite <- (ascii_N_embedding a), <- (ascii_N_embedding b). congruence.
Qed.

Lemma ascii_compare_antisym a b : ascii_compare b a = CompOpp (ascii_compare a b).
Proof. apply N.compare_antisym. Qed.

Lemma str_compare_refl s : str_compare s s = Eq.
Proof.
  induction s as [|a s IH]; simpl; [done|].
  by rewrite (proj2 (ascii_compare_eq a a) eq_refl).
Qed.

Lemma str_compare_eq s t : str_compare s t = Eq <-> s = t.
Proof.
  split; [|intros ->; apply str_compare_refl].
  revert t. induction s as [|a s IH]; intros [|b t]; simpl; try done.
  destruct (ascii_compare a b) eqn:E; try done.
  apply ascii_compare_eq in E as ->. intros ->%IH. done.
Qed.

Lemma str_compare_antisym s t : str_compare t s = CompOpp (str_compare s t).
Proof.
  revert t. induction s as [|a s IH]; intros [|b t]; simpl; try done.
  rewrite ascii_compare_antisym. destruct (ascii_compare a b); simpl; auto.
Qed.

Lemma str_compare_lt_trans s t u :
  str_compare s t = Lt -> str_compare t u = Lt -> str_compare s u = Lt.
Proof.
  revert t u. induction s as [|a s IH]; intros [|b t] [|c u]; simpl; try done.
  unfold ascii_compare. intros Hab Hbc.
  destruct (N.compare_spec (N_of_ascii a) (N_of_ascii b)) as [E1|?|?]; try done;
  destruct (N.compare_spec (N_of_ascii b) (N_of_ascii c)) as [E2|?|?]; try done;
  destruct (N.compare_spec (N_of_ascii a) (N_of_ascii c)); try done; try lia.
  by eapply IH.
Qed.

#[export] Instance str_le_total : Total str_le.
Proof.
  intros s t. unfold str_le. rewrite (str_compare_antisym t s).
  destruct (str_compare t s); simpl; auto.
Qed.

#[export] Instance str_le_trans : Transitive str_le.
Proof.
  intros s t u. unfold str_le. intros H1 H2.
  destruct (str_compare s t) eqn:E1; [|..|done].
  - by apply str_compare_eq in E1 as ->.
  - destruct (str_compare t u) eqn:E2; [|..|done].
    + apply str_compare_eq in E2 as <-. by rewrite E1.
    + by rewrite (str_compare_lt_trans _ _ _ E1 E2).
Qed.

#[export] Instance str_le_antisym : AntiSymm (=) str_le.
Proof.
  intros s t. unfold str_le. rewrite (str_compare_antisym s t).
  destruct (str_compare s t) eqn:E; simpl; try done. intros _ _. by apply str_compare_eq.
Qed.

(** ** C strings *)
Definition no_nul (s : str) : Prop := Forall (fun c => c <> NUL) s.
#[export] Instance no_nul_dec s : Decision (no_nul s).
Proof. unfold no_nul. apply _. Defined.

Lemma c_str_no_nul s : no_nul (c_str s).
Proof. induction s as [|c s IH]; simpl; [constructor|]. case_decide; constructor; auto. Qed.

Lemma c_str_length s : length (c_str s) <= length s.
Proof. induction s as [|c s IH]; simpl; [done|]. case_decide; simpl; lia. Qed.

Lemma c_str_id s : no_nul s -> c_str s = s.
Proof. induction 1 as [|c s ? ? IH]; simpl; [done|]. rewrite decide_False by done. congruence. Qed.

Lemma c_str_idemp s : c_str (c_str s) = c_str s.
Proof. apply c_str_id, c_str_no_nul. Qed.

(** ** Decimal text *)
Lemma lit_inj s t : lit s = lit t -> s = t.
Proof.
  intros H. apply (f_equal Stdlib.Strings.String.string_of_list_ascii) in H.
  unfold lit in H. by rewrite !Stdlib.Strings.String.string_of_list_ascii_of_string in H.
Qed.

#[export] Instance dec_inj : Inj (=) (=) dec.
Proof. intros n m H%lit_inj. by apply (inj pretty). Qed.

(** ** Exhaustive checks over the 256 bytes *)
Definition all_ascii (P : ascii -> bool) : bool := forallb P (map ascii_of_nat (seq 0 256)).

Lemma all_ascii_spec P : all_ascii P = true -> forall c, P c = true.
Proof.
  unfold all_ascii. rewrite forallb_forall. intros H c. apply H.
  rewrite <- (ascii_nat_embedding c). apply in_map, in_seq.
  split; [lia|]. simpl. apply nat_ascii_bounded.
Qed.
