(* ===== verification/FileUtils.v ===== *)
(** * FileUtils: path and text helpers (api/utils/file_utils.cpp,
    api/utils/posix/file_utils_posix.cpp), for the Linux build

    The operating system's file system is outside the program: it is a
    parameter [FS] with the answers of [stat], [readdir] and of reading a
    text file. *)

From S2P Require Import Prelude CppString.
From stdpp Require Import options.

Inductive file_kind := RegularFile | Directory | OtherFile.
#[export] Instance file_kind_eq_dec : EqDecision file_kind.
Proof. solve_decision. Defined.

(** What the operating system answers. *)
Record FS := {
  os_stat : str -> option file_kind;      (* stat(2): the kind of a path *)
  os_readdir : str -> option (list str);  (* opendir/readdir: the entries *)
  os_read : str -> option str             (* the bytes of a readable file *)
}.

Definition KR_PATH_SEP_CHAR : ascii := "/"%char.
Definition KR_PATH_SEP : str := lit "/".
Definition KR_PATH_SEP_OTHER : str := lit "\".

(** ** Tokenize *)

Definition tokenize_push (skip_if_found : bool) (tokens : list str) (token : str) : list str :=
  if skip_if_found && bool_decide (token ∈ tokens) then tokens else tokens ++ [token].

Fixpoint tokenize_loop (fuel : nat) (s d : str) (skip_if_found : bool)
    (tokens : list str) (lastPos pos : option nat) : res (list str) :=
  match fuel with
  | O => Fuel
  | S fuel' =>
      match pos, lastPos with
      | None, None => Ret tokens
      | _, None => Throw out_of_range        (* str.substr(npos, ...) *)
      | _, Some l =>
          token ← substr s l (option_map (fun p => p - l) pos);
          let tokens := tokenize_push skip_if_found tokens token in
          let lastPos := find_first_not_of s d pos in
          tokenize_loop fuel' s d skip_if_found tokens lastPos (find_first_of s d lastPos)
      end
  end.

Definition Tokenize (s : str) (tokens : list str) (d : str) (skip_if_found : bool)
    : res (list str) :=
  let lastPos := find_first_not_of s d (Some 0) in
  tokenize_loop (S (S (length s))) s d skip_if_found tokens lastPos (find_first_of s d lastPos).

(** ** Trim *)

Fixpoint trim_right (fuel : nat) (c : str) : res str :=
  match fuel with
  | O => Fuel
  | S fuel' =>
      match rfind c (lit " ") (length c) with
      | None => Ret c
      | Some p =>
          if decide (Some p = size_minus_1 c)
          then c' ← substr c 0 (Some p); trim_right fuel' c'
          else Ret c
      end
  end.

Fixpoint trim_left (fuel : nat) (c : str) : res str :=
  match fuel with
  | O => Fuel
  | S fuel' =>
      if decide (find c (lit " ") 0 = Some 0)
      then c' ← substr c 1 None; trim_left fuel' c'
      else Ret c
  end.

Definition Trim (s : str) : res str :=
  c ← trim_right (S (length s)) s; trim_left (S (length c)) c.

(** ** Join *)

(** [part.erase(part.size() - 1, 1)] after the test of the last character;
    [part[part.size() - 1]] of an empty part is out of bounds. *)
Definition join_strip_last (part : str) : res str :=
  match last part with
  | None => Undef
  | Some c => Ret (if decide (c = KR_PATH_SEP_CHAR) then removelast part else part)
  end.

Definition join_strip_first (part : str) : str :=
  match part with
  | c :: k => if decide (c = KR_PATH_SEP_CHAR) then k else part
  | [] => []                                     (* part[0] reads the NUL *)
  end.

Fixpoint join_loop (first : bool) (parts : list str) (filepath : str) : res str :=
  match parts with
  | [] => Ret filepath
  | part :: rest =>
      part ← Trim part;
      part ← join_strip_last part;
      let part := if first then part else join_strip_first part in
      let filepath := filepath ++ part in
      join_loop false rest
        (match rest with [] => filepath | _ => filepath ++ KR_PATH_SEP end)
  end.

(** The variadic [Join(a, b, ..., NULL)]: empty arguments are dropped. *)
Definition Join (args : list str) : res str :=
  join_loop true (filter (fun p => p <> []) (map c_str args)) [].

(** ** Basename, GetDirectory *)

Definition Basename (path : str) : str :=
  match find_last_of path KR_PATH_SEP_CHAR with
  | None => path
  | Some pos => drop (pos + 1) path
  end.

Definition GetDirectory (file : str) : str :=
  match find_last_of file KR_PATH_SEP_CHAR with
  | Some pos => take pos file
  | None =>
      match find_last_of file "\"%char with
      | Some pos => take pos file
      | None => lit "." ++ KR_PATH_SEP
      end
  end.

(** ** The POSIX queries *)
Section Posix.
Variable fs : FS.

Definition IsFile (file : str) : bool := bool_decide (os_stat fs (c_str file) = Some RegularFile).
Definition IsDirectory (dir : str) : bool := bool_decide (os_stat fs (c_str dir) = Some Directory).

(** [fn.substr(0,1)=="." || fn.substr(0,2)==".."] *)
Definition dot_entry (fn : str) : bool :=
  bool_decide (take 1 fn = lit ".") || bool_decide (take 2 fn = lit "..").

(** [files] is an in-out parameter: a path that is no directory leaves it
    as it was. *)
Definition ListDir (path : str) (files : list str) : list str :=
  if IsDirectory path then
    match os_readdir fs (c_str path) with
    | None => []
    | Some entries => filter (fun fn => dot_entry fn = false) entries
    end
  else files.

Definition IsHidden (file : str) : bool :=
  match file with [] => false | c :: _ => bool_decide (c = "."%char) end.

End Posix.

(** ** Specifications *)

(** The words of [s]: its maximal non-empty runs of non-delimiters; [cur]
    is the run read so far. *)
Fixpoint words_from (d cur s : str) : list str :=
  match s with
  | [] => match cur with [] => [] | _ => [cur] end
  | c :: s' =>
      if in_set d c
      then match cur with [] => words_from d [] s' | _ => cur :: words_from d [] s' end
      else words_from d (cur ++ [c]) s'
  end.
Definition words (d s : str) : list str := words_from d [] s.

Lemma words_from_run d w cur s :
  Forall (fun c => in_set d c = false) w -> words_from d cur (w ++ s) = words_from d (cur ++ w) s.
Proof.
  intros Hw. revert cur. induction Hw as [|c w Hc Hw IH]; intros cur; simpl.
  - by rewrite app_nil_r.
  - rewrite Hc, IH. by rewrite <- app_assoc.
Qed.

Lemma words_from_sep d w s :
  Forall (fun c => in_set d c = true) w -> words_from d [] (w ++ s) = words_from d [] s.
Proof. induction 1 as [|c w Hc Hw IH]; simpl; [done|]. by rewrite Hc. Qed.

Lemma words_from_Forall d cur s :
  Forall (fun c => in_set d c = false) cur ->
  Forall (fun w => w <> [] /\ Forall (fun c => in_set d c = false) w) (words_from d cur s).
Proof.
  revert cur. induction s as [|c s IH]; intros cur Hcur; simpl.
  - destruct cur; repeat constructor; auto; by apply Forall_cons in Hcur as [? ?].
  - destruct (in_set d c) eqn:E.
    + destruct cur; [by apply IH; constructor|]. constructor; [done|]. apply IH. constructor.
    + apply IH. apply Forall_app. by repeat constructor.
Qed.

Lemma words_nonempty d s : Forall (fun w => w <> []) (words d s).
Proof.
  eapply Forall_impl; [apply (words_from_Forall d [] s); constructor|]. by intros w [? _].
Qed.

Definition not_in_set (d : str) (c : ascii) : bool := negb (in_set d c).

Lemma span_not_in d s : Forall (fun c => in_set d c = false) (span (not_in_set d) s).1.
Proof.
  eapply Forall_impl; [apply span_Forall|]. intros c. unfold not_in_set.
  by destruct (in_set d c).
Qed.

(** The two searches of the tokenizer, as spans of the rest of the text. *)
Lemma find_first_of_span s d l :
  find_first_of s d (Some l) =
  match (span (not_in_set d) (drop l s)).2 with
  | [] => None
  | _ => Some (l + length (span (not_in_set d) (drop l s)).1)
  end.
Proof. unfold find_first_of. simpl. by rewrite find_char_at_span. Qed.

Lemma span_ext P Q s : (forall c, P c = Q c) -> span P s = span Q s.
Proof. intros H. induction s as [|c s IH]; simpl; [done|]. by rewrite H, IH. Qed.

Lemma find_first_not_of_span s d l :
  find_first_not_of s d (Some l) =
  match (span (in_set d) (drop l s)).2 with
  | [] => None
  | _ => Some (l + length (span (in_set d) (drop l s)).1)
  end.
Proof.
  unfold find_first_not_of. simpl. rewrite find_char_at_span.
  by rewrite (span_ext _ (in_set d)) by (intros c; by destruct (in_set d c)).
Qed.

Lemma drop_span P (s : str) l :
  drop (l + length (span P (drop l s)).1) s = (span P (drop l s)).2.
Proof.
  rewrite <- drop_drop. rewrite <- (span_app P (drop l s)) at 2.
  by rewrite drop_app_length.
Qed.

Lemma take_span P (s : str) : take (length (span P s).1) s = (span P s).1.
Proof. rewrite <- (span_app P s) at 2. by rewrite take_app_length. Qed.

(** One word and the separators after it. *)
Lemma words_from_step d s :
  (span (not_in_set d) s).1 <> [] ->
  words d s =
  (span (not_in_set d) s).1 :: words d (span (in_set d) (span (not_in_set d) s).2).2.
Proof.
  intros Hne. unfold words. rewrite <- (span_app (not_in_set d) s) at 1.
  rewrite words_from_run by apply span_not_in. simpl.
  set (w := (span (not_in_set d) s).1) in *.
  destruct (span_snd (not_in_set d) s) as [->|(c & k & -> & Hc)]; simpl.
  - by destruct w.
  - unfold not_in_set in Hc. apply negb_false_iff in Hc. rewrite Hc.
    destruct w; [done|]. f_equal. simpl.
    rewrite <- (span_app (in_set d) k) at 1. apply words_from_sep.
    apply (span_Forall (in_set d)).
Qed.

#[local] Arguments find_first_of : simpl never.
#[local] Arguments find_first_not_of : simpl never.
#[local] Arguments span : simpl never.

Lemma tokenize_loop_spec s d skip fuel l tokens :
  l <= length s ->
  match drop l s with [] => False | c :: _ => in_set d c = false end ->
  length (drop l s) < fuel ->
  tokenize_loop fuel s d skip tokens (Some l) (find_first_of s d (Some l))
  = Ret (foldl (tokenize_push skip) tokens (words d (drop l s))).
Proof.
  revert l tokens. induction fuel as [|fuel IH]; intros l tokens Hl Hhd Hf; [lia|].
  assert (Hne : (span (not_in_set d) (drop l s)).1 <> []).
  { destruct (drop l s) as [|c k]; [done|]. unfold span, not_in_set. by rewrite Hhd. }
  rewrite words_from_step by done. cbn [tokenize_loop].
  rewrite !find_first_of_span. cbn [foldl].
  pose proof (span_length (not_in_set d) (drop l s)) as Hlen.
  set (w := (span (not_in_set d) (drop l s)).1) in *.
  set (r := (span (not_in_set d) (drop l s)).2) in *.
  assert (Hw : take (length w) (drop l s) = w) by apply take_span.
  assert (Hr : drop (l + length w) s = r) by apply drop_span.
  assert (0 < length w) by (destruct w; [done|simpl; lia]).
  destruct r as [|c k] eqn:Er; unfold substr; rewrite (proj2 (Nat.leb_le _ _) Hl); simpl.
  - assert (drop l s = w) as -> by (rewrite <- Hw, firstn_all2; [done|simpl in Hlen; lia]).
    destruct fuel; [lia|]. done.
  - replace (l + length w - l) with (length w) by lia. rewrite Hw.
    rewrite find_first_not_of_span, Hr.
    assert (Hd : in_set d c = true).
    { destruct (span_snd (not_in_set d) (drop l s)) as [E|(c' & k' & E & Hc)]; fold r in E;
        rewrite Er in E; [done|]. simplify_eq. unfold not_in_set in Hc.
      by apply negb_false_iff in Hc. }
    pose proof (span_length (in_set d) (c :: k)) as Hlen2.
    assert (Hpos : 0 < length (span (in_set d) (c :: k)).1) by (unfold span; rewrite Hd; simpl; lia).
    pose proof (drop_span (in_set d) s (l + length w)) as Hr2. rewrite Hr in Hr2.
    destruct (span (in_set d) (c :: k)).2 as [|c' k'] eqn:Er2.
    + destruct fuel; [lia|]. done.
    + rewrite <- Hr2. apply IH.
      * apply (f_equal length) in Hr2. rewrite length_drop in Hr2. simpl in Hr2. lia.
      * rewrite Hr2. destruct (span_snd (in_set d) (c :: k)) as [E2|(?&?&E2&?)];
          rewrite Er2 in E2; by simplify_eq.
      * rewrite Hr2. simpl in *. lia.
Qed.

(** [Tokenize] is total and appends the words of the text, in order (only
    the new ones under [skip_if_found]). *)
Lemma Tokenize_spec s tokens d skip :
  Tokenize s tokens d skip = Ret (foldl (tokenize_push skip) tokens (words d s)).
Proof.
  unfold Tokenize. rewrite find_first_not_of_span, drop_0, Nat.add_0_l. cbv zeta.
  pose proof (drop_span (in_set d) s 0) as Hr. rewrite drop_0 in Hr. simpl in Hr.
  assert (Hw : words d s = words d (span (in_set d) s).2).
  { unfold words. rewrite <- (span_app (in_set d) s) at 1.
    apply words_from_sep, span_Forall. }
  rewrite Hw. pose proof (span_length (in_set d) s) as Hlen.
  destruct (span (in_set d) s).2 as [|c k] eqn:E; [done|].
  rewrite <- Hr. apply tokenize_loop_spec; [lia|..].
  - rewrite Hr. destruct (span_snd (in_set d) s) as [E2|(?&?&E2&?)];
      rewrite E in E2; by simplify_eq.
  - rewrite Hr. simpl in *. lia.
Qed.

Lemma tokenize_push_false tokens token : tokenize_push false tokens token = tokens ++ [token].
Proof. done. Qed.

Lemma foldl_push_false tokens ws : foldl (tokenize_push false) tokens ws = tokens ++ ws.
Proof.
  revert tokens. induction ws as [|w ws IH]; intros tokens; simpl; [by rewrite app_nil_r|].
  by rewrite IH, tokenize_push_false, <- app_assoc.
Qed.

Lemma Tokenize_words s d : Tokenize s [] d false = Ret (words d s).
Proof. by rewrite Tokenize_spec, foldl_push_false. Qed.

Lemma foldl_push_true_NoDup tokens ws :
  NoDup tokens -> NoDup (foldl (tokenize_push true) tokens ws).
Proof.
  revert tokens. induction ws as [|w ws IH]; intros tokens Ht; simpl; [done|].
  apply IH. unfold tokenize_push. simpl. case_bool_decide; [done|].
  apply NoDup_app. split_and!; [done|set_solver|apply NoDup_singleton].
Qed.

(** [Trim] strips the spaces at both ends. *)
Fixpoint strip_left (s : str) : str :=
  match s with
  | c :: s' => if decide (c = " "%char) then strip_left s' else s
  | [] => []
  end.
Definition strip_right (s : str) : str := rev (strip_left (rev s)).

Lemma strip_left_length s : length (strip_left s) <= length s.
Proof. induction s as [|c s IH]; simpl; [done|]. case_decide; simpl; lia. Qed.

Lemma strip_left_head s : head (strip_left s) <> Some " "%char.
Proof. induction s as [|c s IH]; simpl; [done|]. case_decide; [done|]. simpl. congruence. Qed.

Lemma strip_left_id s : head s <> Some " "%char -> strip_left s = s.
Proof. destruct s as [|c s]; simpl; [done|]. intros H. by rewrite decide_False by congruence. Qed.

Lemma strip_right_snoc s c :
  strip_right (s ++ [c]) = if decide (c = " "%char) then strip_right s else s ++ [c].
Proof.
  unfold strip_right. rewrite rev_app_distr. simpl. case_decide; [done|].
  simpl. by rewrite rev_involutive.
Qed.

Lemma rfind_at_le needle s i p : rfind_at needle s i = Some p -> p <= i.
Proof.
  induction i as [|i IH]; simpl; case_match; intros [=]; try lia.
  transitivity i; [by apply IH|lia].
Qed.

Lemma rfind_space_snoc s c :
  rfind (s ++ [c]) (lit " ") (length (s ++ [c])) = Some (length s) <-> c = " "%char.
Proof.
  unfold rfind. rewrite length_app. simpl.
  rewrite (proj2 (Nat.ltb_ge _ _)) by lia.
  replace (Nat.min (length s + 1) (length s + 1 - 1)) with (length s) by lia.
  destruct (length s) as [|n] eqn:E; simpl.
  - destruct s; [|done]. simpl. destruct (decide (c = " "%char)) as [->|]; [done|].
    rewrite bool_decide_false by congruence. simpl. naive_solver.
  - assert (drop (S n) (s ++ [c]) = [c]) as H by (rewrite <- E; apply drop_app_length).
    simpl in H. rewrite H. destruct (decide (c = " "%char)) as [->|]; [done|].
    simpl. rewrite bool_decide_false by congruence. simpl. split; [|done].
    intros Hr%rfind_at_le. lia.
Qed.

Lemma trim_right_spec fuel s : length s < fuel -> trim_right fuel s = Ret (strip_right s).
Proof.
  revert s. induction fuel as [|fuel IH]; intros s Hf; [lia|].
  induction s as [|c s _] using rev_ind; [done|].
  cbn [trim_right]. rewrite strip_right_snoc.
  pose proof (rfind_space_snoc s c) as Hr.
  assert (Hsz : size_minus_1 (s ++ [c]) = Some (length s)).
  { unfold size_minus_1. rewrite length_app. simpl. by rewrite Nat.add_1_r. }
  rewrite length_app in Hf. simpl in Hf. rewrite Hsz.
  case_decide as Hc.
  - rewrite (proj2 Hr Hc), decide_True by done.
    unfold substr. simpl. rewrite drop_0, take_app_length. apply IH. lia.
  - destruct (rfind _ _ _) as [p|]; [|done]. by rewrite decide_False by naive_solver.
Qed.

Lemma trim_left_spec fuel s : length s < fuel -> trim_left fuel s = Ret (strip_left s).
Proof.
  revert s. induction fuel as [|fuel IH]; intros [|c s] Hf; simpl in Hf; [lia..|done|].
  cbn [trim_left strip_left]. pose proof (find_prefix (c :: s) (lit " ")) as Hp.
  simpl in Hp. rewrite andb_true_r, bool_decide_eq_true in Hp.
  case_decide as H1; case_decide as H2; try naive_solver.
  unfold substr. simpl. rewrite drop_0. apply IH. lia.
Qed.

Definition trim_spaces (s : str) : str := strip_left (strip_right s).

Lemma Trim_spec s : Trim s = Ret (trim_spaces s).
Proof.
  unfold Trim. rewrite trim_right_spec by lia. apply trim_left_spec. lia.
Qed.

Lemma trim_spaces_clean s :
  head s <> Some " "%char -> last s <> Some " "%char -> trim_spaces s = s.
Proof.
  intros Hh Hl. unfold trim_spaces.
  assert (strip_right s = s) as ->; [|by apply strip_left_id].
  destruct s as [|c s _] using rev_ind; [done|]. rewrite strip_right_snoc.
  rewrite last_snoc in Hl. by rewrite decide_False by congruence.
Qed.

(** A clean path part: what [Join] leaves unchanged. *)
Definition clean_part (p : str) : Prop :=
  p <> [] /\ no_nul p /\
  head p <> Some " "%char /\ last p <> Some " "%char /\
  head p <> Some KR_PATH_SEP_CHAR /\ last p <> Some KR_PATH_SEP_CHAR.
#[export] Instance clean_part_dec p : Decision (clean_part p).
Proof. unfold clean_part. apply _. Defined.

(** lists of parts that are clean by hypothesis or by computation *)
Ltac clean_parts :=
  repeat first [ assumption | apply Forall_nil_2 | apply Forall_cons_2
               | apply (bool_decide_unpack _); vm_compute; reflexivity ].

Fixpoint intercalate (sep : str) (l : list str) : str :=
  match l with
  | [] => []
  | [a] => a
  | a :: l' => a ++ sep ++ intercalate sep l'
  end.

Lemma join_strip_last_clean p :
  clean_part p -> join_strip_last p = Ret p.
Proof.
  intros (Hne & _ & _ & _ & _ & Hl). unfold join_strip_last.
  destruct (last p) eqn:E; [by rewrite decide_False by congruence|].
  by apply last_None in E.
Qed.

Lemma join_strip_first_clean p : clean_part p -> join_strip_first p = p.
Proof.
  intros (_ & _ & _ & _ & Hh & _). destruct p as [|c k]; [done|]. simpl in *.
  by rewrite decide_False by congruence.
Qed.

Lemma join_loop_clean first parts acc :
  Forall clean_part parts ->
  join_loop first parts acc = Ret (acc ++ intercalate KR_PATH_SEP parts).
Proof.
  intros Hp. revert first acc. induction Hp as [|p parts Hp Hps IH]; intros first acc; simpl.
  { by rewrite app_nil_r. }
  rewrite Trim_spec. simpl. rewrite trim_spaces_clean by apply Hp.
  rewrite join_strip_last_clean by done. simpl.
  assert ((if first then p else join_strip_first p) = p) as ->.
  { destruct first; [done|]. by apply join_strip_first_clean. }
  rewrite IH. destruct parts; simpl; by rewrite <- ?app_assoc, ?app_nil_r.
Qed.

(** On clean parts [Join] is the intercalation with the separator. *)
Lemma Join_clean parts :
  Forall clean_part parts -> Join parts = Ret (intercalate KR_PATH_SEP parts).
Proof.
  intros Hp. unfold Join.
  assert (filter (fun p => p <> []) (map c_str parts) = parts) as ->.
  { induction Hp as [|p parts (Hne & Hn & _) Hps IH]; simpl; [done|].
    rewrite c_str_id by done. rewrite filter_cons_True by done. by rewrite IH. }
  by apply join_loop_clean.
Qed.

(** A path with something to join: no NUL, and not only spaces. *)
Definition ink (p : str) : Prop := no_nul p /\ Exists (fun c => c <> " "%char) p.
#[export] Instance ink_dec p : Decision (ink p).
Proof. unfold ink. apply _. Defined.

Lemma strip_left_Forall (P : ascii -> Prop) s : Forall P s -> Forall P (strip_left s).
Proof. induction 1 as [|c s Hc Hs IH]; simpl; [constructor|]. case_decide; auto. Qed.

Lemma strip_left_Exists s :
  Exists (fun c => c <> " "%char) s -> Exists (fun c => c <> " "%char) (strip_left s).
Proof.
  induction s as [|c s IH]; simpl; [done|]. rewrite Exists_cons. case_decide; [naive_solver|].
  intros _. by constructor.
Qed.

Lemma trim_spaces_Forall (P : ascii -> Prop) s : Forall P s -> Forall P (trim_spaces s).
Proof.
  intros H. unfold trim_spaces, strip_right. apply strip_left_Forall.
  by apply Forall_rev, strip_left_Forall, Forall_rev.
Qed.

Lemma trim_spaces_nonempty s : Exists (fun c => c <> " "%char) s -> trim_spaces s <> [].
Proof.
  intros H. unfold trim_spaces, strip_right.
  pose proof (strip_left_Exists _ (List.Exists_rev H)) as H1.
  pose proof (strip_left_Exists _ (List.Exists_rev H1)) as H2.
  intros E. rewrite E in H2. by apply Exists_nil in H2.
Qed.

Lemma removelast_Forall (P : ascii -> Prop) s : Forall P s -> Forall P (removelast s).
Proof. induction 1 as [|c [|d s] Hc Hs IH]; [done|constructor|]. by constructor. Qed.

(** [Join] is total on a path with ink followed by clean parts. *)
Lemma Join_ink a rest :
  ink a -> Forall clean_part rest -> rest <> [] ->
  exists p, Join (a :: rest) = Ret (p ++ KR_PATH_SEP ++ intercalate KR_PATH_SEP rest) /\
            no_nul p.
Proof.
  intros [Hn Hi] Hc Hne. unfold Join. cbn [map].
  assert (filter (fun p => p <> []) (c_str a :: map c_str rest) = a :: rest) as ->.
  { rewrite c_str_id by done. rewrite filter_cons_True.
    2:{ intros ->. by apply Exists_nil in Hi. }
    f_equal. clear Hne. induction Hc as [|p parts (Hp & Hnp & _) Hps IH]; [done|]. cbn [map].
    rewrite c_str_id by done. rewrite filter_cons_True by done. by rewrite IH. }
  cbn [join_loop]. rewrite Trim_spec, res_bind_ret. unfold join_strip_last.
  destruct (last (trim_spaces a)) as [c|] eqn:E.
  2:{ apply last_None in E. by apply trim_spaces_nonempty in Hi. }
  rewrite res_bind_ret. cbv zeta. rewrite app_nil_l.
  destruct rest as [|b rest]; [done|]. rewrite join_loop_clean by done.
  eexists. rewrite <- app_assoc. split; [done|].
  case_decide; [apply removelast_Forall|]; by apply trim_spaces_Forall.
Qed.

Lemma ink_joined p rest :
  no_nul p -> Forall clean_part rest -> rest <> [] ->
  ink (p ++ KR_PATH_SEP ++ intercalate KR_PATH_SEP rest).
Proof.
  intros Hp Hc Hne. split.
  - apply Forall_app. split; [done|]. apply Forall_app. split; [by constructor|].
    clear Hne. induction Hc as [|q [|q' l] (_ & Hn & _) Hl IH]; [constructor|done|].
    apply Forall_app. split; [done|]. apply Forall_app. split; [by constructor|done].
  - apply Exists_app. right. by constructor.
Qed.

(** ** Concrete file systems *)

(** The file system with these text files and these directories. *)
Definition fs_of (files : list (str * str)) (dirs : list (str * list str)) : FS := {|
  os_stat := fun p => match list_find (fun d => d.1 = p) dirs with
                      | Some _ => Some Directory
                      | None => (fun _ => RegularFile) <$> list_find (fun f => f.1 = p) files
                      end;
  os_readdir := fun p => (fun '(_, d) => d.2) <$> list_find (fun d => d.1 = p) dirs;
  os_read := fun p => (fun '(_, f) => f.2) <$> list_find (fun f => f.1 = p) files
|}.
