(* ===== verification/UrlUtils.v ===== *)
(** * UrlUtils: URI escaping and file URLs (api/utils/url_utils.cpp) *)

From S2P Require Import Prelude CppString FileUtils.
From stdpp Require Import options.

(** ** The tables *)

Definition HEX2DEC : list Z := [
   (-1); (-1); (-1); (-1); (-1); (-1); (-1); (-1); (-1); (-1); (-1); (-1); (-1); (-1); (-1); (-1);
   (-1); (-1); (-1); (-1); (-1); (-1); (-1); (-1); (-1); (-1); (-1); (-1); (-1); (-1); (-1); (-1);
   (-1); (-1); (-1); (-1); (-1); (-1); (-1); (-1); (-1); (-1); (-1); (-1); (-1); (-1); (-1); (-1);
   0; 1; 2; 3; 4; 5; 6; 7; 8; 9; (-1); (-1); (-1); (-1); (-1); (-1);
   (-1); 10; 11; 12; 13; 14; 15; (-1); (-1); (-1); (-1); (-1); (-1); (-1); (-1); (-1);
   (-1); (-1); (-1); (-1); (-1); (-1); (-1); (-1); (-1); (-1); (-1); (-1); (-1); (-1); (-1); (-1);
   (-1); 10; 11; 12; 13; 14; 15; (-1); (-1); (-1); (-1); (-1); (-1); (-1); (-1); (-1);
   (-1); (-1); (-1); (-1); (-1); (-1); (-1); (-1); (-1); (-1); (-1); (-1); (-1); (-1); (-1); (-1);
   (-1); (-1); (-1); (-1); (-1); (-1); (-1); (-1); (-1); (-1); (-1); (-1); (-1); (-1); (-1); (-1);
   (-1); (-1); (-1); (-1); (-1); (-1); (-1); (-1); (-1); (-1); (-1); (-1); (-1); (-1); (-1); (-1);
   (-1); (-1); (-1); (-1); (-1); (-1); (-1); (-1); (-1); (-1); (-1); (-1); (-1); (-1); (-1); (-1);
   (-1); (-1); (-1); (-1); (-1); (-1); (-1); (-1); (-1); (-1); (-1); (-1); (-1); (-1); (-1); (-1);
   (-1); (-1); (-1); (-1); (-1); (-1); (-1); (-1); (-1); (-1); (-1); (-1); (-1); (-1); (-1); (-1);
   (-1); (-1); (-1); (-1); (-1); (-1); (-1); (-1); (-1); (-1); (-1); (-1); (-1); (-1); (-1); (-1);
   (-1); (-1); (-1); (-1); (-1); (-1); (-1); (-1); (-1); (-1); (-1); (-1); (-1); (-1); (-1); (-1);
   (-1); (-1); (-1); (-1); (-1); (-1); (-1); (-1); (-1); (-1); (-1); (-1); (-1); (-1); (-1); (-1)]%Z.

Definition SAFE : list Z := [
   0; 0; 0; 0; 0; 0; 0; 0; 0; 0; 0; 0; 0; 0; 0; 0;
   0; 0; 0; 0; 0; 0; 0; 0; 0; 0; 0; 0; 0; 0; 0; 0;
   0; 0; 0; 0; 0; 0; 0; 0; 0; 0; 0; 0; 0; 0; 1; 0;
   1; 1; 1; 1; 1; 1; 1; 1; 1; 1; 0; 0; 0; 0; 0; 0;
   0; 1; 1; 1; 1; 1; 1; 1; 1; 1; 1; 1; 1; 1; 1; 1;
   1; 1; 1; 1; 1; 1; 1; 1; 1; 1; 1; 0; 0; 0; 0; 1;
   0; 1; 1; 1; 1; 1; 1; 1; 1; 1; 1; 1; 1; 1; 1; 1;
   1; 1; 1; 1; 1; 1; 1; 1; 1; 1; 1; 0; 0; 0; 0; 0;
   0; 0; 0; 0; 0; 0; 0; 0; 0; 0; 0; 0; 0; 0; 0; 0;
   0; 0; 0; 0; 0; 0; 0; 0; 0; 0; 0; 0; 0; 0; 0; 0;
   0; 0; 0; 0; 0; 0; 0; 0; 0; 0; 0; 0; 0; 0; 0; 0;
   0; 0; 0; 0; 0; 0; 0; 0; 0; 0; 0; 0; 0; 0; 0; 0;
   0; 0; 0; 0; 0; 0; 0; 0; 0; 0; 0; 0; 0; 0; 0; 0;
   0; 0; 0; 0; 0; 0; 0; 0; 0; 0; 0; 0; 0; 0; 0; 0;
   0; 0; 0; 0; 0; 0; 0; 0; 0; 0; 0; 0; 0; 0; 0; 0;
   0; 0; 0; 0; 0; 0; 0; 0; 0; 0; 0; 0; 0; 0; 0; 0]%Z.

Definition DEC2HEX : str := lit "0123456789ABCDEF".

Definition byte (c : ascii) : nat := nat_of_ascii c.
Definition hex2dec (c : ascii) : Z := nth (byte c) HEX2DEC (-1)%Z.
Definition safe (c : ascii) : bool := negb (nth (byte c) SAFE 0 =? 0)%Z.
Definition dec2hex (n : nat) : ascii := nth n DEC2HEX NUL.

(** ** Escaping *)

Definition encode_byte (c : ascii) : str :=
  if safe c then [c]
  else ["%"%char; dec2hex (byte c / 16); dec2hex (byte c mod 16)].

Fixpoint EncodeURIComponent (src : str) : str :=
  match src with
  | [] => []
  | c :: src' => encode_byte c ++ EncodeURIComponent src'
  end.

(** [(dec1 << 4) + dec2] stored in a [char]. *)
Definition hex_pair (a b : ascii) : option ascii :=
  if (hex2dec a =? -1)%Z then None
  else if (hex2dec b =? -1)%Z then None
  else Some (ascii_of_N (Z.to_N ((Z.shiftl (hex2dec a) 4 + hex2dec b) `mod` 256))).

(** The first loop runs while at least three characters are left; the last
    two are copied. *)
Fixpoint DecodeURIComponent (src : str) : str :=
  match src with
  | c :: ((a :: b :: src'') as src') =>
      if decide (c = "%"%char) then
        match hex_pair a b with
        | Some d => d :: DecodeURIComponent src''
        | None => c :: DecodeURIComponent src'
        end
      else c :: DecodeURIComponent src'
  | _ => src
  end.

(** ** File URLs (Linux: the separator is ['/']) *)

Definition FileURLToPath (url : str) : str :=
  let url := if decide (find url (lit "file://") 0 = Some 0) then drop 7 url else url in
  if decide ("/"%char <> KR_PATH_SEP_CHAR)
  then map (fun c => if decide (c = "/"%char) then KR_PATH_SEP_CHAR else c) url
  else url.

Fixpoint append_pieces (url : str) (pieces : list str) : str :=
  match pieces with
  | [] => url
  | p :: pieces' => append_pieces (url ++ lit "/" ++ EncodeURIComponent p) pieces'
  end.

Definition PathToFileURL (path : str) : res str :=
  let path := if decide ("\"%char = KR_PATH_SEP_CHAR)
              then map (fun c => if decide (c = "\"%char) then "/"%char else c) path
              else path in
  pieces ← Tokenize path [] (lit "/") false;
  Ret (append_pieces (lit "file://localhost") pieces).

(** ** Properties *)

Lemma hex_pair_encode c :
  hex_pair (dec2hex (byte c / 16)) (dec2hex (byte c mod 16)) = Some c.
Proof.
  revert c. cut (forall c, bool_decide (hex_pair (dec2hex (byte c / 16)) (dec2hex (byte c mod 16))
                                        = Some c) = true).
  { intros H c. specialize (H c). by apply bool_decide_eq_true in H. }
  apply all_ascii_spec. vm_compute. reflexivity.
Qed.

Lemma safe_not_percent c : safe c = true -> c <> "%"%char.
Proof. intros H ->. vm_compute in H. discriminate. Qed.

Lemma decode_plain c t :
  c <> "%"%char -> DecodeURIComponent (c :: t) = c :: DecodeURIComponent t.
Proof. intros Hc. destruct t as [|a [|b t]]; [done..|]. simpl. by rewrite decide_False. Qed.

Lemma decode_escape c t :
  DecodeURIComponent ("%"%char :: dec2hex (byte c / 16) :: dec2hex (byte c mod 16) :: t)
  = c :: DecodeURIComponent t.
Proof.
  cbn [DecodeURIComponent]. rewrite decide_True by done. by rewrite hex_pair_encode.
Qed.

Lemma decode_encode_byte c t :
  DecodeURIComponent (encode_byte c ++ t) = c :: DecodeURIComponent t.
Proof.
  unfold encode_byte. destruct (safe c) eqn:E.
  - by apply decode_plain, safe_not_percent.
  - apply decode_escape.
Qed.

Definition url_char (c : ascii) : bool := safe c || bool_decide (c = "%"%char).

Lemma encode_byte_url_char c : Forall (fun d => url_char d = true) (encode_byte c).
Proof.
  apply List.Forall_forall, List.forallb_forall. revert c.
  apply all_ascii_spec. vm_compute. reflexivity.
Qed.

(** C39: decoding inverts encoding, on every byte string: whatever the bytes
    (escapes, NULs, bytes above 127), [DecodeURIComponent] gives back the text
    that [EncodeURIComponent] was given. *)
Theorem decode_encode_uri_component s : DecodeURIComponent (EncodeURIComponent s) = s.
Proof.
  induction s as [|c s IH]; [done|]. cbn [EncodeURIComponent].
  by rewrite decode_encode_byte, IH.
Qed.

Lemma encode_url_chars s : Forall (fun d => url_char d = true) (EncodeURIComponent s).
Proof.
  induction s as [|c s IH]; cbn [EncodeURIComponent]; [constructor|].
  apply Forall_app. split; [apply encode_byte_url_char|done].
Qed.

Lemma url_char_not_slash c : url_char c = true -> in_set (lit "/") c = false.
Proof.
  intros Hc. unfold in_set. apply bool_decide_eq_false. intros ->%list_elem_of_singleton.
  vm_compute in Hc. discriminate.
Qed.

Lemma append_pieces_acc url ps : append_pieces url ps = url ++ append_pieces [] ps.
Proof.
  revert url. induction ps as [|p ps IH]; intros url; simpl; [by rewrite app_nil_r|].
  rewrite IH, (IH (_ :: _)). by rewrite <- app_assoc.
Qed.

Lemma append_pieces_cons p ps :
  append_pieces [] (p :: ps) = "/"%char :: EncodeURIComponent p ++ append_pieces [] ps.
Proof. cbn [append_pieces]. by rewrite append_pieces_acc. Qed.

Lemma encode_nonempty p : p <> [] -> EncodeURIComponent p <> [].
Proof.
  destruct p as [|c p]; [done|]. cbn [EncodeURIComponent]. unfold encode_byte. by destruct (safe c).
Qed.

(** The pieces of an encoded path are read back one by one. *)
Lemma words_from_append_pieces cur ps :
  Forall (fun p => p <> []) ps ->
  words_from (lit "/") cur (append_pieces [] ps) =
  match cur with [] => [] | _ => [cur] end ++ map EncodeURIComponent ps.
Proof.
  intros Hps. revert cur. induction Hps as [|p ps Hp Hps IH]; intros cur.
  { by destruct cur. }
  rewrite append_pieces_cons. cbn [words_from map].
  assert (in_set (lit "/") "/"%char = true) as -> by done.
  assert (words_from (lit "/") [] (EncodeURIComponent p ++ append_pieces [] ps)
          = EncodeURIComponent p :: map EncodeURIComponent ps) as ->.
  { rewrite words_from_run, app_nil_l, IH.
    - pose proof (encode_nonempty p Hp). by destruct (EncodeURIComponent p).
    - eapply Forall_impl; [apply encode_url_chars|]. apply url_char_not_slash. }
  by destruct cur.
Qed.

Lemma words_append_pieces ps :
  Forall (fun p => p <> []) ps ->
  words (lit "/") (append_pieces [] ps) = map EncodeURIComponent ps.
Proof. intros Hps. unfold words. by rewrite words_from_append_pieces. Qed.

Lemma map_decode_encode ps : map DecodeURIComponent (map EncodeURIComponent ps) = ps.
Proof.
  induction ps as [|p ps IH]; simpl; [done|].
  rewrite IH. f_equal. induction p as [|c p IHp]; [done|].
  cbn [EncodeURIComponent]. by rewrite decode_encode_byte, IHp.
Qed.

(** A file path survives the trip through a file URL. [PathToFileURL]
    never fails; its result starts with "file://localhost", and splitting the
    rest at the slashes and decoding the pieces gives exactly the components
    of the path (its maximal runs without a slash). *)
Theorem path_to_file_url_components path :
  exists rest, PathToFileURL path = Ret (lit "file://localhost" ++ rest) /\
    Forall (fun c => url_char c = true \/ c = "/"%char) rest /\
    map DecodeURIComponent (words (lit "/") rest) = words (lit "/") path.
Proof.
  exists (append_pieces [] (words (lit "/") path)). split_and!.
  - unfold PathToFileURL. rewrite decide_False by done. rewrite Tokenize_words.
    rewrite res_bind_ret. by rewrite append_pieces_acc.
  - induction (words (lit "/") path) as [|p ps IH]; [constructor|].
    rewrite append_pieces_cons. constructor; [by right|]. apply Forall_app. split; [|done].
    eapply Forall_impl; [apply encode_url_chars|]. by left.
  - rewrite words_append_pieces by apply words_nonempty. apply map_decode_encode.
Qed.
