(* ===== verification/BootUtils.v ===== *)
(** * BootUtils: components, dependencies and manifests
    (api/utils/boot_utils.cpp, boot_utils.h, linux/boot_utils_linux.cpp)

    A [SharedComponent] is a pointer: [Application::UsingModule] writes the
    version of a component that several vectors may share, so the components
    live in a store and the vectors hold their addresses. A
    [SharedDependency] is never written after its construction: a value. *)

From S2P Require Import Prelude CppString FileUtils.
From stdpp Require Import options.

Definition OS_NAME : str := lit "linux".
Definition MANIFEST_FILENAME : str := lit "manifest".

Inductive KComponentType := MODULE | RUNTIME | SDK | MOBILESDK | APP_UPDATE | UNKNOWN.
#[export] Instance KComponentType_eq_dec : EqDecision KComponentType.
Proof. solve_decision. Defined.

Inductive Requirement := EQ | GT | LT | GTE | LTE.
#[export] Instance Requirement_eq_dec : EqDecision Requirement.
Proof. solve_decision. Defined.

Record Dependency := {
  d_type : KComponentType;
  d_name : str;
  d_version : str;
  d_requirement : Requirement
}.
#[export] Instance Dependency_eq_dec : EqDecision Dependency.
Proof. solve_decision. Defined.

Record KComponent := {
  c_type : KComponentType;
  c_name : str;
  c_version : str;
  c_path : str;
  c_bundled : bool
}.
#[export] Instance KComponent_eq_dec : EqDecision KComponent.
Proof. solve_decision. Defined.

(** A pointer to a component, and the state of the component code. *)
Abbreviation SharedComponent := nat.
Record bstate := {
  comps : list KComponent;                       (* every component created *)
  installedComponents : list SharedComponent     (* the static of GetInstalledComponents *)
}.
Abbreviation BM := (ST bstate).

Definition comp (p : SharedComponent) : BM KComponent := fun s =>
  (match comps s !! p with Some c => Ret c | None => Undef end, s).

Definition NewComponent (type : KComponentType) (name version path : str) (bundled : bool)
    : BM SharedComponent := fun s =>
  (Ret (length (comps s)),
   {| comps := comps s ++ [{| c_type := type; c_name := name; c_version := version;
                              c_path := path; c_bundled := bundled |}];
      installedComponents := installedComponents s |}).

(** ** Versions *)

Fixpoint compare_loop (listOne listTwo : list str) : comparison :=
  match listOne, listTwo with
  | a :: l1, b :: l2 =>
      match str_compare a b with
      | Eq => compare_loop l1 l2
      | o => o
      end
  | [], [] => Eq
  | _ :: _, [] => Gt
  | [], _ :: _ => Lt
  end.

(** The sign of the [int] that [CompareVersions] returns. *)
Definition CompareVersions (one two : str) : res comparison :=
  match one, two with
  | [], [] => Ret Eq
  | [], _ => Ret Lt
  | _, [] => Ret Gt
  | _, _ =>
      listOne ← Tokenize one [] (lit ".") false;
      listTwo ← Tokenize two [] (lit ".") false;
      Ret (compare_loop listOne listTwo)
  end.

Definition WeakCompareComponents (one two : KComponent) : res bool :=
  c ← CompareVersions (c_version one) (c_version two);
  Ret (bool_decide (c = Gt)).

(** ** Manifests *)

(** [std::getline] until the end of file: the text between newlines. *)
Fixpoint lines_from (cur s : str) : list str :=
  match s with
  | [] => [cur]
  | c :: s' => if decide (c = "010"%char) then cur :: lines_from [] s'
               else lines_from (cur ++ [c]) s'
  end.
Definition getlines (s : str) : list str := lines_from [] s.

Fixpoint manifest_loop (lines : list str) (manifest : list (str * str))
    : res (list (str * str)) :=
  match lines with
  | [] => Ret manifest
  | line :: lines' =>
      line ← Trim line;
      let pos := find line (lit ":") 0 in
      if decide (pos = Some 0) then manifest_loop lines' manifest
      else if decide (pos = size_minus_1 line) then manifest_loop lines' manifest
      else
        key ← substr line 0 pos;
        (* [pos + 1] wraps around to 0 when there is no colon *)
        value ← substr line (match pos with Some p => p + 1 | None => 0 end) (Some (length line));
        key ← Trim key;
        value ← Trim value;
        manifest_loop lines' (manifest ++ [(key, value)])
  end.

Section WithFS.
Variable fs : FS.

Definition ReadManifestFile (path : str) : res (list (str * str)) :=
  if IsFile fs path then
    match os_read fs (c_str path) with
    | None => Ret []
    | Some text => manifest_loop (getlines text) []
    end
  else Ret [].

Definition ReadManifest (c : KComponent) : res (list (str * str)) :=
  manifestPath ← Join [c_path c; MANIFEST_FILENAME];
  ReadManifestFile manifestPath.

(** ** Dependencies *)

Definition NewDependencyFromValues (type : KComponentType) (name version : str) : Dependency :=
  {| d_type := type; d_name := name; d_version := version; d_requirement := EQ |}.

Definition has (value needle : str) : bool := bool_decide (find value needle 0 <> None).

Definition requirement_of (value : str) : Requirement * nat :=
  if has value (lit ">=") then (GTE, 2)
  else if has value (lit "<=") then (LTE, 2)
  else if has value (lit "<") then (LT, 1)
  else if has value (lit ">") then (GT, 1)
  else if has value (lit "=") then (EQ, 1)
  else (EQ, 0).

Definition NewDependencyFromManifestLine (key value : str) : res Dependency :=
  let '(req, versionStart) := requirement_of value in
  version ← substr value versionStart None;
  Ret {| d_type := if decide (key = lit "runtime") then RUNTIME
                   else if decide (key = lit "sdk") then SDK
                   else if decide (key = lit "mobilesdk") then MOBILESDK
                   else MODULE;
         d_name := key; d_version := version; d_requirement := req |}.

(** ** Scanning the search paths *)

(** a vector holds a component with this type and path already *)
Fixpoint has_duplicate (components : list SharedComponent) (c : KComponent) : BM bool :=
  match components with
  | [] => mret false
  | p :: rest =>
      e ← comp p;
      if decide (c_type e = c_type c /\ c_path e = c_path c) then mret true
      else has_duplicate rest c
  end.

Definition AddToComponentVector (components : list SharedComponent) (p : SharedComponent)
    : BM (list SharedComponent) :=
  c ← comp p;
  dup ← has_duplicate components c;
  mret (if dup : bool then components else components ++ [p]).

(** The loop over the version directories under [base]. *)
Fixpoint scan_versions (type : KComponentType) (name base : str) (versions : list str)
    (results : list SharedComponent) : BM (list SharedComponent) :=
  match versions with
  | [] => mret results
  | version :: rest =>
      fullPath ← lift (Join [base; version]);
      p ← NewComponent type name version fullPath false;
      results ← AddToComponentVector results p;
      scan_versions type name base rest results
  end.

Definition ScanRuntimesAtPath (path : str) (results : list SharedComponent)
    : BM (list SharedComponent) :=
  if IsDirectory fs path then
    rtPath ← lift (Join [path; lit "runtime"; OS_NAME]);
    scan_versions RUNTIME (lit "runtime") rtPath (ListDir fs rtPath []) results
  else mret results.

Definition ScanSDKsAtPath (path : str) (results : list SharedComponent)
    : BM (list SharedComponent) :=
  if IsDirectory fs path then
    sdkPath ← lift (Join [path; lit "sdk"; OS_NAME]);
    scan_versions SDK (lit "sdk") sdkPath (ListDir fs sdkPath []) results
  else mret results.

Definition ScanMobileSDKsAtPath (path : str) (results : list SharedComponent)
    : BM (list SharedComponent) :=
  if IsDirectory fs path then
    sdkPath ← lift (Join [path; lit "mobilesdk"; OS_NAME]);
    scan_versions MOBILESDK (lit "mobilesdk") sdkPath (ListDir fs sdkPath []) results
  else mret results.

(** [subpaths] is declared outside the loop: [ListDir] leaves the previous
    module's versions there when [versionsPath] is not a directory. *)
Fixpoint scan_names (namesPath : str) (names subpaths : list str)
    (results : list SharedComponent) : BM (list SharedComponent) :=
  match names with
  | [] => mret results
  | name :: rest =>
      versionsPath ← lift (Join [namesPath; name]);
      let subpaths := ListDir fs versionsPath subpaths in
      results ← scan_versions MODULE name versionsPath subpaths results;
      scan_names namesPath rest subpaths results
  end.

Definition ScanModulesAtPath (path : str) (results : list SharedComponent)
    : BM (list SharedComponent) :=
  if IsDirectory fs path then
    namesPath ← lift (Join [path; lit "modules"; OS_NAME]);
    scan_names namesPath (ListDir fs namesPath []) [] results
  else mret results.

Fixpoint scan_bundled_modules (modulesPath : str) (names : list str)
    (results : list SharedComponent) : BM (list SharedComponent) :=
  match names with
  | [] => mret results
  | name :: rest =>
      path ← lift (Join [modulesPath; name]);
      p ← NewComponent MODULE name [] path true;
      scan_bundled_modules modulesPath rest (results ++ [p])
  end.

Definition ScanBundledComponents (path : str) (results : list SharedComponent)
    : BM (list SharedComponent) :=
  rtPath ← lift (Join [path; lit "runtime"]);
  results ← (if IsDirectory fs rtPath
             then p ← NewComponent RUNTIME (lit "runtime") [] rtPath true;
                  mret (results ++ [p])
             else mret results);
  modulesPath ← lift (Join [path; lit "modules"]);
  scan_bundled_modules modulesPath (ListDir fs modulesPath []) results.

(** ** The installed components *)

(** [std::stable_sort] with [WeakCompareComponents]: insertion keeps the
    order of the elements that compare equal. *)
Fixpoint stable_insert (p : SharedComponent) (l : list SharedComponent)
    : BM (list SharedComponent) :=
  match l with
  | [] => mret [p]
  | q :: l' =>
      cq ← comp q; cp ← comp p;
      less ← lift (WeakCompareComponents cq cp);
      if less : bool then l'' ← stable_insert p l'; mret (q :: l'')
      else mret (p :: q :: l')
  end.
Fixpoint stable_sort (l : list SharedComponent) : BM (list SharedComponent) :=
  match l with
  | [] => mret []
  | p :: l' => l'' ← stable_sort l'; stable_insert p l''
  end.

Definition scan_path (path : str) (results : list SharedComponent)
    : BM (list SharedComponent) :=
  results ← ScanRuntimesAtPath path results;
  results ← ScanSDKsAtPath path results;
  results ← ScanMobileSDKsAtPath path results;
  ScanModulesAtPath path results.

Fixpoint scan_paths (paths : list str) (results : list SharedComponent)
    : BM (list SharedComponent) :=
  match paths with
  | [] => mret results
  | path :: rest => results ← scan_path path results; scan_paths rest results
  end.

Definition set_installed (l : list SharedComponent) : BM unit :=
  modify (fun s => {| comps := comps s; installedComponents := l |}).

(** [paths] is what [GetComponentSearchPaths] returns. *)
Definition GetInstalledComponents (paths : list str) (force : bool)
    : BM (list SharedComponent) :=
  installed ← gets installedComponents;
  if bool_decide (installed = []) || force then
    results ← scan_paths paths [];
    sorted ← stable_sort results;
    set_installed sorted;;
    mret sorted
  else mret installed.

End WithFS.

(** ** The version order *)

(** What a version is compared by: nothing for the empty text, else its
    pieces between the dots. *)
Definition version_key (v : str) : option (list str) :=
  match v with [] => None | _ => Some (words (lit ".") v) end.
Definition key_compare (a b : option (list str)) : comparison :=
  match a, b with
  | None, None => Eq
  | None, Some _ => Lt
  | Some _, None => Gt
  | Some l1, Some l2 => compare_loop l1 l2
  end.
Definition version_compare (a b : str) : comparison := key_compare (version_key a) (version_key b).

Lemma CompareVersions_eq a b : CompareVersions a b = Ret (version_compare a b).
Proof. destruct a, b; try done. unfold CompareVersions. by rewrite !Tokenize_words. Qed.

Lemma compare_loop_refl l : compare_loop l l = Eq.
Proof. induction l as [|a l IH]; simpl; [done|]. by rewrite str_compare_refl. Qed.

Lemma compare_loop_eq l1 l2 : compare_loop l1 l2 = Eq -> l1 = l2.
Proof.
  revert l2. induction l1 as [|a l1 IH]; intros [|b l2]; simpl; try done.
  destruct (str_compare a b) eqn:E; try done. apply str_compare_eq in E as ->.
  intros ?%IH. congruence.
Qed.

Lemma compare_loop_antisym l1 l2 : compare_loop l2 l1 = CompOpp (compare_loop l1 l2).
Proof.
  revert l2. induction l1 as [|a l1 IH]; intros [|b l2]; simpl; try done.
  rewrite str_compare_antisym. destruct (str_compare a b); simpl; auto.
Qed.

Lemma compare_loop_lt_trans l1 l2 l3 :
  compare_loop l1 l2 = Lt -> compare_loop l2 l3 = Lt -> compare_loop l1 l3 = Lt.
Proof.
  revert l2 l3. induction l1 as [|a l1 IH]; intros [|b l2] [|c l3]; simpl; try done.
  destruct (str_compare a b) eqn:E1; try done;
    destruct (str_compare b c) eqn:E2; try done; intros H1 H2.
  - apply str_compare_eq in E1 as ->, E2 as ->. rewrite str_compare_refl. by eapply IH.
  - apply str_compare_eq in E1 as ->. by rewrite E2.
  - apply str_compare_eq in E2 as <-. by rewrite E1.
  - by rewrite (str_compare_lt_trans _ _ _ E1 E2).
Qed.

Lemma version_compare_eq a b : version_compare a b = Eq <-> version_key a = version_key b.
Proof.
  unfold version_compare, key_compare. destruct (version_key a), (version_key b); try done.
  split; [by intros ->%compare_loop_eq|]. intros [= ->]. apply compare_loop_refl.
Qed.

Lemma version_compare_antisym a b : version_compare b a = CompOpp (version_compare a b).
Proof.
  unfold version_compare, key_compare. destruct (version_key a), (version_key b); try done.
  apply compare_loop_antisym.
Qed.

Lemma version_compare_lt_trans a b c :
  version_compare a b = Lt -> version_compare b c = Lt -> version_compare a c = Lt.
Proof.
  unfold version_compare, key_compare.
  destruct (version_key a), (version_key b), (version_key c); try done.
  apply compare_loop_lt_trans.
Qed.

(** [a] is at least as new as [b]. *)
Definition newer_eq (a b : str) : Prop := version_compare a b <> Lt.

#[export] Instance newer_eq_refl : Reflexive newer_eq.
Proof. intros a. unfold newer_eq. by rewrite (proj2 (version_compare_eq a a) eq_refl). Qed.

#[export] Instance newer_eq_total : Total newer_eq.
Proof.
  intros a b. unfold newer_eq. rewrite (version_compare_antisym a b).
  destruct (version_compare a b); simpl; auto.
Qed.

#[export] Instance newer_eq_trans : Transitive newer_eq.
Proof.
  intros a b c. unfold newer_eq. intros H1 H2 H3.
  rewrite version_compare_antisym in H1, H2.
  destruct (version_compare b a) eqn:E1; [| |done]; clear H1;
    destruct (version_compare c b) eqn:E2; try done; clear H2.
  - apply version_compare_eq in E1, E2. assert (version_compare a c = Eq) as E.
    { apply version_compare_eq. congruence. } congruence.
  - apply version_compare_eq in E1. assert (version_compare a c = version_compare b c) as E.
    { unfold version_compare. by rewrite E1. }
    rewrite E, version_compare_antisym, E2 in H3. done.
  - apply version_compare_eq in E2. assert (version_compare a c = version_compare a b) as E.
    { unfold version_compare. by rewrite E2. }
    rewrite E, version_compare_antisym, E1 in H3. done.
  - pose proof (version_compare_lt_trans _ _ _ E2 E1) as E.
    rewrite version_compare_antisym, E in H3. done.
Qed.

(** Comparing versions is a total preorder: the comparison always
    returns, swapping the arguments swaps the answer, "at least as new" is
    transitive, and two versions compare equal exactly when they are both
    empty or have the same pieces between the dots. [std::stable_sort] and
    [ResolveDependency] rely on it. *)
Theorem compare_versions_preorder a b c :
  exists o1 o2 o3,
    CompareVersions a b = Ret o1 /\ CompareVersions b a = Ret (CompOpp o1) /\
    CompareVersions b c = Ret o2 /\ CompareVersions a c = Ret o3 /\
    (o1 <> Lt -> o2 <> Lt -> o3 <> Lt) /\
    (o1 = Eq <-> (a = [] <-> b = []) /\ words (lit ".") a = words (lit ".") b).
Proof.
  exists (version_compare a b), (version_compare b c), (version_compare a c).
  rewrite !CompareVersions_eq, (version_compare_antisym a b). split_and!; try done.
  - apply newer_eq_trans.
  - rewrite version_compare_eq. unfold version_key. destruct a as [|x a], b as [|y b].
    + naive_solver.
    + split; [done|]. by intros [[H _] _]; specialize (H eq_refl).
    + split; [done|]. by intros [[_ H] _]; specialize (H eq_refl).
    + split; [intros H; by injection H|intros [_ H]; by rewrite H].
Qed.

(** ** Vectors of components *)

Definition valid (s : bstate) (l : list SharedComponent) : Prop :=
  Forall (fun p => p < length (comps s)) l.
Definition ids (s : bstate) (l : list SharedComponent) : list (option (KComponentType * str)) :=
  map (fun p => (fun c => (c_type c, c_path c)) <$> comps s !! p) l.

Definition unbundled (s : bstate) (l : list SharedComponent) : Prop :=
  Forall (fun p => c_bundled <$> comps s !! p = Some false) l.

(** A vector without dangling pointers, without two components of the same
    type and path and without bundled components. *)
Definition good (s : bstate) (l : list SharedComponent) : Prop :=
  valid s l /\ NoDup (ids s l) /\ unbundled s l.

#[export] Instance valid_perm s : Proper ((≡ₚ) ==> iff) (valid s).
Proof. intros l1 l2 Hl. unfold valid. by rewrite Hl. Qed.

#[export] Instance good_perm s : Proper ((≡ₚ) ==> iff) (good s).
Proof.
  intros l1 l2 Hl. unfold good, ids, unbundled. by rewrite Hl.
Qed.

(** Scanning only allocates. *)
Definition grown (s s' : bstate) : Prop :=
  comps s `prefix_of` comps s' /\ installedComponents s' = installedComponents s.

#[export] Instance grown_preorder : PreOrder grown.
Proof.
  split; [done|]. intros s1 s2 s3 [H1 E1] [H2 E2]. split; [by etrans|congruence].
Qed.

Lemma grown_lookup s s' p c : grown s s' -> comps s !! p = Some c -> comps s' !! p = Some c.
Proof. intros [[k ->] _]. apply lookup_app_l_Some. Qed.

Lemma valid_lookup s l p : valid s l -> p ∈ l -> exists c, comps s !! p = Some c.
Proof.
  intros Hv Hp. apply lookup_lt_is_Some. by apply (proj1 (Forall_forall _ _) Hv p Hp).
Qed.

Lemma valid_grown s s' l : valid s l -> grown s s' -> valid s' l.
Proof.
  intros Hv [[k E] _]. eapply Forall_impl; [exact Hv|]. simpl. rewrite E, length_app. lia.
Qed.

Lemma good_grown s s' l : good s l -> grown s s' -> good s' l.
Proof.
  intros (Hv & Hu & Hb) Hg. split_and!.
  - by eapply valid_grown.
  - assert (ids s' l = ids s l) as ->; [|done]. unfold ids. apply map_ext_in. intros p Hp.
    apply list_elem_of_In in Hp. destruct (valid_lookup _ _ _ Hv Hp) as [c Hc].
    by rewrite Hc, (grown_lookup _ _ _ _ Hg Hc).
  - eapply Forall_impl; [exact Hb|]. intros p (c & Hc & Hf)%fmap_Some. 
    by rewrite (grown_lookup _ _ _ _ Hg Hc), Hf.
Qed.

(** [m] turns a good vector into a longer good one, and always returns. *)
Definition scans (m : list SharedComponent -> BM (list SharedComponent)) : Prop :=
  forall s l, good s l -> exists l' s',
    m l s = (Ret l', s') /\ grown s s' /\ good s' l' /\ l `prefix_of` l'.

Lemma scans_ret : scans mret.
Proof. intros s l Hl. by exists l, s. Qed.

Lemma scans_bind m1 m2 : scans m1 -> scans m2 -> scans (fun l => m1 l ≫= m2).
Proof.
  intros H1 H2 s l Hl. destruct (H1 s l Hl) as (l1 & s1 & E1 & ? & Hl1 & ?).
  destruct (H2 s1 l1 Hl1) as (l2 & s2 & E2 & ? & ? & ?).
  exists l2, s2. split_and!; [by rewrite (st_bind_Ret _ _ _ _ _ E1)|by etrans|done|by etrans].
Qed.

Lemma scans_lift {A} (r : res A) a m :
  r = Ret a -> scans (m a) -> scans (fun l => lift r ≫= fun a => m a l).
Proof. intros -> H s l Hl. apply (H s l Hl). Qed.

Lemma has_duplicate_spec s l c :
  valid s l ->
  has_duplicate l c s = (Ret (bool_decide (Some (c_type c, c_path c) ∈ ids s l)), s).
Proof.
  induction 1 as [|p l Hp Hl IH]; simpl; [done|].
  destruct (lookup_lt_is_Some_2 _ _ Hp) as [e He].
  unfold comp at 1, mbind, st_bind. rewrite He.
  destruct (decide (c_type e = c_type c /\ c_path e = c_path c)) as [[E1 E2]|Hd]; simpl.
  - rewrite E1, E2, bool_decide_true; [done|]. by constructor.
  - rewrite IH. do 2 f_equal. apply bool_decide_ext. rewrite elem_of_cons. naive_solver.
Qed.

Lemma scans_new type name version path :
  scans (fun l => p ← NewComponent type name version path false; AddToComponentVector l p).
Proof.
  intros s l Hl. set (c := {| c_type := type; c_name := name; c_version := version;
                             c_path := path; c_bundled := false |}).
  set (s' := {| comps := comps s ++ [c]; installedComponents := installedComponents s |}).
  assert (grown s s') as Hg by (by split; [eexists|]).
  pose proof (good_grown _ _ _ Hl Hg) as (Hv & Hu & Hb).
  assert (comps s' !! length (comps s) = Some c) as Hc by by apply list_lookup_middle.
  assert ((p ← NewComponent type name version path false; AddToComponentVector l p) s
    = (Ret (if bool_decide (Some (c_type c, c_path c) ∈ ids s' l) then l
            else l ++ [length (comps s)]), s')) as E.
  { unfold mbind at 1, st_bind at 1, NewComponent. fold c s'.
    unfold AddToComponentVector, mbind, st_bind, comp. rewrite Hc.
    by rewrite has_duplicate_spec. }
  rewrite E. case_bool_decide as Hd.
  - by exists l, s'.
  - eexists _, s'. split_and!; [done|done| |by eexists]. split_and!.
    + apply Forall_app. split; [done|]. constructor; [|done].
      simpl. rewrite length_app. simpl. lia.
    + unfold ids. rewrite map_app. apply NoDup_app. split_and!; [done| |apply NoDup_singleton].
      intros x Hx ->%list_elem_of_singleton. cbv beta in Hx. by rewrite Hc in Hx.
    + apply Forall_app. split; [done|]. constructor; [|done]. by rewrite Hc.
Qed.

Lemma scan_versions_scans type name base versions :
  ink base -> Forall clean_part versions -> scans (scan_versions type name base versions).
Proof.
  intros Hb. induction 1 as [|v vs Hv Hvs IH]; simpl; [apply scans_ret|].
  destruct (Join_ink base [v] Hb ltac:(clean_parts) ltac:(done)) as (p & E & _).
  eapply scans_lift; [exact E|]. intros s l Hl.
  apply (scans_bind _ _ (scans_new type name v
    (p ++ KR_PATH_SEP ++ intercalate KR_PATH_SEP [v])) IH) in Hl as (l' & s' & E' & H').
  exists l', s'. split; [|done]. cbv beta in E'. by rewrite st_bind_assoc in E'.
Qed.

Section Scanning.
#[local] Set Default Proof Using "Type*".
Variable fs : FS.

(** What the scans need of the file system: directory entries are proper file
    names (no separators at their ends, no NUL, no surrounding spaces). *)
Definition fs_ok : Prop :=
  forall d entries, os_readdir fs d = Some entries -> Forall clean_part entries.
Hypothesis Hfs : fs_ok.

Lemma ListDir_clean path files :
  Forall clean_part files -> Forall clean_part (ListDir fs path files).
Proof.
  intros Hf. unfold ListDir. destruct (IsDirectory fs path); [|done].
  destruct (os_readdir fs (c_str path)) as [l|] eqn:E; [|constructor].
  apply Forall_forall. intros x [_ Hx]%list_elem_of_filter.
  by apply (proj1 (Forall_forall _ _) (Hfs _ _ E)).
Qed.

(** The three scans with one level of directories. *)
Lemma scan_level_scans path a b type name :
  ink path -> clean_part a -> clean_part b ->
  scans (fun l => if IsDirectory fs path then
                    base ← lift (Join [path; a; b]);
                    scan_versions type name base (ListDir fs base []) l
                  else mret l).
Proof.
  intros Hp Ha Hb. destruct (IsDirectory fs path); [|apply scans_ret].
  destruct (Join_ink path [a; b] Hp ltac:(clean_parts) ltac:(done)) as (p & E & Hn).
  eapply scans_lift; [exact E|]. apply scan_versions_scans.
  - apply ink_joined; [done|clean_parts|done].
  - apply ListDir_clean. constructor.
Qed.

Lemma scan_names_scans base names subpaths :
  ink base -> Forall clean_part names -> Forall clean_part subpaths ->
  scans (scan_names fs base names subpaths).
Proof.
  intros Hb Hns. revert subpaths. induction Hns as [|n ns Hn Hns IH]; intros subpaths Hs; simpl.
  { apply scans_ret. }
  destruct (Join_ink base [n] Hb ltac:(clean_parts) ltac:(done)) as (p & E & Hnn).
  eapply scans_lift; [exact E|]. cbv beta. apply scans_bind.
  - apply scan_versions_scans; [|by apply ListDir_clean].
    apply ink_joined; [done|clean_parts|done].
  - apply IH. by apply ListDir_clean.
Qed.

Lemma ScanModulesAtPath_scans path : ink path -> scans (ScanModulesAtPath fs path).
Proof.
  intros Hp. unfold ScanModulesAtPath. destruct (IsDirectory fs path); [|apply scans_ret].
  destruct (Join_ink path [lit "modules"; OS_NAME] Hp ltac:(clean_parts)
              ltac:(done)) as (p & E & Hn).
  eapply scans_lift; [exact E|]. apply scan_names_scans; [|by apply ListDir_clean|constructor].
  apply ink_joined; [done|clean_parts|done].
Qed.

Lemma scan_path_scans path : ink path -> scans (scan_path fs path).
Proof.
  intros Hp. unfold scan_path. apply (scans_bind (ScanRuntimesAtPath fs path)).
  { by apply scan_level_scans; clean_parts. }
  apply (scans_bind (ScanSDKsAtPath fs path)).
  { by apply scan_level_scans; clean_parts. }
  apply (scans_bind (ScanMobileSDKsAtPath fs path)).
  { by apply scan_level_scans; clean_parts. }
  by apply ScanModulesAtPath_scans.
Qed.

Lemma scan_paths_scans paths : Forall ink paths -> scans (scan_paths fs paths).
Proof.
  induction 1 as [|p ps Hp Hps IH]; simpl; [apply scans_ret|].
  apply (scans_bind (scan_path fs p)); [by apply scan_path_scans|done].
Qed.

End Scanning.

(** ** The sort *)

Definition version_at (s : bstate) (p : SharedComponent) : str :=
  from_option c_version [] (comps s !! p).
Definition newer_at (s : bstate) (p q : SharedComponent) : Prop :=
  newer_eq (version_at s p) (version_at s q).
Definition same_version (s : bstate) (v : str) (p : SharedComponent) : bool :=
  bool_decide (version_key (version_at s p) = version_key v).

Lemma stable_insert_step s p q l :
  p < length (comps s) -> q < length (comps s) ->
  stable_insert p (q :: l) s =
  (if bool_decide (newer_at s p q) then mret (p :: q :: l)
   else l' ← stable_insert p l; mret (q :: l')) s.
Proof.
  intros [cp Hp]%lookup_lt_is_Some_2 [cq Hq]%lookup_lt_is_Some_2.
  cbn [stable_insert]. unfold mbind at 1, st_bind at 1, comp. rewrite Hq.
  unfold mbind at 1, st_bind at 1. rewrite Hp.
  unfold mbind at 1, st_bind at 1, lift, WeakCompareComponents. rewrite CompareVersions_eq.
  rewrite res_bind_ret. unfold newer_at, newer_eq, version_at. rewrite Hp, Hq. simpl.
  rewrite (version_compare_antisym (c_version cq)).
  by destruct (version_compare (c_version cq) (c_version cp)).
Qed.

Lemma stable_insert_spec s p l :
  p < length (comps s) -> valid s l -> StronglySorted (newer_at s) l ->
  exists l', stable_insert p l s = (Ret l', s) /\ p :: l ≡ₚ l' /\
    StronglySorted (newer_at s) l' /\
    forall v, List.filter (same_version s v) l' = List.filter (same_version s v) (p :: l).
Proof.
  intros Hp Hv Hs. induction Hs as [|q l Hl IH Hq].
  { exists [p]. split_and!; [done|done|by repeat constructor|done]. }
  apply Forall_cons in Hv as [Hq' Hv]. rewrite stable_insert_step by done.
  case_bool_decide as Hn.
  - exists (p :: q :: l). split_and!; [done|done| |done].
    constructor; [by constructor|]. constructor; [done|].
    eapply Forall_impl; [exact Hq|]. intros r Hr. unfold newer_at in *. by etrans.
  - destruct (IH Hv) as (l' & E & Hperm & Hsort & Hstab).
    exists (q :: l'). split_and!.
    + by rewrite (st_bind_Ret _ _ _ _ _ E).
    + rewrite <- Hperm. constructor.
    + constructor; [done|]. rewrite <- Hperm. constructor; [|done].
      unfold newer_at in *. by destruct (total newer_eq (version_at s p) (version_at s q)).
    + intros v. simpl. rewrite Hstab. simpl.
      destruct (same_version s v q) eqn:Eq; [|by destruct (same_version s v p)].
      destruct (same_version s v p) eqn:Ep; [|done]. exfalso. apply Hn.
      unfold same_version in *. apply bool_decide_eq_true in Eq, Ep.
      unfold newer_at, newer_eq. rewrite (proj2 (version_compare_eq _ _)) by congruence. done.
Qed.

Lemma stable_sort_spec s l :
  valid s l -> exists l', stable_sort l s = (Ret l', s) /\ l ≡ₚ l' /\
    StronglySorted (newer_at s) l' /\
    forall v, List.filter (same_version s v) l' = List.filter (same_version s v) l.
Proof.
  induction 1 as [|p l Hp Hl (l1 & E1 & P1 & S1 & F1)]; simpl.
  { exists []. by repeat constructor. }
  destruct (stable_insert_spec s p l1 Hp) as (l2 & E2 & P2 & S2 & F2); [|done|].
  { unfold valid. by rewrite <- P1. }
  exists l2. split_and!; [by rewrite (st_bind_Ret _ _ _ _ _ E1)|by rewrite P1|done|].
  intros v. rewrite F2. simpl. by rewrite F1.
Qed.

Lemma GetInstalledComponents_run fs paths s :
  fs_ok fs -> Forall ink paths ->
  exists found s1 l,
    scan_paths fs paths [] s = (Ret found, s1) /\
    GetInstalledComponents fs paths true s
      = (Ret l, {| comps := comps s1; installedComponents := l |}) /\
    comps s `prefix_of` comps s1 /\ l ≡ₚ found /\ good s1 l /\ StronglySorted (newer_at s1) l /\
    forall v, List.filter (same_version s1 v) l = List.filter (same_version s1 v) found.
Proof.
  intros Hfs Hp.
  destruct (scan_paths_scans fs Hfs paths Hp s []) as (found & s1 & E1 & [Hg _] & Hgood & _).
  { split_and!; [constructor|apply NoDup_nil_2|constructor]. }
  destruct (stable_sort_spec s1 found (proj1 Hgood)) as (l & E2 & Hperm & Hsort & Hstab).
  exists found, s1, l. split_and!; try done.
  - unfold GetInstalledComponents, gets, mbind at 1, st_bind at 1. rewrite orb_true_r.
    rewrite (st_bind_Ret _ _ _ _ _ E1), (st_bind_Ret _ _ _ _ _ E2). done.
  - by rewrite <- (good_perm s1 found l Hperm).
Qed.

(** C35: a forced [GetInstalledComponents] always returns on a file system
    whose directory entries are proper names and search paths that are not
    blank. The result, which is also what the static vector now holds, is a
    reordering of the components found by scanning the paths in order: no two
    have the same type and path, newer versions come first, and components of
    the same version keep the order of the search path (so that the earlier
    path wins). *)
Theorem get_installed_components_sorted fs paths s :
  fs_ok fs -> Forall ink paths ->
  exists found s1 l s2,
    scan_paths fs paths [] s = (Ret found, s1) /\
    GetInstalledComponents fs paths true s = (Ret l, s2) /\
    installedComponents s2 = l /\ comps s2 = comps s1 /\ comps s `prefix_of` comps s2 /\
    l ≡ₚ found /\ good s2 l /\ StronglySorted (newer_at s2) l /\
    forall v, List.filter (same_version s2 v) l = List.filter (same_version s2 v) found.
Proof.
  intros Hfs Hp.
  destruct (GetInstalledComponents_run fs paths s Hfs Hp)
    as (found & s1 & l & E1 & E2 & Hpre & Hperm & Hgood & Hsort & Hstab).
  by exists found, s1, l, {| comps := comps s1; installedComponents := l |}.
Qed.

(** ** Manifests *)

Lemma lines_from_app cur a b :
  "010"%char ∉ a -> lines_from cur (a ++ ("010"%char :: b)) = (cur ++ a) :: lines_from [] b.
Proof.
  revert cur. induction a as [|c a IH]; intros cur Ha; simpl.
  - by rewrite app_nil_r.
  - apply not_elem_of_cons in Ha as [Hc Ha]. rewrite decide_False by congruence.
    rewrite IH by done. by rewrite <- app_assoc.
Qed.

(** The text of a manifest: one "key:value" line per entry. *)
Definition print_line (kv : str * str) : str := kv.1 ++ lit ":" ++ kv.2 ++ ["010"%char].
Definition print_manifest (m : list (str * str)) : str := concat (map print_line m).

(** Entries that a line can hold. *)
Definition no_blank_ends (s : str) : Prop :=
  s <> [] /\ head s <> Some " "%char /\ last s <> Some " "%char.
#[export] Instance no_blank_ends_dec s : Decision (no_blank_ends s).
Proof. unfold no_blank_ends. apply _. Defined.
Definition entry_ok (kv : str * str) : Prop :=
  no_blank_ends kv.1 /\ no_blank_ends kv.2 /\
  (":"%char ∉ kv.1) /\ ("010"%char ∉ kv.1) /\ ("010"%char ∉ kv.2).
#[export] Instance entry_ok_dec kv : Decision (entry_ok kv).
Proof. unfold entry_ok. apply _. Defined.

Lemma no_blank_ends_trim s : no_blank_ends s -> Trim s = Ret s.
Proof. intros (_ & ? & ?). rewrite Trim_spec. by rewrite trim_spaces_clean. Qed.

Lemma find_colon k v :
  ":"%char ∉ k -> find (k ++ ":"%char :: v) (lit ":") 0 = Some (length k).
Proof.
  intros Hk. unfold find. simpl. rewrite drop_0.
  change (lit ":") with [":"%char]. rewrite find_at_char.
  rewrite find_char_at_span.
  assert (span (fun d => negb (bool_decide (":"%char = d))) (k ++ ":"%char :: v) = (k, ":"%char :: v))
    as ->; [|done].
  induction k as [|c k IH]; [done|]. apply not_elem_of_cons in Hk as [Hc Hk]. simpl.
  rewrite bool_decide_false by done. simpl. by rewrite IH.
Qed.

Lemma manifest_line k v lines acc :
  entry_ok (k, v) ->
  manifest_loop ((k ++ ":"%char :: v) :: lines) acc = manifest_loop lines (acc ++ [(k, v)]).
Proof.
  intros (Hk & Hv & Hc & _ & _). simpl in *. 
  assert (no_blank_ends (k ++ ":"%char :: v)) as Hl.
  { destruct Hk as (Hne & Hh & _), Hv as (Hne' & _ & Hl). split_and!.
    - by destruct k.
    - by destruct k.
    - destruct v as [|c v _] using rev_ind; [done|].
      rewrite last_snoc in Hl. by rewrite app_comm_cons, app_assoc, last_snoc. }
  cbn [manifest_loop]. rewrite (no_blank_ends_trim _ Hl), res_bind_ret. cbv zeta.
  rewrite find_colon by done.
  assert (length k <> 0) by (destruct Hk as [? _]; by destruct k).
  assert (length v <> 0) by (destruct Hv as [? _]; by destruct v).
  rewrite decide_False by congruence.
  rewrite decide_False.
  2:{ unfold size_minus_1. rewrite length_app. simpl. replace (length k + S (length v)) with
        (S (length k + length v)) by lia. intros [=]. lia. }
  rewrite drop_0, take_app_length.
  unfold substr. rewrite (proj2 (Nat.leb_le _ _)) by (rewrite length_app; simpl; lia).
  rewrite res_bind_ret. rewrite Nat.add_1_r.
  assert (drop (S (length k)) (k ++ ":"%char :: v) = v) as ->.
  { clear. induction k; simpl; [done|]. apply IHk. }
  rewrite firstn_all2 by (rewrite length_app; simpl; lia).
  by rewrite (no_blank_ends_trim _ Hk), res_bind_ret, (no_blank_ends_trim _ Hv), res_bind_ret.
Qed.

Lemma manifest_loop_print m acc :
  Forall entry_ok m -> manifest_loop (getlines (print_manifest m)) acc = Ret (acc ++ m).
Proof.
  intros Hm. revert acc. induction Hm as [|[k v] m Hkv Hm IH]; intros acc.
  { by rewrite app_nil_r. }
  unfold getlines, print_manifest in *. simpl. unfold print_line at 1. simpl.
  assert ((k ++ ":"%char :: v ++ ["010"%char]) ++ concat (map print_line m)
          = (k ++ ":"%char :: v) ++ "010"%char :: concat (map print_line m)) as ->.
  { by rewrite <- !app_assoc; simpl; rewrite <- app_assoc. }
  rewrite lines_from_app.
  2:{ destruct Hkv as (_ & _ & _ & H1 & H2). rewrite elem_of_app, elem_of_cons. naive_solver. }
  simpl app at 1. rewrite manifest_line by done. rewrite IH. by rewrite <- app_assoc.
Qed.

(** C38: reading a manifest gives back the entries that were written: for keys
    without a colon and keys and values without newlines and without spaces at
    their ends, [ReadManifestFile] on the text with one "key:value" line per
    entry returns these entries in order, duplicates included. Values may
    contain colons. *)
Theorem read_manifest_roundtrip fs path m :
  Forall entry_ok m ->
  IsFile fs path = true -> os_read fs (c_str path) = Some (print_manifest m) ->
  ReadManifestFile fs path = Ret m.
Proof.
  intros Hm Hf Hr. unfold ReadManifestFile. rewrite Hf, Hr. by apply (manifest_loop_print m []).
Qed.

(** ** Concrete runs *)

Definition empty_bstate : bstate := {| comps := []; installedComponents := [] |}.

Lemma fs_of_ok files dirs :
  Forall (fun d => Forall clean_part d.2) dirs -> fs_ok (fs_of files dirs).
Proof.
  intros Hd d entries. simpl.
  destruct (list_find _ dirs) as [[i [p l]]|] eqn:E; [|done]. simpl. intros [= <-].
  apply list_find_Some in E as (Hi & _ & _).
  by apply (Forall_lookup_1 _ _ _ _ Hd) in Hi.
Qed.

Definition demo_fs : FS :=
  fs_of [(lit "/opt/kr/modules/linux/README", lit "not a module");
         (lit "/app/manifest", lit "#appname:Demo
runtime:1.2")]
    [(lit "/opt/kr", [lit "."; lit ".."; lit "runtime"; lit "modules"]);
     (lit "/opt/kr/runtime/linux", [lit "0.8"; lit "0.9"]);
     (lit "/opt/kr/modules/linux", [lit "ti"; lit "README"]);
     (lit "/opt/kr/modules/linux/ti", [lit "0.8"])].

Lemma demo_fs_ok : fs_ok demo_fs.
Proof. apply fs_of_ok, (bool_decide_unpack _). vm_compute. reflexivity. Qed.

Lemma get_installed_components_sorted_witness :
  Forall ink [lit "/opt/kr"] /\
  exists l s2, GetInstalledComponents demo_fs [lit "/opt/kr"] true empty_bstate = (Ret l, s2) /\
               good s2 l /\ StronglySorted (newer_at s2) l.
Proof.
  assert (Forall ink [lit "/opt/kr"]) as Hp.
  { apply (bool_decide_unpack _). vm_compute. reflexivity. }
  split; [exact Hp|].
  destruct (get_installed_components_sorted demo_fs [lit "/opt/kr"] empty_bstate demo_fs_ok Hp)
    as (_ & _ & l & s2 & _ & E & _ & _ & _ & _ & Hg & Hs & _).
  exists l, s2. exact (conj E (conj Hg Hs)).
Defined.

Lemma read_manifest_roundtrip_witness :
  ReadManifestFile (fs_of [(lit "/app/manifest", print_manifest [(lit "#url", lit "http://a");
                                                                 (lit "ti", lit ">=0.8")])] [])
    (lit "/app/manifest") = Ret [(lit "#url", lit "http://a"); (lit "ti", lit ">=0.8")].
Proof.
  apply read_manifest_roundtrip; [|reflexivity|reflexivity].
  apply (bool_decide_unpack _). vm_compute. reflexivity.
Defined.

(** The run of the scan shows the stale directory listing: [README] is a
    regular file in the modules directory, and it gets a component for each
    version of the module listed before it. *)
Lemma scan_modules_stale_listing :
  (let '(r, s) := ScanModulesAtPath demo_fs (lit "/opt/kr") [] empty_bstate in
   match r with Ret l => map (fun p => (fun c => (c_name c, c_version c)) <$> comps s !! p) l
              | _ => [] end)
  = [Some (lit "ti", lit "0.8"); Some (lit "README", lit "0.8")].
Proof. vm_compute. reflexivity. Qed.

(** The pieces of a version are compared as texts, not as numbers. *)
Lemma compare_versions_textual : CompareVersions (lit "1.10") (lit "1.9") = Ret Lt.
Proof. vm_compute. reflexivity. Qed.

(** A line without a colon becomes an entry with itself as key and value. *)
Lemma manifest_line_without_colon :
  manifest_loop (getlines (lit "no colon here")) []
  = Ret [(lit "no colon here", lit "no colon here")].
Proof. vm_compute. reflexivity. Qed.
