(* ===== verification/EnvironmentUtils.v ===== *)
(** * EnvironmentUtils: the environment of the process
    (api/utils/environment_utils.cpp, the POSIX branches)

    The block of the environment is the list of its entries, [name=value]
    texts; [getenv], [setenv] and [unsetenv] are the C library's, as POSIX
    describes them. *)

From S2P Require Import Prelude CppString.
From stdpp Require Import options.

Abbreviation environ := (list str).
Abbreviation EM := (ST environ).

Definition EQUALS : ascii := "="%char.

(** The name and the value of an entry, split at its first [=]. *)
Definition split_entry (entry : str) : option (str * str) :=
  match find entry (lit "=") 0 with
  | Some p => Some (take p entry, drop (p + 1) entry)
  | None => None
  end.
Definition is_entry (name entry : str) : bool :=
  match split_entry entry with Some (n, _) => bool_decide (n = name) | None => false end.

(** The C library. *)
Fixpoint getenv (env : environ) (name : str) : option str :=
  match env with
  | [] => None
  | entry :: rest =>
      match split_entry entry with
      | Some (n, v) => if decide (n = name) then Some v else getenv rest name
      | None => getenv rest name
      end
  end.
Definition remove_entries (env : environ) (name : str) : environ :=
  filter (fun entry => is_entry name entry = false) env.
(** [setenv(name, value, 1)]: fails for a name that is empty or has an [=]. *)
Definition valid_name (name : str) : bool := bool_decide (name <> [] /\ EQUALS ∉ name).
Definition setenv (env : environ) (name value : str) : option environ :=
  if valid_name name then Some (remove_entries env name ++ [name ++ EQUALS :: value]) else None.
Definition unsetenv (env : environ) (name : str) : environ :=
  if valid_name name then remove_entries env name else env.

(** ** The functions *)

Definition Has (name : str) : EM bool := env ← gets id; mret (bool_decide (is_Some (getenv env (c_str name)))).

Definition Get (name : str) : EM str :=
  env ← gets id; mret (match getenv env (c_str name) with Some val => val | None => [] end).

Definition Set_ (name value : str) : EM unit :=
  env ← gets id;
  match setenv env (c_str name) (c_str value) with
  | None => throw (StdStringExn (lit "Cannot set environment variable: " ++ name))
  | Some env' => modify (fun _ => env')
  end.

Definition Unset (name : str) : EM unit := modify (fun env => unsetenv env (c_str name)).

(** One turn of the loop: an entry without [=] is its own key and value. *)
Definition add_entry (environment : gmap str str) (entry : str) : EM (gmap str str) :=
  let p := find entry (lit "=") 0 in
  key ← lift (substr entry 0 p);
  val ← lift (substr entry (match p with Some p => p + 1 | None => 0 end) None);
  mret (<[key := val]> environment).

Definition GetEnvironment : EM (gmap str str) := env ← gets id; st_fold add_entry ∅ env.

(** ** Laws *)

Lemma find_equals k v : EQUALS ∉ k -> find (k ++ EQUALS :: v) (lit "=") 0 = Some (length k).
Proof.
  intros Hk. unfold find. simpl. change (lit "=") with [EQUALS]. rewrite drop_0.
  assert (forall i, find_at [EQUALS] (k ++ EQUALS :: v) i = Some (i + length k)) as E; [|apply (E 0)].
  induction k as [|c k IH]; intros i; simpl.
  - by rewrite Nat.add_0_r.
  - rewrite bool_decide_eq_false_2 by set_solver. simpl. rewrite IH by set_solver. f_equal. lia.
Qed.

Lemma split_entry_print k v : EQUALS ∉ k -> split_entry (k ++ EQUALS :: v) = Some (k, v).
Proof.
  intros Hk. unfold split_entry. rewrite find_equals by done. rewrite take_app_length.
  rewrite drop_app_ge by lia. by replace (length k + 1 - length k) with 1 by lia.
Qed.

Lemma valid_name_spec n : valid_name n = true <-> n <> [] /\ EQUALS ∉ n.
Proof. unfold valid_name. apply bool_decide_eq_true. Qed.

Lemma getenv_app env1 env2 n :
  getenv (env1 ++ env2) n = match getenv env1 n with Some v => Some v | None => getenv env2 n end.
Proof.
  induction env1 as [|e env1 IH]; [done|]. simpl. destruct (split_entry e) as [[n' v]|]; [|done].
  by case_decide.
Qed.

Lemma getenv_removed env n m :
  getenv (remove_entries env n) m = if decide (m = n) then None else getenv env m.
Proof.
  induction env as [|e env IH]; [by case_decide|]. unfold remove_entries. rewrite filter_cons.
  fold (remove_entries env n). destruct (decide (is_entry n e = false)) as [He|He];
    unfold is_entry in He; simpl; destruct (split_entry e) as [[n' v]|] eqn:E; try done;
    rewrite ?E, IH.
  - apply bool_decide_eq_false in He. destruct (decide (n' = m)) as [->|Hm]; [|done].
    by rewrite decide_False.
  - apply not_false_iff_true, bool_decide_eq_true in He as ->.
    destruct (decide (m = n)) as [->|Hm]; [done|]. by rewrite decide_False by congruence.
Qed.

(** The environment behaves as a map of the names that it allows: after
    [Set] of a name that is not empty and has no [=], [Get] answers the value,
    [Has] is true, and every other name reads as before; [Unset] takes the
    name away and no other one; for the other names [Set] throws a
    [std::string] and changes nothing. *)
Theorem environment_is_map env name value :
  no_nul name -> no_nul value ->
  (valid_name name = true ->
     exists env', Set_ name value env = (Ret tt, env') /\
       Get name env' = (Ret value, env') /\ Has name env' = (Ret true, env') /\
       (forall other, other <> name -> getenv env' other = getenv env other) /\
     exists env2, Unset name env' = (Ret tt, env2) /\ Has name env2 = (Ret false, env2) /\
       (forall other, other <> name -> getenv env2 other = getenv env other)) /\
  (valid_name name = false ->
     Set_ name value env = (Throw (StdStringExn (lit "Cannot set environment variable: " ++ name)), env)).
Proof.
  intros Hn Hv. split.
  - intros Hval. pose proof (proj1 (valid_name_spec name) Hval) as [_ Hne].
    set (env' := remove_entries env name ++ [name ++ EQUALS :: value]).
    assert (forall m, getenv env' m = if decide (m = name) then Some value else getenv env m) as Henv.
    { intros m. unfold env'. rewrite getenv_app, getenv_removed. simpl.
      rewrite split_entry_print by done. destruct (decide (m = name)) as [->|Hm].
      - by rewrite decide_True.
      - destruct (getenv env m); [done|]. by rewrite decide_False by congruence. }
    exists env'. split_and!.
    + unfold Set_, mbind, st_bind, gets. rewrite !c_str_id by done. unfold setenv. by rewrite Hval.
    + unfold Get, mbind, st_bind, gets. rewrite c_str_id by done. unfold id. by rewrite Henv, decide_True.
    + unfold Has, mbind, st_bind, gets. rewrite c_str_id by done. unfold id. by rewrite Henv, decide_True.
    + intros other Ho. by rewrite Henv, decide_False.
    + exists (remove_entries env' name). split_and!.
      * unfold Unset, modify, unsetenv. by rewrite c_str_id, Hval by done.
      * unfold Has, mbind, st_bind, gets. rewrite c_str_id by done. unfold id.
        by rewrite getenv_removed, decide_True.
      * intros other Ho. rewrite getenv_removed, decide_False by done. by rewrite Henv, decide_False.
  - intros Hval. unfold Set_, mbind, st_bind, gets. rewrite !c_str_id by done. unfold setenv.
    by rewrite Hval.
Qed.

Lemma environment_is_map_witness :
  exists env', Set_ (lit "HOME") (lit "/root") [lit "HOME=/"; lit "A=b"] = (Ret tt, env') /\
     Get (lit "HOME") env' = (Ret (lit "/root"), env') /\ getenv env' (lit "A") = Some (lit "b").
Proof.
  assert (no_nul (lit "HOME") /\ no_nul (lit "/root")) as [N1 N2]
    by (apply (bool_decide_unpack _); vm_compute; reflexivity).
  destruct (proj1 (environment_is_map [lit "HOME=/"; lit "A=b"] (lit "HOME") (lit "/root") N1 N2) eq_refl)
    as (env' & E1 & E2 & _ & Hother & _).
  exists env'. split; [exact E1|]. split; [exact E2|]. apply (Hother (lit "A")). discriminate.
Defined.

(** The text of a map in the block of the environment. *)
Definition print_env (l : list (str * str)) : environ := map (fun kv => kv.1 ++ EQUALS :: kv.2) l.

Lemma add_entry_run m env kv :
  EQUALS ∉ kv.1 -> add_entry m (kv.1 ++ EQUALS :: kv.2) env = (Ret (<[kv.1 := kv.2]> m), env).
Proof.
  intros Hk. unfold add_entry. rewrite find_equals by done.
  assert (length kv.1 + 1 <= length (kv.1 ++ EQUALS :: kv.2)) as Hlen by (rewrite length_app; simpl; lia).
  rewrite !substr_Ret by lia. rewrite drop_0, take_app_length. rewrite drop_app_ge by lia.
  by replace (length kv.1 + 1 - length kv.1) with 1 by lia.
Qed.

(** [GetEnvironment] reads back what the block was printed from: for any
    entries with distinct names without [=] (the values are arbitrary), it
    returns the map of exactly these names and values. *)
Theorem get_environment_print l :
  NoDup (map fst l) -> Forall (fun kv => EQUALS ∉ kv.1) l ->
  GetEnvironment (print_env l) = (Ret (list_to_map l), print_env l).
Proof.
  intros Hnd Hall. unfold GetEnvironment, mbind, st_bind, gets. unfold id.
  assert (forall m s, Forall (fun kv => m !! kv.1 = None) l ->
            st_fold add_entry m (print_env l) s = (Ret (list_to_map l ∪ m), s)) as E.
  { induction l as [|kv l IH]; intros m s Hm; simpl; [by rewrite left_id_L by apply _|].
    apply Forall_cons in Hall as [Hkv Hall]. apply Forall_cons in Hm as [Hkm Hm].
    apply NoDup_cons in Hnd as [Hkl Hnd].
    rewrite (st_bind_Ret _ _ _ _ _ (add_entry_run m s kv Hkv)), IH; [|done|done|].
    - do 2 f_equal. rewrite <- insert_union_r by (by apply not_elem_of_list_to_map_1).
      rewrite <- insert_union_l. destruct kv; done.
    - apply Forall_forall. intros kv' Hin. rewrite lookup_insert_ne.
      + by apply (proj1 (Forall_forall _ _) Hm).
      + intros Heq. apply Hkl. rewrite Heq. by apply list_elem_of_fmap_2. }
  rewrite E; [|apply Forall_forall; intros; apply lookup_empty]. by rewrite right_id_L by apply _.
Qed.

Lemma get_environment_print_witness :
  GetEnvironment (print_env [(lit "A", lit "b=c"); (lit "B", [])])
  = (Ret (list_to_map [(lit "A", lit "b=c"); (lit "B", [])]), print_env [(lit "A", lit "b=c"); (lit "B", [])]).
Proof.
  apply get_environment_print; apply (bool_decide_unpack _); vm_compute; reflexivity.
Defined.
