(* ===== verification/Application.v ===== *)
(** * Application: an application found on disk and its components
    (api/utils/application.cpp, application.h; linux/boot_utils_linux.cpp)

    The object is written by its own functions only: its fields are a record
    passed along, next to the store of the components that its vectors share
    with [GetInstalledComponents]. *)

From S2P Require Import Prelude CppString FileUtils UrlUtils BootUtils EnvironmentUtils.
From stdpp Require Import options.

Definition OVERRIDE_ARG : str := lit "--bundled-component-override".
Definition LICENSE_FILENAME : str := lit "LICENSE.txt".
Definition DISTRIBUTION_URL : str := lit "http://api.appcelerator.net".
Definition RUNTIME_UUID : str := lit "A2AC5CB5-8C52-456C-9525-601A5B0725DA".
Definition MODULE_UUID : str := lit "1ACE5D3A-2B52-43FB-A136-007BD166CFD0".
Definition SDK_UUID : str := lit "FF71038E-3CD6-40EA-A1C2-CFEE1D284CEA".
Definition MOBILESDK_UUID : str := lit "05645B49-C629-4D8F-93AF-F1CF83200E34".
Definition APP_UPDATE_UUID : str := lit "353AACB5-A36C-406A-8A67-33CD45E36550".

Record Application := {
  a_path : str; a_manifestPath : str; a_name : str; a_version : str; a_id : str; a_guid : str;
  a_publisher : str; a_url : str; a_image : str; a_stream : str; a_logLevel : str;
  a_dependencies : list Dependency;
  a_modules : list SharedComponent;
  a_sdks : list SharedComponent;
  a_runtime : option SharedComponent;
  a_queryString : str;
  a_arguments : list str
}.

(** [Application::Application(path, manifestPath)] *)
Definition new_Application (path manifestPath : str) : Application :=
  {| a_path := path; a_manifestPath := manifestPath; a_name := []; a_version := []; a_id := [];
     a_guid := []; a_publisher := []; a_url := []; a_image := []; a_stream := lit "production";
     a_logLevel := []; a_dependencies := []; a_modules := []; a_sdks := []; a_runtime := None;
     a_queryString := []; a_arguments := [] |}.

(** Updates of the fields. *)
Definition with_meta name version id guid publisher url image stream logLevel (a : Application) :=
  {| a_path := a_path a; a_manifestPath := a_manifestPath a; a_name := name; a_version := version;
     a_id := id; a_guid := guid; a_publisher := publisher; a_url := url; a_image := image;
     a_stream := stream; a_logLevel := logLevel; a_dependencies := a_dependencies a;
     a_modules := a_modules a; a_sdks := a_sdks a; a_runtime := a_runtime a;
     a_queryString := a_queryString a; a_arguments := a_arguments a |}.
Definition with_dependencies d (a : Application) :=
  {| a_path := a_path a; a_manifestPath := a_manifestPath a; a_name := a_name a;
     a_version := a_version a; a_id := a_id a; a_guid := a_guid a; a_publisher := a_publisher a;
     a_url := a_url a; a_image := a_image a; a_stream := a_stream a; a_logLevel := a_logLevel a;
     a_dependencies := d; a_modules := a_modules a; a_sdks := a_sdks a; a_runtime := a_runtime a;
     a_queryString := a_queryString a; a_arguments := a_arguments a |}.
Definition with_components modules sdks runtime (a : Application) :=
  {| a_path := a_path a; a_manifestPath := a_manifestPath a; a_name := a_name a;
     a_version := a_version a; a_id := a_id a; a_guid := a_guid a; a_publisher := a_publisher a;
     a_url := a_url a; a_image := a_image a; a_stream := a_stream a; a_logLevel := a_logLevel a;
     a_dependencies := a_dependencies a; a_modules := modules; a_sdks := sdks; a_runtime := runtime;
     a_queryString := a_queryString a; a_arguments := a_arguments a |}.
Definition with_strings queryString arguments (a : Application) :=
  {| a_path := a_path a; a_manifestPath := a_manifestPath a; a_name := a_name a;
     a_version := a_version a; a_id := a_id a; a_guid := a_guid a; a_publisher := a_publisher a;
     a_url := a_url a; a_image := a_image a; a_stream := a_stream a; a_logLevel := a_logLevel a;
     a_dependencies := a_dependencies a; a_modules := a_modules a; a_sdks := a_sdks a;
     a_runtime := a_runtime a; a_queryString := queryString; a_arguments := arguments |}.

Definition with_name v a := with_meta v (a_version a) (a_id a) (a_guid a) (a_publisher a) (a_url a)
  (a_image a) (a_stream a) (a_logLevel a) a.
Definition with_version v a := with_meta (a_name a) v (a_id a) (a_guid a) (a_publisher a) (a_url a)
  (a_image a) (a_stream a) (a_logLevel a) a.
Definition with_id v a := with_meta (a_name a) (a_version a) v (a_guid a) (a_publisher a) (a_url a)
  (a_image a) (a_stream a) (a_logLevel a) a.
Definition with_guid v a := with_meta (a_name a) (a_version a) (a_id a) v (a_publisher a) (a_url a)
  (a_image a) (a_stream a) (a_logLevel a) a.
Definition with_publisher v a := with_meta (a_name a) (a_version a) (a_id a) (a_guid a) v (a_url a)
  (a_image a) (a_stream a) (a_logLevel a) a.
Definition with_url v a := with_meta (a_name a) (a_version a) (a_id a) (a_guid a) (a_publisher a) v
  (a_image a) (a_stream a) (a_logLevel a) a.
Definition with_image v a := with_meta (a_name a) (a_version a) (a_id a) (a_guid a) (a_publisher a)
  (a_url a) v (a_stream a) (a_logLevel a) a.
Definition with_stream v a := with_meta (a_name a) (a_version a) (a_id a) (a_guid a) (a_publisher a)
  (a_url a) (a_image a) v (a_logLevel a) a.
Definition with_logLevel v a := with_meta (a_name a) (a_version a) (a_id a) (a_guid a) (a_publisher a)
  (a_url a) (a_image a) (a_stream a) v a.

Definition GetResourcesPath (a : Application) : res str := Join [a_path a; lit "Resources"].

(** ** Reading the manifest *)

(** One entry of the manifest. *)
Definition manifest_entry (a : Application) (kv : str * str) : res Application :=
  let '(key, value) := kv in
  if decide (key = lit "#appname") then Ret (with_name value a)
  else if decide (key = lit "#appid") then Ret (with_id value a)
  else if decide (key = lit "#guid") then Ret (with_guid value a)
  else if decide (key = lit "#image") then
    resources ← GetResourcesPath a;
    image ← Join [resources; value];
    Ret (with_image image a)
  else if decide (key = lit "#publisher") then Ret (with_publisher value a)
  else if decide (key = lit "#url") then Ret (with_url value a)
  else if decide (key = lit "#version") then Ret (with_version value a)
  else if decide (key = lit "#stream") then Ret (with_stream value a)
  else if decide (key = lit "#loglevel") then Ret (with_logLevel value a)
  else if decide (head key = Some "#"%char) then Ret a
  else
    d ← NewDependencyFromManifestLine key value;
    Ret (with_dependencies (a_dependencies a ++ [d]) a).

Fixpoint manifest_entries (a : Application) (manifest : list (str * str)) : res Application :=
  match manifest with
  | [] => Ret a
  | kv :: rest => a ← manifest_entry a kv; manifest_entries a rest
  end.

Section WithFS.
Variable fs : FS.

(** [NewApplication(manifestPath, appPath)]; [None] is a null pointer. *)
Definition NewApplication2 (manifestPath appPath : str) : res (option Application) :=
  manifest ← ReadManifestFile fs manifestPath;
  match manifest with
  | [] => Ret None
  | _ => a ← manifest_entries (new_Application appPath manifestPath) manifest; Ret (Some a)
  end.

Definition NewApplication (appPath : str) : res (option Application) :=
  manifest ← Join [appPath; MANIFEST_FILENAME];
  NewApplication2 manifest appPath.

Definition GetExecutablePath (a : Application) : res str :=
  path ← Join [a_path a; a_name a ++ lit ".exe"];
  if IsFile fs path then Ret path
  else
    path ← Join [a_path a; lit "MacOS"; a_name a];
    if IsFile fs path then Ret path
    else
      path ← Join [a_path a; a_name a];
      if IsFile fs path then Ret path else Ret [].

(** The lines of the file, each with a newline. *)
Definition GetLicenseText (a : Application) : res str :=
  license ← Join [a_path a; LICENSE_FILENAME];
  if IsFile fs license then
    match os_read fs (c_str license) with
    | None => Ret []
    | Some text => Ret (concat (map (fun line => line ++ ["010"%char]) (getlines text)))
    end
  else Ret [].

(** ** Arguments *)

Definition starts_with_needle (arg needle : str) : bool :=
  bool_decide (find arg needle 0 = Some 0) || bool_decide (find arg (lit "--" ++ needle) 0 = Some 0).

Definition HasArgument (a : Application) (needle : str) : bool :=
  existsb (fun arg => starts_with_needle arg needle) (a_arguments a).

(** [value.substr(1, value.length() - 2)] of a text that starts with a quote *)
Definition unquote (value : str) : str :=
  match value with
  | c :: rest =>
      if bool_decide (c = "034"%char) && (3 <? length value) then take (length value - 2) rest
      else value
  | [] => value
  end.

Fixpoint argument_value (args : list str) (needle : str) : str :=
  match args with
  | [] => []
  | arg :: rest =>
      if starts_with_needle arg needle then
        match find arg (lit "=") 0 with
        | Some start => unquote (drop (start + 1) arg)
        | None => argument_value rest needle
        end
      else argument_value rest needle
  end.
Definition GetArgumentValue (a : Application) (needle : str) : str :=
  argument_value (a_arguments a) needle.

Definition SetArguments (arguments : list str) (a : Application) : Application :=
  with_strings (a_queryString a) arguments a.
(** [SetArguments(argc, argv)] *)
Definition AddArguments (argv : list str) (a : Application) : Application :=
  with_strings (a_queryString a) (a_arguments a ++ map c_str argv) a.

(** ** Resolving dependencies *)

(** The test of [ResolveDependency]; [compare] is the sign of the comparison. *)
Definition accepts (dep : Dependency) (c : KComponent) (compare : comparison) : bool :=
  c_bundled c
  || (bool_decide (d_requirement dep = EQ) && bool_decide (compare = Eq))
  || (bool_decide (d_requirement dep = GTE) && bool_decide (compare <> Lt))
  || (bool_decide (d_requirement dep = GT) && bool_decide (compare = Gt))
  || (bool_decide (d_requirement dep = LT) && bool_decide (compare = Lt)).

Fixpoint ResolveDependency (dep : Dependency) (components : list SharedComponent)
    : BM (option SharedComponent) :=
  match components with
  | [] => mret None
  | p :: rest =>
      c ← comp p;
      if decide (d_type dep <> c_type c \/ d_name dep <> c_name c)
      then ResolveDependency dep rest
      else
        compare ← lift (CompareVersions (c_version c) (d_version dep));
        if accepts dep c compare then mret (Some p) else ResolveDependency dep rest
  end.

(** [paths] is what [GetComponentSearchPaths] returns. *)
Definition GetAvailableComponents (paths : list str) (a : Application)
    (components : list SharedComponent) (onlyBundled : bool) : BM (list SharedComponent) :=
  '(components, onlyBundled) ←
    (if HasArgument a OVERRIDE_ARG then
       let overridePath := GetArgumentValue a OVERRIDE_ARG in
       components ← ScanBundledComponents fs overridePath components;
       mret (components, true)
     else
       components ← ScanBundledComponents fs (a_path a) components;
       mret (components, onlyBundled));
  if onlyBundled : bool then mret components
  else
    installed ← GetInstalledComponents fs paths true;
    mret (components ++ installed).

(** The loop of [ResolveDependencies]: the application and the unresolved
    dependencies so far. *)
Definition resolve_step (components : list SharedComponent)
    (st : Application * list Dependency) (d : Dependency) : BM (Application * list Dependency) :=
  let '(a, unresolved) := st in
  p ← ResolveDependency d components;
  match p with
  | None => mret (a, unresolved ++ [d])
  | Some p =>
      c ← comp p;
      mret (match c_type c with
            | MODULE => with_components (a_modules a ++ [p]) (a_sdks a) (a_runtime a) a
            | SDK | MOBILESDK => with_components (a_modules a) (a_sdks a ++ [p]) (a_runtime a) a
            | RUNTIME => with_components (a_modules a) (a_sdks a) (Some p) a
            | _ => a
            end, unresolved)
  end.

Definition ResolveDependencies (paths : list str) (a : Application)
    : BM (Application * list Dependency) :=
  let a := with_components [] [] None a in
  components ← GetAvailableComponents paths a [] false;
  st_fold (resolve_step components) (a, []) (a_dependencies a).

(** ** Components in use *)

Definition set_version (p : SharedComponent) (version : str) : BM unit :=
  c ← comp p;
  modify (fun s => {| comps := <[p := {| c_type := c_type c; c_name := c_name c; c_version := version;
                                         c_path := c_path c; c_bundled := c_bundled c |}]> (comps s);
                      installedComponents := installedComponents s |}).

(** The loop of [UsingModule]: whether a module with this name was found. *)
Fixpoint update_module (modules : list SharedComponent) (name version : str) : BM bool :=
  match modules with
  | [] => mret false
  | p :: rest =>
      c ← comp p;
      if decide (c_name c = name) then set_version p version;; mret true
      else update_module rest name version
  end.

Definition UsingModule (a : Application) (name version path : str) : BM Application :=
  found ← update_module (a_modules a) name version;
  if found : bool then mret a
  else
    p ← NewComponent MODULE name version path false;
    mret (with_components (a_modules a ++ [p]) (a_sdks a) (a_runtime a) a).

Fixpoint module_path (modules : list SharedComponent) (name : str) : BM str :=
  match modules with
  | [] => mret []
  | p :: rest =>
      c ← comp p;
      if decide (c_name c = name) then mret (c_path c) else module_path rest name
  end.

(** The name is taken in lower case; without a runtime, a null pointer is used. *)
Definition GetComponentPath (a : Application) (name : str) : BM str :=
  let name := map tolower name in
  if decide (name = lit "runtime") then
    p ← some_or_undef (a_runtime a); c ← comp p; mret (c_path c)
  else module_path (a_modules a) name.

Definition GetResolvedComponents (a : Application) : list SharedComponent :=
  match a_runtime a with Some r => [r] | None => [] end ++ a_modules a ++ a_sdks a.

(** ** URLs of dependencies *)

(** What the build and the machine supply. *)
Record Machine := {
  PRODUCT_NAME : str;
  PRODUCT_VERSION : str;
  OS_TYPE : str;
  environment : environ;
  machineId : str;                   (* PlatformUtils::GetMachineId() *)
  osVersion : str;                   (* uname(2): release *)
  osArchitecture : str;              (* uname(2): machine *)
  homeDirectory : str                (* getpwuid(3): pw_dir *)
}.

Definition run_env {A} (m : EM A) (machine : Machine) : res A := (m (environment machine)).1.

Definition dist_zip (d : Dependency) : str :=
  match d_type d with
  | RUNTIME => lit "runtime-" ++ d_version d ++ lit ".zip"
  | SDK => lit "sdk-" ++ d_version d ++ lit ".zip"
  | MOBILESDK => lit "mobilesdk-" ++ d_version d ++ lit ".zip"
  | APP_UPDATE => lit "appupdate"
  | _ => lit "module-" ++ d_name d ++ lit "-" ++ d_version d ++ lit ".zip"
  end.

Definition uuid_of (type : KComponentType) : str :=
  match type with
  | RUNTIME => RUNTIME_UUID
  | SDK => SDK_UUID
  | MOBILESDK => MOBILESDK_UUID
  | MODULE => MODULE_UUID
  | APP_UPDATE => APP_UPDATE_UUID
  | UNKNOWN => []
  end.

(** The site of the distribution, by the stream. *)
Definition stream_url (machine : Machine) (a : Application) : res str :=
  set ← run_env (Has (lit "TITANIUM_STREAM")) machine;
  if set : bool then
    stream ← run_env (Get (lit "TITANIUM_STREAM")) machine;
    if bool_decide (stream = lit "local") || bool_decide (stream = lit "l")
    then Ret (lit "http://localhost")
    else s ← substr stream 0 (Some 1); Ret (DISTRIBUTION_URL ++ lit "/" ++ s)
  else s ← substr (a_stream a) 0 (Some 1); Ret (DISTRIBUTION_URL ++ lit "/" ++ s).

Definition query_parameters (machine : Machine) (a : Application) : list (str * str) := [
  (lit "?os=", OS_NAME); (lit "&osver=", osVersion machine); (lit "&tiver=", PRODUCT_VERSION machine);
  (lit "&mid=", machineId machine); (lit "&aid=", a_id a); (lit "&guid=", a_guid a);
  (lit "&ostype=", OS_TYPE machine); (lit "&osarch=", osArchitecture machine)].

Definition query_string (machine : Machine) (a : Application) : res str :=
  base ← stream_url machine a;
  Ret (base ++ lit "/v1/release-download" ++
       concat (map (fun '(k, v) => k ++ EncodeURIComponent v) (query_parameters machine a))).

(** The query string is computed once and kept in the application. *)
Definition GetURLForDependency (machine : Machine) (a : Application) (d : Dependency)
    : res (str * Application) :=
  zipfile ← Join [a_path a; lit "dist"; dist_zip d];
  if IsFile fs zipfile then Ret (zipfile, a)
  else
    queryString ← (if decide (a_queryString a = []) then query_string machine a
                   else Ret (a_queryString a));
    Ret (queryString ++ lit "&name=" ++ d_name d ++ lit "&version=" ++ d_version d
           ++ lit "&uuid=" ++ uuid_of (d_type d),
         with_strings queryString (a_arguments a) a).

Definition GetUpdateURL (machine : Machine) (a : Application) : res (str * Application) :=
  GetURLForDependency machine a
    (NewDependencyFromValues APP_UPDATE (lit "app_update") (a_version a)).

(** ** The search paths and the installer (Linux) *)

Definition GetUserRuntimeHomeDirectory (machine : Machine) : res str :=
  Join [homeDirectory machine; lit "." ++ map tolower (PRODUCT_NAME machine)].

(** The vector is filled by the first call. *)
Definition GetComponentSearchPaths (machine : Machine) (componentSearchPaths : list str)
    : res (list str) :=
  match componentSearchPaths with
  | [] =>
      set ← run_env (Has (lit "KR_SEARCH_PATH")) machine;
      forced ← (if set : bool then p ← run_env (Get (lit "KR_SEARCH_PATH")) machine; Ret [p] else Ret []);
      home ← GetUserRuntimeHomeDirectory machine;
      let pname := map tolower (PRODUCT_NAME machine) in
      Ret (forced ++ [home; lit "/opt/" ++ pname; lit "/usr/local/lib/" ++ pname;
                      lit "/usr/lib/" ++ pname])
  | _ => Ret componentSearchPaths
  end.

(** The URLs of the missing dependencies. *)
Fixpoint missing_urls (machine : Machine) (a : Application) (missing : list Dependency)
    : res (list str * Application) :=
  match missing with
  | [] => Ret ([], a)
  | d :: rest =>
      '(url, a) ← GetURLForDependency machine a d;
      '(urls, a) ← missing_urls machine a rest;
      Ret (url :: urls, a)
  end.

(** [None] when there is no installer, else the command that is run. *)
Definition RunInstaller (machine : Machine) (missing : list Dependency) (a : Application)
    (updateFile installerPath : str) : res (option (str * list str) * Application) :=
  let installerPath := match installerPath with [] => a_path a | _ => installerPath end in
  exec ← Join [installerPath; lit "installer"; lit "installer"];
  if IsFile fs exec then
    let args := [lit "--apppath"; a_path a] ++
                match updateFile with [] => [] | _ => [lit "--updatefile"; updateFile] end in
    '(urls, a) ← missing_urls machine a missing;
    Ret (Some (exec, args ++ urls), a)
  else Ret (None, a).

(** The command line that [RunAndWait] gives to the shell. *)
Definition command_line (path : str) (args : list str) : str :=
  concat (map (fun s => ["034"%char] ++ s ++ ["034"%char] ++ lit " ") (path :: args)).
End WithFS.
