(* ===== verification/ApplicationLaws.v ===== *)
(** * ApplicationLaws: what an application promises

    The components that its dependencies are resolved to, its arguments and
    its modules in use. *)

From S2P Require Import Prelude CppString FileUtils UrlUtils BootUtils EnvironmentUtils.
From S2P Require Import Application.
From stdpp Require Import options.

(** ** The components that an application can use *)

Definition all_bundled (s : bstate) (l : list SharedComponent) : Prop :=
  Forall (fun p => c_bundled <$> comps s !! p = Some true) l.

Lemma all_bundled_grown s s' l : all_bundled s l -> grown s s' -> all_bundled s' l.
Proof.
  intros Hb Hg. eapply Forall_impl; [exact Hb|]. intros p (c & Hc & Hf)%fmap_Some.
  by rewrite (grown_lookup _ _ _ _ Hg Hc), Hf.
Qed.

(** The components at [l] are those in [cs]. *)
Definition stored (s : bstate) (l : list SharedComponent) (cs : list KComponent) : Prop :=
  Forall2 (fun p c => comps s !! p = Some c) l cs.

Lemma stored_grown s s' l cs : stored s l cs -> comps s `prefix_of` comps s' -> stored s' l cs.
Proof.
  intros Hs [k Hk]. eapply Forall2_impl; [exact Hs|]. intros p c Hc. rewrite Hk. by apply lookup_app_l_Some.
Qed.
Lemma stored_valid s l cs : stored s l cs -> valid s l.
Proof. induction 1; constructor; [by eapply lookup_lt_Some|done]. Qed.
Lemma stored_bundled s l cs :
  stored s l cs -> Forall (fun c => c_bundled c = true) cs -> all_bundled s l.
Proof.
  induction 1 as [|p c l cs Hc _ IH]; [constructor|]. intros [Hb Hf]%Forall_cons.
  constructor; [by rewrite Hc; simpl; rewrite Hb|by apply IH].
Qed.

(** [m] appends the components [cs], and always returns. *)
Definition bundles (m : list SharedComponent -> BM (list SharedComponent)) (cs : list KComponent) : Prop :=
  forall s l, exists b s', m l s = (Ret (l ++ b), s') /\ grown s s' /\ stored s' b cs.

Lemma bundles_ret : bundles mret [].
Proof. intros s l. exists [], s. rewrite app_nil_r. split_and!; [done..|constructor]. Qed.

Lemma bundles_bind m1 m2 cs1 cs2 :
  bundles m1 cs1 -> bundles m2 cs2 -> bundles (fun l => m1 l ≫= m2) (cs1 ++ cs2).
Proof.
  intros H1 H2 s l. destruct (H1 s l) as (b1 & s1 & E1 & Hg1 & Hb1).
  destruct (H2 s1 (l ++ b1)) as (b2 & s2 & E2 & Hg2 & Hb2).
  exists (b1 ++ b2), s2. rewrite app_assoc. split_and!.
  - by rewrite (st_bind_Ret _ _ _ _ _ E1).
  - by etrans.
  - apply Forall2_app; [|done]. eapply stored_grown; [done|]. by destruct Hg2.
Qed.

Lemma bundles_lift {A} (r : res A) a m cs :
  r = Ret a -> bundles (m a) cs -> bundles (fun l => lift r ≫= fun a => m a l) cs.
Proof. intros -> H s l. apply (H s l). Qed.

Definition bundled_component (type : KComponentType) (name path : str) : KComponent :=
  {| c_type := type; c_name := name; c_version := []; c_path := path; c_bundled := true |}.
Lemma bundles_new type name path :
  bundles (fun l => p ← NewComponent type name [] path true; mret (l ++ [p]))
    [bundled_component type name path].
Proof.
  intros s l. set (c := bundled_component type name path).
  set (s' := {| comps := comps s ++ [c]; installedComponents := installedComponents s |}).
  exists [length (comps s)], s'. split_and!; [done|by split; [eexists|]|].
  constructor; [by apply list_lookup_middle|constructor].
Qed.

(** What the file system holds at the path of an application: the directory
    [runtime] if there is one, and one module for each entry of [modules]. *)
Definition joined (parts : list str) : str := match Join parts with Ret p => p | _ => [] end.
Definition bundled_at (fs : FS) (path : str) : list KComponent :=
  let rt := joined [path; lit "runtime"] in
  let modules := joined [path; lit "modules"] in
  (if IsDirectory fs rt then [bundled_component RUNTIME (lit "runtime") rt] else []) ++
  map (fun name => bundled_component MODULE name (joined [modules; name])) (ListDir fs modules []).

Lemma bundled_at_bundled fs path : Forall (fun c => c_bundled c = true) (bundled_at fs path).
Proof.
  unfold bundled_at. apply Forall_app. split; [by destruct (IsDirectory fs _); repeat constructor|].
  apply Forall_map. by apply Forall_true.
Qed.

Section Scanning.
Context (fs : FS) (Hfs : fs_ok fs).
#[local] Set Default Proof Using "Type*".

Lemma scan_bundled_modules_bundles path names :
  ink path -> Forall clean_part names -> bundles (scan_bundled_modules path names)
    (map (fun name => bundled_component MODULE name (joined [path; name])) names).
Proof.
  intros Hp. induction 1 as [|n ns Hn Hns IH]; simpl; [apply bundles_ret|].
  destruct (Join_ink path [n] Hp ltac:(clean_parts) ltac:(done)) as (p & E & _).
  unfold joined at 1. rewrite E. eapply bundles_lift; [reflexivity|]. intros s l.
  destruct (bundles_bind _ _ _ _ (bundles_new MODULE n
    (p ++ KR_PATH_SEP ++ intercalate KR_PATH_SEP [n])) IH s l) as (b & s' & E' & H').
  exists b, s'. split; [|done]. cbv beta in E'. by rewrite st_bind_assoc in E'.
Qed.

Lemma ScanBundledComponents_bundles path :
  ink path -> bundles (ScanBundledComponents fs path) (bundled_at fs path).
Proof.
  intros Hp. unfold ScanBundledComponents, bundled_at, joined.
  destruct (Join_ink path [lit "runtime"] Hp ltac:(clean_parts) ltac:(done)) as (p1 & E1 & _).
  destruct (Join_ink path [lit "modules"] Hp ltac:(clean_parts) ltac:(done)) as (p2 & E2 & Hn2).
  rewrite E1, E2. eapply bundles_lift; [reflexivity|].
  apply (bundles_bind (fun l => if IsDirectory fs _ then _ else _)).
  - case_match; [apply bundles_new|apply bundles_ret].
  - eapply bundles_lift; [reflexivity|]. apply scan_bundled_modules_bundles.
    + by apply ink_joined; [|clean_parts|].
    + apply ListDir_clean; [done|constructor].
Qed.
End Scanning.

(** Where the bundled components are: an argument can say. *)
Definition bundle_path (a : Application) : str :=
  if HasArgument a OVERRIDE_ARG then GetArgumentValue a OVERRIDE_ARG else a_path a.
(** [installed] is what a forced scan of the paths gives from [s], newest
    first and stable; nothing when the bundle is overridden. *)
Definition installed_scan (fs : FS) (paths : list str) (a : Application) (s : bstate)
  (installed : list SharedComponent) (s' : bstate) : Prop :=
  if HasArgument a OVERRIDE_ARG then installed = [] /\ s' = s
  else exists found s1, scan_paths fs paths [] s = (Ret found, s1) /\
    s' = {| comps := comps s1; installedComponents := installed |} /\ installed ≡ₚ found /\
    forall v, List.filter (same_version s' v) installed = List.filter (same_version s' v) found.

Record available (fs : FS) (paths : list str) (a : Application) (s : bstate)
  (bundled installed : list SharedComponent) (s' : bstate) : Prop := {
  av_grown : comps s `prefix_of` comps s';
  av_valid : valid s' (bundled ++ installed);
  av_bundled : stored s' bundled (bundled_at fs (bundle_path a));
  av_scan : exists s1, comps s `prefix_of` comps s1 /\ installed_scan fs paths a s1 installed s';
  av_unbundled : unbundled s' installed;
  av_sorted : StronglySorted (newer_at s') installed
}.

Lemma available_all_bundled fs paths a s b l s' : available fs paths a s b l s' -> all_bundled s' b.
Proof. intros []. eapply stored_bundled; [done|apply bundled_at_bundled]. Qed.

Lemma GetAvailableComponents_run fs paths a s :
  fs_ok fs -> Forall ink paths -> ink (bundle_path a) ->
  exists bundled installed s',
    GetAvailableComponents fs paths a [] false s = (Ret (bundled ++ installed), s') /\
    available fs paths a s bundled installed s'.
Proof.
  intros Hfs Hp Ha. unfold GetAvailableComponents.
  destruct (ScanBundledComponents_bundles fs Hfs (bundle_path a) Ha s []) as (b & s1 & E1 & [Hg1 _] & Hb1).
  unfold bundle_path in E1. destruct (HasArgument a OVERRIDE_ARG) eqn:Eo.
  - exists b, [], s1. rewrite app_nil_r. split.
    { rewrite st_bind_assoc. step E1. by erewrite st_bind_Ret by done. }
    split; rewrite ?app_nil_r; [done|by eapply stored_valid|done| |constructor..].
    exists s1. unfold installed_scan. by rewrite Eo.
  - destruct (GetInstalledComponents_run fs paths s1 Hfs Hp)
      as (found & s2 & l & Ef & E2 & Hpre & Hperm & (Hv & _ & Hu) & Hsort & Hstab).
    set (s3 := {| comps := comps s2; installedComponents := l |}) in *.
    assert (stored s3 b (bundled_at fs (bundle_path a))) as Hb by by eapply stored_grown.
    exists b, l, s3. split.
    { rewrite st_bind_assoc. step E1. erewrite st_bind_Ret by done. cbv beta iota. by step E2. }
    split; [by etrans| |done| |done|done].
    + apply Forall_app. split; [by eapply stored_valid|done].
    + exists s1. unfold installed_scan. rewrite Eo. split; [done|]. by exists found, s2.
Qed.

(** ** Resolution *)

(** What a requirement asks of the version [v] of a component. *)
Definition requirement_holds (req : Requirement) (v required : str) : Prop :=
  match req with
  | EQ => version_compare v required = Eq
  | GT => version_compare v required = Gt
  | LT => version_compare v required = Lt
  | GTE => version_compare v required <> Lt
  | LTE => version_compare v required <> Gt
  end.
Definition meets (d : Dependency) (c : KComponent) : Prop :=
  d_type d = c_type c /\ d_name d = c_name c /\ requirement_holds (d_requirement d) (c_version c) (d_version d).

(** The test of the code on one component, and its first hit. *)
Definition selects (s : bstate) (d : Dependency) (p : SharedComponent) : bool :=
  match comps s !! p with
  | Some c => bool_decide (d_type d = c_type c /\ d_name d = c_name c) &&
              accepts d c (version_compare (c_version c) (d_version d))
  | None => false
  end.
Definition candidate (s : bstate) (components : list SharedComponent) (d : Dependency)
    : option SharedComponent := head (List.filter (selects s d) components).

Lemma ResolveDependency_run s d l :
  valid s l -> ResolveDependency d l s = (Ret (candidate s l d), s).
Proof.
  induction 1 as [|p l [c Hc]%lookup_lt_is_Some_2 Hl IH]; [done|].
  unfold candidate. cbn [ResolveDependency List.filter]. unfold selects at 1. rewrite Hc.
  unfold mbind at 1, st_bind at 1, comp. rewrite Hc.
  destruct (decide (d_type d <> c_type c \/ d_name d <> c_name c)) as [Hd|Hd].
  - rewrite bool_decide_eq_false_2 by tauto. done.
  - rewrite bool_decide_eq_true_2 by (destruct (decide (d_type d = c_type c)),
      (decide (d_name d = c_name c)); tauto).
    rewrite CompareVersions_eq. unfold lift, mbind, st_bind. simpl.
    by destruct (accepts d c _).
Qed.

Lemma accepts_meets d c :
  d_requirement d <> LTE -> c_bundled c = false ->
  accepts d c (version_compare (c_version c) (d_version d)) = true <->
  requirement_holds (d_requirement d) (c_version c) (d_version d).
Proof.
  intros Hr Hb. unfold accepts, requirement_holds. rewrite Hb.
  by destruct (d_requirement d), (version_compare (c_version c) (d_version d)).
Qed.

Lemma candidate_Some s l d p :
  candidate s l d = Some p ->
  p ∈ l /\ exists c, comps s !! p = Some c /\ d_type d = c_type c /\ d_name d = c_name c /\
    accepts d c (version_compare (c_version c) (d_version d)) = true.
Proof.
  unfold candidate. destruct (List.filter (selects s d) l) as [|q l'] eqn:E; [done|]. intros [= ->].
  assert (In p (List.filter (selects s d) l)) as [Hin Hs]%filter_In by (rewrite E; by left).
  split; [by apply list_elem_of_In|]. unfold selects in Hs. destruct (comps s !! p) as [c|]; [|done].
  apply andb_true_iff in Hs as [[Ht Hn]%bool_decide_eq_true Ha]. by exists c.
Qed.

Lemma sorted_first (R : SharedComponent -> SharedComponent -> Prop) `{!Reflexive R} (f : SharedComponent -> bool) l p q :
  StronglySorted R l -> head (List.filter f l) = Some p -> q ∈ l -> f q = true -> R p q.
Proof.
  induction 1 as [|x l Hl IH Hx]; [done|]. simpl. intros Hp Hq Hf. destruct (f x) eqn:Efx.
  - injection Hp as ->. apply elem_of_cons in Hq as [->|Hq]; [done|].
    by apply (proj1 (Forall_forall _ _) Hx).
  - apply elem_of_cons in Hq as [->|Hq]; [congruence|]. by apply IH.
Qed.

#[local] Instance newer_at_refl s : Reflexive (newer_at s).
Proof. intros p. unfold newer_at. reflexivity. Qed.

(** The component has the type and the name of the dependency. *)
Definition named (s : bstate) (d : Dependency) (p : SharedComponent) : bool :=
  match comps s !! p with
  | Some c => bool_decide (d_type d = c_type c /\ d_name d = c_name c)
  | None => false
  end.

Lemma selects_bundled s d l : all_bundled s l -> List.filter (selects s d) l = List.filter (named s d) l.
Proof.
  induction 1 as [|p l (c & Hc & Hb)%fmap_Some _ IH]; [done|]. simpl.
  unfold selects at 1, named at 1. rewrite Hc, IH. unfold accepts. rewrite <- Hb. by rewrite andb_true_r.
Qed.

Lemma selects_unbundled s d l p c :
  unbundled s l -> d_requirement d <> LTE -> p ∈ l -> comps s !! p = Some c ->
  selects s d p = true <-> meets d c.
Proof.
  intros Hu Hr Hp Hc. pose proof (proj1 (Forall_forall _ _) Hu p Hp) as Hb. simpl in Hb.
  rewrite Hc in Hb. injection Hb as Hb. unfold selects, meets. rewrite Hc, andb_true_iff.
  rewrite bool_decide_eq_true, accepts_meets by done. tauto.
Qed.

(** What [ResolveDependency] finds for [d]: the first bundled component of its
    type and name, whatever its version; otherwise a newest one of the installed
    components that meet the required version. [<=] is met by none. *)
Definition best (s : bstate) (bundled installed : list SharedComponent) (d : Dependency)
  (r : option SharedComponent) : Prop :=
  match head (List.filter (named s d) bundled) with
  | Some p => r = Some p
  | None =>
      match r with
      | Some p => d_requirement d <> LTE /\ p ∈ installed /\
          (exists c, comps s !! p = Some c /\ meets d c) /\
          forall q c, q ∈ installed -> comps s !! q = Some c -> meets d c -> newer_at s p q
      | None => d_requirement d = LTE \/
          forall q c, q ∈ installed -> comps s !! q = Some c -> ~ meets d c
      end
  end.

(** [<=] is not tested: it is never met by an installed component. *)
Lemma selects_lte s d l : unbundled s l -> d_requirement d = LTE -> List.filter (selects s d) l = [].
Proof.
  intros Hu Hr. induction Hu as [|p l (c & Hc & Hb)%fmap_Some _ IH]; [done|].
  simpl. unfold selects at 1. rewrite Hc.
  unfold accepts. rewrite <- Hb, Hr. simpl. by rewrite andb_false_r.
Qed.

Lemma candidate_best s d bundled installed :
  all_bundled s bundled -> unbundled s installed -> StronglySorted (newer_at s) installed ->
  best s bundled installed d (candidate s (bundled ++ installed) d).
Proof.
  intros Hb Hu Hs. unfold best, candidate. rewrite List.filter_app, (selects_bundled _ _ _ Hb).
  destruct (List.filter (named s d) bundled) as [|p l]; [|done]. simpl.
  destruct (decide (d_requirement d = LTE)) as [Hl|Hr].
  { rewrite selects_lte by done. by left. }
  destruct (head (List.filter (selects s d) installed)) as [p|] eqn:E.
  - destruct (candidate_Some s installed d p E) as (Hin & c & Hc & Ht & Hn & Ha).
    split_and!; [done|done| |].
    + exists c. split; [done|]. apply (selects_unbundled s d installed p c); try done.
      unfold selects. rewrite Hc, Ha, andb_true_r. by apply bool_decide_eq_true.
    + intros q cq Hq Hcq Hm. apply (sorted_first _ (selects s d) installed); try done.
      by apply (selects_unbundled s d installed q cq).
  - right. intros q c Hq Hc Hm. apply (selects_unbundled s d installed q c) in Hm; try done.
    assert (In q (List.filter (selects s d) installed)) as Hin
      by (apply filter_In; split; [by apply list_elem_of_In|done]).
    by destruct (List.filter (selects s d) installed).
Qed.

(** C24: a dependency gets the best component. Among the bundled components
    followed by the installed ones, newest first, [ResolveDependency] returns the
    first bundled component of the type and name of the dependency, whatever its
    version, if there is one; otherwise a newest one of the installed components
    that meet the required version, and null when none of them does. A
    requirement [<=], which the code does not test, is met by no installed
    component: then the answer is null. *)
Theorem resolve_dependency_best s d bundled installed :
  valid s (bundled ++ installed) -> all_bundled s bundled -> unbundled s installed ->
  StronglySorted (newer_at s) installed ->
  exists r, ResolveDependency d (bundled ++ installed) s = (Ret r, s) /\
    match head (List.filter (named s d) bundled) with
    | Some p => r = Some p
    | None =>
        match r with
        | Some p => d_requirement d <> LTE /\ p ∈ installed /\
            (exists c, comps s !! p = Some c /\ meets d c) /\
            forall q c, q ∈ installed -> comps s !! q = Some c -> meets d c -> newer_at s p q
        | None => d_requirement d = LTE \/
            forall q c, q ∈ installed -> comps s !! q = Some c -> ~ meets d c
        end
    end.
Proof.
  intros Hv Hb Hu Hs. exists (candidate s (bundled ++ installed) d).
  split; [by apply ResolveDependency_run|]. by apply candidate_best.
Qed.

Lemma lte_never_resolved s d l :
  valid s l -> unbundled s l -> d_requirement d = LTE -> ResolveDependency d l s = (Ret None, s).
Proof.
  intros Hv Hu Hr. rewrite ResolveDependency_run by done. unfold candidate. by rewrite selects_lte.
Qed.

(** ** All dependencies *)

(** The components picked for the dependencies, of the types [T]. *)
Definition has_type (s : bstate) (T : list KComponentType) (p : SharedComponent) : bool :=
  match comps s !! p with Some c => bool_decide (c_type c ∈ T) | None => false end.
Definition picks (s : bstate) (given : Dependency -> option SharedComponent) (T : list KComponentType)
    (deps : list Dependency) : list SharedComponent :=
  List.filter (has_type s T) (omap given deps).
Definition unresolved_in (given : Dependency -> option SharedComponent) (deps : list Dependency)
    : list Dependency := List.filter (fun d => bool_decide (given d = None)) deps.

Definition resolved (s : bstate) (given : Dependency -> option SharedComponent) (deps : list Dependency)
    (a : Application) : Application :=
  with_components (a_modules a ++ picks s given [MODULE] deps)
    (a_sdks a ++ picks s given [SDK; MOBILESDK] deps)
    (match last (picks s given [RUNTIME] deps) with Some r => Some r | None => a_runtime a end) a.

Lemma resolve_step_run s components a u d :
  valid s components ->
  resolve_step components (a, u) d s
  = (Ret (resolved s (candidate s components) [d] a, u ++ unresolved_in (candidate s components) [d]), s).
Proof.
  intros Hv. unfold resolve_step. step (ResolveDependency_run s d components Hv).
  unfold resolved, picks, unresolved_in, has_type. cbn [omap list_omap List.filter].
  destruct (candidate s components d) as [p|] eqn:Ep; cbn [omap list_omap List.filter].
  - destruct (candidate_Some _ _ _ _ Ep) as (_ & c & Hc & _). rewrite Hc.
    unfold mbind, st_bind, comp. rewrite Hc. rewrite (bool_decide_eq_false_2 (Some p = None)) by done.
    by destruct a, (c_type c); unfold with_components; simpl; rewrite ?app_nil_r.
  - rewrite bool_decide_eq_true_2 by done. destruct a. unfold with_components. simpl.
    by rewrite !app_nil_r.
Qed.

Lemma picks_cons s given T d deps :
  picks s given T (d :: deps) = picks s given T [d] ++ picks s given T deps.
Proof. unfold picks. by rewrite <- List.filter_app, <- omap_app. Qed.

Lemma resolve_fold s components deps : forall a u,
  valid s components ->
  st_fold (resolve_step components) (a, u) deps s
  = (Ret (resolved s (candidate s components) deps a, u ++ unresolved_in (candidate s components) deps), s).
Proof.
  set (given := candidate s components).
  induction deps as [|d deps IH]; intros a u Hv.
  { unfold resolved, picks, unresolved_in. simpl. rewrite !app_nil_r. by destruct a. }
  cbn [st_fold]. step (resolve_step_run s components a u d Hv). rewrite IH by done.
  do 2 f_equal. f_equal.
  - unfold resolved. rewrite !(picks_cons _ _ _ d deps), last_app.
    unfold with_components. simpl. rewrite <- !app_assoc. f_equal.
    by destruct (last (picks s given [RUNTIME] deps)).
  - rewrite <- app_assoc. f_equal. unfold unresolved_in. by rewrite <- List.filter_app.
Qed.

(** C1: resolving the dependencies of an application. When the entries of
    directories are proper names and no search path is blank,
    [ResolveDependencies] always returns. The available components are, as they
    are on disk, the runtime and the modules bundled at the path of the
    application (or at the path that the argument of the override gives) and
    then, unless there is an override, the components that the scan of the
    search paths finds, newest first, those of the same version in the order of
    the scan. Each dependency is given the best of them ([best]); the modules,
    the SDKs and the runtime of the application are those that were given and
    have these types, in the order of the dependencies (the last runtime
    counts); and it returns exactly the dependencies that nothing was given
    for, in order. *)
Theorem resolve_dependencies_spec fs paths a s :
  fs_ok fs -> Forall ink paths -> ink (bundle_path a) ->
  exists bundled installed s' given,
    ResolveDependencies fs paths a s
    = (Ret (resolved s' given (a_dependencies a) (with_components [] [] None a),
            unresolved_in given (a_dependencies a)), s') /\
    available fs paths a s bundled installed s' /\
    forall d, best s' bundled installed d (given d).
Proof.
  intros Hfs Hp Ha.
  destruct (GetAvailableComponents_run fs paths (with_components [] [] None a) s Hfs Hp Ha)
    as (b & l & s' & E & Hav).
  exists b, l, s', (candidate s' (b ++ l)). split_and!; try done.
  - unfold ResolveDependencies. step E. by rewrite resolve_fold by apply Hav.
  - destruct Hav. by split.
  - intros d. apply candidate_best; [by eapply available_all_bundled|apply Hav..].
Qed.

(** An application in [/app] with a bundled module, and two installed
    versions of another one. *)
Definition demo_app_fs : FS :=
  fs_of [] [(lit "/app", [lit "modules"]); (lit "/app/modules", [lit "tiui"]);
            (lit "/lib", [lit "modules"]); (lit "/lib/modules/linux", [lit "tifs"]);
            (lit "/lib/modules/linux/tifs", [lit "0.8"; lit "0.9"])].
Definition demo_dependency (name : string) (req : Requirement) : Dependency :=
  {| d_type := MODULE; d_name := lit name; d_version := lit "0.8"; d_requirement := req |}.
Definition demo_app : Application :=
  with_dependencies [demo_dependency "tiui" EQ; demo_dependency "tifs" GTE; demo_dependency "tinet" EQ]
    (new_Application (lit "/app") (lit "/app/manifest")).

Lemma demo_app_fs_ok : fs_ok demo_app_fs.
Proof. apply fs_of_ok, (bool_decide_unpack _). vm_compute. reflexivity. Qed.

Lemma resolve_dependencies_spec_witness :
  exists b l s' given, ResolveDependencies demo_app_fs [lit "/lib"] demo_app empty_bstate
    = (Ret (resolved s' given (a_dependencies demo_app) demo_app,
            unresolved_in given (a_dependencies demo_app)), s') /\
    map (fun p => comps s' !! p) b = [Some (bundled_component MODULE (lit "tiui") (lit "/app/modules/tiui"))] /\
    unbundled s' l.
Proof.
  destruct (resolve_dependencies_spec demo_app_fs [lit "/lib"] demo_app empty_bstate)
    as (b & l & s' & given & E & [_ _ Hb _ Hu _] & _).
  - exact demo_app_fs_ok.
  - apply (bool_decide_unpack _). vm_compute. reflexivity.
  - apply (bool_decide_unpack _). vm_compute. reflexivity.
  - exists b, l, s', given. split; [exact E|]. split; [|exact Hu].
    assert (bundled_at demo_app_fs (bundle_path demo_app)
      = [bundled_component MODULE (lit "tiui") (lit "/app/modules/tiui")]) as Eb by (vm_compute; reflexivity).
    rewrite Eb in Hb. inversion Hb as [|p c l' cs Hc Hl]. inversion Hl. simpl. rewrite Hc. reflexivity.
Defined.

(** The versions that were picked in this example. *)
Example demo_app_picks :
  let '(r, s) := ResolveDependencies demo_app_fs [lit "/lib"] demo_app empty_bstate in
  res_map (fun '(a, u) => (map (fun p => c_path <$> comps s !! p) (a_modules a), map d_name u)) r
  = Ret ([Some (lit "/app/modules/tiui"); Some (lit "/lib/modules/linux/tifs/0.9")], [lit "tinet"]).
Proof. vm_compute. reflexivity. Qed.

Lemma resolve_dependency_best_witness :
  exists r s', ResolveDependency (demo_dependency "tifs" GT) [1; 0]
    {| comps := [{| c_type := MODULE; c_name := lit "tifs"; c_version := lit "0.8"; c_path := lit "/a";
                    c_bundled := false |};
                 {| c_type := MODULE; c_name := lit "tifs"; c_version := lit "0.9"; c_path := lit "/b";
                    c_bundled := false |}]; installedComponents := [] |} = (Ret r, s').
Proof.
  set (s := {| comps := _ |}).
  destruct (resolve_dependency_best s (demo_dependency "tifs" GT) [] [1; 0]) as (r & E & _).
  - repeat constructor.
  - constructor.
  - repeat constructor.
  - repeat constructor; vm_compute; discriminate.
  - exists r, s. exact E.
Defined.

(** ** Arguments *)

Lemma starts_with_needle_spec arg needle :
  starts_with_needle arg needle = is_prefix needle arg || is_prefix (lit "--" ++ needle) arg.
Proof.
  unfold starts_with_needle. f_equal; apply eq_true_iff_eq; rewrite bool_decide_eq_true; apply find_prefix.
Qed.

Lemma argument_value_skip pre arg rest needle :
  Forall (fun p => starts_with_needle p needle = false) pre ->
  argument_value (pre ++ arg :: rest) needle = argument_value (arg :: rest) needle.
Proof. induction 1 as [|p pre Hp _ IH]; [done|]. simpl. by rewrite Hp. Qed.

Lemma unquote_quoted v : 2 <= length v -> unquote (("034"%char :: v) ++ ["034"%char]) = v.
Proof.
  intros Hv. unfold unquote. simpl. rewrite length_app. simpl.
  replace (length v + 1) with (S (length v)) by lia.
  destruct v as [|a [|b v]]; [simpl in Hv; lia..|]. simpl. by rewrite take_app_length.
Qed.

(** Arguments are read back: when the first argument that starts with
    the name (or with [--] and the name) has the form [name=text],
    [HasArgument] is true and [GetArgumentValue] returns the text, without its
    double quotes if it is quoted and has at least two characters inside. *)
Theorem argument_roundtrip a pre rest (dashes : bool) name value :
  EQUALS ∉ name -> Forall (fun p => starts_with_needle p name = false) pre ->
  let a' text :=
    SetArguments (pre ++ ((if dashes then lit "--" else []) ++ name ++ EQUALS :: text) :: rest) a in
  HasArgument (a' value) name = true /\
  (head value <> Some "034"%char -> GetArgumentValue (a' value) name = value) /\
  (2 <= length value ->
     GetArgumentValue (a' (("034"%char :: value) ++ ["034"%char])) name = value).
Proof.
  intros Hname Hpre a'.
  assert (forall text, starts_with_needle ((if dashes then lit "--" else []) ++ name ++ EQUALS :: text) name = true)
    as Hs.
  { intros text. rewrite starts_with_needle_spec. destruct dashes.
    - rewrite (app_assoc (lit "--")), (is_prefix_app (lit "--" ++ name)). apply orb_true_r.
    - simpl app at 1. by rewrite is_prefix_app. }
  assert (forall text, GetArgumentValue (a' text) name = unquote text) as Hget.
  { intros text. unfold GetArgumentValue, a'. simpl a_arguments. rewrite argument_value_skip by done.
    cbn [argument_value]. rewrite Hs. rewrite (app_assoc _ name).
    set (k := _ ++ name). assert (EQUALS ∉ k) as Hk by (unfold k; destruct dashes; set_solver).
    rewrite find_equals by done. rewrite drop_app_ge by lia.
    by replace (length k + 1 - length k) with 1 by lia. }
  split_and!.
  - unfold HasArgument, a'. simpl a_arguments. rewrite existsb_app. simpl. rewrite Hs.
    by rewrite orb_true_r.
  - intros Hh. rewrite Hget. unfold unquote. destruct value as [|c value]; [done|].
    simpl in Hh. rewrite bool_decide_eq_false_2 by congruence. done.
  - intros Hl. rewrite Hget. by apply unquote_quoted.
Qed.

Lemma argument_roundtrip_witness :
  GetArgumentValue (SetArguments [lit "x"; lit "--debug=all"] demo_app) (lit "debug") = lit "all".
Proof.
  destruct (argument_roundtrip demo_app [lit "x"] [] true (lit "debug") (lit "all")) as (_ & E & _).
  - apply (bool_decide_unpack _). vm_compute. reflexivity.
  - apply (bool_decide_unpack _). vm_compute. reflexivity.
  - apply E. discriminate.
Defined.

(** One quoted character keeps its quotes, and a longer argument name passes
    for a shorter one. *)
Lemma argument_quote_kept :
  GetArgumentValue (SetArguments [lit "v=" ++ ["034"%char; "x"%char; "034"%char]] demo_app) (lit "v")
  = ["034"%char; "x"%char; "034"%char].
Proof. reflexivity. Qed.
Lemma argument_prefix_matches :
  HasArgument (SetArguments [lit "--debugger"] demo_app) (lit "debug") = true.
Proof. reflexivity. Qed.

(** ** Modules in use *)

Definition is_named (s : bstate) (name : str) (p : SharedComponent) : bool :=
  match comps s !! p with Some c => bool_decide (c_name c = name) | None => false end.
Definition module_named (s : bstate) (l : list SharedComponent) (name : str) : option SharedComponent :=
  head (List.filter (is_named s name) l).

Definition at_version (version : str) (c : KComponent) : KComponent :=
  {| c_type := c_type c; c_name := c_name c; c_version := version; c_path := c_path c;
     c_bundled := c_bundled c |}.

Lemma update_module_run s l name version :
  valid s l ->
  update_module l name version s
  = match module_named s l name with
    | Some p => (Ret true, {| comps := alter (at_version version) p (comps s);
                              installedComponents := installedComponents s |})
    | None => (Ret false, s)
    end.
Proof.
  induction 1 as [|p l [c Hc]%lookup_lt_is_Some_2 _ IH]; [done|].
  unfold module_named. cbn [update_module List.filter]. unfold is_named at 1. rewrite Hc.
  unfold mbind at 1, st_bind at 1, comp. rewrite Hc. case_decide as Hn.
  - rewrite bool_decide_eq_true_2 by done. unfold set_version, mbind, st_bind, comp. rewrite Hc.
    unfold modify, mret, st_ret. simpl. do 3 f_equal. apply list_eq. intros i.
    destruct (decide (i = p)) as [->|Hi].
    + rewrite list_lookup_alter_eq, Hc. rewrite list_lookup_insert_eq; [done|]. by eapply lookup_lt_Some.
    + by rewrite list_lookup_alter_ne, list_lookup_insert_ne.
  - rewrite bool_decide_eq_false_2 by done. apply IH.
Qed.

Lemma module_named_Some s l name p :
  module_named s l name = Some p -> exists c, comps s !! p = Some c /\ c_name c = name.
Proof.
  unfold module_named. destruct (List.filter (is_named s name) l) as [|q l'] eqn:E; [done|].
  intros [= ->]. assert (In p (List.filter (is_named s name) l)) as [_ H]%filter_In by (rewrite E; by left).
  unfold is_named in H. destruct (comps s !! p) as [c|]; [|done]. exists c.
  by apply bool_decide_eq_true in H.
Qed.

(** [UsingModule] keeps the modules of an application unique by name: if
    a module of that name is known, the first one gets the version (its path
    stays, nothing else changes, also for the other vectors that share the
    component); otherwise one new module is appended. In both cases
    the module of that name now has the version. *)
Theorem using_module_spec a s name version path :
  valid s (a_modules a) ->
  exists a' s', UsingModule a name version path s = (Ret a', s') /\
    match module_named s (a_modules a) name with
    | Some p => a' = a /\ comps s' = alter (at_version version) p (comps s)
    | None =>
        a' = with_components (a_modules a ++ [length (comps s)]) (a_sdks a) (a_runtime a) a /\
        comps s' = comps s ++ [{| c_type := MODULE; c_name := name; c_version := version;
                                  c_path := path; c_bundled := false |}]
    end /\
    exists p c, module_named s' (a_modules a') name = Some p /\ comps s' !! p = Some c /\
      c_version c = version.
Proof.
  intros Hv. unfold UsingModule. unfold mbind at 1, st_bind at 1.
  rewrite (update_module_run s _ name version Hv).
  destruct (module_named s (a_modules a) name) as [p|] eqn:E.
  - destruct (module_named_Some _ _ _ _ E) as (c & Hc & Hn).
    eexists a, _. split; [done|]. split; [done|]. exists p, (at_version version c).
    split_and!; [|by simpl; rewrite list_lookup_alter_eq, Hc|done]. rewrite <- E. unfold module_named. f_equal.
    apply List.filter_ext. intros q. unfold is_named. simpl. destruct (decide (q = p)) as [->|Hq].
    + by rewrite list_lookup_alter_eq, Hc.
    + by rewrite list_lookup_alter_ne.
  - eexists _, _. split; [reflexivity|]. split; [done|]. simpl. set (c := {| c_path := path |}).
    assert ((comps s ++ [c]) !! length (comps s) = Some c) as Hc by by apply list_lookup_middle.
    exists (length (comps s)), c. split_and!; [|done|done]. unfold module_named in *. simpl.
    rewrite List.filter_app. simpl. unfold is_named at 2. simpl. rewrite Hc.
    rewrite bool_decide_eq_true_2 by done.
    assert (List.filter (is_named {| comps := comps s ++ [c]; installedComponents := installedComponents s |} name)
              (a_modules a) = List.filter (is_named s name) (a_modules a)) as ->.
    { apply filter_ext_in. intros q Hq%list_elem_of_In. unfold is_named. simpl.
      destruct (valid_lookup _ _ _ Hv Hq) as [d Hd]. by rewrite (lookup_app_l_Some _ _ _ _ Hd), Hd. }
    by destruct (List.filter (is_named s name) (a_modules a)).
Qed.

Lemma using_module_spec_witness :
  exists a' s', UsingModule demo_app (lit "tiui") (lit "1.0") (lit "/m") empty_bstate = (Ret a', s') /\
    a_modules a' = [0].
Proof.
  destruct (using_module_spec demo_app empty_bstate (lit "tiui") (lit "1.0") (lit "/m"))
    as (a' & s' & E & [Ha _] & _); [constructor|].
  exists a', s'. split; [exact E|]. rewrite Ha. reflexivity.
Defined.

(** ** The manifest of an application *)

(** The last value of a key. *)
Definition last_value (key default : str) (m : list (str * str)) : str :=
  foldl (fun acc kv => if decide (kv.1 = key) then kv.2 else acc) default m.

(** The entries that are dependencies: all but the [#...] ones. *)
Definition is_dependency (kv : str * str) : bool := bool_decide (head kv.1 <> Some "#"%char).

Lemma find_at_bound needle s i p : find_at needle s i = Some p -> p + length needle <= i + length s.
Proof.
  revert i. induction s as [|c s IH]; intros i; simpl.
  - destruct (is_prefix needle []) eqn:E; [|done]. intros [= ->].
    apply is_prefix_nil_inv in E as ->. simpl. lia.
  - destruct (is_prefix needle (c :: s)) eqn:E.
    + intros [= ->]. apply is_prefix_spec in E as [k E]. apply (f_equal length) in E.
      rewrite length_app in E. simpl in E. lia.
    + intros H%IH. lia.
Qed.

Lemma has_length value needle : has value needle = true -> length needle <= length value.
Proof.
  unfold has, find. simpl. rewrite drop_0. intros H%bool_decide_eq_true.
  destruct (find_at needle value 0) as [p|] eqn:E; [|done]. apply find_at_bound in E. lia.
Qed.

Lemma dependency_total key value :
  exists d, NewDependencyFromManifestLine key value = Ret d /\ d_name d = key.
Proof.
  unfold NewDependencyFromManifestLine.
  assert ((requirement_of value).2 <= length value) as H.
  { unfold requirement_of.
    destruct (has value (lit ">=")) eqn:E1; [by apply has_length in E1|].
    destruct (has value (lit "<=")) eqn:E2; [by apply has_length in E2|].
    destruct (has value (lit "<")) eqn:E3; [by apply has_length in E3|].
    destruct (has value (lit ">")) eqn:E4; [by apply has_length in E4|].
    destruct (has value (lit "=")) eqn:E5; [by apply has_length in E5|]. simpl. lia. }
  destruct (requirement_of value) as [req start]. rewrite substr_Ret by done. eauto.
Qed.

(** The fields after the entries [m], read into [a]. *)
Record reads (m : list (str * str)) (a a' : Application) : Prop := {
  re_path : a_path a' = a_path a;
  re_name : a_name a' = last_value (lit "#appname") (a_name a) m;
  re_id : a_id a' = last_value (lit "#appid") (a_id a) m;
  re_guid : a_guid a' = last_value (lit "#guid") (a_guid a) m;
  re_publisher : a_publisher a' = last_value (lit "#publisher") (a_publisher a) m;
  re_url : a_url a' = last_value (lit "#url") (a_url a) m;
  re_version : a_version a' = last_value (lit "#version") (a_version a) m;
  re_stream : a_stream a' = last_value (lit "#stream") (a_stream a) m;
  re_logLevel : a_logLevel a' = last_value (lit "#loglevel") (a_logLevel a) m;
  re_dependencies : exists ds, a_dependencies a' = a_dependencies a ++ ds /\
    Forall2 (fun kv d => NewDependencyFromManifestLine kv.1 kv.2 = Ret d)
      (List.filter is_dependency m) ds
}.

(** An image path that [Join] takes. *)
Definition image_ok (kv : str * str) : Prop := kv.1 = lit "#image" -> clean_part kv.2.

Lemma manifest_entry_run a kv :
  ink (a_path a) -> image_ok kv -> exists a', manifest_entry a kv = Ret a' /\ reads [kv] a a'.
Proof.
  intros Ha Himg. destruct kv as [key value].
  assert (forall a', a_dependencies a' = a_dependencies a -> head key = Some "#"%char ->
    exists ds, a_dependencies a' = a_dependencies a ++ ds /\
      Forall2 (fun kv d => NewDependencyFromManifestLine kv.1 kv.2 = Ret d)
        (List.filter is_dependency [(key, value)]) ds) as Hno.
  { intros a' E Hk. exists []. rewrite app_nil_r. split; [done|]. simpl. unfold is_dependency. simpl.
    rewrite bool_decide_eq_false_2 by tauto. constructor. }
  unfold manifest_entry. repeat case_decide; try (subst key; eexists; split; [reflexivity|]; constructor;
    try done; by apply Hno).
  - subst key. unfold image_ok in Himg. specialize (Himg eq_refl). simpl in Himg.
    destruct (Join_ink (a_path a) [lit "Resources"] Ha ltac:(clean_parts) ltac:(done)) as (p & E & Hp).
    unfold GetResourcesPath. rewrite E, res_bind_ret.
    destruct (Join_ink (p ++ KR_PATH_SEP ++ intercalate KR_PATH_SEP [lit "Resources"]) [value])
      as (q & E2 & _); [by apply ink_joined; [|clean_parts|]|by apply Forall_singleton|done|].
    rewrite E2, res_bind_ret. eexists. split; [reflexivity|]. constructor; try done. by apply Hno.
  - eexists. split; [reflexivity|].
    constructor; unfold last_value; simpl; rewrite ?decide_False by done; try done. by apply Hno.
  - destruct (dependency_total key value) as (d & E & _). rewrite E, res_bind_ret.
    eexists. split; [reflexivity|].
    constructor; unfold last_value; simpl; rewrite ?decide_False by done; try done.
    exists [d]. split; [done|]. unfold is_dependency. simpl. rewrite bool_decide_eq_true_2 by done.
    by repeat constructor.
Qed.

Lemma last_value_cons key d kv m : last_value key d (kv :: m) = last_value key (last_value key d [kv]) m.
Proof. done. Qed.

Lemma manifest_entries_run m : forall a,
  ink (a_path a) -> Forall image_ok m -> exists a', manifest_entries a m = Ret a' /\ reads m a a'.
Proof.
  induction m as [|kv m IH]; intros a Ha Him.
  { exists a. split; [done|]. constructor; try done. exists []. rewrite app_nil_r. split; [done|constructor]. }
  apply Forall_cons in Him as [Hkv Him].
  destruct (manifest_entry_run a kv Ha Hkv) as (a1 & E1 & R1).
  destruct (IH a1) as (a2 & E2 & R2); [by rewrite (re_path _ _ _ R1)|done|].
  exists a2. split; [cbn [manifest_entries]; by rewrite E1, res_bind_ret|].
  destruct R1 as [P1 N1 I1 G1 Pu1 U1 V1 S1 L1 (ds1 & D1 & F1)].
  destruct R2 as [P2 N2 I2 G2 Pu2 U2 V2 S2 L2 (ds2 & D2 & F2)].
  constructor; rewrite ?(last_value_cons _ _ kv m); try congruence.
  exists (ds1 ++ ds2). rewrite D2, D1, app_assoc. split; [done|].
  change (kv :: m) with ([kv] ++ m). rewrite List.filter_app. by apply Forall2_app.
Qed.

(** An application is what its manifest says. For a readable manifest
    with entries, [NewApplication] returns an application; each of its text
    fields is the last value of its key, and else empty (the stream: else
    "production"); the entries whose key does not start with [#] are its
    dependencies, in order, as [NewDependencyFromManifestLine] reads them; and
    nothing is resolved yet. Without entries the result is a null pointer. *)
Theorem new_application_spec fs manifestPath appPath m :
  ReadManifestFile fs manifestPath = Ret m -> ink appPath -> Forall image_ok m ->
  if decide (m = []) then NewApplication2 fs manifestPath appPath = Ret None
  else exists a, NewApplication2 fs manifestPath appPath = Ret (Some a) /\
    reads m (new_Application appPath manifestPath) a.
Proof.
  intros E Ha Him. unfold NewApplication2. rewrite E, res_bind_ret.
  destruct m as [|kv m]; [done|]. rewrite decide_False by done.
  destruct (manifest_entries_run (kv :: m) (new_Application appPath manifestPath) Ha Him) as (a & E2 & R).
  exists a. by rewrite E2, res_bind_ret.
Qed.

Definition demo_manifest_fs : FS :=
  fs_of [(lit "/app/manifest",
          lit "#appname:Demo" ++ ["010"%char] ++ lit "#image: icon.png" ++ ["010"%char] ++
          lit "runtime:>=0.8" ++ ["010"%char] ++ lit "tiui: 0.9")] [].

Lemma new_application_spec_witness :
  exists a, NewApplication2 demo_manifest_fs (lit "/app/manifest") (lit "/app") = Ret (Some a) /\
    a_name a = lit "Demo" /\ a_stream a = lit "production".
Proof.
  pose proof (new_application_spec demo_manifest_fs (lit "/app/manifest") (lit "/app")
    [(lit "#appname", lit "Demo"); (lit "#image", lit "icon.png"); (lit "runtime", lit ">=0.8");
     (lit "tiui", lit "0.9")]) as H.
  destruct H as (a & E & R).
  - vm_compute. reflexivity.
  - apply (bool_decide_unpack _). vm_compute. reflexivity.
  - repeat (apply Forall_cons; split; [intros Hk; first [discriminate Hk
      |apply (bool_decide_unpack _); vm_compute; reflexivity]|]). apply Forall_nil. exact I.
  - exists a. split; [exact E|]. split; [exact (re_name _ _ _ R)|exact (re_stream _ _ _ R)].
Defined.
