(* ===== verification/AppUrl.v ===== *)
(** * AppUrl: the app: and ti: URLs (api/utils/url_utils.cpp, the part that
    is built into the kroll library)

    The URL parser is Poco's: [parse_uri] is a parameter. The host has one
    application, which is passed along; what is logged is kept in the state. *)

From S2P Require Import Prelude CppString FileUtils UrlUtils BootUtils EnvironmentUtils.
From S2P Require Import Application ApplicationLaws.
From stdpp Require Import options.

(** The parts of a [Poco::URI] that are asked for. *)
Record URI := { getScheme : str; getHost : str; getPathSegments : list str }.

(** The components and the log of the URLUtils logger. *)
Record ustate := { u_boot : bstate; u_log : list str }.
Abbreviation UM := (ST ustate).

Definition with_boot {A} (m : BM A) : UM A := fun s =>
  let '(r, b) := m (u_boot s) in (r, {| u_boot := b; u_log := u_log s |}).
Definition log_error (msg : str) : UM unit := fun s =>
  (Ret tt, {| u_boot := u_boot s; u_log := u_log s ++ [msg] |}).

Section AppUrl.
Context (parse_uri : str -> res URI) (app : Application).

(** [appLength] is 6; the text of the URL starts with [app:]. *)
Definition NormalizeAppURL (url : str) : res str :=
  idPart ← substr url 6 (Some (length (a_id app)));
  if decide (idPart = a_id app) then Ret url
  else rest ← substr url 6 None; Ret (lit "app://" ++ a_id app ++ lit "/" ++ rest).

Definition NormalizeURL (url : str) : res str :=
  inURI ← parse_uri url;
  if decide (getScheme inURI <> lit "app") then Ret url else NormalizeAppURL url.

(** The loop over the segments. *)
Fixpoint join_segments (path : str) (segments : list str) : res str :=
  match segments with
  | [] => Ret path
  | s :: rest => path ← Join [path; s]; join_segments path rest
  end.

Definition could_not_convert (url : str) : str := lit "Could not convert " ++ url ++ lit " to a path".

(** [catch (ValueException& e)] and [catch (...)]: the exceptions are logged
    and the URL is returned. The only ValueException that is thrown carries a
    text, shown between quotes. *)
Definition TiURLToPath (tiURL : str) : UM str :=
  try_catch
    (inURI ← lift (parse_uri tiURL);
     if decide (getScheme inURI <> lit "ti") then mret tiURL
     else
       let host := getHost inURI in
       path ← with_boot (GetComponentPath app host);
       if decide (path = []) then
         log_error (could_not_convert tiURL ++ lit ": " ++
                    ["034"%char] ++ lit "Could not find component " ++ host ++ ["034"%char]);;
         mret tiURL
       else lift (join_segments path (getPathSegments inURI)))
    (fun _ => log_error (could_not_convert tiURL);; mret tiURL).

Definition AppURLToPath (inURL : str) : UM str :=
  try_catch
    (inURI ← lift (parse_uri inURL);
     if decide (getScheme inURI <> lit "app") then mret inURL
     else
       appURL ← lift (NormalizeAppURL inURL);
       inURI ← lift (parse_uri appURL);
       path ← lift (GetResourcesPath app);
       lift (join_segments path (getPathSegments inURI)))
    (fun _ => log_error (could_not_convert inURL);; mret inURL).

(** The URI is parsed outside of the [try]. *)
Definition URLToPath (url : str) : UM str :=
  inURI ← lift (parse_uri url);
  if decide (getScheme inURI = lit "ti") then TiURLToPath url
  else if decide (getScheme inURI = lit "app") then AppURLToPath url
  else mret url.

(** ** Laws *)

Lemma NormalizeAppURL_run rest :
  NormalizeAppURL (lit "app://" ++ rest)
  = Ret (lit "app://" ++ (if is_prefix (a_id app) rest then rest else a_id app ++ lit "/" ++ rest)).
Proof.
  unfold NormalizeAppURL. rewrite !substr_Ret by (rewrite length_app; simpl; lia).
  change (drop 6 (lit "app://" ++ rest)) with rest. rewrite res_bind_ret.
  destruct (is_prefix (a_id app) rest) eqn:E.
  - apply is_prefix_spec in E as [k ->]. by rewrite take_app_length, decide_True.
  - rewrite decide_False; [done|]. intros Ht.
    assert (is_prefix (a_id app) rest = true); [|congruence].
    rewrite <- (take_drop (length (a_id app)) rest), Ht. apply is_prefix_app.
Qed.

(** Normalising an app: URL puts the id of the application in front and
    does so once: for every URL that starts with [app://], the result exists,
    starts with [app://] and the id, keeps what followed, and normalising
    it again changes nothing. *)
Theorem normalize_app_url_idempotent rest :
  exists u, NormalizeAppURL (lit "app://" ++ rest) = Ret u /\ NormalizeAppURL u = Ret u /\
    is_prefix (lit "app://" ++ a_id app) u = true /\
    (u = lit "app://" ++ rest \/ u = lit "app://" ++ a_id app ++ lit "/" ++ rest).
Proof.
  rewrite NormalizeAppURL_run. destruct (is_prefix (a_id app) rest) eqn:E.
  - exists (lit "app://" ++ rest). rewrite NormalizeAppURL_run, E. by split_and!; auto.
  - eexists. split; [reflexivity|]. rewrite NormalizeAppURL_run, is_prefix_app.
    split_and!; [done|by rewrite (app_assoc (lit "app://") (a_id app)), is_prefix_app|auto].
Qed.
End AppUrl.

(** A URL that is shorter than [app://] leaves [NormalizeURL] by an exception. *)
Lemma normalize_short_url app parse :
  parse (lit "app:x") = Ret {| getScheme := lit "app"; getHost := []; getPathSegments := [lit "x"] |} ->
  NormalizeURL parse app (lit "app:x") = Throw out_of_range.
Proof. unfold NormalizeURL. by intros ->. Qed.

(** The host of another application that starts with the id is taken for it. *)
Lemma normalize_prefix_host app :
  a_id app = lit "com.demo" ->
  NormalizeAppURL app (lit "app://com.demoapp/x") = Ret (lit "app://com.demoapp/x").
Proof. unfold NormalizeAppURL. by intros ->. Qed.
