(* ===== verification/Logger.v ===== *)
(** * Logger: the tree of loggers and the root logger (api/logger.cpp)

    A logger's name is a path of dots; a logger takes the level of its parent
    when it is created. The messages go to the root logger, which writes them
    to the console, to a file and to callbacks. The formatter of the lines is
    Poco's, the callbacks are other code: both are parameters. *)

From S2P Require Import Prelude CppString FileUtils.
From stdpp Require Import options.

(** [Level] of any other [int]: callers cast numbers to [Logger::Level]. *)
Inductive Level :=
  | LFATAL | LCRITICAL | LERROR | LWARN | LNOTICE | LINFO | LDEBUG | LTRACE
  | LEVEL (n : Z).
#[export] Instance Level_eq_dec : EqDecision Level.
Proof. solve_decision. Defined.

(** [Poco::Message::Priority]: 1 is the most urgent. *)
Definition priority (l : Level) : Z :=
  match l with
  | LFATAL => 1 | LCRITICAL => 2 | LERROR => 3 | LWARN => 4 | LNOTICE => 5 | LINFO => 6
  | LDEBUG => 7 | LTRACE => 8 | LEVEL n => n
  end%Z.
(** [(Logger::Level) n] *)
Definition level_of_int (n : Z) : Level :=
  match n with
  | 1 => LFATAL | 2 => LCRITICAL | 3 => LERROR | 4 => LWARN | 5 => LNOTICE | 6 => LINFO
  | 7 => LDEBUG | 8 => LTRACE | _ => LEVEL n
  end%Z.

(** A [Logger]; the [RootLogger] has more fields. *)
Record logger := { lg_name : str; lg_level : Level }.
Record root_logger := {
  consoleLogging : bool;
  fileLogging : bool;
  callbacks : list N                 (* addresses of functions *)
}.

Record Message := { msg_source : str; msg_text : str; msg_prio : Level; msg_time : Z }.

Record lstate := {
  lg_next : N;                       (* the first free address *)
  lg_store : gmap N logger;          (* the live loggers *)
  lg_roots : gmap N root_logger;     (* the live RootLoggers' other fields *)
  loggers : gmap str N;              (* Logger::loggers *)
  lg_instance : option N;            (* RootLogger::instance *)
  lg_time : Z;                       (* the clock *)
  logFile : list str;                (* the lines written, in order *)
  lg_console : list str;
  lg_calls : list (N * Level * str)  (* the calls of callbacks, in order *)
}.
Abbreviation LM := (ST lstate).

Definition with_loggers next store roots names inst (s : lstate) : lstate :=
  {| lg_next := next; lg_store := store; lg_roots := roots; loggers := names; lg_instance := inst;
     lg_time := lg_time s; logFile := logFile s; lg_console := lg_console s; lg_calls := lg_calls s |}.
Definition with_lines file console calls (s : lstate) : lstate :=
  {| lg_next := lg_next s; lg_store := lg_store s; lg_roots := lg_roots s; loggers := loggers s;
     lg_instance := lg_instance s; lg_time := lg_time s; logFile := file; lg_console := console;
     lg_calls := calls |}.

Definition lg_alloc : LM N := fun s =>
  (Ret (lg_next s), with_loggers (N.succ (lg_next s)) (lg_store s) (lg_roots s) (loggers s)
                      (lg_instance s) s).
Definition put_logger (p : N) (l : logger) : LM unit := modify (fun s =>
  with_loggers (lg_next s) (<[p := l]> (lg_store s)) (lg_roots s) (loggers s) (lg_instance s) s).
Definition put_root (p : N) (r : root_logger) : LM unit := modify (fun s =>
  with_loggers (lg_next s) (lg_store s) (<[p := r]> (lg_roots s)) (loggers s) (lg_instance s) s).
(** [delete p]: also done when a constructor throws. *)
Definition drop_logger (p : N) : LM unit := modify (fun s =>
  with_loggers (lg_next s) (delete p (lg_store s)) (lg_roots s) (loggers s) (lg_instance s) s).
Definition put_name (name : str) (p : N) : LM unit := modify (fun s =>
  with_loggers (lg_next s) (lg_store s) (lg_roots s) (<[name := p]> (loggers s)) (lg_instance s) s).
Definition put_instance (p : N) : LM unit := modify (fun s =>
  with_loggers (lg_next s) (lg_store s) (lg_roots s) (loggers s) (Some p) s).

(** [p->...] of a logger that may have been deleted. *)
Definition the_logger (p : N) : LM logger := fun s =>
  (match lg_store s !! p with Some l => Ret l | None => Undef end, s).
Definition the_root (p : N) : LM root_logger := fun s =>
  (match lg_roots s !! p with Some r => Ret r | None => Undef end, s).

(** The name before the last dot. *)
Definition parent_name (name : str) : option str :=
  match rfind name (lit ".") (length name) with
  | None => None
  | Some lastPeriodPos => Some (take lastPeriodPos name)
  end.

Definition GetRootLogger : LM (option N) := gets lg_instance.

Section Logger.
Context (PRODUCT_NAME : str).

(** [Logger::Logger(std::string)], with [GetParent]: [get] is [GetImpl]. *)
Definition GetParent_of (get : str -> LM N) (name : str) : LM (option N) :=
  match parent_name name with
  | None => GetRootLogger
  | Some parentName => p ← get parentName; mret (Some p)
  end.
Definition new_Logger (get : str -> LM N) (name : str) : LM N :=
  this ← lg_alloc;
  parent ← GetParent_of get name;
  parent ← some_or_undef parent;
  l ← the_logger parent;
  put_logger this {| lg_name := name; lg_level := lg_level l |};;
  mret this.

(** The names get shorter: [GetImpl] ends after at most [length name + 1]
    nested calls. *)
Fixpoint GetImpl_fuel (fuel : nat) (name : str) : LM N :=
  match fuel with
  | O => lift Fuel
  | S fuel' =>
      known ← gets loggers;
      match known !! name with
      | Some p => mret p
      | None => p ← new_Logger (GetImpl_fuel fuel') name; put_name name p;; mret p
      end
  end.
Definition GetImpl (name : str) : LM N := GetImpl_fuel (S (length name)) name.

(** [Logger::Get] *)
Definition Logger_Get (name : str) : LM N := GetImpl (PRODUCT_NAME ++ lit "." ++ name).

Definition GetChild (this : N) (name : str) : LM N :=
  l ← the_logger this; GetImpl (lg_name l ++ lit "." ++ name).
Definition GetParent (this : N) : LM (option N) :=
  l ← the_logger this; GetParent_of GetImpl (lg_name l).

(** [RootLogger::RootLogger]; [open] is what creating the directories and
    opening the file for writing gives. *)
Definition new_RootLogger (open : str -> res bool) (console : bool) (logFilePath : str)
    (level : Level) : LM N :=
  this ← lg_alloc;
  put_logger this {| lg_name := PRODUCT_NAME; lg_level := level |};;
  put_instance this;;
  file ← (match logFilePath with
          | [] => mret false
          | _ => try_catch (lift (open logFilePath)) (fun e => drop_logger this;; throw e)
          end);
  put_root this {| consoleLogging := console; fileLogging := file; callbacks := [] |};;
  mret this.

Definition Logger_Initialize (open : str -> res bool) (console : bool) (logFilePath : str)
    (level : Level) : LM unit :=
  p ← new_RootLogger open console logFilePath level; put_name PRODUCT_NAME p.

(** Every registered logger is deleted; [RootLogger::instance] is not reset. *)
Definition Logger_Shutdown : LM unit := modify (fun s =>
  let dead := map_to_list (loggers s) in
  with_loggers (lg_next s) (foldr (fun '(_, p) m => delete p m) (lg_store s) dead)
    (foldr (fun '(_, p) m => delete p m) (lg_roots s) dead) ∅ (lg_instance s) s).

Definition AddLoggerCallback (callback : N) : LM unit :=
  root ← GetRootLogger;
  p ← some_or_undef root;
  r ← the_root p;
  put_root p {| consoleLogging := consoleLogging r; fileLogging := fileLogging r;
                callbacks := callbacks r ++ [callback] |}.

(** [Logger::GetLevel(std::string&)]; [debug] is [Host::IsDebugMode]. *)
Definition GetLevel_of_string (debug : bool) (levelString : str) : Level :=
  if decide (levelString = lit "TRACE") then LTRACE
  else if decide (levelString = lit "DEBUG") then LDEBUG
  else if decide (levelString = lit "INFO") then LINFO
  else if decide (levelString = lit "NOTICE") then LNOTICE
  else if decide (levelString = lit "WARN") then LWARN
  else if decide (levelString = lit "ERROR") then LERROR
  else if decide (levelString = lit "CRITICAL") then LCRITICAL
  else if decide (levelString = lit "FATAL") then LFATAL
  else if debug then LDEBUG
  else LINFO.

Definition Logger_GetLevel (this : N) : LM Level := l ← the_logger this; mret (lg_level l).
Definition Logger_GetName (this : N) : LM str := l ← the_logger this; mret (lg_name l).
Definition SetLevel (this : N) (level : Level) : LM unit :=
  l ← the_logger this; put_logger this {| lg_name := lg_name l; lg_level := level |}.
Definition IsEnabled (this : N) (level : Level) : LM bool :=
  l ← the_logger this; mret (priority level <=? priority (lg_level l))%Z.

(** ** Messages *)

Context (format : Message -> str) (callback_body : N -> Level -> str -> LM str).

(** The loop over the callbacks. The line is passed by reference: a callback
    may change it for the next one, and add callbacks. *)
Fixpoint callbacks_loop (fuel : nat) (root : N) (i : nat) (level : Level) (line : str) : LM unit :=
  match fuel with
  | O => lift Fuel
  | S fuel' =>
      r ← the_root root;
      match callbacks r !! i with
      | None => mret tt
      | Some c =>
          modify (fun s => with_lines (logFile s) (lg_console s) (lg_calls s ++ [(c, level, line)]) s);;
          line ← callback_body c level line;
          callbacks_loop fuel' root (S i) level line
      end
  end.

Definition LogImpl (fuel : nat) (root : N) (m : Message) : LM unit :=
  let line := format m in
  r ← the_root root;
  (if fileLogging r
   then modify (fun s => with_lines (logFile s ++ [line]) (lg_console s) (lg_calls s) s)
   else mret tt);;
  (if consoleLogging r
   then modify (fun s => with_lines (logFile s) (lg_console s ++ [c_str line]) (lg_calls s) s)
   else mret tt);;
  callbacks_loop fuel root 0 (msg_prio m) line.

(** [Log(Poco::Message&)] *)
Definition Log_message (fuel : nat) (this : N) (m : Message) : LM unit :=
  l ← the_logger this;
  if (priority (msg_prio m) <=? priority (lg_level l))%Z then
    root ← GetRootLogger; p ← some_or_undef root; LogImpl fuel p m
  else mret tt.

(** [Log(Level, std::string&)] *)
Definition Log (fuel : nat) (this : N) (level : Level) (message : str) : LM unit :=
  l ← the_logger this;
  time ← gets lg_time;
  Log_message fuel this
    {| msg_source := lg_name l; msg_text := message; msg_prio := level; msg_time := time |}.

Definition LOGGER_MAX_ENTRY_SIZE : nat := 2048.

(** [Format] of a text that [printf] would give: [vsnprintf] writes at most
    [LOGGER_MAX_ENTRY_SIZE - 1] bytes, the NUL included. *)
Definition Format (text : str) : str := c_str (take (LOGGER_MAX_ENTRY_SIZE - 2) text).

(** [Log(Level, const char*, va_list)] *)
Definition Log_va (fuel : nat) (this : N) (level : Level) (text : str) : LM unit :=
  l ← the_logger this;
  if (priority level <=? priority (lg_level l))%Z then Log fuel this level (Format text) else mret tt.

(** [Log(Level, const char*, ...)] *)
Definition Log_format (fuel : nat) (this : N) (level : Level) (text : str) : LM unit :=
  enabled ← IsEnabled this level;
  if enabled : bool then Log_va fuel this level text else mret tt.

(** [Trace(std::string)], [Debug(std::string)], ..., one for each level. *)
Definition Log_at (fuel : nat) (level : Level) (this : N) (message : str) : LM unit :=
  enabled ← IsEnabled this level;
  if enabled : bool then Log fuel this level message else mret tt.
(** [Trace(const char*, ...)], [Debug(const char*, ...)], ... *)
Definition Log_at_format (fuel : nat) (level : Level) (this : N) (text : str) : LM unit :=
  enabled ← IsEnabled this level;
  if enabled : bool then Log_va fuel this level text else mret tt.

End Logger.

(** ** The tree of loggers *)

(** Every registered logger is alive under its name, and so is the root. *)
Record logger_wf (s : lstate) : Prop := {
  wf_names name p : loggers s !! name = Some p -> exists l, lg_store s !! p = Some l /\ lg_name l = name;
  wf_root : exists p l, lg_instance s = Some p /\ lg_store s !! p = Some l;
  wf_fresh p : is_Some (lg_store s !! p) -> (p < lg_next s)%N
}.

(** The level of the nearest registered logger above [name], or of the root. *)
Fixpoint inherited (fuel : nat) (s : lstate) (name : str) : option Level :=
  match fuel with
  | O => None
  | S fuel' =>
      match loggers s !! name with
      | Some p => lg_level <$> lg_store s !! p
      | None =>
          match parent_name name with
          | None => p ← lg_instance s; lg_level <$> lg_store s !! p
          | Some parentName => inherited fuel' s parentName
          end
      end
  end.
Definition inherited_level (s : lstate) (name : str) : option Level :=
  inherited (S (length name)) s name.

(** [s2] has all of [s1] and has written nothing; an address of [s1] that was
    not alive is not used. *)
Record extends (s1 s2 : lstate) : Prop := {
  ext_names : loggers s1 ⊆ loggers s2;
  ext_store : lg_store s1 ⊆ lg_store s2;
  ext_next : (lg_next s1 <= lg_next s2)%N;
  ext_old q : (q < lg_next s1)%N -> lg_store s1 !! q = None -> lg_store s2 !! q = None;
  ext_instance : lg_instance s1 = lg_instance s2;
  ext_roots : lg_roots s1 = lg_roots s2;
  ext_file : logFile s1 = logFile s2;
  ext_console : lg_console s1 = lg_console s2;
  ext_calls : lg_calls s1 = lg_calls s2
}.
#[export] Instance extends_preorder : PreOrder extends.
Proof.
  split; [by intros s|]. intros s1 s2 s3 [] []. constructor; try congruence; try by etrans.
  eauto using N.lt_le_trans.
Qed.

Lemma parent_name_shorter name parent : parent_name name = Some parent -> length parent < length name.
Proof.
  unfold parent_name, rfind. destruct (_ <? _) eqn:H; [done|].
  destruct (rfind_at _ _ _) eqn:E; [|done]. intros [= <-].
  apply rfind_at_le in E. apply Nat.ltb_ge in H. rewrite length_take. simpl in *. lia.
Qed.

Lemma inherited_alloc fuel s n name :
  inherited fuel (with_loggers n (lg_store s) (lg_roots s) (loggers s) (lg_instance s) s) name =
  inherited fuel s name.
Proof.
  revert name. induction fuel as [|fuel IH]; intros name; [done|]. simpl.
  case_match; [done|]. by case_match.
Qed.

Lemma logger_wf_alloc s : logger_wf s ->
  logger_wf (with_loggers (N.succ (lg_next s)) (lg_store s) (lg_roots s) (loggers s) (lg_instance s) s).
Proof.
  intros [Hn Hr Hf]. split; simpl; [done|done|]. intros p Hp. specialize (Hf p Hp). lia.
Qed.

Lemma inherited_fuel f1 f2 s name :
  length name < f1 -> length name < f2 -> inherited f1 s name = inherited f2 s name.
Proof.
  revert f2 name. induction f1 as [|f1 IH]; intros [|f2] name H1 H2; try lia. simpl.
  case_match; [done|]. case_match eqn:E; [|done]. apply parent_name_shorter in E. apply IH; lia.
Qed.

(** A new logger under a new name. *)
Definition register (p : N) (name : str) (level : Level) (s : lstate) : lstate :=
  with_loggers (lg_next s) (<[p := {| lg_name := name; lg_level := level |}]> (lg_store s))
    (lg_roots s) (<[name := p]> (loggers s)) (lg_instance s) s.

Lemma register_wf s0 s p name level :
  logger_wf s -> extends s0 s -> lg_store s !! p = None -> (lg_next s0 <= p < lg_next s)%N ->
  loggers s !! name = None ->
  logger_wf (register p name level s) /\ extends s0 (register p name level s).
Proof.
  intros [Hn Hr Hf] Hext Hp [Hge Hlt] Hname. split; constructor; simpl; try apply Hext.
  - intros name' p' [[<- <-]|[Hne Hp']]%lookup_insert_Some.
    + eexists. by rewrite lookup_insert_eq.
    + destruct (Hn _ _ Hp') as (l & Hl & <-). exists l. rewrite lookup_insert_ne; [done|]. naive_solver.
  - destruct Hr as (q & l & Hq & Hl). exists q, l. rewrite lookup_insert_ne; [done|]. naive_solver.
  - intros p' [l [[<- _]|[_ Hl]]%lookup_insert_Some]; [done|]. by apply Hf.
  - etrans; [apply Hext|]. by apply insert_subseteq.
  - etrans; [apply Hext|]. by apply insert_subseteq.
  - intros q Hq Hnone. rewrite lookup_insert_ne by lia. by apply (ext_old _ _ Hext).
Qed.

(** What [GetImpl] and [GetParent] promise: a logger with the name and the
    inherited level, and nothing lost. *)
Definition found (s : lstate) (name : str) (p : N) (s' : lstate) : Prop :=
  logger_wf s' /\ extends s s' /\ loggers s' !! name = Some p /\
  exists l, lg_store s' !! p = Some l /\ lg_name l = name /\ inherited_level s name = Some (lg_level l).

Lemma GetImpl_known s name p : loggers s !! name = Some p -> GetImpl name s = (Ret p, s).
Proof. intros H. unfold GetImpl. simpl. step (eq_refl : gets loggers s = _). by rewrite H. Qed.

Lemma GetParent_found (get : str -> LM N) s name :
  logger_wf s -> loggers s !! name = None ->
  (forall parent, parent_name name = Some parent -> exists p s', get parent s = (Ret p, s') /\ found s parent p s'
     /\ (forall n, loggers s !! n = None -> length parent < length n -> loggers s' !! n = None)) ->
  exists p s' l, GetParent_of get name s = (Ret (Some p), s') /\ logger_wf s' /\ extends s s' /\
    lg_store s' !! p = Some l /\ inherited_level s name = Some (lg_level l) /\
    (forall n, loggers s !! n = None -> length name <= length n -> loggers s' !! n = None).
Proof.
  intros Hwf Hname Hget. unfold GetParent_of, inherited_level. simpl. rewrite Hname.
  destruct (parent_name name) as [parent|] eqn:E.
  - destruct (Hget _ eq_refl) as (p & s' & Hp & (Hwf' & Hext & _ & l & Hl & _ & Hinh) & Hnew).
    exists p, s', l. step Hp. split_and!; try done.
    + rewrite (inherited_fuel _ (S (length parent))); [done| |lia].
      by apply parent_name_shorter in E.
    + intros n Hn Hlen. apply Hnew; [done|]. apply parent_name_shorter in E. lia.
  - destruct (wf_root _ Hwf) as (p & l & Hp & Hl). exists p, s, l.
    unfold GetRootLogger, gets. rewrite Hp. simpl. by rewrite Hl.
Qed.

Lemma GetImpl_fuel_found fuel s name :
  logger_wf s -> length name < fuel ->
  exists p s', GetImpl_fuel fuel name s = (Ret p, s') /\ found s name p s' /\
    (forall n, loggers s !! n = None -> length name < length n -> loggers s' !! n = None).
Proof.
  revert s name. induction fuel as [|fuel IH]; intros s name Hwf Hlen; [lia|]. simpl.
  step (eq_refl : gets loggers s = _). destruct (loggers s !! name) as [p|] eqn:Hname.
  { exists p, s. split_and!; [done| |done]. destruct (wf_names _ Hwf _ _ Hname) as (l & Hl & Hln).
    split_and!; [done..|]. exists l. split_and!; [done..|].
    unfold inherited_level. simpl. by rewrite Hname, Hl. }
  set (s0 := with_loggers (N.succ (lg_next s)) (lg_store s) (lg_roots s) (loggers s) (lg_instance s) s).
  destruct (GetParent_found (GetImpl_fuel fuel) s0 name) as
    (q & s1 & l & Hq & Hwf1 & Hext1 & Hl & Hinh & Hnew); [by apply logger_wf_alloc|done| |].
  { intros parent Hp. apply parent_name_shorter in Hp.
    apply IH; [by apply logger_wf_alloc|lia]. }
  assert (Hthis : lg_store s1 !! lg_next s = None).
  { apply (ext_old _ _ Hext1); [simpl; lia|]. apply eq_None_not_Some. intros Hs.
    apply (wf_fresh _ Hwf) in Hs. lia. }
  destruct (register_wf s s1 (lg_next s) name (lg_level l)) as [Hwf2 Hext2]; try done.
  { destruct Hext1; constructor; try done; simpl in *; [lia|]. intros r Hr. apply ext_old0. lia. }
  { pose proof (ext_next _ _ Hext1). simpl in *. lia. }
  { by apply Hnew. }
  exists (lg_next s), (register (lg_next s) name (lg_level l) s1). split_and!.
  - unfold new_Logger. rewrite st_bind_assoc. step (eq_refl : lg_alloc s = _).
    rewrite st_bind_assoc. step Hq. rewrite st_bind_assoc.
    step (eq_refl : some_or_undef (Some q) s1 = _). rewrite st_bind_assoc.
    assert (Hl' : the_logger q s1 = (Ret l, s1)) by (unfold the_logger; by rewrite Hl).
    by step Hl'.
  - split_and!; try done; simpl; [by rewrite lookup_insert_eq|].
    eexists. rewrite lookup_insert_eq. split_and!; [done..|]. simpl. rewrite <- Hinh.
    symmetry. apply inherited_alloc.
  - intros n Hn Hlt. simpl. rewrite lookup_insert_ne by (intros <-; lia). apply Hnew; [done|lia].
Qed.

(** C28: [Logger::Get] always ends and gives a logger with the full name; it is
    a registered one, or a new one whose level is that of the nearest
    registered logger above it (the root logger's when there is none). No
    logger is lost or changed, nothing is written, and asking again gives the
    same logger and changes nothing. *)
Theorem logger_get_spec (PRODUCT_NAME : str) (s : lstate) (name : str) :
  logger_wf s ->
  let full := PRODUCT_NAME ++ lit "." ++ name in
  exists p s', Logger_Get PRODUCT_NAME name s = (Ret p, s') /\ found s full p s' /\
    Logger_Get PRODUCT_NAME name s' = (Ret p, s').
Proof.
  intros Hwf full. destruct (GetImpl_fuel_found (S (length full)) s full) as (p & s' & Hp & Hf & _);
    [done|lia|].
  exists p, s'. split_and!; [done|done|]. apply GetImpl_known. by destruct Hf as (_ & _ & ? & _).
Qed.

(** The state of the process before [Logger::Initialize]. *)
Definition no_loggers : lstate :=
  {| lg_next := 1; lg_store := ∅; lg_roots := ∅; loggers := ∅; lg_instance := None; lg_time := 0;
     logFile := []; lg_console := []; lg_calls := [] |}.
Definition initialized : lstate :=
  (Logger_Initialize (lit "kroll") (fun _ => Ret true) true (lit "log") LWARN no_loggers).2.

Lemma initialized_wf : logger_wf initialized.
Proof.
  split.
  - change (loggers initialized) with ({[lit "kroll" := 1%N]} : gmap str N).
    intros name p [<- <-]%lookup_singleton_Some. by eexists.
  - by do 2 eexists.
  - change (lg_store initialized)
      with ({[1%N := {| lg_name := lit "kroll"; lg_level := LWARN |}]} : gmap N logger).
    by intros p [l [<- _]%lookup_singleton_Some].
Qed.

(** [Host.Net] inherits the level of the root through [Host]. *)
Lemma logger_get_spec_witness :
  logger_wf initialized /\
  (exists p s', Logger_Get (lit "kroll") (lit "Host.Net") initialized = (Ret p, s') /\
     found initialized (lit "kroll.Host.Net") p s') /\
  inherited_level initialized (lit "kroll.Host.Net") = Some LWARN.
Proof.
  split_and!; [exact initialized_wf| |by vm_compute].
  destruct (logger_get_spec (lit "kroll") initialized (lit "Host.Net") initialized_wf) as (p & s' & ? & ? & _).
  by exists p, s'.
Defined.

(** A logger that is asked for before [Logger::Initialize]
    ([Host::AssertEnvironmentVariable] does) has the null pointer for its
    parent. *)
Lemma get_before_initialize : (Logger_Get (lit "kroll") (lit "Host") no_loggers).1 = Undef.
Proof. by vm_compute. Qed.

(** [RootLogger::instance] is used after [Logger::Shutdown] deleted it. *)
Lemma get_after_shutdown :
  (Logger_Get (lit "kroll") (lit "Host") (Logger_Shutdown initialized).2).1 = Undef.
Proof. by vm_compute. Qed.

(** ** Messages *)

(** What one message adds to the outputs. *)
Definition delivered (r : root_logger) (level : Level) (line : str) (s : lstate) : lstate :=
  with_lines (logFile s ++ (if fileLogging r then [line] else []))
    (lg_console s ++ (if consoleLogging r then [c_str line] else []))
    (lg_calls s ++ map (fun c => (c, level, line)) (callbacks r)) s.

Section Delivery.
Context (format : Message -> str) (callback_body : N -> Level -> str -> LM str).
(** The callbacks leave the line and the loggers alone. *)
Context (Hcallback : forall c level line s, callback_body c level line s = (Ret line, s)).
#[local] Set Default Proof Using "Type*".

Lemma callbacks_loop_run fuel root i level line r s :
  lg_roots s !! root = Some r -> length (callbacks r) - i < fuel ->
  callbacks_loop callback_body fuel root i level line s =
    (Ret tt, with_lines (logFile s) (lg_console s)
               (lg_calls s ++ map (fun c => (c, level, line)) (drop i (callbacks r))) s).
Proof.
  revert s i. induction fuel as [|fuel IH]; intros s i Hr Hlen; [lia|]. simpl.
  assert (H : the_root root s = (Ret r, s)) by (unfold the_root; by rewrite Hr). step H.
  destruct (callbacks r !! i) as [c|] eqn:Hc.
  - step (eq_refl : modify _ s = _). rewrite (st_bind_Ret _ _ _ _ _ (Hcallback _ _ _ _)).
    apply lookup_lt_Some in Hc as Hi. rewrite IH by (simpl; (done || lia)).
    rewrite (drop_S _ _ _ Hc). unfold with_lines; simpl. by rewrite <- app_assoc.
  - apply lookup_ge_None in Hc. rewrite drop_ge by lia. simpl. rewrite app_nil_r. by destruct s.
Qed.

Lemma LogImpl_run fuel root m r s :
  lg_roots s !! root = Some r -> length (callbacks r) < fuel ->
  LogImpl format callback_body fuel root m s = (Ret tt, delivered r (msg_prio m) (format m) s).
Proof.
  intros Hr Hlen. unfold LogImpl.
  assert (H : the_root root s = (Ret r, s)) by (unfold the_root; by rewrite Hr). step H.
  unfold delivered. destruct (fileLogging r), (consoleLogging r); rewrite ?app_nil_r.
  all: repeat first [step (eq_refl : modify _ _ = _) | step (eq_refl : (mret tt : LM unit) _ = _)].
  all: erewrite callbacks_loop_run by (simpl; (done || lia)); rewrite drop_0; by destruct s.
Qed.
End Delivery.

Lemma format_bounded text : length (Format text) <= 2046.
Proof.
  unfold Format. etrans; [apply c_str_length|]. rewrite length_take.
  change (LOGGER_MAX_ENTRY_SIZE - 2) with 2046. lia.
Qed.

(** A message that one of the functions of a logger is given reaches the
    file and the console, where they are on, and every callback of the root
    logger, once each and the callbacks in the order they were added, when the logger's own level admits it (the levels of its
    parents play no part); otherwise nothing happens. The forms with a format
    do the same with the formatted text, of which at most 2046 bytes are kept. *)
Theorem log_delivery (format : Message -> str) (callback_body : N -> Level -> str -> LM str)
    (s : lstate) (this root : N) (l : logger) (r : root_logger) (level : Level) (message : str) (fuel : nat) :
  (forall c level line s, callback_body c level line s = (Ret line, s)) ->
  lg_store s !! this = Some l -> lg_instance s = Some root -> lg_roots s !! root = Some r ->
  length (callbacks r) < fuel ->
  let outcome text :=
    if decide (priority level <= priority (lg_level l))%Z then
      delivered r level (format {| msg_source := lg_name l; msg_text := text; msg_prio := level;
                                   msg_time := lg_time s |}) s
    else s in
  Log format callback_body fuel this level message s = (Ret tt, outcome message) /\
  Log_at format callback_body fuel level this message s = (Ret tt, outcome message) /\
  Log_format format callback_body fuel this level message s = (Ret tt, outcome (Format message)) /\
  Log_at_format format callback_body fuel level this message s = (Ret tt, outcome (Format message)) /\
  length (Format message) <= 2046.
Proof.
  intros Hcb Hl Hroot Hr Hlen outcome.
  assert (Ht : the_logger this s = (Ret l, s)) by (unfold the_logger; by rewrite Hl).
  assert (HLog : forall text, Log format callback_body fuel this level text s = (Ret tt, outcome text)).
  { intros text. unfold Log. step Ht. step (eq_refl : gets lg_time s = _).
    unfold Log_message. step Ht. unfold outcome. simpl.
    destruct (decide _) as [Hp|Hp].
    - apply Z.leb_le in Hp as ->. unfold GetRootLogger. step (eq_refl : gets lg_instance s = _).
      rewrite Hroot. step (eq_refl : some_or_undef (Some root) s = _). by erewrite LogImpl_run.
    - by apply Z.leb_nle in Hp as ->. }
  assert (Hif : forall text (m : LM unit), m s = (Ret tt, outcome text) ->
    (if (priority level <=? priority (lg_level l))%Z then m else mret tt) s = (Ret tt, outcome text)).
  { intros text m Hm. unfold outcome in *. destruct (decide _) as [Hp|Hp].
    - by apply Z.leb_le in Hp as ->.
    - by apply Z.leb_nle in Hp as ->. }
  assert (Hva : forall text, Log_va format callback_body fuel this level text s = (Ret tt, outcome (Format text))).
  { intros text. unfold Log_va. step Ht. apply Hif, HLog. }
  assert (Hen : IsEnabled this level s = (Ret (priority level <=? priority (lg_level l))%Z, s)).
  { unfold IsEnabled. by step Ht. }
  unfold Log_at, Log_format, Log_at_format. split_and!; [apply HLog|step Hen..|].
  - apply Hif, HLog.
  - apply Hif, Hva.
  - apply Hif, Hva.
  - apply format_bounded.
Qed.

Definition two_callbacks : lstate :=
  ((AddLoggerCallback 8;; AddLoggerCallback 9) initialized).2.

Lemma log_delivery_witness :
  let log level := (Log msg_text (fun _ _ line => mret line) 3 1 level (lit "hello") two_callbacks).2 in
  lg_calls (log LERROR) = [(8%N, LERROR, lit "hello"); (9%N, LERROR, lit "hello")] /\
  logFile (log LERROR) = [lit "hello"] /\ lg_calls (log LINFO) = [].
Proof.
  intros log.
  assert (H : forall level, log level = (if decide (priority level <= priority LWARN)%Z then
    delivered {| consoleLogging := true; fileLogging := true; callbacks := [8%N; 9%N] |} level (lit "hello")
      two_callbacks else two_callbacks)).
  { intros level. unfold log.
    destruct (log_delivery msg_text (fun _ _ line => mret line) two_callbacks 1 1
      {| lg_name := lit "kroll"; lg_level := LWARN |}
      {| consoleLogging := true; fileLogging := true; callbacks := [8%N; 9%N] |} level (lit "hello") 3)
      as (-> & _); by vm_compute. }
  rewrite !H. split_and!; by vm_compute.
Defined.
