(* ===== verification/System.v ===== *)
(** * System: the state of the process outside of the objects

    The API objects reach the applications, the installed components, the
    environment, the loggers, the script evaluators, the file system and the
    debug mode. Their states are those of the files that model them; here they
    are put together, with the lifts of their computations. *)

From S2P Require Import Prelude CppString FileUtils BootUtils EnvironmentUtils Application Logger.
From stdpp Require Import options.

(** The state of the JavaScript module (modules/javascript/kjs_util.cpp) and
    the memory of JavaScriptCore, which is opaque to it. Contexts, objects and
    classes of JavaScriptCore are addresses there. *)
Record JSState := {
  js_cells : gmap N N;               (* the SharedValues made with [new] *)
  KJSKObjectClass : option N;
  KJSKMethodClass : option N;
  KJSKListClass : option N;
  jsContextMap : gmap N N;           (* global object to global context *)
  jsContextRefCounts : gmap N Z;
  js_memory : gmap N (list N)
}.
Definition initial_js : JSState :=
  {| js_cells := ∅; KJSKObjectClass := None; KJSKMethodClass := None; KJSKListClass := None;
     jsContextMap := ∅; jsContextRefCounts := ∅; js_memory := ∅ |}.

(** The state of the Python module (modules/python) and the memory of the
    interpreter, which is opaque to it. *)
Record PyState := {
  pyk_values : gmap N N;             (* PyKObject::value of the live wrappers *)
  py_binding : option N;             (* PythonModule::binding *)
  py_instance : bool;                (* PythonModule::instance_ is set *)
  py_memory : gmap N (list N)
}.
Definition initial_py : PyState :=
  {| pyk_values := ∅; py_binding := None; py_instance := false; py_memory := ∅ |}.

(** The state of the Ruby module (modules/ruby) and the memory of the
    interpreter, which is opaque to it. *)
Record RbState := {
  rbk_values : gmap N N;             (* the SharedValue of the live wrappers *)
  KObjectClass : option N;           (* [None]: Qnil *)
  KMethodClass : option N;
  KListClass : option N;
  rb_next_id : gmap N Z;             (* RubyEvaluator::next_id, by evaluator *)
  rb_global_object : option N;       (* the static global_object *)
  rb_binding : option N;             (* RubyModule::binding *)
  rb_instance : bool;                (* RubyModule::instance_ is set *)
  rb_memory : gmap N (list N)
}.
Definition initial_rb : RbState :=
  {| rbk_values := ∅; KObjectClass := None; KMethodClass := None; KListClass := None;
     rb_next_id := ∅; rb_global_object := None; rb_binding := None; rb_instance := false;
     rb_memory := ∅ |}.

(** The state of the PHP module (modules/php) and the memory of the engine,
    which is opaque to it. *)
Record PhpState := {
  php_kvalues : gmap N (option N);   (* PHPKObject::kvalue, by the address of the struct *)
  PHPKObjectClassEntry : option N;   (* [None]: NULL *)
  PHPKMethodClassEntry : option N;
  PHPKListClassEntry : option N;
  currentPHPGlobal : option N;
  php_nextId : Z;                    (* the static of GetContextId *)
  php_nextFunctionId : Z;            (* the static of Evaluate *)
  php_buffering : bool;
  php_buffer : str;
  php_mimeType : str;
  php_binding : option N;            (* PHPModule::binding *)
  php_instance : bool;               (* PHPModule::instance_ is set *)
  php_memory : gmap N (list N)
}.
Definition initial_php : PhpState :=
  {| php_kvalues := ∅; PHPKObjectClassEntry := None; PHPKMethodClassEntry := None;
     PHPKListClassEntry := None; currentPHPGlobal := None; php_nextId := 0; php_nextFunctionId := 0;
     php_buffering := false; php_buffer := []; php_mimeType := lit "text/html"; php_binding := None;
     php_instance := false; php_memory := ∅ |}.

Record System := {
  s_boot : bstate;
  s_searchPaths : list str;          (* the static of GetComponentSearchPaths *)
  s_apps : gmap N Application;       (* the live applications *)
  s_application : N;                 (* Host::application *)
  s_global : N;                      (* Host::globalObject *)
  s_environ : environ;
  s_log : lstate;
  s_evaluators : option N;           (* the list of Script::instance *)
  s_fs : FS;
  s_debug : bool;                    (* Host::debug *)
  s_js : JSState;
  s_py : PyState;
  s_rb : RbState;
  s_php : PhpState
}.
Abbreviation SM := (ST System).

Definition with_boot b s :=
  {| s_boot := b; s_searchPaths := s_searchPaths s; s_apps := s_apps s;
     s_application := s_application s; s_global := s_global s; s_environ := s_environ s;
     s_log := s_log s; s_evaluators := s_evaluators s; s_fs := s_fs s; s_debug := s_debug s; s_js := s_js s;
     s_py := s_py s; s_rb := s_rb s; s_php := s_php s |}.
Definition with_searchPaths p s :=
  {| s_boot := s_boot s; s_searchPaths := p; s_apps := s_apps s;
     s_application := s_application s; s_global := s_global s; s_environ := s_environ s;
     s_log := s_log s; s_evaluators := s_evaluators s; s_fs := s_fs s; s_debug := s_debug s; s_js := s_js s;
     s_py := s_py s; s_rb := s_rb s; s_php := s_php s |}.
Definition with_apps m s :=
  {| s_boot := s_boot s; s_searchPaths := s_searchPaths s; s_apps := m;
     s_application := s_application s; s_global := s_global s; s_environ := s_environ s;
     s_log := s_log s; s_evaluators := s_evaluators s; s_fs := s_fs s; s_debug := s_debug s; s_js := s_js s;
     s_py := s_py s; s_rb := s_rb s; s_php := s_php s |}.
Definition with_environ e s :=
  {| s_boot := s_boot s; s_searchPaths := s_searchPaths s; s_apps := s_apps s;
     s_application := s_application s; s_global := s_global s; s_environ := e;
     s_log := s_log s; s_evaluators := s_evaluators s; s_fs := s_fs s; s_debug := s_debug s; s_js := s_js s;
     s_py := s_py s; s_rb := s_rb s; s_php := s_php s |}.
Definition with_log l s :=
  {| s_boot := s_boot s; s_searchPaths := s_searchPaths s; s_apps := s_apps s;
     s_application := s_application s; s_global := s_global s; s_environ := s_environ s;
     s_log := l; s_evaluators := s_evaluators s; s_fs := s_fs s; s_debug := s_debug s; s_js := s_js s;
     s_py := s_py s; s_rb := s_rb s; s_php := s_php s |}.
Definition with_evaluators e s :=
  {| s_boot := s_boot s; s_searchPaths := s_searchPaths s; s_apps := s_apps s;
     s_application := s_application s; s_global := s_global s; s_environ := s_environ s;
     s_log := s_log s; s_evaluators := e; s_fs := s_fs s; s_debug := s_debug s; s_js := s_js s;
     s_py := s_py s; s_rb := s_rb s; s_php := s_php s |}.
Definition with_fs f s :=
  {| s_boot := s_boot s; s_searchPaths := s_searchPaths s; s_apps := s_apps s;
     s_application := s_application s; s_global := s_global s; s_environ := s_environ s;
     s_log := s_log s; s_evaluators := s_evaluators s; s_fs := f; s_debug := s_debug s; s_js := s_js s;
     s_py := s_py s; s_rb := s_rb s; s_php := s_php s |}.
Definition with_js j s :=
  {| s_boot := s_boot s; s_searchPaths := s_searchPaths s; s_apps := s_apps s;
     s_application := s_application s; s_global := s_global s; s_environ := s_environ s;
     s_log := s_log s; s_evaluators := s_evaluators s; s_fs := s_fs s; s_debug := s_debug s;
     s_js := j; s_py := s_py s; s_rb := s_rb s; s_php := s_php s |}.
Definition with_py p s :=
  {| s_boot := s_boot s; s_searchPaths := s_searchPaths s; s_apps := s_apps s;
     s_application := s_application s; s_global := s_global s; s_environ := s_environ s;
     s_log := s_log s; s_evaluators := s_evaluators s; s_fs := s_fs s; s_debug := s_debug s;
     s_js := s_js s; s_py := p; s_rb := s_rb s; s_php := s_php s |}.

Definition with_rb r s :=
  {| s_boot := s_boot s; s_searchPaths := s_searchPaths s; s_apps := s_apps s;
     s_application := s_application s; s_global := s_global s; s_environ := s_environ s;
     s_log := s_log s; s_evaluators := s_evaluators s; s_fs := s_fs s; s_debug := s_debug s;
     s_js := s_js s; s_py := s_py s; s_rb := r; s_php := s_php s |}.

Definition with_php p s :=
  {| s_boot := s_boot s; s_searchPaths := s_searchPaths s; s_apps := s_apps s;
     s_application := s_application s; s_global := s_global s; s_environ := s_environ s;
     s_log := s_log s; s_evaluators := s_evaluators s; s_fs := s_fs s; s_debug := s_debug s;
     s_js := s_js s; s_py := s_py s; s_rb := s_rb s; s_php := p |}.

(** Nothing is installed, nothing has been initialised. *)
Definition empty_lstate : lstate :=
  {| lg_next := 1; lg_store := ∅; lg_roots := ∅; loggers := ∅; lg_instance := None; lg_time := 0;
     logFile := []; lg_console := []; lg_calls := [] |}.
Definition empty_fs : FS :=
  {| os_stat _ := None; os_readdir _ := None; os_read _ := None |}.
Definition initial_system : System :=
  {| s_boot := {| comps := []; installedComponents := [] |}; s_searchPaths := []; s_apps := ∅;
     s_application := 0; s_global := 0; s_environ := []; s_log := empty_lstate;
     s_evaluators := None; s_fs := empty_fs; s_debug := false; s_js := initial_js;
     s_py := initial_py; s_rb := initial_rb; s_php := initial_php |}.

(** A computation on a part of a larger state. *)
Definition zoom {S T A} (get : S -> T) (set : T -> S -> S) (m : ST T A) : ST S A := fun s =>
  let '(r, t) := m (get s) in (r, set t s).

Lemma zoom_Ret {S T A} (get : S -> T) set (m : ST T A) a t s :
  m (get s) = (Ret a, t) -> zoom get set m s = (Ret a, set t s).
Proof. unfold zoom. by intros ->. Qed.

(** What is outside of the program and of [World]: mkdir(2) and mkdtemp(3),
    the machine, the process, Poco's log format and the log callbacks. *)
Record SysWorld := {
  w_mkdir : FS -> str -> FS * bool;
  w_mkdtemp : FS -> str -> FS * option str;
  w_machine : Machine;               (* its environment is not used: [s_environ] is *)
  w_pid : Z;
  w_format : Message -> str;
  w_callback : N -> Level -> str -> LM str
}.

(** The machine with the environment as it is now. *)
Definition with_environment (env : environ) (m : Machine) : Machine :=
  {| PRODUCT_NAME := PRODUCT_NAME m; PRODUCT_VERSION := PRODUCT_VERSION m; OS_TYPE := OS_TYPE m;
     environment := env; machineId := machineId m; osVersion := osVersion m;
     osArchitecture := osArchitecture m; homeDirectory := homeDirectory m |}.

(** A system that makes no directories, prints nothing and calls nobody. *)
Definition quiet_system : SysWorld := {|
  w_mkdir fs _ := (fs, false); w_mkdtemp fs _ := (fs, None);
  w_machine := {| PRODUCT_NAME := lit "Kroll"; PRODUCT_VERSION := lit "1.0"; OS_TYPE := lit "32bit";
                  environment := []; machineId := []; osVersion := []; osArchitecture := [];
                  homeDirectory := lit "/home/user" |};
  w_pid := 1; w_format m := msg_text m; w_callback _ _ line := mret line
|}.
