(* ===== verification/Directories.v ===== *)
(** * Directories: creating directories and the places of the program's data
    (the rest of api/utils/file_utils.cpp, its posix and linux parts;
    Application::GetDataPath and IsInstalled)

    mkdir(2) and mkdtemp(3) change the file system: a state of type [FS]. *)

From S2P Require Import Prelude CppString FileUtils EnvironmentUtils Application.
From stdpp Require Import options.

(** ** dirname(3), as the C library computes it *)

Definition slash : ascii := KR_PATH_SEP_CHAR.
Fixpoint drop_while (P : ascii -> bool) (s : str) : str :=
  match s with
  | c :: s' => if P c then drop_while P s' else s
  | [] => []
  end.
Definition is_slash (c : ascii) : bool := bool_decide (c = slash).

(** The reversed path: without its last component. *)
Definition dirname (path : str) : str :=
  let r := reverse path in
  let r := if forallb is_slash r then r else drop_while is_slash r in
  match drop_while (fun c => negb (is_slash c)) r with
  | [] => lit "."
  | r =>
      match drop_while is_slash r with
      | [] => if length r =? 2 then lit "//" else lit "/"
      | r' => reverse r'
      end
  end.

Definition Dirname (path : str) : str := dirname (c_str path).

Section Mkdir.
Context (mkdir : FS -> str -> FS * bool).

Definition CreateDirectoryImpl (dir : str) : ST FS bool := fun fs =>
  let '(fs', made) := mkdir fs (c_str dir) in (Ret made, fs').

Fixpoint CreateDirectory_fuel (fuel : nat) (dir : str) (recursive : bool) : ST FS bool :=
  match fuel with
  | O => lift Fuel
  | S fuel' =>
      exists_ ← gets (fun fs => IsDirectory fs dir);
      if exists_ : bool then mret true
      else
        let parent := Dirname dir in
        parent_exists ← gets (fun fs => IsDirectory fs parent);
        if recursive && bool_decide (0 < length parent) && negb parent_exists then
          made ← CreateDirectory_fuel fuel' parent true;
          if made : bool then CreateDirectoryImpl dir else mret false
        else CreateDirectoryImpl dir
  end.

(** The parents get shorter until they are "." or "/": the theorem
    [create_directory_spec] shows that this fuel is enough. *)
Definition CreateDirectory (dir : str) (recursive : bool) : ST FS bool :=
  CreateDirectory_fuel (S (S (length dir))) dir recursive.

(** The result of [CreateDirectory] is not looked at. *)
Definition GetApplicationDataDirectory (machine : Machine) (appid : str) : ST FS str :=
  dir ← lift (GetUserRuntimeHomeDirectory machine);
  dir ← lift (Join [dir; lit "appdata"; appid]);
  CreateDirectory dir true;;
  mret dir.

Definition GetDataPath (machine : Machine) (a : Application) : ST FS str :=
  GetApplicationDataDirectory machine (a_id a).

Definition INSTALLED_MARKER_FILENAME : str := lit ".installed".

Definition IsInstalled (machine : Machine) (a : Application) : ST FS bool :=
  dataPath ← GetDataPath machine a;
  dataDirMarker ← lift (Join [dataPath; INSTALLED_MARKER_FILENAME]);
  appDirMarker ← lift (Join [a_path a; INSTALLED_MARKER_FILENAME]);
  gets (fun fs => IsFile fs dataDirMarker || IsFile fs appDirMarker).
End Mkdir.

(** The first directory that exists, else the one under /opt. *)
Definition GetSystemRuntimeHomeDirectory (machine : Machine) (fs : FS) : res str :=
  let pname := map tolower (PRODUCT_NAME machine) in
  path ← Join [lit "/opt"; pname];
  path ← (if IsDirectory fs path then Ret path else Join [lit "/usr/local/lib"; pname]);
  path ← (if IsDirectory fs path then Ret path else Join [lit "/usr/lib"; pname]);
  if IsDirectory fs path then Ret path else Join [lit "/opt"; pname].

(** [mkdtemp] answers null when it fails. *)
Definition GetTempDirectory (mkdtemp : FS -> str -> FS * option str) (env : environ) : ST FS str :=
  let dir := match getenv env (lit "TMPDIR"), getenv env (lit "TEMP") with
             | Some tmp, _ => tmp
             | None, Some tmp2 => tmp2
             | None, None => lit "/tmp"
             end in
  match last dir with
  | None => throw out_of_range                     (* tmp_str.at(npos) *)
  | Some c =>
      let dir := (if is_slash c then dir else dir ++ lit "/") ++ lit "kXXXXXX" in
      made ← (fun fs => let '(fs', made) := mkdtemp fs (c_str dir) in (Ret made, fs'));
      some_or_undef made
  end.

(** [link] is what readlink(2) of /proc/<pid>/exe gives: at most 255 bytes go
    to a buffer of 255 bytes, and a NUL after them. *)
Definition GetExecutableDirectory (link : option str) : res str :=
  match link with
  | None => Undef                                  (* pbuf[-1] *)
  | Some t =>
      if 255 <=? length t then Undef               (* pbuf[255] *)
      else let str := c_str t in
           match rfind str (lit "/") (length str) with
           | None => Ret str
           | Some pos => substr str 0 (Some pos)
           end
  end.

(** The environment and getlogin(3). *)
Definition GetUsername (login : option str) : EM str :=
  match login with
  | Some name => mret name
  | None => set ← Has (lit "USER"); if set : bool then Get (lit "USER") else mret (lit "unknown")
  end.

(** Each line of the file with a newline. *)
Definition ReadFile (fs : FS) (path : str) : str :=
  match os_read fs (c_str path) with
  | None => []
  | Some text => concat (map (fun line => line ++ ["010"%char]) (BootUtils.getlines text))
  end.

(** ** Laws *)

(** mkdir(2), as POSIX describes it: what it makes is a directory, what is
    there stays, and a call that fails changes nothing. *)
Class PosixMkdir (mkdir : FS -> str -> FS * bool) : Prop := {
  mkdir_makes fs p fs' : mkdir fs p = (fs', true) -> os_stat fs' p = Some Directory;
  mkdir_fails fs p fs' : mkdir fs p = (fs', false) -> fs' = fs;
  mkdir_keeps fs p fs' b q k : mkdir fs p = (fs', b) -> os_stat fs q = Some k -> os_stat fs' q = Some k
}.

(** Every file system has its root and a current directory. *)
Record rooted (fs : FS) : Prop := {
  root_dot : os_stat fs (lit ".") = Some Directory;
  root_slash : os_stat fs (lit "/") = Some Directory;
  root_slashes : os_stat fs (lit "//") = Some Directory
}.

Lemma drop_while_length P s : length (drop_while P s) <= length s.
Proof. induction s as [|c s IH]; simpl; [lia|]. destruct (P c); simpl; lia. Qed.
Lemma drop_while_Forall (Q : ascii -> Prop) P s : Forall Q s -> Forall Q (drop_while P s).
Proof. induction 1 as [|c s Hc Hs IH]; simpl; [done|]. destruct (P c); auto. Qed.
Lemma drop_while_head P s c s' : drop_while P s = c :: s' -> P c = false.
Proof. induction s as [|a s IH]; simpl; [done|]. destruct (P a) eqn:E; naive_solver. Qed.

(** The text that is left when trailing slashes, the last component and the
    slashes before it are taken off; nothing for a path in "." or "/". *)
Definition parent_text (path : str) : str :=
  let r := reverse path in
  let r := if forallb is_slash r then r else drop_while is_slash r in
  drop_while is_slash (drop_while (fun c => negb (is_slash c)) r).

Lemma dirname_parent path :
  (dirname path ∈ [lit "."; lit "/"; lit "//"]) \/ dirname path = reverse (parent_text path).
Proof.
  unfold dirname, parent_text. cbv zeta.
  destruct (drop_while (fun c => negb (is_slash c)) _) as [|c r] eqn:E; [left; set_solver|].
  destruct (drop_while is_slash (c :: r)) eqn:E2; [|by right].
  left. destruct (_ =? _); set_solver.
Qed.

Lemma parent_text_shorter path : parent_text path <> [] -> length (parent_text path) < length path.
Proof.
  unfold parent_text. cbv zeta.
  set (r := if forallb _ _ then _ else _).
  assert (length r <= length path) as Hr.
  { unfold r. rewrite <- (length_reverse path). case_match; [lia|]. apply drop_while_length. }
  pose proof (drop_while_length (fun c => negb (is_slash c)) r) as H1.
  destruct (drop_while (fun c => negb (is_slash c)) r) as [|c r'] eqn:E; [done|].
  apply drop_while_head, negb_false_iff in E. simpl in *. rewrite E. intros _.
  pose proof (drop_while_length is_slash r'). lia.
Qed.

Lemma dirname_shorter path :
  (dirname path ∈ [lit "."; lit "/"; lit "//"]) \/ length (dirname path) < length path.
Proof.
  destruct (dirname_parent path) as [H|H]; [by left|].
  destruct (decide (parent_text path = [])) as [E|E].
  - left. unfold dirname, parent_text in *. cbv zeta in *. 
    destruct (drop_while (fun c => negb (is_slash c)) _) as [|c r]; [set_solver|].
    rewrite E. destruct (_ =? _); set_solver.
  - right. rewrite H, length_reverse. by apply parent_text_shorter.
Qed.

Lemma dirname_no_nul path : no_nul path -> no_nul (dirname path).
Proof.
  intros Hp. destruct (dirname_parent path) as [H|H].
  - repeat (apply elem_of_cons in H as [->|H]; [apply (bool_decide_unpack _); reflexivity|]).
    by apply not_elem_of_nil in H.
  - rewrite H. apply Forall_reverse. unfold parent_text. cbv zeta.
    apply drop_while_Forall, drop_while_Forall. case_match; [by apply Forall_reverse|].
    by apply drop_while_Forall, Forall_reverse.
Qed.

Lemma dirname_not_empty path : dirname path <> [].
Proof.
  unfold dirname. cbv zeta. destruct (drop_while (fun c => negb (is_slash c)) _) as [|c r]; [done|].
  destruct (drop_while is_slash (c :: r)) as [|c' r']; [by destruct (_ =? _)|].
  intros E%(f_equal (@length _)). by rewrite length_reverse in E.
Qed.

Lemma Dirname_c_str path : c_str (Dirname path) = Dirname path.
Proof. apply c_str_id, dirname_no_nul, c_str_no_nul. Qed.

Section CreateDirectory.
Context (mkdir : FS -> str -> FS * bool).

(** [dir] and the directories above it: the 0th is [dir]. *)
Definition ancestor (dir : str) (n : nat) : str := Nat.iter n Dirname dir.
Lemma ancestor_parent dir n : ancestor (Dirname dir) n = ancestor dir (S n).
Proof. unfold ancestor. by rewrite Nat.iter_succ_r. Qed.

(** The [n]th ancestor is the nearest one that is a directory. *)
Definition nearest (fs : FS) (dir : str) (n : nat) : Prop :=
  IsDirectory fs (ancestor dir n) = true /\ forall m, m < n -> IsDirectory fs (ancestor dir m) = false.

(** Calls of [mkdir] for the paths, in order, up to the first that fails. *)
Fixpoint make_dirs (paths : list str) (fs : FS) : FS * bool :=
  match paths with
  | [] => (fs, true)
  | p :: rest => match mkdir fs (c_str p) with (fs', true) => make_dirs rest fs' | r => r end
  end.
Lemma make_dirs_snoc paths p fs :
  make_dirs (paths ++ [p]) fs =
  match make_dirs paths fs with (fs', true) => mkdir fs' (c_str p) | r => r end.
Proof.
  revert fs. induction paths as [|q paths IH]; intros fs; simpl.
  - by destruct (mkdir fs (c_str p)) as [fs' []].
  - destruct (mkdir fs (c_str q)) as [fs' []]; [apply IH|done].
Qed.

(** The [n] directories from the [n - 1]th ancestor down to [dir]. *)
Definition from_above (dir : str) (n : nat) : list str := map (ancestor dir) (rev (seq 0 n)).
Lemma from_above_S dir n : from_above dir (S n) = from_above (Dirname dir) n ++ [dir].
Proof.
  unfold from_above. cbn [seq rev]. rewrite map_app. f_equal.
  rewrite <- seq_shift, <- map_rev, map_map. apply map_ext. intros m. by rewrite ancestor_parent.
Qed.
(** What is made: all that is missing, or the last one only. *)
Definition to_make (recursive : bool) (dir : str) (n : nat) : list str :=
  if recursive then from_above dir n else if n =? 0 then [] else [dir].

Lemma IsDirectory_root fs p : rooted fs -> p ∈ [lit "."; lit "/"; lit "//"] -> IsDirectory fs p = true.
Proof.
  intros [H1 H2 H3] Hp. unfold IsDirectory. apply bool_decide_eq_true.
  repeat (apply elem_of_cons in Hp as [->|Hp]; [done|]). by apply not_elem_of_nil in Hp.
Qed.
Lemma nearest_parent fs dir n : IsDirectory fs dir = false -> nearest fs (Dirname dir) n -> nearest fs dir (S n).
Proof.
  intros Hd [Hn Hm]. split; [by rewrite <- ancestor_parent|]. intros [|m] Hlt; [done|].
  rewrite <- ancestor_parent. apply Hm. lia.
Qed.

Lemma CreateDirectory_run fuel dir recursive fs :
  rooted fs -> S (length dir) < fuel ->
  exists n b fs', nearest fs dir n /\ make_dirs (to_make recursive dir n) fs = (fs', b) /\
    CreateDirectory_fuel mkdir fuel dir recursive fs = (Ret b, fs').
Proof.
  revert dir recursive. induction fuel as [|fuel IH]; intros dir recursive Hroot Hfuel; [lia|].
  cbn [CreateDirectory_fuel]. step (eq_refl : gets (fun fs => IsDirectory fs dir) fs = _).
  destruct (IsDirectory fs dir) eqn:Edir.
  { exists 0, true, fs. split_and!; [|by destruct recursive|done]. split; [done|lia]. }
  step (eq_refl : gets (fun fs => IsDirectory fs (Dirname dir)) fs = _).
  assert (forall n, nearest fs (Dirname dir) n -> recursive = false \/ n = 0 ->
    exists n b fs', nearest fs dir n /\ make_dirs (to_make recursive dir n) fs = (fs', b) /\
      CreateDirectoryImpl mkdir dir fs = (Ret b, fs')) as Hone.
  { intros n Hn Hr. destruct (mkdir fs (c_str dir)) as [fs' b] eqn:E. exists (S n), b, fs'.
    split_and!; [by apply nearest_parent| |unfold CreateDirectoryImpl; by rewrite E].
    assert (to_make recursive dir (S n) = [dir]) as -> by (destruct Hr as [-> | ->]; [|destruct recursive]; done).
    simpl. rewrite E. by destruct b. }
  destruct (IsDirectory fs (Dirname dir)) eqn:Epar.
  { rewrite andb_false_r. apply (Hone 0); [split; [done|lia]|by right]. }
  destruct (dirname_shorter (c_str dir)) as [Hr|Hlt].
  { pose proof (IsDirectory_root fs _ Hroot Hr). unfold Dirname in *. congruence. }
  pose proof (c_str_length dir) as Hlen.
  destruct (IH (Dirname dir) true Hroot) as (n & b & fs' & Hn & Em & E); [unfold Dirname; lia|].
  destruct recursive; [|by apply (Hone n Hn); left]. rewrite bool_decide_eq_true_2; cbn [andb negb].
  2:{ pose proof (dirname_not_empty (c_str dir)). unfold Dirname. by destruct (dirname _); simpl; [|lia]. }
  step E. exists (S n).
  cbn [to_make] in *. rewrite from_above_S, make_dirs_snoc, Em. pose proof (nearest_parent _ _ _ Edir Hn).
  destruct b; [|by exists false, fs'].
  destruct (mkdir fs' (c_str dir)) as [fs2 b] eqn:E2. exists b, fs2. split_and!; [done|done|].
  unfold CreateDirectoryImpl. by rewrite E2.
Qed.

(** What [mkdir] promises, of several calls. *)
Lemma make_dirs_keeps paths fs fs' b q k : PosixMkdir mkdir ->
  make_dirs paths fs = (fs', b) -> os_stat fs q = Some k -> os_stat fs' q = Some k.
Proof.
  intros Hm. revert fs. induction paths as [|p paths IH]; intros fs; simpl; [by intros [= <- _]|].
  destruct (mkdir fs (c_str p)) as [fs1 []] eqn:E.
  - intros E' Hq. eapply IH; [exact E'|]. by eapply mkdir_keeps.
  - intros [= <- _] Hq. by eapply mkdir_keeps.
Qed.
Lemma made_directory recursive fs dir n fs' : PosixMkdir mkdir -> nearest fs dir n ->
  make_dirs (to_make recursive dir n) fs = (fs', true) -> IsDirectory fs' dir = true.
Proof.
  intros Hm [Hn _]. destruct n as [|n]; [by destruct recursive; intros [= <-]|].
  assert (exists ps, to_make recursive dir (S n) = ps ++ [dir]) as (ps & ->).
  { destruct recursive; [|by exists []]. exists (from_above (Dirname dir) n). apply from_above_S. }
  rewrite make_dirs_snoc. destruct (make_dirs ps fs) as [fs1 []]; [|done].
  intros E%mkdir_makes. unfold IsDirectory. by apply bool_decide_eq_true.
Qed.
End CreateDirectory.

(** C34: CreateDirectory always returns, and it makes exactly the missing
    directories. The nearest directory above the path, or the path itself, is
    the [n]th ancestor; a recursive call asks [mkdir] for the [n] ancestors
    below it, from the top down to the path, up to the first call that fails,
    and for nothing else; a call that is not recursive asks for the path alone
    when it is no directory. The answer is whether no call failed; then the
    path is a directory, and what was there stays in any case. *)
Theorem create_directory_spec mkdir dir recursive fs :
  PosixMkdir mkdir -> rooted fs ->
  exists n b fs', nearest fs dir n /\ CreateDirectory mkdir dir recursive fs = (Ret b, fs') /\
    make_dirs mkdir (if recursive then map (ancestor dir) (rev (seq 0 n))
                     else if n =? 0 then [] else [dir]) fs = (fs', b) /\
    (b = true -> IsDirectory fs' dir = true) /\
    forall q k, os_stat fs q = Some k -> os_stat fs' q = Some k.
Proof.
  intros Hm Hroot.
  destruct (CreateDirectory_run mkdir (S (S (length dir))) dir recursive fs Hroot)
    as (n & b & fs' & Hn & E & Ec); [lia|]. exists n, b, fs'. split_and!; [done|done|exact E| |].
  - intros ->. by eapply made_directory.
  - intros q k. by eapply make_dirs_keeps.
Qed.

(** A file system of directories that are told apart by their paths. *)
Definition dirs_fs (dirs : list str) : FS :=
  {| os_stat q := if bool_decide (q ∈ dirs) then Some Directory else None;
     os_readdir _ := None; os_read _ := None |}.
(** [alias] gives the place that a path names. *)
Definition demo_mkdir (alias : str -> str) (fs : FS) (p : str) : FS * bool :=
  let place := alias p in
  if bool_decide (os_stat fs place = None /\ os_stat fs (dirname place) = Some Directory)
  then ({| os_stat q := if decide (alias q = place) then Some Directory else os_stat fs q;
           os_readdir := os_readdir fs; os_read := os_read fs |}, true)
  else (fs, false).

#[export] Instance demo_mkdir_posix : PosixMkdir (demo_mkdir id).
Proof.
  split; unfold demo_mkdir, id; intros; case_bool_decide; simplify_eq/=; [by rewrite decide_True|done|..];
    [|done]. case_decide; naive_solver.
Qed.

Lemma create_directory_spec_witness :
  exists fs', CreateDirectory (demo_mkdir id) (lit "/a/b") true (dirs_fs [lit "/"; lit "."; lit "//"])
    = (Ret true, fs') /\ make_dirs (demo_mkdir id) [lit "/a"; lit "/a/b"] (dirs_fs [lit "/"; lit "."; lit "//"])
    = (fs', true) /\ IsDirectory fs' (lit "/a/b") = true.
Proof.
  set (fs := dirs_fs _). assert (rooted fs) as Hroot by (split; reflexivity).
  destruct (create_directory_spec (demo_mkdir id) (lit "/a/b") true fs demo_mkdir_posix Hroot)
    as (n & b & fs' & [Hn Hm] & E & Em & Hdir & _).
  assert (n = 2) as ->.
  { destruct n as [|[|[|n]]]; [discriminate Hn|discriminate Hn|reflexivity|].
    assert (false = true) as H by (rewrite <- (Hm 2 ltac:(lia)); vm_compute; reflexivity). discriminate H. }
  assert (b = true) as ->; [|exists fs'; split; [exact E|split; [exact Em|by apply Hdir]]].
  assert ((make_dirs (demo_mkdir id) [lit "/a"; lit "/a/b"] fs).2 = true) as H by (vm_compute; reflexivity).
  change (make_dirs (demo_mkdir id) [lit "/a"; lit "/a/b"] fs = (fs', b)) in Em. rewrite Em in H. exact H.
Defined.

(** A path with a component "." that does not exist yet: its parent is made
    when the parent of the parent is, and making it again fails. *)
Lemma create_directory_dot_component :
  let alias p := if decide (p = lit "/x/.") then lit "/x"
                 else if decide (p = lit "/x/./y") then lit "/x/y" else p in
  (CreateDirectory (demo_mkdir alias) (lit "/x/./y") true (dirs_fs [lit "/"; lit "."; lit "//"])).1
  = Ret false.
Proof. vm_compute. reflexivity. Qed.

(** An empty TMPDIR makes [GetTempDirectory] throw std::out_of_range. *)
Lemma empty_tmpdir_throws mkdtemp fs :
  GetTempDirectory mkdtemp [lit "TMPDIR="] fs = (Throw out_of_range, fs).
Proof. reflexivity. Qed.

(** A path of 255 bytes or more is written past the end of the buffer. *)
Lemma long_executable_path_overflows t :
  255 <= length t -> GetExecutableDirectory (Some t) = Undef.
Proof. intros H. unfold GetExecutableDirectory. by rewrite (proj2 (Nat.leb_le _ _) H). Qed.
