(* ===== verification/Boot.v ===== *)
(** * Boot: the program that starts an application (boot/boot.cpp and the Linux
    part, boot/boot_linux.cpp)

    The first process ([Bootstrap]) reads the manifest, resolves the
    dependencies, runs the installer if something is missing, puts the paths
    into the environment and replaces itself by the same program; the second
    one ([StartHost]) finds the variable KR_BOOTSTRAPPED and loads the host
    from the runtime. The crash reporter (USE_BREAKPAD) is left out. *)

From S2P Require Import Prelude CppString FileUtils BootUtils EnvironmentUtils Application Logger.
From S2P Require Import System Directories.
From stdpp Require Import options.

(** ** The state of the process *)

(** What is seen from outside: error dialogs, lines of text, runs of the
    installer. *)
Inductive action :=
  | Showed (error : str)
  | Printed (line : str)
  | RanInstaller (exec : str) (args : list str).

Record process := {
  p_fs : FS;
  p_environ : environ;
  p_boot : bstate;                   (* the components *)
  p_searchPaths : list str;          (* the static of GetComponentSearchPaths *)
  p_applicationHome : str;
  p_updateFile : str;
  p_app : option Application;
  p_actions : list action            (* earliest first *)
}.
Abbreviation PM := (ST process).

Definition p_with_fs f p :=
  {| p_fs := f; p_environ := p_environ p; p_boot := p_boot p; p_searchPaths := p_searchPaths p;
     p_applicationHome := p_applicationHome p; p_updateFile := p_updateFile p; p_app := p_app p;
     p_actions := p_actions p |}.
Definition p_with_environ e p :=
  {| p_fs := p_fs p; p_environ := e; p_boot := p_boot p; p_searchPaths := p_searchPaths p;
     p_applicationHome := p_applicationHome p; p_updateFile := p_updateFile p; p_app := p_app p;
     p_actions := p_actions p |}.
Definition p_with_boot b p :=
  {| p_fs := p_fs p; p_environ := p_environ p; p_boot := b; p_searchPaths := p_searchPaths p;
     p_applicationHome := p_applicationHome p; p_updateFile := p_updateFile p; p_app := p_app p;
     p_actions := p_actions p |}.
Definition p_with_searchPaths l p :=
  {| p_fs := p_fs p; p_environ := p_environ p; p_boot := p_boot p; p_searchPaths := l;
     p_applicationHome := p_applicationHome p; p_updateFile := p_updateFile p; p_app := p_app p;
     p_actions := p_actions p |}.
Definition p_with_globals home update app p :=
  {| p_fs := p_fs p; p_environ := p_environ p; p_boot := p_boot p; p_searchPaths := p_searchPaths p;
     p_applicationHome := home; p_updateFile := update; p_app := app; p_actions := p_actions p |}.
Definition p_with_action a p :=
  {| p_fs := p_fs p; p_environ := p_environ p; p_boot := p_boot p; p_searchPaths := p_searchPaths p;
     p_applicationHome := p_applicationHome p; p_updateFile := p_updateFile p; p_app := p_app p;
     p_actions := p_actions p ++ [a] |}.

(** The operating system: realpath(3) of argv[0], readlink(2) of the
    executable, mkdir(2), what a run of the installer leaves, execv(2) (an
    error text, or nothing when the process is replaced), dlopen(3) (an error
    text or a library) and dlsym(3) of "Execute". *)
Record BootWorld := {
  bw_machine : Machine;
  bw_realpath : FS -> option str -> option str;
  bw_link : option str;
  bw_mkdir : FS -> str -> FS * bool;
  bw_install : str -> list str -> FS -> FS;
  bw_exec : list str -> option str;
  bw_dlopen : FS -> str -> str + N;
  bw_Execute : N -> option (list str -> Z)
}.

(** How [main] ends: with a code, or replaced by another program image. *)
Inductive ending := Returned (code : Z) | Replaced.

Definition UPDATE_FILENAME : str := lit ".update".
Definition BOOTSTRAP_ENV : str := lit "KR_BOOTSTRAPPED".
Definition MODULE_SEPARATOR : str := lit ":".

Section Boot.
Context (W : BootWorld) (argv : list str).

(** ** Access *)

Definition on_fs_ {A} (m : ST FS A) : PM A := zoom p_fs p_with_fs m.
Definition on_environ_ {A} (m : EM A) : PM A := zoom p_environ p_with_environ m.
Definition on_boot_ {A} (m : BM A) : PM A := zoom p_boot p_with_boot m.
Definition the_machine_ : PM Machine :=
  env ← gets p_environ; mret (with_environment env (bw_machine W)).
Definition app_ : PM Application := a ← gets p_app; some_or_undef a.
Definition set_app (a : Application) : PM unit :=
  modify (fun p => p_with_globals (p_applicationHome p) (p_updateFile p) (Some a) p).
Definition act (a : action) : PM unit := modify (p_with_action a).

(** ** boot_linux.cpp *)

(** Nobody calls it with [fatal]. *)
Definition ShowError (error : str) : PM unit := act (Showed error).

(** A path that realpath does not find is copied from a null pointer. *)
Definition GetApplicationHomePath : PM str :=
  fs ← gets p_fs;
  realPath ← some_or_undef (bw_realpath W fs (head argv));
  if IsFile fs realPath then mret (dirname (c_str realPath))
  else lift (GetExecutableDirectory (bw_link W)).

Definition BootstrapPlatformSpecific (moduleList : str) : PM unit :=
  a ← app_;
  r ← some_or_undef (a_runtime a);
  c ← on_boot_ (comp r);
  let path := c_path c ++ lit ":" ++ moduleList in
  current ← on_environ_ (Get (lit "LD_LIBRARY_PATH"));
  let path := match current with [] => path | _ => path ++ lit ":" ++ current end in
  on_environ_ (Set_ (lit "LD_LIBRARY_PATH") path).

(** [None]: the process is replaced. *)
Definition Blastoff : PM (option str) := mret (bw_exec W argv).

Definition StartHost : PM Z :=
  env ← gets p_environ;
  match getenv env (lit "KR_RUNTIME") with
  | None => mret 92%Z
  | Some runtimePath =>
      khost ← lift (Join [runtimePath; lit "libkhost.so"]);
      fs ← gets p_fs;
      if IsFile fs khost then
        match bw_dlopen W fs (c_str khost) with
        | inl error =>
            ShowError (lit "Couldn't load file:" ++ khost ++ lit ", error: " ++ error);; mret 108%Z
        | inr lib =>
            match bw_Execute W lib with
            | None => ShowError (lit "Invalid entry point for" ++ khost);; mret 116%Z
            | Some executor => mret (executor argv)
            end
        end
      else ShowError (lit "Couldn't find required file:" ++ khost);; mret 100%Z
  end.

Definition missing_installer_text : str :=
  lit "Missing installer and application has additional modules that are needed.".

(** [forceInstall] is not used. *)
Definition Boot_RunInstaller (missing : list Dependency) : PM bool :=
  a ← app_;
  exec ← lift (Join [a_path a; lit "installer"; lit "installer"]);
  fs ← gets p_fs;
  if IsFile fs exec then
    updateFile ← gets p_updateFile;
    machine ← the_machine_;
    '(command, a) ← lift (RunInstaller fs machine missing a updateFile []);
    set_app a;;
    match command with
    | None => mret false
    | Some (exec, args) =>
        act (RanInstaller exec args);;
        modify (fun p => p_with_fs (bw_install W exec args (p_fs p)) p);;
        mret true
    end
  else ShowError missing_installer_text;; mret false.

Definition GetApplicationName : PM str :=
  a ← gets p_app;
  mret (match a with Some a => c_str (a_name a) | None => PRODUCT_NAME (bw_machine W) end).

(** ** boot.cpp *)

(** The version of the update is not compared. *)
Definition FindUpdate : PM unit :=
  a ← app_;
  machine ← the_machine_;
  dir ← on_fs_ (GetApplicationDataDirectory (bw_mkdir W) machine (a_id a));
  file ← lift (Join [dir; UPDATE_FILENAME]);
  fs ← gets p_fs;
  if IsFile fs file then
    update ← lift (NewApplication2 fs file (a_path a));
    match update with
    | Some update =>
        modify (fun p => p_with_globals (p_applicationHome p) file (Some (AddArguments argv update)) p)
    | None => mret tt
    end
  else mret tt.

Definition is_sdk (d : Dependency) : bool :=
  bool_decide (d_type d = SDK) || bool_decide (d_type d = MOBILESDK).
Definition FilterForSDKInstall (dependencies : list Dependency) : list Dependency :=
  match List.filter is_sdk dependencies with [] => dependencies | justSDKs => justSDKs end.

(** [app->ResolveDependencies()] *)
Definition Resolve : PM (list Dependency) :=
  a ← app_;
  machine ← the_machine_;
  known ← gets p_searchPaths;
  paths ← lift (GetComponentSearchPaths machine known);
  modify (p_with_searchPaths paths);;
  fs ← gets p_fs;
  '(a, missing) ← on_boot_ (ResolveDependencies fs paths a);
  set_app a;;
  mret missing.

(** [app->IsInstalled()] *)
Definition Installed : PM bool :=
  a ← app_; machine ← the_machine_; on_fs_ (IsInstalled (bw_mkdir W) machine a).

Definition print_resolution (missing : list Dependency) : PM unit :=
  a ← app_;
  st_fold (fun _ r =>
    c ← on_boot_ (comp r);
    act (Printed (lit "Resolved: (" ++ c_name c ++ lit " " ++ c_version c ++ lit ") " ++ c_path c)))
    tt (GetResolvedComponents a);;
  st_fold (fun _ d => act (Printed (lit "Unresolved: " ++ d_name d ++ lit " " ++ d_version d)))
    tt missing.

(** The second part of [Bootstrap]: the dependencies are there. *)
Definition Launch : PM ending :=
  a ← app_;
  paths ← st_map (fun m => c ← on_boot_ (comp m); mret (c_path c)) (a_modules a);
  let moduleList := concat (map (fun path => path ++ MODULE_SEPARATOR) paths) in
  on_environ_ (Set_ BOOTSTRAP_ENV (lit "YES"));;
  on_environ_ (Set_ (lit "KR_HOME") (a_path a));;
  r ← some_or_undef (a_runtime a);
  c ← on_boot_ (comp r);
  on_environ_ (Set_ (lit "KR_RUNTIME") (c_path c));;
  on_environ_ (Set_ (lit "KR_MODULES") moduleList);;
  BootstrapPlatformSpecific moduleList;;
  error ← Blastoff;
  match error with
  | None => mret Replaced
  | Some error => ShowError (lit "Launching application failed: " ++ error);; mret (Returned 152)
  end.

(** The test after the installer may have run. *)
Definition Proceed (missing : list Dependency) : PM ending :=
  bad ← match missing with
        | [] => installed ← Installed; mret (negb installed)
        | _ => mret true
        end;
  if bad : bool then mret (Returned 129) else Launch.

Definition needs_install (forceInstall : bool) (missing : list Dependency) : PM bool :=
  if forceInstall then mret true
  else match missing with
       | [] =>
           installed ← Installed;
           if negb installed then mret true
           else updateFile ← gets p_updateFile; mret (bool_decide (updateFile <> []))
       | _ => mret true
       end.

(** What follows the first resolution. *)
Definition Continue (missing : list Dependency) : PM ending :=
  a ← app_;
  (if HasArgument a (lit "debug") then print_resolution missing else mret tt);;
  let forceInstall := HasArgument a (lit "--force-install") in
  install ← needs_install forceInstall missing;
  if install : bool then
    ok ← Boot_RunInstaller (FilterForSDKInstall missing);
    if ok : bool then missing ← Resolve; Proceed missing else mret (Returned 117)
  else Proceed missing.

Definition Bootstrap : PM ending :=
  home ← GetApplicationHomePath;
  modify (fun p => p_with_globals home (p_updateFile p) (p_app p) p);;
  manifestPath ← lift (Join [home; MANIFEST_FILENAME]);
  fs ← gets p_fs;
  if IsFile fs manifestPath then
    app ← lift (NewApplication fs home);
    match app with
    | None => ShowError (lit "Application packaging error: could not read manifest.");; mret (Returned 82)
    | Some app =>
        set_app (AddArguments argv app);;
        FindUpdate;;
        missing ← Resolve;
        Continue missing
    end
  else ShowError (lit "Application packaging error: no manifest was found.");; mret (Returned 75).

(** [main], without the crash reporter. *)
Definition main : PM ending :=
  boot ← on_environ_ (Has BOOTSTRAP_ENV);
  if boot : bool then on_environ_ (Unset BOOTSTRAP_ENV);; code ← StartHost; mret (Returned code)
  else Bootstrap.
End Boot.
