(* ===== verification/Double.v ===== *)
(** * Double: the C++ [double] and its conversions to and from [int]

    A [double] is an IEEE 754 binary64 datum, the Standard Library's
    [spec_float] with 53 bits of precision. *)

From S2P Require Import Prelude.
From Stdlib Require Import Floats.SpecFloat.
From stdpp Require Import options.
#[local] Open Scope Z_scope.

Definition double : Set := spec_float.

#[export] Instance double_eq_dec : EqDecision double.
Proof. solve_decision. Defined.

Definition prec : Z := 53.
Definition emax : Z := 1024.

(** [(double) z], rounded to nearest even. *)
Definition double_of_int (z : Z) : double := binary_normalize prec emax z 0 false.

Definition truncate (d : double) : option Z :=
  match d with
  | S754_zero _ => Some 0
  | S754_finite s m e =>
      let a := match e with
               | Z0 => Zpos m
               | Zpos _ => Zpos m * 2 ^ e
               | Zneg p => Zpos m / 2 ^ (Zpos p)
               end in
      Some (if s then - a else a)
  | S754_infinity _ | S754_nan => None
  end.

(** [(int) d]: truncation; a value that does not fit an [int] gives the
    "integer indefinite" of the x86-64 conversion instruction, [INT_MIN]. *)
Definition int_of_double (d : double) : Z :=
  match truncate d with
  | Some z => if (int_min <=? z) && (z <=? int_max) then z else int_min
  | None => int_min
  end.

(** [a == b] on doubles: NaN differs from itself, the zeros are equal. *)
Definition double_eqb (a b : double) : bool := SFeqb a b.

(** [((int) d) == d]: the [int] is converted back for the comparison. *)
Definition is_integral (d : double) : bool := double_eqb (double_of_int (int_of_double d)) d.

(** ** Integers survive the round trip *)

Lemma digits2_shift p d : digits2_pos (Pos.iter xO p d) = (digits2_pos p + d)%positive.
Proof.
  induction d as [|d IH] using Pos.peano_ind; simpl; [lia|].
  rewrite Pos.iter_succ. simpl. rewrite IH. lia.
Qed.

Lemma shift_value p d : Zpos (Pos.iter xO p d) = Zpos p * 2 ^ Zpos d.
Proof.
  induction d as [|d IH] using Pos.peano_ind; simpl; [lia|].
  rewrite Pos.iter_succ. rewrite Pos2Z.inj_xO, IH, Pos2Z.inj_succ, Z.pow_succ_r by lia. lia.
Qed.

Lemma digits2_bound p n : 0 <= n -> Zpos p < 2 ^ n -> Zpos (digits2_pos p) <= n.
Proof.
  intros Hn. revert n Hn. induction p as [p IH|p IH|]; intros n Hn Hp; simpl;
    (destruct (decide (n = 0)) as [->|]; [simpl in Hp; lia|]);
    try (specialize (IH (n - 1) ltac:(lia)); replace n with (Z.succ (n - 1)) in Hp by lia;
         rewrite Z.pow_succ_r in Hp by lia; lia).
  lia.
Qed.

Definition small (p : positive) : Prop := (Zpos (digits2_pos p) < 53)%Z.

(** A small integer is a double with a normalised 53-bit mantissa. *)
Lemma binary_round_small s p :
  small p ->
  exists k, Zpos k = 53 - Zpos (digits2_pos p) /\
    binary_round prec emax s p 0 = S754_finite s (Pos.iter xO p k) (Zneg k).
Proof.
  unfold small. intros Hp. exists (Z.to_pos (53 - Zpos (digits2_pos p))).
  set (k := Z.to_pos (53 - Zpos (digits2_pos p))).
  assert (Zpos k = 53 - Zpos (digits2_pos p)) as Hk by (unfold k; lia).
  split; [done|]. unfold binary_round, shl_align.
  assert (fexp prec emax (Zpos (digits2_pos p) + 0) = Zneg k) as ->.
  { unfold fexp, SpecFloat.emin, prec, emax. lia. }
  assert ((let '(mz, ez) := match Z.neg k - 0 with
                            | Zneg d => (Pos.iter xO p d, Z.neg k) | _ => (p, 0) end in
           binary_round_aux prec emax s (Zpos mz) ez loc_Exact)
          = binary_round_aux prec emax s (Zpos (Pos.iter xO p k)) (Zneg k) loc_Exact) as ->
    by done.
  unfold binary_round_aux.
  assert (fexp prec emax (Zdigits2 (Zpos (Pos.iter xO p k)) + Zneg k) - Zneg k = 0) as E.
  { simpl Zdigits2. rewrite digits2_shift. unfold fexp, SpecFloat.emin, prec, emax. lia. }
  assert (shr_fexp prec emax (Zpos (Pos.iter xO p k)) (Zneg k) loc_Exact
          = ({| shr_m := Zpos (Pos.iter xO p k); shr_r := false; shr_s := false |}, Zneg k)) as F.
  { unfold shr_fexp. rewrite E. done. }
  rewrite F. cbv beta iota delta [shr_m loc_of_shr_record round_nearest_even].
  rewrite F. done.
Qed.

Lemma truncate_double_of_int z : Z.abs z < 2 ^ 52 -> truncate (double_of_int z) = Some z.
Proof.
  intros Hz. destruct z as [|p|p]; [done| |];
    (assert (small p) as Hp by (pose proof (digits2_bound p 52 ltac:(lia) ltac:(lia)); unfold small; lia));
    unfold double_of_int, binary_normalize.
  - destruct (binary_round_small false p Hp) as (k' & Hk' & ->). unfold truncate.
    rewrite shift_value, Z.div_mul by lia. done.
  - destruct (binary_round_small true p Hp) as (k' & Hk' & ->). unfold truncate.
    rewrite shift_value, Z.div_mul by lia. done.
Qed.

Lemma int_of_double_of_int z : is_int z -> int_of_double (double_of_int z) = z.
Proof.
  unfold is_int, int_min, int_max. intros Hz. unfold int_of_double.
  rewrite truncate_double_of_int by lia.
  rewrite (proj2 (Z.leb_le _ _)) by (unfold int_min; lia).
  by rewrite (proj2 (Z.leb_le _ _)) by (unfold int_max; lia).
Qed.

Lemma int_of_double_range d : is_int (int_of_double d).
Proof.
  unfold int_of_double, is_int. destruct (truncate d) as [z|]; [|done].
  destruct (int_min <=? z) eqn:E1, (z <=? int_max) eqn:E2; simpl; unfold int_min, int_max in *; lia.
Qed.

Lemma double_of_int_inj a b :
  is_int a -> is_int b -> double_of_int a = double_of_int b -> a = b.
Proof. intros Ha Hb E. by rewrite <- (int_of_double_of_int a), E, int_of_double_of_int. Qed.

Lemma double_eqb_refl d : d <> S754_nan -> double_eqb d d = true.
Proof.
  unfold double_eqb, SFeqb, SFcompare. destruct d as [[]|[]| |s m e]; try done.
  intros _. rewrite Z.compare_refl.
  change (Pos.compare_cont Eq m m) with (Pos.compare m m). rewrite Pos.compare_refl.
  by destruct s.
Qed.

Lemma double_of_int_not_nan z : is_int z -> double_of_int z <> S754_nan.
Proof.
  intros Hz E. pose proof (truncate_double_of_int z) as H. rewrite E in H.
  unfold is_int, int_min, int_max in Hz. specialize (H ltac:(lia)). done.
Qed.

Lemma is_integral_of_int z : is_int z -> is_integral (double_of_int z) = true.
Proof.
  intros Hz. unfold is_integral. rewrite int_of_double_of_int by done.
  by apply double_eqb_refl, double_of_int_not_nan.
Qed.
