(* ===== verification/Heap.v ===== *)
(** * Heap: values, objects and the state of the binding layer
    (api/binding/value.h, value.cpp and the fields of the object classes)

    Every [SharedValue] and [SharedKObject] is an address in a heap, so that
    aliasing is as in the program: [Value::Undefined] and [Value::Null] are
    two fixed cells that many properties share. Reference counts are not
    modelled: an object that the program has freed stays in the heap, where
    nothing reaches it. *)

From S2P Require Import Prelude CppString BootUtils System Double.
From stdpp Require Import options.

(** An address. Objects and values have disjoint address spaces. *)
Abbreviation loc := N.

(** ** Values *)

Inductive vtype :=
  INT | DOUBLE | BOOL | STRING | LIST | OBJECT | METHOD | VOIDPTR | NULLV | UNDEFINED.
#[export] Instance vtype_eq_dec : EqDecision vtype.
Proof. solve_decision. Defined.

(** The fields of [Value]. [boolValue] is not initialised by the constructors:
    [None] until the first [SetBool]. *)
Record value := {
  type : vtype;
  numberValue : double;
  boolValue : option bool;
  stringValue : option str;
  objectValue : option loc;
  voidPtrValue : N
}.
#[export] Instance value_eq_dec : EqDecision value.
Proof. solve_decision. Defined.

Definition zero : double := double_of_int 0.

(** [Value::Value()] *)
Definition new_value : value :=
  {| type := UNDEFINED; numberValue := zero; boolValue := None; stringValue := None;
     objectValue := None; voidPtrValue := 0 |}.

Definition reset (v : value) : value :=
  {| type := UNDEFINED; numberValue := zero; boolValue := boolValue v; stringValue := None;
     objectValue := None; voidPtrValue := 0 |}.

Definition set_number (t : vtype) (d : double) (v : value) : value :=
  {| type := t; numberValue := d; boolValue := boolValue v; stringValue := stringValue v;
     objectValue := objectValue v; voidPtrValue := voidPtrValue v |}.
Definition set_type (t : vtype) (v : value) : value := set_number t (numberValue v) v.
Definition set_bool (b : bool) (v : value) : value :=
  {| type := BOOL; numberValue := numberValue v; boolValue := Some b; stringValue := stringValue v;
     objectValue := objectValue v; voidPtrValue := voidPtrValue v |}.
Definition set_string (s : str) (v : value) : value :=
  {| type := STRING; numberValue := numberValue v; boolValue := boolValue v; stringValue := Some s;
     objectValue := objectValue v; voidPtrValue := voidPtrValue v |}.
Definition set_object (t : vtype) (o : option loc) (v : value) : value :=
  {| type := match o with None => NULLV | Some _ => t end;
     numberValue := numberValue v; boolValue := boolValue v; stringValue := stringValue v;
     objectValue := o; voidPtrValue := voidPtrValue v |}.
Definition set_voidptr (p : N) (v : value) : value :=
  {| type := VOIDPTR; numberValue := numberValue v; boolValue := boolValue v;
     stringValue := stringValue v; objectValue := objectValue v; voidPtrValue := p |}.

(** The type tests. *)
Definition IsInt (v : value) : bool :=
  bool_decide (type v = INT) || (bool_decide (type v = DOUBLE) && is_integral (numberValue v)).
Definition IsDouble (v : value) : bool := bool_decide (type v = DOUBLE).
Definition IsNumber (v : value) : bool := bool_decide (type v = DOUBLE) || bool_decide (type v = INT).
Definition IsBool (v : value) : bool := bool_decide (type v = BOOL).
Definition IsString (v : value) : bool := bool_decide (type v = STRING).
Definition IsList (v : value) : bool := bool_decide (type v = LIST).
Definition IsObject (v : value) : bool := bool_decide (type v = OBJECT).
Definition IsMethod (v : value) : bool := bool_decide (type v = METHOD).
Definition IsVoidPtr (v : value) : bool := bool_decide (type v = VOIDPTR).
Definition IsNull (v : value) : bool := bool_decide (type v = NULLV).
Definition IsUndefined (v : value) : bool := bool_decide (type v = UNDEFINED).

Definition ToInt (v : value) : Z := int_of_double (numberValue v).
Definition ToDouble (v : value) : double := numberValue v.
Definition ToNumber (v : value) : double := numberValue v.

(** ** Objects *)

(** The member functions that the classes bind as methods. *)
Inductive member :=
  | KEventObject__AddEventListener | KEventObject__RemoveEventListener
  | Event__GetTarget | Event__GetType | Event__GetTimestamp
  | Event__StopPropagation | Event__PreventDefault | ReadEvent__GetData
  | AsyncJob__GetProgress | AsyncJob__Cancel | AsyncJob__IsComplete
  | Blob__ToString | Blob__Get | Blob__IndexOf | Blob__LastIndexOf | Blob__CharAt
  | Blob__Split | Blob__Substring | Blob__Substr | Blob__ToLowerCase
  | Blob__ToUpperCase | Blob__Concat
  | ScriptBinding__AddScriptEvaluator | ScriptBinding__RemoveScriptEvaluator
  | ScriptBinding__CanEvaluate | ScriptBinding__CanPreprocess
  | ScriptBinding__Evaluate | ScriptBinding__Preprocess
  | DependencyBinding__GetType | DependencyBinding__GetName | DependencyBinding__GetVersion
  | DependencyBinding__GetRequirement
  | ComponentBinding__GetType | ComponentBinding__GetName | ComponentBinding__GetVersion
  | ComponentBinding__GetPath | ComponentBinding__GetManifest | ComponentBinding__IsBundled
  | ComponentBinding__IsLoaded
  | ApplicationBinding__GetID | ApplicationBinding__GetGUID | ApplicationBinding__GetName
  | ApplicationBinding__GetVersion | ApplicationBinding__GetPath
  | ApplicationBinding__GetExecutablePath | ApplicationBinding__GetResourcesPath
  | ApplicationBinding__GetDataPath | ApplicationBinding__GetManifestPath
  | ApplicationBinding__GetManifest | ApplicationBinding__IsCurrent | ApplicationBinding__GetPID
  | ApplicationBinding__GetArguments | ApplicationBinding__HasArgument
  | ApplicationBinding__GetArgumentValue | ApplicationBinding__GetDependencies
  | ApplicationBinding__ResolveDependencies | ApplicationBinding__GetComponents
  | ApplicationBinding__GetModules | ApplicationBinding__GetRuntime
  | ApplicationBinding__GetAvailableComponents | ApplicationBinding__GetAvailableModules
  | ApplicationBinding__GetAvailableRuntimes | ApplicationBinding__GetBundledComponents
  | ApplicationBinding__GetBundledModules | ApplicationBinding__GetBundledRuntimes
  | APIBinding__Set | APIBinding__Get | APIBinding__AddEventListener
  | APIBinding__RemoveEventListener | APIBinding__FireEvent | APIBinding__RunOnMainThread
  | APIBinding__RunOnMainThreadAsync | APIBinding__GetApplication
  | APIBinding__GetInstalledComponents | APIBinding__GetInstalledSDKs
  | APIBinding__GetInstalledMobileSDKs | APIBinding__GetInstalledModules
  | APIBinding__GetInstalledRuntimes | APIBinding__GetComponentSearchPaths
  | APIBinding__ReadApplicationManifest | APIBinding__CreateDependency
  | APIBinding__InstallDependencies | APIBinding__ComponentGUIDToComponentType
  | APIBinding__GetEnvironment | APIBinding__CreateKObject | APIBinding__CreateKMethod
  | APIBinding__CreateKList | APIBinding__CreateBlob | APIBinding__Log | APIBinding__LogTrace
  | APIBinding__LogDebug | APIBinding__LogInfo | APIBinding__LogNotice | APIBinding__LogWarn
  | APIBinding__LogError | APIBinding__LogCritical | APIBinding__LogFatal
  | APIBinding__SetLogLevel | APIBinding__GetLogLevel | APIBinding__Print
  | PythonEvaluator__CanEvaluate | PythonEvaluator__Evaluate
  | RubyEvaluator__CanEvaluate | RubyEvaluator__Evaluate
  | PHPEvaluator__CanEvaluate | PHPEvaluator__Evaluate
  | PHPEvaluator__CanPreprocess | PHPEvaluator__Preprocess.
#[export] Instance member_eq_dec : EqDecision member.
Proof. solve_decision. Defined.

(** A [MethodCallback]: a member function of an object, or code outside of
    this model (a module's). *)
Inductive callback :=
  | Member (owner : loc) (m : member)
  | Native (n : N).

Inductive MethodDelegateType := GET | SET.

Record event_data := {
  e_target : loc;                    (* the KEventObject *)
  e_eventName : str;
  e_timestamp : Z;                   (* microseconds since the epoch *)
  e_stopped : bool;
  e_preventedDefault : bool;
  e_data : option loc                (* the blob of a ReadEvent *)
}.

Record job_data := {
  j_job : option loc;                (* SharedKMethod job *)
  j_progress : double;
  j_completed : bool;
  j_result : loc;                    (* SharedValue *)
  j_hadError : bool;
  j_cancelled : bool;
  j_sharedThis : option loc;
  j_progressCallbacks : list loc;
  j_completedCallbacks : list loc;
  j_errorCallbacks : list loc
}.

(** What an [APIBinding] keeps: its logger and the run of the installer. *)
Record api_data := {
  api_logger : N;
  api_locked : bool;                 (* installerMutex *)
  api_dependencies : list Dependency;
  api_callback : option loc;
  api_started : bool                 (* the thread runs [RunInstaller] *)
}.

(** The dynamic class of an object, with the fields it has besides [type] and
    [properties]. *)
Inductive class :=
  | StaticBoundObject
  | AccessorBoundObject
  | KEventObject (isRoot : bool)
  | Event (e : event_data)
  | Blob (buffer : option str) (length : Z)
  | AsyncJob (j : job_data)
  | StaticBoundList (object : loc) (length : Z)
  | AccessorBoundList (object : loc) (length : Z)
  | StaticBoundMethod (object : loc) (cb : option callback)
  | AccessorBoundMethod (object : loc) (cb : option callback)
  | KFunctionPtrMethod (object : loc) (fn : N)
  | DelegateStaticBoundObject (global local : loc)
  | ProfiledBoundObject (delegate : loc)
  | ProfiledBoundList (delegate : loc)
  | ProfiledBoundMethod (delegate : loc) (fullType : str)
  | ScopeMethodDelegate (t : MethodDelegateType) (global scope delegate : loc)
  | APIBinding (a : api_data)
  | ApplicationBinding (application : N) (current : bool)
  | ComponentBinding (component : SharedComponent)
  | DependencyBinding (dependency : Dependency)
  | EnvironmentBinding
  | ScriptBinding
  | KObjectWrapper (object : option loc)
  | KMethodWrapper (method : option loc)
  | KListWrapper (list : option loc)
  | KKJSObject (context jsobject : N)
  | KKJSMethod (context jsobject : N) (thisObject : option N) (kobject : loc)
  | KKJSList (context jsobject : N) (kobject : loc)
  | KPythonObject (pyobject : N) (readOnly : bool) (delegate : option loc)
  | KPythonDict (pyobject : N)
  | KPythonMethod (method : N) (kobject : loc)
  | KPythonList (pylist : N) (kobject : loc)
  | KPythonTuple (pytuple : N) (kobject : loc)
  | KRubyObject (rbobject : N)
  | KRubyHash (rbhash : N) (kobject : loc)
  | KRubyMethod (rbmethod rbarg : N) (kobject : loc)
  | KRubyList (rblist : N) (kobject : loc)
  | KPHPObject (zobject : N)
  | KPHPMethod (zobject : N) (methodName : str) (globalObject : option loc)
  | KPHPFunction (methodName : str) (zMethodName : N) (globalObject : option loc)
  | KPHPList (zlist : N)
  | KPHPArrayObject (zlist : N)
  | Foreign (n : N).

Record object := {
  o_type : str;                      (* KObject::type *)
  properties : gmap str loc;         (* StaticBoundObject::properties *)
  o_class : class
}.

(** The dynamic casts to [KList] and [KMethod]. *)
Definition is_list_class (c : class) : bool :=
  match c with
  | StaticBoundList _ _ | AccessorBoundList _ _ | ProfiledBoundList _ | KListWrapper _
  | KKJSList _ _ _ | KPythonList _ _ | KPythonTuple _ _ | KRubyList _ _
  | KPHPList _ | KPHPArrayObject _ => true
  | _ => false
  end.
Definition is_method_class (c : class) : bool :=
  match c with
  | StaticBoundMethod _ _ | AccessorBoundMethod _ _ | KFunctionPtrMethod _ _
  | ProfiledBoundMethod _ _ | ScopeMethodDelegate _ _ _ _ | KMethodWrapper _
  | KKJSMethod _ _ _ _ | KPythonMethod _ _ | KRubyMethod _ _ _
  | KPHPMethod _ _ _ | KPHPFunction _ _ _ => true
  | _ => false
  end.

(** An [EventListener]. *)
Record listener := {
  l_eventName : str;
  l_callback : loc;
  l_id : Z                           (* unsigned int listenerId *)
}.

(** ** The heap *)

Record heap := {
  next : N;                          (* the first free address *)
  vals : gmap loc value;
  objs : gmap loc object;
  listeners : gmap loc listener;     (* the live EventListeners *)
  listenerMap : gmap loc (list loc); (* KEventObject::listenerMap *)
  currentId : Z;                     (* EventListener::currentId *)
  root : loc;                        (* KEventObject::root *)
  profiling : bool;                  (* Host::ProfilingEnabled *)
  jobs : list (loc * list loc);      (* the queued LinuxJobs: method and arguments *)
  output : list (str * str);         (* what was logged, latest first *)
  sys : System                       (* the state outside of the objects *)
}.

Abbreviation M := (ST heap).

Definition with_next n h :=
  {| next := n; vals := vals h; objs := objs h; listeners := listeners h;
     listenerMap := listenerMap h; currentId := currentId h; root := root h; profiling := profiling h;
     jobs := jobs h; output := output h; sys := sys h |}.
Definition with_vals f h :=
  {| next := next h; vals := f (vals h); objs := objs h; listeners := listeners h;
     listenerMap := listenerMap h; currentId := currentId h; root := root h; profiling := profiling h;
     jobs := jobs h; output := output h; sys := sys h |}.
Definition with_objs f h :=
  {| next := next h; vals := vals h; objs := f (objs h); listeners := listeners h;
     listenerMap := listenerMap h; currentId := currentId h; root := root h; profiling := profiling h;
     jobs := jobs h; output := output h; sys := sys h |}.
Definition with_listeners f h :=
  {| next := next h; vals := vals h; objs := objs h; listeners := f (listeners h);
     listenerMap := listenerMap h; currentId := currentId h; root := root h; profiling := profiling h;
     jobs := jobs h; output := output h; sys := sys h |}.
Definition with_listenerMap f h :=
  {| next := next h; vals := vals h; objs := objs h; listeners := listeners h;
     listenerMap := f (listenerMap h); currentId := currentId h; root := root h; profiling := profiling h;
     jobs := jobs h; output := output h; sys := sys h |}.
Definition with_currentId i h :=
  {| next := next h; vals := vals h; objs := objs h; listeners := listeners h;
     listenerMap := listenerMap h; currentId := i; root := root h; profiling := profiling h;
     jobs := jobs h; output := output h; sys := sys h |}.
Definition with_jobs f h :=
  {| next := next h; vals := vals h; objs := objs h; listeners := listeners h;
     listenerMap := listenerMap h; currentId := currentId h; root := root h; profiling := profiling h;
     jobs := f (jobs h); output := output h; sys := sys h |}.
Definition with_output f h :=
  {| next := next h; vals := vals h; objs := objs h; listeners := listeners h;
     listenerMap := listenerMap h; currentId := currentId h; root := root h; profiling := profiling h;
     jobs := jobs h; output := f (output h); sys := sys h |}.
Definition with_sys f h :=
  {| next := next h; vals := vals h; objs := objs h; listeners := listeners h;
     listenerMap := listenerMap h; currentId := currentId h; root := root h; profiling := profiling h;
     jobs := jobs h; output := output h; sys := f (sys h) |}.

(** [Value::Undefined] and [Value::Null]. *)
Definition Undefined : loc := 0%N.
Definition Null : loc := 1%N.

(** The heap after the static initialisation of [Value]. *)
Definition initial_heap : heap :=
  {| next := 2;
     vals := <[Undefined := new_value]> {[Null := set_type NULLV (reset new_value)]};
     objs := ∅; listeners := ∅; listenerMap := ∅; currentId := 1; root := 0;
     profiling := false; jobs := []; output := []; sys := initial_system |}.

(** A computation on the state outside of the objects. *)
Definition on_sys {A} (m : SM A) : M A := zoom sys (fun t => with_sys (fun _ => t)) m.

(** ** Access *)

Definition alloc : M loc := fun h => (Ret (next h), with_next (N.succ (next h)) h).

Definition getv (l : loc) : M value := fun h =>
  (match vals h !! l with Some v => Ret v | None => Undef end, h).
Definition putv (l : loc) (v : value) : M unit := modify (with_vals (<[l := v]>)).
Definition geto (o : loc) : M object := fun h =>
  (match objs h !! o with Some x => Ret x | None => Undef end, h).
Definition puto (o : loc) (x : object) : M unit := modify (with_objs (<[o := x]>)).

Definition new_object (ty : str) (c : class) : M loc :=
  o ← alloc; puto o {| o_type := ty; properties := ∅; o_class := c |};; mret o.

Definition set_class (o : loc) (c : class) : M unit :=
  x ← geto o; puto o {| o_type := o_type x; properties := properties x; o_class := c |}.

Definition log_line (logger msg : str) : M unit := modify (with_output (cons (logger, msg))).

(** ** The setters *)

Definition update_value (l : loc) (f : value -> value) : M unit := v ← getv l; putv l (f v).

Definition SetInt (l : loc) (z : Z) : M unit :=
  update_value l (fun v => set_number INT (double_of_int z) (reset v)).
Definition SetDouble (l : loc) (d : double) : M unit :=
  update_value l (fun v => set_number DOUBLE d (reset v)).
Definition SetBool (l : loc) (b : bool) : M unit :=
  update_value l (fun v => set_bool b (reset v)).
(** [strdup] copies up to the first NUL. *)
Definition SetString (l : loc) (s : str) : M unit :=
  update_value l (fun v => set_string (c_str s) (reset v)).
Definition SetList (l : loc) (o : option loc) : M unit :=
  update_value l (fun v => set_object LIST o (reset v)).
Definition SetObject (l : loc) (o : option loc) : M unit :=
  update_value l (fun v => set_object OBJECT o (reset v)).
Definition SetMethod (l : loc) (o : option loc) : M unit :=
  update_value l (fun v => set_object METHOD o (reset v)).
Definition SetVoidPtr (l : loc) (p : N) : M unit :=
  update_value l (fun v => set_voidptr p (reset v)).
Definition SetNull (l : loc) : M unit := update_value l (fun v => set_type NULLV (reset v)).
Definition SetUndefined (l : loc) : M unit :=
  update_value l (fun v => set_type UNDEFINED (reset v)).

(** ** The getters that can fail *)

Definition ToBool (v : value) : M bool := some_or_undef (boolValue v).
Definition ToString (v : value) : M str := some_or_undef (stringValue v).
Definition ToObject (v : value) : option loc := objectValue v.

(** The dynamic cast of [ToMethod] and [ToList]: null for another class. *)
Definition dynamic_cast (P : class -> bool) (o : option loc) : M (option loc) :=
  match o with
  | None => mret None
  | Some o' => x ← geto o'; mret (if P (o_class x) then Some o' else None)
  end.
Definition ToMethod (v : value) : M (option loc) := dynamic_cast is_method_class (objectValue v).
Definition ToList (v : value) : M (option loc) := dynamic_cast is_list_class (objectValue v).

(** ** The constructors *)

Definition NewUndefined : M loc := l ← alloc; putv l new_value;; mret l.
Definition new_with (f : loc -> M unit) : M loc := l ← NewUndefined; f l;; mret l.
Definition NewNull : M loc := new_with SetNull.
Definition NewInt (z : Z) : M loc := new_with (fun l => SetInt l z).
Definition NewDouble (d : double) : M loc := new_with (fun l => SetDouble l d).
Definition NewBool (b : bool) : M loc := new_with (fun l => SetBool l b).
Definition NewString (s : str) : M loc := new_with (fun l => SetString l s).
Definition NewList (o : option loc) : M loc := new_with (fun l => SetList l o).
Definition NewMethod (o : option loc) : M loc := new_with (fun l => SetMethod l o).
Definition NewVoidPtr (p : N) : M loc := new_with (fun l => SetVoidPtr l p).
Definition NewObject (o : option loc) : M loc := new_with (fun l => SetObject l o).

(** [Value::SetValue(Value *other)]. A string set from itself is read after
    [reset] has freed it. *)
Definition SetValue (this other : loc) : M unit :=
  v ← getv other;
  if IsInt v then SetInt this (ToInt v)
  else if IsDouble v then SetDouble this (ToDouble v)
  else if IsBool v then b ← ToBool v; SetBool this b
  else if IsString v then
    if decide (this = other) then undef else s ← ToString v; SetString this s
  else if IsList v then o ← ToList v; SetList this o
  else if IsMethod v then o ← ToMethod v; SetMethod this o
  else if IsVoidPtr v then SetVoidPtr this (voidPtrValue v)
  else if IsObject v then SetObject this (ToObject v)
  else if IsNull v then SetNull this
  else if IsUndefined v then SetUndefined this
  else throw (CStringExn (lit "Error on set. Unknown type for other")).

(** [throw ValueException::FromString(s)] *)
Definition throw_string {A} (s : str) : M A := l ← NewString s; throw (ValueException (Some l)).
