(* ===== verification/JavaScriptCore.v ===== *)
(** * JavaScriptCore: the engine that the JavaScript module calls, as an
    interface

    JavaScriptCore is not part of the program: its C functions are the fields
    of two records. [JSQueries] are the functions that only look at the
    engine's memory, [JSOps] the others; an operation that can run a script
    gets the operations of the program ([VOps], through which the callbacks of
    the program are called) when the record is made. A [JSValueRef] is an address, an object is one of
    them; a null pointer is [None]. A function with an out parameter for an
    exception returns it as the second component. *)

From S2P Require Import Prelude Double System Heap.
From stdpp Require Import options.

Inductive JSType := JSUndefined | JSNull | JSBoolean | JSNumber | JSString | JSObject.
#[export] Instance JSType_eq_dec : EqDecision JSType.
Proof. solve_decision. Defined.

(** The memory of the engine. *)
Abbreviation jsmem := (gmap N (list N)).
Definition jsmem_of (h : heap) : jsmem := js_memory (s_js (sys h)).

(** A [JSStringRef]: the UTF-16 code units. *)
Abbreviation jsstr := (list N).

(** What a [JSClassDefinition] of the program says: the name, and which of the
    callbacks below it names (the others are null). *)
Record JSClassDefinition := {
  className : str;
  jc_getPropertyNames : bool;
  jc_finalize : bool;
  jc_hasProperty : bool;
  jc_getProperty : bool;
  jc_setProperty : bool;
  jc_callAsFunction : bool
}.

(** The callbacks that the program gives to the engine, with their arguments. *)
Inductive jscall :=
  | HasPropertyCall (ctx object : N) (name : jsstr)
  | GetPropertyCall (ctx object : N) (name : jsstr)
  | SetPropertyCall (ctx object : N) (name : jsstr) (value : N)
  | CallAsFunctionCall (ctx function this : N) (args : list N)
  | GetPropertyNamesCall (ctx object : N)
  | FinalizeCall (object : N)
  | ToStringCall (ctx function this : N) (args : list N)
  | EqualsCall (ctx function this : N) (args : list N).

(** The two callbacks that are made functions of their own. *)
Inductive js_function := ToStringFunction | EqualsFunction.

Definition jsanswer (c : jscall) : Type :=
  match c with
  | HasPropertyCall _ _ _ => bool
  | SetPropertyCall _ _ _ _ => bool * option N
  | GetPropertyNamesCall _ _ => list jsstr
  | FinalizeCall _ => unit
  | _ => option N * option N
  end.

Record JSQueries := {
  JSValueGetType : jsmem -> N -> N -> JSType;         (* JSValueIsNumber, ... *)
  JSValueToBoolean : jsmem -> N -> N -> bool;
  JSValueIsStrictEqual : jsmem -> N -> N -> N -> bool;
  JSObjectGetPrivate : jsmem -> N -> option N;
  JSObjectIsFunction : jsmem -> N -> N -> bool;
  JSObjectGetPrototype : jsmem -> N -> N -> N;
  JSContextGetGlobalObject : jsmem -> N -> N;
  JSContextGetGroup : jsmem -> N -> N;
  JSStringCreateWithUTF8CString : str -> jsstr;
  JSStringGetUTF8CString : jsstr -> str
}.

Record JSOps := {
  JSValueToNumber : N -> N -> M (double * option N);
  JSValueToStringCopy : N -> N -> M (option jsstr * option N);
  JSValueToObject : N -> N -> M (option N * option N);
  JSValueMakeNumber : N -> double -> M N;
  JSValueMakeBoolean : N -> bool -> M N;
  JSValueMakeString : N -> jsstr -> M N;
  JSValueMakeNull : N -> M N;
  JSValueMakeUndefined : N -> M N;
  JSValueProtect : N -> N -> M unit;
  JSValueUnprotect : N -> N -> M unit;
  JSClassCreate : JSClassDefinition -> M N;
  JSObjectMake : N -> N -> N -> M N;                 (* with the private data *)
  JSObjectMakeFunctionWithCallback : N -> jsstr -> js_function -> M N;
  JSObjectSetPrototype : N -> N -> N -> M unit;
  JSObjectHasProperty : N -> N -> jsstr -> M bool;
  JSObjectGetProperty : N -> N -> jsstr -> M (option N * option N);
  JSObjectSetProperty : N -> N -> jsstr -> N -> M (option N);
  JSObjectCallAsFunction : N -> N -> option N -> list N -> M (option N * option N);
  JSObjectCopyPropertyNames : N -> N -> M (list jsstr);
  JSCheckScriptSyntax : N -> jsstr -> M (bool * option N);
  JSEvaluateScript : N -> jsstr -> option N -> M (option N * option N);
  JSGlobalContextCreate : M N;
  JSGlobalContextRetain : N -> M unit;
  JSGlobalContextRelease : N -> M unit
}.
