(* ===== verification/PythonCore.v ===== *)
(** * PythonCore: the interpreter that the Python module calls, as an interface

    CPython is not part of the program. [PyQueries] are the functions (and
    macros) of its C API that only look at the interpreter's memory, [pycmd]
    the calls of the others, each with the type of its answer. The
    interpretation of the calls is a parameter that is given the operations of
    the program ([VOps]), since an operation of the interpreter can come back
    through the slots of the types of the program ([pyslot]). A [PyObject*]
    is an address, a null pointer is [None]. *)

From S2P Require Import Prelude Double System Heap.
From stdpp Require Import options.

(** The memory of the interpreter. *)
Abbreviation pymem := (gmap N (list N)).
Definition pymem_of (h : heap) : pymem := py_memory (s_py (sys h)).

(** The types that the program names; the last three are its own. *)
Inductive PyType :=
  | PyString_Type | PyUnicode_Type | PyBool_Type | PyInt_Type | PyLong_Type | PyFloat_Type
  | PyList_Type | PyTuple_Type | PyModule_Type
  | PyKObjectType | PyKMethodType | PyKListType.
#[export] Instance PyType_eq_dec : EqDecision PyType.
Proof. solve_decision. Defined.

(** What a [PyTypeObject] of the program says: the name and which slots it
    fills besides those that all three fill. *)
Record PyTypeObject := {
  tp_name : str;
  tp_call : bool;
  tp_as_sequence : bool;
  tp_inplaceops : bool;              (* Py_TPFLAGS_HAVE_INPLACEOPS *)
  tp_sequence_in : bool              (* Py_TPFLAGS_HAVE_SEQUENCE_IN *)
}.

Record PyQueries := {
  Py_None : N;
  Py_True : N;
  Py_False : N;
  PyObject_TypeCheck : pymem -> N -> PyType -> bool;
  PyString_Check : pymem -> N -> bool;
  PyInstance_Check : pymem -> N -> bool;
  PyMethod_Check : pymem -> N -> bool;
  PyFunction_Check : pymem -> N -> bool;
  PyCallable_Check : pymem -> N -> bool;
  PyMapping_Check : pymem -> N -> bool;
  PyErr_Occurred : pymem -> bool;
  text_at : pymem -> N -> str;       (* what a [char*] into a Python string points to *)
  stale_text : pymem -> str          (* what a pointer into a freed [std::string] points to *)
}.

Inductive pycmd : Set -> Set :=
  | Py_INCREF (o : N) : pycmd unit
  | Py_DECREF (o : N) : pycmd unit
  | PyErr_Fetch : pycmd (option N * option N * option N)
  | PyErr_SetObject (type value : option N) : pycmd unit
  | PyErr_Print : pycmd unit
  | PyObject_IsTrue (o : N) : pycmd Z
  | PyInt_FromLong (z : Z) : pycmd (option N)
  | PyInt_AsLong (o : N) : pycmd Z
  | PyLong_AsDouble (o : N) : pycmd double
  | PyFloat_FromDouble (d : double) : pycmd (option N)
  | PyFloat_AsDouble (o : N) : pycmd double
  | PyString_FromString (s : str) : pycmd (option N)
  | PyString_AsString (o : N) : pycmd (option N)           (* a [char*] *)
  | PyUnicode_AsUTF8String (o : N) : pycmd (option N)
  | PyList_New (n : Z) : pycmd (option N)
  | PyList_Size (l : N) : pycmd Z
  | PyList_GetItem (l : N) (i : Z) : pycmd (option N)      (* borrowed *)
  | PyList_SetItem (l : N) (i : Z) (o : N) : pycmd Z       (* steals *)
  | PyList_Append (l o : N) : pycmd Z
  | PyList_Insert (l : N) (i : Z) (o : N) : pycmd Z
  | PyList_SetSlice (l : N) (low high : Z) (items : N) : pycmd Z
  | PyTuple_New (n : Z) : pycmd (option N)
  | PyTuple_Size (t : N) : pycmd Z
  | PyTuple_GetItem (t : N) (i : Z) : pycmd (option N)     (* borrowed *)
  | PyTuple_SetItem (t : N) (i : Z) (o : N) : pycmd Z      (* steals *)
  | PyDict_Copy (d : N) : pycmd (option N)
  | PyDict_GetItemString (d : N) (k : str) : pycmd (option N)   (* borrowed *)
  | PyDict_SetItemString (d : N) (k : str) (o : N) : pycmd Z
  | PyMapping_GetItemString (m : N) (k : str) : pycmd (option N)
  | PyMapping_SetItemString (m : N) (k : str) (o : N) : pycmd Z
  | PySequence_Concat (a b : N) : pycmd (option N)
  | PySequence_Size (s : N) : pycmd Z
  | PySequence_GetItem (s : N) (i : Z) : pycmd (option N)
  | PyObject_New (t : PyType) : pycmd (option N)
  | PyObject_Del (o : N) : pycmd unit
  | PyObject_Str (o : N) : pycmd (option N)
  | PyObject_Type (o : N) : pycmd (option N)
  | PyObject_Dir (o : N) : pycmd (option N)
  | PyObject_GetIter (o : N) : pycmd (option N)
  | PyIter_Next (o : N) : pycmd (option N)
  | PyObject_HasAttrString (o : N) (name : str) : pycmd bool
  | PyObject_GetAttrString (o : N) (name : str) : pycmd (option N)
  | PyObject_SetAttrString (o : N) (name : str) (v : N) : pycmd Z
  | PyObject_CallObject (f : N) (args : option N) : pycmd (option N)
  | PyObject_CallMethod (o : N) (name : str) (args : list (option N)) : pycmd (option N)
  | PyImport_ImportModule (name : str) : pycmd (option N)
  | PyImport_AddModule (name : str) : pycmd (option N)     (* borrowed *)
  | PyModule_GetDict (m : N) : pycmd (option N)            (* borrowed *)
  | PySys_GetObject (name : str) : pycmd (option N)        (* borrowed *)
  | Py_CompileString (code name : str) : pycmd (option N)  (* Py_file_input, no flags *)
  | PyEval_EvalCode (code globals locals : N) : pycmd (option N)
  | PyType_Ready (t : PyType) (d : PyTypeObject) : pycmd Z
  | Py_Initialize : pycmd unit
  | PyEval_InitThreads : pycmd unit
  | PyEval_SaveThread : pycmd unit
  | PyGILState_Ensure : pycmd unit
  | Py_Finalize : pycmd unit.

(** The functions in the slots of the types of the program, with their
    arguments. A null value is a deletion. *)
Inductive pyslot : Set -> Set :=
  | tp_dealloc (self : N) : pyslot unit
  | tp_getattr (self : N) (name : str) : pyslot (option N)
  | tp_setattr (self : N) (name : str) (value : option N) : pyslot Z
  | tp_str (self : N) : pyslot (option N)
  | tp_call_ (self args : N) : pyslot (option N)
  | sq_length (self : N) : pyslot Z
  | sq_concat (a b : N) : pyslot (option N)
  | sq_repeat (self : N) (count : Z) : pyslot (option N)
  | sq_item (self : N) (i : Z) : pyslot (option N)
  | sq_ass_item (self : N) (i : Z) (value : option N) : pyslot Z
  | sq_contains (self value : N) : pyslot Z
  | sq_inplace_concat (self other : N) : pyslot (option N)
  | sq_inplace_repeat (self : N) (count : Z) : pyslot (option N).
