(* ===== verification/RubyCore.v ===== *)
(** * RubyCore: the interpreter that the Ruby module calls, as an interface

    Ruby is not part of the program. [RubyQueries] are the functions (and
    macros) of its C API that only look at the interpreter's memory, [rbcmd]
    the calls of the others, each with the type of its answer. The
    interpretation of the calls is a parameter that is given the operations of
    the program ([VOps]), since an operation of the interpreter can come back
    through the functions that the program has defined as methods ([rbslot]).
    A [VALUE] is an address. An [ID] is the text that it stands for:
    [rb_intern] and [rb_id2name] are inverse to each other. *)

From S2P Require Import Prelude Double System Heap.
From stdpp Require Import options.

(** The memory of the interpreter. *)
Abbreviation rbmem := (gmap N (list N)).
Definition rbmem_of (h : heap) : rbmem := rb_memory (s_rb (sys h)).

(** What [TYPE] answers. *)
Inductive RubyType :=
  | T_NIL | T_FIXNUM | T_BIGNUM | T_FLOAT | T_TRUE | T_FALSE | T_STRING | T_OBJECT | T_STRUCT
  | T_HASH | T_ARRAY | T_DATA | T_OTHER.
#[export] Instance RubyType_eq_dec : EqDecision RubyType.
Proof. solve_decision. Defined.

(** The classes of Ruby that the program names. *)
Inductive RubyClass := rb_cMethod | rb_cProc | rb_eStandardError | rb_eArgError | rb_eNoMethodError | rb_eNameError.
#[export] Instance RubyClass_eq_dec : EqDecision RubyClass.
Proof. solve_decision. Defined.

(** How a call of Ruby code ends: by a value, or by a jump to the next
    [rb_protect] or [rescue], with the class and the text that are given to
    [rb_raise], or with an exception of Ruby's own. *)
Inductive rbanswer :=
  | Returned (v : N)
  | Raised (e : option (RubyClass * str)).

Record RubyQueries := {
  Qnil : N;
  Qtrue : N;
  Qfalse : N;
  TYPE : rbmem -> N -> RubyType;
  kind_of : rbmem -> N -> N -> bool;                 (* rb_obj_is_kind_of == Qtrue *)
  class_value : RubyClass -> N;
  NUM2DBL : rbmem -> N -> double;
  NUM2INT : rbmem -> N -> option Z;                  (* [None]: raises *)
  string_text : rbmem -> N -> str;                   (* StringValuePtr, StringValueCStr, STR2CSTR *)
  symbol_name : rbmem -> N -> str;                   (* rb_id2name(SYM2ID(v)) *)
  to_id_name : rbmem -> N -> str;                    (* rb_id2name(rb_to_id(v)) *)
  SYMBOL_P : rbmem -> N -> bool;
  RARRAY_LEN : rbmem -> N -> Z;
  rb_ary_entry : rbmem -> N -> Z -> N;               (* nil past the end *)
  rb_block_given_p : rbmem -> bool;
  format_text : str -> list str -> str               (* what rb_raise prints *)
}.

(** The functions that the program defines as methods of Ruby, and the ones
    that it runs under [rb_protect]. *)
Inductive rbfunc :=
  | RubyKObjectMethodMissing_ | RubyKObjectMethod_ | RubyKObjectMethods_ | RubyKObjectRespondTo_
  | RubyKMethodCall_ | RubyKListGetElt_ | RubyKListSetElt_ | RubyKListLength_ | RubyKListEach_
  | m_missing_.
Inductive rbprotected := DoMethodCall_ | kobj_do_method_missing_call_ | reval_do_call_.

Inductive rbcmd : Set -> Set :=
  | rb_float_new (d : double) : rbcmd N
  | rb_str_new2 (s : str) : rbcmd N
  | rb_int2num (z : Z) : rbcmd N                     (* INT2NUM *)
  | rb_id2sym (name : str) : rbcmd N                 (* ID2SYM(rb_intern(name)) *)
  | rb_ary_new : rbcmd N
  | rb_ary_push (a v : N) : rbcmd unit
  | rb_ary_shift (a : N) : rbcmd N
  | rb_ary_store (a : N) (i : Z) (v : N) : rbcmd unit
  | rb_ary_delete_at (a : N) (i : Z) : rbcmd N       (* the element, or nil *)
  | rb_hash_aref (hash k : N) : rbcmd N
  | rb_hash_aset (hash k v : N) : rbcmd unit
  | rb_obj_respond_to (o : N) (name : str) (priv : bool) : rbcmd bool
  | rb_funcall (o : N) (name : str) (args : list N) : rbcmd rbanswer
  | rb_apply (o : N) (name : str) (args : N) : rbcmd rbanswer
  | rb_call_super : rbcmd rbanswer
  | rb_yield (v : N) : rbcmd rbanswer
  | rb_protect (f : rbprotected) (args : N) : rbcmd (N * bool)   (* result, error != 0 *)
  | rb_scan_args (format : str) (argv : list N) : rbcmd (option (list N))  (* [None]: raises *)
  | rb_gv_get (name : str) : rbcmd N
  | rb_gv_set (name : str) (v : N) : rbcmd unit
  | rb_iv_set (o : N) (name : str) (v : N) : rbcmd unit
  | rb_ivar_defined (o : N) (name : str) : rbcmd bool
  | rb_ivar_get (o : N) (name : str) : rbcmd N
  | rb_obj_instance_variables (o : N) : rbcmd N
  | rb_obj_as_string (o : N) : rbcmd rbanswer
  | rb_obj_alloc (klass : N) : rbcmd N
  | rb_define_class (name : str) : rbcmd N           (* under rb_cObject *)
  | rb_define_method (klass : N) (name : str) (f : rbfunc) (argc : Z) : rbcmd unit
  | rb_define_global_const (name : str) (v : N) : rbcmd unit
  | Data_Wrap_Struct (klass : N) : rbcmd N           (* freed by RubyKObjectFree *)
  | rb_obj_call_init (o : N) : rbcmd unit
  | rb_gc_register_address (v : N) : rbcmd unit      (* of a variable that holds v *)
  | rb_gc_unregister_address (v : N) : rbcmd unit
  | ruby_init : rbcmd unit
  | ruby_init_loadpath : rbcmd unit
  | ruby_incpush (path : str) : rbcmd unit
  | ruby_cleanup : rbcmd unit.

(** The calls of those functions, with their arguments. *)
Inductive rbslot : Set -> Set :=
  | s_KObjectMethodMissing (argv : list N) (self : N) : rbslot rbanswer
  | s_KObjectMethod (argv : list N) (self : N) : rbslot rbanswer
  | s_KObjectMethods (self : N) : rbslot rbanswer
  | s_KObjectRespondTo (argv : list N) (self : N) : rbslot rbanswer
  | s_KObjectFree (o : N) : rbslot unit
  | s_KMethodCall (self args : N) : rbslot rbanswer
  | s_KListGetElt (argv : list N) (self : N) : rbslot rbanswer
  | s_KListSetElt (argv : list N) (self : N) : rbslot rbanswer
  | s_KListLength (argv : list N) (self : N) : rbslot rbanswer
  | s_KListEach (self : N) : rbslot rbanswer
  | s_m_missing (argv : list N) (self : N) : rbslot rbanswer
  | s_protected (f : rbprotected) (args : N) : rbslot rbanswer.
