(* ===== verification/PhpCore.v ===== *)
(** * PhpCore: the engine that the PHP module calls, as an interface

    The Zend engine is not part of the program. [PhpQueries] are its functions
    (and macros) that only look at its memory, [phpcmd] the calls of the
    others, each with the type of its answer. The interpretation of the calls
    is a parameter that is given the operations of the program ([VOps]), since
    the engine can come back through the handlers, methods and functions that
    the program registers ([phpslot]). A [zval*], a [HashTable*], a
    [zend_class_entry*] and the struct of an object are addresses. *)

From S2P Require Import Prelude Double System Heap.
From stdpp Require Import options.

(** The memory of the engine. *)
Abbreviation phpmem := (gmap N (list N)).
Definition phpmem_of (h : heap) : phpmem := php_memory (s_php (sys h)).

(** What [Z_TYPE_P] answers. *)
Inductive zend_type :=
  | IS_NULL | IS_BOOL | IS_LONG | IS_DOUBLE | IS_STRING | IS_ARRAY | IS_OBJECT | IS_RESOURCE.
#[export] Instance zend_type_eq_dec : EqDecision zend_type.
Proof. solve_decision. Defined.

(** A key of a hash table. *)
Inductive zkey := HASH_KEY_IS_STRING (key : str) | HASH_KEY_IS_LONG (index : Z).
#[export] Instance zkey_eq_dec : EqDecision zkey.
Proof. solve_decision. Defined.

(** An entry of the function table of a class; the key is that of the table. *)
Record zend_function := {
  fn_key : zkey;
  fn_public : bool;                                  (* fn_flags & ZEND_ACC_PUBLIC *)
  fn_protected : bool;
  fn_private : bool;
  fn_ctor : bool;
  fn_scope : N;                                      (* mptr->common.scope *)
  function_name : str
}.

(** The handlers of an object that are asked for. *)
Inductive zhandler :=
  | write_property_ | read_property_ | has_property_ | get_properties_ | get_method_.
(** The parameters that [zend_parse_parameters] stores. *)
Inductive zparam := Zval (z : N) | CString (s : str).

(** The handler tables and the classes of the program. *)
Inductive phpkclass := PHPKObjectClass | PHPKMethodClass | PHPKListClass.
#[export] Instance phpkclass_eq_dec : EqDecision phpkclass.
Proof. solve_decision. Defined.
(** The functions in the tables of handlers. *)
Inductive phphandler :=
  | PHPKObjectReadProperty_ | PHPKObjectWriteProperty_ | PHPKObjectGetProperties_
  | PHPKObjectUnsetProperty_ | PHPKObjectHasProperty_ | PHPKObjectHasDimension_
  | PHPKGetClassEntry_ (k : phpkclass).
(** The methods of the classes of the program. *)
Inductive phpmethod :=
  | PHPKObject___toString | PHPKObject___call | PHPKMethod___invoke
  | PHPKList_offsetExists | PHPKList_offsetGet | PHPKList_offsetSet | PHPKList_offsetUnset
  | PHPKList_count | PHPKList_append | PHPKList_getArrayCopy | PHPKList_exchangeArray
  | krollAddFunction_.

Record PhpQueries := {
  zend_ce_closure : N;
  spl_ce_ArrayObject : N;
  EG_symbol_table : N;
  EG_scope : phpmem -> option N;
  default_mimetype : phpmem -> str;
  Z_TYPE_P : phpmem -> N -> zend_type;
  Z_BVAL_P : phpmem -> N -> bool;
  Z_LVAL_P : phpmem -> N -> Z;
  Z_DVAL_P : phpmem -> N -> double;
  Z_STRVAL_P : phpmem -> N -> str;
  Z_ARRVAL_P : phpmem -> N -> N;
  class_entry : phpmem -> N -> option N;             (* [None]: no get_class_entry handler *)
  zend_object_store_get_object : phpmem -> N -> N;
  class_name : phpmem -> N -> str;
  (* hash tables: at the internal pointer, at a HashPosition, by key *)
  zend_hash_has_more_elements : phpmem -> N -> bool;
  zend_hash_get_current_key : phpmem -> N -> zkey;
  zend_hash_get_current_data : phpmem -> N -> option N;
  zend_hash_at : phpmem -> N -> nat -> option (zkey * N);
  zend_hash_num_elements : phpmem -> N -> Z;
  zend_hash_find : phpmem -> N -> str -> option N;   (* by all bytes of the key *)
  zend_hash_index_find : phpmem -> N -> Z -> option N;
  zend_hash_compare : phpmem -> N -> N -> Z;
  (* classes and objects *)
  Z_OBJPROP_P : phpmem -> N -> N;
  has_handler : phpmem -> N -> zhandler -> bool;
  property_shadowed : phpmem -> N -> str -> option bool;
      (* is it in properties_info, and the flag ZEND_ACC_SHADOW *)
  function_table : phpmem -> N -> list zend_function;
  function_exists : phpmem -> N -> str -> bool;
  zend_check_protected : phpmem -> N -> N -> bool;
  zend_check_property_access : phpmem -> N -> str -> Z -> bool;    (* == SUCCESS *)
  zend_unmangle_property_name : str -> Z -> str;
  zend_compare_objects : phpmem -> N -> N -> Z;
  zend_str_tolower : str -> str
}.

(** How a call of PHP code ends: by a value, if it made one, or by a jump to
    the next [zend_catch]. *)
Inductive zanswer (A : Set) : Set := Zdone (a : A) | Zbailout.
Arguments Zdone {A}.
Arguments Zbailout {A}.

(** The place in an array that [add_assoc_...], [add_index_...] and
    [add_next_index_...] write. *)
Inductive add_place := add_assoc (key : str) | add_index (index : Z) | add_next_index.

Inductive phpcmd : Set -> Set :=
  | ALLOC_INIT_ZVAL : phpcmd N                       (* MAKE_STD_ZVAL too *)
  | ZVAL_NULL (z : N) : phpcmd unit
  | ZVAL_BOOL (z : N) (b : bool) : phpcmd unit
  | ZVAL_LONG (z : N) (n : Z) : phpcmd unit
  | ZVAL_DOUBLE (z : N) (d : double) : phpcmd unit
  | ZVAL_STRINGL (z : N) (s : str) : phpcmd unit
  | array_init (z : N) : phpcmd unit
  | zval_copy (z : N) : phpcmd N                     (* INIT_PZVAL and zval_copy_ctor *)
  | zval_addref_p (z : N) : phpcmd unit
  | zval_delref_p (z : N) : phpcmd unit
  | zval_ptr_dtor (z : N) : phpcmd unit
  | convert_to_string (z : N) : phpcmd (zanswer unit)
  | convert_to_boolean (z : N) : phpcmd unit
  | object_init_ex (z ce : N) : phpcmd unit
  | emalloc_object : phpcmd N                        (* a PHPKObject, all zero *)
  | zend_object_std_init (intern ce : N) : phpcmd unit
  | zend_hash_init_properties (intern : N) : phpcmd unit
  | zend_objects_store_put (intern : N) : phpcmd N   (* freed by PHPKObjectFreeStorage *)
  | zend_object_std_dtor (intern : N) : phpcmd unit
  | zend_hash_internal_pointer_reset (h : N) : phpcmd unit
  | zend_hash_move_forward (h : N) : phpcmd unit
  | zend_hash_new (size : Z) : phpcmd N              (* ALLOC_HASHTABLE and zend_hash_init *)
  | zend_hash_clean (h : N) : phpcmd unit
  | zend_hash_destroy (h : N) : phpcmd unit          (* and FREE_HASHTABLE *)
  | zend_hash_add (h : N) (key : str) (z : N) : phpcmd unit   (* all bytes of the key *)
  | zend_hash_index_del (h : N) (i : Z) : phpcmd bool
  | ZEND_SET_SYMBOL (h : N) (name : str) (z : N) : phpcmd unit
  | add_null (a : N) (p : add_place) : phpcmd unit
  | add_bool (a : N) (p : add_place) (b : bool) : phpcmd unit
  | add_double (a : N) (p : add_place) (d : double) : phpcmd unit
  | add_stringl (a : N) (p : add_place) (s : str) : phpcmd unit
  | add_zval (a : N) (p : add_place) (z : N) : phpcmd unit
  | add_property_zval (o : N) (name : str) (z : N) : phpcmd (zanswer unit)
  | read_property (o : N) (name : str) : phpcmd (zanswer N)
  | has_property (o : N) (name : str) : phpcmd (zanswer bool)
  | get_properties_of (o : N) : phpcmd (option N)       (* [None]: NULL *)
  | get_method (o : N) (name : str) : phpcmd (option bool)
      (* a function: is it one of PHP code, or zend_std_call_user_call *)
  | zend_call_function (o : N) (name : str) (args : list N) : phpcmd (zanswer (option N))
  | call_user_function (name ret : N) (args : list N) : phpcmd (zanswer bool)
  | zend_parse_parameters (format : str) (args : list N) : phpcmd (option (list zparam))
  | zend_get_parameters (args : list N) : phpcmd (option (list N))
  | zend_throw_exception (message : str) : phpcmd unit
  | zend_error (message : str) : phpcmd (zanswer unit)
  | zend_eval_string (code name : str) : phpcmd (zanswer unit)
  | php_execute_script (path : str) : phpcmd (zanswer unit)
  | zend_register_class (name : str) (methods : list (str * phpmethod)) (parent : option N) : phpcmd N
  | set_create_object (ce : N) : phpcmd unit         (* to PHPKObjectCreateObject *)
  | set_handlers (k : phpkclass) (handlers : list (str * phphandler)) : phpcmd unit
  | zend_register_functions (functions : list (str * phpmethod)) : phpcmd unit
  | end_request_startup : phpcmd unit                (* PG(during_request_startup) = 0 *)
  | php_request_startup : phpcmd unit                (* with the request info set to none *)
  | ini_default (name value : str) : phpcmd unit
  | php_embed_init : phpcmd unit                     (* with the functions of PHPModule *)
  | php_embed_shutdown : phpcmd unit.

(** The calls of the functions that the program has registered. *)
Inductive phpslot : Set -> Set :=
  | z_create_object (ce : N) : phpslot (N * phpkclass)
  | z_free_storage (zthis : N) : phpslot unit
  | z_read_property (zthis property : N) : phpslot N
  | z_write_property (zthis property value : N) : phpslot unit
  | z_get_properties (zthis : N) : phpslot (option N)
  | z_unset_property (zthis property : N) : phpslot unit
  | z_has_property (zthis property : N) (checkType : Z) : phpslot bool
  | z_has_dimension (zthis property : N) (checkType : Z) : phpslot bool
  | z_get_class_entry (k : phpkclass) : phpslot (option N)
  | z_method (m : phpmethod) (this : N) (args : list N) (return_value : N) : phpslot unit
  | z_ub_write (text : str) : phpslot Z
  | z_log_message (message : str) : phpslot unit
  | z_header_handler (mimetype : option str) : phpslot unit
  | z_ini_defaults : phpslot unit.
