(* ===== verification/Virtual.v ===== *)
(** * Virtual: the virtual operations of objects, as an interface

    A call of a virtual function goes to the class of the object at run time.
    [VOps] is the interface that [KObject], [KMethod] and [KList] declare; the
    functions of each class are written against it ("open recursion"), and
    the file Dispatch ties the knot with a fuel for the depth of the calls.
    The order [approx] says that more fuel only turns [Fuel] into an answer. *)

From S2P Require Import Prelude Double System Heap JavaScriptCore PythonCore RubyCore PhpCore.
From S2P Require AppUrl.
From stdpp Require Import options.

(** A [SharedStringList]: the addresses of the strings and their texts. *)
Abbreviation names := (list (loc * str)).

Record VOps := {
  vFuel : nat;                                       (* for the loops *)
  vGet : loc -> str -> M loc;
  vSet : loc -> str -> loc -> M unit;
  vHasProperty : loc -> str -> M bool;
  vGetPropertyNames : loc -> M names;
  vDisplayString : loc -> Z -> M str;
  vEquals : loc -> option loc -> M bool;
  vGetType : loc -> M str;
  vCall : loc -> list loc -> M loc;                  (* KMethod *)
  vAppend : loc -> loc -> M unit;                    (* KList *)
  vSize : loc -> M Z;
  vAt : loc -> Z -> M loc;
  vSetAt : loc -> Z -> loc -> M unit;
  vRemove : loc -> Z -> M bool;
  vRun : callback -> list loc -> loc -> M unit;      (* MethodCallback::Run *)
  vJS : forall c : jscall, M (jsanswer c);            (* a callback of JavaScript *)
  vPy : forall A : Set, pyslot A -> M A;             (* a slot of a Python type *)
  vRb : forall A : Set, rbslot A -> M A;             (* a method that Ruby calls *)
  vPhp : forall A : Set, phpslot A -> M A            (* a function that PHP calls *)
}.

(** What is outside of this model: the text that the stream library gives to
    a [double] and to an address, the clock, the case conversions of the Poco
    library, the code of the modules, the classes of other language modules,
    JavaScriptCore, CPython, Ruby and the Zend engine, and the parser of URIs
    of the Poco library. *)
Record World := {
  show_double : double -> str;
  show_ptr : N -> str;
  now : heap -> Z;                                   (* microseconds since the epoch *)
  poco_toLower : str -> str;
  poco_toUpper : str -> str;
  native : VOps -> N -> list loc -> loc -> M unit;
  function_ptr : VOps -> N -> list loc -> M loc;
  foreign : VOps -> N -> VOps;
  jsq : JSQueries;
  js : VOps -> JSOps;
  pyq : PyQueries;
  py : VOps -> forall A : Set, pycmd A -> M A;
  rbq : RubyQueries;
  rb : VOps -> forall A : Set, rbcmd A -> M A;
  phpq : PhpQueries;
  php : VOps -> forall A : Set, phpcmd A -> M A;
  poco_URI : str -> res AppUrl.URI;
  outside : SysWorld
}.

Definition no_ops : VOps := {|
  vFuel := 0; vGet _ _ := lift Fuel; vSet _ _ _ := lift Fuel; vHasProperty _ _ := lift Fuel;
  vGetPropertyNames _ := lift Fuel; vDisplayString _ _ := lift Fuel; vEquals _ _ := lift Fuel;
  vGetType _ := lift Fuel; vCall _ _ := lift Fuel; vAppend _ _ := lift Fuel; vSize _ := lift Fuel;
  vAt _ _ := lift Fuel; vSetAt _ _ _ := lift Fuel; vRemove _ _ := lift Fuel; vRun _ _ _ := lift Fuel;
  vJS _ := lift Fuel; vPy _ _ := lift Fuel; vRb _ _ := lift Fuel;
  vPhp _ _ := lift Fuel
|}.

(** An engine that answers nothing, and the queries of an engine without values. *)
Definition no_js : JSOps := {|
  JSValueToNumber _ _ := lift Fuel;
  JSValueToStringCopy _ _ := lift Fuel;
  JSValueToObject _ _ := lift Fuel;
  JSValueMakeNumber _ _ := lift Fuel;
  JSValueMakeBoolean _ _ := lift Fuel;
  JSValueMakeString _ _ := lift Fuel;
  JSValueMakeNull _ := lift Fuel;
  JSValueMakeUndefined _ := lift Fuel;
  JSValueProtect _ _ := lift Fuel;
  JSValueUnprotect _ _ := lift Fuel;
  JSClassCreate _ := lift Fuel;
  JSObjectMake _ _ _ := lift Fuel;
  JSObjectMakeFunctionWithCallback _ _ _ := lift Fuel;
  JSObjectSetPrototype _ _ _ := lift Fuel;
  JSObjectHasProperty _ _ _ := lift Fuel;
  JSObjectGetProperty _ _ _ := lift Fuel;
  JSObjectSetProperty _ _ _ _ := lift Fuel;
  JSObjectCallAsFunction _ _ _ _ := lift Fuel;
  JSObjectCopyPropertyNames _ _ := lift Fuel;
  JSCheckScriptSyntax _ _ := lift Fuel;
  JSEvaluateScript _ _ _ := lift Fuel;
  JSGlobalContextCreate := lift Fuel;
  JSGlobalContextRetain _ := lift Fuel;
  JSGlobalContextRelease _ := lift Fuel
|}.
Definition no_queries : JSQueries := {|
  JSValueGetType _ _ _ := JSUndefined; JSValueToBoolean _ _ _ := false;
  JSValueIsStrictEqual _ _ a b := (a =? b)%N; JSObjectGetPrivate _ _ := None;
  JSObjectIsFunction _ _ _ := false; JSObjectGetPrototype _ _ _ := 0%N;
  JSContextGetGlobalObject _ c := c; JSContextGetGroup _ c := c;
  JSStringCreateWithUTF8CString s := map N_of_ascii s;
  JSStringGetUTF8CString s := map ascii_of_N s
|}.

(** An interpreter that answers nothing, and one without values. *)
Definition no_py (A : Set) (c : pycmd A) : M A := lift Fuel.
Definition no_pyq : PyQueries := {|
  Py_None := 0%N; Py_True := 1%N; Py_False := 2%N; PyObject_TypeCheck _ _ _ := false;
  PyString_Check _ _ := false; PyInstance_Check _ _ := false; PyMethod_Check _ _ := false;
  PyFunction_Check _ _ := false; PyCallable_Check _ _ := false; PyMapping_Check _ _ := false;
  PyErr_Occurred _ := false; text_at _ _ := []; stale_text _ := []
|}.

(** The same for Ruby. *)
Definition no_rb (A : Set) (c : rbcmd A) : M A := lift Fuel.
Definition no_rbq : RubyQueries := {|
  Qnil := 0%N; Qtrue := 1%N; Qfalse := 2%N; TYPE _ _ := T_OTHER; kind_of _ _ _ := false;
  class_value _ := 0%N; NUM2DBL _ _ := zero; NUM2INT _ _ := None; string_text _ _ := [];
  symbol_name _ _ := []; to_id_name _ _ := []; SYMBOL_P _ _ := false; RARRAY_LEN _ _ := 0%Z;
  rb_ary_entry _ _ _ := 0%N; rb_block_given_p _ := false; format_text s _ := s
|}.

(** The same for the Zend engine; [no_uri] is a parser that takes nothing. *)
Definition no_php (A : Set) (c : phpcmd A) : M A := lift Fuel.
Definition no_phpq : PhpQueries := {|
  zend_ce_closure := 0%N; spl_ce_ArrayObject := 0%N; EG_symbol_table := 0%N; EG_scope _ := None;
  default_mimetype _ := []; Z_TYPE_P _ _ := IS_NULL; Z_BVAL_P _ _ := false; Z_LVAL_P _ _ := 0%Z;
  Z_DVAL_P _ _ := zero; Z_STRVAL_P _ _ := []; Z_ARRVAL_P _ _ := 0%N; class_entry _ _ := None;
  zend_object_store_get_object _ _ := 0%N; class_name _ _ := [];
  zend_hash_has_more_elements _ _ := false; zend_hash_get_current_key _ _ := HASH_KEY_IS_LONG 0;
  zend_hash_get_current_data _ _ := None; zend_hash_at _ _ _ := None;
  zend_hash_num_elements _ _ := 0%Z; zend_hash_find _ _ _ := None; zend_hash_index_find _ _ _ := None;
  zend_hash_compare _ _ _ := 0%Z; Z_OBJPROP_P _ _ := 0%N; has_handler _ _ _ := false;
  property_shadowed _ _ _ := None; function_table _ _ := []; function_exists _ _ _ := false;
  zend_check_protected _ _ _ := false; zend_check_property_access _ _ _ _ := false;
  zend_unmangle_property_name s _ := s; zend_compare_objects _ _ _ := 0%Z; zend_str_tolower s := s
|}.
Definition no_uri : str -> res AppUrl.URI := fun _ => Throw (StdException (lit "Poco::SyntaxException")).

(** ** The approximation order *)

Definition approx {S A} (m1 m2 : ST S A) : Prop := forall h, (m1 h).1 = Fuel \/ m1 h = m2 h.

#[export] Instance approx_preorder {S A} : PreOrder (@approx S A).
Proof.
  split; [intros m h; by right|]. intros m1 m2 m3 H1 H2 h.
  destruct (H1 h) as [|E1]; [by left|]. destruct (H2 h) as [E|E2]; [left|right]; congruence.
Qed.

Lemma approx_fuel {S A} (m : ST S A) : approx (lift Fuel) m.
Proof. intros h. by left. Qed.

Lemma approx_bind {S A B} (m1 m2 : ST S A) (f1 f2 : A -> ST S B) :
  approx m1 m2 -> (forall a, approx (f1 a) (f2 a)) -> approx (m1 ≫= f1) (m2 ≫= f2).
Proof.
  intros Hm Hf h. unfold mbind, st_bind. destruct (Hm h) as [E|<-].
  - left. destruct (m1 h) as [[] ?]; try done.
  - destruct (m1 h) as [[] ?]; try by right. apply Hf.
Qed.

Lemma approx_try_catch {S A} (m1 m2 : ST S A) (k1 k2 : exn -> ST S A) :
  approx m1 m2 -> (forall e, approx (k1 e) (k2 e)) -> approx (try_catch m1 k1) (try_catch m2 k2).
Proof.
  intros Hm Hk h. unfold try_catch. destruct (Hm h) as [E|<-].
  - left. destruct (m1 h) as [[] ?]; try done.
  - destruct (m1 h) as [[] ?]; try by right. apply Hk.
Qed.

Lemma approx_st_map {S A B} (f1 f2 : A -> ST S B) l :
  (forall a, approx (f1 a) (f2 a)) -> approx (st_map f1 l) (st_map f2 l).
Proof.
  intros Hf. induction l as [|a l IH]; simpl; [done|].
  apply approx_bind; [done|]. intros b. by apply approx_bind.
Qed.

Lemma approx_st_fold {S A B} (f1 f2 : B -> A -> ST S B) b l :
  (forall b a, approx (f1 b a) (f2 b a)) -> approx (st_fold f1 b l) (st_fold f2 b l).
Proof.
  intros Hf. revert b. induction l as [|a l IH]; intros b; simpl; [done|].
  by apply approx_bind.
Qed.

Lemma approx_zoom {S T A} (get : S -> T) (set : T -> S -> S) (m1 m2 : ST T A) :
  approx m1 m2 -> approx (zoom get set m1) (zoom get set m2).
Proof.
  intros Hm s. unfold zoom. destruct (Hm (get s)) as [E|<-]; [left|by right].
  by destruct (m1 (get s)) as [r t].
Qed.

(** A loop: [step] goes on with a new state or stops with a result. *)
Fixpoint loop {A B} (fuel : nat) (step : A -> M (A + B)) (a : A) : M B :=
  match fuel with
  | O => lift Fuel
  | S fuel' =>
      r ← step a;
      match r with
      | inl a' => loop fuel' step a'
      | inr b => mret b
      end
  end.

Lemma approx_loop {A B} n1 n2 (f1 f2 : A -> M (A + B)) a :
  n1 <= n2 -> (forall a, approx (f1 a) (f2 a)) -> approx (loop n1 f1 a) (loop n2 f2 a).
Proof.
  revert n2 a. induction n1 as [|n1 IH]; intros n2 a Hn Hf; [apply approx_fuel|].
  destruct n2 as [|n2]; [lia|]. simpl. apply approx_bind; [done|].
  intros [a'|b]; [|done]. apply IH; [lia|done].
Qed.

(** [V2] answers whenever [V1] does. *)
Record vle (V1 V2 : VOps) : Prop := {
  le_Fuel : vFuel V1 <= vFuel V2;
  le_Get o n : approx (vGet V1 o n) (vGet V2 o n);
  le_Set o n v : approx (vSet V1 o n v) (vSet V2 o n v);
  le_HasProperty o n : approx (vHasProperty V1 o n) (vHasProperty V2 o n);
  le_GetPropertyNames o : approx (vGetPropertyNames V1 o) (vGetPropertyNames V2 o);
  le_DisplayString o z : approx (vDisplayString V1 o z) (vDisplayString V2 o z);
  le_Equals o p : approx (vEquals V1 o p) (vEquals V2 o p);
  le_GetType o : approx (vGetType V1 o) (vGetType V2 o);
  le_Call o l : approx (vCall V1 o l) (vCall V2 o l);
  le_Append o v : approx (vAppend V1 o v) (vAppend V2 o v);
  le_Size o : approx (vSize V1 o) (vSize V2 o);
  le_At o i : approx (vAt V1 o i) (vAt V2 o i);
  le_SetAt o i v : approx (vSetAt V1 o i v) (vSetAt V2 o i v);
  le_Remove o i : approx (vRemove V1 o i) (vRemove V2 o i);
  le_Run c l v : approx (vRun V1 c l v) (vRun V2 c l v);
  le_JS c : approx (vJS V1 c) (vJS V2 c);
  le_Py A c : approx (vPy V1 A c) (vPy V2 A c);
  le_Rb A c : approx (vRb V1 A c) (vRb V2 A c);
  le_Php A c : approx (vPhp V1 A c) (vPhp V2 A c)
}.

#[export] Instance vle_preorder : PreOrder vle.
Proof.
  split; [intros V; by constructor|].
  intros V1 V2 V3 H1 H2. constructor; intros; (etrans; [apply H1|apply H2]).
Qed.

(** The same order for the operations of JavaScriptCore. *)
Record jle (J1 J2 : JSOps) : Prop := {
  jle_ValueToNumber a b : approx (JSValueToNumber J1 a b) (JSValueToNumber J2 a b);
  jle_ValueToStringCopy a b : approx (JSValueToStringCopy J1 a b) (JSValueToStringCopy J2 a b);
  jle_ValueToObject a b : approx (JSValueToObject J1 a b) (JSValueToObject J2 a b);
  jle_ValueMakeNumber a b : approx (JSValueMakeNumber J1 a b) (JSValueMakeNumber J2 a b);
  jle_ValueMakeBoolean a b : approx (JSValueMakeBoolean J1 a b) (JSValueMakeBoolean J2 a b);
  jle_ValueMakeString a b : approx (JSValueMakeString J1 a b) (JSValueMakeString J2 a b);
  jle_ValueMakeNull a : approx (JSValueMakeNull J1 a) (JSValueMakeNull J2 a);
  jle_ValueMakeUndefined a : approx (JSValueMakeUndefined J1 a) (JSValueMakeUndefined J2 a);
  jle_ValueProtect a b : approx (JSValueProtect J1 a b) (JSValueProtect J2 a b);
  jle_ValueUnprotect a b : approx (JSValueUnprotect J1 a b) (JSValueUnprotect J2 a b);
  jle_ClassCreate a : approx (JSClassCreate J1 a) (JSClassCreate J2 a);
  jle_ObjectMake a b c : approx (JSObjectMake J1 a b c) (JSObjectMake J2 a b c);
  jle_ObjectMakeFunctionWithCallback a b c : approx (JSObjectMakeFunctionWithCallback J1 a b c) (JSObjectMakeFunctionWithCallback J2 a b c);
  jle_ObjectSetPrototype a b c : approx (JSObjectSetPrototype J1 a b c) (JSObjectSetPrototype J2 a b c);
  jle_ObjectHasProperty a b c : approx (JSObjectHasProperty J1 a b c) (JSObjectHasProperty J2 a b c);
  jle_ObjectGetProperty a b c : approx (JSObjectGetProperty J1 a b c) (JSObjectGetProperty J2 a b c);
  jle_ObjectSetProperty a b c d : approx (JSObjectSetProperty J1 a b c d) (JSObjectSetProperty J2 a b c d);
  jle_ObjectCallAsFunction a b c d : approx (JSObjectCallAsFunction J1 a b c d) (JSObjectCallAsFunction J2 a b c d);
  jle_ObjectCopyPropertyNames a b : approx (JSObjectCopyPropertyNames J1 a b) (JSObjectCopyPropertyNames J2 a b);
  jle_CheckScriptSyntax a b : approx (JSCheckScriptSyntax J1 a b) (JSCheckScriptSyntax J2 a b);
  jle_EvaluateScript a b c : approx (JSEvaluateScript J1 a b c) (JSEvaluateScript J2 a b c);
  jle_GlobalContextCreate : approx (JSGlobalContextCreate J1) (JSGlobalContextCreate J2);
  jle_GlobalContextRetain a : approx (JSGlobalContextRetain J1 a) (JSGlobalContextRetain J2 a);
  jle_GlobalContextRelease a : approx (JSGlobalContextRelease J1 a) (JSGlobalContextRelease J2 a)
}.

Lemma vle_no_ops V : vle no_ops V.
Proof. constructor; intros; [simpl; lia|apply approx_fuel..]. Qed.
Lemma jle_no_js J : jle no_js J.
Proof. constructor; intros; apply approx_fuel. Qed.

(** The modules' code may call back; it does so through the operations it is
    given. *)
Definition world_mono (W : World) : Prop :=
  (forall V1 V2 n args r, vle V1 V2 -> approx (native W V1 n args r) (native W V2 n args r)) /\
  (forall V1 V2 n args, vle V1 V2 -> approx (function_ptr W V1 n args) (function_ptr W V2 n args)) /\
  (forall V1 V2 n, vle V1 V2 -> vle (foreign W V1 n) (foreign W V2 n)) /\
  (forall V1 V2, vle V1 V2 -> jle (js W V1) (js W V2)) /\
  (forall V1 V2 A c, vle V1 V2 -> approx (py W V1 A c) (py W V2 A c)) /\
  (forall V1 V2 A c, vle V1 V2 -> approx (rb W V1 A c) (rb W V2 A c)) /\
  (forall V1 V2 A c, vle V1 V2 -> approx (php W V1 A c) (php W V2 A c)).

Create HintDb mono.
#[export] Hint Constants Opaque : mono.
#[export] Hint Resolve le_Get le_Set le_HasProperty le_GetPropertyNames le_DisplayString
  le_Equals le_GetType le_Call le_Append le_Size le_At le_SetAt le_Remove le_Run le_JS le_Py le_Rb le_Php : mono.
#[export] Hint Resolve jle_ValueToNumber jle_ValueToStringCopy jle_ValueToObject jle_ValueMakeNumber jle_ValueMakeBoolean jle_ValueMakeString jle_ValueMakeNull jle_ValueMakeUndefined jle_ValueProtect jle_ValueUnprotect jle_ClassCreate jle_ObjectMake jle_ObjectMakeFunctionWithCallback jle_ObjectSetPrototype jle_ObjectHasProperty jle_ObjectGetProperty jle_ObjectSetProperty jle_ObjectCallAsFunction jle_ObjectCopyPropertyNames jle_CheckScriptSyntax jle_EvaluateScript jle_GlobalContextCreate jle_GlobalContextRetain jle_GlobalContextRelease : mono.

(** [mono]: a computation built from monotone parts is monotone. *)
Ltac mono1 :=
  match goal with
  | |- forall _, _ => intros ?
  | |- approx ?m ?m => reflexivity
  | |- approx (lift Fuel) _ => apply approx_fuel
  | |- approx (_ ≫= _) (_ ≫= _) => apply approx_bind
  | |- approx (try_catch _ _) (try_catch _ _) => apply approx_try_catch
  | |- approx (st_map _ _) (st_map _ _) => apply approx_st_map
  | |- approx (st_fold _ _ _) (st_fold _ _ _) => apply approx_st_fold
  | |- approx (zoom _ _ _) (zoom _ _ _) => apply approx_zoom
  | |- approx (loop _ _ _) (loop _ _ _) => apply approx_loop; [by apply le_Fuel|]
  | |- approx (match ?x with _ => _ end) (match ?x with _ => _ end) => destruct x
  | |- approx _ _ => solve [eauto 3 with mono]
  end.
Ltac mono := repeat mono1.

(** [mono_deep]: unfolds the operations that no lemma of the database is about. *)
Ltac head_of t := match t with ?f _ => head_of f | _ => t end.
Ltac mono_deep :=
  repeat first
    [ mono1
    | match goal with |- approx ?m _ => let f := head_of m in progress unfold f end ].
