(* ===== verification/KObject.v ===== *)
(** * KObject: the operations that every object, method, list and value has
    (api/binding/kobject.cpp, kmethod.cpp, klist.cpp and the functions of
    value.cpp that call objects) *)

From S2P Require Import Prelude CppString Double FileUtils Heap Virtual.
From stdpp Require Import options.

Definition dec_int (z : Z) : str :=
  if (z <? 0)%Z then "-"%char :: dec (Z.to_N (- z)) else dec (Z.to_N z).

Definition quote : str := ["034"%char].

Section Operations.
Context (W : World) (V : VOps).

(** ** Value *)

Definition Value_Equals (this i : loc) : M bool :=
  v ← getv this; w ← getv i;
  if IsInt v && IsInt w && (ToInt v =? ToInt w)%Z then mret true
  else if IsDouble v && IsDouble w && double_eqb (ToDouble v) (ToDouble w) then mret true
  else if IsBool v && IsBool w then
    b ← ToBool v; c ← ToBool w; mret (Bool.eqb b c)
  (* the [char*] are compared: each value owns its buffer *)
  else if IsString v && IsString w && bool_decide (this = i) then mret true
  else if IsVoidPtr v && IsVoidPtr w && (voidPtrValue v =? voidPtrValue w)%N then mret true
  else if IsNull v && IsNull w then mret true
  else if IsUndefined v && IsUndefined w then mret true
  else if (IsList v && IsList w) || (IsMethod v && IsMethod w) || (IsObject v && IsObject w)
  then o ← some_or_undef (ToObject v); vEquals V o (ToObject w)
  else mret false.

Definition Value_DisplayString (this : loc) (levels : Z) : M str :=
  v ← getv this;
  if IsInt v then mret (dec_int (ToInt v) ++ lit "i")
  else if IsDouble v then mret (show_double W (ToDouble v) ++ lit "d")
  else if IsBool v then b ← ToBool v; mret (if b : bool then lit "true" else lit "false")
  else if IsString v then s ← ToString v; mret (quote ++ s ++ quote)
  else if IsList v then o ← ToList v; l ← some_or_undef o; vDisplayString V l (levels - 1)
  else if IsMethod v then o ← ToMethod v; m ← some_or_undef o; vDisplayString V m (levels - 1)
  else if IsObject v then o ← some_or_undef (ToObject v); vDisplayString V o (levels - 1)
  else if IsVoidPtr v then mret (lit "<void* addr: " ++ show_ptr W (voidPtrValue v) ++ lit ">")
  else if IsNull v then mret (lit "<null>")
  else if IsUndefined v then mret (lit "<undefined>")
  else mret (lit "<unknown>").

Definition Value_GetType (this : loc) : M str :=
  v ← getv this;
  if IsInt v || IsDouble v then mret (lit "Number")
  else if IsBool v then mret (lit "Boolean")
  else if IsString v then mret (lit "String")
  else if IsList v || IsObject v || IsMethod v
  then o ← some_or_undef (ToObject v); vGetType V o
  else if IsVoidPtr v then mret (lit "VoidPtr")
  else if IsNull v then mret (lit "Null")
  else if IsUndefined v then mret (lit "Undefined")
  else mret (lit "Unknown").

(** ** KObject *)

Definition KObject_Equals (this : loc) (other : option loc) : M bool :=
  mret (bool_decide (other = Some this)).

Definition KObject_GetType (this : loc) : M str := x ← geto this; mret (o_type x).

(** [!strcmp(name, names->at(i)->c_str())] for some i *)
Definition has_name (name : str) (l : names) : bool :=
  existsb (fun p => bool_decide (c_str name = c_str p.2)) l.

Definition KObject_HasProperty (this : loc) (name : str) : M bool :=
  l ← vGetPropertyNames V this; mret (has_name name l).

Definition display_property (this : loc) (levels : Z) (p : loc * str) : M str :=
  prop ← vGet V this (c_str p.2);
  s ← Value_DisplayString prop levels;
  mret (lit " " ++ p.2 ++ lit " : " ++ s ++ lit ",").

Definition KObject_DisplayString (this : loc) (levels : Z) : M str :=
  if (levels =? 0)%Z then mret (lit "<KObject at " ++ show_ptr W this ++ lit ">")
  else
    props ← vGetPropertyNames V this;
    texts ← st_map (display_property this levels) props;
    let ss := lit "{" ++ concat texts in
    (* the last comma is overwritten *)
    let ss := match props with [] => ss | _ => removelast ss end in
    mret (ss ++ lit "}").

Definition GetInt (this : loc) (name : str) (defaultValue : Z) : M Z :=
  prop ← vGet V this name; v ← getv prop;
  mret (if IsInt v then ToInt v else defaultValue).
Definition GetDouble (this : loc) (name : str) (defaultValue : double) : M double :=
  prop ← vGet V this name; v ← getv prop;
  mret (if IsDouble v then ToDouble v else defaultValue).
Definition GetNumber (this : loc) (name : str) (defaultValue : double) : M double :=
  prop ← vGet V this name; v ← getv prop;
  mret (if IsNumber v then ToNumber v else defaultValue).
Definition GetBool (this : loc) (name : str) (defaultValue : bool) : M bool :=
  prop ← vGet V this name; v ← getv prop;
  if IsBool v then ToBool v else mret defaultValue.
Definition GetString (this : loc) (name : str) (defaultValue : str) : M str :=
  prop ← vGet V this name; v ← getv prop;
  if IsString v then ToString v else mret defaultValue.
Definition GetObject (this : loc) (name : str) (defaultValue : option loc) : M (option loc) :=
  prop ← vGet V this name; v ← getv prop;
  if IsObject v then mret (ToObject v) else mret defaultValue.
Definition GetMethod (this : loc) (name : str) (defaultValue : option loc) : M (option loc) :=
  prop ← vGet V this name; v ← getv prop;
  if IsMethod v then ToMethod v else mret defaultValue.
Definition GetList (this : loc) (name : str) (defaultValue : option loc) : M (option loc) :=
  prop ← vGet V this name; v ← getv prop;
  if IsList v then ToList v else mret defaultValue.

Definition Object_SetUndefined (this : loc) (name : str) : M unit := vSet V this name Undefined.
Definition Object_SetNull (this : loc) (name : str) : M unit := vSet V this name Null.
Definition Object_SetInt (this : loc) (name : str) (v : Z) : M unit :=
  val ← NewInt v; vSet V this name val.
Definition Object_SetDouble (this : loc) (name : str) (v : double) : M unit :=
  val ← NewDouble v; vSet V this name val.
Definition Object_SetNumber (this : loc) (name : str) (v : double) : M unit :=
  val ← NewDouble v; vSet V this name val.
Definition Object_SetBool (this : loc) (name : str) (v : bool) : M unit :=
  val ← NewBool v; vSet V this name val.
Definition Object_SetString (this : loc) (name : str) (v : str) : M unit :=
  val ← NewString v; vSet V this name val.
Definition Object_SetObject (this : loc) (name : str) (o : option loc) : M unit :=
  val ← NewObject o; vSet V this name val.
Definition Object_SetMethod (this : loc) (name : str) (o : option loc) : M unit :=
  val ← NewMethod o; vSet V this name val.
Definition Object_SetList (this : loc) (name : str) (o : option loc) : M unit :=
  val ← NewList o; vSet V this name val.

(** The loop over the list: the size is asked for again at each turn. *)
Definition string_list_step (values : loc) (st : Z * list str) : M ((Z * list str) + list str) :=
  let '(c, strs) := st in
  size ← vSize V values;
  if (c <? size)%Z then
    l ← vAt V values c; v ← getv l;
    strs ← (if IsString v then s ← ToString v; mret (strs ++ [s]) else mret strs);
    mret (inl (wrap32 (c + 1), strs))
  else mret (inr strs).

Definition GetStringList (this : loc) (name : str) (strs : list str) : M (list str) :=
  prop ← vGet V this name; v ← getv prop;
  if negb (IsUndefined v) && IsList v then
    o ← ToList v; values ← some_or_undef o;
    size ← vSize V values;
    if (0 <? size)%Z then loop (vFuel V) (string_list_step values) (0%Z, strs) else mret strs
  else mret strs.

(** *** Paths *)

(** One step of [SetNS] into the scope that [token] names. *)
Definition enter_scope (name : str) (scope : loc) (token : str) : M loc :=
  next_val ← vGet V scope (c_str token);
  v ← getv next_val;
  if IsUndefined v then
    nxt ← new_object (lit "StaticBoundObject") StaticBoundObject;
    next_val ← NewObject (Some nxt);
    vSet V scope (c_str token) next_val;;
    mret nxt
  else if negb (IsObject v) && negb (IsMethod v) && negb (IsList v) then
    ty ← Value_GetType next_val;
    log_line (lit "stderr")
      (lit "invalid namespace for " ++ name ++ lit ", token: " ++ token ++ lit " was " ++ ty);;
    s ← NewString (lit "Invalid namespace on setNS");
    throw (SharedValueExn s)
  else some_or_undef (ToObject v).

Definition SetNS (this : loc) (name : str) (value : loc) : M unit :=
  tokens ← lift (Tokenize name [] (lit ".") false);
  match last tokens with
  | None => undef                       (* [tokens.size() - 1] wraps around *)
  | Some prop_name =>
      scope ← st_fold (enter_scope name) this (removelast tokens);
      vSet V scope (c_str prop_name) value
  end.

Fixpoint get_ns_loop (fuel : nat) (s : str) (last : nat) (pos : option nat) (scope : loc) : M loc :=
  match fuel with
  | O => lift Fuel
  | S fuel' =>
      match pos with
      | Some p =>
          token ← lift (substr s last (Some (p - last)));
          current ← vGet V scope (c_str token);
          v ← getv current;
          if IsObject v then
            scope ← some_or_undef (ToObject v);
            let last := p + 1 in
            get_ns_loop fuel' s last (find_first_of s (lit ".") (Some last)) scope
          else mret Undefined
      | None =>
          token ← lift (substr s last None);
          vGet V scope (c_str token)
      end
  end.

Definition GetNS (this : loc) (name : str) : M loc :=
  get_ns_loop (S (S (length name))) name 0 (find_first_of name (lit ".") (Some 0)) this.

Definition CallNS (this : loc) (name : str) (args : list loc) : M loc :=
  callable_value ← GetNS this name;
  v ← getv callable_value;
  if IsUndefined v then mret callable_value
  else if negb (IsMethod v) then mret Undefined
  else o ← ToMethod v; m ← some_or_undef o; vCall V m args.
Definition CallNS0 (this : loc) (name : str) : M loc := CallNS this name [].
Definition CallNS1 (this : loc) (name : str) (val1 : loc) : M loc := CallNS this name [val1].
Definition CallNS2 (this : loc) (name : str) (val1 val2 : loc) : M loc :=
  CallNS this name [val1; val2].
Definition CallNS3 (this : loc) (name : str) (val1 val2 val3 : loc) : M loc :=
  CallNS this name [val1; val2; val3].

(** ** KMethod *)

Definition KMethod_DisplayString (this : loc) (levels : Z) : M str :=
  mret (lit "<KMethod at " ++ show_ptr W this ++ lit ">").

Definition Call0 (this : loc) : M loc := vCall V this [].
Definition Call1 (this one : loc) : M loc := vCall V this [one].
Definition Call2 (this one two : loc) : M loc := vCall V this [one; two].
Definition Call3 (this one two three : loc) : M loc := vCall V this [one; two; three].
Definition CallS (this : loc) (one : str) (rest : list loc) : M loc :=
  v ← NewString one; vCall V this (v :: rest).

(** ** KList *)

Definition shrink_step (this : loc) (size : Z) (_ : unit) : M (unit + unit) :=
  n ← vSize V this;
  if (size <? n)%Z then
    n' ← vSize V this; vRemove V this (wrap32 (n' - 1));; mret (inl tt)
  else mret (inr tt).
Definition grow_step (this : loc) (size : Z) (_ : unit) : M (unit + unit) :=
  n ← vSize V this;
  if (n <? size)%Z then vAppend V this Undefined;; mret (inl tt)
  else mret (inr tt).

Definition ResizeTo (this : loc) (size : Z) : M unit :=
  n ← vSize V this;
  if (size =? n)%Z then mret tt
  else
    loop (vFuel V) (shrink_step this size) tt;;
    loop (vFuel V) (grow_step this size) tt.

Definition display_item_step (this : loc) (levels : Z) (st : Z * str) : M ((Z * str) + str) :=
  let '(i, oss) := st in
  n ← vSize V this;
  if (i <? n)%Z then
    list_val ← vAt V this i;
    s ← Value_DisplayString list_val (levels - 1);
    mret (inl (wrap32 (i + 1), oss ++ lit " " ++ s ++ lit ","))
  else mret (inr oss).

Definition KList_DisplayString (this : loc) (levels : Z) : M str :=
  if (levels =? 0)%Z then mret (lit "<KList at " ++ show_ptr W this ++ lit ">")
  else
    oss ← loop (vFuel V) (display_item_step this levels) (0%Z, lit "[");
    mret (oss ++ lit " ]").

End Operations.

Definition IntToChars (value : Z) : str := dec (Z.to_N value).
Definition KList_IsInt (name : str) : bool := forallb isdigit (c_str name).

(** ** Unwrapping: the delegate of a profiling wrapper *)

Definition KObject_Unwrap (o : loc) : M loc :=
  x ← geto o;
  mret (match o_class x with
        | ProfiledBoundObject d | ProfiledBoundList d | ProfiledBoundMethod d _ => d
        | _ => o
        end).
Definition KList_Unwrap (o : loc) : M loc :=
  x ← geto o; mret (match o_class x with ProfiledBoundList d => d | _ => o end).
Definition KMethod_Unwrap (o : loc) : M loc :=
  x ← geto o; mret (match o_class x with ProfiledBoundMethod d _ => d | _ => o end).

Definition Value_Unwrap (l : loc) : M unit :=
  enabled ← gets profiling;
  if negb enabled then mret tt
  else
    v ← getv l;
    if IsMethod v then
      o ← ToMethod v; m ← some_or_undef o; m' ← KMethod_Unwrap m; SetMethod l (Some m')
    else if IsList v then
      o ← ToList v; m ← some_or_undef o; m' ← KList_Unwrap m; SetList l (Some m')
    else if IsObject v then
      o ← some_or_undef (ToObject v); o' ← KObject_Unwrap o; SetObject l (Some o')
    else mret tt.

(** ** Monotonicity: more fuel for the virtual calls changes no answer *)
Section Mono.
Context (W : World) (V1 V2 : VOps) (HV : vle V1 V2).
#[local] Set Default Proof Using "Type*".

Lemma Value_Equals_mono a b : approx (Value_Equals V1 a b) (Value_Equals V2 a b).
Proof. unfold Value_Equals. mono. Qed.
Lemma Value_DisplayString_mono a z :
  approx (Value_DisplayString W V1 a z) (Value_DisplayString W V2 a z).
Proof. unfold Value_DisplayString. mono. Qed.
Lemma Value_GetType_mono a : approx (Value_GetType V1 a) (Value_GetType V2 a).
Proof. unfold Value_GetType. mono. Qed.
#[local] Hint Resolve Value_Equals_mono Value_DisplayString_mono Value_GetType_mono : mono.

Lemma KObject_HasProperty_mono a s : approx (KObject_HasProperty V1 a s) (KObject_HasProperty V2 a s).
Proof. unfold KObject_HasProperty. mono. Qed.
Lemma display_property_mono a z p :
  approx (display_property W V1 a z p) (display_property W V2 a z p).
Proof. unfold display_property. mono. Qed.
#[local] Hint Resolve display_property_mono : mono.
Lemma KObject_DisplayString_mono a z :
  approx (KObject_DisplayString W V1 a z) (KObject_DisplayString W V2 a z).
Proof. unfold KObject_DisplayString. mono. Qed.

Lemma GetMethod_mono a s d : approx (GetMethod V1 a s d) (GetMethod V2 a s d).
Proof. unfold GetMethod. mono. Qed.
Lemma GetStringList_mono a s l : approx (GetStringList V1 a s l) (GetStringList V2 a s l).
Proof. unfold GetStringList, string_list_step. mono. Qed.
Lemma enter_scope_mono n a s : approx (enter_scope V1 n a s) (enter_scope V2 n a s).
Proof. unfold enter_scope. mono. Qed.
#[local] Hint Resolve enter_scope_mono : mono.
Lemma SetNS_mono a s v : approx (SetNS V1 a s v) (SetNS V2 a s v).
Proof. unfold SetNS. mono. Qed.
Lemma get_ns_loop_mono fuel s last pos a :
  approx (get_ns_loop V1 fuel s last pos a) (get_ns_loop V2 fuel s last pos a).
Proof. revert last pos a. induction fuel as [|fuel IH]; intros; simpl; mono. Qed.
Lemma GetNS_mono a s : approx (GetNS V1 a s) (GetNS V2 a s).
Proof. apply get_ns_loop_mono. Qed.
#[local] Hint Resolve GetNS_mono : mono.
Lemma CallNS_mono a s l : approx (CallNS V1 a s l) (CallNS V2 a s l).
Proof. unfold CallNS. mono. Qed.

Lemma ResizeTo_mono a z : approx (ResizeTo V1 a z) (ResizeTo V2 a z).
Proof. unfold ResizeTo, shrink_step, grow_step. mono. Qed.
Lemma KList_DisplayString_mono a z :
  approx (KList_DisplayString W V1 a z) (KList_DisplayString W V2 a z).
Proof. unfold KList_DisplayString, display_item_step. mono. Qed.
End Mono.

#[export] Hint Resolve Value_Equals_mono Value_DisplayString_mono Value_GetType_mono
  KObject_HasProperty_mono KObject_DisplayString_mono GetMethod_mono GetStringList_mono SetNS_mono GetNS_mono
  CallNS_mono ResizeTo_mono KList_DisplayString_mono : mono.
