(* ===== verification/StaticBound.v ===== *)
(** * StaticBound: the concrete objects, lists and methods
    (static_bound_object.cpp, static_bound_list.cpp, static_bound_method.cpp,
    k_function_ptr_method.cpp of api/binding) *)

From S2P Require Import Prelude CppString Double Heap Virtual KObject.
From stdpp Require Import options.

(** ** StaticBoundObject *)

Definition get_properties (this : loc) : M (gmap str loc) := x ← geto this; mret (properties x).
Definition set_properties (this : loc) (m : gmap str loc) : M unit :=
  x ← geto this; puto this {| o_type := o_type x; properties := m; o_class := o_class x |}.

Definition StaticBoundObject_Get (this : loc) (name : str) : M loc :=
  result ← NewUndefined;
  properties ← get_properties this;
  mret (match properties !! name with Some v => v | None => result end).

(** [Unbound] is empty in every class. *)
Definition StaticBoundObject_UnSet (this : loc) (name : str) : M unit :=
  properties ← get_properties this;
  match properties !! name with
  | Some _ => set_properties this (delete name properties)
  | None => mret tt
  end.

Definition StaticBoundObject_Set (this : loc) (name : str) (value : loc) : M unit :=
  StaticBoundObject_UnSet this name;;
  properties ← get_properties this;
  set_properties this (<[name := value]> properties).

(** [std::map] iterates in the order of its keys. *)
Definition sorted_keys (m : gmap str loc) : list str :=
  merge_sort str_le (map fst (map_to_list m)).

Definition new_name (s : str) : M (loc * str) := l ← alloc; mret (l, s).

Definition StaticBoundObject_GetPropertyNames (this : loc) : M names :=
  properties ← get_properties this;
  st_map new_name (sorted_keys properties).

Definition new_StaticBoundObject (ty : str) : M loc := new_object ty StaticBoundObject.
Definition default_StaticBoundObject : M loc := new_StaticBoundObject (lit "StaticBoundObject").

(** ** StaticBoundList *)

Definition list_fields (this : loc) : M (loc * Z) :=
  x ← geto this;
  match o_class x with
  | StaticBoundList o n | AccessorBoundList o n => mret (o, n)
  | _ => undef
  end.
Definition set_length (this : loc) (n : Z) : M unit :=
  x ← geto this;
  match o_class x with
  | StaticBoundList o _ => set_class this (StaticBoundList o n)
  | AccessorBoundList o _ => set_class this (AccessorBoundList o n)
  | _ => undef
  end.

Definition new_StaticBoundList (ty : str) : M loc :=
  obj ← default_StaticBoundObject; new_object ty (StaticBoundList obj 0).

(** [atoi] of a text of digits: [strtol] stops at [LONG_MAX]. *)
Fixpoint digits_value (acc : Z) (s : str) : Z :=
  match s with
  | [] => acc
  | c :: s' => digits_value (10 * acc + (Z.of_N (N_of_ascii c) - 48)) s'
  end.
Definition atoi (s : str) : Z := to_signed32 (Z.min (digits_value 0 s) (2 ^ 63 - 1)).

Definition StaticBoundList_Append (this : loc) (value : loc) : M unit :=
  '(object, length) ← list_fields this;
  StaticBoundObject_Set object (IntToChars length) value;;
  '(_, length) ← list_fields this;
  set_length this (wrap32 (length + 1)).

Definition StaticBoundList_SetAt (this : loc) (index : Z) (value : loc) : M unit :=
  '(object, _) ← list_fields this;
  StaticBoundObject_Set object (IntToChars index) value;;
  '(_, length) ← list_fields this;
  if (length <=? index)%Z then set_length this (wrap32 (index + 1)) else mret tt.

Definition StaticBoundList_Size (this : loc) : M Z := '(_, length) ← list_fields this; mret length.

Definition StaticBoundList_At (this : loc) (index : Z) : M loc :=
  '(object, _) ← list_fields this; StaticBoundObject_Get object (IntToChars index).

(** [KList::IsInt(name) && (index = atoi(name)) >= 0]: the index of a name. *)
Definition index_of_name (name : str) : option Z :=
  if KList_IsInt name && (0 <=? atoi (c_str name))%Z then Some (atoi (c_str name)) else None.

Definition StaticBoundList_Get (this : loc) (name : str) : M loc :=
  '(object, _) ← list_fields this; StaticBoundObject_Get object name.

Definition StaticBoundList_GetPropertyNames (this : loc) : M names :=
  '(object, _) ← list_fields this; StaticBoundObject_GetPropertyNames object.

Section Virtual.
Context (W : World) (V : VOps).

(** [for (i = index; i + 1 < this->length; i++) this->SetAt(i, this->At(i + 1))] *)
Definition shift_step (this : loc) (i : Z) : M (Z + unit) :=
  '(_, length) ← list_fields this;
  if (wrap32 (i + 1) <? length)%Z then
    v ← vAt V this (wrap32 (i + 1));
    vSetAt V this i v;;
    mret (inl (wrap32 (i + 1)))
  else mret (inr tt).

Definition StaticBoundList_Remove (this : loc) (index : Z) : M bool :=
  '(object, length) ← list_fields this;
  if (index <? length)%Z then
    StaticBoundObject_UnSet object (IntToChars index);;
    loop (vFuel V) (shift_step this) index;;
    '(_, length) ← list_fields this;
    set_length this (wrap32 (length - 1));;
    mret true
  else mret false.

Definition StaticBoundList_Set (this : loc) (name : str) (value : loc) : M unit :=
  match index_of_name name with
  | Some index => vSetAt V this index value
  | None => '(object, _) ← list_fields this; StaticBoundObject_Set object name value
  end.

Definition FromStringVector (values : list str) : M loc :=
  l ← new_StaticBoundList (lit "StaticBoundList");
  st_fold (fun _ s => v ← NewString s; vAppend V l v) tt values;;
  mret l.

(** ** StaticBoundMethod *)

Definition method_fields (this : loc) : M (loc * option callback) :=
  x ← geto this;
  match o_class x with
  | StaticBoundMethod o cb | AccessorBoundMethod o cb => mret (o, cb)
  | _ => undef
  end.

Definition new_StaticBoundMethod (cb : callback) : M loc :=
  obj ← default_StaticBoundObject;
  new_object (lit "StaticBoundMethod") (StaticBoundMethod obj (Some cb)).

Definition StaticBoundMethod_Call (this : loc) (args : list loc) : M loc :=
  tv ← NewUndefined;
  '(_, cb) ← method_fields this;
  match cb with Some c => vRun V c args tv | None => mret tt end;;
  mret tv.

Definition StaticBoundMethod_Set (this : loc) (name : str) (value : loc) : M unit :=
  '(object, _) ← method_fields this; StaticBoundObject_Set object name value.
Definition StaticBoundMethod_Get (this : loc) (name : str) : M loc :=
  '(object, _) ← method_fields this; StaticBoundObject_Get object name.
Definition StaticBoundMethod_GetPropertyNames (this : loc) : M names :=
  '(object, _) ← method_fields this; StaticBoundObject_GetPropertyNames object.

(** [SetMethod(name, &T::method)] binds a member function of this object. *)
Definition Bind (this : loc) (name : str) (m : member) : M unit :=
  bound_method ← new_StaticBoundMethod (Member this m);
  method_value ← NewMethod (Some bound_method);
  vSet V this name method_value.

(** ** KFunctionPtrMethod *)

Definition function_fields (this : loc) : M (loc * N) :=
  x ← geto this;
  match o_class x with KFunctionPtrMethod o f => mret (o, f) | _ => undef end.

Definition new_KFunctionPtrMethod (f : N) : M loc :=
  obj ← default_StaticBoundObject;
  new_object (lit "KMethod") (KFunctionPtrMethod obj f).

Definition KFunctionPtrMethod_Call (this : loc) (args : list loc) : M loc :=
  '(_, f) ← function_fields this; function_ptr W V f args.
Definition KFunctionPtrMethod_Set (this : loc) (name : str) (value : loc) : M unit :=
  '(object, _) ← function_fields this; vSet V object name value.
Definition KFunctionPtrMethod_Get (this : loc) (name : str) : M loc :=
  '(object, _) ← function_fields this; vGet V object name.
Definition KFunctionPtrMethod_GetPropertyNames (this : loc) : M names :=
  '(object, _) ← function_fields this; vGetPropertyNames V object.
End Virtual.

(** ** Monotonicity *)
Section Mono.
Context (W : World) (V1 V2 : VOps) (HV : vle V1 V2).
#[local] Set Default Proof Using "Type*".

Lemma StaticBoundList_Remove_mono o i :
  approx (StaticBoundList_Remove V1 o i) (StaticBoundList_Remove V2 o i).
Proof. unfold StaticBoundList_Remove, shift_step. mono. Qed.
Lemma StaticBoundList_Set_mono o n v :
  approx (StaticBoundList_Set V1 o n v) (StaticBoundList_Set V2 o n v).
Proof. unfold StaticBoundList_Set. mono. Qed.
Lemma FromStringVector_mono l : approx (FromStringVector V1 l) (FromStringVector V2 l).
Proof. unfold FromStringVector. mono. Qed.
Lemma StaticBoundMethod_Call_mono o l :
  approx (StaticBoundMethod_Call V1 o l) (StaticBoundMethod_Call V2 o l).
Proof. unfold StaticBoundMethod_Call. mono. Qed.
Lemma Bind_mono o n m : approx (Bind V1 o n m) (Bind V2 o n m).
Proof. unfold Bind. mono. Qed.
Lemma KFunctionPtrMethod_Call_mono o l :
  world_mono W -> approx (KFunctionPtrMethod_Call W V1 o l) (KFunctionPtrMethod_Call W V2 o l).
Proof. intros (_ & Hf & _). unfold KFunctionPtrMethod_Call. mono. Qed.
Lemma KFunctionPtrMethod_Set_mono o n v :
  approx (KFunctionPtrMethod_Set V1 o n v) (KFunctionPtrMethod_Set V2 o n v).
Proof. unfold KFunctionPtrMethod_Set. mono. Qed.
Lemma KFunctionPtrMethod_Get_mono o n :
  approx (KFunctionPtrMethod_Get V1 o n) (KFunctionPtrMethod_Get V2 o n).
Proof. unfold KFunctionPtrMethod_Get. mono. Qed.
Lemma KFunctionPtrMethod_GetPropertyNames_mono o :
  approx (KFunctionPtrMethod_GetPropertyNames V1 o) (KFunctionPtrMethod_GetPropertyNames V2 o).
Proof. unfold KFunctionPtrMethod_GetPropertyNames. mono. Qed.
End Mono.
#[export] Hint Resolve StaticBoundList_Remove_mono StaticBoundList_Set_mono FromStringVector_mono
  StaticBoundMethod_Call_mono Bind_mono KFunctionPtrMethod_Call_mono KFunctionPtrMethod_Set_mono
  KFunctionPtrMethod_Get_mono KFunctionPtrMethod_GetPropertyNames_mono : mono.
