(* ===== verification/StaticLaws.v ===== *)
(** * StaticLaws: what the concrete objects and lists promise

    A [StaticBoundObject] is a finite map from names to values; a
    [StaticBoundList] is a sequence of values kept under the decimal names of
    the indices. *)

From S2P Require Import Prelude CppString Double Heap Virtual KObject StaticBound.
From stdpp Require Import options.

(** ** Parts of the heap *)

Definition props (h : heap) (o : loc) : gmap str loc := from_option properties ∅ (objs h !! o).
Definition class_of (h : heap) (o : loc) : option class := o_class <$> objs h !! o.

Definition with_properties (o : loc) (m : gmap str loc) : heap -> heap :=
  with_objs (alter (fun x => {| o_type := o_type x; properties := m; o_class := o_class x |}) o).
Definition with_class (o : loc) (c : class) : heap -> heap :=
  with_objs (alter (fun x => {| o_type := o_type x; properties := properties x; o_class := c |}) o).
Definition with_fresh (v : value) (h : heap) : heap :=
  with_vals (<[next h := v]>) (with_next (N.succ (next h)) h).

Lemma props_with_properties o o' m h :
  is_Some (objs h !! o) ->
  props (with_properties o m h) o' = if decide (o' = o) then m else props h o'.
Proof.
  intros [x Hx]. unfold props, with_properties. simpl. case_decide as Ho; subst.
  - by rewrite lookup_alter_eq, Hx.
  - by rewrite lookup_alter_ne.
Qed.

Lemma props_with_class o o' c h : props (with_class o c h) o' = props h o'.
Proof.
  unfold props, with_class. simpl. destruct (decide (o' = o)) as [->|].
  - rewrite lookup_alter_eq. by destruct (objs h !! o).
  - by rewrite lookup_alter_ne.
Qed.

Lemma class_of_with_properties o o' m h : class_of (with_properties o m h) o' = class_of h o'.
Proof.
  unfold class_of, with_properties. simpl. destruct (decide (o' = o)) as [->|].
  - rewrite lookup_alter_eq. by destruct (objs h !! o).
  - by rewrite lookup_alter_ne.
Qed.

Lemma class_of_with_class o o' c h :
  is_Some (objs h !! o) ->
  class_of (with_class o c h) o' = if decide (o' = o) then Some c else class_of h o'.
Proof.
  intros [x Hx]. unfold class_of, with_class. simpl. case_decide as Ho; subst.
  - by rewrite lookup_alter_eq, Hx.
  - by rewrite lookup_alter_ne.
Qed.

Lemma class_of_is_Some h o c : class_of h o = Some c -> is_Some (objs h !! o).
Proof. unfold class_of. destruct (objs h !! o); [eauto|done]. Qed.
#[export] Hint Resolve class_of_is_Some : core.

Lemma class_of_with_fresh v h o : class_of (with_fresh v h) o = class_of h o.
Proof. done. Qed.
Lemma props_with_fresh v h o : props (with_fresh v h) o = props h o.
Proof. done. Qed.

(** ** What an operation leaves alone *)

(** Nothing is allocated from [next] on. *)
Definition fresh_ok (h : heap) : Prop :=
  forall l, (next h <= l)%N -> objs h !! l = None /\ vals h !! l = None.

(** Besides new values and objects, only the objects in [ts] are different. *)
Record changed (ts : list loc) (h h' : heap) : Prop := {
  ch_sys : sys h' = sys h;
  ch_next : (next h <= next h')%N;
  ch_vals l : (l < next h)%N -> vals h' !! l = vals h !! l;
  ch_objs o : (o < next h)%N -> o ∉ ts -> objs h' !! o = objs h !! o;
  ch_fresh : fresh_ok h -> fresh_ok h'
}.
#[export] Instance changed_preorder ts : PreOrder (changed ts).
Proof.
  split; [intros h; by split|]. intros h1 h2 h3 [] []. split; try congruence; try lia.
  - intros l Hl. rewrite <- ch_vals0 by done. apply ch_vals1. lia.
  - intros o Ho Hts. rewrite <- ch_objs0 by done. apply ch_objs1; [lia|done].
  - auto.
Qed.

Lemma changed_weaken ts1 ts2 h h' : ts1 ⊆ ts2 -> changed ts1 h h' -> changed ts2 h h'.
Proof. intros Hs []. split; auto. Qed.

Lemma lookup_lt_next h l v : fresh_ok h -> vals h !! l = Some v -> (l < next h)%N.
Proof. intros Hf Hl. apply N.nle_gt. intros Hle. destruct (Hf l Hle). congruence. Qed.
Lemma object_lt_next h o : fresh_ok h -> is_Some (objs h !! o) -> (o < next h)%N.
Proof. intros Hf [x Hx]. apply N.nle_gt. intros Hle. destruct (Hf o Hle). congruence. Qed.

Lemma changed_value ts h h' l v :
  changed ts h h' -> fresh_ok h -> vals h !! l = Some v -> vals h' !! l = Some v.
Proof. intros [] Hf Hl. rewrite ch_vals0; [done|by eapply lookup_lt_next]. Qed.
Lemma changed_object ts h h' o x :
  changed ts h h' -> fresh_ok h -> o ∉ ts -> objs h !! o = Some x -> objs h' !! o = Some x.
Proof. intros [] Hf Ho Hx. rewrite ch_objs0; [done| |done]. eapply object_lt_next; eauto. Qed.

Lemma changed_with_fresh ts v h : changed ts h (with_fresh v h).
Proof.
  split; [done|simpl; lia| |done|].
  - intros l Hl. simpl. by rewrite lookup_insert_ne by lia.
  - intros Hf l Hl. simpl in *. rewrite lookup_insert_ne by lia. apply Hf. lia.
Qed.

Lemma changed_alter ts o f h : o ∈ ts -> changed ts h (with_objs (alter f o) h).
Proof.
  intros Ho. split; [done|simpl; lia|done| |].
  - intros o' Ho' Hts. simpl. apply lookup_alter_ne. set_solver.
  - intros Hf l Hl. simpl in *. destruct (Hf l Hl) as [H1 H2]. split; [|done].
    apply lookup_alter_None. done.
Qed.
Lemma changed_with_properties ts o m h : o ∈ ts -> changed ts h (with_properties o m h).
Proof. apply changed_alter. Qed.
Lemma changed_with_class ts o c h : o ∈ ts -> changed ts h (with_class o c h).
Proof. apply changed_alter. Qed.

Lemma changed_list this obj c m h :
  changed [this; obj] h (with_class this c (with_properties obj m h)).
Proof. etrans; [apply changed_with_properties|apply changed_with_class]; set_solver. Qed.

(** ** Runs of the allocations *)

Definition with_object (ty : str) (c : class) (h : heap) : heap :=
  with_objs (<[next h := {| o_type := ty; properties := ∅; o_class := c |}]>)
    (with_next (N.succ (next h)) h).

Lemma new_object_run ty c h : new_object ty c h = (Ret (next h), with_object ty c h).
Proof. done. Qed.

Lemma getv_run h l v : vals h !! l = Some v -> getv l h = (Ret v, h).
Proof. unfold getv. by intros ->. Qed.

Lemma update_value_run h l v g :
  vals h !! l = Some v -> update_value l g h = (Ret tt, with_vals (<[l := g v]>) h).
Proof. intros Hl. unfold update_value. by step (getv_run _ _ _ Hl). Qed.

Lemma new_with_run g h :
  new_with (fun l => update_value l g) h = (Ret (next h), with_fresh (g new_value) h).
Proof.
  unfold new_with. assert (NewUndefined h = (Ret (next h), with_fresh new_value h)) as E by done.
  step E. erewrite st_bind_Ret by (apply update_value_run; simpl; apply lookup_insert_eq).
  unfold mret, st_ret, with_fresh, with_vals. simpl. by rewrite insert_insert_eq.
Qed.

Lemma NewObject_run o h :
  NewObject o h = (Ret (next h), with_fresh (set_object OBJECT o (reset new_value)) h).
Proof. apply (new_with_run (fun v => set_object OBJECT o (reset v))). Qed.

(** ** Runs of the operations of StaticBoundObject *)

Lemma Get_run h o n :
  is_Some (objs h !! o) ->
  StaticBoundObject_Get o n h = (Ret (default (next h) (props h o !! n)), with_fresh new_value h).
Proof.
  intros [x Hx]. unfold StaticBoundObject_Get, NewUndefined, get_properties, props.
  unfold mbind, st_bind, alloc, putv, modify, geto. simpl. rewrite Hx. simpl.
  by destruct (properties x !! n).
Qed.

Lemma with_properties_twice o m1 m2 h :
  with_properties o m2 (with_properties o m1 h) = with_properties o m2 h.
Proof.
  unfold with_properties, with_objs. simpl. f_equal. apply map_eq. intros o'.
  destruct (decide (o' = o)) as [->|].
  - rewrite !lookup_alter_eq. by destruct (objs h !! o).
  - by rewrite !lookup_alter_ne.
Qed.

Lemma set_properties_run h o m :
  is_Some (objs h !! o) -> set_properties o m h = (Ret tt, with_properties o m h).
Proof.
  intros [x Hx]. unfold set_properties, puto, geto, modify, mbind, st_bind. rewrite Hx.
  unfold with_properties, with_objs. do 2 f_equal. apply map_eq. intros o'.
  destruct (decide (o' = o)) as [->|].
  - by rewrite lookup_insert_eq, lookup_alter_eq, Hx.
  - by rewrite lookup_insert_ne, lookup_alter_ne.
Qed.

Lemma get_properties_run h o :
  is_Some (objs h !! o) -> get_properties o h = (Ret (props h o), h).
Proof. intros [x Hx]. unfold get_properties, geto, mbind, st_bind, props. by rewrite Hx. Qed.

Lemma with_properties_id o h : with_properties o (props h o) h = h.
Proof.
  destruct h as [nx vs os ls lm ci rt pf js out]. unfold with_properties, with_objs, props. simpl.
  f_equal. apply map_eq. intros o'.
  destruct (decide (o' = o)) as [->|].
  - rewrite lookup_alter_eq. destruct (os !! o) as [[]|]; done.
  - by rewrite lookup_alter_ne.
Qed.

Lemma UnSet_run h o n :
  is_Some (objs h !! o) ->
  StaticBoundObject_UnSet o n h = (Ret tt, with_properties o (delete n (props h o)) h).
Proof.
  intros Ho. unfold StaticBoundObject_UnSet.
  rewrite (st_bind_Ret _ _ _ _ _ (get_properties_run h o Ho)).
  destruct (props h o !! n) eqn:E.
  - by apply set_properties_run.
  - rewrite delete_id by done. by rewrite with_properties_id.
Qed.

Lemma is_Some_with_properties o o' m h :
  is_Some (objs h !! o) -> is_Some (objs (with_properties o' m h) !! o).
Proof.
  intros Ho. unfold with_properties. simpl. destruct (decide (o' = o)) as [->|].
  - rewrite lookup_alter_eq. by apply fmap_is_Some.
  - by rewrite lookup_alter_ne.
Qed.

Lemma Set_run h o n v :
  is_Some (objs h !! o) ->
  StaticBoundObject_Set o n v h = (Ret tt, with_properties o (<[n := v]> (props h o)) h).
Proof.
  intros Ho. unfold StaticBoundObject_Set.
  rewrite (st_bind_Ret _ _ _ _ _ (UnSet_run h o n Ho)).
  pose proof (is_Some_with_properties o o (delete n (props h o)) h Ho) as Ho'.
  rewrite (st_bind_Ret _ _ _ _ _ (get_properties_run _ o Ho')).
  rewrite set_properties_run by done.
  rewrite with_properties_twice, props_with_properties by done.
  by rewrite decide_True, insert_delete_eq.
Qed.

Lemma st_map_new_name ks h :
  exists l, st_map new_name ks h = (Ret l, with_next (next h + N.of_nat (length ks)) h) /\
    map snd l = ks /\ Forall (fun p => (next h <= p.1)%N) l.
Proof.
  revert h. induction ks as [|k ks IH]; intros h.
  - exists []. split_and!; [|done|constructor]. simpl. rewrite N.add_0_r. by destruct h.
  - destruct (IH (with_next (N.succ (next h)) h)) as (l & E & Hl & Hf).
    exists ((next h, k) :: l). split_and!.
    + simpl. unfold mbind at 1, st_bind at 1, new_name, alloc. simpl.
      rewrite (st_bind_Ret _ _ _ _ _ E). simpl. unfold mret, st_ret.
      apply (f_equal2 pair); [done|]. unfold with_next. simpl. f_equal. lia.
    + simpl. by rewrite Hl.
    + constructor; [simpl; lia|]. eapply Forall_impl; [exact Hf|]. simpl. lia.
Qed.

Lemma GetPropertyNames_run h o :
  is_Some (objs h !! o) ->
  exists l, StaticBoundObject_GetPropertyNames o h
            = (Ret l, with_next (next h + N.of_nat (length (sorted_keys (props h o)))) h) /\
    map snd l = sorted_keys (props h o) /\ Forall (fun p => (next h <= p.1)%N) l.
Proof.
  intros Ho. destruct (st_map_new_name (sorted_keys (props h o)) h) as (l & E & ? & ?).
  exists l. split_and!; [|done..]. unfold StaticBoundObject_GetPropertyNames.
  by rewrite (st_bind_Ret _ _ _ _ _ (get_properties_run h o Ho)).
Qed.

Lemma sorted_keys_spec m k : k ∈ sorted_keys m <-> is_Some (m !! k).
Proof.
  unfold sorted_keys. rewrite merge_sort_Permutation, list_elem_of_fmap. split.
  - intros ([k' v] & -> & H%elem_of_map_to_list). eauto.
  - intros [v H]. exists (k, v). split; [done|]. by apply elem_of_map_to_list.
Qed.

Lemma sorted_keys_NoDup m : NoDup (sorted_keys m).
Proof. unfold sorted_keys. rewrite merge_sort_Permutation. apply NoDup_fst_map_to_list. Qed.

Lemma sorted_keys_sorted m : StronglySorted str_le (sorted_keys m).
Proof. apply (StronglySorted_merge_sort str_le). Qed.

(** A [StaticBoundObject] implements a finite map: [Set] binds the name
    and nothing else changes, [UnSet] unbinds it, [Get] returns the very value
    bound to the name (no copy) or a fresh Undefined value for an unbound one,
    and [GetPropertyNames] lists exactly the bound names, once each, in the
    byte order of [std::map]. *)
Theorem static_bound_object_is_map h o name v :
  is_Some (objs h !! o) ->
  (StaticBoundObject_Set o name v h = (Ret tt, with_properties o (<[name := v]> (props h o)) h)) /\
  (StaticBoundObject_UnSet o name h = (Ret tt, with_properties o (delete name (props h o)) h)) /\
  (exists h', StaticBoundObject_Get o name h = (Ret (default (next h) (props h o !! name)), h') /\
    objs h' = objs h /\ vals h' = <[next h := new_value]> (vals h)) /\
  (exists l h', StaticBoundObject_GetPropertyNames o h = (Ret l, h') /\
    objs h' = objs h /\ vals h' = vals h /\
    NoDup (map snd l) /\ StronglySorted str_le (map snd l) /\
    forall k, k ∈ map snd l <-> is_Some (props h o !! k)).
Proof.
  intros Ho. split_and!.
  - by apply Set_run.
  - by apply UnSet_run.
  - eexists. by rewrite Get_run.
  - destruct (GetPropertyNames_run h o Ho) as (l & E & Hl & _). do 2 eexists. rewrite Hl.
    split_and!; [exact E|done|done|apply sorted_keys_NoDup|apply sorted_keys_sorted|].
    apply sorted_keys_spec.
Qed.

(** ** Decimal names *)

Lemma pretty_N_char_value x :
  (x < 10)%N -> (Z.of_N (N_of_ascii (pretty_N_char x)) - 48 = Z.of_N x)%Z.
Proof.
  intros Hx. destruct (decide (x ∈ map N.of_nat (seq 0 10))) as [Hin|Hn].
  - apply list_elem_of_fmap in Hin as (k & -> & Hk%elem_of_seq). do 10 (destruct k as [|k]; [done|]). lia.
  - exfalso. apply Hn, list_elem_of_fmap. exists (N.to_nat x). split; [lia|]. apply elem_of_seq. lia.
Qed.

Lemma pretty_N_char_digit x : (x < 10)%N -> isdigit (pretty_N_char x) = true.
Proof.
  intros Hx. pose proof (pretty_N_char_value x Hx) as Hv. unfold isdigit, in_range.
  apply andb_true_iff. rewrite !N.leb_le. lia.
Qed.

Lemma lit_cons c s : lit (Stdlib.Strings.String.String c s) = c :: lit s.
Proof. done. Qed.

Lemma pretty_N_go_value x s : digits_value 0 (lit (pretty_N_go x s)) = digits_value (Z.of_N x) (lit s).
Proof.
  revert s. induction (N.lt_wf_0 x) as [x _ IH]; intros s.
  destruct (decide (x = 0)%N) as [->|]; [by rewrite pretty_N_go_0|].
  rewrite pretty_N_go_step, IH by (try apply N.div_lt; lia).
  rewrite lit_cons. cbn [digits_value]. f_equal.
  rewrite pretty_N_char_value by (apply N.mod_lt; lia).
  rewrite N2Z.inj_div, N2Z.inj_mod. pose proof (Z.div_mod (Z.of_N x) 10). lia.
Qed.

Lemma pretty_N_go_digits x s :
  forallb isdigit (lit s) = true -> forallb isdigit (lit (pretty_N_go x s)) = true.
Proof.
  revert s. induction (N.lt_wf_0 x) as [x _ IH]; intros s Hs.
  destruct (decide (x = 0)%N) as [->|]; [by rewrite pretty_N_go_0|].
  rewrite pretty_N_go_step by lia. apply IH; [apply N.div_lt; lia|].
  rewrite lit_cons. cbn [forallb]. rewrite pretty_N_char_digit; [done|]. apply N.mod_lt. lia.
Qed.

Lemma dec_value n : digits_value 0 (dec n) = Z.of_N n.
Proof.
  unfold dec, pretty, pretty_N. case_decide as Hn; [by rewrite Hn|].
  by rewrite pretty_N_go_value.
Qed.

Lemma dec_digits n : forallb isdigit (dec n) = true.
Proof.
  unfold dec, pretty, pretty_N. case_decide; [done|]. by apply pretty_N_go_digits.
Qed.

Lemma digits_no_nul s : forallb isdigit s = true -> no_nul s.
Proof.
  rewrite forallb_forall. intros H. apply Forall_forall. intros c Hc ->.
  apply list_elem_of_In in Hc. specialize (H _ Hc). done.
Qed.

Lemma dec_no_nul n : no_nul (dec n).
Proof. apply digits_no_nul, dec_digits. Qed.

(** Writing an index as a property name and reading the name as an index
    is the identity below 2^31, so [list.Set("3", v)] reaches the element that
    [list.SetAt(3, v)] does; from 2^31 on, [atoi] leaves the range of [int]
    and the name (up to 2^32) is not an index any more. *)
Theorem index_name_roundtrip i :
  (0 <= i < 2 ^ 32)%Z ->
  index_of_name (IntToChars i) = if (i <? 2 ^ 31)%Z then Some i else None.
Proof.
  intros Hi. unfold index_of_name, KList_IsInt, IntToChars, atoi.
  rewrite (c_str_id (dec _)) by apply dec_no_nul.
  rewrite dec_digits, dec_value, Z2N.id by lia. rewrite Z.min_l by lia. simpl andb.
  unfold to_signed32. rewrite wrap32_id by lia. destruct (i <? 2 ^ 31)%Z eqn:E.
  - by rewrite (proj2 (Z.leb_le _ _)) by lia.
  - by rewrite (proj2 (Z.leb_gt _ _)) by lia.
Qed.

Lemma index_name_roundtrip_witness :
  (0 <= 17 < 2 ^ 32)%Z /\ index_of_name (IntToChars 17) = Some 17%Z.
Proof. split; [lia|]. apply (index_name_roundtrip 17). lia. Defined.

Lemma IntToChars_inj i j : (0 <= i)%Z -> (0 <= j)%Z -> IntToChars i = IntToChars j -> i = j.
Proof. unfold IntToChars. intros ? ? H%(inj dec). lia. Qed.

(** ** Lists *)

(** The interface that the lists need of the virtual calls: an object that
    has one of the concrete classes runs the functions of that class. *)
Class StaticDispatch (V : VOps) : Prop := {
  sd_Get h o n : class_of h o = Some StaticBoundObject ->
    vGet V o n h = StaticBoundObject_Get o n h;
  sd_Set h o n v : class_of h o = Some StaticBoundObject ->
    vSet V o n v h = StaticBoundObject_Set o n v h;
  sd_GetPropertyNames h o : class_of h o = Some StaticBoundObject ->
    vGetPropertyNames V o h = StaticBoundObject_GetPropertyNames o h;
  sd_At h o i obj n : class_of h o = Some (StaticBoundList obj n) ->
    vAt V o i h = StaticBoundList_At o i h;
  sd_SetAt h o i v obj n : class_of h o = Some (StaticBoundList obj n) ->
    vSetAt V o i v h = StaticBoundList_SetAt o i v h;
  sd_Append h o v obj n : class_of h o = Some (StaticBoundList obj n) ->
    vAppend V o v h = StaticBoundList_Append o v h;
  sd_Size h o obj n : class_of h o = Some (StaticBoundList obj n) ->
    vSize V o h = StaticBoundList_Size o h
}.

(** The list object [this] holds the sequence [l], under the names in [obj]. *)
Record list_repr (h : heap) (this obj : loc) (l : list loc) : Prop := {
  lr_class : class_of h this = Some (StaticBoundList obj (Z.of_nat (length l)));
  lr_object : class_of h obj = Some StaticBoundObject;
  lr_length : (Z.of_nat (length l) < 2 ^ 32)%Z;
  lr_items i v : l !! i = Some v -> props h obj !! IntToChars (Z.of_nat i) = Some v
}.

Lemma list_fields_run h this obj n :
  class_of h this = Some (StaticBoundList obj n) -> list_fields this h = (Ret (obj, n), h).
Proof.
  unfold class_of, list_fields, geto, mbind, st_bind. intros H.
  destruct (objs h !! this) as [x|]; [|done]. simpl in H. by injection H as ->.
Qed.

Lemma set_length_run h this obj n k :
  class_of h this = Some (StaticBoundList obj n) ->
  set_length this k h = (Ret tt, with_class this (StaticBoundList obj k) h).
Proof.
  intros Hc. pose proof Hc as Hc'. unfold class_of in Hc'.
  destruct (objs h !! this) as [x|] eqn:Hx; [|done]. injection Hc' as Hx'.
  unfold set_length, set_class, geto, puto, modify, mbind, st_bind. rewrite Hx, Hx', Hx.
  unfold with_class, with_objs. do 2 f_equal. apply map_eq. intros o'.
  destruct (decide (o' = this)) as [->|].
  - by rewrite lookup_insert_eq, lookup_alter_eq, Hx.
  - by rewrite lookup_insert_ne, lookup_alter_ne.
Qed.

Lemma At_run h this obj n i :
  class_of h this = Some (StaticBoundList obj n) -> is_Some (objs h !! obj) ->
  StaticBoundList_At this i h
  = (Ret (default (next h) (props h obj !! IntToChars i)), with_fresh new_value h).
Proof.
  intros Hc Ho. unfold StaticBoundList_At.
  step (list_fields_run _ _ _ _ Hc). by apply Get_run.
Qed.

Lemma Append_run h this obj n v :
  class_of h this = Some (StaticBoundList obj n) -> is_Some (objs h !! obj) ->
  StaticBoundList_Append this v h
  = (Ret tt, with_class this (StaticBoundList obj (wrap32 (n + 1)))
               (with_properties obj (<[IntToChars n := v]> (props h obj)) h)).
Proof.
  intros Hc Ho. unfold StaticBoundList_Append.
  step (list_fields_run _ _ _ _ Hc).
  step (Set_run _ _ _ _ Ho).
  erewrite st_bind_Ret by (apply list_fields_run; rewrite class_of_with_properties; exact Hc).
  cbv beta iota.
  erewrite set_length_run by (rewrite class_of_with_properties; exact Hc). done.
Qed.

Lemma SetAt_run h this obj n i v :
  class_of h this = Some (StaticBoundList obj n) -> is_Some (objs h !! obj) ->
  StaticBoundList_SetAt this i v h
  = (Ret tt, (if n <=? i then with_class this (StaticBoundList obj (wrap32 (i + 1))) else id)%Z
               (with_properties obj (<[IntToChars i := v]> (props h obj)) h)).
Proof.
  intros Hc Ho. unfold StaticBoundList_SetAt.
  step (list_fields_run _ _ _ _ Hc).
  step (Set_run _ _ _ _ Ho).
  erewrite st_bind_Ret by (apply list_fields_run; rewrite class_of_with_properties; exact Hc).
  cbv beta iota.
  destruct (n <=? i)%Z; [|done].
  erewrite set_length_run by (rewrite class_of_with_properties; exact Hc). done.
Qed.

Lemma list_repr_ne h this obj l : list_repr h this obj l -> obj <> this.
Proof. intros [Hc Ho _ _] ->. congruence. Qed.

Lemma list_repr_fresh h this obj l v : list_repr h this obj l -> list_repr (with_fresh v h) this obj l.
Proof. by intros []. Qed.

(** A change of the element names and of the length together. *)
Lemma list_repr_update h this obj l l' m :
  list_repr h this obj l -> (Z.of_nat (length l') < 2 ^ 32)%Z ->
  (forall i v, l' !! i = Some v -> m !! IntToChars (Z.of_nat i) = Some v) ->
  list_repr (with_class this (StaticBoundList obj (Z.of_nat (length l')))
               (with_properties obj m h)) this obj l'.
Proof.
  intros Hr Hl Hm. pose proof (list_repr_ne _ _ _ _ Hr) as Hne. destruct Hr as [Hc Ho _ _].
  assert (is_Some (objs (with_properties obj m h) !! this)) as Hs.
  { apply class_of_is_Some with (StaticBoundList obj (Z.of_nat (length l))).
    by rewrite class_of_with_properties. }
  split.
  - rewrite class_of_with_class by done. by rewrite decide_True.
  - rewrite class_of_with_class by done. by rewrite decide_False, class_of_with_properties.
  - done.
  - intros i v Hi. rewrite props_with_class, props_with_properties by eauto.
    rewrite decide_True by done. by apply Hm.
Qed.

Lemma list_repr_items h this obj l l' m :
  list_repr h this obj l -> length l' = length l ->
  (forall i v, l' !! i = Some v -> m !! IntToChars (Z.of_nat i) = Some v) ->
  list_repr (with_properties obj m h) this obj l'.
Proof.
  intros Hr Hl Hm. pose proof (list_repr_ne _ _ _ _ Hr) as Hne. destruct Hr as [Hc Ho Hn _].
  split; rewrite ?Hl; try (by rewrite class_of_with_properties); [done|].
  intros i v Hi. rewrite props_with_properties by eauto. rewrite decide_True by done. by apply Hm.
Qed.

Lemma IntToChars_lookup_ne (i j : nat) (m : gmap str loc) (v : loc) :
  i <> j -> <[IntToChars (Z.of_nat i) := v]> m !! IntToChars (Z.of_nat j) = m !! IntToChars (Z.of_nat j).
Proof. intros Hij. apply lookup_insert_ne. intros H%IntToChars_inj; lia. Qed.

Section Lists.
Context (V : VOps) `{!StaticDispatch V}.
#[local] Set Default Proof Using "Type*".

Lemma shift_step_more this obj n i h v :
  class_of h this = Some (StaticBoundList obj (Z.of_nat n)) -> is_Some (objs h !! obj) ->
  (Z.of_nat n < 2 ^ 32)%Z -> S i < n ->
  props h obj !! IntToChars (Z.of_nat (S i)) = Some v ->
  shift_step V this (Z.of_nat i) h
  = (Ret (inl (Z.of_nat (S i))),
     with_properties obj (<[IntToChars (Z.of_nat i) := v]> (props h obj)) (with_fresh new_value h)).
Proof.
  intros Hc Ho Hn Hi Hv. unfold shift_step. step (list_fields_run _ _ _ _ Hc).
  assert (wrap32 (Z.of_nat i + 1) = Z.of_nat (S i)) as -> by (rewrite wrap32_id; lia).
  rewrite (proj2 (Z.ltb_lt _ _)) by lia.
  erewrite st_bind_Ret by (erewrite sd_At by exact Hc; by apply (At_run _ _ _ _ _ Hc)).
  rewrite Hv. cbn [default from_option].
  erewrite st_bind_Ret.
  2:{ erewrite sd_SetAt by exact Hc. rewrite (SetAt_run _ _ obj (Z.of_nat n)) by done.
      rewrite (proj2 (Z.leb_gt _ _)) by lia. done. }
  done.
Qed.

Lemma shift_step_stop this obj n i h :
  class_of h this = Some (StaticBoundList obj (Z.of_nat n)) ->
  (Z.of_nat n < 2 ^ 32)%Z -> S i = n -> shift_step V this (Z.of_nat i) h = (Ret (inr tt), h).
Proof.
  intros Hc Hn Hi. unfold shift_step. step (list_fields_run _ _ _ _ Hc).
  assert (wrap32 (Z.of_nat i + 1) = Z.of_nat (S i)) as -> by (rewrite wrap32_id; lia).
  by rewrite (proj2 (Z.ltb_ge _ _)) by lia.
Qed.

(** The loop of [Remove]: the elements after [index] move one place down. *)
Lemma shift_loop this obj l index fuel i h :
  class_of h this = Some (StaticBoundList obj (Z.of_nat (length l))) ->
  class_of h obj = Some StaticBoundObject -> (Z.of_nat (length l) < 2 ^ 32)%Z ->
  index <= i < length l -> length l - i <= fuel ->
  (forall j v, j < i -> delete index l !! j = Some v ->
               props h obj !! IntToChars (Z.of_nat j) = Some v) ->
  (forall j v, i < j -> l !! j = Some v -> props h obj !! IntToChars (Z.of_nat j) = Some v) ->
  exists h', loop fuel (shift_step V this) (Z.of_nat i) h = (Ret tt, h') /\
    class_of h' this = Some (StaticBoundList obj (Z.of_nat (length l))) /\
    class_of h' obj = Some StaticBoundObject /\
    (forall j v, delete index l !! j = Some v ->
                 props h' obj !! IntToChars (Z.of_nat j) = Some v) /\
    changed [obj] h h'.
Proof.
  revert i h. induction fuel as [|fuel IH]; intros i h Hc Ho Hn Hi Hf Hlo Hhi; [lia|].
  cbn [loop]. destruct (decide (S i = length l)) as [Hlast|].
  - exists h. step (shift_step_stop _ _ _ _ _ Hc Hn Hlast). split_and!; [done..| |done].
    intros j v Hj. apply Hlo; [|done]. apply lookup_lt_Some in Hj.
    rewrite length_delete in Hj by (apply lookup_lt_is_Some_2; lia). lia.
  - destruct (lookup_lt_is_Some_2 l (S i)) as [v Hv]; [lia|].
    erewrite st_bind_Ret.
    2:{ apply (shift_step_more _ _ _ _ _ v Hc); [eauto|done|lia|]. apply Hhi; [lia|done]. }
    cbv beta iota. set (h1 := with_properties _ _ _). assert (changed [obj] h h1) as Hch.
    { transitivity (with_fresh new_value h); [apply changed_with_fresh|].
      apply changed_with_properties. set_solver. }
    destruct (IH (S i) h1) as (h' & E & H1 & H2 & H3 & H4); unfold h1 in *; try done.
    + by rewrite class_of_with_properties.
    + by rewrite class_of_with_properties.
    + lia.
    + lia.
    + intros j w Hj Hw. rewrite props_with_properties by eauto. rewrite decide_True by done.
      destruct (decide (i = j)) as [<-|].
      * rewrite lookup_insert_eq. rewrite list_lookup_delete_ge in Hw by lia. congruence.
      * rewrite IntToChars_lookup_ne by done. apply Hlo; [lia|done].
    + intros j w Hj Hw. rewrite props_with_properties by eauto. rewrite decide_True by done.
      rewrite IntToChars_lookup_ne by lia. apply Hhi; [lia|done].
    + exists h'. split_and!; [done..|by etrans].
Qed.

Lemma Append_repr h this obj l v :
  list_repr h this obj l -> (Z.of_nat (S (length l)) < 2 ^ 32)%Z ->
  exists h', StaticBoundList_Append this v h = (Ret tt, h') /\ list_repr h' this obj (l ++ [v]) /\
             changed [this; obj] h h'.
Proof using.
  intros Hr Hl. pose proof Hr as [Hc Ho Hn Hit].
  eexists. rewrite (Append_run _ _ obj _ _ Hc) by eauto. split; [done|].
  rewrite wrap32_id by lia. replace (Z.of_nat (length l) + 1)%Z with (Z.of_nat (length (l ++ [v])))
    by (rewrite length_app; simpl; lia).
  split; [|apply changed_list].
  apply (list_repr_update _ _ _ l); [done|rewrite length_app; simpl; lia|].
  intros j w Hj. destruct (decide (length l = j)) as [<-|].
  - rewrite lookup_insert_eq. by rewrite list_lookup_middle in Hj.
  - rewrite IntToChars_lookup_ne by done. apply Hit.
    apply lookup_app_Some in Hj as [|[? Hj]]; [done|].
    apply list_lookup_singleton_Some in Hj as [? _]. lia.
Qed.

Lemma SetAt_repr h this obj l v (i : nat) :
  list_repr h this obj l -> i < length l ->
  exists h', StaticBoundList_SetAt this (Z.of_nat i) v h = (Ret tt, h') /\
             list_repr h' this obj (<[i := v]> l).
Proof using.
  intros Hr Hi. pose proof Hr as [Hc Ho Hn Hit].
  eexists. rewrite (SetAt_run _ _ obj _ _ _ Hc) by eauto.
  rewrite (proj2 (Z.leb_gt _ _)) by lia. split; [done|].
  apply (list_repr_items _ _ _ l); [done|by rewrite length_insert|].
  intros j w Hj. destruct (decide (i = j)) as [<-|].
  - rewrite lookup_insert_eq. rewrite list_lookup_insert_eq in Hj by done. congruence.
  - rewrite list_lookup_insert_ne in Hj by done. rewrite IntToChars_lookup_ne by done. by apply Hit.
Qed.

Lemma Remove_repr h this obj l (i : nat) :
  list_repr h this obj l -> length l < vFuel V -> i < length l ->
  exists h', StaticBoundList_Remove V this (Z.of_nat i) h = (Ret true, h') /\
             list_repr h' this obj (delete i l) /\ changed [this; obj] h h'.
Proof.
  intros Hr Hf Hi. pose proof Hr as [Hc Ho Hn Hit].
  assert (is_Some (objs h !! obj)) as Hobj by eauto.
  unfold StaticBoundList_Remove. step (list_fields_run _ _ _ _ Hc).
  rewrite (proj2 (Z.ltb_lt _ _)) by lia. step (UnSet_run _ _ _ Hobj).
  destruct (shift_loop this obj l i (vFuel V) i
              (with_properties obj (delete (IntToChars (Z.of_nat i)) (props h obj)) h))
    as (h' & Hrun & Hc' & Ho' & Hit' & Hch); try lia; try (by rewrite class_of_with_properties).
  1,2: intros j w Hj Hw; rewrite props_with_properties by done; rewrite decide_True by done;
    rewrite ?list_lookup_delete_lt in Hw by done;
    (rewrite lookup_delete_ne; [by apply Hit|intros ?%IntToChars_inj; lia]).
  step Hrun. step (list_fields_run _ _ _ _ Hc').
  erewrite st_bind_Ret by (by apply (set_length_run _ _ _ _ _ Hc')).
  eexists. split; [done|]. split; last first.
  { etrans; [|apply changed_with_class; set_solver].
    etrans; [|eapply changed_weaken, Hch; set_solver]. apply changed_with_properties. set_solver. }
  assert (length (delete i l) = length l - 1) as Hlen.
  { rewrite length_delete by (by apply lookup_lt_is_Some_2). lia. }
  rewrite wrap32_id by lia.
  replace (Z.of_nat (length l) - 1)%Z with (Z.of_nat (length (delete i l))) by lia.
  split.
  - rewrite class_of_with_class by eauto. by rewrite decide_True.
  - rewrite class_of_with_class by eauto. rewrite decide_False; [done|]. congruence.
  - lia.
  - intros j w Hj. rewrite props_with_class. by apply Hit'.
Qed.

(** C27: a [StaticBoundList] implements a sequence: [Append] adds at the end,
    [At] and [SetAt] read and write an element (the very value, no copy),
    [Size] is the length, and [Remove] closes the gap by moving the later
    elements down, terminates and reports whether the index existed. Lengths
    below 2^32; the fuel has to cover the length for [Remove]'s loop. *)
Theorem static_bound_list_is_sequence h this obj l v (i : nat) :
  list_repr h this obj l -> length l < vFuel V ->
  (Z.of_nat (S (length l)) < 2 ^ 32 ->
     exists h', StaticBoundList_Append this v h = (Ret tt, h') /\ list_repr h' this obj (l ++ [v]))%Z /\
  (StaticBoundList_Size this h = (Ret (Z.of_nat (length l)), h)) /\
  (forall w, l !! i = Some w ->
     exists h', StaticBoundList_At this (Z.of_nat i) h = (Ret w, h') /\ list_repr h' this obj l) /\
  (i < length l ->
     exists h', StaticBoundList_SetAt this (Z.of_nat i) v h = (Ret tt, h') /\
                list_repr h' this obj (<[i := v]> l)) /\
  (i < length l ->
     exists h', StaticBoundList_Remove V this (Z.of_nat i) h = (Ret true, h') /\
                list_repr h' this obj (delete i l)) /\
  (length l <= i -> StaticBoundList_Remove V this (Z.of_nat i) h = (Ret false, h)).
Proof.
  intros Hr Hf. pose proof Hr as [Hc Ho Hn Hit]. split_and!.
  - intros Hl. destruct (Append_repr h this obj l v Hr Hl) as (h' & ? & ? & _). by exists h'.
  - unfold StaticBoundList_Size. by step (list_fields_run _ _ _ _ Hc).
  - intros w Hw. eexists. rewrite (At_run _ _ obj _ _ Hc) by eauto. rewrite (Hit _ _ Hw).
    split; [done|]. by apply list_repr_fresh.
  - intros Hi. by apply SetAt_repr.
  - intros Hi. destruct (Remove_repr h this obj l i Hr Hf Hi) as (h' & ? & ? & _). by exists h'.
  - intros Hi. unfold StaticBoundList_Remove. step (list_fields_run _ _ _ _ Hc).
    by rewrite (proj2 (Z.ltb_ge _ _)) by lia.
Qed.
End Lists.

(** The operations of the concrete classes alone: an instance of the
    interface without the dispatch over all classes. *)
Definition static_ops (fuel : nat) : VOps := {|
  vFuel := fuel;
  vGet := StaticBoundObject_Get; vSet := StaticBoundObject_Set;
  vHasProperty := vHasProperty no_ops; vGetPropertyNames := StaticBoundObject_GetPropertyNames;
  vDisplayString := vDisplayString no_ops; vEquals := vEquals no_ops; vGetType := vGetType no_ops;
  vCall := vCall no_ops; vAppend := StaticBoundList_Append; vSize := StaticBoundList_Size;
  vAt := StaticBoundList_At; vSetAt := StaticBoundList_SetAt; vRemove := vRemove no_ops;
  vRun := vRun no_ops; vJS := vJS no_ops; vPy := vPy no_ops;
  vRb := vRb no_ops; vPhp := vPhp no_ops
|}.

#[export] Instance static_ops_dispatch fuel : StaticDispatch (static_ops fuel).
Proof. by constructor. Qed.

(** A heap with a list object (address 3, its names in 2) of three values. *)
Definition demo_list : M (list loc) :=
  l ← new_StaticBoundList (lit "StaticBoundList");
  st_map (fun z => v ← NewInt z; StaticBoundList_Append l v;; mret v) [10; 20; 30]%Z.
Definition demo_list_heap : heap := (demo_list initial_heap).2.

Lemma demo_list_repr : list_repr demo_list_heap 3%N 2%N [4; 5; 6]%N.
Proof.
  split; [vm_compute; reflexivity..|].
  intros i v Hi. do 3 (destruct i as [|i]; [injection Hi as <-; vm_compute; reflexivity|]). done.
Qed.

Lemma static_bound_list_is_sequence_witness :
  exists h', StaticBoundList_Remove (static_ops 10) 3%N 1%Z demo_list_heap = (Ret true, h') /\
             list_repr h' 3%N 2%N [4; 6]%N.
Proof.
  destruct (static_bound_list_is_sequence (static_ops 10) demo_list_heap 3%N 2%N [4; 5; 6]%N 4%N 1
              demo_list_repr) as (_ & _ & _ & _ & Hremove & _).
  - simpl. lia.
  - apply Hremove. simpl. lia.
Defined.

Lemma static_bound_object_is_map_witness :
  is_Some (objs demo_list_heap !! 2%N) /\
  StaticBoundObject_UnSet 2%N (lit "1") demo_list_heap
  = (Ret tt, with_properties 2%N (delete (lit "1") (props demo_list_heap 2%N)) demo_list_heap).
Proof.
  assert (is_Some (objs demo_list_heap !! 2%N)) as H.
  { apply (class_of_is_Some _ _ StaticBoundObject). vm_compute. reflexivity. }
  split; [exact H|]. apply (static_bound_object_is_map demo_list_heap 2%N (lit "1") 0%N H).
Defined.

(** [Remove] moves the elements down but keeps the name of the last one: an
    element past the end is still there for [At], and growing the list with
    [SetAt] brings it back instead of a hole. *)
Lemma list_remove_keeps_last_name :
  ((StaticBoundList_Remove (static_ops 10) 3%N 0%Z ≫= fun _ =>
    StaticBoundList_Size 3%N ≫= fun n => StaticBoundList_At 3%N n) demo_list_heap).1 = Ret 6%N.
Proof. vm_compute. reflexivity. Qed.

(** The empty name counts as the index 0. *)
Lemma list_set_empty_name : index_of_name [] = Some 0%Z.
Proof. reflexivity. Qed.
