(* ===== verification/Namespace.v ===== *)
(** * Namespace: dotted paths through objects (KObject::SetNS and GetNS)

    What [SetNS] stores under a path is what [GetNS] finds there, on trees of
    [StaticBoundObject]s whose missing parts [SetNS] creates. *)

From S2P Require Import Prelude CppString Double FileUtils Heap Virtual KObject StaticBound.
From S2P Require Import StaticLaws.
From stdpp Require Import options.

(** ** Paths in the heap *)

(** The property [t] of the object [s] is an object value, [o]. *)
Definition edge (h : heap) (s : loc) (t : str) (o : loc) : Prop :=
  class_of h s = Some StaticBoundObject /\
  exists l v, props h s !! t = Some l /\ vals h !! l = Some v /\
              type v = OBJECT /\ objectValue v = Some o.

(** The property [t] of [s] is missing or Undefined. *)
Definition no_edge (h : heap) (s : loc) (t : str) : Prop :=
  props h s !! t = None \/
  exists l v, props h s !! t = Some l /\ vals h !! l = Some v /\ type v = UNDEFINED.

(** [reach h s ts path o]: the names [ts] lead from [s] to [o] through [path]. *)
Inductive reach (h : heap) : loc -> list str -> list loc -> loc -> Prop :=
  | reach_nil s : reach h s [] [] s
  | reach_cons s t o ts path s' :
      edge h s t o -> reach h o ts path s' -> reach h s (t :: ts) (s :: path) s'.

(** [ready h vis s ts]: what exists of the path [ts] from [s] consists of
    distinct [StaticBoundObject]s, none of them in [vis]; the rest is missing. *)
Inductive ready (h : heap) : list loc -> loc -> list str -> Prop :=
  | ready_nil vis s : class_of h s = Some StaticBoundObject -> s ∉ vis -> ready h vis s []
  | ready_missing vis s t ts :
      class_of h s = Some StaticBoundObject -> s ∉ vis -> no_edge h s t -> ready h vis s (t :: ts)
  | ready_edge vis s t o ts :
      edge h s t o -> s ∉ vis -> ready h (s :: vis) o ts -> ready h vis s (t :: ts).

(** The names [ts] lead from [s] to an object whose property [t] has a value of
    the type [ty], which does not lead on. *)
Definition leads_to (h : heap) (s : loc) (ts : list str) (t : str) (ty : vtype) : Prop :=
  exists path o l v, reach h s ts path o /\ class_of h o = Some StaticBoundObject /\
    props h o !! t = Some l /\ vals h !! l = Some v /\ type v = ty.

(** [h'] has the values of [h], and its objects outside of [touched]. *)
Definition extends (touched : list loc) (h h' : heap) : Prop :=
  (forall l v, vals h !! l = Some v -> vals h' !! l = Some v) /\
  (forall o, is_Some (objs h !! o) -> o ∉ touched -> objs h' !! o = objs h !! o).

Lemma extends_trans vs1 vs2 vs h1 h2 h3 :
  extends vs1 h1 h2 -> extends vs2 h2 h3 -> vs1 ⊆ vs -> vs2 ⊆ vs -> extends vs h1 h3.
Proof.
  intros [Hv1 Ho1] [Hv2 Ho2] Hs1 Hs2. split; [naive_solver|].
  intros o Ho Hn. assert (objs h2 !! o = objs h1 !! o) as E by (apply Ho1; [done|set_solver]).
  rewrite Ho2; [done|by rewrite E|set_solver].
Qed.

Lemma edge_extends vs h h' s t o :
  edge h s t o -> extends vs h h' -> s ∉ vs -> edge h' s t o.
Proof.
  intros (Hc & l & v & Hp & Hv & Ht & Hov) [Hev Heo] Hs. pose proof (Heo s ltac:(eauto) Hs) as E.
  unfold edge, class_of, props in *. rewrite E. split; [done|]. exists l, v. auto.
Qed.

Lemma reach_extends vs h h' s ts path s' :
  reach h s ts path s' -> extends vs h h' -> (forall o, o ∈ path -> o ∉ vs) ->
  reach h' s ts path s'.
Proof.
  induction 1 as [s|s t o ts path s' He Hr IH]; intros Hx Hd; [constructor|].
  econstructor; [eapply edge_extends; [exact He|exact Hx|set_solver]|]. apply IH; set_solver.
Qed.

Lemma fresh_vals h v l w :
  fresh_ok h -> vals h !! l = Some w -> vals (with_fresh v h) !! l = Some w.
Proof.
  intros Hf Hl. simpl. rewrite lookup_insert_ne; [done|]. intros <-.
  destruct (Hf (next h) ltac:(lia)). congruence.
Qed.

Lemma with_fresh_extends h v vs : fresh_ok h -> extends vs h (with_fresh v h).
Proof. intros Hf. split; [intros l w; by apply fresh_vals|done]. Qed.

Lemma with_fresh_fresh_ok h v : fresh_ok h -> fresh_ok (with_fresh v h).
Proof.
  intros Hf l Hl. simpl in *. destruct (Hf l ltac:(lia)). split; [done|].
  by rewrite lookup_insert_ne by lia.
Qed.

Lemma no_edge_fresh h v s t : fresh_ok h -> no_edge h s t -> no_edge (with_fresh v h) s t.
Proof.
  intros Hf [Hn|(l & w & Hp & Hw & Ht)]; [by left|]. right. exists l, w.
  split_and!; [done|by apply fresh_vals|done].
Qed.

Lemma ready_fresh h v vis s ts : fresh_ok h -> ready h vis s ts -> ready (with_fresh v h) vis s ts.
Proof.
  intros Hf. induction 1 as [| |vis s t o ts He Hs Hr IH].
  - by constructor.
  - apply ready_missing; [done|done|by apply no_edge_fresh].
  - eapply ready_edge; [|done|exact IH].
    eapply edge_extends; [exact He|by apply (with_fresh_extends _ _ [])|set_solver].
Qed.

Lemma fresh_class h o c : fresh_ok h -> (next h <= o)%N -> class_of h o = Some c -> False.
Proof. unfold class_of. intros Hf Ho. destruct (Hf o Ho) as [-> _]. done. Qed.

Lemma class_of_with_object_ne ty c h o :
  next h <> o -> class_of (with_object ty c h) o = class_of h o.
Proof. intros Ho. unfold class_of. simpl. by rewrite lookup_insert_ne. Qed.

(** The heap after a missing scope was created below [s]: the address of the
    fresh Undefined, then the new object, then the value that holds it. *)
Definition scope_value (o : loc) : value := set_object OBJECT (Some o) (reset new_value).
Definition created (s : loc) (t : str) (h : heap) : heap :=
  let h1 := with_fresh new_value h in
  let o := next h1 in
  let h2 := with_object (lit "StaticBoundObject") StaticBoundObject h1 in
  let h3 := with_fresh (scope_value o) h2 in
  with_properties s (<[t := next h2]> (props h3 s)) h3.

(** What [created] does to the rest of the heap. *)
Lemma created_fresh_ok h s t :
  fresh_ok h -> class_of h s = Some StaticBoundObject -> fresh_ok (created s t h).
Proof.
  intros Hf Hc l Hl. unfold created, with_properties in *. simpl in *.
  destruct (Hf l ltac:(lia)) as [Ho Hv]. split.
  - destruct (decide (s = l)) as [->|]; [exfalso; eapply fresh_class; [exact Hf| |exact Hc]; lia|].
    rewrite lookup_alter_ne, lookup_insert_ne by (done || lia). done.
  - by rewrite !lookup_insert_ne by lia.
Qed.

Lemma created_spec h s t :
  fresh_ok h -> class_of h s = Some StaticBoundObject ->
  let o := N.succ (next h) in
  edge (created s t h) s t o /\ class_of (created s t h) o = Some StaticBoundObject /\
  props (created s t h) o = ∅ /\ objs h !! o = None /\ extends [s] h (created s t h).
Proof.
  intros Hf Hc o. destruct (Hf o ltac:(lia)) as [Hno _].
  assert (o <> s) as Hos by (intros ->; unfold class_of in Hc; by rewrite Hno in Hc).
  unfold created. set (h1 := with_fresh new_value h).
  set (h2 := with_object _ _ _). set (h3 := with_fresh _ h2).
  assert (class_of h3 s = Some StaticBoundObject) as Hc3.
  { unfold class_of in *. simpl. by rewrite lookup_insert_ne. }
  split_and!; try done.
  - split; [by rewrite class_of_with_properties|].
    exists (next h2), (scope_value o). split_and!; try done.
    + rewrite props_with_properties by eauto. rewrite decide_True by done. apply lookup_insert_eq.
    + simpl. apply lookup_insert_eq.
  - rewrite class_of_with_properties. unfold class_of. simpl. by rewrite lookup_insert_eq.
  - rewrite props_with_properties by eauto. rewrite decide_False by done.
    unfold props. simpl. by rewrite lookup_insert_eq.
  - split.
    + intros l v Hv. simpl. rewrite !lookup_insert_ne; [done|..]; intros <-;
        (edestruct Hf as [_ E]; [|rewrite E in Hv; discriminate]; simpl; lia).
    + intros o' Ho' Hn. unfold with_properties. simpl.
      rewrite lookup_alter_ne by set_solver. rewrite lookup_insert_ne; [done|].
      intros E. change (o = o') in E. subst o'. rewrite Hno in Ho'. by destruct Ho'.
Qed.

(** Nothing but fresh values is new. *)
Definition same_objects (h h' : heap) : Prop :=
  objs h' = objs h /\ fresh_ok h' /\ forall l v, vals h !! l = Some v -> vals h' !! l = Some v.
Lemma same_objects_fresh h v : fresh_ok h -> same_objects h (with_fresh v h).
Proof. intros Hf. split_and!; [done|by apply with_fresh_fresh_ok|intros l w; by apply fresh_vals]. Qed.
Lemma same_objects_trans h1 h2 h3 : same_objects h1 h2 -> same_objects h2 h3 -> same_objects h1 h3.
Proof. intros (E1 & _ & V1) (E2 & F2 & V2). split_and!; [congruence|done|auto]. Qed.
Lemma same_objects_reach h h' s ts path s' : same_objects h h' -> reach h s ts path s' -> reach h' s ts path s'.
Proof.
  intros (E & _ & Hv) Hr. eapply (reach_extends []); [exact Hr| |set_solver]. split; [done|]. intros o _ _. by rewrite E.
Qed.

(** ** SetNS *)
Section Namespaces.
Context (V : VOps) `{!StaticDispatch V}.
#[local] Set Default Proof Using "Type*".

Lemma vGet_run h s t :
  class_of h s = Some StaticBoundObject ->
  vGet V s t h = (Ret (default (next h) (props h s !! t)), with_fresh new_value h).
Proof. intros Hc. rewrite sd_Get by done. apply Get_run. eauto. Qed.

Lemma with_properties_fresh_ok o m h : fresh_ok h -> fresh_ok (with_properties o m h).
Proof.
  intros Hf l Hl. destruct (Hf l Hl) as [Ho Hv]. split; [|done]. unfold with_properties. simpl.
  by rewrite lookup_alter_None.
Qed.

(** An existing scope is entered. *)
Lemma enter_edge name h s t o :
  no_nul t -> fresh_ok h -> edge h s t o ->
  enter_scope V name s t h = (Ret o, with_fresh new_value h).
Proof.
  intros Ht Hf (Hc & l & v & Hp & Hv & Hty & Hov). unfold enter_scope. rewrite (c_str_id t Ht).
  step (vGet_run _ _ t Hc). rewrite Hp. cbn [default from_option].
  step (getv_run _ _ _ (fresh_vals _ new_value _ _ Hf Hv)).
  unfold IsUndefined, IsObject. rewrite Hty. simpl. unfold ToObject. by rewrite Hov.
Qed.

Lemma enter_missing_run name h s t :
  no_nul t -> fresh_ok h -> class_of h s = Some StaticBoundObject -> no_edge h s t ->
  enter_scope V name s t h = (Ret (N.succ (next h)), created s t h).
Proof.
  intros Ht Hf Hc Hno. unfold enter_scope. rewrite (c_str_id t Ht).
  step (vGet_run _ _ t Hc). erewrite (st_bind_Ret (getv _)).
  2:{ instantiate (2 := match props h s !! t with
        | Some l => default new_value (vals h !! l) | None => new_value end).
      apply getv_run. destruct Hno as [->|(l & v & -> & Hv & _)]; simpl.
      - by rewrite lookup_insert_eq.
      - rewrite Hv. simpl. by apply (fresh_vals _ new_value _ _ Hf Hv). }
  cbv beta.
  assert (IsUndefined (match props h s !! t with
            | Some l => default new_value (vals h !! l) | None => new_value end) = true) as ->.
  { destruct Hno as [->|(l & v & -> & Hv & Hty)]; [done|]. rewrite Hv. unfold IsUndefined. simpl.
    by rewrite Hty. }
  step (new_object_run (lit "StaticBoundObject") StaticBoundObject _).
  erewrite (st_bind_Ret (NewObject _)) by apply NewObject_run.
  assert (next h <> s) as Hn1 by (intros <-; by apply (fresh_class h (next h) _ Hf (N.le_refl _)) in Hc).
  assert (N.succ (next h) <> s) as Hn2.
  { intros <-. apply (fresh_class h (N.succ (next h)) _ Hf) in Hc; [done|lia]. }
  erewrite st_bind_Ret.
  2:{ rewrite sd_Set; [apply Set_run|]; rewrite ?class_of_with_fresh.
      - apply class_of_is_Some with StaticBoundObject.
        rewrite class_of_with_fresh. by rewrite class_of_with_object_ne.
      - by rewrite class_of_with_object_ne. }
  done.
Qed.

(** Existing scopes are only walked through. *)
Lemma walk_reach name h s ts path s' :
  Forall no_nul ts -> fresh_ok h -> reach h s ts path s' ->
  exists h', st_fold (enter_scope V name) s ts h = (Ret s', h') /\ same_objects h h'.
Proof.
  intros Hn Hf Hr. revert h Hf Hn Hr. revert s path. induction ts as [|t ts IH]; intros s path h Hf Hn Hr.
  { inversion Hr; subst. by exists h. }
  apply Forall_cons in Hn as [Ht Hn]. inversion Hr as [|? ? o ? path' ? He Hr']; subst.
  pose proof (same_objects_fresh h new_value Hf) as S1.
  destruct (IH o path' (with_fresh new_value h)) as (h' & E & S2); [apply S1|done|by eapply same_objects_reach|].
  exists h'. split; [|by eapply same_objects_trans]. cbn [st_fold]. by step (enter_edge name h s t o Ht Hf He).
Qed.

Lemma GetType_barred h l v :
  vals h !! l = Some v -> type v ∉ [UNDEFINED; OBJECT; METHOD; LIST] ->
  exists name, Value_GetType V l h = (Ret name, h).
Proof using Type.
  intros Hv Hty. unfold Value_GetType. rewrite (st_bind_Ret _ _ _ _ _ (getv_run _ _ _ Hv)).
  unfold IsInt, IsDouble, IsBool, IsString, IsList, IsObject, IsMethod, IsVoidPtr, IsNull.
  destruct (is_integral (numberValue v)), (type v); first [by eexists|exfalso; clear -Hty; set_solver].
Qed.

(** A part that is no object, method or list ends the walk. *)
Lemma enter_barred name h s t l v :
  no_nul t -> fresh_ok h -> class_of h s = Some StaticBoundObject ->
  props h s !! t = Some l -> vals h !! l = Some v -> type v ∉ [UNDEFINED; OBJECT; METHOD; LIST] ->
  exists x h' w, enter_scope V name s t h = (Throw (SharedValueExn x), h') /\ objs h' = objs h /\
    vals h' !! x = Some w /\ type w = STRING /\ stringValue w = Some (lit "Invalid namespace on setNS").
Proof.
  intros Ht Hf Hc Hp Hv Hty. unfold enter_scope. rewrite (c_str_id t Ht).
  step (vGet_run _ _ t Hc). rewrite Hp. cbn [default from_option]. unfold id.
  pose proof (fresh_vals _ new_value _ _ Hf Hv) as Hv'. set (h1 := with_fresh new_value h) in *.
  step (getv_run _ _ _ Hv'). unfold IsUndefined, IsObject, IsMethod, IsList.
  rewrite !bool_decide_eq_false_2 by set_solver. cbn [andb negb].
  destruct (GetType_barred h1 l v Hv' Hty) as [ty E]. step E.
  erewrite (st_bind_Ret (log_line _ _)) by reflexivity. unfold NewString, SetString.
  step (new_with_run (fun v => set_string (c_str (lit "Invalid namespace on setNS")) (reset v)) (with_output
    (cons (lit "stderr", lit "invalid namespace for " ++ name ++ lit ", token: " ++ t ++ lit " was " ++ ty)) h1)).
  do 3 eexists. split_and!; [reflexivity|done|apply lookup_insert_eq|done|done].
Qed.

(** The scopes that [SetNS] goes through. *)
Lemma walk_scopes name ts : forall h vis s,
  Forall no_nul ts -> fresh_ok h -> Forall (fun o => is_Some (objs h !! o)) vis -> ready h vis s ts ->
  exists h' s' path, st_fold (enter_scope V name) s ts h = (Ret s', h') /\ fresh_ok h' /\
    reach h' s ts path s' /\ class_of h' s' = Some StaticBoundObject /\
    (s' ∉ path) /\ (s' ∉ vis) /\ (forall o, o ∈ path -> o ∉ vis) /\ extends path h h'.
Proof.
  induction ts as [|t ts IH]; intros h vis s Hnul Hf Hvis Hr.
  { exists h, s, []. inversion Hr; subst.
    split_and!; first [done|by apply reach_nil|set_solver]. }
  apply Forall_cons in Hnul as [Ht Hnul]. cbn [st_fold].
  assert (class_of h s = Some StaticBoundObject /\ s ∉ vis) as [Hc Hs].
  { inversion Hr; subst; [done|]. match goal with H : edge _ _ _ _ |- _ => by destruct H end. }
  assert (exists h1 o, enter_scope V name s t h = (Ret o, h1) /\ fresh_ok h1 /\ edge h1 s t o /\
            extends [s] h h1 /\ ready h1 (s :: vis) o ts) as (h1 & o & Hrun & Hf1 & He & Hx & Hr1).
  { inversion Hr as [|? ? ? ? ? ? Hno|? ? ? o ? He ? Hr']; subst.
    - pose proof (created_spec h s t Hf Hc) as Hsp. cbv zeta in Hsp. destruct Hsp as (He & Hco & Hpo & Hno' & Hx).
      do 2 eexists. split_and!; [by apply enter_missing_run|by apply created_fresh_ok|done|done|].
      assert (N.succ (next h) ∉ s :: vis) as Hn.
      { rewrite not_elem_of_cons. split.
        - intros E. rewrite E in Hno'. unfold class_of in Hc. by rewrite Hno' in Hc.
        - intros Hin. rewrite Forall_forall in Hvis. destruct (Hvis _ Hin). congruence. }
      destruct ts as [|t' ts]; [by constructor|]. apply ready_missing; [done|done|].
      left. by rewrite Hpo.
    - do 2 eexists. split_and!; [by apply enter_edge|by apply with_fresh_fresh_ok| | |].
      + eapply edge_extends; [exact He|by apply (with_fresh_extends _ _ [])|set_solver].
      + by apply with_fresh_extends.
      + revert Hr'. apply ready_fresh; done. }
  destruct (IH h1 (s :: vis) o) as (h' & s' & path & Hrun' & Hf' & Hreach & Hc' & Hn1 & Hn2 & Hd & Hx').
  { done. } { done. }
  { constructor; [destruct He as [He _]; eauto|]. rewrite Forall_forall in *. intros o' Ho'.
    destruct Hx as [_ Hx]. rewrite Hx; [by apply Hvis|by apply Hvis|set_solver]. }
  { done. }
  exists h', s', (s :: path). split_and!; try done.
  - by rewrite (st_bind_Ret _ _ _ _ _ Hrun).
  - econstructor; [|exact Hreach]. eapply edge_extends; [exact He|exact Hx'|].
    intros Hin. apply (Hd _ Hin). constructor.
  - set_solver.
  - set_solver.
  - intros o' [->|Ho']%elem_of_cons; [done|]. specialize (Hd _ Ho'). set_solver.
  - eapply extends_trans; [exact Hx|exact Hx'|set_solver|set_solver].
Qed.
End Namespaces.

(** ** Path texts *)

(** A name between the dots of a path. *)
Definition token_ok (t : str) : Prop :=
  t <> [] /\ no_nul t /\ Forall (fun c => in_set (lit ".") c = false) t.
#[export] Instance token_ok_dec t : Decision (token_ok t).
Proof. unfold token_ok. apply _. Defined.

Definition dotted (ts : list str) : str := intercalate (lit ".") ts.

Lemma dotted_cons t ts : ts <> [] -> dotted (t :: ts) = t ++ "."%char :: dotted ts.
Proof. by destruct ts. Qed.

Lemma words_dotted ts : Forall token_ok ts -> words (lit ".") (dotted ts) = ts.
Proof.
  unfold words. induction 1 as [|t ts (Hne & _ & Hd) Hts IH]; [done|].
  destruct (decide (ts = [])) as [->|Hn].
  - unfold dotted. simpl. rewrite <- (app_nil_r t) at 1. rewrite words_from_run by done. by destruct t.
  - rewrite dotted_cons by done. rewrite words_from_run by done. cbn [app words_from].
    assert (in_set (lit ".") "."%char = true) as -> by done. rewrite IH. by destruct t.
Qed.

Lemma span_token t r :
  Forall (fun c => in_set (lit ".") c = false) t ->
  span (not_in_set (lit ".")) (t ++ "."%char :: r) = (t, "."%char :: r).
Proof.
  induction 1 as [|c t Hc Ht IH]; [done|]. cbn [app span]. unfold not_in_set at 1.
  rewrite Hc. cbn [negb]. by rewrite IH.
Qed.

Lemma next_dot pre t ts :
  token_ok t ->
  find_first_of (pre ++ dotted (t :: ts)) (lit ".") (Some (length pre))
  = match ts with [] => None | _ => Some (length pre + length t) end.
Proof.
  intros (_ & _ & Hd). rewrite find_first_of_span, drop_app_length.
  destruct ts as [|t' ts].
  - unfold dotted. cbn [intercalate]. rewrite span_all; [done|].
    eapply Forall_impl; [exact Hd|]. intros c Hc. unfold not_in_set. cbv beta in Hc. by rewrite Hc.
  - rewrite dotted_cons by done. by rewrite span_token.
Qed.

Section RoundTrip.
Context (V : VOps) `{!StaticDispatch V}.
#[local] Set Default Proof Using "Type*".

(** [GetNS] follows existing scopes. *)
Lemma get_along_prefix rest ts : forall fuel pre h s path s',
  rest <> [] -> Forall token_ok ts -> Forall token_ok rest -> fresh_ok h -> reach h s ts path s' ->
  length ts < fuel ->
  exists pre' h',
    get_ns_loop V fuel (pre ++ dotted (ts ++ rest)) (length pre)
      (find_first_of (pre ++ dotted (ts ++ rest)) (lit ".") (Some (length pre))) s h
    = get_ns_loop V (fuel - length ts) (pre' ++ dotted rest) (length pre')
        (find_first_of (pre' ++ dotted rest) (lit ".") (Some (length pre'))) s' h' /\ same_objects h h'.
Proof.
  induction ts as [|t ts IH]; intros fuel pre h s path s' Hne Hts Hrest Hf Hr Hfu.
  { inversion Hr; subst. exists pre, h. by rewrite Nat.sub_0_r. }
  destruct fuel as [|fuel]; [simpl in Hfu; lia|].
  apply Forall_cons in Hts as [Ht Hts]. inversion Hr as [|? ? o ? path' ? He Hr']; subst.
  rewrite <- app_comm_cons, next_dot by done. rewrite dotted_cons by (by destruct ts, rest).
  assert (match ts ++ rest with [] => None | _ => Some (length pre + length t) end
          = Some (length pre + length t)) as -> by (by destruct ts, rest).
  cbn [get_ns_loop]. unfold substr. rewrite (proj2 (Nat.leb_le _ _)) by (rewrite length_app; lia).
  rewrite drop_app_length. replace (length pre + length t - length pre) with (length t) by lia.
  rewrite take_app_length. erewrite st_bind_Ret by done. cbv beta.
  rewrite c_str_id by apply Ht. destruct He as (Hcs & l & w & Hl & Hw & Hty & Ho).
  step (vGet_run V _ _ t Hcs). rewrite Hl. cbn [default from_option].
  step (getv_run _ _ _ (fresh_vals _ new_value _ _ Hf Hw)).
  unfold IsObject. rewrite Hty. cbn [bool_decide decide_rel]. rewrite bool_decide_true by done.
  unfold ToObject. rewrite Ho. erewrite st_bind_Ret by done. cbv beta zeta.
  replace (pre ++ t ++ "."%char :: dotted (ts ++ rest))
    with ((pre ++ t ++ ["."%char]) ++ dotted (ts ++ rest)) by (by rewrite <- !app_assoc).
  replace (length pre + length t + 1) with (length (pre ++ t ++ ["."%char]))
    by (rewrite !length_app; simpl; lia).
  pose proof (same_objects_fresh h new_value Hf) as S1. simpl in Hfu.
  destruct (IH fuel (pre ++ t ++ ["."%char]) (with_fresh new_value h) o path' s') as (pre' & h' & E & S2);
    [done..|apply S1|by eapply same_objects_reach|lia|].
  exists pre', h'. split; [exact E|by eapply same_objects_trans].
Qed.

(** The loop is given more fuel than the path has parts. *)
Lemma dotted_length ts : Forall token_ok ts -> length ts <= S (length (dotted ts)).
Proof using Type.
  induction 1 as [|t ts (Hne & _) Hts IH]; [simpl; lia|].
  destruct ts as [|t' ts]; [simpl; lia|]. rewrite dotted_cons by done. rewrite length_app.
  destruct t; [done|]. simpl in *. lia.
Qed.
Lemma GetNS_prefix h s ts rest path s' :
  rest <> [] -> Forall token_ok ts -> Forall token_ok rest -> fresh_ok h -> reach h s ts path s' ->
  exists fuel pre h', GetNS V s (dotted (ts ++ rest)) h =
    get_ns_loop V (S fuel) (pre ++ dotted rest) (length pre)
      (match rest with [_] => None | t :: _ => Some (length pre + length t) | [] => None end) s' h' /\
    same_objects h h'.
Proof.
  intros Hne Hts Hrest Hf Hr.
  pose proof (dotted_length (ts ++ rest) ltac:(by apply Forall_app)) as Hlen. rewrite length_app in Hlen.
  destruct (get_along_prefix rest ts (S (S (length (dotted (ts ++ rest))))) [] h s path s')
    as (pre & h' & E & HS); try done; [lia|].
  exists (S (length (dotted (ts ++ rest))) - length ts), pre, h'. split; [|done].
  unfold GetNS. change (length (@nil ascii)) with 0 in E. cbn [app] in E. rewrite E.
  rewrite Nat.sub_succ_l by lia. f_equal. destruct rest as [|t rest]; [done|].
  rewrite next_dot by (by apply Forall_cons in Hrest as [??]). by destruct rest.
Qed.

(** The last part is a property of the object that is reached. *)
Lemma GetNS_last h s ts p path s' v :
  Forall token_ok ts -> token_ok p -> fresh_ok h -> reach h s ts path s' ->
  class_of h s' = Some StaticBoundObject -> props h s' !! p = Some v ->
  exists h', GetNS V s (dotted (ts ++ [p])) h = (Ret v, h').
Proof.
  intros Hts Hp Hf Hr Hc Hv.
  destruct (GetNS_prefix h s ts [p] path s') as (fuel & pre & h' & E & Eo & _); [done..|by apply Forall_singleton|done|done|].
  rewrite E. cbn [get_ns_loop]. unfold substr. rewrite (proj2 (Nat.leb_le _ _)) by (rewrite length_app; lia).
  rewrite drop_app_length. eexists. erewrite st_bind_Ret by done. unfold dotted. cbn [intercalate].
  rewrite c_str_id by apply Hp. rewrite (vGet_run V) by (unfold class_of in *; by rewrite Eo).
  unfold props in *. by rewrite Eo, Hv.
Qed.

(** What is no object value ends the way of [GetNS]. *)
Lemma GetNS_stopped h s ts t rest ty :
  rest <> [] -> Forall token_ok ts -> Forall token_ok (t :: rest) -> fresh_ok h ->
  leads_to h s ts t ty -> ty <> OBJECT ->
  exists h', GetNS V s (dotted (ts ++ t :: rest)) h = (Ret Undefined, h').
Proof.
  intros Hne Hts Hrest Hf (path & o & l & v & Hr & Hc & Hp & Hv & Hty) Hno.
  destruct (GetNS_prefix h s ts (t :: rest) path o) as (fuel & pre & h' & E & Eo & Hf' & Hk); [done..|].
  rewrite E. apply Forall_cons in Hrest as [Ht _].
  assert (match rest with [] => None | _ => Some (length pre + length t) end = Some (length pre + length t))
    as -> by (by destruct rest).
  cbn [get_ns_loop]. unfold substr. rewrite (proj2 (Nat.leb_le _ _)) by (rewrite length_app; lia).
  rewrite drop_app_length, dotted_cons by done.
  replace (length pre + length t - length pre) with (length t) by lia.
  rewrite take_app_length. eexists. erewrite st_bind_Ret by done. cbv beta. rewrite c_str_id by apply Ht.
  step (vGet_run V h' o t ltac:(unfold class_of in *; by rewrite Eo)).
  assert (props h' o !! t = Some l) as -> by (unfold props in *; by rewrite Eo). cbn [default from_option]. unfold id.
  step (getv_run _ _ _ (fresh_vals _ new_value _ _ Hf' (Hk _ _ Hv))).
  unfold IsObject. by rewrite bool_decide_eq_false_2 by congruence.
Qed.

(** C2: [GetNS] finds what [SetNS] stored. From an object [this], for a path
    of proper names (not empty, no dots) whose existing part is made of
    distinct [StaticBoundObject]s: [SetNS] succeeds, creating the missing
    objects on the way (against its comment in kobject.h, which says that it
    does nothing), and [GetNS] of the same path then returns the very value
    that was stored. Where another part than the last is a value of another
    type: [SetNS] throws its text and changes no object when it is no method or
    list either, and [GetNS] always answers undefined, though [SetNS] would walk
    into a method or list. *)
Theorem set_ns_get_ns h this ts p v :
  fresh_ok h -> Forall token_ok ts -> token_ok p ->
  (ready h [] this ts ->
    exists h1 h2, SetNS V this (dotted (ts ++ [p])) v h = (Ret tt, h1) /\
                  GetNS V this (dotted (ts ++ [p])) h1 = (Ret v, h2)) /\
  (forall ts1 t ts2 ty, ts = ts1 ++ t :: ts2 -> leads_to h this ts1 t ty ->
    (ty ∉ [UNDEFINED; OBJECT; METHOD; LIST] ->
      exists x h1 w, SetNS V this (dotted (ts ++ [p])) v h = (Throw (SharedValueExn x), h1) /\
        objs h1 = objs h /\ vals h1 !! x = Some w /\ type w = STRING /\
        stringValue w = Some (lit "Invalid namespace on setNS")) /\
    (ty <> OBJECT -> exists h1, GetNS V this (dotted (ts ++ [p])) h = (Ret Undefined, h1))).
Proof.
  intros Hf Hts Hp. assert (Forall no_nul ts) as Hnul by (eapply Forall_impl; [exact Hts|]; by intros t (_ & ? & _)).
  assert (SetNS V this (dotted (ts ++ [p])) v h =
    (scope ← st_fold (enter_scope V (dotted (ts ++ [p]))) this ts; vSet V scope p v) h) as Eset.
  { unfold SetNS. rewrite Tokenize_words, words_dotted.
    2:{ apply Forall_app. split; [done|]. by apply Forall_cons. }
    erewrite st_bind_Ret by done. cbv beta. rewrite last_snoc, removelast_last. by rewrite c_str_id by apply Hp. }
  rewrite Eset. split.
  - intros Hr. destruct (walk_scopes V (dotted (ts ++ [p])) ts h [] this)
      as (h' & s' & path & Hrun & Hf' & Hreach & Hc & Hn & _ & _ & _); try done.
    set (h1 := with_properties s' (<[p := v]> (props h' s')) h').
    destruct (GetNS_last h1 this ts p path s' v) as (h2 & Hget); try done.
    + by apply with_properties_fresh_ok.
    + eapply (reach_extends [s']); [exact Hreach| |].
      * split; [done|]. intros o Ho Hos. unfold h1, with_properties. simpl.
        apply lookup_alter_ne. intros ->. apply Hos. constructor.
      * intros o Ho ->%list_elem_of_singleton. done.
    + unfold h1. by rewrite class_of_with_properties.
    + unfold h1. rewrite props_with_properties by eauto. rewrite decide_True by done. apply lookup_insert_eq.
    + exists h1, h2. split; [|exact Hget]. step Hrun. rewrite sd_Set by done. apply Set_run. eauto.
  - intros ts1 t ts2 ty -> Hl. split.
    + destruct Hl as (path & o & l & w & Hr & Hc & Hpr & Hv & <-). intros Hty.
      apply Forall_app in Hnul as [Hn1 [Ht _]%Forall_cons].
      rewrite <- app_assoc in *. set (name := dotted _).
      destruct (walk_reach V name h this ts1 path o Hn1 Hf Hr) as (h1 & E1 & Eo & Hf1 & Hk).
      destruct (enter_barred V name h1 o t l w Ht Hf1) as (x & h2 & w' & E2 & Eo2 & Hx);
        [unfold class_of in *; by rewrite Eo|unfold props in *; by rewrite Eo|by apply Hk|done|].
      exists x, h2, w'. split; [|split; [congruence|exact Hx]].
      apply bind_Throw. rewrite st_fold_app. step E1. by apply bind_Throw.
    + intros Hty. apply Forall_app in Hts as [Hts1 Hts2]. rewrite <- app_assoc. cbn [app].
      eapply GetNS_stopped; [by destruct ts2|done| |done|done|done].
      apply Forall_cons in Hts2 as [??]. apply Forall_cons. split; [done|]. apply Forall_app. split; [done|by apply Forall_singleton].
Qed.
End RoundTrip.

(** A heap with one empty object, at address 2. *)
Definition demo_heap : heap := (default_StaticBoundObject initial_heap).2.

Lemma demo_heap_fresh : fresh_ok demo_heap.
Proof.
  intros l Hl. change (next demo_heap) with 3%N in Hl. split.
  - apply lookup_insert_None. split; [done|]. intros H. change (2%N = l) in H. lia.
  - apply lookup_insert_None. split; [apply lookup_singleton_None|]; unfold Undefined, Null; lia.
Qed.

Lemma set_ns_get_ns_witness :
  exists h1 h2,
    SetNS (static_ops 1) 2%N (lit "Titanium.App.name") Null demo_heap = (Ret tt, h1) /\
    GetNS (static_ops 1) 2%N (lit "Titanium.App.name") h1 = (Ret Null, h2).
Proof.
  destruct (set_ns_get_ns (static_ops 1) demo_heap 2%N [lit "Titanium"; lit "App"] (lit "name") Null) as [H _].
  - exact demo_heap_fresh.
  - apply (bool_decide_unpack _). vm_compute. reflexivity.
  - apply (bool_decide_unpack _). vm_compute. reflexivity.
  - apply H. apply ready_missing; [reflexivity|apply not_elem_of_nil|left; reflexivity].
Defined.

(** The empty path is undefined behaviour: [tokens[tokens.size() - 1]]. *)
Lemma set_ns_empty_path : (SetNS (static_ops 1) 2%N [] Null demo_heap).1 = Undef.
Proof. reflexivity. Qed.
