(* ===== verification/Accessor.v ===== *)
(** * Accessor: objects, methods and lists whose properties are backed by
    getter and setter methods (accessor_bound_object.cpp,
    accessor_bound_method.cpp, accessor_bound_list.cpp of api/binding) *)

From S2P Require Import Prelude CppString Double FileUtils Heap Virtual KObject StaticBound.
From S2P Require Import StaticLaws.
From stdpp Require Import options.

Definition lower (s : str) : str := map tolower s.

(** [AccessorBoundList::Capitalize] *)
Definition Capitalize (word : str) : str :=
  match c_str word with
  | [] => []
  | c :: s => toupper c :: s
  end.

(** The loop of [FindMethod]: the first method among the properties whose name
    is [lcname] when case is ignored. [raw] is [RawGet]. *)
Fixpoint find_method_loop (raw : str -> M loc) (lcname : str) (l : names) : M (option loc) :=
  match l with
  | [] => mret None
  | (_, other) :: l' =>
      v ← raw (c_str other);
      x ← getv v;
      if IsMethod x then
        if decide (lower other = lcname) then ToMethod x
        else find_method_loop raw lcname l'
      else find_method_loop raw lcname l'
  end.

Section Virtual.
Context (V : VOps).

(** ** AccessorBoundObject *)

Definition AccessorBoundObject_RawGet (this : loc) (name : str) : M loc :=
  StaticBoundObject_Get this name.
Definition AccessorBoundObject_RawSet (this : loc) (name : str) (value : loc) : M unit :=
  StaticBoundObject_Set this name value.

Definition AccessorBoundObject_FindMethod (this : loc) (name : str) : M (option loc) :=
  l ← vGetPropertyNames V this;
  find_method_loop (AccessorBoundObject_RawGet this) (lower name) l.

Definition AccessorBoundObject_HasProperty (this : loc) (name : str) : M bool :=
  b ← KObject_HasProperty V this name;
  if b : bool then mret true
  else
    m1 ← AccessorBoundObject_FindMethod this (lit "get" ++ name);
    if decide (m1 <> None) then mret true
    else
      m2 ← AccessorBoundObject_FindMethod this (lit "is" ++ name);
      mret (bool_decide (m2 <> None)).

Definition AccessorBoundObject_Set (this : loc) (name : str) (value : loc) : M unit :=
  m ← AccessorBoundObject_FindMethod this (lit "set" ++ name);
  match m with
  | Some m => vCall V m [value];; mret tt
  | None => AccessorBoundObject_RawSet this name value
  end.

Definition AccessorBoundObject_Get (this : loc) (name : str) : M loc :=
  m1 ← AccessorBoundObject_FindMethod this (lit "get" ++ name);
  m2 ← AccessorBoundObject_FindMethod this (lit "is" ++ name);
  match m1, m2 with
  | Some m, _ => vCall V m []
  | None, Some m => vCall V m []
  | None, None => AccessorBoundObject_RawGet this name
  end.

(** ** AccessorBoundMethod *)

Definition AccessorBoundMethod_RawGet (this : loc) (name : str) : M loc :=
  StaticBoundMethod_Get this name.
Definition AccessorBoundMethod_RawSet (this : loc) (name : str) (value : loc) : M unit :=
  StaticBoundMethod_Set this name value.

Definition AccessorBoundMethod_FindMethod (this : loc) (name : str) : M (option loc) :=
  l ← vGetPropertyNames V this;
  find_method_loop (AccessorBoundMethod_RawGet this) (lower name) l.

Definition AccessorBoundMethod_HasProperty (this : loc) (name : str) : M bool :=
  b ← KObject_HasProperty V this name;
  if b : bool then mret true
  else
    m1 ← AccessorBoundMethod_FindMethod this (lit "get" ++ name);
    if decide (m1 <> None) then mret true
    else
      m2 ← AccessorBoundMethod_FindMethod this (lit "is" ++ name);
      mret (bool_decide (m2 <> None)).

Definition AccessorBoundMethod_Set (this : loc) (name : str) (value : loc) : M unit :=
  m ← AccessorBoundMethod_FindMethod this (lit "set" ++ name);
  match m with
  | Some m => vCall V m [value];; mret tt
  | None => AccessorBoundMethod_RawSet this name value
  end.

Definition AccessorBoundMethod_Get (this : loc) (name : str) : M loc :=
  m1 ← AccessorBoundMethod_FindMethod this (lit "get" ++ name);
  m2 ← AccessorBoundMethod_FindMethod this (lit "is" ++ name);
  match m1, m2 with
  | Some m, _ => vCall V m []
  | None, Some m => vCall V m []
  | None, None => AccessorBoundMethod_RawGet this name
  end.

(** ** AccessorBoundList *)

Definition AccessorBoundList_RawGet (this : loc) (name : str) : M loc := StaticBoundList_Get this name.
Definition AccessorBoundList_RawSet (this : loc) (name : str) (value : loc) : M unit :=
  StaticBoundList_Set V this name value.

Definition AccessorBoundList_Set (this : loc) (name : str) (value : loc) : M unit :=
  v ← AccessorBoundList_RawGet this (lit "set" ++ Capitalize name);
  x ← getv v;
  if IsMethod x then
    o ← ToMethod x; m ← some_or_undef o; vCall V m [value];; mret tt
  else AccessorBoundList_RawSet this name value.

Definition AccessorBoundList_Get (this : loc) (name : str) : M loc :=
  v ← AccessorBoundList_RawGet this (lit "get" ++ Capitalize name);
  x ← getv v;
  if IsMethod x then o ← ToMethod x; m ← some_or_undef o; vCall V m []
  else AccessorBoundList_RawGet this name.
End Virtual.

(** ** Monotonicity *)
Section Mono.
Context (V1 V2 : VOps) (HV : vle V1 V2).
#[local] Set Default Proof Using "Type*".

Lemma abo_FindMethod_mono o n :
  approx (AccessorBoundObject_FindMethod V1 o n) (AccessorBoundObject_FindMethod V2 o n).
Proof. unfold AccessorBoundObject_FindMethod. mono. Qed.
Lemma abm_FindMethod_mono o n :
  approx (AccessorBoundMethod_FindMethod V1 o n) (AccessorBoundMethod_FindMethod V2 o n).
Proof. unfold AccessorBoundMethod_FindMethod. mono. Qed.
#[local] Hint Resolve abo_FindMethod_mono abm_FindMethod_mono : mono.

Lemma abo_HasProperty_mono o n :
  approx (AccessorBoundObject_HasProperty V1 o n) (AccessorBoundObject_HasProperty V2 o n).
Proof. unfold AccessorBoundObject_HasProperty. mono. Qed.
Lemma abo_Set_mono o n v : approx (AccessorBoundObject_Set V1 o n v) (AccessorBoundObject_Set V2 o n v).
Proof. unfold AccessorBoundObject_Set. mono. Qed.
Lemma abo_Get_mono o n : approx (AccessorBoundObject_Get V1 o n) (AccessorBoundObject_Get V2 o n).
Proof. unfold AccessorBoundObject_Get. mono. Qed.
Lemma abm_HasProperty_mono o n :
  approx (AccessorBoundMethod_HasProperty V1 o n) (AccessorBoundMethod_HasProperty V2 o n).
Proof. unfold AccessorBoundMethod_HasProperty. mono. Qed.
Lemma abm_Set_mono o n v : approx (AccessorBoundMethod_Set V1 o n v) (AccessorBoundMethod_Set V2 o n v).
Proof. unfold AccessorBoundMethod_Set. mono. Qed.
Lemma abm_Get_mono o n : approx (AccessorBoundMethod_Get V1 o n) (AccessorBoundMethod_Get V2 o n).
Proof. unfold AccessorBoundMethod_Get. mono. Qed.
Lemma abl_Set_mono o n v : approx (AccessorBoundList_Set V1 o n v) (AccessorBoundList_Set V2 o n v).
Proof. unfold AccessorBoundList_Set, AccessorBoundList_RawSet. mono. Qed.
Lemma abl_Get_mono o n : approx (AccessorBoundList_Get V1 o n) (AccessorBoundList_Get V2 o n).
Proof. unfold AccessorBoundList_Get. mono. Qed.
End Mono.
#[export] Hint Resolve abo_HasProperty_mono abo_Set_mono abo_Get_mono abm_HasProperty_mono
  abm_Set_mono abm_Get_mono abl_Set_mono abl_Get_mono : mono.
