(* ===== verification/Wrappers.v ===== *)
(** * Wrappers: objects that forward to other objects
    (delegate_static_bound_object.cpp, profiled_bound_object.cpp,
    profiled_bound_list.cpp, profiled_bound_method.cpp and
    scope_method_delegate.cpp of api/binding) *)

From S2P Require Import Prelude CppString Double FileUtils Heap Virtual KObject StaticBound.
From S2P Require Import StaticLaws.
From stdpp Require Import options.

Section Virtual.
Context (V : VOps).

(** ** DelegateStaticBoundObject *)

Definition delegate_fields (this : loc) : M (loc * loc) :=
  x ← geto this;
  match o_class x with DelegateStaticBoundObject g l => mret (g, l) | _ => undef end.

Definition new_DelegateStaticBoundObject (global : loc) : M loc :=
  local ← default_StaticBoundObject;
  new_object (lit "KObject") (DelegateStaticBoundObject global local).

Definition Delegate_Get (this : loc) (name : str) : M loc :=
  '(global, local) ← delegate_fields this;
  val ← vGet V local name;
  v ← getv val;
  if negb (IsUndefined v) then mret val else vGet V global name.

Definition Delegate_Set (this : loc) (name : str) (value : loc) : M unit :=
  '(global, local) ← delegate_fields this;
  vSet V local name value;; vSet V global name value.

Definition Delegate_HasProperty (this : loc) (name : str) : M bool :=
  '(global, local) ← delegate_fields this;
  b ← vHasProperty V global name;
  if b : bool then mret true else vHasProperty V local name.

(** The two loops of [GetPropertyNames]. The addresses of the strings are
    compared, not the texts. *)
Fixpoint add_missing (globalList localList : names) : names :=
  match globalList with
  | [] => localList
  | p :: rest =>
      if existsb (fun q => (p.1 =? q.1)%N) localList then add_missing rest localList
      else add_missing rest (localList ++ [p])
  end.

Definition Delegate_GetPropertyNames (this : loc) : M names :=
  '(global, local) ← delegate_fields this;
  globalList ← vGetPropertyNames V global;
  localList ← vGetPropertyNames V local;
  mret (add_missing globalList localList).

(** ** The profiling wrappers *)

Definition is_ProfiledBoundObject (c : class) : bool :=
  match c with
  | ProfiledBoundObject _ | ProfiledBoundList _ | ProfiledBoundMethod _ _ => true
  | _ => false
  end.
Definition is_ProfiledBoundList (c : class) : bool :=
  match c with ProfiledBoundList _ => true | _ => false end.
Definition is_ProfiledBoundMethod (c : class) : bool :=
  match c with ProfiledBoundMethod _ _ => true | _ => false end.

Definition profiled_delegate (this : loc) : M loc :=
  x ← geto this;
  match o_class x with
  | ProfiledBoundObject d | ProfiledBoundList d | ProfiledBoundMethod d _ => mret d
  | _ => undef
  end.

(** The constructors copy the type of the delegate. *)
Definition new_ProfiledBoundObject (delegate : loc) : M loc :=
  ty ← vGetType V delegate; new_object ty (ProfiledBoundObject delegate).
Definition new_ProfiledBoundList (delegate : loc) : M loc :=
  ty ← vGetType V delegate; new_object (lit "KList") (ProfiledBoundList delegate).
Definition new_ProfiledBoundMethod (delegate : loc) (fullType : str) : M loc :=
  ty ← vGetType V delegate; new_object (lit "KMethod") (ProfiledBoundMethod delegate fullType).

Definition AlreadyWrapped (value : loc) : M bool :=
  v ← getv value;
  if IsMethod v then
    source ← ToMethod v; po ← dynamic_cast is_ProfiledBoundMethod source;
    mret (bool_decide (po <> None))
  else if IsList v then
    source ← ToList v; po ← dynamic_cast is_ProfiledBoundList source;
    mret (bool_decide (po <> None))
  else if IsObject v then
    po ← dynamic_cast is_ProfiledBoundObject (ToObject v);
    mret (bool_decide (po <> None))
  else mret true.

Definition Wrap (value : loc) (ty : str) : M loc :=
  wrapped ← AlreadyWrapped value;
  if wrapped : bool then mret value
  else
    v ← getv value;
    if IsMethod v then
      o ← ToMethod v; toWrap ← some_or_undef o;
      w ← new_ProfiledBoundMethod toWrap ty; NewMethod (Some w)
    else if IsList v then
      o ← ToList v; toWrap ← some_or_undef o;
      w ← new_ProfiledBoundList toWrap; NewList (Some w)
    else if IsObject v then
      toWrap ← some_or_undef (ToObject v);
      w ← new_ProfiledBoundObject toWrap; NewObject (Some w)
    else mret value.

(** One line of the profile; the times are left out. *)
Definition Profile_Log (eventType name : str) : M unit := log_line (lit "profile") (eventType ++ lit "," ++ name).

Definition GetSubType (this : loc) (name : str) : M str :=
  ty ← vGetType V this;
  mret (match ty with [] => name | _ => ty ++ lit "." ++ name end).

Definition ProfiledBoundObject_Set (this : loc) (name : str) (value : loc) : M unit :=
  delegate ← profiled_delegate this;
  ty ← GetSubType this name;
  result ← Wrap value ty;
  vSet V delegate name result;;
  Profile_Log (lit "set") ty.

Definition ProfiledBoundObject_Get (this : loc) (name : str) : M loc :=
  delegate ← profiled_delegate this;
  ty ← GetSubType this name;
  value ← vGet V delegate name;
  Profile_Log (lit "get") ty;;
  Wrap value ty.

Definition ProfiledBoundObject_GetPropertyNames (this : loc) : M names :=
  delegate ← profiled_delegate this; vGetPropertyNames V delegate.
Definition ProfiledBoundObject_DisplayString (this : loc) (levels : Z) : M str :=
  delegate ← profiled_delegate this; vDisplayString V delegate levels.
Definition ProfiledBoundObject_HasProperty (this : loc) (name : str) : M bool :=
  delegate ← profiled_delegate this; vHasProperty V delegate name.

Definition ProfiledBoundObject_Equals (this : loc) (other : option loc) : M bool :=
  delegate ← profiled_delegate this;
  pother ← dynamic_cast is_ProfiledBoundObject other;
  match pother with
  | Some p => d ← profiled_delegate p; mret (bool_decide (d = delegate))
  | None => mret (bool_decide (other = Some delegate))
  end.

Definition ProfiledBoundList_Append (this value : loc) : M unit :=
  list ← profiled_delegate this; vAppend V list value.
Definition ProfiledBoundList_Size (this : loc) : M Z :=
  list ← profiled_delegate this; vSize V list.
Definition ProfiledBoundList_At (this : loc) (index : Z) : M loc :=
  list ← profiled_delegate this; vAt V list index.
Definition ProfiledBoundList_SetAt (this : loc) (index : Z) (value : loc) : M unit :=
  list ← profiled_delegate this; vSetAt V list index value.
Definition ProfiledBoundList_Remove (this : loc) (index : Z) : M bool :=
  list ← profiled_delegate this; vRemove V list index.
Definition ProfiledBoundList_Set (this : loc) (name : str) (value : loc) : M unit :=
  list ← profiled_delegate this; vSet V list name value.
Definition ProfiledBoundList_Get (this : loc) (name : str) : M loc :=
  list ← profiled_delegate this; vGet V list name.
Definition ProfiledBoundList_GetPropertyNames (this : loc) : M names :=
  list ← profiled_delegate this; vGetPropertyNames V list.
Definition ProfiledBoundList_HasProperty (this : loc) (name : str) : M bool :=
  list ← profiled_delegate this; vHasProperty V list name.

Definition ProfiledBoundMethod_GetType (this : loc) : M str :=
  x ← geto this;
  match o_class x with ProfiledBoundMethod _ fullType => mret fullType | _ => undef end.

Definition ProfiledBoundMethod_Call (this : loc) (args : list loc) : M loc :=
  method ← profiled_delegate this;
  ty ← vGetType V this;
  value ← try_catch (vCall V method args)
            (fun e => Profile_Log (lit "call") ty;; throw e);
  Profile_Log (lit "call") ty;;
  Wrap value ty.
Definition ProfiledBoundMethod_Set (this : loc) (name : str) (value : loc) : M unit :=
  method ← profiled_delegate this; vSet V method name value.
Definition ProfiledBoundMethod_Get (this : loc) (name : str) : M loc :=
  method ← profiled_delegate this; vGet V method name.
Definition ProfiledBoundMethod_GetPropertyNames (this : loc) : M names :=
  method ← profiled_delegate this; vGetPropertyNames V method.
Definition ProfiledBoundMethod_HasProperty (this : loc) (name : str) : M bool :=
  method ← profiled_delegate this; vHasProperty V method name.

(** ** ScopeMethodDelegate *)

Definition scope_fields (this : loc) : M (MethodDelegateType * loc * loc * loc) :=
  x ← geto this;
  match o_class x with ScopeMethodDelegate t g s d => mret (t, g, s, d) | _ => undef end.

Definition IsGlobalKey (key : str) : bool := bool_decide (find_first_of key (lit ".") (Some 0) <> None).

Definition ScopeMethodDelegate_Set (this : loc) (name : str) (value : loc) : M unit :=
  '(_, _, _, delegate) ← scope_fields this; vSet V delegate name value.
Definition ScopeMethodDelegate_Get (this : loc) (name : str) : M loc :=
  '(_, _, _, delegate) ← scope_fields this; vGet V delegate name.
Definition ScopeMethodDelegate_GetPropertyNames (this : loc) : M names :=
  '(_, _, _, delegate) ← scope_fields this; vGetPropertyNames V delegate.

(** [args.at(i)] throws for an index out of range; [ToString] of a value that
    is no string gives a null pointer. *)
Definition args_at (args : list loc) (i : nat) : M loc :=
  match args !! i with Some a => mret a | None => throw out_of_range end.

Definition ScopeMethodDelegate_Call (this : loc) (args : list loc) : M loc :=
  '(t, global, scope, _) ← scope_fields this;
  a ← args_at args 0; v ← getv a; key ← ToString v;
  let obj := if IsGlobalKey key then global else scope in
  match t with
  | GET => vGet V obj (c_str key)
  | SET => result ← args_at args 1; SetNS V obj (c_str key) result;; mret Undefined
  end.

Definition copy_key (global bo scope : loc) (p : loc * str) : M unit :=
  let key := p.2 in
  value ← vGet V bo (c_str key);
  let wrap t :=
    v ← getv value; o ← ToMethod v; d ← some_or_undef o;
    m ← new_object (lit "KMethod") (ScopeMethodDelegate t global scope d);
    w ← NewMethod (Some m); StaticBoundObject_Set scope (c_str key) w in
  if decide (key = lit "set") then wrap SET
  else if decide (key = lit "get") then wrap GET
  else StaticBoundObject_Set scope (c_str key) value.

Definition CreateDelegate (global bo : loc) : M loc :=
  scope ← default_StaticBoundObject;
  keys ← vGetPropertyNames V bo;
  st_fold (fun _ p => copy_key global bo scope p) tt keys;;
  mret scope.
End Virtual.

(** ** Monotonicity *)
Section Mono.
Context (V1 V2 : VOps) (HV : vle V1 V2).
#[local] Set Default Proof Using "Type*".

Lemma Delegate_Get_mono o n : approx (Delegate_Get V1 o n) (Delegate_Get V2 o n).
Proof. unfold Delegate_Get. mono. Qed.
Lemma Delegate_Set_mono o n v : approx (Delegate_Set V1 o n v) (Delegate_Set V2 o n v).
Proof. unfold Delegate_Set. mono. Qed.
Lemma Delegate_HasProperty_mono o n : approx (Delegate_HasProperty V1 o n) (Delegate_HasProperty V2 o n).
Proof. unfold Delegate_HasProperty. mono. Qed.
Lemma Delegate_GetPropertyNames_mono o :
  approx (Delegate_GetPropertyNames V1 o) (Delegate_GetPropertyNames V2 o).
Proof. unfold Delegate_GetPropertyNames. mono. Qed.

Lemma Wrap_mono v ty : approx (Wrap V1 v ty) (Wrap V2 v ty).
Proof. unfold Wrap, new_ProfiledBoundMethod, new_ProfiledBoundList, new_ProfiledBoundObject. mono. Qed.
Lemma GetSubType_mono o n : approx (GetSubType V1 o n) (GetSubType V2 o n).
Proof. unfold GetSubType. mono. Qed.
#[local] Hint Resolve Wrap_mono GetSubType_mono : mono.
Lemma pbo_Set_mono o n v : approx (ProfiledBoundObject_Set V1 o n v) (ProfiledBoundObject_Set V2 o n v).
Proof. unfold ProfiledBoundObject_Set. mono. Qed.
Lemma pbo_Get_mono o n : approx (ProfiledBoundObject_Get V1 o n) (ProfiledBoundObject_Get V2 o n).
Proof. unfold ProfiledBoundObject_Get. mono. Qed.
Lemma pbo_names_mono o :
  approx (ProfiledBoundObject_GetPropertyNames V1 o) (ProfiledBoundObject_GetPropertyNames V2 o).
Proof. unfold ProfiledBoundObject_GetPropertyNames. mono. Qed.
Lemma pbo_DisplayString_mono o z :
  approx (ProfiledBoundObject_DisplayString V1 o z) (ProfiledBoundObject_DisplayString V2 o z).
Proof. unfold ProfiledBoundObject_DisplayString. mono. Qed.
Lemma pbo_HasProperty_mono o n :
  approx (ProfiledBoundObject_HasProperty V1 o n) (ProfiledBoundObject_HasProperty V2 o n).
Proof. unfold ProfiledBoundObject_HasProperty. mono. Qed.

Lemma pbl_Append_mono o v : approx (ProfiledBoundList_Append V1 o v) (ProfiledBoundList_Append V2 o v).
Proof. unfold ProfiledBoundList_Append. mono. Qed.
Lemma pbl_Size_mono o : approx (ProfiledBoundList_Size V1 o) (ProfiledBoundList_Size V2 o).
Proof. unfold ProfiledBoundList_Size. mono. Qed.
Lemma pbl_At_mono o i : approx (ProfiledBoundList_At V1 o i) (ProfiledBoundList_At V2 o i).
Proof. unfold ProfiledBoundList_At. mono. Qed.
Lemma pbl_SetAt_mono o i v : approx (ProfiledBoundList_SetAt V1 o i v) (ProfiledBoundList_SetAt V2 o i v).
Proof. unfold ProfiledBoundList_SetAt. mono. Qed.
Lemma pbl_Remove_mono o i : approx (ProfiledBoundList_Remove V1 o i) (ProfiledBoundList_Remove V2 o i).
Proof. unfold ProfiledBoundList_Remove. mono. Qed.
Lemma pbl_Set_mono o n v : approx (ProfiledBoundList_Set V1 o n v) (ProfiledBoundList_Set V2 o n v).
Proof. unfold ProfiledBoundList_Set. mono. Qed.
Lemma pbl_Get_mono o n : approx (ProfiledBoundList_Get V1 o n) (ProfiledBoundList_Get V2 o n).
Proof. unfold ProfiledBoundList_Get. mono. Qed.
Lemma pbl_names_mono o :
  approx (ProfiledBoundList_GetPropertyNames V1 o) (ProfiledBoundList_GetPropertyNames V2 o).
Proof. unfold ProfiledBoundList_GetPropertyNames. mono. Qed.
Lemma pbl_HasProperty_mono o n :
  approx (ProfiledBoundList_HasProperty V1 o n) (ProfiledBoundList_HasProperty V2 o n).
Proof. unfold ProfiledBoundList_HasProperty. mono. Qed.

Lemma pbm_Call_mono o l : approx (ProfiledBoundMethod_Call V1 o l) (ProfiledBoundMethod_Call V2 o l).
Proof. unfold ProfiledBoundMethod_Call. mono. Qed.
Lemma pbm_Set_mono o n v : approx (ProfiledBoundMethod_Set V1 o n v) (ProfiledBoundMethod_Set V2 o n v).
Proof. unfold ProfiledBoundMethod_Set. mono. Qed.
Lemma pbm_Get_mono o n : approx (ProfiledBoundMethod_Get V1 o n) (ProfiledBoundMethod_Get V2 o n).
Proof. unfold ProfiledBoundMethod_Get. mono. Qed.
Lemma pbm_names_mono o :
  approx (ProfiledBoundMethod_GetPropertyNames V1 o) (ProfiledBoundMethod_GetPropertyNames V2 o).
Proof. unfold ProfiledBoundMethod_GetPropertyNames. mono. Qed.
Lemma pbm_HasProperty_mono o n :
  approx (ProfiledBoundMethod_HasProperty V1 o n) (ProfiledBoundMethod_HasProperty V2 o n).
Proof. unfold ProfiledBoundMethod_HasProperty. mono. Qed.

Lemma smd_Set_mono o n v : approx (ScopeMethodDelegate_Set V1 o n v) (ScopeMethodDelegate_Set V2 o n v).
Proof. unfold ScopeMethodDelegate_Set. mono. Qed.
Lemma smd_Get_mono o n : approx (ScopeMethodDelegate_Get V1 o n) (ScopeMethodDelegate_Get V2 o n).
Proof. unfold ScopeMethodDelegate_Get. mono. Qed.
Lemma smd_names_mono o :
  approx (ScopeMethodDelegate_GetPropertyNames V1 o) (ScopeMethodDelegate_GetPropertyNames V2 o).
Proof. unfold ScopeMethodDelegate_GetPropertyNames. mono. Qed.
Lemma smd_Call_mono o l : approx (ScopeMethodDelegate_Call V1 o l) (ScopeMethodDelegate_Call V2 o l).
Proof. unfold ScopeMethodDelegate_Call. mono. Qed.
Lemma CreateDelegate_mono a b : approx (CreateDelegate V1 a b) (CreateDelegate V2 a b).
Proof. unfold CreateDelegate, copy_key. mono. Qed.
End Mono.
#[export] Hint Resolve Delegate_Get_mono Delegate_Set_mono Delegate_HasProperty_mono
  Delegate_GetPropertyNames_mono pbo_Set_mono pbo_Get_mono pbo_names_mono pbo_DisplayString_mono
  pbo_HasProperty_mono pbl_Append_mono pbl_Size_mono pbl_At_mono pbl_SetAt_mono pbl_Remove_mono
  pbl_Set_mono pbl_Get_mono pbl_names_mono pbl_HasProperty_mono pbm_Call_mono pbm_Set_mono
  pbm_Get_mono pbm_names_mono pbm_HasProperty_mono smd_Set_mono smd_Get_mono smd_names_mono
  smd_Call_mono CreateDelegate_mono : mono.
