(* ===== verification/ArgList.v ===== *)
(** * ArgList: argument lists and their signatures (api/binding/arg_list.cpp)

    A signature such as "s,?i|n" gives the admitted types of each argument,
    one letter per type; from the first '?' on, the arguments are optional. *)

From S2P Require Import Prelude CppString Double Heap.
From stdpp Require Import options.

(** [ParseSigString]: the texts between commas and spaces. *)
Fixpoint ParseSigString_loop (types sig : str) (sig_vector : list str) : list str :=
  match sig with
  | [] => match types with [] => sig_vector | _ => sig_vector ++ [types] end
  | c :: sig' =>
      if decide (c = ","%char \/ c = " "%char)
      then ParseSigString_loop [] sig' (sig_vector ++ [types])
      else ParseSigString_loop (types ++ [c]) sig' sig_vector
  end.
Definition ParseSigString (sig : str) : list str := ParseSigString_loop [] (c_str sig) [].

(** The name of the type of a letter; nothing for an unknown letter. *)
Definition type_name (c : ascii) : str :=
  if decide (c = "s"%char) then lit "String"
  else if decide (c = "b"%char) then lit "Boolean"
  else if decide (c = "i"%char) then lit "Integer"
  else if decide (c = "d"%char) then lit "Double"
  else if decide (c = "n"%char) then lit "Number"
  else if decide (c = "o"%char) then lit "Object"
  else if decide (c = "l"%char) then lit "List"
  else if decide (c = "m"%char) then lit "Function"
  else if decide (c = "0"%char) then lit "Null"
  else [].

(** After each letter, the '|' itself included, a '|' is printed. *)
Fixpoint type_names (t : str) : str :=
  match t with
  | [] => []
  | c :: t' => type_name c ++ match t' with [] => [] | _ => lit "|" end ++ type_names t'
  end.

(** The leading '?' of an optional argument. *)
Definition split_optional (t : str) : bool * str :=
  match t with
  | c :: t' => if decide (c = "?"%char) then (true, t') else (false, t)
  | [] => (false, t)
  end.

Fixpoint signature_loop (optional : bool) (sig_vector : list str) : bool * str :=
  match sig_vector with
  | [] => (optional, [])
  | t :: rest =>
      let '(q, t) := split_optional t in
      let '(opt, out) := signature_loop (optional || q) rest in
      (opt, (if q then lit "[" else []) ++ type_names t ++
            match rest with [] => [] | _ => lit "," end ++ out)
  end.

Definition GenerateSignature (name : str) (sig_vector : list str) : str :=
  let '(optional, out) := signature_loop false sig_vector in
  name ++ lit "(" ++ out ++ (if optional : bool then lit "]" else []) ++ lit ")".

Definition matches_letter (v : value) (c : ascii) : bool :=
  (bool_decide (c = "s"%char) && IsString v) || (bool_decide (c = "b"%char) && IsBool v) ||
  (bool_decide (c = "i"%char) && IsInt v) || (bool_decide (c = "d"%char) && IsDouble v) ||
  (bool_decide (c = "n"%char) && IsNumber v) || (bool_decide (c = "o"%char) && IsObject v) ||
  (bool_decide (c = "l"%char) && IsList v) || (bool_decide (c = "m"%char) && IsMethod v) ||
  (bool_decide (c = "0"%char) && IsNull v).

Fixpoint VerifyArg (v : value) (t : str) : bool :=
  match t with
  | [] => false
  | c :: t' => if matches_letter v c then true else VerifyArg v t'
  end.

Section Args.
Context (args : list loc).

(** [args.at(index)] *)
Definition at_ (index : nat) : M loc :=
  match args !! index with Some a => mret a | None => throw out_of_range end.

Fixpoint VerifyImpl_loop (optional : bool) (i : nat) (sig_vector : list str) : M bool :=
  match sig_vector with
  | [] => mret true
  | t :: rest =>
      let '(q, t) := split_optional t in
      let optional := optional || q in
      if (length args <? i + 1) && optional then mret true
      else if length args <? i + 1 then mret false
      else
        a ← at_ i; v ← getv a;
        if VerifyArg v t then VerifyImpl_loop optional (S i) rest else mret false
  end.
Definition VerifyImpl (sig_vector : list str) : M bool := VerifyImpl_loop false 0 sig_vector.

Definition Verify (sig : str) : M bool := VerifyImpl (ParseSigString sig).

Definition VerifyException (name sig : str) : M unit :=
  let sig_vector := ParseSigString sig in
  ok ← VerifyImpl sig_vector;
  if ok : bool then mret tt
  else throw_string (lit "Invalid arguments passed for: " ++ GenerateSignature name sig_vector).

(** The typed accessors: the default for a missing argument or another type. *)
Definition Arg_get {A} (test : value -> bool) (get : value -> M A) (index : nat) (defaultValue : A)
    : M A :=
  if index <? length args then
    a ← at_ index; v ← getv a; if test v then get v else mret defaultValue
  else mret defaultValue.

Definition Arg_GetInt (index : nat) (defaultValue : Z) : M Z :=
  Arg_get IsInt (fun v => mret (ToInt v)) index defaultValue.
Definition Arg_GetDouble (index : nat) (defaultValue : double) : M double :=
  Arg_get IsDouble (fun v => mret (ToDouble v)) index defaultValue.
Definition Arg_GetNumber (index : nat) (defaultValue : double) : M double :=
  Arg_get IsNumber (fun v => mret (ToDouble v)) index defaultValue.
Definition Arg_GetBool (index : nat) (defaultValue : bool) : M bool :=
  Arg_get IsBool ToBool index defaultValue.
Definition Arg_GetString (index : nat) (defaultValue : str) : M str :=
  Arg_get IsString ToString index defaultValue.
Definition Arg_GetObject (index : nat) (defaultValue : option loc) : M (option loc) :=
  Arg_get IsObject (fun v => mret (ToObject v)) index defaultValue.
Definition Arg_GetMethod (index : nat) (defaultValue : option loc) : M (option loc) :=
  Arg_get IsMethod ToMethod index defaultValue.
Definition Arg_GetList (index : nat) (defaultValue : option loc) : M (option loc) :=
  Arg_get IsList ToList index defaultValue.
End Args.

(** ** Specification

    A parsed signature: the admitted letters of each argument, and how many
    arguments are required (those before the first '?'). *)
Fixpoint required (sig_vector : list str) : nat :=
  match sig_vector with
  | [] => 0
  | t :: rest => if (split_optional t).1 then 0 else S (required rest)
  end.

(** The value of each argument has one of the letters of its position;
    arguments beyond the signature are not looked at. *)
Definition conforms (vs : list value) (sig_vector : list str) : Prop :=
  required sig_vector <= length vs /\
  forall i v t, vs !! i = Some v -> sig_vector !! i = Some t ->
    exists c, c ∈ (split_optional t).2 /\ matches_letter v c = true.

Lemma VerifyArg_spec v t : VerifyArg v t = true <-> exists c, c ∈ t /\ matches_letter v c = true.
Proof.
  induction t as [|c t IH]; simpl.
  - split; [done|]. intros (c & Hc & _). by apply elem_of_nil in Hc.
  - destruct (matches_letter v c) eqn:E.
    + split; [|done]. intros _. exists c. split; [constructor|done].
    + rewrite IH. split; intros (d & Hd & Hm); exists d; (split; [|done]).
      * by constructor.
      * apply elem_of_cons in Hd as [->|]; [congruence|done].
Qed.

(** The values of the arguments in a heap. *)
Definition arg_values (h : heap) (args : list loc) (vs : list value) : Prop :=
  Forall2 (fun a v => vals h !! a = Some v) args vs.

Fixpoint verify_values (optional : bool) (vs : list value) (sig_vector : list str)
    {struct sig_vector} : bool :=
  match sig_vector, vs with
  | [], _ => true
  | t :: _, [] => optional || (split_optional t).1
  | t :: rest, v :: vs' =>
      VerifyArg v (split_optional t).2 && verify_values (optional || (split_optional t).1) vs' rest
  end.

Lemma VerifyImpl_loop_values h args pre post vs optional sig_vector :
  args = pre ++ post -> arg_values h post vs ->
  VerifyImpl_loop args optional (length pre) sig_vector h
  = (Ret (verify_values optional vs sig_vector), h).
Proof.
  revert pre post vs optional. induction sig_vector as [|t rest IH]; intros pre post vs optional -> Hvs.
  { by destruct vs. }
  cbn [VerifyImpl_loop verify_values]. destruct (split_optional t) as [q u] eqn:Eq. simpl.
  destruct Hvs as [|a v post vs Ha Hvs]; rewrite length_app; simpl.
  - rewrite (proj2 (Nat.ltb_lt _ _)) by lia. by destruct (optional || q).
  - rewrite (proj2 (Nat.ltb_ge _ _)) by lia. simpl. unfold at_.
    rewrite list_lookup_middle by done. erewrite st_bind_Ret by done. cbv beta.
    unfold mbind, st_bind, getv. rewrite Ha. destruct (VerifyArg v u); [|done]. simpl.
    replace (S (length pre)) with (length (pre ++ [a])) by (rewrite length_app; simpl; lia).
    apply (IH _ post); [by rewrite <- app_assoc|done].
Qed.

Lemma verify_values_optional vs sig_vector :
  verify_values true vs sig_vector = true <->
  forall i v t, vs !! i = Some v -> sig_vector !! i = Some t ->
    exists c, c ∈ (split_optional t).2 /\ matches_letter v c = true.
Proof.
  revert vs. induction sig_vector as [|t rest IH]; intros [|v vs]; simpl; try done.
  rewrite andb_true_iff, VerifyArg_spec, IH. split.
  - intros [Hv Hr] [|i] w u Hw Hu; simpl in *; simplify_eq; [done|eauto].
  - intros Hall. split; [by apply (Hall 0)|]. intros i w u. apply (Hall (S i)).
Qed.

Lemma verify_values_spec vs sig_vector :
  verify_values false vs sig_vector = true <-> conforms vs sig_vector.
Proof.
  unfold conforms. revert vs. induction sig_vector as [|t rest IH]; intros vs; simpl.
  { split; [|done]. split; [lia|done]. }
  destruct (split_optional t) as [q u] eqn:Eq. simpl. destruct vs as [|v vs]; simpl.
  - destruct q; split.
    + intros _. split; [lia|]. intros i v t' Hv. by rewrite lookup_nil in Hv.
    + done.
    + done.
    + intros [? _]. lia.
  - rewrite andb_true_iff, VerifyArg_spec. destruct q; simpl.
    + rewrite verify_values_optional. split.
      * intros [Hv Hr]. split; [lia|]. intros [|i] w u' Hw Hu; simpl in *; simplify_eq.
        -- by rewrite Eq.
        -- eauto.
      * intros [_ Hall]. split; [specialize (Hall 0 v t); by rewrite Eq in Hall; apply Hall|].
        intros i w u'. apply (Hall (S i)).
    + rewrite IH. split.
      * intros [Hv [Hreq Hr]]. split; [lia|]. intros [|i] w u' Hw Hu; simpl in *; simplify_eq.
        -- by rewrite Eq.
        -- eauto.
      * intros [Hreq Hall]. split; [specialize (Hall 0 v t); by rewrite Eq in Hall; apply Hall|].
        split; [lia|]. intros i w u'. apply (Hall (S i)).
Qed.

Lemma VerifyException_ok h args name sig vs :
  arg_values h args vs -> verify_values false vs (ParseSigString sig) = true ->
  VerifyException args name sig h = (Ret tt, h).
Proof.
  intros Hvs Hok. unfold VerifyException, VerifyImpl.
  erewrite st_bind_Ret by (by apply (VerifyImpl_loop_values h args [] args vs)). by rewrite Hok.
Qed.

Lemma Arg_get_run {A} h args vs (test : value -> bool) (get : value -> M A) i v d :
  arg_values h args vs -> vs !! i = Some v ->
  Arg_get args test get i d h = (if test v then get v else mret d) h.
Proof.
  intros Hvs Hv. destruct (Forall2_lookup_r _ _ _ _ _ Hvs Hv) as (a & Ha & Hval).
  unfold Arg_get. rewrite (proj2 (Nat.ltb_lt _ _)) by by apply lookup_lt_Some in Ha.
  unfold at_. rewrite Ha. erewrite st_bind_Ret by done. cbv beta.
  unfold mbind, st_bind at 1, getv. by rewrite Hval.
Qed.

(** C33: checking arguments against a signature does what the signature says:
    [Verify] always answers (no argument is read out of range), reads nothing
    but the arguments, and says yes exactly when all the required arguments
    (those before the first '?') are there and every argument that the
    signature speaks of has one of the listed types. *)
Theorem arg_list_verify_spec h args vs sig :
  arg_values h args vs ->
  Verify args sig h = (Ret (bool_decide (verify_values false vs (ParseSigString sig) = true)), h) /\
  (Verify args sig h = (Ret true, h) <-> conforms vs (ParseSigString sig)).
Proof.
  intros Hvs. unfold Verify, VerifyImpl.
  rewrite (VerifyImpl_loop_values h args [] args vs) by done. rewrite <- verify_values_spec.
  destruct (verify_values false vs (ParseSigString sig)); split; naive_solver.
Qed.

(** Values as a signature sees them. *)
Definition int_value (z : Z) : value := set_number INT (double_of_int z) new_value.
Definition string_value (s : str) : value := set_string s new_value.

Lemma arg_list_verify_spec_witness :
  let h := with_vals (fun _ => <[2%N := string_value (lit "x")]> {[3%N := int_value 7]}) initial_heap in
  arg_values h [2%N; 3%N] [string_value (lit "x"); int_value 7] /\
  (Verify [2%N; 3%N] (lit "s,?i|s") h = (Ret true, h) <->
   conforms [string_value (lit "x"); int_value 7] [lit "s"; lit "?i|s"]).
Proof.
  intros h. assert (arg_values h [2%N; 3%N] [string_value (lit "x"); int_value 7]) as H.
  { by repeat constructor. }
  split; [exact H|]. exact (proj2 (arg_list_verify_spec h _ _ (lit "s,?i|s") H)).
Defined.

(** The text for a choice of types doubles the bar. *)
Lemma signature_of_a_choice :
  GenerateSignature (lit "f") (ParseSigString (lit "s|n")) = lit "f(String||Number)".
Proof. reflexivity. Qed.

(** Two optional arguments are opened twice and closed once. *)
Lemma signature_of_two_optionals :
  GenerateSignature (lit "f") (ParseSigString (lit "?s,?i")) = lit "f([String,[Integer])".
Proof. reflexivity. Qed.

(** A comma and a space make an empty type, which nothing satisfies. *)
Lemma comma_space_rejects :
  ParseSigString (lit "s, s") = [lit "s"; []; lit "s"] /\ forall v, VerifyArg v [] = false.
Proof. done. Qed.
