(* ===== verification/Events.v ===== *)
(** * Events: listeners, events and the queue of the main thread
    (event.cpp, read_event.cpp, k_event_object.cpp of api/binding;
    linux_job.cpp and InvokeMethodOnMainThread of host/linux)

    One thread is modelled, the main thread: a synchronous job runs at once,
    an asynchronous one is queued until [main_thread_job_handler] runs. *)

From S2P Require Import Prelude CppString Double FileUtils Heap Virtual KObject StaticBound.
From S2P Require Import StaticLaws ArgList.
From stdpp Require Import options.

Section Virtual.
Context (W : World) (V : VOps).

(** ** LinuxJob *)

(** [LinuxJob::Execute]: the result of the method, or the value of the
    exception that the job keeps. Every C++ exception is caught. *)
Definition LinuxJob_Execute (method : loc) (args : list loc) : M (loc + option loc) :=
  try_catch (r ← vCall V method args; mret (inl r))
    (fun e =>
       match e with
       | ValueException v => mret (inr v)
       | StdException what => v ← NewString what; mret (inr (Some v))
       | _ => v ← NewString (lit "Unknown Exception from job queue"); mret (inr (Some v))
       end).

(** [LinuxJob::PrintException] *)
Definition PrintException (r : loc + option loc) : M unit :=
  match r with
  | inl _ => mret tt
  | inr e =>
      v ← some_or_undef e;
      s ← Value_DisplayString W V v 3;
      log_line (lit "stdout") (lit "Exception in job queue: " ++ s)
  end.

Definition InvokeMethodOnMainThread (method : loc) (args : list loc) (synchronous : bool) : M loc :=
  if synchronous then
    r ← LinuxJob_Execute method args;
    match r with
    | inl v => mret v
    | inr e => throw (ValueException e)
    end
  else
    modify (with_jobs (fun l => l ++ [(method, args)]));;
    mret Undefined.

(** The queue is taken and cleared before its jobs run. *)
Definition main_thread_job_handler : M unit :=
  l ← gets jobs;
  modify (with_jobs (fun _ => []));;
  st_fold (fun _ '(method, args) =>
             r ← LinuxJob_Execute method args; PrintException r) tt l.

(** ** Event *)

Definition ALL : str := lit "all".
Definition event_constants : list (str * str) := [
  (lit "ALL", ALL); (lit "FOCUSED", lit "focused"); (lit "UNFOCUSED", lit "unfocused");
  (lit "OPEN", lit "open"); (lit "OPENED", lit "opened"); (lit "CLOSE", lit "close");
  (lit "CLOSED", lit "closed"); (lit "HIDDEN", lit "hidden"); (lit "SHOWN", lit "shown");
  (lit "FULLSCREENED", lit "fullscreened"); (lit "UNFULLSCREENED", lit "unfullscreened");
  (lit "MAXIMIZED", lit "maximized"); (lit "MINIMIZED", lit "minimized");
  (lit "RESIZED", lit "resized"); (lit "MOVED", lit "moved");
  (lit "PAGE_INITIALIZED", lit "page.init"); (lit "PAGE_LOADED", lit "page.load");
  (lit "CREATED", lit "create"); (lit "EXIT", lit "exit"); (lit "READ", lit "read")].

Definition SetEventConstants (target : loc) : M unit :=
  st_fold (fun _ '(name, text) => v ← NewString text; vSet V target name v) tt event_constants.

Definition event_of (this : loc) : M event_data :=
  x ← geto this; match o_class x with Event e => mret e | _ => undef end.

Definition new_Event (target : loc) (eventName : str) : M loc :=
  t ← gets (now W);
  o ← new_object (lit "Event")
        (Event {| e_target := target; e_eventName := eventName; e_timestamp := t;
                  e_stopped := false; e_preventedDefault := false; e_data := None |});
  SetEventConstants o;;
  Bind V o (lit "getTarget") Event__GetTarget;;
  Bind V o (lit "getType") Event__GetType;;
  Bind V o (lit "getTimestamp") Event__GetTimestamp;;
  Bind V o (lit "stopPropagation") Event__StopPropagation;;
  Bind V o (lit "preventDefault") Event__PreventDefault;;
  mret o.

Definition new_ReadEvent (target data : loc) : M loc :=
  o ← new_Event target (lit "read");
  e ← event_of o;
  set_class o (Event {| e_target := e_target e; e_eventName := e_eventName e;
                        e_timestamp := e_timestamp e; e_stopped := e_stopped e;
                        e_preventedDefault := e_preventedDefault e; e_data := Some data |});;
  Bind V o (lit "getData") ReadEvent__GetData;;
  mret o.

Definition set_flags (this : loc) (stopped prevented : bool) : M unit :=
  e ← event_of this;
  set_class this (Event {| e_target := e_target e; e_eventName := e_eventName e;
                           e_timestamp := e_timestamp e; e_stopped := e_stopped e || stopped;
                           e_preventedDefault := e_preventedDefault e || prevented;
                           e_data := e_data e |}).

Definition Event_GetTarget (this result : loc) : M unit :=
  e ← event_of this; SetObject result (Some (e_target e)).
Definition Event_GetType (this result : loc) : M unit :=
  e ← event_of this; SetString result (e_eventName e).
(** [(int) timestamp.epochMicroseconds() / 1000]: the cast comes first. *)
Definition Event_GetTimestamp (this result : loc) : M unit :=
  e ← event_of this; SetDouble result (double_of_int (Z.quot (to_signed32 (e_timestamp e)) 1000)).
Definition Event_StopPropagation (this : loc) : M unit := set_flags this true true.
Definition Event_PreventDefault (this : loc) : M unit := set_flags this false true.
Definition ReadEvent_GetData (this result : loc) : M unit :=
  e ← event_of this; SetObject result (e_data e).

(** ** EventListener *)

(** A listener that was deleted must not be used any more. *)
Definition get_listener (l : loc) : M listener := fun h =>
  (match listeners h !! l with Some x => Ret x | None => Undef end, h).

Definition FireEventIfMatches (l event : loc) : M unit :=
  x ← get_listener l;
  e ← event_of event;
  if decide (e_eventName e <> l_eventName x /\ l_eventName x <> ALL) then mret tt
  else
    try_catch
      (v ← NewObject (Some event);
       InvokeMethodOnMainThread (l_callback x) [v] true;;
       mret tt)
      (fun ex =>
         match ex with
         | ValueException (Some v) =>
             s ← Value_DisplayString W V v 3;
             log_line (lit "KEventObject") (lit "Exception caught during window event callback: " ++ s)
         | ValueException None =>
             log_line (lit "KEventObject")
               (lit "Exception caught during window event callback: <no exception>")
         | _ => throw ex
         end).

(** [eventName == eventName] compares the parameter with itself. *)
Definition Matches (x : listener) (eventName : str) (listenerId : Z) (cb : option loc) : M bool :=
  if decide (eventName = eventName) then
    match cb with
    | None => mret ((listenerId =? 0)%Z || (negb (listenerId =? 0)%Z && (listenerId =? l_id x)%Z))
    | Some c =>
        same ← vEquals V c (Some (l_callback x));
        mret (same || (negb (listenerId =? 0)%Z && (listenerId =? l_id x)%Z))
    end
  else mret false.

(** ** KEventObject *)

(** [KEventObject::listenerMap[this]]: a null pointer when there is no entry. *)
Definition listeners_of (this : loc) : M (list loc) := fun h =>
  (match listenerMap h !! this with Some l => Ret l | None => Undef end, h).

Definition new_KEventObject (isRoot : bool) (ty : str) : M loc :=
  o ← new_object ty (KEventObject isRoot);
  modify (with_listenerMap (<[o := []]>));;
  Bind V o (lit "addEventListener") KEventObject__AddEventListener;;
  Bind V o (lit "removeEventListener") KEventObject__RemoveEventListener;;
  mret o.

(** [new EventListener(eventName, callback)] *)
Definition new_listener (eventName : str) (callback : loc) : M (loc * Z) :=
  id ← gets (fun h => wrap32 (currentId h + 1));
  modify (with_currentId id);;
  l ← alloc;
  modify (with_listeners (<[l := {| l_eventName := eventName; l_callback := callback; l_id := id |}]>));;
  mret (l, id).

Definition AddEventListener (this : loc) (eventName : str) (callback : loc) : M Z :=
  '(l, id) ← new_listener eventName callback;
  ls ← listeners_of this;
  modify (with_listenerMap (<[this := ls ++ [l]]>));;
  mret id.

Definition AddEventListenerForAllEvents (this callback : loc) : M Z := AddEventListener this ALL callback.

(** The loop of [RemoveEventListener]; the matching listeners are deleted. *)
Fixpoint remove_loop (eventName : str) (listenerId : Z) (cb : option loc) (ls : list loc)
    : M (list loc) :=
  match ls with
  | [] => mret []
  | l :: rest =>
      x ← get_listener l;
      m ← Matches x eventName listenerId cb;
      if m : bool then
        modify (with_listeners (delete l));;
        remove_loop eventName listenerId cb rest
      else rest' ← remove_loop eventName listenerId cb rest; mret (l :: rest')
  end.

Definition RemoveEventListener (this : loc) (eventName : str) (listenerId : Z) (cb : option loc)
    : M unit :=
  ls ← listeners_of this;
  ls' ← remove_loop eventName listenerId cb ls;
  modify (with_listenerMap (<[this := ls']>)).
Definition RemoveEventListener_method (this : loc) (eventName : str) (cb : option loc) : M unit :=
  RemoveEventListener this eventName 0 cb.
Definition RemoveEventListener_id (this : loc) (eventName : str) (listenerId : Z) : M unit :=
  RemoveEventListener this eventName listenerId None.

(** The loop of [FireEvent] over the copy of the vector: whether the event
    was stopped. *)
Fixpoint fire_loop (ls : list loc) (event : loc) : M bool :=
  match ls with
  | [] => mret false
  | l :: rest =>
      FireEventIfMatches l event;;
      e ← event_of event;
      if e_stopped e then mret true else fire_loop rest event
  end.

Definition is_root (this : loc) : M bool :=
  x ← geto this; match o_class x with KEventObject b => mret b | _ => undef end.

Fixpoint FireEvent_fuel (fuel : nat) (this event : loc) : M bool :=
  match fuel with
  | O => lift Fuel
  | S fuel' =>
      ls ← listeners_of this;
      stopped ← fire_loop ls event;
      (if stopped : bool then mret tt
       else
         b ← is_root this;
         if b : bool then mret tt
         else r ← gets root; FireEvent_fuel fuel' r event;; mret tt);;
      e ← event_of event;
      mret (negb (e_preventedDefault e))
  end.

(** [FireEvent(AutoPtr<Event>)]: the object, then the root, which is marked
    as such: two levels. *)
Definition FireEvent (this event : loc) : M bool := FireEvent_fuel 2 this event.
Definition FireEvent_name (this : loc) (eventName : str) : M bool :=
  event ← new_Event this eventName; FireEvent this event.
Definition FireRootEvent (event : loc) : M bool := r ← gets root; FireEvent r event.
Definition FireRootEvent_name (eventName : str) : M bool := r ← gets root; FireEvent_name r eventName.

Definition KEventObject_AddEventListener (this : loc) (args : list loc) (result : loc) : M unit :=
  let first_two :=
    if 1 <? length args then
      a0 ← at_ args 0; v0 ← getv a0;
      if IsString v0 then a1 ← at_ args 1; v1 ← getv a1; mret (IsMethod v1) else mret false
    else mret false in
  b ← first_two;
  id ← (if b : bool then
          eventName ← Arg_GetString args 0 [];
          m ← Arg_GetMethod args 1 None; cb ← some_or_undef m;
          AddEventListener this eventName cb
        else
          only ← (if 0 <? length args then a0 ← at_ args 0; v0 ← getv a0; mret (IsMethod v0)
                  else mret false);
          if only : bool then
            m ← Arg_GetMethod args 0 None; cb ← some_or_undef m;
            AddEventListenerForAllEvents this cb
          else throw_string (lit "Incorrect arguments passed to addEventListener"));
  SetDouble result (double_of_int id).

Definition KEventObject_RemoveEventListener (this : loc) (args : list loc) : M unit :=
  VerifyException args (lit "removeEventListener") (lit "s n|m");;
  eventName ← Arg_GetString args 0 [];
  a1 ← at_ args 1; v1 ← getv a1;
  if IsMethod v1 then
    m ← Arg_GetMethod args 1 None; RemoveEventListener_method this eventName m
  else
    id ← Arg_GetInt args 1 0; RemoveEventListener_id this eventName (wrap32 id).
End Virtual.

(** ** Monotonicity *)
Section Mono.
Context (W : World) (V1 V2 : VOps) (HV : vle V1 V2).
#[local] Set Default Proof Using "Type*".

Lemma LinuxJob_Execute_mono m l : approx (LinuxJob_Execute V1 m l) (LinuxJob_Execute V2 m l).
Proof. unfold LinuxJob_Execute. mono. Qed.
#[local] Hint Resolve LinuxJob_Execute_mono : mono.
Lemma PrintException_mono r : approx (PrintException W V1 r) (PrintException W V2 r).
Proof. unfold PrintException. mono. Qed.
#[local] Hint Resolve PrintException_mono : mono.
Lemma InvokeMethodOnMainThread_mono m l b :
  approx (InvokeMethodOnMainThread V1 m l b) (InvokeMethodOnMainThread V2 m l b).
Proof. unfold InvokeMethodOnMainThread. mono. Qed.
#[local] Hint Resolve InvokeMethodOnMainThread_mono : mono.
Lemma main_thread_job_handler_mono :
  approx (main_thread_job_handler W V1) (main_thread_job_handler W V2).
Proof. unfold main_thread_job_handler. mono. Qed.
Lemma SetEventConstants_mono o : approx (SetEventConstants V1 o) (SetEventConstants V2 o).
Proof. unfold SetEventConstants. mono. Qed.
#[local] Hint Resolve SetEventConstants_mono : mono.
Lemma new_Event_mono o n : approx (new_Event W V1 o n) (new_Event W V2 o n).
Proof. unfold new_Event. mono. Qed.
#[local] Hint Resolve new_Event_mono : mono.
Lemma new_ReadEvent_mono o b : approx (new_ReadEvent W V1 o b) (new_ReadEvent W V2 o b).
Proof. unfold new_ReadEvent. mono. Qed.
Lemma FireEventIfMatches_mono l e : approx (FireEventIfMatches W V1 l e) (FireEventIfMatches W V2 l e).
Proof. unfold FireEventIfMatches. mono. Qed.
#[local] Hint Resolve FireEventIfMatches_mono : mono.
Lemma Matches_mono x n i c : approx (Matches V1 x n i c) (Matches V2 x n i c).
Proof. unfold Matches. mono. Qed.
#[local] Hint Resolve Matches_mono : mono.
Lemma new_KEventObject_mono b n : approx (new_KEventObject V1 b n) (new_KEventObject V2 b n).
Proof. unfold new_KEventObject. mono. Qed.
Lemma remove_loop_mono n i c ls : approx (remove_loop V1 n i c ls) (remove_loop V2 n i c ls).
Proof. induction ls as [|l ls IH]; simpl; mono. Qed.
#[local] Hint Resolve remove_loop_mono : mono.
Lemma RemoveEventListener_mono o n i c :
  approx (RemoveEventListener V1 o n i c) (RemoveEventListener V2 o n i c).
Proof. unfold RemoveEventListener. mono. Qed.
#[local] Hint Resolve RemoveEventListener_mono : mono.
Lemma fire_loop_mono ls e : approx (fire_loop W V1 ls e) (fire_loop W V2 ls e).
Proof. induction ls as [|l ls IH]; simpl; mono. Qed.
#[local] Hint Resolve fire_loop_mono : mono.
Lemma FireEvent_mono o e : approx (FireEvent W V1 o e) (FireEvent W V2 o e).
Proof. unfold FireEvent. simpl. mono. Qed.
#[local] Hint Resolve FireEvent_mono : mono.
Lemma FireEvent_name_mono o n : approx (FireEvent_name W V1 o n) (FireEvent_name W V2 o n).
Proof. unfold FireEvent_name. mono. Qed.
Lemma keo_Remove_mono o l :
  approx (KEventObject_RemoveEventListener V1 o l) (KEventObject_RemoveEventListener V2 o l).
Proof. unfold KEventObject_RemoveEventListener, RemoveEventListener_method, RemoveEventListener_id. mono. Qed.
End Mono.
#[export] Hint Resolve LinuxJob_Execute_mono InvokeMethodOnMainThread_mono
  main_thread_job_handler_mono new_Event_mono new_ReadEvent_mono new_KEventObject_mono
  RemoveEventListener_mono FireEvent_mono FireEvent_name_mono keo_Remove_mono : mono.
