(* ===== verification/Blob.v ===== *)
(** * Blob: binary data as an object with string operations
    (api/binding/blob.cpp)

    The buffer holds [length] bytes and a NUL after them. The operations read
    it as a C string, that is up to its first NUL. *)

From S2P Require Import Prelude CppString Double FileUtils Heap Virtual KObject StaticBound.
From S2P Require Import StaticLaws ArgList.
From stdpp Require Import options.

(** ** The computations on texts *)

Definition npos_to_int (pos : option nat) : Z :=
  match pos with None => (-1)%Z | Some p => to_signed32 (Z.of_nat p) end.

(** The loop of [Split]: [size] counts the tokens in the list so far. *)
Fixpoint split_loop (fuel : nat) (separator : str) (limit size : Z) (target : str) (next : option nat)
    : res (list str) :=
  match fuel with
  | O => Fuel
  | S fuel' =>
      match next with
      | Some n =>
          if decide (0 < length target) then
            token ← (match separator with
                     | [] => substr target 0 (Some 1)
                     | _ => substr target 0 (Some n)
                     end);
            target ← substr target (n + 1) None;
            let next := find target separator 0 in
            if (limit <=? size)%Z then Ret []
            else tokens ← split_loop fuel' separator limit (size + 1) target next;
                 Ret (token :: tokens)
          else Ret (if (size <? limit)%Z && bool_decide (separator <> []) then [target] else [])
      | None => Ret (if (size <? limit)%Z && bool_decide (separator <> []) then [target] else [])
      end
  end.

Definition split_text (separator : str) (limit : Z) (target : str) : res (list str) :=
  split_loop (S (S (length target))) separator limit 0 target (find target separator 0).

(** [Substring]: the indices are clamped and ordered. *)
Definition clamp_index (i size : Z) : Z :=
  let i := if (i <? 0)%Z then 0%Z else i in if (size <? i)%Z then size else i.

Definition substring_text (target : str) (a : Z) (b : option Z) : res str :=
  let size := Z.of_nat (length target) in
  let indexA := clamp_index a size in
  match b with
  | None => substr target (Z.to_nat indexA) None
  | Some b =>
      let indexB := clamp_index b size in
      if (indexA =? indexB)%Z then Ret []
      else
        let '(indexA, indexB) := if (indexB <? indexA)%Z then (indexB, indexA) else (indexA, indexB) in
        substr target (Z.to_nat indexA) (Some (Z.to_nat (indexB - indexA)))
  end.

(** [Substr]: [len] is the length of the blob, [target] its text up to the
    first NUL. The product [-1*start] overflows for the least [int]. *)
Definition substr_text (target : str) (len start : Z) (count : option Z) : res str :=
  if (0 <? start)%Z && (len <=? start)%Z then Ret []
  else if (start =? int_min)%Z then Undef
  else
    let start := if (start <? 0)%Z then (if (len <? - start)%Z then 0%Z else (len + start)%Z)
                 else start in
    let length := match count with Some n => n | None => (len - start)%Z end in
    if (length <=? 0)%Z then Ret []
    else substr target (Z.to_nat start) (Some (Z.to_nat length)).

(** ** The object *)

Definition blob_fields (this : loc) : M (option str * Z) :=
  x ← geto this; match o_class x with Blob b n => mret (b, n) | _ => undef end.

(** [std::string target = this->buffer] when the length is positive *)
Definition blob_text (this : loc) : M str :=
  '(buffer, length) ← blob_fields this;
  if (0 <? length)%Z then b ← some_or_undef buffer; mret (c_str b) else mret [].

Section Virtual.
Context (W : World) (V : VOps).

Definition CreateWithReference (buffer : option str) (length : Z) : M loc :=
  o ← new_object (lit "Blob") (Blob buffer length);
  Bind V o (lit "toString") Blob__ToString;;
  Bind V o (lit "get") Blob__Get;;
  Bind V o (lit "indexOf") Blob__IndexOf;;
  Bind V o (lit "lastIndexOf") Blob__LastIndexOf;;
  Bind V o (lit "charAt") Blob__CharAt;;
  Bind V o (lit "split") Blob__Split;;
  Bind V o (lit "substring") Blob__Substring;;
  Bind V o (lit "substr") Blob__Substr;;
  Bind V o (lit "toLowerCase") Blob__ToLowerCase;;
  Bind V o (lit "toUpperCase") Blob__ToUpperCase;;
  Bind V o (lit "concat") Blob__Concat;;
  v ← NewInt length;
  vSet V o (lit "length") v;;
  mret o.

Definition CreateWithCopy (bufferIn : str) (length : Z) : M loc :=
  if (0 <? length)%Z then CreateWithReference (Some (take (Z.to_nat length) bufferIn)) length
  else CreateWithReference None length.

Definition new_Blob : M loc := CreateWithCopy [] 0.
Definition new_Blob_string (s : str) : M loc := CreateWithCopy s (Z.of_nat (length s)).

Definition Blob_ToString (this result : loc) : M unit :=
  '(buffer, length) ← blob_fields this;
  if (length =? 0)%Z then SetString result [] else b ← some_or_undef buffer; SetString result b.

(** The address of the object stands for the address of its buffer. *)
Definition Blob_Get (this result : loc) : M unit :=
  '(buffer, _) ← blob_fields this;
  SetVoidPtr result (match buffer with None => 0%N | Some _ => this end).

Definition Blob_Length (this result : loc) : M unit :=
  '(_, length) ← blob_fields this; SetInt result length.

(** The optional start of a search: not below 0. *)
Definition search_start (args : list loc) (default : Z) : M Z :=
  if 1 <? length args then
    d ← Arg_GetNumber args 1 zero;
    let start := int_of_double d in
    mret (if (start <? 0)%Z then 0%Z else start)
  else mret default.

Definition Blob_IndexOf (this : loc) (args : list loc) (result : loc) : M unit :=
  VerifyException args (lit "Blob.indexOf") (lit "s,?i");;
  '(_, length) ← blob_fields this;
  if (length <=? 0)%Z then SetInt result (-1)
  else
    target ← blob_text this;
    a ← at_ args 0; v ← getv a; needle ← ToString v;
    start ← search_start args 0;
    SetInt result (npos_to_int (find target needle (Z.to_nat start))).

Definition Blob_LastIndexOf (this : loc) (args : list loc) (result : loc) : M unit :=
  VerifyException args (lit "Blob.lastIndexOf") (lit "s,?i");;
  '(_, length) ← blob_fields this;
  if (length <=? 0)%Z then SetInt result (-1)
  else
    target ← blob_text this;
    a ← at_ args 0; v ← getv a; needle ← ToString v;
    start ← search_start args (Z.of_nat (List.length target) + 1);
    SetInt result (npos_to_int (rfind target needle (Z.to_nat start))).

Definition Blob_CharAt (this : loc) (args : list loc) (result : loc) : M unit :=
  VerifyException args (lit "Blob.charAt") (lit "n");;
  a ← at_ args 0; v ← getv a;
  let position := ToInt v in
  '(buffer, length) ← blob_fields this;
  if (0 <=? position)%Z && (position <? length)%Z then
    b ← some_or_undef buffer; c ← some_or_undef (b !! Z.to_nat position);
    SetString result [c]
  else SetString result [].

Definition append_string (list : loc) (s : str) : M unit :=
  v ← NewString s; StaticBoundList_Append list v.

Definition Blob_Split (this : loc) (args : list loc) (result : loc) : M unit :=
  VerifyException args (lit "Blob.split") (lit "?s,i");;
  list ← new_StaticBoundList (lit "StaticBoundList");
  SetList result (Some list);;
  '(_, length) ← blob_fields this;
  target ← blob_text this;
  if (length <=? 0)%Z then append_string list target
  else if decide (args = []) then append_string list target
  else
    separator ← Arg_GetString args 0 [];
    limit ← (if 1 <? List.length args then Arg_GetInt args 1 0 else mret int_max);
    tokens ← lift (split_text separator limit target);
    st_fold (fun _ s => append_string list s) tt tokens.

(** [GetInt(1)] if there is a second argument *)
Definition second_int (args : list loc) : M (option Z) :=
  if 1 <? length args then n ← Arg_GetInt args 1 0; mret (Some n) else mret None.

Definition Blob_Substr (this : loc) (args : list loc) (result : loc) : M unit :=
  VerifyException args (lit "Blob.substr") (lit "i,?i");;
  '(_, length) ← blob_fields this;
  target ← blob_text this;
  start ← Arg_GetInt args 0 0;
  count ← second_int args;
  r ← lift (substr_text target length start count);
  SetString result r.

Definition Blob_Substring (this : loc) (args : list loc) (result : loc) : M unit :=
  VerifyException args (lit "Blob.substring") (lit "i,?i");;
  target ← blob_text this;
  indexA ← Arg_GetInt args 0 0;
  indexB ← second_int args;
  r ← lift (substring_text target indexA indexB);
  SetString result r.

Definition Blob_ToLowerCase (this result : loc) : M unit :=
  '(_, length) ← blob_fields this;
  if (0 <? length)%Z then target ← blob_text this; SetString result (poco_toLower W target)
  else SetNull result.
Definition Blob_ToUpperCase (this result : loc) : M unit :=
  '(_, length) ← blob_fields this;
  if (0 <? length)%Z then target ← blob_text this; SetString result (poco_toUpper W target)
  else SetNull result.

(** The bytes that [memcpy] takes from a blob. *)
Definition blob_bytes (this : loc) : M str :=
  '(buffer, length) ← blob_fields this;
  if (0 <? length)%Z then b ← some_or_undef buffer; mret (take (Z.to_nat length) b) else mret [].

Definition Concat_blobs (this : loc) (blobs : list loc) : M loc :=
  match blobs with
  | [] => mret this
  | _ =>
      parts ← st_map blob_bytes (this :: blobs);
      let buffer := concat parts in
      CreateWithReference (Some buffer) (Z.of_nat (length buffer))
  end.

Definition is_Blob (c : class) : bool := match c with Blob _ _ => true | _ => false end.

(** The blobs and strings among the arguments; other values are left out. *)
Fixpoint concat_args (args : list loc) : M (list loc) :=
  match args with
  | [] => mret []
  | a :: rest =>
      v ← getv a;
      b ← (if IsObject v then dynamic_cast is_Blob (ToObject v)
           else if IsString v then s ← ToString v; o ← new_Blob_string s; mret (Some o)
           else mret None);
      rest' ← concat_args rest;
      mret (match b with Some o => o :: rest' | None => rest' end)
  end.

Definition Blob_Concat (this : loc) (args : list loc) (result : loc) : M unit :=
  blobs ← concat_args args;
  newBlob ← Concat_blobs this blobs;
  SetObject result (Some newBlob).

Definition GlobBlobs (blobs : list loc) : M loc := blob ← new_Blob; Concat_blobs blob blobs.
End Virtual.

(** ** Monotonicity *)
Section Mono.
Context (V1 V2 : VOps) (HV : vle V1 V2).
#[local] Set Default Proof Using "Type*".
Lemma CreateWithReference_mono b n : approx (CreateWithReference V1 b n) (CreateWithReference V2 b n).
Proof. unfold CreateWithReference. mono. Qed.
#[local] Hint Resolve CreateWithReference_mono : mono.
Lemma CreateWithCopy_mono b n : approx (CreateWithCopy V1 b n) (CreateWithCopy V2 b n).
Proof. unfold CreateWithCopy. mono. Qed.
#[local] Hint Resolve CreateWithCopy_mono : mono.
Lemma new_Blob_string_mono s : approx (new_Blob_string V1 s) (new_Blob_string V2 s).
Proof. unfold new_Blob_string. mono. Qed.
#[local] Hint Resolve new_Blob_string_mono : mono.
Lemma concat_args_mono l : approx (concat_args V1 l) (concat_args V2 l).
Proof. induction l as [|a l IH]; simpl; mono. Qed.
#[local] Hint Resolve concat_args_mono : mono.
Lemma Blob_Concat_mono o l r : approx (Blob_Concat V1 o l r) (Blob_Concat V2 o l r).
Proof. unfold Blob_Concat, Concat_blobs. mono. Qed.
End Mono.
#[export] Hint Resolve CreateWithReference_mono CreateWithCopy_mono Blob_Concat_mono : mono.

(** ** Splitting *)

Lemma find_char_Some c t n :
  find t [c] 0 = Some n -> t = take n t ++ c :: drop (S n) t /\ (c ∉ take n t) /\ n < length t.
Proof.
  unfold find. simpl. rewrite drop_0. intros (_ & Hp & Hn & Hmin)%find_at_Some.
  rewrite Nat.sub_0_r in *. apply is_prefix_spec in Hp as [k Hk].
  assert (n < length t) as Hlt.
  { destruct (decide (n = length t)) as [->|]; [|lia]. by rewrite drop_all in Hk. }
  split_and!; [|..|done].
  - rewrite <- (take_drop n t) at 1. f_equal. change [c] with ([c] ++ []) in Hk. rewrite Hk.
    simpl. f_equal. replace (S n) with (n + 1) by lia. rewrite <- drop_drop, Hk. done.
  - intros Hin. apply list_elem_of_lookup in Hin as [i Hi]. pose proof (lookup_lt_Some _ _ _ Hi) as Hl.
    rewrite length_take in Hl. rewrite lookup_take_lt in Hi by lia.
    specialize (Hmin i ltac:(lia)). rewrite Nat.sub_0_r in Hmin.
    assert (is_prefix [c] (drop i t) = true) as E; [|congruence].
    apply is_prefix_spec. exists (drop (S i) t). by apply drop_S.
Qed.

Lemma intercalate_cons sep (t : str) ts :
  ts <> [] -> intercalate sep (t :: ts) = t ++ sep ++ intercalate sep ts.
Proof. by destruct ts. Qed.

Lemma split_loop_char c limit fuel : forall size target,
  length target + 1 < fuel -> (size + Z.of_nat (length target) < limit)%Z ->
  exists tokens, split_loop fuel [c] limit size target (find target [c] 0) = Ret tokens /\
    tokens <> [] /\ intercalate [c] tokens = target /\ Forall (fun t => c ∉ t) tokens.
Proof.
  induction fuel as [|fuel IH]; intros size target Hf Hl; [lia|]. cbn [split_loop].
  destruct (find target [c] 0) as [n|] eqn:E.
  - apply find_char_Some in E as (Ht & Hn & Hlt). rewrite decide_True by lia.
    rewrite (substr_Ret target 0) by lia. rewrite drop_0, res_bind_ret.
    rewrite substr_Ret by lia. rewrite res_bind_ret.
    rewrite (proj2 (Z.leb_gt _ _)) by lia.
    destruct (IH (size + 1)%Z (drop (n + 1) target)) as (tokens & Hrun & Hne & Hj & Ha);
      [rewrite length_drop; lia..|].
    exists (take n target :: tokens). cbv zeta. rewrite Hrun. split_and!; [done|done| |by constructor].
    rewrite intercalate_cons by done. rewrite Hj, Nat.add_1_r. by symmetry.
  - apply find_char_None in E. rewrite (proj2 (Z.ltb_lt _ _)) by lia.
    exists [target]. rewrite bool_decide_true by done. repeat constructor; done.
Qed.

(** Splitting at a one-character separator loses nothing: without a
    limit, [Split] terminates, no token contains the separator, and joining
    the tokens with the separator gives the text back, empty tokens at the
    ends and between adjacent separators included. *)
Theorem blob_split_join c target :
  (Z.of_nat (length target) < int_max)%Z ->
  exists tokens, split_text [c] int_max target = Ret tokens /\
    intercalate [c] tokens = target /\ Forall (fun t => c ∉ t) tokens.
Proof.
  intros Hl. destruct (split_loop_char c int_max (S (S (length target))) 0 target)
    as (tokens & Hrun & _ & Hj & Ha); [lia..|]. by exists tokens.
Qed.

Lemma blob_split_join_witness :
  exists tokens, split_text (lit ",") int_max (lit "abc,def,,") = Ret tokens /\
    intercalate (lit ",") tokens = lit "abc,def,," /\ Forall (fun t => ","%char ∉ t) tokens.
Proof. apply (blob_split_join ","%char). vm_compute. reflexivity. Defined.

(** A separator of several characters is only skipped by one. *)
Lemma split_long_separator :
  split_text (lit "::") int_max (lit "a::b") = Ret [lit "a"; lit ":b"].
Proof. vm_compute. reflexivity. Qed.

(** ** Substrings *)

Lemma clamp_index_spec i size :
  (0 <= size)%Z -> clamp_index i size = Z.max 0 (Z.min i size).
Proof. unfold clamp_index. intros. destruct (i <? 0)%Z eqn:E; case_match; lia. Qed.

(** [substring] never fails, whatever its indices: they are clamped to
    the text and put in order, and the result is the text between them. *)
Theorem blob_substring_total target a b :
  let size := Z.of_nat (length target) in
  let i := Z.max 0 (Z.min a size) in
  let j := Z.max 0 (Z.min (default size b) size) in
  substring_text target a b =
  Ret (match b with
       | None => drop (Z.to_nat i) target
       | Some _ => take (Z.to_nat (Z.max i j - Z.min i j)) (drop (Z.to_nat (Z.min i j)) target)
       end).
Proof.
  intros size i j. unfold substring_text. fold size.
  rewrite clamp_index_spec by lia. fold i. destruct b as [b|].
  - rewrite clamp_index_spec by lia. simpl in j. fold j. unfold substr.
    destruct (i =? j)%Z eqn:E.
    { apply Z.eqb_eq in E. rewrite E. rewrite Z.max_id, Z.min_id, Z.sub_diag. done. }
    apply Z.eqb_neq in E. destruct (j <? i)%Z eqn:E2;
      rewrite (proj2 (Nat.leb_le _ _)) by (unfold size, i, j in *; lia); do 2 f_equal; f_equal; lia.
  - unfold substr. rewrite (proj2 (Nat.leb_le _ _)) by (unfold size, i in *; lia). done.
Qed.

(** [substr] on a blob without NUL bytes (its text is as long as the
    blob): a negative start counts from the end, and the result is the part
    of the text from the start with at most the given number of bytes; it
    never fails but for the least [int], whose negation overflows. *)
Theorem blob_substr_slice target start count :
  let len := Z.of_nat (length target) in
  let from := if (start <? 0)%Z then Z.max 0 (len + start) else start in
  start <> int_min ->
  substr_text target len start count =
  Ret (take (Z.to_nat (default len count)) (drop (Z.to_nat from) target)).
Proof.
  intros len from Hs. unfold substr_text.
  destruct ((0 <? start)%Z && (len <=? start)%Z) eqn:E1.
  { assert (drop (Z.to_nat from) target = []) as ->; [|by rewrite take_nil].
    apply drop_ge. unfold from, len in *. case_match; lia. }
  rewrite (proj2 (Z.eqb_neq _ _)) by done.
  assert ((if start <? 0 then if len <? - start then 0 else len + start else start)%Z = from) as ->.
  { unfold from. destruct (start <? 0)%Z eqn:E2; [|done]. case_match; lia. }
  assert (0 <= from <= len)%Z as Hfrom.
  { unfold from, len in *. destruct (start <? 0)%Z eqn:E2; [lia|]. apply andb_false_iff in E1. lia. }
  destruct (_ <=? 0)%Z eqn:E3.
  { destruct count as [n|]; simpl.
    - by replace (Z.to_nat n) with 0 by lia.
    - rewrite drop_ge by (unfold len in *; lia). by rewrite take_nil. }
  unfold substr. rewrite (proj2 (Nat.leb_le _ _)) by (unfold len in *; lia).
  destruct count as [n|]; simpl; [done|].
  rewrite !take_ge by (rewrite length_drop; unfold len in *; lia). done.
Qed.

Lemma blob_substr_slice_witness :
  (-2)%Z <> int_min /\ substr_text (lit "hello") 5 (-2) None = Ret (lit "lo").
Proof. split; [done|]. apply (blob_substr_slice (lit "hello") (-2) None). done. Defined.

(** With a NUL byte in the blob the text is shorter than the blob, and
    [std::out_of_range] leaves the method. *)
Lemma substr_after_nul : substr_text (lit "a") 3 2 None = Throw out_of_range.
Proof. reflexivity. Qed.
