(* ===== verification/AsyncJob.v ===== *)
(** * AsyncJob: jobs with progress and callbacks (api/async_job.cpp)

    [RunAsynchronously] only moves [Run] to another thread; the threads
    themselves are not modelled. *)

From S2P Require Import Prelude CppString Double Heap Virtual KObject StaticBound StaticLaws.
From S2P Require Import Events.
From Stdlib Require Import Floats.SpecFloat.
From stdpp Require Import options.

Definition one : double := double_of_int 1.

(** [if (progress < 0.0) progress = 0.0; else if (progress > 1.0) progress = 1.0;] *)
Definition clamp_progress (progress : double) : double :=
  if SFltb progress zero then zero
  else if SFltb one progress then one
  else progress.

Definition job_of (this : loc) : M job_data :=
  x ← geto this; match o_class x with AsyncJob j => mret j | _ => undef end.

Definition update_job (this : loc) (f : job_data -> job_data) : M unit :=
  j ← job_of this; set_class this (AsyncJob (f j)).

Definition with_progress p j :=
  {| j_job := j_job j; j_progress := p; j_completed := j_completed j; j_result := j_result j;
     j_hadError := j_hadError j; j_cancelled := j_cancelled j; j_sharedThis := j_sharedThis j;
     j_progressCallbacks := j_progressCallbacks j; j_completedCallbacks := j_completedCallbacks j;
     j_errorCallbacks := j_errorCallbacks j |}.
Definition with_state completed result hadError cancelled sharedThis j :=
  {| j_job := j_job j; j_progress := j_progress j; j_completed := completed; j_result := result;
     j_hadError := hadError; j_cancelled := cancelled; j_sharedThis := sharedThis;
     j_progressCallbacks := j_progressCallbacks j; j_completedCallbacks := j_completedCallbacks j;
     j_errorCallbacks := j_errorCallbacks j |}.
Definition with_callbacks p c e j :=
  {| j_job := j_job j; j_progress := j_progress j; j_completed := j_completed j;
     j_result := j_result j; j_hadError := j_hadError j; j_cancelled := j_cancelled j;
     j_sharedThis := j_sharedThis j;
     j_progressCallbacks := p; j_completedCallbacks := c; j_errorCallbacks := e |}.

Section Virtual.
Context (V : VOps).

(** The callback is queued for the main thread with the job as argument (a
    null object once the job has finished). *)
Definition DoCallback (this method : loc) : M unit :=
  j ← job_of this;
  v ← NewObject (j_sharedThis j);
  InvokeMethodOnMainThread V method [v] false;;
  mret tt.

(** [OnProgressChanged], [OnCompleted] and [OnError] are empty here. *)
Definition SetProgress (this : loc) (progress : double) (callbacks : bool) : M unit :=
  update_job this (with_progress (clamp_progress progress));;
  if callbacks then
    j ← job_of this;
    st_fold (fun _ m => DoCallback this m) tt (j_progressCallbacks j)
  else mret tt.

Definition new_AsyncJob (job : option loc) : M loc :=
  o ← new_object (lit "StaticBoundObject")
        (AsyncJob {| j_job := job; j_progress := zero; j_completed := false; j_result := Undefined;
                     j_hadError := false; j_cancelled := false; j_sharedThis := None;
                     j_progressCallbacks := []; j_completedCallbacks := []; j_errorCallbacks := [] |});
  SetProgress o zero false;;
  Bind V o (lit "getProgress") AsyncJob__GetProgress;;
  Bind V o (lit "cancel") AsyncJob__Cancel;;
  Bind V o (lit "isComplete") AsyncJob__IsComplete;;
  update_job o (fun j => with_state (j_completed j) (j_result j) (j_hadError j) (j_cancelled j) (Some o) j);;
  mret o.

Definition Job_Error (this : loc) : M unit :=
  update_job this (fun j => with_state (j_completed j) (j_result j) true (j_cancelled j) (j_sharedThis j) j);;
  j ← job_of this;
  st_fold (fun _ m => DoCallback this m) tt (j_errorCallbacks j).

(** Only a ValueException is handled; a null job is dereferenced. *)
Definition Execute (this : loc) : M loc :=
  try_catch
    (j ← job_of this; m ← some_or_undef (j_job j); vCall V m [])
    (fun e =>
       match e with
       | ValueException _ => Job_Error this;; mret Undefined
       | _ => throw e
       end).

Definition Run (this : loc) : M unit :=
  r ← Execute this;
  update_job this (fun j => with_state (j_completed j) r (j_hadError j) (j_cancelled j) (j_sharedThis j) j);;
  j ← job_of this;
  (if j_hadError j then mret tt
   else
     update_job this (fun j => with_state true (j_result j) (j_hadError j) (j_cancelled j) (j_sharedThis j) j);;
     j ← job_of this;
     st_fold (fun _ m => DoCallback this m) tt (j_completedCallbacks j));;
  update_job this (fun j => with_state (j_completed j) (j_result j) (j_hadError j) (j_cancelled j) None j).

Definition Cancel (this : loc) : M unit :=
  update_job this (fun j => with_state (j_completed j) (j_result j) (j_hadError j) true (j_sharedThis j) j).
Definition GetProgress (this : loc) : M double := j ← job_of this; mret (j_progress j).

Definition AddProgressCallback (this cb : loc) : M unit :=
  update_job this (fun j => with_callbacks (j_progressCallbacks j ++ [cb]) (j_completedCallbacks j)
                              (j_errorCallbacks j) j).
Definition AddCompletedCallback (this cb : loc) : M unit :=
  update_job this (fun j => with_callbacks (j_progressCallbacks j) (j_completedCallbacks j ++ [cb])
                              (j_errorCallbacks j) j).
Definition AddErrorCallback (this cb : loc) : M unit :=
  update_job this (fun j => with_callbacks (j_progressCallbacks j) (j_completedCallbacks j)
                              (j_errorCallbacks j ++ [cb]) j).

Definition AsyncJob_Cancel (this : loc) : M unit := Cancel this.
Definition AsyncJob_GetProgress (this result : loc) : M unit :=
  p ← GetProgress this; SetDouble result p.
Definition AsyncJob_IsComplete (this result : loc) : M unit :=
  j ← job_of this; SetBool result (j_completed j).
End Virtual.

Section Mono.
Context (V1 V2 : VOps) (HV : vle V1 V2).
#[local] Set Default Proof Using "Type*".
Lemma DoCallback_mono o m : approx (DoCallback V1 o m) (DoCallback V2 o m).
Proof. unfold DoCallback. mono. Qed.
#[local] Hint Resolve DoCallback_mono : mono.
Lemma SetProgress_mono o p b : approx (SetProgress V1 o p b) (SetProgress V2 o p b).
Proof. unfold SetProgress. mono. Qed.
Lemma Run_mono o : approx (Run V1 o) (Run V2 o).
Proof. unfold Run, Execute, Job_Error. mono. Qed.
End Mono.
#[export] Hint Resolve SetProgress_mono Run_mono : mono.
