(* ===== verification/Script.v ===== *)
(** * Script: the evaluators of scripts (api/script.cpp)

    The evaluators are objects in a list that is itself an object, so every
    step goes through virtual calls, which may change the list. *)

From S2P Require Import Prelude CppString Double System FileUtils Logger Heap Virtual KObject.
From S2P Require Import StaticBound StaticLaws ArgList Blob.
From stdpp Require Import options.

Definition HasExtension (script extension : str) : bool :=
  let scriptStr := c_str script in
  let extStr := lit "." ++ c_str extension in
  (length extStr <=? length scriptStr)
  && bool_decide (drop (length scriptStr - length extStr) scriptStr = extStr).

(** [substr(rfind("."))]: without a dot, [substr(npos)] throws. *)
Definition GetExtension (script : str) : res str :=
  let scriptStr := c_str script in
  match rfind scriptStr (lit ".") (length scriptStr) with
  | None => Throw out_of_range
  | Some p => substr scriptStr p None
  end.

(** [Script::evaluators] of the instance, which is null before [Initialize]. *)
Definition evaluators : M loc := o ← gets (fun h => s_evaluators (sys h)); some_or_undef o.

Definition Script_Initialize : M unit :=
  l ← new_StaticBoundList (lit "StaticBoundList");
  modify (with_sys (with_evaluators (Some l))).

(** The text that [Logger::Format] gives to a format with one [%s]. *)
Definition format_s (before arg after : str) : str := Format (before ++ arg ++ after).

Record PreprocessData := { pd_data : option loc; pd_mimeType : str }.

Section Virtual.
Context (V : VOps).

Definition AddScriptEvaluator (evaluator : option loc) : M unit :=
  l ← evaluators;
  v ← NewObject evaluator;
  vAppend V l v.

(** [evaluators->At(i)->ToObject()], dereferenced by the caller *)
Definition evaluator_at (i : Z) : M loc :=
  l ← evaluators;
  e ← vAt V l i;
  v ← getv e;
  some_or_undef (ToObject v).

(** The loop of [RemoveScriptEvaluator]: the index, or [None] for -1. *)
Definition remove_evaluator_step (evaluator : option loc) (i : Z) : M (Z + option Z) :=
  l ← evaluators;
  size ← vSize V l;
  if (i <? size)%Z then
    o ← evaluator_at i;
    same ← vEquals V o evaluator;
    mret (if same : bool then inr (Some (to_signed32 i)) else inl (i + 1)%Z)
  else mret (inr None).

Definition RemoveScriptEvaluator (evaluator : option loc) : M unit :=
  index ← loop (vFuel V) (remove_evaluator_step evaluator) 0%Z;
  match index with
  | Some index => if (index =? -1)%Z then mret tt
                  else l ← evaluators; vRemove V l (wrap32 index);; mret tt
  | None => mret tt
  end.

(** One turn of the loop of [FindEvaluatorWithMethod]. *)
Definition find_evaluator_step (method : str) (args : list loc) (i : Z) : M (Z + option loc) :=
  l ← evaluators;
  size ← vSize V l;
  if (i <? size)%Z then
    o ← evaluator_at i;
    finder ← GetMethod V o method None;
    match finder with
    | None => mret (inl (i + 1)%Z)
    | Some finder =>
        result ← vCall V finder args;
        v ← getv result;
        yes ← (if IsBool v then ToBool v else mret false);
        if yes : bool then
          l ← evaluators; e ← vAt V l i; v ← getv e; mret (inr (ToObject v))
        else mret (inl (i + 1)%Z)
    end
  else mret (inr None).

Definition FindEvaluatorWithMethod (method arg : str) : M (option loc) :=
  a ← NewString arg;
  loop (vFuel V) (find_evaluator_step method [a]) 0%Z.

Definition CanEvaluate (mimeType : str) : M bool :=
  o ← FindEvaluatorWithMethod (lit "canEvaluate") mimeType; mret (bool_decide (o <> None)).
Definition CanPreprocess (url : str) : M bool :=
  o ← FindEvaluatorWithMethod (lit "canPreprocess") url; mret (bool_decide (o <> None)).

(** The two branches of [Evaluate]. *)
Definition no_evaluator_text (mimeType : str) : str :=
  format_s (lit "Error evaluating: No evaluator found for mimeType: " ++ quote) (c_str mimeType) quote.
Definition evaluate_with (evaluator : loc) (mimeType name code : str) (scope : option loc) : M loc :=
  evaluate ← GetMethod V evaluator (lit "evaluate") None;
  match evaluate with
  | Some evaluate =>
      a1 ← NewString mimeType; a2 ← NewString name; a3 ← NewString code; a4 ← NewObject scope;
      vCall V evaluate [a1; a2; a3; a4]
  | None =>
      throw_string (format_s
        (lit "Error evaluating: No " ++ quote ++ lit "evaluate" ++ quote
           ++ lit " method found on evaluator for mimeType: " ++ quote) (c_str mimeType) quote)
  end.

Definition Evaluate (mimeType name code : str) (scope : option loc) : M loc :=
  evaluator ← FindEvaluatorWithMethod (lit "canEvaluate") mimeType;
  match evaluator with
  | Some evaluator => evaluate_with evaluator mimeType name code scope
  | None => throw_string (no_evaluator_text mimeType)
  end.

(** The data of the object that a preprocessor answered. *)
Definition preprocess_data (object : loc) : M (option loc) :=
  objectData ← vGet V object (lit "data");
  v ← getv objectData;
  if IsObject v then dynamic_cast is_Blob (ToObject v)
  else if IsString v then
    s ← ToString v; b ← CreateWithCopy V s (Z.of_nat (length (c_str s))); mret (Some b)
  else mret None.

(** [None] is the null pointer. *)
Definition Preprocess (url : str) (scope : option loc) : M (option PreprocessData) :=
  evaluator ← FindEvaluatorWithMethod (lit "canPreprocess") url;
  match evaluator with
  | Some evaluator =>
      preprocess ← GetMethod V evaluator (lit "preprocess") None;
      match preprocess with
      | Some preprocess =>
          a1 ← NewString url; a2 ← NewObject scope;
          result ← vCall V preprocess [a1; a2];
          v ← getv result;
          if IsObject v then
            object ← some_or_undef (ToObject v);
            has ← vHasProperty V object (lit "data");
            data ← (if has : bool then preprocess_data object
                    else throw_string (lit "Preprocessor didn't return any data"));
            has ← vHasProperty V object (lit "mimeType");
            mimeType ← (if has : bool then
                          m ← vGet V object (lit "mimeType"); mv ← getv m; s ← ToString mv;
                          mret (c_str s)
                        else throw_string (lit "Preprocessor didn't return a mimeType"));
            mret (Some {| pd_data := data; pd_mimeType := mimeType |})
          else mret None
      | None =>
          throw_string (format_s
            (lit "Error preprocessing: No " ++ quote ++ lit "preprocess" ++ quote
               ++ lit " method found on evaluator for url: " ++ quote) (c_str url) quote)
      end
  | None =>
      throw_string (format_s (lit "Error preprocessing: No evaluator found for url: " ++ quote)
        (c_str url) quote)
  end.
End Virtual.

(** ** Monotonicity *)
Section Mono.
Context (V1 V2 : VOps) (HV : vle V1 V2).
#[local] Set Default Proof Using "Type*".

Lemma AddScriptEvaluator_mono e : approx (AddScriptEvaluator V1 e) (AddScriptEvaluator V2 e).
Proof. unfold AddScriptEvaluator. mono. Qed.
Lemma evaluator_at_mono i : approx (evaluator_at V1 i) (evaluator_at V2 i).
Proof. unfold evaluator_at. mono. Qed.
#[local] Hint Resolve evaluator_at_mono : mono.
Lemma RemoveScriptEvaluator_mono e :
  approx (RemoveScriptEvaluator V1 e) (RemoveScriptEvaluator V2 e).
Proof. unfold RemoveScriptEvaluator, remove_evaluator_step. mono. Qed.
Lemma FindEvaluatorWithMethod_mono m a :
  approx (FindEvaluatorWithMethod V1 m a) (FindEvaluatorWithMethod V2 m a).
Proof. unfold FindEvaluatorWithMethod, find_evaluator_step. mono. Qed.
#[local] Hint Resolve FindEvaluatorWithMethod_mono : mono.
Lemma CanEvaluate_mono m : approx (CanEvaluate V1 m) (CanEvaluate V2 m).
Proof. unfold CanEvaluate. mono. Qed.
Lemma CanPreprocess_mono m : approx (CanPreprocess V1 m) (CanPreprocess V2 m).
Proof. unfold CanPreprocess. mono. Qed.
Lemma Evaluate_mono m n c s : approx (Evaluate V1 m n c s) (Evaluate V2 m n c s).
Proof. unfold Evaluate, evaluate_with. mono. Qed.
Lemma preprocess_data_mono o : approx (preprocess_data V1 o) (preprocess_data V2 o).
Proof. unfold preprocess_data. mono. Qed.
#[local] Hint Resolve preprocess_data_mono : mono.
Lemma Preprocess_mono u s : approx (Preprocess V1 u s) (Preprocess V2 u s).
Proof. unfold Preprocess. mono. Qed.
End Mono.
#[export] Hint Resolve AddScriptEvaluator_mono RemoveScriptEvaluator_mono
  FindEvaluatorWithMethod_mono CanEvaluate_mono CanPreprocess_mono Evaluate_mono Preprocess_mono : mono.
