(* ===== verification/ApiObjects.v ===== *)
(** * ApiObjects: the objects through which scripts see the kernel
    (application_binding.cpp, component_binding.cpp, dependency_binding.cpp,
    environment_binding.cpp and script_binding.cpp of modules/api, and the
    wrappers of api_binding.cpp)

    The bindings are accessor objects: a script that reads [app.name] calls
    the method [getName]. Their functions read and change the state of the
    other components, which is the field [sys] of the heap. *)

From S2P Require Import Prelude CppString FileUtils BootUtils EnvironmentUtils Application Logger.
From S2P Require Import System Directories Double Heap Virtual KObject StaticBound StaticLaws ArgList Script.
From stdpp Require Import options.

(** ** The state of the other components *)

Definition on_boot {A} (m : BM A) : M A := on_sys (zoom s_boot with_boot m).
Definition on_environ {A} (m : EM A) : M A := on_sys (zoom s_environ with_environ m).
Definition on_log {A} (m : LM A) : M A := on_sys (zoom s_log with_log m).
Definition on_fs {A} (m : ST FS A) : M A := on_sys (zoom s_fs with_fs m).

Definition the_fs : M FS := gets (fun h => s_fs (sys h)).

(** An application by its address; a null or stale pointer is not one. *)
Definition the_app (p : N) : M Application :=
  apps ← gets (fun h => s_apps (sys h)); some_or_undef (apps !! p).
Definition put_app (p : N) (a : Application) : M unit :=
  modify (with_sys (fun s => with_apps (<[p := a]> (s_apps s)) s)).
Definition new_app (a : Application) : M N := p ← alloc; put_app p a;; mret p.

(** The names of a [std::map] in their order. *)
Definition map_names {A} (m : gmap str A) : list str := merge_sort str_le (map fst (map_to_list m)).

(** The values of the enumerations. *)
Definition component_type_int (t : KComponentType) : Z :=
  match t with
  | MODULE => 0 | RUNTIME => 1 | SDK => 2 | MOBILESDK => 3 | APP_UPDATE => 4 | UNKNOWN => 5
  end%Z.
Definition requirement_int (r : Requirement) : Z :=
  match r with EQ => 0 | GT => 1 | LT => 2 | GTE => 3 | LTE => 4 end%Z.

Section World.
Context (W : World).

Definition the_machine : M Machine :=
  env ← gets (fun h => s_environ (sys h)); mret (with_environment env (w_machine (outside W))).

(** [BootUtils::GetComponentSearchPaths()] with its static vector. *)
Definition SearchPaths : M (list str) :=
  machine ← the_machine;
  known ← gets (fun h => s_searchPaths (sys h));
  paths ← lift (GetComponentSearchPaths machine known);
  modify (with_sys (with_searchPaths paths));;
  mret paths.

Definition InstalledComponents (force : bool) : M (list SharedComponent) :=
  paths ← SearchPaths; fs ← the_fs; on_boot (GetInstalledComponents fs paths force).

Definition AvailableComponents (p : N) (onlyBundled : bool) : M (list SharedComponent) :=
  a ← the_app p; paths ← SearchPaths; fs ← the_fs;
  on_boot (GetAvailableComponents fs paths a [] onlyBundled).

Section Virtual.
Context (V : VOps).

Definition bind_all (this : loc) (l : list (str * member)) : M unit :=
  st_fold (fun _ '(name, m) => Bind V this name m) tt l.

(** ** DependencyBinding *)

Definition dependency_methods : list (str * member) := [
  (lit "getType", DependencyBinding__GetType); (lit "getName", DependencyBinding__GetName);
  (lit "getVersion", DependencyBinding__GetVersion);
  (lit "getRequirement", DependencyBinding__GetRequirement)].

Definition new_DependencyBinding (d : Dependency) : M loc :=
  o ← new_object (lit "API.Dependency") (DependencyBinding d);
  bind_all o dependency_methods;; mret o.

Definition GetDependency (this : loc) : M Dependency :=
  x ← geto this; match o_class x with DependencyBinding d => mret d | _ => undef end.

Definition Dependency_GetType (this result : loc) : M unit :=
  d ← GetDependency this; SetInt result (component_type_int (d_type d)).
Definition Dependency_GetName (this result : loc) : M unit :=
  d ← GetDependency this; SetString result (d_name d).
Definition Dependency_GetVersion (this result : loc) : M unit :=
  d ← GetDependency this; SetString result (d_version d).
Definition Dependency_GetRequirement (this result : loc) : M unit :=
  d ← GetDependency this; SetInt result (requirement_int (d_requirement d)).

(** ** ComponentBinding *)

Definition component_methods : list (str * member) := [
  (lit "getType", ComponentBinding__GetType); (lit "getName", ComponentBinding__GetName);
  (lit "getVersion", ComponentBinding__GetVersion); (lit "getPath", ComponentBinding__GetPath);
  (lit "getManifest", ComponentBinding__GetManifest); (lit "isBundled", ComponentBinding__IsBundled);
  (lit "isLoaded", ComponentBinding__IsLoaded)].

Definition new_ComponentBinding (c : SharedComponent) : M loc :=
  o ← new_object (lit "API.Component") (ComponentBinding c);
  bind_all o component_methods;; mret o.

Definition component_pointer (this : loc) : M SharedComponent :=
  x ← geto this; match o_class x with ComponentBinding c => mret c | _ => undef end.
Definition the_component (this : loc) : M KComponent := p ← component_pointer this; on_boot (comp p).

(** ** Vectors as lists *)

Definition append_all {A} (l : loc) (new : A -> M loc) (xs : list A) : M unit :=
  st_fold (fun _ x => v ← new x; vAppend V l v) tt xs.

(** [filter] [UNKNOWN] lets everything through. *)
Definition ComponentVectorToKList (components : list SharedComponent) (filter : KComponentType)
    : M loc :=
  componentList ← new_StaticBoundList (lit "StaticBoundList");
  st_fold (fun _ p =>
    c ← on_boot (comp p);
    if bool_decide (filter = UNKNOWN) || bool_decide (filter = c_type c) then
      b ← new_ComponentBinding p; v ← NewObject (Some b); vAppend V componentList v
    else mret tt) tt components;;
  mret componentList.

Definition DependencyVectorToKList (deps : list Dependency) : M loc :=
  dependencyList ← new_StaticBoundList (lit "StaticBoundList");
  append_all dependencyList (fun d => b ← new_DependencyBinding d; NewObject (Some b)) deps;;
  mret dependencyList.

Definition manifest_entry_list (kv : str * str) : M loc :=
  entry ← new_StaticBoundList (lit "StaticBoundList");
  append_all entry NewString [kv.1; kv.2];;
  NewList (Some entry).

Definition ManifestToKList (manifest : list (str * str)) : M loc :=
  list ← new_StaticBoundList (lit "StaticBoundList");
  append_all list manifest_entry_list manifest;;
  mret list.

(** ** The functions of ComponentBinding *)

Definition Component_GetType (this result : loc) : M unit :=
  c ← the_component this; SetInt result (component_type_int (c_type c)).
Definition Component_GetName (this result : loc) : M unit :=
  c ← the_component this; SetString result (c_name c).
Definition Component_GetVersion (this result : loc) : M unit :=
  c ← the_component this; SetString result (c_version c).
Definition Component_GetPath (this result : loc) : M unit :=
  c ← the_component this; SetString result (c_path c).
Definition Component_GetManifest (this result : loc) : M unit :=
  c ← the_component this;
  fs ← the_fs;
  manifest ← lift (ReadManifest fs c);
  l ← ManifestToKList manifest;
  SetList result (Some l).
Definition Component_IsBundled (this result : loc) : M unit :=
  c ← the_component this; SetBool result (c_bundled c).

(** The pointers are compared. *)
Definition Component_IsLoaded (this result : loc) : M unit :=
  p ← component_pointer this;
  current ← gets (fun h => s_application (sys h));
  SetBool result false;;
  app ← the_app current;
  (if decide (a_runtime app = Some p) then SetBool result true else mret tt);;
  st_fold (fun _ c => if decide (c = p) then SetBool result true else mret tt) tt (a_modules app).

(** ** ApplicationBinding *)

Definition application_methods : list (str * member) := [
  (lit "getID", ApplicationBinding__GetID); (lit "getGUID", ApplicationBinding__GetGUID);
  (lit "getName", ApplicationBinding__GetName); (lit "getVersion", ApplicationBinding__GetVersion);
  (lit "getPath", ApplicationBinding__GetPath);
  (lit "getExecutablePath", ApplicationBinding__GetExecutablePath);
  (lit "getResourcesPath", ApplicationBinding__GetResourcesPath);
  (lit "getDataPath", ApplicationBinding__GetDataPath);
  (lit "getManifestPath", ApplicationBinding__GetManifestPath);
  (lit "getManifest", ApplicationBinding__GetManifest);
  (lit "isCurrent", ApplicationBinding__IsCurrent); (lit "getPID", ApplicationBinding__GetPID);
  (lit "getArguments", ApplicationBinding__GetArguments);
  (lit "hasArgument", ApplicationBinding__HasArgument);
  (lit "getArgumentValue", ApplicationBinding__GetArgumentValue);
  (lit "getDependencies", ApplicationBinding__GetDependencies);
  (lit "resolveDependencies", ApplicationBinding__ResolveDependencies);
  (lit "getComponents", ApplicationBinding__GetComponents);
  (lit "getModules", ApplicationBinding__GetModules);
  (lit "getRuntime", ApplicationBinding__GetRuntime);
  (lit "getAvailableComponents", ApplicationBinding__GetAvailableComponents);
  (lit "getAvailableModules", ApplicationBinding__GetAvailableModules);
  (lit "getAvailableRuntimes", ApplicationBinding__GetAvailableRuntimes);
  (lit "getBundledComponents", ApplicationBinding__GetBundledComponents);
  (lit "getBundledModules", ApplicationBinding__GetBundledModules);
  (lit "getBundledRuntimes", ApplicationBinding__GetBundledRuntimes)].

Definition new_ApplicationBinding (application : N) (current : bool) : M loc :=
  o ← new_object (lit "API.Application") (ApplicationBinding application current);
  bind_all o application_methods;; mret o.

Definition application_fields (this : loc) : M (N * bool) :=
  x ← geto this; match o_class x with ApplicationBinding p b => mret (p, b) | _ => undef end.
Definition the_application (this : loc) : M Application :=
  '(p, _) ← application_fields this; the_app p.

(** [getID], [getGUID], [getName], [getVersion], [getPath], [getManifestPath]:
    a field of the application. *)
Definition App_string (field : Application -> str) (this result : loc) : M unit :=
  a ← the_application this; SetString result (field a).

Definition App_GetExecutablePath (this result : loc) : M unit :=
  a ← the_application this; fs ← the_fs;
  s ← lift (GetExecutablePath fs a); SetString result s.
Definition App_GetResourcesPath (this result : loc) : M unit :=
  a ← the_application this; s ← lift (GetResourcesPath a); SetString result s.
Definition App_GetDataPath (this result : loc) : M unit :=
  a ← the_application this; machine ← the_machine;
  s ← on_fs (GetDataPath (w_mkdir (outside W)) machine a); SetString result s.
Definition App_GetManifest (this result : loc) : M unit :=
  a ← the_application this; fs ← the_fs;
  manifest ← lift (ReadManifestFile fs (a_manifestPath a));
  l ← ManifestToKList manifest; SetList result (Some l).
Definition App_IsCurrent (this result : loc) : M unit :=
  '(_, current) ← application_fields this; SetBool result current.
Definition App_GetPID (this result : loc) : M unit :=
  '(_, current) ← application_fields this;
  if current : bool then SetInt result (w_pid (outside W)) else mret tt.
Definition App_GetArguments (this result : loc) : M unit :=
  a ← the_application this;
  l ← FromStringVector V (a_arguments a); SetList result (Some l).
Definition App_HasArgument (this : loc) (args : list loc) (result : loc) : M unit :=
  VerifyException args (lit "hasArgument") (lit "s");;
  x ← at_ args 0; v ← getv x; arg ← ToString v;
  a ← the_application this; SetBool result (HasArgument a arg).
Definition App_GetArgumentValue (this : loc) (args : list loc) (result : loc) : M unit :=
  VerifyException args (lit "getArgumentValue") (lit "s");;
  x ← at_ args 0; v ← getv x; arg ← ToString v;
  a ← the_application this; SetString result (GetArgumentValue a arg).
Definition App_GetDependencies (this result : loc) : M unit :=
  a ← the_application this;
  l ← DependencyVectorToKList (a_dependencies a); SetList result (Some l).

(** The modules, the sdks and the runtime of the application change. *)
Definition App_ResolveDependencies (this result : loc) : M unit :=
  '(p, _) ← application_fields this;
  a ← the_app p; paths ← SearchPaths; fs ← the_fs;
  '(a, unresolved) ← on_boot (ResolveDependencies fs paths a);
  put_app p a;;
  l ← DependencyVectorToKList unresolved; SetList result (Some l).

(** A copy of the vector of modules, with the runtime after them. *)
Definition App_GetComponents (this result : loc) : M unit :=
  a ← the_application this;
  let components := a_modules a ++ match a_runtime a with Some r => [r] | None => [] end in
  l ← ComponentVectorToKList components UNKNOWN; SetList result (Some l).
Definition App_GetModules (this result : loc) : M unit :=
  a ← the_application this;
  l ← ComponentVectorToKList (a_modules a) UNKNOWN; SetList result (Some l).
Definition App_GetRuntime (this result : loc) : M unit :=
  a ← the_application this;
  match a_runtime a with
  | Some r => b ← new_ComponentBinding r; SetObject result (Some b)
  | None => SetNull result
  end.
(** [getAvailableComponents], [getAvailableModules], [getAvailableRuntimes] and
    the same for the bundled ones. *)
Definition App_components (onlyBundled : bool) (filter : KComponentType) (this result : loc) : M unit :=
  '(p, _) ← application_fields this;
  components ← AvailableComponents p onlyBundled;
  l ← ComponentVectorToKList components filter; SetList result (Some l).

(** ** EnvironmentBinding *)

Definition new_EnvironmentBinding : M loc := new_object (lit "API.Environment") EnvironmentBinding.

Definition EnvironmentBinding_Get (name : str) : M loc :=
  s ← on_environ (Get name); NewString s.
Definition EnvironmentBinding_GetPropertyNames : M names :=
  env ← on_environ GetEnvironment; st_map new_name (map_names env).
Definition EnvironmentBinding_Set (name : str) (value : loc) : M unit :=
  v ← getv value;
  if IsString v then s ← ToString v; on_environ (Set_ name s) else mret tt.
Definition EnvironmentBinding_DisplayString : M str :=
  env ← on_environ GetEnvironment;
  mret (concat (map (fun k => k ++ lit "=" ++ default [] (env !! k) ++ lit ",") (map_names env))).

(** ** The wrappers *)

Definition wrapped (this : loc) : M loc :=
  x ← geto this;
  match o_class x with
  | KObjectWrapper o | KMethodWrapper o | KListWrapper o => some_or_undef o
  | _ => undef
  end.
Definition Wrapper_Set (this : loc) (name : str) (value : loc) : M unit :=
  o ← wrapped this; vSet V o name value.
Definition Wrapper_Get (this : loc) (name : str) : M loc := o ← wrapped this; vGet V o name.
Definition Wrapper_GetPropertyNames (this : loc) : M names :=
  o ← wrapped this; vGetPropertyNames V o.
Definition Wrapper_DisplayString (this : loc) (levels : Z) : M str :=
  o ← wrapped this; vDisplayString V o levels.
Definition KMethodWrapper_Call (this : loc) (args : list loc) : M loc :=
  o ← wrapped this; vCall V o args.
Definition KListWrapper_Append (this value : loc) : M unit := o ← wrapped this; vAppend V o value.
Definition KListWrapper_Size (this : loc) : M Z := o ← wrapped this; vSize V o.
Definition KListWrapper_At (this : loc) (index : Z) : M loc := o ← wrapped this; vAt V o index.
Definition KListWrapper_SetAt (this : loc) (index : Z) (value : loc) : M unit :=
  o ← wrapped this; vSetAt V o index value.
Definition KListWrapper_Remove (this : loc) (index : Z) : M bool :=
  o ← wrapped this; vRemove V o index.

(** ** ScriptBinding *)

Definition script_methods : list (str * member) := [
  (lit "addScriptEvaluator", ScriptBinding__AddScriptEvaluator);
  (lit "removeScriptEvaluator", ScriptBinding__RemoveScriptEvaluator);
  (lit "canEvaluate", ScriptBinding__CanEvaluate);
  (lit "canPreprocess", ScriptBinding__CanPreprocess);
  (lit "evaluate", ScriptBinding__Evaluate); (lit "preprocess", ScriptBinding__Preprocess)].

Definition new_ScriptBinding : M loc :=
  o ← new_object (lit "API.Script") ScriptBinding; bind_all o script_methods;; mret o.

(** [const char* p = args.GetString(i).c_str()]: the string is a temporary, so
    [p] dangles when it is used. *)
Definition dangling_text (args : list loc) (i : nat) : M (M str) :=
  s ← Arg_GetString args i []; mret undef.

Definition Script_AddScriptEvaluator (args : list loc) : M unit :=
  VerifyException args (lit "addScriptEvaluator") (lit "o");;
  evaluator ← Arg_GetObject args 0 None; AddScriptEvaluator V evaluator.
Definition Script_RemoveScriptEvaluator (args : list loc) : M unit :=
  VerifyException args (lit "removeScriptEvaluator") (lit "o");;
  evaluator ← Arg_GetObject args 0 None; RemoveScriptEvaluator V evaluator.
Definition Script_CanEvaluate (args : list loc) (result : loc) : M unit :=
  VerifyException args (lit "canEvaluate") (lit "s");;
  mimeType ← dangling_text args 0;
  mimeType ← mimeType; b ← CanEvaluate V mimeType; SetBool result b.
Definition Script_CanPreprocess (args : list loc) (result : loc) : M unit :=
  VerifyException args (lit "canPreprocess") (lit "s");;
  url ← dangling_text args 0;
  url ← url; b ← CanPreprocess V url; SetBool result b.
Definition Script_Evaluate (args : list loc) (result : loc) : M unit :=
  VerifyException args (lit "evaluate") (lit "s s s o");;
  mimeType ← dangling_text args 0; name ← dangling_text args 1; code ← dangling_text args 2;
  scope ← Arg_GetObject args 3 None;
  mimeType ← mimeType; name ← name; code ← code;
  v ← Evaluate V mimeType name code scope; SetValue result v.
Definition Script_Preprocess (args : list loc) (result : loc) : M unit :=
  VerifyException args (lit "preprocess") (lit "s o");;
  url ← dangling_text args 0;
  scope ← Arg_GetObject args 1 None;
  url ← url;
  data ← Preprocess V url scope;
  o ← default_StaticBoundObject;
  data ← some_or_undef data;
  m ← NewString (pd_mimeType data); vSet V o (lit "mimeType") m;;
  d ← NewObject (pd_data data); vSet V o (lit "data") d;;
  SetObject result (Some o).
End Virtual.
End World.

(** ** Monotonicity *)
Section Mono.
Context (W : World) (V1 V2 : VOps) (HV : vle V1 V2).
#[local] Set Default Proof Using "Type*".

Lemma new_ComponentBinding_mono c : approx (new_ComponentBinding V1 c) (new_ComponentBinding V2 c).
Proof. mono_deep. Qed.
#[local] Hint Resolve new_ComponentBinding_mono : mono.
Lemma ComponentVectorToKList_mono l t :
  approx (ComponentVectorToKList V1 l t) (ComponentVectorToKList V2 l t).
Proof. mono_deep. Qed.
Lemma DependencyVectorToKList_mono l :
  approx (DependencyVectorToKList V1 l) (DependencyVectorToKList V2 l).
Proof. mono_deep. Qed.
Lemma ManifestToKList_mono l : approx (ManifestToKList V1 l) (ManifestToKList V2 l).
Proof. mono_deep. Qed.
Lemma new_ApplicationBinding_mono p b :
  approx (new_ApplicationBinding V1 p b) (new_ApplicationBinding V2 p b).
Proof. mono_deep. Qed.
Lemma Component_GetManifest_mono o r : approx (Component_GetManifest V1 o r) (Component_GetManifest V2 o r).
Proof. mono_deep. Qed.
Lemma App_GetManifest_mono o r : approx (App_GetManifest V1 o r) (App_GetManifest V2 o r).
Proof. mono_deep. Qed.
Lemma App_GetArguments_mono o r : approx (App_GetArguments V1 o r) (App_GetArguments V2 o r).
Proof. mono_deep. Qed.
Lemma App_GetDependencies_mono o r : approx (App_GetDependencies V1 o r) (App_GetDependencies V2 o r).
Proof. mono_deep. Qed.
Lemma App_ResolveDependencies_mono o r : approx (App_ResolveDependencies W V1 o r) (App_ResolveDependencies W V2 o r).
Proof. mono_deep. Qed.
Lemma App_GetComponents_mono o r : approx (App_GetComponents V1 o r) (App_GetComponents V2 o r).
Proof. mono_deep. Qed.
Lemma App_GetModules_mono o r : approx (App_GetModules V1 o r) (App_GetModules V2 o r).
Proof. mono_deep. Qed.
Lemma App_GetRuntime_mono o r : approx (App_GetRuntime V1 o r) (App_GetRuntime V2 o r).
Proof. mono_deep. Qed.
Lemma App_components_mono b t o r : approx (App_components W V1 b t o r) (App_components W V2 b t o r).
Proof. mono_deep. Qed.
Lemma Wrapper_Set_mono o n v : approx (Wrapper_Set V1 o n v) (Wrapper_Set V2 o n v).
Proof. mono_deep. Qed.
Lemma Wrapper_Get_mono o n : approx (Wrapper_Get V1 o n) (Wrapper_Get V2 o n).
Proof. mono_deep. Qed.
Lemma Wrapper_GetPropertyNames_mono o : approx (Wrapper_GetPropertyNames V1 o) (Wrapper_GetPropertyNames V2 o).
Proof. mono_deep. Qed.
Lemma Wrapper_DisplayString_mono o z : approx (Wrapper_DisplayString V1 o z) (Wrapper_DisplayString V2 o z).
Proof. mono_deep. Qed.
Lemma KMethodWrapper_Call_mono o l : approx (KMethodWrapper_Call V1 o l) (KMethodWrapper_Call V2 o l).
Proof. mono_deep. Qed.
Lemma KListWrapper_Append_mono o v : approx (KListWrapper_Append V1 o v) (KListWrapper_Append V2 o v).
Proof. mono_deep. Qed.
Lemma KListWrapper_Size_mono o : approx (KListWrapper_Size V1 o) (KListWrapper_Size V2 o).
Proof. mono_deep. Qed.
Lemma KListWrapper_At_mono o i : approx (KListWrapper_At V1 o i) (KListWrapper_At V2 o i).
Proof. mono_deep. Qed.
Lemma KListWrapper_SetAt_mono o i v : approx (KListWrapper_SetAt V1 o i v) (KListWrapper_SetAt V2 o i v).
Proof. mono_deep. Qed.
Lemma KListWrapper_Remove_mono o i : approx (KListWrapper_Remove V1 o i) (KListWrapper_Remove V2 o i).
Proof. mono_deep. Qed.
Lemma Script_AddScriptEvaluator_mono l : approx (Script_AddScriptEvaluator V1 l) (Script_AddScriptEvaluator V2 l).
Proof. mono_deep. Qed.
Lemma Script_RemoveScriptEvaluator_mono l : approx (Script_RemoveScriptEvaluator V1 l) (Script_RemoveScriptEvaluator V2 l).
Proof. mono_deep. Qed.
Lemma Script_CanEvaluate_mono l r : approx (Script_CanEvaluate V1 l r) (Script_CanEvaluate V2 l r).
Proof. mono_deep. Qed.
Lemma Script_CanPreprocess_mono l r : approx (Script_CanPreprocess V1 l r) (Script_CanPreprocess V2 l r).
Proof. mono_deep. Qed.
Lemma Script_Evaluate_mono l r : approx (Script_Evaluate V1 l r) (Script_Evaluate V2 l r).
Proof. mono_deep. Qed.
Lemma Script_Preprocess_mono l r : approx (Script_Preprocess V1 l r) (Script_Preprocess V2 l r).
Proof. mono_deep. Qed.
End Mono.
#[export] Hint Resolve new_ComponentBinding_mono ComponentVectorToKList_mono
  DependencyVectorToKList_mono ManifestToKList_mono new_ApplicationBinding_mono : mono.
#[export] Hint Resolve Component_GetManifest_mono App_GetManifest_mono App_GetArguments_mono App_GetDependencies_mono App_ResolveDependencies_mono App_GetComponents_mono App_GetModules_mono App_GetRuntime_mono App_components_mono Wrapper_Set_mono Wrapper_Get_mono Wrapper_GetPropertyNames_mono Wrapper_DisplayString_mono KMethodWrapper_Call_mono KListWrapper_Append_mono KListWrapper_Size_mono KListWrapper_At_mono KListWrapper_SetAt_mono KListWrapper_Remove_mono Script_AddScriptEvaluator_mono Script_RemoveScriptEvaluator_mono Script_CanEvaluate_mono Script_CanPreprocess_mono Script_Evaluate_mono Script_Preprocess_mono : mono.
