(* ===== verification/Api.v ===== *)
(** * Api: the object "API" of the global object (modules/api/api_binding.cpp,
    api_module.cpp)

    [API.set] and [API.get] reach the properties of the API object itself or,
    with a dotted key, those of the global object; the other functions hand
    out the objects of ApiObjects, log, fire root events and run methods on
    the main thread. *)

From S2P Require Import Prelude CppString FileUtils BootUtils EnvironmentUtils Application Logger.
From S2P Require Import System Directories Double Heap Virtual KObject StaticBound StaticLaws ArgList.
From S2P Require Import Events Blob Script ApiObjects.
From stdpp Require Import options.

Section World.
Context (W : World) (V : VOps).

Definition api_of (this : loc) : M api_data :=
  x ← geto this; match o_class x with APIBinding a => mret a | _ => undef end.

(** ** Construction *)

Definition api_methods : list (str * member) := [
  (lit "set", APIBinding__Set); (lit "get", APIBinding__Get);
  (lit "addEventListener", APIBinding__AddEventListener);
  (lit "removeEventListener", APIBinding__RemoveEventListener);
  (lit "fireEvent", APIBinding__FireEvent); (lit "runOnMainThread", APIBinding__RunOnMainThread);
  (lit "runOnMainThreadAsync", APIBinding__RunOnMainThreadAsync);
  (lit "getApplication", APIBinding__GetApplication);
  (lit "getInstalledComponents", APIBinding__GetInstalledComponents);
  (lit "getInstalledSDKs", APIBinding__GetInstalledSDKs);
  (lit "getInstalledMobileSDKs", APIBinding__GetInstalledMobileSDKs);
  (lit "getInstalledModules", APIBinding__GetInstalledModules);
  (lit "getInstalledRuntimes", APIBinding__GetInstalledRuntimes);
  (lit "getComponentSearchPaths", APIBinding__GetComponentSearchPaths);
  (lit "readApplicationManifest", APIBinding__ReadApplicationManifest);
  (lit "createDependency", APIBinding__CreateDependency);
  (lit "installDependencies", APIBinding__InstallDependencies);
  (lit "componentGUIDToComponentType", APIBinding__ComponentGUIDToComponentType);
  (lit "getEnvironment", APIBinding__GetEnvironment); (lit "createKObject", APIBinding__CreateKObject);
  (lit "createKMethod", APIBinding__CreateKMethod); (lit "createKList", APIBinding__CreateKList);
  (lit "createBlob", APIBinding__CreateBlob); (lit "log", APIBinding__Log);
  (lit "trace", APIBinding__LogTrace); (lit "debug", APIBinding__LogDebug);
  (lit "info", APIBinding__LogInfo); (lit "notice", APIBinding__LogNotice);
  (lit "warn", APIBinding__LogWarn); (lit "error", APIBinding__LogError);
  (lit "critical", APIBinding__LogCritical); (lit "fatal", APIBinding__LogFatal);
  (lit "setLogLevel", APIBinding__SetLogLevel); (lit "getLogLevel", APIBinding__GetLogLevel);
  (lit "print", APIBinding__Print)].

Definition api_constants : list (str * Z) := [
  (lit "TRACE", priority LTRACE); (lit "DEBUG", priority LDEBUG); (lit "INFO", priority LINFO);
  (lit "NOTICE", priority LNOTICE); (lit "WARN", priority LWARN); (lit "ERROR", priority LERROR);
  (lit "CRITICAL", priority LCRITICAL); (lit "FATAL", priority LFATAL);
  (lit "EQ", requirement_int EQ); (lit "LT", requirement_int LT); (lit "LTE", requirement_int LTE);
  (lit "GT", requirement_int GT); (lit "GTE", requirement_int GTE);
  (lit "MODULE", component_type_int MODULE); (lit "RUNTIME", component_type_int RUNTIME);
  (lit "SDK", component_type_int SDK); (lit "MOBILESDK", component_type_int MOBILESDK);
  (lit "APP_UPDATE", component_type_int APP_UPDATE); (lit "UNKNOWN", component_type_int UNKNOWN)].

Definition new_APIBinding : M loc :=
  logger ← on_log (Logger_Get (PRODUCT_NAME (w_machine (outside W))) (lit "API"));
  o ← new_object (lit "API")
        (APIBinding {| api_logger := logger; api_locked := false; api_dependencies := [];
                       api_callback := None; api_started := false |});
  bind_all V o api_methods;;
  st_fold (fun _ '(name, n) => v ← NewInt n; vSet V o name v) tt api_constants;;
  s ← new_ScriptBinding V;
  v ← NewObject (Some s);
  vSet V o (lit "Script") v;;
  mret o.

(** [host->GetGlobalObject()] *)
Definition global : M loc := gets (fun h => s_global (sys h)).

(** [APIModule::Initialize] and [Stop] *)
Definition APIModule_Initialize : M unit :=
  binding ← new_APIBinding; g ← global; Object_SetObject V g (lit "API") (Some binding).
Definition APIModule_Stop : M unit := g ← global; vSet V g (lit "API") Undefined.

(** ** Properties *)

Definition has_dot (s : str) : bool := bool_decide (find_first_of s (lit ".") (Some 0) <> None).

Definition API_Set (this : loc) (args : list loc) : M unit :=
  k ← at_ args 0; kv ← getv k; key ← ToString kv;
  value ← at_ args 1;
  if has_dot key then g ← global; SetNS V g key value else vSet V this key value.

Definition API_Get (this : loc) (args : list loc) (result : loc) : M unit :=
  k ← at_ args 0; kv ← getv k; key ← ToString kv;
  r ← (if has_dot key then g ← global; GetNS V g key else vGet V this key);
  SetValue result r.

(** ** Logging *)

Definition ValueToLevel (v : loc) : M Level :=
  x ← getv v;
  debug ← gets (fun h => s_debug (sys h));
  if IsString x then s ← ToString x; mret (GetLevel_of_string debug s)
  else if IsObject x then
    o ← some_or_undef (ToObject x); s ← vDisplayString V o 3; mret (GetLevel_of_string debug s)
  else if IsNumber x then mret (level_of_int (ToInt x))
  else mret (GetLevel_of_string debug []).

Definition root_logger_pointer : M N := r ← on_log GetRootLogger; some_or_undef r.

Definition API_SetLogLevel (args : list loc) : M unit :=
  VerifyException args (lit "setLogLevel") (lit "s|n");;
  root ← root_logger_pointer;
  a ← at_ args 0; level ← ValueToLevel a;
  on_log (SetLevel root level).
Definition API_GetLogLevel (result : loc) : M unit :=
  root ← root_logger_pointer;
  level ← on_log (Logger_GetLevel root); SetInt result (priority level).

Definition API_Print (args : list loc) : M unit :=
  st_fold (fun _ arg =>
    v ← getv arg;
    s ← (if IsString v then ToString v else Value_DisplayString W V arg 3);
    log_line (lit "stdout") s) tt args.

(** [APIBinding::Log] *)
Definition API_log (this : loc) (severity : Level) (value : loc) : M unit :=
  a ← api_of this;
  enabled ← on_log (IsEnabled (api_logger a) severity);
  if enabled : bool then
    v ← getv value;
    message ← (if IsString v then ToString v else Value_DisplayString W V value 3);
    on_log (Log (w_format (outside W)) (w_callback (outside W)) (vFuel V)
              (api_logger a) severity message)
  else mret tt.

(** [_LogTrace], [_LogDebug], ... *)
Definition API_LogAt (severity : Level) (this : loc) (args : list loc) : M unit :=
  arg1 ← at_ args 0; API_log this severity arg1.

Definition API_Log (this : loc) (args : list loc) : M unit :=
  match args with
  | [v] => API_log this LINFO v
  | [arg1; v] => level ← ValueToLevel arg1; API_log this level v
  | _ => mret tt
  end.

(** ** Events and the main thread *)

Definition API_AddEventListener (args : list loc) (result : loc) : M unit :=
  r ← gets root; KEventObject_AddEventListener r args result.
Definition API_RemoveEventListener (args : list loc) : M unit :=
  r ← gets root; KEventObject_RemoveEventListener V r args.

Definition is_Event (c : class) : bool := match c with Event _ => true | _ => false end.

Definition API_FireEvent (args : list loc) : M unit :=
  VerifyException args (lit "fireEvent") (lit "s|o");;
  a ← at_ args 0; v ← getv a;
  if IsString v then
    eventName ← Arg_GetString args 0 []; FireRootEvent_name W V eventName;; mret tt
  else if IsObject v then
    o ← Arg_GetObject args 0 None;
    event ← dynamic_cast is_Event o;
    match event with Some event => FireRootEvent W V event;; mret tt | None => mret tt end
  else mret tt.

Definition not_a_function : str := lit "First argument to runOnMainThread was not a function".

Definition API_RunOnMainThread (args : list loc) (result : loc) : M unit :=
  a ← at_ args 0; v ← getv a;
  if IsMethod v then
    m ← Arg_GetMethod args 0 None; method ← some_or_undef m;
    outResult ← InvokeMethodOnMainThread V method (drop 1 args) true;
    SetValue result outResult
  else throw_string not_a_function.
Definition API_RunOnMainThreadAsync (args : list loc) : M unit :=
  a ← at_ args 0; v ← getv a;
  if IsMethod v then
    m ← Arg_GetMethod args 0 None; method ← some_or_undef m;
    InvokeMethodOnMainThread V method (drop 1 args) false;; mret tt
  else throw_string not_a_function.

(** ** Applications and components *)

Definition API_GetApplication (result : loc) : M unit :=
  p ← gets (fun h => s_application (sys h));
  app ← new_ApplicationBinding V p true; SetObject result (Some app).

Definition GetInstalledComponentsImpl (type : KComponentType) (args : list loc) (result : loc) : M unit :=
  force ← Arg_GetBool args 0 false;
  components ← InstalledComponents W force;
  componentList ← ComponentVectorToKList V components type;
  SetList result (Some componentList).

(** [_GetInstalledComponents], [_GetInstalledModules], [_GetInstalledRuntimes],
    [_GetInstalledSDKs], [_GetInstalledMobileSDKs] *)
Definition API_GetInstalled (name : str) (type : KComponentType) (args : list loc) (result : loc)
    : M unit :=
  VerifyException args name (lit "?b");; GetInstalledComponentsImpl type args result.

Definition API_GetComponentSearchPaths (result : loc) : M unit :=
  paths ← SearchPaths W; pathList ← FromStringVector V paths; SetList result (Some pathList).

Definition API_ReadApplicationManifest (args : list loc) (result : loc) : M unit :=
  VerifyException args (lit "readApplicationManifest") (lit "s,?s");;
  a ← at_ args 0; v ← getv a; manifestPath ← ToString v;
  appPath ← Arg_GetString args 1 (Dirname manifestPath);
  fs ← the_fs;
  app ← lift (NewApplication2 fs manifestPath appPath);
  match app with
  | Some app => p ← new_app app; b ← new_ApplicationBinding V p false; SetObject result (Some b)
  | None => SetNull result
  end.

Definition known_types : list KComponentType := [MODULE; RUNTIME; SDK; MOBILESDK; APP_UPDATE].
Definition known_requirements : list Requirement := [EQ; GT; LT; GTE; LTE].
Definition type_of_int (z : Z) : option KComponentType :=
  head (filter (fun t => component_type_int t = z) known_types).

Definition unknown_type_text : str :=
  lit "Tried to create a dependency with an unknown dependency type".
Definition unknown_requirement_text : str :=
  lit "Tried to create a dependency with an unknown requirement type".

(** The requirement is checked, then left out of the call. *)
Definition API_CreateDependency (args : list loc) (result : loc) : M unit :=
  VerifyException args (lit "createDepenendency") (lit "i,s,s,?i");;
  type ← Arg_GetInt args 0 (component_type_int UNKNOWN);
  name ← Arg_GetString args 1 [];
  version ← Arg_GetString args 2 [];
  requirement ← Arg_GetNumber args 3 (double_of_int (requirement_int EQ));
  match type_of_int type with
  | None => throw_string unknown_type_text
  | Some t =>
      if bool_decide (int_of_double requirement ∈ map requirement_int known_requirements) then
        dBinding ← new_DependencyBinding V (NewDependencyFromValues t name version);
        SetObject result (Some dBinding)
      else throw_string unknown_requirement_text
  end.

Definition API_ComponentGUIDToComponentType (args : list loc) (result : loc) : M unit :=
  a ← at_ args 0; v ← getv a; type ← ToString v;
  SetInt result (component_type_int
    (if decide (type = RUNTIME_UUID) then RUNTIME
     else if decide (type = MODULE_UUID) then MODULE
     else if decide (type = SDK_UUID) then SDK
     else if decide (type = MOBILESDK_UUID) then MOBILESDK
     else if decide (type = APP_UPDATE_UUID) then APP_UPDATE
     else UNKNOWN)).

(** ** The installer *)

Definition set_api (this : loc) (a : api_data) : M unit := set_class this (APIBinding a).

(** The loop of [_InstallDependencies]: other elements are skipped. *)
Definition collect_step (l : loc) (st : Z * list Dependency)
    : M ((Z * list Dependency) + list Dependency) :=
  let '(i, dependencies) := st in
  size ← vSize V l;
  if (i <? size)%Z then
    e ← vAt V l i; v ← getv e;
    if IsObject v then
      e ← vAt V l i; v ← getv e;
      match ToObject v with
      | None => mret (inl ((i + 1)%Z, dependencies))
      | Some o =>
          x ← geto o;
          mret (inl ((i + 1)%Z, match o_class x with
                                | DependencyBinding d => dependencies ++ [d]
                                | _ => dependencies
                                end))
      end
    else mret (inl ((i + 1)%Z, dependencies))
  else mret (inr dependencies).

(** The mutex stays locked until the thread has run the installer. *)
Definition API_InstallDependencies (this : loc) (args : list loc) : M unit :=
  VerifyException args (lit "installDependencies") (lit "l,m");;
  l ← Arg_GetList args 0 None;
  callback ← Arg_GetMethod args 1 None;
  l ← some_or_undef l;
  dependencies ← loop (vFuel V) (collect_step l) (0%Z, []);
  match dependencies with
  | [] => mret tt
  | _ =>
      a ← api_of this;
      if api_locked a then
        throw_string (lit "Tried to launch more than one instance of the installer")
      else
        set_api this {| api_logger := api_logger a; api_locked := true;
                        api_dependencies := dependencies; api_callback := callback;
                        api_started := true |}
  end.

(** What the thread does: the command that it runs, if there is an installer.
    Its steps are taken as one step of the main thread. *)
Definition API_RunInstaller (this : loc) : M (option (str * list str)) :=
  a ← api_of this;
  p ← gets (fun h => s_application (sys h));
  app ← the_app p;
  runtime ← some_or_undef (a_runtime app);
  c ← on_boot (comp runtime);
  machine ← the_machine W;
  fs ← the_fs;
  '(command, app) ← lift (RunInstaller fs machine (api_dependencies a) app [] (c_path c));
  put_app p app;;
  (match api_callback a with
   | Some callback => InvokeMethodOnMainThread V callback [] false;; mret tt
   | None => mret tt
   end);;
  set_api this {| api_logger := api_logger a; api_locked := false;
                  api_dependencies := api_dependencies a; api_callback := api_callback a;
                  api_started := false |};;
  mret command.

(** ** Creating objects *)

Definition API_GetEnvironment (result : loc) : M unit :=
  env ← new_EnvironmentBinding; SetObject result (Some env).

Definition API_CreateKObject (args : list loc) (result : loc) : M unit :=
  VerifyException args (lit "createKObject") (lit "?o");;
  match args with
  | [] => o ← default_StaticBoundObject; SetObject result (Some o)
  | _ => wrapped ← Arg_GetObject args 0 None;
         o ← new_object (lit "KObject") (KObjectWrapper wrapped); SetObject result (Some o)
  end.
Definition API_CreateKMethod (args : list loc) (result : loc) : M unit :=
  VerifyException args (lit "createKMethod") (lit "m");;
  wrapped ← Arg_GetMethod args 0 None;
  o ← new_object (lit "KMethod") (KMethodWrapper wrapped); SetMethod result (Some o).
Definition API_CreateKList (args : list loc) (result : loc) : M unit :=
  VerifyException args (lit "createKList") (lit "?l");;
  match args with
  | [] => o ← new_StaticBoundList (lit "StaticBoundList"); SetList result (Some o)
  | _ => wrapped ← Arg_GetList args 0 None;
         o ← new_object (lit "KList") (KListWrapper wrapped); SetList result (Some o)
  end.

(** Arguments of other types are skipped. *)
Fixpoint blobs_of (args : list loc) : M (list loc) :=
  match args with
  | [] => mret []
  | a :: rest =>
      v ← getv a;
      blob ← (if IsObject v then dynamic_cast is_Blob (ToObject v)
              else if IsString v then s ← ToString v; b ← new_Blob_string V s; mret (Some b)
              else mret None);
      blobs ← blobs_of rest;
      mret (match blob with Some b => b :: blobs | None => blobs end)
  end.

Definition API_CreateBlob (args : list loc) (result : loc) : M unit :=
  VerifyException args (lit "createBlob") (lit "?s|o");;
  blobs ← blobs_of args;
  b ← GlobBlobs V blobs; SetObject result (Some b).
End World.

(** ** Monotonicity *)

Lemma callbacks_loop_mono cb n1 n2 root i level line :
  n1 <= n2 -> approx (callbacks_loop cb n1 root i level line) (callbacks_loop cb n2 root i level line).
Proof.
  revert n2 i line. induction n1 as [|n1 IH]; intros n2 i line Hn; [apply approx_fuel|].
  destruct n2 as [|n2]; [lia|]. simpl. mono. apply IH. lia.
Qed.
Lemma Log_mono fmt cb n1 n2 this level msg :
  n1 <= n2 -> approx (Log fmt cb n1 this level msg) (Log fmt cb n2 this level msg).
Proof. intros Hn. unfold Log, Log_message, LogImpl. mono. by apply callbacks_loop_mono. Qed.

Section Mono.
Context (W : World) (V1 V2 : VOps) (HV : vle V1 V2).
#[local] Set Default Proof Using "Type*".

Lemma on_log_Log_mono fmt cb this level msg :
  approx (on_log (Log fmt cb (vFuel V1) this level msg)) (on_log (Log fmt cb (vFuel V2) this level msg)).
Proof. unfold on_log, on_sys. mono. by apply Log_mono, le_Fuel. Qed.
#[local] Hint Resolve on_log_Log_mono : mono.

Lemma blobs_of_mono l : approx (blobs_of V1 l) (blobs_of V2 l).
Proof. induction l as [|a l IH]; simpl; mono_deep. Qed.
#[local] Hint Resolve blobs_of_mono : mono.
Lemma ValueToLevel_mono v : approx (ValueToLevel V1 v) (ValueToLevel V2 v).
Proof. unfold ValueToLevel. mono. Qed.
#[local] Hint Resolve ValueToLevel_mono : mono.
Lemma API_log_mono o l v : approx (API_log W V1 o l v) (API_log W V2 o l v).
Proof. unfold API_log. mono. Qed.
#[local] Hint Resolve API_log_mono : mono.
Lemma API_Set_mono o l : approx (API_Set V1 o l) (API_Set V2 o l).
Proof. mono_deep. Qed.
Lemma API_Get_mono o l r : approx (API_Get V1 o l r) (API_Get V2 o l r).
Proof. mono_deep. Qed.
Lemma API_RemoveEventListener_mono l : approx (API_RemoveEventListener V1 l) (API_RemoveEventListener V2 l).
Proof. mono_deep. Qed.
Lemma API_FireEvent_mono l : approx (API_FireEvent W V1 l) (API_FireEvent W V2 l).
Proof. mono_deep. Qed.
Lemma API_RunOnMainThread_mono l r : approx (API_RunOnMainThread V1 l r) (API_RunOnMainThread V2 l r).
Proof. mono_deep. Qed.
Lemma API_RunOnMainThreadAsync_mono l : approx (API_RunOnMainThreadAsync V1 l) (API_RunOnMainThreadAsync V2 l).
Proof. mono_deep. Qed.
Lemma API_GetApplication_mono r : approx (API_GetApplication V1 r) (API_GetApplication V2 r).
Proof. mono_deep. Qed.
Lemma API_GetInstalled_mono n t l r : approx (API_GetInstalled W V1 n t l r) (API_GetInstalled W V2 n t l r).
Proof. mono_deep. Qed.
Lemma API_GetComponentSearchPaths_mono r : approx (API_GetComponentSearchPaths W V1 r) (API_GetComponentSearchPaths W V2 r).
Proof. mono_deep. Qed.
Lemma API_ReadApplicationManifest_mono l r : approx (API_ReadApplicationManifest V1 l r) (API_ReadApplicationManifest V2 l r).
Proof. mono_deep. Qed.
Lemma API_CreateDependency_mono l r : approx (API_CreateDependency V1 l r) (API_CreateDependency V2 l r).
Proof. mono_deep. Qed.
Lemma API_InstallDependencies_mono o l : approx (API_InstallDependencies V1 o l) (API_InstallDependencies V2 o l).
Proof. mono_deep. Qed.
Lemma API_CreateBlob_mono l r : approx (API_CreateBlob V1 l r) (API_CreateBlob V2 l r).
Proof. mono_deep. Qed.
Lemma API_Log_mono o l : approx (API_Log W V1 o l) (API_Log W V2 o l).
Proof. mono_deep. Qed.
Lemma API_LogAt_mono v o l : approx (API_LogAt W V1 v o l) (API_LogAt W V2 v o l).
Proof. mono_deep. Qed.
Lemma API_SetLogLevel_mono l : approx (API_SetLogLevel V1 l) (API_SetLogLevel V2 l).
Proof. unfold API_SetLogLevel. mono. Qed.
Lemma API_Print_mono l : approx (API_Print W V1 l) (API_Print W V2 l).
Proof. mono_deep. Qed.
End Mono.
#[export] Hint Resolve API_log_mono blobs_of_mono : mono.
#[export] Hint Resolve API_Set_mono API_Get_mono API_RemoveEventListener_mono API_FireEvent_mono API_RunOnMainThread_mono API_RunOnMainThreadAsync_mono API_GetApplication_mono API_GetInstalled_mono API_GetComponentSearchPaths_mono API_ReadApplicationManifest_mono API_CreateDependency_mono API_InstallDependencies_mono API_CreateBlob_mono API_Log_mono API_LogAt_mono API_SetLogLevel_mono API_Print_mono : mono.
