(* ===== verification/JavaScript.v ===== *)
(** * JavaScript: the objects that cross the border to JavaScript
    (modules/javascript/kjs_util.cpp, k_kjs_object.cpp, k_kjs_method.cpp,
    k_kjs_list.cpp and the module's files)

    A Kroll object reaches JavaScript as an object of JavaScriptCore whose
    private data is a new [SharedValue]; its properties are served by the
    callbacks. A JavaScript object reaches the program as a proxy ([KKJSObject],
    [KKJSMethod], [KKJSList]), which keeps its global context alive by a count.
    The calls of JavaScriptCore are the fields of [jsq] and [js]; a string is
    created and released within a call, the releases are left out. *)

From S2P Require Import Prelude CppString Double FileUtils Application System Directories.
From S2P Require Import Heap JavaScriptCore Virtual KObject StaticBound.
From stdpp Require Import options.

Definition j_with_cells f j :=
  {| js_cells := f (js_cells j); KJSKObjectClass := KJSKObjectClass j;
     KJSKMethodClass := KJSKMethodClass j; KJSKListClass := KJSKListClass j;
     jsContextMap := jsContextMap j; jsContextRefCounts := jsContextRefCounts j;
     js_memory := js_memory j |}.
Definition j_with_classes o m l j :=
  {| js_cells := js_cells j; KJSKObjectClass := o; KJSKMethodClass := m; KJSKListClass := l;
     jsContextMap := jsContextMap j; jsContextRefCounts := jsContextRefCounts j;
     js_memory := js_memory j |}.
Definition j_with_contexts f g j :=
  {| js_cells := js_cells j; KJSKObjectClass := KJSKObjectClass j;
     KJSKMethodClass := KJSKMethodClass j; KJSKListClass := KJSKListClass j;
     jsContextMap := f (jsContextMap j); jsContextRefCounts := g (jsContextRefCounts j);
     js_memory := js_memory j |}.

Definition on_js {A} (m : ST JSState A) : M A := on_sys (zoom s_js with_js m).
(** A question to the engine. *)
Definition query {A} (f : jsmem -> A) : M A := gets (fun h => f (jsmem_of h)).
Definition the_js {A} (f : JSState -> A) : M A := gets (fun h => f (s_js (sys h))).

(** [new SharedValue(value)], a read of the cell, and [delete]. *)
Definition new_cell (value : loc) : M N :=
  p ← alloc; on_js (modify (j_with_cells (<[p := value]>)));; mret p.
Definition cell (p : N) : M loc := c ← the_js js_cells; some_or_undef (c !! p).
Definition delete_cell (p : N) : M unit :=
  cell p;; on_js (modify (j_with_cells (delete p))).

Definition GetLogger_Error (message : str) : M unit :=
  log_line (lit "JavaScript.KJSUtil") message.

(** ** Contexts *)

Definition RegisterGlobalContext (object globalContext : N) : M unit :=
  on_js (modify (j_with_contexts (<[object := globalContext]>) id)).
Definition UnregisterGlobalContext (object : N) : M unit :=
  on_js (modify (j_with_contexts (delete object) id)).
Definition GetGlobalContext (object : N) : M (option N) :=
  m ← the_js jsContextMap; mret (m !! object).

Section JavaScript.
Context (W : World) (V : VOps).
#[local] Abbreviation Q := (jsq W).
#[local] Abbreviation E := (js W V).

Definition private (o : N) : M (option N) := query (fun m => JSObjectGetPrivate Q m o).
Definition js_string (s : str) : jsstr := JSStringCreateWithUTF8CString Q (c_str s).

(** The buffer has the maximal size: nothing is cut but at a NUL. *)
Definition ToChars (s : jsstr) : str := c_str (JSStringGetUTF8CString Q s).

(** The context of a proxy is null when its global object is not known. *)
Definition ProtectGlobalContext (globalContext : option N) : M unit :=
  c ← some_or_undef globalContext;
  counts ← the_js jsContextRefCounts;
  match counts !! c with
  | None => JSGlobalContextRetain E c;; on_js (modify (j_with_contexts id (<[c := 1%Z]>)))
  | Some n => on_js (modify (j_with_contexts id (<[c := (n + 1)%Z]>)))
  end.

Definition UnprotectGlobalContext (c : N) : M unit :=
  counts ← the_js jsContextRefCounts;
  match counts !! c with
  | None => GetLogger_Error (lit "Tried to unprotect an unknown jsContext!")
  | Some n =>
      if decide (n = 1%Z) then
        JSGlobalContextRelease E c;; on_js (modify (j_with_contexts id (delete c)))
      else on_js (modify (j_with_contexts id (<[c := (n - 1)%Z]>)))
  end.

(** ** The proxies *)

Definition no_context_text : str :=
  lit "Could not locate global context for a KJS method. One of the modules is misbehaving.".

(** The common part of the three constructors. *)
Definition proxy_context (context jsobject : N) : M N :=
  globalObject ← query (fun m => JSContextGetGlobalObject Q m context);
  globalContext ← GetGlobalContext globalObject;
  (match globalContext with None => log_line (lit "stderr") no_context_text | Some _ => mret tt end);;
  ProtectGlobalContext globalContext;;
  c ← some_or_undef globalContext;
  JSValueProtect E c jsobject;;
  mret c.

Definition new_KKJSObject (context jsobject : N) : M loc :=
  c ← proxy_context context jsobject;
  new_object (lit "KObject") (KKJSObject c jsobject).

Definition new_KKJSMethod (context jsobject : N) (thisObject : option N) : M loc :=
  c ← proxy_context context jsobject;
  (match thisObject with Some t => JSValueProtect E c t | None => mret tt end);;
  k ← new_KKJSObject c jsobject;
  new_object (lit "KMethod") (KKJSMethod c jsobject thisObject k).

Definition new_KKJSList (context jsobject : N) : M loc :=
  c ← proxy_context context jsobject;
  k ← new_KKJSObject c jsobject;
  new_object (lit "KList") (KKJSList c jsobject k).

(** What the destructors do; a method and a list then release their [kobject]. *)
Definition delete_KKJSObject (context jsobject : N) : M unit :=
  JSValueUnprotect E context jsobject;; UnprotectGlobalContext context.
Definition delete_KKJSMethod (context jsobject : N) (thisObject : option N) : M unit :=
  JSValueUnprotect E context jsobject;;
  (match thisObject with Some t => JSValueUnprotect E context t | None => mret tt end);;
  UnprotectGlobalContext context.

Definition SameContextGroup (context contextIn : N) : M bool :=
  query (fun m => (JSContextGetGroup Q m context =? JSContextGetGroup Q m contextIn)%N).

(** ** From JavaScript *)

Fixpoint has_properties (ctx object : N) (l : list str) : M bool :=
  match l with
  | [] => mret true
  | name :: l' =>
      has ← JSObjectHasProperty E ctx object (js_string name);
      if has : bool then has_properties ctx object l' else mret false
  end.
Definition IsArrayLike (object ctx : N) : M bool :=
  has_properties ctx object [lit "pop"; lit "concat"; lit "length"].

(** The value for an object of JavaScript. *)
Definition new_proxy_value (o ctx : N) (thisObject : option N) : M loc :=
  isFunction ← query (fun m => JSObjectIsFunction Q m ctx o);
  if isFunction : bool then tibm ← new_KKJSMethod ctx o thisObject; NewMethod (Some tibm)
  else
    isArray ← IsArrayLike o ctx;
    if isArray : bool then tibl ← new_KKJSList ctx o; NewList (Some tibl)
    else tibo ← new_KKJSObject ctx o; NewObject (Some tibo).

(** The branch for an object: a wrapped value is returned as it is. *)
Definition object_to_kroll (value ctx : N) (thisObject : option N) : M (loc + option loc * option N) :=
  '(o, exception) ← JSValueToObject E ctx value;
  match o with
  | None => mret (inr (None, exception))
  | Some o =>
      p ← private o;
      match p with
      | Some p => l ← cell p; mret (inl l)
      | None =>
          l ← new_proxy_value o ctx thisObject;
          mret (inr (Some l, exception))
      end
  end.

(** A value that is returned at once ([inl]), or [krollValue] and [exception]. *)
Definition convert (value ctx : N) (thisObject : option N) : M (loc + option loc * option N) :=
  t ← query (fun m => JSValueGetType Q m ctx value);
  match t with
  | JSNumber =>
      '(d, exception) ← JSValueToNumber E ctx value; l ← NewDouble d; mret (inr (Some l, exception))
  | JSBoolean =>
      b ← query (fun m => JSValueToBoolean Q m ctx value); l ← NewBool b; mret (inr (Some l, None))
  | JSString =>
      '(s, exception) ← JSValueToStringCopy E ctx value;
      match s with
      | Some s => l ← NewString (ToChars s); mret (inr (Some l, exception))
      | None => mret (inr (None, exception))
      end
  | JSObject => object_to_kroll value ctx thisObject
  | JSNull => mret (inr (Some Null, None))
  | JSUndefined => mret (inr (Some Undefined, None))
  end.

Definition conversion_failed : str := lit "Conversion from Kroll value to JS value failed".

(** The conversion of an exception can fail in turn. *)
Fixpoint ToKrollValue_fuel (fuel : nat) (value : option N) (ctx : N) (thisObject : option N) : M loc :=
  match fuel with
  | O => lift Fuel
  | S fuel' =>
      match value with
      | None => GetLogger_Error (lit "Trying to convert NULL JSValueRef");; mret Undefined
      | Some value =>
          r ← convert value ctx thisObject;
          match r with
          | inl l => mret l
          | inr (Some l, None) => mret l
          | inr (_, Some exception) =>
              l ← ToKrollValue_fuel fuel' (Some exception) ctx None; throw (SharedValueExn l)
          | inr (None, None) =>
              GetLogger_Error (lit "Failed Kroll->JS conversion with no exception!");;
              throw_string conversion_failed
          end
      end
  end.
Definition ToKrollValue : option N -> N -> option N -> M loc := ToKrollValue_fuel (vFuel V).

(** ** To JavaScript *)

Definition kjs_class (name : str) (callAsFunction : bool) : JSClassDefinition :=
  {| className := name; jc_getPropertyNames := true; jc_finalize := true; jc_hasProperty := true;
     jc_getProperty := true; jc_setProperty := true; jc_callAsFunction := callAsFunction |}.

(** A class is created by the first object of it. *)
Definition the_class (get : JSState -> option N) (set : N -> JSState -> JSState)
    (definition : JSClassDefinition) : M N :=
  c ← the_js get;
  match c with
  | Some c => mret c
  | None => c ← JSClassCreate E definition; on_js (modify (set c));; mret c
  end.
Definition ObjectClass : M N :=
  the_class KJSKObjectClass (fun c j => j_with_classes (Some c) (KJSKMethodClass j) (KJSKListClass j) j)
    (kjs_class (lit "Object") false).
Definition MethodClass : M N :=
  the_class KJSKMethodClass (fun c j => j_with_classes (KJSKObjectClass j) (Some c) (KJSKListClass j) j)
    (kjs_class (lit "Function") true).
Definition ListClass : M N :=
  the_class KJSKListClass (fun c j => j_with_classes (KJSKObjectClass j) (KJSKMethodClass j) (Some c) j)
    (kjs_class (lit "Array") false).

(** The prototype of a constructor of the global object; exceptions are lost. *)
Definition GetPrototype (constructor : str) (ctx : N) : M N :=
  globalObject ← query (fun m => JSContextGetGlobalObject Q m ctx);
  '(fnCtorValue, _) ← JSObjectGetProperty E ctx globalObject (js_string constructor);
  match fnCtorValue with
  | None => JSValueMakeUndefined E ctx
  | Some fnCtorValue =>
      '(fnCtorObject, _) ← JSValueToObject E ctx fnCtorValue;
      match fnCtorObject with
      | None => JSValueMakeUndefined E ctx
      | Some fnCtorObject =>
          '(fnPrototype, _) ← JSObjectGetProperty E ctx fnCtorObject (js_string (lit "prototype"));
          match fnPrototype with
          | None => JSValueMakeUndefined E ctx
          | Some fnPrototype => mret fnPrototype
          end
      end
  end.
Definition GetFunctionPrototype : N -> M N := GetPrototype (lit "Function").
Definition GetArrayPrototype : N -> M N := GetPrototype (lit "Array").

Definition KObjectToJSValue (objectValue : loc) (ctx : N) : M N :=
  c ← ObjectClass; p ← new_cell objectValue; JSObjectMake E ctx c p.
Definition KMethodToJSValue (methodValue : loc) (ctx : N) : M N :=
  c ← MethodClass; p ← new_cell methodValue;
  jsobject ← JSObjectMake E ctx c p;
  functionPrototype ← GetFunctionPrototype ctx;
  JSObjectSetPrototype E ctx jsobject functionPrototype;;
  mret jsobject.
Definition KListToJSValue (listValue : loc) (ctx : N) : M N :=
  c ← ListClass; p ← new_cell listValue;
  jsobject ← JSObjectMake E ctx c p;
  arrayPrototype ← GetArrayPrototype ctx;
  JSObjectSetPrototype E ctx jsobject arrayPrototype;;
  mret jsobject.

(** [GetJSObject()] of a proxy of the class that [proxy] picks, when it is of
    the same group of contexts. *)
Definition as_KKJSObject (c : class) : option (N * N) :=
  match c with KKJSObject c j => Some (c, j) | _ => None end.
Definition as_KKJSMethod (c : class) : option (N * N) :=
  match c with KKJSMethod c j _ _ => Some (c, j) | _ => None end.
Definition as_KKJSList (c : class) : option (N * N) :=
  match c with KKJSList c j _ => Some (c, j) | _ => None end.
Definition own_object (proxy : class -> option (N * N)) (o : option loc) (ctx : N) : M (option N) :=
  match o with
  | None => mret None
  | Some o =>
      x ← geto o;
      match proxy (o_class x) with
      | None => mret None
      | Some (c, jsobject) =>
          same ← SameContextGroup c ctx;
          mret (if same : bool then Some jsobject else None)
      end
  end.

Definition ToJSValue (value : loc) (ctx : N) : M N :=
  v ← getv value;
  if IsInt v then JSValueMakeNumber E ctx (double_of_int (ToInt v))
  else if IsDouble v then JSValueMakeNumber E ctx (ToDouble v)
  else if IsBool v then b ← ToBool v; JSValueMakeBoolean E ctx b
  else if IsString v then s ← ToString v; JSValueMakeString E ctx (js_string s)
  else if IsObject v then
    own ← own_object as_KKJSObject (ToObject v) ctx;
    match own with Some j => mret j | None => KObjectToJSValue value ctx end
  else if IsMethod v then
    meth ← ToMethod v; own ← own_object as_KKJSMethod meth ctx;
    match own with Some j => mret j | None => KMethodToJSValue value ctx end
  else if IsList v then
    list ← ToList v; own ← own_object as_KKJSList list ctx;
    match own with Some j => mret j | None => KListToJSValue value ctx end
  else if IsNull v then JSValueMakeNull E ctx
  else if IsUndefined v then JSValueMakeUndefined E ctx
  else JSValueMakeUndefined E ctx.

(** ** The callbacks *)

Definition is_name (name : str) (l : names) : bool := existsb (fun p => bool_decide (p.2 = name)) l.
Definition push_name (add : bool) (name : str) (props : names) : M names :=
  if add then p ← new_name name; mret (props ++ [p]) else mret props.

Definition AddSpecialPropertyNames (value : loc) (props : names) (showInvisible : bool) : M names :=
  let foundLength := is_name (lit "length") props in
  let foundToString := is_name (lit "toString") props in
  let foundEquals := is_name (lit "equals") props in
  v ← getv value;
  props ← push_name (negb foundLength && IsList v) (lit "length") props;
  props ← push_name (negb foundToString && showInvisible) (lit "toString") props;
  push_name (negb foundEquals && showInvisible) (lit "equals") props.

Definition PrototypeHasFunctionNamed (ctx object : N) (name : jsstr) : M bool :=
  prototypeValue ← query (fun m => JSObjectGetPrototype Q m ctx object);
  '(prototype, exception) ← JSValueToObject E ctx prototypeValue;
  match exception with
  | Some _ => mret false
  | None =>
      prototype ← some_or_undef prototype;
      '(propValue, exception) ← JSObjectGetProperty E ctx prototype name;
      match exception with
      | Some _ => mret false
      | None =>
          propValue ← some_or_undef propValue;
          t ← query (fun m => JSValueGetType Q m ctx propValue);
          if decide (t = JSObject) then
            '(prop, exception) ← JSValueToObject E ctx propValue;
            match exception with
            | Some _ => mret false
            | None => prop ← some_or_undef prop; query (fun m => JSObjectIsFunction Q m ctx prop)
            end
          else mret false
      end
  end.

Definition HasPropertyCallback (ctx jsObject : N) (jsProperty : jsstr) : M bool :=
  p ← private jsObject;
  match p with
  | None => mret false
  | Some p =>
      value ← cell p;
      v ← getv value;
      let name := ToChars jsProperty in
      specialProperties ← AddSpecialPropertyNames value [] true;
      if is_name name specialProperties then mret true
      else
        shadowed ← (if IsList v || IsMethod v then PrototypeHasFunctionNamed ctx jsObject jsProperty
                    else mret false);
        if shadowed : bool then mret false
        else object ← some_or_undef (ToObject v); vHasProperty V object name
  end.

Definition GetSpecialProperty (value : loc) (name : str) (ctx : N) (objValue : loc) : M N :=
  v ← getv value;
  if IsList v && bool_decide (name = lit "length") then
    o ← ToList v; l ← some_or_undef o; n ← vSize V l; JSValueMakeNumber E ctx (double_of_int n)
  else
    w ← getv objValue;
    if negb (IsMethod w) && bool_decide (name = lit "toString") then
      JSObjectMakeFunctionWithCallback E ctx (js_string (lit "toString")) ToStringFunction
    else if negb (IsMethod w) && bool_decide (name = lit "equals") then
      JSObjectMakeFunctionWithCallback E ctx (js_string (lit "equals")) EqualsFunction
    else ToJSValue objValue ctx.

(** The three handlers of a callback: what JavaScript sees of an exception. *)
Definition to_exception (unknown : str) (ctx : N) (e : exn) : M N :=
  match e with
  | ValueException v => v ← some_or_undef v; ToJSValue v ctx
  | StdException what => v ← NewString what; ToJSValue v ctx
  | _ => v ← NewString unknown; ToJSValue v ctx
  end.

Definition unknown_get : str := lit "Unknown exception trying to get property: ".
Definition unknown_set : str := lit "Unknown exception trying to set property: ".
Definition unknown_call : str := lit "Unknown exception during Kroll method call".

Definition GetPropertyCallback (ctx jsObject : N) (jsProperty : jsstr) : M (option N * option N) :=
  p ← private jsObject;
  match p with
  | None => u ← JSValueMakeUndefined E ctx; mret (Some u, None)
  | Some p =>
      value ← cell p;
      v ← getv value;
      let name := ToChars jsProperty in
      try_catch
        (object ← some_or_undef (ToObject v);
         kvalue ← vGet V object name;
         j ← GetSpecialProperty value name ctx kvalue;
         mret (Some j, None))
        (fun e => j ← to_exception (unknown_get ++ name) ctx e; mret (None, Some j))
  end.

(** A negative length is a large [unsigned int]. *)
Definition DoSpecialSetBehavior (target : loc) (name : str) (newValue : loc) : M bool :=
  v ← getv target; w ← getv newValue;
  if negb (bool_decide (name = lit "length")) || negb (IsList v) || negb (IsInt w) then mret false
  else o ← ToList v; l ← some_or_undef o; ResizeTo V l (wrap32 (ToInt w));; mret true.

Definition SetPropertyCallback (ctx jsObject : N) (jsProperty : jsstr) (jsValue : N)
    : M (bool * option N) :=
  p ← private jsObject;
  match p with
  | None => mret (false, None)
  | Some p =>
      value ← cell p;
      v ← getv value;
      let propertyName := ToChars jsProperty in
      try_catch
        (newValue ← ToKrollValue (Some jsValue) ctx (Some jsObject);
         special ← DoSpecialSetBehavior value propertyName newValue;
         (if special : bool then mret tt
          else object ← some_or_undef (ToObject v); vSet V object propertyName newValue);;
         mret (true, None))
        (fun e => j ← to_exception (unknown_set ++ propertyName) ctx e; mret (false, Some j))
  end.

(** The conversion of the arguments is outside of the [try] block. *)
Definition CallAsFunctionCallback (ctx jsFunction jsThis : N) (jsArgs : list N)
    : M (option N * option N) :=
  p ← private jsFunction;
  match p with
  | None => u ← JSValueMakeUndefined E ctx; mret (Some u, None)
  | Some p =>
      value ← cell p;
      v ← getv value;
      method ← ToMethod v;
      args ← st_map (fun a =>
               argVal ← ToKrollValue (Some a) ctx (Some jsThis); Value_Unwrap argVal;; mret argVal) jsArgs;
      try_catch
        (method ← some_or_undef method; kvalue ← vCall V method args; j ← ToJSValue kvalue ctx;
         mret (Some j, None))
        (fun e =>
           (match e with
            | ValueException (Some v) => Value_DisplayString W V v 3;; mret tt
            | _ => mret tt
            end);;
           j ← to_exception unknown_call ctx e; mret (None, Some j))
  end.

Definition ToStringCallback (ctx jsFunction jsThis : N) (args : list N) : M (option N * option N) :=
  p ← private jsThis;
  match p with
  | None => u ← JSValueMakeUndefined E ctx; mret (Some u, None)
  | Some p =>
      value ← cell p;
      ss ← Value_DisplayString W V value 2;
      dsv ← NewString ss; j ← ToJSValue dsv ctx; mret (Some j, None)
  end.

(** [JSValueMakeBoolean(jsContext, b)] as the answer. *)
Definition answer_bool (ctx : N) (b : bool) : M (option N * option N) :=
  j ← JSValueMakeBoolean E ctx b; mret (Some j, None).

Definition EqualsCallback (ctx function jsThis : N) (args : list N) : M (option N * option N) :=
  p ← private jsThis;
  match p, args with
  | Some p, arg :: _ =>
      value ← cell p;
      t ← query (fun m => JSValueGetType Q m ctx arg);
      if decide (t = JSObject) then
        '(otherObject, _) ← JSValueToObject E ctx arg;
        otherObject ← some_or_undef otherObject;
        q ← private otherObject;
        match q with
        | None => answer_bool ctx false
        | Some q => otherValue ← cell q; b ← Value_Equals V value otherValue; answer_bool ctx b
        end
      else answer_bool ctx false
  | _, _ => answer_bool ctx false
  end.

Definition GetPropertyNamesCallback (jsObject : N) : M (list jsstr) :=
  p ← private jsObject;
  match p with
  | None => mret []
  | Some p =>
      value ← cell p;
      v ← getv value;
      object ← some_or_undef (ToObject v);
      props ← vGetPropertyNames V object;
      props ← AddSpecialPropertyNames value props false;
      mret (map (fun p => js_string p.2) props)
  end.

Definition FinalizeCallback (jsObject : N) : M unit :=
  p ← private jsObject;
  match p with Some p => delete_cell p | None => mret tt end.

(** The functions that the classes and the two special methods name. *)
Definition js_callback (c : jscall) : M (jsanswer c) :=
  match c with
  | HasPropertyCall ctx o name => HasPropertyCallback ctx o name
  | GetPropertyCall ctx o name => GetPropertyCallback ctx o name
  | SetPropertyCall ctx o name value => SetPropertyCallback ctx o name value
  | CallAsFunctionCall ctx f this args => CallAsFunctionCallback ctx f this args
  | GetPropertyNamesCall _ o => GetPropertyNamesCallback o
  | FinalizeCall o => FinalizeCallback o
  | ToStringCall ctx f this args => ToStringCallback ctx f this args
  | EqualsCall ctx f this args => EqualsCallback ctx f this args
  end.

(** ** The operations of the proxies *)

Definition kjs_object_of (this : loc) : M (N * N) :=
  x ← geto this; some_or_undef (as_KKJSObject (o_class x)).
(** [kobject] of a method or list. *)
Definition kobject_of (this : loc) : M loc :=
  x ← geto this;
  match o_class x with KKJSMethod _ _ _ k | KKJSList _ _ k => mret k | _ => undef end.

(** An exception of JavaScript is not asked for. *)
Definition KKJSObject_Get (this : loc) (name : str) : M loc :=
  '(context, jsobject) ← kjs_object_of this;
  '(jsValue, _) ← JSObjectGetProperty E context jsobject (js_string name);
  ToKrollValue jsValue context (Some jsobject).

(** [throw ValueException(ToKrollValue(exception, context, NULL))] *)
Definition throw_js {A} (exception context : N) : M A :=
  l ← ToKrollValue (Some exception) context None; throw (ValueException (Some l)).

Definition KKJSObject_Set (this : loc) (name : str) (value : loc) : M unit :=
  '(context, jsobject) ← kjs_object_of this;
  jsValue ← ToJSValue value context;
  exception ← JSObjectSetProperty E context jsobject (js_string name) jsValue;
  match exception with Some exception => throw_js exception context | None => mret tt end.

Definition KKJSObject_Equals (this : loc) (other : option loc) : M bool :=
  '(context, jsobject) ← kjs_object_of this;
  match other with
  | None => mret false
  | Some o =>
      x ← geto o;
      match as_KKJSObject (o_class x) with
      | None => mret false
      | Some (context', jsobject') =>
          same ← SameContextGroup context' context;
          if same : bool then query (fun m => JSValueIsStrictEqual Q m context jsobject jsobject')
          else mret false
      end
  end.

Definition KKJSObject_GetPropertyNames (this : loc) : M names :=
  '(context, jsobject) ← kjs_object_of this;
  l ← JSObjectCopyPropertyNames E context jsobject;
  st_map (fun jsName => new_name (ToChars jsName)) l.

Definition KKJSObject_HasProperty (this : loc) (name : str) : M bool :=
  '(context, jsobject) ← kjs_object_of this;
  JSObjectHasProperty E context jsobject (js_string name).

(** [KKJSMethod] and [KKJSList] ask their [kobject]. *)
Definition Kobject_Get (this : loc) (name : str) : M loc := k ← kobject_of this; vGet V k name.
Definition Kobject_Set (this : loc) (name : str) (value : loc) : M unit :=
  k ← kobject_of this; vSet V k name value.
Definition Kobject_Equals (this : loc) (other : option loc) : M bool :=
  k ← kobject_of this; vEquals V k other.
Definition Kobject_GetPropertyNames (this : loc) : M names :=
  k ← kobject_of this; vGetPropertyNames V k.
Definition Kobject_HasProperty (this : loc) (name : str) : M bool :=
  k ← kobject_of this; vHasProperty V k name.

Definition KKJSMethod_Call (this : loc) (args : list loc) : M loc :=
  x ← geto this;
  match o_class x with
  | KKJSMethod context jsobject thisObject _ =>
      jsArgs ← st_map (fun arg => ToJSValue arg context) args;
      '(jsValue, exception) ← JSObjectCallAsFunction E context jsobject thisObject jsArgs;
      match jsValue, exception with
      | None, Some exception => throw_js exception context
      | _, _ => ToKrollValue jsValue context None
      end
  | _ => undef
  end.

Definition KKJSList_Size (this : loc) : M Z :=
  k ← kobject_of this;
  length_val ← vGet V k (lit "length");
  v ← getv length_val;
  mret (if IsInt v then wrap32 (ToInt v) else 0%Z).

Definition KKJSList_At (this : loc) (index : Z) : M loc :=
  k ← kobject_of this; vGet V k (IntToChars index).
Definition KKJSList_SetAt (this : loc) (index : Z) (value : loc) : M unit :=
  k ← kobject_of this; vSet V k (IntToChars index) value.

Definition no_push_text : str := lit "Could not find push method on KJS array.".
Definition KKJSList_Append (this value : loc) : M unit :=
  k ← kobject_of this;
  push_method ← vGet V k (lit "push");
  v ← getv push_method;
  if IsMethod v then
    o ← ToMethod v; m ← some_or_undef o; vCall V m [value];; mret tt
  else throw_string no_push_text.

Definition KKJSList_Remove (this : loc) (index : Z) : M bool :=
  n ← vSize V this;
  if (0 <=? index)%Z && (index <? n)%Z then
    k ← kobject_of this;
    spliceMethod ← vGet V k (lit "splice");
    v ← getv spliceMethod;
    o ← ToMethod v; m ← some_or_undef o;
    i ← NewInt (to_signed32 index); one ← NewInt 1;
    Call2 V m i one;;
    mret true
  else mret false.

(** ** Contexts and scripts *)

Definition global_of (ctx : N) : M N := query (fun m => JSContextGetGlobalObject Q m ctx).

(** The global object as a property of the one of JavaScript. *)
Definition insert_api (ctx globalObject : N) : M unit :=
  global ← gets (fun h => s_global (sys h));
  globalValue ← NewObject (Some global);
  jsAPI ← ToJSValue globalValue ctx;
  JSObjectSetProperty E ctx globalObject (js_string (PRODUCT_NAME (w_machine (outside W)))) jsAPI;;
  mret tt.

Definition CreateNewGlobalContext (addGlobalObject : bool) : M N :=
  ctx ← JSGlobalContextCreate E;
  globalObject ← global_of ctx;
  RegisterGlobalContext globalObject ctx;;
  (if addGlobalObject then insert_api ctx globalObject else mret tt);;
  mret globalObject.

(** The end of [Evaluate] and [EvaluateFile]. *)
Definition evaluate (ctx : N) (text : str) : M loc :=
  globalObject ← global_of ctx;
  '(returnValue, exception) ← JSEvaluateScript E ctx (js_string text) (Some globalObject);
  match exception with
  | Some exception => throw_js exception ctx
  | None => ToKrollValue returnValue ctx (Some globalObject)
  end.
Definition KJS_Evaluate (ctx : N) (script : str) : M loc := evaluate ctx script.
Definition KJS_EvaluateFile (ctx : N) (fullPath : str) : M loc :=
  log_line (lit "JavaScript.KJSUtil") (lit "Evaluating JavaScript file at: " ++ c_str fullPath);;
  fs ← gets (fun h => s_fs (sys h));
  evaluate ctx (ReadFile fs fullPath).

(** A null context is used when the global object is not registered. *)
Definition BindProperties (globalObject : N) (obj : loc) : M unit :=
  g ← GetGlobalContext globalObject;
  names ← vGetPropertyNames V obj;
  st_fold (fun _ p =>
    v ← vGet V obj (c_str p.2);
    ctx ← some_or_undef g;
    j ← ToJSValue v ctx;
    JSObjectSetProperty E ctx globalObject (js_string p.2) j;;
    mret tt) tt names.

Definition KJS_GetProperty (globalObject : N) (name : str) : M loc :=
  g ← GetGlobalContext globalObject;
  ctx ← some_or_undef g;
  '(prop, _) ← JSObjectGetProperty E ctx globalObject (js_string name);
  ToKrollValue prop ctx (Some globalObject).

(** ** The module *)

(** [exception] is not initialised before the two calls that set it. *)
Definition JavascriptModuleInstance_Run (code : str) : M unit :=
  ctx ← JSGlobalContextCreate E;
  globalObject ← global_of ctx;
  RegisterGlobalContext globalObject ctx;;
  insert_api ctx globalObject;;
  '(syntax, exception) ← JSCheckScriptSyntax E ctx (js_string code);
  if syntax : bool then
    '(ret, exception) ← JSEvaluateScript E ctx (js_string code) None;
    match ret with
    | None => exception ← some_or_undef exception; throw_js exception ctx
    | Some _ => mret tt
    end
  else exception ← some_or_undef exception; throw_js exception ctx.

(** The constructor: the error of the script is logged. *)
Definition new_JavascriptModuleInstance (path : str) : M unit :=
  fs ← gets (fun h => s_fs (sys h));
  try_catch (JavascriptModuleInstance_Run (ReadFile fs path))
    (fun e =>
       match e with
       | ValueException v =>
           v ← some_or_undef v;
           ss ← Value_DisplayString W V v 3;
           log_line (lit "Javascript")
             (lit "Could not execute " ++ c_str path ++ lit " because " ++ c_str ss)
       | e => throw e
       end).
End JavaScript.

Definition jsSuffix : str := lit "module.js".
Definition JavascriptModule_IsModule (path : str) : res bool :=
  let plength := length path in
  let slength := length jsSuffix in
  if slength <? plength then
    suffix ← substr path (plength - slength) None; Ret (bool_decide (suffix = jsSuffix))
  else Ret false.

(** ** Monotonicity *)
Section Mono.
Context (W : World) (V1 V2 : VOps) (HV : vle V1 V2) (HJ : jle (js W V1) (js W V2)).
#[local] Set Default Proof Using "Type*".

Lemma has_properties_mono c o l :
  approx (has_properties W V1 c o l) (has_properties W V2 c o l).
Proof. induction l as [|n l IH]; simpl; mono. Qed.
#[local] Hint Resolve has_properties_mono : mono.
Lemma new_KKJSObject_mono c o : approx (new_KKJSObject W V1 c o) (new_KKJSObject W V2 c o).
Proof. mono_deep. Qed.
#[local] Hint Resolve new_KKJSObject_mono : mono.
Lemma convert_mono v c t : approx (convert W V1 v c t) (convert W V2 v c t).
Proof. mono_deep. Qed.
#[local] Hint Resolve convert_mono : mono.

Lemma ToKrollValue_fuel_mono n1 n2 v c t :
  n1 <= n2 -> approx (ToKrollValue_fuel W V1 n1 v c t) (ToKrollValue_fuel W V2 n2 v c t).
Proof.
  revert n2 v c t. induction n1 as [|n1 IH]; intros n2 v c t Hn; [apply approx_fuel|].
  destruct n2 as [|n2]; [lia|]. cbn [ToKrollValue_fuel]. mono; apply IH; lia.
Qed.
Lemma ToKrollValue_mono v c t : approx (ToKrollValue W V1 v c t) (ToKrollValue W V2 v c t).
Proof. apply ToKrollValue_fuel_mono. by apply le_Fuel. Qed.
Lemma ToJSValue_mono v c : approx (ToJSValue W V1 v c) (ToJSValue W V2 v c).
Proof. mono_deep. Qed.
#[local] Hint Resolve ToKrollValue_mono ToJSValue_mono : mono.

Lemma js_callback_mono c : approx (js_callback W V1 c) (js_callback W V2 c).
Proof. destruct c; cbn [js_callback jsanswer]; mono_deep. Qed.
End Mono.

#[export] Hint Resolve ToKrollValue_mono ToJSValue_mono js_callback_mono : mono.
