(* ===== verification/Ruby.v ===== *)
(** * Ruby: the objects that cross the border to Ruby
    (modules/ruby/ruby_utils.cpp, k_ruby_object.cpp, k_ruby_hash.cpp,
    k_ruby_method.cpp and k_ruby_list.cpp)

    A Kroll object reaches Ruby as an object of one of the classes of the
    program, whose methods serve it; it holds a [SharedValue]. A Ruby object
    reaches the program as a proxy ([KRubyObject], ...). The calls of Ruby are
    [rb], the functions that only look [rbq]. An exception of Ruby that leaves
    a method of the program is its answer; one that would jump over frames of
    the program is undefined. *)

From S2P Require Import Prelude CppString Double System Heap RubyCore Virtual KObject StaticBound StaticLaws.
From stdpp Require Import options.

Definition r_with_values f r :=
  {| rbk_values := f (rbk_values r); KObjectClass := KObjectClass r; KMethodClass := KMethodClass r;
     KListClass := KListClass r; rb_next_id := rb_next_id r; rb_global_object := rb_global_object r;
     rb_binding := rb_binding r; rb_instance := rb_instance r; rb_memory := rb_memory r |}.
Definition r_with_classes o m l r :=
  {| rbk_values := rbk_values r; KObjectClass := o; KMethodClass := m; KListClass := l;
     rb_next_id := rb_next_id r; rb_global_object := rb_global_object r; rb_binding := rb_binding r;
     rb_instance := rb_instance r; rb_memory := rb_memory r |}.
Definition on_rb {A} (m : ST RbState A) : M A := on_sys (zoom s_rb with_rb m).
Definition the_rb {A} (f : RbState -> A) : M A := gets (fun h => f (s_rb (sys h))).
(** A question to the interpreter. *)
Definition askr {A} (f : rbmem -> A) : M A := gets (fun h => f (rbmem_of h)).

(** The classes of the wrappers. *)
Inductive wrapper_kind := WObject | WMethod | WList.
Definition class_of_wrapper (k : wrapper_kind) (r : RbState) : option N :=
  match k with WObject => KObjectClass r | WMethod => KMethodClass r | WList => KListClass r end.
Definition set_class_of_wrapper (k : wrapper_kind) (c : N) (r : RbState) : RbState :=
  match k with
  | WObject => r_with_classes (Some c) (KMethodClass r) (KListClass r) r
  | WMethod => r_with_classes (KObjectClass r) (Some c) (KListClass r) r
  | WList => r_with_classes (KObjectClass r) (KMethodClass r) (Some c) r
  end.
Definition wrapper_class_name (k : wrapper_kind) : str :=
  match k with WObject => lit "RubyKObject" | WMethod => lit "RubyKMethod" | WList => lit "RubyKList" end.
Definition object_methods : list (str * rbfunc * Z) := [
  (lit "method_missing", RubyKObjectMethodMissing_, (-1)%Z); (lit "method", RubyKObjectMethod_, (-1)%Z);
  (lit "methods", RubyKObjectMethods_, 0%Z); (lit "respond_to?", RubyKObjectRespondTo_, (-1)%Z)].
Definition wrapper_methods (k : wrapper_kind) : list (str * rbfunc * Z) :=
  object_methods ++
  match k with
  | WObject => []
  | WMethod => [(lit "call", RubyKMethodCall_, (-2)%Z)]
  | WList => [(lit "[]", RubyKListGetElt_, (-1)%Z); (lit "[]=", RubyKListSetElt_, (-1)%Z);
              (lit "length", RubyKListLength_, (-1)%Z); (lit "each", RubyKListEach_, 0%Z)]
  end.

Definition is_KRubyObject (c : class) : bool := match c with KRubyObject _ => true | _ => false end.
Definition is_KRubyHash (c : class) : bool := match c with KRubyHash _ _ => true | _ => false end.
Definition is_KRubyMethod (c : class) : bool := match c with KRubyMethod _ _ _ => true | _ => false end.
Definition is_KRubyList (c : class) : bool := match c with KRubyList _ _ => true | _ => false end.

(** [Data_Get_Struct(self, SharedValue, value)] *)
Definition wrapped_value (self : N) : M loc := m ← the_rb rbk_values; some_or_undef (m !! self).

Section Ruby.
Context (W : World) (V : VOps).
#[local] Abbreviation Q := (rbq W).
#[local] Abbreviation call := (rb W V _).

(** The result of a call outside of [rb_protect]. *)
Definition unprotected (r : rbanswer) : M N := match r with Returned v => mret v | Raised _ => undef end.
Definition rtext (v : N) : M str := askr (fun m => c_str (string_text Q m v)).

(** ** The proxies *)

(** What is registered with the garbage collector is the address of the
    parameter. *)
Definition new_KRubyObject (obj : N) : M loc :=
  o ← new_object (lit "KObject") (KRubyObject obj);
  call (rb_gc_register_address obj);; mret o.
Definition new_KRubyHash (hash : N) : M loc :=
  k ← new_KRubyObject hash;
  o ← new_object (lit "KObject") (KRubyHash hash k);
  call (rb_gc_register_address hash);; mret o.
Definition new_KRubyMethod (method : N) : M loc :=
  k ← new_KRubyObject method;
  o ← new_object (lit "KMethod") (KRubyMethod method (Qnil Q) k);
  call (rb_gc_register_address method);; mret o.
Definition new_KRubyList (list : N) : M loc :=
  k ← new_KRubyObject list;
  o ← new_object (lit "KList") (KRubyList list k);
  call (rb_gc_register_address list);; mret o.

(** What the destructors do. *)
Definition delete_KRubyObject (obj : N) : M unit := call (rb_gc_unregister_address obj).
Definition delete_KRubyHash (hash : N) : M unit := call (rb_gc_unregister_address hash).
Definition delete_KRubyMethod (method : N) : M unit := call (rb_gc_unregister_address method).
Definition delete_KRubyList (list : N) : M unit := call (rb_gc_unregister_address list).

Definition KRubyObject_ToRuby (this : loc) : M N :=
  x ← geto this; match o_class x with KRubyObject obj => mret obj | _ => undef end.
(** The [object] of the other proxies. *)
Definition kruby_object_of (this : loc) : M loc :=
  x ← geto this;
  match o_class x with
  | KRubyHash _ k | KRubyMethod _ _ k | KRubyList _ k => mret k
  | _ => undef
  end.
Definition Kruby_ToRuby (this : loc) : M N := k ← kruby_object_of this; KRubyObject_ToRuby k.

(** ** From Ruby *)

(** Objects of the type [T_DATA]: wrappers of the program give a new value
    with the object of theirs. *)
Definition data_to_kroll (m : rbmem) (value : N) : M loc :=
  r ← gets (fun h => s_rb (sys h));
  let is_a k := match class_of_wrapper k r with Some c => kind_of Q m value c | None => false end in
  if is_a WObject then l ← wrapped_value value; v ← getv l; NewObject (ToObject v)
  else if is_a WMethod then l ← wrapped_value value; v ← getv l; o ← ToMethod v; NewMethod o
  else if is_a WList then l ← wrapped_value value; v ← getv l; o ← ToList v; NewList o
  else if kind_of Q m value (class_value Q rb_cMethod) || kind_of Q m value (class_value Q rb_cProc)
  then o ← new_KRubyMethod value; NewMethod (Some o)
  else o ← new_KRubyObject value; NewObject (Some o).

Definition RbToKrollValue (value : N) : M loc :=
  m ← gets rbmem_of;
  match TYPE Q m value with
  | T_NIL => mret Null
  | T_FIXNUM | T_BIGNUM | T_FLOAT => NewDouble (NUM2DBL Q m value)
  | T_TRUE => NewBool true
  | T_FALSE => NewBool false
  | T_STRING => s ← rtext value; NewString s
  | T_OBJECT | T_STRUCT => o ← new_KRubyObject value; NewObject (Some o)
  | T_HASH => o ← new_KRubyHash value; NewObject (Some o)
  | T_ARRAY => o ← new_KRubyList value; NewList (Some o)
  | T_DATA => data_to_kroll m value
  | T_OTHER => mret Undefined
  end.

(** [RubyUtils::GetException] *)
Definition GetException : M exn :=
  e ← call (rb_gv_get (lit "$!")); v ← RbToKrollValue e; mret (ValueException (Some v)).

(** ** To Ruby *)

(** The class is defined when the first wrapper is made. *)
Definition wrapper_ruby_class (k : wrapper_kind) : M N :=
  c ← the_rb (class_of_wrapper k);
  match c with
  | Some c => mret c
  | None =>
      c ← call (rb_define_class (wrapper_class_name k));
      on_rb (modify (set_class_of_wrapper k c));;
      st_fold (fun _ '(name, f, argc) => call (rb_define_method c name f argc)) tt (wrapper_methods k);;
      mret c
  end.
Definition wrap_value (k : wrapper_kind) (v : loc) : M N :=
  c ← wrapper_ruby_class k;
  wrapper ← call (Data_Wrap_Struct c);
  on_rb (modify (r_with_values (<[wrapper := v]>)));;
  call (rb_obj_call_init wrapper);;
  mret wrapper.
Definition KObjectToRubyValue : loc -> M N := wrap_value WObject.
Definition KMethodToRubyValue : loc -> M N := wrap_value WMethod.
Definition KListToRubyValue : loc -> M N := wrap_value WList.

Definition ToRubyValue (value : loc) : M N :=
  v ← getv value;
  if IsNull v || IsUndefined v then mret (Qnil Q)
  else if IsBool v then b ← ToBool v; mret (if b : bool then Qtrue Q else Qfalse Q)
  else if IsNumber v then call (rb_float_new (ToNumber v))
  else if IsString v then s ← ToString v; call (rb_str_new2 (c_str s))
  else if IsObject v then
    ro ← dynamic_cast is_KRubyObject (ToObject v);
    rh ← dynamic_cast is_KRubyHash (ToObject v);
    match ro, rh with
    | Some ro, _ => KRubyObject_ToRuby ro
    | None, Some rh => Kruby_ToRuby rh
    | None, None => KObjectToRubyValue value
    end
  else if IsMethod v then
    m ← ToMethod v;
    rm ← dynamic_cast is_KRubyMethod m;
    match rm with Some rm => Kruby_ToRuby rm | None => KMethodToRubyValue value end
  else if IsList v then
    l ← ToList v;
    rl ← dynamic_cast is_KRubyList l;
    match rl with Some rl => Kruby_ToRuby rl | None => KListToRubyValue value end
  else mret (Qnil Q).

(** ** The operations of the proxies *)

Definition is_a (m : rbmem) (v : N) (c : RubyClass) : bool := kind_of Q m v (class_value Q c).

Definition kruby_object (this : loc) : M N :=
  x ← geto this; match o_class x with KRubyObject obj => mret obj | _ => undef end.

(** The last resort is an instance variable. *)
Definition KRubyObject_Set (this : loc) (name : str) (value : loc) : M unit :=
  object ← kruby_object this;
  ruby_value ← ToRubyValue value;
  responds ← call (rb_obj_respond_to object (name ++ lit "=") true);
  error ← (if responds : bool then
             r ← call (rb_funcall object (name ++ lit "=") [ruby_value]); unprotected r;; mret false
           else
             rargs ← call rb_ary_new;
             call (rb_ary_push rargs object);;
             s ← call (rb_str_new2 name);
             call (rb_ary_push rargs s);;
             call (rb_ary_push rargs ruby_value);;
             '(_, error) ← call (rb_protect kobj_do_method_missing_call_ rargs);
             exception ← call (rb_gv_get (lit "$!"));
             m ← gets rbmem_of;
             if negb (is_a m exception rb_eNoMethodError) && is_a m exception rb_eNameError then
               ex ← RbToKrollValue exception; throw (ValueException (Some ex))
             else mret error);
  if error : bool then call (rb_iv_set object (lit "@" ++ name) ruby_value) else mret tt.

(** What [method_missing] answers is not used: either the property is
    undefined, or [$!] is thrown, be there an exception or not. *)
Definition KRubyObject_Get (this : loc) (name : str) : M loc :=
  object ← kruby_object this;
  responds ← call (rb_obj_respond_to object name true);
  if responds : bool then
    sym ← call (rb_id2sym name);
    r ← call (rb_funcall object (lit "method") [sym]);
    v ← unprotected r; RbToKrollValue v
  else
    defined ← call (rb_ivar_defined object (lit "@" ++ name));
    if defined : bool then v ← call (rb_ivar_get object (lit "@" ++ name)); RbToKrollValue v
    else
      missing ← call (rb_obj_respond_to object (lit "method_missing") true);
      if missing : bool then
        rargs ← call rb_ary_new;
        call (rb_ary_push rargs object);;
        sym ← call (rb_id2sym name);
        call (rb_ary_push rargs sym);;
        call (rb_protect kobj_do_method_missing_call_ rargs);;
        exception ← call (rb_gv_get (lit "$!"));
        m ← gets rbmem_of;
        if is_a m exception rb_eNoMethodError || is_a m exception rb_eNameError then mret Undefined
        else ex ← RbToKrollValue exception; throw (ValueException (Some ex))
      else RbToKrollValue (Qnil Q).

(** [other->ToRuby() == this->ToRuby()] when [other] is of the class [P]. *)
Definition ruby_equals (P : class -> bool) (ToRuby : loc -> M N) (this : loc) (other : option loc) : M bool :=
  o ← dynamic_cast P other;
  match o with
  | None => mret false
  | Some o => a ← ToRuby o; b ← ToRuby this; mret (a =? b)%N
  end.
Definition KRubyObject_Equals : loc -> option loc -> M bool := ruby_equals is_KRubyObject KRubyObject_ToRuby.
Definition KRubyHash_Equals : loc -> option loc -> M bool := ruby_equals is_KRubyHash Kruby_ToRuby.
Definition KRubyMethod_Equals : loc -> option loc -> M bool := ruby_equals is_KRubyMethod Kruby_ToRuby.
Definition KRubyList_Equals : loc -> option loc -> M bool := ruby_equals is_KRubyList Kruby_ToRuby.

Definition KRubyObject_DisplayString (this : loc) (levels : Z) : M str :=
  object ← kruby_object this;
  r ← call (rb_obj_as_string object);
  out ← unprotected r; rtext out.

(** The texts of the array [a] as names, changed by [f]. *)
Definition array_name_step (a : N) (f : str -> str) (st : Z * names) : M ((Z * names) + names) :=
  let '(i, l) := st in
  n ← askr (fun m => RARRAY_LEN Q m a);
  if (i <? n)%Z then
    e ← askr (fun m => rb_ary_entry Q m a i);
    s ← rtext e;
    p ← new_name (f s); mret (inl ((i + 1)%Z, l ++ [p]))
  else mret (inr l).
Definition array_names (a : N) (f : str -> str) (l : names) : M names :=
  loop (vFuel V) (array_name_step a f) (0%Z, l).
(** [if (name[0] == '@') name = name.substr(1);] *)
Definition strip_at (name : str) : str :=
  match name with c :: name' => if Ascii.eqb c "@"%char then name' else name | [] => [] end.

Definition KRubyObject_GetPropertyNames (this : loc) : M names :=
  object ← kruby_object this;
  vars ← call (rb_obj_instance_variables object);
  names ← array_names vars strip_at [];
  responds ← call (rb_obj_respond_to object (lit "methods") false);
  if responds : bool then
    r ← call (rb_funcall object (lit "methods") []);
    methods ← unprotected r; array_names methods id names
  else mret names.

(** [KRubyHash], [KRubyMethod] and [KRubyList] ask their [object]. *)
Definition Kruby_Get (this : loc) (name : str) : M loc := k ← kruby_object_of this; vGet V k name.
Definition Kruby_Set (this : loc) (name : str) (value : loc) : M unit :=
  k ← kruby_object_of this; vSet V k name value.
Definition Kruby_GetPropertyNames (this : loc) : M names :=
  k ← kruby_object_of this; vGetPropertyNames V k.
Definition Kruby_DisplayString (this : loc) (levels : Z) : M str :=
  k ← kruby_object_of this; vDisplayString V k levels.

Definition hash_of (this : loc) : M N :=
  x ← geto this; match o_class x with KRubyHash hash _ => mret hash | _ => undef end.

Definition KRubyHash_Get (this : loc) (name : str) : M loc :=
  hash ← hash_of this;
  key ← call (rb_str_new2 name);
  r ← call (rb_funcall hash (lit "has_key?") [key]);
  r ← unprotected r;
  if negb (r =? Qfalse Q)%N then v ← call (rb_hash_aref hash key); RbToKrollValue v
  else Kruby_Get this name.
Definition KRubyHash_Set (this : loc) (name : str) (value : loc) : M unit :=
  hash ← hash_of this;
  key ← call (rb_str_new2 name);
  v ← ToRubyValue value;
  call (rb_hash_aset hash key v).
(** The first list of names is not used. *)
Definition KRubyHash_GetPropertyNames (this : loc) : M names :=
  hash ← hash_of this;
  Kruby_GetPropertyNames this;;
  names ← Kruby_GetPropertyNames this;
  r ← call (rb_funcall hash (lit "keys") []);
  keys ← unprotected r;
  array_names keys id names.

(** *** Methods *)

(** The functions that run under [rb_protect]. *)
Definition DoMethodCall (args : N) : M rbanswer :=
  method ← call (rb_ary_shift args);
  rargs ← call (rb_ary_shift args);
  call (rb_apply method (lit "call") rargs).
Definition kobj_do_method_missing_call (args : N) : M rbanswer :=
  object ← call (rb_ary_shift args); call (rb_apply object (lit "method_missing") args).
Definition reval_do_call (args : N) : M rbanswer :=
  ctx ← call (rb_ary_shift args);
  code ← call (rb_ary_shift args);
  call (rb_funcall ctx (lit "instance_eval") [code]).

Definition MethodArity (method : N) : M Z :=
  responds ← call (rb_obj_respond_to method (lit "arity") false);
  if negb responds then mret 0%Z
  else
    a ← call rb_ary_new;
    r ← call (rb_apply method (lit "arity") a);
    v ← unprotected r;
    z ← askr (fun m => NUM2INT Q m v); some_or_undef z.

(** [i < args.size() && (int) i < arity] *)
Definition passed_args (arity : Z) (args : list loc) : list loc :=
  let arity := if (arity <? 0)%Z then Z.of_nat (length args) else arity in
  take (Z.to_nat arity) args.

Definition KRubyMethod_Call (this : loc) (args : list loc) : M loc :=
  x ← geto this;
  match o_class x with
  | KRubyMethod method arg _ =>
      arity ← MethodArity method;
      ruby_args ← call rb_ary_new;
      (if (arg =? Qnil Q)%N then mret tt else call (rb_ary_push ruby_args arg));;
      st_fold (fun _ a => v ← ToRubyValue a; call (rb_ary_push ruby_args v)) tt (passed_args arity args);;
      do_call_args ← call rb_ary_new;
      call (rb_ary_push do_call_args method);;
      call (rb_ary_push do_call_args ruby_args);;
      '(result, error) ← call (rb_protect DoMethodCall_ do_call_args);
      if error : bool then
        e ← GetException;
        ss ← (match e with ValueException (Some v) => Value_DisplayString W V v 3 | _ => undef end);
        log_line (lit "stdout") (lit "Error: " ++ ss);;
        throw e
      else RbToKrollValue result
  | _ => undef
  end.

(** *** Lists *)

Definition rblist_of (this : loc) : M N :=
  x ← geto this; match o_class x with KRubyList l _ => mret l | _ => undef end.

Definition KRubyList_Append (this value : loc) : M unit :=
  list ← rblist_of this; rv ← ToRubyValue value; call (rb_ary_push list rv).
Definition KRubyList_Size (this : loc) : M Z :=
  list ← rblist_of this; n ← askr (fun m => RARRAY_LEN Q m list); mret (wrap32 n).
Definition KRubyList_Remove (this : loc) (index : Z) : M bool :=
  list ← rblist_of this; v ← call (rb_ary_delete_at list index); mret (negb (v =? Qnil Q)%N).
Definition KRubyList_At (this : loc) (index : Z) : M loc :=
  n ← vSize V this;
  if (index <? n)%Z then
    list ← rblist_of this; v ← askr (fun m => rb_ary_entry Q m list index); RbToKrollValue v
  else mret Undefined.
Definition KRubyList_SetAt (this : loc) (index : Z) (value : loc) : M unit :=
  list ← rblist_of this; rv ← ToRubyValue value; call (rb_ary_store list index rv).
(** [index = atoi(name) >= 0] is [index = (atoi(name) >= 0)]. *)
Definition KRubyList_Set (this : loc) (name : str) (value : loc) : M unit :=
  if KList_IsInt name && (0 <=? atoi (c_str name))%Z then vSetAt V this 1 value
  else Kruby_Set this name value.
(** [index >= 0] holds for every [unsigned int]. *)
Definition KRubyList_Get (this : loc) (name : str) : M loc :=
  if KList_IsInt name then vAt V this (wrap32 (atoi (c_str name))) else Kruby_Get this name.

Definition rblist_name_step (this : loc) (st : Z * names) : M ((Z * names) + names) :=
  let '(i, l) := st in
  n ← vSize V this;
  if (i <? n)%Z then p ← new_name (IntToChars i); mret (inl ((i + 1)%Z, l ++ [p]))
  else mret (inr l).
Definition KRubyList_GetPropertyNames (this : loc) : M names :=
  l ← Kruby_GetPropertyNames this; loop (vFuel V) (rblist_name_step this) (0%Z, l).

(** ** The methods of the wrappers *)

Definition wrapped (self : N) : M value := l ← wrapped_value self; getv l.

Definition rb_argument_step (args : N) (st : Z * list loc) : M ((Z * list loc) + list loc) :=
  let '(i, kargs) := st in
  n ← askr (fun m => RARRAY_LEN Q m args);
  if (i <? n)%Z then
    rarg ← askr (fun m => rb_ary_entry Q m args i);
    arg ← RbToKrollValue rarg;
    Value_Unwrap arg;;
    mret (inl ((i + 1)%Z, kargs ++ [arg]))
  else mret (inr kargs).

(** [ValueException::DisplayString] *)
Definition exception_text (v : option loc) : M str :=
  match v with Some v => Value_DisplayString W V v 3 | None => mret (lit "<no exception>") end.
Definition raise (c : RubyClass) (format : str) (args : list str) : rbanswer :=
  Raised (Some (c, format_text Q format args)).

(** The text of the exception is the format of the one of Ruby. *)
Definition GenericKMethodCall (method : loc) (args : N) : M rbanswer :=
  kargs ← loop (vFuel V) (rb_argument_step args) (0%Z, []);
  try_catch
    (result ← vCall V method kargs; r ← ToRubyValue result; mret (Returned r))
    (fun e =>
       match e with
       | ValueException v => ss ← exception_text v; mret (raise rb_eStandardError (c_str ss) [])
       | e => throw e
       end).

Definition RubyKObjectMethods (self : N) : M rbanswer :=
  v ← wrapped self;
  methods ← call rb_call_super;
  match methods with
  | Raised e => mret (Raised e)
  | Returned methods =>
      object ← some_or_undef (ToObject v);
      props ← vGetPropertyNames V object;
      st_fold (fun _ p => s ← call (rb_str_new2 (c_str p.2)); call (rb_ary_push methods s)) tt props;;
      mret (Returned methods)
  end.

Definition RubyKObjectMethod (argv : list N) (self : N) : M rbanswer :=
  v ← wrapped self;
  match ToObject v, argv with
  | Some object, meth_name :: _ =>
      name ← askr (fun m => symbol_name Q m meth_name);
      l ← vGet V object (c_str name);
      w ← getv l;
      if IsMethod w then r ← ToRubyValue l; mret (Returned r) else mret (Returned (Qnil Q))
  | _, _ => mret (Returned (Qnil Q))
  end.

Definition no_method_format : str := lit "undefined method `%s' for %s".
(** An assignment, a property that is not there, a call, or a property. *)
Definition use_property (self : N) (object : loc) (name : str) (argv : list N) (args : N) : M rbanswer :=
  value ← vGet V object name;
  match argv with
  | _ :: arg :: _ =>
      if bool_decide (last name = Some "="%char) then
        nv ← RbToKrollValue arg;
        vSet V object (removelast name) nv;;
        mret (Some (Returned arg))
      else mret None
  | _ => mret None
  end ≫= fun assigned =>
  match assigned with
  | Some r => mret r
  | None =>
      v ← getv value;
      if IsUndefined v then
        s ← call (rb_obj_as_string self);
        match s with
        | Raised e => mret (Raised e)
        | Returned s => text ← rtext s; mret (raise rb_eNoMethodError no_method_format [name; text])
        end
      else if IsMethod v then
        m ← ToMethod v; m ← some_or_undef m; GenericKMethodCall m args
      else r ← ToRubyValue value; mret (Returned r)
  end.

Definition RubyKObjectMethodMissing (argv : list N) (self : N) : M rbanswer :=
  v ← wrapped self;
  match ToObject v with
  | None => mret (Returned (Qnil Q))
  | Some object =>
      m ← gets rbmem_of;
      if match argv with [] => true | s :: _ => negb (SYMBOL_P Q m s) end then
        mret (raise rb_eArgError (lit "no id given") [])
      else
        scanned ← call (rb_scan_args (lit "1*") argv);
        match scanned with
        | Some [r_name; args] =>
            name ← askr (fun m => symbol_name Q m r_name);
            use_property self object (c_str name) argv args
        | Some _ => undef
        | None => mret (Raised None)
        end
  end.

Definition RubyKObjectRespondTo (argv : list N) (self : N) : M rbanswer :=
  v ← wrapped self;
  scanned ← call (rb_scan_args (lit "11") argv);
  match scanned with
  | Some (mid :: _) =>
      name ← askr (fun m => to_id_name Q m mid);
      object ← some_or_undef (ToObject v);
      l ← vGet V object (c_str name);
      w ← getv l;
      mret (Returned (if IsUndefined w then Qfalse Q else Qtrue Q))
  | Some [] => undef
  | None => mret (Raised None)
  end.

Definition RubyKObjectFree (o : N) : M unit := on_rb (modify (r_with_values (delete o))).

Definition RubyKMethodCall (self args : N) : M rbanswer :=
  v ← wrapped self;
  method ← ToMethod v;
  match method with
  | None => mret (Returned (Qnil Q))
  | Some method => GenericKMethodCall method args
  end.

(** The index that an argument gives: nothing unless it is a small integer
    that is not negative; [None] inside: the conversion raises. *)
Definition list_index (m : rbmem) (v : N) : option (option Z) :=
  match TYPE Q m v with
  | T_FIXNUM =>
      match NUM2INT Q m v with
      | Some idx => if (idx <? 0)%Z then None else Some (Some idx)
      | None => Some None
      end
  | _ => None
  end.

Definition RubyKListGetElt (argv : list N) (self : N) : M rbanswer :=
  v ← wrapped self;
  list ← ToList v;
  match list, argv with
  | Some list, arg :: _ =>
      m ← gets rbmem_of;
      match list_index m arg with
      | None => mret (Returned (Qnil Q))
      | Some None => mret (Raised None)
      | Some (Some idx) =>
          n ← vSize V list;
          if (idx <? to_signed32 n)%Z then
            l ← vAt V list idx; r ← ToRubyValue l; mret (Returned r)
          else mret (Returned (Qnil Q))
      end
  | _, _ => mret (Returned (Qnil Q))
  end.

Definition RubyKListSetElt (argv : list N) (self : N) : M rbanswer :=
  v ← wrapped self;
  list ← ToList v;
  match list, argv with
  | Some klist, arg :: item :: _ =>
      m ← gets rbmem_of;
      match list_index m arg with
      | None => mret (Returned (Qnil Q))
      | Some None => mret (Raised None)
      | Some (Some idx) =>
          value ← RbToKrollValue item;
          vSetAt V klist idx value;;
          mret (Returned item)
      end
  | _, _ => mret (Returned (Qnil Q))
  end.

Definition RubyKListLength (argv : list N) (self : N) : M rbanswer :=
  v ← wrapped self;
  list ← ToList v;
  match list with
  | None => mret (Returned (Qnil Q))
  | Some klist =>
      if decide (argv = []) then n ← vSize V klist; r ← call (rb_int2num n); mret (Returned r)
      else mret (raise rb_eNoMethodError (lit "wrong number of arguments (%d for 0)")
                   [dec_int (Z.of_nat (length argv))])
  end.

(** [break] leaves the loop by a jump, like an exception. *)
Definition each_step (self : N) (list : loc) (i : Z) : M (Z + rbanswer) :=
  n ← vSize V list;
  if (i <? n)%Z then
    l ← vAt V list i;
    rubyValue ← ToRubyValue l;
    r ← call (rb_yield rubyValue);
    match r with Raised e => mret (inr (Raised e)) | Returned _ => mret (inl (wrap32 (i + 1))) end
  else mret (inr (Returned self)).
Definition RubyKListEach (self : N) : M rbanswer :=
  v ← wrapped self;
  list ← ToList v;
  block ← askr (rb_block_given_p Q);
  match list, block with
  | Some list, true => loop (vFuel V) (each_step self list) 0%Z
  | _, _ => mret (Returned (Qnil Q))
  end.
End Ruby.

(** ** Monotonicity *)
Section Mono.
Context (W : World) (V1 V2 : VOps) (HV : vle V1 V2).
Context (HR : forall (A : Set) (c : rbcmd A), approx (rb W V1 A c) (rb W V2 A c)).
#[local] Set Default Proof Using "Type*".
#[local] Hint Resolve HR : mono.

Lemma RbToKrollValue_mono v : approx (RbToKrollValue W V1 v) (RbToKrollValue W V2 v).
Proof. mono_deep. Qed.
Lemma ToRubyValue_mono v : approx (ToRubyValue W V1 v) (ToRubyValue W V2 v).
Proof. mono_deep. Qed.
#[local] Hint Resolve RbToKrollValue_mono ToRubyValue_mono : mono.
Lemma GenericKMethodCall_mono m a : approx (GenericKMethodCall W V1 m a) (GenericKMethodCall W V2 m a).
Proof. mono_deep. Qed.
End Mono.

#[export] Hint Resolve RbToKrollValue_mono ToRubyValue_mono GenericKMethodCall_mono : mono.
