(* ===== verification/RubyEvaluator.v ===== *)
(** * RubyEvaluator: scripts and the Ruby module
    (modules/ruby/ruby_evaluator.cpp and ruby_module.cpp)

    Each window has a context of its own, an object of Ruby under a global
    name that carries the number of the window. What a script does not find
    there is looked for in the window ([m_missing]). *)

From S2P Require Import Prelude CppString Double FileUtils Application System Heap RubyCore Virtual.
From S2P Require Import KObject StaticBound StaticLaws ArgList Logger Script Ruby.
From stdpp Require Import options.

Definition r_with_next_id f r :=
  {| rbk_values := rbk_values r; KObjectClass := KObjectClass r; KMethodClass := KMethodClass r;
     KListClass := KListClass r; rb_next_id := f (rb_next_id r); rb_global_object := rb_global_object r;
     rb_binding := rb_binding r; rb_instance := rb_instance r; rb_memory := rb_memory r |}.
Definition r_with_global g r :=
  {| rbk_values := rbk_values r; KObjectClass := KObjectClass r; KMethodClass := KMethodClass r;
     KListClass := KListClass r; rb_next_id := rb_next_id r; rb_global_object := g;
     rb_binding := rb_binding r; rb_instance := rb_instance r; rb_memory := rb_memory r |}.
Definition r_with_module b i r :=
  {| rbk_values := rbk_values r; KObjectClass := KObjectClass r; KMethodClass := KMethodClass r;
     KListClass := KListClass r; rb_next_id := rb_next_id r; rb_global_object := rb_global_object r;
     rb_binding := b; rb_instance := i; rb_memory := rb_memory r |}.

(** [name[0] = f(name[0])] on a null-terminated string *)
Definition change_first (f : ascii -> ascii) (name : str) : str :=
  match name with c :: name' => f c :: name' | [] => [] end.

Section Evaluator.
Context (W : World) (V : VOps).
#[local] Abbreviation Q := (rbq W).
#[local] Abbreviation call := (rb W V _).

Definition new_RubyEvaluator : M loc :=
  o ← new_StaticBoundObject (lit "Ruby");
  on_rb (modify (r_with_next_id (<[o := 0%Z]>)));;
  Bind V o (lit "canEvaluate") RubyEvaluator__CanEvaluate;;
  Bind V o (lit "evaluate") RubyEvaluator__Evaluate;;
  mret o.

(** The name under which the window has a property: its own, or the one with
    a capital. *)
Definition find_name (g : loc) (name : str) : M (str * loc) :=
  v ← vGet V g name;
  x ← getv v;
  if IsUndefined x then
    let name := change_first toupper name in
    v ← vGet V g name;
    x ← getv v;
    mret (if IsUndefined x then change_first tolower name else name, v)
  else mret (name, v).

Definition ends_with_equals (name : str) : bool := bool_decide (last name = Some "="%char).
Definition m_missing (argv : list N) (self : N) : M rbanswer :=
  global_object ← the_rb rb_global_object;
  match global_object with
  | None => mret (Returned (Qnil Q))
  | Some g =>
      scanned ← call (rb_scan_args (lit "1*") argv);
      match scanned with
      | Some [method_name; args] =>
          name ← askr (fun m => c_str (symbol_name Q m method_name));
          let assignment := ends_with_equals name in
          '(name, v) ← find_name g (if assignment then removelast name else name);
          x ← getv v;
          if assignment then
            rval ← askr (fun m => rb_ary_entry Q m args 0);
            val ← RbToKrollValue W V rval;
            vSet V g name val;;
            mret (Returned rval)
          else if IsMethod x then
            m ← ToMethod x; m ← some_or_undef m; GenericKMethodCall W V m args
          else r ← ToRubyValue W V v; mret (Returned r)
      | Some _ => undef
      | None => mret (Raised None)
      end
  end.

Definition module_id : str := lit "__ruby_module_id__".
Definition next_id_of (this : loc) : M Z := m ← the_rb rb_next_id; some_or_undef (m !! this).
Definition GetContextId (this global : loc) : M str :=
  idv ← vGet V global module_id;
  v ← getv idv;
  cid ← (if IsUndefined v then
           cid ← next_id_of this;
           on_rb (modify (r_with_next_id (<[this := to_signed32 (cid + 1)]>)));;
           l ← NewInt cid;
           vSet V global module_id l;;
           mret cid
         else mret (ToInt v));
  mret (lit "$windowProc" ++ IntToChars (wrap32 cid)).

Definition GetContext (this global : loc) : M N :=
  theid ← GetContextId this global;
  ctx ← call (rb_gv_get theid);
  if (ctx =? Qnil Q)%N then
    ctx_class ← call (rb_define_class (lit "KrollRubyContext"));
    call (rb_define_method ctx_class (lit "method_missing") m_missing_ (-1));;
    ctx ← call (rb_obj_alloc ctx_class);
    call (rb_gv_set theid ctx);;
    mret ctx
  else mret ctx.

(** One method of the context becomes a method of the window. *)
Definition singleton_step (ctx : N) (o : option loc) (methods : N) (i : Z) : M (Z + unit) :=
  n ← askr (fun m => RARRAY_LEN Q m methods);
  if (i <? n)%Z then
    meth_symbol ← askr (fun m => rb_ary_entry Q m methods i);
    meth_name ← rtext W meth_symbol;
    (if decide (meth_name = lit "method_missing") then mret tt
     else
       r ← call (rb_funcall ctx (lit "method") [meth_symbol]);
       rmeth ← unprotected r;
       method ← new_KRubyMethod W V rmeth;
       l ← NewMethod (Some method);
       o ← some_or_undef o;
       vSet V o meth_name l);;
    mret (inl (i + 1)%Z)
  else mret (inr tt).
Definition ContextToGlobal (ctx : N) (o : option loc) : M unit :=
  g ← the_rb rb_global_object;
  match g with
  | None => mret tt
  | Some _ =>
      r ← call (rb_funcall ctx (lit "singleton_methods") []);
      methods ← unprotected r;
      loop (vFuel V) (singleton_step ctx o methods) 0%Z
  end.

Definition RubyEvaluator_CanEvaluate (args : list loc) (result : loc) : M unit :=
  VerifyException args (lit "canEvaluate") (lit "s");;
  mimeType ← Arg_GetString args 0 [];
  SetBool result (bool_decide (c_str mimeType = lit "text/ruby")).

(** The exception of the script with its backtrace, in the log. *)
Definition log_ruby_error (name : str) : M unit :=
  exception ← call (rb_gv_get (lit "$!"));
  v ← RbToKrollValue W V exception;
  ss ← Value_DisplayString W V v 3;
  r ← call (rb_funcall exception (lit "backtrace") []);
  backtrace ← unprotected r;
  newline ← call (rb_str_new2 ["010"%char]);
  r ← call (rb_funcall backtrace (lit "join") [newline]);
  trace ← unprotected r;
  m ← gets rbmem_of;
  trace ← (if decide (TYPE Q m trace = T_STRING) then t ← rtext W trace; mret ("010"%char :: t)
           else mret []);
  log_line (lit "Ruby")
    (lit "An error occured while parsing Ruby (" ++ name ++ lit "): " ++ c_str ss ++ trace).

Definition RubyEvaluator_Evaluate (this : loc) (args : list loc) (result : loc) : M unit :=
  VerifyException args (lit "evaluate") (lit "s s s o");;
  name ← Arg_GetString args 1 [];
  code ← Arg_GetString args 2 [];
  global_object ← Arg_GetObject args 3 None;
  on_rb (modify (r_with_global global_object));;
  g ← some_or_undef global_object;
  ctx ← GetContext this g;
  rargs ← call rb_ary_new;
  call (rb_ary_push rargs ctx);;
  s ← call (rb_str_new2 (c_str code));
  call (rb_ary_push rargs s);;
  '(returnValue, error) ← call (rb_protect reval_do_call_ rargs);
  (* a script that is evaluated inside may have changed the static *)
  g' ← the_rb rb_global_object;
  ContextToGlobal ctx g';;
  if error : bool then log_ruby_error name;; SetUndefined result
  else l ← RbToKrollValue W V returnValue; SetValue result l.

(** ** The functions that Ruby calls *)
Definition ruby_slot (A : Set) (s : rbslot A) : M A :=
  match s in rbslot A return M A with
  | s_KObjectMethodMissing argv self => RubyKObjectMethodMissing W V argv self
  | s_KObjectMethod argv self => RubyKObjectMethod W V argv self
  | s_KObjectMethods self => RubyKObjectMethods W V self
  | s_KObjectRespondTo argv self => RubyKObjectRespondTo W V argv self
  | s_KObjectFree o => RubyKObjectFree o
  | s_KMethodCall self args => RubyKMethodCall W V self args
  | s_KListGetElt argv self => RubyKListGetElt W V argv self
  | s_KListSetElt argv self => RubyKListSetElt W V argv self
  | s_KListLength argv self => RubyKListLength W V argv self
  | s_KListEach self => RubyKListEach W V self
  | s_m_missing argv self => m_missing argv self
  | s_protected DoMethodCall_ args => DoMethodCall W V args
  | s_protected kobj_do_method_missing_call_ args => kobj_do_method_missing_call W V args
  | s_protected reval_do_call_ args => reval_do_call W V args
  end.

(** ** The module *)

(** [host->GetApplication()->GetResourcesPath()] *)
Definition rb_resources_path : M str :=
  s ← gets sys;
  a ← some_or_undef (s_apps s !! s_application s);
  lift (GetResourcesPath a).

Definition RubyModule_InitializeBinding : M unit :=
  global ← gets (fun h => s_global (sys h));
  binding ← new_RubyEvaluator;
  on_rb (modify (fun r => r_with_module (Some binding) (rb_instance r) r));;
  v ← NewObject (Some binding);
  vSet V global (lit "Ruby") v;;
  AddScriptEvaluator V (Some binding);;
  g ← NewObject (Some global);
  ruby_api_val ← KObjectToRubyValue W V g;
  call (rb_define_global_const (PRODUCT_NAME (w_machine (outside W))) ruby_api_val).

(** Then the module becomes a provider of the host. *)
Definition RubyModule_Initialize : M unit :=
  on_rb (modify (fun r => r_with_module (rb_binding r) true r));;
  call ruby_init;; call ruby_init_loadpath;;
  path ← rb_resources_path;
  call (ruby_incpush (c_str path));;
  RubyModule_InitializeBinding.

Definition RubyModule_Stop : M unit :=
  global ← gets (fun h => s_global (sys h));
  vSet V global (lit "Ruby") Undefined;;
  binding ← the_rb rb_binding;
  RemoveScriptEvaluator V binding;;
  on_rb (modify (r_with_module None false));;
  call ruby_cleanup.
End Evaluator.

Definition ruby_suffix : str := lit "module.rb".
(** For a path that is shorter than the suffix, [substr] throws. *)
Definition RubyModule_IsModule (path : str) : res bool :=
  let plength := length path in
  let slength := length ruby_suffix in
  if slength <=? plength then
    suffix ← substr path (plength - slength) None; Ret (bool_decide (suffix = ruby_suffix))
  else Throw out_of_range.

(** ** Monotonicity *)
Section Mono.
Context (W : World) (V1 V2 : VOps) (HV : vle V1 V2).
Context (HR : forall (A : Set) (c : rbcmd A), approx (rb W V1 A c) (rb W V2 A c)).
#[local] Set Default Proof Using "Type*".
#[local] Hint Resolve HR : mono.

Lemma ruby_slot_mono (A : Set) (s : rbslot A) : approx (ruby_slot W V1 A s) (ruby_slot W V2 A s).
Proof. destruct s as [| | | | | | | | | | |[] args]; cbn [ruby_slot]; mono_deep. Qed.
Lemma RubyEvaluator_Evaluate_mono this args r :
  approx (RubyEvaluator_Evaluate W V1 this args r) (RubyEvaluator_Evaluate W V2 this args r).
Proof. mono_deep. Qed.
End Mono.
#[export] Hint Resolve ruby_slot_mono RubyEvaluator_Evaluate_mono : mono.
