(* ===== verification/Php.v ===== *)
(** * Php: the objects that cross the border to PHP
    (modules/php/php_utils.cpp, php_k_classes.cpp, k_php_object.cpp,
    k_php_method.cpp, k_php_function.cpp, k_php_list.cpp and
    k_php_array_object.cpp)

    A Kroll object reaches PHP as an object of one of the classes of the
    program, whose handlers and methods serve it; the struct of the object
    holds a [SharedValue]. A PHP object reaches the program as a proxy
    ([KPHPObject], ...), an array as a copy. The calls of the engine are
    [php], the functions that only look [phpq]. A jump of the engine
    ([Zbailout]) over frames of the program is undefined. *)

From S2P Require Import Prelude CppString Double System Heap PhpCore Virtual KObject StaticBound StaticLaws.
From stdpp Require Import options.

Definition z_with_kvalues f p :=
  {| php_kvalues := f (php_kvalues p); PHPKObjectClassEntry := PHPKObjectClassEntry p;
     PHPKMethodClassEntry := PHPKMethodClassEntry p; PHPKListClassEntry := PHPKListClassEntry p;
     currentPHPGlobal := currentPHPGlobal p; php_nextId := php_nextId p;
     php_nextFunctionId := php_nextFunctionId p; php_buffering := php_buffering p;
     php_buffer := php_buffer p; php_mimeType := php_mimeType p; php_binding := php_binding p;
     php_instance := php_instance p; php_memory := php_memory p |}.
Definition z_with_classes o m l p :=
  {| php_kvalues := php_kvalues p; PHPKObjectClassEntry := o; PHPKMethodClassEntry := m;
     PHPKListClassEntry := l; currentPHPGlobal := currentPHPGlobal p; php_nextId := php_nextId p;
     php_nextFunctionId := php_nextFunctionId p; php_buffering := php_buffering p;
     php_buffer := php_buffer p; php_mimeType := php_mimeType p; php_binding := php_binding p;
     php_instance := php_instance p; php_memory := php_memory p |}.
Definition z_with_global g p :=
  {| php_kvalues := php_kvalues p; PHPKObjectClassEntry := PHPKObjectClassEntry p;
     PHPKMethodClassEntry := PHPKMethodClassEntry p; PHPKListClassEntry := PHPKListClassEntry p;
     currentPHPGlobal := g; php_nextId := php_nextId p;
     php_nextFunctionId := php_nextFunctionId p; php_buffering := php_buffering p;
     php_buffer := php_buffer p; php_mimeType := php_mimeType p; php_binding := php_binding p;
     php_instance := php_instance p; php_memory := php_memory p |}.
Definition on_php {A} (m : ST PhpState A) : M A := on_sys (zoom s_php with_php m).
Definition the_php {A} (f : PhpState -> A) : M A := gets (fun h => f (s_php (sys h))).
(** A question to the engine. *)
Definition askz {A} (f : phpmem -> A) : M A := gets (fun h => f (phpmem_of h)).

(** The class entries of the program. *)
Definition entry_of (k : phpkclass) (p : PhpState) : option N :=
  match k with
  | PHPKObjectClass => PHPKObjectClassEntry p
  | PHPKMethodClass => PHPKMethodClassEntry p
  | PHPKListClass => PHPKListClassEntry p
  end.

Definition is_KPHPObject (c : class) : bool := match c with KPHPObject _ => true | _ => false end.
Definition is_KPHPMethod (c : class) : bool := match c with KPHPMethod _ _ _ => true | _ => false end.
Definition is_KPHPFunction (c : class) : bool := match c with KPHPFunction _ _ _ => true | _ => false end.
Definition is_KPHPList (c : class) : bool := match c with KPHPList _ => true | _ => false end.
Definition is_KPHPArrayObject (c : class) : bool := match c with KPHPArrayObject _ => true | _ => false end.

(** [kvalue] of the struct; what it is good for dereferences it. *)
Definition kvalue_of (intern : N) : M loc :=
  m ← the_php php_kvalues; v ← some_or_undef (m !! intern); some_or_undef v.

Section Php.
Context (W : World) (V : VOps).
#[local] Abbreviation Q := (phpq W).
#[local] Abbreviation call := (php W V _).

(** The result of a call outside of [zend_try]. *)
Definition uncaught {A : Set} (r : zanswer A) : M A := match r with Zdone a => mret a | Zbailout => undef end.
Definition ztext (z : N) : M str := askz (fun m => c_str (Z_STRVAL_P Q m z)).
Definition get_object (z : N) : M N := askz (fun m => zend_object_store_get_object Q m z).

(** ** Objects of the program in PHP *)

(** [object_init_ex] and the value in the struct. *)
Definition wrap_kvalue (k : phpkclass) (value : loc) (returnValue : N) : M unit :=
  ce ← the_php (entry_of k);
  ce ← some_or_undef ce;
  call (object_init_ex returnValue ce);;
  intern ← get_object returnValue;
  on_php (modify (z_with_kvalues (<[intern := Some value]>))).
Definition KObjectToKPHPObject : loc -> N -> M unit := wrap_kvalue PHPKObjectClass.
Definition KMethodToKPHPMethod : loc -> N -> M unit := wrap_kvalue PHPKMethodClass.
Definition KListToKPHPArray : loc -> N -> M unit := wrap_kvalue PHPKListClass.

Definition ToPHPValue (value : loc) (returnValue : N) : M unit :=
  v ← getv value;
  if IsNull v || IsUndefined v then call (ZVAL_NULL returnValue)
  else if IsBool v then b ← ToBool v; call (ZVAL_BOOL returnValue b)
  else if IsNumber v then call (ZVAL_DOUBLE returnValue (ToNumber v))
  else if IsString v then s ← ToString v; call (ZVAL_STRINGL returnValue (c_str s))
  else if IsObject v then KObjectToKPHPObject value returnValue
  else if IsMethod v then KMethodToKPHPMethod value returnValue
  else if IsList v then KListToKPHPArray value returnValue
  else call (ZVAL_NULL returnValue).
Definition new_PHPValue (value : loc) : M N :=
  z ← call ALLOC_INIT_ZVAL; ToPHPValue value z;; mret z.

(** ** From PHP *)

Definition new_KPHPObject (object : N) : M loc :=
  o ← new_object (lit "KObject") (KPHPObject object);
  call (zval_addref_p object);; mret o.
Definition new_KPHPMethod (object : N) (methodName : str) : M loc :=
  g ← the_php currentPHPGlobal;
  o ← new_object (lit "KMethod") (KPHPMethod object methodName g);
  call (zval_addref_p object);; mret o.
Definition new_KPHPFunction (functionName : str) : M loc :=
  g ← the_php currentPHPGlobal;
  z ← call ALLOC_INIT_ZVAL;
  call (ZVAL_STRINGL z functionName);;
  call (zval_addref_p z);;
  new_object (lit "KMethod") (KPHPFunction functionName z g).
Definition not_an_array : str := lit "Invalid zval passed. Should be an array type.".
Definition new_php_list (c : class) (list : N) : M loc :=
  ty ← askz (fun m => Z_TYPE_P Q m list);
  if decide (ty = IS_ARRAY) then new_object (lit "KList") c else throw_string not_an_array.
Definition new_KPHPList (list : N) : M loc := new_php_list (KPHPList list) list.
Definition new_KPHPArrayObject (list : N) : M loc := new_php_list (KPHPArrayObject list) list.

(** What the destructors do. *)
Definition delete_KPHPObject (object : N) : M unit := call (zval_delref_p object).
Definition delete_KPHPMethod (object : N) : M unit := call (zval_delref_p object).
Definition delete_KPHPFunction (zMethodName : N) : M unit := call (zval_ptr_dtor zMethodName).

(** One element of a hash table, which is copied under its key. *)
Definition php_hash_step (convert : N -> M loc) (hashTable : N) (ignoreGlobals : bool) (list : loc)
  (_ : unit) : M (unit + unit) :=
  m ← gets phpmem_of;
  if zend_hash_has_more_elements Q m hashTable then
    (match zend_hash_get_current_data Q m hashTable with
     | None => mret tt
     | Some value =>
         match zend_hash_get_current_key Q m hashTable with
         | HASH_KEY_IS_STRING key =>
             if ignoreGlobals && bool_decide (c_str key = lit "GLOBALS") then mret tt
             else v ← convert value; vSet V list (c_str key) v
         | HASH_KEY_IS_LONG index => v ← convert value; vSetAt V list (wrap32 index) v
         end
     end);;
    call (zend_hash_move_forward hashTable);;
    mret (inl tt)
  else mret (inr tt).
Definition PHPHashTableToKList_with (convert : N -> M loc) (hashTable : N) (ignoreGlobals : bool) : M loc :=
  list ← new_StaticBoundList (lit "StaticBoundList");
  call (zend_hash_internal_pointer_reset hashTable);;
  loop (vFuel V) (php_hash_step convert hashTable ignoreGlobals list) tt;;
  mret list.

(** An object: a wrapper of the program gives the value that it holds, but a
    [PHPKList] is not asked for. *)
Definition object_to_kroll (value : N) : M loc :=
  ce ← askz (fun m => class_entry Q m value);
  p ← gets (fun h => s_php (sys h));
  match ce with
  | None => undef                    (* Z_OBJCE_P calls the handler that is not there *)
  | Some c =>
      if bool_decide (PHPKObjectClassEntry p = Some c) || bool_decide (PHPKMethodClassEntry p = Some c) then
        intern ← get_object value; kvalue_of intern
      else if bool_decide (c = zend_ce_closure Q) then
        o ← new_KPHPMethod value (lit "__invoke"); NewMethod (Some o)
      else o ← new_KPHPObject value; NewObject (Some o)
  end.

(** Arrays nest: each level takes one of the fuel. *)
Fixpoint PhpToKrollValue_fuel (fuel : nat) (value : N) : M loc :=
  match fuel with
  | O => lift Fuel
  | S fuel =>
      returnValue ← NewNull;
      m ← gets phpmem_of;
      match Z_TYPE_P Q m value with
      | IS_NULL => mret Null
      | IS_BOOL => NewBool (Z_BVAL_P Q m value)
      | IS_LONG => NewDouble (double_of_int (Z_LVAL_P Q m value))
      | IS_DOUBLE => NewDouble (Z_DVAL_P Q m value)
      | IS_STRING => s ← ztext value; NewString s
      | IS_ARRAY =>
          l ← PHPHashTableToKList_with (PhpToKrollValue_fuel fuel) (Z_ARRVAL_P Q m value) false;
          NewList (Some l)
      | IS_OBJECT => object_to_kroll value
      | IS_RESOURCE => mret returnValue
      end
  end.
Definition PhpToKrollValue (value : N) : M loc := PhpToKrollValue_fuel (vFuel V) value.
Definition PHPHashTableToKList : N -> bool -> M loc := PHPHashTableToKList_with PhpToKrollValue.
Definition PHPArrayToKList (array : N) : M loc :=
  h ← askz (fun m => Z_ARRVAL_P Q m array); PHPHashTableToKList h false.

(** The string that the zval becomes. *)
Definition no_property_name : str := lit "Could not convert property name to string.".
Definition ZvalToPropertyName (phpPropertyName : N) : M str :=
  r ← call (convert_to_string phpPropertyName);
  uncaught r;;
  ty ← askz (fun m => Z_TYPE_P Q m phpPropertyName);
  if decide (ty = IS_STRING) then ztext phpPropertyName else throw_string no_property_name.

(** The keys of a hash table: a key that is a number leaves [key] unset. *)
Definition hash_key_step (hash : N) (st : nat * names) : M ((nat * names) + names) :=
  let '(position, keys) := st in
  e ← askz (fun m => zend_hash_at Q m hash position);
  match e with
  | None => mret (inr keys)
  | Some (HASH_KEY_IS_LONG _, _) => undef
  | Some (HASH_KEY_IS_STRING key, _) =>
      p ← new_name (c_str key); mret (inl (S position, keys ++ [p]))
  end.
Definition GetHashKeys (hash : N) : M names := loop (vFuel V) (hash_key_step hash) (0, []).

Definition PHPObjectsEqual (val1 val2 : N) : M bool :=
  askz (fun m => (zend_compare_objects Q m val1 val2 =? 0)%Z).

(** A method that may be seen from the scope of the engine; inherited
    constructors of the old style are left out. *)
Definition visible (m : phpmem) (ce : N) (f : zend_function) : bool :=
  (fn_public f
   || match EG_scope Q m with
      | None => false
      | Some scope =>
          fn_protected f && zend_check_protected Q m (fn_scope f) scope
          || fn_private f && (scope =? fn_scope f)%N
      end)
  && (negb (fn_ctor f)
      || (fn_scope f =? ce)%N
      || match fn_key f with
         | HASH_KEY_IS_LONG _ => true
         | HASH_KEY_IS_STRING key => bool_decide (zend_str_tolower Q key = zend_str_tolower Q (function_name f))
         end).
Definition GetClassMethods (ce : N) : M names :=
  m ← gets phpmem_of;
  st_map (fun f => new_name (function_name f)) (filter (fun f => visible m ce f = true) (function_table Q m ce)).

(** ** The global object of the script *)

(** The variables that differ from the properties become properties. *)
Definition push_symbol (symbols : loc) (p : loc * str) : M unit :=
  let name := c_str p.2 in
  newValue ← vGet V symbols name;
  g ← the_php currentPHPGlobal;
  g ← some_or_undef g;
  oldValue ← vGet V g name;
  same ← Value_Equals V newValue oldValue;
  if same : bool then mret tt
  else
    g ← the_php currentPHPGlobal;
    g ← some_or_undef g;
    vSet V g name newValue.
Definition set_symbol (newGlobal : loc) (symbolTable : N) (p : loc * str) : M unit :=
  newValue ← call ALLOC_INIT_ZVAL;
  v ← vGet V newGlobal (c_str p.2);
  ToPHPValue v newValue;;
  call (ZEND_SET_SYMBOL symbolTable (c_str p.2) newValue).
Definition SwapGlobalObject (newGlobal : option loc) (symbolTable : N) : M unit :=
  g ← the_php currentPHPGlobal;
  (match g with
   | None => mret tt
   | Some _ =>
       symbols ← PHPHashTableToKList symbolTable true;
       keys ← vGetPropertyNames V symbols;
       st_fold (fun _ => push_symbol symbols) tt keys
   end);;
  call (zend_hash_clean symbolTable);;
  on_php (modify (z_with_global newGlobal));;
  match newGlobal with
  | None => mret tt
  | Some g =>
      keys ← vGetPropertyNames V g;
      st_fold (fun _ => set_symbol g symbolTable) tt keys
  end.

(** ** The proxies *)

Definition kphp_object (this : loc) : M N :=
  x ← geto this; match o_class x with KPHPObject z | KPHPMethod z _ _ => mret z | _ => undef end.

Definition no_write_handler (name : str) : str :=
  lit "Could not set property '" ++ name ++ lit "': missing write_property handler".
Definition KPHPObject_Set (this : loc) (name : str) (value : loc) : M unit :=
  object ← kphp_object this;
  m ← gets phpmem_of;
  if has_handler Q m object write_property_ then
    zvalue ← new_PHPValue value;
    r ← call (add_property_zval object name zvalue);
    uncaught r
  else throw_string (no_write_handler name).

(** Declared properties only when they are shadowed, others when the class
    says so. *)
Definition PropertyExists (object : N) (property : str) : M bool :=
  m ← gets phpmem_of;
  classEntry ← some_or_undef (class_entry Q m object);
  match property_shadowed Q m classEntry property with
  | Some shadowed => mret shadowed
  | None =>
      if has_handler Q m object has_property_ then
        r ← call (has_property object property); uncaught r
      else mret false
  end.
Definition MethodExists (object : N) (methodName : str) : M bool :=
  m ← gets phpmem_of;
  classEntry ← some_or_undef (class_entry Q m object);
  if function_exists Q m classEntry (zend_str_tolower Q methodName) then mret true
  else if has_handler Q m object get_method_ then
    func ← call (get_method object methodName); mret (default false func)
  else mret false.

Definition KPHPObject_Get (this : loc) (name : str) : M loc :=
  object ← kphp_object this;
  exists_ ← PropertyExists object name;
  m ← gets phpmem_of;
  if exists_ && has_handler Q m object read_property_ then
    r ← call (read_property object name);
    z ← uncaught r; PhpToKrollValue z
  else match zend_hash_find Q m (Z_OBJPROP_P Q m object) (name ++ [NUL]) with
  | Some z => PhpToKrollValue z
  | None =>
      b ← MethodExists object name;
      if b : bool then o ← new_KPHPMethod object name; NewMethod (Some o) else mret Undefined
  end.

Definition php_equals (P : class -> bool) (this : loc) (other : option loc) : M bool :=
  o ← dynamic_cast P other;
  match o with
  | None => mret false
  | Some o => a ← kphp_object this; b ← kphp_object o; PHPObjectsEqual a b
  end.
Definition KPHPObject_Equals : loc -> option loc -> M bool := php_equals is_KPHPObject.
Definition KPHPMethod_Equals : loc -> option loc -> M bool := php_equals is_KPHPMethod.

Definition KPHPObject_DisplayString (this : loc) (levels : Z) : M str :=
  object ← kphp_object this;
  tempObject ← call (zval_copy object);
  r ← call (convert_to_string tempObject);
  uncaught r;; ztext tempObject.

(** The names that may be accessed, without the class in them; the length
    given is one short. *)
Definition filtered_name (internal : N) (names : names) (p : loc * str) : M Virtual.names :=
  m ← gets phpmem_of;
  let len := wrap32 (Z.of_nat (length p.2) - 1) in
  if zend_check_property_access Q m internal (c_str p.2) len then
    q ← new_name (zend_unmangle_property_name Q (c_str p.2) len); mret (names ++ [q])
  else mret names.
Definition KPHPObject_GetPropertyNames (this : loc) : M names :=
  object ← kphp_object this;
  m ← gets phpmem_of;
  if has_handler Q m object get_properties_ then
    properties ← call (get_properties_of object);
    match properties with
    | None => mret []
    | Some properties =>
        names ← GetHashKeys properties;
        internal ← get_object object;
        filteredNames ← st_fold (filtered_name internal) [] names;
        m ← gets phpmem_of;
        ce ← some_or_undef (class_entry Q m object);
        methods ← GetClassMethods ce;
        mret (filteredNames ++ methods)
    end
  else mret [].

(** *** Methods and functions *)

(** The arguments in zvals of their own. *)
Definition php_arguments : list loc -> M (list N) := st_map new_PHPValue.

(** The result code of [zend_call_function] is not kept: [result] is read
    without a value. *)
Definition KPHPMethod_Call (this : loc) (args : list loc) : M loc :=
  x ← geto this;
  match o_class x with
  | KPHPMethod object methodName globalObject =>
      m ← gets phpmem_of;
      some_or_undef (class_entry Q m object);;
      zargs ← php_arguments args;
      previousGlobal ← the_php currentPHPGlobal;
      SwapGlobalObject globalObject (EG_symbol_table Q);;
      r ← call (zend_call_function object methodName zargs);
      uncaught r;;
      SwapGlobalObject previousGlobal (EG_symbol_table Q);;
      st_fold (fun _ z => call (zval_delref_p z)) tt zargs;;
      undef
  | _ => undef
  end.
(** Methods and functions have no properties. *)
Definition KPHPMethod_Set (this : loc) (name : str) (value : loc) : M unit := mret tt.
Definition KPHPMethod_Get (this : loc) (name : str) : M loc := mret Undefined.
Definition KPHPMethod_GetPropertyNames (this : loc) : M names := mret [].
Definition KPHPMethod_DisplayString (this : loc) (levels : Z) : M str :=
  x ← geto this;
  match o_class x with
  | KPHPMethod _ methodName _ => mret (lit "KPHPMethod: " ++ methodName)
  | _ => undef
  end.

Definition kphp_function (this : loc) : M (str * N * option loc) :=
  x ← geto this;
  match o_class x with KPHPFunction methodName z g => mret (methodName, z, g) | _ => undef end.
Definition function_failed (methodName : str) : str :=
  lit "Couldn't execute function " ++ c_str methodName ++ ["010"%char].
Definition KPHPFunction_Call (this : loc) (args : list loc) : M loc :=
  '(methodName, zMethodName, globalObject) ← kphp_function this;
  pzargs ← php_arguments args;
  zReturnValue ← call ALLOC_INIT_ZVAL;
  previousGlobal ← the_php currentPHPGlobal;
  SwapGlobalObject globalObject (EG_symbol_table Q);;
  result ← call (call_user_function zMethodName zReturnValue pzargs);
  SwapGlobalObject previousGlobal (EG_symbol_table Q);;
  st_fold (fun _ z => call (zval_ptr_dtor z)) tt pzargs;;
  match result with
  | Zdone true =>
      returnValue ← PhpToKrollValue zReturnValue;
      call (zval_ptr_dtor zReturnValue);;
      mret returnValue
  | Zdone false | Zbailout => throw_string (function_failed methodName)
  end.
Definition KPHPFunction_Equals (this : loc) (other : option loc) : M bool :=
  o ← dynamic_cast is_KPHPFunction other;
  match o with
  | None => mret false
  | Some o =>
      a ← kphp_function this; b ← kphp_function o; mret (bool_decide (a.1.1 = b.1.1))
  end.
Definition KPHPFunction_DisplayString (this : loc) (levels : Z) : M str :=
  f ← kphp_function this; mret (lit "KPHPFunction: " ++ f.1.1).

(** *** The proxies of arrays *)

Definition zlist_of (this : loc) : M N :=
  x ← geto this; match o_class x with KPHPList z | KPHPArrayObject z => mret z | _ => undef end.

(** [AddKrollValueToPHPArray]: objects and methods are left out. *)
Definition AddKrollValueToPHPArray (P : class -> bool) (value : loc) (phpArray : N) (p : add_place) : M unit :=
  v ← getv value;
  if IsNull v || IsUndefined v then call (add_null phpArray p)
  else if IsBool v then b ← ToBool v; call (add_bool phpArray p b)
  else if IsNumber v then call (add_double phpArray p (ToNumber v))
  else if IsString v then s ← ToString v; call (add_stringl phpArray p (c_str s))
  else if IsObject v || IsMethod v then mret tt
  else if IsList v then
    l ← ToList v;
    pl ← dynamic_cast P l;
    phpValue ← (match pl with Some pl => zlist_of pl | None => new_PHPValue value end);
    call (add_zval phpArray p phpValue)
  else mret tt.

(** The value that is found is a [zval**] that is read as a [zval*]. *)
Definition zlist_find (found : option N) : M loc :=
  match found with None => mret Undefined | Some _ => undef end.
(** [name] is looked for without its null byte. *)
Definition zlist_Get (this : loc) (name : str) : M loc :=
  if KList_IsInt name then vAt V this (wrap32 (atoi (c_str name)))
  else
    list ← zlist_of this;
    found ← askz (fun m => zend_hash_find Q m (Z_ARRVAL_P Q m list) (c_str name));
    zlist_find found.
Definition zlist_Set (P : class -> bool) (this : loc) (name : str) (value : loc) : M unit :=
  if KList_IsInt name && (0 <=? atoi (c_str name))%Z then vSetAt V this (atoi (c_str name)) value
  else list ← zlist_of this; AddKrollValueToPHPArray P value list (add_assoc (c_str name)).

Definition KPHPList_At (this : loc) (index : Z) : M loc :=
  list ← zlist_of this;
  found ← askz (fun m => zend_hash_index_find Q m (Z_ARRVAL_P Q m list) index);
  zlist_find found.
Definition KPHPList_Get : loc -> str -> M loc := zlist_Get.
Definition KPHPList_Set : loc -> str -> loc -> M unit := zlist_Set is_KPHPList.
Definition KPHPList_Equals (this : loc) (other : option loc) : M bool :=
  o ← dynamic_cast is_KPHPList other;
  match o with
  | None => mret false
  | Some o =>
      a ← zlist_of o; b ← zlist_of this;
      askz (fun m => (zend_hash_compare Q m (Z_ARRVAL_P Q m a) (Z_ARRVAL_P Q m b) =? 0)%Z)
  end.
Definition KPHPList_GetPropertyNames (this : loc) : M names :=
  list ← zlist_of this; h ← askz (fun m => Z_ARRVAL_P Q m list); GetHashKeys h.
Definition KPHPList_Size (this : loc) : M Z :=
  list ← zlist_of this; n ← askz (fun m => zend_hash_num_elements Q m (Z_ARRVAL_P Q m list)); mret (wrap32 n).
Definition KPHPList_SetAt (this : loc) (index : Z) (value : loc) : M unit :=
  list ← zlist_of this; AddKrollValueToPHPArray is_KPHPList value list (add_index index).
Definition KPHPList_Append (this value : loc) : M unit :=
  list ← zlist_of this;
  n ← askz (fun m => zend_hash_num_elements Q m (Z_ARRVAL_P Q m list));
  AddKrollValueToPHPArray is_KPHPList value list (add_index (wrap32 n)).
Definition KPHPList_Remove (this : loc) (index : Z) : M bool :=
  n ← vSize V this;
  if (index <? n)%Z then
    list ← zlist_of this; h ← askz (fun m => Z_ARRVAL_P Q m list); call (zend_hash_index_del h index)
  else mret false.

(** Most of [KPHPArrayObject] is not written yet. *)
Definition KPHPArrayObject_At (this : loc) (index : Z) : M loc := mret Null.
Definition KPHPArrayObject_Get : loc -> str -> M loc := zlist_Get.
Definition KPHPArrayObject_Set : loc -> str -> loc -> M unit := zlist_Set is_KPHPArrayObject.
Definition KPHPArrayObject_Equals (this : loc) (other : option loc) : M bool :=
  o ← dynamic_cast is_KPHPArrayObject other;
  match o with
  | None => mret false
  | Some o => a ← zlist_of o; b ← zlist_of this; mret (a =? b)%N
  end.
(** The table is destroyed when its keys have been read. *)
Definition KPHPArrayObject_GetPropertyNames (this : loc) : M names :=
  list ← zlist_of this;
  ht ← askz (fun m => Z_ARRVAL_P Q m list);
  property_names ← GetHashKeys ht;
  call (zend_hash_destroy ht);;
  mret property_names.
Definition KPHPArrayObject_Size (this : loc) : M Z := mret 0%Z.
Definition KPHPArrayObject_Append (this value : loc) : M unit := mret tt.
Definition KPHPArrayObject_SetAt (this : loc) (index : Z) (value : loc) : M unit := mret tt.
Definition KPHPArrayObject_Remove (this : loc) (index : Z) : M bool := mret true.
End Php.

(** ** Monotonicity *)
Section Mono.
Context (W : World) (V1 V2 : VOps) (HV : vle V1 V2).
Context (HP : forall (A : Set) (c : phpcmd A), approx (php W V1 A c) (php W V2 A c)).
#[local] Set Default Proof Using "Type*".
#[local] Hint Resolve HP : mono.

Lemma PhpToKrollValue_fuel_mono n1 n2 v :
  n1 <= n2 -> approx (PhpToKrollValue_fuel W V1 n1 v) (PhpToKrollValue_fuel W V2 n2 v).
Proof.
  revert n2 v. induction n1 as [|n1 IH]; intros n2 v Hn; [apply approx_fuel|].
  destruct n2 as [|n2]; [lia|]. assert (forall v, approx (PhpToKrollValue_fuel W V1 n1 v) (PhpToKrollValue_fuel W V2 n2 v))
    as IH' by (intros; apply IH; lia). cbn [PhpToKrollValue_fuel]. mono_deep.
Qed.
Lemma PhpToKrollValue_mono v : approx (PhpToKrollValue W V1 v) (PhpToKrollValue W V2 v).
Proof. apply PhpToKrollValue_fuel_mono, le_Fuel, HV. Qed.
Lemma ToPHPValue_mono v z : approx (ToPHPValue W V1 v z) (ToPHPValue W V2 v z).
Proof. mono_deep. Qed.
#[local] Hint Resolve PhpToKrollValue_mono ToPHPValue_mono : mono.
Lemma PHPHashTableToKList_mono t b : approx (PHPHashTableToKList W V1 t b) (PHPHashTableToKList W V2 t b).
Proof. mono_deep. Qed.
#[local] Hint Resolve PHPHashTableToKList_mono : mono.
Lemma SwapGlobalObject_mono g t : approx (SwapGlobalObject W V1 g t) (SwapGlobalObject W V2 g t).
Proof. mono_deep. Qed.
End Mono.

#[export] Hint Resolve PhpToKrollValue_mono ToPHPValue_mono PHPHashTableToKList_mono SwapGlobalObject_mono : mono.
