(* ===== verification/PhpClasses.v ===== *)
(** * PhpClasses: the classes of the program in PHP
    (modules/php/php_k_classes.cpp)

    The handlers and methods behind [PHPKObject], [PHPKMethod] and [PHPKList].
    A ValueException becomes an exception of PHP where a function catches it;
    elsewhere it goes through the frames of the engine. *)

From S2P Require Import Prelude CppString Double System Heap PhpCore Virtual KObject StaticBound StaticLaws Php.
From stdpp Require Import options.

Section Classes.
Context (W : World) (V : VOps).
#[local] Abbreviation Q := (phpq W).
#[local] Abbreviation call := (php W V _).

(** [ValueException::ToString] *)
Definition php_exception_text (v : option loc) : M str :=
  match v with Some v => Value_DisplayString W V v 3 | None => mret (lit "<no exception>") end.
(** [catch (ValueException& e) { zend_throw_exception(...); after }] *)
Definition catch_exception {A} (m : M A) (after : M A) : M A :=
  try_catch m (fun e =>
    match e with
    | ValueException v =>
        s ← php_exception_text v; call (zend_throw_exception (c_str s));; after
    | e => throw e
    end).

(** The value of the object [zthis]. *)
Definition kvalue_at (zthis : N) : M value :=
  intern ← get_object W zthis; l ← kvalue_of intern; getv l.
Definition kobject_at (zthis : N) : M loc := v ← kvalue_at zthis; some_or_undef (ToObject v).
(** [GET_MY_KLIST()] *)
Definition klist_at (this : N) : M loc := v ← kvalue_at this; l ← ToList v; some_or_undef l.

(** ** Objects *)

Definition PHPKObject_toString (this return_value : N) : M unit :=
  intern ← get_object W this;
  kvalue ← kvalue_of intern;
  ss ← Value_DisplayString W V kvalue 3;
  call (ZVAL_STRINGL return_value ss).

Definition no_such_method (methodName : str) : str :=
  lit "Could not find method named '" ++ methodName ++ lit "'".
(** The elements of the array of arguments. *)
Definition array_argument_step (hash : N) (st : nat * list loc) : M ((nat * list loc) + list loc) :=
  let '(position, kargs) := st in
  e ← askz (fun m => zend_hash_at Q m hash position);
  match e with
  | None => mret (inr kargs)
  | Some (_, parameter) =>
      arg ← PhpToKrollValue W V parameter; mret (inl (S position, kargs ++ [arg]))
  end.
Definition array_arguments (zargs : N) : M (list loc) :=
  hash ← askz (fun m => Z_ARRVAL_P Q m zargs);
  n ← askz (fun m => zend_hash_num_elements Q m hash);
  if (0 <? n)%Z then loop (vFuel V) (array_argument_step hash) (0, []) else mret [].

(** The call of a method whose exceptions become exceptions of PHP. *)
Definition invoke (method : loc) (kargs : list loc) (return_value : N) : M unit :=
  catch_exception
    (returnValue ← vCall V method kargs; ToPHPValue W V returnValue return_value)
    (call (ZVAL_NULL return_value)).

Definition PHPKObject_call (this : N) (args : list N) (return_value : N) : M unit :=
  parsed ← call (zend_parse_parameters (lit "sa") args);
  match parsed with
  | None =>
      call (zend_throw_exception (lit "Wrong arguments passed to __call"));;
      call (ZVAL_NULL return_value)
  | Some [CString methodName; Zval zargs] =>
      kobject ← kobject_at this;
      method ← GetMethod V kobject (c_str methodName) None;
      match method with
      | None =>
          call (zend_throw_exception (no_such_method (c_str methodName)));;
          call (ZVAL_NULL return_value)
      | Some method =>
          kargs ← array_arguments zargs; invoke method kargs return_value
      end
  | Some _ => undef
  end.

(** The handlers are those of the class. *)
Definition PHPKObjectCreateObject (classEntry : N) : M (N * phpkclass) :=
  intern ← call emalloc_object;
  on_php (modify (z_with_kvalues (<[intern := None]>)));;
  call (zend_object_std_init intern classEntry);;
  call (zend_hash_init_properties intern);;
  handle ← call (zend_objects_store_put intern);
  p ← gets (fun h => s_php (sys h));
  mret (handle,
        if bool_decide (PHPKListClassEntry p = Some classEntry) then PHPKListClass
        else if bool_decide (PHPKMethodClassEntry p = Some classEntry) then PHPKMethodClass
        else PHPKObjectClass).
Definition PHPKObjectFreeStorage (zthis : N) : M unit :=
  call (zend_object_std_dtor zthis);;
  on_php (modify (z_with_kvalues (delete zthis))).

(** The handler of the exception writes through a null pointer. *)
Definition PHPKObjectReadProperty (zthis property : N) : M N :=
  kobject ← kobject_at zthis;
  propertyName ← ZvalToPropertyName W V property;
  catch_exception (value ← vGet V kobject (c_str propertyName); new_PHPValue W V value) undef.
Definition PHPKObjectWriteProperty (zthis property value : N) : M unit :=
  kobject ← kobject_at zthis;
  propertyName ← ZvalToPropertyName W V property;
  krollValue ← PhpToKrollValue W V value;
  catch_exception (vSet V kobject (c_str propertyName) krollValue) (mret tt).
Definition PHPKObjectUnsetProperty (zthis property : N) : M unit :=
  kobject ← kobject_at zthis;
  propertyName ← ZvalToPropertyName W V property;
  catch_exception (vSet V kobject (c_str propertyName) Undefined) (mret tt).
Definition PHPKObjectGetProperties (zthis : N) : M (option N) :=
  kobject ← kobject_at zthis;
  catch_exception
    (propertyNames ← vGetPropertyNames V kobject;
     properties ← call (zend_hash_new (Z.of_nat (length propertyNames)));
     st_fold (fun _ p =>
       let key := c_str p.2 in
       value ← vGet V kobject key;
       zvalue ← new_PHPValue W V value;
       call (zend_hash_add properties (key ++ [NUL]) zvalue)) tt propertyNames;;
     mret (Some properties))
    (mret None).

(** [convert_to_boolean] of the property *)
Definition property_truth (kobject : loc) (name : str) : M bool :=
  value ← vGet V kobject name;
  phpValue ← new_PHPValue W V value;
  call (convert_to_boolean phpValue);;
  askz (fun m => Z_BVAL_P Q m phpValue).
Definition PHPKObjectHasProperty (zthis property : N) (checkType : Z) : M bool :=
  kobject ← kobject_at zthis;
  propertyName ← ZvalToPropertyName W V property;
  let name := c_str propertyName in
  if (checkType =? 0)%Z then
    value ← vGet V kobject name;
    v ← getv value; mret (negb (IsUndefined v) && negb (IsNull v))
  else if (checkType =? 1)%Z then property_truth kobject name
  else vHasProperty V kobject name.
Definition PHPKObjectHasDimension (zthis property : N) (checkType : Z) : M bool :=
  kobject ← kobject_at zthis;
  propertyName ← ZvalToPropertyName W V property;
  let name := c_str propertyName in
  b ← vHasProperty V kobject name;
  if (checkType =? 0)%Z then mret b
  else if b : bool then property_truth kobject name
  else mret false.
Definition PHPKGetClassEntry (k : phpkclass) : M (option N) := the_php (entry_of k).

(** ** Methods *)

Definition PHPKMethod_invoke (this : N) (args : list N) (return_value : N) : M unit :=
  v ← kvalue_at this;
  kmethod ← ToMethod v;
  arguments ← call (zend_get_parameters args);
  match arguments with
  | None =>
      r ← call (zend_error (lit "Cannot get arguments for calling closure"));
      uncaught r;;
      call (ZVAL_BOOL return_value false)
  | Some arguments =>
      kargs ← st_map (PhpToKrollValue W V) arguments;
      kmethod ← some_or_undef kmethod;
      invoke kmethod kargs return_value
  end.

(** ** Lists *)

(** One parameter, or the method returns. *)
Definition with_zval (args : list N) (k : N -> M unit) : M unit :=
  parsed ← call (zend_parse_parameters (lit "z") args);
  match parsed with None => mret tt | Some [Zval z] => k z | Some _ => undef end.

Definition PHPKList_offsetExists_ (this : N) (args : list N) (return_value : N) : M unit :=
  with_zval args (fun index =>
    klist ← klist_at this;
    name ← ZvalToPropertyName W V index;
    b ← (if bool_decide (name = []) then mret false else vHasProperty V klist (c_str name));
    call (ZVAL_BOOL return_value b)).
Definition PHPKList_offsetGet_ (this : N) (args : list N) (return_value : N) : M unit :=
  with_zval args (fun index =>
    klist ← klist_at this;
    name ← ZvalToPropertyName W V index;
    returnValue ← vGet V klist (c_str name);
    ToPHPValue W V returnValue return_value).
Definition PHPKList_offsetSet_ (this : N) (args : list N) : M unit :=
  parsed ← call (zend_parse_parameters (lit "zz") args);
  match parsed with
  | None => mret tt
  | Some [Zval zindexString; Zval zvalue] =>
      klist ← klist_at this;
      indexString ← ZvalToPropertyName W V zindexString;
      value ← PhpToKrollValue W V zvalue;
      match index_of_name indexString with
      | Some index => vSetAt V klist index value
      | None => vSet V klist (c_str indexString) value
      end
  | Some _ => undef
  end.
Definition PHPKList_offsetUnset_ (this : N) (args : list N) : M unit :=
  with_zval args (fun zindex =>
    klist ← klist_at this;
    indexString ← ZvalToPropertyName W V zindex;
    vSet V klist (c_str indexString) Undefined).
(** The number of the names, not of the items. *)
Definition PHPKList_count_ (this return_value : N) : M unit :=
  klist ← klist_at this;
  propertyList ← vGetPropertyNames V klist;
  call (ZVAL_LONG return_value (Z.of_nat (length propertyList))).
Definition PHPKList_append_ (this : N) (args : list N) : M unit :=
  with_zval args (fun zvalue =>
    klist ← klist_at this;
    value ← PhpToKrollValue W V zvalue;
    vAppend V klist value).

(** The key is one byte and the null byte short; an empty one wraps around. *)
Definition copy_item (klist : loc) (hash : N) (p : loc * str) : M unit :=
  let name := c_str p.2 in
  v ← vGet V klist name;
  newValue ← new_PHPValue W V v;
  match name with [] => undef | _ => call (zend_hash_add hash (removelast name) newValue) end.
(** The loop goes on to the position after the last name, where [at] throws. *)
Definition PHPKList_getArrayCopy_ (this return_value : N) : M unit :=
  klist ← klist_at this;
  propertyList ← vGetPropertyNames V klist;
  call (array_init return_value);;
  hash ← askz (fun m => Z_ARRVAL_P Q m return_value);
  st_fold (fun _ => copy_item klist hash) tt propertyList;;
  throw out_of_range.
Definition PHPKList_exchangeArray_ : M unit := mret tt.

(** The name without the namespace before it. *)
Definition trim_namespace (fname : str) : str :=
  match find fname (lit "\") 0 with
  | Some index => drop (index + 1) fname
  | None => fname
  end.
Definition krollAddFunction (args : list N) : M unit :=
  parsed ← call (zend_parse_parameters (lit "zs") args);
  match parsed with
  | None => mret tt
  | Some [Zval phpWindowContext; CString fname] =>
      window ← kobject_at phpWindowContext;
      f ← new_KPHPFunction W V (c_str fname);
      v ← NewMethod (Some f);
      vSet V window (c_str (trim_namespace (c_str fname))) v
  | Some _ => undef
  end.

(** ** The tables *)

Definition PHPFunctions : list (str * phpmethod) := [(lit "krollAddFunction", krollAddFunction_)].
Definition PHPKObjectMethods : list (str * phpmethod) :=
  [(lit "__call", PHPKObject___call); (lit "__toString", PHPKObject___toString)].
Definition PHPKMethodMethods : list (str * phpmethod) :=
  [(lit "__invoke", PHPKMethod___invoke); (lit "__call", PHPKObject___call);
   (lit "__toString", PHPKObject___toString)].
(** [append] is not among them. *)
Definition PHPKListMethods : list (str * phpmethod) :=
  [(lit "__call", PHPKObject___call); (lit "__toString", PHPKObject___toString);
   (lit "offsetExists", PHPKList_offsetExists); (lit "offsetGet", PHPKList_offsetGet);
   (lit "offsetSet", PHPKList_offsetSet); (lit "offsetUnset", PHPKList_offsetUnset);
   (lit "count", PHPKList_count); (lit "exchangeArray", PHPKList_exchangeArray);
   (lit "getArrayCopy", PHPKList_getArrayCopy)].

(** On top of the standard handlers. *)
Definition PHPKObjectHandlers : list (str * phphandler) :=
  [(lit "read_property", PHPKObjectReadProperty_); (lit "write_property", PHPKObjectWriteProperty_);
   (lit "get_properties", PHPKObjectGetProperties_); (lit "read_dimension", PHPKObjectReadProperty_);
   (lit "unset_property", PHPKObjectUnsetProperty_); (lit "unset_dimension", PHPKObjectUnsetProperty_);
   (lit "write_dimension", PHPKObjectWriteProperty_); (lit "has_property", PHPKObjectHasProperty_);
   (lit "has_dimension", PHPKObjectHasDimension_);
   (lit "get_class_entry", PHPKGetClassEntry_ PHPKObjectClass)].
Definition PHPKListHandlers : list (str * phphandler) :=
  PHPKObjectHandlers ++ [(lit "get_class_entry", PHPKGetClassEntry_ PHPKListClass)].
Definition PHPKMethodHandlers : list (str * phphandler) :=
  [(lit "get_class_entry", PHPKGetClassEntry_ PHPKMethodClass)].

Definition InitializePHPKrollClasses : M unit :=
  o ← call (zend_register_class (lit "PHPKObject") PHPKObjectMethods None);
  m ← call (zend_register_class (lit "PHPKMethod") PHPKMethodMethods None);
  l ← call (zend_register_class (lit "PHPKList") PHPKListMethods (Some (spl_ce_ArrayObject Q)));
  on_php (modify (z_with_classes (Some o) (Some m) (Some l)));;
  call (set_create_object o);; call (set_create_object m);; call (set_create_object l);;
  call (set_handlers PHPKObjectClass PHPKObjectHandlers);;
  call (set_handlers PHPKListClass PHPKListHandlers);;
  call (set_handlers PHPKMethodClass PHPKMethodHandlers);;
  call (zend_register_functions PHPFunctions).

Definition php_method (m : phpmethod) (this : N) (args : list N) (return_value : N) : M unit :=
  match m with
  | PHPKObject___toString => PHPKObject_toString this return_value
  | PHPKObject___call => PHPKObject_call this args return_value
  | PHPKMethod___invoke => PHPKMethod_invoke this args return_value
  | PHPKList_offsetExists => PHPKList_offsetExists_ this args return_value
  | PHPKList_offsetGet => PHPKList_offsetGet_ this args return_value
  | PHPKList_offsetSet => PHPKList_offsetSet_ this args
  | PHPKList_offsetUnset => PHPKList_offsetUnset_ this args
  | PHPKList_count => PHPKList_count_ this return_value
  | PHPKList_append => PHPKList_append_ this args
  | PHPKList_getArrayCopy => PHPKList_getArrayCopy_ this return_value
  | PHPKList_exchangeArray => PHPKList_exchangeArray_
  | krollAddFunction_ => krollAddFunction args
  end.
End Classes.
