(* ===== verification/PhpEvaluator.v ===== *)
(** * PhpEvaluator: scripts and the PHP module
    (modules/php/php_evaluator.cpp and php_module.cpp)

    A script runs in a namespace that belongs to its window, with the
    properties of the window as global variables; functions that it defines
    are set on the window by code that is put after the script. A page is run
    with its output kept in a buffer. *)

From S2P Require Import Prelude CppString Double FileUtils Application System Heap PhpCore Virtual.
From S2P Require Import KObject StaticBound StaticLaws ArgList Blob Logger Script Php PhpClasses.
From S2P Require AppUrl.
From stdpp Require Import options.

Definition z_with_ids i f p :=
  {| php_kvalues := php_kvalues p; PHPKObjectClassEntry := PHPKObjectClassEntry p;
     PHPKMethodClassEntry := PHPKMethodClassEntry p; PHPKListClassEntry := PHPKListClassEntry p;
     currentPHPGlobal := currentPHPGlobal p; php_nextId := i; php_nextFunctionId := f;
     php_buffering := php_buffering p; php_buffer := php_buffer p; php_mimeType := php_mimeType p;
     php_binding := php_binding p; php_instance := php_instance p; php_memory := php_memory p |}.
Definition z_with_buffer b text mime p :=
  {| php_kvalues := php_kvalues p; PHPKObjectClassEntry := PHPKObjectClassEntry p;
     PHPKMethodClassEntry := PHPKMethodClassEntry p; PHPKListClassEntry := PHPKListClassEntry p;
     currentPHPGlobal := currentPHPGlobal p; php_nextId := php_nextId p;
     php_nextFunctionId := php_nextFunctionId p; php_buffering := b; php_buffer := text;
     php_mimeType := mime; php_binding := php_binding p; php_instance := php_instance p;
     php_memory := php_memory p |}.
Definition z_with_module b i p :=
  {| php_kvalues := php_kvalues p; PHPKObjectClassEntry := PHPKObjectClassEntry p;
     PHPKMethodClassEntry := PHPKMethodClassEntry p; PHPKListClassEntry := PHPKListClassEntry p;
     currentPHPGlobal := currentPHPGlobal p; php_nextId := php_nextId p;
     php_nextFunctionId := php_nextFunctionId p; php_buffering := php_buffering p;
     php_buffer := php_buffer p; php_mimeType := php_mimeType p; php_binding := b;
     php_instance := i; php_memory := php_memory p |}.

Section Evaluator.
Context (W : World) (V : VOps).
#[local] Abbreviation Q := (phpq W).
#[local] Abbreviation call := (php W V _).

Definition new_PHPEvaluator : M loc :=
  o ← new_StaticBoundObject (lit "PHPEvaluator");
  Bind V o (lit "canEvaluate") PHPEvaluator__CanEvaluate;;
  Bind V o (lit "evaluate") PHPEvaluator__Evaluate;;
  Bind V o (lit "canPreprocess") PHPEvaluator__CanPreprocess;;
  Bind V o (lit "preprocess") PHPEvaluator__Preprocess;;
  mret o.

Definition PHPEvaluator_CanEvaluate (args : list loc) (result : loc) : M unit :=
  VerifyException args (lit "canEvaluate") (lit "s");;
  SetBool result false;;
  mimeType ← Arg_GetString args 0 [];
  if decide (c_str mimeType = lit "text/php") then SetBool result true else mret tt.

Definition php_module_id : str := lit "__php_module_id__".
Definition php_namespace (n : Z) : str := lit "__kroll__namespace__" ++ IntToChars (wrap32 n).
Definition PHP_GetContextId (global : loc) : M str :=
  contextId ← GetString V global php_module_id [];
  let contextId := c_str contextId in
  if decide (contextId = []) then
    p ← gets (fun h => s_php (sys h));
    let nextId := to_signed32 (php_nextId p + 1) in
    on_php (modify (fun p => z_with_ids nextId (php_nextFunctionId p) p));;
    Object_SetString V global php_module_id (php_namespace nextId);;
    mret (php_namespace nextId)
  else mret contextId.

Definition newline : ascii := "010"%char.
Definition quoted (s : str) : str := ["034"%char] ++ s ++ ["034"%char].
(** The script in its namespace, and the code that gives its functions to the
    window. *)
Definition codeString (contextId code : str) : str :=
  lit "namespace " ++ contextId ++ lit " {" ++ [newline] ++
  code ++ [newline] ++
  lit "  $__fns = get_defined_functions();" ++ [newline] ++
  lit "  if (array_key_exists(" ++ quoted (lit "user") ++ lit ", $__fns)) {" ++ [newline] ++
  lit "   foreach($__fns[" ++ quoted (lit "user") ++ lit "] as $fname) {" ++ [newline] ++
  lit "    if (!$window->$fname) {" ++
  lit "      krollAddFunction($window, $fname);" ++ [newline] ++
  lit "    }" ++ [newline] ++
  lit "   }" ++ [newline] ++
  lit "  }" ++ [newline] ++
  lit "}" ++ [newline].

(** The result is always undefined. *)
Definition PHPEvaluator_Evaluate (args : list loc) (result : loc) : M unit :=
  VerifyException args (lit "evaluate") (lit "s s s o");;
  name ← Arg_GetString args 1 [];
  code ← Arg_GetString args 2 [];
  windowGlobal ← Arg_GetObject args 3 None;
  g ← some_or_undef windowGlobal;
  contextId ← PHP_GetContextId g;
  on_php (modify (fun p => z_with_ids (php_nextId p) (to_signed32 (php_nextFunctionId p + 1)) p));;
  let text := codeString contextId code in
  log_line (lit "stdout") (c_str text ++ [newline]);;
  call end_request_startup;;
  previousGlobal ← the_php currentPHPGlobal;
  SwapGlobalObject W V windowGlobal (EG_symbol_table Q);;
  r ← call (zend_eval_string (c_str text) (c_str name));
  match r with
  | Zdone _ => mret tt
  | Zbailout => log_line (lit "PHP") (lit "Evaluation of script failed")
  end;;
  SwapGlobalObject W V previousGlobal (EG_symbol_table Q);;
  SetValue result Undefined.

Definition PHPEvaluator_CanPreprocess (args : list loc) (result : loc) : M unit :=
  VerifyException args (lit "canPreprocess") (lit "s");;
  url ← Arg_GetString args 0 [];
  SetBool result false;;
  if HasExtension (c_str url) (lit "php") then SetBool result true else mret tt.

(** ** The output of a page *)

(** The buffer is emptied when it was used before. *)
Definition SetBuffering (buffering : bool) : M unit :=
  on_php (modify (fun p =>
    z_with_buffer buffering (if php_buffering p then [] else php_buffer p) (php_mimeType p) p)).
(** The text of the engine is the format of the line in the log. *)
Definition UnbufferedWrite (text : str) : M Z :=
  p ← gets (fun h => s_php (sys h));
  (if php_buffering p then
     on_php (modify (fun p => z_with_buffer (php_buffering p) (php_buffer p ++ text) (php_mimeType p) p))
   else if php_instance p then log_line (lit "PHP") (Format text)
   else undef);;
  mret (wrap32 (Z.of_nat (length text))).
Definition LogMessage (message : str) : M unit :=
  i ← the_php php_instance;
  if i : bool then log_line (lit "PHP") (Format message) else undef.
Definition HeaderHandler (mimetype : option str) : M unit :=
  match mimetype with
  | None => mret tt
  | Some t => on_php (modify (fun p => z_with_buffer (php_buffering p) (php_buffer p) (c_str t) p))
  end.
Definition IniDefaults : M unit := call (ini_default (lit "display_errors") (lit "1")).

(** [URLUtils::URLToPath] on the state of the process. *)
Definition on_urls (m : AppUrl.UM str) : M str :=
  s ← gets sys;
  let '(r, u) := m {| AppUrl.u_boot := s_boot s; AppUrl.u_log := [] |} in
  on_sys (modify (with_boot (AppUrl.u_boot u)));;
  st_fold (fun _ line => log_line (lit "URLUtils") line) tt (AppUrl.u_log u);;
  lift r.
Definition url_to_path (url : str) : M str :=
  s ← gets sys;
  a ← some_or_undef (s_apps s !! s_application s);
  on_urls (AppUrl.URLToPath (poco_URI W) a url).

Definition PHPEvaluator_Preprocess (args : list loc) (result : loc) : M unit :=
  VerifyException args (lit "preprocess") (lit "s o");;
  url ← Arg_GetString args 0 [];
  log_line (lit "PHP") (Format (lit "preprocessing php => " ++ c_str url));;
  lift (poco_URI W url);;
  path ← url_to_path url;
  Arg_GetObject args 1 None;;
  SetBuffering true;;
  call php_request_startup;;
  call end_request_startup;;
  call (php_execute_script (c_str path));;
  output ← the_php php_buffer;
  o ← default_StaticBoundObject;
  blob ← CreateWithCopy V output (Z.of_nat (length output));
  Object_SetObject V o (lit "data") (Some blob);;
  mime ← the_php php_mimeType;
  Object_SetString V o (lit "mimeType") (c_str mime);;
  SetObject result (Some o);;
  SetBuffering false.

(** ** The functions that the engine calls *)
Definition php_slot (A : Set) (s : phpslot A) : M A :=
  match s in phpslot A return M A with
  | z_create_object ce => PHPKObjectCreateObject W V ce
  | z_free_storage z => PHPKObjectFreeStorage W V z
  | z_read_property z p => PHPKObjectReadProperty W V z p
  | z_write_property z p v => PHPKObjectWriteProperty W V z p v
  | z_get_properties z => PHPKObjectGetProperties W V z
  | z_unset_property z p => PHPKObjectUnsetProperty W V z p
  | z_has_property z p c => PHPKObjectHasProperty W V z p c
  | z_has_dimension z p c => PHPKObjectHasDimension W V z p c
  | z_get_class_entry k => PHPKGetClassEntry k
  | z_method m this args r => php_method W V m this args r
  | z_ub_write text => UnbufferedWrite text
  | z_log_message text => LogMessage text
  | z_header_handler t => HeaderHandler t
  | z_ini_defaults => IniDefaults
  end.

(** ** The module *)

Definition PHPModule_InitializeBinding : M unit :=
  mime ← askz (default_mimetype Q);
  on_php (modify (fun p => z_with_buffer (php_buffering p) (php_buffer p) (c_str mime) p));;
  global ← gets (fun h => s_global (sys h));
  binding ← new_PHPEvaluator;
  on_php (modify (fun p => z_with_module (Some binding) (php_instance p) p));;
  v ← NewObject (Some binding);
  vSet V global (lit "PHP") v;;
  AddScriptEvaluator V (Some binding);;
  g ← NewObject (Some global);
  titaniumValue ← new_PHPValue W V g;
  call (ZEND_SET_SYMBOL (EG_symbol_table Q) (lit "Titanium") titaniumValue).

(** Then the module becomes a provider of the host. *)
Definition PHPModule_Initialize : M unit :=
  on_php (modify (fun p => z_with_module (php_binding p) true p));;
  call php_embed_init;;
  InitializePHPKrollClasses W V;;
  PHPModule_InitializeBinding.

Definition PHPModule_Stop : M unit :=
  on_php (modify (fun p => z_with_module (php_binding p) false p));;
  global ← gets (fun h => s_global (sys h));
  binding ← the_php php_binding;
  RemoveScriptEvaluator V binding;;
  vSet V global (lit "PHP") Undefined;;
  b ← some_or_undef binding;
  vSet V b (lit "evaluate") Undefined;;
  on_php (modify (z_with_module None false));;
  call php_embed_shutdown.
End Evaluator.

Definition php_suffix : str := lit "module.php".
(** For a path that is shorter than the suffix, [substr] throws. *)
Definition PHPModule_IsModule (path : str) : res bool :=
  let plength := length path in
  let slength := length php_suffix in
  if slength <=? plength then
    suffix ← substr path (plength - slength) None; Ret (bool_decide (suffix = php_suffix))
  else Throw out_of_range.

(** ** Monotonicity *)
Section Mono.
Context (W : World) (V1 V2 : VOps) (HV : vle V1 V2).
Context (HP : forall (A : Set) (c : phpcmd A), approx (php W V1 A c) (php W V2 A c)).
#[local] Set Default Proof Using "Type*".
#[local] Hint Resolve HP : mono.

Lemma php_slot_mono (A : Set) (s : phpslot A) : approx (php_slot W V1 A s) (php_slot W V2 A s).
Proof. destruct s as [| | | | | | | | |[]| | | |]; cbn [php_slot php_method]; mono_deep. Qed.
Lemma PHPEvaluator_Evaluate_mono args r :
  approx (PHPEvaluator_Evaluate W V1 args r) (PHPEvaluator_Evaluate W V2 args r).
Proof. mono_deep. Qed.
Lemma PHPEvaluator_Preprocess_mono args r :
  approx (PHPEvaluator_Preprocess W V1 args r) (PHPEvaluator_Preprocess W V2 args r).
Proof. mono_deep. Qed.
End Mono.
#[export] Hint Resolve php_slot_mono PHPEvaluator_Evaluate_mono PHPEvaluator_Preprocess_mono : mono.
