(* ===== verification/Python.v ===== *)
(** * Python: the objects that cross the border to Python
    (modules/python/python_utils.cpp, k_python_object.cpp, k_python_dict.cpp,
    k_python_method.cpp, k_python_list.cpp and k_python_tuple.cpp)

    A Kroll object reaches Python as an object of one of the types of the
    program, whose slots serve it; it holds a [SharedValue]. A Python object
    reaches the program as a proxy ([KPythonObject], ...), which holds one
    reference. The calls of CPython are [py], its macros that look at objects
    [pyq]. The lock of the interpreter ([PyLockGIL], [PyAllowThreads]) is
    left out: there is one thread. *)

From S2P Require Import Prelude CppString Double System Heap PythonCore Virtual KObject StaticBound StaticLaws.
From stdpp Require Import options.

Definition p_with_values f p :=
  {| pyk_values := f (pyk_values p); py_binding := py_binding p; py_instance := py_instance p;
     py_memory := py_memory p |}.
Definition on_py {A} (m : ST PyState A) : M A := on_sys (zoom s_py with_py m).
Definition the_py {A} (f : PyState -> A) : M A := gets (fun h => f (s_py (sys h))).
(** A question to the interpreter. *)
Definition ask {A} (f : pymem -> A) : M A := gets (fun h => f (pymem_of h)).

(** A [const char*] result: a literal of the program, or a pointer into a
    Python string, read when it is used. *)
Inductive cstring := Literal (s : str) | Buffer (p : N).

(** [PyKObject::value] of [self] *)
Definition PyKObject_value (self : N) : M loc := m ← the_py pyk_values; some_or_undef (m !! self).

Section Python.
Context (W : World) (V : VOps).
#[local] Abbreviation Q := (pyq W).
#[local] Abbreviation call := (py W V _).

Definition Py_XDECREF (o : option N) : M unit :=
  match o with Some o => call (Py_DECREF o) | None => mret tt end.

(** ** The proxies *)

Definition new_KPythonObject (obj : N) : M loc :=
  o ← new_object (lit "KObject") (KPythonObject obj false None);
  call (Py_INCREF obj);; mret o.
(** With the [readOnly] flag: binding-layer properties go to the delegate. *)
Definition new_KPythonObject_ro (obj : N) (readOnly : bool) : M loc :=
  d ← default_StaticBoundObject;
  o ← new_object (lit "KObject") (KPythonObject obj readOnly (Some d));
  call (Py_INCREF obj);; mret o.
Definition new_KPythonDict (obj : N) : M loc :=
  o ← new_object (lit "KObject") (KPythonDict obj); call (Py_INCREF obj);; mret o.
Definition new_KPythonMethod (method : N) : M loc :=
  k ← new_KPythonObject method;
  o ← new_object (lit "KMethod") (KPythonMethod method k); call (Py_INCREF method);; mret o.
Definition new_KPythonList (list : N) : M loc :=
  k ← new_KPythonObject_ro list true;
  o ← new_object (lit "KList") (KPythonList list k); call (Py_INCREF list);; mret o.
Definition new_KPythonTuple (tuple : N) : M loc :=
  k ← new_KPythonObject_ro tuple true;
  o ← new_object (lit "KList") (KPythonTuple tuple k); call (Py_INCREF tuple);; mret o.

(** What the destructors do; a method, list and tuple then release their
    [object]. *)
Definition delete_KPythonObject (obj : N) : M unit := call (Py_DECREF obj).
Definition delete_KPythonDict (obj : N) : M unit := call (Py_DECREF obj).
Definition delete_KPythonMethod (method : N) : M unit := call (Py_DECREF method).
Definition delete_KPythonList (list : N) : M unit := call (Py_DECREF list).
Definition delete_KPythonTuple (tuple : N) : M unit := call (Py_DECREF tuple).

(** [ToPython()] of each class; the dict adds a reference. *)
Definition KPythonObject_ToPython (this : loc) : M N :=
  x ← geto this; match o_class x with KPythonObject obj _ _ => mret obj | _ => undef end.
Definition KPythonDict_ToPython (this : loc) : M N :=
  x ← geto this;
  match o_class x with KPythonDict obj => call (Py_INCREF obj);; mret obj | _ => undef end.
Definition kpython_object_of (this : loc) : M loc :=
  x ← geto this;
  match o_class x with
  | KPythonMethod _ k | KPythonList _ k | KPythonTuple _ k => mret k
  | _ => undef
  end.
Definition Kpython_ToPython (this : loc) : M N :=
  k ← kpython_object_of this; KPythonObject_ToPython k.

(** ** To Python *)

(** [PyObject_New(PyKObject, &type)] with [value = new SharedValue(v)] *)
Definition new_wrapper (t : PyType) (v : loc) : M N :=
  obj ← call (PyObject_New t);
  obj ← some_or_undef obj;
  on_py (modify (p_with_values (<[obj := v]>)));;
  mret obj.
Definition KObjectToPyObject : loc -> M N := new_wrapper PyKObjectType.
Definition KListToPyObject : loc -> M N := new_wrapper PyKListType.
Definition KMethodToPyObject : loc -> M N := new_wrapper PyKMethodType.

Definition is_KPythonMethod (c : class) : bool := match c with KPythonMethod _ _ => true | _ => false end.
Definition is_KPythonList (c : class) : bool := match c with KPythonList _ _ => true | _ => false end.
Definition is_KPythonTuple (c : class) : bool := match c with KPythonTuple _ _ => true | _ => false end.
Definition is_KPythonObject (c : class) : bool :=
  match c with KPythonObject _ _ _ => true | _ => false end.
Definition is_KPythonDict (c : class) : bool := match c with KPythonDict _ => true | _ => false end.

(** The branches for methods, lists and objects, with
    [needsReferenceIncrement]. *)
Definition method_to_py (value : loc) (v : Heap.value) : M (option N * bool) :=
  m ← ToMethod v;
  pymeth ← dynamic_cast is_KPythonMethod m;
  match pymeth with
  | Some pymeth => p ← Kpython_ToPython pymeth; mret (Some p, true)
  | None => p ← KMethodToPyObject value; mret (Some p, false)
  end.
Definition list_to_py (value : loc) (v : Heap.value) : M (option N * bool) :=
  l ← ToList v;
  pylist ← dynamic_cast is_KPythonList l;
  pytuple ← dynamic_cast is_KPythonTuple l;
  match pylist, pytuple with
  | Some pylist, _ => p ← Kpython_ToPython pylist; mret (Some p, true)
  | None, Some pytuple => p ← Kpython_ToPython pytuple; mret (Some p, true)
  | None, None => p ← KListToPyObject value; mret (Some p, false)
  end.
Definition object_to_py (value : loc) (v : Heap.value) : M (option N * bool) :=
  let obj := ToObject v in
  pyobj ← dynamic_cast is_KPythonObject obj;
  pydict ← dynamic_cast is_KPythonDict obj;
  match pyobj, pydict with
  | Some pyobj, _ => p ← KPythonObject_ToPython pyobj; mret (Some p, true)
  | None, Some pydict => p ← KPythonDict_ToPython pydict; mret (Some p, true)
  | None, None => p ← KObjectToPyObject value; mret (Some p, false)
  end.

(** [pythonValue] and [needsReferenceIncrement] *)
Definition python_value (value : loc) : M (option N * bool) :=
  v ← getv value;
  if IsBool v then b ← ToBool v; mret (Some (if b : bool then Py_True Q else Py_False Q), true)
  else if IsDouble v then p ← call (PyFloat_FromDouble (ToDouble v)); mret (p, true)
  else if IsInt v then p ← call (PyInt_FromLong (ToInt v)); mret (p, true)
  else if IsNull v || IsUndefined v then mret (Some (Py_None Q), true)
  else if IsString v then s ← ToString v; p ← call (PyString_FromString (c_str s)); mret (p, true)
  else if IsMethod v then method_to_py value v
  else if IsList v then list_to_py value v
  else if IsObject v then object_to_py value v
  else mret (None, true).

Definition ToPyObject (value : loc) : M N :=
  '(pythonValue, needsReferenceIncrement) ← python_value value;
  let pythonValue := default (Py_None Q) pythonValue in
  (if needsReferenceIncrement : bool then call (Py_INCREF pythonValue) else mret tt);;
  mret pythonValue.

(** ** From Python *)

Definition string_failure : str := lit "<python string failure>".
Definition PyString_chars (o : N) : M (option cstring) :=
  p ← call (PyString_AsString o); mret (Buffer <$> p).
(** [PythonUtils::ToString]: the text of another object is read after its
    [str] has been released. *)
Definition ToCString (value : N) : M (option cstring) :=
  is_string ← ask (fun m => PyString_Check Q m value);
  if is_string : bool then PyString_chars value
  else
    o ← call (PyObject_Str value);
    o ← some_or_undef o;
    result ← PyString_chars o;
    call (Py_DECREF o);;
    mret (Some (default (Literal string_failure) result)).
(** The text that a null-terminated pointer points to; a null pointer has none. *)
Definition chars (s : option cstring) : M str :=
  s ← some_or_undef s;
  match s with
  | Literal s => mret s
  | Buffer p => ask (fun m => c_str (text_at Q m p))
  end.
Definition PyToString (value : N) : M str := s ← ToCString value; chars s.

(** [THROW_PYTHON_EXCEPTION], with the conversion of the exception's value. *)
Definition throw_python {A} (convert : option N -> M loc) : M A :=
  '(ptype, pvalue, trace) ← call PyErr_Fetch;
  ex ← NewString (lit "Unknown");
  ex ← (match pvalue with Some v => convert (Some v) | None => mret ex end);
  Py_XDECREF ptype;; Py_XDECREF pvalue;; Py_XDECREF trace;;
  throw (ValueException (Some ex)).

(** The branches for objects that stay in Python. *)
Definition new_python_proxy (m : pymem) (value : N) : M loc :=
  if PyObject_TypeCheck Q m value PyModule_Type || PyInstance_Check Q m value
  then o ← new_KPythonObject value; NewObject (Some o)
  else if PyMethod_Check Q m value || PyFunction_Check Q m value || PyCallable_Check Q m value
  then o ← new_KPythonMethod value; NewMethod (Some o)
  else if PyMapping_Check Q m value then o ← new_KPythonDict value; NewObject (Some o)
  else o ← new_KPythonObject value; NewObject (Some o).

Definition is_minus_one (d : double) : bool := double_eqb d (double_of_int (-1)).

(** Every branch sets [kvalue], so the last test of the function never
    succeeds. The conversion of an exception can fail in turn. *)
Fixpoint PyToKrollValue_fuel (fuel : nat) (value : option N) : M loc :=
  match fuel with
  | O => lift Fuel
  | S fuel' =>
      value ← some_or_undef value;
      m ← gets pymem_of;
      let isa t := PyObject_TypeCheck Q m value t in
      if (value =? Py_None Q)%N then mret Null
      else if isa PyString_Type then s ← PyToString value; NewString s
      else if isa PyUnicode_Type then
        utf8Value ← call (PyUnicode_AsUTF8String value);
        utf8Value ← some_or_undef utf8Value;
        s ← PyToString utf8Value;
        l ← NewString s;
        call (Py_DECREF utf8Value);; mret l
      else if isa PyBool_Type then b ← call (PyObject_IsTrue value); NewBool (negb (b =? 0)%Z)
      else if isa PyInt_Type then z ← call (PyInt_AsLong value); NewInt (to_signed32 z)
      else if isa PyLong_Type then
        dval ← call (PyLong_AsDouble value);
        if is_minus_one dval then throw_python (PyToKrollValue_fuel fuel') else NewDouble dval
      else if isa PyFloat_Type then d ← call (PyFloat_AsDouble value); NewDouble d
      else if isa PyList_Type then o ← new_KPythonList value; NewList (Some o)
      else if isa PyTuple_Type then o ← new_KPythonTuple value; NewList (Some o)
      else if isa PyKObjectType || isa PyKMethodType || isa PyKListType then PyKObject_value value
      else new_python_proxy m value
  end.
Definition PyToKrollValue : option N -> M loc := PyToKrollValue_fuel (vFuel V).
Definition THROW_PYTHON_EXCEPTION {A} : M A := throw_python PyToKrollValue.

(** [if (result == -1 && PyErr_Occurred() != NULL)] *)
Definition check_result (result : Z) : M unit :=
  occurred ← ask (PyErr_Occurred Q);
  if (result =? -1)%Z && occurred then THROW_PYTHON_EXCEPTION else mret tt.

(** ** The operations of the proxies *)

Definition kpython_fields (this : loc) : M (N * bool * option loc) :=
  x ← geto this;
  match o_class x with KPythonObject obj readOnly d => mret (obj, readOnly, d) | _ => undef end.

Definition KPythonObject_Set (this : loc) (name : str) (value : loc) : M unit :=
  '(object, readOnly, delegate) ← kpython_fields this;
  py_value ← ToPyObject value;
  if readOnly : bool then d ← some_or_undef delegate; vSet V d name value
  else result ← call (PyObject_SetAttrString object name py_value); check_result result.

Definition KPythonObject_Get (this : loc) (name : str) : M loc :=
  '(object, readOnly, delegate) ← kpython_fields this;
  has ← call (PyObject_HasAttrString object name);
  if negb has then
    if readOnly : bool then d ← some_or_undef delegate; vGet V d name else mret Undefined
  else
    value ← call (PyObject_GetAttrString object name);
    occurred ← ask (PyErr_Occurred Q);
    match value, occurred with
    | None, true => THROW_PYTHON_EXCEPTION
    | _, _ =>
        kroll_value ← PyToKrollValue value;
        value ← some_or_undef value;
        call (Py_DECREF value);; mret kroll_value
    end.

(** [pyOther->ToPython() == this->ToPython()] when [other] is of the class
    [P]. *)
Definition python_equals (P : class -> bool) (ToPython : loc -> M N) (this : loc) (other : option loc)
    : M bool :=
  pyOther ← dynamic_cast P other;
  match pyOther with
  | None => mret false
  | Some pyOther => a ← ToPython pyOther; b ← ToPython this; mret (a =? b)%N
  end.
Definition KPythonObject_Equals : loc -> option loc -> M bool :=
  python_equals is_KPythonObject KPythonObject_ToPython.
Definition KPythonDict_Equals : loc -> option loc -> M bool :=
  python_equals is_KPythonDict KPythonDict_ToPython.
Definition KPythonMethod_Equals : loc -> option loc -> M bool :=
  python_equals is_KPythonMethod Kpython_ToPython.
Definition KPythonList_Equals : loc -> option loc -> M bool :=
  python_equals is_KPythonList Kpython_ToPython.
Definition KPythonTuple_Equals : loc -> option loc -> M bool :=
  python_equals is_KPythonTuple Kpython_ToPython.

(** [while ((item = PyIter_Next(iterator)))] with the body [f], which
    releases the item. *)
Definition iterate_step {A} (iterator : N) (f : A -> N -> M A) (a : A) : M (A + A) :=
  item ← call (PyIter_Next iterator);
  match item with
  | None => mret (inr a)
  | Some item => a ← f a item; call (Py_DECREF item);; mret (inl a)
  end.
Definition iterate {A} (iterator : N) (f : A -> N -> M A) (a : A) : M A :=
  loop (vFuel V) (iterate_step iterator f) a.

Definition push_item_name (l : names) (o : N) : M names :=
  s ← PyToString o; p ← new_name s; mret (l ++ [p]).
(** [PyTuple_GetItem(item, i)] of an item of [items()] *)
Definition item_part (item : N) (i : Z) : M N := o ← call (PyTuple_GetItem item i); some_or_undef o.

(** Over the object that [props] gives, which is released at the end. *)
Definition names_of_iterable (props : option N) (f : names -> N -> M names) : M names :=
  match props with
  | None => mret []
  | Some props =>
      iterator ← call (PyObject_GetIter props);
      match iterator with
      | None => mret []
      | Some iterator =>
          l ← iterate iterator f [];
          call (Py_DECREF iterator);; call (Py_DECREF props);; mret l
      end
  end.

Definition KPythonObject_GetPropertyNames (this : loc) : M names :=
  '(object, _, _) ← kpython_fields this;
  props ← call (PyObject_Dir object);
  names_of_iterable props push_item_name.

Definition kpython_dict (this : loc) : M N :=
  x ← geto this; match o_class x with KPythonDict obj => mret obj | _ => undef end.

Definition KPythonDict_Set (this : loc) (name : str) (value : loc) : M unit :=
  object ← kpython_dict this;
  pyval ← ToPyObject value;
  result ← call (PyMapping_SetItemString object name pyval);
  check_result result.

Definition KPythonDict_Get (this : loc) (name : str) : M loc :=
  object ← kpython_dict this;
  item ← call (PyMapping_GetItemString object name);
  match item with
  | None => mret Undefined
  | Some item =>
      try_catch (value ← PyToKrollValue (Some item); call (Py_DECREF item);; mret value)
        (fun e => call (Py_DECREF item);; throw e)
  end.

Definition KPythonDict_GetPropertyNames (this : loc) : M names :=
  object ← kpython_dict this;
  items ← call (PyObject_CallMethod object (lit "items") []);
  names_of_iterable items (fun l item => k ← item_part item 0; push_item_name l k).

(** [KPythonMethod], [KPythonList] and [KPythonTuple] ask their [object]. *)
Definition Kpython_Get (this : loc) (name : str) : M loc := k ← kpython_object_of this; vGet V k name.
Definition Kpython_Set (this : loc) (name : str) (value : loc) : M unit :=
  k ← kpython_object_of this; vSet V k name value.
Definition Kpython_GetPropertyNames (this : loc) : M names :=
  k ← kpython_object_of this; vGetPropertyNames V k.

(** The tuple of the arguments; [None] for no arguments. *)
Fixpoint set_tuple_items (arglist : option N) (i : Z) (args : list loc) : M unit :=
  match args with
  | [] => mret tt
  | arg :: args' =>
      pv ← ToPyObject arg;
      t ← some_or_undef arglist;
      call (PyTuple_SetItem t i pv);;
      set_tuple_items arglist (i + 1) args'
  end.
Definition argument_tuple (args : list loc) : M (option N) :=
  match args with
  | [] => mret None
  | _ =>
      arglist ← call (PyTuple_New (Z.of_nat (length args)));
      set_tuple_items arglist 0 args;;
      mret arglist
  end.

Definition KPythonMethod_Call (this : loc) (args : list loc) : M loc :=
  x ← geto this;
  match o_class x with
  | KPythonMethod method _ =>
      arglist ← argument_tuple args;
      response ← call (PyObject_CallObject method arglist);
      Py_XDECREF arglist;;
      occurred ← ask (PyErr_Occurred Q);
      match response, occurred with
      | None, true => THROW_PYTHON_EXCEPTION
      | None, false => mret Undefined
      | Some response, _ =>
          value ← PyToKrollValue (Some response); call (Py_DECREF response);; mret value
      end
  | _ => undef
  end.

(** *** Lists *)

Definition pylist_of (this : loc) : M N :=
  x ← geto this; match o_class x with KPythonList l _ => mret l | _ => undef end.

Definition KPythonList_Append (this value : loc) : M unit :=
  list ← pylist_of this;
  py_value ← ToPyObject value;
  call (PyList_Append list py_value);; mret tt.

Definition KPythonList_Size (this : loc) : M Z :=
  list ← pylist_of this; n ← call (PyList_Size list); mret (wrap32 n).

(** [index + 1] is computed as an [unsigned int]. *)
Definition KPythonList_Remove (this : loc) (index : Z) : M bool :=
  n ← vSize V this;
  if (index <? n)%Z then
    list ← pylist_of this;
    emptyList ← call (PyList_New 0);
    emptyList ← some_or_undef emptyList;
    call (PyList_SetSlice list index (wrap32 (index + 1)) emptyList);;
    call (Py_DECREF emptyList);;
    mret true
  else mret false.

Definition KPythonList_At (this : loc) (index : Z) : M loc :=
  n ← vSize V this;
  if (index <? n)%Z then
    list ← pylist_of this; p ← call (PyList_GetItem list index); PyToKrollValue p
  else mret Undefined.

Definition pad_step (this : loc) (index : Z) (_ : unit) : M (unit + unit) :=
  n ← vSize V this;
  if (n <=? index)%Z then
    call (Py_INCREF (Py_None Q));;
    list ← pylist_of this; call (PyList_Append list (Py_None Q));; mret (inl tt)
  else mret (inr tt).

Definition KPythonList_SetAt (this : loc) (index : Z) (value : loc) : M unit :=
  loop (vFuel V) (pad_step this index) tt;;
  py_value ← ToPyObject value;
  list ← pylist_of this;
  call (PyList_SetItem list index py_value);; mret tt.

Definition KPythonList_Set (this : loc) (name : str) (value : loc) : M unit :=
  match index_of_name name with
  | Some index => vSetAt V this index value
  | None => Kpython_Set this name value
  end.

(** [index >= 0] holds for every [unsigned int]. *)
Definition Kpython_Get_index (this : loc) (name : str) : M loc :=
  if KList_IsInt name then vAt V this (wrap32 (atoi (c_str name))) else Kpython_Get this name.
Definition KPythonList_Get : loc -> str -> M loc := Kpython_Get_index.

Definition index_name_step (this : loc) (st : Z * names) : M ((Z * names) + names) :=
  let '(i, l) := st in
  n ← vSize V this;
  if (i <? n)%Z then p ← new_name (IntToChars i); mret (inl ((i + 1)%Z, l ++ [p]))
  else mret (inr l).
(** The names of the attributes, then the indices. *)
Definition KPythonList_GetPropertyNames (this : loc) : M names :=
  l ← Kpython_GetPropertyNames this;
  loop (vFuel V) (index_name_step this) (0%Z, l).

(** *** Tuples *)

Definition pytuple_of (this : loc) : M N :=
  x ← geto this; match o_class x with KPythonTuple t _ => mret t | _ => undef end.

Definition tuple_size_text : str := lit "Cannot modify the size of a Python tuple.".
Definition tuple_text : str := lit "Cannot modify a Python tuple.".
Definition KPythonTuple_Append (this value : loc) : M unit := throw_string tuple_size_text.
Definition KPythonTuple_Remove (this : loc) (index : Z) : M bool := throw_string tuple_size_text.
Definition KPythonTuple_Set (this : loc) (name : str) (value : loc) : M unit := throw_string tuple_text.
Definition KPythonTuple_SetAt (this : loc) (index : Z) (value : loc) : M unit := throw_string tuple_text.

Definition KPythonTuple_Size (this : loc) : M Z :=
  tuple ← pytuple_of this; n ← call (PyTuple_Size tuple); mret (wrap32 n).

(** The reference that is released here is borrowed. *)
Definition KPythonTuple_At (this : loc) (index : Z) : M loc :=
  n ← vSize V this;
  if (index <? n)%Z then
    tuple ← pytuple_of this;
    p ← call (PyTuple_GetItem tuple index);
    v ← PyToKrollValue p;
    p ← some_or_undef p;
    call (Py_DECREF p);; mret v
  else mret Undefined.

Definition KPythonTuple_Get : loc -> str -> M loc := Kpython_Get_index.
Definition KPythonTuple_GetPropertyNames (this : loc) : M names :=
  l ← Kpython_GetPropertyNames this;
  loop (vFuel V) (index_name_step this) (0%Z, l).

(** ** The slots *)

Definition PyKObject_dealloc (self : N) : M unit :=
  PyKObject_value self;; on_py (modify (p_with_values (delete self)));; call (PyObject_Del self).

(** [pyko->value->get()->ToObject()], [->ToList()] and [->ToMethod()], which
    the callers dereference. *)
Definition slot_object (self : N) : M loc :=
  l ← PyKObject_value self; v ← getv l; some_or_undef (ToObject v).
Definition slot_list (self : N) : M loc :=
  l ← PyKObject_value self; v ← getv l; o ← ToList v; some_or_undef o.

Definition PyKObject_getattr (self : N) (name : str) : M (option N) :=
  call (Py_INCREF self);;
  o ← slot_object self;
  result ← vGet V o name;
  call (Py_DECREF self);;
  p ← ToPyObject result; mret (Some p).

Definition PyKObject_setattr (self : N) (name : str) (value : option N) : M Z :=
  call (Py_INCREF self);;
  tiValue ← PyToKrollValue value;
  o ← slot_object self;
  vSet V o name tiValue;;
  call (Py_DECREF self);;
  mret 0%Z.

Definition PyKObject_str (self : N) : M (option N) :=
  call (Py_INCREF self);;
  l ← PyKObject_value self; v ← getv l;
  call (Py_DECREF self);;
  kobj ← some_or_undef (ToObject v);
  ss ← vDisplayString V kobj 3;
  call (PyString_FromString (c_str ss)).

Definition PyKListLength (o : N) : M Z := klist ← slot_list o; vSize V klist.

(** What [PySequence_Concat] makes is not used: the new list stays empty. *)
Definition PyKListConcat (a b : N) : M (option N) :=
  new_list ← call (PyList_New 0);
  new_list ← some_or_undef new_list;
  call (PySequence_Concat new_list a);;
  call (PySequence_Concat new_list b);;
  mret (Some new_list).

Fixpoint concat_times (new_list o : N) (n : nat) : M unit :=
  match n with
  | O => mret tt
  | S n' => call (PySequence_Concat new_list o);; concat_times new_list o n'
  end.
Definition PyKListRepeat (o : N) (count : Z) : M (option N) :=
  new_list ← call (PyList_New 0);
  (if (0 <? count)%Z then l ← some_or_undef new_list; concat_times l o (Z.to_nat count)
   else mret tt);;
  mret new_list.

(** A null pointer without an exception for an index past the end. *)
Definition PyKListGetItem (o : N) (i : Z) : M (option N) :=
  klist ← slot_list o;
  n ← vSize V klist;
  if (i <? to_signed32 n)%Z then
    listVal ← vAt V klist (wrap32 i); p ← ToPyObject listVal; mret (Some p)
  else mret None.

Definition PyKListSetItem (o : N) (i : Z) (v : option N) : M Z :=
  klist ← slot_list o;
  kv ← PyToKrollValue v;
  vSetAt V klist (wrap32 i) kv;;
  mret 1%Z.

(** [kv == klist->At(i)] compares the pointers. *)
Definition contains_step (klist kv : loc) (i : Z) : M (Z + Z) :=
  n ← vSize V klist;
  if (i <? n)%Z then
    v ← vAt V klist i;
    mret (if (kv =? v)%N then inr 1%Z else inl (wrap32 (i + 1)))
  else mret (inr 0%Z).
Definition PyKListContains (o value : N) : M Z :=
  klist ← slot_list o;
  kv ← PyToKrollValue (Some value);
  loop (vFuel V) (contains_step klist kv) 0%Z.

Fixpoint append_items (klist : loc) (o2 : N) (i : Z) (n : nat) : M unit :=
  match n with
  | O => mret tt
  | S n' =>
      v ← call (PySequence_GetItem o2 i);
      kv ← PyToKrollValue v;
      vAppend V klist kv;;
      append_items klist o2 (i + 1) n'
  end.
Definition PyKListInPlaceConcat (o1 o2 : N) : M (option N) :=
  klist ← slot_list o1;
  size ← call (PySequence_Size o2);
  append_items klist o2 0 (Z.to_nat (to_signed32 size));;
  mret (Some o1).

Fixpoint append_own (klist : loc) (i : Z) (n : nat) : M unit :=
  match n with
  | O => mret tt
  | S n' => v ← vAt V klist i; vAppend V klist v;; append_own klist (i + 1) n'
  end.
Fixpoint append_own_times (klist : loc) (size : nat) (count : nat) : M unit :=
  match count with
  | O => mret tt
  | S count' => append_own klist 0 size;; append_own_times klist size count'
  end.
(** [size] is read once; [count] more copies are appended. *)
Definition PyKListInPlaceRepeat (o : N) (count : Z) : M (option N) :=
  klist ← slot_list o;
  size ← vSize V klist;
  append_own_times klist (Z.to_nat size) (Z.to_nat count);;
  mret (Some o).

Definition call_argument_step (args : N) (st : Z * list loc) : M ((Z * list loc) + list loc) :=
  let '(c, a) := st in
  n ← call (PyTuple_Size args);
  if (c <? n)%Z then
    arg ← call (PyTuple_GetItem args c);
    kValue ← PyToKrollValue arg;
    Value_Unwrap kValue;;
    mret (inl (to_signed32 (c + 1), a ++ [kValue]))
  else mret (inr a).

(** The exception becomes the one of the interpreter; its type is the type of
    its value. *)
Definition set_python_error (e : loc) : M unit :=
  pye ← ToPyObject e;
  type ← call (PyObject_Type pye);
  call (PyErr_SetObject type (Some pye));;
  type ← some_or_undef type;
  call (Py_DECREF type);; call (Py_DECREF pye).

Definition PyKMethod_call (o args : N) : M (option N) :=
  call (Py_INCREF o);;
  l ← PyKObject_value o; v ← getv l; kmeth ← ToMethod v;
  r ← try_catch
    (a ← loop (vFuel V) (call_argument_step args) (0%Z, []);
     kmeth ← some_or_undef kmeth;
     result ← vCall V kmeth a;
     mret (Some result))
    (fun e =>
       match e with
       | ValueException v =>
           v ← some_or_undef v; set_python_error v;; call (Py_DECREF o);; mret None
       | e => throw e
       end);
  match r with
  | None => mret None
  | Some result => call (Py_DECREF o);; p ← ToPyObject result; mret (Some p)
  end.

Definition python_slot (A : Set) (s : pyslot A) : M A :=
  match s in pyslot A return M A with
  | tp_dealloc self => PyKObject_dealloc self
  | tp_getattr self name => PyKObject_getattr self name
  | tp_setattr self name value => PyKObject_setattr self name value
  | tp_str self => PyKObject_str self
  | tp_call_ self args => PyKMethod_call self args
  | sq_length self => PyKListLength self
  | sq_concat a b => PyKListConcat a b
  | sq_repeat self count => PyKListRepeat self count
  | sq_item self i => PyKListGetItem self i
  | sq_ass_item self i value => PyKListSetItem self i value
  | sq_contains self value => PyKListContains self value
  | sq_inplace_concat self other => PyKListInPlaceConcat self other
  | sq_inplace_repeat self count => PyKListInPlaceRepeat self count
  end.

(** ** The types, and errors as text *)

Definition kclass (name : str) (method list : bool) : PyTypeObject :=
  {| tp_name := name; tp_call := method; tp_as_sequence := list; tp_inplaceops := list;
     tp_sequence_in := list |}.
Definition ready (t : PyType) (d : PyTypeObject) (error : str) : M unit :=
  r ← call (PyType_Ready t d); if (r <? 0)%Z then throw_string error else mret tt.
Definition InitializePythonKClasses : M unit :=
  ready PyKObjectType (kclass (lit "KObject") false false) (lit "Could not initialize PyKObjectType!");;
  ready PyKListType (kclass (lit "KList") false true) (lit "Could not initialize PyKListType!");;
  ready PyKMethodType (kclass (lit "KMethod") true false) (lit "Could not initialize PyKMethodType!").

(** The text of the exception as the traceback module formats it. *)
Definition format_exception (mod_ : N) (ptype pvalue ptrace : option N) : M str :=
  list ← call (PyObject_CallMethod mod_ (lit "format_exception") [ptype; pvalue; ptrace]);
  match list with
  | None => mret []
  | Some list =>
      newline ← call (PyString_FromString ["010"%char]);
      newline ← some_or_undef newline;
      fullTrace ← call (PyObject_CallMethod newline (lit "join") [Some list]);
      text ← (match fullTrace with
              | Some t => s ← PyString_chars t; match s with Some _ => chars s | None => mret [] end
              | None => mret []
              end);
      call (Py_DECREF list);; call (Py_DECREF newline);;
      fullTrace ← some_or_undef fullTrace;
      call (Py_DECREF fullTrace);;
      mret text
  end.
Definition PythonErrorToString : M str :=
  '(ptype, pvalue, ptrace) ← call PyErr_Fetch;
  mod_ ← call (PyImport_ImportModule (lit "traceback"));
  match mod_ with
  | None => mret []
  | Some mod_ =>
      fullTraceString ← format_exception mod_ ptype pvalue ptrace;
      match fullTraceString with
      | [] => v ← some_or_undef pvalue; PyToString v
      | s => mret s
      end
  end.
End Python.

(** ** Monotonicity *)
Section Mono.
Context (W : World) (V1 V2 : VOps) (HV : vle V1 V2).
Context (HP : forall (A : Set) (c : pycmd A), approx (py W V1 A c) (py W V2 A c)).
#[local] Set Default Proof Using "Type*".
#[local] Hint Resolve HP : mono.

Lemma PyToKrollValue_fuel_mono n1 n2 v :
  n1 <= n2 -> approx (PyToKrollValue_fuel W V1 n1 v) (PyToKrollValue_fuel W V2 n2 v).
Proof.
  revert n2 v. induction n1 as [|n1 IH]; intros n2 v Hn; [apply approx_fuel|].
  destruct n2 as [|n2]; [lia|]. cbn [PyToKrollValue_fuel]. mono_deep; apply IH; lia.
Qed.
Lemma PyToKrollValue_mono v : approx (PyToKrollValue W V1 v) (PyToKrollValue W V2 v).
Proof. apply PyToKrollValue_fuel_mono. by apply le_Fuel. Qed.
Lemma ToPyObject_mono v : approx (ToPyObject W V1 v) (ToPyObject W V2 v).
Proof. mono_deep. Qed.
#[local] Hint Resolve PyToKrollValue_mono ToPyObject_mono : mono.
Lemma set_tuple_items_mono t i args : approx (set_tuple_items W V1 t i args) (set_tuple_items W V2 t i args).
Proof. revert i. induction args as [|a args IH]; intros i; simpl; mono. Qed.
Lemma concat_times_mono l o n : approx (concat_times W V1 l o n) (concat_times W V2 l o n).
Proof. induction n; simpl; mono. Qed.
Lemma append_items_mono l o i n : approx (append_items W V1 l o i n) (append_items W V2 l o i n).
Proof. revert i. induction n; intros i; simpl; mono. Qed.
Lemma append_own_mono l i n : approx (append_own V1 l i n) (append_own V2 l i n).
Proof. revert i. induction n; intros i; simpl; mono. Qed.
#[local] Hint Resolve set_tuple_items_mono concat_times_mono append_items_mono append_own_mono : mono.
Lemma append_own_times_mono l s n : approx (append_own_times V1 l s n) (append_own_times V2 l s n).
Proof. induction n; simpl; mono. Qed.
#[local] Hint Resolve append_own_times_mono : mono.

Lemma python_slot_mono (A : Set) (s : pyslot A) : approx (python_slot W V1 A s) (python_slot W V2 A s).
Proof. destruct s; cbn [python_slot]; mono_deep. Qed.
End Mono.

#[export] Hint Resolve ToPyObject_mono PyToKrollValue_mono set_tuple_items_mono python_slot_mono : mono.
