(* ===== verification/PythonTextLaws.v ===== *)
(** * PythonTextLaws: what the evaluator does to the text of a script

    [Strip] takes the blanks off both ends and marks with one newline that
    some were taken off the end; [ConvertLineEndings] is, in one pass over
    the text, the removal of every carriage return that a newline follows. *)

From S2P Require Import Prelude CppString FileUtils PythonEvaluator.
From stdpp Require Import options.

(** ** Line ends *)

(** A carriage return before a newline goes; since the text is looked at from
    its end, a run of them before a newline goes as a whole. *)
Definition drop_cr (c : ascii) (rest : str) : str :=
  if decide (c = CR /\ head rest = Some LF) then rest else c :: rest.
Definition unix_lines (code : str) : str := foldr drop_cr [] code.

Lemma unix_lines_crlf p r : unix_lines (p ++ [CR; LF] ++ r) = unix_lines (p ++ [LF] ++ r).
Proof.
  unfold unix_lines. rewrite !foldr_app. simpl.
  assert (drop_cr LF (foldr drop_cr [] r) = LF :: foldr drop_cr [] r) as E.
  { unfold drop_cr. case_decide as Hc; [|done]. by destruct Hc as [Hc _]. }
  rewrite E. unfold drop_cr at 2. by rewrite decide_True by done.
Qed.

Lemma unix_lines_id s : (forall q r, s <> q ++ [CR; LF] ++ r) -> unix_lines s = s.
Proof.
  induction s as [|c s IH]; intros Hs; [done|].
  assert (unix_lines s = s) as E by (apply IH; intros q r ->; by apply (Hs (c :: q) r)).
  change (unix_lines (c :: s)) with (drop_cr c (unix_lines s)). rewrite E.
  unfold drop_cr. case_decide as Hc; [|done]. destruct Hc as [-> Hl].
  destruct s as [|d s]; [done|]. injection Hl as ->. by destruct (Hs [] s).
Qed.

Lemma unix_lines_clean s q r : unix_lines s <> q ++ [CR; LF] ++ r.
Proof.
  revert q. induction s as [|c s IH]; intros q Hs; [by destruct q|].
  change (unix_lines (c :: s)) with (drop_cr c (unix_lines s)) in Hs. unfold drop_cr in Hs.
  case_decide as Hc; [by apply IH in Hs|]. destruct q as [|d q].
  - injection Hs as -> Hs. apply Hc. by rewrite Hs.
  - injection Hs as -> Hs. by apply IH in Hs.
Qed.

Lemma convert_loop_run fuel s : length s <= fuel -> convert_loop fuel s = Ret (unix_lines s).
Proof.
  revert s. induction fuel as [|fuel IH]; intros s Hf;
    (destruct (find s [CR; LF] 0) as [i|] eqn:E;
     [|cbn [convert_loop]; rewrite E; f_equal; symmetry; by apply unix_lines_id, find_None]).
  - apply find_spec in E as ([r Hr] & _). destruct s; [|simpl in Hf; lia]. by rewrite take_nil in Hr.
  - cbn [convert_loop]. rewrite E. apply find_spec in E as ([r Hr] & Hi & _).
    assert (drop (i + 2) s = r) as Ed.
    { rewrite Hr, drop_app_ge by (rewrite length_take; lia). rewrite length_take.
      by replace (i + 2 - i `min` length s) with 2 by lia. }
    rewrite Ed, IH.
    + f_equal. rewrite Hr at 2. symmetry. apply unix_lines_crlf.
    + rewrite Hr in Hf. rewrite !length_app in *. simpl in *. lia.
Qed.

(** C17: the loop that replaces line ends in a script, each time from the front
    of the text, ends, and gives what one pass from the end gives: the text
    without the carriage returns that stand before a newline; no "\r\n" is
    left in it. *)
Theorem convert_line_endings_one_pass code :
  ConvertLineEndings code = Ret (unix_lines code) /\
  find (unix_lines code) [CR; LF] 0 = None.
Proof.
  split; [by apply convert_loop_run|].
  destruct (find _ _ 0) as [i|] eqn:E; [|done]. apply find_spec in E as ([r Hr] & _).
  by apply unix_lines_clean in Hr.
Qed.

(** ** Blanks *)
Definition blank (c : ascii) : Prop := in_set blanks c = true.

Lemma find_last_at_snoc P s c i found :
  find_last_at P (s ++ [c]) i found = if P c then Some (i + length s) else find_last_at P s i found.
Proof.
  revert i found. induction s as [|d s IH]; intros i found; simpl.
  - rewrite Nat.add_0_r. by destruct (P c).
  - rewrite IH. destruct (P c); [f_equal; lia|done].
Qed.

Lemma find_last_not_of_blank b : Forall blank b -> find_last_not_of b blanks = None.
Proof.
  unfold find_last_not_of. induction b as [|c b IH] using rev_ind; intros Hb; [done|].
  apply Forall_app in Hb as [Hb Hc]. apply Forall_inv in Hc. unfold blank in Hc.
  rewrite find_last_at_snoc, Hc. by apply IH.
Qed.

Lemma find_last_not_of_body s c b :
  ~ blank c -> Forall blank b -> find_last_not_of ((s ++ [c]) ++ b) blanks = Some (length s).
Proof.
  unfold find_last_not_of, blank. intros Hc%not_true_is_false. induction b as [|d b IH] using rev_ind; intros Hb.
  - by rewrite app_nil_r, find_last_at_snoc, Hc.
  - apply Forall_app in Hb as [Hb Hd]. apply Forall_inv in Hd.
    rewrite app_assoc, find_last_at_snoc. unfold blank in Hd. rewrite Hd. by apply IH.
Qed.

(** The blanks at the end. *)
Lemma split_last_blank s :
  Forall blank s \/ exists u c b, s = (u ++ [c]) ++ b /\ ~ blank c /\ Forall blank b.
Proof.
  induction s as [|c s IH] using rev_ind; [by left|].
  destruct (in_set blanks c) eqn:E.
  - destruct IH as [IH|(u & d & b & -> & Hd & Hb)].
    + left. apply Forall_app. split; [done|by constructor].
    + right. exists u, d, (b ++ [c]). split_and!; [by rewrite app_assoc|done|].
      apply Forall_app. split; [done|by constructor].
  - right. exists s, c, []. split_and!; [by rewrite app_nil_r| |constructor].
    unfold blank. by rewrite E.
Qed.

(** The end of [Strip]. *)
Definition strip_end (code : str) : str :=
  let startpos := match find_last_not_of code blanks with Some p => p + 1 | None => 0 end in
  if decide (startpos = length code) then code else take startpos code ++ [LF].

Lemma strip_end_body u c b :
  ~ blank c -> Forall blank b ->
  strip_end ((u ++ [c]) ++ b) = (u ++ [c]) ++ match b with [] => [] | _ => [LF] end.
Proof.
  intros Hc Hb. unfold strip_end. rewrite find_last_not_of_body by done.
  assert (length u + 1 = length (u ++ [c])) as -> by (by rewrite length_app).
  destruct b as [|d b].
  - rewrite decide_True by (by rewrite app_nil_r). done.
  - rewrite decide_False by (rewrite !length_app; simpl; lia). by rewrite take_app_length.
Qed.

Lemma find_first_not_blank s :
  find_first_not_of s blanks (Some 0) =
  match (span (in_set blanks) s).2 with [] => None | _ => Some (length (span (in_set blanks) s).1) end.
Proof. by rewrite find_first_not_of_span, drop_0. Qed.

Lemma Strip_split a r :
  Forall blank a -> match r with [] => False | c :: _ => ~ blank c end -> Strip (a ++ r) = strip_end r.
Proof.
  intros Ha Hr. assert (span (in_set blanks) (a ++ r) = (a, r)) as Es.
  { induction Ha as [|c a Hc Ha IH]; simpl.
    - destruct r as [|c r]; [done|]. simpl. apply not_true_is_false in Hr. by rewrite Hr.
    - unfold blank in Hc. by rewrite Hc, IH. }
  unfold Strip. rewrite find_first_not_blank, Es. destruct r as [|c r]; [done|]. cbn [fst snd].
  by rewrite drop_app_length.
Qed.

(** [Strip] keeps the body of a script, from its first to its last
    character that is not a blank, and ends it with one newline exactly when
    blanks followed it; a text of blanks becomes one newline, the empty text
    stays. *)
Theorem strip_keeps_the_body code :
  (Forall blank code /\ Strip code = match code with [] => [] | _ => [LF] end) \/
  exists a body b, code = a ++ body ++ b /\ Forall blank a /\ Forall blank b /\
    (exists c t, body = c :: t /\ ~ blank c) /\ (exists u c, body = u ++ [c] /\ ~ blank c) /\
    Strip code = body ++ match b with [] => [] | _ => [LF] end.
Proof.
  destruct (split_last_blank code) as [Hb|(u & c & b & -> & Hc & Hb)].
  - left. split; [done|]. unfold Strip. rewrite find_first_not_blank, span_all by done.
    cbn [snd]. rewrite find_last_not_of_blank by done. by destruct code.
  - right. pose proof (span_app (in_set blanks) (u ++ [c])) as Es.
    pose proof (span_Forall (in_set blanks) (u ++ [c])) as Ha.
    destruct (span_snd (in_set blanks) (u ++ [c])) as [E|(d & t & E & Hd)].
    { rewrite E, app_nil_r in Es. rewrite Es in Ha. apply Forall_app in Ha as [_ Ha%Forall_inv].
      by destruct Hc. }
    set (a := (span (in_set blanks) (u ++ [c])).1) in *. rewrite E in Es.
    assert (exists u', d :: t = u' ++ [c]) as [u' Eu].
    { destruct (exists_last (l := d :: t)) as (t' & e & Et); [done|]. exists t'. rewrite Et in *.
      rewrite app_assoc in Es. by apply app_inj_tail in Es as [_ ->]. }
    exists a, (d :: t), b. split_and!.
    + by rewrite <- Es, app_assoc.
    + exact Ha.
    + done.
    + exists d, t. split; [done|]. unfold blank. by rewrite Hd.
    + by exists u', c.
    + rewrite <- Es, <- app_assoc, Strip_split; [|exact Ha|unfold blank; simpl; by rewrite Hd].
      rewrite Eu. by apply strip_end_body.
Qed.
