(* ===== verification/Dispatch.v ===== *)
(** * Dispatch: the virtual tables of all classes, and the knot

    [dispatch] looks at the class of the object and runs the function that
    C++ would find in its virtual table, with the next level of operations
    for the calls inside. [vt n] is the program with calls nested at most [n]
    deep (and loops of at most [n] turns). *)

From S2P Require Import Prelude CppString Double Heap Virtual KObject StaticBound StaticLaws.
From S2P Require Import Accessor Wrappers ArgList Events Blob AsyncJob Script ApiObjects Api JavaScriptCore JavaScript.
From S2P Require Import PythonCore Python PythonEvaluator RubyCore Ruby RubyEvaluator.
From S2P Require Import PhpCore Php PhpClasses PhpEvaluator.
From S2P Require Import BootUtils Application Logger.
From stdpp Require Import options.

Section Dispatch.
Context (W : World) (V : VOps).

Definition class_at (o : loc) : M class := x ← geto o; mret (o_class x).

Definition dispatch_Get (o : loc) (name : str) : M loc :=
  c ← class_at o;
  match c with
  | StaticBoundObject | Blob _ _ | AsyncJob _ | ScriptBinding => StaticBoundObject_Get o name
  | AccessorBoundObject | KEventObject _ | Event _ | APIBinding _ | ApplicationBinding _ _
  | ComponentBinding _ | DependencyBinding _ => AccessorBoundObject_Get V o name
  | EnvironmentBinding => EnvironmentBinding_Get name
  | KObjectWrapper _ | KMethodWrapper _ | KListWrapper _ => Wrapper_Get V o name
  | StaticBoundList _ _ => StaticBoundList_Get o name
  | AccessorBoundList _ _ => AccessorBoundList_Get V o name
  | StaticBoundMethod _ _ => StaticBoundMethod_Get o name
  | AccessorBoundMethod _ _ => AccessorBoundMethod_Get V o name
  | KFunctionPtrMethod _ _ => KFunctionPtrMethod_Get V o name
  | DelegateStaticBoundObject _ _ => Delegate_Get V o name
  | ProfiledBoundObject _ => ProfiledBoundObject_Get V o name
  | ProfiledBoundList _ => ProfiledBoundList_Get V o name
  | ProfiledBoundMethod _ _ => ProfiledBoundMethod_Get V o name
  | ScopeMethodDelegate _ _ _ _ => ScopeMethodDelegate_Get V o name
  | KKJSObject _ _ => KKJSObject_Get W V o name
  | KKJSMethod _ _ _ _ | KKJSList _ _ _ => Kobject_Get V o name
  | KPythonObject _ _ _ => KPythonObject_Get W V o name
  | KPythonDict _ => KPythonDict_Get W V o name
  | KPythonMethod _ _ => Kpython_Get V o name
  | KPythonList _ _ => KPythonList_Get V o name
  | KPythonTuple _ _ => KPythonTuple_Get V o name
  | KRubyObject _ => KRubyObject_Get W V o name
  | KRubyHash _ _ => KRubyHash_Get W V o name
  | KRubyMethod _ _ _ => Kruby_Get V o name
  | KRubyList _ _ => KRubyList_Get V o name
  | KPHPObject _ => KPHPObject_Get W V o name
  | KPHPMethod _ _ _ | KPHPFunction _ _ _ => KPHPMethod_Get o name
  | KPHPList _ => KPHPList_Get W V o name
  | KPHPArrayObject _ => KPHPArrayObject_Get W V o name
  | Foreign n => vGet (foreign W V n) o name
  end.

Definition dispatch_Set (o : loc) (name : str) (value : loc) : M unit :=
  c ← class_at o;
  match c with
  | StaticBoundObject | Blob _ _ | AsyncJob _ | ScriptBinding => StaticBoundObject_Set o name value
  | AccessorBoundObject | KEventObject _ | Event _ | APIBinding _ | ApplicationBinding _ _
  | ComponentBinding _ | DependencyBinding _ => AccessorBoundObject_Set V o name value
  | EnvironmentBinding => EnvironmentBinding_Set name value
  | KObjectWrapper _ | KMethodWrapper _ | KListWrapper _ => Wrapper_Set V o name value
  | StaticBoundList _ _ => StaticBoundList_Set V o name value
  | AccessorBoundList _ _ => AccessorBoundList_Set V o name value
  | StaticBoundMethod _ _ => StaticBoundMethod_Set o name value
  | AccessorBoundMethod _ _ => AccessorBoundMethod_Set V o name value
  | KFunctionPtrMethod _ _ => KFunctionPtrMethod_Set V o name value
  | DelegateStaticBoundObject _ _ => Delegate_Set V o name value
  | ProfiledBoundObject _ => ProfiledBoundObject_Set V o name value
  | ProfiledBoundList _ => ProfiledBoundList_Set V o name value
  | ProfiledBoundMethod _ _ => ProfiledBoundMethod_Set V o name value
  | ScopeMethodDelegate _ _ _ _ => ScopeMethodDelegate_Set V o name value
  | KKJSObject _ _ => KKJSObject_Set W V o name value
  | KKJSMethod _ _ _ _ | KKJSList _ _ _ => Kobject_Set V o name value
  | KPythonObject _ _ _ => KPythonObject_Set W V o name value
  | KPythonDict _ => KPythonDict_Set W V o name value
  | KPythonMethod _ _ => Kpython_Set V o name value
  | KPythonList _ _ => KPythonList_Set V o name value
  | KPythonTuple _ _ => KPythonTuple_Set o name value
  | KRubyObject _ => KRubyObject_Set W V o name value
  | KRubyHash _ _ => KRubyHash_Set W V o name value
  | KRubyMethod _ _ _ => Kruby_Set V o name value
  | KRubyList _ _ => KRubyList_Set V o name value
  | KPHPObject _ => KPHPObject_Set W V o name value
  | KPHPMethod _ _ _ | KPHPFunction _ _ _ => KPHPMethod_Set o name value
  | KPHPList _ => KPHPList_Set W V o name value
  | KPHPArrayObject _ => KPHPArrayObject_Set W V o name value
  | Foreign n => vSet (foreign W V n) o name value
  end.

Definition dispatch_HasProperty (o : loc) (name : str) : M bool :=
  c ← class_at o;
  match c with
  | AccessorBoundObject | KEventObject _ | Event _ | APIBinding _ | ApplicationBinding _ _
  | ComponentBinding _ | DependencyBinding _ => AccessorBoundObject_HasProperty V o name
  | AccessorBoundMethod _ _ => AccessorBoundMethod_HasProperty V o name
  | DelegateStaticBoundObject _ _ => Delegate_HasProperty V o name
  | ProfiledBoundObject _ => ProfiledBoundObject_HasProperty V o name
  | ProfiledBoundList _ => ProfiledBoundList_HasProperty V o name
  | ProfiledBoundMethod _ _ => ProfiledBoundMethod_HasProperty V o name
  | KKJSObject _ _ => KKJSObject_HasProperty W V o name
  | KKJSMethod _ _ _ _ | KKJSList _ _ _ => Kobject_HasProperty V o name
  | Foreign n => vHasProperty (foreign W V n) o name
  | _ => KObject_HasProperty V o name
  end.

Definition dispatch_GetPropertyNames (o : loc) : M names :=
  c ← class_at o;
  match c with
  | StaticBoundObject | Blob _ _ | AsyncJob _ | AccessorBoundObject | KEventObject _ | Event _
  | APIBinding _ | ApplicationBinding _ _ | ComponentBinding _ | DependencyBinding _ | ScriptBinding =>
      StaticBoundObject_GetPropertyNames o
  | EnvironmentBinding => EnvironmentBinding_GetPropertyNames
  | KObjectWrapper _ | KMethodWrapper _ | KListWrapper _ => Wrapper_GetPropertyNames V o
  | StaticBoundList _ _ | AccessorBoundList _ _ => StaticBoundList_GetPropertyNames o
  | StaticBoundMethod _ _ | AccessorBoundMethod _ _ => StaticBoundMethod_GetPropertyNames o
  | KFunctionPtrMethod _ _ => KFunctionPtrMethod_GetPropertyNames V o
  | DelegateStaticBoundObject _ _ => Delegate_GetPropertyNames V o
  | ProfiledBoundObject _ => ProfiledBoundObject_GetPropertyNames V o
  | ProfiledBoundList _ => ProfiledBoundList_GetPropertyNames V o
  | ProfiledBoundMethod _ _ => ProfiledBoundMethod_GetPropertyNames V o
  | ScopeMethodDelegate _ _ _ _ => ScopeMethodDelegate_GetPropertyNames V o
  | KKJSObject _ _ => KKJSObject_GetPropertyNames W V o
  | KKJSMethod _ _ _ _ | KKJSList _ _ _ => Kobject_GetPropertyNames V o
  | KPythonObject _ _ _ => KPythonObject_GetPropertyNames W V o
  | KPythonDict _ => KPythonDict_GetPropertyNames W V o
  | KPythonMethod _ _ => Kpython_GetPropertyNames V o
  | KPythonList _ _ => KPythonList_GetPropertyNames V o
  | KPythonTuple _ _ => KPythonTuple_GetPropertyNames V o
  | KRubyObject _ => KRubyObject_GetPropertyNames W V o
  | KRubyHash _ _ => KRubyHash_GetPropertyNames W V o
  | KRubyMethod _ _ _ => Kruby_GetPropertyNames V o
  | KRubyList _ _ => KRubyList_GetPropertyNames V o
  | KPHPObject _ => KPHPObject_GetPropertyNames W V o
  | KPHPMethod _ _ _ | KPHPFunction _ _ _ => KPHPMethod_GetPropertyNames o
  | KPHPList _ => KPHPList_GetPropertyNames W V o
  | KPHPArrayObject _ => KPHPArrayObject_GetPropertyNames W V o
  | Foreign n => vGetPropertyNames (foreign W V n) o
  end.

Definition dispatch_DisplayString (o : loc) (levels : Z) : M str :=
  c ← class_at o;
  match c with
  | StaticBoundList _ _ | AccessorBoundList _ _ | ProfiledBoundList _ | KKJSList _ _ _
  | KPythonList _ _ | KPythonTuple _ _ | KPHPList _ | KPHPArrayObject _ => KList_DisplayString W V o levels
  | StaticBoundMethod _ _ | AccessorBoundMethod _ _ | KFunctionPtrMethod _ _
  | ProfiledBoundMethod _ _ | ScopeMethodDelegate _ _ _ _ | KKJSMethod _ _ _ _
  | KPythonMethod _ _ => KMethod_DisplayString W o levels
  | ProfiledBoundObject _ => ProfiledBoundObject_DisplayString V o levels
  | EnvironmentBinding => EnvironmentBinding_DisplayString
  | KRubyObject _ => KRubyObject_DisplayString W V o levels
  | KPHPObject _ => KPHPObject_DisplayString W V o levels
  | KPHPMethod _ _ _ => KPHPMethod_DisplayString o levels
  | KPHPFunction _ _ _ => KPHPFunction_DisplayString o levels
  | KRubyHash _ _ | KRubyMethod _ _ _ | KRubyList _ _ => Kruby_DisplayString V o levels
  | KObjectWrapper _ | KMethodWrapper _ | KListWrapper _ => Wrapper_DisplayString V o levels
  | Foreign n => vDisplayString (foreign W V n) o levels
  | _ => KObject_DisplayString W V o levels
  end.

Definition dispatch_Equals (o : loc) (other : option loc) : M bool :=
  c ← class_at o;
  match c with
  | ProfiledBoundObject _ => ProfiledBoundObject_Equals o other
  | KKJSObject _ _ => KKJSObject_Equals W o other
  | KKJSMethod _ _ _ _ | KKJSList _ _ _ => Kobject_Equals V o other
  | KPythonObject _ _ _ => KPythonObject_Equals o other
  | KPythonDict _ => KPythonDict_Equals W V o other
  | KPythonMethod _ _ => KPythonMethod_Equals o other
  | KPythonList _ _ => KPythonList_Equals o other
  | KPythonTuple _ _ => KPythonTuple_Equals o other
  | KRubyObject _ => KRubyObject_Equals o other
  | KRubyHash _ _ => KRubyHash_Equals o other
  | KRubyMethod _ _ _ => KRubyMethod_Equals o other
  | KRubyList _ _ => KRubyList_Equals o other
  | KPHPObject _ => KPHPObject_Equals W o other
  | KPHPMethod _ _ _ => KPHPMethod_Equals W o other
  | KPHPFunction _ _ _ => KPHPFunction_Equals o other
  | KPHPList _ => KPHPList_Equals W o other
  | KPHPArrayObject _ => KPHPArrayObject_Equals o other
  | Foreign n => vEquals (foreign W V n) o other
  | _ => KObject_Equals o other
  end.

Definition dispatch_GetType (o : loc) : M str :=
  c ← class_at o;
  match c with
  | ProfiledBoundMethod _ _ => ProfiledBoundMethod_GetType o
  | Foreign n => vGetType (foreign W V n) o
  | _ => KObject_GetType o
  end.

Definition dispatch_Call (o : loc) (args : list loc) : M loc :=
  c ← class_at o;
  match c with
  | StaticBoundMethod _ _ | AccessorBoundMethod _ _ => StaticBoundMethod_Call V o args
  | KFunctionPtrMethod _ _ => KFunctionPtrMethod_Call W V o args
  | ProfiledBoundMethod _ _ => ProfiledBoundMethod_Call V o args
  | ScopeMethodDelegate _ _ _ _ => ScopeMethodDelegate_Call V o args
  | KMethodWrapper _ => KMethodWrapper_Call V o args
  | KKJSMethod _ _ _ _ => KKJSMethod_Call W V o args
  | KPythonMethod _ _ => KPythonMethod_Call W V o args
  | KRubyMethod _ _ _ => KRubyMethod_Call W V o args
  | KPHPMethod _ _ _ => KPHPMethod_Call W V o args
  | KPHPFunction _ _ _ => KPHPFunction_Call W V o args
  | Foreign n => vCall (foreign W V n) o args
  | _ => undef
  end.

Definition dispatch_Append (o value : loc) : M unit :=
  c ← class_at o;
  match c with
  | StaticBoundList _ _ | AccessorBoundList _ _ => StaticBoundList_Append o value
  | ProfiledBoundList _ => ProfiledBoundList_Append V o value
  | KListWrapper _ => KListWrapper_Append V o value
  | KKJSList _ _ _ => KKJSList_Append V o value
  | KPythonList _ _ => KPythonList_Append W V o value
  | KPythonTuple _ _ => KPythonTuple_Append o value
  | KRubyList _ _ => KRubyList_Append W V o value
  | KPHPList _ => KPHPList_Append W V o value
  | KPHPArrayObject _ => KPHPArrayObject_Append o value
  | Foreign n => vAppend (foreign W V n) o value
  | _ => undef
  end.
Definition dispatch_Size (o : loc) : M Z :=
  c ← class_at o;
  match c with
  | StaticBoundList _ _ | AccessorBoundList _ _ => StaticBoundList_Size o
  | ProfiledBoundList _ => ProfiledBoundList_Size V o
  | KListWrapper _ => KListWrapper_Size V o
  | KKJSList _ _ _ => KKJSList_Size V o
  | KPythonList _ _ => KPythonList_Size W V o
  | KPythonTuple _ _ => KPythonTuple_Size W V o
  | KRubyList _ _ => KRubyList_Size W o
  | KPHPList _ => KPHPList_Size W o
  | KPHPArrayObject _ => KPHPArrayObject_Size o
  | Foreign n => vSize (foreign W V n) o
  | _ => undef
  end.
Definition dispatch_At (o : loc) (index : Z) : M loc :=
  c ← class_at o;
  match c with
  | StaticBoundList _ _ | AccessorBoundList _ _ => StaticBoundList_At o index
  | ProfiledBoundList _ => ProfiledBoundList_At V o index
  | KListWrapper _ => KListWrapper_At V o index
  | KKJSList _ _ _ => KKJSList_At V o index
  | KPythonList _ _ => KPythonList_At W V o index
  | KPythonTuple _ _ => KPythonTuple_At W V o index
  | KRubyList _ _ => KRubyList_At W V o index
  | KPHPList _ => KPHPList_At W o index
  | KPHPArrayObject _ => KPHPArrayObject_At o index
  | Foreign n => vAt (foreign W V n) o index
  | _ => undef
  end.
Definition dispatch_SetAt (o : loc) (index : Z) (value : loc) : M unit :=
  c ← class_at o;
  match c with
  | StaticBoundList _ _ | AccessorBoundList _ _ => StaticBoundList_SetAt o index value
  | ProfiledBoundList _ => ProfiledBoundList_SetAt V o index value
  | KListWrapper _ => KListWrapper_SetAt V o index value
  | KKJSList _ _ _ => KKJSList_SetAt V o index value
  | KPythonList _ _ => KPythonList_SetAt W V o index value
  | KPythonTuple _ _ => KPythonTuple_SetAt o index value
  | KRubyList _ _ => KRubyList_SetAt W V o index value
  | KPHPList _ => KPHPList_SetAt W V o index value
  | KPHPArrayObject _ => KPHPArrayObject_SetAt o index value
  | Foreign n => vSetAt (foreign W V n) o index value
  | _ => undef
  end.
Definition dispatch_Remove (o : loc) (index : Z) : M bool :=
  c ← class_at o;
  match c with
  | StaticBoundList _ _ | AccessorBoundList _ _ => StaticBoundList_Remove V o index
  | ProfiledBoundList _ => ProfiledBoundList_Remove V o index
  | KListWrapper _ => KListWrapper_Remove V o index
  | KKJSList _ _ _ => KKJSList_Remove V o index
  | KPythonList _ _ => KPythonList_Remove W V o index
  | KPythonTuple _ _ => KPythonTuple_Remove o index
  | KRubyList _ _ => KRubyList_Remove W V o index
  | KPHPList _ => KPHPList_Remove W V o index
  | KPHPArrayObject _ => KPHPArrayObject_Remove o index
  | Foreign n => vRemove (foreign W V n) o index
  | _ => undef
  end.

(** [callback->Run(args, result)] *)
Definition run_callback (cb : callback) (args : list loc) (result : loc) : M unit :=
  match cb with
  | Native n => native W V n args result
  | Member o m =>
      match m with
      | KEventObject__AddEventListener => KEventObject_AddEventListener o args result
      | KEventObject__RemoveEventListener => KEventObject_RemoveEventListener V o args
      | Event__GetTarget => Event_GetTarget o result
      | Event__GetType => Event_GetType o result
      | Event__GetTimestamp => Event_GetTimestamp o result
      | Event__StopPropagation => Event_StopPropagation o
      | Event__PreventDefault => Event_PreventDefault o
      | ReadEvent__GetData => ReadEvent_GetData o result
      | AsyncJob__GetProgress => AsyncJob_GetProgress o result
      | AsyncJob__Cancel => AsyncJob_Cancel o
      | AsyncJob__IsComplete => AsyncJob_IsComplete o result
      | Blob__ToString => Blob_ToString o result
      | Blob__Get => Blob_Get o result
      | Blob__IndexOf => Blob_IndexOf o args result
      | Blob__LastIndexOf => Blob_LastIndexOf o args result
      | Blob__CharAt => Blob_CharAt o args result
      | Blob__Split => Blob_Split o args result
      | Blob__Substring => Blob_Substring o args result
      | Blob__Substr => Blob_Substr o args result
      | Blob__ToLowerCase => Blob_ToLowerCase W o result
      | Blob__ToUpperCase => Blob_ToUpperCase W o result
      | Blob__Concat => Blob_Concat V o args result
      | ScriptBinding__AddScriptEvaluator => Script_AddScriptEvaluator V args
      | ScriptBinding__RemoveScriptEvaluator => Script_RemoveScriptEvaluator V args
      | ScriptBinding__CanEvaluate => Script_CanEvaluate V args result
      | ScriptBinding__CanPreprocess => Script_CanPreprocess V args result
      | ScriptBinding__Evaluate => Script_Evaluate V args result
      | ScriptBinding__Preprocess => Script_Preprocess V args result
      | DependencyBinding__GetType => Dependency_GetType o result
      | DependencyBinding__GetName => Dependency_GetName o result
      | DependencyBinding__GetVersion => Dependency_GetVersion o result
      | DependencyBinding__GetRequirement => Dependency_GetRequirement o result
      | ComponentBinding__GetType => Component_GetType o result
      | ComponentBinding__GetName => Component_GetName o result
      | ComponentBinding__GetVersion => Component_GetVersion o result
      | ComponentBinding__GetPath => Component_GetPath o result
      | ComponentBinding__GetManifest => Component_GetManifest V o result
      | ComponentBinding__IsBundled => Component_IsBundled o result
      | ComponentBinding__IsLoaded => Component_IsLoaded o result
      | ApplicationBinding__GetID => App_string a_id o result
      | ApplicationBinding__GetGUID => App_string a_guid o result
      | ApplicationBinding__GetName => App_string a_name o result
      | ApplicationBinding__GetVersion => App_string a_version o result
      | ApplicationBinding__GetPath => App_string a_path o result
      | ApplicationBinding__GetExecutablePath => App_GetExecutablePath o result
      | ApplicationBinding__GetResourcesPath => App_GetResourcesPath o result
      | ApplicationBinding__GetDataPath => App_GetDataPath W o result
      | ApplicationBinding__GetManifestPath => App_string a_manifestPath o result
      | ApplicationBinding__GetManifest => App_GetManifest V o result
      | ApplicationBinding__IsCurrent => App_IsCurrent o result
      | ApplicationBinding__GetPID => App_GetPID W o result
      | ApplicationBinding__GetArguments => App_GetArguments V o result
      | ApplicationBinding__HasArgument => App_HasArgument o args result
      | ApplicationBinding__GetArgumentValue => App_GetArgumentValue o args result
      | ApplicationBinding__GetDependencies => App_GetDependencies V o result
      | ApplicationBinding__ResolveDependencies => App_ResolveDependencies W V o result
      | ApplicationBinding__GetComponents => App_GetComponents V o result
      | ApplicationBinding__GetModules => App_GetModules V o result
      | ApplicationBinding__GetRuntime => App_GetRuntime V o result
      | ApplicationBinding__GetAvailableComponents => App_components W V false UNKNOWN o result
      | ApplicationBinding__GetAvailableModules => App_components W V false MODULE o result
      | ApplicationBinding__GetAvailableRuntimes => App_components W V false RUNTIME o result
      | ApplicationBinding__GetBundledComponents => App_components W V true UNKNOWN o result
      | ApplicationBinding__GetBundledModules => App_components W V true MODULE o result
      | ApplicationBinding__GetBundledRuntimes => App_components W V true RUNTIME o result
      | APIBinding__Set => API_Set V o args
      | APIBinding__Get => API_Get V o args result
      | APIBinding__AddEventListener => API_AddEventListener args result
      | APIBinding__RemoveEventListener => API_RemoveEventListener V args
      | APIBinding__FireEvent => API_FireEvent W V args
      | APIBinding__RunOnMainThread => API_RunOnMainThread V args result
      | APIBinding__RunOnMainThreadAsync => API_RunOnMainThreadAsync V args
      | APIBinding__GetApplication => API_GetApplication V result
      | APIBinding__GetInstalledComponents =>
          API_GetInstalled W V (lit "getInstalledComponents") UNKNOWN args result
      | APIBinding__GetInstalledSDKs => API_GetInstalled W V (lit "getInstalledSDKs") SDK args result
      | APIBinding__GetInstalledMobileSDKs =>
          API_GetInstalled W V (lit "getInstalledMobileSDKs") MOBILESDK args result
      | APIBinding__GetInstalledModules =>
          API_GetInstalled W V (lit "getInstalledModules") MODULE args result
      | APIBinding__GetInstalledRuntimes =>
          API_GetInstalled W V (lit "getInstalledRuntimes") RUNTIME args result
      | APIBinding__GetComponentSearchPaths => API_GetComponentSearchPaths W V result
      | APIBinding__ReadApplicationManifest => API_ReadApplicationManifest V args result
      | APIBinding__CreateDependency => API_CreateDependency V args result
      | APIBinding__InstallDependencies => API_InstallDependencies V o args
      | APIBinding__ComponentGUIDToComponentType => API_ComponentGUIDToComponentType args result
      | APIBinding__GetEnvironment => API_GetEnvironment result
      | APIBinding__CreateKObject => API_CreateKObject args result
      | APIBinding__CreateKMethod => API_CreateKMethod args result
      | APIBinding__CreateKList => API_CreateKList args result
      | APIBinding__CreateBlob => API_CreateBlob V args result
      | APIBinding__Log => API_Log W V o args
      | APIBinding__LogTrace => API_LogAt W V LTRACE o args
      | APIBinding__LogDebug => API_LogAt W V LDEBUG o args
      | APIBinding__LogInfo => API_LogAt W V LINFO o args
      | APIBinding__LogNotice => API_LogAt W V LNOTICE o args
      | APIBinding__LogWarn => API_LogAt W V LWARN o args
      | APIBinding__LogError => API_LogAt W V LERROR o args
      | APIBinding__LogCritical => API_LogAt W V LCRITICAL o args
      | APIBinding__LogFatal => API_LogAt W V LFATAL o args
      | APIBinding__SetLogLevel => API_SetLogLevel V args
      | APIBinding__GetLogLevel => API_GetLogLevel result
      | APIBinding__Print => API_Print W V args
      | PythonEvaluator__CanEvaluate => PythonEvaluator_CanEvaluate args result
      | PythonEvaluator__Evaluate => PythonEvaluator_Evaluate W V args result
      | RubyEvaluator__CanEvaluate => RubyEvaluator_CanEvaluate args result
      | RubyEvaluator__Evaluate => RubyEvaluator_Evaluate W V o args result
      | PHPEvaluator__CanEvaluate => PHPEvaluator_CanEvaluate args result
      | PHPEvaluator__Evaluate => PHPEvaluator_Evaluate W V args result
      | PHPEvaluator__CanPreprocess => PHPEvaluator_CanPreprocess args result
      | PHPEvaluator__Preprocess => PHPEvaluator_Preprocess W V args result
      end
  end.

Definition dispatch : VOps := {|
  vFuel := S (vFuel V);
  vGet := dispatch_Get; vSet := dispatch_Set; vHasProperty := dispatch_HasProperty;
  vGetPropertyNames := dispatch_GetPropertyNames; vDisplayString := dispatch_DisplayString;
  vEquals := dispatch_Equals; vGetType := dispatch_GetType; vCall := dispatch_Call;
  vAppend := dispatch_Append; vSize := dispatch_Size; vAt := dispatch_At; vSetAt := dispatch_SetAt;
  vRemove := dispatch_Remove; vRun := run_callback;
  vJS := js_callback W V;
  vPy := python_slot W V;
  vRb := ruby_slot W V;
  vPhp := php_slot W V
|}.
End Dispatch.

(** The program with calls nested at most [n] deep. *)
Fixpoint vt (W : World) (n : nat) : VOps :=
  match n with
  | O => no_ops
  | S n' => dispatch W (vt W n')
  end.

(** ** The fuel does not matter *)

Lemma dispatch_mono W V1 V2 : world_mono W -> vle V1 V2 -> vle (dispatch W V1) (dispatch W V2).
Proof.
  intros HW HV. pose proof HW as (Hn & Hf & Hfo & Hj & Hp & Hr & Hz). pose proof (Hj V1 V2 HV) as HJ.
  assert (forall (A : Set) (c : pycmd A), approx (py W V1 A c) (py W V2 A c)) as HP by (intros; by apply Hp).
  assert (forall (A : Set) (c : rbcmd A), approx (rb W V1 A c) (rb W V2 A c)) as HR by (intros; by apply Hr).
  assert (forall (A : Set) (c : phpcmd A), approx (php W V1 A c) (php W V2 A c)) as HZ by (intros; by apply Hz).
  assert (forall n, vle (foreign W V1 n) (foreign W V2 n)) as Hfor by (intros; by apply Hfo).
  constructor; intros; simpl.
  - apply le_n_S, le_Fuel. done.
  - unfold dispatch_Get. mono_deep.
  - unfold dispatch_Set. mono_deep.
  - unfold dispatch_HasProperty. mono_deep.
  - unfold dispatch_GetPropertyNames. mono_deep.
  - unfold dispatch_DisplayString. mono_deep.
  - unfold dispatch_Equals. mono_deep.
  - unfold dispatch_GetType. mono_deep.
  - unfold dispatch_Call. mono_deep.
  - unfold dispatch_Append. mono_deep.
  - unfold dispatch_Size. mono_deep.
  - unfold dispatch_At. mono_deep.
  - unfold dispatch_SetAt. mono_deep.
  - unfold dispatch_Remove. mono_deep.
  - unfold run_callback. mono.
  - by apply js_callback_mono.
  - by apply python_slot_mono.
  - by apply ruby_slot_mono.
  - by apply php_slot_mono.
Qed.

Lemma vt_mono W n1 n2 : world_mono W -> n1 <= n2 -> vle (vt W n1) (vt W n2).
Proof.
  intros HW. revert n2. induction n1 as [|n1 IH]; intros n2 Hn; [apply vle_no_ops|].
  destruct n2 as [|n2]; [lia|]. simpl. apply dispatch_mono; [done|]. apply IH. lia.
Qed.
