(* ===== verification/ValueLaws.v ===== *)
(** * ValueLaws: what [Value] promises

    A value that was set from another one shows the same type and text; the
    integer interface is exact for every [int]; equality of strings compares
    their buffers. *)

From S2P Require Import Prelude CppString Double Heap Virtual KObject StaticBound StaticLaws.
From Stdlib Require Import Floats.SpecFloat.
From stdpp Require Import options.

(** A value whose type says what its other fields hold. *)
Definition wf_value (h : heap) (v : value) : Prop :=
  match type v with
  | BOOL => is_Some (boolValue v)
  | STRING => exists s, stringValue v = Some s /\ no_nul s
  | LIST => exists o x, objectValue v = Some o /\ objs h !! o = Some x /\ is_list_class (o_class x) = true
  | METHOD => exists o x, objectValue v = Some o /\ objs h !! o = Some x /\ is_method_class (o_class x) = true
  | OBJECT => is_Some (objectValue v)
  | _ => True
  end.

(** What [SetValue] leaves in a cell that held [w]. *)
Definition copied (v w : value) : value :=
  let r := reset w in
  if IsInt v then set_number INT (double_of_int (ToInt v)) r
  else match type v with
       | INT => set_number INT (double_of_int (ToInt v)) r
       | DOUBLE => set_number DOUBLE (numberValue v) r
       | BOOL => set_bool (default false (boolValue v)) r
       | STRING => set_string (default [] (stringValue v)) r
       | LIST => set_object LIST (objectValue v) r
       | METHOD => set_object METHOD (objectValue v) r
       | OBJECT => set_object OBJECT (objectValue v) r
       | VOIDPTR => set_voidptr (voidPtrValue v) r
       | NULLV => set_type NULLV r
       | UNDEFINED => set_type UNDEFINED r
       end.

Lemma dynamic_cast_run P o x h :
  objs h !! o = Some x -> P (o_class x) = true -> dynamic_cast P (Some o) h = (Ret (Some o), h).
Proof.
  intros Hx HP. unfold dynamic_cast, geto, mbind, st_bind. rewrite Hx. simpl. by rewrite HP.
Qed.

(** [types]: evaluate the tests of the known types. *)
Ltac types :=
  repeat match goal with
  | |- context [bool_decide (@eq vtype ?a ?b)] =>
      let r := eval vm_compute in (bool_decide (@eq vtype a b)) in
      change (bool_decide (@eq vtype a b)) with r
  end; cbn [orb andb negb]; cbv iota.

Lemma SetValue_run h this other v w :
  this <> other -> vals h !! this = Some w -> vals h !! other = Some v -> wf_value h v ->
  SetValue this other h = (Ret tt, with_vals (<[this := copied v w]>) h).
Proof.
  intros Hne Hw Hv Hwf. unfold SetValue. step (getv_run _ _ _ Hv). unfold copied, wf_value in *.
  pose proof (fun g => update_value_run h this w g Hw) as Hset.
  destruct (IsInt v) eqn:EI; [apply Hset|].
  unfold IsDouble, IsBool, IsString, IsList, IsMethod, IsVoidPtr, IsObject, IsNull, IsUndefined.
  destruct (type v) eqn:Ety; types; try apply Hset.
  - unfold IsInt in EI. rewrite Ety in EI. done.
  - unfold ToBool. destruct Hwf as [b ->]. apply Hset.
  - unfold ToString. destruct Hwf as (s & -> & Hs). rewrite decide_False by done.
    simpl default. rewrite <- (c_str_id s) at 2 by done. apply (Hset (fun v => set_string (c_str s) (reset v))).
  - unfold ToList. destruct Hwf as (o & x & -> & Hx & Hc).
    step (dynamic_cast_run _ _ _ _ Hx Hc). apply Hset.
  - unfold ToMethod. destruct Hwf as (o & x & -> & Hx & Hc).
    step (dynamic_cast_run _ _ _ _ Hx Hc). apply Hset.
Qed.

Lemma copied_IsInt h v w : wf_value h v -> IsInt (copied v w) = IsInt v.
Proof.
  intros Hwf. unfold copied. destruct (IsInt v) eqn:EI; [done|].
  unfold wf_value in Hwf. unfold IsInt in *. destruct (type v) eqn:Ety; simpl in *; try done.
  - by destruct Hwf as (? & ? & -> & _).
  - by destruct Hwf as [? ->].
  - by destruct Hwf as (? & ? & -> & _).
Qed.

Lemma copied_ToInt v w : IsInt v = true -> ToInt (copied v w) = ToInt v.
Proof.
  intros EI. unfold copied. rewrite EI. unfold ToInt. simpl.
  apply int_of_double_of_int, int_of_double_range.
Qed.

(** But for an integral double, the type and the fields in use are the same. *)
Lemma copied_type h v w : wf_value h v -> IsInt v = false -> type (copied v w) = type v.
Proof.
  intros Hwf EI. unfold copied. rewrite EI. unfold wf_value in Hwf.
  destruct (type v) eqn:Ety; try done.
  - by destruct Hwf as (? & ? & -> & _).
  - by destruct Hwf as [? ->].
  - by destruct Hwf as (? & ? & -> & _).
Qed.

Section Copy.
Context (h : heap) (this other : loc) (v w : value).
Context (Hne : this <> other) (Hw : vals h !! this = Some w) (Hv : vals h !! other = Some v).
Context (Hwf : wf_value h v).
#[local] Set Default Proof Using "Type*".

Definition h' : heap := with_vals (<[this := copied v w]>) h.

Lemma getv_this : getv this h' = (Ret (copied v w), h').
Proof. apply getv_run. unfold h'. simpl. apply lookup_insert_eq. Qed.
Lemma getv_other : getv other h' = (Ret v, h').
Proof. apply getv_run. unfold h'. simpl. by rewrite lookup_insert_ne. Qed.

Lemma same_display W V levels :
  Value_DisplayString W V this levels h' = Value_DisplayString W V other levels h'.
Proof.
  unfold Value_DisplayString. step getv_this. step getv_other.
  rewrite (copied_IsInt h) by done. destruct (IsInt v) eqn:EI; [by rewrite copied_ToInt|].
  unfold IsDouble, IsBool, IsString, IsList, IsMethod, IsVoidPtr, IsObject, IsNull, IsUndefined.
  rewrite (copied_type h) by done. unfold copied. rewrite EI. unfold wf_value in Hwf.
  destruct (type v) eqn:Ety; types; try done.
  - unfold ToBool. by destruct Hwf as [b ->].
  - unfold ToString. by destruct Hwf as (s & -> & _).
Qed.

Lemma same_GetType V : Value_GetType V this h' = Value_GetType V other h'.
Proof.
  unfold Value_GetType. step getv_this. step getv_other.
  rewrite (copied_IsInt h) by done. destruct (IsInt v) eqn:EI; [done|].
  unfold IsDouble, IsBool, IsString, IsList, IsMethod, IsVoidPtr, IsObject, IsNull, IsUndefined.
  rewrite (copied_type h) by done. unfold copied. rewrite EI.
  destruct (type v) eqn:Ety; types; done.
Qed.

(** Equal to the other value, when [Equals] of an object is reflexive. *)
Lemma same_equals V :
  IsString v = false -> (type v = DOUBLE -> numberValue v <> S754_nan) ->
  (forall o, objectValue v = Some o -> vEquals V o (Some o) h' = (Ret true, h')) ->
  Value_Equals V this other h' = (Ret true, h').
Proof.
  intros Hstr Hnan Hobj. unfold Value_Equals. step getv_this. step getv_other.
  rewrite (copied_IsInt h) by done. destruct (IsInt v) eqn:EI.
  { by rewrite copied_ToInt, Z.eqb_refl. }
  unfold IsDouble, IsBool, IsString, IsList, IsMethod, IsVoidPtr, IsObject, IsNull, IsUndefined in *.
  rewrite (copied_type h) by done. unfold copied. rewrite EI. unfold wf_value in Hwf.
  destruct (type v) eqn:Ety; types; try done.
  - unfold IsInt in EI. by rewrite Ety in EI.
  - unfold ToDouble. cbn [numberValue set_number]. by rewrite double_eqb_refl by auto.
  - unfold ToBool. destruct Hwf as [b ->]. unfold mbind, st_bind. simpl. by destruct b.
  - unfold ToObject. destruct Hwf as (o & x & Ho & _). rewrite Ho. by apply Hobj.
  - unfold ToObject. destruct Hwf as [o Ho]. rewrite Ho. by apply Hobj.
  - unfold ToObject. destruct Hwf as (o & x & Ho & _). rewrite Ho. by apply Hobj.
  - simpl. by rewrite N.eqb_refl.
Qed.
End Copy.

(** [SetValue] copies: on a well-formed value in another cell it succeeds,
    changes that one cell and nothing else, and afterwards the two cells have
    the same type name and the same display text under any virtual
    operations, and are [Equals] (NaN and strings excepted, the latter being
    compared by the address of their buffers, and objects as far as
    their own [Equals] is reflexive). *)
Theorem set_value_copies h this other v w :
  this <> other -> vals h !! this = Some w -> vals h !! other = Some v -> wf_value h v ->
  exists h', SetValue this other h = (Ret tt, h') /\
    objs h' = objs h /\ (forall l, l <> this -> vals h' !! l = vals h !! l) /\
    (forall V, Value_GetType V this h' = Value_GetType V other h') /\
    (forall W V n, Value_DisplayString W V this n h' = Value_DisplayString W V other n h') /\
    (forall V, IsString v = false -> (type v = DOUBLE -> numberValue v <> S754_nan) ->
       (forall o, objectValue v = Some o -> vEquals V o (Some o) h' = (Ret true, h')) ->
       Value_Equals V this other h' = (Ret true, h')).
Proof.
  intros Hne Hw Hv Hwf. exists (h' h this v w). split_and!.
  - by apply SetValue_run.
  - done.
  - intros l Hl. simpl. by apply lookup_insert_ne.
  - intros V. by apply same_GetType.
  - intros W V n. by apply same_display.
  - intros V. by apply same_equals.
Qed.


Definition demo_values : M loc := NewUndefined;; NewDouble (double_of_int 3).

Lemma set_value_copies_witness :
  exists h', SetValue 2%N 3%N (demo_values initial_heap).2 = (Ret tt, h') /\
    vals h' !! 3%N = vals (demo_values initial_heap).2 !! 3%N.
Proof.
  destruct (set_value_copies (demo_values initial_heap).2 2%N 3%N
              (set_number DOUBLE (double_of_int 3) (reset new_value)) new_value)
    as (h' & E & _ & Hvals & _); [lia|reflexivity|reflexivity|exact I|].
  exists h'. split; [exact E|]. apply Hvals. lia.
Defined.

(** ** Integers *)

(** [NewInt] and [NewDouble] agree on the integers: for every C++ [int],
    the value made from it is an [IsInt] number that [ToInt] reads back
    exactly, and the same number stored as a double is an [IsInt] value too,
    reads back as the same integer, and is [Equals] to the first. *)
Theorem int_value_roundtrip z h :
  is_int z ->
  exists i d h',
    (i ← NewInt z; d ← NewDouble (double_of_int z); mret (i, d)) h = (Ret (i, d), h') /\
    (exists v, vals h' !! i = Some v /\ IsInt v = true /\ IsNumber v = true /\ ToInt v = z) /\
    (exists v, vals h' !! d = Some v /\ IsInt v = true /\ IsDouble v = true /\ ToInt v = z) /\
    (forall V, Value_Equals V i d h' = (Ret true, h')).
Proof.
  intros Hz. set (vi := set_number INT (double_of_int z) (reset new_value)).
  set (vd := set_number DOUBLE (double_of_int z) (reset new_value)).
  exists (next h), (N.succ (next h)), (with_fresh vd (with_fresh vi h)).
  assert (IsInt vd = true) as Hint.
  { unfold IsInt. simpl. rewrite is_integral_of_int by done. done. }
  assert (vals (with_fresh vd (with_fresh vi h)) !! next h = Some vi) as E1.
  { simpl. rewrite lookup_insert_ne by lia. apply lookup_insert_eq. }
  assert (vals (with_fresh vd (with_fresh vi h)) !! N.succ (next h) = Some vd) as E2.
  { simpl. apply lookup_insert_eq. }
  split_and!.
  - step (new_with_run (fun v => set_number INT (double_of_int z) (reset v)) h).
    by step (new_with_run (fun v => set_number DOUBLE (double_of_int z) (reset v)) (with_fresh vi h)).
  - exists vi. split_and!; [done..|]. by apply int_of_double_of_int.
  - exists vd. split_and!; [done..|]. by apply int_of_double_of_int.
  - intros V. unfold Value_Equals. step (getv_run _ _ _ E1). step (getv_run _ _ _ E2).
    rewrite Hint. unfold ToInt. simpl. by rewrite Z.eqb_refl.
Qed.

Lemma int_value_roundtrip_witness :
  exists i d h',
    (i ← NewInt (-7); d ← NewDouble (double_of_int (-7)); mret (i, d)) initial_heap = (Ret (i, d), h').
Proof.
  destruct (int_value_roundtrip (-7) initial_heap) as (i & d & h' & E & _);
    [unfold is_int, int_min, int_max; lia|].
  exists i, d, h'. exact E.
Defined.

(** ** Strings *)

(** Two values that hold the same text are not [Equals]: [char*] are compared. *)
Lemma equal_strings_differ V h a b s :
  a <> b -> vals h !! a = Some (set_string s new_value) -> vals h !! b = Some (set_string s new_value) ->
  Value_Equals V a b h = (Ret false, h).
Proof.
  intros Hne Ha Hb. unfold Value_Equals. step (getv_run _ _ _ Ha). step (getv_run _ _ _ Hb).
  simpl. by rewrite bool_decide_eq_false_2.
Qed.
