(* ===== verification/DispatchLaws.v ===== *)
(** * DispatchLaws: the whole program behind its virtual calls

    The depth bound of [vt] does not matter, the dispatch meets the interface
    that the laws of lists and paths ask for, and the display of an object
    ends. *)

From S2P Require Import System.
From S2P Require Import Prelude CppString Double Heap Virtual KObject StaticBound StaticLaws.
From S2P Require Import ValueLaws Namespace Accessor Wrappers Events Dispatch.
From stdpp Require Import options.

(** ** The depth bound *)

(** Two computations never give different answers. *)
Definition agree {A} (m1 m2 : M A) : Prop :=
  forall h, (m1 h).1 <> Fuel -> (m2 h).1 <> Fuel -> m1 h = m2 h.

Lemma approx_agree {A} (m1 m2 : M A) : approx m1 m2 -> agree m1 m2.
Proof. intros H h H1 H2. by destruct (H h). Qed.

Lemma agree_sym {A} (m1 m2 : M A) : agree m1 m2 -> agree m2 m1.
Proof. intros H h H1 H2. symmetry. by apply H. Qed.

Section Depth.
Context (W : World) (HW : world_mono W) (n1 n2 : nat).
#[local] Set Default Proof Using "Type*".

(** One operation, read from the two programs. *)
Lemma depth_agree {A} (op : VOps -> M A) :
  (forall V1 V2, vle V1 V2 -> approx (op V1) (op V2)) -> agree (op (vt W n1)) (op (vt W n2)).
Proof.
  intros Hop. destruct (Nat.le_ge_cases n1 n2).
  - by apply approx_agree, Hop, vt_mono.
  - by apply agree_sym, approx_agree, Hop, vt_mono.
Qed.
End Depth.

(** The program has one meaning: whatever bound on the depth of nested
    calls is taken, every answer of a virtual operation that is not an
    exhausted bound, the resulting heap and exceptions included, is the
    answer for every other bound that suffices (as long as the code of the
    modules calls back only through the operations it is given). *)
Theorem depth_bound_irrelevant W n1 n2 :
  world_mono W ->
  (forall o name, agree (vGet (vt W n1) o name) (vGet (vt W n2) o name)) /\
  (forall o name v, agree (vSet (vt W n1) o name v) (vSet (vt W n2) o name v)) /\
  (forall o args, agree (vCall (vt W n1) o args) (vCall (vt W n2) o args)) /\
  (forall o l, agree (vDisplayString (vt W n1) o l) (vDisplayString (vt W n2) o l)) /\
  (forall o name v, agree (SetNS (vt W n1) o name v) (SetNS (vt W n2) o name v)) /\
  (forall o e, agree (FireEvent W (vt W n1) o e) (FireEvent W (vt W n2) o e)) /\
  agree (main_thread_job_handler W (vt W n1)) (main_thread_job_handler W (vt W n2)).
Proof.
  intros HW. split_and!; intros.
  - apply (depth_agree W HW n1 n2 (fun V => vGet V o name)). intros. by apply le_Get.
  - apply (depth_agree W HW n1 n2 (fun V => vSet V o name v)). intros. by apply le_Set.
  - apply (depth_agree W HW n1 n2 (fun V => vCall V o args)). intros. by apply le_Call.
  - apply (depth_agree W HW n1 n2 (fun V => vDisplayString V o l)). intros. by apply le_DisplayString.
  - apply (depth_agree W HW n1 n2 (fun V => SetNS V o name v)). intros. by apply SetNS_mono.
  - apply (depth_agree W HW n1 n2 (fun V => FireEvent W V o e)). intros. by apply FireEvent_mono.
  - apply (depth_agree W HW n1 n2 (main_thread_job_handler W)). intros.
    by apply main_thread_job_handler_mono.
Qed.

(** A world without modules: a clock that stands still, an empty text for
    every number, native methods that do nothing. *)
Definition quiet_world : World := {|
  show_double _ := []; show_ptr _ := []; now _ := 0%Z;
  poco_toLower s := lower s; poco_toUpper s := map toupper s;
  native _ _ _ _ := mret tt; function_ptr _ _ _ := NewUndefined; foreign _ _ := no_ops;
  jsq := no_queries; js _ := no_js; pyq := no_pyq; py _ := no_py; rbq := no_rbq; rb _ := no_rb;
  phpq := no_phpq; php _ := no_php; poco_URI := no_uri;
  outside := quiet_system
|}.

Lemma quiet_world_mono : world_mono quiet_world.
Proof. split_and!; intros; try reflexivity. apply jle_no_js. Qed.

Lemma depth_bound_irrelevant_witness :
  world_mono quiet_world /\
  agree (vGet (vt quiet_world 3) 2%N (lit "x")) (vGet (vt quiet_world 8) 2%N (lit "x")).
Proof.
  split; [exact quiet_world_mono|].
  exact (proj1 (depth_bound_irrelevant quiet_world 3 8 quiet_world_mono) 2%N (lit "x")).
Defined.

(** ** The concrete classes under the dispatch *)

Lemma class_at_run h o c : class_of h o = Some c -> class_at o h = (Ret c, h).
Proof.
  unfold class_of, class_at, geto, mbind, st_bind. destruct (objs h !! o); naive_solver.
Qed.

#[export] Instance dispatch_static W V : StaticDispatch (dispatch W V).
Proof.
  constructor; intros; simpl;
    unfold dispatch_Get, dispatch_Set, dispatch_At, dispatch_SetAt, dispatch_Append, dispatch_Size, dispatch_GetPropertyNames;
    match goal with H : class_of _ _ = Some _ |- _ => by step (class_at_run _ _ _ H) end.
Qed.

(** ** DisplayString ends *)

(** The classes whose display asks no code of the modules and no other object. *)
Definition shown (c : class) : Prop :=
  match c with
  | StaticBoundObject | Blob _ _ | AsyncJob _ => True
  | KMethodWrapper _ | KRubyMethod _ _ _ | KPHPMethod _ _ _ | KPHPFunction _ _ _ => False
  | _ => is_method_class c = true
  end.

(** A property value that can be displayed: well formed, no list, and what it
    refers to exists. *)
Definition plain_value (h : heap) (v : value) : Prop :=
  wf_value h v /\ type v <> LIST /\
  (type v = OBJECT -> exists o, objectValue v = Some o /\ is_Some (objs h !! o)).

(** Objects of such classes with such properties, in any graph (cycles too). *)
Definition displayable (h : heap) : Prop :=
  fresh_ok h /\
  forall o x, objs h !! o = Some x ->
    shown (o_class x) /\
    forall n l, properties x !! n = Some l -> exists v, vals h !! l = Some v /\ plain_value h v.

(** [h'] is [h] with more values. *)
Definition grows (h h' : heap) : Prop :=
  fresh_ok h' /\ objs h' = objs h /\ (forall l v, vals h !! l = Some v -> vals h' !! l = Some v) /\
  sys h' = sys h.

Lemma grows_refl h : fresh_ok h -> grows h h.
Proof. by intros. Qed.
Lemma grows_trans h1 h2 h3 : grows h1 h2 -> grows h2 h3 -> grows h1 h3.
Proof. intros (_ & E1 & Hv1 & S1) (Hf & E2 & Hv2 & S2). split_and!; [done|congruence|auto|congruence]. Qed.
Lemma grows_fresh v h : fresh_ok h -> grows h (with_fresh v h).
Proof.
  intros Hf. split_and!; [by apply with_fresh_fresh_ok|done| |done]. intros l w. by apply fresh_vals.
Qed.
Lemma grows_next k h : fresh_ok h -> grows h (with_next (next h + k) h).
Proof. intros Hf. split_and!; [|done..]. intros l Hl. apply Hf. simpl in Hl. lia. Qed.

Lemma wf_value_grows h h' v : objs h' = objs h -> wf_value h v -> wf_value h' v.
Proof. unfold wf_value. by intros ->. Qed.

Lemma displayable_grows h h' : grows h h' -> displayable h -> displayable h'.
Proof.
  intros (Hf & E & Hv & _) [_ Hd]. split; [done|]. intros o x. rewrite E. intros Hx.
  destruct (Hd o x Hx) as [Hs Hp]. split; [done|]. intros n l Hl.
  destruct (Hp n l Hl) as (v & Hvl & Hwf & Hty & Hob). exists v. split; [auto|].
  split_and!; [by apply (wf_value_grows h)|done|]. by rewrite E.
Qed.

(** [answers h m P]: from [h], [m] returns a result and only adds values. *)
Definition answers {A} (h : heap) (m : M A) : Prop := exists a h', m h = (Ret a, h') /\ grows h h'.

Lemma answers_bind {A B} h (m : M A) (f : A -> M B) a h' :
  m h = (Ret a, h') -> grows h h' -> answers h' (f a) -> answers h (m ≫= f).
Proof.
  intros E Hg (b & h2 & E2 & Hg2). exists b, h2. rewrite (st_bind_Ret _ _ _ _ _ E).
  split; [done|]. by eapply grows_trans.
Qed.

Lemma answers_st_map {A B} (f : A -> M B) l h :
  fresh_ok h -> (forall a h1, grows h h1 -> answers h1 (f a)) -> answers h (st_map f l).
Proof.
  revert h. induction l as [|a l IH]; intros h Hf Hs; simpl.
  - exists [], h. split; [done|]. by apply grows_refl.
  - destruct (Hs a h (grows_refl h Hf)) as (b & h1 & E & Hg).
    eapply answers_bind; [exact E|exact Hg|].
    destruct (IH h1 (proj1 Hg)) as (bs & h2 & E2 & Hg2).
    { intros a' h2 Hg2. apply Hs. by eapply grows_trans. }
    eapply answers_bind; [exact E2|exact Hg2|]. exists (b :: bs), h2. split; [done|].
    apply grows_refl, Hg2.
Qed.

(** A value displays as soon as the objects it may hold do. *)
Lemma display_value_answers W V l v lv h :
  fresh_ok h -> vals h !! l = Some v -> plain_value h v ->
  (forall o, is_Some (objs h !! o) -> answers h (vDisplayString V o (lv - 1))) ->
  answers h (Value_DisplayString W V l lv).
Proof.
  intros Hf Hl (Hwf & Hty & Hob) Ho. unfold Value_DisplayString, wf_value in *.
  eapply answers_bind; [exact (getv_run _ _ _ Hl)|by apply grows_refl|].
  assert (forall s : str, answers h (mret s)) as Hret.
  { intros s. exists s, h. split; [done|]. by apply grows_refl. }
  destruct (IsInt v); [apply Hret|].
  unfold IsDouble, IsBool, IsString, IsList, IsMethod, IsVoidPtr, IsObject, IsNull, IsUndefined.
  destruct (type v) eqn:Ety; types; try apply Hret; try done.
  - unfold ToBool. destruct Hwf as [b ->]. apply Hret.
  - unfold ToString. destruct Hwf as (s & -> & _). apply Hret.
  - unfold ToObject. destruct (Hob eq_refl) as (o & -> & Hox). by apply Ho.
  - unfold ToMethod. destruct Hwf as (o & x & -> & Hx & Hc).
    eapply answers_bind; [exact (dynamic_cast_run _ _ _ _ Hx Hc)|by apply grows_refl|].
    apply Ho. eauto.
Qed.

Section Display.
Context (W : World).

(** The calls that the display of an object makes, one level down. *)
Lemma shown_Get V h o x n :
  fresh_ok h -> objs h !! o = Some x -> o_class x = StaticBoundObject \/
    (exists b k, o_class x = Blob b k) \/ (exists j, o_class x = AsyncJob j) ->
  vGet (dispatch W V) o n h
    = (Ret (default (next h) (properties x !! n)), with_fresh new_value h) /\
  exists l, vGetPropertyNames (dispatch W V) o h = (Ret l, with_next (next h + N.of_nat (length l)) h).
Proof.
  intros Hf Hx Hc. assert (is_Some (objs h !! o)) as Ho by eauto.
  assert (props h o = properties x) as Hp by (unfold props; by rewrite Hx).
  destruct (GetPropertyNames_run h o Ho) as (l & El & Hl & _).
  assert (class_of h o = Some (o_class x)) as Hcl by (unfold class_of; by rewrite Hx).
  simpl. unfold dispatch_Get, dispatch_GetPropertyNames.
  step (class_at_run _ _ _ Hcl). rewrite <- Hp, <- (Get_run h o n Ho).
  split; [|exists l].
  - by destruct Hc as [->|[(b & k & ->)|[j ->]]].
  - step (class_at_run _ _ _ Hcl). rewrite <- Hl, length_map in El.
    destruct Hc as [->|[(b & k & ->)|[j ->]]]; exact El.
Qed.

Lemma display_object_answers V h o x lv :
  displayable h -> objs h !! o = Some x -> o_class x = StaticBoundObject \/
    (exists b k, o_class x = Blob b k) \/ (exists j, o_class x = AsyncJob j) ->
  (forall h1 o1, grows h h1 -> is_Some (objs h1 !! o1) ->
     answers h1 (vDisplayString (dispatch W V) o1 (lv - 1))) ->
  answers h (KObject_DisplayString W (dispatch W V) o lv).
Proof.
  intros Hd Hx Hc Hrec. pose proof (proj1 Hd) as Hf. unfold KObject_DisplayString.
  destruct (lv =? 0)%Z.
  { eexists _, h. split; [done|]. by apply grows_refl. }
  destruct (proj2 (shown_Get V h o x [] Hf Hx Hc)) as (l & El).
  eapply answers_bind; [exact El|by apply grows_next|].
  destruct (answers_st_map (display_property W (dispatch W V) o lv) l
              (with_next (next h + N.of_nat (length l)) h)) as (ts & h1 & E1 & Hg1).
  { by apply (grows_next _ h). }
  - intros p h1 Hg.
    assert (grows h h1) as Hg1 by (eapply grows_trans; [by apply grows_next|exact Hg]).
    pose proof (displayable_grows _ _ Hg1 Hd) as Hd1. pose proof (proj1 Hd1) as Hf1.
    assert (objs h1 !! o = Some x) as Hx1 by (by rewrite (proj1 (proj2 Hg1))).
    unfold display_property.
    eapply answers_bind; [exact (proj1 (shown_Get V h1 o x _ Hf1 Hx1 Hc))|by apply grows_fresh|].
    set (h2 := with_fresh new_value h1). assert (grows h1 h2) as Hg2 by by apply grows_fresh.
    assert (exists v, vals h2 !! default (next h1) (properties x !! c_str p.2) = Some v /\
                      plain_value h2 v) as (v & Hv & Hpv).
    { destruct (properties x !! c_str p.2) as [l'|] eqn:El'; simpl default.
      - destruct (displayable_grows _ _ Hg2 Hd1) as [_ Hd2].
        destruct (Hd2 o x Hx1) as [_ Hp]. by apply (Hp (c_str p.2)).
      - exists new_value. split; [apply lookup_insert_eq|]. by split_and!. }
    destruct (display_value_answers W (dispatch W V) _ v lv h2 (proj1 Hg2) Hv Hpv)
      as (s & h3 & E3 & Hg3).
    { intros o1 Ho1. apply Hrec; [|done]. by eapply grows_trans. }
    eapply answers_bind; [exact E3|exact Hg3|]. eexists _, h3. split; [done|].
    by apply grows_refl, Hg3.
  - eapply answers_bind; [exact E1|exact Hg1|]. eexists _, h1. split; [done|].
    by apply grows_refl, Hg1.
Qed.
End Display.

Lemma display_method W o lv h :
  fresh_ok h -> answers h (KMethod_DisplayString W o lv).
Proof. intros Hf. eexists _, h. split; [done|]. by apply grows_refl. Qed.

(** C30: the display of an object ends. On a heap of concrete objects and
    methods with well-formed properties (cycles between the objects
    allowed, lists not), [DisplayString(levels)] with [levels >= 0] returns a
    text and only allocates; calls nested [levels + 1] deep are enough. *)
Theorem display_string_ends W fuel h o levels :
  displayable h -> is_Some (objs h !! o) -> (0 <= levels)%Z -> Z.to_nat levels < fuel ->
  exists s h', vDisplayString (vt W fuel) o levels h = (Ret s, h') /\
    objs h' = objs h /\ (forall l v, vals h !! l = Some v -> vals h' !! l = Some v).
Proof.
  intros Hd Ho Hlv Hfuel.
  cut (answers h (vDisplayString (vt W fuel) o levels)).
  { intros (s & h' & E & _ & ? & ? & _). by exists s, h'. }
  revert h o levels Hd Ho Hlv Hfuel. induction fuel as [|fuel IH]; [lia|].
  intros h o levels Hd [x Hx] Hlv Hfuel. pose proof (proj2 Hd o x Hx) as [Hs _].
  pose proof (proj1 Hd) as Hf.
  assert (class_of h o = Some (o_class x)) as Hcl by (unfold class_of; by rewrite Hx).
  simpl. unfold dispatch_DisplayString.
  eapply answers_bind; [exact (class_at_run _ _ _ Hcl)|by apply grows_refl|].
  assert (o_class x = StaticBoundObject \/ (exists b k, o_class x = Blob b k) \/
          (exists j, o_class x = AsyncJob j) -> answers h (KObject_DisplayString W (vt W fuel) o levels)).
  { intros Hc. destruct fuel as [|fuel].
    - assert (levels = 0%Z) as -> by lia. eexists _, h. split; [done|]. by apply grows_refl.
    - destruct (decide (levels = 0%Z)) as [->|Hne].
      + eexists _, h. split; [done|]. by apply grows_refl.
      + eapply display_object_answers; [done|exact Hx|exact Hc|].
        intros h1 o1 Hg Ho1. apply (IH h1 o1); [by eapply displayable_grows|done|lia|lia]. }
  destruct (o_class x) eqn:Ec; try done; try (by apply display_method); naive_solver.
Qed.

(** Two objects that refer to each other. *)
Definition demo_cycle : M unit :=
  a ← default_StaticBoundObject; b ← default_StaticBoundObject;
  va ← NewObject (Some a); vb ← NewObject (Some b);
  StaticBoundObject_Set a (lit "b") vb;; StaticBoundObject_Set b (lit "a") va.
Definition demo_cycle_heap : heap := (demo_cycle initial_heap).2.

(** Checks of a concrete heap. *)
Definition fresh_check (h : heap) : bool :=
  bool_decide (map_Forall (fun l _ => l < next h)%N (objs h)) &&
  bool_decide (map_Forall (fun l _ => l < next h)%N (vals h)).
Definition plain_check (h : heap) (v : value) : bool :=
  match type v with
  | OBJECT => match objectValue v with Some o => bool_decide (is_Some (objs h !! o)) | None => false end
  | INT | DOUBLE | VOIDPTR | NULLV | UNDEFINED => true
  | _ => false
  end.
Definition object_check (h : heap) (x : object) : bool :=
  match o_class x with
  | StaticBoundObject =>
      bool_decide (map_Forall (fun _ l => plain_check h <$> vals h !! l = Some true) (properties x))
  | _ => false
  end.
Definition display_check (h : heap) : bool :=
  fresh_check h && bool_decide (map_Forall (fun _ x => object_check h x = true) (objs h)).

Lemma fresh_check_ok h : fresh_check h = true -> fresh_ok h.
Proof.
  intros [H1%bool_decide_eq_true H2%bool_decide_eq_true]%andb_true_iff l Hl.
  split; apply eq_None_ne_Some_2; intros x Hx; [specialize (H1 l x Hx)|specialize (H2 l x Hx)];
    simpl in *; lia.
Qed.

Lemma plain_check_ok h v : plain_check h v = true -> plain_value h v.
Proof.
  unfold plain_check, plain_value, wf_value. intros H. destruct (type v); try done.
  destruct (objectValue v) as [o|]; [|done]. apply bool_decide_eq_true in H.
  split_and!; [done|done|]. intros _. by exists o.
Qed.

Lemma display_check_ok h : display_check h = true -> displayable h.
Proof.
  intros [H1 H2%bool_decide_eq_true]%andb_true_iff. split; [by apply fresh_check_ok|].
  intros o x Hx. specialize (H2 o x Hx). unfold object_check in H2.
  destruct (o_class x); try done. split; [done|]. apply bool_decide_eq_true in H2.
  intros n l Hl. pose proof (H2 n l Hl) as (v & Hv & Hc)%fmap_Some. exists v.
  split; [done|]. by apply plain_check_ok.
Qed.

Lemma display_string_ends_witness :
  exists s h', vDisplayString (vt quiet_world 4) 2%N 3 demo_cycle_heap = (Ret s, h') /\
    objs h' = objs demo_cycle_heap.
Proof.
  destruct (display_string_ends quiet_world 4 demo_cycle_heap 2%N 3) as (s & h' & E & Ho & _).
  - apply display_check_ok. vm_compute. reflexivity.
  - apply (bool_decide_unpack _). vm_compute. reflexivity.
  - lia.
  - simpl. lia.
  - exists s, h'. split; [exact E|exact Ho].
Defined.

(** ** Lists skip the level that ends the display *)

(** [KList::DisplayString] passes [levels - 1] to the display of its items,
    which takes off another one: a list that contains itself is displayed
    with the levels 3, 1, -1, ... and never ends. *)
Definition self_list (h : heap) : Prop :=
  exists obj n, class_of h 3%N = Some (StaticBoundList obj n) /\ (0 < n)%Z /\
    is_Some (objs h !! obj) /\
    exists l, props h obj !! IntToChars 0 = Some l /\ (l < next h)%N /\
    exists v, vals h !! l = Some v /\ type v = LIST /\ objectValue v = Some 3%N.

Lemma self_list_next h v : self_list h -> self_list (with_fresh v h).
Proof.
  intros (obj & n & Hc & Hn & Ho & l & Hp & Hl & w & Hw & Hty & Hov).
  exists obj, n. split_and!; try done. exists l. split_and!; [done|simpl; lia|].
  exists w. split_and!; try done. simpl. by rewrite lookup_insert_ne by lia.
Qed.

Lemma list_display_diverges W n : forall h levels,
  self_list h -> (levels < 0 \/ Z.odd levels = true)%Z ->
  (vDisplayString (vt W n) 3%N levels h).1 = Fuel.
Proof.
  induction n as [|n IH]; intros h levels Hs Hlv; [done|].
  pose proof Hs as (obj & k & Hc & Hk & Ho & l & Hp & Hl & v & Hv & Hty & Hov).
  simpl. unfold dispatch_DisplayString. step (class_at_run _ _ _ Hc).
  unfold KList_DisplayString. rewrite (proj2 (Z.eqb_neq levels 0)).
  2:{ intros ->. destruct Hlv; [lia|done]. }
  destruct n as [|n]; [done|].
  change (vFuel (vt W (S n))) with (S (vFuel (vt W n))).
  assert (vSize (vt W (S n)) 3%N h = (Ret k, h)) as Esize.
  { simpl. unfold dispatch_Size. step (class_at_run _ _ _ Hc). unfold StaticBoundList_Size.
    by step (list_fields_run _ _ _ _ Hc). }
  assert (vAt (vt W (S n)) 3%N 0 h = (Ret l, with_fresh new_value h)) as Eat.
  { simpl. unfold dispatch_At. step (class_at_run _ _ _ Hc).
    by rewrite (At_run _ _ _ _ _ Hc Ho), Hp. }
  assert ((Value_DisplayString W (vt W (S n)) l (levels - 1) (with_fresh new_value h)).1 = Fuel) as E.
  { pose proof (self_list_next h new_value Hs) as Hs'.
    unfold Value_DisplayString. erewrite st_bind_Ret.
    2:{ apply getv_run. simpl. rewrite lookup_insert_ne by lia. exact Hv. }
    unfold IsInt, IsDouble, IsBool, IsString, IsList. rewrite Hty. types. unfold ToList. rewrite Hov.
    pose proof (class_of_is_Some _ _ _ Hc) as [x Hx].
    assert (is_list_class (o_class x) = true) as Hl'.
    { unfold class_of in Hc. rewrite Hx in Hc. injection Hc as ->. done. }
    step (dynamic_cast_run is_list_class 3%N x (with_fresh new_value h) Hx Hl').
    apply (IH (with_fresh new_value h) (levels - 1 - 1)%Z Hs').
    destruct Hlv as [?|Hodd]; [left; lia|].
    right. replace (levels - 1 - 1)%Z with (levels - 2)%Z by lia. by rewrite Z.odd_sub, Hodd. }
  revert Esize Eat E. generalize (vFuel (vt W n)) (vt W (S n)). intros m V Esize Eat E.
  match goal with |- context [loop ?a ?b ?c] => set (L := loop a b c) end.
  assert ((L h).1 = Fuel) as EL.
  { unfold L. cbn [loop display_item_step]. do 2 (unfold mbind at 1, st_bind at 1).
    
    rewrite Esize. rewrite (proj2 (Z.ltb_lt 0 k) Hk).
    unfold mbind at 1, st_bind at 1. rewrite Eat.
    unfold mbind at 1, st_bind at 1.
    by destruct (Value_DisplayString _ _ _ _ _) as [[] ?]. }
  unfold mbind, st_bind. by destruct (L h) as [[] ?].
Qed.

Definition demo_self : M unit :=
  l ← new_StaticBoundList (lit "StaticBoundList");
  v ← NewList (Some l); StaticBoundList_Append l v.

(** The default display, of three levels, of a list that contains itself. *)
Lemma list_in_itself_display_diverges W n :
  (vDisplayString (vt W n) 3%N 3 (demo_self initial_heap).2).1 = Fuel.
Proof.
  apply list_display_diverges; [|by right].
  exists 2%N, 1%Z. split_and!; [reflexivity|lia|apply (bool_decide_unpack _); reflexivity|].
  exists 4%N. split_and!; [reflexivity|reflexivity|]. eexists. split_and!; reflexivity.
Qed.
