(* ===== verification/EventLaws.v ===== *)
(** * EventLaws: what the events promise

    Listeners are added and removed, an event reaches the callbacks of the
    matching listeners in their order until one of them stops it, and no
    exception of a callback leaves [FireEvent] or the queue of jobs. *)

From S2P Require Import Prelude CppString Double Heap Virtual KObject StaticBound StaticLaws.
From S2P Require Import ValueLaws Namespace Events Dispatch DispatchLaws.
From stdpp Require Import options.

(** ** Exceptions *)

Lemma getv_quiet P l : throws_only P (getv l).
Proof. intros h e h'. unfold getv. by destruct (vals h !! l). Qed.
Lemma geto_quiet P o : throws_only P (geto o).
Proof. intros h e h'. unfold geto. by destruct (objs h !! o). Qed.
Lemma alloc_quiet P : throws_only P alloc.
Proof. by intros ???. Qed.
Lemma some_or_undef_quiet P {A} (o : option A) : throws_only P (some_or_undef o : M A).
Proof. intros h e h'. by destruct o. Qed.
#[export] Hint Resolve getv_quiet geto_quiet alloc_quiet some_or_undef_quiet : quiet.

Lemma putv_quiet P l v : throws_only P (putv l v).
Proof. by intros ???. Qed.
Lemma puto_quiet P l v : throws_only P (puto l v).
Proof. by intros ???. Qed.
Lemma log_line_quiet P a b : throws_only P (log_line a b).
Proof. by intros ???. Qed.
#[export] Hint Resolve putv_quiet puto_quiet log_line_quiet : quiet.
Lemma update_value_quiet P l g : throws_only P (update_value l g).
Proof. unfold update_value. quiet. Qed.
#[export] Hint Resolve update_value_quiet : quiet.
Lemma NewObject_quiet P o : throws_only P (NewObject o).
Proof. unfold NewObject, new_with, NewUndefined, SetObject. quiet. Qed.
Lemma NewString_quiet P s : throws_only P (NewString s).
Proof. unfold NewString, new_with, NewUndefined, SetString. quiet. Qed.
Lemma dynamic_cast_quiet P f o : throws_only P (dynamic_cast f o).
Proof. unfold dynamic_cast. quiet. Qed.
Lemma event_of_quiet P o : throws_only P (event_of o).
Proof. unfold event_of. quiet. Qed.
Lemma get_listener_quiet P l : throws_only P (get_listener l).
Proof. intros h e h'. unfold get_listener. by destruct (listeners h !! l). Qed.
Lemma listeners_of_quiet P l : throws_only P (listeners_of l).
Proof. intros h e h'. unfold listeners_of. by destruct (listenerMap h !! l). Qed.
#[export] Hint Resolve NewObject_quiet NewString_quiet dynamic_cast_quiet event_of_quiet
  get_listener_quiet listeners_of_quiet : quiet.

(** [ValueException]s are the only exceptions that leave a job. *)
Definition is_ValueException (e : exn) : Prop := exists v, e = ValueException v.

Section Exceptions.
Context (W : World) (V : VOps).
Context (Hdisplay : forall P o n, throws_only P (vDisplayString V o n)).
#[local] Set Default Proof Using "Type*".
#[local] Hint Resolve Hdisplay : quiet.

Lemma Value_DisplayString_quiet P l n : throws_only P (Value_DisplayString W V l n).
Proof. unfold Value_DisplayString, ToBool, ToString, ToList, ToMethod. quiet. Qed.
#[local] Hint Resolve Value_DisplayString_quiet : quiet.

Lemma LinuxJob_Execute_quiet P m args : throws_only P (LinuxJob_Execute V m args).
Proof.
  unfold LinuxJob_Execute. apply (throws_only_try_catch (fun _ => True)); [by intros ???|]. quiet.
Qed.
#[local] Hint Resolve LinuxJob_Execute_quiet : quiet.

Lemma Invoke_throws m args : throws_only is_ValueException (InvokeMethodOnMainThread V m args true).
Proof. unfold InvokeMethodOnMainThread. quiet. by eexists. Qed.
#[local] Hint Resolve Invoke_throws : quiet.

Lemma FireEventIfMatches_quiet P l e : throws_only P (FireEventIfMatches W V l e).
Proof.
  unfold FireEventIfMatches. quiet1; [quiet|]. intros x. quiet1; [quiet|]. intros e'. quiet1; [quiet|].
  apply (throws_only_try_catch is_ValueException); [quiet|]. intros ? [[v|] ->]; quiet.
Qed.
#[local] Hint Resolve FireEventIfMatches_quiet : quiet.

Lemma fire_loop_quiet P ls e : throws_only P (fire_loop W V ls e).
Proof. induction ls as [|l ls IH]; simpl; quiet. Qed.
#[local] Hint Resolve fire_loop_quiet : quiet.

Lemma FireEvent_quiet P n this e : throws_only P (FireEvent_fuel W V n this e).
Proof.
  revert this. induction n as [|n IH]; intros this; simpl; [by intros ???|].
  unfold is_root. quiet.
Qed.

Lemma PrintException_quiet P r : throws_only P (PrintException W V r).
Proof. unfold PrintException. quiet. Qed.
#[local] Hint Resolve PrintException_quiet : quiet.

Lemma job_handler_quiet P : throws_only P (main_thread_job_handler W V).
Proof. unfold main_thread_job_handler. quiet. Qed.
End Exceptions.

(** No exception leaves the event system: whatever the callbacks throw
    (C++ exceptions of any type included), [FireEvent] and the handler of the
    queued jobs never end with an exception, as long as the display of an
    object, with which they report the exceptions, throws none; and a
    synchronous call on the main thread ends with a [ValueException] only. *)
Theorem event_exceptions_contained W V :
  (forall P o n, throws_only P (vDisplayString V o n)) ->
  (forall this event, no_throw (FireEvent W V this event)) /\
  no_throw (main_thread_job_handler W V) /\
  (forall m args, throws_only is_ValueException (InvokeMethodOnMainThread V m args true)).
Proof.
  intros Hd. split_and!; intros.
  - by apply FireEvent_quiet.
  - by apply job_handler_quiet.
  - by apply Invoke_throws.
Qed.

(** Callbacks that throw a C string, and displays that answer. *)
Definition with_call (f : loc -> list loc -> M loc) (V : VOps) : VOps := {|
  vFuel := vFuel V; vGet := vGet V; vSet := vSet V; vHasProperty := vHasProperty V;
  vGetPropertyNames := vGetPropertyNames V; vDisplayString _ _ := mret (lit "<object>");
  vEquals := vEquals V; vGetType := vGetType V; vCall := f; vAppend := vAppend V; vSize := vSize V;
  vAt := vAt V; vSetAt := vSetAt V; vRemove := vRemove V; vRun := vRun V; vJS := vJS V;
  vPy := vPy V; vRb := vRb V; vPhp := vPhp V
|}.

Definition throwing (h : nat) : VOps :=
  with_call (fun _ _ => throw (CStringExn (lit "oops"))) (static_ops h).

(** A heap with one root KEventObject (address 2), an event (5) on it and two
    listeners, whose callbacks are the addresses 50 and 51. *)
Definition demo_events : M (Z * Z) :=
  o ← new_object (lit "GlobalObject") (KEventObject true);
  modify (with_listenerMap (<[o := []]>));;
  i ← AddEventListener o (lit "open") 50%N;
  j ← AddEventListenerForAllEvents o 51%N;
  new_object (lit "Event")
    (Event {| e_target := o; e_eventName := lit "open"; e_timestamp := 0; e_stopped := false;
              e_preventedDefault := false; e_data := None |});;
  mret (i, j).
Definition demo_events_heap : heap := (demo_events initial_heap).2.

Lemma event_exceptions_contained_witness :
  (FireEvent quiet_world (throwing 3) 2%N 5%N demo_events_heap).1 = Ret true /\
  no_throw (FireEvent quiet_world (throwing 3) 2%N 5%N).
Proof.
  split; [vm_compute; reflexivity|].
  refine (proj1 (event_exceptions_contained quiet_world (throwing 3) _) 2%N 5%N).
  intros P o n h e h'. discriminate.
Defined.

(** ** Adding and removing listeners *)

Lemma get_listener_run h l x : listeners h !! l = Some x -> get_listener l h = (Ret x, h).
Proof. unfold get_listener. by intros ->. Qed.

Definition has_id (id : Z) (m : gmap loc listener) (l : loc) : Prop := l_id <$> m !! l = Some id.
#[export] Instance has_id_dec id m l : Decision (has_id id m l).
Proof. unfold has_id. apply _. Defined.

Lemma filter_ext_elem {A} (P Q : A -> Prop) `{!forall x, Decision (P x), !forall x, Decision (Q x)} (l : list A) :
  (forall x, x ∈ l -> P x <-> Q x) -> filter P l = filter Q l.
Proof.
  induction l as [|x l IH]; intros Heq; [done|]. rewrite !filter_cons.
  rewrite (decide_ext (P x) (Q x)) by (apply Heq; constructor).
  rewrite IH; [done|]. intros y Hy. apply Heq. by constructor.
Qed.

Lemma filter_all {A} (P : A -> Prop) `{!forall x, Decision (P x)} (l : list A) :
  Forall P l -> filter P l = l.
Proof. induction 1 as [|x l Hx _ IH]; [done|]. rewrite filter_cons_True by done. by rewrite IH. Qed.

(** The listeners with an id: they are deleted, the others stay in order. *)
Lemma remove_loop_id V name id ls : forall h,
  id <> 0%Z -> NoDup ls -> Forall (fun l => is_Some (listeners h !! l)) ls ->
  exists h', remove_loop V name id None ls h
             = (Ret (filter (fun l => ~ has_id id (listeners h) l) ls), h') /\
    listenerMap h' = listenerMap h /\ objs h' = objs h /\ vals h' = vals h /\
    next h' = next h /\ currentId h' = currentId h /\
    (forall l, listeners h' !! l
               = if decide (l ∈ ls /\ has_id id (listeners h) l) then None else listeners h !! l).
Proof.
  induction ls as [|l ls IH]; intros h Hid Hnd Hall.
  { exists h. split_and!; done. }
  apply NoDup_cons in Hnd as [Hl Hnd]. apply Forall_cons in Hall as [[x Hx] Hall].
  cbn [remove_loop]. step (get_listener_run _ _ _ Hx).
  assert (Matches V x name id None h = (Ret (bool_decide (has_id id (listeners h) l)), h)) as EM.
  { unfold Matches. rewrite decide_True by done. rewrite (proj2 (Z.eqb_neq id 0) Hid). simpl.
    unfold mret, st_ret. do 2 f_equal. apply eq_true_iff_eq. rewrite Z.eqb_eq, bool_decide_eq_true.
    unfold has_id. rewrite Hx. simpl. split; [by intros ->|by intros [= ->]]. }
  step EM. rewrite filter_cons. destruct (decide (has_id id (listeners h) l)) as [Hm|Hm].
  - rewrite bool_decide_eq_true_2 by done. rewrite decide_False by tauto.
    set (h1 := with_listeners (delete l) h).
    assert (forall l', l' ∈ ls -> listeners h1 !! l' = listeners h !! l') as Hls.
    { intros l' Hl'. simpl. apply lookup_delete_ne. by intros ->. }
    destruct (IH h1) as (h' & E & Hmap & Ho & Hv & Hn & Hc & Hlk); [done|done| |].
    { rewrite Forall_forall in Hall |- *. intros l' Hl'. rewrite Hls by done. auto. }
    exists h'. split_and!; try done.
    + assert (modify (with_listeners (delete l)) h = (Ret tt, h1)) as Em by done.
      step Em. rewrite E. do 2 f_equal. apply filter_ext_elem.
      intros l' Hl'. unfold has_id. by rewrite Hls.
    + intros l'. rewrite Hlk. destruct (decide (l' = l)) as [->|Hne].
      * rewrite decide_False by (by intros [? _]). rewrite decide_True by (split; [constructor|done]).
        simpl. apply lookup_delete_eq.
      * assert (listeners h1 !! l' = listeners h !! l') as El' by (simpl; by apply lookup_delete_ne).
        assert (has_id id (listeners h1) l' <-> has_id id (listeners h) l') as Hiff
          by (unfold has_id; by rewrite El').
        destruct (decide (l' ∈ ls /\ has_id id (listeners h1) l')) as [Hy|Hn'];
          destruct (decide (l' ∈ l :: ls /\ has_id id (listeners h) l')) as [Hz|Hn2];
          rewrite ?elem_of_cons in *; first [done|tauto|by rewrite El'].
  - rewrite bool_decide_eq_false_2 by done. rewrite decide_True by done.
    destruct (IH h) as (h' & E & Hmap & Ho & Hv & Hn & Hc & Hlk); [done..|].
    exists h'. step E. split_and!; try done. intros l'. rewrite Hlk.
    apply decide_ext. rewrite elem_of_cons. naive_solver.
Qed.

(** The objects of the event system agree with the live listeners: the ids
    are those already given out, and nothing lives at fresh addresses. *)
Definition listeners_ok (h : heap) (this : loc) (ls : list loc) : Prop :=
  listenerMap h !! this = Some ls /\ NoDup ls /\ (0 <= currentId h)%Z /\
  (forall l, (next h <= l)%N -> listeners h !! l = None) /\
  (forall l, l ∈ ls -> exists x, listeners h !! l = Some x /\ (0 < l_id x <= currentId h)%Z).

(** The heap after the listener [x] was added at the address [next h]. *)
Definition with_listener (this : loc) (ls : list loc) (x : listener) (h : heap) : heap :=
  with_listenerMap (<[this := ls ++ [next h]]>)
    (with_listeners (<[next h := x]>) (with_next (N.succ (next h)) (with_currentId (l_id x) h))).

Lemma AddEventListener_run h this ls name callback :
  listenerMap h !! this = Some ls -> (0 <= currentId h)%Z -> (currentId h + 1 < 2 ^ 32)%Z ->
  AddEventListener this name callback h
  = (Ret (currentId h + 1)%Z,
     with_listener this ls {| l_eventName := name; l_callback := callback;
                              l_id := (currentId h + 1)%Z |} h).
Proof.
  intros Hmap Hcur Hid. unfold AddEventListener. set (x := {| l_callback := callback |}).
  assert (new_listener name callback h
          = (Ret (next h, (currentId h + 1)%Z),
             with_listeners (<[next h := x]>) (with_next (N.succ (next h)) (with_currentId (l_id x) h))))
    as E by (unfold new_listener, mbind, st_bind, gets; rewrite wrap32_id by lia; done).
  step E. erewrite st_bind_Ret; [|unfold listeners_of; simpl; rewrite Hmap; done]. done.
Qed.

Section Added.
Context (h : heap) (this : loc) (ls : list loc) (x : listener).
Context (Hok : listeners_ok h this ls) (Hid : l_id x = (currentId h + 1)%Z).
#[local] Set Default Proof Using "Type*".
Let h1 := with_listener this ls x h.

Lemma added_fresh : next h ∉ ls.
Proof.
  destruct Hok as (_ & _ & _ & Hfresh & Hlive). intros Hin.
  destruct (Hlive _ Hin) as (y & Hy & _). by rewrite Hfresh in Hy by lia.
Qed.

Lemma added_lookup l : listeners h1 !! l = if decide (l = next h) then Some x else listeners h !! l.
Proof.
  simpl. case_decide as Hl; [subst; apply lookup_insert_eq|by apply lookup_insert_ne].
Qed.

Lemma added_old l : l ∈ ls -> listeners h1 !! l = listeners h !! l /\ ~ has_id (l_id x) (listeners h1) l.
Proof.
  intros Hl. assert (l <> next h) as Hne by (intros ->; by apply added_fresh).
  unfold has_id. rewrite added_lookup, decide_False by done. split; [done|].
  destruct Hok as (_ & _ & _ & _ & Hlive). destruct (Hlive l Hl) as (y & Hy & Hyid).
  rewrite Hy. intros [= E]. lia.
Qed.

Lemma added_ok : listeners_ok h1 this (ls ++ [next h]).
Proof.
  pose proof added_fresh as Hn. destruct Hok as (Hmap & Hnd & Hcur & Hfresh & Hlive). split_and!.
  - simpl. apply lookup_insert_eq.
  - apply NoDup_app. split_and!; [done|set_solver|apply NoDup_singleton].
  - simpl. lia.
  - intros l Hl. simpl in Hl. rewrite added_lookup, decide_False by lia. apply Hfresh. lia.
  - intros l [Hl| ->%list_elem_of_singleton]%elem_of_app.
    + rewrite (proj1 (added_old l Hl)). destruct (Hlive l Hl) as (y & Hy & ?). exists y.
      split; [done|]. simpl. lia.
    + exists x. rewrite added_lookup, decide_True by done. split; [done|]. simpl. lia.
Qed.

Lemma removed_again V name' :
  exists h2, RemoveEventListener_id V this name' (l_id x) h1 = (Ret tt, h2) /\
    listenerMap h2 = listenerMap h /\ listeners h2 = listeners h /\ objs h2 = objs h /\ vals h2 = vals h.
Proof.
  pose proof added_ok as (Hmap1 & Hnd1 & _ & _ & Hlive1).
  destruct Hok as (Hmap & _ & Hcur & Hfresh & _).
  destruct (remove_loop_id V name' (l_id x) (ls ++ [next h]) h1) as (h' & E & Hm & Ho & Hv & _ & _ & Hlk);
    [lia|done| |].
  { apply Forall_forall. intros l Hl. destruct (Hlive1 l Hl) as (y & Hy & _). by eexists. }
  assert (has_id (l_id x) (listeners h1) (next h)) as Hhas
    by (unfold has_id; by rewrite added_lookup, decide_True).
  rewrite filter_app, filter_cons_False, filter_nil, app_nil_r in E by tauto.
  rewrite filter_all in E by (apply Forall_forall; intros l Hl; by apply added_old).
  exists (with_listenerMap (<[this := ls]>) h'). split_and!; try done.
  - unfold RemoveEventListener_id, RemoveEventListener.
    erewrite st_bind_Ret; [|unfold listeners_of; rewrite Hmap1; done]. cbv beta. by step E.
  - simpl. rewrite Hm. simpl. rewrite insert_insert_eq. by apply insert_id.
  - simpl. apply map_eq. intros l. rewrite Hlk, added_lookup.
    destruct (decide (l = next h)) as [->|Hne].
    + rewrite decide_True by (split; [set_solver|done]). by rewrite Hfresh by lia.
    + rewrite decide_False; [done|].
      intros [[Hl| ->%list_elem_of_singleton]%elem_of_app Hh]; [|done]. by apply (added_old l Hl).
Qed.
End Added.

(** C31: adding and removing are inverse. [AddEventListener] appends one new
    listener with the given name and callback under a new id; and
    [RemoveEventListener] with that id, under whatever event name, removes
    this listener and no other one: the listeners of every object are as
    before. The ids are 32 bits wide, so this holds for the first 2^32 - 1
    listeners of a process. *)
Theorem add_remove_listener V h this ls name name' callback :
  listeners_ok h this ls -> (currentId h + 1 < 2 ^ 32)%Z ->
  exists h1 h2, AddEventListener this name callback h = (Ret (currentId h + 1)%Z, h1) /\
    listenerMap h1 = <[this := ls ++ [next h]]> (listenerMap h) /\
    listeners h1 = <[next h := {| l_eventName := name; l_callback := callback;
                                  l_id := (currentId h + 1)%Z |}]> (listeners h) /\
    listeners_ok h1 this (ls ++ [next h]) /\
    RemoveEventListener_id V this name' (currentId h + 1) h1 = (Ret tt, h2) /\
    listenerMap h2 = listenerMap h /\ listeners h2 = listeners h /\
    objs h2 = objs h /\ vals h2 = vals h.
Proof.
  intros Hok Hid. pose proof Hok as (Hmap & _ & Hcur & _).
  set (x := {| l_eventName := name; l_callback := callback; l_id := (currentId h + 1)%Z |}).
  destruct (removed_again h this ls x Hok eq_refl V name') as (h2 & E & Hrest).
  exists (with_listener this ls x h), h2. split; [by apply AddEventListener_run|].
  split_and!; try done; [by apply added_ok|apply Hrest..].
Qed.

Lemma demo_events_ok : listeners_ok demo_events_heap 2%N [3; 4]%N.
Proof.
  split_and!; [reflexivity| |vm_compute; discriminate| |].
  - apply (bool_decide_unpack _). vm_compute. reflexivity.
  - intros l Hl. change (next demo_events_heap) with 6%N in Hl.
    assert (map_Forall (fun l _ => l < 6)%N (listeners demo_events_heap)) as H
      by (apply (bool_decide_unpack _); vm_compute; reflexivity).
    apply eq_None_ne_Some_2. intros x Hx. specialize (H l x Hx). simpl in H. lia.
  - intros l [->|[->|[]%not_elem_of_nil]%elem_of_cons]%elem_of_cons;
      (eexists; split; [reflexivity|vm_compute; split; [reflexivity|discriminate]]).
Qed.

Lemma add_remove_listener_witness :
  exists h1 h2,
    AddEventListener 2%N (lit "open") 60%N demo_events_heap = (Ret 4%Z, h1) /\
    RemoveEventListener_id no_ops 2%N (lit "close") 4 h1 = (Ret tt, h2) /\
    listenerMap h2 = listenerMap demo_events_heap.
Proof.
  destruct (add_remove_listener no_ops demo_events_heap 2%N [3; 4]%N (lit "open") (lit "close") 60%N
              demo_events_ok) as (h1 & h2 & E1 & _ & _ & _ & E2 & Hm & _);
    [vm_compute; reflexivity|].
  exists h1, h2. split; [exact E1|]. split; [exact E2|exact Hm].
Defined.

(** ** Delivery *)

Lemma set_class_run h o c c' :
  class_of h o = Some c -> set_class o c' h = (Ret tt, with_class o c' h).
Proof.
  unfold class_of. destruct (objs h !! o) as [x|] eqn:Hx; [|done]. intros _.
  unfold set_class, geto, puto, modify, mbind, st_bind. rewrite Hx.
  unfold with_class, with_objs. do 2 f_equal. apply map_eq. intros o'.
  destruct (decide (o' = o)) as [->|].
  - by rewrite lookup_insert_eq, lookup_alter_eq, Hx.
  - by rewrite lookup_insert_ne, lookup_alter_ne.
Qed.

Lemma event_of_run h o e : class_of h o = Some (Event e) -> event_of o h = (Ret e, h).
Proof.
  unfold class_of, event_of, geto, mbind, st_bind.
  destruct (objs h !! o) as [x|]; [|done]. simpl. by intros [= ->].
Qed.

(** A callback of the tests: it may stop the event, and leaves a note. *)
Definition note (m : loc) : str * str := (lit "call", dec m).
Definition noting (event : loc) (stops : loc -> bool) (m : loc) : M loc :=
  (if stops m then Event_StopPropagation event else mret tt);;
  log_line (note m).1 (note m).2;; mret Undefined.
Definition with_noting (event : loc) (stops : loc -> bool) (V : VOps) : VOps :=
  with_call (fun m _ => noting event stops m) V.

(** The callbacks of the listeners that match an event name. *)
Definition callbacks_for (h : heap) (name : str) (ls : list loc) : list loc :=
  omap (fun l => x ← listeners h !! l;
                 if decide (name <> l_eventName x /\ l_eventName x <> ALL) then None
                 else Some (l_callback x)) ls.

Lemma callbacks_for_cons h name l ls x :
  listeners h !! l = Some x ->
  callbacks_for h name (l :: ls)
  = (if decide (name <> l_eventName x /\ l_eventName x <> ALL) then [] else [l_callback x])
    ++ callbacks_for h name ls.
Proof. intros Hx. unfold callbacks_for. simpl. rewrite Hx. simpl. by case_decide. Qed.

(** Those that are reached: up to the first one that stops the event. *)
Fixpoint delivered (stops : loc -> bool) (cbs : list loc) : list loc * bool :=
  match cbs with
  | [] => ([], false)
  | c :: cbs' =>
      if stops c then ([c], true)
      else let '(d, b) := delivered stops cbs' in (c :: d, b)
  end.

Lemma delivered_app stops a b :
  delivered stops (a ++ b)
  = let '(d, s) := delivered stops a in
    if s : bool then (d, true) else let '(d', s') := delivered stops b in (d ++ d', s').
Proof.
  induction a as [|c a IH]; simpl.
  - by destruct (delivered stops b).
  - destruct (stops c); [done|]. rewrite IH. destruct (delivered stops a) as [d []]; [done|].
    by destruct (delivered stops b).
Qed.

Definition flag (e : event_data) (b : bool) : event_data :=
  {| e_target := e_target e; e_eventName := e_eventName e; e_timestamp := e_timestamp e;
     e_stopped := e_stopped e || b; e_preventedDefault := e_preventedDefault e || b;
     e_data := e_data e |}.

Section Fire.
Context (W : World) (V0 : VOps) (event : loc) (stops : loc -> bool) (h : heap) (e : event_data).
Context (He : class_of h event = Some (Event e)) (Hstop : e_stopped e = false).
#[local] Set Default Proof Using "Type*".
Let V := with_noting event stops V0.

(** The heap [h1] during the delivery: the callbacks [d] have run. *)
Record during (b : bool) (d : list loc) (h1 : heap) : Prop := {
  du_listeners : listeners h1 = listeners h;
  du_map : listenerMap h1 = listenerMap h;
  du_root : root h1 = root h;
  du_class o : o <> event -> class_of h1 o = class_of h o;
  du_event : class_of h1 event = Some (Event (flag e b));
  du_output : output h1 = map note (rev d) ++ output h
}.

Lemma noting_run c d h1 :
  during false d h1 ->
  exists h2, noting event stops c h1 = (Ret Undefined, h2) /\ during (stops c) (d ++ [c]) h2.
Proof.
  intros [Hl Hm Hr Hc Hev Ho]. unfold noting. destruct (stops c).
  - set (h2 := with_class event (Event (flag e true)) h1).
    assert (Event_StopPropagation event h1 = (Ret tt, h2)) as E.
    { unfold Event_StopPropagation, set_flags. step (event_of_run _ _ _ Hev).
      rewrite (set_class_run _ _ _ _ Hev). unfold h2, flag. simpl. by rewrite !orb_false_r, !orb_true_r. }
    exists (with_output (cons (note c)) h2). split.
    { by step E. }
    constructor; try done; simpl.
    + intros o Hne. unfold class_of in *. simpl. rewrite lookup_alter_ne by done. by apply Hc.
    + unfold class_of in *. simpl. rewrite lookup_alter_eq.
      by destruct (objs h1 !! event).
    + by rewrite Ho, rev_app_distr.
  - exists (with_output (cons (note c)) h1). split; [done|].
    constructor; try done. simpl. by rewrite Ho, rev_app_distr.
Qed.

Lemma during_fresh b d h1 v : during b d h1 -> during b d (with_fresh v h1).
Proof. intros []. by constructor. Qed.

Lemma fire_listener_run l x d h1 :
  listeners h !! l = Some x -> during false d h1 ->
  exists h2, FireEventIfMatches W V l event h1 = (Ret tt, h2) /\
    if decide (e_eventName e <> l_eventName x /\ l_eventName x <> ALL) then during false d h2
    else during (stops (l_callback x)) (d ++ [l_callback x]) h2.
Proof.
  intros Hx Hd. unfold FireEventIfMatches.
  assert (listeners h1 !! l = Some x) as Hx1 by (by rewrite (du_listeners _ _ _ Hd)).
  step (get_listener_run _ _ _ Hx1). step (event_of_run _ _ _ (du_event _ _ _ Hd)).
  cbn [e_eventName flag]. case_decide; [by exists h1|].
  destruct (noting_run (l_callback x) d (with_fresh (set_object OBJECT (Some event) (reset new_value)) h1))
    as (h2 & E & Hd2); [by apply during_fresh|].
  exists h2. split; [|done]. unfold try_catch. erewrite (st_bind_Ret (NewObject _)) by apply NewObject_run.
  unfold InvokeMethodOnMainThread, LinuxJob_Execute, try_catch, mbind, st_bind. simpl. by rewrite E.
Qed.

Lemma fire_loop_run ls : forall d h1,
  Forall (fun l => is_Some (listeners h !! l)) ls -> during false d h1 ->
  let '(d', b) := delivered stops (callbacks_for h (e_eventName e) ls) in
  exists h2, fire_loop W V ls event h1 = (Ret b, h2) /\ during b (d ++ d') h2.
Proof.
  induction ls as [|l ls IH]; intros d h1 Hall Hd.
  { simpl. exists h1. rewrite app_nil_r. done. }
  apply Forall_cons in Hall as [[x Hx] Hall]. cbn [fire_loop].
  destruct (fire_listener_run l x d h1 Hx Hd) as (h2 & E & Hd2).
  rewrite (callbacks_for_cons _ _ _ _ _ Hx). case_decide as Hmatch; cbn [app].
  - specialize (IH d h2 Hall Hd2).
    destruct (delivered stops (callbacks_for h (e_eventName e) ls)) as [d' b].
    destruct IH as (h3 & E3 & Hd3). exists h3. split; [|done].
    step E. step (event_of_run _ _ _ (du_event _ _ _ Hd2)). simpl. by rewrite Hstop.
  - cbn [delivered]. destruct (stops (l_callback x)) eqn:Es.
    + exists h2. split; [|done]. step E. step (event_of_run _ _ _ (du_event _ _ _ Hd2)). simpl.
      by rewrite orb_true_r.
    + specialize (IH (d ++ [l_callback x]) h2 Hall Hd2).
      destruct (delivered stops (callbacks_for h (e_eventName e) ls)) as [d' b].
      destruct IH as (h3 & E3 & Hd3). exists h3. rewrite <- app_assoc in Hd3. split; [|done].
      step E. step (event_of_run _ _ _ (du_event _ _ _ Hd2)). simpl. by rewrite Hstop.
Qed.

Lemma listeners_of_run h1 o ls : listenerMap h1 !! o = Some ls -> listeners_of o h1 = (Ret ls, h1).
Proof. unfold listeners_of. by intros ->. Qed.

Lemma is_root_run h1 o b : class_of h1 o = Some (KEventObject b) -> is_root o h1 = (Ret b, h1).
Proof.
  unfold class_of, is_root, geto, mbind, st_bind.
  destruct (objs h1 !! o) as [x|]; [|done]. simpl. by intros [= ->].
Qed.

(** One level of [FireEvent], given what the root's level does when it is reached. *)
Lemma fire_level n this ls (b : bool) d h1 :
  listenerMap h !! this = Some ls -> class_of h this = Some (KEventObject b) ->
  Forall (fun l => is_Some (listeners h !! l)) ls -> during false d h1 ->
  let '(d', s) := delivered stops (callbacks_for h (e_eventName e) ls) in
  forall d2 s2,
  (if b || s then (d2, s2) = ([], s)
   else forall h2, during false (d ++ d') h2 ->
     exists r h3, FireEvent_fuel W V n (root h) event h2 = (Ret r, h3) /\ during s2 (d ++ d' ++ d2) h3) ->
  exists h3, FireEvent_fuel W V (S n) this event h1 = (Ret (negb (e_preventedDefault e || s2)), h3) /\
             during s2 (d ++ d' ++ d2) h3.
Proof.
  intros Hls Hc Hall Hd. pose proof (fire_loop_run ls d h1 Hall Hd) as Hloop.
  destruct (delivered stops (callbacks_for h (e_eventName e) ls)) as [d' s].
  destruct Hloop as (h2 & E & Hd2). intros d2 s2 Hroot.
  assert (this <> event) as Hne by (intros ->; congruence).
  assert (listenerMap h1 !! this = Some ls) as Hls1 by (by rewrite (du_map _ _ _ Hd)).
  assert (class_of h2 this = Some (KEventObject b)) as Hc2 by (by rewrite (du_class _ _ _ Hd2)).
  cbn [FireEvent_fuel]. step (listeners_of_run _ _ _ Hls1). step E.
  assert (forall h3, during s2 (d ++ d' ++ d2) h3 ->
            (e0 ← event_of event; mret (negb (e_preventedDefault e0))) h3
            = (Ret (negb (e_preventedDefault e || s2)), h3)) as Hend.
  { intros h3 Hd3. by step (event_of_run _ _ _ (du_event _ _ _ Hd3)). }
  destruct s.
  - rewrite orb_true_r in Hroot. injection Hroot as -> ->. rewrite app_nil_r in *.
    exists h2. split; [by apply Hend|done].
  - unfold mbind at 1, st_bind at 1. step (is_root_run _ _ _ Hc2). destruct b; simpl in Hroot.
    + injection Hroot as -> ->. rewrite app_nil_r in *. exists h2. split; [by apply Hend|done].
    + destruct (Hroot h2 Hd2) as (r & h3 & E3 & Hd3). exists h3.
      unfold mbind at 1, st_bind at 1, gets. rewrite (du_root _ _ _ Hd2).
      unfold mbind at 1, st_bind at 1. rewrite E3. simpl. split; [by apply Hend|done].
Qed.
End Fire.

(** The listeners that [FireEvent] goes through: the object's own ones, then
    those of the root object. *)
Definition audience (h : heap) (this : loc) (ls rls : list loc) : Prop :=
  listenerMap h !! this = Some ls /\ Forall (fun l => is_Some (listeners h !! l)) (ls ++ rls) /\
  (class_of h this = Some (KEventObject true) /\ rls = [] \/
   class_of h this = Some (KEventObject false) /\
   class_of h (root h) = Some (KEventObject true) /\ listenerMap h !! root h = Some rls).

(** C3: an event reaches the callbacks in order. When it is fired on an
    object, the callbacks of its listeners for this event name or for all
    events are called, once each, in the order in which they were added, then
    those of the root object, up to and including the first callback
    that stops the propagation; and the result says whether the default action
    is still wanted. (The callbacks leave a note, may stop the event, and do
    nothing else; one that removes listeners is another matter, see below.) *)
Theorem fire_event_delivery W V h this event e stops ls rls :
  class_of h event = Some (Event e) -> e_stopped e = false -> audience h this ls rls ->
  let '(called, stopped) := delivered stops (callbacks_for h (e_eventName e) (ls ++ rls)) in
  exists h', FireEvent W (with_noting event stops V) this event h
             = (Ret (negb (e_preventedDefault e || stopped)), h') /\
    output h' = map note (rev called) ++ output h /\
    listenerMap h' = listenerMap h /\ listeners h' = listeners h.
Proof.
  intros He Hs (Hls & [Hall Hrall]%Forall_app & Hroot).
  assert (during event h e false [] h) as Hd.
  { constructor; try done. rewrite He. unfold flag. destruct e; simpl in *. by rewrite !orb_false_r. }
  unfold callbacks_for. rewrite omap_app, delivered_app.
  fold (callbacks_for h (e_eventName e) ls) (callbacks_for h (e_eventName e) rls).
  assert (forall d b, (exists h', FireEvent W (with_noting event stops V) this event h
             = (Ret (negb (e_preventedDefault e || b)), h') /\ during event h e b d h') ->
    exists h', FireEvent W (with_noting event stops V) this event h
             = (Ret (negb (e_preventedDefault e || b)), h') /\
      output h' = map note (rev d) ++ output h /\
      listenerMap h' = listenerMap h /\ listeners h' = listeners h) as Hfin.
  { intros d b (h' & E & [Hl Hm _ _ _ Ho]). by exists h'. }
  destruct Hroot as [[Hc ->]|(Hc & Hrc & Hrls)].
  - pose proof (fire_level W V event stops h e He Hs 1 this ls true [] h Hls Hc Hall Hd) as H.
    destruct (delivered stops (callbacks_for h (e_eventName e) ls)) as [d s]. simpl in H.
    specialize (H [] s eq_refl). rewrite app_nil_r in H. apply Hfin in H.
    destruct s; [done|]. simpl. by rewrite app_nil_r.
  - pose proof (fire_level W V event stops h e He Hs 1 this ls false [] h Hls Hc Hall Hd) as H.
    destruct (delivered stops (callbacks_for h (e_eventName e) ls)) as [d s]. simpl orb in H.
    destruct s.
    { specialize (H [] true eq_refl). rewrite app_nil_r in H. by apply Hfin in H. }
    pose proof (fun h2 => fire_level W V event stops h e He Hs 0 (root h) rls true d h2 Hrls Hrc Hrall) as Hr.
    destruct (delivered stops (callbacks_for h (e_eventName e) rls)) as [d' s'].
    apply Hfin, (H d' s'). intros h2 Hd2. destruct (Hr h2 Hd2 [] s' eq_refl) as (h3 & E3 & Hd3).
    rewrite app_nil_r in Hd3. by eexists _, h3.
Qed.

Lemma fire_event_delivery_witness :
  exists h', FireEvent quiet_world (with_noting 5%N (fun c => (c =? 50)%N) (static_ops 3)) 2%N 5%N
               demo_events_heap = (Ret false, h') /\
    output h' = [note 50%N].
Proof.
  destruct (fire_event_delivery quiet_world (static_ops 3) demo_events_heap 2%N 5%N
              {| e_target := 2; e_eventName := lit "open"; e_timestamp := 0; e_stopped := false;
                 e_preventedDefault := false; e_data := None |}
              (fun c => (c =? 50)%N) [3; 4]%N []) as (h' & E & Ho & _);
    [reflexivity|reflexivity| |].
  - split_and!; [reflexivity| |left; split; reflexivity].
    apply (bool_decide_unpack _). vm_compute. reflexivity.
  - exists h'. split; [exact E|exact Ho].
Defined.

(** ** Deviations *)

(** A callback that removes a listener which is still to come: the copy of the
    vector in [FireEvent] holds its pointer, but the listener is deleted. *)
Definition removing : VOps :=
  with_call (fun _ _ => RemoveEventListener_id no_ops 2%N (lit "open") 3;; mret Undefined) no_ops.

Lemma removed_listener_is_used :
  (FireEvent quiet_world removing 2%N 5%N demo_events_heap).1 = Undef.
Proof. vm_compute. reflexivity. Qed.

(** [_GetTimestamp] casts the microseconds to [int] before it divides: the
    result is a number of milliseconds below 2^31 / 1000 in size. *)
Lemma timestamp_truncated h o e r v :
  class_of h o = Some (Event e) -> vals h !! r = Some v ->
  exists z, Event_GetTimestamp o r h
            = (Ret tt, with_vals (<[r := set_number DOUBLE (double_of_int z) (reset v)]>) h) /\
    (- 2147483 <= z <= 2147483)%Z.
Proof.
  intros He Hv. exists (Z.quot (to_signed32 (e_timestamp e)) 1000). split.
  - unfold Event_GetTimestamp. step (event_of_run _ _ _ He).
    apply (update_value_run h r v (fun v => set_number DOUBLE _ (reset v)) Hv).
  - pose proof (to_signed32_range (e_timestamp e)) as [H1 H2]. unfold int_min, int_max in *.
    Z.to_euclidean_division_equations. lia.
Qed.
