(* ===== verification/JobLaws.v ===== *)
(** * JobLaws: what an [AsyncJob] promises

    The progress stays between 0 and 1, and a run of the job ends in one of
    three ways, each with its state and its queued callbacks. *)

From S2P Require Import Prelude CppString Double Heap Virtual KObject StaticBound StaticLaws.
From S2P Require Import ValueLaws Namespace Events AsyncJob Dispatch DispatchLaws EventLaws.
From Stdlib Require Import Floats.SpecFloat.
From stdpp Require Import options.

(** ** Progress *)

Lemma SFltb_leb a b : a <> S754_nan -> b <> S754_nan -> SFleb b a = negb (SFltb a b).
Proof.
  unfold SFltb, SFleb, SFcompare.
  destruct a as [sa|sa| |sa ma ea], b as [sb|sb| |sb mb eb]; try done; try (by destruct sa, sb);
    try (by destruct sa); try (by destruct sb).
  intros _ _. rewrite (Z.compare_antisym eb ea).
  assert (Pos.compare_cont Eq mb ma = CompOpp (Pos.compare_cont Eq ma mb)) as ->
    by apply Pos.compare_antisym.
  destruct sa, sb; try done; destruct (eb ?= ea)%Z, (Pos.compare_cont Eq ma mb); done.
Qed.

Lemma clamp_progress_bounds d :
  d <> S754_nan -> SFleb zero (clamp_progress d) = true /\ SFleb (clamp_progress d) one = true.
Proof.
  intros Hd. unfold clamp_progress. destruct (SFltb d zero) eqn:E0; [done|].
  destruct (SFltb one d) eqn:E1; [done|]. by rewrite !SFltb_leb, E0, E1.
Qed.

Lemma clamp_progress_id d :
  d <> S754_nan -> SFleb zero d = true -> SFleb d one = true -> clamp_progress d = d.
Proof.
  intros Hd. unfold clamp_progress. rewrite !SFltb_leb by done.
  by intros ->%negb_true_iff ->%negb_true_iff.
Qed.

Lemma job_of_run h o j : class_of h o = Some (AsyncJob j) -> job_of o h = (Ret j, h).
Proof.
  unfold class_of, job_of, geto, mbind, st_bind.
  destruct (objs h !! o) as [x|]; [|done]. simpl. by intros [= ->].
Qed.

Lemma update_job_run h o j f :
  class_of h o = Some (AsyncJob j) ->
  update_job o f h = (Ret tt, with_class o (AsyncJob (f j)) h).
Proof.
  intros Hc. unfold update_job. step (job_of_run _ _ _ Hc). by apply (set_class_run _ _ _ _ Hc).
Qed.

Lemma class_updated h o c c' : class_of h o = Some c -> class_of (with_class o c' h) o = Some c'.
Proof. intros Hc. rewrite class_of_with_class by eauto. by rewrite decide_True. Qed.

(** A job (address 2) whose method is at 40, with two callbacks for the end
    and one for errors. *)
Definition demo_job_data : job_data :=
  {| j_job := Some 40%N; j_progress := zero; j_completed := false; j_result := Undefined;
     j_hadError := false; j_cancelled := false; j_sharedThis := Some 2%N;
     j_progressCallbacks := [70]%N; j_completedCallbacks := [50; 51]%N; j_errorCallbacks := [60]%N |}.
Definition demo_job_heap : heap := (new_object (lit "StaticBoundObject") (AsyncJob demo_job_data) initial_heap).2.

(** ** A run of the job *)

(** What is queued for [callbacks]: each with one argument, the job. *)
Definition queued (h : heap) (job : option loc) (callbacks : list loc) (q : list (loc * list loc)) : Prop :=
  Forall2 (fun cb p => p.1 = cb /\ exists a, p.2 = [a] /\ (a < next h)%N /\
             vals h !! a = Some (set_object OBJECT job (reset new_value))) callbacks q.

Lemma DoCallbacks_run V o j cbs : forall h,
  class_of h o = Some (AsyncJob j) ->
  exists h' q, st_fold (fun _ m => DoCallback V o m) tt cbs h = (Ret tt, h') /\
    jobs h' = jobs h ++ q /\ queued h' (j_sharedThis j) cbs q /\
    objs h' = objs h /\ (next h <= next h')%N /\
    (forall l, (l < next h)%N -> vals h' !! l = vals h !! l).
Proof.
  induction cbs as [|cb cbs IH]; intros h Hc.
  { exists h, []. simpl. rewrite app_nil_r. split_and!; try done. constructor. }
  set (v := set_object OBJECT (j_sharedThis j) (reset new_value)).
  set (h1 := with_jobs (fun l => l ++ [(cb, [next h])]) (with_fresh v h)).
  assert (DoCallback V o cb h = (Ret tt, h1)) as E.
  { unfold DoCallback. step (job_of_run _ _ _ Hc). by step (NewObject_run (j_sharedThis j) h). }
  destruct (IH h1 Hc) as (h' & q & E2 & Hj & Hq & Ho & Hn & Hv).
  exists h', ((cb, [next h]) :: q). cbn [st_fold]. split_and!; [by step E| | |done| |].
  - rewrite Hj. simpl. by rewrite <- app_assoc.
  - constructor; [|done]. split; [done|]. exists (next h). simpl in Hn.
    split_and!; [done|lia|]. rewrite Hv by (simpl; lia). simpl. apply lookup_insert_eq.
  - simpl in Hn. lia.
  - intros l Hl. rewrite Hv by (simpl; lia). simpl. apply lookup_insert_ne. lia.
Qed.

(** The state of a job after [Run], with the result [r]. *)
Definition finished (r : loc) (j : job_data) : job_data :=
  {| j_job := j_job j; j_progress := j_progress j;
     j_completed := j_completed j || negb (j_hadError j); j_result := r;
     j_hadError := j_hadError j; j_cancelled := j_cancelled j; j_sharedThis := None;
     j_progressCallbacks := j_progressCallbacks j;
     j_completedCallbacks := j_completedCallbacks j; j_errorCallbacks := j_errorCallbacks j |}.

Definition failed (j : job_data) : job_data :=
  with_state (j_completed j) (j_result j) true (j_cancelled j) (j_sharedThis j) j.

Lemma class_of_objs h h' o : objs h' = objs h -> class_of h' o = class_of h o.
Proof. unfold class_of. by intros ->. Qed.

(** C40: the progress of a job is a number from 0 to 1: after [SetProgress(p)]
    for any [p] but NaN, infinities included, with callbacks or without,
    [GetProgress] answers a number between 0 and 1, which is [p] itself when [p]
    is one. The callbacks for progress are queued, in order, each with the job as
    its argument, when they are asked for. (A NaN is stored as it is.) *)
Theorem set_progress_bounds V h o j p (callbacks : bool) :
  class_of h o = Some (AsyncJob j) -> p <> S754_nan ->
  exists h' d q, SetProgress V o p callbacks h = (Ret tt, h') /\ GetProgress o h' = (Ret d, h') /\
    SFleb zero d = true /\ SFleb d one = true /\
    (SFleb zero p = true -> SFleb p one = true -> d = p) /\
    jobs h' = jobs h ++ q /\
    queued h' (j_sharedThis j) (if callbacks then j_progressCallbacks j else []) q.
Proof.
  intros Hc Hp. set (j' := with_progress (clamp_progress p) j). set (h1 := with_class o (AsyncJob j') h).
  assert (class_of h1 o = Some (AsyncJob j')) as Hc1 by by eapply class_updated.
  assert (exists h' q, SetProgress V o p callbacks h = (Ret tt, h') /\ objs h' = objs h1 /\
    jobs h' = jobs h ++ q /\ queued h' (j_sharedThis j) (if callbacks then j_progressCallbacks j else []) q)
    as (h' & q & E & Ho & Hj & Hq).
  { unfold SetProgress. destruct callbacks.
    - destruct (DoCallbacks_run V o j' (j_progressCallbacks j) h1 Hc1) as (h' & q & E & Hj & Hq & Ho & _).
      exists h', q. split_and!; [|done|done|done].
      step (update_job_run _ _ _ (with_progress (clamp_progress p)) Hc). by step (job_of_run _ _ _ Hc1).
    - exists h1, []. rewrite app_nil_r. split_and!; [|done|done|constructor].
      by step (update_job_run _ _ _ (with_progress (clamp_progress p)) Hc). }
  exists h', (clamp_progress p), q. pose proof (clamp_progress_bounds p Hp) as [H0 H1].
  split_and!; [done| |done|done|by apply clamp_progress_id|done|done].
  unfold GetProgress. rewrite <- (class_of_objs h1 h' o Ho) in Hc1. by step (job_of_run _ _ _ Hc1).
Qed.

Lemma set_progress_bounds_witness :
  exists h' d, SetProgress no_ops 2%N (double_of_int 7) true demo_job_heap = (Ret tt, h') /\
    GetProgress 2%N h' = (Ret d, h') /\ SFleb d one = true.
Proof.
  destruct (set_progress_bounds no_ops demo_job_heap 2%N demo_job_data (double_of_int 7) true)
    as (h' & d & q & E1 & E2 & _ & Hd & _); [reflexivity|discriminate|].
  exists h', d. split; [exact E1|]. split; [exact E2|exact Hd].
Defined.

Section RunJob.
Context (V : VOps) (o : loc).

Lemma Run_after h h1 j1 r :
  class_of h1 o = Some (AsyncJob j1) -> Execute V o h = (Ret r, h1) ->
  exists h' q, Run V o h = (Ret tt, h') /\ class_of h' o = Some (AsyncJob (finished r j1)) /\
    jobs h' = jobs h1 ++ q /\
    queued h' (j_sharedThis j1) (if j_hadError j1 then [] else j_completedCallbacks j1) q /\
    (forall l, (l < next h1)%N -> vals h' !! l = vals h1 !! l).
Proof.
  intros Hc E.
  set (ja := with_state (j_completed j1) r (j_hadError j1) (j_cancelled j1) (j_sharedThis j1) j1).
  set (ha := with_class o (AsyncJob ja) h1).
  assert (class_of ha o = Some (AsyncJob ja)) as Ha by (by eapply class_updated).
  unfold Run. step E. step (update_job_run _ _ _ _ Hc). fold ja ha.
  step (job_of_run _ _ _ Ha). cbn [j_hadError ja with_state]. destruct (j_hadError j1) eqn:He.
  { exists (with_class o (AsyncJob (finished r j1)) ha), [].
    rewrite app_nil_r. split_and!; [|by eapply class_updated|done|constructor|done].
    erewrite st_bind_Ret by done. rewrite (update_job_run _ _ _ _ Ha). do 4 f_equal.
    unfold finished, ja, with_state. simpl. by rewrite He, orb_false_r. }
  set (jb := with_state true r false (j_cancelled j1) (j_sharedThis j1) ja).
  set (hb := with_class o (AsyncJob jb) ha).
  assert (class_of hb o = Some (AsyncJob jb)) as Hb by (by eapply class_updated).
  destruct (DoCallbacks_run V o jb (j_completedCallbacks j1) hb Hb)
    as (hc & q & Ec & Hj & Hq & Ho & _ & Hv).
  assert (class_of hc o = Some (AsyncJob jb)) as Hcc by (by rewrite (class_of_objs hb)).
  exists (with_class o (AsyncJob (finished r j1)) hc), q.
  split_and!; [|by eapply class_updated|done|done|done].
  rewrite st_bind_assoc. step (update_job_run _ _ _ _ Ha).
  change (with_class o _ ha) with hb.
  rewrite st_bind_assoc. step (job_of_run _ _ _ Hb). step Ec.
  rewrite (update_job_run _ _ _ _ Hcc). do 4 f_equal. unfold finished, jb, with_state. simpl.
  by rewrite He, orb_true_r.
Qed.

Lemma Job_Error_run h1 j1 :
  class_of h1 o = Some (AsyncJob j1) ->
  exists h2 q, Job_Error V o h1 = (Ret tt, h2) /\ class_of h2 o = Some (AsyncJob (failed j1)) /\
    jobs h2 = jobs h1 ++ q /\ queued h2 (j_sharedThis j1) (j_errorCallbacks j1) q.
Proof.
  intros Hc. set (h2 := with_class o (AsyncJob (failed j1)) h1).
  assert (class_of h2 o = Some (AsyncJob (failed j1))) as Ha by (by eapply class_updated).
  destruct (DoCallbacks_run V o (failed j1) (j_errorCallbacks j1) h2 Ha)
    as (h3 & q & E & Hj & Hq & Ho & _).
  exists h3, q. split_and!; [|by rewrite (class_of_objs h2)|done|done].
  unfold Job_Error. step (update_job_run _ _ _ _ Hc). fold (failed j1) h2.
  by step (job_of_run _ _ _ Ha).
Qed.

(** C37: the outcomes of a job. [Run] calls the method of the job once, without
    arguments. If it returns a value, the job is completed with this value and
    the callbacks for the end are queued, in order, each with the job as its
    argument (unless an error was already noted). If it throws a
    [ValueException], the job notes the error, its result is Undefined, it is
    not completed, and the callbacks for errors are queued instead.
    Either way the job gives up the reference to itself. Any other exception
    leaves [Run] at once, without callbacks and with the reference kept. *)
Theorem job_run_outcome h j m out h1 j1 :
  class_of h o = Some (AsyncJob j) -> j_job j = Some m ->
  vCall V m [] h = (out, h1) -> class_of h1 o = Some (AsyncJob j1) ->
  match out with
  | Ret r =>
      exists h' q, Run V o h = (Ret tt, h') /\ class_of h' o = Some (AsyncJob (finished r j1)) /\
        jobs h' = jobs h1 ++ q /\
        queued h' (j_sharedThis j1) (if j_hadError j1 then [] else j_completedCallbacks j1) q
  | Throw (ValueException _) =>
      exists h' q, Run V o h = (Ret tt, h') /\
        class_of h' o = Some (AsyncJob (finished Undefined (failed j1))) /\
        jobs h' = jobs h1 ++ q /\ map fst q = j_errorCallbacks j1
  | Throw e => Run V o h = (Throw e, h1)
  | Undef => Run V o h = (Undef, h1)
  | Fuel => Run V o h = (Fuel, h1)
  end.
Proof.
  intros Hc Hj Hcall Hc1.
  assert (Execute V o h = match out with
                          | Throw (ValueException _) => (Job_Error V o;; mret Undefined) h1
                          | _ => (out, h1) end) as E.
  { unfold Execute, try_catch. erewrite (st_bind_Ret (job_of o)) by exact (job_of_run _ _ _ Hc).
    rewrite Hj. erewrite (st_bind_Ret (some_or_undef _)) by done. rewrite Hcall.
    by destruct out as [|[]| |]. }
  destruct out as [r|[v| | | |]| |]; try (unfold Run, mbind, st_bind; by rewrite E).
  - destruct (Run_after h h1 j1 r Hc1 E) as (h' & q & ? & ? & ? & ? & _). by exists h', q.
  - destruct (Job_Error_run h1 j1 Hc1) as (h2 & q & E2 & Hc2 & Hj2 & Hq2).
    assert (Execute V o h = (Ret Undefined, h2)) as E' by (rewrite E; by step E2).
    destruct (Run_after h h2 (failed j1) Undefined Hc2 E') as (h' & q' & Hr & Hc' & Hj' & Hq' & _).
    apply Forall2_nil_inv_l in Hq' as ->. exists h', q. rewrite app_nil_r in Hj'.
    split_and!; [done|done|congruence|].
    unfold queued in Hq2. clear -Hq2. induction Hq2 as [|cb p cbs q [<- _] _ IH]; simpl; congruence.
Qed.
End RunJob.

(** The method of the demo job returns, or throws. *)
Definition job_ops (r : res loc) : VOps := with_call (fun _ _ => lift r) no_ops.

Lemma job_run_outcome_witness :
  (exists h' q, Run (job_ops (Ret Null)) 2%N demo_job_heap = (Ret tt, h') /\
     class_of h' 2%N = Some (AsyncJob (finished Null demo_job_data)) /\
     queued h' (Some 2%N) [50; 51]%N q) /\
  (exists h' q, Run (job_ops (Throw (ValueException None))) 2%N demo_job_heap = (Ret tt, h') /\
     jobs h' = q /\ map fst q = [60]%N).
Proof.
  split.
  - destruct (job_run_outcome (job_ops (Ret Null)) 2%N demo_job_heap demo_job_data 40%N (Ret Null)
                demo_job_heap demo_job_data eq_refl eq_refl eq_refl eq_refl)
      as (h' & q & E & Hc & _ & Hq).
    exists h', q. split; [exact E|]. split; [exact Hc|exact Hq].
  - destruct (job_run_outcome (job_ops (Throw (ValueException None))) 2%N demo_job_heap demo_job_data
                40%N (Throw (ValueException None)) demo_job_heap demo_job_data
                eq_refl eq_refl eq_refl eq_refl) as (h' & q & E & _ & Hj & Hq).
    exists h', q. split; [exact E|]. split; [exact Hj|exact Hq].
Defined.
