(* ===== verification/JobQueueLaws.v ===== *)
(** * JobQueueLaws: the queue of the main thread drains

    [InvokeMethodOnMainThread] without waiting puts a job at the end of the
    queue; the UI loop calls [main_thread_job_handler] again and again, which
    takes the queue and runs its jobs. A job may queue others and may fail. *)

From S2P Require Import Prelude CppString Double Heap Virtual KObject StaticBound StaticLaws Events.
From S2P Require Import Dispatch DispatchLaws EventLaws.
From stdpp Require Import options.

Abbreviation job := (loc * list loc)%type.

(** The note that a job leaves when it runs. *)
Definition job_note (j : job) : str * str :=
  (lit "call", dec j.1 ++ concat (map (fun a => lit "," ++ dec a) j.2)).

(** A method of the tests: it leaves a note, queues the jobs of [spawn]
    through the host, and fails when [fails] says so. *)
Definition working (spawn : job -> list job) (fails : loc -> option str) (V : VOps) (m : loc)
    (args : list loc) : M loc :=
  log_line (job_note (m, args)).1 (job_note (m, args)).2;;
  st_fold (fun _ j => InvokeMethodOnMainThread V j.1 j.2 false;; mret tt) tt (spawn (m, args));;
  match fails m with Some what => throw (StdException what) | None => mret Undefined end.

(** The notes among the lines of the output, earliest first. *)
Definition calls (out : list (str * str)) : list (str * str) :=
  rev (filter (fun l => l.1 = lit "call") out).

(** The handler is called [n] times. *)
Fixpoint turns (W : World) (V : VOps) (n : nat) : M unit :=
  match n with
  | O => mret tt
  | S n' => main_thread_job_handler W V;; turns W V n'
  end.

(** The jobs, those that they queue, and so on: [n] generations. *)
Fixpoint generations (spawn : job -> list job) (n : nat) (l : list job) : list job :=
  match n with
  | O => []
  | S n' => l ++ generations spawn n' (concat (map spawn l))
  end.

Lemma calls_cons l out : calls (l :: out) = calls out ++ (if decide (l.1 = lit "call") then [l] else []).
Proof.
  unfold calls. rewrite filter_cons. case_decide; simpl; [done|]. by rewrite app_nil_r.
Qed.

Section Queue.
Context (W : World) (V0 : VOps) (spawn : job -> list job) (fails : loc -> option str).
Let V := with_call (working spawn fails V0) V0.

(** Between two jobs: [q] is queued and [done] are the notes of what ran. *)
Definition between (h : heap) (q : list job) (done : list (str * str)) : Prop :=
  jobs h = q /\ calls (output h) = done.

Lemma enqueue_run l h :
  exists h', st_fold (fun _ j => InvokeMethodOnMainThread V0 j.1 j.2 false;; mret tt) tt l h = (Ret tt, h') /\
    jobs h' = jobs h ++ l /\ output h' = output h.
Proof.
  revert h. induction l as [|j l IH]; intros h; [exists h; by rewrite app_nil_r|].
  cbn [st_fold]. destruct (IH (with_jobs (fun q => q ++ [j]) h)) as (h' & E & Hq & Ho).
  exists h'. split; [by destruct j; exact E|]. rewrite Hq, Ho. simpl. by rewrite <- app_assoc.
Qed.

(** What a job does, and that its failure is reported. *)
Lemma job_run j h :
  exists h', (r ← LinuxJob_Execute V j.1 j.2; PrintException W V r) h = (Ret tt, h') /\
    jobs h' = jobs h ++ spawn j /\ calls (output h') = calls (output h) ++ [job_note j].
Proof.
  destruct j as [m args]. cbn [fst snd].
  set (h1 := with_output (cons (job_note (m, args))) h).
  assert (log_line (job_note (m, args)).1 (job_note (m, args)).2 h = (Ret tt, h1)) as E1.
  { unfold h1, job_note, log_line, modify. done. }
  destruct (enqueue_run (spawn (m, args)) h1) as (h2 & E2 & Hq2 & Ho2).
  assert (calls (output h2) = calls (output h) ++ [job_note (m, args)]) as Hc2.
  { rewrite Ho2. unfold h1. simpl output. rewrite calls_cons. by rewrite decide_True. }
  assert (vCall V m args h
    = (match fails m with Some what => Throw (StdException what) | None => Ret Undefined end, h2)) as Ecall.
  { unfold V. cbn [vCall with_call]. unfold working. step E1. step E2. by destruct (fails m). }
  destruct (fails m) as [what|].
  - set (h3 := with_fresh (set_string (c_str what) (reset new_value)) h2).
    assert (LinuxJob_Execute V m args h = (Ret (inr (Some (next h2))), h3)) as E.
    { unfold LinuxJob_Execute, try_catch, mbind at 1, st_bind at 1. rewrite Ecall. cbv beta iota.
      by step (new_with_run (fun v => set_string (c_str what) (reset v)) h2). }
    step E. unfold PrintException. erewrite st_bind_Ret by done. unfold Value_DisplayString.
    rewrite st_bind_assoc. step (getv_run h3 (next h2) _ (lookup_insert_eq _ _ _)). cbn.
    eexists. split; [done|]. cbn [jobs output with_output h3 with_fresh]. split; [done|].
    rewrite calls_cons. cbn. by rewrite app_nil_r.
  - exists h2. split; [|done].
    assert (LinuxJob_Execute V m args h = (Ret (inl Undefined), h2)) as E; [|by step E].
    unfold LinuxJob_Execute, try_catch, mbind at 1, st_bind at 1. by rewrite Ecall.
Qed.

Lemma jobs_run l : forall h,
  exists h', st_fold (fun _ '(m, args) => r ← LinuxJob_Execute V m args; PrintException W V r) tt l h
             = (Ret tt, h') /\
    jobs h' = jobs h ++ concat (map spawn l) /\ calls (output h') = calls (output h) ++ map job_note l.
Proof.
  induction l as [|[m args] l IH]; intros h; [exists h; by rewrite !app_nil_r|].
  destruct (job_run (m, args) h) as (h1 & E1 & Hq1 & Ho1). cbn [st_fold].
  destruct (IH h1) as (h2 & E2 & Hq2 & Ho2). exists h2. split.
  - cbn [fst snd] in E1. by step E1.
  - rewrite Hq2, Ho2, Hq1, Ho1. simpl. by rewrite <- !app_assoc.
Qed.

Lemma handler_run h :
  exists h', main_thread_job_handler W V h = (Ret tt, h') /\ jobs h' = concat (map spawn (jobs h)) /\
    calls (output h') = calls (output h) ++ map job_note (jobs h).
Proof.
  destruct (jobs_run (jobs h) (with_jobs (fun _ => []) h)) as (h' & E & Hq & Ho).
  exists h'. split; [exact E|]. by rewrite Hq, Ho.
Qed.

Lemma turns_run n : forall h,
  exists h', turns W V n h = (Ret tt, h') /\
    jobs h' = Nat.iter n (fun l => concat (map spawn l)) (jobs h) /\
    calls (output h') = calls (output h) ++ map job_note (generations spawn n (jobs h)).
Proof.
  induction n as [|n IH]; intros h; [exists h; by rewrite app_nil_r|].
  destruct (handler_run h) as (h1 & E1 & Hq1 & Ho1). destruct (IH h1) as (h2 & E2 & Hq2 & Ho2).
  exists h2. simpl turns. step E1. split; [done|]. split.
  - rewrite Hq2, Hq1. by rewrite Nat.iter_succ_r.
  - rewrite Ho2, Ho1, Hq1. simpl. by rewrite map_app, app_assoc.
Qed.
End Queue.

(** Jobs of rank below [n] have no generation [n]. *)
Lemma generations_end (spawn : job -> list job) (rank : job -> nat) n l :
  (forall j k, k ∈ spawn j -> rank k < rank j) -> Forall (fun j => rank j < n) l ->
  Nat.iter n (fun l => concat (map spawn l)) l = [].
Proof.
  intros Hs. revert l. induction n as [|n IH]; intros l Hl.
  { destruct l as [|j l]; [done|]. apply Forall_cons in Hl as [? _]. lia. }
  rewrite Nat.iter_succ_r. apply IH, Forall_forall. intros k Hk.
  apply list_elem_of_In, in_concat in Hk as (ks & Hks & Hk%list_elem_of_In).
  apply in_map_iff in Hks as (j & <- & Hj%list_elem_of_In).
  pose proof (proj1 (Forall_forall _ _) Hl j Hj). specialize (Hs j k Hk). simpl in *. lia.
Qed.

(** C32: the queue of the main thread drains: when the jobs that a job queues
    have a smaller rank than itself, and the queued ones have ranks below
    [n], then [n] calls of the handler return, whatever jobs fail, and leave
    an empty queue; every job, queued at the start or by another job, has run
    exactly once, those that were queued earlier before those that were
    queued later, and no further call of the handler runs anything. *)
Theorem job_queue_drains W V spawn fails rank n h :
  (forall j k, k ∈ spawn j -> rank k < rank j) -> Forall (fun j => rank j < n) (jobs h) ->
  exists h', turns W (with_call (working spawn fails V) V) n h = (Ret tt, h') /\ jobs h' = [] /\
    calls (output h') = calls (output h) ++ map job_note (generations spawn n (jobs h)) /\
    forall k, generations spawn (n + k) (jobs h) = generations spawn n (jobs h).
Proof.
  intros Hs Hl. destruct (turns_run W V spawn fails n h) as (h' & E & Hq & Ho).
  pose proof (generations_end spawn rank n (jobs h) Hs Hl) as Hend.
  exists h'. split; [done|]. split; [by rewrite Hq|]. split; [done|].
  intros k. clear Hl. revert Hend. generalize (jobs h).
  clear E Hq Ho. induction n as [|n IH]; intros l Hend.
  - simpl in *. subst l. clear. induction k as [|k IHk]; [done|]. simpl. done.
  - rewrite Nat.iter_succ_r in Hend. simpl. f_equal. by apply IH.
Qed.

(** Two jobs are queued; the first one queues two more, of which one fails. *)
Definition demo_spawn (j : job) : list job := if decide (j.1 = 3%N) then [(5, [7]); (6, [])]%N else [].
Definition demo_fails (m : loc) : option str := if decide (m = 5%N) then Some (lit "oops") else None.
Definition demo_queue_heap : heap := with_jobs (fun _ => [(3, []); (4, [8; 9])]%N) initial_heap.

Lemma job_queue_drains_witness :
  exists h', turns quiet_world (with_call (working demo_spawn demo_fails (static_ops 3)) (static_ops 3)) 2
               demo_queue_heap = (Ret tt, h') /\
    jobs h' = [] /\ calls (output h') = map job_note [(3, []); (4, [8; 9]); (5, [7]); (6, [])]%N.
Proof.
  destruct (job_queue_drains quiet_world (static_ops 3) demo_spawn demo_fails
    (fun j => if decide (j.1 = 3%N) then 1 else 0) 2 demo_queue_heap) as (h' & E & Hq & Ho & _).
  - intros [m args] k Hk. unfold demo_spawn in Hk. simpl in *. destruct (decide (m = 3%N)).
    + apply elem_of_cons in Hk as [->|Hk]; [simpl; lia|]. apply list_elem_of_singleton in Hk as ->. simpl. lia.
    + by apply not_elem_of_nil in Hk.
  - repeat constructor; simpl; lia.
  - exists h'. exact (conj E (conj Hq Ho)).
Defined.
