(* ===== verification/WrapperLaws.v ===== *)
(** * WrapperLaws: what the wrapping objects promise

    Profiling wrappers come off again, a delegate overlays two objects, and
    an accessor object finds its getters and setters whatever their case. *)

From S2P Require Import Prelude CppString Double Heap Virtual KObject StaticBound StaticLaws.
From S2P Require Import ValueLaws Namespace Accessor Wrappers Dispatch DispatchLaws.
From stdpp Require Import options.

(** ** Profiling wrappers *)

(** A value that holds an object, [d], which is no wrapper itself. *)
Record wrappable (h : heap) (v : value) (d : loc) : Prop := {
  wr_wf : wf_value h v;
  wr_type : type v = METHOD \/ type v = LIST \/ type v = OBJECT;
  wr_object : objectValue v = Some d;
  wr_class : exists c, class_of h d = Some c /\ is_ProfiledBoundObject c = false
}.

(** The class of the wrapper. *)
Definition wrapper_class (t : vtype) (d : loc) (ty : str) : class :=
  match t with
  | METHOD => ProfiledBoundMethod d ty
  | LIST => ProfiledBoundList d
  | _ => ProfiledBoundObject d
  end.
Definition wrapper_type (t : vtype) (s : str) : str :=
  match t with METHOD => lit "KMethod" | LIST => lit "KList" | _ => s end.

Definition wrapped_heap (t : vtype) (d : loc) (ty s : str) (h : heap) : heap :=
  with_fresh (set_object t (Some (next h)) (reset new_value))
    (with_object (wrapper_type t s) (wrapper_class t d ty) h).

Lemma cast_run P h o c :
  class_of h o = Some c -> dynamic_cast P (Some o) h = (Ret (if P c then Some o else None), h).
Proof.
  unfold class_of, dynamic_cast, geto, mbind, st_bind. destruct (objs h !! o); [|done].
  simpl. by intros [= ->].
Qed.

Lemma AlreadyWrapped_run h l v d c :
  vals h !! l = Some v -> objectValue v = Some d -> class_of h d = Some c -> wf_value h v ->
  type v = METHOD \/ type v = LIST \/ type v = OBJECT ->
  AlreadyWrapped l h
  = (Ret (match type v with
          | METHOD => is_ProfiledBoundMethod c
          | LIST => is_ProfiledBoundList c
          | _ => is_ProfiledBoundObject c
          end), h).
Proof.
  intros Hl Hd Hc Hwf Hty. unfold AlreadyWrapped. step (getv_run _ _ _ Hl).
  unfold IsMethod, IsList, IsObject, wf_value in *.
  destruct (type v) eqn:Ety; try (exfalso; naive_solver); types.
  - unfold ToList. destruct Hwf as (o & x & Ho & Hx & Hc'). rewrite Ho in Hd. injection Hd as ->.
    rewrite Ho. step (dynamic_cast_run _ _ _ _ Hx Hc'). step (cast_run is_ProfiledBoundList _ _ _ Hc).
    by destruct (is_ProfiledBoundList c).
  - unfold ToObject. rewrite Hd. step (cast_run is_ProfiledBoundObject _ _ _ Hc).
    by destruct (is_ProfiledBoundObject c).
  - unfold ToMethod. destruct Hwf as (o & x & Ho & Hx & Hc'). rewrite Ho in Hd. injection Hd as ->.
    rewrite Ho. step (dynamic_cast_run _ _ _ _ Hx Hc'). step (cast_run is_ProfiledBoundMethod _ _ _ Hc).
    by destruct (is_ProfiledBoundMethod c).
Qed.

Lemma new_object_value_run t o h :
  new_with (fun l => update_value l (fun v => set_object t o (reset v))) h
  = (Ret (next h), with_fresh (set_object t o (reset new_value)) h).
Proof. apply (new_with_run (fun v => set_object t o (reset v))). Qed.

Lemma Wrap_run V h l v d ty s :
  vals h !! l = Some v -> wrappable h v d -> vGetType V d h = (Ret s, h) ->
  Wrap V l ty h = (Ret (N.succ (next h)), wrapped_heap (type v) d ty s h).
Proof.
  intros Hl [Hwf Hty Hd (c & Hc & Hp)] Hs. unfold Wrap.
  assert (AlreadyWrapped l h = (Ret false, h)) as EA.
  { rewrite (AlreadyWrapped_run h l v d c) by done. do 2 f_equal.
    destruct Hty as [->|[->| ->]]; by destruct c. }
  step EA. step (getv_run _ _ _ Hl). unfold wrapped_heap, IsMethod, IsList, IsObject, wf_value in *.
  destruct (type v) eqn:Ety; try (exfalso; naive_solver); types.
  - unfold ToList. destruct Hwf as (o & x & Ho & Hx & Hc'). rewrite Ho in Hd. injection Hd as ->.
    rewrite Ho. step (dynamic_cast_run _ _ _ _ Hx Hc'). erewrite st_bind_Ret by done.
    unfold new_ProfiledBoundList. rewrite st_bind_assoc. step Hs.
    step (new_object_run _ _ _). apply new_object_value_run.
  - unfold ToObject. rewrite Hd. erewrite st_bind_Ret by done.
    unfold new_ProfiledBoundObject. rewrite st_bind_assoc. step Hs.
    step (new_object_run _ _ _). apply new_object_value_run.
  - unfold ToMethod. destruct Hwf as (o & x & Ho & Hx & Hc'). rewrite Ho in Hd. injection Hd as ->.
    rewrite Ho. step (dynamic_cast_run _ _ _ _ Hx Hc'). erewrite st_bind_Ret by done.
    unfold new_ProfiledBoundMethod. rewrite st_bind_assoc. step Hs.
    step (new_object_run _ _ _). apply new_object_value_run.
Qed.

(** Profiling is transparent to values. Wrapping a value that holds an
    object, a method or a list gives a new value of the same type that holds a
    profiling wrapper; wrapping it a second time does nothing; and [Unwrap],
    while profiling is on, puts the original object back, leaving the value as if
    it had been made from it. *)
Theorem wrap_unwrap V h l v d ty s :
  vals h !! l = Some v -> wrappable h v d -> vGetType V d h = (Ret s, h) ->
  profiling h = true -> fresh_ok h ->
  exists w h1, Wrap V l ty h = (Ret w, h1) /\
    (exists o, vals h1 !! w = Some (set_object (type v) (Some o) (reset new_value)) /\ o <> d /\
       class_of h1 o = Some (wrapper_class (type v) d ty)) /\
    (forall ty', Wrap V w ty' h1 = (Ret w, h1)) /\
    (exists h2, Value_Unwrap w h1 = (Ret tt, h2) /\ objs h2 = objs h1 /\
       vals h2 !! w = Some (set_object (type v) (Some d) (reset new_value)) /\
       forall l', l' <> w -> vals h2 !! l' = vals h1 !! l').
Proof.
  intros Hl Hw Hs Hprof Hf. pose proof (Wrap_run V h l v d ty s Hl Hw Hs) as E.
  destruct Hw as [Hwf Hty Hd (c & Hc & Hp)].
  set (h1 := wrapped_heap (type v) d ty s h) in *. set (w := N.succ (next h)) in *.
  assert (vals h1 !! w = Some (set_object (type v) (Some (next h)) (reset new_value))) as Hv1
    by apply lookup_insert_eq.
  assert (class_of h1 (next h) = Some (wrapper_class (type v) d ty)) as Hc1.
  { unfold class_of. simpl. by rewrite lookup_insert_eq. }
  assert (next h <> d) as Hne by (intros <-; by apply (fresh_class h (next h) c)).
  assert (is_Some (objs h1 !! next h)) as [x Hx] by eauto.
  assert (o_class x = wrapper_class (type v) d ty) as Hxc.
  { unfold class_of in Hc1. rewrite Hx in Hc1. by injection Hc1. }
  exists w, h1. split_and!; [done|by exists (next h)| |].
  - intros ty'. unfold Wrap.
    assert (AlreadyWrapped w h1 = (Ret true, h1)) as EA; [|by step EA].
    erewrite AlreadyWrapped_run; [|exact Hv1|done|exact Hc1| |].
    + simpl. destruct Hty as [->|[->| ->]]; done.
    + unfold wf_value. simpl. destruct Hty as [E'|[E'|E']]; rewrite E' in Hxc |- *.
      * exists (next h), x. split_and!; [done|rewrite <- E'; exact Hx|by rewrite Hxc].
      * exists (next h), x. split_and!; [done|rewrite <- E'; exact Hx|by rewrite Hxc].
      * done.
    + done.
  - set (v1 := set_object (type v) (Some (next h)) (reset new_value)) in *.
    exists (with_vals (<[w := set_object (type v) (Some d) (reset v1)]>) h1).
    split_and!; [|done|simpl; apply lookup_insert_eq|intros l' Hl'; simpl; by apply lookup_insert_ne].
    unfold Value_Unwrap. erewrite (st_bind_Ret (gets profiling)) by (unfold gets; simpl; by rewrite Hprof).
    cbn [negb]. step (getv_run _ _ _ Hv1).
    unfold IsMethod, IsList, IsObject. change (type v1) with (type v).
    assert (forall P : class -> bool, P (wrapper_class (type v) d ty) = true ->
              dynamic_cast P (Some (next h)) h1 = (Ret (Some (next h)), h1)) as Hcast.
    { intros P HP. rewrite (cast_run P h1 _ _ Hc1). by rewrite HP. }
    assert (forall f : class -> loc, (x ← geto (next h); mret (f (o_class x))) h1
              = (Ret (f (wrapper_class (type v) d ty)), h1)) as Hget.
    { intros f. unfold geto, mbind, st_bind. by rewrite Hx, Hxc. }
    pose proof (fun g => update_value_run h1 w v1 g Hv1) as Hset.
    destruct Hty as [E'|[E'|E']]; rewrite E' in *; types.
    + step (Hcast is_method_class eq_refl). erewrite st_bind_Ret by done.
      step (Hget (fun c => match c with ProfiledBoundMethod d _ => d | _ => next h end)). apply Hset.
    + step (Hcast is_list_class eq_refl). erewrite st_bind_Ret by done.
      step (Hget (fun c => match c with ProfiledBoundList d => d | _ => next h end)). apply Hset.
    + erewrite st_bind_Ret by done.
      step (Hget (fun c => match c with ProfiledBoundObject d | ProfiledBoundList d
                            | ProfiledBoundMethod d _ => d | _ => next h end)). apply Hset.
Qed.

Definition profiled (h : heap) : heap :=
  {| next := next h; vals := vals h; objs := objs h; listeners := listeners h;
     listenerMap := listenerMap h; currentId := currentId h; root := root h; profiling := true;
     jobs := jobs h; output := output h; sys := sys h |}.
(** An object (address 2) in a value (3), while profiling. *)
Definition demo_object_heap : heap :=
  profiled ((o ← default_StaticBoundObject; NewObject (Some o)) initial_heap).2.

Lemma wrap_unwrap_witness :
  exists w h1 h2, Wrap (vt quiet_world 2) 3%N (lit "app") demo_object_heap = (Ret w, h1) /\
    Value_Unwrap w h1 = (Ret tt, h2) /\
    vals h2 !! w = Some (set_object OBJECT (Some 2%N) (reset new_value)).
Proof.
  destruct (wrap_unwrap (vt quiet_world 2) demo_object_heap 3%N
              (set_object OBJECT (Some 2%N) (reset new_value)) 2%N (lit "app") (lit "StaticBoundObject"))
    as (w & h1 & E & _ & _ & (h2 & E2 & _ & Hv & _)); [reflexivity| |reflexivity|reflexivity| |].
  - split; [by exists 2%N|by right; right|reflexivity|].
    exists StaticBoundObject. split; reflexivity.
  - apply fresh_check_ok. vm_compute. reflexivity.
  - exists w, h1, h2. split; [exact E|]. split; [exact E2|exact Hv].
Defined.

(** ** DelegateStaticBoundObject *)

Lemma delegate_fields_run h this g l :
  class_of h this = Some (DelegateStaticBoundObject g l) -> delegate_fields this h = (Ret (g, l), h).
Proof.
  unfold class_of, delegate_fields, geto, mbind, st_bind.
  destruct (objs h !! this) as [x|]; [|done]. simpl. by intros [= ->].
Qed.

(** What a delegate answers for a name: the local property unless it is
    missing or Undefined, else the global one, else the second of the two
    fresh Undefined values. *)
Definition delegate_answer (h : heap) (g l : loc) (name : str) : loc :=
  let from_global := default (N.succ (next h)) (props h g !! name) in
  match props h l !! name with
  | Some a => if from_option IsUndefined true (vals h !! a) then from_global else a
  | None => from_global
  end.

Section Delegate.
Context (V : VOps) `{!StaticDispatch V} (this g l : loc) (name : str).
#[local] Set Default Proof Using "Type*".

Lemma Delegate_Get_run h :
  class_of h this = Some (DelegateStaticBoundObject g l) ->
  class_of h g = Some StaticBoundObject -> class_of h l = Some StaticBoundObject ->
  fresh_ok h -> (forall a, props h l !! name = Some a -> is_Some (vals h !! a)) ->
  exists h', grows h h' /\ Delegate_Get V this name h = (Ret (delegate_answer h g l name), h').
Proof.
  intros Hc Hg Hl Hf Hlive. unfold Delegate_Get, delegate_answer.
  step (delegate_fields_run _ _ _ _ Hc).
  pose proof (Get_run h l name ltac:(eauto)) as E. rewrite <- (sd_Get (V := V)) in E by done. step E.
  set (h1 := with_fresh new_value h). assert (grows h h1) as Hg1 by by apply grows_fresh.
  pose proof (Get_run h1 g name ltac:(eauto)) as E2. rewrite <- (sd_Get (V := V)) in E2 by done.
  change (props h1 g) with (props h g) in E2. change (next h1) with (N.succ (next h)) in E2.
  assert (grows h (with_fresh new_value h1)) as Hg2
    by (eapply grows_trans; [exact Hg1|by apply grows_fresh, Hg1]).
  destruct (props h l !! name) as [a|] eqn:Ea; simpl default at 1.
  - destruct (Hlive a eq_refl) as [w Hw]. rewrite Hw. simpl from_option.
    assert (vals h1 !! a = Some w) as Hw1 by by apply fresh_vals.
    step (getv_run _ _ _ Hw1). destruct (IsUndefined w); simpl negb; eauto.
  - assert (vals h1 !! next h = Some new_value) as Hw1 by apply lookup_insert_eq.
    step (getv_run _ _ _ Hw1). simpl. eauto.
Qed.

(** A [DelegateStaticBoundObject] overlays its local object on the global
    one: [Get] answers the local property unless it is missing or Undefined,
    and the global one (or a fresh Undefined) then; [Set] binds the name in both
    objects and nowhere else, and [Get] answers the value that was set. *)
Theorem delegate_overlays h v :
  class_of h this = Some (DelegateStaticBoundObject g l) ->
  class_of h g = Some StaticBoundObject -> class_of h l = Some StaticBoundObject -> g <> l ->
  fresh_ok h -> (forall a, props h l !! name = Some a -> is_Some (vals h !! a)) ->
  is_Some (vals h !! v) ->
  (exists h', Delegate_Get V this name h = (Ret (delegate_answer h g l name), h') /\ grows h h') /\
  (exists h', Delegate_Set V this name v h = (Ret tt, h') /\
     (forall o, props h' o = if decide (o = g \/ o = l) then <[name := v]> (props h o) else props h o) /\
     vals h' = vals h /\
     exists h2, Delegate_Get V this name h' = (Ret v, h2) /\ grows h' h2).
Proof.
  intros Hc Hg Hl Hne Hf Hlive Hv.
  split; [destruct (Delegate_Get_run h) as (h' & ? & ?); eauto|].
  set (h1 := with_properties l (<[name := v]> (props h l)) h).
  set (h2 := with_properties g (<[name := v]> (props h1 g)) h1).
  assert (forall o, class_of h2 o = class_of h o) as Hcl.
  { intros o. unfold h2, h1. by rewrite !class_of_with_properties. }
  assert (class_of h1 g = Some StaticBoundObject) as Hg1 by (unfold h1; by rewrite class_of_with_properties).
  assert (forall o, props h2 o = if decide (o = g \/ o = l) then <[name := v]> (props h o) else props h o)
    as Hprops.
  { intros o. unfold h2. rewrite props_with_properties by eauto. unfold h1.
    rewrite !props_with_properties by eauto.
    destruct (decide (o = g)) as [->|]; [by rewrite decide_False, decide_True by naive_solver|].
    destruct (decide (o = l)) as [->|]; [by rewrite decide_True by naive_solver|].
    by rewrite decide_False by naive_solver. }
  exists h2. split_and!; [|done|done|].
  - unfold Delegate_Set. step (delegate_fields_run _ _ _ _ Hc).
    pose proof (Set_run h l name v ltac:(eauto)) as E. rewrite <- (sd_Set (V := V)) in E by done. step E.
    rewrite (sd_Set (V := V)) by done. apply Set_run. eauto.
  - assert (props h2 l !! name = Some v /\ props h2 g !! name = Some v) as [El Eg]
      by (rewrite !Hprops, !decide_True, !lookup_insert_eq by auto; done).
    destruct (Delegate_Get_run h2) as (h3 & Hg3 & E); try (by rewrite Hcl).
    + by do 2 apply with_properties_fresh_ok.
    + rewrite El. by intros a [= <-].
    + exists h3. split; [|done]. rewrite E. unfold delegate_answer. rewrite El, Eg. simpl.
      by destruct (from_option IsUndefined true (vals h !! v)).
Qed.
End Delegate.

(** A delegate (address 4) of the objects 2 (global) and 3 (local), where the
    global one has a property that the local one lacks. *)
Definition demo_delegate : M unit :=
  g ← default_StaticBoundObject; l ← default_StaticBoundObject;
  new_object (lit "KObject") (DelegateStaticBoundObject g l);;
  v ← NewInt 5; StaticBoundObject_Set g (lit "x") v.
Definition demo_delegate_heap : heap := (demo_delegate initial_heap).2.

Lemma delegate_overlays_witness :
  exists h1 h2 h3,
    Delegate_Get (vt quiet_world 2) 4%N (lit "x") demo_delegate_heap = (Ret 5%N, h1) /\
    Delegate_Set (vt quiet_world 2) 4%N (lit "x") Null demo_delegate_heap = (Ret tt, h2) /\
    Delegate_Get (vt quiet_world 2) 4%N (lit "x") h2 = (Ret Null, h3).
Proof.
  destruct (delegate_overlays (dispatch quiet_world (vt quiet_world 1)) 4%N 2%N 3%N (lit "x")
              demo_delegate_heap Null)
    as ((h1 & E1 & _) & (h2 & E2 & _ & _ & h3 & E3 & _)); try reflexivity.
  - discriminate.
  - apply fresh_check_ok. vm_compute. reflexivity.
  - discriminate.
  - apply (bool_decide_unpack _). reflexivity.
  - exists h1, h2, h3. split; [exact E1|]. split; [exact E2|exact E3].
Defined.

(** [GetPropertyNames] of a delegate compares the addresses of the strings, so
    a name that both objects have is listed twice. *)
Lemma delegate_lists_names_twice :
  res_map (map snd)
    ((Delegate_Set (vt quiet_world 2) 4%N (lit "x") Null;;
      Delegate_GetPropertyNames (vt quiet_world 2) 4%N) demo_delegate_heap).1
  = Ret [lit "x"; lit "x"].
Proof. vm_compute. reflexivity. Qed.
