(* ===== verification/ScriptLaws.v ===== *)
(** * ScriptLaws: what the registry of script evaluators promises

    Evaluators are asked in the order in which they were added; the first one
    that answers true evaluates the script. Adding and removing keep the
    order of the others. *)

From S2P Require Import Prelude CppString Double System Heap Virtual KObject StaticBound StaticLaws.
From S2P Require Import ValueLaws Namespace Script Dispatch DispatchLaws.
From stdpp Require Import options.

(** The evaluators that are registered. *)
Definition evaluators_are (h : heap) (es : list loc) : Prop :=
  fresh_ok h /\
  exists l obj vs, s_evaluators (sys h) = Some l /\ list_repr h l obj vs /\
    Forall2 (fun v e => exists w, vals h !! v = Some w /\ objectValue w = Some e) vs es.

Lemma evaluators_fresh h es v : evaluators_are h es -> evaluators_are (with_fresh v h) es.
Proof.
  intros (Hf & l & obj & vs & El & Hr & Hvs). split; [by apply with_fresh_fresh_ok|].
  exists l, obj, vs. split_and!; [done|by apply list_repr_fresh|].
  eapply Forall2_impl; [exact Hvs|]. intros u e (w & Hw & ?). exists w. split; [|done].
  by apply fresh_vals.
Qed.

Lemma evaluators_run h l : s_evaluators (sys h) = Some l -> evaluators h = (Ret l, h).
Proof. intros E. unfold evaluators, mbind, st_bind, gets. by rewrite E. Qed.

(** One evaluator is asked. *)
Definition ask (V : VOps) (method : str) (args : list loc) (e : loc) : M bool :=
  finder ← GetMethod V e method None;
  match finder with
  | None => mret false
  | Some finder =>
      result ← vCall V finder args;
      v ← getv result;
      if IsBool v then ToBool v else mret false
  end.

(** What the code of the evaluators may do while they are asked: it answers
    as [says] tells and leaves the registry alone; [P] is what it keeps. *)
Record asking (V : VOps) (P : heap -> Prop) (es : list loc) (method : str) (args : list loc)
    (says : loc -> bool) : Prop := {
  ask_registry h : P h -> evaluators_are h es;
  ask_fresh h v : P h -> P (with_fresh v h);
  ask_answer h e : P h -> e ∈ es -> exists h', ask V method args e h = (Ret (says e), h') /\ P h'
}.

Section Find.
Context (V : VOps) `{!StaticDispatch V}.
#[local] Set Default Proof Using "Type*".

(** An entry of the list and the object in it. *)
Lemma entry_run h es i e :
  evaluators_are h es -> es !! i = Some e ->
  exists l v w, s_evaluators (sys h) = Some l /\
    vAt V l (Z.of_nat i) h = (Ret v, with_fresh new_value h) /\
    vals (with_fresh new_value h) !! v = Some w /\ objectValue w = Some e.
Proof.
  intros (Hf & l & obj & vs & El & [Hc Ho Hn Hit] & Hvs) He.
  destruct (Forall2_lookup_r _ _ _ _ _ Hvs He) as (v & Hv & w & Hw & Hwe).
  exists l, v, w. split_and!; [done| |by apply fresh_vals|done].
  rewrite (sd_At h l _ _ _ Hc), (At_run _ _ _ _ _ Hc) by eauto. by rewrite (Hit _ _ Hv).
Qed.

Lemma evaluator_at_run h es i e :
  evaluators_are h es -> es !! i = Some e ->
  evaluator_at V (Z.of_nat i) h = (Ret e, with_fresh new_value h).
Proof.
  intros Hes He. destruct (entry_run h es i e Hes He) as (l & v & w & El & Eat & Hw & Hwe).
  unfold evaluator_at. step (evaluators_run _ _ El). step Eat. step (getv_run _ _ _ Hw).
  unfold ToObject. by rewrite Hwe.
Qed.

Lemma size_run h es :
  evaluators_are h es -> exists l, s_evaluators (sys h) = Some l /\
    vSize V l h = (Ret (Z.of_nat (length es)), h).
Proof.
  intros (Hf & l & obj & vs & El & [Hc Ho Hn Hit] & Hvs). exists l. split; [done|].
  rewrite (sd_Size h l _ _ Hc). unfold StaticBoundList_Size. step (list_fields_run _ _ _ _ Hc).
  by rewrite (Forall2_length _ _ _ Hvs).
Qed.

(** The step of the search in terms of [ask]. *)
Lemma find_step_run P es method args says h i :
  asking V P es method args says -> P h ->
  match es !! i with
  | Some e => exists h', P h' /\ find_evaluator_step V method args (Z.of_nat i) h
                = (Ret (if says e then inr (Some e) else inl (Z.of_nat (S i))), h')
  | None => find_evaluator_step V method args (Z.of_nat i) h = (Ret (inr None), h)
  end.
Proof.
  intros [Hreg Hfresh Hans] HP. destruct (size_run h es (Hreg _ HP)) as (l & El & Esize).
  unfold find_evaluator_step. destruct (es !! i) as [e|] eqn:He; last first.
  { step (evaluators_run _ _ El). step Esize. apply lookup_ge_None in He.
    by rewrite (proj2 (Z.ltb_ge _ _)) by lia. }
  pose proof (lookup_lt_Some _ _ _ He) as Hi.
  destruct (Hans (with_fresh new_value h) e (Hfresh _ _ HP)) as (h' & Eask & HP');
    [by eapply list_elem_of_lookup_2|].
  destruct (entry_run h' es i e (Hreg _ HP') He) as (l' & v & w & El' & Eat & Hw & Hwe).
  exists (if says e then with_fresh new_value h' else h').
  split; [destruct (says e); [by apply Hfresh|done]|].
  step (evaluators_run _ _ El). step Esize. rewrite (proj2 (Z.ltb_lt _ _)) by lia.
  step (evaluator_at_run _ _ _ _ (Hreg _ HP) He).
  unfold ask in Eask. apply st_bind_Ret_inv in Eask as (finder & h1 & E1 & Eask). step E1.
  replace (Z.of_nat i + 1)%Z with (Z.of_nat (S i)) by lia.
  destruct finder as [finder|]; [|by injection Eask as <- <-].
  apply st_bind_Ret_inv in Eask as (r & h2 & E2 & Eask). step E2.
  apply st_bind_Ret_inv in Eask as (rv & h3 & E3 & Eask). step E3. step Eask.
  destruct (says e); [|done]. step (evaluators_run _ _ El'). step Eat. step (getv_run _ _ _ Hw).
  unfold ToObject. by rewrite Hwe.
Qed.

Lemma find_loop_run P es method args says rest i h fuel :
  asking V P es method args says -> P h -> drop i es = rest -> length rest < fuel ->
  exists h', P h' /\ loop fuel (find_evaluator_step V method args) (Z.of_nat i) h
    = (Ret (head (filter says rest)), h').
Proof.
  intros Hask. revert i h fuel. induction rest as [|e rest IH]; intros i h fuel HP Hdrop Hfuel;
    (destruct fuel as [|fuel]; [simpl in Hfuel; lia|]); cbn [loop];
    pose proof (find_step_run P es method args says h i Hask HP) as Hstep.
  - rewrite (proj2 (lookup_ge_None es i)) in Hstep.
    + step Hstep. by exists h.
    + assert (length (drop i es) = 0) as H by by rewrite Hdrop. rewrite length_drop in H. lia.
  - assert (es !! i = Some e) as He.
    { rewrite <- (Nat.add_0_r i), <- lookup_drop, Hdrop. done. }
    rewrite He in Hstep. destruct Hstep as (h' & HP' & Hstep). step Hstep. rewrite filter_cons.
    destruct (says e); simpl; [by exists h'|].
    apply IH; [done| |simpl in Hfuel; lia]. rewrite (drop_S _ _ _ He) in Hdrop. by simplify_eq.
Qed.
End Find.

Lemma head_filter_existsb (says : loc -> bool) es :
  bool_decide (head (filter says es) <> None) = existsb says es.
Proof.
  induction es as [|e es IH]; [done|]. rewrite filter_cons. simpl.
  destruct (says e); simpl; [done|exact IH].
Qed.

(** C25: scripts are evaluated by the first evaluator, in the order of their
    registration, whose method answers true: whatever the code of the
    evaluators does besides, as long as it answers and leaves the registry
    alone, the search for an evaluator ends and finds the first one that
    says yes; CanEvaluate is whether there is one; and Evaluate goes on with
    that one, or throws a ValueException that names the type. *)
Theorem script_evaluator_dispatch V P es mimeType says h :
  StaticDispatch V -> length es < vFuel V ->
  asking V P es (lit "canEvaluate") [next h] says ->
  P (with_fresh (set_string (c_str mimeType) (reset new_value)) h) ->
  exists h', P h' /\
    FindEvaluatorWithMethod V (lit "canEvaluate") mimeType h = (Ret (head (filter says es)), h') /\
    CanEvaluate V mimeType h = (Ret (existsb says es), h') /\
    forall name code scope,
      Evaluate V mimeType name code scope h
      = match head (filter says es) with
        | Some e => evaluate_with V e mimeType name code scope h'
        | None => (Throw (ValueException (Some (next h'))),
                   with_fresh (set_string (c_str (no_evaluator_text mimeType)) (reset new_value)) h')
        end.
Proof.
  intros HV Hfuel Hask HP.
  destruct (find_loop_run V P es _ _ says es 0 _ (vFuel V) Hask HP) as (h' & HP' & Eloop);
    [by rewrite drop_0|done|].
  assert (FindEvaluatorWithMethod V (lit "canEvaluate") mimeType h
          = (Ret (head (filter says es)), h')) as Efind.
  { unfold FindEvaluatorWithMethod.
    step (new_with_run (fun v => set_string (c_str mimeType) (reset v)) h). exact Eloop. }
  exists h'. split_and!; [done|done| |].
  - unfold CanEvaluate. step Efind. by rewrite head_filter_existsb.
  - intros name code scope. unfold Evaluate. step Efind.
    destruct (head (filter says es)); [done|]. unfold throw_string.
    by step (new_with_run (fun v => set_string (c_str (no_evaluator_text mimeType)) (reset v)) h').
Qed.

(** A world whose native methods answer a fixed truth value each. *)
Definition answering_world (b : N -> bool) : World := {|
  show_double _ := []; show_ptr _ := []; now _ := 0%Z; poco_toLower s := s; poco_toUpper s := s;
  native _ n _ result := SetBool result (b n); function_ptr _ _ _ := NewUndefined;
  foreign _ _ := no_ops; jsq := no_queries; js _ := no_js; pyq := no_pyq; py _ := no_py; rbq := no_rbq; rb _ := no_rb;
  phpq := no_phpq; php _ := no_php; poco_URI := no_uri; outside := quiet_system
|}.

(** An object whose method is the native one [n]. *)
Definition answers_natively (h : heap) (e : loc) (method : str) (n : N) : Prop :=
  class_of h e = Some StaticBoundObject /\
  exists l v m x obj, props h e !! method = Some l /\ vals h !! l = Some v /\ type v = METHOD /\
    objectValue v = Some m /\ objs h !! m = Some x /\ o_class x = StaticBoundMethod obj (Some (Native n)).

Lemma ask_native b k method args e n h :
  fresh_ok h -> answers_natively h e method n ->
  exists h', ask (vt (answering_world b) (S (S k))) method args e h = (Ret (b n), h') /\
    grows h h'.
Proof.
  intros Hf (Hc & l & v & m & x & obj & Hp & Hv & Hty & Hov & Hx & Hxc).
  set (h1 := with_fresh new_value h). set (h2 := with_fresh new_value h1).
  pose proof (fresh_vals h new_value _ _ Hf Hv) as Hv1. fold h1 in Hv1.
  pose proof (with_fresh_fresh_ok h new_value Hf) as Hf1. fold h1 in Hf1.
  exists (with_vals (<[next h1 := set_bool (b n) (reset new_value)]>) h2).
  split; [|split_and!].
  - unfold ask, GetMethod. cbn [vt vGet vCall dispatch].
    rewrite st_bind_assoc. unfold dispatch_Get. rewrite st_bind_assoc.
    step (class_at_run _ _ _ Hc). step (Get_run h e method (class_of_is_Some _ _ _ Hc)). rewrite Hp.
    cbn [default]. rewrite st_bind_assoc. step (getv_run _ _ _ Hv1).
    assert (IsMethod v = true) as -> by (unfold IsMethod; by rewrite Hty).
    unfold ToMethod. rewrite Hov.
    assert (dynamic_cast is_method_class (Some m) h1 = (Ret (Some m), h1)) as Hcast
      by (apply (dynamic_cast_run _ m x h1); [exact Hx|by rewrite Hxc]).
    step Hcast.
    unfold dispatch_Call. rewrite st_bind_assoc.
    assert (class_of h1 m = Some (o_class x)) as Hcm by (unfold class_of; simpl; by rewrite Hx).
    step (class_at_run _ _ _ Hcm). rewrite Hxc.
    unfold StaticBoundMethod_Call. rewrite st_bind_assoc.
    step (eq_refl : NewUndefined h1 = (Ret (next h1), h2)). rewrite st_bind_assoc.
    assert (method_fields m h2 = (Ret (obj, Some (Native n)), h2)) as Efields.
    { unfold method_fields, geto, mbind, st_bind. simpl. rewrite Hx. by rewrite Hxc. }
    step Efields. rewrite st_bind_assoc. cbn [vRun vt dispatch run_callback native answering_world].
    unfold SetBool.
    erewrite (st_bind_Ret (update_value _ _)); [|apply update_value_run, lookup_insert_eq].
    erewrite st_bind_Ret by done.
    erewrite (st_bind_Ret (getv _)); [|apply getv_run, lookup_insert_eq].
    reflexivity.
  - intros l' Hl'. simpl in Hl'. destruct (Hf l') as [H1 H2]; [lia|]. split; [done|].
    simpl. by rewrite !lookup_insert_ne by (simpl; lia).
  - done.
  - intros l' w Hw. assert (l' < next h)%N as Hl'.
    { apply N.nle_gt. intros Hle. destruct (Hf l' Hle). congruence. }
    simpl. by rewrite !lookup_insert_ne by lia.
  - done.
Qed.

Lemma evaluators_grows h h' es :
  grows h h' -> evaluators_are h es -> evaluators_are h' es.
Proof.
  intros (Hf & Ho & Hv & Hsys) (_ & l & obj & vs & El & [Hc Hcl Hn Hit] & Hvs). split; [done|].
  exists l, obj, vs. split_and!; [by rewrite Hsys|split; unfold class_of, props in *; by rewrite ?Ho|].
  eapply Forall2_impl; [exact Hvs|]. intros u e (w & Hw & ?). eauto.
Qed.

Lemma answers_natively_grows h h' e method n :
  grows h h' -> answers_natively h e method n -> answers_natively h' e method n.
Proof.
  intros (Hf & Ho & Hv & _) (Hc & l & v & m & x & obj & Hp & Hl & ?). unfold answers_natively, class_of, props.
  rewrite !Ho. split; [exact Hc|]. exists l, v, m, x, obj. split_and!; [exact Hp|by apply Hv|naive_solver..].
Qed.

(** Native evaluators meet the assumption of [script_evaluator_dispatch]. *)
Lemma asking_native b k h es method args (n : loc -> N) :
  evaluators_are h es -> (forall e, e ∈ es -> answers_natively h e method (n e)) ->
  asking (vt (answering_world b) (S (S k))) (grows h) es method args
    (fun e => b (n e)).
Proof.
  intros Hes Hall. split.
  - intros h1 Hg. by apply (evaluators_grows h).
  - intros h1 v Hg. eapply grows_trans; [exact Hg|]. apply grows_fresh, Hg.
  - intros h1 e Hg He. destruct (ask_native b k method args e (n e) h1) as (h2 & E & Hg2).
    + apply Hg.
    + by apply (answers_natively_grows h), Hall.
    + exists h2. split; [exact E|]. by eapply grows_trans.
Qed.

(** Two evaluators, the objects 4 and 9; the second one says yes. *)
Definition demo_evaluator (n : N) : M unit :=
  e ← default_StaticBoundObject;
  m ← new_StaticBoundMethod (Native n);
  v ← NewMethod (Some m);
  StaticBoundObject_Set e (lit "canEvaluate") v;;
  w ← NewObject (Some e);
  l ← evaluators;
  StaticBoundList_Append l w.
Definition demo_evaluators_heap : heap :=
  ((Script_Initialize;; demo_evaluator 0;; demo_evaluator 1) initial_heap).2.

Lemma demo_evaluators_are : evaluators_are demo_evaluators_heap [4%N; 9%N].
Proof.
  split; [apply fresh_check_ok; vm_compute; reflexivity|].
  exists 3%N, 2%N, [8%N; 13%N]. split_and!; [reflexivity|split; [vm_compute; reflexivity..|]|].
  - intros i v Hi. do 2 (destruct i as [|i]; [injection Hi as <-; vm_compute; reflexivity|]). done.
  - repeat constructor; eexists; (split; [vm_compute; reflexivity|reflexivity]).
Qed.

Lemma script_evaluator_dispatch_witness :
  exists h', FindEvaluatorWithMethod (vt (answering_world (N.eqb 1)) 3) (lit "canEvaluate") (lit "text/x")
    demo_evaluators_heap = (Ret (Some 9%N), h').
Proof.
  set (n := fun e => if decide (e = 9%N) then 1%N else 0%N).
  assert (forall e, e ∈ [4%N; 9%N] -> answers_natively demo_evaluators_heap e (lit "canEvaluate") (n e))
    as Hall.
  { intros e [->|[->|[]%not_elem_of_nil]%elem_of_cons]%elem_of_cons;
      (split; [vm_compute; reflexivity|]); do 5 eexists; split_and!; (vm_compute; reflexivity). }
  destruct (script_evaluator_dispatch (vt (answering_world (N.eqb 1)) 3)
              (grows demo_evaluators_heap) [4%N; 9%N]
              (lit "text/x") (fun e => N.eqb 1 (n e)) demo_evaluators_heap)
    as (h' & _ & E & _).
  - exact (dispatch_static _ _).
  - vm_compute. lia.
  - exact (asking_native (N.eqb 1) 1 _ _ (lit "canEvaluate") _ n demo_evaluators_are Hall).
  - apply grows_fresh, demo_evaluators_are.
  - exists h'. exact E.
Defined.

(** ** Adding and removing *)

Fixpoint without_first (e : loc) (es : list loc) : list loc :=
  match es with
  | [] => []
  | e' :: rest => if decide (e' = e) then rest else e' :: without_first e rest
  end.

Lemma vFuel_vt W n : vFuel (vt W n) = n.
Proof. induction n as [|n IH]; simpl; [done|by rewrite IH]. Qed.

(** The classes whose [Equals] compares the pointers. *)
Definition equals_by_pointer (c : class) : bool :=
  match c with
  | ProfiledBoundObject _ | KKJSObject _ _ | KKJSMethod _ _ _ _ | KKJSList _ _ _
  | KPythonObject _ _ _ | KPythonDict _ | KPythonMethod _ _ | KPythonList _ _ | KPythonTuple _ _
  | KRubyObject _ | KRubyHash _ _ | KRubyMethod _ _ _ | KRubyList _ _
  | KPHPObject _ | KPHPMethod _ _ _ | KPHPFunction _ _ _ | KPHPList _ | KPHPArrayObject _
  | Foreign _ => false
  | _ => true
  end.
Definition by_pointer (h : heap) (es : list loc) : Prop :=
  forall e, e ∈ es -> exists c, class_of h e = Some c /\ equals_by_pointer c = true.

Lemma Equals_run W V h es e other :
  by_pointer h es -> e ∈ es ->
  vEquals (dispatch W V) e other h = (Ret (bool_decide (other = Some e)), h).
Proof.
  intros Hp He. destruct (Hp e He) as (c & Hc & Hpl). cbn [vEquals dispatch]. unfold dispatch_Equals.
  step (class_at_run _ _ _ Hc). by destruct c.
Qed.

Section Registry.
Context (W : World) (V0 : VOps).
Let V := dispatch W V0.

(** The search of [RemoveScriptEvaluator]. *)
Lemma remove_search es e rest i h fuel :
  by_pointer h es -> evaluators_are h es -> drop i es = rest -> length rest < fuel -> (Z.of_nat (length es) < 2 ^ 31)%Z ->
  exists h' found, loop fuel (remove_evaluator_step V (Some e)) (Z.of_nat i) h = (Ret found, h') /\
    objs h' = objs h /\ evaluators_are h' es /\
    match found with
    | Some j => exists k, j = Z.of_nat k /\ k < length es /\ rest !! (k - i) = Some e /\ i <= k /\
                          without_first e rest = delete (k - i) rest
    | None => without_first e rest = rest
    end.
Proof.
  revert i h fuel. induction rest as [|e' rest IH]; intros i h fuel Hp Hes Hdrop Hfuel Hlen;
    (destruct fuel as [|fuel]; [simpl in Hfuel; lia|]); cbn [loop];
    destruct (size_run V h es Hes) as (l & El & Esize).
  - assert (length (drop i es) = 0) as H by by rewrite Hdrop. rewrite length_drop in H.
    assert (remove_evaluator_step V (Some e) (Z.of_nat i) h = (Ret (inr None), h)) as Estep.
    { unfold remove_evaluator_step. step (evaluators_run _ _ El). step Esize.
      by rewrite (proj2 (Z.ltb_ge _ _)) by lia. }
    step Estep. by exists h, None.
  - assert (es !! i = Some e') as He by (rewrite <- (Nat.add_0_r i), <- lookup_drop, Hdrop; done).
    pose proof (lookup_lt_Some _ _ _ He) as Hi.
    assert (remove_evaluator_step V (Some e) (Z.of_nat i) h
            = (Ret (if decide (e' = e) then inr (Some (Z.of_nat i)) else inl (Z.of_nat (S i))),
               with_fresh new_value h)) as Estep.
    { unfold remove_evaluator_step. step (evaluators_run _ _ El). step Esize.
      rewrite (proj2 (Z.ltb_lt _ _)) by lia. step (evaluator_at_run V _ _ _ _ Hes He).
      step (Equals_run W V0 (with_fresh new_value h) es e' (Some e) Hp (list_elem_of_lookup_2 _ _ _ He)).
      replace (Z.of_nat i + 1)%Z with (Z.of_nat (S i)) by lia.
      destruct (decide (e' = e)) as [->|Hne].
      - rewrite bool_decide_eq_true_2 by done. by rewrite to_signed32_id by (unfold is_int, int_min, int_max; lia).
      - rewrite bool_decide_eq_false_2 by congruence. done. }
    step Estep. simpl. destruct (decide (e' = e)) as [->|Hne].
    + exists (with_fresh new_value h), (Some (Z.of_nat i)). split; [done|].
      split; [done|]. split; [by apply evaluators_fresh|]. exists i. rewrite Nat.sub_diag. naive_solver.
    + destruct (IH (S i) (with_fresh new_value h) fuel) as (h' & found & E & Ho & Hes' & Hf);
        [done|by apply evaluators_fresh|rewrite (drop_S _ _ _ He) in Hdrop; by simplify_eq|simpl in Hfuel; lia|done|].
      exists h', found. split; [done|]. split; [done|]. split; [done|]. destruct found as [j|]; [|by rewrite Hf].
      destruct Hf as (k & -> & Hk & Hke & Hik & Hrm). exists k. replace (k - i) with (S (k - S i)) by lia.
      simpl. rewrite Hrm. naive_solver lia.
Qed.

End Registry.

(** The list of evaluators is changed, and nothing else. *)
Lemma evaluators_changed h h' l obj vs' es es' :
  evaluators_are h es -> s_evaluators (sys h) = Some l -> list_repr h' l obj vs' ->
  changed [l; obj] h h' ->
  Forall2 (fun v e => exists w, vals h !! v = Some w /\ objectValue w = Some e) vs' es' ->
  evaluators_are h' es'.
Proof.
  intros (Hf & _) El Hr Hch Hvs. split; [by apply Hch|]. exists l, obj, vs'.
  split_and!; [by rewrite (ch_sys _ _ _ Hch)|done|]. eapply Forall2_impl; [exact Hvs|].
  intros v e (w & Hw & ?). exists w. split; [|done]. by eapply changed_value.
Qed.

(** The registry is a sequence: AddScriptEvaluator puts an evaluator at
    its end, RemoveScriptEvaluator takes the first entry of that object out,
    if there is one, and leaves the others in their order. *)
Theorem script_registry W n h es e :
  evaluators_are h es -> by_pointer h es -> length es < n -> (Z.of_nat (S (length es)) < 2 ^ 31)%Z ->
  (exists h', AddScriptEvaluator (vt W (S (S n))) (Some e) h = (Ret tt, h') /\
     evaluators_are h' (es ++ [e])) /\
  (exists h', RemoveScriptEvaluator (vt W (S (S n))) (Some e) h = (Ret tt, h') /\
     evaluators_are h' (without_first e es)).
Proof.
  intros Hes Hp Hn Hlen. split.
  - pose proof Hes as (Hf & l & obj & vs & El & Hr & Hvs).
    unfold AddScriptEvaluator. step (evaluators_run _ _ El). step (NewObject_run (Some e) h).
    set (h1 := with_fresh _ h). assert (list_repr h1 l obj vs) as Hr1 by by apply list_repr_fresh.
    pose proof (Forall2_length _ _ _ Hvs) as Hl.
    destruct (Append_repr h1 l obj vs (next h) Hr1) as (h' & E & Hr' & Hch); [rewrite Hl; lia|].
    exists h'. split; [by rewrite (sd_Append _ _ _ _ _ (lr_class _ _ _ _ Hr1))|].
    apply (evaluators_changed h1 h' l obj (vs ++ [next h]) es); [by apply evaluators_fresh|done..|].
    apply Forall2_app.
    + eapply Forall2_impl; [exact Hvs|]. intros v e' (w & Hw & ?). exists w. split; [|done].
      by apply fresh_vals.
    + constructor; [|constructor]. eexists. split; [apply lookup_insert_eq|done].
  - unfold RemoveScriptEvaluator. change (vt W (S (S n))) with (dispatch W (vt W (S n))).
    destruct (remove_search W (vt W (S n)) es e es 0 h (vFuel (dispatch W (vt W (S n)))))
      as (h1 & found & E & Ho & Hes1 & Hfound);
      [done|done|by rewrite drop_0|simpl; rewrite vFuel_vt; lia|lia|].
    step E. destruct found as [j|]; [|exists h1; by rewrite Hfound].
    destruct Hfound as (k & -> & Hk & _ & _ & Hrm). rewrite Nat.sub_0_r in Hrm.
    rewrite (proj2 (Z.eqb_neq _ _)) by lia.
    pose proof Hes1 as (Hf & l & obj & vs & El & Hr & Hvs). step (evaluators_run _ _ El).
    pose proof (Forall2_length _ _ _ Hvs) as Hl. rewrite wrap32_id by lia.
    destruct (Remove_repr (vt W (S n)) h1 l obj vs k Hr) as (h' & E' & Hr' & Hch);
      [simpl; rewrite vFuel_vt; lia|lia|].
    exists h'. split.
    + assert (vRemove (dispatch W (vt W (S n))) l (Z.of_nat k) h1 = (Ret true, h')) as Erm; [|by step Erm].
      cbn [vRemove dispatch]. unfold dispatch_Remove. by step (class_at_run _ _ _ (lr_class _ _ _ _ Hr)).
    + apply (evaluators_changed h1 h' l obj (delete k vs) es); [done..|].
      rewrite Hrm. by apply Forall2_delete.
Qed.

Lemma script_registry_witness :
  exists h', RemoveScriptEvaluator (vt quiet_world 5) (Some 4%N) demo_evaluators_heap = (Ret tt, h') /\
    evaluators_are h' [9%N].
Proof.
  apply (script_registry quiet_world 3 demo_evaluators_heap [4%N; 9%N] 4%N demo_evaluators_are);
    [|simpl; lia|simpl; lia].
  intros e [->|[->|[]%not_elem_of_nil]%elem_of_cons]%elem_of_cons;
    exists StaticBoundObject; (split; [vm_compute; reflexivity|reflexivity]).
Defined.
