(* ===== verification/AccessorLaws.v ===== *)
(** * AccessorLaws: getters and setters of an accessor object

    [FindMethod] finds, in the byte order of the names, the first method whose
    name matches when case is ignored; [Get], [Set] and [HasProperty] call it
    or fall back on the stored properties. *)

From S2P Require Import Prelude CppString Double Heap Virtual KObject StaticBound StaticLaws.
From S2P Require Import ValueLaws Namespace Accessor Wrappers Events Dispatch DispatchLaws.
From stdpp Require Import options.

(** The method in a property, if it holds one. *)
Definition method_at (h : heap) (o : loc) (k : str) : option loc :=
  a ← props h o !! k; v ← vals h !! a; if IsMethod v then objectValue v else None.

(** The method among the names [ks] whose name is [lc] in lower case. *)
Definition accessor_in (h : heap) (o : loc) (lc : str) (ks : list str) : option loc :=
  head (omap (fun k => if decide (lower k = lc) then method_at h o k else None) ks).
Definition accessor (h : heap) (o : loc) (name : str) : option loc :=
  accessor_in h o (lower name) (sorted_keys (props h o)).

(** The classes that take their properties through accessors. *)
Definition is_accessor_class (c : class) : bool :=
  match c with
  | AccessorBoundObject | KEventObject _ | Event _ | APIBinding _ | ApplicationBinding _ _
  | ComponentBinding _ | DependencyBinding _ => true
  | _ => false
  end.

(** The part of the virtual calls that they rely on. *)
Class AccessorDispatch (V : VOps) : Prop := {
  ad_names h o c : class_of h o = Some c -> is_accessor_class c = true ->
    vGetPropertyNames V o h = StaticBoundObject_GetPropertyNames o h
}.

#[export] Instance dispatch_accessor W V : AccessorDispatch (dispatch W V).
Proof.
  constructor. intros h o c Hc Ha. simpl. unfold dispatch_GetPropertyNames.
  step (class_at_run _ _ _ Hc). by destruct c.
Qed.

(** The properties of an accessor object are live and named without NULs. *)
Definition accessor_ok (h : heap) (o : loc) : Prop :=
  fresh_ok h /\ (exists c, class_of h o = Some c /\ is_accessor_class c = true) /\
  forall k a, props h o !! k = Some a -> no_nul k /\ exists v, vals h !! a = Some v /\ wf_value h v.

Lemma accessor_ok_grows h h' o : grows h h' -> accessor_ok h o -> accessor_ok h' o.
Proof.
  intros (Hf & Ho & Hv & _) (_ & Hc & Hp). split_and!; [done|unfold class_of; by rewrite Ho|].
  unfold props in *. rewrite Ho. intros k a Ha. destruct (Hp k a Ha) as (Hk & v & Hva & Hwf).
  split; [done|]. exists v. split; [auto|]. by eapply wf_value_grows.
Qed.

Lemma grows_props h h' o : grows h h' -> props h' o = props h o.
Proof. unfold props. by intros (_ & -> & _). Qed.

Lemma method_at_grows h h' o k : grows h h' -> accessor_ok h o -> method_at h' o k = method_at h o k.
Proof.
  intros Hg (_ & _ & Hp). unfold method_at. rewrite (grows_props h h') by done.
  destruct (props h o !! k) as [a|] eqn:Ea; [|done]. simpl.
  destruct (Hp k a Ea) as (_ & v & Hv & _). rewrite Hv. by rewrite (proj1 (proj2 (proj2 Hg)) a v Hv).
Qed.

Lemma accessor_in_grows h h' o lc ks :
  grows h h' -> accessor_ok h o -> accessor_in h' o lc ks = accessor_in h o lc ks.
Proof.
  intros Hg Ho. unfold accessor_in. f_equal. apply list_omap_ext, Forall_Forall2_diag, Forall_forall.
  intros k _. by rewrite (method_at_grows h h').
Qed.

Section Find.
Context (V : VOps) `{!AccessorDispatch V} (o : loc).
#[local] Set Default Proof Using "Type*".

Lemma find_method_run lc l : forall h,
  accessor_ok h o -> (forall k, k ∈ map snd l -> is_Some (props h o !! k)) ->
  exists h', grows h h' /\
    find_method_loop (AccessorBoundObject_RawGet o) lc l h = (Ret (accessor_in h o lc (map snd l)), h').
Proof.
  induction l as [|[n k] l IH]; intros h Hok Hin.
  { exists h. split; [|done]. apply grows_refl, Hok. }
  pose proof Hok as (Hf & (c & Hc & _) & Hp).
  destruct (Hin k) as [a Ha]; [by constructor|]. destruct (Hp k a Ha) as (Hk & v & Hv & Hwf).
  set (h1 := with_fresh new_value h). assert (grows h h1) as Hg1 by by apply grows_fresh.
  assert (AccessorBoundObject_RawGet o (c_str k) h = (Ret a, h1)) as E.
  { rewrite c_str_id by done. unfold AccessorBoundObject_RawGet. rewrite Get_run by eauto.
    by rewrite Ha. }
  assert (vals h1 !! a = Some v) as Hv1 by by apply fresh_vals.
  destruct (IH h1) as (h2 & Hg2 & E2); [by eapply accessor_ok_grows| |].
  { intros k' Hk'. rewrite (grows_props h h1) by done. apply Hin. by constructor. }
  rewrite (accessor_in_grows h h1) in E2 by done.
  assert (method_at h o k = if IsMethod v then objectValue v else None) as Em.
  { unfold method_at. rewrite Ha. simpl. by rewrite Hv. }
  cbn [find_method_loop]. step E. step (getv_run _ _ _ Hv1).
  unfold accessor_in in *. cbn [map omap list_omap snd]. simpl list_omap. rewrite Em.
  assert (grows h h2) as Hg by exact (grows_trans _ _ _ Hg1 Hg2).
  unfold IsMethod, wf_value in *. destruct (bool_decide (type v = METHOD)) eqn:Ety.
  - apply bool_decide_eq_true in Ety. rewrite Ety in Hwf. destruct Hwf as (d & x & Hd & Hx & Hcx).
    destruct (decide (lower k = lc)).
    + exists h1. rewrite Hd. split; [done|]. unfold ToMethod. rewrite Hd.
      apply (dynamic_cast_run is_method_class d x h1); done.
    + exists h2. done.
  - exists h2. split; [done|]. rewrite E2. by destruct (decide (lower k = lc)).
Qed.

Lemma FindMethod_run h name :
  accessor_ok h o ->
  exists h', grows h h' /\ AccessorBoundObject_FindMethod V o name h = (Ret (accessor h o name), h').
Proof.
  intros Hok. pose proof Hok as (Hf & (c & Hc & Ha) & _).
  destruct (GetPropertyNames_run h o ltac:(eauto)) as (l & E & Hl & _).
  rewrite <- (ad_names (V := V) h o c) in E by done.
  set (h1 := with_next _ h) in E. assert (grows h h1) as Hg1 by by apply grows_next.
  destruct (find_method_run (lower name) l h1) as (h2 & Hg2 & E2).
  - by eapply accessor_ok_grows.
  - rewrite Hl. intros k. rewrite (grows_props h h1) by done. apply sorted_keys_spec.
  - exists h2. split; [exact (grows_trans _ _ _ Hg1 Hg2)|]. unfold AccessorBoundObject_FindMethod. step E.
    rewrite E2, (accessor_in_grows h h1), Hl by done. done.
Qed.
End Find.

(** The getter of a property: [get...], else [is...]. *)
Definition getter (h : heap) (o : loc) (name : str) : option loc :=
  match accessor h o (lit "get" ++ name) with
  | Some m => Some m
  | None => accessor h o (lit "is" ++ name)
  end.
Definition setter (h : heap) (o : loc) (name : str) : option loc := accessor h o (lit "set" ++ name).

Lemma accessor_grows h h' o name : grows h h' -> accessor_ok h o -> accessor h' o name = accessor h o name.
Proof.
  intros Hg Ho. unfold accessor. rewrite (grows_props h h') by done. by apply accessor_in_grows.
Qed.

Section Spec.
Context (V : VOps) `{!AccessorDispatch V} (o : loc) (name : str).
#[local] Set Default Proof Using "Type*".

Lemma KObject_HasProperty_run h :
  accessor_ok h o -> no_nul name ->
  exists h', grows h h' /\
    KObject_HasProperty V o name h = (Ret (bool_decide (is_Some (props h o !! name))), h').
Proof.
  intros (Hf & (c & Hc & Ha) & Hp) Hname.
  destruct (GetPropertyNames_run h o ltac:(eauto)) as (l & E & Hl & _).
  rewrite <- (ad_names (V := V) h o c) in E by done. eexists. split; [by apply grows_next|].
  unfold KObject_HasProperty. step E. unfold mret, st_ret. do 2 f_equal.
  apply eq_true_iff_eq. unfold has_name. rewrite existsb_exists, bool_decide_eq_true.
  rewrite <- sorted_keys_spec, <- Hl, list_elem_of_fmap. split.
  - intros (p & Hin%list_elem_of_In & Hp2%bool_decide_eq_true). exists p. split; [|done].
    rewrite <- (c_str_id name), Hp2 by done. apply c_str_id.
    assert (p.2 ∈ map snd l) as Hk by (apply list_elem_of_fmap; by exists p).
    rewrite Hl in Hk. apply sorted_keys_spec in Hk as [a Hk]. by apply (Hp _ a).
  - intros (p & -> & Hin%list_elem_of_In). exists p. split; [done|]. by apply bool_decide_eq_true.
Qed.

Lemma getter_run h :
  accessor_ok h o ->
  exists h1 h2, grows h h1 /\ grows h h2 /\
    AccessorBoundObject_FindMethod V o (lit "get" ++ name) h
      = (Ret (accessor h o (lit "get" ++ name)), h1) /\
    AccessorBoundObject_FindMethod V o (lit "is" ++ name) h1
      = (Ret (accessor h o (lit "is" ++ name)), h2).
Proof.
  intros Hok. destruct (FindMethod_run V o h (lit "get" ++ name) Hok) as (h1 & Hg1 & E1).
  assert (accessor_ok h1 o) as Hok1 by by eapply accessor_ok_grows.
  destruct (FindMethod_run V o h1 (lit "is" ++ name) Hok1) as (h2 & Hg2 & E2).
  rewrite (accessor_grows h h1) in E2 by done. exists h1, h2.
  split_and!; [done|exact (grows_trans _ _ _ Hg1 Hg2)|done|done].
Qed.

Lemma HasProperty_run h :
  accessor_ok h o -> no_nul name ->
  exists h', grows h h' /\
     AccessorBoundObject_HasProperty V o name h
     = (Ret (bool_decide (is_Some (props h o !! name) \/ is_Some (getter h o name))), h').
Proof.
  intros Hok Hname. destruct (KObject_HasProperty_run h Hok Hname) as (h1 & Hg1 & E1).
  unfold AccessorBoundObject_HasProperty. step E1.
  destruct (bool_decide (is_Some (props h o !! name))) eqn:Eb.
  { exists h1. split; [done|]. apply bool_decide_eq_true in Eb.
    by rewrite bool_decide_eq_true_2 by auto. }
  apply bool_decide_eq_false in Eb.
  assert (accessor_ok h1 o) as Hok1 by by eapply accessor_ok_grows.
  destruct (getter_run h1 Hok1) as (h2 & h3 & Hg2 & Hg3 & E2 & E3).
  rewrite (accessor_grows h h1) in E2, E3 by done. step E2. unfold getter.
  destruct (accessor h o (lit "get" ++ name)) as [m|].
  - exists h2. split; [exact (grows_trans _ _ _ Hg1 Hg2)|]. rewrite decide_True by done.
    by rewrite bool_decide_eq_true_2 by eauto.
  - exists h3. split; [exact (grows_trans _ _ _ Hg1 Hg3)|]. rewrite decide_False by tauto. step E3.
    unfold mret, st_ret. do 2 f_equal. apply bool_decide_ext. rewrite not_eq_None_Some. tauto.
Qed.

Lemma accessor_Get_run h :
  accessor_ok h o ->
  exists h', grows h h' /\
     AccessorBoundObject_Get V o name h
     = match getter h o name with
       | Some m => vCall V m [] h'
       | None => StaticBoundObject_Get o name h'
       end.
Proof.
  intros Hok. destruct (getter_run h Hok) as (h1 & h2 & _ & Hg2 & E1 & E2).
  exists h2. split; [done|]. unfold AccessorBoundObject_Get, getter. step E1. step E2.
  by destruct (accessor h o (lit "get" ++ name)), (accessor h o (lit "is" ++ name)).
Qed.

Lemma accessor_Set_run h v :
  accessor_ok h o ->
  exists h', grows h h' /\
     AccessorBoundObject_Set V o name v h
     = match setter h o name with
       | Some m => (vCall V m [v];; mret tt) h'
       | None => StaticBoundObject_Set o name v h'
       end.
Proof.
  intros Hok. destruct (FindMethod_run V o h (lit "set" ++ name) Hok) as (h3 & Hg3 & E3).
  exists h3. split; [done|]. unfold AccessorBoundObject_Set. step E3. unfold setter.
  by destruct (accessor h o (lit "set" ++ name)).
Qed.

(** C36: accessor objects: [Get] calls the getter of the property ([getX],
    or else [isX], the case of the names ignored) without arguments and answers
    what it returns, and without a getter it answers the stored property;
    [Set] calls the setter with the value, and without a setter stores it;
    [HasProperty] is true when the property is stored or has a getter.
    Looking for the accessors only allocates. *)
Theorem accessor_object_spec h v :
  accessor_ok h o -> no_nul name ->
  (exists h', grows h h' /\
     AccessorBoundObject_Get V o name h
     = match getter h o name with
       | Some m => vCall V m [] h'
       | None => StaticBoundObject_Get o name h'
       end) /\
  (exists h', grows h h' /\
     AccessorBoundObject_Set V o name v h
     = match setter h o name with
       | Some m => (vCall V m [v];; mret tt) h'
       | None => StaticBoundObject_Set o name v h'
       end) /\
  (exists h', grows h h' /\
     AccessorBoundObject_HasProperty V o name h
     = (Ret (bool_decide (is_Some (props h o !! name) \/ is_Some (getter h o name))), h')).
Proof.
  intros Hok Hname.
  split_and!; [by apply accessor_Get_run|by apply accessor_Set_run|by apply HasProperty_run].
Qed.
End Spec.

(** An accessor object (address 2) with a method (4) as the property [ISopen]
    and a value 6 as the property [size]. *)
Definition demo_accessor : M unit :=
  o ← new_object (lit "AccessorBoundObject") AccessorBoundObject;
  m ← new_StaticBoundMethod (Native 7);
  v ← NewMethod (Some m); StaticBoundObject_Set o (lit "ISopen") v;;
  w ← NewInt 3; StaticBoundObject_Set o (lit "size") w.
Definition demo_accessor_heap : heap := (demo_accessor initial_heap).2.

Lemma demo_accessor_ok : accessor_ok demo_accessor_heap 2%N.
Proof.
  split; [apply fresh_check_ok; vm_compute; reflexivity|].
  split; [exists AccessorBoundObject; split; reflexivity|].
  intros k a Ha. change (props demo_accessor_heap 2%N) with
    (<[lit "size" := 6%N]> (<[lit "ISopen" := 5%N]> (∅ : gmap str loc))) in Ha.
  apply lookup_insert_Some in Ha as [[<- <-]|[_ Ha]].
  { split; [apply (bool_decide_unpack _); vm_compute; reflexivity|].
    eexists. split; [reflexivity|exact I]. }
  apply lookup_insert_Some in Ha as [[<- <-]|[_ Ha]]; [|discriminate].
  split; [apply (bool_decide_unpack _); vm_compute; reflexivity|].
  eexists. split; [reflexivity|]. exists 4%N. eexists. split_and!; reflexivity.
Qed.

Lemma accessor_object_spec_witness :
  (exists h', AccessorBoundObject_Get (vt quiet_world 3) 2%N (lit "Open") demo_accessor_heap
              = vCall (vt quiet_world 3) 4%N [] h') /\
  (exists h', AccessorBoundObject_HasProperty (vt quiet_world 3) 2%N (lit "open") demo_accessor_heap
              = (Ret true, h')).
Proof.
  assert (no_nul (lit "Open") /\ no_nul (lit "open")) as [N1 N2]
    by (apply (bool_decide_unpack _); vm_compute; reflexivity).
  split.
  - destruct (accessor_object_spec (dispatch quiet_world (vt quiet_world 2)) 2%N (lit "Open")
                demo_accessor_heap Null demo_accessor_ok N1) as ((h' & _ & E) & _).
    exists h'. exact E.
  - destruct (accessor_object_spec (dispatch quiet_world (vt quiet_world 2)) 2%N (lit "open")
                demo_accessor_heap Null demo_accessor_ok N2) as (_ & _ & h' & _ & E).
    exists h'. exact E.
Defined.
