(* ===== verification/TypeLaws.v ===== *)
(** * TypeLaws: the dynamic types of the binding layer are stable

    Values and objects do not disappear, and an object keeps its class and
    the fields that its class never assigns: what a dynamic cast found out
    stays true, whatever is called in between. The invariant is proved for
    every virtual operation, every member function and every native callback
    that respects it, by the rules of [within]. *)

From S2P Require Import Prelude Double System Heap Virtual KObject StaticBound StaticLaws.
From S2P Require Import Accessor Wrappers ArgList Events Blob AsyncJob Script ApiObjects Api.
From S2P Require Import JavaScriptCore JavaScript PythonCore Python PythonEvaluator RubyCore Ruby RubyEvaluator.
From S2P Require Import PhpCore Php PhpClasses PhpEvaluator.
From S2P Require Import Dispatch ValueLaws DispatchLaws.
From stdpp Require Import options.

(** ** Evolution of the heap *)

(** [c'] is [c] but for the fields that functions of the class assign; the
    flags of an event are never taken back. *)
Definition same_kind (c c' : class) : Prop :=
  match c, c' with
  | Event e, Event e' =>
      e_target e' = e_target e /\ e_eventName e' = e_eventName e /\ e_timestamp e' = e_timestamp e /\
      (e_stopped e = true -> e_stopped e' = true) /\
      (e_preventedDefault e = true -> e_preventedDefault e' = true)
  | AsyncJob j, AsyncJob j' => j_job j' = j_job j
  | StaticBoundList o _, StaticBoundList o' _ => o' = o
  | AccessorBoundList o _, AccessorBoundList o' _ => o' = o
  | APIBinding a, APIBinding a' => api_logger a' = api_logger a
  | _, _ => c' = c
  end.

#[export] Instance same_kind_preorder : PreOrder same_kind.
Proof.
  split.
  - by intros [].
  - intros c1 c2 c3 H1 H2.
    assert (forall c, same_kind c1 c -> c = c1 \/ match c1 with
      | Event _ | AsyncJob _ | StaticBoundList _ _ | AccessorBoundList _ _ | APIBinding _ => True
      | _ => False end) as Hcases by (destruct c1; simpl; auto).
    destruct (Hcases c2 H1) as [->|Hspecial]; [done|].
    destruct c1; try done; destruct c2; try discriminate H1; destruct c3; try discriminate H2;
      simpl in *; try congruence.
    destruct H1 as (? & ? & ? & ? & ?), H2 as (? & ? & ? & ? & ?). split_and!; try congruence; auto.
Qed.

(** [h'] comes after [h]. *)
Record evolves (h h' : heap) : Prop := {
  ev_next : (next h <= next h')%N;
  ev_vals l : is_Some (vals h !! l) -> is_Some (vals h' !! l);
  ev_objs o x : objs h !! o = Some x ->
    exists x', objs h' !! o = Some x' /\ o_type x' = o_type x /\ same_kind (o_class x) (o_class x')
}.

#[export] Instance evolves_preorder : PreOrder evolves.
Proof.
  split.
  - intros h. split; [lia|done|]. intros o x Hx. by exists x.
  - intros h1 h2 h3 [N1 V1 O1] [N2 V2 O2]. split; [lia|auto|]. intros o x Hx.
    destruct (O1 o x Hx) as (x2 & Hx2 & T2 & K2). destruct (O2 o x2 Hx2) as (x3 & Hx3 & T3 & K3).
    exists x3. split_and!; [done|congruence|by etrans].
Qed.

(** [m] keeps the allocator in order and evolves the heap, however it ends. *)
Abbreviation stable := (within true fresh_ok evolves).

(** ** The primitives *)

Lemma stable_run {A} (m : M A) :
  (forall h, fresh_ok h -> fresh_ok (m h).2 /\ evolves h (m h).2) -> stable m.
Proof. intros H h Hf. destruct (H h Hf). split_and!; [done|done|by left]. Qed.

Lemma evolves_same h h' :
  next h' = next h -> vals h' = vals h -> objs h' = objs h -> fresh_ok h -> fresh_ok h' /\ evolves h h'.
Proof.
  intros En Ev Eo Hf. split.
  - intros l. rewrite En, Eo, Ev. apply Hf.
  - split; [by rewrite En|by rewrite Ev|]. intros o x Hx. exists x. by rewrite Eo.
Qed.

Lemma stable_getv l : stable (getv l).
Proof. apply stable_run. intros h Hf. by apply evolves_same. Qed.
Lemma stable_geto o : stable (geto o).
Proof. apply stable_run. intros h Hf. by apply evolves_same. Qed.
Lemma stable_alloc : stable alloc.
Proof.
  apply stable_run. intros h Hf. split.
  - intros l Hl. apply Hf. simpl in Hl. lia.
  - split; [simpl; lia|done|]. intros o x Hx. by exists x.
Qed.
Lemma stable_sys {A} (m : SM A) : stable (on_sys m).
Proof.
  apply stable_run. intros h Hf. unfold on_sys, zoom. destruct (m (sys h)) as [r t].
  by apply evolves_same.
Qed.
Lemma stable_lift {A} (r : res A) : stable (lift r).
Proof. apply stable_run. intros h Hf. by apply evolves_same. Qed.

(** Changes of the other fields of the heap. *)
Lemma stable_other f :
  (forall h, next (f h) = next h /\ vals (f h) = vals h /\ objs (f h) = objs h) -> stable (modify f).
Proof.
  intros H. apply stable_run. intros h Hf. destruct (H h) as (En & Ev & Eo). by apply evolves_same.
Qed.

Lemma stable_update_value l f : stable (update_value l f).
Proof.
  apply stable_run. intros h Hf. unfold update_value, mbind, st_bind, getv.
  destruct (vals h !! l) as [v|] eqn:Hv; [|by apply evolves_same]. simpl. split.
  - intros k Hk. destruct (Hf k Hk) as [H1 H2]. split; [done|]. simpl.
    rewrite lookup_insert_ne; [done|congruence].
  - split; [done| |intros o x Hx; by exists x]. intros k Hk. simpl.
    destruct (decide (k = l)) as [->|]; [rewrite lookup_insert_eq|rewrite lookup_insert_ne]; eauto.
Qed.

(** An object is written after it was read. *)
Lemma evolves_puto h o x y :
  fresh_ok h -> objs h !! o = Some x -> o_type y = o_type x -> same_kind (o_class x) (o_class y) ->
  fresh_ok (with_objs (<[o := y]>) h) /\ evolves h (with_objs (<[o := y]>) h).
Proof.
  intros Hf Hx Ht Hk. split.
  - intros k Hl. destruct (Hf k Hl) as [H1 H2]. split; [|done]. simpl.
    rewrite lookup_insert_ne; [done|congruence].
  - split; [done|done|]. intros o' x' Hx'. simpl. destruct (decide (o' = o)) as [->|Hne].
    + rewrite lookup_insert_eq. exists y. rewrite Hx in Hx'. injection Hx' as <-. done.
    + rewrite lookup_insert_ne by done. by exists x'.
Qed.

Lemma stable_set_properties o m : stable (set_properties o m).
Proof.
  apply stable_run. intros h Hf. unfold set_properties, mbind, st_bind, geto.
  destruct (objs h !! o) as [x|] eqn:Hx; [|by apply evolves_same]. by apply (evolves_puto h o x).
Qed.

(** A class is assigned when it is known. *)
Lemma evolves_set_class h o c c' :
  fresh_ok h -> class_of h o = Some c -> same_kind c c' ->
  fresh_ok (set_class o c' h).2 /\ evolves h (set_class o c' h).2.
Proof.
  intros Hf Hc Hk. unfold set_class, mbind, st_bind, geto. unfold class_of in Hc.
  destruct (objs h !! o) as [x|] eqn:Hx; [|done]. injection Hc as <-. by apply (evolves_puto h o x).
Qed.

(** A step whose continuation needs to know what the step read. *)
Lemma stable_read {A B} (m : M A) (k : A -> M B) (Q : A -> heap -> Prop) :
  (forall h, (m h).2 = h) -> (forall a h, m h = (Ret a, h) -> Q a h) ->
  (forall a h, fresh_ok h -> Q a h -> fresh_ok (k a h).2 /\ evolves h (k a h).2) ->
  stable (m ≫= k).
Proof.
  intros Hm HQ Hk. apply stable_run. intros h Hf. unfold mbind, st_bind. specialize (Hm h).
  destruct (m h) as [r h'] eqn:E. simpl in Hm. subst h'.
  destruct r as [a| | |]; [apply Hk; eauto|by apply evolves_same..].
Qed.

Lemma geto_read h o x : geto o h = (Ret x, h) -> class_of h o = Some (o_class x).
Proof. unfold geto, class_of. destruct (objs h !! o); [by intros [= <-]|done]. Qed.

Lemma stable_set_length o n : stable (set_length o n).
Proof.
  unfold set_length. apply (stable_read _ _ (fun x h => class_of h o = Some (o_class x))).
  - by intros h.
  - intros x h. apply geto_read.
  - intros x h Hf Hc. destruct (o_class x) eqn:E; try by apply evolves_same.
    all: by eapply evolves_set_class.
Qed.

Lemma read_pure {A} (o : loc) (f : class -> M A) h :
  (forall c, (f c h).2 = h) -> ((x ← geto o; f (o_class x)) h).2 = h.
Proof. intros Hf. unfold geto, mbind, st_bind. destruct (objs h !! o); [apply Hf|done]. Qed.

Lemma read_class {A} (o : loc) (f : class -> M A) a h :
  (x ← geto o; f (o_class x)) h = (Ret a, h) -> exists c, class_of h o = Some c /\ f c h = (Ret a, h).
Proof.
  unfold geto, class_of, mbind, st_bind. destruct (objs h !! o) as [x|]; [|done]. eauto.
Qed.

Lemma job_of_read o j h : job_of o h = (Ret j, h) -> class_of h o = Some (AsyncJob j).
Proof.
  intros (c & Hc & E)%(read_class o (fun c => match c with AsyncJob j => mret j | _ => undef end)).
  destruct c; try done. by injection E as ->.
Qed.
Lemma event_of_read o e h : event_of o h = (Ret e, h) -> class_of h o = Some (Event e).
Proof.
  intros (c & Hc & E)%(read_class o (fun c => match c with Event e => mret e | _ => undef end)).
  destruct c; try done. by injection E as ->.
Qed.
Lemma api_of_read o a h : api_of o h = (Ret a, h) -> class_of h o = Some (APIBinding a).
Proof.
  intros (c & Hc & E)%(read_class o (fun c => match c with APIBinding a => mret a | _ => undef end)).
  destruct c; try done. by injection E as ->.
Qed.

Lemma stable_update_job o f : (forall j, j_job (f j) = j_job j) -> stable (update_job o f).
Proof.
  intros Hj. apply (stable_read _ _ (fun j h => class_of h o = Some (AsyncJob j))).
  - intros h. by apply (read_pure o (fun c => match c with AsyncJob j => mret j | _ => undef end)); intros [].
  - intros j h. apply job_of_read.
  - intros j h Hf Hc. eapply evolves_set_class; [done|done|]. apply Hj.
Qed.

Lemma stable_ext {A} (m m' : M A) : (forall h, m h = m' h) -> stable m -> stable m'.
Proof. intros E Hm h Hf. rewrite <- E. by apply Hm. Qed.

Lemma stable_set_event o f :
  (forall e, same_kind (Event e) (Event (f e))) -> stable (e ← event_of o; set_class o (Event (f e))).
Proof.
  intros He. apply (stable_read _ _ (fun e h => class_of h o = Some (Event e))).
  - intros h. by apply (read_pure o (fun c => match c with Event e => mret e | _ => undef end)); intros [].
  - intros e h. apply event_of_read.
  - intros e h Hf Hc. by eapply evolves_set_class.
Qed.

Lemma stable_NewUndefined : stable NewUndefined.
Proof.
  apply stable_run. intros h Hf. unfold NewUndefined, alloc, putv, modify, mbind, st_bind. simpl. split.
  - intros l Hl. simpl in *. rewrite lookup_insert_ne by lia. apply Hf. lia.
  - split; [simpl; lia| |intros o x Hx; by exists x]. intros l [v Hl]. simpl.
    destruct (decide (l = next h)) as [->|]; [rewrite lookup_insert_eq|rewrite lookup_insert_ne]; eauto.
Qed.

Lemma stable_new_object ty c : stable (new_object ty c).
Proof.
  apply stable_run. intros h Hf. rewrite new_object_run. simpl. split.
  - intros l Hl. simpl in *. rewrite lookup_insert_ne by lia. apply Hf. lia.
  - split; [simpl; lia|done|]. intros o x Hx. exists x. split; [|done]. simpl.
    rewrite lookup_insert_ne; [done|]. intros <-. destruct (Hf (next h)) as [H _]; [lia|]. congruence.
Qed.

(** ** Compositions *)

Lemma stable_st_map {A B} (f : A -> M B) l : (forall a, stable (f a)) -> stable (st_map f l).
Proof.
  intros Hf. induction l as [|a l IH]; simpl; [apply within_ret, _|].
  apply within_bind; [apply _|done|]. intros b. apply within_bind; [apply _|done|].
  intros bs. apply within_ret, _.
Qed.
Lemma stable_loop {A B} n (f : A -> M (A + B)) a : (forall a, stable (f a)) -> stable (loop n f a).
Proof.
  intros Hf. revert a. induction n as [|n IH]; intros a; simpl; [apply stable_lift|].
  apply within_bind; [apply _|done|]. intros [a'|b]; [done|apply within_ret, _].
Qed.

Lemma stable_dynamic_cast P o : stable (dynamic_cast P o).
Proof.
  destruct o as [o|]; simpl; [|apply within_ret, _].
  apply within_bind; [apply _|apply stable_geto|]. intros x. apply within_ret, _.
Qed.
Lemma stable_find_method_loop raw name l :
  (forall n, stable (raw n)) -> stable (find_method_loop raw name l).
Proof.
  intros Hraw. induction l as [|[? ?] l IH]; simpl; [apply within_ret, _|].
  apply within_bind; [apply _|apply Hraw|]. intros v.
  apply within_bind; [apply _|apply stable_getv|]. intros x.
  destruct (IsMethod x); [|done]. case_match; [apply stable_dynamic_cast|done].
Qed.

Create HintDb stable.
#[export] Hint Constants Opaque : stable.
#[export] Hint Resolve stable_dynamic_cast stable_getv stable_geto stable_alloc stable_sys stable_update_value
  stable_set_properties stable_set_length stable_NewUndefined stable_new_object : stable.

(** [stable]: a computation built from stable parts is stable. *)
Ltac stable1 :=
  match goal with
  | |- forall _, _ => intros ?
  | |- stable (_ ≫= _) => apply within_bind; [apply _| |]
  | |- stable (try_catch _ _) => apply within_try_catch; [apply _| |]
  | |- stable (st_map _ _) => apply stable_st_map
  | |- stable (st_fold _ _ _) => apply within_st_fold; [apply _|]
  | |- stable (loop _ _ _) => apply stable_loop
  | |- stable (on_sys _) => apply stable_sys
  | |- stable (find_method_loop _ _ _) => apply stable_find_method_loop
  | |- stable (mret _) => apply within_ret; apply _
  | |- stable (gets _) => apply within_gets; apply _
  | |- stable (lift _) => apply stable_lift
  | |- stable (throw _) => apply stable_lift
  | |- stable undef => apply stable_lift
  | |- stable (some_or_undef _) => apply stable_lift
  | |- stable (modify _) => apply stable_other; by intros
  | |- stable (update_job _ _) => apply stable_update_job; by intros
  | |- stable (match ?x with _ => _ end) => destruct x
  | |- stable _ => solve [eauto 3 with stable]
  end.
(** [stable_deep]: unfolds the operations that no lemma of the database is about. *)
Ltac stable_deep_step :=
  first
    [ stable1
    | match goal with |- stable ?m => let f := head_of m in progress unfold f end ].
Ltac stable_deep := repeat stable_deep_step.

(** The operations of an interface are stable. *)
Record vstable (V : VOps) : Prop := {
  vs_Get o n : stable (vGet V o n);
  vs_Set o n v : stable (vSet V o n v);
  vs_HasProperty o n : stable (vHasProperty V o n);
  vs_GetPropertyNames o : stable (vGetPropertyNames V o);
  vs_DisplayString o z : stable (vDisplayString V o z);
  vs_Equals o p : stable (vEquals V o p);
  vs_GetType o : stable (vGetType V o);
  vs_Call o l : stable (vCall V o l);
  vs_Append o v : stable (vAppend V o v);
  vs_Size o : stable (vSize V o);
  vs_At o i : stable (vAt V o i);
  vs_SetAt o i v : stable (vSetAt V o i v);
  vs_Remove o i : stable (vRemove V o i);
  vs_Run c l v : stable (vRun V c l v);
  vs_JS c : stable (vJS V c);
  vs_Py A c : stable (vPy V A c);
  vs_Rb A c : stable (vRb V A c);
  vs_Php A c : stable (vPhp V A c)
}.
#[export] Hint Resolve vs_Get vs_Set vs_HasProperty vs_GetPropertyNames vs_DisplayString vs_Equals
  vs_GetType vs_Call vs_Append vs_Size vs_At vs_SetAt vs_Remove vs_Run vs_JS vs_Py vs_Rb vs_Php : stable.

Lemma vstable_no_ops : vstable no_ops.
Proof. constructor; intros; apply stable_lift. Qed.

(** So are those of JavaScriptCore. *)
Record jstable (J : JSOps) : Prop := {
  js_ValueToNumber a b : stable (JSValueToNumber J a b);
  js_ValueToStringCopy a b : stable (JSValueToStringCopy J a b);
  js_ValueToObject a b : stable (JSValueToObject J a b);
  js_ValueMakeNumber a b : stable (JSValueMakeNumber J a b);
  js_ValueMakeBoolean a b : stable (JSValueMakeBoolean J a b);
  js_ValueMakeString a b : stable (JSValueMakeString J a b);
  js_ValueMakeNull a : stable (JSValueMakeNull J a);
  js_ValueMakeUndefined a : stable (JSValueMakeUndefined J a);
  js_ValueProtect a b : stable (JSValueProtect J a b);
  js_ValueUnprotect a b : stable (JSValueUnprotect J a b);
  js_ClassCreate a : stable (JSClassCreate J a);
  js_ObjectMake a b c : stable (JSObjectMake J a b c);
  js_ObjectMakeFunctionWithCallback a b c : stable (JSObjectMakeFunctionWithCallback J a b c);
  js_ObjectSetPrototype a b c : stable (JSObjectSetPrototype J a b c);
  js_ObjectHasProperty a b c : stable (JSObjectHasProperty J a b c);
  js_ObjectGetProperty a b c : stable (JSObjectGetProperty J a b c);
  js_ObjectSetProperty a b c d : stable (JSObjectSetProperty J a b c d);
  js_ObjectCallAsFunction a b c d : stable (JSObjectCallAsFunction J a b c d);
  js_ObjectCopyPropertyNames a b : stable (JSObjectCopyPropertyNames J a b);
  js_CheckScriptSyntax a b : stable (JSCheckScriptSyntax J a b);
  js_EvaluateScript a b c : stable (JSEvaluateScript J a b c);
  js_GlobalContextCreate : stable (JSGlobalContextCreate J);
  js_GlobalContextRetain a : stable (JSGlobalContextRetain J a);
  js_GlobalContextRelease a : stable (JSGlobalContextRelease J a)
}.
#[export] Hint Resolve js_ValueToNumber js_ValueToStringCopy js_ValueToObject js_ValueMakeNumber
  js_ValueMakeBoolean js_ValueMakeString js_ValueMakeNull js_ValueMakeUndefined js_ValueProtect
  js_ValueUnprotect js_ClassCreate js_ObjectMake js_ObjectMakeFunctionWithCallback
  js_ObjectSetPrototype js_ObjectHasProperty js_ObjectGetProperty js_ObjectSetProperty
  js_ObjectCallAsFunction js_ObjectCopyPropertyNames js_CheckScriptSyntax js_EvaluateScript
  js_GlobalContextCreate js_GlobalContextRetain js_GlobalContextRelease : stable.

Lemma jstable_no_js : jstable no_js.
Proof. constructor; intros; apply stable_lift. Qed.

(** What the code of the modules and the objects of other languages must
    respect, when the operations that they call do. *)
Record world_stable (W : World) : Prop := {
  ws_native V n args r : vstable V -> stable (native W V n args r);
  ws_function_ptr V n args : vstable V -> stable (function_ptr W V n args);
  ws_foreign V n : vstable V -> vstable (foreign W V n);
  ws_js V : vstable V -> jstable (js W V);
  ws_py V A c : vstable V -> stable (py W V A c);
  ws_rb V A c : vstable V -> stable (rb W V A c);
  ws_php V A c : vstable V -> stable (php W V A c)
}.

Lemma stable_get_listener l : stable (get_listener l).
Proof. apply stable_run. intros h Hf. by apply evolves_same. Qed.
Lemma stable_listeners_of o : stable (listeners_of o).
Proof. apply stable_run. intros h Hf. by apply evolves_same. Qed.
#[export] Hint Resolve stable_get_listener stable_listeners_of ws_native ws_function_ptr ws_js
  ws_py ws_rb ws_php : stable.

Section Operations.
Context (W : World) (V : VOps) (HW : world_stable W) (HV : vstable V).
#[local] Set Default Proof Using "Type*".

Lemma stable_get_ns_loop fuel s last pos scope : stable (get_ns_loop V fuel s last pos scope).
Proof. revert last pos scope. induction fuel as [|fuel IH]; intros; simpl; stable_deep. Qed.
Lemma stable_VerifyImpl_loop args optional i sig : stable (VerifyImpl_loop args optional i sig).
Proof. revert optional i. induction sig as [|t sig IH]; intros; simpl; stable_deep. Qed.
Lemma stable_remove_loop eventName id cb ls : stable (remove_loop V eventName id cb ls).
Proof. induction ls as [|l ls IH]; simpl; stable_deep. Qed.
Lemma stable_concat_args args : stable (concat_args V args).
Proof. induction args as [|a args IH]; simpl; stable_deep. Qed.
Lemma stable_blobs_of args : stable (blobs_of V args).
Proof. induction args as [|a args IH]; simpl; stable_deep. Qed.
Lemma stable_has_properties c o l : stable (has_properties W V c o l).
Proof. induction l as [|n l IH]; simpl; stable_deep. Qed.
#[local] Hint Resolve stable_has_properties : stable.
Lemma stable_ToKrollValue_fuel n v c t : stable (ToKrollValue_fuel W V n v c t).
Proof. revert v c t. induction n as [|n IH]; intros; simpl; stable_deep. Qed.
#[local] Hint Resolve stable_ToKrollValue_fuel : stable.
Lemma stable_PyToKrollValue_fuel n v : stable (PyToKrollValue_fuel W V n v).
Proof. revert v. induction n as [|n IH]; intros; simpl; stable_deep. Qed.
#[local] Hint Resolve stable_PyToKrollValue_fuel : stable.
Lemma stable_set_tuple_items t i args : stable (set_tuple_items W V t i args).
Proof. revert i. induction args as [|a args IH]; intros; simpl; stable_deep. Qed.
Lemma stable_concat_times l o n : stable (concat_times W V l o n).
Proof. induction n; simpl; stable_deep. Qed.
Lemma stable_append_items l o i n : stable (append_items W V l o i n).
Proof. revert i. induction n; intros; simpl; stable_deep. Qed.
Lemma stable_append_own l i n : stable (append_own V l i n).
Proof. revert i. induction n; intros; simpl; stable_deep. Qed.
#[local] Hint Resolve stable_append_own : stable.
Lemma stable_append_own_times l s n : stable (append_own_times V l s n).
Proof. induction n; simpl; stable_deep. Qed.
#[local] Hint Resolve stable_set_tuple_items stable_concat_times stable_append_items
  stable_append_own_times : stable.
#[local] Hint Resolve stable_get_ns_loop stable_VerifyImpl_loop
  stable_remove_loop stable_concat_args stable_blobs_of : stable.

(** The dangling text answers nothing. *)
Lemma stable_dangling {B} args i (k : M str -> M B) :
  stable (k undef) -> stable (dangling_text args i ≫= k).
Proof.
  intros Hk. unfold dangling_text. eapply stable_ext; [intros h; symmetry; apply st_bind_assoc|].
  apply within_bind; [apply _|stable_deep|]. intros _. by apply (stable_ext (k undef)).
Qed.

Lemma stable_fire_loop ls e : stable (fire_loop W V ls e).
Proof. induction ls as [|l ls IH]; simpl; stable_deep. Qed.
#[local] Hint Resolve stable_fire_loop : stable.
Lemma stable_FireEvent_fuel n o e : stable (FireEvent_fuel W V n o e).
Proof. revert o. induction n as [|n IH]; intros o; simpl; stable_deep. Qed.
#[local] Hint Resolve stable_FireEvent_fuel : stable.

Lemma stable_new_ReadEvent target data : stable (new_ReadEvent W V target data).
Proof.
  unfold new_ReadEvent. apply within_bind; [apply _|stable_deep|]. intros o.
  eapply (stable_ext ((e ← event_of o; set_class o (Event _));; _)); [intros h; apply st_bind_assoc|].
  apply within_bind; [apply _|apply stable_set_event; by intros|]. intros _. stable_deep.
Qed.
Lemma stable_set_flags o b1 b2 : stable (set_flags o b1 b2).
Proof.
  apply stable_set_event. intros e. simpl. split_and!; [done..|by intros ->|by intros ->].
Qed.
Lemma stable_API_InstallDependencies o args : stable (API_InstallDependencies V o args).
Proof.
  unfold API_InstallDependencies. do 5 (apply within_bind; [apply _|stable_deep|]; intros ?).
  case_match; [stable_deep|].
  apply (stable_read _ _ (fun a h => class_of h o = Some (APIBinding a))).
  - intros h. by apply (read_pure o (fun c => match c with APIBinding a => mret a | _ => undef end)); intros [].
  - intros api h. apply api_of_read.
  - intros api h Hf Hc. destruct (api_locked api); [|by eapply evolves_set_class].
    assert (stable (throw_string (lit "Tried to launch more than one instance of the installer") : M unit))
      as Ht by stable_deep. destruct (Ht h Hf) as (? & ? & _). done.
Qed.
#[local] Hint Resolve stable_new_ReadEvent stable_set_flags stable_API_InstallDependencies : stable.

Lemma stable_PhpToKrollValue_fuel fuel v : stable (PhpToKrollValue_fuel W V fuel v).
Proof. revert v. induction fuel as [|fuel IH]; intros v; cbn [PhpToKrollValue_fuel]; stable_deep. Qed.
#[local] Hint Resolve stable_PhpToKrollValue_fuel : stable.

Lemma stable_run_callback cb args r : stable (run_callback W V cb args r).
Proof.
  destruct cb as [o m|n]; [|by apply ws_native]. destruct m; cbn [run_callback].
  all: repeat first
    [ match goal with |- stable (dangling_text _ _ ≫= _) => apply stable_dangling end
    | progress stable_deep_step ].
Qed.

Lemma stable_js_callback c : stable (js_callback W V c).
Proof. destruct c; cbn [js_callback jsanswer]; stable_deep. Qed.

Lemma stable_python_slot (A : Set) (s : pyslot A) : stable (python_slot W V A s).
Proof. destruct s; cbn [python_slot]; stable_deep. Qed.

Lemma stable_ruby_slot (A : Set) (s : rbslot A) : stable (ruby_slot W V A s).
Proof. destruct s as [| | | | | | | | | | |[] args]; cbn [ruby_slot]; stable_deep. Qed.

Lemma stable_php_slot (A : Set) (s : phpslot A) : stable (php_slot W V A s).
Proof. destruct s as [| | | | | | | | |[]| | | |]; cbn [php_slot php_method]; stable_deep. Qed.

Lemma dispatch_stable : vstable (dispatch W V).
Proof.
  assert (forall n, vstable (foreign W V n)) as Hfor by (intros n; by apply ws_foreign).
  constructor; intros; simpl.
  - unfold dispatch_Get. stable_deep.
  - unfold dispatch_Set. stable_deep.
  - unfold dispatch_HasProperty. stable_deep.
  - unfold dispatch_GetPropertyNames. stable_deep.
  - unfold dispatch_DisplayString. stable_deep.
  - unfold dispatch_Equals. stable_deep.
  - unfold dispatch_GetType. stable_deep.
  - unfold dispatch_Call. stable_deep.
  - unfold dispatch_Append. stable_deep.
  - unfold dispatch_Size. stable_deep.
  - unfold dispatch_At. stable_deep.
  - unfold dispatch_SetAt. stable_deep.
  - unfold dispatch_Remove. stable_deep.
  - apply stable_run_callback.
  - apply stable_js_callback.
  - apply stable_python_slot.
  - apply stable_ruby_slot.
  - apply stable_php_slot.
Qed.
End Operations.

Lemma vt_stable W n : world_stable W -> vstable (vt W n).
Proof.
  intros HW. induction n as [|n IH]; [apply vstable_no_ops|]. by apply (dispatch_stable W (vt W n)).
Qed.

(** What evolution keeps: a value that holds an object of the kind that its
    tag says goes on to do so. *)
Lemma evolves_class h h' o c :
  evolves h h' -> class_of h o = Some c -> exists c', class_of h' o = Some c' /\ same_kind c c'.
Proof.
  intros He Hc. unfold class_of in *. destruct (objs h !! o) as [x|] eqn:Hx; [|done].
  injection Hc as <-. destruct (ev_objs _ _ He o x Hx) as (x' & -> & _ & Hk). by exists (o_class x').
Qed.

Lemma same_kind_casts c c' :
  same_kind c c' -> is_list_class c' = is_list_class c /\ is_method_class c' = is_method_class c.
Proof.
  intros Hk. destruct c; destruct c'; try discriminate Hk; split; done.
Qed.

Lemma wf_value_evolves h h' w : evolves h h' -> wf_value h w -> wf_value h' w.
Proof.
  intros He. unfold wf_value. destruct (type w); try done;
    intros (o & x & Ho & Hx & Hc); destruct (ev_objs _ _ He o x Hx) as (x' & Hx' & _ & Hk);
    apply same_kind_casts in Hk as [Hl Hm]; exists o, x'; split_and!; congruence.
Qed.

(** ** Programs over the interface *)

(** What a module can write: the virtual operations, values, events, jobs,
    wrappers and the queue of the main thread, in sequence, with branches on
    what they answer, exceptions and repetition. *)
Inductive program (W : World) (V : VOps) : forall A, M A -> Prop :=
  | p_ret A (a : A) : program W V A (mret a)
  | p_bind A B (m : M A) (k : A -> M B) :
      program W V A m -> (forall a, program W V B (k a)) -> program W V B (m ≫= k)
  | p_throw A e : program W V A (throw e)
  | p_catch A (m : M A) k :
      program W V A m -> (forall e, program W V A (k e)) -> program W V A (try_catch m k)
  | p_while A B n (f : A -> M (A + B)) a :
      (forall a, program W V (A + B) (f a)) -> program W V B (loop n f a)
  | p_value l : program W V value (getv l)
  | p_class o : program W V class (class_at o)
  | p_Get o s : program W V loc (vGet V o s)
  | p_Set o s v : program W V unit (vSet V o s v)
  | p_HasProperty o s : program W V bool (vHasProperty V o s)
  | p_GetPropertyNames o : program W V names (vGetPropertyNames V o)
  | p_DisplayString o z : program W V str (vDisplayString V o z)
  | p_Equals o p : program W V bool (vEquals V o p)
  | p_GetType o : program W V str (vGetType V o)
  | p_Call o l : program W V loc (vCall V o l)
  | p_Append o v : program W V unit (vAppend V o v)
  | p_Size o : program W V Z (vSize V o)
  | p_At o i : program W V loc (vAt V o i)
  | p_SetAt o i v : program W V unit (vSetAt V o i v)
  | p_Remove o i : program W V bool (vRemove V o i)
  | p_SetInt l z : program W V unit (SetInt l z)
  | p_SetDouble l d : program W V unit (SetDouble l d)
  | p_SetBool l b : program W V unit (SetBool l b)
  | p_SetString l s : program W V unit (SetString l s)
  | p_SetList l o : program W V unit (SetList l o)
  | p_SetObject l o : program W V unit (SetObject l o)
  | p_SetMethod l o : program W V unit (SetMethod l o)
  | p_SetNull l : program W V unit (SetNull l)
  | p_SetUndefined l : program W V unit (SetUndefined l)
  | p_SetValue l v : program W V unit (SetValue l v)
  | p_NewUndefined : program W V loc NewUndefined
  | p_new_StaticBoundObject : program W V loc default_StaticBoundObject
  | p_new_StaticBoundList ty : program W V loc (new_StaticBoundList ty)
  | p_new_StaticBoundMethod cb : program W V loc (new_StaticBoundMethod cb)
  | p_new_KEventObject b ty : program W V loc (new_KEventObject V b ty)
  | p_Bind o s m : program W V unit (Bind V o s m)
  | p_SetNS o s v : program W V unit (SetNS V o s v)
  | p_GetNS o s : program W V loc (GetNS V o s)
  | p_ResizeTo o z : program W V unit (ResizeTo V o z)
  | p_AddEventListener o s v : program W V Z (AddEventListener o s v)
  | p_RemoveEventListener o s i v : program W V unit (RemoveEventListener V o s i v)
  | p_FireEvent o e : program W V bool (FireEvent W V o e)
  | p_new_Event o s : program W V loc (new_Event W V o s)
  | p_main_thread_job_handler : program W V unit (main_thread_job_handler W V)
  | p_Invoke o l b : program W V loc (InvokeMethodOnMainThread V o l b)
  | p_new_AsyncJob o : program W V loc (new_AsyncJob V o)
  | p_SetProgress o d b : program W V unit (SetProgress V o d b)
  | p_Run o : program W V unit (Run V o)
  | p_Cancel o : program W V unit (Cancel o)
  | p_Wrap v s : program W V loc (Wrap V v s)
  | p_Unwrap v : program W V unit (Value_Unwrap v)
  | p_CreateDelegate o p : program W V loc (CreateDelegate V o p)
  | p_ToKrollValue j c t : program W V loc (ToKrollValue W V j c t)
  | p_ToJSValue v c : program W V N (ToJSValue W V v c)
  | p_js_callback c : program W V (jsanswer c) (js_callback W V c)
  | p_CreateNewGlobalContext b : program W V N (CreateNewGlobalContext W V b)
  | p_Evaluate c s : program W V loc (KJS_Evaluate W V c s)
  | p_BindProperties g o : program W V unit (BindProperties W V g o)
  | p_PyToKrollValue o : program W V loc (PyToKrollValue W V o)
  | p_ToPyObject v : program W V N (ToPyObject W V v)
  | p_python_slot (A : Set) (s : pyslot A) : program W V A (python_slot W V A s)
  | p_PythonEvaluate l r : program W V unit (PythonEvaluator_Evaluate W V l r)
  | p_RbToKrollValue o : program W V loc (RbToKrollValue W V o)
  | p_ToRubyValue v : program W V N (ToRubyValue W V v)
  | p_ruby_slot (A : Set) (s : rbslot A) : program W V A (ruby_slot W V A s)
  | p_RubyEvaluate o l r : program W V unit (RubyEvaluator_Evaluate W V o l r)
  | p_PhpToKrollValue z : program W V loc (PhpToKrollValue W V z)
  | p_ToPHPValue v z : program W V unit (ToPHPValue W V v z)
  | p_php_slot (A : Set) (s : phpslot A) : program W V A (php_slot W V A s)
  | p_PHPEvaluate l r : program W V unit (PHPEvaluator_Evaluate W V l r)
  | p_PHPPreprocess l r : program W V unit (PHPEvaluator_Preprocess W V l r).

Lemma program_stable W V A (m : M A) : world_stable W -> vstable V -> program W V A m -> stable m.
Proof.
  intros HW HV. pose proof (stable_fire_loop W V HW HV) as H1.
  pose proof (stable_FireEvent_fuel W V HW HV) as H2. pose proof (stable_get_ns_loop V HV) as H3.
  pose proof (stable_remove_loop V HV) as H4. pose proof (stable_js_callback W V HW HV) as H5.
  pose proof (stable_ToKrollValue_fuel W V HW HV) as H6.
  pose proof (stable_python_slot W V HW HV) as H7.
  pose proof (stable_PyToKrollValue_fuel W V HW HV) as H8.
  pose proof (fun l r => stable_run_callback W V HW HV (Member 0%N PythonEvaluator__Evaluate) l r) as H9.
  pose proof (stable_ruby_slot W V HW HV) as H10.
  pose proof (fun o l r => stable_run_callback W V HW HV (Member o RubyEvaluator__Evaluate) l r) as H11.
  pose proof (stable_php_slot W V HW HV) as H12. pose proof (stable_PhpToKrollValue_fuel W V HW HV) as H13.
  pose proof (fun l r => stable_run_callback W V HW HV (Member 0%N PHPEvaluator__Evaluate) l r) as H14.
  pose proof (fun l r => stable_run_callback W V HW HV (Member 0%N PHPEvaluator__Preprocess) l r) as H15.
  cbn [run_callback] in H9, H11, H14, H15.
  induction 1; unfold class_at; stable_deep.
Qed.

(** Dynamic types are stable: whatever program runs over the interface of
    the binding layer (virtual calls at any depth, member functions, native
    callbacks, the JavaScript engine, the Python, Ruby and PHP interpreters and foreign
    objects that respect the same rule included), and however it ends, by a result, an exception or undefined
    behaviour: no live value or object disappears, an object keeps its type text and its
    class, with the fields that the functions of its class do not assign (the
    list keeps its element object, the event its target, name and time, the
    job its method, the API its logger; the flags of an event stay up), and a
    value that was well formed, so that a cast to a list or a method
    succeeded, is still well formed. *)
Theorem dynamic_types_stable W n A (m : M A) h :
  world_stable W -> program W (vt W n) A m -> fresh_ok h ->
  let h' := (m h).2 in
  fresh_ok h' /\
  (forall l, is_Some (vals h !! l) -> is_Some (vals h' !! l)) /\
  (forall o x, objs h !! o = Some x -> exists x', objs h' !! o = Some x' /\ o_type x' = o_type x /\
     same_kind (o_class x) (o_class x')) /\
  (forall w, wf_value h w -> wf_value h' w).
Proof.
  intros HW Hm Hf h'. destruct (program_stable W _ A m HW (vt_stable W n HW) Hm h Hf) as (Hf' & He & _).
  split_and!; [done|apply ev_vals, He|apply ev_objs, He|].
  intros w. by apply wf_value_evolves.
Qed.

(** A world whose native callback calls back: it reads a property of the
    object 2 and answers with it. *)
Definition calling_world : World := {|
  show_double _ := []; show_ptr _ := []; now _ := 0%Z;
  poco_toLower s := s; poco_toUpper s := s;
  native V _ _ r := v ← vGet V 2%N (lit "b"); SetValue r v;
  function_ptr _ _ _ := NewUndefined; foreign _ _ := no_ops;
  jsq := no_queries; js _ := no_js; pyq := no_pyq; py _ := no_py; rbq := no_rbq; rb _ := no_rb;
  phpq := no_phpq; php _ := no_php; poco_URI := no_uri;
  outside := quiet_system
|}.

Lemma calling_world_stable : world_stable calling_world.
Proof.
  split; intros V n; intros; simpl; [stable_deep|stable_deep|apply vstable_no_ops|apply jstable_no_js|
    apply stable_lift|apply stable_lift|apply stable_lift].
Qed.

(** The native callback becomes a property of the object 3 and is called. *)
Definition demo_program : M loc :=
  m ← new_StaticBoundMethod (Native 0);
  v ← NewUndefined;
  SetMethod v (Some m);;
  vSet (vt calling_world 4) 3%N (lit "run") v;;
  vCall (vt calling_world 4) m [].

Lemma dynamic_types_stable_witness :
  exists x', objs (demo_program demo_cycle_heap).2 !! 2%N = Some x' /\ same_kind StaticBoundObject (o_class x').
Proof.
  destruct (dynamic_types_stable calling_world 4 loc demo_program demo_cycle_heap)
    as (_ & _ & Ho & _).
  - exact calling_world_stable.
  - apply p_bind; [apply p_new_StaticBoundMethod|intros m].
    apply p_bind; [apply p_NewUndefined|intros v].
    apply p_bind; [apply p_SetMethod|intros _].
    apply p_bind; [apply p_Set|intros _]. apply p_Call.
  - apply fresh_check_ok. vm_compute. reflexivity.
  - destruct (Ho 2%N {| o_type := lit "StaticBoundObject"; properties := {[lit "b" := 5%N]};
                        o_class := StaticBoundObject |}) as (x' & Hx' & _ & Hk);
      [vm_compute; reflexivity|].
    exists x'. exact (conj Hx' Hk).
Defined.
