(* ===== verification/JavaScriptEngine.v ===== *)
(** * JavaScriptEngine: what JavaScriptCore promises

    The laws of JavaScriptCore that the module relies on are a class
    ([Engine]), with rules for computations that only make calm steps of it. A
    small engine without scripts shows that the laws can hold. *)

From S2P Require Import Prelude CppString Double Application System Heap JavaScriptCore Virtual KObject.
From S2P Require Import StaticBound StaticLaws ValueLaws JavaScript.
From Stdlib Require Import Floats.SpecFloat.
From stdpp Require Import options.

Definition js_of (h : heap) : JSState := s_js (sys h).
Definition set_js (f : JSState -> JSState) (h : heap) : heap :=
  with_sys (fun _ => with_js (f (js_of h)) (sys h)) h.

Lemma on_js_run f h : on_js (modify f) h = (Ret tt, set_js f h).
Proof. done. Qed.
Lemma query_run {A} (f : jsmem -> A) h : query f h = (Ret (f (jsmem_of h)), h).
Proof. done. Qed.

(** Text that UTF-8 and UTF-16 have in common. *)
Definition ascii_text (s : str) : Prop := Forall (fun c => (0 < N_of_ascii c < 128)%N) s.

Lemma ascii_text_no_nul s : ascii_text s -> c_str s = s.
Proof.
  intros H. apply c_str_id. eapply Forall_impl; [exact H|]. intros c [Hc _] ->. by vm_compute in Hc.
Qed.

(** How the laws see the memory of the engine: what the collector will not
    take, the objects that are plain (they and their prototypes are ordinary
    objects, whose properties are data: no callbacks, no getters), and what
    the properties of a plain object are. *)
Record JSView := {
  live : jsmem -> N -> Prop;
  plain : jsmem -> N -> Prop;
  prop : jsmem -> N -> jsstr -> option N
}.

Section Engine.
Context (W : World) (V : VOps) (L : JSView).
#[local] Abbreviation Q := (jsq W).
#[local] Abbreviation E := (js W V).
#[local] Abbreviation live := (live L).
#[local] Abbreviation plain := (plain L).
#[local] Abbreviation prop := (prop L).

(** What a step of the engine that runs no script leaves: the values, the
    objects and the contexts, and the cells of the objects that it has not
    collected. A [live]
    object (reached from a root of the collector) keeps its data. *)
Record calm (h h' : heap) : Prop := {
  cm_next : next h' = next h;
  cm_vals : vals h' = vals h;
  cm_objs : objs h' = objs h;
  cm_map : jsContextMap (js_of h') = jsContextMap (js_of h);
  cm_global c : JSContextGetGlobalObject Q (jsmem_of h') c = JSContextGetGlobalObject Q (jsmem_of h) c;
  cm_group c : JSContextGetGroup Q (jsmem_of h') c = JSContextGetGroup Q (jsmem_of h) c;
  cm_live o : live (jsmem_of h) o -> live (jsmem_of h') o;
  cm_private o : live (jsmem_of h) o ->
    JSObjectGetPrivate Q (jsmem_of h') o = JSObjectGetPrivate Q (jsmem_of h) o;
  cm_type o c : live (jsmem_of h) o ->
    JSValueGetType Q (jsmem_of h') c o = JSValueGetType Q (jsmem_of h) c o;
  cm_function o c : live (jsmem_of h) o ->
    JSObjectIsFunction Q (jsmem_of h') c o = JSObjectIsFunction Q (jsmem_of h) c o;
  cm_plain o : live (jsmem_of h) o -> plain (jsmem_of h) o -> plain (jsmem_of h') o;
  cm_prop o n : live (jsmem_of h) o -> plain (jsmem_of h) o -> prop (jsmem_of h') o n = prop (jsmem_of h) o n;
  cm_cells o p : live (jsmem_of h) o -> JSObjectGetPrivate Q (jsmem_of h) o = Some p ->
    js_cells (js_of h') !! p = js_cells (js_of h) !! p
}.

#[export] Instance calm_preorder : PreOrder calm.
Proof.
  split; [by split|]. intros h1 h2 h3 [] [].
  split; try congruence; try (intros; by auto).
  - intros o Ho. rewrite cm_private1, cm_private0; auto.
  - intros o c Ho. rewrite cm_type1, cm_type0; auto.
  - intros o c Ho. rewrite cm_function1, cm_function0; auto.
  - intros o n Ho Hp. rewrite cm_prop1, cm_prop0; auto.
  - intros o p Ho Hp. rewrite (cm_cells1 o); [apply (cm_cells0 o)| |rewrite cm_private0]; auto.
Qed.

(** [m] answers by a calm step. *)
Definition calmly {A} (m : M A) (h : heap) (P : A -> heap -> Prop) : Prop :=
  exists a h', m h = (Ret a, h') /\ calm h h' /\ P a h'.

(** The documented behaviour of the functions of JavaScriptCore. *)
Class Engine : Prop := {
  en_number ctx d h : calmly (JSValueMakeNumber E ctx d) h (fun r h' =>
    JSValueGetType Q (jsmem_of h') ctx r = JSNumber /\
    calmly (JSValueToNumber E ctx r) h' (fun x _ => x = (d, None)));
  en_boolean ctx b h : calmly (JSValueMakeBoolean E ctx b) h (fun r h' =>
    JSValueGetType Q (jsmem_of h') ctx r = JSBoolean /\ JSValueToBoolean Q (jsmem_of h') ctx r = b);
  en_string ctx s h : calmly (JSValueMakeString E ctx s) h (fun r h' =>
    JSValueGetType Q (jsmem_of h') ctx r = JSString /\
    calmly (JSValueToStringCopy E ctx r) h' (fun x _ => x = (Some s, None)));
  en_null ctx h : calmly (JSValueMakeNull E ctx) h (fun r h' =>
    JSValueGetType Q (jsmem_of h') ctx r = JSNull);
  en_undefined ctx h : calmly (JSValueMakeUndefined E ctx) h (fun r h' =>
    JSValueGetType Q (jsmem_of h') ctx r = JSUndefined);
  en_utf8 s : ascii_text s -> JSStringGetUTF8CString Q (JSStringCreateWithUTF8CString Q s) = s;
  en_class d h : calmly (JSClassCreate E d) h (fun _ _ => True);
  en_make ctx c p h : calmly (JSObjectMake E ctx c p) h (fun o h' =>
    live (jsmem_of h') o /\ JSObjectGetPrivate Q (jsmem_of h') o = Some p /\
    (forall ctx', JSValueGetType Q (jsmem_of h') ctx' o = JSObject) /\
    js_cells (js_of h') !! p = js_cells (js_of h) !! p);
  en_to_object ctx v h : calmly (JSValueToObject E ctx v) h (fun r _ =>
    JSValueGetType Q (jsmem_of h) ctx v = JSObject -> r = (Some v, None));
  en_get ctx o name h : live (jsmem_of h) o -> plain (jsmem_of h) o ->
    calmly (JSObjectGetProperty E ctx o name) h (fun r _ =>
      forall v, prop (jsmem_of h) o name = Some v -> r = (Some v, None));
  en_has ctx o name h : live (jsmem_of h) o -> plain (jsmem_of h) o ->
    calmly (JSObjectHasProperty E ctx o name) h (fun b _ =>
      b = bool_decide (is_Some (prop (jsmem_of h) o name)));
  en_set_prototype ctx o p h : JSObjectGetPrivate Q (jsmem_of h) o <> None ->
    calmly (JSObjectSetPrototype E ctx o p) h (fun _ _ => True);
  en_protect c o h : calmly (JSValueProtect E c o) h (fun _ _ => True);
  en_retain c h : calmly (JSGlobalContextRetain E c) h (fun _ _ => True)
}.

(** The constructors [Function] and [Array] of the context are ordinary. *)
Definition builtin (m : jsmem) (ctx : N) (name : str) : Prop :=
  exists f, prop m (JSContextGetGlobalObject Q m ctx) (js_string W name) = Some f /\
    live m f /\ plain m f /\ JSValueGetType Q m ctx f = JSObject.
Definition builtins (m : jsmem) (ctx : N) : Prop :=
  live m (JSContextGetGlobalObject Q m ctx) /\ plain m (JSContextGetGlobalObject Q m ctx) /\
  builtin m ctx (lit "Function") /\ builtin m ctx (lit "Array").
Lemma builtins_calm h h' ctx : calm h h' -> builtins (jsmem_of h) ctx -> builtins (jsmem_of h') ctx.
Proof.
  intros C (Hl & Hp & H1 & H2). unfold builtins. rewrite (cm_global _ _ C).
  assert (forall name, builtin (jsmem_of h) ctx name -> builtin (jsmem_of h') ctx name) as Hb.
  { intros name (f & Ef & Hfl & Hfp & Hft). exists f. rewrite (cm_global _ _ C), (cm_prop _ _ C), (cm_type _ _ C) by done.
    split_and!; [done|by apply (cm_live _ _ C)|by apply (cm_plain _ _ C)|done]. }
  split_and!; [by apply (cm_live _ _ C)|by apply (cm_plain _ _ C)|auto..].
Qed.

(** ** Rules for calm computations *)

Lemma calmly_bind {A B} (m : M A) (f : A -> M B) h P R :
  calmly m h P -> (forall a h', calm h h' -> P a h' -> calmly (f a) h' R) -> calmly (m ≫= f) h R.
Proof.
  intros (a & h1 & E1 & C1 & HP) Hf. destruct (Hf a h1 C1 HP) as (b & h2 & E2 & C2 & HR).
  exists b, h2. split_and!; [by step E1|by etrans|done].
Qed.
Lemma calmly_ret {A} (a : A) h (P : A -> heap -> Prop) : P a h -> calmly (mret a) h P.
Proof. intros HP. by exists a, h. Qed.
Lemma calmly_true {A} (m : M A) a h : m h = (Ret a, h) -> calmly m h (fun a' h' => a' = a /\ h' = h).
Proof. intros E1. by exists a, h. Qed.
Lemma calmly_query {A} (f : jsmem -> A) h (P : A -> heap -> Prop) :
  P (f (jsmem_of h)) h -> calmly (query f) h P.
Proof. intros HP. by exists (f (jsmem_of h)), h. Qed.
Lemma calmly_weaken {A} (m : M A) h (P P' : A -> heap -> Prop) :
  calmly m h P -> (forall a h', calm h h' -> P a h' -> P' a h') -> calmly m h P'.
Proof. intros (a & h' & E1 & C1 & HP) Himp. exists a, h'. auto. Qed.

(** A change of the classes is calm. *)
Lemma calm_classes o m l h : calm h (set_js (j_with_classes o m l) h).
Proof. by split. Qed.

Section Calm.
Context {HE : Engine}.
#[local] Set Default Proof Using "Type*".

Lemma the_class_run get set d h :
  (forall c j, exists o m l, set c j = j_with_classes o m l j) ->
  calmly (the_class W V get set d) h (fun _ _ => True).
Proof.
  intros Hset. unfold the_class. eapply calmly_bind; [by apply calmly_true|].
  intros c h1 _ [-> ->]. case_match; [by apply calmly_ret|].
  eapply calmly_bind; [apply en_class|]. intros c h2 _ _.
  destruct (Hset c (js_of h2)) as (o & m & l & Ec).
  apply (calmly_bind _ _ _ (fun _ _ => True)); [|intros; by apply calmly_ret].
  eexists tt, (set_js (set c) h2). split_and!; [apply on_js_run| |exact I].
  unfold set_js. rewrite Ec. apply calm_classes.
Qed.

Lemma GetPrototype_run name ctx h :
  builtins (jsmem_of h) ctx -> name ∈ [lit "Function"; lit "Array"] ->
  calmly (GetPrototype W V name ctx) h (fun _ _ => True).
Proof.
  intros Hb Hn. assert (builtin (jsmem_of h) ctx name) as (f & Ef & Hfl & Hfp & Hft).
  { destruct Hb as (_ & _ & H1 & H2). rewrite !elem_of_cons, elem_of_nil in Hn. by destruct Hn as [->|[->|[]]]. }
  destruct Hb as (Hgl & Hgp & _). unfold GetPrototype.
  eapply calmly_bind; [by apply calmly_true|]. intros g h0 _ [-> ->].
  eapply calmly_bind; [by apply en_get|]. intros r h1 C1 Hr. rewrite (Hr f Ef).
  eapply calmly_bind; [apply en_to_object|]. intros r2 h2 C2 Hr2.
  rewrite Hr2 by (by rewrite (cm_type _ _ C1)).
  assert (live (jsmem_of h2) f /\ plain (jsmem_of h2) f) as [Hl2 Hp2].
  { split; [by apply (cm_live _ _ C2), (cm_live _ _ C1)|].
    apply (cm_plain _ _ C2); [by apply (cm_live _ _ C1)|by apply (cm_plain _ _ C1)]. }
  eapply calmly_bind; [by apply en_get|]. intros [[p|] e''] h3 _ _;
    [by apply calmly_ret|by eapply calmly_weaken; [apply en_undefined|]].
Qed.
End Calm.
End Engine.

Arguments cm_next {W L h h'} _.
Arguments cm_vals {W L h h'} _.
Arguments cm_objs {W L h h'} _.
Arguments cm_map {W L h h'} _.
Arguments cm_global {W L h h'} _.
Arguments cm_group {W L h h'} _.
Arguments cm_live {W L h h'} _.
Arguments cm_private {W L h h'} _.
Arguments cm_type {W L h h'} _.
Arguments cm_function {W L h h'} _.
Arguments cm_plain {W L h h'} _.
Arguments cm_prop {W L h h'} _.
Arguments builtins_calm {W L h h' ctx}.
Arguments cm_cells {W L h h'} _.
Arguments en_number {W V L _}.
Arguments en_boolean {W V L _}.
Arguments en_string {W V L _}.
Arguments en_null {W V L _}.
Arguments en_undefined {W V L _}.
Arguments en_utf8 {W V L _}.
Arguments en_class {W V L _}.
Arguments en_make {W V L _}.
Arguments en_to_object {W V L _}.
Arguments en_get {W V L _}.
Arguments en_set_prototype {W V L _}.
Arguments en_has {W V L _}.
Arguments en_protect {W V L _}.
Arguments en_retain {W V L _}.
Arguments calmly_bind {W L}.
Arguments calmly_ret {W L}.
Arguments calmly_true {W L}.
Arguments calmly_query {W L}.
Arguments calmly_weaken {W L}.
Arguments calm_classes {W L}.
Arguments the_class_run {W V L HE}.
Arguments GetPrototype_run {W V L HE}.

(** ** A small engine

    Values are words at addresses: a tag and the contents. It has no scripts
    and no garbage collection. The objects with the tag 7 are the value of each
    of their properties; the others have none. *)
Module SmallEngine.

Definition word_of_Z (z : Z) : N := match z with Z0 => 0 | Zpos p => Npos p~0 | Zneg p => Npos p~1 end.
Definition Z_of_word (n : N) : Z := match n with Npos p~0 => Zpos p | Npos p~1 => Zneg p | _ => 0 end.

Definition words_of_double (d : double) : list N :=
  match d with
  | S754_zero s => [0; N.b2n s]
  | S754_infinity s => [1; N.b2n s]
  | S754_nan => [2]
  | S754_finite s m e => [3; N.b2n s; Npos m; word_of_Z e]
  end%N.
Definition double_of_words (l : list N) : double :=
  match l with
  | [0; s] => S754_zero (s =? 1)
  | [1; s] => S754_infinity (s =? 1)
  | [3; s; Npos m; e] => S754_finite (s =? 1) m (Z_of_word e)
  | _ => S754_nan
  end%N.

Lemma double_of_words_of d : double_of_words (words_of_double d) = d.
Proof. destruct d as [[]|[]| |[] m [|p|p]]; reflexivity. Qed.

Definition set_memory (f : jsmem -> jsmem) (h : heap) : heap :=
  set_js (fun j =>
    {| js_cells := js_cells j; KJSKObjectClass := KJSKObjectClass j;
       KJSKMethodClass := KJSKMethodClass j; KJSKListClass := KJSKListClass j;
       jsContextMap := jsContextMap j; jsContextRefCounts := jsContextRefCounts j;
       js_memory := f (js_memory j) |}) h.
Definition store (l : list N) : M N := fun h =>
  let a := fresh (dom (jsmem_of h)) in (Ret a, set_memory (<[a := l]>) h).

Definition words (m : jsmem) (a : N) : list N := default [] (m !! a).

Definition queries : JSQueries := {|
  JSValueGetType m _ a := match words m a with
                          | 0 :: _ => JSNull | 1 :: _ => JSNumber | 2 :: _ => JSString
                          | 3 :: _ | 7 :: _ => JSObject | 4 :: _ => JSBoolean | _ => JSUndefined
                          end%N;
  JSValueToBoolean m _ a := bool_decide (words m a = [4; 1]%N);
  JSValueIsStrictEqual _ _ a b := (a =? b)%N;
  JSObjectGetPrivate m a := match words m a with [3; p]%N => Some p | _ => None end;
  JSObjectIsFunction _ _ _ := false; JSObjectGetPrototype _ _ _ := 0%N;
  JSContextGetGlobalObject _ c := c; JSContextGetGroup _ c := 0%N;
  JSStringCreateWithUTF8CString s := map N_of_ascii s;
  JSStringGetUTF8CString s := map ascii_of_N s
|}.

Definition property (m : jsmem) (a : N) (_ : jsstr) : option N :=
  match words m a with 7 :: _ => Some a | _ => None end%N.
Definition ask {A} (f : jsmem -> A) : M A := query f.

(** With a way to count what holds a context. *)
Definition ops_with (retain release : N -> M unit) : JSOps := {|
  JSValueToNumber _ a := ask (fun m => (double_of_words (tail (words m a)), None));
  JSValueToStringCopy _ a := ask (fun m => (Some (tail (words m a)), None));
  JSValueToObject _ a := mret (Some a, None);
  JSValueMakeNumber _ d := store (1%N :: words_of_double d);
  JSValueMakeBoolean _ b := store [4%N; N.b2n b];
  JSValueMakeString _ s := store (2%N :: s);
  JSValueMakeNull _ := store [0%N];
  JSValueMakeUndefined _ := store [5%N];
  JSValueProtect _ _ := mret tt; JSValueUnprotect _ _ := mret tt;
  JSClassCreate _ := store [6%N];
  JSObjectMake _ _ p := store [3%N; p];
  JSObjectMakeFunctionWithCallback _ _ _ := store [3%N];
  JSObjectSetPrototype _ _ _ := mret tt;
  JSObjectHasProperty _ o n := ask (fun m => bool_decide (is_Some (property m o n)));
  JSObjectGetProperty _ o n := ask (fun m => (property m o n, None));
  JSObjectSetProperty _ _ _ _ := mret None;
  JSObjectCallAsFunction _ _ _ _ := mret (None, None);
  JSObjectCopyPropertyNames _ _ := mret [];
  JSCheckScriptSyntax _ _ := mret (true, None);
  JSEvaluateScript _ _ _ := mret (None, None);
  JSGlobalContextCreate := store [3%N];
  JSGlobalContextRetain := retain; JSGlobalContextRelease := release
|}.
Definition ops : JSOps := ops_with (fun _ => mret tt) (fun _ => mret tt).

Definition world_with (J : JSOps) : World := {|
  show_double _ := []; show_ptr _ := []; now _ := 0%Z; poco_toLower s := s; poco_toUpper s := s;
  native _ _ _ _ := mret tt; function_ptr _ _ _ := NewUndefined; foreign _ _ := no_ops;
  jsq := queries; js _ := J; pyq := no_pyq; py _ := no_py; rbq := no_rbq; rb _ := no_rb;
  phpq := no_phpq; php _ := no_php; poco_URI := no_uri; outside := quiet_system
|}.
Definition world : World := world_with ops.

Definition view : JSView := {|
  live m a := is_Some (m !! a);
  plain m a := exists w, words m a = 3 :: w \/ words m a = 7 :: w;
  prop := property
|}%N.

Lemma engine_store_run l h :
  calmly world view (store l) h (fun a h' =>
    live view (jsmem_of h') a /\ words (jsmem_of h') a = l /\ js_cells (js_of h') = js_cells (js_of h)).
Proof.
  eexists _, _. split; [reflexivity|]. set (a := fresh (dom (jsmem_of h))).
  assert (jsmem_of h !! a = None) as Ha by apply not_elem_of_dom, is_fresh.
  match goal with |- calm _ _ h ?x /\ _ => set (h' := x) end.
  assert (jsmem_of h' = <[a := l]> (jsmem_of h)) as Em by done.
  assert (forall o, live view (jsmem_of h) o -> jsmem_of h' !! o = jsmem_of h !! o) as Hl.
  { intros o [w Hw]. rewrite Em, lookup_insert_ne; [done|congruence]. }
  assert (jsmem_of h' !! a = Some l) as Hal by (rewrite Em; apply lookup_insert_eq).
  assert (forall o, live view (jsmem_of h) o -> words (jsmem_of h') o = words (jsmem_of h) o) as Hw
    by (intros o Ho; unfold words; by rewrite Hl).
  split; [split; try done|].
  - intros o Ho. unfold live in *. cbn [view] in *. by rewrite Hl.
  - intros o Ho. cbn. by rewrite Hw.
  - intros o c Ho. cbn. by rewrite Hw.
  - intros o Ho. cbn. by rewrite Hw.
  - intros o n Ho _. cbn. unfold property. by rewrite Hw.
  - split_and!; [by eexists|unfold words; by rewrite Hal|done].
Qed.

#[export] Instance engine V : Engine world V view.
Proof.
  assert (forall h (P : unit -> heap -> Prop), P tt h -> calmly world view (mret tt) h P) as Hret
    by (intros; by apply calmly_ret).
  split; intros; simpl.
  - eapply calmly_weaken; [apply engine_store_run|]. intros r h' _ (_ & Hw & _). simpl. rewrite Hw.
    split; [done|]. eexists _, h'. split; [reflexivity|]. split; [reflexivity|].
    rewrite Hw. simpl. by rewrite double_of_words_of.
  - eapply calmly_weaken; [apply engine_store_run|]. intros r h' _ (_ & Hw & _). simpl. rewrite Hw. by destruct b.
  - eapply calmly_weaken; [apply engine_store_run|]. intros r h' _ (_ & Hw & _). simpl. rewrite Hw.
    split; [done|]. eexists _, h'. split; [reflexivity|]. split; [reflexivity|]. by rewrite Hw.
  - eapply calmly_weaken; [apply engine_store_run|]. intros r h' _ (_ & Hw & _). simpl. by rewrite Hw.
  - eapply calmly_weaken; [apply engine_store_run|]. intros r h' _ (_ & Hw & _). simpl. by rewrite Hw.
  - rewrite map_map. erewrite map_ext; [apply map_id|]. intros c. apply ascii_N_embedding.
  - by eapply calmly_weaken; [apply engine_store_run|].
  - eapply calmly_weaken; [apply engine_store_run|]. intros r h' _ (Hl & Hw & Hc). simpl. rewrite Hw, Hc. done.
  - by apply calmly_ret.
  - apply calmly_query. intros v' Hv'. cbn in Hv'. by rewrite Hv'.
  - by apply calmly_query.
  - by apply calmly_ret.
  - by apply calmly_ret.
  - by apply calmly_ret.
Qed.
End SmallEngine.
