(* ===== verification/JavaScriptLaws.v ===== *)
(** * JavaScriptLaws: what crosses the border to JavaScript and back

    Under the laws of JavaScriptCore, a value that goes to JavaScript comes
    back as the same number, truth value, text or the very same [SharedValue],
    and an object of JavaScript comes back as the same object. *)

From S2P Require Import Prelude CppString Double Application System Heap JavaScriptCore Virtual KObject.
From S2P Require Import StaticBound StaticLaws ValueLaws JavaScript JavaScriptEngine Dispatch DispatchLaws.
From stdpp Require Import options.

Section Border.
Context (W : World) (V : VOps) (L : JSView) (HE : Engine W V L).
#[local] Set Default Proof Using "Type*".
#[local] Abbreviation Q := (jsq W).
#[local] Abbreviation E := (js W V).
#[local] Abbreviation calm := (calm W L).
#[local] Abbreviation calmly := (calmly W L).
#[local] Abbreviation live := (live L).
#[local] Abbreviation plain := (plain L).
#[local] Abbreviation prop := (prop L).
#[local] Abbreviation builtins := (builtins W L).

(** ** Wrapped values *)

(** [o] is a live object with the [SharedValue] [l]. *)
Definition wraps (h : heap) (o : N) (l : loc) : Prop :=
  live (jsmem_of h) o /\ (forall ctx, JSValueGetType Q (jsmem_of h) ctx o = JSObject) /\
  exists p, JSObjectGetPrivate Q (jsmem_of h) o = Some p /\ js_cells (js_of h) !! p = Some l.

Lemma wraps_calm h h' o l : calm h h' -> wraps h o l -> wraps h' o l.
Proof.
  intros C (Hl & Ht & p & Hp & Hc). split_and!; [by apply (cm_live C)| |exists p; split].
  - intros ctx. by rewrite (cm_type C).
  - by rewrite (cm_private C).
  - by rewrite (cm_cells C o).
Qed.

(** [h'] has the values of [h], and more. *)
Definition values_kept (h h' : heap) : Prop :=
  (next h <= next h')%N /\ (forall l v, vals h !! l = Some v -> vals h' !! l = Some v) /\
  jsContextMap (js_of h') = jsContextMap (js_of h).
#[local] Instance values_kept_preorder : PreOrder values_kept.
Proof.
  split; [by intros h|]. intros h1 h2 h3 (? & ? & ?) (? & ? & ?).
  split_and!; [lia|auto|congruence].
Qed.
Lemma calm_values_kept h h' : calm h h' -> values_kept h h'.
Proof. intros C. split_and!; [by rewrite (cm_next C)|by rewrite (cm_vals C)|apply (cm_map C)]. Qed.

Lemma make_wrapper_run c l ctx h :
  exists o h', (p ← new_cell l; JSObjectMake E ctx c p) h = (Ret o, h') /\ wraps h' o l /\
    values_kept h h' /\ forall ctx', builtins (jsmem_of h) ctx' -> builtins (jsmem_of h') ctx'.
Proof.
  set (h1 := set_js (j_with_cells (<[next h := l]>)) (with_next (N.succ (next h)) h)).
  assert (new_cell l h = (Ret (next h), h1)) as E1 by done.
  destruct (en_make ctx c (next h) h1) as (o & h2 & E2 & C2 & Hl & Hp & Ht & Hc).
  exists o, h2. split_and!; [by step E1| | |].
  - split_and!; [done|done|]. exists (next h). split; [done|]. rewrite Hc. simpl. apply lookup_insert_eq.
  - etrans; [|by apply calm_values_kept]. split_and!; [simpl; lia|done|done].
  - intros ctx' Hb. by apply (builtins_calm C2).
Qed.

Lemma class_wraps get set d l ctx h :
  (forall c j, exists o m l, set c j = j_with_classes o m l j) ->
  exists o h', (c ← the_class W V get set d; p ← new_cell l; JSObjectMake E ctx c p) h = (Ret o, h') /\
    wraps h' o l /\ values_kept h h'.
Proof.
  intros Hset. destruct (the_class_run get set d h Hset) as (c & h1 & E1 & C1 & _).
  destruct (make_wrapper_run c l ctx h1) as (o & h2 & E2 & Hw & Hk & _).
  exists o, h2. split_and!; [by step E1|done|]. etrans; [by apply calm_values_kept|done].
Qed.

Lemma prototype_wraps get set d name l ctx h :
  (forall c j, exists o m l, set c j = j_with_classes o m l j) ->
  builtins (jsmem_of h) ctx -> name ∈ [lit "Function"; lit "Array"] ->
  exists o h', (c ← the_class W V get set d; p ← new_cell l; j ← JSObjectMake E ctx c p;
                q ← GetPrototype W V name ctx; JSObjectSetPrototype E ctx j q;; mret j) h = (Ret o, h') /\
    wraps h' o l /\ values_kept h h'.
Proof.
  intros Hset Hb Hn. destruct (the_class_run get set d h Hset) as (c & hc & Ec & Cc & _).
  destruct (make_wrapper_run c l ctx hc) as (o & h1 & E1 & Hw & Hk & B1).
  destruct (GetPrototype_run name ctx h1 (B1 ctx (builtins_calm Cc Hb)) Hn) as (q & h2 & E2 & C2 & _).
  pose proof (wraps_calm _ _ _ _ C2 Hw) as Hw2.
  destruct (en_set_prototype ctx o q h2) as (u & h3 & E3 & C3 & _).
  { by destruct Hw2 as (_ & _ & p & -> & _). }
  exists o, h3. split_and!.
  - step Ec. apply st_bind_Ret_inv in E1 as (p & hp & Ep & E1). step Ep. step E1. step E2. by step E3.
  - by apply (wraps_calm h2).
  - etrans; [by apply calm_values_kept|]. etrans; [done|]. etrans; by apply calm_values_kept.
Qed.

(** The test for a proxy that [ToJSValue] makes for each type of object. *)
Definition proxy_test (ty : vtype) : class -> option (N * N) :=
  match ty with
  | OBJECT => as_KKJSObject
  | METHOD => as_KKJSMethod
  | LIST => as_KKJSList
  | _ => fun _ => None
  end.

(** [v] is one of the three types of object, with the object [o] of the class [k]. *)
Definition object_value (h : heap) (v : value) (o : loc) (k : class) : Prop :=
  objectValue v = Some o /\ class_of h o = Some k /\
  match type v with
  | OBJECT => True
  | METHOD => is_method_class k = true
  | LIST => is_list_class k = true
  | _ => False
  end.

(** It is not a proxy for a context of the group of [ctx], or it is the proxy
    of [j]. *)
Definition not_proxy (h : heap) (v : value) (ctx : N) : Prop :=
  exists o k, object_value h v o k /\ forall c j, proxy_test (type v) k = Some (c, j) ->
    JSContextGetGroup Q (jsmem_of h) c <> JSContextGetGroup Q (jsmem_of h) ctx.
Definition proxied (h : heap) (v : value) (ctx j : N) : Prop :=
  exists o k c, object_value h v o k /\ proxy_test (type v) k = Some (c, j) /\
    JSContextGetGroup Q (jsmem_of h) c = JSContextGetGroup Q (jsmem_of h) ctx.

Lemma own_object_run proxy o k ctx h :
  class_of h o = Some k -> own_object W proxy (Some o) ctx h
  = (Ret (match proxy k with
          | Some (c, j) => if (JSContextGetGroup Q (jsmem_of h) c =? JSContextGetGroup Q (jsmem_of h) ctx)%N
                           then Some j else None
          | None => None
          end), h).
Proof.
  unfold class_of. intros Hc. unfold own_object. destruct (objs h !! o) as [x|] eqn:Hx; [|done].
  injection Hc as <-. erewrite st_bind_Ret; [|unfold geto; by rewrite Hx].
  destruct (proxy (o_class x)) as [[c j]|]; [|done]. unfold SameContextGroup. by erewrite st_bind_Ret; [|apply query_run].
Qed.

(** The conversion of the three types, after the test. *)
Definition wrapped_value_of (ty : vtype) (l : loc) (ctx : N) : M N :=
  match ty with
  | OBJECT => KObjectToJSValue W V l ctx
  | METHOD => KMethodToJSValue W V l ctx
  | LIST => KListToJSValue W V l ctx
  | _ => undef
  end.
Lemma ToJSValue_object l v o k ctx h :
  vals h !! l = Some v -> object_value h v o k ->
  ToJSValue W V l ctx h
  = (own ← own_object W (proxy_test (type v)) (Some o) ctx;
     match own with Some j => mret j | None => wrapped_value_of (type v) l ctx end) h.
Proof.
  intros Hl (Ho & Hc & Ht). unfold ToJSValue. step (getv_run _ _ _ Hl).
  unfold IsInt, IsDouble, IsBool, IsString, IsObject, IsMethod, IsList.
  destruct (objs h !! o) as [x|] eqn:Hx; [|unfold class_of in Hc; by rewrite Hx in Hc].
  assert (k = o_class x) as -> by (unfold class_of in Hc; rewrite Hx in Hc; by injection Hc).
  destruct (type v) eqn:Ety; try done; simpl.
  - unfold ToList. rewrite Ho. by step (dynamic_cast_run is_list_class _ _ _ Hx Ht).
  - unfold ToObject. by rewrite Ho.
  - unfold ToMethod. rewrite Ho. by step (dynamic_cast_run is_method_class _ _ _ Hx Ht).
Qed.

Lemma ToJSValue_wraps l v ctx h :
  vals h !! l = Some v -> not_proxy h v ctx -> (type v = OBJECT \/ builtins (jsmem_of h) ctx) ->
  exists o h', ToJSValue W V l ctx h = (Ret o, h') /\ wraps h' o l /\ values_kept h h'.
Proof.
  intros Hl (o & k & Hov & Hp) Hb. rewrite (ToJSValue_object l v o k ctx h Hl Hov).
  step (own_object_run (proxy_test (type v)) o k ctx h (proj1 (proj2 Hov))).
  replace (match proxy_test (type v) k with
           | Some (c, j) => if (JSContextGetGroup Q (jsmem_of h) c =? JSContextGetGroup Q (jsmem_of h) ctx)%N
                            then Some j else None
           | None => None
           end) with (@None N)
    by (destruct (proxy_test (type v) k) as [[c j]|]; [|done]; by rewrite (proj2 (N.eqb_neq _ _)) by eauto).
  destruct Hov as (_ & _ & Ht). destruct (type v) eqn:Ety; try done; simpl.
  - apply prototype_wraps; [by eauto|by destruct Hb|set_solver].
  - apply class_wraps. by eauto.
  - apply prototype_wraps; [by eauto|by destruct Hb|set_solver].
Qed.

Lemma ToJSValue_proxied l v ctx j h :
  vals h !! l = Some v -> proxied h v ctx j -> ToJSValue W V l ctx h = (Ret j, h).
Proof.
  intros Hl (o & k & c & Hov & Hp & Hg). rewrite (ToJSValue_object l v o k ctx h Hl Hov).
  step (own_object_run (proxy_test (type v)) o k ctx h (proj1 (proj2 Hov))).
  by rewrite Hp, Hg, N.eqb_refl.
Qed.

Lemma unwrap_run n o l ctx t h :
  wraps h o l -> exists h', ToKrollValue_fuel W V (S n) (Some o) ctx t h = (Ret l, h') /\ calm h h'.
Proof.
  intros Hw. pose proof Hw as (Hl & Ht & p & Hp & Hc). cbn [ToKrollValue_fuel]. unfold convert.
  destruct (en_to_object ctx o h) as (r & h1 & E1 & C1 & Hr). rewrite (Hr (Ht ctx)) in E1.
  exists h1. split; [|done]. rewrite st_bind_assoc. step (query_run (fun m => JSValueGetType Q m ctx o) h).
  rewrite (Ht ctx). unfold object_to_kroll. rewrite st_bind_assoc. step E1.
  pose proof (wraps_calm h h1 o l C1 Hw) as (_ & _ & p' & Hp' & Hc').
  unfold private. rewrite st_bind_assoc. step (query_run (fun m => JSObjectGetPrivate Q m o) h1).
  rewrite Hp'. rewrite st_bind_assoc.
  assert (cell p' h1 = (Ret l, h1)) as E2.
  { unfold cell, the_js, gets, mbind, st_bind, some_or_undef, lift. change (s_js (sys h1)) with (js_of h1).
    by rewrite Hc'. }
  by step E2.
Qed.

(** ** Objects of JavaScript that come and go back *)

(** The context's global object is known, and so is that of its global context. *)
Definition registered (h : heap) (ctx c : N) : Prop :=
  jsContextMap (js_of h) !! JSContextGetGlobalObject Q (jsmem_of h) ctx = Some c /\
  jsContextMap (js_of h) !! JSContextGetGlobalObject Q (jsmem_of h) c = Some c /\
  JSContextGetGroup Q (jsmem_of h) c = JSContextGetGroup Q (jsmem_of h) ctx.

Lemma registered_calm h h' ctx c : calm h h' -> registered h ctx c -> registered h' ctx c.
Proof.
  intros C1 (H1 & H2 & H3). unfold registered.
  by rewrite (cm_map C1), !(cm_global C1), !(cm_group C1).
Qed.

Lemma ProtectGlobalContext_calm c h : calmly (ProtectGlobalContext W V (Some c)) h (fun _ _ => True).
Proof.
  unfold ProtectGlobalContext. eapply calmly_bind; [by apply calmly_true|]. intros ? h0 _ [-> ->].
  eapply calmly_bind; [by apply calmly_true|]. intros ? h1 _ [-> ->].
  assert (forall h f, calmly (on_js (modify (j_with_contexts id f))) h (fun _ _ => True)) as Hset
    by (intros h' f; eexists tt, _; split_and!; [apply on_js_run|by split|exact I]).
  case_match; [apply Hset|]. eapply calmly_bind; [apply en_retain|]. intros ? h1 _ _. apply Hset.
Qed.

Lemma proxy_context_run ctx j c h :
  jsContextMap (js_of h) !! JSContextGetGlobalObject Q (jsmem_of h) ctx = Some c ->
  calmly (proxy_context W V ctx j) h (fun c' _ => c' = c).
Proof.
  intros Hm. unfold proxy_context. eapply calmly_bind; [by apply calmly_true|]. intros g h0 _ [-> ->].
  eapply calmly_bind; [by apply calmly_true|]. intros g h0 _ [-> ->].
  change (s_js (sys h)) with (js_of h). rewrite Hm.
  eapply calmly_bind; [by apply calmly_true|]. intros ? h0 _ [-> ->].
  eapply calmly_bind; [apply ProtectGlobalContext_calm|]. intros ? h1 _ _.
  eapply calmly_bind; [by apply calmly_true|]. intros ? h2 _ [-> ->].
  eapply calmly_bind; [apply en_protect|]. intros ? h2 _ _. by apply calmly_ret.
Qed.

(** A pure object of JavaScript: it is no wrapper, and its properties are data. *)
Definition pure_object (h : heap) (ctx j : N) : Prop :=
  live (jsmem_of h) j /\ plain (jsmem_of h) j /\ JSObjectGetPrivate Q (jsmem_of h) j = None /\
  JSValueGetType Q (jsmem_of h) ctx j = JSObject.
Lemma pure_object_calm h h' ctx j : calm h h' -> pure_object h ctx j -> pure_object h' ctx j.
Proof.
  intros C (Hl & Hpl & Hp & Ht).
  split_and!; [by apply (cm_live C)|by apply (cm_plain C)|by rewrite (cm_private C)|by rewrite (cm_type C)].
Qed.

(** It has the properties that make it a list for the program. *)
Definition has_all (m : jsmem) (j : N) (l : list str) : Prop :=
  Forall (fun name => is_Some (prop m j (js_string W name))) l.
Definition array_like (m : jsmem) (j : N) : Prop :=
  has_all m j [lit "pop"; lit "concat"; lit "length"].
Lemma array_like_dec m j : array_like m j \/ ~ array_like m j.
Proof.
  destruct (decide (array_like m j)); [by left|by right].
Qed.
Lemma has_all_calm h h' ctx j l :
  calm h h' -> pure_object h ctx j -> has_all (jsmem_of h') j l <-> has_all (jsmem_of h) j l.
Proof.
  intros C (Hl & Hp & _). unfold has_all. rewrite !Forall_forall. by setoid_rewrite (cm_prop C _ _ Hl Hp).
Qed.

Lemma has_properties_run ctx j l h :
  pure_object h ctx j ->
  calmly (has_properties W V ctx j l) h (fun b _ => b = true <-> has_all (jsmem_of h) j l).
Proof.
  revert h. induction l as [|n l IH]; intros h Hj.
  { apply calmly_ret. unfold has_all. by rewrite Forall_nil. }
  simpl.
  assert (has_all (jsmem_of h) j (n :: l)
    <-> is_Some (prop (jsmem_of h) j (js_string W n)) /\ has_all (jsmem_of h) j l) as Hcons
    by (unfold has_all; by rewrite Forall_cons).
  pose proof Hj as (Hl & Hp & _).
  eapply calmly_bind; [by apply en_has|]. intros b h1 C1 ->. case_bool_decide as Hn.
  - eapply calmly_weaken; [apply IH; by eapply pure_object_calm|].
    intros b h2 _ ->. rewrite (has_all_calm h h1 ctx j l C1 Hj), Hcons. tauto.
  - apply calmly_ret. rewrite Hcons. by split; [|intros [? _]].
Qed.

(** The proxies. *)
Lemma new_KKJSObject_run ctx j c h :
  jsContextMap (js_of h) !! JSContextGetGlobalObject Q (jsmem_of h) ctx = Some c ->
  exists h1, new_KKJSObject W V ctx j h
    = (Ret (next h1), with_object (lit "KObject") (KKJSObject c j) h1) /\ calm h h1.
Proof.
  intros Hm. destruct (proxy_context_run ctx j c h Hm) as (c' & h1 & E1 & C1 & ->).
  exists h1. split; [|done]. unfold new_KKJSObject. by step E1.
Qed.

(** [m] makes a proxy of the class [k] as its last object, after the object [n]
    that a method or a list delegates to. *)
Definition makes_proxy (m : M loc) (h : heap) (c j : N) (k : loc -> class) : Prop :=
  exists ty h3 n h4, calm h h3 /\ js_of h4 = js_of h3 /\ vals h4 = vals h3 /\ (next h3 <= next h4)%N /\
    (k n = KKJSObject c j \/ class_of h4 n = Some (KKJSObject c j) /\ (n < next h4)%N) /\
    m h = (Ret (next h4), with_object ty (k n) h4).

Lemma makes_delegate ctx c j h1 :
  registered h1 ctx c ->
  exists h3, new_KKJSObject W V c j h1 = (Ret (next h3), with_object (lit "KObject") (KKJSObject c j) h3) /\
    calm h1 h3 /\ let h4 := with_object (lit "KObject") (KKJSObject c j) h3 in
      class_of h4 (next h3) = Some (KKJSObject c j) /\ (next h3 < next h4)%N /\ (next h3 <= next h4)%N.
Proof.
  intros Hreg. destruct (new_KKJSObject_run c j c h1 (proj1 (proj2 Hreg))) as (h3 & E3 & C3).
  exists h3. split_and!; [done|done|]. unfold class_of. simpl. rewrite lookup_insert_eq. split_and!; [done|lia|lia].
Qed.

Lemma new_KKJSMethod_run ctx j t c h :
  registered h ctx c -> makes_proxy (new_KKJSMethod W V ctx j t) h c j (KKJSMethod c j t).
Proof.
  intros Hreg. destruct (proxy_context_run ctx j c h (proj1 Hreg)) as (c' & h1 & E1 & C1 & ->).
  assert (calmly (match t with Some t => JSValueProtect E c t | None => mret tt end) h1 (fun _ _ => True))
    as (u & h2 & E2 & C2 & _) by (destruct t; [apply en_protect|by apply calmly_ret]).
  assert (registered h2 ctx c) as Hreg2 by (by eapply registered_calm, registered_calm).
  destruct (makes_delegate ctx c j h2 Hreg2) as (h3 & E3 & C3 & Hn & Hlt & Hle).
  eexists _, h3, (next h3), (with_object (lit "KObject") (KKJSObject c j) h3).
  split_and!; [|done|done|done|by right|].
  - transitivity h1; [done|]. by transitivity h2.
  - unfold new_KKJSMethod. step E1. step E2. step E3. apply new_object_run.
Qed.

Lemma new_KKJSList_run ctx j c h :
  registered h ctx c -> makes_proxy (new_KKJSList W V ctx j) h c j (KKJSList c j).
Proof.
  intros Hreg. destruct (proxy_context_run ctx j c h (proj1 Hreg)) as (c' & h1 & E1 & C1 & ->).
  assert (registered h1 ctx c) as Hreg2 by (by eapply registered_calm).
  destruct (makes_delegate ctx c j h1 Hreg2) as (h3 & E3 & C3 & Hn & Hlt & Hle).
  eexists _, h3, (next h3), (with_object (lit "KObject") (KKJSObject c j) h3).
  split_and!; [by transitivity h1|done|done|done|by right|].
  unfold new_KKJSList. step E1. step E3. apply new_object_run.
Qed.

Lemma new_KKJSObject_makes ctx j c h :
  registered h ctx c -> makes_proxy (new_KKJSObject W V ctx j) h c j (fun _ => KKJSObject c j).
Proof.
  intros Hreg. destruct (new_KKJSObject_run ctx j c h (proj1 Hreg)) as (h3 & E3 & C3).
  eexists _, h3, 0%N, h3. split_and!; [done|done|done|lia|by left|exact E3].
Qed.

(** What stands for the object [j] of JavaScript: a value for a proxy of [j] in
    the context [c], a method exactly when [j] is a function (with the object
    [t] it was found in), a list exactly when it is none but has the three
    properties, and an object otherwise. The proxies of functions and lists
    delegate to a proxy for the object. *)
Definition stands_for (m : jsmem) (ctx c j : N) (t : option N) (h : heap) (l : loc) : Prop :=
  exists w o k, vals h !! l = Some w /\ objectValue w = Some o /\ class_of h o = Some k /\
    if JSObjectIsFunction Q m ctx j
    then type w = METHOD /\ exists n, k = KKJSMethod c j t n /\ class_of h n = Some (KKJSObject c j)
    else (array_like m j -> type w = LIST /\ exists n, k = KKJSList c j n /\ class_of h n = Some (KKJSObject c j)) /\
         (~ array_like m j -> type w = OBJECT /\ k = KKJSObject c j).

Lemma stands_for_proxied m ctx c j t h l v :
  vals h !! l = Some v -> stands_for m ctx c j t h l -> (array_like m j \/ ~ array_like m j) ->
  forall ctx', JSContextGetGroup Q (jsmem_of h) c = JSContextGetGroup Q (jsmem_of h) ctx' -> proxied h v ctx' j.
Proof.
  intros Hl (w & o & k & Hw & Ho & Hk & Hs) Hd ctx' Hg. assert (w = v) as -> by congruence.
  exists o, k, c. unfold object_value.
  destruct (JSObjectIsFunction Q m ctx j); [|destruct Hd as [Hd|Hd]]; apply Hs in Hd || clear Hd.
  - destruct Hs as (-> & n & -> & _). by split_and!.
  - destruct Hd as (-> & n & -> & _). by split_and!.
  - destruct Hd as (-> & ->). by split_and!.
Qed.

(** The value that a new proxy gets. *)
Lemma proxy_value_run ty (m : M loc) c j k h :
  makes_proxy m h c j k ->
  exists o l n h1, (o ← m; new_with (fun l => update_value l (fun v => set_object ty (Some o) (reset v)))) h = (Ret l, h1) /\
    vals h1 !! l = Some (set_object ty (Some o) (reset new_value)) /\ class_of h1 o = Some (k n) /\
    (k n = KKJSObject c j \/ class_of h1 n = Some (KKJSObject c j)) /\
    (exists h3, calm h h3 /\ js_of h1 = js_of h3) /\
    forall x w, (x < next h)%N -> vals h !! x = Some w -> vals h1 !! x = Some w.
Proof.
  intros (tx & h3 & n & h4 & C3 & Ejs & Ev & Hle & Hn & E1).
  set (h5 := with_object tx (k n) h4) in *. set (v := set_object ty (Some (next h4)) (reset new_value)).
  exists (next h4), (next h5), n, (with_fresh v h5). split_and!.
  - step E1. exact (new_with_run (fun v => set_object ty (Some (next h4)) (reset v)) h5).
  - simpl. apply lookup_insert_eq.
  - unfold class_of. simpl. by rewrite lookup_insert_eq.
  - destruct Hn as [Hn|[Hn Hlt]]; [by left|right]. unfold class_of in *. simpl.
    by rewrite lookup_insert_ne by lia.
  - by exists h3.
  - intros x w Hx Hw. simpl. rewrite (cm_next C3) in Hle. rewrite lookup_insert_ne by lia.
    by rewrite Ev, (cm_vals C3).
Qed.

(** [r] answers a new value that stands for [j], and changes no other value. *)
Definition proxies (r : M loc) (m : jsmem) (ctx c j : N) (t : option N) (h : heap) : Prop :=
  exists l h1, r h = (Ret l, h1) /\ stands_for m ctx c j t h1 l /\
    (forall c', JSContextGetGroup Q (jsmem_of h1) c' = JSContextGetGroup Q (jsmem_of h) c') /\
    forall x w, (x < next h)%N -> vals h !! x = Some w -> vals h1 !! x = Some w.

Lemma groups_after h h1 : (exists h3, calm h h3 /\ js_of h1 = js_of h3) ->
  forall c', JSContextGetGroup Q (jsmem_of h1) c' = JSContextGetGroup Q (jsmem_of h) c'.
Proof. intros (h3 & C3 & Ejs) c'. unfold jsmem_of at 1. fold (js_of h1). rewrite Ejs. apply (cm_group C3). Qed.

Lemma proxies_calm r m ctx c j t h h' : calm h h' -> proxies r m ctx c j t h' ->
  exists l h1, r h' = (Ret l, h1) /\ stands_for m ctx c j t h1 l /\
    (forall c', JSContextGetGroup Q (jsmem_of h1) c' = JSContextGetGroup Q (jsmem_of h) c') /\
    forall x w, (x < next h)%N -> vals h !! x = Some w -> vals h1 !! x = Some w.
Proof.
  intros C (l & h1 & E1 & Hs & Hg & Hk). exists l, h1. split_and!; [done|done| |].
  - intros c'. by rewrite Hg, (cm_group C).
  - intros x w. rewrite <- (cm_next C), <- (cm_vals C). apply Hk.
Qed.

Lemma new_proxy_value_run j ctx t c h :
  pure_object h ctx j -> registered h ctx c ->
  proxies (new_proxy_value W V j ctx t) (jsmem_of h) ctx c j t h.
Proof.
  intros Hj Hreg. unfold new_proxy_value, proxies.
  step (query_run (fun m => JSObjectIsFunction Q m ctx j) h). unfold stands_for.
  destruct (JSObjectIsFunction Q (jsmem_of h) ctx j) eqn:Hfun.
  - destruct (proxy_value_run METHOD _ c j _ h (new_KKJSMethod_run ctx j t c h Hreg))
      as (o & l & n & h1 & E1 & Hv & Hc & [?|Hn] & Hg & Hk); [done|].
    exists l, h1. split_and!; [done| |by apply groups_after|done]. eexists _, o, _. split_and!; eauto.
  - destruct (has_properties_run ctx j [lit "pop"; lit "concat"; lit "length"] h Hj) as (b & h1 & Eb & C1 & Hb).
    fold (array_like (jsmem_of h) j) in Hb. unfold IsArrayLike. step Eb.
    assert (registered h1 ctx c) as Hreg1 by (by eapply registered_calm).
    enough (exists l h2, (if b then tibl ← new_KKJSList W V ctx j; NewList (Some tibl)
                          else tibo ← new_KKJSObject W V ctx j; NewObject (Some tibo)) h1 = (Ret l, h2) /\
      stands_for (jsmem_of h) ctx c j t h2 l /\
      (forall c', JSContextGetGroup Q (jsmem_of h2) c' = JSContextGetGroup Q (jsmem_of h1) c') /\
      forall x w, (x < next h1)%N -> vals h1 !! x = Some w -> vals h2 !! x = Some w) as Hp.
    { apply (proxies_calm _ _ _ _ _ _ h h1 C1) in Hp. unfold stands_for in Hp. by rewrite Hfun in Hp. }
    unfold stands_for. rewrite Hfun. destruct b.
    + destruct (proxy_value_run LIST _ c j _ h1 (new_KKJSList_run ctx j c h1 Hreg1))
        as (o & l & n & h2 & E2 & Hv & Hc & [?|Hn] & Hg & Hk); [done|].
      exists l, h2. split_and!; [done| |by apply groups_after|done]. eexists _, o, _. split_and!; eauto.
      intros []. by apply Hb.
    + destruct (proxy_value_run OBJECT _ c j _ h1 (new_KKJSObject_makes ctx j c h1 Hreg1))
        as (o & l & n & h2 & E2 & Hv & Hc & _ & Hg & Hk).
      exists l, h2. split_and!; [done| |by apply groups_after|done]. eexists _, o, _. split_and!; eauto.
      intros Ha. by apply Hb in Ha.
Qed.

(** A pure object of JavaScript gets a new proxy. *)
Lemma to_proxy_run n j ctx t c h :
  pure_object h ctx j -> registered h ctx c ->
  proxies (ToKrollValue_fuel W V (S n) (Some j) ctx t) (jsmem_of h) ctx c j t h.
Proof.
  intros Hj Hreg. pose proof Hj as (Hl & Hpl & _ & Ht).
  destruct (en_to_object ctx j h) as (r & h1 & E1 & C1 & Hr). rewrite (Hr Ht) in E1.
  pose proof (pure_object_calm _ _ _ _ C1 Hj) as Hj1.
  pose proof (new_proxy_value_run j ctx t c h1 Hj1 (registered_calm _ _ _ _ C1 Hreg)) as Hp.
  apply (proxies_calm _ _ _ _ _ _ h h1 C1) in Hp as (l & h2 & E2 & Hs & R).
  exists l, h2. split_and!; [| |apply R|apply R].
  - cbn [ToKrollValue_fuel]. unfold convert.
    rewrite st_bind_assoc. step (query_run (fun m => JSValueGetType Q m ctx j) h). rewrite Ht.
    unfold object_to_kroll. rewrite st_bind_assoc. step E1.
    unfold private. rewrite st_bind_assoc. step (query_run (fun m => JSObjectGetPrivate Q m j) h1).
    destruct Hj1 as (_ & _ & -> & _). rewrite st_bind_assoc. by step E2.
  - destruct Hs as (w & o & k & Hw & Ho & Hk & Hs). exists w, o, k. split_and!; [done..|].
    rewrite (cm_function C1) in Hs by done. unfold array_like in *.
    destruct (JSObjectIsFunction Q (jsmem_of h) ctx j); [done|].
    pose proof (has_all_calm h h1 ctx j [lit "pop"; lit "concat"; lit "length"] C1 Hj) as Ha.
    destruct Hs as [H1 H2]. split; intros Hx; [apply H1|apply H2]; by rewrite Ha.
Qed.

(** ** Values that cross and come back *)

(** What [ToJSValue] can carry. A text is ASCII; an object of the program can be
    wrapped (for a method or a list: [Function] and [Array] are the built-in
    ones); the proxy stands for a pure object of JavaScript. *)
Definition portable (h : heap) (v : value) (ctx : N) : Prop :=
  match type v with
  | BOOL => is_Some (boolValue v)
  | STRING => exists s, stringValue v = Some s /\ ascii_text s
  | LIST | OBJECT | METHOD =>
      not_proxy h v ctx /\ (type v = OBJECT \/ builtins (jsmem_of h) ctx) \/
      exists j c, proxied h v ctx j /\ pure_object h ctx j /\ registered h ctx c
  | _ => True
  end.

Definition js_number (v : value) : double := if IsInt v then double_of_int (ToInt v) else numberValue v.

(** [l'] is what came back, in the state [h'], for the value [v] at [l]. *)
Definition carried (h : heap) (v : value) (ctx : N) (t : option N) (l l' : loc) (h' : heap) : Prop :=
  match type v with
  | INT | DOUBLE => exists w, vals h' !! l' = Some w /\ type w = DOUBLE /\ numberValue w = js_number v
  | BOOL => exists w, vals h' !! l' = Some w /\ type w = BOOL /\ boolValue w = boolValue v
  | STRING => exists w, vals h' !! l' = Some w /\ type w = STRING /\ stringValue w = stringValue v
  | LIST | OBJECT | METHOD =>
      (not_proxy h v ctx -> l' = l) /\
      (forall j c, proxied h v ctx j -> registered h ctx c -> stands_for (jsmem_of h) ctx c j t h' l')
  | NULLV => l' = Null
  | UNDEFINED | VOIDPTR => l' = Undefined
  end.

Lemma fresh_ok_calm h h' : calm h h' -> fresh_ok h -> fresh_ok h'.
Proof. intros C Hf l. rewrite (cm_next C), (cm_vals C), (cm_objs C). apply Hf. Qed.
Lemma with_fresh_kept v h : fresh_ok h -> values_kept h (with_fresh v h).
Proof.
  intros Hf. split_and!; [simpl; lia| |done]. intros l w Hw. simpl. rewrite lookup_insert_ne; [done|].
  pose proof (lookup_lt_next h l w Hf Hw). lia.
Qed.

(** The conversion of a value that is no object. *)
Lemma convert_fresh n value ctx t h g h1 :
  convert W V value ctx t h = (new_with (fun l => update_value l g) ≫= fun l => mret (inr (Some l, None))) h1 ->
  calm h h1 -> fresh_ok h ->
  exists h2, ToKrollValue_fuel W V (S n) (Some value) ctx t h = (Ret (next h1), h2) /\
    vals h2 !! next h1 = Some (g new_value) /\ values_kept h h2.
Proof.
  intros E1 C1 Hf. exists (with_fresh (g new_value) h1). cbn [ToKrollValue_fuel].
  pose proof (new_with_run g h1) as E2.
  erewrite st_bind_Ret; [|rewrite E1; by step E2]. split_and!; [done| |].
  - simpl. apply lookup_insert_eq.
  - etrans; [by apply calm_values_kept|]. apply with_fresh_kept. by eapply fresh_ok_calm.
Qed.

Lemma convert_number ctx t d r h :
  JSValueGetType Q (jsmem_of h) ctx r = JSNumber ->
  calmly (JSValueToNumber E ctx r) h (fun x _ => x = (d, None)) ->
  exists h1, calm h h1 /\ convert W V r ctx t h
    = (new_with (fun l => update_value l (fun v => set_number DOUBLE d (reset v)))
       ≫= fun l => mret (inr (Some l, None))) h1.
Proof.
  intros Ht (x & h1 & E1 & C1 & ->). exists h1. split; [done|]. unfold convert.
  step (query_run (fun m => JSValueGetType Q m ctx r) h). rewrite Ht. by step E1.
Qed.
Lemma convert_string ctx t s r h :
  JSValueGetType Q (jsmem_of h) ctx r = JSString ->
  calmly (JSValueToStringCopy E ctx r) h (fun x _ => x = (Some s, None)) ->
  exists h1, calm h h1 /\ convert W V r ctx t h
    = (new_with (fun l => update_value l (fun v => set_string (c_str (ToChars W s)) (reset v)))
       ≫= fun l => mret (inr (Some l, None))) h1.
Proof.
  intros Ht (x & h1 & E1 & C1 & ->). exists h1. split; [done|]. unfold convert.
  step (query_run (fun m => JSValueGetType Q m ctx r) h). rewrite Ht. by step E1.
Qed.

(** The texts that cross unchanged. *)
Lemma ToChars_js_string s : ascii_text s -> ToChars W (js_string W s) = s.
Proof.
  intros Hs. unfold ToChars, js_string. rewrite (ascii_text_no_nul s Hs).
  rewrite (en_utf8 s Hs). by apply ascii_text_no_nul.
Qed.

Lemma const_run n value ctx t h l :
  convert W V value ctx t h = (Ret (inr (Some l, None)), h) ->
  ToKrollValue_fuel W V (S n) (Some value) ctx t h = (Ret l, h).
Proof. intros E1. cbn [ToKrollValue_fuel]. by step E1. Qed.

(** Numbers go through [JSValueMakeNumber]. *)
Lemma number_crosses n d ctx t h :
  fresh_ok h ->
  exists j h1 l h2, JSValueMakeNumber E ctx d h = (Ret j, h1) /\
    ToKrollValue_fuel W V (S n) (Some j) ctx t h1 = (Ret l, h2) /\ values_kept h h2 /\
    exists w, vals h2 !! l = Some w /\ type w = DOUBLE /\ numberValue w = d.
Proof.
  intros Hf. destruct (en_number ctx d h) as (j & h1 & E1 & C1 & Ht & Hn).
  destruct (convert_number ctx t d j h1 Ht Hn) as (h2 & C2 & E2).
  apply (convert_fresh n) in E2 as (h3 & E3 & Hw & Hk); [|done|by eapply fresh_ok_calm].
  exists j, h1, (next h2), h3. split_and!; [done|done| |by eexists].
  etrans; [by apply calm_values_kept|done].
Qed.

(** The value [v] at [l] goes to JavaScript and comes back. *)
Definition crosses (n : nat) (l : loc) (v : value) (ctx : N) (t : option N) (h : heap) : Prop :=
  exists j h1 l' h2, ToJSValue W V l ctx h = (Ret j, h1) /\
    ToKrollValue_fuel W V (S n) (Some j) ctx t h1 = (Ret l', h2) /\ carried h v ctx t l l' h2 /\
    forall k w, vals h !! k = Some w -> vals h2 !! k = Some w.

Lemma proxied_unique h v ctx j j' : proxied h v ctx j -> proxied h v ctx j' -> j = j'.
Proof. intros (o & k & c & (? & ? & _) & ? & _) (o' & k' & c' & (? & ? & _) & ? & _). congruence. Qed.
Lemma not_proxied h v ctx j : not_proxy h v ctx -> proxied h v ctx j -> False.
Proof.
  intros (o & k & (? & ? & _) & Hn) (o' & k' & c' & (? & ? & _) & Hp & Hg).
  assert (k' = k) as -> by congruence. by apply (Hn c' j).
Qed.
Lemma registered_unique h ctx c c' : registered h ctx c -> registered h ctx c' -> c = c'.
Proof. intros (H1 & _) (H2 & _). congruence. Qed.

Lemma object_crosses n l v ctx t h :
  vals h !! l = Some v -> not_proxy h v ctx -> (type v = OBJECT \/ builtins (jsmem_of h) ctx) ->
  crosses n l v ctx t h.
Proof.
  intros Hl Hn Hb. destruct (ToJSValue_wraps l v ctx h Hl Hn Hb) as (j & h1 & E1 & Hw & _ & Hk & _).
  destruct (unwrap_run n j l ctx t h1 Hw) as (h2 & E2 & C2).
  exists j, h1, l, h2. split_and!; [done|done| |].
  - assert ((not_proxy h v ctx -> l = l) /\ (forall j c, proxied h v ctx j -> registered h ctx c ->
      stands_for (jsmem_of h) ctx c j t h2 l)) as R
      by (split; [done|intros j' c Hp; by destruct (not_proxied h v ctx j')]).
    destruct Hn as (o & c & (_ & _ & Hty) & _). unfold carried. by destruct (type v).
  - intros k w Hkw. rewrite (cm_vals C2). auto.
Qed.

Lemma proxy_crosses n l v ctx t j c h :
  fresh_ok h -> vals h !! l = Some v -> proxied h v ctx j -> pure_object h ctx j -> registered h ctx c ->
  crosses n l v ctx t h.
Proof.
  intros Hf Hl Hp Hj Hreg. destruct (to_proxy_run n j ctx t c h Hj Hreg) as (l' & h2 & E2 & Hs & _ & Hk).
  exists j, h, l', h2. split_and!; [by apply (ToJSValue_proxied l v)|done| |].
  - assert ((not_proxy h v ctx -> l' = l) /\ (forall j c, proxied h v ctx j -> registered h ctx c ->
      stands_for (jsmem_of h) ctx c j t h2 l')) as R.
    { split; [by intros Hn; destruct (not_proxied h v ctx j)|]. intros j' c' Hp' Hreg'.
      by rewrite (proxied_unique _ _ _ _ _ Hp' Hp), (registered_unique _ _ _ _ Hreg' Hreg). }
    destruct Hp as (o & k & c0 & (_ & _ & Hty) & _). unfold carried. by destruct (type v).
  - intros k w Hkw. apply Hk; [|done]. by eapply lookup_lt_next.
Qed.

Lemma number_value_crosses n l v ctx t h :
  fresh_ok h -> vals h !! l = Some v -> type v = INT \/ type v = DOUBLE -> crosses n l v ctx t h.
Proof.
  intros Hf Hl Hty. assert (ToJSValue W V l ctx h = JSValueMakeNumber E ctx (js_number v) h) as EJ.
  { unfold ToJSValue, js_number. step (getv_run _ _ _ Hl). destruct (IsInt v) eqn:Ei; [done|].
    unfold IsInt in Ei. unfold IsDouble. destruct Hty as [Hty|Hty]; rewrite Hty in *; done. }
  destruct (number_crosses n (js_number v) ctx t h Hf) as (j & h1 & l' & h2 & E1 & E2 & (_ & Hk & _) & Hw).
  exists j, h1, l', h2. rewrite EJ. split_and!; [done|done| |done].
  unfold carried. by destruct Hty as [-> | ->].
Qed.

Lemma bool_crosses n l v b ctx t h :
  fresh_ok h -> vals h !! l = Some v -> type v = BOOL -> boolValue v = Some b -> crosses n l v ctx t h.
Proof.
  intros Hf Hl Hty Hb. destruct (en_boolean ctx b h) as (j & h1 & E1 & C1 & Ht & Hjb).
  assert (ToJSValue W V l ctx h = JSValueMakeBoolean E ctx b h) as EJ.
  { unfold ToJSValue. step (getv_run _ _ _ Hl). unfold IsInt, IsDouble, IsBool. rewrite Hty. simpl.
    unfold ToBool. by rewrite Hb. }
  destruct (convert_fresh n j ctx t h1 (fun v => set_bool b (reset v)) h1) as (h2 & E2 & Hw & _ & Hk & _).
  - unfold convert. step (query_run (fun m => JSValueGetType Q m ctx j) h1). rewrite Ht.
    step (query_run (fun m => JSValueToBoolean Q m ctx j) h1). by rewrite Hjb.
  - done.
  - by eapply fresh_ok_calm.
  - exists j, h1, (next h1), h2. rewrite EJ. split_and!; [done|done| |].
    + unfold carried. rewrite Hty, Hb. by eexists.
    + intros k w Hkw. apply Hk. by rewrite (cm_vals C1).
Qed.

Lemma string_crosses n l v s ctx t h :
  fresh_ok h -> vals h !! l = Some v -> type v = STRING -> stringValue v = Some s -> ascii_text s ->
  crosses n l v ctx t h.
Proof.
  intros Hf Hl Hty Hs Ha. destruct (en_string ctx (js_string W s) h) as (j & h1 & E1 & C1 & Ht & Hjs).
  assert (ToJSValue W V l ctx h = JSValueMakeString E ctx (js_string W s) h) as EJ.
  { unfold ToJSValue. step (getv_run _ _ _ Hl). unfold IsInt, IsDouble, IsBool, IsString. rewrite Hty. simpl.
    unfold ToString. by rewrite Hs. }
  destruct (convert_string ctx t _ j h1 Ht Hjs) as (h2 & C2 & E2).
  apply (convert_fresh n) in E2 as (h3 & E3 & Hw & _ & Hk & _); [|done|by eapply fresh_ok_calm].
  exists j, h1, (next h2), h3. rewrite EJ. split_and!; [done|done| |].
  - unfold carried. rewrite Hty, Hs. eexists. split_and!; [done|done|]. simpl.
    by rewrite ToChars_js_string, ascii_text_no_nul.
  - intros k w Hkw. apply Hk. by rewrite (cm_vals C1).
Qed.

Lemma constant_crosses n l v ctx t h :
  vals h !! l = Some v -> type v ∈ [NULLV; UNDEFINED; VOIDPTR] -> crosses n l v ctx t h.
Proof.
  intros Hl Hty.
  assert (exists m c, ToJSValue W V l ctx h = m h /\ carried h v ctx t l c h /\
    calmly m h (fun j h1 => convert W V j ctx t h1 = (Ret (inr (Some c, None)), h1)))
    as (m & c & EJ & Hc & j & h1 & E1 & C1 & E2).
  { unfold ToJSValue, carried. erewrite st_bind_Ret; [|by apply getv_run].
    unfold IsInt, IsDouble, IsBool, IsString, IsObject, IsMethod, IsList, IsNull, IsUndefined.
    rewrite !elem_of_cons, elem_of_nil in Hty. destruct Hty as [->|[->|[->|[]]]]; simpl.
    - exists (JSValueMakeNull E ctx), Null. split_and!; [done|done|].
      eapply calmly_weaken; [apply en_null|]. intros r h' _ Ht. unfold convert.
      step (query_run (fun m => JSValueGetType Q m ctx r) h'). by rewrite Ht.
    - exists (JSValueMakeUndefined E ctx), Undefined. split_and!; [done|done|].
      eapply calmly_weaken; [apply en_undefined|]. intros r h' _ Ht. unfold convert.
      step (query_run (fun m => JSValueGetType Q m ctx r) h'). by rewrite Ht.
    - exists (JSValueMakeUndefined E ctx), Undefined. split_and!; [done|done|].
      eapply calmly_weaken; [apply en_undefined|]. intros r h' _ Ht. unfold convert.
      step (query_run (fun m => JSValueGetType Q m ctx r) h'). by rewrite Ht. }
  exists j, h1, c, h1. split_and!; [by rewrite EJ|by apply const_run| |].
  - rewrite !elem_of_cons, elem_of_nil in Hty. revert Hc. unfold carried. by destruct Hty as [->|[->|[->|[]]]].
  - intros k w. by rewrite (cm_vals C1).
Qed.

(** C7: what crosses the border to JavaScript comes back. Every number comes
    back as a double, an [int] as the double of the same value; a truth value
    comes back as itself, an ASCII text as itself, null and undefined as the two
    constants, and a pointer as undefined. An object, method or list of the
    program comes back as the very same [SharedValue], whatever JavaScript object
    it was wrapped in; a proxy for an object of the same group of contexts as a
    new proxy of that object. No value of the program changes. *)
Theorem js_value_roundtrip l v ctx t h :
  vFuel V <> 0 -> fresh_ok h -> vals h !! l = Some v -> portable h v ctx ->
  exists j h1 l' h2, ToJSValue W V l ctx h = (Ret j, h1) /\
    ToKrollValue W V (Some j) ctx t h1 = (Ret l', h2) /\ carried h v ctx t l l' h2 /\
    forall k w, vals h !! k = Some w -> vals h2 !! k = Some w.
Proof.
  intros Hfuel Hf Hl Hp. unfold ToKrollValue. destruct (vFuel V) as [|n]; [done|].
  change (crosses n l v ctx t h). unfold portable in Hp. destruct (type v) eqn:Ety.
  - apply number_value_crosses; auto.
  - apply number_value_crosses; auto.
  - destruct Hp as [b Hb]. by eapply bool_crosses.
  - destruct Hp as (s & Hs & Ha). by eapply string_crosses.
  - destruct Hp as [[Hp Hb]|(j & c & Hp & Hj & Hr)]; [|by eapply proxy_crosses].
    apply object_crosses; [done|done|]. by rewrite Ety.
  - destruct Hp as [[Hp Hb]|(j & c & Hp & Hj & Hr)]; [|by eapply proxy_crosses].
    apply object_crosses; [done|done|]. by rewrite Ety.
  - destruct Hp as [[Hp Hb]|(j & c & Hp & Hj & Hr)]; [|by eapply proxy_crosses].
    apply object_crosses; [done|done|]. by rewrite Ety.
  - apply constant_crosses; [done|rewrite Ety; set_solver].
  - apply constant_crosses; [done|rewrite Ety; set_solver].
  - apply constant_crosses; [done|rewrite Ety; set_solver].
Qed.

(** C8: an object of JavaScript comes back as itself. A pure object (one that is
    no wrapper, and whose properties are data) of a registered context becomes
    a new proxy of its kind: a KKJSMethod when it is a function, a KKJSList when
    it is none but has the properties "pop", "concat" and "length", and a
    KKJSObject otherwise. The proxy holds the object and the global context [c]
    of the context, no value of the program changes, and in every context of the
    same group the proxy is again the very object that it stands for. *)
Theorem js_object_roundtrip j ctx t c h :
  vFuel V <> 0 -> pure_object h ctx j -> registered h ctx c ->
  exists l h1, ToKrollValue W V (Some j) ctx t h = (Ret l, h1) /\
    stands_for (jsmem_of h) ctx c j t h1 l /\
    (forall x w, (x < next h)%N -> vals h !! x = Some w -> vals h1 !! x = Some w) /\
    forall ctx', JSContextGetGroup Q (jsmem_of h) ctx' = JSContextGetGroup Q (jsmem_of h) ctx ->
      ToJSValue W V l ctx' h1 = (Ret j, h1).
Proof.
  intros Hfuel Hj Hreg. unfold ToKrollValue. destruct (vFuel V) as [|n]; [done|].
  destruct (to_proxy_run n j ctx t c h Hj Hreg) as (l & h1 & E1 & Hs & Hg & Hk).
  exists l, h1. split_and!; [done|done|done|]. intros ctx' Hctx'.
  pose proof Hs as (v & _ & _ & Hv & _). apply (ToJSValue_proxied l v); [done|].
  apply (stands_for_proxied _ _ _ _ _ _ _ _ Hv Hs (array_like_dec _ _)).
  destruct Hreg as (_ & _ & Hc). by rewrite !Hg, Hc.
Qed.
End Border.

(** ** Instances *)

Definition demo_ops : VOps := vt SmallEngine.world 2.
Definition demo_object_heap : heap :=
  with_fresh (set_object OBJECT (Some 2%N) (reset new_value))
    (with_object (lit "StaticBoundObject") StaticBoundObject initial_heap).

Lemma js_value_roundtrip_witness :
  exists j h1 h2, ToJSValue SmallEngine.world demo_ops 3%N 1%N demo_object_heap = (Ret j, h1) /\
    ToKrollValue SmallEngine.world demo_ops (Some j) 1%N None h1 = (Ret 3%N, h2).
Proof.
  assert (not_proxy SmallEngine.world demo_object_heap (set_object OBJECT (Some 2%N) (reset new_value)) 1%N)
    as Hn by (exists 2%N, StaticBoundObject; split; [split; vm_compute; auto|discriminate]).
  destruct (js_value_roundtrip SmallEngine.world demo_ops SmallEngine.view (SmallEngine.engine _) 3%N
    (set_object OBJECT (Some 2%N) (reset new_value)) 1%N None demo_object_heap)
    as (j & h1 & l' & h2 & E1 & E2 & [Hl _] & _).
  - vm_compute. discriminate.
  - apply fresh_check_ok. vm_compute. reflexivity.
  - vm_compute. reflexivity.
  - left. split; [exact Hn|by left].
  - exists j, h1, h2. split; [exact E1|]. rewrite E2. exact (f_equal (fun l => (Ret l, h2)) (Hl Hn)).
Defined.

(** The object 5 of the context 7, which has the properties of a list. *)
Definition demo_js_heap : heap :=
  set_js (fun _ => {| js_cells := ∅; KJSKObjectClass := None; KJSKMethodClass := None;
                      KJSKListClass := None; jsContextMap := {[7%N := 7%N]};
                      jsContextRefCounts := ∅; js_memory := {[5%N := [7%N]]} |}) initial_heap.

Lemma js_object_roundtrip_witness :
  exists l h1, ToKrollValue SmallEngine.world demo_ops (Some 5%N) 7%N None demo_js_heap = (Ret l, h1) /\
    ToJSValue SmallEngine.world demo_ops l 7%N h1 = (Ret 5%N, h1).
Proof.
  destruct (js_object_roundtrip SmallEngine.world demo_ops SmallEngine.view (SmallEngine.engine _) 5%N 7%N None 7%N demo_js_heap)
    as (l & h1 & E1 & _ & _ & Hback).
  - vm_compute. discriminate.
  - split; [exists [7%N]; vm_compute; reflexivity|]. split; [exists []; right; vm_compute; reflexivity|].
    split; vm_compute; reflexivity.
  - split; [vm_compute; reflexivity|]. split; vm_compute; reflexivity.
  - exists l, h1. split; [exact E1|]. apply Hback. reflexivity.
Defined.
