(* ===== verification/JavaScriptCallLaws.v ===== *)
(** * JavaScriptCallLaws: contexts stay alive and exceptions stay inside

    A global context of JavaScript is retained exactly while some proxy holds
    it. The callbacks for properties turn each exception of the program into
    one of JavaScript. *)

From S2P Require Import Prelude CppString Double Application System Heap JavaScriptCore Virtual KObject.
From S2P Require Import StaticBound StaticLaws ValueLaws JavaScript JavaScriptEngine Dispatch DispatchLaws.
From S2P Require Import EventLaws.
From stdpp Require Import options.

(** ** The contexts that proxies hold *)

Inductive context_op := Protect (c : N) | Unprotect (c : N).

(** The number of holders of each context. *)
Definition holders_after (n : N -> Z) (op : context_op) (c : N) : Z :=
  match op with
  | Protect c' => if decide (c = c') then n c + 1 else n c
  | Unprotect c' => if decide (c = c') then Z.max 0 (n c - 1) else n c
  end%Z.
Definition holders (ops : list context_op) : N -> Z := foldl holders_after (fun _ => 0%Z) ops.

Section Contexts.
Context (W : World) (V : VOps) (retained : jsmem -> N -> Z).
#[local] Abbreviation E := (js W V).

Definition run_context_op (op : context_op) : M unit :=
  match op with
  | Protect c => ProtectGlobalContext W V (Some c)
  | Unprotect c => UnprotectGlobalContext W V c
  end.

(** JavaScriptCore counts; what is not retained is not released. *)
Class Retention : Prop := {
  rt_retain c h : exists h', JSGlobalContextRetain E c h = (Ret tt, h') /\
    jsContextRefCounts (js_of h') = jsContextRefCounts (js_of h) /\
    forall c', retained (jsmem_of h') c' = (retained (jsmem_of h) c' + if decide (c' = c) then 1 else 0)%Z;
  rt_release c h : (0 < retained (jsmem_of h) c)%Z ->
    exists h', JSGlobalContextRelease E c h = (Ret tt, h') /\
    jsContextRefCounts (js_of h') = jsContextRefCounts (js_of h) /\
    forall c', retained (jsmem_of h') c' = (retained (jsmem_of h) c' - if decide (c' = c) then 1 else 0)%Z
}.

(** The counts of the program say who holds what, and the engine is asked
    once for each held context. *)
Definition counted (before : N -> Z) (n : N -> Z) (h : heap) : Prop := forall c,
  (0 <= before c)%Z /\ (0 <= n c)%Z /\
  jsContextRefCounts (js_of h) !! c = (if decide (0 < n c)%Z then Some (n c) else None) /\
  retained (jsmem_of h) c = (before c + if decide (0 < n c)%Z then 1 else 0)%Z.

(** A new count for one context. *)
Lemma counted_update before n n' h h' f c :
  counted before n h -> jsContextRefCounts (js_of h') = f (jsContextRefCounts (js_of h)) ->
  (forall m c', c' <> c -> f m !! c' = m !! c') -> (forall c', c' <> c -> n' c' = n c') ->
  (forall c', c' <> c -> retained (jsmem_of h') c' = retained (jsmem_of h) c') ->
  (0 <= n' c)%Z -> f (jsContextRefCounts (js_of h)) !! c = (if decide (0 < n' c)%Z then Some (n' c) else None) ->
  retained (jsmem_of h') c = (before c + if decide (0 < n' c)%Z then 1 else 0)%Z ->
  counted before n' h'.
Proof.
  intros Hc Ef Hf Hn Hr Hn0 Hfc Hrc c'. destruct (Hc c') as (H1 & H2 & H3 & H4).
  destruct (decide (c' = c)) as [->|Hne]; [by rewrite Ef|].
  rewrite Ef, Hf, Hn, Hr by done. done.
Qed.

Lemma insert_other (z : Z) (c : N) (m : gmap N Z) c' : c' <> c -> <[c := z]> m !! c' = m !! c'.
Proof. intros. by rewrite lookup_insert_ne. Qed.
Lemma delete_other (c : N) (m : gmap N Z) c' : c' <> c -> base.delete c m !! c' = m !! c'.
Proof. intros. by rewrite lookup_delete_ne. Qed.
Hint Resolve insert_other delete_other : core.

Lemma protect_counted `{!Retention} before n h c :
  counted before n h ->
  exists h', ProtectGlobalContext W V (Some c) h = (Ret tt, h') /\ counted before (holders_after n (Protect c)) h'.
Proof.
  intros Hc. destruct (Hc c) as (Hb & Hn & Hm & Hr).
  assert (forall c', c' <> c -> holders_after n (Protect c) c' = n c') as Ho
    by (intros c' Hne; simpl; by rewrite decide_False).
  assert (holders_after n (Protect c) c = n c + 1)%Z as Hh by (simpl; by rewrite decide_True).
  unfold ProtectGlobalContext. cbn [some_or_undef].
  erewrite st_bind_Ret by reflexivity. erewrite st_bind_Ret by reflexivity.
  change (s_js (sys h)) with (js_of h). rewrite Hm. case_decide as Hpos.
  - eexists. split; [apply on_js_run|].
    apply (counted_update before n _ h _ (<[c := (n c + 1)%Z]>) c Hc); try done; rewrite ?Hh; try lia; auto.
    + rewrite lookup_insert_eq, decide_True by lia. done.
    + rewrite decide_True by lia. exact Hr.
  - destruct (rt_retain c h) as (h1 & E1 & Ec & Hret). step E1.
    eexists. split; [apply on_js_run|].
    assert (n c = 0)%Z as Hz by lia. rewrite Hz in Hh.
    apply (counted_update before n _ h _ (<[c := 1%Z]>) c Hc); try done; rewrite ?Hh; try lia; auto.
    + simpl. by rewrite Ec.
    + intros c' Hne. unfold jsmem_of at 1. simpl. change (js_memory _) with (jsmem_of h1).
      rewrite Hret, decide_False by done. lia.
    + by rewrite lookup_insert_eq.
    + change (jsmem_of _) with (jsmem_of h1). rewrite Hret, Hr, !decide_True by done. lia.
Qed.

Lemma unprotect_counted `{!Retention} before n h c :
  counted before n h ->
  exists h', UnprotectGlobalContext W V c h = (Ret tt, h') /\ counted before (holders_after n (Unprotect c)) h'.
Proof.
  intros Hc. destruct (Hc c) as (Hb & Hn & Hm & Hr).
  assert (forall c', c' <> c -> holders_after n (Unprotect c) c' = n c') as Ho
    by (intros c' Hne; simpl; by rewrite decide_False).
  assert (holders_after n (Unprotect c) c = Z.max 0 (n c - 1))%Z as Hh by (simpl; by rewrite decide_True).
  unfold UnprotectGlobalContext. erewrite st_bind_Ret by reflexivity.
  change (s_js (sys h)) with (js_of h). rewrite Hm. case_decide as Hpos; [case_decide as Hone|].
  - destruct (rt_release c h) as (h1 & E1 & Ec & Hret); [rewrite Hr; lia|]. step E1.
    eexists. split; [apply on_js_run|]. rewrite Hone in Hh.
    apply (counted_update before n _ h _ (base.delete c) c Hc); try done; rewrite ?Hh; try lia; auto.
    + simpl. by rewrite Ec.
    + intros c' Hne. change (jsmem_of _) with (jsmem_of h1) at 1.
      rewrite Hret, decide_False by done. lia.
    + by rewrite lookup_delete_eq.
    + change (jsmem_of _) with (jsmem_of h1). rewrite Hret, Hr, decide_True by done. simpl. lia.
  - eexists. split; [apply on_js_run|].
    apply (counted_update before n _ h _ (<[c := (n c - 1)%Z]>) c Hc); try done; rewrite ?Hh; try lia; auto.
    + rewrite lookup_insert_eq, decide_True by lia. f_equal. lia.
    + rewrite decide_True by lia. exact Hr.
  - eexists. split; [reflexivity|].
    apply (counted_update before n _ h _ id c Hc); try done; rewrite ?Hh; try lia; auto.
    + rewrite decide_False by lia. exact Hm.
    + rewrite decide_False by lia. exact Hr.
Qed.

(** C9: a global context lives as long as its proxies. Whatever proxies are
    made and deleted, in any order and for any contexts (an extra deletion is
    only logged): the program's count of each context is the number of its
    holders, without an entry when there is none, and JavaScriptCore has been
    asked to retain it exactly once more than before if it has a holder, and
    not at all otherwise. *)
Theorem context_protection `{!Retention} ops h :
  jsContextRefCounts (js_of h) = ∅ -> (forall c, 0 <= retained (jsmem_of h) c)%Z ->
  exists h', st_fold (fun _ op => run_context_op op) tt ops h = (Ret tt, h') /\ forall c,
    jsContextRefCounts (js_of h') !! c
      = (if decide (0 < holders ops c)%Z then Some (holders ops c) else None) /\
    retained (jsmem_of h') c
      = (retained (jsmem_of h) c + if decide (0 < holders ops c)%Z then 1 else 0)%Z.
Proof.
  intros Hemp Hpos.
  assert (forall n h1, counted (retained (jsmem_of h)) n h1 ->
    exists h', st_fold (fun _ op => run_context_op op) tt ops h1 = (Ret tt, h') /\
      counted (retained (jsmem_of h)) (foldl holders_after n ops) h') as Hrun.
  { induction ops as [|op ops IH]; intros n h1 Hc; [by exists h1|]. cbn [st_fold foldl].
    assert (exists h2, run_context_op op h1 = (Ret tt, h2) /\
      counted (retained (jsmem_of h)) (holders_after n op) h2) as (h2 & E2 & Hc2)
      by (destruct op; [by apply protect_counted|by apply unprotect_counted]).
    destruct (IH _ _ Hc2) as (h3 & E3 & Hc3). exists h3. split; [by step E2|done]. }
  destruct (Hrun (fun _ => 0%Z) h) as (h' & E1 & Hc).
  - intros c. rewrite Hemp, lookup_empty. split_and!; [apply Hpos|lia|done|]. rewrite decide_False by lia. lia.
  - exists h'. split; [done|]. intros c. by destruct (Hc c) as (_ & _ & ? & ?).
Qed.
End Contexts.

(** An engine that pushes a word for each retain. *)
Definition counting_world : World :=
  SmallEngine.world_with (SmallEngine.ops_with
    (fun c => modify (SmallEngine.set_memory (fun m => <[c := 0%N :: SmallEngine.words m c]> m)))
    (fun c => modify (SmallEngine.set_memory (fun m => <[c := tail (SmallEngine.words m c)]> m)))).
Definition pushed (m : jsmem) (c : N) : Z := Z.of_nat (length (SmallEngine.words m c)).

Lemma pushed_insert m c l c' :
  pushed (<[c := l]> m) c' = (if decide (c' = c) then Z.of_nat (length l) else pushed m c')%Z.
Proof.
  unfold pushed, SmallEngine.words. case_decide as Hc; [subst; by rewrite lookup_insert_eq|].
  by rewrite lookup_insert_ne.
Qed.

Lemma counting_retention V : Retention counting_world V pushed.
Proof.
  split.
  - intros c h. eexists. split; [reflexivity|]. split; [done|]. intros c'.
    change (jsmem_of _) with (<[c := 0%N :: SmallEngine.words (jsmem_of h) c]> (jsmem_of h)) at 1.
    rewrite pushed_insert. case_decide; [subst; unfold pushed; simpl; lia|lia].
  - intros c h Hc. eexists. split; [reflexivity|]. split; [done|]. intros c'.
    change (jsmem_of _) with (<[c := tail (SmallEngine.words (jsmem_of h) c)]> (jsmem_of h)) at 1.
    rewrite pushed_insert. case_decide; [subst|lia].
    unfold pushed in *. destruct (SmallEngine.words (jsmem_of h) c); simpl in *; lia.
Qed.

Lemma context_protection_witness :
  exists h', st_fold (fun _ op => run_context_op counting_world no_ops op) tt
      [Protect 4; Protect 4; Protect 6; Unprotect 4; Unprotect 6]%N initial_heap = (Ret tt, h') /\
    jsContextRefCounts (js_of h') !! 4%N = Some 1%Z /\ pushed (jsmem_of h') 6 = 0%Z.
Proof.
  destruct (context_protection counting_world no_ops pushed (H := counting_retention no_ops)
    [Protect 4; Protect 4; Protect 6; Unprotect 4; Unprotect 6]%N initial_heap) as (h' & E1 & Hc).
  - reflexivity.
  - intros c. unfold pushed. apply Nat2Z.is_nonneg.
  - exists h'. split; [exact E1|]. split; [exact (proj1 (Hc 4%N))|exact (proj2 (Hc 6%N))].
Defined.

(** ** Exceptions *)

(** JavaScriptCore is a C library: it answers, and throws nothing. *)
Record js_quiet (J : JSOps) : Prop := {
  jq_ToNumber c v : no_throw (JSValueToNumber J c v);
  jq_ToStringCopy c v : no_throw (JSValueToStringCopy J c v);
  jq_ToObject c v : no_throw (JSValueToObject J c v);
  jq_MakeNumber c d : no_throw (JSValueMakeNumber J c d);
  jq_MakeBoolean c b : no_throw (JSValueMakeBoolean J c b);
  jq_MakeString c s : no_throw (JSValueMakeString J c s);
  jq_MakeNull c : no_throw (JSValueMakeNull J c);
  jq_MakeUndefined c : no_throw (JSValueMakeUndefined J c);
  jq_ClassCreate d : no_throw (JSClassCreate J d);
  jq_ObjectMake c k p : no_throw (JSObjectMake J c k p);
  jq_MakeFunction c s f : no_throw (JSObjectMakeFunctionWithCallback J c s f);
  jq_SetPrototype c o p : no_throw (JSObjectSetPrototype J c o p);
  jq_GetProperty c o s : no_throw (JSObjectGetProperty J c o s)
}.
#[export] Hint Resolve jq_ToNumber jq_ToStringCopy jq_ToObject jq_MakeNumber jq_MakeBoolean
  jq_MakeString jq_MakeNull jq_MakeUndefined jq_ClassCreate jq_ObjectMake jq_MakeFunction
  jq_SetPrototype jq_GetProperty : quiet.

Section Wrapped.
Context (W : World).

(** What a wrapper holds. *)
Definition wrapper (h : heap) (o : N) (l : loc) (v : value) : Prop :=
  exists p, JSObjectGetPrivate (jsq W) (jsmem_of h) o = Some p /\
    js_cells (js_of h) !! p = Some l /\ vals h !! l = Some v.

Lemma wrapper_run {A} h o l v (f : loc -> value -> M A) g :
  wrapper h o l v ->
  (q ← private W o; match q with
                             | None => g
                             | Some p => value ← cell p; w ← getv value; f value w
                             end) h = f l v h.
Proof.
  intros (p & Hp & Hc & Hl). unfold private. step (query_run (fun m => JSObjectGetPrivate (jsq W) m o) h).
  rewrite Hp. assert (cell p h = (Ret l, h)) as E1.
  { unfold cell, the_js, gets, mbind, st_bind, some_or_undef, lift. change (s_js (sys h)) with (js_of h).
    by rewrite Hc. }
  step E1. by step (getv_run _ _ _ Hl).
Qed.
End Wrapped.

Section Callbacks.
Context (W : World) (V : VOps) (HJ : js_quiet (js W V)).
#[local] Set Default Proof Using "Type*".

Lemma on_js_quiet P f : throws_only P (on_js (modify f)).
Proof. by intros h e h' [=]. Qed.
Lemma query_quiet {A} P (f : jsmem -> A) : throws_only P (query f).
Proof. by intros h e h' [=]. Qed.
Lemma the_js_quiet {A} P (f : JSState -> A) : throws_only P (the_js f).
Proof. by intros h e h' [=]. Qed.
#[local] Hint Resolve on_js_quiet query_quiet the_js_quiet : quiet.

Lemma the_class_quiet get set d : no_throw (the_class W V get set d).
Proof. unfold the_class. quiet. Qed.
Lemma GetPrototype_quiet name ctx : no_throw (GetPrototype W V name ctx).
Proof. unfold GetPrototype. quiet. Qed.
Lemma new_cell_quiet l : no_throw (new_cell l).
Proof. unfold new_cell. quiet. Qed.
Lemma cell_quiet P p : throws_only P (cell p).
Proof. unfold cell. quiet. Qed.
Lemma own_object_quiet P proxy o ctx : throws_only P (own_object W proxy o ctx).
Proof. unfold own_object, SameContextGroup. quiet. Qed.
#[local] Hint Resolve the_class_quiet GetPrototype_quiet new_cell_quiet cell_quiet own_object_quiet : quiet.

Lemma ToJSValue_quiet l ctx : no_throw (ToJSValue W V l ctx).
Proof.
  unfold ToJSValue, ToBool, ToString, ToMethod, ToList, KObjectToJSValue, KMethodToJSValue, KListToJSValue,
    ObjectClass, MethodClass, ListClass, GetFunctionPrototype, GetArrayPrototype.
  quiet.
Qed.
#[local] Hint Resolve ToJSValue_quiet : quiet.
Lemma to_exception_quiet unknown ctx e : no_throw (to_exception W V unknown ctx e).
Proof. unfold to_exception. destruct e; quiet. Qed.
#[local] Hint Resolve to_exception_quiet : quiet.

Lemma try_quiet {A} (m : M A) (k : exn -> M A) :
  (forall e, no_throw (k e)) -> no_throw (try_catch m k).
Proof. intros Hk. apply (throws_only_try_catch (fun _ => True)); [done|auto]. Qed.

Lemma catch_run {A} (m : M A) k h e h1 : m h = (Throw e, h1) -> try_catch m k h = k e h1.
Proof. unfold try_catch. by intros ->. Qed.

(** The exception that JavaScript sees: the value of a ValueException, the text
    of a standard exception, and otherwise the text [unknown]. A text becomes a
    string of JavaScript, by way of a new value. *)
Definition text_for_js (ctx : N) (s : str) : M N := fun h =>
  JSValueMakeString (js W V) ctx (js_string W s) (with_fresh (set_string (c_str s) (reset new_value)) h).
Definition seen (unknown : str) (ctx : N) (e : exn) : M N :=
  match e with
  | ValueException (Some x) => ToJSValue W V x ctx
  | ValueException None => undef
  | StdException what => text_for_js ctx what
  | SharedValueExn _ | StdStringExn _ | CStringExn _ => text_for_js ctx unknown
  end.

Lemma new_text_for_js ctx s h : (v ← NewString s; ToJSValue W V v ctx) h = text_for_js ctx s h.
Proof.
  step (new_with_run (fun v => set_string (c_str s) (reset v)) h). unfold ToJSValue, text_for_js.
  erewrite st_bind_Ret; [|apply getv_run; simpl; apply lookup_insert_eq].
  change (JSValueMakeString (js W V) ctx (js_string W (c_str s)) (with_fresh (set_string (c_str s) (reset new_value)) h)
    = JSValueMakeString (js W V) ctx (js_string W s) (with_fresh (set_string (c_str s) (reset new_value)) h)).
  unfold js_string. by rewrite c_str_idemp.
Qed.
Lemma to_exception_seen unknown ctx e h : to_exception W V unknown ctx e h = seen unknown ctx e h.
Proof. destruct e as [[x|]| | | |]; first [reflexivity|apply new_text_for_js]. Qed.
Lemma report_seen {A} unknown ctx e (f : N -> M A) h :
  (j ← to_exception W V unknown ctx e; f j) h = (j ← seen unknown ctx e; f j) h.
Proof. unfold mbind, st_bind. by rewrite to_exception_seen. Qed.

(** C10: exceptions of the program do not reach JavaScriptCore as exceptions of
    C++. The callbacks that read and write a property never throw, whatever
    the object behind them does; when it throws, JavaScript gets an exception
    instead of a value: the value of a ValueException, a string with the text of
    a standard exception, and for any other exception a string that names the
    property. *)
Theorem property_callbacks_contain ctx o name :
  no_throw (GetPropertyCallback W V ctx o name) /\
  (forall j, no_throw (SetPropertyCallback W V ctx o name j)) /\
  (forall h l v x e h1, wrapper W h o l v -> objectValue v = Some x ->
     vGet V x (ToChars W name) h = (Throw e, h1) ->
     GetPropertyCallback W V ctx o name h
     = (j ← seen (lit "Unknown exception trying to get property: " ++ ToChars W name) ctx e;
        mret (None, Some j)) h1) /\
  (forall h l v x j nv h1 e h2, wrapper W h o l v -> objectValue v = Some x ->
     ToKrollValue W V (Some j) ctx (Some o) h = (Ret nv, h1) ->
     DoSpecialSetBehavior V l (ToChars W name) nv h1 = (Ret false, h1) ->
     vSet V x (ToChars W name) nv h1 = (Throw e, h2) ->
     SetPropertyCallback W V ctx o name j h
     = (k ← seen (lit "Unknown exception trying to set property: " ++ ToChars W name) ctx e;
        mret (false, Some k)) h2).
Proof.
  split_and!.
  - unfold GetPropertyCallback, private. quiet. apply try_quiet. quiet.
  - intros j. unfold SetPropertyCallback, private. quiet. apply try_quiet. quiet.
  - intros h l v x e h1 Hw Hx Hg. unfold GetPropertyCallback.
    etrans; [exact (wrapper_run W h o l v _ _ Hw)|].
    erewrite catch_run; [apply report_seen|]. unfold ToObject. rewrite Hx.
    erewrite st_bind_Ret by reflexivity. by apply bind_Throw.
  - intros h l v x j nv h1 e h2 Hw Hx Hk Hd Hs. unfold SetPropertyCallback.
    etrans; [exact (wrapper_run W h o l v _ _ Hw)|].
    erewrite catch_run; [apply report_seen|]. step Hk. step Hd.
    unfold ToObject. rewrite Hx. apply bind_Throw.
    erewrite st_bind_Ret by reflexivity. exact Hs.
Qed.

(** The arguments of a call are converted outside of the [try] block: an
    exception of the conversion gets out. *)
Lemma call_arguments_escape ctx f this a h l v e h1 :
  wrapper W h f l v -> ToMethod v h = (Ret (objectValue v), h) ->
  ToKrollValue W V (Some a) ctx (Some this) h = (Throw e, h1) ->
  CallAsFunctionCallback W V ctx f this [a] h = (Throw e, h1).
Proof.
  intros Hw Hm Hk. unfold CallAsFunctionCallback.
  etrans; [exact (wrapper_run W h f l v _ _ Hw)|]. cbv beta. step Hm. apply bind_Throw. simpl.
  apply bind_Throw. by apply bind_Throw.
Qed.
End Callbacks.

Lemma small_engine_quiet : js_quiet SmallEngine.ops.
Proof. split; intros; by intros h e h' [=]. Qed.

(** Objects whose properties cannot be read; the wrapper 5 of the value 3. *)
Definition throwing_ops : VOps := {|
  vFuel := 1; vGet _ _ := throw (StdException (lit "no")); vSet := vSet no_ops;
  vHasProperty := vHasProperty no_ops; vGetPropertyNames := vGetPropertyNames no_ops;
  vDisplayString := vDisplayString no_ops; vEquals := vEquals no_ops; vGetType := vGetType no_ops;
  vCall := vCall no_ops; vAppend := vAppend no_ops; vSize := vSize no_ops; vAt := vAt no_ops;
  vSetAt := vSetAt no_ops; vRemove := vRemove no_ops; vRun := vRun no_ops; vJS := vJS no_ops; vPy := vPy no_ops;
  vRb := vRb no_ops; vPhp := vPhp no_ops
|}.
Definition demo_wrapper_heap : heap :=
  set_js (fun _ => {| js_cells := {[9%N := 3%N]}; KJSKObjectClass := None; KJSKMethodClass := None;
                      KJSKListClass := None; jsContextMap := ∅; jsContextRefCounts := ∅;
                      js_memory := {[5%N := [3; 9]%N]} |})
    (with_fresh (set_object OBJECT (Some 2%N) (reset new_value))
       (with_object (lit "StaticBoundObject") StaticBoundObject initial_heap)).

Lemma property_callbacks_contain_witness :
  GetPropertyCallback SmallEngine.world throwing_ops 7 5 [120%N] demo_wrapper_heap
  = (j ← text_for_js SmallEngine.world throwing_ops 7 (lit "no"); mret (None, Some j)) demo_wrapper_heap.
Proof.
  destruct (property_callbacks_contain SmallEngine.world throwing_ops small_engine_quiet 7 5 [120%N])
    as (_ & _ & H & _).
  apply (H demo_wrapper_heap 3%N (set_object OBJECT (Some 2%N) (reset new_value)) 2%N (StdException (lit "no"))).
  - exists 9%N. split; [vm_compute; reflexivity|]. split; vm_compute; reflexivity.
  - reflexivity.
  - reflexivity.
Defined.

(** ** The length of a list *)

(** [l] cut or filled up with undefined. *)
Definition resized (n : nat) (l : list loc) : list loc := take n l ++ replicate (n - length l) Undefined.

Section Resize.
Context (W : World) (V0 : VOps) `{!StaticDispatch V0}.
#[local] Abbreviation V := (dispatch W V0).
#[local] Set Default Proof Using "Type*".

Lemma Size_run h this obj l : list_repr h this obj l -> vSize V this h = (Ret (Z.of_nat (length l)), h).
Proof.
  intros [Hc _ _ _]. cbn [vSize dispatch]. unfold dispatch_Size. step (class_at_run _ _ _ Hc).
  unfold StaticBoundList_Size. by step (list_fields_run _ _ _ _ Hc).
Qed.

Lemma shrink_loop this obj size fuel : forall h l,
  list_repr h this obj l -> size <= length l -> length l - size < fuel -> length l < vFuel V0 ->
  exists h', loop fuel (shrink_step V this (Z.of_nat size)) tt h = (Ret tt, h') /\
    list_repr h' this obj (take size l) /\ changed [this; obj] h h'.
Proof.
  induction fuel as [|fuel IH]; intros h l Hr Hs Hf Hv; [lia|]. cbn [loop].
  assert (vSize V this h = (Ret (Z.of_nat (length l)), h)) as Esize by by eapply Size_run.
  destruct (decide (size = length l)) as [->|Hne].
  - exists h. split_and!; [|by rewrite firstn_all|reflexivity].
    unfold shrink_step. rewrite st_bind_assoc. step Esize. by rewrite Z.ltb_irrefl.
  - destruct (Remove_repr V0 h this obj l (length l - 1) Hr Hv ltac:(lia)) as (h1 & E1 & Hr1 & Hch1).
    assert (delete (length l - 1) l = take (length l - 1) l) as El
      by (rewrite delete_take_drop, drop_ge, app_nil_r by lia; done).
    rewrite El in Hr1.
    destruct (IH h1 _ Hr1) as (h2 & E2 & Hr2 & Hch2); rewrite ?length_take; [lia..|].
    exists h2. split_and!; [|by rewrite take_take, Nat.min_l in Hr2 by lia|by etrans].
    unfold shrink_step. rewrite st_bind_assoc. step Esize.
    rewrite (proj2 (Z.ltb_lt _ _)) by lia. rewrite st_bind_assoc. step Esize.
    assert (vRemove V this (wrap32 (Z.of_nat (length l) - 1)) h = (Ret true, h1)) as E3.
    { rewrite wrap32_id by (pose proof (lr_length _ _ _ _ Hr); lia).
      replace (Z.of_nat (length l) - 1)%Z with (Z.of_nat (length l - 1)) by lia.
      cbn [vRemove dispatch]. unfold dispatch_Remove. by step (class_at_run _ _ _ (lr_class _ _ _ _ Hr)). }
    rewrite st_bind_assoc. step E3. exact E2.
Qed.

Lemma grow_loop this obj size fuel : forall h l,
  list_repr h this obj l -> size - length l < fuel -> (Z.of_nat size < 2 ^ 32)%Z ->
  exists h', loop fuel (grow_step V this (Z.of_nat size)) tt h = (Ret tt, h') /\
    list_repr h' this obj (l ++ replicate (size - length l) Undefined) /\ changed [this; obj] h h'.
Proof.
  induction fuel as [|fuel IH]; intros h l Hr Hf Hs; [lia|]. cbn [loop].
  assert (vSize V this h = (Ret (Z.of_nat (length l)), h)) as Esize by by eapply Size_run.
  destruct (decide (size <= length l)) as [Hle|Hgt].
  - exists h. split_and!; [|by replace (size - length l) with 0 by lia; rewrite app_nil_r|reflexivity].
    unfold grow_step. rewrite st_bind_assoc. step Esize. by rewrite (proj2 (Z.ltb_ge _ _)) by lia.
  - destruct (Append_repr h this obj l Undefined Hr ltac:(lia)) as (h1 & E1 & Hr1 & Hch1).
    destruct (IH h1 _ Hr1) as (h2 & E2 & Hr2 & Hch2); rewrite ?length_app; simpl; [lia..|].
    exists h2. split_and!; [| |by etrans].
    + unfold grow_step. rewrite st_bind_assoc. step Esize. rewrite (proj2 (Z.ltb_lt _ _)) by lia.
      assert (vAppend V this Undefined h = (Ret tt, h1)) as E3.
      { cbn [vAppend dispatch]. unfold dispatch_Append.
        by step (class_at_run _ _ _ (lr_class _ _ _ _ Hr)). }
      rewrite st_bind_assoc. step E3. exact E2.
    + rewrite length_app, <- app_assoc in Hr2. simpl in Hr2.
      by replace (size - length l) with (S (size - (length l + 1))) by lia.
Qed.

Lemma ResizeTo_repr h this obj l size :
  list_repr h this obj l -> length l < vFuel V0 -> size < vFuel V0 -> (Z.of_nat size < 2 ^ 32)%Z ->
  exists h', ResizeTo V this (Z.of_nat size) h = (Ret tt, h') /\
    list_repr h' this obj (resized size l) /\ changed [this; obj] h h'.
Proof.
  intros Hr Hl Hs H32. unfold ResizeTo, resized. step (Size_run _ _ _ _ Hr).
  assert (vFuel V = S (vFuel V0)) as Ef by done. rewrite Ef.
  case_match eqn:Eq; [apply Z.eqb_eq in Eq|apply Z.eqb_neq in Eq].
  - exists h. assert (size = length l) as -> by lia.
    rewrite firstn_all, Nat.sub_diag, app_nil_r. by split_and!.
  - destruct (decide (size <= length l)) as [Hle|Hgt].
    + destruct (shrink_loop this obj size (S (vFuel V0)) h l Hr) as (h1 & E1 & Hr1 & Hc1); [lia..|].
      destruct (grow_loop this obj size (S (vFuel V0)) h1 _ Hr1) as (h2 & E2 & Hr2 & Hc2);
        [rewrite ?length_take; lia..|].
      exists h2. split_and!; [step E1; exact E2| |by etrans].
      rewrite length_take, Nat.min_l, Nat.sub_diag in Hr2 by lia. by replace (size - length l) with 0 by lia.
    + assert (loop (S (vFuel V0)) (shrink_step V this (Z.of_nat size)) tt h = (Ret tt, h)) as E1.
      { cbn [loop]. unfold shrink_step. rewrite st_bind_assoc. step (Size_run _ _ _ _ Hr).
        by rewrite (proj2 (Z.ltb_ge _ _)) by lia. }
      destruct (grow_loop this obj size (S (vFuel V0)) h l Hr) as (h2 & E2 & Hr2 & Hc2); [lia..|].
      exists h2. split_and!; [by step E1| |done]. by rewrite take_ge by lia.
Qed.

(** The length of a list can be set from JavaScript. When a wrapper of a
    StaticBoundList gets an integer as its property "length", the list is cut
    to that length or filled up with undefined, and no exception is reported.
    The depth covers the old and the new length. *)
Theorem js_length_resizes ctx o name j lv v this obj items nv w size h h1 :
  wrapper W h o lv v -> type v = LIST -> objectValue v = Some this ->
  ToChars W name = lit "length" ->
  ToKrollValue W V (Some j) ctx (Some o) h = (Ret nv, h1) ->
  vals h1 !! lv = Some v -> vals h1 !! nv = Some w -> IsInt w = true -> ToInt w = Z.of_nat size ->
  list_repr h1 this obj items -> length items < vFuel V0 -> size < vFuel V0 ->
  exists h2, SetPropertyCallback W V ctx o name j h = (Ret (true, None), h2) /\
    list_repr h2 this obj (resized size items).
Proof.
  intros Hw Ht Ho Hname Hk Hlv Hnv Hi Hsize Hr Hl Hs.
  assert (Z.of_nat size < 2 ^ 31)%Z as H31
    by (pose proof (int_of_double_range (numberValue w)) as Hz; fold (ToInt w) in Hz;
        unfold is_int, int_max in Hz; lia).
  destruct (ResizeTo_repr h1 this obj items size Hr Hl Hs ltac:(lia)) as (h2 & E2 & Hr2 & _).
  exists h2. split; [|done]. unfold SetPropertyCallback.
  etrans; [exact (wrapper_run W h o lv v _ _ Hw)|]. cbv beta. unfold try_catch.
  assert (DoSpecialSetBehavior V lv (ToChars W name) nv h1 = (Ret true, h2)) as E3.
  { unfold DoSpecialSetBehavior. step (getv_run _ _ _ Hlv). step (getv_run _ _ _ Hnv).
    rewrite Hname, Hi, bool_decide_true by done. unfold IsList. rewrite Ht. simpl.
    unfold ToList. rewrite Ho. destruct (objs h1 !! this) as [x|] eqn:Hx.
    - assert (is_list_class (o_class x) = true) as Hcl.
      { pose proof (lr_class _ _ _ _ Hr) as Hc. unfold class_of in Hc. rewrite Hx in Hc. by injection Hc as ->. }
      step (dynamic_cast_run is_list_class _ _ _ Hx Hcl). erewrite st_bind_Ret by reflexivity.
      rewrite Hsize, wrap32_id by lia. by step E2.
    - pose proof (lr_class _ _ _ _ Hr) as Hc. unfold class_of in Hc. by rewrite Hx in Hc. }
  step Hk. by step E3.
Qed.
End Resize.

(** The wrapper 5 of the list 3, and the number 2 at 6. *)
Definition demo_length_heap : heap :=
  set_js (fun _ => {| js_cells := {[9%N := next demo_list_heap]}; KJSKObjectClass := None;
                      KJSKMethodClass := None; KJSKListClass := None; jsContextMap := ∅;
                      jsContextRefCounts := ∅;
                      js_memory := {[5%N := [3; 9]%N;
                                     6%N := 1%N :: SmallEngine.words_of_double (double_of_int 2)]} |})
    (with_fresh (set_object LIST (Some 3%N) (reset new_value)) demo_list_heap).
Definition js_length_name : jsstr := map N_of_ascii (lit "length").

Lemma js_length_resizes_witness :
  exists h2, SetPropertyCallback SmallEngine.world (vt SmallEngine.world 6) 7 5 js_length_name 6
      demo_length_heap = (Ret (true, None), h2) /\ list_repr h2 3%N 2%N [4; 5]%N.
Proof.
  apply (js_length_resizes SmallEngine.world (vt SmallEngine.world 5) 7 5 js_length_name 6
    (next demo_list_heap) (set_object LIST (Some 3%N) (reset new_value)) 3 2 [4; 5; 6]%N
    (next demo_length_heap) (set_number DOUBLE (double_of_int 2) (reset new_value)) 2 demo_length_heap
    (with_fresh (set_number DOUBLE (double_of_int 2) (reset new_value)) demo_length_heap)).
  - exists 9%N. split; [vm_compute; reflexivity|]. split; vm_compute; reflexivity.
  - reflexivity.
  - reflexivity.
  - vm_compute. reflexivity.
  - vm_compute. reflexivity.
  - vm_compute. reflexivity.
  - vm_compute. reflexivity.
  - vm_compute. reflexivity.
  - vm_compute. reflexivity.
  - destruct demo_list_repr as [H1 H2 H3 H4]. split; assumption.
  - vm_compute. lia.
  - vm_compute. lia.
Defined.
