(* ===== verification/PythonInterpreter.v ===== *)
(** * PythonInterpreter: the documented behaviour of CPython, and a small
    interpreter that has it

    [look] says what an object is and holds, [count] how many references
    there are to it, [live] which addresses are objects. A step of the
    interpreter that runs no script leaves the values and objects of the
    program, and what live objects hold; their counts change by what the
    called function says. *)

From S2P Require Import Prelude CppString Double Application System Heap JavaScriptCore PythonCore Virtual.
From S2P Require Import KObject StaticBound StaticLaws Python JavaScriptEngine.
From stdpp Require Import options.

Definition py_of (h : heap) : PyState := s_py (sys h).
Definition set_py (f : PyState -> PyState) (h : heap) : heap :=
  with_sys (fun _ => with_py (f (py_of h)) (sys h)) h.

Lemma on_py_run f h : on_py (modify f) h = (Ret tt, set_py f h).
Proof. done. Qed.
Lemma ask_run {A} (f : pymem -> A) h : ask f h = (Ret (f (pymem_of h)), h).
Proof. done. Qed.
Lemma PyKObject_value_run p l h :
  pyk_values (py_of h) !! p = Some l -> PyKObject_value p h = (Ret l, h).
Proof.
  intros Hp. unfold PyKObject_value, the_py, gets, mbind, st_bind, some_or_undef, lift.
  change (s_py (sys h)) with (py_of h). by rewrite Hp.
Qed.

(** What an object is. *)
Inductive pyval :=
  | PNone | PBool (b : bool) | PInt (z : Z) | PFloat (d : double) | PStr (s : str)
  | PWrapper (t : PyType)
  | PList (items : list N) | PTuple (items : list N)
  | PModule | PInstance | PFunction | PMapping | PObject.

Definition is_kroll_type (t : PyType) : bool :=
  match t with PyKObjectType | PyKMethodType | PyKListType => true | _ => false end.

(** The types, with the base types, of an object. *)
Definition has_type (x : pyval) (t : PyType) : bool :=
  match x with
  | PBool _ => bool_decide (t = PyBool_Type) || bool_decide (t = PyInt_Type)
  | PInt _ => bool_decide (t = PyInt_Type)
  | PFloat _ => bool_decide (t = PyFloat_Type)
  | PStr _ => bool_decide (t = PyString_Type)
  | PList _ => bool_decide (t = PyList_Type)
  | PTuple _ => bool_decide (t = PyTuple_Type)
  | PModule => bool_decide (t = PyModule_Type)
  | PWrapper t' => bool_decide (t = t')
  | _ => false
  end.

Section Interpreter.
Context (W : World) (V : VOps).
Context (live : pymem -> N -> Prop) (look : pymem -> N -> pyval) (count : pymem -> N -> Z).
#[local] Abbreviation Q := (pyq W).
#[local] Abbreviation call := (py W V _).

(** A step that changes the counts of live objects by [d]. *)
Record kept (d : N -> Z) (h h' : heap) : Prop := {
  kp_next : next h' = next h;
  kp_vals : vals h' = vals h;
  kp_objs : objs h' = objs h;
  kp_wrappers o : live (pymem_of h) o -> pyk_values (py_of h') !! o = pyk_values (py_of h) !! o;
  kp_live o : live (pymem_of h) o -> live (pymem_of h') o;
  kp_look o : live (pymem_of h) o -> look (pymem_of h') o = look (pymem_of h) o;
  kp_count o : live (pymem_of h) o -> count (pymem_of h') o = (count (pymem_of h) o + d o)%Z
}.
Definition same : N -> Z := fun _ => 0%Z.
Definition one_more (o : N) : N -> Z := fun o' => if decide (o' = o) then 1%Z else 0%Z.
Definition sum (d1 d2 : N -> Z) : N -> Z := fun o => (d1 o + d2 o)%Z.

Lemma pykept_trans d1 d2 h1 h2 h3 : kept d1 h1 h2 -> kept d2 h2 h3 -> kept (sum d1 d2) h1 h3.
Proof.
  intros [] []. split; try congruence; try (intros; by auto).
  - intros o Ho. rewrite kp_wrappers1, kp_wrappers0; auto.
  - intros o Ho. rewrite kp_look1, kp_look0; auto.
  - intros o Ho. rewrite kp_count1, kp_count0 by auto. unfold sum. lia.
Qed.
Lemma pykept_ext d1 d2 h h' : (forall o, d1 o = d2 o) -> kept d1 h h' -> kept d2 h h'.
Proof. intros E []. split; try done. intros o Ho. rewrite <- E. auto. Qed.
Lemma pykept_refl h : kept same h h.
Proof. split; try done. unfold same. intros. lia. Qed.

(** The call replies with [P]. *)
Definition replies {A : Set} (c : pycmd A) (h : heap) (P : A -> heap -> Prop) : Prop :=
  exists a h', call c h = (Ret a, h') /\ P a h'.

(** A reference of the caller to an object [x]: to one that was there (the
    interpreter shares small integers and short texts), or to a new one that has
    no other reference. *)
Definition makes (x : pyval) (h : heap) (r : option N) (h' : heap) : Prop :=
  exists p, r = Some p /\ kept (one_more p) h h' /\ live (pymem_of h') p /\
    look (pymem_of h') p = x /\ (~ live (pymem_of h) p -> count (pymem_of h') p = 1%Z).
(** A new object [x], with the one reference of the caller. *)
Definition makes_new (x : pyval) (h : heap) (r : option N) (h' : heap) : Prop :=
  exists p, r = Some p /\ kept same h h' /\ ~ live (pymem_of h) p /\ live (pymem_of h') p /\
    look (pymem_of h') p = x /\ count (pymem_of h') p = 1%Z.
Lemma makes_new_makes x h r h' : makes_new x h r h' -> makes x h r h'.
Proof.
  intros (p & -> & K & Hn & Hl & Hx & Hc). exists p. split_and!; try done.
  destruct K. split; try done. intros o Ho. unfold one_more. rewrite decide_False by (by intros ->). by apply kp_count0.
Qed.

(** The documented behaviour of the C API. *)
Class Interpreter : Prop := {
  pi_none m : live m (Py_None Q) /\ look m (Py_None Q) = PNone;
  pi_bool m b : live m (if b : bool then Py_True Q else Py_False Q) /\
    look m (if b : bool then Py_True Q else Py_False Q) = PBool b;
  pi_type m o t : live m o -> PyObject_TypeCheck Q m o t = has_type (look m o) t;
  pi_string_check m o : live m o -> PyString_Check Q m o = has_type (look m o) PyString_Type;
  pi_instance m o : live m o -> PyInstance_Check Q m o = true <-> look m o = PInstance;
  pi_callable m o : live m o -> look m o = PFunction -> PyCallable_Check Q m o = true;
  pi_not_callable m o : live m o -> look m o = PMapping \/ look m o = PObject ->
    PyMethod_Check Q m o || PyFunction_Check Q m o || PyCallable_Check Q m o = false;
  pi_mapping m o : live m o -> look m o = PMapping -> PyMapping_Check Q m o = true;
  pi_no_mapping m o : live m o -> look m o = PObject -> PyMapping_Check Q m o = false;
  pi_incref o h : live (pymem_of h) o -> replies (Py_INCREF o) h (fun _ h' => kept (one_more o) h h');
  pi_float d h : replies (PyFloat_FromDouble d) h (makes (PFloat d) h);
  pi_int z h : is_int z -> replies (PyInt_FromLong z) h (makes (PInt z) h);
  pi_string s h : no_nul s -> replies (PyString_FromString s) h (makes (PStr s) h);
  pi_new t h : is_kroll_type t = true -> replies (PyObject_New t) h (makes_new (PWrapper t) h);
  pi_is_true o b h : live (pymem_of h) o -> look (pymem_of h) o = PBool b ->
    replies (PyObject_IsTrue o) h (fun z h' => z = Z.b2z b /\ kept same h h');
  pi_as_long o z h : live (pymem_of h) o -> look (pymem_of h) o = PInt z ->
    replies (PyInt_AsLong o) h (fun z' h' => z' = z /\ kept same h h');
  pi_as_double o d h : live (pymem_of h) o -> look (pymem_of h) o = PFloat d ->
    replies (PyFloat_AsDouble o) h (fun d' h' => d' = d /\ kept same h h');
  pi_as_string o s h : live (pymem_of h) o -> look (pymem_of h) o = PStr s ->
    replies (PyString_AsString o) h (fun r h' => exists p, r = Some p /\ kept same h h' /\
      text_at Q (pymem_of h') p = s)
}.

(** What can lose a reference without that anything else happens: an object
    that others hold too, or one of the types that hold no objects and have no
    finalizer. *)
Definition simple (x : pyval) : bool :=
  match x with PNone | PBool _ | PInt _ | PFloat _ | PStr _ => true | _ => false end.
Definition droppable (m : pymem) (o : N) : Prop := (2 <= count m o)%Z \/ simple (look m o) = true.

(** A step that changes the items of the list [l], and may free [dropped]. *)
Record list_step (l : N) (items : list N) (dropped : option N) (h h' : heap) : Prop := {
  ls_next : next h' = next h;
  ls_vals : vals h' = vals h;
  ls_objs : objs h' = objs h;
  ls_list : live (pymem_of h') l /\ look (pymem_of h') l = PList items;
  ls_live o : live (pymem_of h) o -> Some o <> dropped -> live (pymem_of h') o;
  ls_look o : live (pymem_of h) o -> Some o <> dropped -> o <> l ->
    look (pymem_of h') o = look (pymem_of h) o;
  ls_wrappers o : live (pymem_of h) o -> Some o <> dropped ->
    pyk_values (py_of h') !! o = pyk_values (py_of h) !! o;
  ls_count o : live (pymem_of h) o -> Some o <> dropped ->
    (count (pymem_of h) o <= count (pymem_of h') o)%Z
}.
Definition is_list (h : heap) (l : N) (items : list N) : Prop :=
  live (pymem_of h) l /\ look (pymem_of h) l = PList items.

(** The functions on lists. *)
Class Lists : Prop := {
  pl_size l items h : is_list h l items ->
    replies (PyList_Size l) h (fun n h' => n = Z.of_nat (length items) /\ kept same h h');
  pl_get l items h i o : is_list h l items -> items !! i = Some o ->
    replies (PyList_GetItem l (Z.of_nat i)) h (fun r h' => r = Some o /\ kept same h h');
  pl_append l items o h : is_list h l items -> live (pymem_of h) o ->
    replies (PyList_Append l o) h (fun _ h' => list_step l (items ++ [o]) None h h');
  pl_set l items o i old h : is_list h l items -> live (pymem_of h) o -> items !! i = Some old ->
    droppable (pymem_of h) old ->
    replies (PyList_SetItem l (Z.of_nat i) o) h (fun _ h' =>
      list_step l (<[i := o]> items) (if decide (old = o) then None else Some old) h h')
}.

(** References that are given back, and exceptions: [pending] is the type
    and the value of the one that waits. *)
Context (pending : pymem -> option (N * N)).
Definition one_less (o : N) : N -> Z := fun o' => if decide (o' = o) then (-1)%Z else 0%Z.
Definition same_error (h h' : heap) : Prop := pending (pymem_of h') = pending (pymem_of h).
Class Errors : Prop := {
  pe_count m o : live m o -> (1 <= count m o)%Z;
  pe_occurred m : PyErr_Occurred Q m = bool_decide (is_Some (pending m));
  pe_decref o h : live (pymem_of h) o -> (2 <= count (pymem_of h) o)%Z ->
    replies (Py_DECREF o) h (fun _ h' => kept (one_less o) h h' /\ same_error h h');
  (* The last reference to an object without a finalizer: it is freed. A
     wrapper deletes its [SharedValue], which is not the last one. *)
  pe_free o h : live (pymem_of h) o -> count (pymem_of h) o = 1%Z ->
    simple (look (pymem_of h) o) = true \/ (exists t, look (pymem_of h) o = PWrapper t) ->
    replies (Py_DECREF o) h (fun _ h' =>
      next h' = next h /\ vals h' = vals h /\ objs h' = objs h /\ same_error h h');
  (* objects hold their type *)
  pe_type o h : live (pymem_of h) o -> replies (PyObject_Type o) h (fun r h' => exists t, r = Some t /\
    live (pymem_of h) t /\ kept (one_more t) h h');
  pe_set t o h : live (pymem_of h) t -> live (pymem_of h) o ->
    replies (PyErr_SetObject (Some t) (Some o)) h (fun _ h' => kept (sum (one_more t) (one_more o)) h h' /\
      pending (pymem_of h') = Some (t, o));
  pe_fetch t o h : pending (pymem_of h) = Some (t, o) ->
    replies PyErr_Fetch h (fun r h' => r = (Some t, Some o, None) /\ kept same h h' /\
      pending (pymem_of h') = None)
}.
End Interpreter.

Arguments pi_none {W V live look count _}.
Arguments pi_bool {W V live look count _}.
Arguments pi_type {W V live look count _}.
Arguments pi_string_check {W V live look count _}.
Arguments pi_instance {W V live look count _}.
Arguments pi_callable {W V live look count _}.
Arguments pi_not_callable {W V live look count _}.
Arguments pi_mapping {W V live look count _}.
Arguments pi_no_mapping {W V live look count _}.
Arguments pi_incref {W V live look count _}.
Arguments pi_float {W V live look count _}.
Arguments pi_int {W V live look count _}.
Arguments pi_string {W V live look count _}.
Arguments pi_new {W V live look count _}.
Arguments pi_is_true {W V live look count _}.
Arguments pi_as_long {W V live look count _}.
Arguments pi_as_double {W V live look count _}.
Arguments pi_as_string {W V live look count _}.
Arguments pe_count {W V live look count pending} _.
Arguments pe_occurred {W V live look count pending} _.
Arguments pe_decref {W V live look count pending} _.
Arguments pe_free {W V live look count pending} _.
Arguments pe_type {W V live look count pending} _.
Arguments pe_set {W V live look count pending} _.
Arguments pe_fetch {W V live look count pending} _.
Arguments pl_size {W V live look count} _.
Arguments pl_get {W V live look count} _.
Arguments pl_append {W V live look count} _.
Arguments pl_set {W V live look count} _.
Arguments kp_next {live look count d h h'} _.
Arguments kp_vals {live look count d h h'} _.
Arguments kp_objs {live look count d h h'} _.
Arguments kp_wrappers {live look count d h h'} _.
Arguments kp_live {live look count d h h'} _.
Arguments kp_look {live look count d h h'} _.
Arguments kp_count {live look count d h h'} _.
Arguments pykept_trans {live look count d1 d2 h1 h2 h3} _ _.
Arguments pykept_ext {live look count d1} d2 {h h'} _ _.
Arguments pykept_refl {live look count} h.
Arguments ls_next {live look count l items dropped h h'} _.
Arguments ls_vals {live look count l items dropped h h'} _.
Arguments ls_objs {live look count l items dropped h h'} _.
Arguments ls_list {live look count l items dropped h h'} _.
Arguments ls_live {live look count l items dropped h h'} _.
Arguments ls_look {live look count l items dropped h h'} _.
Arguments ls_wrappers {live look count l items dropped h h'} _.
Arguments ls_count {live look count l items dropped h h'} _.

(** ** A small interpreter

    An object is its count, a tag and its contents; [None], [True], [False]
    and the one type are the addresses 0 to 3, which the interpreter holds a
    reference to; the address 4 has the pending exception. Nothing runs. *)
Module SmallInterpreter.

Definition words (m : pymem) (o : N) : list N := default [] (m !! o).
Definition stored (m : pymem) (o : N) : Z := Z.of_N (hd 0%N (words m o)).
Definition live (m : pymem) (o : N) : Prop := (o < 4)%N \/ (4 < o)%N /\ (1 <= stored m o)%Z.
Definition count (m : pymem) (o : N) : Z := (stored m o + if (o <? 4)%N then 1 else 0)%Z.
Definition pending (m : pymem) : option (N * N) :=
  match words m 4 with [t; o] => Some (t, o) | _ => None end.
Definition decode (w : list N) : pyval :=
  match w with
  | 1 :: d => PFloat (SmallEngine.double_of_words d)
  | [2; z] => PInt (SmallEngine.Z_of_word z)
  | 3 :: s => PStr (map ascii_of_N s)
  | [4] => PWrapper PyKObjectType
  | [5] => PWrapper PyKMethodType
  | [6] => PWrapper PyKListType
  | 7 :: items => PList items
  | 8 :: items => PTuple items
  | _ => PObject
  end%N.
Definition look (m : pymem) (o : N) : pyval :=
  match o with
  | 0 => PNone
  | 1 => PBool true
  | 2 => PBool false
  | 3 => PObject
  | _ => decode (tail (words m o))
  end%N.

Definition queries : PyQueries := {|
  Py_None := 0%N; Py_True := 1%N; Py_False := 2%N;
  PyObject_TypeCheck m o t := has_type (look m o) t;
  PyString_Check m o := has_type (look m o) PyString_Type;
  PyInstance_Check _ _ := false; PyMethod_Check _ _ := false; PyFunction_Check _ _ := false;
  PyCallable_Check _ _ := false; PyMapping_Check _ _ := false; PyErr_Occurred m := bool_decide (is_Some (pending m));
  text_at m o := match look m o with PStr s => s | _ => [] end;
  stale_text _ := []
|}.

Definition set_memory (f : pymem -> pymem) : heap -> heap :=
  set_py (fun p => {| pyk_values := pyk_values p; py_binding := py_binding p;
                      py_instance := py_instance p; py_memory := f (py_memory p) |}).
Definition fresh_address (m : pymem) : N := fresh (({[0; 1; 2; 3; 4]} : gset N) ∪ dom m)%N.
Definition store (w : list N) : M (option N) := fun h =>
  let a := fresh_address (pymem_of h) in (Ret (Some a), set_memory (<[a := 1%N :: w]>) h).
Definition put (o : N) (f : list N -> list N) : M unit := fun h =>
  (Ret tt, set_memory (<[o := f (words (pymem_of h) o)]>) h).
Definition change_count (f : N -> N) (o : N) : M unit := put o (fun w => f (hd 0%N w) :: tail w).
Definition add_reference : N -> M unit := change_count N.succ.
Definition set_pending (w : list N) : M unit := fun h => (Ret tt, set_memory (<[4%N := w]>) h).
Definition set_items (l : N) (items : list N) : M Z :=
  put l (fun w => hd 0%N w :: 7%N :: items);; mret 0%Z.
Definition items_of (m : pymem) (o : N) : list N :=
  match look m o with PList items | PTuple items => items | _ => [] end.

Definition ops (A : Set) (c : pycmd A) : M A :=
  match c in pycmd A return M A with
  | Py_INCREF o => add_reference o
  | Py_DECREF o => change_count N.pred o
  | PyObject_Type _ => add_reference 3;; mret (Some 3%N)
  | PyErr_SetObject (Some t) (Some o) => add_reference t;; add_reference o;; set_pending [t; o]
  | PyErr_Fetch =>
      e ← ask pending; set_pending [];;
      mret (match e with Some (t, o) => (Some t, Some o, None) | None => (None, None, None) end)
  | PyFloat_FromDouble d => store (1%N :: SmallEngine.words_of_double d)
  | PyInt_FromLong z => store [2%N; SmallEngine.word_of_Z z]
  | PyString_FromString s => store (3%N :: map N_of_ascii s)
  | PyObject_New t =>
      store [match t with PyKObjectType => 4%N | PyKMethodType => 5%N | _ => 6%N end]
  | PyList_New _ => store [7%N]
  | PyObject_IsTrue o => ask (fun m => match look m o with PBool b => Z.b2z b | _ => 0%Z end)
  | PyInt_AsLong o => ask (fun m => match look m o with PInt z => z | _ => 0%Z end)
  | PyFloat_AsDouble o => ask (fun m => match look m o with PFloat d => d | _ => zero end)
  | PyString_AsString o => mret (Some o)
  | PyList_Size l => ask (fun m => Z.of_nat (length (items_of m l)))
  | PyList_GetItem l i => ask (fun m => items_of m l !! Z.to_nat i)
  | PyTuple_Size t => ask (fun m => Z.of_nat (length (items_of m t)))
  | PyTuple_GetItem t i => ask (fun m => items_of m t !! Z.to_nat i)
  | PyList_Append l o => items ← ask (fun m => items_of m l); add_reference o;; set_items l (items ++ [o])
  | PyList_SetItem l i o => items ← ask (fun m => items_of m l); set_items l (<[Z.to_nat i := o]> items)
  | _ => lift Fuel
  end.

Definition world : World := {|
  show_double _ := []; show_ptr _ := []; now _ := 0%Z; poco_toLower s := s; poco_toUpper s := s;
  native _ _ _ _ := mret tt; function_ptr _ _ _ := NewUndefined; foreign _ _ := no_ops;
  jsq := no_queries; js _ := no_js; pyq := queries; py _ := ops; rbq := no_rbq; rb _ := no_rb;
  phpq := no_phpq; php _ := no_php; poco_URI := no_uri; outside := quiet_system
|}.

Lemma look_words m m' o : m !! o = m' !! o -> look m o = look m' o /\ stored m o = stored m' o.
Proof. unfold look, stored, words. by intros ->. Qed.

Lemma fresh_address_new m :
  ~ live m (fresh_address m) /\ m !! fresh_address m = None /\ (4 < fresh_address m)%N.
Proof.
  pose proof (is_fresh (({[0; 1; 2; 3; 4]} : gset N) ∪ dom m)%N) as Hf. unfold fresh_address.
  set (a := fresh _) in *.
  assert (m !! a = None) as Ha by (apply not_elem_of_dom; set_solver).
  assert (4 < a)%N as H4.
  { destruct (decide (4 < a)%N); [done|].
    assert (a = 0 \/ a = 1 \/ a = 2 \/ a = 3 \/ a = 4)%N by lia. set_solver. }
  split_and!; [|done|done]. intros [Hl|[_ Hs]]; [lia|].
  unfold stored, words in Hs. rewrite Ha in Hs. simpl in Hs. lia.
Qed.

Lemma look_large m o : (4 < o)%N -> look m o = decode (tail (words m o)).
Proof. intros Ho. unfold look. destruct o as [|[[p|p|]|[p|p|]|]]; try done; lia. Qed.

(** A step that rewrites the object [o], with its count changed by [d o]. *)
Lemma rewritten d h (m' : pymem) o :
  (forall o', o' <> o -> m' !! o' = pymem_of h !! o') ->
  (live (pymem_of h) o -> look m' o = look (pymem_of h) o /\ live m' o /\
     stored m' o = (stored (pymem_of h) o + d o)%Z) ->
  (forall o', o' <> o -> d o' = 0%Z) ->
  kept live look count d h (set_memory (fun _ => m') h).
Proof.
  intros Hm Ho Hd. assert (pymem_of (set_memory (fun _ => m') h) = m') as Em by done.
  split; try done; rewrite ?Em; intros o' Ho'; destruct (decide (o' = o)) as [->|Hne].
  - by apply Ho.
  - unfold live. by rewrite (proj2 (look_words _ _ _ (Hm o' Hne))).
  - by apply Ho.
  - apply look_words, Hm, Hne.
  - unfold count. destruct (Ho Ho') as (_ & _ & ->). lia.
  - unfold count. rewrite (proj2 (look_words _ _ _ (Hm o' Hne))), Hd by done. lia.
Qed.

Lemma store_makes w h :
  exists r h', store w h = (Ret r, h') /\ makes_new live look count (decode w) h r h'.
Proof.
  eexists _, _. split; [reflexivity|].
  destruct (fresh_address_new (pymem_of h)) as (Hl & Hn & H4).
  set (a := fresh_address (pymem_of h)) in *.
  match goal with |- makes_new _ _ _ _ _ _ ?x => set (h' := x) end.
  assert (pymem_of h' = <[a := 1%N :: w]> (pymem_of h)) as Em by done.
  assert (words (pymem_of h') a = 1%N :: w) as Ew by (rewrite Em; unfold words; by rewrite lookup_insert_eq).
  exists a. split_and!; [done| |done| | |].
  - apply (rewritten same h (<[a := 1%N :: w]> (pymem_of h)) a); [|done|done].
    intros o' Hne. by rewrite lookup_insert_ne.
  - right. split; [done|]. unfold stored. rewrite Ew. simpl. lia.
  - rewrite look_large by done. by rewrite Ew.
  - unfold count, stored. rewrite Ew. rewrite (proj2 (N.ltb_ge _ _)) by lia. done.
Qed.

Lemma Z_of_word_of z : SmallEngine.Z_of_word (SmallEngine.word_of_Z z) = z.
Proof. by destruct z. Qed.

Lemma not_pending o m : live m o -> o <> 4%N.
Proof. intros [|[]]; lia. Qed.

(** A change of the count. *)
Lemma change_count_kept f d o h :
  (forall o', o' <> o -> d o' = 0%Z) -> live (pymem_of h) o ->
  Z.of_N (f (hd 0%N (words (pymem_of h) o))) = (stored (pymem_of h) o + d o)%Z ->
  (1 <= count (pymem_of h) o + d o)%Z ->
  exists h', change_count f o h = (Ret tt, h') /\ kept live look count d h h' /\
    pending (pymem_of h') = pending (pymem_of h).
Proof.
  intros Hd Hl Hf Hc. eexists. split; [reflexivity|].
  set (m' := <[o := f (hd 0%N (words (pymem_of h) o)) :: tail (words (pymem_of h) o)]> (pymem_of h)).
  assert (forall o', o' <> o -> m' !! o' = pymem_of h !! o') as Hne
    by (intros o' Hne; unfold m'; by rewrite lookup_insert_ne).
  assert (words m' o = f (hd 0%N (words (pymem_of h) o)) :: tail (words (pymem_of h) o)) as Ew
    by (unfold m', words at 1; by rewrite lookup_insert_eq).
  assert (stored m' o = (stored (pymem_of h) o + d o)%Z) as Es
    by (unfold stored at 1; rewrite Ew; exact Hf).
  split.
  - apply (rewritten d h m' o); [done| |done]. intros _. split_and!; [| |done].
    + unfold look. by rewrite Ew.
    + destruct Hl as [Hl|[Hl _]]; [by left|right]. split; [done|]. rewrite Es.
      unfold count in Hc. rewrite (proj2 (N.ltb_ge _ _)) in Hc by lia. lia.
  - match goal with |- pending ?x = _ => change x with m' end.
    unfold pending, words. apply not_pending in Hl. by rewrite Hne.
Qed.

(** One more reference changes the count only. *)
Lemma add_reference_kept o h :
  live (pymem_of h) o ->
  exists h', add_reference o h = (Ret tt, h') /\ kept live look count (one_more o) h h' /\
    pending (pymem_of h') = pending (pymem_of h).
Proof.
  intros Hl. apply change_count_kept; [|done|..]; unfold one_more.
  - intros o' Hne. by rewrite decide_False.
  - rewrite decide_True by done. unfold stored. lia.
  - rewrite decide_True by done. unfold count, stored. case_match; lia.
Qed.

Lemma set_pending_kept w h :
  exists h', set_pending w h = (Ret tt, h') /\ kept live look count same h h' /\
    words (pymem_of h') 4 = w.
Proof.
  eexists. split; [reflexivity|]. split.
  - apply (rewritten same h (<[4%N := w]> (pymem_of h)) 4%N); [|by intros H%not_pending|done].
    intros o' Hne. by rewrite lookup_insert_ne.
  - unfold words. unfold pymem_of. simpl. by rewrite lookup_insert_eq.
Qed.

Lemma ask_answers {A} (f : pymem -> A) h (P : A -> heap -> Prop) :
  P (f (pymem_of h)) h -> exists a h', ask f h = (Ret a, h') /\ P a h'.
Proof. intros HP. by exists (f (pymem_of h)), h. Qed.

#[export] Instance interpreter V : Interpreter world V live look count.
Proof.
  split; try done.
  - intros m. split; [by left|done].
  - intros m []; (split; [by left|done]).
  - intros m o Ho. split; [done|]. simpl. unfold look. intros E.
    by repeat (case_match; simplify_eq; unfold decode in * ).
  - intros m o Ho E. exfalso. unfold look in E. by repeat (case_match; simplify_eq; unfold decode in * ).
  - intros m o Ho E. exfalso. unfold look in E. by repeat (case_match; simplify_eq; unfold decode in * ).
  - intros o h Ho. destruct (add_reference_kept o h Ho) as (h' & E & Hk & _). by exists tt, h'.
  - intros d h. destruct (store_makes (1%N :: SmallEngine.words_of_double d) h) as (r & h' & E & Hm).
    cbn [decode] in Hm. rewrite SmallEngine.double_of_words_of in Hm. exists r, h'. split; [done|by apply makes_new_makes].
  - intros z h _. destruct (store_makes [2%N; SmallEngine.word_of_Z z] h) as (r & h' & E & Hm).
    cbn [decode] in Hm. rewrite Z_of_word_of in Hm. exists r, h'. split; [done|by apply makes_new_makes].
  - intros s h _. destruct (store_makes (3%N :: map N_of_ascii s) h) as (r & h' & E & Hm).
    cbn [decode] in Hm. rewrite map_map in Hm.
    erewrite map_ext, map_id in Hm; [exists r, h'; split; [done|by apply makes_new_makes]|]. intros c. apply ascii_N_embedding.
  - intros t h Ht. destruct t; try done; apply store_makes.
  - intros o b h Ho E. apply ask_answers. rewrite E. split; [done|apply pykept_refl].
  - intros o z h Ho E. apply ask_answers. rewrite E. split; [done|apply pykept_refl].
  - intros o d h Ho E. apply ask_answers. rewrite E. split; [done|apply pykept_refl].
  - intros o s h Ho E. exists (Some o), h. split; [done|]. exists o. split_and!; [done|apply pykept_refl|].
    simpl. by rewrite E.
Qed.

Lemma set_items_step l items old h :
  is_list live look h l old ->
  exists h', set_items l items h = (Ret 0%Z, h') /\ list_step live look count l items None h h'.
Proof.
  intros [Hl Hlk]. eexists. split; [reflexivity|]. match goal with |- list_step _ _ _ _ _ _ _ ?x => set (h' := x) end.
  assert (pymem_of h' = <[l := hd 0%N (words (pymem_of h) l) :: 7%N :: items]> (pymem_of h)) as Em by done.
  assert (4 < l)%N as H4.
  { destruct Hl as [H|[H _]]; [|done].
    assert (l = 0 \/ l = 1 \/ l = 2 \/ l = 3)%N as [->|[->|[->| ->]]] by lia; done. }
  assert (forall o, o <> l -> pymem_of h' !! o = pymem_of h !! o) as Hne
    by (intros o Hne; rewrite Em; by rewrite lookup_insert_ne).
  assert (live (pymem_of h') l) as Hl'.
  { destruct Hl as [|[_ Hs]]; [by left|right]. split; [done|]. rewrite Em. unfold stored, words in *.
    by rewrite lookup_insert_eq. }
  split; try done.
  - split; [done|]. rewrite look_large by done. rewrite Em. unfold words. by rewrite lookup_insert_eq.
  - intros o Ho _. destruct (decide (o = l)) as [->|Hno]; [done|].
    unfold live. by rewrite (proj2 (look_words _ _ _ (Hne o Hno))).
  - intros o Ho _ Hno. by apply look_words, Hne.
  - intros o Ho _. unfold count. destruct (decide (o = l)) as [->|Hno].
    + rewrite Em. unfold stored, words. rewrite lookup_insert_eq. simpl. unfold hd. lia.
    + rewrite (proj2 (look_words _ _ _ (Hne o Hno))). lia.
Qed.

Lemma list_step_kept l items d h1 h2 h3 :
  (forall o, 0 <= d o)%Z -> kept live look count d h1 h2 -> list_step live look count l items None h2 h3 ->
  list_step live look count l items None h1 h3.
Proof.
  intros Hd K []. split; try (rewrite ?ls_next0, ?ls_vals0, ?ls_objs0; apply K); try done.
  - intros o Ho _. apply ls_live0; [by apply K|done].
  - intros o Ho _ Hne. rewrite ls_look0; [by apply K|by apply K|done|done].
  - intros o Ho _. rewrite ls_wrappers0; [by apply K|by apply K|done].
  - intros o Ho _. etrans; [|by apply ls_count0; [apply K|]]. rewrite (kp_count K) by done.
    specialize (Hd o). lia.
Qed.

#[export] Instance lists V : Lists world V live look count.
Proof.
  split.
  - intros l items h [Hl Hlk]. apply ask_answers. unfold items_of. rewrite Hlk.
    split; [done|apply pykept_refl].
  - intros l items h i o [Hl Hlk] Hi. apply ask_answers. unfold items_of. rewrite Hlk, Nat2Z.id.
    split; [done|apply pykept_refl].
  - intros l items o h [Hl Hlk] Ho. destruct (add_reference_kept o h Ho) as (h1 & E1 & K1 & _).
    assert (is_list live look h1 l items) as Hl1.
    { split; [by apply (kp_live K1)|]. by rewrite (kp_look K1). }
    destruct (set_items_step l (items ++ [o]) items h1 Hl1) as (h2 & E2 & S2).
    exists 0%Z, h2. split; [|eapply list_step_kept; [|done..]; intros o'; unfold one_more; by case_decide].
    simpl. step (ask_run (fun m => items_of m l) h). unfold items_of. rewrite Hlk. by step E1.
  - intros l items o i old h Hl Ho Hi _.
    destruct (set_items_step l (<[i := o]> items) items h Hl) as (h2 & E2 & S2).
    exists 0%Z, h2. split.
    + simpl. step (ask_run (fun m => items_of m l) h). unfold items_of. destruct Hl as [_ ->].
      by rewrite Nat2Z.id.
    + destruct S2. split; auto.
Qed.

#[export] Instance errors V : Errors world V live look count pending.
Proof.
  split.
  - intros m o [Ho|[Ho Hs]]; unfold count, stored in *; [rewrite (proj2 (N.ltb_lt _ _)) by done|destruct (o <? 4)%N]; lia.
  - done.
  - intros o h Hl Hc. destruct (change_count_kept N.pred (one_less o) o h) as (h' & E & K & Hp);
      [..|by exists tt, h']; unfold one_less; [|done|..].
    + intros o' Hne. by rewrite decide_False.
    + assert (1 <= stored (pymem_of h) o)%Z by (unfold count in Hc; destruct (o <? 4)%N; lia).
      rewrite decide_True by done. unfold stored in *. lia.
    + rewrite decide_True by done. lia.
  - intros o h Hl Hc _. eexists _, _. split; [reflexivity|]. split_and!; [done..|].
    unfold same_error, pending, words. apply not_pending in Hl.
    unfold pymem_of at 1. simpl. by rewrite lookup_insert_ne.
  - intros o h Hl. assert (live (pymem_of h) 3%N) as H3 by by left.
    destruct (add_reference_kept 3 h H3) as (h' & E & K & _). exists (Some 3%N), h'.
    split; [simpl; by step E|]. by exists 3%N.
  - intros t o h Ht Ho. destruct (add_reference_kept t h Ht) as (h1 & E1 & K1 & _).
    destruct (add_reference_kept o h1) as (h2 & E2 & K2 & _); [by apply (kp_live K1)|].
    destruct (set_pending_kept [t; o] h2) as (h3 & E3 & K3 & Hw).
    exists tt, h3. split_and!.
    + simpl. step E1. by step E2.
    + eapply pykept_ext; [|exact (pykept_trans (pykept_trans K1 K2) K3)].
      intros x. unfold sum, same. lia.
    + unfold pending. by rewrite Hw.
  - intros t o h Hp. destruct (set_pending_kept [] h) as (h' & E & K & Hw).
    exists (Some t, Some o, None), h'. split_and!; [|done|done|unfold pending; by rewrite Hw].
    simpl. step (ask_run pending h). step E. by rewrite Hp.
Qed.
End SmallInterpreter.
