(* ===== verification/PythonLaws.v ===== *)
(** * PythonLaws: what crosses the border to Python and back

    Under the documented behaviour of CPython, a value that goes to Python is
    an object of the type that fits and comes back as it was (undefined comes
    back as null); a Python object that comes to the program goes back as the
    same object. The references that the conversions take are counted. *)

From S2P Require Import Prelude CppString Double System Heap PythonCore Virtual KObject StaticBound.
From S2P Require Import StaticLaws ValueLaws Namespace Python PythonInterpreter Dispatch DispatchLaws.
From S2P Require Import ScriptLaws.
From stdpp Require Import options.

(** Evaluates comparisons of types of the interpreter. *)
Ltac pytypes :=
  repeat match goal with
  | |- context [bool_decide (@eq PyType ?a ?b)] =>
      let r := eval vm_compute in (bool_decide (@eq PyType a b)) in
      change (bool_decide (@eq PyType a b)) with r
  end; cbn [orb andb negb]; cbv iota.

Section Border.
Context (W : World) (V : VOps).
Context (live : pymem -> N -> Prop) (look : pymem -> N -> pyval) (count : pymem -> N -> Z).
Context (HI : Interpreter W V live look count).
#[local] Set Default Proof Using "Type*".
#[local] Abbreviation Q := (pyq W).
#[local] Abbreviation call := (py W V _).
#[local] Abbreviation kept := (kept live look count).

Lemma pykept_live_ext d1 d2 h h' :
  (forall o, live (pymem_of h) o -> d1 o = d2 o) -> kept d1 h h' -> kept d2 h h'.
Proof using Type. intros E []. split; try done. intros o Ho. rewrite <- E by done. auto. Qed.

Lemma not_none m p x : look m p = x -> x <> PNone -> (p =? Py_None Q)%N = false.
Proof.
  intros Hp Hx. apply N.eqb_neq. intros ->. destruct (pi_none m) as [_ E]. congruence.
Qed.

(** ** To Python *)

Definition is_python (c : class) : bool :=
  match c with
  | KPythonObject _ _ _ | KPythonDict _ | KPythonMethod _ _ | KPythonList _ _ | KPythonTuple _ _ => true
  | _ => false
  end.
(** An object of the kind that the type says, and not of Python. *)
Definition kroll_object (h : heap) (v : value) : Prop :=
  exists o c, objectValue v = Some o /\ class_of h o = Some c /\ is_python c = false /\
    match type v with METHOD => is_method_class c = true | LIST => is_list_class c = true | _ => True end.
Definition py_portable (h : heap) (v : value) : Prop :=
  match type v with
  | BOOL => is_Some (boolValue v)
  | STRING => exists s, stringValue v = Some s /\ no_nul s
  | LIST | OBJECT | METHOD => kroll_object h v
  | _ => True
  end.

(** What a value is in Python. *)
Definition contents (v : value) : pyval :=
  match type v with
  | BOOL => PBool (default false (boolValue v))
  | INT => PInt (ToInt v)
  | DOUBLE => PFloat (numberValue v)
  | STRING => PStr (default [] (stringValue v))
  | OBJECT => PWrapper PyKObjectType
  | METHOD => PWrapper PyKMethodType
  | LIST => PWrapper PyKListType
  | _ => PNone
  end.

Definition refs (p : N) (n : Z) : N -> Z := fun o => if decide (o = p) then n else 0%Z.

(** An object that has two references more, all that there are when it is new. *)
Definition two_more (h h' : heap) (p : N) : Prop :=
  kept (refs p 2) h h' /\ (~ live (pymem_of h) p -> count (pymem_of h') p = 2%Z).
(** A new object with one reference. *)
Definition new_object_of (h h' : heap) (p : N) : Prop :=
  ~ live (pymem_of h) p /\ count (pymem_of h') p = 1%Z /\ kept same h h'.
(** An object that was there, with one more reference. *)
Definition shared_object (h h' : heap) (p : N) : Prop :=
  live (pymem_of h) p /\ kept (one_more p) h h'.
Definition references (v : value) (h h' : heap) (p : N) : Prop :=
  match type v with
  | INT | DOUBLE | STRING => two_more h h' p
  | LIST | OBJECT | METHOD => new_object_of h h' p
  | _ => shared_object h h' p
  end.
Lemma references_kept v h h' p : references v h h' p -> exists d, kept d h h' /\ forall o, (0 <= d o)%Z.
Proof using Type.
  assert (forall o, 0 <= refs p 2 o)%Z as H2 by (intros o; unfold refs; by case_decide).
  assert (forall o, 0 <= one_more p o)%Z as H1 by (intros o; unfold one_more; by case_decide).
  unfold references, two_more, new_object_of, shared_object. intros Hr.
  destruct (type v); naive_solver.
Qed.
Definition wrapped (v : value) (h : heap) (p : N) (l : loc) : Prop :=
  match type v with
  | LIST | OBJECT | METHOD => pyk_values (py_of h) !! p = Some l
  | _ => True
  end.

(** [p] is the value [v] at [l] in Python. *)
Definition in_python (v : value) (l : loc) (h : heap) (p : N) : Prop :=
  live (pymem_of h) p /\ look (pymem_of h) p = contents v /\
  (contents v = PNone -> p = Py_None Q) /\ wrapped v h p l.

(** The three ways in which [ToPyObject] comes to its object. *)
Lemma ToPyObject_new l c x h :
  python_value W V l h = (p ← call c; mret (p, true)) h ->
  replies W V c h (makes live look count x h) ->
  exists p h', ToPyObject W V l h = (Ret p, h') /\ live (pymem_of h') p /\ look (pymem_of h') p = x /\
    two_more h h' p.
Proof.
  intros Ev (r & h1 & E1 & p & -> & K1 & Hl & Hx & Hc).
  destruct (pi_incref p h1 Hl) as ([] & h2 & E2 & K2).
  exists p, h2. unfold two_more. split_and!.
  - unfold ToPyObject. erewrite st_bind_Ret by (rewrite Ev; by step E1). cbn [default id]. by step E2.
  - by apply (kp_live K2).
  - by rewrite (kp_look K2).
  - eapply pykept_ext; [|exact (pykept_trans K1 K2)]. intros o. unfold sum, refs, one_more. by case_decide.
  - intros Hn. rewrite (kp_count K2), (Hc Hn) by done. unfold one_more. by rewrite decide_True.
Qed.

Lemma ToPyObject_shared l p h :
  python_value W V l h = (Ret (Some p, true), h) -> live (pymem_of h) p ->
  exists h', ToPyObject W V l h = (Ret p, h') /\ live (pymem_of h') p /\
    look (pymem_of h') p = look (pymem_of h) p /\ shared_object h h' p.
Proof.
  intros Ev Hl. destruct (pi_incref p h Hl) as ([] & h' & E & K).
  exists h'. unfold shared_object. split_and!; [|by apply (kp_live K)|by apply (kp_look K)|done|done].
  unfold ToPyObject. step Ev. cbn [default id]. by step E.
Qed.

Lemma ToPyObject_none l h :
  python_value W V l h = (Ret (Some (Py_None Q), true), h) \/ python_value W V l h = (Ret (None, true), h) ->
  exists h', ToPyObject W V l h = (Ret (Py_None Q), h') /\ live (pymem_of h') (Py_None Q) /\
    look (pymem_of h') (Py_None Q) = PNone /\ shared_object h h' (Py_None Q).
Proof.
  destruct (pi_none (pymem_of h)) as [Hl Hlk]. intros [Ev|Ev].
  { destruct (ToPyObject_shared _ _ _ Ev Hl) as (h' & E & ? & Hx & ?). rewrite Hlk in Hx. by exists h'. }
  destruct (pi_incref _ h Hl) as ([] & h' & E & K).
  exists h'. unfold shared_object. split_and!; [|by apply (kp_live K)|by rewrite (kp_look K)|done|done].
  unfold ToPyObject. step Ev. cbn [default]. by step E.
Qed.

Lemma ToPyObject_wrapper l t h :
  python_value W V l h = (p ← new_wrapper W V t l; mret (Some p, false)) h ->
  is_kroll_type t = true ->
  exists p h', ToPyObject W V l h = (Ret p, h') /\ live (pymem_of h') p /\
    look (pymem_of h') p = PWrapper t /\ pyk_values (py_of h') !! p = Some l /\ new_object_of h h' p.
Proof.
  intros Ev Ht. destruct (pi_new t h Ht) as (r & h1 & E1 & p & -> & K1 & Hn & Hl & Hx & Hc).
  set (h2 := set_py (p_with_values (<[p := l]>)) h1).
  assert (new_wrapper W V t l h = (Ret p, h2)) as Ew.
  { unfold new_wrapper. step E1.
    step (eq_refl : some_or_undef (Some p) h1 = (Ret p, h1)). by step (on_py_run (p_with_values (<[p := l]>)) h1). }
  exists p, h2. unfold new_object_of. split_and!; [|done|done|simpl; apply lookup_insert_eq|done|done|].
  - unfold ToPyObject. by erewrite st_bind_Ret by (rewrite Ev; by step Ew).
  - split; try apply K1. intros o Ho. simpl. rewrite lookup_insert_ne by (by intros <-). by apply (kp_wrappers K1).
Qed.

Lemma not_python_casts c :
  is_python c = false ->
  is_KPythonObject c = false /\ is_KPythonDict c = false /\ is_KPythonMethod c = false /\
  is_KPythonList c = false /\ is_KPythonTuple c = false.
Proof. by destruct c. Qed.

Lemma dynamic_cast_none P o x h :
  objs h !! o = Some x -> P (o_class x) = false -> dynamic_cast P (Some o) h = (Ret None, h).
Proof. intros Hx HP. unfold dynamic_cast, geto, mbind, st_bind. rewrite Hx. simpl. by rewrite HP. Qed.

Lemma python_value_object l v h :
  vals h !! l = Some v -> type v ∈ [OBJECT; METHOD; LIST] -> kroll_object h v ->
  exists t, contents v = PWrapper t /\ is_kroll_type t = true /\
    python_value W V l h = (p ← new_wrapper W V t l; mret (Some p, false)) h.
Proof.
  intros Hl Hty (o & c & Ho & Hc & Hp & Hk). apply not_python_casts in Hp as (P1 & P2 & P3 & P4 & P5).
  unfold class_of in Hc. destruct (objs h !! o) as [x|] eqn:Hx; [|done]. injection Hc as Hc.
  unfold contents, python_value.
  assert (forall t (m : M (option N * bool)), m h = (p ← new_wrapper W V t l; mret (Some p, false)) h ->
    is_kroll_type t = true -> exists t', PWrapper t = PWrapper t' /\ is_kroll_type t' = true /\
      m h = (p ← new_wrapper W V t' l; mret (Some p, false)) h) as Hres by eauto.
  unfold IsBool, IsDouble, IsInt, IsNull, IsUndefined, IsString, IsMethod, IsList, IsObject.
  set_unfold in Hty. destruct Hty as [Hty|[Hty|[Hty|[]]]]; rewrite Hty in *; types.
  - apply Hres; [|done]. step (getv_run _ _ _ Hl). rewrite Hty. types. unfold object_to_py, ToObject. rewrite Ho.
    step (dynamic_cast_none is_KPythonObject o x h Hx ltac:(congruence)).
    by step (dynamic_cast_none is_KPythonDict o x h Hx ltac:(congruence)).
  - apply Hres; [|done]. step (getv_run _ _ _ Hl). rewrite Hty. types. unfold method_to_py, ToMethod. rewrite Ho.
    step (dynamic_cast_run is_method_class o x h Hx ltac:(congruence)).
    by step (dynamic_cast_none is_KPythonMethod o x h Hx ltac:(congruence)).
  - apply Hres; [|done]. step (getv_run _ _ _ Hl). rewrite Hty. types. unfold list_to_py, ToList. rewrite Ho.
    step (dynamic_cast_run is_list_class o x h Hx ltac:(congruence)).
    step (dynamic_cast_none is_KPythonList o x h Hx ltac:(congruence)).
    by step (dynamic_cast_none is_KPythonTuple o x h Hx ltac:(congruence)).
Qed.

(** The value [v] at [l] becomes an object. *)
Lemma ToPyObject_run l v h :
  vals h !! l = Some v -> py_portable h v ->
  exists p h', ToPyObject W V l h = (Ret p, h') /\ in_python v l h' p /\ references v h h' p.
Proof.
  intros Hl Hp. unfold in_python, references, wrapped.
  assert (type v ∈ [OBJECT; METHOD; LIST] -> kroll_object h v ->
    exists p h', ToPyObject W V l h = (Ret p, h') /\ (live (pymem_of h') p /\ look (pymem_of h') p = contents v /\
      (contents v = PNone -> p = Py_None Q) /\ pyk_values (py_of h') !! p = Some l) /\
      new_object_of h h' p) as Hobj.
  { intros Hty Hk. destruct (python_value_object l v h Hl Hty Hk) as (t & Hc & Ht & Ev).
    destruct (ToPyObject_wrapper l t h Ev Ht) as (p & h' & E & Hlp & Hx & Hw & Hn).
    exists p, h'. rewrite Hc. by split_and!. }
  assert (forall c : pycmd (option N), python_value W V l h = (p ← call c; mret (p, true)) h ->
    contents v <> PNone -> replies W V c h (makes live look count (contents v) h) ->
    exists p h', ToPyObject W V l h = (Ret p, h') /\ (live (pymem_of h') p /\ look (pymem_of h') p = contents v /\
      (contents v = PNone -> p = Py_None Q) /\ True) /\ two_more h h' p) as Hnew.
  { intros c Ev Hc Hr. destruct (ToPyObject_new l c _ h Ev Hr) as (p & h' & E & Hlp & Hx & Hn).
    exists p, h'. by split_and!. }
  assert (forall r, python_value W V l h = (Ret (r, true), h) -> r = Some (Py_None Q) \/ r = None ->
    contents v = PNone ->
    exists p h', ToPyObject W V l h = (Ret p, h') /\ (live (pymem_of h') p /\ look (pymem_of h') p = contents v /\
      (contents v = PNone -> p = Py_None Q) /\ True) /\ shared_object h h' p) as Hnone.
  { intros r Ev Hr Hc. destruct (ToPyObject_none l h) as (h' & E & Hlp & Hx & Hs).
    { destruct Hr as [-> | ->]; auto. }
    exists (Py_None Q), h'. rewrite Hc. by split_and!. }
  unfold py_portable in Hp. unfold python_value in Hnew, Hnone.
  unfold IsBool, IsDouble, IsInt, IsNull, IsUndefined, IsString, IsMethod, IsList, IsObject in *.
  pose proof (getv_run _ _ _ Hl) as Eg. unfold contents in *.
  destruct (type v) eqn:Ety.
  - apply (Hnew (PyInt_FromLong (ToInt v))); [|done|apply pi_int, int_of_double_range].
    step Eg. rewrite Ety. by types.
  - apply (Hnew (PyFloat_FromDouble (numberValue v))); [|done|apply pi_float].
    step Eg. rewrite Ety. by types.
  - destruct Hp as [b Hb]. rewrite Hb in *. cbn [default] in *.
    destruct (pi_bool (pymem_of h) b) as [Hlb Hxb]. unfold id in *.
    destruct (ToPyObject_shared l (if b then Py_True Q else Py_False Q) h) as (h' & E & Hl' & Hx & Hs); [|done|].
    { unfold python_value. unfold IsBool. step Eg. rewrite Ety. types. unfold ToBool. rewrite Hb.
      by step (eq_refl : some_or_undef (Some b) h = (Ret b, h)). }
    exists (if b then Py_True Q else Py_False Q), h'. rewrite Hx, Hxb. by split_and!.
  - destruct Hp as (s & Hs & Hn). rewrite Hs in *. cbn [default] in *. unfold id in *.
    apply (Hnew (PyString_FromString s)); [|done|by apply pi_string].
    step Eg. rewrite Ety. types. unfold ToString. rewrite Hs.
    step (eq_refl : some_or_undef (Some s) h = (Ret s, h)). by rewrite (c_str_id s Hn).
  - apply Hobj; [set_solver|done].
  - apply Hobj; [set_solver|done].
  - apply Hobj; [set_solver|done].
  - apply (Hnone None); [|by right|done]. step Eg. rewrite Ety. by types.
  - apply (Hnone (Some (Py_None Q))); [|by left|done]. step Eg. rewrite Ety. by types.
  - apply (Hnone (Some (Py_None Q))); [|by left|done]. step Eg. rewrite Ety. by types.
Qed.

(** A step that adds values and objects of the program and changes the
    counts by [d]. *)
Record gained (d : N -> Z) (h h' : heap) : Prop := {
  gn_next : (next h <= next h')%N;
  gn_vals k : (k < next h)%N -> vals h' !! k = vals h !! k;
  gn_objs k : (k < next h)%N -> objs h' !! k = objs h !! k;
  gn_live o : live (pymem_of h) o -> live (pymem_of h') o;
  gn_look o : live (pymem_of h) o -> look (pymem_of h') o = look (pymem_of h) o;
  gn_count o : live (pymem_of h) o -> count (pymem_of h') o = (count (pymem_of h) o + d o)%Z
}.

Lemma gained_trans d1 d2 h1 h2 h3 : gained d1 h1 h2 -> gained d2 h2 h3 -> gained (sum d1 d2) h1 h3.
Proof using Type.
  intros [] []. split; [lia|..].
  - intros k Hk. rewrite gn_vals1 by lia. auto.
  - intros k Hk. rewrite gn_objs1 by lia. auto.
  - auto.
  - intros o Ho. rewrite gn_look1, gn_look0; auto.
  - intros o Ho. rewrite gn_count1, gn_count0 by auto. unfold sum. lia.
Qed.
Lemma kept_gained d h h' : kept d h h' -> gained d h h'.
Proof using Type. intros K. split; try apply K; [by rewrite (kp_next K)|by rewrite (kp_vals K)|by rewrite (kp_objs K)]. Qed.
Lemma with_object_gained ty c h : gained same h (with_object ty c h).
Proof using Type.
  split; simpl; try done; [lia| |intros; by rewrite Z.add_0_r].
  intros k Hk. rewrite lookup_insert_ne; [done|lia].
Qed.
Lemma with_fresh_gained v h : gained same h (with_fresh v h).
Proof using Type.
  split; simpl; try done; [lia| |intros; by rewrite Z.add_0_r].
  intros k Hk. rewrite lookup_insert_ne; [done|lia].
Qed.
Lemma gained_ext d1 d2 h h' : (forall o, d1 o = d2 o) -> gained d1 h h' -> gained d2 h h'.
Proof using Type. intros E []. split; try done. intros o Ho. rewrite <- E. auto. Qed.

(** ** And back *)

(** The test of the types, for an object that is not null and not [None]. *)
Lemma PyToKrollValue_start n p x h :
  live (pymem_of h) p -> look (pymem_of h) p = x -> x <> PNone ->
  PyToKrollValue_fuel W V (S n) (Some p) h =
  (if has_type x PyString_Type then s ← PyToString W V p; NewString s
   else if has_type x PyUnicode_Type then
     utf8Value ← call (PyUnicode_AsUTF8String p);
     utf8Value ← some_or_undef utf8Value;
     s ← PyToString W V utf8Value;
     l ← NewString s;
     call (Py_DECREF utf8Value);; mret l
   else if has_type x PyBool_Type then b ← call (PyObject_IsTrue p); NewBool (negb (b =? 0)%Z)
   else if has_type x PyInt_Type then z ← call (PyInt_AsLong p); NewInt (to_signed32 z)
   else if has_type x PyLong_Type then
     dval ← call (PyLong_AsDouble p);
     if is_minus_one dval then throw_python W V (PyToKrollValue_fuel W V n) else NewDouble dval
   else if has_type x PyFloat_Type then d ← call (PyFloat_AsDouble p); NewDouble d
   else if has_type x PyList_Type then o ← new_KPythonList W V p; NewList (Some o)
   else if has_type x PyTuple_Type then o ← new_KPythonTuple W V p; NewList (Some o)
   else if has_type x PyKObjectType || has_type x PyKMethodType || has_type x PyKListType
   then PyKObject_value p
   else new_python_proxy W V (pymem_of h) p) h.
Proof.
  intros Hl Hx Hn. cbn [PyToKrollValue_fuel].
  step (eq_refl : some_or_undef (Some p) h = (Ret p, h)).
  step (eq_refl : gets pymem_of h = (Ret (pymem_of h), h)). cbv zeta.
  rewrite (not_none _ _ _ Hx Hn). by rewrite !pi_type, Hx.
Qed.

(** What a value is after both conversions. *)
Definition py_carried (v : value) (l l' : loc) (h : heap) : Prop :=
  match type v with
  | INT => exists w, vals h !! l' = Some w /\ type w = INT /\ ToInt w = ToInt v
  | DOUBLE => exists w, vals h !! l' = Some w /\ type w = DOUBLE /\ numberValue w = numberValue v
  | BOOL => exists w, vals h !! l' = Some w /\ type w = BOOL /\ boolValue w = boolValue v
  | STRING => exists w, vals h !! l' = Some w /\ type w = STRING /\ stringValue w = stringValue v
  | LIST | OBJECT | METHOD => l' = l
  | NULLV | UNDEFINED | VOIDPTR => l' = Null
  end.

(** The conversion gives a new value [w]. *)
Definition gives (n : nat) (p : N) (h : heap) (w : value) : Prop :=
  exists h', PyToKrollValue_fuel W V (S n) (Some p) h = (Ret (next h), h') /\
    vals h' !! next h = Some w /\ gained same h h'.

Lemma gives_new n p h (m : M loc) h1 g :
  PyToKrollValue_fuel W V (S n) (Some p) h = m h ->
  m h = new_with (fun l => update_value l g) h1 -> kept same h h1 -> gives n p h (g new_value).
Proof.
  intros E1 E2 K. exists (with_fresh (g new_value) h1). rewrite E1, E2, new_with_run.
  rewrite (kp_next K). split_and!; [done|simpl; rewrite (kp_next K); apply lookup_insert_eq|].
  eapply gained_ext; [|exact (gained_trans _ _ _ _ _ (kept_gained _ _ _ K) (with_fresh_gained _ h1))]. done.
Qed.

Lemma gives_carried n v l p h w :
  gives n p h w -> (forall h', vals h' !! next h = Some w -> py_carried v l (next h) h') ->
  exists l' h', PyToKrollValue_fuel W V (S n) (Some p) h = (Ret l', h') /\ py_carried v l l' h' /\
    gained same h h'.
Proof using Type. intros (h' & E & Hv & G) Hc. exists (next h), h'. split_and!; [done|by apply Hc|done]. Qed.

(** Numbers, truth values and texts come back as new values. *)
Lemma scalar_back n v l p h :
  type v ∈ [INT; DOUBLE; BOOL; STRING] -> py_portable h v -> live (pymem_of h) p ->
  look (pymem_of h) p = contents v ->
  exists w, gives n p h w /\ forall h', vals h' !! next h = Some w -> py_carried v l (next h) h'.
Proof.
  unfold py_portable, py_carried, contents. intros Hty Hp Hl Hx. set_unfold in Hty.
  destruct Hty as [Hty|[Hty|[Hty|[Hty|[]]]]]; rewrite Hty in *.
  - destruct (pi_as_long p _ h Hl Hx) as (z & h1 & E1 & -> & K).
    eexists. split.
    + eapply gives_new; [by apply (PyToKrollValue_start n p _ h Hl Hx)| |exact K].
      unfold has_type. pytypes. by step E1.
    + intros h' Hw. eexists. split_and!; [exact Hw|done|]. unfold ToInt. simpl.
      rewrite to_signed32_id, int_of_double_of_int; [done|apply int_of_double_range..].
  - destruct (pi_as_double p _ h Hl Hx) as (d & h1 & E1 & -> & K).
    eexists. split.
    + eapply gives_new; [by apply (PyToKrollValue_start n p _ h Hl Hx)| |exact K].
      unfold has_type. pytypes. by step E1.
    + intros h' Hw. eexists. split_and!; [exact Hw|done|done].
  - destruct Hp as [b Hb]. rewrite Hb in *.
    destruct (pi_is_true p _ h Hl Hx) as (z & h1 & E1 & -> & K).
    eexists. split.
    + eapply gives_new; [by apply (PyToKrollValue_start n p _ h Hl Hx)| |exact K].
      unfold has_type. pytypes. by step E1.
    + intros h' Hw. eexists. split_and!; [exact Hw|done|]. by destruct b.
  - destruct Hp as (s & Hs & Hn). rewrite Hs in *. cbn [default] in Hx. unfold id in Hx.
    destruct (pi_as_string p _ h Hl Hx) as (r & h1 & E1 & c & -> & K & Ht).
    eexists. split.
    + eapply gives_new; [by apply (PyToKrollValue_start n p _ h Hl Hx)| |exact K].
      unfold has_type. pytypes. unfold PyToString, ToCString. rewrite !st_bind_assoc.
      step (ask_run (fun m => PyString_Check Q m p) h). rewrite pi_string_check, Hx by done.
      unfold has_type. pytypes. unfold PyString_chars. rewrite !st_bind_assoc. step E1.
      erewrite st_bind_Ret by done. unfold chars. rewrite !st_bind_assoc.
      erewrite st_bind_Ret by done. by step (ask_run (fun m => c_str (text_at Q m c)) h1).
    + intros h' Hw. eexists. split_and!; [exact Hw|done|]. simpl.
      by rewrite Ht, (c_str_id s Hn), (c_str_id s Hn).
Qed.

Lemma PyToKrollValue_back n v l p h :
  py_portable h v -> in_python v l h p ->
  exists l' h', PyToKrollValue_fuel W V (S n) (Some p) h = (Ret l', h') /\ py_carried v l l' h' /\
    gained same h h'.
Proof.
  intros Hp (Hl & Hx & Hnone & Hw). unfold wrapped in *.
  assert (forall l', PyToKrollValue_fuel W V (S n) (Some p) h = (Ret l', h) -> py_carried v l l' h ->
    exists l' h', PyToKrollValue_fuel W V (S n) (Some p) h = (Ret l', h') /\ py_carried v l l' h' /\
    gained same h h') as Hstay.
  { intros l' E Hc. exists l', h. split_and!; [done|done|apply kept_gained, pykept_refl]. }
  assert (contents v = PNone -> PyToKrollValue_fuel W V (S n) (Some p) h = (Ret Null, h)) as Hnull.
  { intros Hc. rewrite (Hnone Hc). cbn [PyToKrollValue_fuel].
    step (eq_refl : some_or_undef (Some (Py_None Q)) h = (Ret (Py_None Q), h)).
    step (eq_refl : gets pymem_of h = (Ret (pymem_of h), h)). cbv zeta. by rewrite N.eqb_refl. }
  assert (forall t, contents v = PWrapper t -> is_kroll_type t = true -> pyk_values (py_of h) !! p = Some l ->
    PyToKrollValue_fuel W V (S n) (Some p) h = (Ret l, h)) as Hwrap.
  { intros t Hc Ht Hpl. rewrite (PyToKrollValue_start n p (PWrapper t) h Hl ltac:(congruence) ltac:(done)).
    unfold has_type. destruct t; try done; pytypes; by apply PyKObject_value_run. }
  destruct (decide (type v ∈ [INT; DOUBLE; BOOL; STRING])) as [Hty|Hty].
  { destruct (scalar_back n v l p h Hty Hp Hl Hx) as (w & Hg & Hc). by eapply gives_carried. }
  unfold py_carried, contents in *.
  destruct (type v) eqn:Ety;
    [by destruct Hty; repeat constructor..|apply (Hstay l)|apply (Hstay l)|apply (Hstay l)
    |apply (Hstay Null)|apply (Hstay Null)|apply (Hstay Null)]; try done; try (by apply Hnull).
  - by apply (Hwrap PyKListType).
  - by apply (Hwrap PyKObjectType).
  - by apply (Hwrap PyKMethodType).
Qed.

(** ** Python objects *)

(** The object [k] of the class [c] is there. *)
Definition there (h : heap) (k : loc) (c : class) : Prop := class_of h k = Some c /\ (k < next h)%N.
Lemma there_gained d h h' k c : gained d h h' -> there h k c -> there h' k c.
Proof using Type.
  intros G [Hc Hk]. split; [|pose proof (gn_next _ _ _ G); lia].
  unfold class_of. by rewrite (gn_objs _ _ _ G).
Qed.

(** Every constructor of a proxy ends like this. *)
Lemma new_proxy_run ty c p h :
  live (pymem_of h) p ->
  exists h', (o ← new_object ty c; call (Py_INCREF p);; mret o) h = (Ret (next h), h') /\
    there h' (next h) c /\ gained (sum same (one_more p)) h h'.
Proof.
  intros Hl. destruct (pi_incref p (with_object ty c h) Hl) as ([] & h' & E & K).
  assert (gained (sum same (one_more p)) h h') as G
    by (eapply gained_trans; [apply with_object_gained|by apply kept_gained]).
  exists h'. split_and!; [|split|done].
  - step (new_object_run ty c h). by step E.
  - unfold class_of. rewrite (kp_objs K). simpl. by rewrite lookup_insert_eq.
  - rewrite (kp_next K). simpl. lia.
Qed.

(** The classes of the proxies of a Python object, with the references that
    they hold. *)
Inductive proxy_of (h : heap) (p : N) : class -> Z -> Prop :=
  | proxy_object : proxy_of h p (KPythonObject p false None) 1
  | proxy_dict : proxy_of h p (KPythonDict p) 1
  | proxy_method k : there h k (KPythonObject p false None) -> proxy_of h p (KPythonMethod p k) 2
  | proxy_list k d : there h k (KPythonObject p true (Some d)) -> proxy_of h p (KPythonList p k) 2
  | proxy_tuple k d : there h k (KPythonObject p true (Some d)) -> proxy_of h p (KPythonTuple p k) 2.

Definition proxy_type (c : class) : vtype :=
  match c with
  | KPythonMethod _ _ => METHOD
  | KPythonList _ _ | KPythonTuple _ _ => LIST
  | _ => OBJECT
  end.

(** [m] makes a proxy of [p], of the class [K], that belongs into a value of the
    type [ty]. *)
Definition proxies (ty : vtype) (K : class -> bool) (m : M loc) (p : N) (h : heap) : Prop :=
  exists o h' c n, m h = (Ret o, h') /\ K c = true /\ proxy_type c = ty /\ there h' o c /\ proxy_of h' p c n /\
    gained (refs p n) h h'.

Lemma proxy_of_gained d h h' p c n : gained d h h' -> proxy_of h p c n -> proxy_of h' p c n.
Proof using Type.
  intros G [| |k Hk|k e Hk|k e Hk].
  - apply proxy_object.
  - apply proxy_dict.
  - apply proxy_method. by eapply there_gained.
  - apply (proxy_list _ _ _ e). by eapply there_gained.
  - apply (proxy_tuple _ _ _ e). by eapply there_gained.
Qed.

Lemma new_KPythonObject_run p h :
  live (pymem_of h) p ->
  exists h', new_KPythonObject W V p h = (Ret (next h), h') /\
    there h' (next h) (KPythonObject p false None) /\ gained (sum same (one_more p)) h h'.
Proof. apply new_proxy_run. Qed.
Lemma new_KPythonObject_ro_run p h :
  live (pymem_of h) p ->
  exists k d h', new_KPythonObject_ro W V p true h = (Ret k, h') /\
    there h' k (KPythonObject p true (Some d)) /\ gained (sum same (sum same (one_more p))) h h'.
Proof.
  intros Hl. pose proof (new_object_run (lit "StaticBoundObject") StaticBoundObject h) as E0.
  set (h0 := with_object _ _ h) in *.
  destruct (new_proxy_run (lit "KObject") (KPythonObject p true (Some (next h))) p h0 Hl) as (h' & E & Ht & G).
  exists (next h0), (next h), h'. split_and!; [|done|].
  - unfold new_KPythonObject_ro, default_StaticBoundObject, new_StaticBoundObject. by step E0.
  - eapply gained_trans; [apply with_object_gained|exact G].
Qed.

Lemma KPythonObject_proxies p h :
  live (pymem_of h) p -> proxies OBJECT is_KPythonObject (new_KPythonObject W V p) p h.
Proof.
  intros Hl. destruct (new_KPythonObject_run p h Hl) as (h' & E & Ht & G).
  eexists _, _, (KPythonObject p false None), _. split_and!; [exact E|done|done|exact Ht|apply proxy_object|].
  eapply gained_ext; [|exact G]. intros o. unfold sum, same, one_more, refs. by case_decide.
Qed.
Lemma KPythonDict_proxies p h :
  live (pymem_of h) p -> proxies OBJECT is_KPythonDict (new_KPythonDict W V p) p h.
Proof.
  intros Hl. destruct (new_proxy_run (lit "KObject") (KPythonDict p) p h Hl) as (h' & E & Ht & G).
  eexists _, _, (KPythonDict p), _. split_and!; [exact E|done|done|exact Ht|apply proxy_dict|].
  eapply gained_ext; [|exact G]. intros o. unfold sum, same, one_more, refs. by case_decide.
Qed.
Lemma KPythonMethod_proxies p h :
  live (pymem_of h) p -> proxies METHOD is_KPythonMethod (new_KPythonMethod W V p) p h.
Proof.
  intros Hl. destruct (new_KPythonObject_run p h Hl) as (h1 & E1 & Ht1 & G1).
  destruct (new_proxy_run (lit "KMethod") (KPythonMethod p (next h)) p h1) as (h' & E & Ht & G).
  { by apply (gn_live _ _ _ G1). }
  eexists _, _, (KPythonMethod p (next h)), _. split_and!; [unfold new_KPythonMethod; step E1; exact E|done|done|exact Ht| |].
  - apply proxy_method. by eapply there_gained.
  - eapply gained_ext; [|exact (gained_trans _ _ _ _ _ G1 G)].
    intros o. unfold sum, same, one_more, refs. by case_decide.
Qed.
Lemma sequence_proxies ty (C : N -> loc -> class) K p h :
  (forall k, K (C p k) = true) ->
  (forall h k d, there h k (KPythonObject p true (Some d)) -> proxy_of h p (C p k) 2) ->
  (forall k, proxy_type (C p k) = LIST) ->
  live (pymem_of h) p ->
  proxies LIST K (k ← new_KPythonObject_ro W V p true;
                o ← new_object ty (C p k); call (Py_INCREF p);; mret o) p h.
Proof.
  intros HK HC Hty Hl. destruct (new_KPythonObject_ro_run p h Hl) as (k & d & h1 & E1 & Ht1 & G1).
  destruct (new_proxy_run ty (C p k) p h1) as (h' & E & Ht & G); [by apply (gn_live _ _ _ G1)|].
  eexists _, _, (C p k), _. split_and!; [step E1; exact E|apply HK|apply Hty|exact Ht| |].
  - eapply HC, there_gained; [exact G|exact Ht1].
  - eapply gained_ext; [|exact (gained_trans _ _ _ _ _ G1 G)].
    intros o. unfold sum, same, one_more, refs. by case_decide.
Qed.

(** What Python objects that are not from the program are. *)
Definition python_kind (x : pyval) : Prop :=
  match x with
  | PList _ | PTuple _ | PModule | PInstance | PFunction | PMapping | PObject => True
  | _ => False
  end.

(** The class of the proxy of each of them. *)
Definition fits (x : pyval) (c : class) : bool :=
  match x with
  | PList _ => is_KPythonList c
  | PTuple _ => is_KPythonTuple c
  | PFunction => is_KPythonMethod c
  | PMapping => is_KPythonDict c
  | PModule | PInstance | PObject => is_KPythonObject c
  | _ => false
  end.

Lemma proxies_value ty K (m : M loc) (mk : option loc -> M loc) n p h :
  (forall o h, mk (Some o) h = new_with (fun l => update_value l (fun v => set_object ty (Some o) (reset v))) h) ->
  PyToKrollValue_fuel W V (S n) (Some p) h = (o ← m; mk (Some o)) h -> proxies ty K m p h ->
  exists l h' o c k v, PyToKrollValue_fuel W V (S n) (Some p) h = (Ret l, h') /\
    vals h' !! l = Some v /\ K c = true /\ type v = proxy_type c /\ objectValue v = Some o /\
    there h' o c /\ proxy_of h' p c k /\ gained (sum (refs p k) same) h h'.
Proof using Type.
  intros Hmk E (o & h1 & c & k & E1 & HK & Hty & Ht & Hp & G).
  set (v := set_object ty (Some o) (reset new_value)).
  pose proof (with_fresh_gained v h1) as G2.
  exists (next h1), (with_fresh v h1), o, c, k, v. split_and!.
  - rewrite E. step E1. rewrite Hmk. by rewrite new_with_run.
  - simpl. apply lookup_insert_eq.
  - done.
  - done.
  - done.
  - by eapply there_gained.
  - by eapply proxy_of_gained.
  - by eapply gained_trans.
Qed.

Lemma PyToKrollValue_proxy n p h :
  live (pymem_of h) p -> python_kind (look (pymem_of h) p) ->
  exists l h' o c k v, PyToKrollValue_fuel W V (S n) (Some p) h = (Ret l, h') /\
    vals h' !! l = Some v /\ fits (look (pymem_of h) p) c = true /\ type v = proxy_type c /\ objectValue v = Some o /\
    there h' o c /\ proxy_of h' p c k /\ gained (sum (refs p k) same) h h'.
Proof.
  intros Hl Hk. destruct (look (pymem_of h) p) as [| | | | | |items|items| | | | |] eqn:Hx; try done;
    pose proof (PyToKrollValue_start n p _ h Hl Hx ltac:(done)) as E; unfold has_type in E;
    revert E; pytypes; intros E.
  - eapply (proxies_value LIST _ _ NewList); [done|exact E|].
    apply (sequence_proxies (lit "KList") KPythonList is_KPythonList); [done| |done|done]. intros. by eapply proxy_list.
  - eapply (proxies_value LIST _ _ NewList); [done|exact E|].
    apply (sequence_proxies (lit "KList") KPythonTuple is_KPythonTuple); [done| |done|done]. intros. by eapply proxy_tuple.
  - unfold new_python_proxy in E. rewrite pi_type, Hx in E by done. revert E. unfold has_type. pytypes. intros E.
    eapply (proxies_value OBJECT _ _ NewObject); [done|exact E|by apply KPythonObject_proxies].
  - unfold new_python_proxy in E. rewrite (proj2 (pi_instance _ _ Hl) Hx), orb_true_r in E.
    eapply (proxies_value OBJECT _ _ NewObject); [done|exact E|by apply KPythonObject_proxies].
  - assert (PyInstance_Check Q (pymem_of h) p = false) as Hi
      by (apply not_true_is_false; intros H%pi_instance; congruence).
    unfold new_python_proxy in E. rewrite pi_type, Hx, Hi, (pi_callable _ _ Hl Hx), orb_true_r in E by done.
    eapply (proxies_value METHOD _ _ NewMethod); [done|exact E|by apply KPythonMethod_proxies].
  - assert (PyInstance_Check Q (pymem_of h) p = false) as Hi
      by (apply not_true_is_false; intros H%pi_instance; congruence).
    unfold new_python_proxy in E.
    rewrite pi_type, Hx, Hi, (pi_not_callable _ _ Hl), (pi_mapping _ _ Hl Hx) in E by auto.
    eapply (proxies_value OBJECT _ _ NewObject); [done|exact E|by apply KPythonDict_proxies].
  - assert (PyInstance_Check Q (pymem_of h) p = false) as Hi
      by (apply not_true_is_false; intros H%pi_instance; congruence).
    unfold new_python_proxy in E.
    rewrite pi_type, Hx, Hi, (pi_not_callable _ _ Hl), (pi_no_mapping _ _ Hl Hx) in E by auto.
    eapply (proxies_value OBJECT _ _ NewObject); [done|exact E|by apply KPythonObject_proxies].
Qed.

(** A proxy goes back as the object that it stands for; a dict takes a
    reference too many. *)
Definition handed (c : class) : Z := match c with KPythonDict _ => 2 | _ => 1 end.

Lemma geto_there h o c : there h o c -> exists x, objs h !! o = Some x /\ o_class x = c.
Proof using Type.
  intros [Hc _]. unfold class_of in Hc. destruct (objs h !! o) as [x|]; [|done].
  injection Hc as Hc. by exists x.
Qed.
Lemma geto_run h o x : objs h !! o = Some x -> geto o h = (Ret x, h).
Proof using Type. unfold geto. by intros ->. Qed.

Lemma Kpython_ToPython_run h o c k p b d :
  there h o c -> match c with KPythonMethod _ k' | KPythonList _ k' | KPythonTuple _ k' => k' = k | _ => False end ->
  there h k (KPythonObject p b d) -> Kpython_ToPython o h = (Ret p, h).
Proof using Type.
  intros (x & Hx & Hc)%geto_there Hk (y & Hy & Hd)%geto_there.
  unfold Kpython_ToPython, kpython_object_of. rewrite st_bind_assoc. step (geto_run _ _ _ Hx). rewrite Hc.
  assert (forall m : M N, m h = (Ret p, h) -> (mret k ≫= fun _ : loc => m) h = (Ret p, h)) as Hm by done.
  assert (KPythonObject_ToPython k h = (Ret p, h)) as E.
  { unfold KPythonObject_ToPython. step (geto_run _ _ _ Hy). by rewrite Hd. }
  destruct c; try done; subst; exact E.
Qed.

Lemma proxy_python_value l v o c k p h :
  vals h !! l = Some v -> type v = proxy_type c -> objectValue v = Some o -> there h o c ->
  proxy_of h p c k -> (forall q, c <> KPythonDict q) ->
  python_value W V l h = (Ret (Some p, true), h).
Proof using Type.
  intros Hl Hty Ho Ht Hp Hd. destruct (geto_there _ _ _ Ht) as (x & Hx & Hc).
  unfold python_value. step (getv_run _ _ _ Hl).
  unfold IsBool, IsDouble, IsInt, IsNull, IsUndefined, IsString, IsMethod, IsList, IsObject.
  rewrite Hty. destruct Hp as [| |k Hk|k e Hk|k e Hk]; simpl proxy_type; types.
  - unfold object_to_py, ToObject. rewrite Ho.
    step (dynamic_cast_run is_KPythonObject o x h Hx ltac:(by rewrite Hc)).
    step (dynamic_cast_none is_KPythonDict o x h Hx ltac:(by rewrite Hc)).
    unfold KPythonObject_ToPython. rewrite st_bind_assoc. step (geto_run _ _ _ Hx). by rewrite Hc.
  - by destruct (Hd p).
  - unfold method_to_py, ToMethod. rewrite Ho.
    step (dynamic_cast_run is_method_class o x h Hx ltac:(by rewrite Hc)).
    step (dynamic_cast_run is_KPythonMethod o x h Hx ltac:(by rewrite Hc)).
    by step (Kpython_ToPython_run h o _ k p _ _ Ht eq_refl Hk).
  - unfold list_to_py, ToList. rewrite Ho.
    step (dynamic_cast_run is_list_class o x h Hx ltac:(by rewrite Hc)).
    step (dynamic_cast_run is_KPythonList o x h Hx ltac:(by rewrite Hc)).
    step (dynamic_cast_none is_KPythonTuple o x h Hx ltac:(by rewrite Hc)).
    by step (Kpython_ToPython_run h o _ k p _ _ Ht eq_refl Hk).
  - unfold list_to_py, ToList. rewrite Ho.
    step (dynamic_cast_run is_list_class o x h Hx ltac:(by rewrite Hc)).
    step (dynamic_cast_none is_KPythonList o x h Hx ltac:(by rewrite Hc)).
    step (dynamic_cast_run is_KPythonTuple o x h Hx ltac:(by rewrite Hc)).
    by step (Kpython_ToPython_run h o _ k p _ _ Ht eq_refl Hk).
Qed.

Lemma dict_python_value l v o p h :
  vals h !! l = Some v -> type v = OBJECT -> objectValue v = Some o -> there h o (KPythonDict p) ->
  live (pymem_of h) p ->
  exists h', python_value W V l h = (Ret (Some p, true), h') /\ kept (one_more p) h h'.
Proof.
  intros Hl Hty Ho Ht Hlp. destruct (geto_there _ _ _ Ht) as (x & Hx & Hc).
  destruct (pi_incref p h Hlp) as ([] & h' & E & K). exists h'. split; [|done].
  unfold python_value. step (getv_run _ _ _ Hl).
  unfold IsBool, IsDouble, IsInt, IsNull, IsUndefined, IsString, IsMethod, IsList, IsObject.
  rewrite Hty. types. unfold object_to_py, ToObject. rewrite Ho.
  step (dynamic_cast_none is_KPythonObject o x h Hx ltac:(by rewrite Hc)).
  step (dynamic_cast_run is_KPythonDict o x h Hx ltac:(by rewrite Hc)).
  unfold KPythonDict_ToPython. rewrite st_bind_assoc. step (geto_run _ _ _ Hx). rewrite Hc.
  rewrite st_bind_assoc. by step E.
Qed.

Lemma ToPyObject_proxy l v o c k p h :
  vals h !! l = Some v -> type v = proxy_type c -> objectValue v = Some o -> there h o c ->
  proxy_of h p c k -> live (pymem_of h) p ->
  exists h', ToPyObject W V l h = (Ret p, h') /\ kept (refs p (handed c)) h h'.
Proof.
  intros Hl Hty Ho Ht Hp Hlp.
  assert (forall h1, python_value W V l h = (Ret (Some p, true), h1) -> live (pymem_of h1) p ->
    exists h', ToPyObject W V l h = (Ret p, h') /\ kept (one_more p) h1 h') as Hto.
  { intros h1 E1 Hl1. destruct (pi_incref p h1 Hl1) as ([] & h' & E & K). exists h'. split; [|done].
    unfold ToPyObject. step E1. cbn [default id]. by step E. }
  assert (c = KPythonDict p \/ (forall q, c <> KPythonDict q) /\ handed c = 1%Z) as [->|[Hd Hh]].
  { destruct Hp; [by right|by left|by right..]. }
  - destruct (dict_python_value l v o p h Hl Hty Ho Ht Hlp) as (h1 & E1 & K1).
    destruct (Hto h1 E1) as (h' & E & K); [by apply (kp_live K1)|]. exists h'. split; [done|].
    eapply pykept_ext; [|exact (pykept_trans K1 K)]. intros q. unfold sum, one_more, refs. by case_decide.
  - destruct (Hto h) as (h' & E & K); [|done|].
    { by apply (proxy_python_value l v o c k p h). }
    exists h'. split; [done|]. by rewrite Hh.
Qed.

(** ** The two round trips *)

(** [v] is a proxy of the Python object [p]. *)
Definition python_proxy (h : heap) (v : value) (p : N) : Prop :=
  exists o c n, type v = proxy_type c /\ objectValue v = Some o /\ there h o c /\ proxy_of h p c n.
Lemma portable_not_proxy h v p : py_portable h v -> python_proxy h v p -> False.
Proof using Type.
  unfold py_portable. intros Hp (o & c & n & Hty & Ho & [Hc _] & Hpr).
  assert (kroll_object h v) as (o' & c' & Ho' & Hc' & Hn & _) by (rewrite Hty in Hp; by destruct Hpr).
  assert (c' = c) as -> by congruence. by destruct Hpr.
Qed.

Lemma value_back l v h :
  0 < vFuel V -> fresh_ok h -> vals h !! l = Some v -> py_portable h v ->
  exists p h1 l' h2, ToPyObject W V l h = (Ret p, h1) /\ PyToKrollValue W V (Some p) h1 = (Ret l', h2) /\
    in_python v l h1 p /\ py_carried v l l' h2 /\
    forall k w, vals h !! k = Some w -> vals h2 !! k = Some w.
Proof.
  intros Hfuel Hf Hl Hp. destruct (ToPyObject_run l v h Hl Hp) as (p & h1 & E1 & Hin & Hr).
  destruct (references_kept _ _ _ _ Hr) as (d & K & _).
  assert (py_portable h1 v) as Hp1.
  { unfold py_portable, kroll_object, class_of in *. by rewrite (kp_objs K). }
  unfold PyToKrollValue. destruct (vFuel V) as [|n]; [lia|].
  destruct (PyToKrollValue_back n v l p h1 Hp1 Hin) as (l' & h2 & E2 & Hc & Hk).
  exists p, h1, l', h2. split; [done|]. split; [done|]. split; [done|]. split; [done|]. intros k w Hw.
  rewrite (gn_vals _ _ _ Hk), (kp_vals K); [done|rewrite (kp_next K); by eapply lookup_lt_next].
Qed.

Lemma proxy_back l v p h :
  0 < vFuel V -> fresh_ok h -> vals h !! l = Some v -> python_proxy h v p ->
  live (pymem_of h) p -> python_kind (look (pymem_of h) p) ->
  exists h1 l' h2, ToPyObject W V l h = (Ret p, h1) /\ PyToKrollValue W V (Some p) h1 = (Ret l', h2) /\
    (exists w, vals h2 !! l' = Some w /\ python_proxy h2 w p) /\
    forall k w, vals h !! k = Some w -> vals h2 !! k = Some w.
Proof.
  intros Hfuel Hf Hl (o & c & n & Hty & Ho & Ht & Hp) Hlp Hk.
  destruct (ToPyObject_proxy l v o c n p h Hl Hty Ho Ht Hp Hlp) as (h1 & E1 & K).
  unfold PyToKrollValue. destruct (vFuel V) as [|m]; [lia|].
  destruct (PyToKrollValue_proxy m p h1) as (l' & h2 & o' & c' & n' & w & E2 & Hw & _ & Hty' & Ho' & Ht' & Hp' & G);
    [by apply (kp_live K)|by rewrite (kp_look K)|].
  exists h1, l', h2. split_and!; [done|done|exists w; split; [done|by exists o', c', n']|].
  intros k x Hx. rewrite (gn_vals _ _ _ G), (kp_vals K); [done|rewrite (kp_next K); by eapply lookup_lt_next].
Qed.

(** C11: what goes to Python comes back. A value that [ToPyObject] turns into
    an object of the type that fits ([None], a truth value, an integer, a float,
    a text, or a wrapper of the value for objects, methods or lists) comes back from it as a number of the same type and value, the
    same truth value, the same text (texts of any bytes but NUL); objects,
    methods and lists of the program come back as the very same value, and a
    proxy of a Python object as a new proxy of that object; undefined and void
    pointers come back as null. No value of the program changes. *)
Theorem python_value_roundtrip l v h :
  0 < vFuel V -> fresh_ok h -> vals h !! l = Some v ->
  py_portable h v \/
    (exists p, python_proxy h v p /\ live (pymem_of h) p /\ python_kind (look (pymem_of h) p)) ->
  exists p h1 l' h2, ToPyObject W V l h = (Ret p, h1) /\ PyToKrollValue W V (Some p) h1 = (Ret l', h2) /\
    (py_portable h v -> in_python v l h1 p /\ py_carried v l l' h2) /\
    (forall p', python_proxy h v p' -> p' = p /\ exists w, vals h2 !! l' = Some w /\ python_proxy h2 w p) /\
    forall k w, vals h !! k = Some w -> vals h2 !! k = Some w.
Proof.
  intros Hfuel Hf Hl [Hp|(p & Hp & Hlp & Hk)].
  - destruct (value_back l v h Hfuel Hf Hl Hp) as (p & h1 & l' & h2 & E1 & E2 & Hin & Hc & Hkept).
    exists p, h1, l', h2. split; [done|]. split; [done|]. split; [done|]. split; [|done].
    intros p' Hp'. by destruct (portable_not_proxy h v p').
  - destruct (proxy_back l v p h Hfuel Hf Hl Hp Hlp Hk) as (h1 & l' & h2 & E1 & E2 & Hw & Hkept).
    exists p, h1, l', h2. split_and!; try done; [by intros Hpo; destruct (portable_not_proxy h v p)|].
    intros p' Hp'. split; [|done]. destruct Hp as (o & c & n & _ & Ho & [Hc _] & Hpr).
    destruct Hp' as (o' & c' & n' & _ & Ho' & [Hc' _] & Hpr').
    assert (c' = c) as -> by congruence. by destruct Hpr; inversion Hpr'.
Qed.

(** The references that [ToPyObject] hands out. Its caller owns one
    reference. The constants ([None], [True], [False]) gain one; a wrapper of
    an object, method or list is new and has one; but the object of a number or
    a text, new or not, gains two, of which nobody drops the second. No other
    object gains or loses any. *)
Theorem to_python_references l v h :
  vals h !! l = Some v -> py_portable h v ->
  exists p h', ToPyObject W V l h = (Ret p, h') /\ live (pymem_of h') p /\
    look (pymem_of h') p = contents v /\
    match type v with
    | INT | DOUBLE | STRING =>
        (live (pymem_of h) p -> count (pymem_of h') p = (count (pymem_of h) p + 2)%Z) /\
        (~ live (pymem_of h) p -> count (pymem_of h') p = 2%Z)
    | LIST | OBJECT | METHOD => ~ live (pymem_of h) p /\ count (pymem_of h') p = 1%Z
    | _ => live (pymem_of h) p /\ count (pymem_of h') p = (count (pymem_of h) p + 1)%Z
    end /\
    forall o, live (pymem_of h) o -> o <> p -> count (pymem_of h') o = count (pymem_of h) o.
Proof.
  intros Hl Hp. destruct (ToPyObject_run l v h Hl Hp) as (p & h' & E & (Hlp & Hx & _) & Hr).
  assert (forall d o, kept d h h' -> live (pymem_of h) o -> d o = 0%Z ->
    count (pymem_of h') o = count (pymem_of h) o) as Hother.
  { intros d o K Ho Hd. rewrite (kp_count K) by done. lia. }
  exists p, h'. split_and!; [done|done|done|..]; unfold references, two_more, new_object_of, shared_object in Hr.
  - destruct (type v);
      (destruct Hr as (K & Hn); split; [|done]; intros Hlo; rewrite (kp_count K) by done;
         unfold refs; by rewrite decide_True)
      || (destruct Hr as (? & ? & _); by split)
      || (destruct Hr as (Hlo & K); split; [done|]; rewrite (kp_count K) by done;
          unfold one_more; by rewrite decide_True).
  - intros o Ho Hne.
    assert (refs p 2 o = 0%Z /\ one_more p o = 0%Z) as [H2 H1]
      by (unfold refs, one_more; by rewrite !decide_False by done).
    destruct (type v); first
      [ destruct Hr as (K & _); by apply (Hother _ o K)
      | destruct Hr as (_ & _ & K); by apply (Hother _ o K)
      | destruct Hr as (_ & K); by apply (Hother _ o K) ].
Qed.

(** C12: a Python object comes to the program as a proxy of the kind that
    fits: a list, a tuple, a function or method, a mapping, a module, instance
    or another object as the class for it, which is a list, a method or an
    object of the program (not so the numbers, texts, [None] and wrappers, which
    become values). The proxy goes back to Python as the same object. It holds
    one reference (an object or a dict) or two (a method, a list, a tuple);
    going back takes one more, or two for a dict. *)
Theorem python_object_roundtrip p h :
  0 < vFuel V -> live (pymem_of h) p -> python_kind (look (pymem_of h) p) ->
  exists l h1 h2 v o c n, PyToKrollValue W V (Some p) h = (Ret l, h1) /\
    vals h1 !! l = Some v /\ fits (look (pymem_of h) p) c = true /\ type v = proxy_type c /\
    objectValue v = Some o /\ class_of h1 o = Some c /\ proxy_of h1 p c n /\
    count (pymem_of h1) p = (count (pymem_of h) p + n)%Z /\
    ToPyObject W V l h1 = (Ret p, h2) /\
    count (pymem_of h2) p = (count (pymem_of h1) p + handed c)%Z.
Proof.
  intros Hfuel Hl Hk. unfold PyToKrollValue. destruct (vFuel V) as [|m]; [lia|].
  destruct (PyToKrollValue_proxy m p h Hl Hk) as (l & h1 & o & c & n & v & E1 & Hv & Hf & Hty & Ho & Ht & Hp & G).
  pose proof (gn_live _ _ _ G p Hl) as Hl1.
  destruct (ToPyObject_proxy l v o c n p h1 Hv Hty Ho Ht Hp Hl1) as (h2 & E2 & K).
  exists l, h1, h2, v, o, c, n. split_and!; try done; [apply Ht| |].
  - rewrite (gn_count _ _ _ G) by done. unfold sum, refs, same. rewrite decide_True by done. lia.
  - rewrite (kp_count K) by done. unfold refs. by rewrite decide_True.
Qed.
End Border.

(** ** Lists *)
Section Lists.
Context (W : World).
Context (live : pymem -> N -> Prop) (look : pymem -> N -> pyval) (count : pymem -> N -> Z).
Context (HI : forall V, Interpreter W V live look count) (HL : forall V, Lists W V live look count).
#[local] Set Default Proof Using "Type*".
#[local] Abbreviation Q := (pyq W).
#[local] Abbreviation kept := (kept live look count).
#[local] Abbreviation is_list := (is_list live look).






(** The values and objects of the program are as they were, and no object of
    Python but the list changes or loses a reference. *)
Record stable (lst : N) (h h' : heap) : Prop := {
  st_next : next h' = next h;
  st_vals : vals h' = vals h;
  st_objs : objs h' = objs h;
  st_live o : live (pymem_of h) o -> live (pymem_of h') o;
  st_look o : live (pymem_of h) o -> o <> lst -> look (pymem_of h') o = look (pymem_of h) o;
  st_count o : live (pymem_of h) o -> (count (pymem_of h) o <= count (pymem_of h') o)%Z
}.
#[local] Instance stable_preorder lst : PreOrder (stable lst).
Proof using Type.
  split; [intros h; by split|]. intros h1 h2 h3 [] [].
  split; try congruence; auto.
  - intros o Ho Hne. rewrite st_look1, st_look0; auto.
  - intros o Ho. etrans; eauto.
Qed.








End Lists.

(** ** Instances *)

Definition demo_python_ops : VOps := vt SmallInterpreter.world 3.
(** The value 3 of the object 2. *)
Definition demo_object_value : value := set_object OBJECT (Some 2%N) (reset new_value).
Definition demo_border_heap : heap := with_fresh demo_object_value demo_heap.

Lemma demo_border_portable : py_portable demo_border_heap demo_object_value.
Proof. exists 2%N, StaticBoundObject. split_and!; [reflexivity|vm_compute; reflexivity|reflexivity|exact I]. Qed.

Lemma python_value_roundtrip_witness :
  exists p h1 h2, ToPyObject SmallInterpreter.world demo_python_ops 3%N demo_border_heap = (Ret p, h1) /\
    PyToKrollValue SmallInterpreter.world demo_python_ops (Some p) h1 = (Ret 3%N, h2).
Proof.
  destruct (python_value_roundtrip SmallInterpreter.world demo_python_ops SmallInterpreter.live
    SmallInterpreter.look SmallInterpreter.count (SmallInterpreter.interpreter _) 3%N demo_object_value
    demo_border_heap) as (p & h1 & l' & h2 & E1 & E2 & Hl & _).
  - apply Nat.ltb_lt. vm_compute. reflexivity.
  - apply fresh_check_ok. vm_compute. reflexivity.
  - vm_compute. reflexivity.
  - left. exact demo_border_portable.
  - exists p, h1, h2. split; [exact E1|]. rewrite E2.
    exact (f_equal (fun l => (Ret l, h2)) (proj2 (Hl demo_border_portable))).
Defined.

(** The value at 3 is the number 7; its Python object has a reference that
    nobody drops. *)
Definition demo_number_heap : heap :=
  with_fresh (set_number INT (double_of_int 7) (reset new_value)) demo_heap.
Lemma to_python_references_witness :
  exists p h', ToPyObject SmallInterpreter.world demo_python_ops 3%N demo_number_heap = (Ret p, h') /\
    SmallInterpreter.count (pymem_of h') p = 2%Z.
Proof.
  destruct (to_python_references SmallInterpreter.world demo_python_ops SmallInterpreter.live
    SmallInterpreter.look SmallInterpreter.count (SmallInterpreter.interpreter _) 3%N
    (set_number INT (double_of_int 7) (reset new_value)) demo_number_heap)
    as (p & h' & E & _ & _ & Hc & _).
  - vm_compute. reflexivity.
  - exact I.
  - exists p, h'. split; [exact E|]. apply Hc. injection E as <- _.
    intros [H|[_ H]]; vm_compute in H; [discriminate|by apply H].
Defined.

(** The list 5 of Python, with the item [True]; its proxy is the object 4. *)
Definition with_python_memory (m : pymem) : heap -> heap := SmallInterpreter.set_memory (fun _ => m).
Definition demo_python_memory : pymem := {[5%N := [1; 7; 1]%N]}.
Definition demo_python_heap : heap :=
  with_python_memory demo_python_memory
    (with_object (lit "KList") (KPythonList 5%N 3%N)
      (with_object (lit "KObject") (KPythonObject 5%N true (Some 2%N)) demo_heap)).

Lemma demo_python_list : is_list SmallInterpreter.live SmallInterpreter.look demo_python_heap 5%N [1%N].
Proof. split; [right; split; [reflexivity|vm_compute; discriminate]|vm_compute; reflexivity]. Qed.

Lemma python_object_roundtrip_witness :
  exists l h1 h2, PyToKrollValue SmallInterpreter.world demo_python_ops (Some 5%N) demo_python_heap = (Ret l, h1) /\
    ToPyObject SmallInterpreter.world demo_python_ops l h1 = (Ret 5%N, h2).
Proof.
  destruct (python_object_roundtrip SmallInterpreter.world demo_python_ops SmallInterpreter.live
    SmallInterpreter.look SmallInterpreter.count (SmallInterpreter.interpreter _) 5%N demo_python_heap)
    as (l & h1 & h2 & v & o & c & n & E1 & _ & _ & _ & _ & _ & _ & _ & E2 & _).
  - apply Nat.ltb_lt. vm_compute. reflexivity.
  - exact (proj1 demo_python_list).
  - rewrite (proj2 demo_python_list). exact I.
  - exists l, h1, h2. split; [exact E1|exact E2].
Defined.

