(* ===== verification/PythonExceptionLaws.v ===== *)
(** * PythonExceptionLaws: exceptions at the border to Python

    An exception of the program becomes the exception of the interpreter, and
    the other way around; both keep its value. Of the slots that Python calls,
    only the call of a method does so. *)

From S2P Require Import Prelude CppString Double System Heap PythonCore Virtual KObject StaticBound.
From S2P Require Import StaticLaws ValueLaws Namespace Python PythonInterpreter Dispatch DispatchLaws.
From S2P Require Import EventLaws PythonLaws.
From stdpp Require Import options.

Section Exceptions.
Context (W : World) (V : VOps).
Context (live : pymem -> N -> Prop) (look : pymem -> N -> pyval) (count : pymem -> N -> Z).
Context (pending : pymem -> option (N * N)).
Context (HI : Interpreter W V live look count) (HE : Errors W V live look count pending).
#[local] Set Default Proof Using "Type*".
#[local] Abbreviation Q := (pyq W).
#[local] Abbreviation call := (py W V _).
#[local] Abbreviation kept := (kept live look count).
#[local] Abbreviation in_python := (in_python W live look).


(** What happens to the counts does not matter below. *)
Definition moved (h h' : heap) : Prop := exists d, kept d h h'.
#[local] Instance moved_preorder : PreOrder moved.
Proof using Type.
  split; [intros h; exists same; apply pykept_refl|].
  intros h1 h2 h3 [d1 K1] [d2 K2]. eexists. by eapply pykept_trans.
Qed.





End Exceptions.

(** ** The slots *)

(** The calls that count references, make objects, and leave an exception. *)
Definition plain_call {A : Set} (c : pycmd A) : bool :=
  match c with
  | Py_INCREF _ | Py_DECREF _ | PyObject_Type _ | PyErr_SetObject _ _ | PyFloat_FromDouble _
  | PyInt_FromLong _ | PyString_FromString _ | PyObject_New _ => true
  | _ => false
  end.

Section Slots.
Context (W : World) (V : VOps).
(** They throw no exception of C++. *)
Context (HQ : forall (A : Set) (c : pycmd A), plain_call c = true -> no_throw (py W V A c)).
#[local] Set Default Proof Using "Type*".

Lemma call_quiet P (A : Set) (c : pycmd A) : plain_call c = true -> throws_only P (py W V A c).
Proof. intros Hc. eapply throws_only_weaken; [|by apply HQ]. done. Qed.
Lemma on_py_quiet P f : throws_only P (on_py (modify f)).
Proof using Type. by intros h e h' [=]. Qed.
#[local] Hint Resolve on_py_quiet : quiet.
#[local] Hint Extern 2 (throws_only _ (py W V _ _)) => by apply call_quiet : quiet.
Lemma PyKObject_value_quiet P p : throws_only P (PyKObject_value p).
Proof using Type. unfold PyKObject_value, the_py. quiet. Qed.

Lemma ToPyObject_quiet P l : throws_only P (ToPyObject W V l).
Proof.
  unfold ToPyObject, python_value, method_to_py, list_to_py, object_to_py, Kpython_ToPython,
    kpython_object_of, KPythonObject_ToPython, KPythonDict_ToPython, KMethodToPyObject, KListToPyObject,
    KObjectToPyObject, new_wrapper, ToBool, ToString, ToMethod, ToList.
  quiet.
Qed.
#[local] Hint Resolve ToPyObject_quiet PyKObject_value_quiet : quiet.

Lemma set_python_error_quiet P l : throws_only P (set_python_error W V l).
Proof. unfold set_python_error. quiet. Qed.
#[local] Hint Resolve set_python_error_quiet : quiet.





End Slots.

(** ** Instances *)





