(* ===== verification/PythonListLaws.v ===== *)
(** * PythonListLaws: a list of the program in the hands of Python

    What the slots of the type of lists do with a list of the program: its
    length and items, what is set, [in], and the repetition in place. *)

From S2P Require Import Prelude CppString Double System Heap PythonCore Virtual KObject StaticBound.
From S2P Require Import StaticLaws ValueLaws Namespace Python PythonInterpreter Dispatch DispatchLaws.
From S2P Require Import JavaScriptCallLaws PythonLaws PythonExceptionLaws.
From stdpp Require Import options.

Section Slots.
Context (W : World) (V0 : VOps) `{!StaticDispatch V0}.
#[local] Abbreviation V := (dispatch W V0).
#[local] Set Default Proof Using "Type*".

(** [o] is the wrapper of a value at [lv] with the list [this]. *)
Record wraps_list (h : heap) (o : N) (this obj : loc) (items : list loc) : Prop := {
  wl_repr : list_repr h this obj items;
  wl_slot : slot_list o h = (Ret this, h)
}.

Lemma wraps_list_intro h o lv v this obj items :
  pyk_values (py_of h) !! o = Some lv -> vals h !! lv = Some v -> objectValue v = Some this ->
  list_repr h this obj items -> wraps_list h o this obj items.
Proof using Type.
  intros Ho Hl Hv Hr. split; [done|]. pose proof (lr_class _ _ _ _ Hr) as Hc.
  unfold class_of in Hc. destruct (objs h !! this) as [x|] eqn:Hx; [|done]. injection Hc as Hc.
  unfold slot_list. step (PyKObject_value_run _ _ _ Ho). step (getv_run _ _ _ Hl).
  unfold ToList. rewrite Hv. step (dynamic_cast_run is_list_class this x h Hx ltac:(by rewrite Hc)). done.
Qed.

Lemma list_At_run h this obj items i l :
  list_repr h this obj items -> items !! i = Some l ->
  vAt V this (Z.of_nat i) h = (Ret l, with_fresh new_value h).
Proof.
  intros [Hc Ho _ Hit] Hi. cbn [vAt dispatch]. unfold dispatch_At. step (class_at_run _ _ _ Hc).
  rewrite (At_run _ _ _ _ _ Hc) by eauto. by rewrite (Hit _ _ Hi).
Qed.
Lemma list_Append_run h this obj items l :
  list_repr h this obj items -> (Z.of_nat (S (length items)) < 2 ^ 32)%Z ->
  exists h', vAppend V this l h = (Ret tt, h') /\ list_repr h' this obj (items ++ [l]).
Proof.
  intros Hr Hn. destruct (Append_repr h this obj items l Hr Hn) as (h' & E & Hr' & _).
  exists h'. split; [|done]. cbn [vAppend dispatch]. unfold dispatch_Append.
  by step (class_at_run _ _ _ (lr_class _ _ _ _ Hr)).
Qed.

(** [in] looks for the pointer. *)
Lemma contains_loop this obj items kv fuel i h :
  list_repr h this obj items -> i <= length items -> length items - i < fuel ->
  exists h', loop fuel (contains_step V this kv) (Z.of_nat i) h =
    (Ret (if decide (kv ∈ drop i items) then 1 else 0)%Z, h').
Proof.
  revert i h. induction fuel as [|fuel IH]; intros i h Hr Hi Hf; [lia|]. cbn [loop].
  unfold contains_step. rewrite st_bind_assoc. step (Size_run W V0 h this obj items Hr).
  destruct (decide (i = length items)) as [->|Hne].
  - exists h. rewrite Z.ltb_irrefl, drop_all. done.
  - destruct (lookup_lt_is_Some_2 items i) as [l Hl]; [lia|].
    rewrite (proj2 (Z.ltb_lt _ _)) by lia. rewrite st_bind_assoc.
    step (list_At_run h this obj items i l Hr Hl). rewrite (drop_S _ _ _ Hl).
    destruct (N.eqb_spec kv l) as [->|Hkv].
    + exists (with_fresh new_value h). rewrite decide_True by left. done.
    + destruct (IH (S i) (with_fresh new_value h)) as (h' & E); [by apply list_repr_fresh|lia|lia|].
      exists h'. pose proof (lr_length _ _ _ _ Hr).
      replace (wrap32 (Z.of_nat i + 1)) with (Z.of_nat (S i)) by (rewrite wrap32_id; lia).
      etrans; [exact E|]. do 3 f_equal.
      apply decide_ext. set_solver.
Qed.

(** The items [i] to [i + n] of the list are appended to it. *)
Lemma append_own_run this obj items n i rest h :
  list_repr h this obj (items ++ rest) -> i + n <= length items ->
  (Z.of_nat (length (items ++ rest) + n) < 2 ^ 32)%Z ->
  exists h', append_own V this (Z.of_nat i) n h = (Ret tt, h') /\
    list_repr h' this obj (items ++ rest ++ take n (drop i items)).
Proof.
  revert i rest h. induction n as [|n IH]; intros i rest h Hr Hi Hn.
  { exists h. rewrite take_0, app_nil_r. done. }
  destruct (lookup_lt_is_Some_2 items i) as [l Hl]; [lia|].
  assert ((items ++ rest) !! i = Some l) as Hl' by (by rewrite lookup_app_l by lia).
  destruct (list_Append_run (with_fresh new_value h) this obj (items ++ rest) l) as (h1 & E1 & Hr1);
    [by apply list_repr_fresh|lia|].
  destruct (IH (S i) (rest ++ [l]) h1) as (h' & E & Hr'); [by rewrite app_assoc|lia| |].
  { rewrite !length_app in *. simpl. lia. }
  exists h'. split.
  - cbn [append_own]. step (list_At_run h this obj _ i l Hr Hl'). step E1.
    by replace (Z.of_nat i + 1)%Z with (Z.of_nat (S i)) by lia.
  - rewrite (drop_S _ _ _ Hl). cbn [take]. by rewrite <- app_assoc in Hr'.
Qed.

Lemma append_own_times_run this obj items count rest h :
  list_repr h this obj (items ++ rest) ->
  (Z.of_nat (length (items ++ rest) + count * length items) < 2 ^ 32)%Z ->
  exists h', append_own_times V this (length items) count h = (Ret tt, h') /\
    list_repr h' this obj (items ++ rest ++ concat (replicate count items)).
Proof.
  revert rest h. induction count as [|count IH]; intros rest h Hr Hn.
  { exists h. simpl. rewrite app_nil_r. done. }
  destruct (append_own_run this obj items (length items) 0 rest h Hr) as (h1 & E1 & Hr1); [lia|lia|].
  rewrite drop_0, firstn_all in Hr1.
  destruct (IH (rest ++ items) h1 Hr1) as (h' & E & Hr').
  { rewrite !length_app in *. simpl in Hn. lia. }
  exists h'. split; [cbn [append_own_times]; by step E1|]. simpl. by rewrite <- app_assoc in Hr'.
Qed.

(** C16: a list of the program in the hands of Python. [len] is its length;
    an index before the end gives the item, one past the end the null pointer
    (and no exception); [in] looks for the very value that the conversion of
    the operand gives, not for an equal one; setting an item stores the
    converted value and reports a failure nevertheless; and repetition in
    place appends [count] copies, so that there are [count + 1]. *)
Theorem python_list_slots o this obj items h :
  wraps_list h o this obj items -> (Z.of_nat (length items) < 2 ^ 31)%Z ->
  PyKListLength V o h = (Ret (Z.of_nat (length items)), h) /\
  (forall i, (Z.of_nat (length items) <= i)%Z -> PyKListGetItem W V o i h = (Ret None, h)) /\
  (forall i l, items !! i = Some l -> PyKListGetItem W V o (Z.of_nat i) h =
     (p ← ToPyObject W V l; mret (Some p)) (with_fresh new_value h)) /\
  (forall p kv h1, PyToKrollValue W V (Some p) h = (Ret kv, h1) -> list_repr h1 this obj items ->
     length items < vFuel V0 ->
     exists h2, PyKListContains W V o p h = (Ret (if decide (kv ∈ items) then 1 else 0)%Z, h2)) /\
  (forall i p kv h1, PyToKrollValue W V (Some p) h = (Ret kv, h1) -> list_repr h1 this obj items ->
     i < length items ->
     exists h2, PyKListSetItem W V o (Z.of_nat i) (Some p) h = (Ret 1%Z, h2) /\
       list_repr h2 this obj (<[i := kv]> items)) /\
  (forall count, (Z.of_nat (S count * length items) < 2 ^ 32)%Z ->
     exists h2, PyKListInPlaceRepeat V o (Z.of_nat count) h = (Ret (Some o), h2) /\
       list_repr h2 this obj (concat (replicate (S count) items))).
Proof.
  intros [Hr Hs] H31. pose proof (Size_run W V0 h this obj items Hr) as Esize.
  assert (to_signed32 (Z.of_nat (length items)) = Z.of_nat (length items)) as Esg
    by (apply to_signed32_id; unfold is_int, int_min, int_max; lia).
  split_and!.
  - unfold PyKListLength. by step Hs.
  - intros i Hi. unfold PyKListGetItem. step Hs. step Esize. rewrite Esg.
    by rewrite (proj2 (Z.ltb_ge _ _)) by lia.
  - intros i l Hi. pose proof (lookup_lt_Some _ _ _ Hi). unfold PyKListGetItem. step Hs. step Esize.
    rewrite Esg, (proj2 (Z.ltb_lt _ _)), wrap32_id by lia. by step (list_At_run h this obj items i l Hr Hi).
  - intros p kv h1 E1 Hr1 Hf.
    destruct (contains_loop this obj items kv (vFuel V) 0 h1 Hr1) as (h2 & E2); [lia|simpl; lia|].
    rewrite drop_0 in E2. exists h2. unfold PyKListContains. step Hs. by step E1.
  - intros i p kv h1 E1 Hr1 Hi. destruct (SetAt_repr h1 this obj items kv i Hr1 Hi) as (h2 & E2 & Hr2).
    exists h2. split; [|done]. unfold PyKListSetItem. step Hs. step E1. rewrite wrap32_id by lia.
    assert (vSetAt V this (Z.of_nat i) kv h1 = (Ret tt, h2)) as E3; [|by step E3].
    cbn [vSetAt dispatch]. unfold dispatch_SetAt. by step (class_at_run _ _ _ (lr_class _ _ _ _ Hr1)).
  - intros count Hc. destruct (append_own_times_run this obj items count [] h) as (h2 & E2 & Hr2);
      [by rewrite app_nil_r|rewrite app_nil_r; lia|].
    exists h2. split; [|exact Hr2]. unfold PyKListInPlaceRepeat. step Hs. step Esize.
    rewrite !Nat2Z.id. by step E2.
Qed.
End Slots.

(** ** An instance: the list 3 of three values; its value is at 7 and its
    wrapper the object 5 of Python. *)
Definition demo_wrapped_list : heap :=
  set_py (p_with_values (fun _ => {[5%N := 7%N]}))
    (with_python_memory {[5%N := [1; 6]%N]}
      (with_fresh (set_object LIST (Some 3%N) (reset new_value)) demo_list_heap)).

Lemma demo_wraps_list : wraps_list demo_wrapped_list 5%N 3%N 2%N [4; 5; 6]%N.
Proof.
  apply (wraps_list_intro _ _ 7%N (set_object LIST (Some 3%N) (reset new_value)));
    [vm_compute; reflexivity|vm_compute; reflexivity|reflexivity|].
  split; [vm_compute; reflexivity..|].
  intros i v Hi. do 3 (destruct i as [|i]; [injection Hi as <-; vm_compute; reflexivity|]). done.
Qed.

(** [l *= 2] makes three copies. *)
Lemma python_list_slots_witness :
  exists h2, PyKListInPlaceRepeat (vt SmallInterpreter.world 6) 5%N 2%Z demo_wrapped_list =
      (Ret (Some 5%N), h2) /\ list_repr h2 3%N 2%N [4; 5; 6; 4; 5; 6; 4; 5; 6]%N.
Proof.
  destruct (python_list_slots SmallInterpreter.world (vt SmallInterpreter.world 5) 5%N 3%N 2%N [4; 5; 6]%N
    demo_wrapped_list demo_wraps_list) as (_ & _ & _ & _ & _ & H).
  - reflexivity.
  - exact (H 2 eq_refl).
Defined.
