(* ===== verification/RubyInterpreter.v ===== *)
(** * RubyInterpreter: the documented behaviour of Ruby's C API, and a small
    interpreter that has it

    [look] says what an object is and holds, [live] which addresses are
    objects, [ancestors] which classes and modules an instance of a class is a
    kind of. A call that runs no script leaves the values and objects of the
    program, and what live objects hold. *)

From S2P Require Import Prelude CppString Double Application System Heap JavaScriptCore PythonCore RubyCore.
From S2P Require Import Virtual KObject StaticBound StaticLaws Ruby JavaScriptEngine.
From stdpp Require Import options.

Definition rb_of (h : heap) : RbState := s_rb (sys h).
Definition set_rb (f : RbState -> RbState) (h : heap) : heap :=
  with_sys (fun _ => with_rb (f (rb_of h)) (sys h)) h.

Lemma on_rb_run f h : on_rb (modify f) h = (Ret tt, set_rb f h).
Proof. done. Qed.
Lemma askr_run {A} (f : rbmem -> A) h : askr f h = (Ret (f (rbmem_of h)), h).
Proof. done. Qed.
Lemma wrapped_value_run o l h : rbk_values (rb_of h) !! o = Some l -> wrapped_value o h = (Ret l, h).
Proof.
  intros Ho. unfold wrapped_value, the_rb, gets, mbind, st_bind, some_or_undef, lift.
  change (s_rb (sys h)) with (rb_of h). by rewrite Ho.
Qed.

(** What an object is. *)
Inductive rbval :=
  | RNil | RTrue | RFalse | RFloat (d : double) | RFixnum (z : Z) | RString (s : str)
  | RObject | RStruct | RHash | RArray | RData (klass : N) | RClass (name : str)
  | RModule (name : str) | RSymbol (name : str).

Definition type_of (x : rbval) : RubyType :=
  match x with
  | RNil => T_NIL | RTrue => T_TRUE | RFalse => T_FALSE | RFloat _ => T_FLOAT | RFixnum _ => T_FIXNUM
  | RString _ => T_STRING | RObject => T_OBJECT | RStruct => T_STRUCT | RHash => T_HASH
  | RArray => T_ARRAY | RData _ => T_DATA | RClass _ | RModule _ | RSymbol _ => T_OTHER
  end.

Section Interpreter.
Context (W : World) (V : VOps) (live : rbmem -> N -> Prop) (look : rbmem -> N -> rbval).
Context (ancestors : rbmem -> N -> list N).
#[local] Abbreviation Q := (rbq W).
#[local] Abbreviation call := (rb W V _).

(** A class that is there, or that an object is an instance of. *)
Definition known_class (m : rbmem) (k : N) : Prop :=
  live m k \/ exists o, live m o /\ look m o = RData k.
(** A class that is derived from [Object] only. Its other ancestors are modules. *)
Definition from_object (m : rbmem) (c : N) : Prop :=
  c ∈ ancestors m c /\ forall c', c' ∈ ancestors m c -> live m c' /\
    forall s, look m c' = RClass s -> c' = c \/ s = lit "Object".

(** A call that runs no script. *)
Record undisturbed (h h' : heap) : Prop := {
  ud_next : next h' = next h;
  ud_vals : vals h' = vals h;
  ud_objs : objs h' = objs h;
  ud_classes k : class_of_wrapper k (rb_of h') = class_of_wrapper k (rb_of h);
  ud_wrappers o : live (rbmem_of h) o -> rbk_values (rb_of h') !! o = rbk_values (rb_of h) !! o;
  ud_live o : live (rbmem_of h) o -> live (rbmem_of h') o;
  ud_look o : live (rbmem_of h) o -> look (rbmem_of h') o = look (rbmem_of h) o;
  ud_ancestors k : known_class (rbmem_of h) k -> ancestors (rbmem_of h') k = ancestors (rbmem_of h) k
}.
Lemma undisturbed_known h h' k : undisturbed h h' -> known_class (rbmem_of h) k -> known_class (rbmem_of h') k.
Proof.
  intros U [Hl|(o & Hl & Hx)]; [left; by apply (ud_live _ _ U)|right]. exists o.
  split; [by apply (ud_live _ _ U)|by rewrite (ud_look _ _ U)].
Qed.

#[export] Instance undisturbed_preorder : PreOrder undisturbed.
Proof.
  split; [done|]. intros h1 h2 h3 U1 U2. pose proof (fun k => undisturbed_known _ _ k U1) as Hk.
  destruct U1, U2. split; try congruence; auto.
  - intros o Ho. rewrite ud_wrappers1, ud_wrappers0; auto.
  - intros o Ho. rewrite ud_look1, ud_look0; auto.
  - intros k Ho. rewrite ud_ancestors1, ud_ancestors0; auto.
Qed.

(** The call answers with [P]. *)
Definition answers_with {A : Set} (c : rbcmd A) (h : heap) (P : A -> heap -> Prop) : Prop :=
  exists a h', call c h = (Ret a, h') /\ undisturbed h h' /\ P a h'.
(** A new object [x]. *)
Definition creates (x : rbval) (h : heap) (p : N) (h' : heap) : Prop :=
  ~ live (rbmem_of h) p /\ live (rbmem_of h') p /\ look (rbmem_of h') p = x.

(** The documented behaviour. *)
Class RubyAPI : Prop := {
  ra_nil m : live m (Qnil Q) /\ look m (Qnil Q) = RNil;
  ra_true m : live m (Qtrue Q) /\ look m (Qtrue Q) = RTrue;
  ra_false m : live m (Qfalse Q) /\ look m (Qfalse Q) = RFalse;
  ra_type m o : live m o -> TYPE Q m o = type_of (look m o);
  ra_float m o d : live m o -> look m o = RFloat d -> NUM2DBL Q m o = d;
  ra_string m o s : live m o -> look m o = RString s -> string_text Q m o = s;
  ra_symbol m o s : live m o -> look m o = RSymbol s -> SYMBOL_P Q m o = true /\ symbol_name Q m o = s;
  ra_kind m o k c : live m o -> look m o = RData k -> kind_of Q m o c = bool_decide (c ∈ ancestors m k);
  ra_class m c : live m (class_value Q c) /\
    look m (class_value Q c) = RClass match c with
      | rb_cMethod => lit "Method" | rb_cProc => lit "Proc" | rb_eStandardError => lit "StandardError"
      | rb_eArgError => lit "ArgumentError" | rb_eNoMethodError => lit "NoMethodError"
      | rb_eNameError => lit "NameError" end;
  ra_float_new d h : answers_with (rb_float_new d) h (creates (RFloat d) h);
  ra_str_new s h : no_nul s -> answers_with (rb_str_new2 s) h (creates (RString s) h);
  ra_define_class s h : answers_with (rb_define_class s) h (fun c h' =>
    live (rbmem_of h') c /\ look (rbmem_of h') c = RClass s /\ from_object (rbmem_of h') c);
  ra_define_method c s f n h : answers_with (rb_define_method c s f n) h (fun _ _ => True);
  ra_wrap c h : answers_with (Data_Wrap_Struct c) h (creates (RData c) h);
  ra_init o h : answers_with (rb_obj_call_init o) h (fun _ _ => True);
  ra_scan o argv h : answers_with (rb_scan_args (lit "1*") (o :: argv)) h (fun r _ =>
    exists args, r = Some [o; args]);
  ra_register v h : answers_with (rb_gc_register_address v) h (fun _ _ => True)
}.
End Interpreter.

Arguments ra_nil {W V live look ancestors _}.
Arguments ra_true {W V live look ancestors _}.
Arguments ra_false {W V live look ancestors _}.
Arguments ra_type {W V live look ancestors _}.
Arguments ra_float {W V live look ancestors _}.
Arguments ra_string {W V live look ancestors _}.
Arguments ra_symbol {W V live look ancestors _}.
Arguments ra_scan {W V live look ancestors _}.
Arguments ra_kind {W V live look ancestors _}.
Arguments ra_class {W V live look ancestors _}.
Arguments ra_float_new {W V live look ancestors _}.
Arguments ra_str_new {W V live look ancestors _}.
Arguments ra_define_class {W V live look ancestors _}.
Arguments ra_define_method {W V live look ancestors _}.
Arguments ra_wrap {W V live look ancestors _}.
Arguments ra_init {W V live look ancestors _}.
Arguments ra_register {W V live look ancestors _}.
Arguments ud_next {live look ancestors h h'} _.
Arguments ud_vals {live look ancestors h h'} _.
Arguments ud_objs {live look ancestors h h'} _.
Arguments ud_classes {live look ancestors h h'} _.
Arguments ud_wrappers {live look ancestors h h'} _.
Arguments ud_live {live look ancestors h h'} _.
Arguments ud_ancestors {live look ancestors h h'} _.
Arguments undisturbed_known {live look ancestors h h'}.
Arguments ud_look {live look ancestors h h'} _.

(** ** A small interpreter

    The addresses 0 to 2 are [nil], [true] and [false], 3 to 8 the classes;
    an object is a tag and its contents. Nothing runs. *)
Module SmallRuby.

Definition words (m : rbmem) (o : N) : list N := default [] (m !! o).
Definition live (m : rbmem) (o : N) : Prop := (o < 9)%N \/ is_Some (m !! o).
Definition decode (w : list N) : rbval :=
  match w with
  | 1 :: d => RFloat (SmallEngine.double_of_words d)
  | 2 :: s => RString (map ascii_of_N s)
  | [3; k] => RData k
  | [4] => RHash
  | [5] => RArray
  | 6 :: s => RClass (map ascii_of_N s)
  | [7] => RStruct
  | [8; z] => RFixnum (SmallEngine.Z_of_word z)
  | 9 :: s => RSymbol (map ascii_of_N s)
  | _ => RObject
  end%N.
Definition look (m : rbmem) (o : N) : rbval :=
  match o with
  | 0 => RNil | 1 => RTrue | 2 => RFalse
  | 3 => RClass (lit "Method") | 4 => RClass (lit "Proc") | 5 => RClass (lit "StandardError")
  | 6 => RClass (lit "ArgumentError") | 7 => RClass (lit "NoMethodError") | 8 => RClass (lit "NameError")
  | _ => decode (words m o)
  end%N.

(** Every class is derived from nothing. *)
Definition ancestors (_ : rbmem) (k : N) : list N := [k].

Definition queries : RubyQueries := {|
  Qnil := 0%N; Qtrue := 1%N; Qfalse := 2%N;
  TYPE m o := type_of (look m o);
  kind_of m o c := match look m o with RData k => bool_decide (c ∈ ancestors m k) | _ => false end;
  class_value c := match c with
    | rb_cMethod => 3 | rb_cProc => 4 | rb_eStandardError => 5 | rb_eArgError => 6
    | rb_eNoMethodError => 7 | rb_eNameError => 8 end%N;
  NUM2DBL m o := match look m o with RFloat d => d | RFixnum z => double_of_int z | _ => zero end;
  NUM2INT m o := match look m o with RFixnum z => Some z | _ => None end;
  string_text m o := match look m o with RString s => s | _ => [] end;
  symbol_name m o := match look m o with RSymbol s => s | _ => [] end;
  to_id_name _ _ := []; SYMBOL_P m o := match look m o with RSymbol _ => true | _ => false end;
  RARRAY_LEN _ _ := 0%Z; rb_ary_entry _ _ _ := 0%N; rb_block_given_p _ := false; format_text s _ := s
|}.

Definition set_memory (f : rbmem -> rbmem) : heap -> heap :=
  set_rb (fun r => {| rbk_values := rbk_values r; KObjectClass := KObjectClass r;
                      KMethodClass := KMethodClass r; KListClass := KListClass r;
                      rb_next_id := rb_next_id r; rb_global_object := rb_global_object r;
                      rb_binding := rb_binding r; rb_instance := rb_instance r;
                      rb_memory := f (rb_memory r) |}).
Definition fresh_address (m : rbmem) : N := fresh (({[0; 1; 2; 3; 4; 5; 6; 7; 8]} : gset N) ∪ dom m)%N.
Definition store (w : list N) : M N := fun h =>
  let a := fresh_address (rbmem_of h) in (Ret a, set_memory (<[a := w]>) h).

Definition ops (A : Set) (c : rbcmd A) : M A :=
  match c in rbcmd A return M A with
  | rb_float_new d => store (1%N :: SmallEngine.words_of_double d)
  | rb_str_new2 s => store (2%N :: map N_of_ascii s)
  | rb_define_class s => store (6%N :: map N_of_ascii s)
  | Data_Wrap_Struct c => store [3%N; c]
  | rb_define_method _ _ _ _ => mret tt
  | rb_obj_call_init _ => mret tt
  | rb_gc_register_address _ => mret tt
  | rb_scan_args _ argv => a ← store [5%N]; mret (Some (take 1 argv ++ [a]))
  | _ => lift Fuel
  end.

Definition world : World := {|
  show_double _ := []; show_ptr _ := []; now _ := 0%Z; poco_toLower s := s; poco_toUpper s := s;
  native _ _ _ _ := mret tt; function_ptr _ _ _ := NewUndefined; foreign _ _ := no_ops;
  jsq := no_queries; js _ := no_js; pyq := no_pyq; py _ := no_py; rbq := queries; rb _ := ops;
  phpq := no_phpq; php _ := no_php; poco_URI := no_uri;
  outside := quiet_system
|}.

Lemma rb_fresh_address_new m :
  ~ live m (fresh_address m) /\ m !! fresh_address m = None /\ (9 <= fresh_address m)%N.
Proof.
  pose proof (is_fresh (({[0; 1; 2; 3; 4; 5; 6; 7; 8]} : gset N) ∪ dom m)%N) as Hf. unfold fresh_address.
  set (a := fresh _) in *.
  assert (m !! a = None) as Ha by (apply not_elem_of_dom; set_solver).
  assert (9 <= a)%N as H9.
  { destruct (decide (9 <= a)%N); [done|].
    assert (a = 0 \/ a = 1 \/ a = 2 \/ a = 3 \/ a = 4 \/ a = 5 \/ a = 6 \/ a = 7 \/ a = 8)%N by lia.
    set_solver. }
  split_and!; [|done|done]. intros [Hl|Hs]; [lia|]. rewrite Ha in Hs. by destruct Hs.
Qed.
Lemma rb_look_large m o : (9 <= o)%N -> look m o = decode (words m o).
Proof. intros Ho. unfold look. destruct o as [|[[[[p|p|]|[p|p|]|]|[[p|p|]|[p|p|]|]|]|[[[p|p|]|[p|p|]|]|[[p|p|]|[p|p|]|]|]|]]; try done; lia. Qed.

Lemma store_creates w h :
  exists p h', store w h = (Ret p, h') /\ undisturbed live look ancestors h h' /\ creates live look (decode w) h p h'.
Proof.
  destruct (rb_fresh_address_new (rbmem_of h)) as (Hl & Hn & H9).
  eexists _, _. split; [reflexivity|]. set (a := fresh_address (rbmem_of h)) in *.
  match goal with |- undisturbed _ _ _ _ ?x /\ _ => set (h' := x) end.
  assert (rbmem_of h' = <[a := w]> (rbmem_of h)) as Em by done.
  split; [|split_and!].
  - split; try done; rewrite ?Em; try (by intros []).
    + intros o [Ho|Ho]; [by left|right]. destruct (decide (o = a)) as [->|Hne]; [by rewrite lookup_insert_eq|].
      by rewrite lookup_insert_ne.
    + intros o Ho. assert (o <> a) as Hne by (intros ->; done).
      unfold look, words. by rewrite lookup_insert_ne.
  - done.
  - right. rewrite Em. by rewrite lookup_insert_eq.
  - rewrite rb_look_large by done. rewrite Em. unfold words. by rewrite lookup_insert_eq.
Qed.
Lemma chars_back s : map ascii_of_N (map N_of_ascii s) = s.
Proof. rewrite map_map. erewrite map_ext, map_id; [done|]. intros c. apply ascii_N_embedding. Qed.

#[export] Instance api V : RubyAPI world V live look ancestors.
Proof.
  split; try done.
  - intros m. split; [by left|done].
  - intros m. split; [by left|done].
  - intros m. split; [by left|done].
  - intros m o d _ E. simpl. by rewrite E.
  - intros m o s _ E. simpl. by rewrite E.
  - intros m o s _ E. simpl. by rewrite E.
  - intros m o k c _ E. simpl. by rewrite E.
  - intros m []; (split; [by left|done]).
  - intros d h. destruct (store_creates (1%N :: SmallEngine.words_of_double d) h) as (p & h' & E & U & C).
    cbn [decode] in C. rewrite SmallEngine.double_of_words_of in C. by exists p, h'.
  - intros s h _. destruct (store_creates (2%N :: map N_of_ascii s) h) as (p & h' & E & U & C).
    cbn [decode] in C. rewrite chars_back in C. by exists p, h'.
  - intros s h. destruct (store_creates (6%N :: map N_of_ascii s) h) as (p & h' & E & U & C).
    cbn [decode] in C. rewrite chars_back in C. exists p, h'. split_and!; [done|done|apply C|apply C|].
    split; [by left|]. intros c' Hc'. assert (c' = p) as -> by set_solver. split; [apply C|by left].
  - intros c s f n h. by exists tt, h.
  - intros c h. destruct (store_creates [3%N; c] h) as (p & h' & E & U & C). by exists p, h'.
  - intros o h. by exists tt, h.
  - intros o argv h. destruct (store_creates [5%N] h) as (p & h' & E & U & _). exists (Some [o; p]), h'.
    split_and!; [|done|by exists p]. simpl. by step E.
  - intros v h. by exists tt, h.
Qed.
End SmallRuby.
