(* ===== verification/RubyLaws.v ===== *)
(** * RubyLaws: what crosses the border to Ruby and back

    Under the documented behaviour of Ruby, a value that goes to Ruby is an
    object of the class that fits and comes back with the same contents (a
    number as a double, undefined as null); a Ruby object that comes to the
    program goes back as the same object. *)

From S2P Require Import Prelude CppString Double System Heap RubyCore Virtual KObject StaticBound.
From S2P Require Import StaticLaws ValueLaws Namespace Ruby RubyInterpreter Dispatch DispatchLaws.
From S2P Require Import ScriptLaws.
From stdpp Require Import options.

Section Border.
Context (W : World) (V : VOps) (live : rbmem -> N -> Prop) (look : rbmem -> N -> rbval).
Context (ancestors : rbmem -> N -> list N) (HA : RubyAPI W V live look ancestors).
#[local] Set Default Proof Using "Type*".
#[local] Abbreviation Q := (rbq W).
#[local] Abbreviation call := (rb W V _).
#[local] Abbreviation undisturbed := (undisturbed live look ancestors).
#[local] Abbreviation from_object := (from_object live look ancestors).
#[local] Abbreviation known_class := (known_class live look).

(** The classes of the wrappers that have been defined. *)
Definition classes_ok (h : heap) : Prop := forall k c, class_of_wrapper k (rb_of h) = Some c ->
  live (rbmem_of h) c /\ look (rbmem_of h) c = RClass (wrapper_class_name k) /\ from_object (rbmem_of h) c.

(** A step that may define classes. *)
Record smooth (h h' : heap) : Prop := {
  sm_next : next h' = next h;
  sm_vals : vals h' = vals h;
  sm_objs : objs h' = objs h;
  sm_wrappers o : live (rbmem_of h) o -> rbk_values (rb_of h') !! o = rbk_values (rb_of h) !! o;
  sm_live o : live (rbmem_of h) o -> live (rbmem_of h') o;
  sm_look o : live (rbmem_of h) o -> look (rbmem_of h') o = look (rbmem_of h) o;
  sm_ancestors k : known_class (rbmem_of h) k -> ancestors (rbmem_of h') k = ancestors (rbmem_of h) k;
  sm_classes : classes_ok h -> classes_ok h'
}.
#[local] Instance smooth_preorder : PreOrder smooth.
Proof using Type.
  split; [done|]. intros h1 h2 h3 [] []. split; try congruence; auto.
  - intros o Ho. rewrite sm_wrappers1, sm_wrappers0; auto.
  - intros o Ho. rewrite sm_look1, sm_look0; auto.
  - intros k Hk. rewrite sm_ancestors1, sm_ancestors0; [done|done|]. destruct Hk as [Hl|(o & Hl & Hx)]; [left; auto|].
    right. exists o. split; [auto|]. by rewrite sm_look0.
Qed.
Lemma undisturbed_from_object h h' c :
  undisturbed h h' -> live (rbmem_of h) c -> from_object (rbmem_of h) c -> from_object (rbmem_of h') c.
Proof using Type.
  intros U Hl [Hs Ha]. unfold RubyInterpreter.from_object. rewrite (ud_ancestors U) by by left.
  split; [done|]. intros c' Hc'. destruct (Ha c' Hc') as [Hl' Hn]. split; [by apply (ud_live U)|].
  by rewrite (ud_look U).
Qed.
Lemma undisturbed_smooth h h' : undisturbed h h' -> smooth h h'.
Proof using Type.
  intros U. split; try apply U. intros Hc k c Hk. rewrite (ud_classes U) in Hk.
  destruct (Hc k c Hk) as (Hl & Hx & Ho). split_and!; [by apply (ud_live U)|by rewrite (ud_look U)|].
  by eapply undisturbed_from_object.
Qed.

Lemma define_methods_run c (l : list (str * rbfunc * Z)) h :
  exists h', st_fold (fun _ '(name, f, argc) => call (rb_define_method c name f argc)) tt l h = (Ret tt, h') /\
    undisturbed h h'.
Proof.
  revert h. induction l as [|[[s f] n] l IH]; intros h; [by exists h|].
  destruct (ra_define_method c s f n h) as ([] & h1 & E1 & U1 & _). destruct (IH h1) as (h' & E & U).
  exists h'. split; [|by etrans]. cbn [st_fold]. step E1. exact E.
Qed.

Lemma class_of_set_class k k' c r :
  class_of_wrapper k (set_class_of_wrapper k' c r) =
  match k, k' with
  | WObject, WObject | WMethod, WMethod | WList, WList => Some c
  | _, _ => class_of_wrapper k r
  end.
Proof using Type. by destruct k, k'. Qed.

Lemma set_class_smooth k c h :
  live (rbmem_of h) c -> look (rbmem_of h) c = RClass (wrapper_class_name k) ->
  from_object (rbmem_of h) c -> smooth h (set_rb (set_class_of_wrapper k c) h).
Proof using Type.
  intros Hl Hx Ho. assert (rbmem_of (set_rb (set_class_of_wrapper k c) h) = rbmem_of h) as Em by by destruct k.
  split; rewrite ?Em; try done; [by destruct k|].
  intros Hc k' c'. rewrite Em. change (rb_of (set_rb ?f h)) with (f (rb_of h)).
  rewrite class_of_set_class. destruct k', k; try apply Hc; by intros [= ->].
Qed.

(** The class of a wrapper, which is there or is defined now. *)
Lemma wrapper_ruby_class_run k h :
  classes_ok h ->
  exists c h', wrapper_ruby_class W V k h = (Ret c, h') /\ smooth h h' /\
    class_of_wrapper k (rb_of h') = Some c.
Proof.
  intros Hc. unfold wrapper_ruby_class.
  step (eq_refl : the_rb (class_of_wrapper k) h = (Ret (class_of_wrapper k (rb_of h)), h)).
  destruct (class_of_wrapper k (rb_of h)) as [c|] eqn:Ec; [by exists c, h|].
  destruct (ra_define_class (wrapper_class_name k) h) as (c & h1 & E1 & U1 & Hl & Hx & Ho).
  set (h2 := set_rb (set_class_of_wrapper k c) h1).
  destruct (define_methods_run c (wrapper_methods k) h2) as (h3 & E3 & U3).
  exists c, h3. split_and!.
  - step E1. step (on_rb_run (set_class_of_wrapper k c) h1). by step E3.
  - etrans; [by apply undisturbed_smooth|]. etrans; [by apply set_class_smooth|by apply undisturbed_smooth].
  - rewrite (ud_classes U3). change (rb_of h2) with (set_class_of_wrapper k c (rb_of h1)).
    rewrite class_of_set_class. by destruct k.
Qed.

(** [p] is a wrapper of the kind [k] of the value at [l]. *)
Definition wrapper (h : heap) (k : wrapper_kind) (p : N) (l : loc) : Prop :=
  classes_ok h /\ live (rbmem_of h) p /\ rbk_values (rb_of h) !! p = Some l /\
  exists c, look (rbmem_of h) p = RData c /\ class_of_wrapper k (rb_of h) = Some c.

Lemma wrap_value_run k l h :
  classes_ok h ->
  exists p h', wrap_value W V k l h = (Ret p, h') /\ smooth h h' /\ wrapper h' k p l.
Proof.
  intros Hc. destruct (wrapper_ruby_class_run k h Hc) as (c & h1 & E1 & S1 & Hk).
  destruct (ra_wrap c h1) as (p & h2 & E2 & U2 & Hn & Hl & Hx).
  set (h3 := set_rb (r_with_values (<[p := l]>)) h2).
  assert (smooth h1 h3) as S3.
  { split; try apply U2.
    - intros o Ho. change (rbk_values (rb_of h3)) with (<[p := l]> (rbk_values (rb_of h2))).
      rewrite lookup_insert_ne by (by intros <-). by apply (ud_wrappers U2).
    - by apply (sm_classes _ _ (undisturbed_smooth _ _ U2)). }
  destruct (ra_init p h3) as ([] & h4 & E4 & U4 & _).
  exists p, h4. unfold wrapper. split_and!.
  - unfold wrap_value. step E1. step E2. step (on_rb_run (r_with_values (<[p := l]>)) h2). by step E4.
  - etrans; [exact S1|]. etrans; [exact S3|by apply undisturbed_smooth].
  - apply (sm_classes _ _ (undisturbed_smooth _ _ U4)), (sm_classes _ _ S3), (sm_classes _ _ S1), Hc.
  - by apply (ud_live U4).
  - rewrite (ud_wrappers U4) by done.
    change (rbk_values (rb_of h3)) with (<[p := l]> (rbk_values (rb_of h2))). apply lookup_insert_eq.
  - exists c. split; [by rewrite (ud_look U4)|]. rewrite (ud_classes U4).
    change (class_of_wrapper k (rb_of h3)) with (class_of_wrapper k (rb_of h2)). by rewrite (ud_classes U2).
Qed.

(** ** To Ruby *)

Definition is_ruby (c : class) : bool :=
  is_KRubyObject c || is_KRubyHash c || is_KRubyMethod c || is_KRubyList c.
(** An object of the kind that the type says, and not of Ruby. *)
Definition kroll_object (h : heap) (v : value) : Prop :=
  exists o c, objectValue v = Some o /\ class_of h o = Some c /\ is_ruby c = false /\
    match type v with METHOD => is_method_class c = true | LIST => is_list_class c = true | _ => True end.
Definition rb_portable (h : heap) (v : value) : Prop :=
  match type v with
  | BOOL => is_Some (boolValue v)
  | STRING => exists s, stringValue v = Some s /\ no_nul s
  | LIST | OBJECT | METHOD => kroll_object h v
  | _ => True
  end.

Definition kind_of_type (t : vtype) : wrapper_kind :=
  match t with METHOD => WMethod | LIST => WList | _ => WObject end.
(** What a value is in Ruby. *)
Definition in_ruby (v : value) (l : loc) (h : heap) (p : N) : Prop :=
  match type v with
  | LIST | OBJECT | METHOD => wrapper h (kind_of_type (type v)) p l
  | INT | DOUBLE => live (rbmem_of h) p /\ look (rbmem_of h) p = RFloat (numberValue v)
  | STRING => live (rbmem_of h) p /\ look (rbmem_of h) p = RString (default [] (stringValue v))
  | BOOL => p = if default false (boolValue v) then Qtrue Q else Qfalse Q
  | NULLV | UNDEFINED | VOIDPTR => p = Qnil Q
  end.

Lemma not_ruby_casts c :
  is_ruby c = false ->
  is_KRubyObject c = false /\ is_KRubyHash c = false /\ is_KRubyMethod c = false /\ is_KRubyList c = false.
Proof using Type. by destruct c. Qed.
Lemma cast_away P o x h :
  objs h !! o = Some x -> P (o_class x) = false -> dynamic_cast P (Some o) h = (Ret None, h).
Proof using Type. intros Hx HP. unfold dynamic_cast, geto, mbind, st_bind. rewrite Hx. simpl. by rewrite HP. Qed.

(** An object of the program becomes a wrapper. *)
Lemma ToRubyValue_object l v h :
  vals h !! l = Some v -> type v ∈ [OBJECT; METHOD; LIST] -> kroll_object h v ->
  ToRubyValue W V l h = wrap_value W V (kind_of_type (type v)) l h.
Proof using Type.
  intros Hl Hty (o & c & Ho & Hc & Hp & Hk). apply not_ruby_casts in Hp as (P1 & P2 & P3 & P4).
  unfold class_of in Hc. destruct (objs h !! o) as [x|] eqn:Hx; [|done]. injection Hc as Hc.
  unfold ToRubyValue. step (getv_run _ _ _ Hl).
  unfold IsBool, IsNumber, IsNull, IsUndefined, IsString, IsMethod, IsList, IsObject.
  set_unfold in Hty. destruct Hty as [Hty|[Hty|[Hty|[]]]]; rewrite Hty in *; types.
  - unfold ToObject. rewrite Ho.
    step (cast_away is_KRubyObject o x h Hx ltac:(congruence)).
    by step (cast_away is_KRubyHash o x h Hx ltac:(congruence)).
  - unfold ToMethod. rewrite Ho.
    step (dynamic_cast_run is_method_class o x h Hx ltac:(congruence)).
    by step (cast_away is_KRubyMethod o x h Hx ltac:(congruence)).
  - unfold ToList. rewrite Ho.
    step (dynamic_cast_run is_list_class o x h Hx ltac:(congruence)).
    by step (cast_away is_KRubyList o x h Hx ltac:(congruence)).
Qed.

Lemma ToRubyValue_run l v h :
  vals h !! l = Some v -> rb_portable h v -> classes_ok h ->
  exists p h', ToRubyValue W V l h = (Ret p, h') /\ in_ruby v l h' p /\ smooth h h'.
Proof.
  intros Hl Hp Hc. unfold in_ruby, rb_portable in *.
  assert (type v ∈ [OBJECT; METHOD; LIST] -> kroll_object h v -> exists p h',
    ToRubyValue W V l h = (Ret p, h') /\ wrapper h' (kind_of_type (type v)) p l /\ smooth h h') as Hobj.
  { intros Hty Hk. rewrite (ToRubyValue_object l v h Hl Hty Hk).
    destruct (wrap_value_run (kind_of_type (type v)) l h Hc) as (p & h' & E & S & Hw). by exists p, h'. }
  unfold ToRubyValue in *. pose proof (getv_run _ _ _ Hl) as Eg.
  unfold IsBool, IsNumber, IsNull, IsUndefined, IsString, IsMethod, IsList, IsObject in *.
  destruct (type v) eqn:Ety; try (apply Hobj; [set_solver|done]).
  - destruct (ra_float_new (numberValue v) h) as (p & h' & E & U & _ & Hlp & Hx).
    exists p, h'. split_and!; [|done|done|by apply undisturbed_smooth]. step Eg. rewrite Ety. types. exact E.
  - destruct (ra_float_new (numberValue v) h) as (p & h' & E & U & _ & Hlp & Hx).
    exists p, h'. split_and!; [|done|done|by apply undisturbed_smooth]. step Eg. rewrite Ety. types. exact E.
  - destruct Hp as [b Hb]. eexists _, h. split_and!; [|done|reflexivity].
    step Eg. rewrite Ety. types. unfold ToBool. rewrite Hb. by step (eq_refl : some_or_undef (Some b) h = (Ret b, h)).
  - destruct Hp as (s & Hs & Hn). destruct (ra_str_new s h Hn) as (p & h' & E & U & _ & Hlp & Hx).
    exists p, h'. rewrite Hs. split_and!; [|done|done|by apply undisturbed_smooth].
    step Eg. rewrite Ety. types. unfold ToString. rewrite Hs.
    step (eq_refl : some_or_undef (Some s) h = (Ret s, h)). by rewrite (c_str_id s Hn).
  - eexists _, h. split_and!; [|done|reflexivity]. step Eg. rewrite Ety. by types.
  - eexists _, h. split_and!; [|done|reflexivity]. step Eg. rewrite Ety. by types.
  - eexists _, h. split_and!; [|done|reflexivity]. step Eg. rewrite Ety. by types.
Qed.

(** ** And back *)

(** A wrapper is not of the class of another kind. *)
Lemma wrapper_kinds h k p l c k' c' :
  wrapper h k p l -> look (rbmem_of h) p = RData c -> class_of_wrapper k' (rb_of h) = Some c' ->
  kind_of Q (rbmem_of h) p c' = bool_decide (wrapper_class_name k' = wrapper_class_name k).
Proof.
  intros (Hc & Hl & _ & c0 & Hx & Hk) Hx' Hk'. rewrite Hx in Hx'. injection Hx' as ->.
  rewrite (ra_kind _ _ _ _ Hl Hx). destruct (Hc k c Hk) as (_ & E1 & Hs & Ha).
  destruct (Hc k' c' Hk') as (_ & E2 & _).
  apply bool_decide_ext. split.
  - intros Hin. destruct (Ha c' Hin) as [_ Hn]. destruct (Hn _ E2) as [->|Ho]; [congruence|].
    destruct k'; vm_compute in Ho; done.
  - intros En. assert (k' = k) as -> by (by destruct k', k). congruence.
Qed.

(** The step of a wrapper through [data_to_kroll]. *)
Definition unwrapped (k : wrapper_kind) (p : N) : M loc :=
  l ← wrapped_value p; v ← getv l;
  match k with
  | WObject => NewObject (ToObject v)
  | WMethod => o ← ToMethod v; NewMethod o
  | WList => o ← ToList v; NewList o
  end.
Lemma RbToKrollValue_wrapper h k p l :
  wrapper h k p l -> RbToKrollValue W V p h = unwrapped k p h.
Proof.
  intros Hw. pose proof Hw as (Hc & Hl & _ & c & Hx & Hk).
  unfold RbToKrollValue. step (eq_refl : gets rbmem_of h = (Ret (rbmem_of h), h)).
  rewrite ra_type, Hx by done. unfold type_of, data_to_kroll.
  step (eq_refl : gets (fun h => s_rb (sys h)) h = (Ret (rb_of h), h)).
  assert (forall k', match class_of_wrapper k' (rb_of h) with
                     | Some c' => kind_of Q (rbmem_of h) p c' | None => false end =
                     bool_decide (wrapper_class_name k' = wrapper_class_name k)) as Hkinds.
  { intros k'. destruct (class_of_wrapper k' (rb_of h)) as [c'|] eqn:E.
    - by eapply wrapper_kinds.
    - symmetry. apply bool_decide_eq_false_2. intros En.
      assert (k' = k) as -> by (by destruct k', k). congruence. }
  cbv zeta. rewrite !Hkinds. by destruct k.
Qed.

(** What a value is after both conversions. *)
Definition rb_carried (v : value) (l' : loc) (h : heap) : Prop :=
  match type v with
  | INT | DOUBLE => exists w, vals h !! l' = Some w /\ type w = DOUBLE /\ numberValue w = numberValue v
  | BOOL => exists w, vals h !! l' = Some w /\ type w = BOOL /\ boolValue w = boolValue v
  | STRING => exists w, vals h !! l' = Some w /\ type w = STRING /\ stringValue w = stringValue v
  | LIST | OBJECT | METHOD =>
      exists w, vals h !! l' = Some w /\ type w = type v /\ objectValue w = objectValue v
  | NULLV | UNDEFINED | VOIDPTR => l' = Null
  end.

(** The conversion gives a new value [w], or leaves all values as they are. *)
Definition gives (p : N) (h : heap) (P : loc -> heap -> Prop) : Prop :=
  exists l' h', RbToKrollValue W V p h = (Ret l', h') /\ P l' h' /\
    forall k, k <> next h -> vals h' !! k = vals h !! k.
Lemma rb_gives_new p h P (g : value -> value) :
  RbToKrollValue W V p h = new_with (fun l => update_value l g) h ->
  (forall l' h', vals h' !! l' = Some (g new_value) -> P l' h') -> gives p h P.
Proof using Type.
  intros E HP. exists (next h), (with_fresh (g new_value) h).
  rewrite E, new_with_run. split_and!; [done|apply HP, lookup_insert_eq|].
  intros k Hk. by apply lookup_insert_ne.
Qed.

(** The test of the type of an object. *)
Lemma RbToKrollValue_start p x h :
  live (rbmem_of h) p -> look (rbmem_of h) p = x ->
  RbToKrollValue W V p h =
  (match type_of x with
   | T_NIL => mret Null
   | T_FIXNUM | T_BIGNUM | T_FLOAT => NewDouble (NUM2DBL Q (rbmem_of h) p)
   | T_TRUE => NewBool true
   | T_FALSE => NewBool false
   | T_STRING => s ← rtext W p; NewString s
   | T_OBJECT | T_STRUCT => o ← new_KRubyObject W V p; NewObject (Some o)
   | T_HASH => o ← new_KRubyHash W V p; NewObject (Some o)
   | T_ARRAY => o ← new_KRubyList W V p; NewList (Some o)
   | T_DATA => data_to_kroll W V (rbmem_of h) p
   | T_OTHER => mret Undefined
   end) h.
Proof.
  intros Hl Hx. unfold RbToKrollValue. step (eq_refl : gets rbmem_of h = (Ret (rbmem_of h), h)).
  by rewrite ra_type, Hx.
Qed.

Lemma back_from_wrapper v l h p :
  vals h !! l = Some v -> kroll_object h v -> wrapper h (kind_of_type (type v)) p l ->
  type v ∈ [OBJECT; METHOD; LIST] ->
  gives p h (fun l' h' => exists w, vals h' !! l' = Some w /\ type w = type v /\ objectValue w = objectValue v).
Proof.
  intros Hl (o & c & Ho & Hc & _ & Hk) Hw Hty.
  unfold class_of in Hc. destruct (objs h !! o) as [x|] eqn:Hx; [|done]. injection Hc as Hc.
  pose proof Hw as (_ & _ & Hwr & _). pose proof (RbToKrollValue_wrapper _ _ _ _ Hw) as E.
  unfold unwrapped in E.
  assert (forall m : value -> M loc, (l0 ← wrapped_value p; v0 ← getv l0; m v0) h = m v h) as Em.
  { intros m. step (wrapped_value_run _ _ _ Hwr). by step (getv_run _ _ _ Hl). }
  apply (rb_gives_new _ _ _ (fun v0 => set_object (type v) (Some o) (reset v0)));
    [|intros l' h' Hl'; eexists; split_and!; [exact Hl'|done|done]].
  rewrite E. etrans; [apply Em|]. clear E Em Hw. cbv beta. set_unfold in Hty.
  destruct Hty as [Hty|[Hty|[Hty|[]]]]; rewrite Hty in *; cbn [kind_of_type].
  - unfold ToObject. by rewrite Ho.
  - unfold ToMethod. rewrite Ho. by step (dynamic_cast_run is_method_class o x h Hx ltac:(congruence)).
  - unfold ToList. rewrite Ho. by step (dynamic_cast_run is_list_class o x h Hx ltac:(congruence)).
Qed.

Lemma back v l h p :
  vals h !! l = Some v -> rb_portable h v -> in_ruby v l h p ->
  gives p h (fun l' h' => rb_carried v l' h').
Proof.
  intros Hl Hp Hin. unfold in_ruby, rb_portable, rb_carried in *.
  assert (p = Qnil Q -> gives p h (fun l' _ => l' = Null)) as Hnil.
  { intros ->. destruct (ra_nil (rbmem_of h)) as [Hln Hxn].
    exists Null, h. split_and!; [|done|done]. by rewrite (RbToKrollValue_start _ _ _ Hln Hxn). }
  pose proof (back_from_wrapper v l h p Hl) as Hobj.
  destruct (type v) eqn:Ety; try (by apply Hnil); try (apply Hobj; [done|done|set_solver]).
  - destruct Hin as [Hlp Hx]. eapply (rb_gives_new _ _ _ (fun v0 => set_number DOUBLE (numberValue v) (reset v0)));
      [|intros l' h' Hl'; eexists; split_and!; [exact Hl'|done|done]].
    rewrite (RbToKrollValue_start _ _ _ Hlp Hx). cbn [type_of]. by rewrite (ra_float _ _ _ Hlp Hx).
  - destruct Hin as [Hlp Hx]. eapply (rb_gives_new _ _ _ (fun v0 => set_number DOUBLE (numberValue v) (reset v0)));
      [|intros l' h' Hl'; eexists; split_and!; [exact Hl'|done|done]].
    rewrite (RbToKrollValue_start _ _ _ Hlp Hx). cbn [type_of]. by rewrite (ra_float _ _ _ Hlp Hx).
  - destruct Hp as [b Hb]. rewrite Hb in *. cbn [default id] in Hin. subst p.
    apply (rb_gives_new _ _ _ (fun v0 => set_bool b (reset v0)));
      [|intros l' h' Hl'; eexists; split_and!; [exact Hl'|done|done]].
    destruct (ra_true (rbmem_of h)) as [Hlt Hxt], (ra_false (rbmem_of h)) as [Hlf Hxf].
    destruct b; [by rewrite (RbToKrollValue_start _ _ _ Hlt Hxt)|by rewrite (RbToKrollValue_start _ _ _ Hlf Hxf)].
  - destruct Hp as (s & Hs & Hn). destruct Hin as [Hlp Hx]. rewrite Hs in *. cbn [default id] in Hx.
    apply (rb_gives_new _ _ _ (fun v0 => set_string (c_str s) (reset v0)));
      [|intros l' h' Hl'; eexists; split_and!; [exact Hl'|done|simpl; by rewrite c_str_id]].
    rewrite (RbToKrollValue_start _ _ _ Hlp Hx). cbn [type_of]. unfold rtext.
    step (askr_run (fun m => c_str (string_text Q m p)) h).
    rewrite (ra_string _ _ _ Hlp Hx). by rewrite (c_str_id s Hn) at 1.
Qed.

Lemma ruby_value_back l v h :
  fresh_ok h -> vals h !! l = Some v -> rb_portable h v -> classes_ok h ->
  exists p h1 l' h2, ToRubyValue W V l h = (Ret p, h1) /\ RbToKrollValue W V p h1 = (Ret l', h2) /\
    in_ruby v l h1 p /\ rb_carried v l' h2 /\ forall k w, vals h !! k = Some w -> vals h2 !! k = Some w.
Proof.
  intros Hf Hl Hp Hc. destruct (ToRubyValue_run l v h Hl Hp Hc) as (p & h1 & E1 & Hin & S).
  assert (vals h1 !! l = Some v) as Hl1 by (by rewrite (sm_vals _ _ S)).
  assert (rb_portable h1 v) as Hp1.
  { unfold rb_portable, kroll_object, class_of in *. by rewrite (sm_objs _ _ S). }
  destruct (back v l h1 p Hl1 Hp1 Hin) as (l' & h2 & E2 & Hcar & Hk).
  exists p, h1, l', h2. split; [done|]. split; [done|]. split; [done|]. split; [done|]. intros k w Hw. rewrite Hk; [by rewrite (sm_vals _ _ S)|].
  rewrite (sm_next _ _ S). pose proof (lookup_lt_next h k w Hf Hw). lia.
Qed.

(** ** Objects of Ruby *)

(** What Ruby objects that are not from the program are; data of the
    interpreter is of no kind of a class of the wrappers. *)
Definition ruby_kind (h : heap) (x : rbval) : Prop :=
  match x with
  | RObject | RStruct | RHash | RArray => True
  | RData c => forall k c', class_of_wrapper k (rb_of h) = Some c' -> c' ∉ ancestors (rbmem_of h) c
  | _ => False
  end.
(** An instance of Method, of Proc, or of a class that is derived from them. *)
Definition callable (m : rbmem) (c : N) : Prop :=
  class_value Q rb_cMethod ∈ ancestors m c \/ class_value Q rb_cProc ∈ ancestors m c.

(** The proxies of an object. *)
Definition at_address (h : heap) (k : loc) (c : class) : Prop := class_of h k = Some c.
Inductive ruby_proxy (h : heap) (p : N) : class -> Prop :=
  | proxy_KRubyObject : ruby_proxy h p (KRubyObject p)
  | proxy_KRubyHash k : at_address h k (KRubyObject p) -> ruby_proxy h p (KRubyHash p k)
  | proxy_KRubyMethod k : at_address h k (KRubyObject p) -> ruby_proxy h p (KRubyMethod p (Qnil Q) k)
  | proxy_KRubyList k : at_address h k (KRubyObject p) -> ruby_proxy h p (KRubyList p k).
Definition ruby_proxy_type (c : class) : vtype :=
  match c with KRubyMethod _ _ _ => METHOD | KRubyList _ _ => LIST | _ => OBJECT end.
(** The class that the kind of object asks for. *)
Definition fits (m : rbmem) (x : rbval) (c : class) : Prop :=
  match x, c with
  | (RObject | RStruct), KRubyObject _ | RHash, KRubyHash _ _ | RArray, KRubyList _ _ => True
  | RData k, KRubyMethod _ _ _ => callable m k
  | RData k, KRubyObject _ => ~ callable m k
  | _, _ => False
  end.

(** A new object [o] of the class [c], and nothing else. *)
Definition adds (h h' : heap) (o : loc) (c : class) : Prop :=
  class_of h' o = Some c /\ (next h <= o < next h')%N /\
  (forall k, (k < next h)%N -> objs h' !! k = objs h !! k) /\ vals h' = vals h /\
  (forall k, class_of_wrapper k (rb_of h') = class_of_wrapper k (rb_of h)) /\
  (forall k, known_class (rbmem_of h) k -> ancestors (rbmem_of h') k = ancestors (rbmem_of h) k) /\
  forall q, live (rbmem_of h) q -> live (rbmem_of h') q /\ look (rbmem_of h') q = look (rbmem_of h) q /\
    rbk_values (rb_of h') !! q = rbk_values (rb_of h) !! q.

Lemma new_ruby_proxy_run ty c p h :
  exists h', (o ← new_object ty c; call (rb_gc_register_address p);; mret o) h = (Ret (next h), h') /\
    adds h h' (next h) c.
Proof.
  set (h0 := with_object ty c h). destruct (ra_register p h0) as ([] & h' & E & U & _).
  exists h'. split; [step (new_object_run ty c h); by step E|]. split_and!.
  - unfold class_of. rewrite (ud_objs U). simpl. by rewrite lookup_insert_eq.
  - lia.
  - rewrite (ud_next U). simpl. lia.
  - intros k Hk. rewrite (ud_objs U). simpl. rewrite lookup_insert_ne; [done|lia].
  - by rewrite (ud_vals U).
  - apply (ud_classes U).
  - apply (ud_ancestors U).
  - intros q Hq. split_and!; [by apply (ud_live U)|by rewrite (ud_look U)|by rewrite (ud_wrappers U)].
Qed.

Lemma new_KRubyObject_run p h :
  exists h', new_KRubyObject W V p h = (Ret (next h), h') /\ adds h h' (next h) (KRubyObject p).
Proof. apply new_ruby_proxy_run. Qed.
Lemma new_ruby_pair_run ty (C : loc -> class) p h :
  exists k o h', (k ← new_KRubyObject W V p; o ← new_object ty (C k);
                  call (rb_gc_register_address p);; mret o) h = (Ret o, h') /\
    adds h h' o (C k) /\ at_address h' k (KRubyObject p).
Proof.
  destruct (new_KRubyObject_run p h) as (h1 & E1 & Hc1 & Hn1 & Ho1 & Hv1 & Hk1 & Ha1 & Hl1).
  destruct (new_ruby_proxy_run ty (C (next h)) p h1) as (h2 & E2 & Hc2 & Hn2 & Ho2 & Hv2 & Hk2 & Ha2 & Hl2).
  exists (next h), (next h1), h2. split_and!; [step E1; exact E2|split_and!; [done|lia|lia| |congruence|congruence| |]|].
  - intros k Hk. rewrite Ho2 by lia. by apply Ho1.
  - intros k Hk. rewrite Ha2, Ha1; [done|done|]. destruct Hk as [Hl|(q & Hl & Hx)]; [left; by apply Hl1|].
    right. exists q. destruct (Hl1 q Hl) as (? & -> & _). done.
  - intros q Hq. destruct (Hl1 q Hq) as (Hq1 & Hx1 & Hw1). destruct (Hl2 q Hq1) as (Hq2 & Hx2 & Hw2).
    split_and!; [done|congruence|congruence].
  - unfold at_address, class_of. rewrite Ho2 by lia. exact Hc1.
Qed.

(** [m] makes a proxy of [p] that fits [x]. *)
Definition makes_proxy (x : rbval) (ty : vtype) (m : M loc) (p : N) (h : heap) : Prop :=
  exists o c h', m h = (Ret o, h') /\ adds h h' o c /\ ruby_proxy h' p c /\ fits (rbmem_of h) x c /\
    ruby_proxy_type c = ty.

Lemma KRubyObject_proxy x p h :
  fits (rbmem_of h) x (KRubyObject p) -> makes_proxy x OBJECT (new_KRubyObject W V p) p h.
Proof.
  intros Hx. destruct (new_KRubyObject_run p h) as (h' & E & Ha).
  exists (next h), (KRubyObject p), h'. split_and!; [done..|constructor|done|done].
Qed.
Lemma pair_proxy x ty ty' (C : loc -> class) p h :
  (forall h' k, at_address h' k (KRubyObject p) -> ruby_proxy h' p (C k)) ->
  (forall k, fits (rbmem_of h) x (C k) /\ ruby_proxy_type (C k) = ty') ->
  makes_proxy x ty' (k ← new_KRubyObject W V p; o ← new_object ty (C k);
                     call (rb_gc_register_address p);; mret o) p h.
Proof.
  intros HC Hf. destruct (new_ruby_pair_run ty C p h) as (k & o & h' & E & Ha & Hk).
  exists o, (C k), h'. split_and!; [done|done|by apply HC|apply Hf|apply Hf].
Qed.

(** What [data_to_kroll] does with data that are no wrapper. *)
Lemma data_to_kroll_other p c h :
  live (rbmem_of h) p -> look (rbmem_of h) p = RData c ->
  ruby_kind h (RData c) ->
  data_to_kroll W V (rbmem_of h) p h =
  (if bool_decide (class_value Q rb_cMethod ∈ ancestors (rbmem_of h) c)
      || bool_decide (class_value Q rb_cProc ∈ ancestors (rbmem_of h) c)
   then o ← new_KRubyMethod W V p; NewMethod (Some o)
   else o ← new_KRubyObject W V p; NewObject (Some o)) h.
Proof.
  intros Hl Hx Hk. unfold data_to_kroll.
  step (eq_refl : gets (fun h => s_rb (sys h)) h = (Ret (rb_of h), h)).
  assert (forall k, match class_of_wrapper k (rb_of h) with
                    | Some c' => kind_of Q (rbmem_of h) p c' | None => false end = false) as Hno.
  { intros k. specialize (Hk k). destruct (class_of_wrapper k (rb_of h)) as [c'|]; [|done].
    rewrite (ra_kind _ _ _ _ Hl Hx). by apply bool_decide_eq_false_2, Hk. }
  cbv zeta. rewrite !Hno. by rewrite !(ra_kind _ _ _ _ Hl Hx).
Qed.

Lemma RbToKrollValue_proxy p x h :
  live (rbmem_of h) p -> look (rbmem_of h) p = x -> ruby_kind h x ->
  exists ty m, RbToKrollValue W V p h = (o ← m; new_with (fun l => update_value l (fun v =>
      set_object ty (Some o) (reset v)))) h /\ makes_proxy x ty m p h.
Proof.
  intros Hl Hx Hk. rewrite (RbToKrollValue_start _ _ _ Hl Hx).
  destruct x as [| | | | | | | | | |c| | |]; try done; cbn [type_of].
  - exists OBJECT. eexists. split; [reflexivity|by apply KRubyObject_proxy].
  - exists OBJECT. eexists. split; [reflexivity|by apply KRubyObject_proxy].
  - exists OBJECT. eexists. split; [reflexivity|]. apply pair_proxy; [by constructor|done].
  - exists LIST. eexists. split; [reflexivity|]. apply pair_proxy; [by constructor|done].
  - rewrite (data_to_kroll_other _ c) by done.
    destruct (bool_decide (class_value Q rb_cMethod ∈ ancestors (rbmem_of h) c)
      || bool_decide (class_value Q rb_cProc ∈ ancestors (rbmem_of h) c)) eqn:E.
    + exists METHOD. eexists. split; [reflexivity|]. apply (pair_proxy _ (lit "KMethod") METHOD (KRubyMethod p (Qnil Q)));
        [by constructor|]. intros k. split; [|done].
      apply orb_true_iff in E as [E%bool_decide_eq_true|E%bool_decide_eq_true]; [by left|by right].
    + exists OBJECT. eexists. split; [reflexivity|]. apply KRubyObject_proxy.
      apply orb_false_iff in E as [E1%bool_decide_eq_false E2%bool_decide_eq_false]. by intros [].
Qed.

(** A proxy goes back as its object. *)
Lemma ToRubyValue_proxy l v o c p h :
  vals h !! l = Some v -> type v = ruby_proxy_type c -> objectValue v = Some o ->
  class_of h o = Some c -> ruby_proxy h p c -> ToRubyValue W V l h = (Ret p, h).
Proof using Type.
  intros Hl Hty Ho Hc Hp. unfold class_of in Hc. destruct (objs h !! o) as [x|] eqn:Hx; [|done].
  injection Hc as Hc.
  assert (forall k, at_address h k (KRubyObject p) -> KRubyObject_ToRuby k h = (Ret p, h)) as Hk.
  { intros k Hk. unfold at_address, class_of in Hk. destruct (objs h !! k) as [y|] eqn:Hy; [|done].
    injection Hk as Hk. unfold KRubyObject_ToRuby, geto, mbind, st_bind. by rewrite Hy, Hk. }
  assert (geto o h = (Ret x, h)) as Eg by (unfold geto; by rewrite Hx).
  unfold ToRubyValue. step (getv_run _ _ _ Hl).
  unfold IsBool, IsNumber, IsNull, IsUndefined, IsString, IsMethod, IsList, IsObject, ToObject, ToMethod, ToList.
  rewrite Hty, Ho. unfold Kruby_ToRuby, kruby_object_of.
  destruct Hp as [|k Ha|k Ha|k Ha]; cbn [ruby_proxy_type]; types.
  - step (dynamic_cast_run is_KRubyObject o x h Hx ltac:(by rewrite Hc)).
    step (cast_away is_KRubyHash o x h Hx ltac:(by rewrite Hc)).
    unfold KRubyObject_ToRuby. step Eg. by rewrite Hc.
  - step (cast_away is_KRubyObject o x h Hx ltac:(by rewrite Hc)).
    step (dynamic_cast_run is_KRubyHash o x h Hx ltac:(by rewrite Hc)).
    rewrite st_bind_assoc. step Eg. rewrite Hc. by apply Hk.
  - step (dynamic_cast_run is_method_class o x h Hx ltac:(by rewrite Hc)).
    step (dynamic_cast_run is_KRubyMethod o x h Hx ltac:(by rewrite Hc)).
    rewrite st_bind_assoc. step Eg. rewrite Hc. by apply Hk.
  - step (dynamic_cast_run is_list_class o x h Hx ltac:(by rewrite Hc)).
    step (dynamic_cast_run is_KRubyList o x h Hx ltac:(by rewrite Hc)).
    rewrite st_bind_assoc. step Eg. rewrite Hc. by apply Hk.
Qed.

(** [v] is a proxy of the Ruby object [p]. *)
Definition proxied (h : heap) (v : value) (p : N) : Prop :=
  exists o c, type v = ruby_proxy_type c /\ objectValue v = Some o /\ class_of h o = Some c /\ ruby_proxy h p c.
Lemma portable_not_proxied h v p : rb_portable h v -> proxied h v p -> False.
Proof using Type.
  unfold rb_portable. intros Hp (o & c & Hty & Ho & Hc & Hpr).
  assert (kroll_object h v) as (o' & c' & Ho' & Hc' & Hn & _) by (rewrite Hty in Hp; by destruct Hpr).
  assert (c' = c) as -> by congruence. by destruct Hpr.
Qed.

(** The new value for a proxy. *)
Lemma to_ruby_proxy_run p h :
  live (rbmem_of h) p -> ruby_kind h (look (rbmem_of h) p) ->
  exists l h1 v o c, RbToKrollValue W V p h = (Ret l, h1) /\ vals h1 !! l = Some v /\
    type v = ruby_proxy_type c /\ objectValue v = Some o /\ class_of h1 o = Some c /\ ruby_proxy h1 p c /\
    fits (rbmem_of h) (look (rbmem_of h) p) c /\
    forall k w, (k < next h)%N -> vals h !! k = Some w -> vals h1 !! k = Some w.
Proof.
  intros Hl Hk. destruct (RbToKrollValue_proxy p _ h Hl eq_refl Hk)
    as (ty & m & E & o & c & h1 & E1 & (Hc & Hn & _ & Hv1 & _) & Hp & Hft & Hty).
  set (v := set_object ty (Some o) (reset new_value)).
  exists (next h1), (with_fresh v h1), v, o, c. split_and!; try done.
  - rewrite E. step E1. by rewrite new_with_run.
  - apply lookup_insert_eq.
  - by destruct Hp; constructor.
  - intros k w Hlt Hw. simpl. rewrite lookup_insert_ne; [by rewrite Hv1|lia].
Qed.

(** C18: what goes to Ruby comes back. A value that [ToRubyValue] turns into an
    object of Ruby that fits (a float, a truth value, a text, [nil], or a wrapper
    of the class for objects, methods or lists that holds the value) and [ToKrollValue] turns back is a new value: a double of
    the same number (an int too), the same truth value or text (of any bytes but
    NUL), or the same object, method or list; for a proxy of a Ruby object it is
    a new proxy of that object; null, undefined and void pointers come back as
    null. No value that there was changes. *)
Theorem ruby_value_roundtrip l v h :
  fresh_ok h -> vals h !! l = Some v -> classes_ok h ->
  rb_portable h v \/
    (exists p, proxied h v p /\ live (rbmem_of h) p /\ ruby_kind h (look (rbmem_of h) p)) ->
  exists p h1 l' h2, ToRubyValue W V l h = (Ret p, h1) /\ RbToKrollValue W V p h1 = (Ret l', h2) /\
    (rb_portable h v -> in_ruby v l h1 p /\ rb_carried v l' h2) /\
    (forall p', proxied h v p' -> p' = p /\ exists w, vals h2 !! l' = Some w /\ proxied h2 w p) /\
    forall k w, vals h !! k = Some w -> vals h2 !! k = Some w.
Proof.
  intros Hf Hl Hc [Hp|(p & Hp & Hlp & Hk)].
  - destruct (ruby_value_back l v h Hf Hl Hp Hc) as (p & h1 & l' & h2 & E1 & E2 & Hin & Hcar & Hkept).
    exists p, h1, l', h2. split; [done|]. split; [done|]. split; [done|]. split; [|done]. intros p' Hp'. by destruct (portable_not_proxied h v p').
  - pose proof Hp as (o & c & Hty & Ho & Hco & Hpr).
    destruct (to_ruby_proxy_run p h Hlp Hk) as (l' & h2 & w & o' & c' & E2 & Hw & Hty' & Ho' & Hc' & Hp' & _ & Hkept).
    exists p, h, l', h2. split_and!; [by apply (ToRubyValue_proxy l v o c)|done| | |].
    + intros Hpo. by destruct (portable_not_proxied h v p).
    + intros q (oq & cq & _ & Hoq & Hcq & Hq). split; [|exists w; split; [done|by exists o', c']].
      assert (cq = c) as -> by congruence. by destruct Hpr; inversion Hq.
    + intros k x Hx. apply Hkept; [by eapply lookup_lt_next|done].
Qed.

(** C19: an object of Ruby that is not from the program comes to the program as
    a proxy of the class that fits: an object or a struct, and data but methods
    and procs, as a KRubyObject, a hash as a KRubyHash, an array as a KRubyList,
    data of the kind of Method or Proc (or of a class derived from them) as a
    KRubyMethod. It goes back to Ruby as the very same object. *)
Theorem ruby_object_roundtrip p h :
  live (rbmem_of h) p -> ruby_kind h (look (rbmem_of h) p) ->
  exists l h1 v o c, RbToKrollValue W V p h = (Ret l, h1) /\
    vals h1 !! l = Some v /\ type v = ruby_proxy_type c /\ objectValue v = Some o /\
    class_of h1 o = Some c /\ ruby_proxy h1 p c /\ fits (rbmem_of h) (look (rbmem_of h) p) c /\
    ToRubyValue W V l h1 = (Ret p, h1).
Proof.
  intros Hl Hk.
  destruct (to_ruby_proxy_run p h Hl Hk) as (l & h1 & v & o & c & E & Hv & Hty & Ho & Hc & Hp & Hft & _).
  exists l, h1, v, o, c. split_and!; try done. by eapply (ToRubyValue_proxy l v o c).
Qed.
End Border.

(** ** Witnesses *)
Definition demo_ruby_ops : VOps := vt SmallRuby.world 5.
(** The value at 3 is the object of the application. *)
Definition demo_ruby_value : value := set_object OBJECT (Some 2%N) (reset new_value).
Definition demo_ruby_heap : heap := with_fresh demo_ruby_value demo_heap.

Lemma no_classes_ok h :
  (forall k, class_of_wrapper k (rb_of h) = None) -> classes_ok SmallRuby.live SmallRuby.look SmallRuby.ancestors h.
Proof. intros Hn k c Hk. by rewrite Hn in Hk. Qed.

Lemma demo_ruby_portable : rb_portable demo_ruby_heap demo_ruby_value.
Proof. exists 2%N, StaticBoundObject. split_and!; [reflexivity|vm_compute; reflexivity|reflexivity|exact I]. Qed.

Lemma ruby_value_roundtrip_witness :
  exists p h1 l' h2 w, ToRubyValue SmallRuby.world demo_ruby_ops 3%N demo_ruby_heap = (Ret p, h1) /\
    RbToKrollValue SmallRuby.world demo_ruby_ops p h1 = (Ret l', h2) /\
    vals h2 !! l' = Some w /\ objectValue w = Some 2%N.
Proof.
  destruct (ruby_value_roundtrip SmallRuby.world demo_ruby_ops SmallRuby.live SmallRuby.look SmallRuby.ancestors
    (SmallRuby.api _) 3%N demo_ruby_value demo_ruby_heap) as (p & h1 & l' & h2 & E1 & E2 & Hc & _).
  - apply fresh_check_ok. vm_compute. reflexivity.
  - vm_compute. reflexivity.
  - apply no_classes_ok. intros []; vm_compute; reflexivity.
  - left. exact demo_ruby_portable.
  - destruct (Hc demo_ruby_portable) as (_ & w & Hw & _ & Ho). exists p, h1, l', h2, w.
    split; [exact E1|split; [exact E2|split; [exact Hw|exact Ho]]].
Defined.

(** An array of Ruby at 9. *)
Definition demo_array_heap : heap := SmallRuby.set_memory (fun _ => {[9%N := [5%N]]}) demo_heap.
Lemma ruby_object_roundtrip_witness :
  exists l h1, RbToKrollValue SmallRuby.world demo_ruby_ops 9%N demo_array_heap = (Ret l, h1) /\
    ToRubyValue SmallRuby.world demo_ruby_ops l h1 = (Ret 9%N, h1).
Proof.
  destruct (ruby_object_roundtrip SmallRuby.world demo_ruby_ops SmallRuby.live SmallRuby.look SmallRuby.ancestors
    (SmallRuby.api _) 9%N demo_array_heap) as (l & h1 & v & o & c & E1 & _ & _ & _ & _ & _ & _ & E2).
  - right. exists [5%N]. vm_compute. reflexivity.
  - exact I.
  - exists l, h1. split; [exact E1|exact E2].
Defined.
