(* ===== verification/RubyCallLaws.v ===== *)
(** * RubyCallLaws: properties through Ruby, and the contexts of the windows

    Ruby uses an object of the program through [method_missing]: what
    [obj.name = x] sets is what [obj.name] gives. Each window has the name of
    its context from a counter of the evaluator. *)

From S2P Require Import Prelude CppString Double System Heap RubyCore Virtual KObject StaticBound.
From S2P Require Import StaticLaws ValueLaws Namespace Ruby RubyInterpreter RubyEvaluator Dispatch.
From S2P Require Import DispatchLaws ScriptLaws RubyLaws.
From stdpp Require Import options.

Section Properties.
Context (W : World) (V : VOps) (live : rbmem -> N -> Prop) (look : rbmem -> N -> rbval).
Context (ancestors : rbmem -> N -> list N) (HA : RubyAPI W V live look ancestors) {HD : StaticDispatch V}.
#[local] Set Default Proof Using "Type*".
#[local] Abbreviation Q := (rbq W).
#[local] Abbreviation undisturbed := (undisturbed live look ancestors).
#[local] Abbreviation ruby_kind := (ruby_kind ancestors).

(** [self] is a wrapper of the object [obj], [s] the symbol [name]. *)
Definition wraps (h : heap) (self : N) (obj : loc) : Prop :=
  exists l v, live (rbmem_of h) self /\ rbk_values (rb_of h) !! self = Some l /\
    vals h !! l = Some v /\ ToObject v = Some obj.
Definition symbol (h : heap) (s : N) (name : str) : Prop :=
  live (rbmem_of h) s /\ look (rbmem_of h) s = RSymbol name.
(** A Ruby object that is a value and no method or proc. *)
Definition plain_data (m : rbmem) (x : rbval) : Prop := forall c, x = RData c -> ~ callable W ancestors m c.

(** What a step keeps of the values, objects and wrappers that there are. *)
Record grows (h h' : heap) : Prop := {
  gr_vals l v : vals h !! l = Some v -> vals h' !! l = Some v;
  gr_class o c : class_of h o = Some c -> class_of h' o = Some c;
  gr_ruby q : live (rbmem_of h) q -> live (rbmem_of h') q /\ look (rbmem_of h') q = look (rbmem_of h) q /\
    rbk_values (rb_of h') !! q = rbk_values (rb_of h) !! q
}.
#[local] Instance grows_preorder : PreOrder grows.
Proof using Type.
  split; [done|]. intros h1 h2 h3 [] []. split; auto. intros q Hq.
  destruct (gr_ruby0 q Hq) as (Hq1 & E1 & F1). destruct (gr_ruby1 q Hq1) as (Hq2 & E2 & F2).
  split_and!; congruence.
Qed.
Lemma undisturbed_grows h h' : undisturbed h h' -> grows h h'.
Proof using Type.
  intros U. split.
  - intros l v. by rewrite (ud_vals U).
  - intros o c. unfold class_of. by rewrite (ud_objs U).
  - intros q Hq. split_and!; [by apply (ud_live U)|by apply (ud_look U)|by apply (ud_wrappers U)].
Qed.
Lemma with_fresh_grows v h : vals h !! next h = None -> grows h (with_fresh v h).
Proof using Type.
  intros Hn. split; [|done|done]. intros l w Hl. simpl. rewrite lookup_insert_ne; [done|congruence].
Qed.
Lemma with_properties_grows o m h : grows h (with_properties o m h).
Proof using Type. split; [done| |done]. intros o' c. by rewrite class_of_with_properties. Qed.
Lemma adds_grows h h' o c : fresh_ok h -> adds live look ancestors h h' o c -> grows h h'.
Proof using Type.
  intros Hf (_ & _ & Ho & Hv & _ & _ & Hq). split; [by rewrite Hv| |done].
  intros k c' Hc. assert (k < next h)%N as Hk.
  { apply (object_lt_next _ _ Hf). unfold class_of in Hc. by destruct (objs h !! k). }
  unfold class_of. by rewrite (Ho k Hk).
Qed.

Definition vals_above (h : heap) : Prop := forall k, (next h <= k)%N -> vals h !! k = None.
Lemma with_fresh_vals v h : vals_above h -> vals_above (with_fresh v h).
Proof using Type. intros Hf k. simpl. intros Hk. rewrite lookup_insert_ne by lia. apply Hf. lia. Qed.

Lemma grows_wraps h h' self obj : grows h h' -> wraps h self obj -> wraps h' self obj.
Proof using Type.
  intros G (l & v & Hl & Hw & Hv & Ho). destruct (gr_ruby _ _ G self Hl) as (Hl' & _ & Hw').
  exists l, v. split_and!; [done|congruence|by apply (gr_vals _ _ G)|done].
Qed.
Lemma grows_symbol h h' s name : grows h h' -> symbol h s name -> symbol h' s name.
Proof using Type. intros G [Hl Hx]. destruct (gr_ruby _ _ G s Hl) as (Hl' & Hx' & _). split; congruence. Qed.
Lemma grows_proxy h h' p c : grows h h' -> ruby_proxy W h p c -> ruby_proxy W h' p c.
Proof using Type. intros G []; constructor; by apply (gr_class _ _ G). Qed.

(** The slot up to the use of the property. *)
Lemma method_missing_run self obj s name argv h :
  wraps h self obj -> symbol h s name -> no_nul name ->
  exists args h1, undisturbed h h1 /\
    RubyKObjectMethodMissing W V (s :: argv) self h = use_property W V self obj name (s :: argv) args h1.
Proof.
  intros (l & v & Hl & Hw & Hv & Ho) [Hs Hx] Hn.
  destruct (ra_scan s argv h) as (r & h1 & E & U & args & ->). exists args, h1. split; [exact U|].
  unfold RubyKObjectMethodMissing, wrapped. rewrite st_bind_assoc.
  step (wrapped_value_run _ _ _ Hw). step (getv_run _ _ _ Hv). rewrite Ho.
  step (eq_refl : gets rbmem_of h = (Ret (rbmem_of h), h)).
  rewrite (proj1 (ra_symbol _ _ _ Hs Hx)). cbn [negb]. step E.
  step (askr_run (fun m => symbol_name Q m s) h1).
  destruct (grows_symbol _ _ _ _ (undisturbed_grows _ _ U) (conj Hs Hx)) as [Hs1 Hx1].
  rewrite (proj2 (ra_symbol _ _ _ Hs1 Hx1)). by rewrite (c_str_id name Hn).
Qed.

Lemma window_Get_run obj n h : class_of h obj = Some StaticBoundObject ->
  vGet V obj n h = (Ret (default (next h) (props h obj !! n)), with_fresh new_value h).
Proof using HD. intros Hc. rewrite sd_Get by done. apply Get_run. by eapply class_of_is_Some. Qed.
Lemma window_Set_run obj n v h : class_of h obj = Some StaticBoundObject ->
  vSet V obj n v h = (Ret tt, with_properties obj (<[n := v]> (props h obj)) h).
Proof using HD. intros Hc. rewrite sd_Set by done. apply Set_run. by eapply class_of_is_Some. Qed.

(** [p] is the value of the property. *)
Definition holds (h : heap) (obj : loc) (name : str) (p : N) : Prop :=
  exists l v o c, props h obj !! name = Some l /\ vals h !! l = Some v /\
    type v = ruby_proxy_type c /\ type v <> METHOD /\ objectValue v = Some o /\
    class_of h o = Some c /\ ruby_proxy W h p c.

Lemma fits_plain m x c : plain_data m x -> fits W ancestors m x c -> ruby_proxy_type c <> METHOD.
Proof using Type.
  intros Hx Hf. destruct c; try done. destruct x; try done. by destruct (Hx _ eq_refl).
Qed.

(** An assignment stores a proxy. *)
Lemma assign_run self obj name s p argv args h :
  fresh_ok h -> class_of h obj = Some StaticBoundObject ->
  live (rbmem_of h) p -> ruby_kind h (look (rbmem_of h) p) -> plain_data (rbmem_of h) (look (rbmem_of h) p) ->
  exists h', use_property W V self obj (name ++ "="%char :: []) (s :: p :: argv) args h =
      (Ret (Returned p), h') /\ grows h h' /\ vals_above h' /\ holds h' obj name p.
Proof.
  intros Hf Hc Hp Hk Hd. set (h1 := with_fresh new_value h).
  assert (fresh_ok h1) as Hf1 by by apply with_fresh_fresh_ok.
  destruct (RbToKrollValue_proxy W V live look ancestors HA p _ h1 Hp eq_refl Hk)
    as (ty & m & E & o & c & h2 & E2 & Ha & Hpr & Hft & Hty).
  pose proof (adds_grows _ _ _ _ Hf1 Ha) as G2. destruct Ha as (Hco & Hn & _ & Hv & _).
  set (v := set_object ty (Some o) (reset new_value)). set (h3 := with_fresh v h2).
  assert (vals_above h2) as Hf2.
  { intros k Hk'. rewrite Hv. apply (Hf1 k). lia. }
  assert (grows h2 h3) as G3 by by apply with_fresh_grows, Hf2.
  assert (class_of h3 obj = Some StaticBoundObject) as Hc3 by by apply (gr_class _ _ G2).
  set (h4 := with_properties obj (<[name := next h2]> (props h3 obj)) h3).
  assert (is_Some (objs h3 !! obj)) as Ho3 by by eapply class_of_is_Some.
  assert (RbToKrollValue W V p h1 = (Ret (next h2), h3)) as E3.
  { rewrite E. step E2. by rewrite new_with_run. }
  exists h4. split_and!.
  - unfold use_property. step (window_Get_run _ (name ++ "="%char :: []) _ Hc).
    rewrite last_snoc, bool_decide_eq_true_2 by done. rewrite removelast_last. fold h1.
    rewrite st_bind_assoc. step E3.
    rewrite st_bind_assoc. by step (window_Set_run obj name (next h2) h3 Hc3).
  - transitivity h1; [by apply with_fresh_grows, Hf|]. transitivity h2; [done|].
    transitivity h3; [done|]. apply with_properties_grows.
  - change (vals_above h3). by apply with_fresh_vals.
  - exists (next h2), v, o, c. split_and!; try done.
    + unfold h4. rewrite props_with_properties by done. by rewrite decide_True, lookup_insert_eq.
    + apply lookup_insert_eq.
    + subst v. simpl. rewrite <- Hty. by eapply fits_plain.
    + unfold h4. rewrite class_of_with_properties. exact Hco.
    + eapply (grows_proxy h3); [apply with_properties_grows|]. by eapply grows_proxy.
Qed.

(** And a use gives it back. *)
Lemma use_run self obj name s p args h :
  vals_above h -> class_of h obj = Some StaticBoundObject -> holds h obj name p ->
  use_property W V self obj name [s] args h = (Ret (Returned p), with_fresh new_value h).
Proof.
  intros Hf Hc (l & v & o & c & Hl & Hv & Hty & Hm & Ho & Hco & Hp).
  unfold use_property. step (window_Get_run _ name _ Hc). rewrite Hl. cbn [default from_option]. unfold id.
  match goal with |- (_ ≫= ?f) ?x = _ => change (f None x = (Ret (Returned p), x)) end. cbv beta iota.
  assert (grows h (with_fresh new_value h)) as G by by apply with_fresh_grows, Hf.
  pose proof (gr_vals _ _ G _ _ Hv) as Hv'. step (getv_run _ _ _ Hv').
  unfold IsUndefined, IsMethod. rewrite !bool_decide_eq_false_2 by (rewrite ?Hty in *; by destruct c).
  by step (ToRubyValue_proxy W V l v o c p _ Hv' Hty Ho Hco (grows_proxy _ _ _ _ G Hp)).
Qed.

(** C20: a property that Ruby sets has the value that Ruby set. [obj.name = x]
    with an object, a struct, a hash, an array or data [x] of Ruby (no method,
    proc or wrapper; numbers, texts, symbols and classes are not covered, they
    are converted) and then [obj.name], both through [method_missing], give [x]
    itself. *)
Theorem ruby_property_roundtrip self obj name s_set s_get p h :
  fresh_ok h -> class_of h obj = Some StaticBoundObject -> wraps h self obj -> no_nul name ->
  symbol h s_set (name ++ "="%char :: []) -> symbol h s_get name ->
  live (rbmem_of h) p -> ruby_kind h (look (rbmem_of h) p) -> plain_data (rbmem_of h) (look (rbmem_of h) p) ->
  exists h1 h2, RubyKObjectMethodMissing W V [s_set; p] self h = (Ret (Returned p), h1) /\
    RubyKObjectMethodMissing W V [s_get] self h1 = (Ret (Returned p), h2).
Proof.
  intros Hf Hc Hw Hn Hs Hg Hp Hk Hd.
  assert (no_nul (name ++ "="%char :: [])) as Hn' by (apply Forall_app; split; [done|by repeat constructor]).
  destruct (method_missing_run self obj s_set _ [p] h Hw Hs Hn') as (args & h1 & U1 & E1).
  pose proof (undisturbed_grows _ _ U1) as G1.
  destruct (gr_ruby _ _ G1 p Hp) as (Hp1 & Hx1 & _).
  destruct (assign_run self obj name s_set p [] args h1) as (h2 & E2 & G2 & Hf2 & Hh); try done.
  { intros k Hk'. rewrite (ud_objs U1), (ud_vals U1). rewrite (ud_next U1) in Hk'. by apply Hf. }
  { by apply (gr_class _ _ G1). }
  { rewrite Hx1. unfold RubyLaws.ruby_kind in *. destruct (look (rbmem_of h) p) eqn:Ex; try done.
    intros k c'. rewrite (ud_classes U1), (ud_ancestors U1); [apply Hk|]. right. by exists p. }
  { rewrite Hx1. intros c Ec. unfold callable. rewrite (ud_ancestors U1); [by apply Hd|]. right. by exists p. }
  assert (grows h h2) as G by (by etrans).
  destruct (method_missing_run self obj s_get name [] h2 (grows_wraps _ _ _ _ G Hw) (grows_symbol _ _ _ _ G Hg) Hn)
    as (args' & h3 & U3 & E3). pose proof (undisturbed_grows _ _ U3) as G3.
  exists h2, (with_fresh new_value h3). rewrite E1, E2. split; [done|]. rewrite E3. apply use_run.
  - intros k. rewrite (ud_vals U3), (ud_next U3). apply Hf2.
  - apply (gr_class _ _ G3), (gr_class _ _ G), Hc.
  - destruct Hh as (l & v & o & c & Hl & Hv & ? & ? & ? & Hco & Hpr). exists l, v, o, c. split_and!; try done.
    + unfold props. rewrite (ud_objs U3). exact Hl.
    + by apply (gr_vals _ _ G3).
    + by apply (gr_class _ _ G3).
    + by eapply grows_proxy.
Qed.
End Properties.

(** ** The contexts of the windows *)
Section Contexts.
Context (V : VOps) {HD : StaticDispatch V}.
#[local] Set Default Proof Using "Type*".

Definition context_name (n : Z) : str := lit "$windowProc" ++ IntToChars n.
Definition counter (h : heap) (this : loc) : option Z := rb_next_id (rb_of h) !! this.
(** The window has no number yet, or the number [n]. *)
Definition unnumbered (h : heap) (g : loc) : Prop :=
  class_of h g = Some StaticBoundObject /\ props h g !! module_id = None.
Definition numbered (h : heap) (g : loc) (n : Z) : Prop :=
  class_of h g = Some StaticBoundObject /\ exists l v, props h g !! module_id = Some l /\
    vals h !! l = Some v /\ type v = INT /\ numberValue v = double_of_int n.

(** A step that may number the window [g]. *)
Record numbers (g : loc) (h h' : heap) : Prop := {
  nu_fresh : fresh_ok h -> fresh_ok h';
  nu_vals l v : vals h !! l = Some v -> vals h' !! l = Some v;
  nu_class o : class_of h' o = class_of h o;
  nu_props o : o <> g -> props h' o = props h o
}.
Lemma numbers_unnumbered g g' h h' : numbers g h h' -> g' <> g -> unnumbered h g' -> unnumbered h' g'.
Proof using Type. intros N Hg [Hc Hp]. split; [by rewrite (nu_class _ _ _ N)|by rewrite (nu_props _ _ _ N)]. Qed.
Lemma numbers_numbered g g' n h h' : numbers g h h' -> g' <> g -> numbered h g' n -> numbered h' g' n.
Proof using Type.
  intros N Hg (Hc & l & v & Hl & Hv & Hn). split; [by rewrite (nu_class _ _ _ N)|].
  exists l, v. rewrite (nu_props _ _ _ N) by done. split_and!; [done|by apply (nu_vals _ _ _ N)|apply Hn..].
Qed.

(** A number fits into an [int] that can be counted up. *)
Definition countable_id (n : Z) : Prop := (0 <= n < 2 ^ 31 - 1)%Z.
Lemma countable_wrap n : countable_id n -> wrap32 n = n.
Proof using Type. unfold countable_id. intros Hn. apply wrap32_id. lia. Qed.
Lemma countable_next n : countable_id n -> to_signed32 (n + 1) = (n + 1)%Z.
Proof using Type. unfold countable_id. intros Hn. apply to_signed32_id. unfold is_int, int_min, int_max. lia. Qed.

(** A window that has a number keeps it. *)
Lemma GetContextId_again this g n h :
  fresh_ok h -> countable_id n -> numbered h g n ->
  GetContextId V this g h = (Ret (context_name n), with_fresh new_value h).
Proof.
  intros Hf Hn (Hc & l & v & Hl & Hv & Hty & Hnum). unfold GetContextId.
  step (window_Get_run V g module_id h Hc). rewrite Hl. cbn [default from_option]. unfold id.
  step (getv_run _ _ _ (fresh_vals _ new_value _ _ Hf Hv)).
  unfold IsUndefined. rewrite Hty. types. unfold ToInt. rewrite Hnum, int_of_double_of_int.
  - unfold context_name. rewrite <- (countable_wrap n Hn) at 2. done.
  - unfold countable_id in Hn. unfold is_int, int_min, int_max. lia.
Qed.

(** The first time it gets the next number. *)
Lemma GetContextId_first this g n h :
  fresh_ok h -> countable_id n -> unnumbered h g -> counter h this = Some n ->
  exists h', GetContextId V this g h = (Ret (context_name n), h') /\ numbers g h h' /\
    numbered h' g n /\ counter h' this = Some (n + 1)%Z.
Proof.
  intros Hf Hn [Hc Hp] Hi. set (h1 := with_fresh new_value h).
  set (h2 := set_rb (r_with_next_id (<[this := (n + 1)%Z]>)) h1).
  set (v := set_number INT (double_of_int n) (reset new_value)).
  set (h3 := with_fresh v h2). set (h4 := with_properties g (<[module_id := next h2]> (props h3 g)) h3).
  assert (fresh_ok h2) as Hf2 by exact (with_fresh_fresh_ok _ new_value Hf).
  assert (fresh_ok h3) as Hf3 by by apply with_fresh_fresh_ok.
  assert (class_of h3 g = Some StaticBoundObject) as Hc3 by exact Hc.
  exists h4. split_and!.
  - unfold GetContextId. step (window_Get_run V g module_id h Hc). rewrite Hp. cbn [default from_option].
    step (getv_run h1 (next h) new_value ltac:(apply lookup_insert_eq)).
    unfold IsUndefined. types. rewrite st_bind_assoc. unfold next_id_of. rewrite st_bind_assoc.
    step (eq_refl : the_rb rb_next_id h1 = (Ret (rb_next_id (rb_of h)), h1)).
    change (rb_next_id (rb_of h) !! this) with (counter h this). rewrite Hi.
    step (eq_refl : some_or_undef (Some n) h1 = (Ret n, h1)). rewrite (countable_next n Hn).
    rewrite st_bind_assoc. step (on_rb_run (r_with_next_id (<[this := (n + 1)%Z]>)) h1). fold h2.
    rewrite st_bind_assoc. unfold NewInt, SetInt.
    step (new_with_run (fun v => set_number INT (double_of_int n) (reset v)) h2).
    rewrite st_bind_assoc. step (window_Set_run V g module_id (next h2) h3 Hc3).
    unfold context_name. rewrite <- (countable_wrap n Hn) at 2. done.
  - split.
    + intros _. by apply with_properties_fresh_ok.
    + intros l w Hl. change (vals h3 !! l = Some w). apply fresh_vals; [done|].
      by apply fresh_vals.
    + intros o. unfold h4. by rewrite class_of_with_properties.
    + intros o Ho. unfold h4. rewrite props_with_properties by (by eapply class_of_is_Some).
      by rewrite decide_False.
  - split; [by unfold h4; rewrite class_of_with_properties|]. exists (next h2), v. split_and!; try done.
    + unfold h4. rewrite props_with_properties by (by eapply class_of_is_Some).
      by rewrite decide_True, lookup_insert_eq.
    + apply lookup_insert_eq.
  - apply lookup_insert_eq.
Qed.

Lemma windows_numbered this gs : forall n h,
  fresh_ok h -> NoDup gs -> Forall (unnumbered h) gs -> counter h this = Some n ->
  (0 <= n)%Z -> (n + Z.of_nat (length gs) <= 2 ^ 31 - 1)%Z ->
  exists h', st_map (GetContextId V this) gs h = (Ret (map context_name (seqZ n (Z.of_nat (length gs)))), h') /\
    fresh_ok h' /\ (forall i g, gs !! i = Some g -> numbered h' g (n + Z.of_nat i)) /\
    forall g m, g ∉ gs -> numbered h g m -> numbered h' g m.
Proof.
  induction gs as [|g gs IH]; intros n h Hf Hnd Hun Hi Hn Hlen.
  { exists h. split_and!; done. }
  apply NoDup_cons in Hnd as [Hg Hnd]. apply Forall_cons in Hun as [Hu Hun]. cbn [length] in Hlen.
  destruct (GetContextId_first this g n h Hf ltac:(unfold countable_id; lia) Hu Hi) as (h1 & E1 & N1 & Hg1 & Hi1).
  destruct (IH (n + 1)%Z h1) as (h' & E & Hf' & Hall & Hkeep); try done; try lia.
  { by apply (nu_fresh _ _ _ N1). }
  { rewrite Forall_forall in Hun |- *. intros g' Hg'. apply (numbers_unnumbered _ _ _ _ N1); [by intros ->|by apply Hun]. }
  exists h'. split_and!; [|done| |].
  - cbn [st_map length]. step E1. step E. rewrite Nat2Z.inj_succ, (seqZ_cons n (Z.succ _)) by lia. cbn [map].
    by rewrite Z.pred_succ, Z.add_1_r.
  - intros [|i] g' Hg'; simpl in Hg'.
    + injection Hg' as <-. rewrite Z.add_0_r. by apply Hkeep.
    + replace (n + Z.of_nat (S i))%Z with (n + 1 + Z.of_nat i)%Z by lia. by apply Hall.
  - intros g' m Hg' Hm. apply not_elem_of_cons in Hg' as [Hne Hg']. apply Hkeep; [done|].
    by apply (numbers_numbered _ _ _ _ _ N1).
Qed.

Lemma context_names_NoDup n k : (0 <= n)%Z -> NoDup (map context_name (seqZ n k)).
Proof using Type.
  intros Hn. apply NoDup_fmap_2_strong; [|apply NoDup_seqZ].
  intros x y Hx%elem_of_seqZ Hy%elem_of_seqZ E. unfold context_name in E.
  apply app_inv_head in E. apply IntToChars_inj in E; lia.
Qed.

(** C21: each window has a context of its own. The first scripts of windows
    that have no number get the numbers from the counter of the evaluator in
    turn, all names are different, and every later script of a window gets
    the name of the window again. *)
Theorem ruby_context_ids this gs n h :
  fresh_ok h -> NoDup gs -> Forall (unnumbered h) gs -> counter h this = Some n ->
  (0 <= n)%Z -> (n + Z.of_nat (length gs) <= 2 ^ 31 - 1)%Z ->
  let names := map context_name (seqZ n (Z.of_nat (length gs))) in
  exists h', st_map (GetContextId V this) gs h = (Ret names, h') /\ NoDup names /\
    forall i g, gs !! i = Some g ->
      GetContextId V this g h' = (Ret (context_name (n + Z.of_nat i)), with_fresh new_value h').
Proof.
  intros Hf Hnd Hun Hi Hn Hlen names.
  destruct (windows_numbered this gs n h Hf Hnd Hun Hi Hn Hlen) as (h' & E & Hf' & Hall & _).
  exists h'. split_and!; [done|by apply context_names_NoDup|]. intros i g Hg.
  apply GetContextId_again; [done| |by apply Hall].
  apply lookup_lt_Some in Hg. unfold countable_id. lia.
Qed.
End Contexts.

(** ** Witnesses *)

(** Ruby has a wrapper of the object 2 at 9, an array at 10 and two symbols. *)
Definition demo_word (name : String.string) : list N := 9%N :: map N_of_ascii (lit name).
Definition demo_property_heap : heap :=
  set_rb (r_with_values (<[9%N := 3%N]>))
    (SmallRuby.set_memory (fun _ => {[9%N := [3; 20]%N; 10%N := [5%N]; 11%N := demo_word "item=";
                                      12%N := demo_word "item"]}) demo_ruby_heap).
Lemma ruby_property_roundtrip_witness :
  exists h1 h2, RubyKObjectMethodMissing SmallRuby.world demo_ruby_ops [11; 10]%N 9%N demo_property_heap =
      (Ret (Returned 10%N), h1) /\
    RubyKObjectMethodMissing SmallRuby.world demo_ruby_ops [12]%N 9%N h1 = (Ret (Returned 10%N), h2).
Proof.
  apply (ruby_property_roundtrip SmallRuby.world demo_ruby_ops SmallRuby.live SmallRuby.look SmallRuby.ancestors (SmallRuby.api _)
    9%N 2%N (lit "item") 11%N 12%N 10%N demo_property_heap).
  - apply fresh_check_ok. vm_compute. reflexivity.
  - vm_compute. reflexivity.
  - exists 3%N, demo_ruby_value. split_and!; [right; exists [3; 20]%N|..]; vm_compute; reflexivity.
  - by repeat constructor.
  - split; [right; exists (demo_word "item=")|]; vm_compute; reflexivity.
  - split; [right; exists (demo_word "item")|]; vm_compute; reflexivity.
  - right. exists [5%N]. vm_compute. reflexivity.
  - exact I.
  - intros c Hc. vm_compute in Hc. discriminate Hc.
Defined.

(** Two windows, the objects 3 and 4; the evaluator is the object 2. *)
Definition demo_windows_heap : heap :=
  set_rb (r_with_next_id (<[2%N := 0%Z]>))
    (with_object (lit "KObject") StaticBoundObject (with_object (lit "KObject") StaticBoundObject demo_heap)).
Lemma ruby_context_ids_witness :
  exists h', st_map (GetContextId demo_ruby_ops 2%N) [3; 4]%N demo_windows_heap =
      (Ret [lit "$windowProc0"; lit "$windowProc1"], h') /\
    GetContextId demo_ruby_ops 2%N 4%N h' = (Ret (lit "$windowProc1"), with_fresh new_value h').
Proof.
  destruct (ruby_context_ids demo_ruby_ops 2%N [3; 4]%N 0%Z demo_windows_heap) as (h' & E & _ & Hg).
  - apply fresh_check_ok. vm_compute. reflexivity.
  - apply (bool_decide_unpack _). vm_compute. exact I.
  - repeat constructor; vm_compute; reflexivity.
  - vm_compute. reflexivity.
  - lia.
  - vm_compute. discriminate.
  - exists h'. split; [exact E|]. exact (Hg 1 4%N eq_refl).
Defined.
