(* ===== verification/PhpInterpreter.v ===== *)
(** * PhpInterpreter: the documented behaviour of the Zend engine, and a small
    engine that has it

    [look] says what a zval holds, [table] what a hash table holds and where
    its internal pointer is, [live] which addresses are allocated. A call
    that runs no script changes only the zval or the table that it is for. *)

From S2P Require Import Prelude CppString Double Application System Heap JavaScriptCore PythonCore RubyCore PhpCore.
From S2P Require Import Virtual KObject StaticBound StaticLaws Php JavaScriptEngine.
From stdpp Require Import options.

Definition php_of (h : heap) : PhpState := s_php (sys h).
Definition set_php (f : PhpState -> PhpState) (h : heap) : heap :=
  with_sys (fun _ => with_php (f (php_of h)) (sys h)) h.

Lemma on_php_run f h : on_php (modify f) h = (Ret tt, set_php f h).
Proof. done. Qed.
Lemma askz_run {A} (f : phpmem -> A) h : askz f h = (Ret (f (phpmem_of h)), h).
Proof. done. Qed.
Lemma the_php_run {A} (f : PhpState -> A) h : the_php f h = (Ret (f (php_of h)), h).
Proof. done. Qed.

(** What a zval holds; an object is its struct and its class entry. *)
Inductive zcontent :=
  | ZNull | ZBool (b : bool) | ZLong (z : Z) | ZDouble (d : double) | ZString (s : str)
  | ZArray (t : N) | ZObject (o ce : N) | ZResource.
Definition ztype (x : zcontent) : zend_type :=
  match x with
  | ZNull => IS_NULL | ZBool _ => IS_BOOL | ZLong _ => IS_LONG | ZDouble _ => IS_DOUBLE
  | ZString _ => IS_STRING | ZArray _ => IS_ARRAY | ZObject _ _ => IS_OBJECT | ZResource => IS_RESOURCE
  end.

Section Interpreter.
Context (W : World) (V : VOps) (live : phpmem -> N -> Prop) (look : phpmem -> N -> zcontent).
Context (table : phpmem -> N -> list (zkey * N) * nat).
#[local] Abbreviation Q := (phpq W).
#[local] Abbreviation call := (php W V _).

(** Only the zval or table at an address in [ws] may be different. *)
Record writes (ws : list N) (h h' : heap) : Prop := {
  wr_next : next h' = next h;
  wr_vals : vals h' = vals h;
  wr_objs : objs h' = objs h;
  wr_entries k : entry_of k (php_of h') = entry_of k (php_of h);
  wr_global : currentPHPGlobal (php_of h') = currentPHPGlobal (php_of h);
  wr_kvalues o : live (phpmem_of h) o -> php_kvalues (php_of h') !! o = php_kvalues (php_of h) !! o;
  wr_live a : live (phpmem_of h) a -> live (phpmem_of h') a;
  wr_look a : live (phpmem_of h) a -> a ∉ ws -> look (phpmem_of h') a = look (phpmem_of h) a;
  wr_table a : live (phpmem_of h) a -> a ∉ ws -> table (phpmem_of h') a = table (phpmem_of h) a
}.
#[export] Instance writes_preorder ws : PreOrder (writes ws).
Proof.
  split; [done|]. intros h1 h2 h3 [] []. split; try congruence; auto.
  - intros o Ho. rewrite wr_kvalues1, wr_kvalues0; auto.
  - intros a Ha Hw. rewrite wr_look1, wr_look0; auto.
  - intros a Ha Hw. rewrite wr_table1, wr_table0; auto.
Qed.
Lemma writes_weaken ws ws' h h' : ws ⊆ ws' -> writes ws h h' -> writes ws' h h'.
Proof. intros Hs []. split; auto. Qed.

(** The call answers with [P] and writes [ws] only. *)
Definition zanswers {A : Set} (c : phpcmd A) (ws : list N) (h : heap) (P : A -> heap -> Prop) : Prop :=
  exists a h', call c h = (Ret a, h') /\ writes ws h h' /\ P a h'.
Definition becomes (z : N) (x : zcontent) (_ : unit) (h' : heap) : Prop := look (phpmem_of h') z = x.
Definition nothing_else (_ : unit) (_ : heap) : Prop := True.

(** The documented behaviour. *)
Class PhpEngine : Prop := {
  pe_symbols m : live m (EG_symbol_table Q);
  pe_type m z : live m z -> Z_TYPE_P Q m z = ztype (look m z);
  pe_bool m z b : live m z -> look m z = ZBool b -> Z_BVAL_P Q m z = b;
  pe_long m z n : live m z -> look m z = ZLong n -> Z_LVAL_P Q m z = n;
  pe_double m z d : live m z -> look m z = ZDouble d -> Z_DVAL_P Q m z = d;
  pe_string m z s : live m z -> look m z = ZString s -> Z_STRVAL_P Q m z = s;
  pe_array m z t : live m z -> look m z = ZArray t -> Z_ARRVAL_P Q m z = t;
  pe_class m z o ce : live m z -> look m z = ZObject o ce ->
    class_entry Q m z = Some ce /\ zend_object_store_get_object Q m z = o;
  pe_alloc h : zanswers ALLOC_INIT_ZVAL [] h (fun z h' =>
    ~ live (phpmem_of h) z /\ live (phpmem_of h') z /\ look (phpmem_of h') z = ZNull);
  pe_null z h : live (phpmem_of h) z -> zanswers (ZVAL_NULL z) [z] h (becomes z ZNull);
  pe_set_bool z b h : live (phpmem_of h) z -> zanswers (ZVAL_BOOL z b) [z] h (becomes z (ZBool b));
  pe_set_double z d h : live (phpmem_of h) z -> zanswers (ZVAL_DOUBLE z d) [z] h (becomes z (ZDouble d));
  pe_set_string z s h : live (phpmem_of h) z -> no_nul s ->
    zanswers (ZVAL_STRINGL z s) [z] h (becomes z (ZString s));
  pe_object z ce h : live (phpmem_of h) z -> zanswers (object_init_ex z ce) [z] h (fun _ h' =>
    exists o, ~ live (phpmem_of h) o /\ live (phpmem_of h') o /\ look (phpmem_of h') z = ZObject o ce);
  pe_addref z h : zanswers (zval_addref_p z) [] h nothing_else;
  (* hash tables *)
  pe_more m t : live m t -> zend_hash_has_more_elements Q m t = bool_decide ((table m t).2 < length (table m t).1);
  pe_current m t k z : live m t -> (table m t).1 !! (table m t).2 = Some (k, z) ->
    zend_hash_get_current_key Q m t = k /\ zend_hash_get_current_data Q m t = Some z;
  pe_reset t h : live (phpmem_of h) t -> zanswers (zend_hash_internal_pointer_reset t) [t] h (fun _ h' =>
    table (phpmem_of h') t = ((table (phpmem_of h) t).1, 0));
  pe_forward t h : live (phpmem_of h) t -> zanswers (zend_hash_move_forward t) [t] h (fun _ h' =>
    table (phpmem_of h') t = ((table (phpmem_of h) t).1, S (table (phpmem_of h) t).2));
  pe_clean t h : live (phpmem_of h) t -> zanswers (zend_hash_clean t) [t] h (fun _ h' =>
    (table (phpmem_of h') t).1 = []);
  pe_set_symbol t name z h : live (phpmem_of h) t ->
    HASH_KEY_IS_STRING name ∉ (table (phpmem_of h) t).1.*1 ->
    zanswers (ZEND_SET_SYMBOL t name z) [t] h (fun _ h' =>
      (table (phpmem_of h') t).1 = (table (phpmem_of h) t).1 ++ [(HASH_KEY_IS_STRING name, z)])
}.
End Interpreter.

Arguments pe_symbols {W V live look table _}.
Arguments pe_type {W V live look table _}.
Arguments pe_bool {W V live look table _}.
Arguments pe_long {W V live look table _}.
Arguments pe_double {W V live look table _}.
Arguments pe_string {W V live look table _}.
Arguments pe_array {W V live look table _}.
Arguments pe_class {W V live look table _}.
Arguments pe_alloc {W V live look table _}.
Arguments pe_null {W V live look table _}.
Arguments pe_set_bool {W V live look table _}.
Arguments pe_set_double {W V live look table _}.
Arguments pe_set_string {W V live look table _}.
Arguments pe_object {W V live look table _}.
Arguments pe_addref {W V live look table _}.
Arguments pe_more {W V live look table _}.
Arguments pe_current {W V live look table _}.
Arguments pe_reset {W V live look table _}.
Arguments pe_forward {W V live look table _}.
Arguments pe_clean {W V live look table _}.
Arguments pe_set_symbol {W V live look table _}.
Arguments wr_next {live look table ws h h'} _.
Arguments wr_vals {live look table ws h h'} _.
Arguments wr_objs {live look table ws h h'} _.
Arguments wr_entries {live look table ws h h'} _.
Arguments wr_global {live look table ws h h'} _.
Arguments wr_kvalues {live look table ws h h'} _.
Arguments wr_live {live look table ws h h'} _.
Arguments wr_look {live look table ws h h'} _.
Arguments wr_table {live look table ws h h'} _.

(** ** A small engine

    The address 0 is the symbol table; a zval is a tag and its contents, a
    table its internal pointer and its elements. Nothing runs. *)
Module SmallPhp.

Definition words (m : phpmem) (a : N) : list N := default [] (m !! a).
Definition live (m : phpmem) (a : N) : Prop := a = 0%N \/ is_Some (m !! a).
Definition decode (w : list N) : zcontent :=
  match w with
  | [1; b] => ZBool (negb (b =? 0))
  | [2; z] => ZLong (SmallEngine.Z_of_word z)
  | 3 :: d => ZDouble (SmallEngine.double_of_words d)
  | 4 :: s => ZString (map ascii_of_N s)
  | [5; t] => ZArray t
  | [6; o; ce] => ZObject o ce
  | [7] => ZResource
  | _ => ZNull
  end%N.
Definition look (m : phpmem) (a : N) : zcontent := decode (words m a).

Definition encode_item (e : zkey * N) : list N :=
  match e.1 with
  | HASH_KEY_IS_LONG i => [0; SmallEngine.word_of_Z i; e.2]
  | HASH_KEY_IS_STRING s => 1 :: N.of_nat (length s) :: map N_of_ascii s ++ [e.2]
  end%N.
Definition encode (t : list (zkey * N) * nat) : list N := N.of_nat t.2 :: flat_map encode_item t.1.
Fixpoint decode_items (fuel : nat) (w : list N) : list (zkey * N) :=
  match fuel, w with
  | S fuel, 0%N :: i :: z :: rest => (HASH_KEY_IS_LONG (SmallEngine.Z_of_word i), z) :: decode_items fuel rest
  | S fuel, 1%N :: n :: rest =>
      match drop (N.to_nat n) rest with
      | z :: rest' => (HASH_KEY_IS_STRING (map ascii_of_N (take (N.to_nat n) rest)), z) :: decode_items fuel rest'
      | [] => []
      end
  | _, _ => []
  end.
Definition decode_table (w : list N) : list (zkey * N) * nat :=
  match w with [] => ([], 0) | c :: items => (decode_items (length items) items, N.to_nat c) end.
Definition table (m : phpmem) (t : N) : list (zkey * N) * nat := decode_table (words m t).

Lemma Z_of_word_of_Z z : SmallEngine.Z_of_word (SmallEngine.word_of_Z z) = z.
Proof. by destruct z. Qed.
Lemma php_chars_back s : map ascii_of_N (map N_of_ascii s) = s.
Proof. rewrite map_map. erewrite map_ext, map_id; [done|]. intros c. apply ascii_N_embedding. Qed.
Lemma decode_items_encode l fuel : length l <= fuel -> decode_items fuel (flat_map encode_item l) = l.
Proof.
  revert fuel. induction l as [|[k z] l IH]; intros fuel Hf; [by destruct fuel|].
  destruct fuel as [|fuel]; simpl in Hf; [lia|]. cbn [flat_map].
  destruct k as [s|i]; cbn [encode_item fst snd app decode_items].
  - rewrite Nat2N.id, <- app_assoc, drop_app_length', take_app_length' by (by rewrite length_map).
    cbn [app]. by rewrite php_chars_back, IH by lia.
  - by rewrite Z_of_word_of_Z, IH by lia.
Qed.
Lemma encode_length l : length l <= length (flat_map encode_item l).
Proof.
  induction l as [|[[s|i] z] l IH]; simpl; [lia| |lia]. rewrite !length_app, length_map. simpl. lia.
Qed.
Lemma decode_encode t : decode_table (encode t) = t.
Proof.
  destruct t as [l c]. unfold decode_table, encode. cbn [fst snd].
  by rewrite decode_items_encode, Nat2N.id by apply encode_length.
Qed.

Definition queries : PhpQueries := {|
  zend_ce_closure := 23%N; spl_ce_ArrayObject := 24%N; EG_symbol_table := 0%N; EG_scope _ := None;
  default_mimetype _ := lit "text/html"; Z_TYPE_P m z := ztype (look m z);
  Z_BVAL_P m z := match look m z with ZBool b => b | _ => false end;
  Z_LVAL_P m z := match look m z with ZLong n => n | _ => 0%Z end;
  Z_DVAL_P m z := match look m z with ZDouble d => d | _ => zero end;
  Z_STRVAL_P m z := match look m z with ZString s => s | _ => [] end;
  Z_ARRVAL_P m z := match look m z with ZArray t => t | _ => 0%N end;
  class_entry m z := match look m z with ZObject _ ce => Some ce | _ => None end;
  zend_object_store_get_object m z := match look m z with ZObject o _ => o | _ => 0%N end;
  class_name _ _ := [];
  zend_hash_has_more_elements m t := bool_decide ((table m t).2 < length (table m t).1);
  zend_hash_get_current_key m t := default (HASH_KEY_IS_LONG 0) ((table m t).1.*1 !! (table m t).2);
  zend_hash_get_current_data m t := (table m t).1.*2 !! (table m t).2;
  zend_hash_at m t i := (table m t).1 !! i; zend_hash_num_elements m t := Z.of_nat (length (table m t).1);
  zend_hash_find _ _ _ := None; zend_hash_index_find _ _ _ := None;
  zend_hash_compare _ _ _ := 0%Z; Z_OBJPROP_P _ _ := 0%N; has_handler _ _ _ := false;
  property_shadowed _ _ _ := None; function_table _ _ := []; function_exists _ _ _ := false;
  zend_check_protected _ _ _ := false; zend_check_property_access _ _ _ _ := false;
  zend_unmangle_property_name s _ := s; zend_compare_objects _ _ _ := 0%Z; zend_str_tolower s := s
|}.

Definition set_memory (f : phpmem -> phpmem) : heap -> heap :=
  set_php (fun p => {| php_kvalues := php_kvalues p; PHPKObjectClassEntry := PHPKObjectClassEntry p;
    PHPKMethodClassEntry := PHPKMethodClassEntry p; PHPKListClassEntry := PHPKListClassEntry p;
    currentPHPGlobal := currentPHPGlobal p; php_nextId := php_nextId p;
    php_nextFunctionId := php_nextFunctionId p; php_buffering := php_buffering p;
    php_buffer := php_buffer p; php_mimeType := php_mimeType p; php_binding := php_binding p;
    php_instance := php_instance p; php_memory := f (php_memory p) |}).
Definition fresh_address (m : phpmem) : N := fresh (({[0%N]} : gset N) ∪ dom m).
Definition store (w : list N) : M N := fun h =>
  let a := fresh_address (phpmem_of h) in (Ret a, set_memory (<[a := w]>) h).
Definition write (a : N) (w : list N) : M unit := modify (set_memory (<[a := w]>)).
(** A new table for the address [t]. *)
Definition change_table (t : N) (f : list (zkey * N) * nat -> list (zkey * N) * nat) : M unit := fun h =>
  write t (encode (f (table (phpmem_of h) t))) h.

Definition ops (A : Set) (c : phpcmd A) : M A :=
  match c in phpcmd A return M A with
  | ALLOC_INIT_ZVAL => store [0%N]
  | ZVAL_NULL z => write z [0%N]
  | ZVAL_BOOL z b => write z [1%N; N.b2n b]
  | ZVAL_DOUBLE z d => write z (3%N :: SmallEngine.words_of_double d)
  | ZVAL_STRINGL z s => write z (4%N :: map N_of_ascii s)
  | object_init_ex z ce => o ← store [8%N]; write z [6%N; o; ce]
  | zval_addref_p _ => mret tt
  | zend_hash_internal_pointer_reset t => change_table t (fun e => (e.1, 0))
  | zend_hash_move_forward t => change_table t (fun e => (e.1, S e.2))
  | zend_hash_clean t => change_table t (fun _ => ([], 0))
  | ZEND_SET_SYMBOL t name z => change_table t (fun e => (e.1 ++ [(HASH_KEY_IS_STRING name, z)], e.2))
  | _ => lift Fuel
  end.

Definition world : World := {|
  show_double _ := []; show_ptr _ := []; now _ := 0%Z; poco_toLower s := s; poco_toUpper s := s;
  native _ _ _ _ := mret tt; function_ptr _ _ _ := NewUndefined; foreign _ _ := no_ops;
  jsq := no_queries; js _ := no_js; pyq := no_pyq; py _ := no_py; rbq := no_rbq; rb _ := no_rb;
  phpq := queries; php _ := ops; poco_URI := no_uri; outside := quiet_system
|}.

Lemma php_fresh_address_new m : ~ live m (fresh_address m).
Proof.
  pose proof (is_fresh (({[0%N]} : gset N) ∪ dom m)) as Hf. unfold fresh_address.
  intros [H0|Hs]; apply Hf; [set_solver|]. apply elem_of_union_r. by apply elem_of_dom.
Qed.
Lemma memory_at a w m : live (<[a := w]> m) a /\ words (<[a := w]> m) a = w.
Proof. unfold live, words. rewrite lookup_insert_eq. eauto. Qed.
Lemma memory_writes ws a w h : (live (phpmem_of h) a -> a ∈ ws) ->
  writes live look table ws h (set_memory (<[a := w]>) h).
Proof.
  intros Ha. set (h' := set_memory _ h). assert (phpmem_of h' = <[a := w]> (phpmem_of h)) as Em by done.
  assert (forall b, live (phpmem_of h) b -> b ∉ ws -> words (phpmem_of h') b = words (phpmem_of h) b) as Hw.
  { intros b Hb Hn. rewrite Em. unfold words. rewrite lookup_insert_ne; [done|]. intros <-. auto. }
  split; try done.
  - intros b [Hb|Hb]; [by left|right]. rewrite Em. destruct (decide (a = b)) as [<-|Hne].
    + by rewrite lookup_insert_eq.
    + by rewrite lookup_insert_ne.
  - intros b Hb Hn. unfold look. by rewrite Hw.
  - intros b Hb Hn. unfold table. by rewrite Hw.
Qed.
Lemma php_store_run w h : exists a h', store w h = (Ret a, h') /\ writes live look table [] h h' /\
  ~ live (phpmem_of h) a /\ live (phpmem_of h') a /\ words (phpmem_of h') a = w.
Proof.
  pose proof (php_fresh_address_new (phpmem_of h)) as Hn. eexists _, _. split; [reflexivity|].
  split; [by apply memory_writes|]. split; [done|]. apply memory_at.
Qed.
Lemma write_run a w h : live (phpmem_of h) a -> exists h', write a w h = (Ret tt, h') /\
  writes live look table [a] h h' /\ words (phpmem_of h') a = w.
Proof.
  intros Ha. eexists. split; [reflexivity|]. split; [apply memory_writes; set_solver|]. apply memory_at.
Qed.
Lemma change_table_run t f h : live (phpmem_of h) t -> exists h', change_table t f h = (Ret tt, h') /\
  writes live look table [t] h h' /\ table (phpmem_of h') t = f (table (phpmem_of h) t).
Proof.
  intros Ht. destruct (write_run t (encode (f (table (phpmem_of h) t))) h Ht) as (h' & E & Hw & Hx).
  exists h'. split_and!; [exact E|done|]. unfold table at 1. by rewrite Hx, decode_encode.
Qed.

#[export] Instance engine V : PhpEngine world V live look table.
Proof.
  split.
  - by left.
  - done.
  - intros m z b _ E. simpl. by rewrite E.
  - intros m z b _ E. simpl. by rewrite E.
  - intros m z b _ E. simpl. by rewrite E.
  - intros m z b _ E. simpl. by rewrite E.
  - intros m z b _ E. simpl. by rewrite E.
  - intros m z o ce _ E. simpl. by rewrite E.
  - intros h. destruct (php_store_run [0%N] h) as (a & h' & E & Hw & Hn & Hl & Hx). exists a, h'.
    split_and!; try done. unfold look. by rewrite Hx.
  - intros z h Hz. destruct (write_run z [0%N] h Hz) as (h' & E & Hw & Hx). exists tt, h'.
    split_and!; [done..|]. unfold becomes, look. by rewrite Hx.
  - intros z b h Hz. destruct (write_run z [1%N; N.b2n b] h Hz) as (h' & E & Hw & Hx). exists tt, h'.
    split_and!; [done..|]. unfold becomes, look. rewrite Hx. by destruct b.
  - intros z d h Hz. destruct (write_run z (3%N :: SmallEngine.words_of_double d) h Hz) as (h' & E & Hw & Hx).
    exists tt, h'. split_and!; [done..|]. unfold becomes, look. rewrite Hx. cbn [decode].
    by rewrite SmallEngine.double_of_words_of.
  - intros z s h Hz _. destruct (write_run z (4%N :: map N_of_ascii s) h Hz) as (h' & E & Hw & Hx).
    exists tt, h'. split_and!; [done..|]. unfold becomes, look. rewrite Hx. cbn [decode]. by rewrite php_chars_back.
  - intros z ce h Hz. destruct (php_store_run [8%N] h) as (o & h1 & E1 & W1 & Hn & Hl & _).
    destruct (write_run z [6%N; o; ce] h1 (wr_live W1 z Hz)) as (h' & E & Hw & Hx). exists tt, h'.
    split_and!; [simpl; by step E1|etrans; [|done]; by apply (writes_weaken _ _ _ []); [set_solver|]|].
    exists o. split_and!; [done|by apply (wr_live Hw)|]. unfold look. by rewrite Hx.
  - intros z h. by exists tt, h.
  - done.
  - intros m t k z _ E. simpl. rewrite !list_lookup_fmap, E. done.
  - intros t h Ht. destruct (change_table_run t (fun e => (e.1, 0)) h Ht) as (h' & E & Hw & Hx). by exists tt, h'.
  - intros t h Ht. destruct (change_table_run t (fun e => (e.1, S e.2)) h Ht) as (h' & E & Hw & Hx). by exists tt, h'.
  - intros t h Ht. destruct (change_table_run t (fun _ => ([], 0)) h Ht) as (h' & E & Hw & Hx). exists tt, h'.
    split_and!; [done..|by rewrite Hx].
  - intros t name z h Ht _.
    destruct (change_table_run t (fun e => (e.1 ++ [(HASH_KEY_IS_STRING name, z)], e.2)) h Ht) as (h' & E & Hw & Hx).
    exists tt, h'. split_and!; [done..|by rewrite Hx].
Qed.
End SmallPhp.
