(* ===== verification/PhpLaws.v ===== *)
(** * PhpLaws: what crosses the border to PHP and back

    Under the documented behaviour of the Zend engine, a value that goes to
    PHP is a zval that fits; objects and methods come back as the very value,
    lists do not: they come back as proxies. *)

From S2P Require Import Prelude CppString Double System Heap PhpCore Virtual KObject StaticBound.
From S2P Require Import StaticLaws ValueLaws Namespace Php PhpClasses PhpInterpreter Dispatch DispatchLaws.
From S2P Require Import ScriptLaws.
From stdpp Require Import options.

Section Border.
Context (W : World) (V : VOps) (live : phpmem -> N -> Prop) (look : phpmem -> N -> zcontent).
Context (table : phpmem -> N -> list (zkey * N) * nat).
Context (HE : PhpEngine W V live look table).
#[local] Set Default Proof Using "Type*".
#[local] Abbreviation Q := (phpq W).
#[local] Abbreviation call := (php W V _).
#[local] Abbreviation writes := (writes live look table).

(** The classes of the program are registered, and the list is another one
    than those whose objects are unwrapped. *)
Record registered (h : heap) : Prop := {
  rg_entries k : is_Some (entry_of k (php_of h));
  rg_list k : k <> PHPKListClass -> entry_of k (php_of h) <> entry_of PHPKListClass (php_of h);
  rg_closure : entry_of PHPKListClass (php_of h) <> Some (zend_ce_closure Q)
}.
Lemma registered_writes ws h h' : writes ws h h' -> registered h -> registered h'.
Proof using Type.
  intros Hw [H1 H2 H3]. split; [intros k|intros k Hk|]; rewrite !(wr_entries Hw); auto.
Qed.

(** A write to a zval that was not there. *)
Lemma writes_new ws z h h1 h2 :
  writes ws h h1 -> ~ live (phpmem_of h) z -> writes (z :: ws) h1 h2 -> writes ws h h2.
Proof.
  intros W1 Hz W2. split.
  - by rewrite (wr_next W2), (wr_next W1).
  - by rewrite (wr_vals W2), (wr_vals W1).
  - by rewrite (wr_objs W2), (wr_objs W1).
  - intros k. by rewrite (wr_entries W2), (wr_entries W1).
  - by rewrite (wr_global W2), (wr_global W1).
  - intros o Ho. rewrite (wr_kvalues W2) by (by apply (wr_live W1)). by apply (wr_kvalues W1).
  - intros a Ha. by apply (wr_live W2), (wr_live W1).
  - intros a Ha Hn. assert (a <> z) by (by intros ->).
    rewrite (wr_look W2); [by apply (wr_look W1)|by apply (wr_live W1)|set_solver].
  - intros a Ha Hn. assert (a <> z) by (by intros ->).
    rewrite (wr_table W2); [by apply (wr_table W1)|by apply (wr_live W1)|set_solver].
Qed.

(** ** To PHP *)

(** [z] is an object of the program of the class [k] for the value at [l]. *)
Definition wrapper (h : heap) (k : phpkclass) (z : N) (l : loc) : Prop :=
  exists o ce, live (phpmem_of h) o /\ look (phpmem_of h) z = ZObject o ce /\
    entry_of k (php_of h) = Some ce /\ php_kvalues (php_of h) !! o = Some (Some l).

Lemma wrap_kvalue_run k l z h :
  live (phpmem_of h) z -> registered h ->
  exists h', wrap_kvalue W V k l z h = (Ret tt, h') /\ writes [z] h h' /\ wrapper h' k z l.
Proof.
  intros Hz Hr. destruct (rg_entries _ Hr k) as [ce Hce].
  destruct (pe_object z ce h Hz) as ([] & h1 & E1 & W1 & o & Hno & Ho & Hx).
  set (h2 := set_php (z_with_kvalues (<[o := Some l]>)) h1).
  assert (zend_object_store_get_object Q (phpmem_of h1) z = o) as Hs
    by (by eapply pe_class; [apply (wr_live W1)|]).
  assert (php_kvalues (php_of h2) = <[o := Some l]> (php_kvalues (php_of h1))) as Hk2 by done.
  exists h2. split_and!.
  - unfold wrap_kvalue. step (the_php_run (entry_of k) h). rewrite Hce.
    step (eq_refl : some_or_undef (Some ce) h = (Ret ce, h)). step E1. unfold get_object.
    step (askz_run (fun m => zend_object_store_get_object Q m z) h1). rewrite Hs. exact (on_php_run _ h1).
  - destruct W1. split; try done; rewrite ?Hk2.
    + intros a Ha. rewrite lookup_insert_ne by (by intros <-). auto.
  - exists o, ce. split_and!; [done|done| |by rewrite Hk2, lookup_insert_eq].
    rewrite <- Hce. rewrite <- (wr_entries W1). by destruct k.
Qed.

Definition php_portable (v : value) : Prop :=
  match type v with
  | BOOL => is_Some (boolValue v)
  | STRING => exists s, stringValue v = Some s /\ no_nul s
  | _ => True
  end.
Definition kclass_of (t : vtype) : phpkclass :=
  match t with METHOD => PHPKMethodClass | LIST => PHPKListClass | _ => PHPKObjectClass end.
(** What a value is in PHP. *)
Definition in_php (v : value) (l : loc) (h : heap) (z : N) : Prop :=
  match type v with
  | LIST | OBJECT | METHOD => wrapper h (kclass_of (type v)) z l
  | INT | DOUBLE => look (phpmem_of h) z = ZDouble (numberValue v)
  | STRING => look (phpmem_of h) z = ZString (default [] (stringValue v))
  | BOOL => look (phpmem_of h) z = ZBool (default false (boolValue v))
  | NULLV | UNDEFINED | VOIDPTR => look (phpmem_of h) z = ZNull
  end.

Lemma ToPHPValue_run l v z h :
  vals h !! l = Some v -> php_portable v -> registered h -> live (phpmem_of h) z ->
  exists h', ToPHPValue W V l z h = (Ret tt, h') /\ writes [z] h h' /\ in_php v l h' z.
Proof.
  intros Hl Hp Hr Hz. unfold ToPHPValue, in_php, php_portable in *. pose proof (getv_run _ _ _ Hl) as Eg.
  pose proof (fun k => wrap_kvalue_run k l z h Hz Hr) as Hw. pose proof (pe_null z h Hz) as Hn.
  unfold IsBool, IsNumber, IsNull, IsUndefined, IsString, IsMethod, IsList, IsObject in *.
  destruct (type v) eqn:Ety.
  - destruct (pe_set_double z (numberValue v) h Hz) as ([] & h' & E & Hws & Hx). exists h'.
    split; [|by split]. step Eg. rewrite Ety. types. exact E.
  - destruct (pe_set_double z (numberValue v) h Hz) as ([] & h' & E & Hws & Hx). exists h'.
    split; [|by split]. step Eg. rewrite Ety. types. exact E.
  - destruct Hp as [b Hb]. destruct (pe_set_bool z b h Hz) as ([] & h' & E & Hws & Hx). exists h'.
    rewrite Hb. split; [|by split]. step Eg. rewrite Ety. types. unfold ToBool. rewrite Hb.
    by step (eq_refl : some_or_undef (Some b) h = (Ret b, h)).
  - destruct Hp as (s & Hs & Hnn). destruct (pe_set_string z s h Hz Hnn) as ([] & h' & E & Hws & Hx).
    exists h'. rewrite Hs. split; [|by split]. step Eg. rewrite Ety. types. unfold ToString. rewrite Hs.
    step (eq_refl : some_or_undef (Some s) h = (Ret s, h)). by rewrite (c_str_id s Hnn).
  - destruct (Hw PHPKListClass) as (h' & E & Hws & Hx). exists h'. split; [|by split].
    step Eg. rewrite Ety. types. exact E.
  - destruct (Hw PHPKObjectClass) as (h' & E & Hws & Hx). exists h'. split; [|by split].
    step Eg. rewrite Ety. types. exact E.
  - destruct (Hw PHPKMethodClass) as (h' & E & Hws & Hx). exists h'. split; [|by split].
    step Eg. rewrite Ety. types. exact E.
  - destruct Hn as ([] & h' & E & Hws & Hx). exists h'. split; [|by split]. step Eg. rewrite Ety. types. exact E.
  - destruct Hn as ([] & h' & E & Hws & Hx). exists h'. split; [|by split]. step Eg. rewrite Ety. types. exact E.
  - destruct Hn as ([] & h' & E & Hws & Hx). exists h'. split; [|by split]. step Eg. rewrite Ety. types. exact E.
Qed.

Lemma new_PHPValue_run l v h :
  vals h !! l = Some v -> php_portable v -> registered h ->
  exists z h', new_PHPValue W V l h = (Ret z, h') /\ writes [] h h' /\ live (phpmem_of h') z /\ in_php v l h' z.
Proof.
  intros Hl Hp Hr. destruct (pe_alloc h) as (z & h1 & E1 & W1 & Hnz & Hz & _).
  rewrite <- (wr_vals W1) in Hl.
  destruct (ToPHPValue_run l v z h1 Hl Hp (registered_writes _ _ _ W1 Hr) Hz) as (h2 & E2 & W2 & Hin).
  exists z, h2. unfold new_PHPValue. split_and!; [step E1; by step E2| |by apply (wr_live W2)|done].
  by eapply writes_new.
Qed.

(** ** And back *)

(** The value at [l] is that of the zval content [x]. *)
Definition scalar (x : zcontent) : Prop :=
  match x with ZArray _ | ZObject _ _ | ZResource => False | _ => True end.
Definition kroll_scalar (x : zcontent) (l : loc) (h : heap) : Prop :=
  match x with
  | ZNull => l = Null
  | ZBool b => exists w, vals h !! l = Some w /\ type w = BOOL /\ boolValue w = Some b
  | ZLong n => exists w, vals h !! l = Some w /\ type w = DOUBLE /\ numberValue w = double_of_int n
  | ZDouble d => exists w, vals h !! l = Some w /\ type w = DOUBLE /\ numberValue w = d
  | ZString s => exists w, vals h !! l = Some w /\ type w = STRING /\ stringValue w = Some (c_str s)
  | _ => False
  end.
Lemma kroll_scalar_kept x l h h' :
  (forall k w, vals h !! k = Some w -> vals h' !! k = Some w) -> kroll_scalar x l h -> kroll_scalar x l h'.
Proof using Type. intros Hv. destruct x; simpl; try done; intros (w & Hw & Hx); exists w; auto. Qed.

(** Only new values are there. *)
Definition only_values (h h' : heap) : Prop :=
  changed [] h h' /\ sys h' = sys h /\ (fresh_ok h -> fresh_ok h').
Lemma only_values_fresh v h : only_values h (with_fresh v h).
Proof using Type. split_and!; [apply changed_with_fresh|done|apply with_fresh_fresh_ok]. Qed.
Lemma only_values_trans h1 h2 h3 : only_values h1 h2 -> only_values h2 h3 -> only_values h1 h3.
Proof using Type. intros (C1 & S1 & F1) (C2 & S2 & F2). split_and!; [by etrans|congruence|auto]. Qed.

(** Every conversion makes a null value first. *)
Definition null_value : value := set_type NULLV (reset new_value).
Lemma PhpToKrollValue_start n z x h :
  live (phpmem_of h) z -> look (phpmem_of h) z = x ->
  PhpToKrollValue_fuel W V (S n) z h =
  (match ztype x with
   | IS_NULL => mret Null
   | IS_BOOL => NewBool (Z_BVAL_P Q (phpmem_of h) z)
   | IS_LONG => NewDouble (double_of_int (Z_LVAL_P Q (phpmem_of h) z))
   | IS_DOUBLE => NewDouble (Z_DVAL_P Q (phpmem_of h) z)
   | IS_STRING => s ← ztext W z; NewString s
   | IS_ARRAY =>
       l ← PHPHashTableToKList_with W V (PhpToKrollValue_fuel W V n) (Z_ARRVAL_P Q (phpmem_of h) z) false;
       NewList (Some l)
   | IS_OBJECT => object_to_kroll W V z
   | IS_RESOURCE => mret (next h)
   end) (with_fresh null_value h).
Proof.
  intros Hl Hx. cbn [PhpToKrollValue_fuel]. unfold NewNull, SetNull.
  step (new_with_run (fun v => set_type NULLV (reset v)) h). fold null_value.
  step (eq_refl : gets phpmem_of (with_fresh null_value h) = (Ret (phpmem_of h), with_fresh null_value h)).
  by rewrite pe_type, Hx.
Qed.

Lemma convert_scalar n z x h :
  live (phpmem_of h) z -> look (phpmem_of h) z = x -> scalar x ->
  exists l h', PhpToKrollValue_fuel W V (S n) z h = (Ret l, h') /\ kroll_scalar x l h' /\ only_values h h'.
Proof.
  intros Hl Hx Hs. set (h1 := with_fresh null_value h).
  assert (only_values h h1) as K1 by apply only_values_fresh.
  assert (forall g, exists l h', new_with (fun l => update_value l g) h1 = (Ret l, h') /\
    vals h' !! l = Some (g new_value) /\ only_values h h') as Hnew.
  { intros g. exists (next h1), (with_fresh (g new_value) h1). split_and!; [apply new_with_run|apply lookup_insert_eq|].
    eapply only_values_trans; [exact K1|apply only_values_fresh]. }
  rewrite (PhpToKrollValue_start n z x h Hl Hx). fold h1. destruct x; try done; cbn [ztype kroll_scalar].
  - by exists Null, h1.
  - rewrite (pe_bool _ _ _ Hl Hx). destruct (Hnew (fun v => set_bool b (reset v))) as (l & h' & E & Hv & K).
    exists l, h'. split_and!; [exact E|by eexists|done].
  - rewrite (pe_long _ _ _ Hl Hx).
    destruct (Hnew (fun v => set_number DOUBLE (double_of_int z0) (reset v))) as (l & h' & E & Hv & K).
    exists l, h'. split_and!; [exact E|by eexists|done].
  - rewrite (pe_double _ _ _ Hl Hx).
    destruct (Hnew (fun v => set_number DOUBLE d (reset v))) as (l & h' & E & Hv & K).
    exists l, h'. split_and!; [exact E|by eexists|done].
  - destruct (Hnew (fun v => set_string (c_str (c_str s)) (reset v))) as (l & h' & E & Hv & K).
    exists l, h'. split_and!; [|eexists; split_and!; [exact Hv|done|simpl; by rewrite c_str_idemp]|done].
    unfold ztext. step (askz_run (fun m => c_str (Z_STRVAL_P Q m z)) h1).
    change (phpmem_of h1) with (phpmem_of h). rewrite (pe_string _ _ _ Hl Hx). exact E.
Qed.

(** ** Both ways *)

(** A wrapper of an object or a method gives the value that it holds. *)
Lemma unwrap n k z l h :
  live (phpmem_of h) z -> wrapper h k z l -> k <> PHPKListClass ->
  PhpToKrollValue_fuel W V (S n) z h = (Ret l, with_fresh null_value h).
Proof.
  intros Hz (o & ce & Ho & Hx & He & Hk) Hne. rewrite (PhpToKrollValue_start n z _ h Hz Hx). cbn [ztype].
  set (h1 := with_fresh null_value h). unfold object_to_kroll.
  destruct (pe_class _ _ _ _ Hz Hx) as [Hce Hs].
  step (askz_run (fun m => class_entry Q m z) h1). change (phpmem_of h1) with (phpmem_of h). rewrite Hce.
  step (eq_refl : gets (fun h => s_php (sys h)) h1 = (Ret (php_of h), h1)).
  assert (bool_decide (PHPKObjectClassEntry (php_of h) = Some ce) ||
          bool_decide (PHPKMethodClassEntry (php_of h) = Some ce) = true) as ->.
  { apply orb_true_iff. destruct k; simpl in He; [left|right|done]; by apply bool_decide_eq_true. }
  unfold get_object. step (askz_run (fun m => zend_object_store_get_object Q m z) h1).
  change (phpmem_of h1) with (phpmem_of h). rewrite Hs. unfold kvalue_of.
  step (the_php_run php_kvalues h1). change (php_of h1) with (php_of h). rewrite Hk.
  by step (eq_refl : some_or_undef (Some (Some l)) h1 = (Ret (Some l), h1)).
Qed.

(** A list is not: its object becomes a proxy. *)
Lemma list_stays_wrapped n z l h :
  registered h -> live (phpmem_of h) z -> wrapper h PHPKListClass z l -> fresh_ok h ->
  exists l' h' w o, PhpToKrollValue_fuel W V (S n) z h = (Ret l', h') /\ vals h' !! l' = Some w /\
    type w = OBJECT /\ objectValue w = Some o /\ class_of h' o = Some (KPHPObject z) /\
    forall k v, vals h !! k = Some v -> vals h' !! k = Some v.
Proof.
  intros Hr Hz (so & ce & Ho & Hx & He & Hk) Hf. rewrite (PhpToKrollValue_start n z _ h Hz Hx). cbn [ztype].
  set (h1 := with_fresh null_value h). destruct (pe_class _ _ _ _ Hz Hx) as [Hce _].
  set (h2 := with_object (lit "KObject") (KPHPObject z) h1).
  destruct (pe_addref z h2) as ([] & h3 & E3 & W3 & _).
  set (v := set_object OBJECT (Some (next h1)) (reset new_value)).
  exists (next h3), (with_fresh v h3), v, (next h1). split_and!; try done.
  - unfold object_to_kroll. step (askz_run (fun m => class_entry Q m z) h1).
    change (phpmem_of h1) with (phpmem_of h). rewrite Hce.
    step (eq_refl : gets (fun h => s_php (sys h)) h1 = (Ret (php_of h), h1)).
    rewrite !bool_decide_eq_false_2; [cbn [orb]| | |].
    + unfold new_KPHPObject. rewrite st_bind_assoc.
      step (new_object_run (lit "KObject") (KPHPObject z) h1). fold h2.
      rewrite st_bind_assoc. step E3. step (eq_refl : (mret (next h1) : M loc) h3 = (Ret (next h1), h3)).
      apply (new_with_run (fun v => set_object OBJECT (Some (next h1)) (reset v)) h3).
    + intros ->. by apply (rg_closure _ Hr).
    + intros E. apply (rg_list _ Hr PHPKMethodClass); [done|]. by rewrite He.
    + intros E. apply (rg_list _ Hr PHPKObjectClass); [done|]. by rewrite He.
  - apply lookup_insert_eq.
  - unfold class_of. simpl. rewrite (wr_objs W3). simpl. by rewrite lookup_insert_eq.
  - intros k w Hw. simpl. rewrite (wr_vals W3). pose proof (lookup_lt_next _ _ _ Hf Hw).
    rewrite lookup_insert_ne by (rewrite (wr_next W3); simpl; lia). simpl.
    by rewrite lookup_insert_ne by lia.
Qed.

(** What a value is after both conversions. *)
Definition php_carried (v : value) (l l' : loc) (z : N) (h : heap) : Prop :=
  match type v with
  | INT | DOUBLE => exists w, vals h !! l' = Some w /\ type w = DOUBLE /\ numberValue w = numberValue v
  | BOOL => exists w, vals h !! l' = Some w /\ type w = BOOL /\ boolValue w = boolValue v
  | STRING => exists w, vals h !! l' = Some w /\ type w = STRING /\ stringValue w = stringValue v
  | OBJECT | METHOD => l' = l
  | LIST => exists w o, vals h !! l' = Some w /\ type w = OBJECT /\ objectValue w = Some o /\
      class_of h o = Some (KPHPObject z)
  | NULLV | UNDEFINED | VOIDPTR => l' = Null
  end.

Lemma php_back v l z n h :
  php_portable v -> registered h -> fresh_ok h -> live (phpmem_of h) z -> in_php v l h z ->
  exists l' h', PhpToKrollValue_fuel W V (S n) z h = (Ret l', h') /\ php_carried v l l' z h' /\
    forall k w, vals h !! k = Some w -> vals h' !! k = Some w.
Proof.
  intros Hp Hr Hf Hz Hin. unfold in_php, php_carried, php_portable in *.
  assert (forall x, look (phpmem_of h) z = x -> scalar x -> exists l' h',
    PhpToKrollValue_fuel W V (S n) z h = (Ret l', h') /\ kroll_scalar x l' h' /\
    forall k w, vals h !! k = Some w -> vals h' !! k = Some w) as Hsc.
  { intros x Hx Hs. destruct (convert_scalar n z x h Hz Hx Hs) as (l' & h' & E & Hk & Hc & _).
    exists l', h'. split_and!; [done|done|]. intros k w. by apply (changed_value []). }
  assert (forall k, wrapper h k z l -> k <> PHPKListClass -> exists l' h',
    PhpToKrollValue_fuel W V (S n) z h = (Ret l', h') /\ l' = l /\
    forall k w, vals h !! k = Some w -> vals h' !! k = Some w) as Hob.
  { intros k Hw Hk. exists l, (with_fresh null_value h). split_and!; [by eapply unwrap|done|].
    intros k' w Hw'. by apply fresh_vals. }
  destruct (type v) eqn:Ety; cbn [kclass_of] in Hin.
  - exact (Hsc _ Hin I).
  - exact (Hsc _ Hin I).
  - destruct Hp as [b Hb]. rewrite Hb in *. exact (Hsc (ZBool b) Hin I).
  - destruct Hp as (s & Hs & Hn). rewrite Hs in *. destruct (Hsc (ZString s) Hin I) as (l' & h' & E & (w & Hw & Ht & Hx) & Hk).
    exists l', h'. split_and!; [done| |done]. exists w. split_and!; [done|done|]. by rewrite Hx, c_str_id.
  - destruct (list_stays_wrapped n z l h Hr Hz Hin Hf) as (l' & h' & w & o & E & Hw & Ht & Ho & Hc & Hk).
    exists l', h'. split_and!; [done|by exists w, o|done].
  - by apply (Hob PHPKObjectClass).
  - by apply (Hob PHPKMethodClass).
  - exact (Hsc ZNull Hin I).
  - exact (Hsc ZNull Hin I).
  - exact (Hsc ZNull Hin I).
Qed.

(** C22: what goes to PHP and back. A value becomes a zval that fits: null, a
    truth value, a double, a string, or an object of the class for objects,
    methods or lists that holds the value. An object or a method, a proxy of PHP too,
    comes back as the very same value, a number as a double, a truth value or a
    text (without NUL) as an equal copy, null, undefined and void pointers as
    null; a list does not come back: it arrives as an object, the proxy of the
    [PHPKList] that was made for it. No value that there was changes. *)
Theorem php_value_roundtrip l v h :
  fresh_ok h -> vals h !! l = Some v -> php_portable v -> registered h -> 1 <= vFuel V ->
  exists z h1 l' h2, new_PHPValue W V l h = (Ret z, h1) /\ PhpToKrollValue W V z h1 = (Ret l', h2) /\
    in_php v l h1 z /\ php_carried v l l' z h2 /\
    forall k w, vals h !! k = Some w -> vals h2 !! k = Some w.
Proof.
  intros Hf Hl Hp Hr Hfuel. destruct (new_PHPValue_run l v h Hl Hp Hr) as (z & h1 & E1 & W1 & Hz & Hin).
  assert (fresh_ok h1) as Hf1 by (intros k; rewrite (wr_next W1), (wr_objs W1), (wr_vals W1); apply Hf).
  destruct (php_back v l z (vFuel V - 1) h1 Hp (registered_writes _ _ _ W1 Hr) Hf1 Hz Hin) as (l' & h2 & E2 & Hc & Hk).
  exists z, h1, l', h2. split; [done|]. split; [|split; [done|split; [done|]]].
  - unfold PhpToKrollValue. by replace (vFuel V) with (S (vFuel V - 1)) by lia.
  - intros k w. rewrite <- (wr_vals W1). apply Hk.
Qed.
End Border.

(** ** A witness *)
Definition demo_php_ops : VOps := vt SmallPhp.world 5.
(** The value at 3 is the object of the application; the classes of the program
    are the addresses 20 to 22. *)
Definition demo_php_value : value := set_object OBJECT (Some 2%N) (reset new_value).
Definition demo_php_heap : heap :=
  set_php (z_with_classes (Some 20%N) (Some 21%N) (Some 22%N)) (with_fresh demo_php_value demo_heap).

Lemma php_value_roundtrip_witness :
  exists z h1 h2, new_PHPValue SmallPhp.world demo_php_ops 3%N demo_php_heap = (Ret z, h1) /\
    PhpToKrollValue SmallPhp.world demo_php_ops z h1 = (Ret 3%N, h2).
Proof.
  destruct (php_value_roundtrip SmallPhp.world demo_php_ops SmallPhp.live SmallPhp.look SmallPhp.table
    (SmallPhp.engine _) 3%N demo_php_value demo_php_heap) as (z & h1 & l' & h2 & E1 & E2 & _ & Hc & _).
  - apply fresh_check_ok. vm_compute. reflexivity.
  - vm_compute. reflexivity.
  - exact I.
  - split.
    + intros []; eexists; reflexivity.
    + intros [] Hk; [discriminate..|by destruct Hk].
    + discriminate.
  - apply Nat.leb_le. vm_compute. reflexivity.
  - exists z, h1, h2. split; [exact E1|]. rewrite E2. exact (f_equal (fun l => (Ret l, h2)) Hc).
Defined.
