(* ===== verification/ApiLaws.v ===== *)
(** * ApiLaws: what the API objects promise to scripts

    A binding is an accessor object whose methods are the member functions
    of its class: reading [component.name] runs [getName]. The theorems
    follow such a read from the property to the state of the component that
    the binding stands for. *)

From S2P Require Import Prelude CppString FileUtils BootUtils EnvironmentUtils Application Logger.
From S2P Require Import System Double Heap Virtual KObject StaticBound StaticLaws ArgList.
From S2P Require Import ValueLaws Namespace Accessor Wrappers Events Blob AsyncJob Script ApiObjects Api.
From S2P Require Import Dispatch DispatchLaws AccessorLaws.
From stdpp Require Import options.

(** ** What the construction of a binding leaves alone *)

(** The class of an object, but for the length of a list. *)
Definition same_class (c c' : class) : Prop :=
  c' = c \/ exists obj n n', c = StaticBoundList obj n /\ c' = StaticBoundList obj n'.

(** [h'] has all of [h], with other properties in the objects of [ts] only and
    other lengths of lists in [ts] only. *)
Record kept (ts : list loc) (h h' : heap) : Prop := {
  kp_fresh : fresh_ok h';
  kp_vals l v : vals h !! l = Some v -> vals h' !! l = Some v;
  kp_objs o x : o ∉ ts -> objs h !! o = Some x -> objs h' !! o = Some x;
  kp_same o c : class_of h o = Some c -> exists c', class_of h' o = Some c' /\ same_class c c';
  kp_sys : sys h' = sys h
}.

Lemma same_class_refl c : same_class c c.
Proof. by left. Qed.
Lemma same_class_trans c1 c2 c3 : same_class c1 c2 -> same_class c2 c3 -> same_class c1 c3.
Proof.
  intros [->|(obj & n & n' & -> & ->)]; [done|]. intros [->|(obj' & m & m' & [= -> ->] & ->)]; right; eauto.
Qed.

Lemma kept_refl ts h : fresh_ok h -> kept ts h h.
Proof. split; eauto using same_class_refl. Qed.
Lemma kept_trans ts h1 h2 h3 : kept ts h1 h2 -> kept ts h2 h3 -> kept ts h1 h3.
Proof.
  intros [] []. split; auto; [|congruence]. intros o c Hc.
  destruct (kp_same0 o c Hc) as (c1 & Hc1 & H1). destruct (kp_same1 o c1 Hc1) as (c2 & Hc2 & H2).
  exists c2. eauto using same_class_trans.
Qed.
Lemma kp_class ts h h' o c :
  kept ts h h' -> class_of h o = Some c -> is_list_class c = false -> class_of h' o = Some c.
Proof.
  intros Hk Hc Hl. destruct (kp_same _ _ _ Hk o c Hc) as (c' & Hc' & [->|(? & ? & ? & -> & _)]); done.
Qed.
Lemma kept_weaken ts1 ts2 h h' : ts1 ⊆ ts2 -> kept ts1 h h' -> kept ts2 h h'.
Proof. intros Hs []. split; auto. Qed.

Lemma kept_grows ts h h' : grows h h' -> kept ts h h'.
Proof.
  intros (Hf & Ho & Hv & Hs). split; [done|done|by intros o x _; rewrite Ho| |done].
  intros o c. unfold class_of. rewrite Ho. eauto using same_class_refl.
Qed.

Lemma kept_object ts ty c h : fresh_ok h -> kept ts h (with_object ty c h).
Proof.
  intros Hf. assert (forall o x, objs h !! o = Some x -> o <> next h) as Hne.
  { intros o x Hx ->. destruct (Hf (next h)) as [H _]; [lia|]. congruence. }
  split; [|done| | |done].
  - intros l Hl. simpl in *. rewrite lookup_insert_ne by lia. apply Hf. lia.
  - intros o x _ Hx. simpl. by rewrite lookup_insert_ne by (apply not_eq_sym; eauto).
  - intros o c' Ho. destruct (class_of_is_Some _ _ _ Ho) as [x Hx]. unfold class_of in *. simpl.
    rewrite lookup_insert_ne by (apply not_eq_sym; eauto). eauto using same_class_refl.
Qed.

Lemma kept_properties ts o m h : fresh_ok h -> o ∈ ts -> kept ts h (with_properties o m h).
Proof.
  intros Hf Ho. split; [by apply with_properties_fresh_ok|done| | |done].
  - intros o' x Hts Hx. unfold with_properties. simpl. rewrite lookup_alter_ne; [done|set_solver].
  - intros o' c Hc. rewrite class_of_with_properties. eauto using same_class_refl.
Qed.

Lemma kept_list this obj n n' m h :
  fresh_ok h -> class_of h this = Some (StaticBoundList obj n) ->
  kept [this; obj] h (with_class this (StaticBoundList obj n') (with_properties obj m h)).
Proof.
  intros Hf Hc. pose proof (changed_list this obj (StaticBoundList obj n') m h) as Hch.
  split; [by apply Hch|done| | |done].
  - intros o x Ho Hx. eapply changed_object; eauto.
  - intros o c Ho. rewrite class_of_with_class by (apply is_Some_with_properties; eauto).
    rewrite class_of_with_properties. destruct (decide (o = this)) as [->|].
    + eexists. split; [done|]. rewrite Hc in Ho. injection Ho as <-. right. eauto.
    + eauto using same_class_refl.
Qed.

Lemma kept_props ts h h' o : kept ts h h' -> o ∉ ts -> is_Some (objs h !! o) -> props h' o = props h o.
Proof. intros Hk Ho [x Hx]. unfold props. by rewrite Hx, (kp_objs _ _ _ Hk o x Ho Hx). Qed.

Lemma kept_wf_value ts h h' v : kept ts h h' -> wf_value h v -> wf_value h' v.
Proof.
  intros Hk. assert (forall o x, objs h !! o = Some x -> exists x', objs h' !! o = Some x' /\
    is_list_class (o_class x') = is_list_class (o_class x) /\
    is_method_class (o_class x') = is_method_class (o_class x)) as H.
  { intros o x Hx. destruct (kp_same _ _ _ Hk o (o_class x)) as (c' & Hc' & Hs);
      [unfold class_of; by rewrite Hx|]. unfold class_of in Hc'.
    destruct (objs h' !! o) as [x'|]; [|done]. injection Hc' as <-. exists x'. split; [done|].
    destruct Hs as [->|(obj & n & n' & -> & ->)]; done. }
  unfold wf_value. destruct (type v); try done; intros (o & x & Ho & Hx & Hc);
    destruct (H o x Hx) as (x' & Hx' & Hl & Hm); exists o, x'; split_and!; congruence.
Qed.

Lemma kept_accessor_ok ts h h' o : kept ts h h' -> o ∉ ts -> accessor_ok h o -> accessor_ok h' o.
Proof.
  intros Hk Ho (Hf & (c & Hc & Ha) & Hp). split; [apply Hk|]. split.
  - exists c. split; [|done]. eapply kp_class; [done|done|by destruct c].
  - rewrite (kept_props _ _ _ _ Hk Ho) by eauto. intros k a Hka. destruct (Hp k a Hka) as (Hn & v & Hv & Hw).
    split; [done|]. exists v. split; [by eapply kp_vals|by eapply kept_wf_value].
Qed.

Lemma accessor_kept ts h h' o name :
  kept ts h h' -> o ∉ ts -> accessor_ok h o -> accessor h' o name = accessor h o name.
Proof.
  intros Hk Ho (_ & (c & Hc & _) & Hp). unfold accessor, accessor_in.
  assert (props h' o = props h o) as E by (eapply kept_props; eauto). rewrite E. f_equal.
  apply list_omap_ext, Forall_Forall2_diag, Forall_forall. intros k _. unfold method_at. rewrite E.
  destruct (props h o !! k) as [a|] eqn:Ea; [|done]. simpl.
  destruct (Hp k a Ea) as (_ & v & Hv & _). rewrite Hv. by rewrite (kp_vals _ _ _ Hk a v Hv).
Qed.

(** ** Binding methods *)

(** [name] is bound to the member function [m] of [o]. *)
Definition bound (h : heap) (o : loc) (name : str) (m : member) : Prop :=
  exists a v mo obj, props h o !! name = Some a /\ vals h !! a = Some v /\ type v = METHOD /\
    objectValue v = Some mo /\ class_of h mo = Some (StaticBoundMethod obj (Some (Member o m))).

Lemma bound_kept ts h h' o name m :
  kept ts h h' -> o ∉ ts -> bound h o name m -> bound h' o name m.
Proof.
  intros Hk Ho (a & v & mo & obj & Ha & Hv & Hty & Hov & Hc). exists a, v, mo, obj.
  assert (is_Some (objs h !! o)) as Hobj.
  { unfold props in Ha. destruct (objs h !! o); [eauto|done]. }
  split_and!; [by rewrite (kept_props _ _ _ _ Hk)|by eapply kp_vals|done|done|by apply (kp_class ts h)].
Qed.

(** None of the names is the setter of another one. *)
Definition no_setters (names : list str) : bool :=
  forallb (fun n => forallb (fun n' => bool_decide (lower n' <> lower (lit "set" ++ n))) names) names.

Lemma accessor_in_None h o lc ks :
  (forall k, k ∈ ks -> lower k <> lc) -> accessor_in h o lc ks = None.
Proof.
  intros Hks. unfold accessor_in. induction ks as [|k ks IH]; [done|]. simpl.
  rewrite decide_False by (apply Hks; constructor). simpl. apply IH. intros k' Hk'. apply Hks. by constructor.
Qed.

Lemma accessor_in_Some h o lc ks k m :
  k ∈ ks -> lower k = lc -> (forall k', k' ∈ ks -> lower k' = lc -> k' = k) -> method_at h o k = Some m ->
  accessor_in h o lc ks = Some m.
Proof.
  intros Hk Hlc Huniq Hm. unfold accessor_in. induction Hk as [k ks|k k' ks Hk IH].
  - simpl. by rewrite decide_True, Hm.
  - simpl. destruct (decide (lower k' = lc)) as [E|E].
    + assert (k' = k) as -> by (apply Huniq; [constructor|done]). by rewrite Hm.
    + simpl. apply IH; [done| |done]. intros k2 Hk2. apply Huniq. by constructor.
Qed.

Section Bind.
Context (W : World) (V : VOps).
Let D := dispatch W V.

Lemma vSet_accessor h o c name v :
  class_of h o = Some c -> is_accessor_class c = true ->
  vSet D o name v h = AccessorBoundObject_Set V o name v h.
Proof.
  intros Hc Ha. unfold D. cbn [vSet dispatch]. unfold dispatch_Set. step (class_at_run _ _ _ Hc).
  by destruct c.
Qed.
Lemma vGet_accessor h o c name :
  class_of h o = Some c -> is_accessor_class c = true ->
  vGet D o name h = AccessorBoundObject_Get V o name h.
Proof.
  intros Hc Ha. unfold D. cbn [vGet dispatch]. unfold dispatch_Get. step (class_at_run _ _ _ Hc).
  by destruct c.
Qed.

Context `{!AccessorDispatch V}.
#[local] Set Default Proof Using "All".

(** A property without a setter is stored. *)
Lemma store_run h o name v w :
  accessor_ok h o -> no_nul name -> setter h o name = None ->
  vals h !! v = Some w -> wf_value h w ->
  exists h', vSet D o name v h = (Ret tt, h') /\ kept [o] h h' /\
    props h' o = <[name := v]> (props h o) /\ accessor_ok h' o.
Proof.
  intros Hok Hn Hset Hv Hw. pose proof Hok as (Hf & (c & Hc & Ha) & Hp).
  rewrite (vSet_accessor h o c name v Hc Ha).
  destruct (accessor_Set_run V o name h v Hok) as (h1 & Hg & E). rewrite E, Hset. clear E.
  assert (class_of h1 o = Some c) as Hc1 by (unfold class_of; by rewrite (proj1 (proj2 Hg))).
  rewrite Set_run by eauto. eexists. split; [done|].
  assert (kept [o] h1 (with_properties o (<[name:=v]> (props h1 o)) h1)) as Hk.
  { apply kept_properties; [apply Hg|set_solver]. }
  split; [by eapply kept_trans; [apply kept_grows|]|].
  rewrite (grows_props h h1) in * by done. rewrite props_with_properties, decide_True by eauto.
  split; [done|].
  split; [apply Hk|]. split; [exists c; by rewrite class_of_with_properties|].
  rewrite props_with_properties, decide_True by eauto. intros k a Hka.
  assert (exists w, vals h !! a = Some w /\ wf_value h w /\ no_nul k) as (w' & Hw' & Hwf & Hk').
  { rewrite lookup_insert_Some in Hka. destruct Hka as [[<- <-]|[_ Hka]]; [by exists w|].
    destruct (Hp k a Hka) as (? & w' & ? & ?). by exists w'. }
  split; [done|]. exists w'. split; [apply Hg, Hw'|].
  eapply kept_wf_value; [exact Hk|]. eapply wf_value_grows; [apply Hg|done].
Qed.

Lemma Bind_run h o name m :
  accessor_ok h o -> no_nul name -> setter h o name = None ->
  exists h', Bind D o name m h = (Ret tt, h') /\ kept [o] h h' /\ accessor_ok h' o /\
    bound h' o name m /\ (forall n, n <> name -> props h' o !! n = props h o !! n).
Proof.
  intros Hok Hn Hset. pose proof Hok as (Hf & (c & Hc & Ha) & _).
  unfold Bind, new_StaticBoundMethod, default_StaticBoundObject, new_StaticBoundObject.
  rewrite st_bind_assoc. step (new_object_run (lit "StaticBoundObject") StaticBoundObject h).
  set (h1 := with_object _ _ h). assert (kept [] h h1) as K1 by by apply kept_object.
  step (new_object_run (lit "StaticBoundMethod") (StaticBoundMethod (next h) (Some (Member o m))) h1).
  set (h2 := with_object _ _ h1). assert (kept [] h1 h2) as K2 by by apply kept_object, K1.
  step (new_with_run (fun v => set_object METHOD (Some (next h1)) (reset v)) h2).
  set (v := set_object METHOD _ _). set (h3 := with_fresh v h2).
  assert (kept [] h2 h3) as K3 by by apply kept_grows, grows_fresh, K2.
  pose proof (kept_trans _ _ _ _ (kept_trans _ _ _ _ K1 K2) K3) as K. clear K1 K2 K3.
  assert (o ∉ ([] : list loc)) as Hnil by by apply not_elem_of_nil.
  assert (class_of h3 (next h1) = Some (StaticBoundMethod (next h) (Some (Member o m)))) as Hm.
  { unfold class_of, h3, h2. simpl. by rewrite lookup_insert_eq. }
  assert (vals h3 !! next h2 = Some v) as Hv by apply lookup_insert_eq.
  destruct (store_run h3 o name (next h2) v) as (h4 & E4 & K4 & Hp4 & Hok4);
    [by eapply kept_accessor_ok|done|by unfold setter; rewrite (accessor_kept [] h)|done| |].
  { unfold class_of in Hm. destruct (objs h3 !! next h1) as [x|] eqn:Hx; [|done]. injection Hm as Hm.
    exists (next h1), x. by rewrite Hm. }
  exists h4. split; [exact E4|].
  split; [eapply kept_trans; [eapply kept_weaken, K; set_solver|exact K4]|]. split; [done|].
  rewrite Hp4, (kept_props [] h) by eauto. split.
  - exists (next h2), v, (next h1), (next h). rewrite Hp4, lookup_insert_eq.
    split_and!; [done|by eapply kp_vals|done|done|by apply (kp_class [o] h3)].
  - intros n Hne. by rewrite lookup_insert_ne.
Qed.
End Bind.

(** ** Objects with bound methods *)

Lemma bound_kept_props ts h h' o name m :
  kept ts h h' -> props h' o !! name = props h o !! name -> bound h o name m -> bound h' o name m.
Proof.
  intros Hk Hp (a & v & mo & obj & Ha & Hv & Hty & Hov & Hc). exists a, v, mo, obj.
  split_and!; [by rewrite Hp|by eapply kp_vals|done|done|by apply (kp_class ts h)].
Qed.

Lemma no_setters_spec names n n' :
  no_setters names = true -> n ∈ names -> n' ∈ names -> lower n' <> lower (lit "set" ++ n).
Proof.
  unfold no_setters. rewrite forallb_forall. intros H Hn Hn'. apply list_elem_of_In in Hn, Hn'.
  specialize (H n Hn). rewrite forallb_forall in H. specialize (H n' Hn').
  by apply bool_decide_eq_true in H.
Qed.

(** The names are NUL-free, different even when case is ignored, and none is
    the setter of another. *)
Definition good_names (names : list str) : bool :=
  no_setters names && bool_decide (NoDup (map lower names)) && bool_decide (Forall no_nul names).

Section BindAll.
Context (W : World) (V : VOps) `{!AccessorDispatch V}.
#[local] Set Default Proof Using "All".

Lemma bind_all_run names ms : forall h o,
  no_setters names = true -> Forall no_nul names -> map fst ms ⊆ names -> NoDup (map fst ms) ->
  accessor_ok h o -> (forall k, is_Some (props h o !! k) -> k ∈ names) ->
  exists h', bind_all (dispatch W V) o ms h = (Ret tt, h') /\ kept [o] h h' /\ accessor_ok h' o /\
    (forall k, is_Some (props h' o !! k) -> k ∈ names) /\
    (forall n m, (n, m) ∈ ms -> bound h' o n m) /\
    (forall n, n ∉ map fst ms -> props h' o !! n = props h o !! n).
Proof.
  induction ms as [|[name m] ms IH]; intros h o Hset Hnul Hsub Hnd Hok Hkeys.
  { exists h. split_and!; [done|by apply kept_refl, Hok|done|done|by intros ?? ?%not_elem_of_nil|done]. }
  cbn [map fst] in *. apply NoDup_cons in Hnd as [Hfresh Hnd].
  assert (name ∈ names) as Hname by (apply Hsub; constructor).
  destruct (Bind_run W V h o name m Hok) as (h1 & E1 & K1 & Hok1 & Hb & Hp1).
  { by apply (proj1 (Forall_forall _ _) Hnul). }
  { apply accessor_in_None. intros k Hk%sorted_keys_spec%Hkeys. by eapply no_setters_spec. }
  destruct (IH h1 o) as (h2 & E2 & K2 & Hok2 & Hkeys2 & Hall & Hp2);
    [done|done|set_solver|done|done| |].
  { intros k Hk. destruct (decide (k = name)) as [->|Hne]; [done|]. apply Hkeys. by rewrite <- Hp1. }
  exists h2. split; [unfold bind_all; cbn [st_fold]; by step E1|].
  split; [by eapply kept_trans|]. split; [done|]. split; [done|]. split.
  - intros n m' [[= -> ->]|Hin]%elem_of_cons; [|by apply Hall].
    eapply bound_kept_props; [exact K2|by apply Hp2|done].
  - intros n Hn. rewrite Hp2 by set_solver. apply Hp1. set_solver.
Qed.

(** [o] is a binding of class [c] with the methods [ms] and nothing else. *)
Record binding (h : heap) (o : loc) (c : class) (ms : list (str * member)) : Prop := {
  bd_ok : accessor_ok h o;
  bd_class : class_of h o = Some c;
  bd_keys k : is_Some (props h o !! k) -> k ∈ map fst ms;
  bd_bound n m : (n, m) ∈ ms -> bound h o n m
}.

Lemma new_binding_run ty c ms h :
  fresh_ok h -> is_accessor_class c = true -> good_names (map fst ms) = true ->
  exists h', (o ← new_object ty c; bind_all (dispatch W V) o ms;; mret o) h = (Ret (next h), h') /\
    kept [] h h' /\ binding h' (next h) c ms.
Proof.
  intros Hf Ha Hgood. unfold good_names in Hgood.
  apply andb_true_iff in Hgood as [[Hset Hlow%bool_decide_eq_true]%andb_true_iff Hnul%bool_decide_eq_true].
  set (h1 := with_object ty c h). assert (kept [] h h1) as K1 by by apply kept_object.
  assert (class_of h1 (next h) = Some c) as Hc by (unfold class_of, h1; simpl; by rewrite lookup_insert_eq).
  assert (props h1 (next h) = ∅) as Hp by (unfold props, h1; simpl; by rewrite lookup_insert_eq).
  destruct (bind_all_run (map fst ms) ms h1 (next h)) as (h2 & E & K2 & Hok & Hkeys & Hall & _);
    [done|done|done|by apply NoDup_fmap_1 in Hlow| |by rewrite Hp; intros k [? ?%lookup_empty_Some]|].
  { split; [apply K1|]. split; [by exists c|]. by rewrite Hp. }
  exists h2. step (new_object_run ty c h). fold h1. step E. split; [done|]. split.
  - assert (forall o x, objs h !! o = Some x -> o ∉ [next h]) as Hne.
    { intros o x Hx ->%list_elem_of_singleton. destruct (Hf (next h)) as [H _]; [lia|]. congruence. }
    destruct K2. split; [done| | | |].
    + intros l v Hv. by apply kp_vals0.
    + intros o x _ Hx. apply kp_objs0; [by eapply Hne|]. by apply (kp_objs _ _ _ K1); [set_solver|].
    + intros o c' Hc'. destruct (kp_same _ _ _ K1 o c' Hc') as (c1 & Hc1 & H1).
      destruct (kp_same0 o c1 Hc1) as (c2 & Hc2 & H2). eauto using same_class_trans.
    + rewrite kp_sys0. apply K1.
  - split; [done|eapply kp_class; [done|done|by destruct c]|done|done].
Qed.
End BindAll.

Lemma binding_kept ts h h' o c ms :
  kept ts h h' -> o ∉ ts -> binding h o c ms -> binding h' o c ms.
Proof.
  intros Hk Ho [Hok Hc Hkeys Hb].
  assert (is_list_class c = false).
  { destruct Hok as (_ & (c' & Hc' & Ha) & _). assert (c' = c) as -> by congruence. by destruct c. }
  split; [by eapply kept_accessor_ok|by apply (kp_class ts h)| |].
  - rewrite (kept_props ts h h') by eauto. done.
  - intros n m Hin. eapply bound_kept; eauto.
Qed.

(** ** Reading a property *)

Lemma method_at_bound h o name m :
  bound h o name m -> exists mo obj, method_at h o name = Some mo /\
    class_of h mo = Some (StaticBoundMethod obj (Some (Member o m))).
Proof.
  intros (a & v & mo & obj & Ha & Hv & Hty & Hov & Hc). exists mo, obj. split; [|done].
  unfold method_at. rewrite Ha. simpl. rewrite Hv. simpl. unfold IsMethod. by rewrite Hty.
Qed.

Section Read.
Context (W : World) (k : nat).

(** The method of a binding whose name matches, and what calling it runs. *)
Lemma accessor_binding h o c ms name key m :
  binding h o c ms -> good_names (map fst ms) = true -> (key, m) ∈ ms -> lower key = lower name ->
  exists mo obj, accessor h o name = Some mo /\
    class_of h mo = Some (StaticBoundMethod obj (Some (Member o m))).
Proof.
  intros [Hok Hc Hkeys Hb] Hgood Hin Hlow.
  destruct (method_at_bound _ _ _ _ (Hb _ _ Hin)) as (mo & obj & Hm & Hmo). exists mo, obj.
  split; [|done]. unfold good_names in Hgood.
  apply andb_true_iff in Hgood as [[_ Hnd%bool_decide_eq_true]%andb_true_iff _].
  apply (accessor_in_Some h o _ _ key); [|done| |done].
  - apply sorted_keys_spec. unfold method_at in Hm. by destruct (props h o !! key); [eauto|].
  - intros k' Hk'%sorted_keys_spec%Hkeys Hl.
    assert (key ∈ map fst ms) as Hkey by (by apply (list_elem_of_fmap_2 fst ms (key, m))).
    apply list_elem_of_lookup in Hk' as [i Hi], Hkey as [j Hj].
    assert (i = j) as ->; [|congruence]. eapply (NoDup_lookup _ _ _ (lower name) Hnd).
    + by rewrite list_lookup_fmap, Hi, <- Hl.
    + by rewrite list_lookup_fmap, Hj, <- Hlow.
Qed.

Lemma accessor_no_binding h o c ms name :
  binding h o c ms -> forallb (fun n => bool_decide (lower n <> lower name)) (map fst ms) = true ->
  accessor h o name = None.
Proof.
  intros [_ _ Hkeys _] Hno. rewrite forallb_forall in Hno. apply accessor_in_None.
  intros k' Hk'%sorted_keys_spec%Hkeys. apply list_elem_of_In, Hno in Hk'.
  by apply bool_decide_eq_true in Hk'.
Qed.

Lemma call_bound_run h mo obj o m args :
  class_of h mo = Some (StaticBoundMethod obj (Some (Member o m))) ->
  vCall (vt W (S (S k))) mo args h
  = (run_callback W (vt W k) (Member o m) args (next h);; mret (next h)) (with_fresh new_value h).
Proof.
  intros Hmo. cbn [vt vCall dispatch]. unfold dispatch_Call. step (class_at_run _ _ _ Hmo).
  unfold StaticBoundMethod_Call. step (eq_refl : NewUndefined h = (Ret (next h), with_fresh new_value h)).
  assert (method_fields mo (with_fresh new_value h) = (Ret (obj, Some (Member o m)), with_fresh new_value h))
    as E.
  { unfold method_fields, geto, mbind, st_bind. unfold class_of in Hmo. simpl.
    destruct (objs h !! mo) as [x|]; [|done]. simpl in Hmo. injection Hmo as Hmo. by rewrite Hmo. }
  by step E.
Qed.

(** Which member function a read of [name] runs. *)
Definition getter_member (ms : list (str * member)) (name : str) : option member :=
  match head (filter (fun km : str * member => lower km.1 = lower (lit "get" ++ name)) ms) with
  | Some (_, m) => Some m
  | None => snd <$> head (filter (fun km : str * member => lower km.1 = lower (lit "is" ++ name)) ms)
  end.

Lemma head_filter_elem {A} (P : A -> Prop) `{!forall x, Decision (P x)} l x :
  head (filter P l) = Some x -> x ∈ l /\ P x.
Proof.
  intros E. assert (x ∈ filter P l) as Hx by (destruct (filter P l); simplify_eq/=; constructor).
  by apply list_elem_of_filter in Hx as [? ?].
Qed.
Lemma head_filter_none (ms : list (str * member)) lc :
  head (filter (fun km : str * member => lower km.1 = lc) ms) = None ->
  forallb (fun n => bool_decide (lower n <> lc)) (map fst ms) = true.
Proof.
  induction ms as [|[n m] ms IH]; [done|]. rewrite filter_cons. simpl. intros H.
  destruct (decide (lower n = lc)); [done|]. by rewrite bool_decide_eq_true_2, IH.
Qed.

Lemma binding_get_run h o c ms name m :
  binding h o c ms -> is_accessor_class c = true -> good_names (map fst ms) = true ->
  getter_member ms name = Some m ->
  exists h1, grows h h1 /\
    vGet (vt W (S (S (S k)))) o name h
    = (run_callback W (vt W k) (Member o m) [] (next h1);; mret (next h1)) (with_fresh new_value h1).
Proof.
  intros Hbd Ha Hgood Hm. destruct (accessor_Get_run (vt W (S (S k))) o name h (bd_ok _ _ _ _ Hbd))
    as (h1 & Hg & E). exists h1. split; [done|].
  change (vt W (S (S (S k)))) with (dispatch W (vt W (S (S k)))).
  rewrite (vGet_accessor W _ h o c name (bd_class _ _ _ _ Hbd) Ha), E.
  assert (exists mo obj, getter h o name = Some mo /\
            class_of h mo = Some (StaticBoundMethod obj (Some (Member o m)))) as (mo & obj & -> & Hmo).
  { unfold getter_member in Hm. unfold getter.
    destruct (head (filter _ ms)) as [[key m']|] eqn:Eget.
    - injection Hm as ->. apply head_filter_elem in Eget as [Hin Hlow].
      destruct (accessor_binding h o c ms _ key m Hbd Hgood Hin Hlow) as (mo & obj & -> & ?). eauto.
    - rewrite (accessor_no_binding h o c ms _ Hbd (head_filter_none _ _ Eget)).
      apply fmap_Some in Hm as ([key m'] & Eis & ->).
      apply head_filter_elem in Eis as [Hin Hlow].
      destruct (accessor_binding h o c ms _ key m' Hbd Hgood Hin Hlow) as (mo & obj & -> & ?). eauto. }
  apply (call_bound_run h1 mo obj). unfold class_of. by rewrite (proj1 (proj2 Hg)).
Qed.
End Read.

(** A read of a member function that sets its result from the state. *)
Lemma binding_read_value W k h o c ms name m (f : value -> value) :
  binding h o c ms -> is_accessor_class c = true -> good_names (map fst ms) = true ->
  getter_member ms name = Some m ->
  (forall h1 r, class_of h1 o = Some c -> sys h1 = sys h -> is_Some (vals h1 !! r) ->
     run_callback W (vt W k) (Member o m) [] r h1 = update_value r f h1) ->
  exists r h', vGet (vt W (S (S (S k)))) o name h = (Ret r, h') /\ vals h' !! r = Some (f new_value) /\
    kept [] h h'.
Proof.
  intros Hbd Ha Hgood Hm Hrun.
  destruct (binding_get_run W k h o c ms name m Hbd Ha Hgood Hm) as (h1 & Hg & ->).
  set (h2 := with_fresh new_value h1). pose proof Hg as (Hf1 & Ho1 & Hv1 & Hs1).
  assert (vals h2 !! next h1 = Some new_value) as Hnew by apply lookup_insert_eq.
  exists (next h1), (with_vals (<[next h1 := f new_value]>) h2).
  erewrite st_bind_Ret; [|rewrite Hrun; [by apply update_value_run| |exact Hs1|by eauto]]; last first.
  { unfold class_of, h2. simpl. rewrite Ho1. apply (bd_class _ _ _ _ Hbd). }
  split; [done|]. split; [apply lookup_insert_eq|].
  assert (with_vals (<[next h1:=f new_value]>) h2 = with_fresh (f new_value) h1) as ->.
  { unfold h2, with_fresh, with_vals. simpl. by rewrite insert_insert_eq. }
  apply kept_grows. eapply grows_trans; [exact Hg|]. by apply grows_fresh.
Qed.

Lemma lower_app s t : lower (s ++ t) = lower s ++ lower t.
Proof. apply map_app. Qed.
Lemma getter_member_case ms n n' : lower n' = lower n -> getter_member ms n' = getter_member ms n.
Proof. intros E. unfold getter_member. by rewrite !lower_app, E. Qed.

(** The same for member functions that set their result from what [fetch]
    gives. *)
Lemma fetch_read {A} W k h o c ms (fetch : M A) (a : A) name name' :
  binding h o c ms -> is_accessor_class c = true -> good_names (map fst ms) = true ->
  lower name' = lower name ->
  (forall h1, class_of h1 o = Some c -> sys h1 = sys h -> fetch h1 = (Ret a, h1)) ->
  forall m f, getter_member ms name = Some m ->
    (forall h1 r, fetch h1 = (Ret a, h1) ->
       run_callback W (vt W k) (Member o m) [] r h1 = update_value r f h1) ->
    exists r h', vGet (vt W (S (S (S k)))) o name' h = (Ret r, h') /\
      vals h' !! r = Some (f new_value) /\ kept [] h h'.
Proof.
  intros Hbd Ha Hgood Hlow Hfetch m f Hm Hrun.
  apply (binding_read_value W k h o c ms name' m); [done..|by rewrite (getter_member_case _ _ _ Hlow)|].
  intros h1 r Hcl Hs _. by apply Hrun, Hfetch.
Qed.

(** Goes through the fields of a view: [Hread] is an instance of
    [fetch_read], the hints of [views] unfold the member functions. *)
Create HintDb views.
Ltac each_field Hin Hread :=
  repeat (apply elem_of_cons in Hin as [[= -> ->]|Hin];
    [eapply (Hread _ (fun w => _ (reset w))); [vm_compute; reflexivity|];
     let E := fresh "E" in intros ? ? E; cbn [run_callback]; autounfold with views; step E; reflexivity|]);
  by apply not_elem_of_nil in Hin.

(** ** Components *)

Lemma with_sys_id h : with_sys (fun _ => sys h) h = h.
Proof. by destruct h. Qed.
Lemma with_boot_id s : with_boot (s_boot s) s = s.
Proof. by destruct s. Qed.

Lemma comp_run h p c :
  comps (s_boot (sys h)) !! p = Some c -> on_boot (comp p) h = (Ret c, h).
Proof.
  intros Hc. unfold on_boot, on_sys, zoom, comp. rewrite Hc. by rewrite with_boot_id, with_sys_id.
Qed.

Lemma the_component_run h o p c :
  class_of h o = Some (ComponentBinding p) -> comps (s_boot (sys h)) !! p = Some c ->
  the_component o h = (Ret c, h).
Proof.
  intros Ho Hc. unfold the_component. erewrite st_bind_Ret; [by apply comp_run|].
  unfold component_pointer, geto, mbind, st_bind. unfold class_of in Ho.
  destruct (objs h !! o) as [x|]; [|done]. injection Ho as Ho. by rewrite Ho.
Qed.

(** What a script sees of a component. *)
Definition component_view (c : KComponent) : list (str * value) := [
  (lit "type", set_number INT (double_of_int (component_type_int (c_type c))) (reset new_value));
  (lit "name", set_string (c_str (c_name c)) (reset new_value));
  (lit "version", set_string (c_str (c_version c)) (reset new_value));
  (lit "path", set_string (c_str (c_path c)) (reset new_value));
  (lit "bundled", set_bool (c_bundled c) (reset new_value))].

(** [o] is the binding of the component [p]. *)
Definition component_object (h : heap) (o : loc) (p : SharedComponent) : Prop :=
  binding h o (ComponentBinding p) component_methods.

Lemma component_names_good : good_names (map fst component_methods) = true.
Proof. vm_compute. reflexivity. Qed.

Lemma new_ComponentBinding_run W n p h :
  fresh_ok h -> exists h', new_ComponentBinding (vt W (S (S n))) p h = (Ret (next h), h') /\
    kept [] h h' /\ component_object h' (next h) p.
Proof.
  intros Hf. apply (new_binding_run W (vt W (S n))); [done|done|]. apply component_names_good.
Qed.

#[export] Hint Unfold Component_GetType Component_GetName Component_GetVersion Component_GetPath
  Component_IsBundled : views.

(** A component binding shows its component: the properties type, name,
    version, path and bundled (the case of their names does not matter) of
    a new ComponentBinding, and of every one whose methods are intact, read
    the fields that the component has at the time of the read, which
    changes nothing else; virtual calls nested three deep are enough. *)
Theorem component_binding_view W k h p :
  fresh_ok h ->
  (exists h', new_ComponentBinding (vt W (S (S k))) p h = (Ret (next h), h') /\ kept [] h h' /\
     component_object h' (next h) p) /\
  (forall o c name name' v, component_object h o p -> comps (s_boot (sys h)) !! p = Some c ->
     (name, v) ∈ component_view c -> lower name' = lower name ->
     exists r h', vGet (vt W (S (S (S k)))) o name' h = (Ret r, h') /\ vals h' !! r = Some v /\
       kept [] h h').
Proof.
  intros Hf. split; [by apply new_ComponentBinding_run|].
  intros o c name name' v Hbd Hc Hin Hlow.
  pose proof (fetch_read W k h o _ _ (the_component o) c name name' Hbd eq_refl component_names_good Hlow)
    as Hread.
  unfold component_view in Hin. each_field Hin (fun m f => Hread
    (fun h1 Hcl Hs => the_component_run h1 o p c Hcl (eq_trans (f_equal (fun s => comps (s_boot s) !! p) Hs) Hc)) m f).
Qed.

(** A process with one installed component. *)
Definition demo_component : KComponent :=
  {| c_type := RUNTIME; c_name := lit "runtime"; c_version := lit "1.2"; c_path := lit "/opt/runtime";
     c_bundled := false |}.
Definition demo_component_heap : heap :=
  with_sys (with_boot {| comps := [demo_component]; installedComponents := [0] |}) initial_heap.

Lemma demo_component_heap_fresh : fresh_ok demo_component_heap.
Proof. apply fresh_check_ok. vm_compute. reflexivity. Qed.

Lemma component_binding_view_witness :
  exists o h r h', new_ComponentBinding (vt quiet_world 3) 0 demo_component_heap = (Ret o, h) /\
    vGet (vt quiet_world 4) o (lit "VERSION") h = (Ret r, h') /\
    vals h' !! r = Some (set_string (lit "1.2") (reset new_value)).
Proof.
  destruct (component_binding_view quiet_world 1 demo_component_heap 0 demo_component_heap_fresh)
    as [(h & E & K & Hb) _].
  destruct (component_binding_view quiet_world 1 h 0 (kp_fresh _ _ _ K)) as [_ Hread].
  destruct (Hread (next demo_component_heap) demo_component (lit "version") (lit "VERSION")
    (set_string (lit "1.2") (reset new_value)) Hb) as (r & h' & E' & Hr & _).
  - rewrite (kp_sys _ _ _ K). reflexivity.
  - vm_compute. do 2 right. left.
  - reflexivity.
  - exists (next demo_component_heap), h, r, h'. split_and!; [exact E|exact E'|exact Hr].
Defined.
