(* ===== verification/ApiListLaws.v ===== *)
(** * ApiListLaws: the lists that the API functions hand out

    A vector of components or dependencies becomes a list of bindings, one
    for each element in the same order; with it, what a script gets from
    [API.getInstalledComponents] and [Application.getDependencies]. *)

From S2P Require Import Prelude CppString FileUtils BootUtils EnvironmentUtils Application Logger.
From S2P Require Import System Double Heap Virtual KObject StaticBound StaticLaws ArgList.
From S2P Require Import Accessor ApiObjects Api Dispatch DispatchLaws AccessorLaws ApiLaws.
From stdpp Require Import options.

(** ** Lists of bindings *)

Definition object_value (o : loc) : value := set_object OBJECT (Some o) (reset new_value).
Definition list_value (o : loc) : value := set_object LIST (Some o) (reset new_value).

(** [v] holds a binding of class [c] with the methods [ms]. *)
Definition holds_binding (h : heap) (v : loc) (c : class) (ms : list (str * member)) : Prop :=
  exists o, vals h !! v = Some (object_value o) /\ binding h o c ms.

(** [l] is a list of bindings of the classes [cs]. *)
Definition binding_list (h : heap) (l : loc) (cs : list class) (ms : list (str * member)) : Prop :=
  exists obj vs, list_repr h l obj vs /\ Forall2 (fun v c => holds_binding h v c ms) vs cs.

Lemma list_repr_kept h h' l obj vs : kept [] h h' -> list_repr h l obj vs -> list_repr h' l obj vs.
Proof.
  intros Hk Hr. assert (forall o c, class_of h o = Some c -> objs h' !! o = objs h !! o) as Ho.
  { intros o c Hc. destruct (class_of_is_Some _ _ _ Hc) as [x Hx]. rewrite Hx.
    apply (kp_objs _ _ _ Hk); [apply not_elem_of_nil|done]. }
  destruct Hr as [Hc Hobj Hn Hit]. pose proof (Ho _ _ Hc) as E1. pose proof (Ho _ _ Hobj) as E2.
  unfold class_of, props in *. split; unfold class_of, props; rewrite ?E1, ?E2; done.
Qed.

(** A list is not an accessor object. *)
Lemma binding_not_list h o c ms l obj vs :
  list_repr h l obj vs -> binding h o c ms -> o ∉ [l; obj].
Proof.
  intros Hr [(_ & (c' & Hc & Ha) & _) _ _ _] Ho.
  apply elem_of_cons in Ho as [->|Ho]; [|apply list_elem_of_singleton in Ho as ->].
  - rewrite (lr_class _ _ _ _ Hr) in Hc. by injection Hc as <-.
  - rewrite (lr_object _ _ _ _ Hr) in Hc. by injection Hc as <-.
Qed.

Lemma holds_binding_kept ts h h' v c ms :
  kept ts h h' -> (forall o, binding h o c ms -> o ∉ ts) ->
  holds_binding h v c ms -> holds_binding h' v c ms.
Proof.
  intros Hk Hts (o & Hv & Hb). exists o. split; [by eapply kp_vals|].
  eapply binding_kept; eauto.
Qed.

(** Objects made after [h] do not count. *)
Lemma kept_drop ts h h1 h2 :
  kept [] h h1 -> kept ts h1 h2 -> (forall o, o ∈ ts -> objs h !! o = None) -> kept [] h h2.
Proof.
  intros K1 K2 Hts. split; [apply K2|intros; by eapply kp_vals, kp_vals| | |].
  - intros o x _ Hx. apply (kp_objs _ _ _ K2); [intros Ho; by rewrite (Hts o Ho) in Hx|].
    by apply (kp_objs _ _ _ K1); [apply not_elem_of_nil|].
  - intros o c Hc. destruct (kp_same _ _ _ K1 o c Hc) as (c1 & Hc1 & H1).
    destruct (kp_same _ _ _ K2 o c1 Hc1) as (c2 & Hc2 & H2). eauto using same_class_trans.
  - by rewrite (kp_sys _ _ _ K2), (kp_sys _ _ _ K1).
Qed.

Lemma new_list_run ty h :
  fresh_ok h -> exists h', new_StaticBoundList ty h = (Ret (N.succ (next h)), h') /\ kept [] h h' /\
    list_repr h' (N.succ (next h)) (next h) [].
Proof.
  intros Hf. unfold new_StaticBoundList, default_StaticBoundObject, new_StaticBoundObject.
  step (new_object_run (lit "StaticBoundObject") StaticBoundObject h). set (h1 := with_object _ _ h).
  assert (kept [] h h1) as K1 by by apply kept_object.
  exists (with_object ty (StaticBoundList (next h) 0) h1). split; [done|]. split.
  { eapply kept_trans; [exact K1|]. by apply kept_object, K1. }
  split; unfold class_of, h1; simpl; [|  |lia|intros i v; by rewrite lookup_nil].
  - by rewrite lookup_insert_eq.
  - rewrite lookup_insert_ne by lia. by rewrite lookup_insert_eq.
Qed.

Section Build.
Context (V : VOps) `{!StaticDispatch V} (ms : list (str * member)).
#[local] Set Default Proof Using "All".

Lemma append_kept h l obj vs v :
  fresh_ok h -> list_repr h l obj vs -> (Z.of_nat (S (length vs)) < 2 ^ 32)%Z ->
  exists h', vAppend V l v h = (Ret tt, h') /\ kept [l; obj] h h' /\ list_repr h' l obj (vs ++ [v]).
Proof.
  intros Hf Hr Hlen. pose proof (lr_class _ _ _ _ Hr) as Hc.
  destruct (Append_repr h l obj vs v Hr Hlen) as (h' & E & Hr' & _). exists h'.
  rewrite (sd_Append _ _ _ _ _ Hc). split; [done|]. split; [|done].
  rewrite (Append_run _ _ _ _ _ Hc) in E by (eapply class_of_is_Some, (lr_object _ _ _ _ Hr)).
  injection E as <-. by eapply kept_list.
Qed.

(** One more binding in the list. *)
Lemma append_binding_run (new : M loc) c h l obj vs cs :
  (forall h, fresh_ok h -> exists h', new h = (Ret (next h), h') /\ kept [] h h' /\
     binding h' (next h) c ms) ->
  fresh_ok h -> list_repr h l obj vs -> Forall2 (fun v c => holds_binding h v c ms) vs cs ->
  (Z.of_nat (S (length vs)) < 2 ^ 32)%Z ->
  exists v h', (b ← new; v ← NewObject (Some b); vAppend V l v) h = (Ret tt, h') /\
    kept [l; obj] h h' /\ list_repr h' l obj (vs ++ [v]) /\
    Forall2 (fun v c => holds_binding h' v c ms) (vs ++ [v]) (cs ++ [c]).
Proof.
  intros Hnew Hf Hr Hvs Hlen. destruct (Hnew h Hf) as (h1 & E1 & K1 & Hb). step E1.
  step (NewObject_run (Some (next h)) h1). fold (object_value (next h)).
  set (h2 := with_fresh _ h1). assert (kept [] h1 h2) as K2 by (apply kept_grows, grows_fresh, K1).
  pose proof (kept_trans _ _ _ _ K1 K2) as K. pose proof (list_repr_kept _ _ _ _ _ K Hr) as Hr2.
  destruct (append_kept h2 l obj vs (next h1) (kp_fresh _ _ _ K) Hr2 Hlen) as (h3 & E3 & K3 & Hr3).
  exists (next h1), h3. split; [done|].
  split; [eapply kept_trans; [eapply kept_weaken, K; set_solver|exact K3]|]. split; [done|].
  assert (forall v c, holds_binding h2 v c ms -> holds_binding h3 v c ms) as H23.
  { intros v c' Hv. eapply holds_binding_kept; [exact K3| |done].
    intros o. by apply binding_not_list with vs. }
  apply Forall2_app.
  - eapply Forall2_impl; [exact Hvs|]. intros v c' Hv. apply H23.
    eapply holds_binding_kept; [exact K| |done]. intros o _. apply not_elem_of_nil.
  - constructor; [|constructor]. apply H23. exists (next h). split; [apply lookup_insert_eq|].
    eapply binding_kept; [exact K2|apply not_elem_of_nil|done].
Qed.

(** Appending bindings for the elements that [test] lets through. *)
Lemma append_bindings_run {A} (step_ : A -> M unit) (test : A -> bool) (cls : A -> class)
    (new : A -> M loc) (good : heap -> A -> Prop) l obj :
  (forall a h, fresh_ok h -> exists h', new a h = (Ret (next h), h') /\ kept [] h h' /\
     binding h' (next h) (cls a) ms) ->
  (forall a h h', kept [l; obj] h h' -> good h a -> good h' a) ->
  (forall a h, good h a -> step_ a h
     = (if test a then b ← new a; v ← NewObject (Some b); vAppend V l v else mret tt) h) ->
  forall xs h vs cs, Forall (good h) xs -> fresh_ok h -> list_repr h l obj vs ->
    Forall2 (fun v c => holds_binding h v c ms) vs cs ->
    (Z.of_nat (length vs + length xs) < 2 ^ 32)%Z ->
  exists vs' h', st_fold (fun _ a => step_ a) tt xs h = (Ret tt, h') /\ kept [l; obj] h h' /\
    list_repr h' l obj vs' /\
    Forall2 (fun v c => holds_binding h' v c ms) vs' (cs ++ map cls (List.filter test xs)).
Proof.
  intros Hnew Hgood Hstep xs. induction xs as [|a xs IH]; intros h vs cs Hxs Hf Hr Hvs Hlen.
  { exists vs, h. rewrite app_nil_r. split_and!; [done|by apply kept_refl|done|done]. }
  apply Forall_cons in Hxs as [Ha Hxs]. cbn [st_fold length] in *. cbn [List.filter].
  destruct (test a) eqn:Et.
  - destruct (append_binding_run (new a) (cls a) h l obj vs cs) as (v & h1 & E1 & K1 & Hr1 & Hvs1);
      [apply Hnew|done|done|done|lia|].
    assert (step_ a h = (Ret tt, h1)) as Es by by rewrite (Hstep a h Ha), Et. step Es.
    destruct (IH h1 (vs ++ [v]) (cs ++ [cls a])) as (vs' & h2 & E2 & K2 & Hr2 & Hvs2);
      [eapply Forall_impl; [exact Hxs|]; intros; by eapply Hgood|apply K1|done|done
      |rewrite length_app; simpl; lia|].
    exists vs', h2. split; [done|]. split; [by eapply kept_trans|]. split; [done|].
    by rewrite <- app_assoc in Hvs2.
  - assert (step_ a h = (Ret tt, h)) as Es by by rewrite (Hstep a h Ha), Et. step Es.
    apply (IH h vs cs); [done..|lia].
Qed.
End Build.

(** ** Vectors of components and dependencies *)

(** The components that the filter lets through. *)
Definition filtered (s : bstate) (filter : KComponentType) (p : SharedComponent) : bool :=
  match comps s !! p with
  | Some c => bool_decide (filter = UNKNOWN) || bool_decide (filter = c_type c)
  | None => false
  end.

Lemma dependency_names_good : good_names (map fst dependency_methods) = true.
Proof. vm_compute. reflexivity. Qed.

Section Vectors.
Context (W : World) (n : nat).
Let V := vt W (S (S n)).

Lemma ComponentVectorToKList_run components filter h :
  fresh_ok h -> valid (s_boot (sys h)) components -> (Z.of_nat (length components) < 2 ^ 32)%Z ->
  exists l h', ComponentVectorToKList V components filter h = (Ret l, h') /\ kept [] h h' /\
    binding_list h' l (map ComponentBinding (List.filter (filtered (s_boot (sys h)) filter) components))
      component_methods.
Proof.
  intros Hf Hv Hlen.
  destruct (new_list_run (lit "StaticBoundList") h Hf) as (h1 & E1 & K1 & Hr1).
  unfold ComponentVectorToKList. step E1.
  set (l := N.succ (next h)) in *. set (obj := next h) in *.
  set (s := sys h) in *.
  destruct (append_bindings_run V component_methods
    (fun p => c ← on_boot (comp p);
       if bool_decide (filter = UNKNOWN) || bool_decide (filter = c_type c) then
         b ← new_ComponentBinding V p; v ← NewObject (Some b); vAppend V l v
       else mret tt)
    (filtered (s_boot s) filter) ComponentBinding (new_ComponentBinding V)
    (fun h' p => sys h' = s /\ p < length (comps (s_boot s))) l obj) with components h1
      ([] : list loc) ([] : list class) as (vs & h2 & E2 & K2 & Hr2 & Hvs).
  - intros p h' Hf'. by apply new_ComponentBinding_run.
  - intros p h2 h3 Hk [Hs Hp]. by rewrite (kp_sys _ _ _ Hk).
  - intros p h' [Hs Hp]. apply lookup_lt_is_Some_2 in Hp as [c Hc].
    unfold filtered. rewrite Hc. rewrite <- Hs in Hc. by step (comp_run _ _ _ Hc).
  - rewrite (kp_sys _ _ _ K1). fold s. eapply Forall_impl; [exact Hv|]. done.
  - apply K1.
  - done.
  - constructor.
  - done.
  - exists l, h2. step E2. split; [done|]. split.
    + eapply kept_drop; [exact K1|exact K2|].
      intros o Ho. destruct (Hf o) as [H _]; [|exact H]. unfold l, obj in Ho. set_unfold.
      destruct Ho as [->|[->|[]]]; lia.
    + by exists obj, vs.
Qed.

Lemma DependencyVectorToKList_run deps h :
  fresh_ok h -> (Z.of_nat (length deps) < 2 ^ 32)%Z ->
  exists l h', DependencyVectorToKList V deps h = (Ret l, h') /\ kept [] h h' /\
    binding_list h' l (map DependencyBinding deps) dependency_methods.
Proof.
  intros Hf Hlen.
  destruct (new_list_run (lit "StaticBoundList") h Hf) as (h1 & E1 & K1 & Hr1).
  unfold DependencyVectorToKList, append_all. step E1.
  set (l := N.succ (next h)) in *. set (obj := next h) in *.
  destruct (append_bindings_run V dependency_methods
    (fun d => v ← (b ← new_DependencyBinding V d; NewObject (Some b)); vAppend V l v)
    (fun _ => true) DependencyBinding (new_DependencyBinding V) (fun _ _ => True) l obj)
    with deps h1 ([] : list loc) ([] : list class) as (vs & h2 & E2 & K2 & Hr2 & Hvs).
  - intros d h' Hf'. apply (new_binding_run W (vt W (S n))); [done|done|apply dependency_names_good].
  - done.
  - intros d h' _. apply st_bind_assoc.
  - by apply Forall_true.
  - apply K1.
  - done.
  - constructor.
  - done.
  - exists l, h2. step E2. split; [done|]. split.
    + eapply kept_drop; [exact K1|exact K2|].
      intros o Ho. destruct (Hf o) as [H _]; [|exact H]. unfold l, obj in Ho. set_unfold.
      destruct Ho as [->|[->|[]]]; lia.
    + exists obj, vs. split; [done|].
      assert (List.filter (fun _ => true) deps = deps) as <-; [|done].
      clear. induction deps as [|d deps IH]; simpl; by f_equal.
Qed.
End Vectors.

(** ** Setting the result *)

(** A value that is not a method is in no binding. *)
Lemma binding_set_value h o c ms r v0 w :
  vals h !! r = Some v0 -> type v0 <> METHOD -> fresh_ok h -> binding h o c ms ->
  binding (with_vals (<[r := w]>) h) o c ms.
Proof.
  intros Hr Hty Hfr [(Hf & Hcl & Hp) Hc Hkeys Hb].
  assert (forall k a, props h o !! k = Some a -> a <> r) as Hne.
  { intros k a Ha ->. assert (is_Some (props h o !! k)) as Hk by eauto.
    apply Hkeys in Hk. apply list_elem_of_fmap in Hk as ([k' m] & -> & Hin).
    destruct (Hb _ _ Hin) as (a & v & mo & obj & Ha' & Hv & Ht & _). simpl in *. congruence. }
  split; [|done|done|].
  - split.
    { intros l Hl. destruct (Hfr l Hl) as [H1 H2]. split; [done|]. simpl.
      rewrite lookup_insert_ne; [done|congruence]. }
    split; [done|]. intros k a Ha. destruct (Hp k a Ha) as (Hk & v & Hv & Hw). split; [done|].
    exists v. split; [|done]. simpl. rewrite lookup_insert_ne; [done|]. by apply not_eq_sym, (Hne k).
  - intros name m Hin. destruct (Hb _ _ Hin) as (a & v & mo & obj & Ha & Hv & Hrest).
    exists a, v, mo, obj. split; [done|]. split; [|done]. simpl.
    rewrite lookup_insert_ne; [done|]. by apply not_eq_sym, (Hne name).
Qed.

Lemma binding_list_set_value h l cs ms r v0 w :
  vals h !! r = Some v0 -> type v0 = UNDEFINED -> fresh_ok h -> binding_list h l cs ms ->
  binding_list (with_vals (<[r := w]>) h) l cs ms.
Proof.
  intros Hr Hty Hf (obj & vs & Hl & Hvs). exists obj, vs. split; [by destruct Hl|].
  eapply Forall2_impl; [exact Hvs|]. intros v c (o & Hv & Hb). exists o. split.
  - simpl. rewrite lookup_insert_ne; [done|]. intros ->. rewrite Hv in Hr. by injection Hr as <-.
  - eapply binding_set_value; eauto. by rewrite Hty.
Qed.

(** Everything that was there is there, but for the value [r]. *)
Definition left_alone (r : loc) (h h' : heap) : Prop :=
  (forall o x, objs h !! o = Some x -> objs h' !! o = Some x) /\
  (forall v x, v <> r -> vals h !! v = Some x -> vals h' !! v = Some x).

(** A function that builds a list and returns it. *)
Lemma set_list_run h h1 l r cs ms :
  kept [] h h1 -> vals h !! r = Some new_value -> binding_list h1 l cs ms ->
  exists h', SetList r (Some l) h1 = (Ret tt, h') /\ vals h' !! r = Some (list_value l) /\
    binding_list h' l cs ms /\ left_alone r h h' /\ sys h' = sys h.
Proof.
  intros Hk Hr Hl. pose proof (kp_vals _ _ _ Hk _ _ Hr) as Hr1.
  exists (with_vals (<[r := list_value l]>) h1). split; [by apply (update_value_run h1 r new_value)|].
  split; [apply lookup_insert_eq|]. split.
  { eapply binding_list_set_value; [done|done|apply Hk|done]. }
  split; [|apply Hk]. split.
  - intros o x Ho. apply (kp_objs _ _ _ Hk); [apply not_elem_of_nil|done].
  - intros v x Hv Hx. simpl. rewrite lookup_insert_ne by done. by apply (kp_vals _ _ _ Hk).
Qed.

(** ** The installed components *)

Lemma fresh_ok_sys f h : fresh_ok h -> fresh_ok (with_sys f h).
Proof. done. Qed.

Section Installed.
Context (W : World) (n : nat).
Let V := vt W (S (S n)).

Lemma SearchPaths_run h paths :
  GetComponentSearchPaths (with_environment (s_environ (sys h)) (w_machine (outside W)))
    (s_searchPaths (sys h)) = Ret paths ->
  SearchPaths W h = (Ret paths, with_sys (with_searchPaths paths) h).
Proof.
  intros E. unfold SearchPaths, the_machine.
  unfold mbind, st_bind, gets, mret, st_ret, lift, modify. by rewrite E.
Qed.

(** The state after the scan. *)
Definition after_scan (paths : list str) (cs : list KComponent) (ps : list SharedComponent) (h : heap)
    : heap :=
  with_sys (fun s => with_boot {| comps := cs; installedComponents := ps |} (with_searchPaths paths s)) h.

Lemma InstalledComponents_run h paths found s1 :
  GetComponentSearchPaths (with_environment (s_environ (sys h)) (w_machine (outside W)))
    (s_searchPaths (sys h)) = Ret paths ->
  fs_ok (s_fs (sys h)) -> Forall ink paths ->
  scan_paths (s_fs (sys h)) paths [] (s_boot (sys h)) = (Ret found, s1) ->
  exists ps, InstalledComponents W true h = (Ret ps, after_scan paths (comps s1) ps h) /\
    ps ≡ₚ found /\ good s1 ps /\ StronglySorted (newer_at s1) ps.
Proof.
  intros Epaths Hfs Hink Hscan.
  destruct (GetInstalledComponents_run (s_fs (sys h)) paths (s_boot (sys h)) Hfs Hink)
    as (found' & s1' & ps & E1 & E2 & _ & Hperm & Hgood & Hsort & _).
  rewrite Hscan in E1. injection E1 as <- <-.
  exists ps. split_and!; [|done..]. unfold InstalledComponents. step (SearchPaths_run _ _ Epaths).
  unfold the_fs, gets, mbind, st_bind, on_boot, on_sys, zoom. simpl. by rewrite E2.
Qed.

(** C26: what a script gets from [API.getInstalledComponents(true)] and its
    variants for one type of component (modules, runtimes, sdks): a new list
    with one ComponentBinding for each component that the scan of the search
    paths finds and the filter lets through, no two for the same type and
    path, in the order of falling versions; the same vector is kept for the
    calls without [true]. Nothing that existed before is changed but the
    result. The search paths are remembered from the first call. *)
Theorem installed_components_listed h name filter a w result paths found s1 :
  fresh_ok h -> vals h !! a = Some w -> type w = BOOL -> boolValue w = Some true ->
  vals h !! result = Some new_value ->
  GetComponentSearchPaths (with_environment (s_environ (sys h)) (w_machine (outside W)))
    (s_searchPaths (sys h)) = Ret paths ->
  fs_ok (s_fs (sys h)) -> Forall ink paths ->
  scan_paths (s_fs (sys h)) paths [] (s_boot (sys h)) = (Ret found, s1) ->
  (Z.of_nat (length found) < 2 ^ 32)%Z ->
  exists ps l h',
    API_GetInstalled W V name filter [a] result h = (Ret tt, h') /\
    ps ≡ₚ found /\ good s1 ps /\ StronglySorted (newer_at s1) ps /\
    vals h' !! result = Some (list_value l) /\
    binding_list h' l (map ComponentBinding (List.filter (filtered s1 filter) ps)) component_methods /\
    left_alone result h h' /\ sys h' = sys (after_scan paths (comps s1) ps h).
Proof.
  intros Hf Ha Hty Hb Hr Epaths Hfs Hink Hscan Hlen.
  destruct (InstalledComponents_run h paths found s1 Epaths Hfs Hink Hscan)
    as (ps & E1 & Hperm & Hgood & Hsort).
  set (h1 := after_scan paths (comps s1) ps h) in *. exists ps.
  assert (valid (s_boot (sys h1)) ps) as Hv by apply (proj1 Hgood).
  destruct (ComponentVectorToKList_run W n ps filter h1) as (l & h2 & E2 & K2 & Hl);
    [by apply fresh_ok_sys|done|by rewrite Hperm|].
  destruct (set_list_run h1 h2 l result _ _ K2 Hr Hl) as (h3 & E3 & Hr3 & Hl3 & Hleft & Hs3).
  exists l, h3. split_and!; [|done|done|done|done|done|done|done].
  assert (arg_values h [a] [w]) as Hargs by by repeat constructor.
  assert (VerifyException [a] name (lit "?b") h = (Ret tt, h)) as Ev.
  { apply (VerifyException_ok _ _ _ _ _ Hargs). destruct w; simpl in *; by subst. }
  assert (Arg_GetBool [a] 0 false h = (Ret true, h)) as Eb.
  { unfold Arg_GetBool. rewrite (Arg_get_run h [a] [w] _ _ 0 w) by done.
    unfold IsBool. rewrite Hty. unfold ToBool. by rewrite Hb. }
  unfold API_GetInstalled. step Ev. unfold GetInstalledComponentsImpl. step Eb. step E1.
  unfold V. by step E2.
Qed.
End Installed.

(** A process with the file system of BootUtils, which asks for its
    components. *)
Definition demo_installed_heap : heap :=
  with_sys (fun s => with_fs demo_fs (with_searchPaths [lit "/opt/kr"] s))
    (with_fresh new_value (with_fresh (set_bool true (reset new_value)) initial_heap)).
Definition demo_scan : res (list SharedComponent) * bstate :=
  scan_paths demo_fs [lit "/opt/kr"] [] (s_boot initial_system).
Definition demo_found : list SharedComponent := match demo_scan.1 with Ret l => l | _ => [] end.

Lemma demo_installed_heap_fresh : fresh_ok demo_installed_heap.
Proof. apply fresh_check_ok. vm_compute. reflexivity. Qed.

Lemma installed_components_listed_witness :
  exists ps l h',
    API_GetInstalled quiet_world (vt quiet_world 3) (lit "getInstalledRuntimes") RUNTIME [2%N] 3%N
      demo_installed_heap = (Ret tt, h') /\
    StronglySorted (newer_at demo_scan.2) ps /\
    binding_list h' l (map ComponentBinding (List.filter (filtered demo_scan.2 RUNTIME) ps))
      component_methods.
Proof.
  assert (Forall ink [lit "/opt/kr"]) as Hp by (apply (bool_decide_unpack _); vm_compute; reflexivity).
  destruct (installed_components_listed quiet_world 1 demo_installed_heap (lit "getInstalledRuntimes")
    RUNTIME 2%N (set_bool true (reset new_value)) 3%N [lit "/opt/kr"] demo_found demo_scan.2
    demo_installed_heap_fresh) as (ps & l & h' & E & _ & _ & Hs & _ & Hl & _).
  - reflexivity.
  - reflexivity.
  - reflexivity.
  - reflexivity.
  - reflexivity.
  - exact demo_fs_ok.
  - exact Hp.
  - vm_compute. reflexivity.
  - vm_compute. reflexivity.
  - exists ps, l, h'. exact (conj E (conj Hs Hl)).
Defined.

(** ** Dependencies *)

(** [m] throws a ValueException that holds the text. *)
Definition throws_text {A} (m : M A) (h : heap) (text : str) : Prop :=
  exists h', m h = (Throw (ValueException (Some (next h))), h') /\
    vals h' !! next h = Some (set_string (c_str text) (reset new_value)) /\ grows h h'.

Lemma throw_string_run {A} text h : fresh_ok h -> throws_text (throw_string text : M A) h text.
Proof.
  intros Hf. exists (with_fresh (set_string (c_str text) (reset new_value)) h).
  split; [|split; [apply lookup_insert_eq|by apply grows_fresh]].
  unfold throw_string. by step (new_with_run (fun v => set_string (c_str text) (reset v)) h).
Qed.

(** What a script sees of a dependency. *)
Definition dependency_view (d : Dependency) : list (str * value) := [
  (lit "type", set_number INT (double_of_int (component_type_int (d_type d))) (reset new_value));
  (lit "name", set_string (c_str (d_name d)) (reset new_value));
  (lit "version", set_string (c_str (d_version d)) (reset new_value));
  (lit "requirement", set_number INT (double_of_int (requirement_int (d_requirement d))) (reset new_value))].

Lemma GetDependency_run h o d : class_of h o = Some (DependencyBinding d) -> GetDependency o h = (Ret d, h).
Proof.
  intros Ho. unfold GetDependency, geto, mbind, st_bind. unfold class_of in Ho.
  destruct (objs h !! o) as [x|]; [|done]. injection Ho as Ho. by rewrite Ho.
Qed.

#[export] Hint Unfold Dependency_GetType Dependency_GetName Dependency_GetVersion
  Dependency_GetRequirement : views.

Lemma dependency_read W k h o d name name' v :
  binding h o (DependencyBinding d) dependency_methods -> (name, v) ∈ dependency_view d ->
  lower name' = lower name ->
  exists r h', vGet (vt W (S (S (S k)))) o name' h = (Ret r, h') /\ vals h' !! r = Some v /\ kept [] h h'.
Proof.
  intros Hbd Hin Hlow.
  pose proof (fetch_read W k h o _ _ (GetDependency o) d name name' Hbd eq_refl dependency_names_good Hlow)
    as Hread.
  unfold dependency_view in Hin.
  each_field Hin (fun m f => Hread (fun h1 Hcl _ => GetDependency_run h1 o d Hcl) m f).
Qed.

Lemma set_object_run h h1 o c ms r :
  kept [] h h1 -> vals h !! r = Some new_value -> binding h1 o c ms ->
  exists h', SetObject r (Some o) h1 = (Ret tt, h') /\ vals h' !! r = Some (object_value o) /\
    binding h' o c ms /\ left_alone r h h' /\ sys h' = sys h.
Proof.
  intros Hk Hr Hb. pose proof (kp_vals _ _ _ Hk _ _ Hr) as Hr1.
  exists (with_vals (<[r := object_value o]>) h1). split; [by apply (update_value_run h1 r new_value)|].
  split; [apply lookup_insert_eq|]. split.
  { eapply binding_set_value; [done|done|apply Hk|done]. }
  split; [|apply Hk]. split.
  - intros o' x Ho. apply (kp_objs _ _ _ Hk); [apply not_elem_of_nil|done].
  - intros v x Hv Hx. simpl. rewrite lookup_insert_ne by done. by apply (kp_vals _ _ _ Hk).
Qed.

(** The texts and numbers of the arguments of [API.createDependency]. *)
Record dependency_values (vs : list value) (ty : Z) (name version : str) (req : Z) : Prop := {
  dv_ok : verify_values false vs (ParseSigString (lit "i,s,s,?i")) = true;
  dv_type v : vs !! 0 = Some v -> ToInt v = ty;
  dv_name v : vs !! 1 = Some v -> stringValue v = Some name;
  dv_version v : vs !! 2 = Some v -> stringValue v = Some version;
  dv_requirement v : vs !! 3 = Some v -> ToInt v = req
}.

Section Create.
Context (W : World) (n : nat).
Let V := vt W (S (S n)).

(** Four arguments that the signature admits. *)
Lemma dependency_arguments vs ty name version req :
  dependency_values vs ty name version req -> length vs = 4 ->
  exists vt vn vv vr, vs = [vt; vn; vv; vr] /\ IsInt vt = true /\ IsString vn = true /\
    IsString vv = true /\ IsNumber vr = true.
Proof.
  intros [Hok _ _ _ _] Hlen.
  destruct vs as [|a [|b [|c [|d [|? ?]]]]]; simpl in Hlen; try lia. exists a, b, c, d. split; [done|].
  apply verify_values_spec in Hok as [_ Hall].
  change (ParseSigString (lit "i,s,s,?i")) with [lit "i"; lit "s"; lit "s"; lit "?i"] in Hall.
  assert (forall i v t x, [a; b; c; d] !! i = Some v -> [lit "i"; lit "s"; lit "s"; lit "?i"] !! i = Some t ->
    (split_optional t).2 = [x] -> matches_letter v x = true) as H.
  { intros i v t x Hv Ht Hx. destruct (Hall i v t Hv Ht) as (y & Hy & Hm). rewrite Hx in Hy.
    by apply list_elem_of_singleton in Hy as ->. }
  pose proof (H 0 a _ _ eq_refl eq_refl eq_refl) as Ha. pose proof (H 1 b _ _ eq_refl eq_refl eq_refl) as Hb.
  pose proof (H 2 c _ _ eq_refl eq_refl eq_refl) as Hc. pose proof (H 3 d _ _ eq_refl eq_refl eq_refl) as Hd.
  unfold matches_letter in *. simpl in *. rewrite ?orb_false_r in *. split_and!; try done.
  unfold IsInt, IsNumber in *. destruct (type d); done.
Qed.

Lemma type_of_int_spec ty :
  match type_of_int ty with
  | Some t => t <> UNKNOWN /\ component_type_int t = ty
  | None => forall t, t <> UNKNOWN -> component_type_int t <> ty
  end.
Proof.
  unfold type_of_int, known_types. destruct (head _) as [t|] eqn:E.
  - apply head_filter_elem in E as [Hin <-]. split; [|done]. intros ->. set_unfold in Hin. naive_solver.
  - intros t Ht <-. destruct t; done.
Qed.

(** The choice that createDependency makes from the two numbers. *)
Definition create_choice (ty req : Z) (name version : str) (result : loc) : M unit :=
  match type_of_int ty with
  | None => throw_string unknown_type_text
  | Some t =>
      if bool_decide (req ∈ map requirement_int known_requirements) then
        b ← new_DependencyBinding V (NewDependencyFromValues t name version); SetObject result (Some b)
      else throw_string unknown_requirement_text
  end.

Lemma create_dependency_run h args vs ty name version req result :
  arg_values h args vs -> length vs = 4 -> dependency_values vs ty name version req ->
  API_CreateDependency V args result h = create_choice ty req name version result h.
Proof.
  intros Hargs Hlen Hvs. destruct (dependency_arguments vs ty name version req Hvs Hlen)
    as (vt & vn & vv & vr & -> & It & In & Iv & Ir).
  destruct Hvs as [Hok Ht Hn Hv Hq]. specialize (Ht vt eq_refl). specialize (Hn vn eq_refl).
  specialize (Hv vv eq_refl). specialize (Hq vr eq_refl).
  unfold API_CreateDependency. step (VerifyException_ok h args (lit "createDepenendency") _ _ Hargs Hok).
  assert (Arg_GetInt args 0 (component_type_int UNKNOWN) h = (Ret ty, h)) as E0.
  { unfold Arg_GetInt. by rewrite (Arg_get_run _ _ _ _ _ 0 vt _ Hargs), It, <- Ht. }
  assert (Arg_GetString args 1 [] h = (Ret name, h)) as E1.
  { unfold Arg_GetString. rewrite (Arg_get_run _ _ _ _ _ 1 vn _ Hargs), In by done.
    unfold ToString. by rewrite Hn. }
  assert (Arg_GetString args 2 [] h = (Ret version, h)) as E2.
  { unfold Arg_GetString. rewrite (Arg_get_run _ _ _ _ _ 2 vv _ Hargs), Iv by done.
    unfold ToString. by rewrite Hv. }
  assert (Arg_GetNumber args 3 (double_of_int (requirement_int EQ)) h = (Ret (ToDouble vr), h)) as E3.
  { unfold Arg_GetNumber. by rewrite (Arg_get_run _ _ _ _ _ 3 vr _ Hargs), Ir. }
  step E0. step E1. step E2. step E3. by rewrite <- Hq.
Qed.

Lemma known_requirement_spec req :
  (exists r, requirement_int r = req) <-> req ∈ map requirement_int known_requirements.
Proof.
  split; [intros [r <-]; destruct r; vm_compute; set_solver|].
  intros (r & -> & _)%list_elem_of_fmap. by exists r.
Qed.

(** [API.createDependency] with four arguments of the right types: for a
    type and a requirement that the kernel knows, the result becomes a new
    DependencyBinding whose properties type, name and version read back the
    arguments, but whose requirement is always EQ: the one that was given is
    only checked. An unknown type, or an unknown requirement, is answered by
    an exception with its text and nothing is changed. *)
Theorem create_dependency_spec h args vs ty name version req result :
  fresh_ok h -> arg_values h args vs -> length vs = 4 -> dependency_values vs ty name version req ->
  vals h !! result = Some new_value ->
  let run := API_CreateDependency V args result in
  let known_requirement := exists r, requirement_int r = req in
  (forall t, t <> UNKNOWN -> component_type_int t = ty -> known_requirement ->
     let d := {| d_type := t; d_name := name; d_version := version; d_requirement := EQ |} in
     exists o h', run h = (Ret tt, h') /\ vals h' !! result = Some (object_value o) /\
       left_alone result h h' /\ sys h' = sys h /\
       forall name name' v, (name, v) ∈ dependency_view d -> lower name' = lower name ->
         exists r h2, vGet (vt W (S (S (S n)))) o name' h' = (Ret r, h2) /\ vals h2 !! r = Some v) /\
  ((forall t, t <> UNKNOWN -> component_type_int t <> ty) -> throws_text run h unknown_type_text) /\
  (forall t, t <> UNKNOWN -> component_type_int t = ty -> ~ known_requirement ->
     throws_text run h unknown_requirement_text).
Proof.
  intros Hf Hargs Hlen Hvs Hr run known_requirement.
  pose proof (create_dependency_run h args vs ty name version req result Hargs Hlen Hvs) as E.
  pose proof (known_requirement_spec req) as Hknown. pose proof (type_of_int_spec ty) as Hty.
  unfold throws_text, run. rewrite E. unfold create_choice. clear E run.
  split; [|split].
  - intros t Htu Htt Hk. set (d := Build_Dependency t name version EQ).
    destruct (type_of_int ty) as [t'|]; [|by destruct (Hty t)].
    destruct Hty as [_ Htt']. assert (t' = t) as -> by (destruct t, t'; simpl in *; congruence).
    rewrite bool_decide_eq_true_2 by by apply Hknown.
    destruct (new_binding_run W (Dispatch.vt W (S n)) (lit "API.Dependency") (DependencyBinding d)
      dependency_methods h Hf eq_refl dependency_names_good) as (h1 & E1 & K1 & Hb1).
    destruct (set_object_run h h1 (next h) _ _ result K1 Hr Hb1) as (h2 & E2 & Hr2 & Hb2 & Hl2 & Hs2).
    exists (next h), h2. split_and!; [|done|done|done|].
    + erewrite st_bind_Ret by exact E1. exact E2.
    + intros nm nm' v Hin Hlow.
      destruct (dependency_read W n h2 (next h) d nm nm' v Hb2 Hin Hlow) as (r & h3 & ? & ? & _). eauto.
  - intros Hno. destruct (type_of_int ty) as [t|]; [by destruct (Hno t); apply Hty|].
    by apply throw_string_run.
  - intros t Htu Htt Hk. destruct (type_of_int ty) as [t'|]; [|by destruct (Hty t)].
    rewrite bool_decide_eq_false_2 by by rewrite <- Hknown. by apply throw_string_run.
Qed.
End Create.

(** A call with the requirement GTE, whose result has the requirement EQ. *)
Definition demo_values : list value :=
  [set_number INT (double_of_int 0) (reset new_value); set_string (lit "ti") (reset new_value);
   set_string (lit "1.0") (reset new_value); set_number INT (double_of_int 3) (reset new_value)].
Definition demo_call_heap : heap :=
  fold_left (fun h v => with_fresh v h) (demo_values ++ [new_value]) initial_heap.

Lemma demo_call_heap_fresh : fresh_ok demo_call_heap.
Proof. apply fresh_check_ok. vm_compute. reflexivity. Qed.

Lemma create_dependency_spec_witness :
  exists o h' r h2,
    API_CreateDependency (vt quiet_world 3) [2; 3; 4; 5]%N 6%N demo_call_heap = (Ret tt, h') /\
    vals h' !! 6%N = Some (object_value o) /\
    vGet (vt quiet_world 4) o (lit "requirement") h' = (Ret r, h2) /\
    vals h2 !! r = Some (set_number INT (double_of_int (requirement_int EQ)) (reset new_value)).
Proof.
  destruct (create_dependency_spec quiet_world 1 demo_call_heap [2; 3; 4; 5]%N demo_values 0 (lit "ti")
    (lit "1.0") 3 6%N) as (Hok & _ & _).
  - exact demo_call_heap_fresh.
  - repeat constructor.
  - reflexivity.
  - split; [vm_compute; reflexivity|..]; intros v [= <-]; vm_compute; reflexivity.
  - reflexivity.
  - destruct (Hok MODULE) as (o & h' & E & Hr & _ & _ & Hread); [done|reflexivity|by exists GTE|].
    destruct (Hread (lit "requirement") (lit "requirement")
      (set_number INT (double_of_int (requirement_int EQ)) (reset new_value))) as (r & h2 & E2 & Hr2);
      [vm_compute; do 3 right; left|reflexivity|].
    exists o, h', r, h2. exact (conj E (conj Hr (conj E2 Hr2))).
Defined.
