(* ===== verification/ApiAppLaws.v ===== *)
(** * ApiAppLaws: applications as scripts see them

    The properties of an ApplicationBinding are the fields of the
    application; its dependencies, modules and components are lists of
    bindings. *)

From S2P Require Import Prelude CppString FileUtils BootUtils EnvironmentUtils Application Logger.
From S2P Require Import System Double Heap Virtual KObject StaticBound StaticLaws ArgList.
From S2P Require Import Accessor ApiObjects Api Dispatch DispatchLaws AccessorLaws ApiLaws ApiListLaws.
From stdpp Require Import options.

Lemma the_app_run h p a : s_apps (sys h) !! p = Some a -> the_app p h = (Ret a, h).
Proof. intros Ha. unfold the_app, gets, mbind, st_bind, some_or_undef. by rewrite Ha. Qed.

Lemma application_fields_run h o p b :
  class_of h o = Some (ApplicationBinding p b) -> application_fields o h = (Ret (p, b), h).
Proof.
  intros Ho. unfold application_fields, geto, mbind, st_bind. unfold class_of in Ho.
  destruct (objs h !! o) as [x|]; [|done]. injection Ho as Ho. by rewrite Ho.
Qed.

Lemma the_application_run h o p b a :
  class_of h o = Some (ApplicationBinding p b) -> s_apps (sys h) !! p = Some a ->
  the_application o h = (Ret a, h).
Proof.
  intros Ho Ha. unfold the_application. step (application_fields_run _ _ _ _ Ho).
  by apply the_app_run.
Qed.

(** What a script sees of an application. *)
Definition application_view (a : Application) : list (str * value) := [
  (lit "ID", set_string (c_str (a_id a)) (reset new_value));
  (lit "GUID", set_string (c_str (a_guid a)) (reset new_value));
  (lit "name", set_string (c_str (a_name a)) (reset new_value));
  (lit "version", set_string (c_str (a_version a)) (reset new_value));
  (lit "path", set_string (c_str (a_path a)) (reset new_value));
  (lit "manifestPath", set_string (c_str (a_manifestPath a)) (reset new_value))].

Lemma application_names_good : good_names (map fst application_methods) = true.
Proof. vm_compute. reflexivity. Qed.

Lemma filtered_all s ps : valid s ps -> List.filter (filtered s UNKNOWN) ps = ps.
Proof.
  induction 1 as [|p ps Hp _ IH]; [done|]. simpl. unfold filtered at 1.
  apply lookup_lt_is_Some_2 in Hp as [c ->]. simpl. by f_equal.
Qed.

#[export] Hint Unfold App_string : views.

Section View.
Context (W : World) (k : nat).

(** A read of a member function that answers with a list of bindings. *)
Lemma binding_read_list h o c ms name m (cs : list class) (ms' : list (str * member)) :
  binding h o c ms -> is_accessor_class c = true -> good_names (map fst ms) = true ->
  getter_member ms name = Some m ->
  (forall h1 r, fresh_ok h1 -> class_of h1 o = Some c -> sys h1 = sys h ->
     exists l h2, kept [] h1 h2 /\ binding_list h2 l cs ms' /\
       run_callback W (vt W (S (S k))) (Member o m) [] r h1 = SetList r (Some l) h2) ->
  exists r l h', vGet (vt W (S (S (S (S (S k)))))) o name h = (Ret r, h') /\
    vals h' !! r = Some (list_value l) /\ binding_list h' l cs ms' /\ sys h' = sys h.
Proof.
  intros Hbd Ha Hgood Hm Hrun.
  destruct (binding_get_run W (S (S k)) h o c ms name m Hbd Ha Hgood Hm) as (h1 & Hg & E).
  pose proof Hg as (Hf1 & Ho1 & _ & Hs1). set (h2 := with_fresh new_value h1) in *.
  assert (fresh_ok h2) as Hf2 by by apply (grows_fresh new_value h1).
  destruct (Hrun h2 (next h1) Hf2) as (l & h3 & K & Hl & E3); [|exact Hs1|].
  { unfold class_of, h2. simpl. rewrite Ho1. apply (bd_class _ _ _ _ Hbd). }
  destruct (set_list_run h2 h3 l (next h1) cs ms' K) as (h4 & E4 & Hr4 & Hl4 & _ & Hs4);
    [apply lookup_insert_eq|done|].
  exists (next h1), l, h4. rewrite E. split_and!; [|done|done|by rewrite Hs4].
  rewrite E4 in E3. by rewrite (st_bind_Ret _ _ _ _ _ E3).
Qed.

(** [o] is the binding of the application [p]. *)
Definition application_object (h : heap) (o : loc) (p : N) (current : bool) : Prop :=
  binding h o (ApplicationBinding p current) application_methods.

Definition components_of (a : Application) : list SharedComponent :=
  a_modules a ++ match a_runtime a with Some r => [r] | None => [] end.

(** The lists that a script sees of an application. *)
Definition application_lists (a : Application) : list (str * (list class * list (str * member))) := [
  (lit "dependencies", (map DependencyBinding (a_dependencies a), dependency_methods));
  (lit "modules", (map ComponentBinding (a_modules a), component_methods));
  (lit "components", (map ComponentBinding (components_of a), component_methods))].

Lemma application_read h o p current a name name' v :
  application_object h o p current -> s_apps (sys h) !! p = Some a -> lower name' = lower name ->
  (name, v) ∈ application_view a ->
  exists r h', vGet (vt W (S (S (S k)))) o name' h = (Ret r, h') /\ vals h' !! r = Some v /\ kept [] h h'.
Proof.
  intros Hbd Ha Hlow Hin.
  pose proof (fetch_read W k h o _ _ (the_application o) a name name' Hbd eq_refl application_names_good Hlow)
    as Hread.
  unfold application_view in Hin. each_field Hin (fun m f => Hread (fun h1 Hcl Hs =>
    the_application_run h1 o p current a Hcl (eq_trans (f_equal (fun s => s_apps s !! p) Hs) Ha)) m f).
Qed.

Lemma application_read_current h o p current name' :
  application_object h o p current -> lower name' = lower (lit "current") ->
  exists r h', vGet (vt W (S (S (S k)))) o name' h = (Ret r, h') /\
    vals h' !! r = Some (set_bool current (reset new_value)) /\ kept [] h h'.
Proof.
  intros Hbd Hlow.
  apply (fetch_read W k h o _ _ (application_fields o) (p, current) _ name' Hbd eq_refl
    application_names_good Hlow (fun h1 Hcl _ => application_fields_run h1 o p current Hcl)
    ApplicationBinding__IsCurrent (fun w => set_bool current (reset w))); [vm_compute; reflexivity|].
  intros h1 r E. cbn [run_callback]. unfold App_IsCurrent. by step E.
Qed.

Lemma application_read_list h o p current a name name' cs ms :
  application_object h o p current -> s_apps (sys h) !! p = Some a -> lower name' = lower name ->
  (name, (cs, ms)) ∈ application_lists a ->
  valid (s_boot (sys h)) (components_of a) -> (Z.of_nat (length cs) < 2 ^ 32)%Z ->
  exists r l h', vGet (vt W (S (S (S (S (S k)))))) o name' h = (Ret r, h') /\
    vals h' !! r = Some (list_value l) /\ binding_list h' l cs ms /\ sys h' = sys h.
Proof.
  intros Hbd Ha Hlow Hin Hval Hlen.
  assert (forall h1, class_of h1 o = Some (ApplicationBinding p current) -> sys h1 = sys h ->
    the_application o h1 = (Ret a, h1)) as Happ.
  { intros h1 Hcl Hs. apply (the_application_run h1 o p current); [done|by rewrite Hs]. }
  assert (forall ps h1, fresh_ok h1 -> sys h1 = sys h -> valid (s_boot (sys h)) ps ->
    (Z.of_nat (length ps) < 2 ^ 32)%Z ->
    exists l h2, ComponentVectorToKList (vt W (S (S k))) ps UNKNOWN h1 = (Ret l, h2) /\ kept [] h1 h2 /\
      binding_list h2 l (map ComponentBinding ps) component_methods) as Hcomps.
  { intros ps h1 Hf Hs Hv Hl. rewrite <- Hs in Hv.
    destruct (ComponentVectorToKList_run W k ps UNKNOWN h1 Hf Hv Hl) as (l & h2 & E & K & Hlist).
    rewrite filtered_all in Hlist by done. by exists l, h2. }
  assert (forall m, getter_member application_methods name = Some m ->
    getter_member application_methods name' = Some m) as Hm.
  { intros m. by rewrite (getter_member_case _ _ _ Hlow). }
  unfold application_lists in Hin.
  apply elem_of_cons in Hin as [[= -> -> ->]|Hin].
  { eapply (binding_read_list h o _ _ name' _ _ _ Hbd eq_refl application_names_good);
      [apply Hm; vm_compute; reflexivity|].
    intros h1 r Hf Hcl Hs. rewrite length_map in Hlen.
    destruct (DependencyVectorToKList_run W k (a_dependencies a) h1 Hf Hlen) as (l & h2 & E & K & Hl).
    exists l, h2. split; [done|]. split; [done|]. cbn [run_callback]. unfold App_GetDependencies.
    step (Happ h1 Hcl Hs). by step E. }
  apply elem_of_cons in Hin as [[= -> -> ->]|Hin]; [|apply list_elem_of_singleton in Hin as [= -> -> ->]];
    (eapply (binding_read_list h o _ _ name' _ _ _ Hbd eq_refl application_names_good);
      [apply Hm; vm_compute; reflexivity|]);
    intros h1 r Hf Hcl Hs; rewrite length_map in Hlen.
  - apply Forall_app in Hval as [Hval _]. destruct (Hcomps _ h1 Hf Hs Hval Hlen) as (l & h2 & E & K & Hl).
    exists l, h2. split; [done|]. split; [done|]. cbn [run_callback]. unfold App_GetModules.
    step (Happ h1 Hcl Hs). by step E.
  - destruct (Hcomps _ h1 Hf Hs Hval Hlen) as (l & h2 & E & K & Hl).
    exists l, h2. split; [done|]. split; [done|]. cbn [run_callback]. unfold App_GetComponents.
    step (Happ h1 Hcl Hs). unfold components_of in E. by step E.
Qed.

(** An ApplicationBinding shows its application: a new binding, and every
    one whose methods are intact, reads ID, GUID, name, version, path and
    manifestPath (the case of the names does not matter) from the fields that
    the application has at the time of the read, isCurrent from the binding;
    the properties dependencies, modules and components are new lists with
    one binding for each dependency, for each module, and for each module
    followed by the runtime, in this order. Reads leave the other components
    of the system as they are. *)
Theorem application_binding_view h p current :
  fresh_ok h ->
  (exists h', new_ApplicationBinding (vt W (S (S k))) p current h = (Ret (next h), h') /\ kept [] h h' /\
     application_object h' (next h) p current) /\
  (forall o a name name', application_object h o p current -> s_apps (sys h) !! p = Some a ->
     lower name' = lower name ->
     (forall v, (name, v) ∈ application_view a \/ (name, v) = (lit "current", set_bool current (reset new_value)) ->
        exists r h', vGet (vt W (S (S (S k)))) o name' h = (Ret r, h') /\ vals h' !! r = Some v /\
          kept [] h h') /\
     (forall cs ms, (name, (cs, ms)) ∈ application_lists a ->
        valid (s_boot (sys h)) (components_of a) -> (Z.of_nat (length cs) < 2 ^ 32)%Z ->
        exists r l h', vGet (vt W (S (S (S (S (S k)))))) o name' h = (Ret r, h') /\
          vals h' !! r = Some (list_value l) /\ binding_list h' l cs ms /\ sys h' = sys h)).
Proof.
  intros Hf. split.
  { apply (new_binding_run W (vt W (S k))); [done|done|apply application_names_good]. }
  intros o a name name' Hbd Ha Hlow. split.
  - intros v [Hin|[= -> ->]]; [by eapply application_read|by eapply application_read_current].
  - intros cs ms Hin Hval Hlen. by eapply application_read_list.
Qed.
End View.

(** An application with two dependencies. *)
Definition demo_application : Application :=
  with_dependencies [NewDependencyFromValues MODULE (lit "ti") (lit "1.0");
                     NewDependencyFromValues RUNTIME (lit "runtime") (lit "0.9")]
    (new_Application (lit "/app") (lit "/app/manifest")).
Definition demo_application_heap : heap :=
  with_sys (with_apps {[7%N := demo_application]}) initial_heap.

Lemma application_binding_view_witness :
  exists o h r l h', new_ApplicationBinding (vt quiet_world 3) 7 true demo_application_heap = (Ret o, h) /\
    vGet (vt quiet_world 6) o (lit "dependencies") h = (Ret r, h') /\
    vals h' !! r = Some (list_value l) /\
    binding_list h' l (map DependencyBinding (a_dependencies demo_application)) dependency_methods.
Proof.
  assert (fresh_ok demo_application_heap) as Hf by (apply fresh_check_ok; vm_compute; reflexivity).
  destruct (application_binding_view quiet_world 1 demo_application_heap 7 true Hf) as [(h & E & K & Hb) _].
  destruct (application_binding_view quiet_world 1 h 7 true (kp_fresh _ _ _ K)) as [_ Hread].
  destruct (Hread (next demo_application_heap) demo_application (lit "dependencies") (lit "dependencies") Hb)
    as [_ Hlists].
  - rewrite (kp_sys _ _ _ K). reflexivity.
  - reflexivity.
  - destruct (Hlists (map DependencyBinding (a_dependencies demo_application)) dependency_methods)
      as (r & l & h' & E' & Hr & Hl & _).
    + left.
    + rewrite (kp_sys _ _ _ K). constructor.
    + reflexivity.
    + exists (next demo_application_heap), h, r, l, h'. exact (conj E (conj E' (conj Hr Hl))).
Defined.
