(* ===== verification/Proxy.v ===== *)
(** * Proxy: which proxy a URL goes through (api/net/proxy_config.cpp and
    proxy_config_linux.cpp)

    URLs are [Poco::URI] objects and the configuration of the system comes
    from libproxy: the class [PocoURI] and the list [proxies] are what the
    code sees of them. *)

From S2P Require Import Prelude CppString Double Heap Virtual KObject StaticBound StaticLaws.
From stdpp Require Import options.

(** ** The URIs of Poco *)
Class PocoURI := {
  URI : Type;
  new_URI : URI;
  parse_URI : str -> res URI;              (* [URI(const std::string&)] *)
  URI_toString : URI -> str;
  getScheme : URI -> str;
  getHost : URI -> str;
  getPort : URI -> Z;                      (* unsigned short *)
  setScheme : str -> URI -> URI;
  setHost : str -> URI -> URI;
  setPort : Z -> URI -> URI;
  wellKnownPort : str -> Z                 (* the port of a scheme; 0: not known *)
}.

(** What Poco documents of the accessors: a scheme is kept in lower case, and
    [getPort] of a URI without a port is the well-known port of its scheme. *)
Class PocoURILaws {P : PocoURI} : Prop := {
  getScheme_new : getScheme new_URI = [];
  getScheme_setScheme s u : getScheme (setScheme s u) = map tolower s;
  getScheme_setPort p u : getScheme (setPort p u) = getScheme u;
  getScheme_setHost h u : getScheme (setHost h u) = getScheme u;
  getHost_setHost h u : getHost (setHost h u) = h;
  getPort_setPort p u : (0 <= p < 2 ^ 16)%Z ->
    getPort (setPort p u) = if (p =? 0)%Z then wellKnownPort (getScheme u) else p;
  getPort_setHost h u : getPort (setHost h u) = getPort u
}.
Arguments PocoURILaws P : clear implicits.

(** ** The arithmetic of [EndsWith]

    Positions are 64-bit: [npos] is the greatest one and the difference of the
    sizes wraps around. *)
Definition npos : Z := (2 ^ 64 - 1)%Z.
Definition find_pos (haystack needle : str) : Z :=
  match find haystack needle 0 with Some i => Z.of_nat i | None => npos end.
Definition EndsWith (haystack needle : str) : bool :=
  (find_pos haystack needle =?
   (Z.of_nat (length haystack) - Z.of_nat (length needle)) `mod` 2 ^ 64)%Z.

Section Proxy.
Context `{P : PocoURI}.

(** [Proxy]: a null pointer in the bypass list bypasses everything. *)
Record Proxy := { p_info : option URI; bypassList : list (option URI) }.

(** The test of one entry of the bypass list. *)
Definition bypasses (uri : URI) (entry : option URI) : bool :=
  match entry with
  | None => true
  | Some entry =>
      (bool_decide (getHost entry = lit "<local>") && bool_decide (find (getHost uri) (lit ".") 0 = None))
      || (EndsWith (getHost uri) (getHost entry)
          && (bool_decide (getScheme entry = []) || bool_decide (getScheme entry = getScheme uri))
          && ((getPort entry =? 0)%Z || (getPort entry =? getPort uri)%Z))
  end.

Fixpoint bypass_loop (uri : URI) (entries : list (option URI)) : bool :=
  match entries with
  | [] => false
  | entry :: rest => if bypasses uri entry then true else bypass_loop uri rest
  end.
Definition ShouldBypass (this : Proxy) (uri : URI) : bool := bypass_loop uri (bypassList this).

(** [while (scan > 0 && isdigit(entry[scan])) scan--] *)
Fixpoint scan_digits (entry : str) (scan : nat) : nat :=
  match scan with
  | O => O
  | S scan' =>
      match entry !! scan with
      | Some c => if isdigit c then scan_digits entry scan' else scan
      | None => scan
      end
  end.

(** The second half of [ProxyEntryToURI]: the port and the host. [setPort]
    takes an unsigned short. *)
Definition entry_port (uri : URI) (entry : str) : res (URI * str) :=
  match size_minus_1 entry with
  | None => Undef                          (* [entry[npos]] *)
  | Some last =>
      let scan := scan_digits entry last in
      '(uri, entry) ←
        (if bool_decide (entry !! scan = Some ":"%char) && negb (scan =? last) then
           portString ← substr entry (scan + 1) None;
           host ← substr entry 0 (Some scan);
           Ret (setPort (atoi (c_str portString) `mod` 2 ^ 16)%Z uri, host)
         else Ret (setPort 0 uri, entry));
      Ret (setHost entry uri, entry)
  end.

(** The entry is a reference: what the function leaves in it is returned too. *)
Definition ProxyEntryToURI (entry : str) : res (URI * str) :=
  '(uri, entry) ←
    match find entry (lit "://") 0 with
    | Some endScheme =>
        scheme ← substr entry 0 (Some endScheme);
        rest ← substr entry (endScheme + 3) None;
        Ret (setScheme scheme new_URI, rest)
    | None => Ret (new_URI, entry)
    end;
  entry_port uri entry.

(** ** ProxyConfig *)

Record proxy_overrides := { httpProxyOverride : option Proxy; httpsProxyOverride : option Proxy }.

Definition SetHTTPProxyOverride (p : option Proxy) (s : proxy_overrides) : proxy_overrides :=
  {| httpProxyOverride := p; httpsProxyOverride := httpsProxyOverride s |}.
Definition SetHTTPSProxyOverride (p : option Proxy) (s : proxy_overrides) : proxy_overrides :=
  {| httpProxyOverride := httpProxyOverride s; httpsProxyOverride := p |}.

Definition proxy_at (info : URI) : Proxy := {| p_info := Some info; bypassList := [] |}.

(** The loop over what libproxy answers; [inl tt] is the return for "direct". *)
Fixpoint impl_loop (uri : URI) (proxies : list str) (proxy : option Proxy)
    : res (unit + option Proxy) :=
  match proxies with
  | [] => Ret (inr proxy)
  | text :: rest =>
      proxyURI ← parse_URI text;
      if decide (getScheme proxyURI = lit "direct") then Ret (inl tt)
      else if decide (getScheme proxyURI = getScheme uri) then impl_loop uri rest (Some (proxy_at proxyURI))
      else impl_loop uri rest proxy
  end.

Definition GetProxyForURLImpl (get_proxies : str -> list str) (uri : URI) : res (option Proxy) :=
  let proxies := get_proxies (c_str (URI_toString uri)) in
  r ← impl_loop uri proxies None;
  match r with
  | inl _ => Ret None
  | inr (Some proxy) => Ret (Some proxy)
  | inr None =>
      match proxies with
      | [] => Ret None
      | first :: _ => info ← parse_URI first; Ret (Some (proxy_at info))
      end
  end.

Definition GetProxyForURL (get_proxies : str -> list str) (s : proxy_overrides) (url : str)
    : res (option Proxy) :=
  uri ← parse_URI url;
  let scheme := getScheme uri in
  if decide (scheme = lit "app" \/ scheme = lit "ti" \/ scheme = lit "file") then Ret None
  else if decide (scheme = lit "http" /\ is_Some (httpProxyOverride s)) then Ret (httpProxyOverride s)
  else if decide (scheme = lit "https" /\ is_Some (httpsProxyOverride s)) then Ret (httpsProxyOverride s)
  else GetProxyForURLImpl get_proxies uri.

End Proxy.
Arguments Proxy : clear implicits.
Arguments Proxy {P}.

(** ** Bypassing *)

(** The text [needle] is at the end of [haystack] and nowhere before. *)
Definition ends_first (haystack needle : str) : Prop :=
  exists p, haystack = p ++ needle /\
    forall q r, haystack = q ++ needle ++ r -> length p <= length q.

Lemma find_pos_ends haystack needle :
  ends_first haystack needle ->
  find_pos haystack needle = (Z.of_nat (length haystack) - Z.of_nat (length needle))%Z.
Proof.
  intros (p & -> & Hmin). unfold find_pos.
  assert (find (p ++ needle) needle 0 = Some (length p)) as ->.
  { apply find_spec. rewrite take_app_length. split_and!.
    - exists []. by rewrite app_nil_r.
    - rewrite length_app. lia.
    - done. }
  rewrite length_app. lia.
Qed.

(** [EndsWith] also holds of every needle that is one byte longer. *)
Lemma EndsWith_spec haystack needle :
  (Z.of_nat (length haystack) < npos)%Z -> (Z.of_nat (length needle) < npos)%Z ->
  EndsWith haystack needle = true <->
  ends_first haystack needle \/ length needle = S (length haystack).
Proof.
  unfold EndsWith, npos. intros Hh Hn. rewrite Z.eqb_eq. split.
  - unfold find_pos. destruct (find haystack needle 0) as [i|] eqn:E.
    + apply find_spec in E as ([r Hr] & Hi & Hmin). intros Heq. left.
      exists (take i haystack). apply (f_equal length) in Hr as Hlen.
      rewrite !length_app, length_take in Hlen.
      rewrite Z.mod_small in Heq by lia.
      assert (r = []) as -> by (apply length_zero_iff_nil; lia). rewrite app_nil_r in Hr.
      split; [done|]. intros q r' Hq. rewrite length_take. specialize (Hmin _ _ Hq). lia.
    + unfold npos. intros Heq. right. destruct (decide (length needle <= length haystack)).
      * rewrite Z.mod_small in Heq; lia.
      * rewrite <- (Z.mod_unique_pos _ (2 ^ 64) (-1)
          (Z.of_nat (length haystack) - Z.of_nat (length needle) + 2 ^ 64)) in Heq; lia.
  - intros [Hends|Hlen].
    + rewrite find_pos_ends by done. destruct Hends as (p & -> & _). rewrite length_app.
      rewrite Z.mod_small; [done|]. rewrite length_app in Hh. lia.
    + unfold find_pos. destruct (find haystack needle 0) as [i|] eqn:E.
      * apply find_spec in E as ([r Hr] & _). apply (f_equal length) in Hr.
        rewrite !length_app in Hr. lia.
      * rewrite <- (Z.mod_unique_pos _ (2 ^ 64) (-1) npos); unfold npos; lia.
Qed.

(** A host bypasses the proxy for an entry that is no suffix of it. *)
Lemma ends_with_longer_needle : EndsWith (lit "abc.com") (lit "other.de") = true.
Proof. by vm_compute. Qed.
(** A host whose suffix occurs before, too, does not. *)
Lemma ends_with_repeated_needle : EndsWith (lit "www.com.example.com") (lit ".com") = false.
Proof. by vm_compute. Qed.

Lemma bypass_loop_exists `{P : PocoURI} uri entries :
  bypass_loop uri entries = true <-> exists entry, entry ∈ entries /\ bypasses uri entry = true.
Proof.
  induction entries as [|entry entries IH]; simpl.
  - split; [done|]. intros (? & []%not_elem_of_nil & _).
  - destruct (bypasses uri entry) eqn:E; split.
    + intros _. exists entry. split; [left|done].
    + done.
    + intros (x & ? & ?)%IH. exists x. split; [by right|done].
    + intros (x & [->|]%elem_of_cons & ?); [congruence|]. apply IH. eauto.
Qed.

Lemma exists_iff_in {A} (l : list A) (Q R : A -> Prop) :
  (forall a, a ∈ l -> Q a <-> R a) -> (exists a, a ∈ l /\ Q a) <-> (exists a, a ∈ l /\ R a).
Proof. intros H. split; intros (a & Ha & Hq); exists a; (split; [done|]); by apply H. Qed.

(** An entry asks for the request, as far as scheme and port go. *)
Definition same_service `{P : PocoURI} (uri entry : URI) : Prop :=
  (getScheme entry = [] \/ getScheme entry = getScheme uri) /\
  (getPort entry = 0%Z \/ getPort entry = getPort uri).
(** [test] on the hosts decides about the entry, but for the two special ones. *)
Definition entry_applies `{P : PocoURI} (test : str -> str -> Prop) (uri : URI) (entry : option URI) : Prop :=
  match entry with
  | None => True
  | Some entry =>
      getHost entry = lit "<local>" /\ "."%char ∉ getHost uri \/
      test (getHost entry) (getHost uri) /\ same_service uri entry
  end.
(** The test that the code makes, and an entry for which it is the test for a suffix. *)
Definition found_at_end (needle host : str) : Prop := ends_first host needle \/ length needle = S (length host).
Definition ordinary (needle host : str) : Prop :=
  length needle <> S (length host) /\ forall q r, host = q ++ needle ++ r -> r = [].

Lemma ordinary_suffix needle host : ordinary needle host -> found_at_end needle host <-> needle `suffix_of` host.
Proof.
  intros [Hlen Hend]. split.
  - intros [(p & -> & _)|]; [by exists p|done].
  - intros [p ->]. left. exists p. split; [done|]. intros q r Hq.
    assert (r = []) as -> by (by eapply Hend). rewrite app_nil_r in Hq. by apply app_inv_tail in Hq as ->.
Qed.

(** C29: the bypass list. [ShouldBypass] is true exactly when the list has an
    entry that applies: a null entry, or [<local>] and the host has no dot, or an
    entry whose scheme is empty or the same, whose port is 0 or the same, and
    whose host is found at the end of the request's host and nowhere before in
    it, or is (a fault of the code) one byte longer than it, whatever it is. So
    for a list without such entries (none is one byte longer than the host, none
    occurs in it but at its end), the rule is that of suffixes: the entry's host
    is a suffix of the request's. *)
Theorem should_bypass_spec `{P : PocoURI} (this : Proxy) (uri : URI) :
  (Z.of_nat (length (getHost uri)) < npos)%Z ->
  (forall entry, Some entry ∈ bypassList this -> (Z.of_nat (length (getHost entry)) < npos)%Z) ->
  (ShouldBypass this uri = true <->
     exists entry, entry ∈ bypassList this /\ entry_applies found_at_end uri entry) /\
  ((forall entry, Some entry ∈ bypassList this -> ordinary (getHost entry) (getHost uri)) ->
   ShouldBypass this uri = true <->
     exists entry, entry ∈ bypassList this /\ entry_applies suffix uri entry).
Proof.
  intros Hu Hl.
  assert (ShouldBypass this uri = true <->
     exists entry, entry ∈ bypassList this /\ entry_applies found_at_end uri entry) as Hexact.
  { unfold ShouldBypass. rewrite bypass_loop_exists.
    apply exists_iff_in. intros [entry|] Hin; [|done]. simpl. unfold same_service, found_at_end.
    rewrite orb_true_iff, !andb_true_iff, !orb_true_iff, !bool_decide_eq_true, !Z.eqb_eq.
    rewrite EndsWith_spec by auto.
    change (lit ".") with ["."%char]. rewrite find_char_None. tauto. }
  split; [done|]. intros Ho. rewrite Hexact. apply exists_iff_in. intros [entry|] Hin; [|done].
  simpl. by rewrite (ordinary_suffix _ _ (Ho entry Hin)).
Qed.

(** ** A Poco that meets its documentation *)
Definition plain_URI : PocoURI := {|
  URI := str * str * Z;
  new_URI := ([], [], 0%Z);
  parse_URI s := match find s (lit "://") 0 with
                 | Some i => Ret (take i s, drop (i + 3) s, 0%Z)
                 | None => Throw (StdException (lit "Syntax error"))
                 end;
  URI_toString u := u.1.1 ++ lit "://" ++ u.1.2;
  getScheme u := u.1.1;
  getHost u := u.1.2;
  getPort u := if (u.2 =? 0)%Z then (if decide (u.1.1 = lit "http") then 80%Z else 0%Z) else u.2;
  setScheme s u := (map tolower s, u.1.2, u.2);
  setHost h u := (u.1.1, h, u.2);
  setPort p u := (u.1.1, u.1.2, p);
  wellKnownPort s := if decide (s = lit "http") then 80%Z else 0%Z
|}.
#[export] Instance plain_URI_laws : PocoURILaws plain_URI.
Proof. by constructor. Qed.

Lemma should_bypass_spec_witness :
  let entry (h : string) : @URI plain_URI := ([], lit h, 0%Z) in
  let this : @Proxy plain_URI :=
    {| p_info := None; bypassList := [Some (entry "<local>"); Some (entry ".example.com")] |} in
  let host (h : string) : @URI plain_URI := (lit "http", lit h, 0%Z) in
  ShouldBypass this (host "www.example.com") = true /\ ShouldBypass this (host "intranet") = true /\
  ~ (ShouldBypass this (host "www.example.org") = true).
Proof.
  intros entry this host.
  assert (Hl : forall e, Some e ∈ bypassList this -> (Z.of_nat (length (getHost e)) < npos)%Z).
  { intros e He. simpl in He. apply elem_of_cons in He as [He|He].
    - injection He as ->. by vm_compute.
    - apply list_elem_of_singleton in He. injection He as ->. by vm_compute. }
  split_and!.
  - destruct (should_bypass_spec (P := plain_URI) this (host "www.example.com")) as [Hx _]; [by vm_compute|done|].
    apply Hx. eexists. split; [right; left|]. simpl. right. split; [left|split; by auto].
    exists (lit "www"). split; [done|]. intros q r Hq.
    change (length (lit "www")) with 3.
    destruct q as [|? [|? [|? q]]]; [discriminate Hq..|simpl; lia].
  - destruct (should_bypass_spec (P := plain_URI) this (host "intranet")) as [Hx _]; [by vm_compute|done|].
    apply Hx. eexists. split; [left|]. simpl. left. split; [done|].
    by apply (bool_decide_unpack _); vm_compute.
  - by vm_compute.
Defined.

(** ** Entries *)

(** What comes after the position does not matter. *)
Lemma scan_digits_take entry k scan :
  scan < length entry -> scan_digits (entry ++ k) scan = scan_digits entry scan.
Proof.
  induction scan as [|scan IH]; [done|]. intros Hlt. simpl.
  rewrite lookup_app_l by done. case_match; [|done]. case_match; [|done]. apply IH. lia.
Qed.

Lemma scan_digits_colon s ds :
  forallb isdigit ds = true -> s <> [] ->
  scan_digits (s ++ ":"%char :: ds) (length s + length ds) = length s.
Proof.
  intros Hd Hs. induction ds as [|d ds IH] using rev_ind.
  - rewrite Nat.add_0_r. destruct (length s) eqn:E; [done|]. simpl. rewrite <- E.
    rewrite lookup_app_r, Nat.sub_diag by done. done.
  - rewrite forallb_app in Hd. apply andb_true_iff in Hd as [Hd Hlast].
    rewrite length_app, Nat.add_1_r, Nat.add_succ_r. simpl scan_digits.
    assert ((s ++ ":"%char :: ds ++ [d]) !! S (length s + length ds) = Some d) as ->.
    { rewrite lookup_app_r by lia. replace (S _ - _) with (S (length ds)) by lia. simpl.
      by rewrite lookup_app_r, Nat.sub_diag. }
    simpl in Hlast. rewrite andb_true_r in Hlast. rewrite Hlast. etrans; [|by apply IH].
    change (s ++ ":"%char :: ds ++ [d]) with (s ++ (":"%char :: ds) ++ [d]). rewrite app_assoc.
    apply scan_digits_take. rewrite length_app. simpl. lia.
Qed.

Lemma scan_digits_stop entry : ":"%char ∉ entry -> forall last, last < length entry ->
  entry !! scan_digits entry last <> Some ":"%char.
Proof. intros Hc last _ Hin. apply Hc. by apply list_elem_of_lookup_2 in Hin. Qed.

Lemma find_scheme s rest : ":"%char ∉ s -> find (s ++ lit "://" ++ rest) (lit "://") 0 = Some (length s).
Proof.
  intros Hs. apply find_spec. rewrite take_app_length. split_and!.
  - by exists rest.
  - rewrite length_app. lia.
  - intros q r Hq. destruct (decide (length s <= length q)) as [|Hlt]; [done|]. destruct Hs.
    apply (f_equal (lookup (length q))) in Hq.
    rewrite lookup_app_l, lookup_app_r, Nat.sub_diag in Hq by lia.
    by apply list_elem_of_lookup_2 in Hq.
Qed.

Lemma find_no_scheme host ds :
  ":"%char ∉ host -> forallb isdigit ds = true ->
  find host (lit "://") 0 = None /\ find (host ++ ":"%char :: ds) (lit "://") 0 = None.
Proof.
  intros Hh Hd. split; apply eq_None_not_Some; intros [i ([r Hr] & Hi & _)%find_spec].
  - apply Hh. rewrite Hr. apply elem_of_app. right. by left.
  - set (p := take i _) in Hr.
    apply (f_equal (lookup (length p))) in Hr as H1. apply (f_equal (lookup (S (length p)))) in Hr as H2.
    rewrite (lookup_app_r p), Nat.sub_diag in H1 by lia.
    rewrite (lookup_app_r p), Nat.sub_succ_l, Nat.sub_diag in H2 by lia. simpl in H1, H2.
    destruct (decide (length p < length host)) as [Hlt|Hge].
    + rewrite lookup_app_l in H1 by done. apply Hh. by apply list_elem_of_lookup_2 in H1.
    + rewrite lookup_app_r, Nat.sub_succ_l in H2 by lia. simpl in H2.
      apply list_elem_of_lookup_2, list_elem_of_In in H2.
      rewrite forallb_forall in Hd. by specialize (Hd _ H2).
Qed.

(** The text of an entry. *)
Definition entry_text (scheme : option str) (host : str) (port : option Z) : str :=
  match scheme with Some s => s ++ lit "://" | None => [] end ++ host ++
  match port with Some p => ":"%char :: IntToChars p | None => [] end.

Lemma dec_not_nil n : dec n <> [].
Proof.
  intros E. pose proof (dec_value n) as H. rewrite E in H. simpl in H.
  assert (n = 0%N) as -> by lia. by vm_compute in E.
Qed.

Lemma last_of_app (s : str) c ds : size_minus_1 (s ++ c :: ds) = Some (length s + length ds).
Proof. unfold size_minus_1. rewrite length_app. simpl. by rewrite Nat.add_succ_r. Qed.

Section Entries.
Context `{P : PocoURI} `{L : !PocoURILaws P}.
#[local] Set Default Proof Using "Type*".

Lemma entry_port_host (uri : URI) host :
  ":"%char ∉ host -> host <> [] -> entry_port uri host = Ret (setHost host (setPort 0 uri), host).
Proof.
  intros Hc Hh. unfold entry_port, size_minus_1. destruct (length host) as [|n] eqn:E.
  { by apply length_zero_iff_nil in E. }
  rewrite bool_decide_eq_false_2; [done|]. apply scan_digits_stop; [done|lia].
Qed.

Lemma entry_port_number (uri : URI) host p :
  host <> [] -> (0 <= p < 2 ^ 16)%Z ->
  entry_port uri (host ++ ":"%char :: IntToChars p) = Ret (setHost host (setPort p uri), host).
Proof.
  intros Hh Hp. unfold entry_port. rewrite last_of_app.
  rewrite scan_digits_colon by (done || apply dec_digits). cbv zeta.
  rewrite lookup_app_r, Nat.sub_diag by done. rewrite bool_decide_eq_true_2 by done.
  assert (Hn : 0 < length (IntToChars p)).
  { unfold IntToChars. destruct (dec _) eqn:E; [|simpl; lia]. by apply dec_not_nil in E. }
  rewrite (proj2 (Nat.eqb_neq _ _)) by lia. simpl andb. cbv iota.
  rewrite (substr_Ret _ (length host + 1)) by (rewrite length_app; simpl; lia). rewrite res_bind_ret.
  rewrite (substr_Ret _ 0) by apply Nat.le_0_l. rewrite !res_bind_ret, drop_0, take_app_length.
  rewrite <- drop_drop, drop_app_length. simpl drop. rewrite drop_0.
  unfold atoi, IntToChars. rewrite (c_str_id _ (dec_no_nul _)).
  rewrite dec_value, Z2N.id, Z.min_l, to_signed32_id, Z.mod_small by (unfold is_int, int_min, int_max; lia).
  done.
Qed.
End Entries.

(** An entry [scheme://host:port], of which the scheme and the port may be
    missing, is read back: the URI has the scheme in lower case, the host and
    the port, and the host is left in the entry. A missing port, or 0, becomes
    the well-known port of the scheme when Poco is asked for it. *)
Theorem proxy_entry_roundtrip {P : PocoURI} {L : PocoURILaws P} (scheme : option str) (host : str)
    (port : option Z) :
  (forall s, scheme = Some s -> ":"%char ∉ s) -> ":"%char ∉ host -> host <> [] ->
  (forall p, port = Some p -> (0 <= p < 2 ^ 16)%Z) ->
  exists uri, ProxyEntryToURI (entry_text scheme host port) = Ret (uri, host) /\
    getHost uri = host /\ getScheme uri = map tolower (default [] scheme) /\
    getPort uri = (if (default 0 port =? 0)%Z then wellKnownPort (map tolower (default [] scheme))
                   else default 0%Z port).
Proof.
  intros Hs Hc Hh Hp.
  set (uri0 := match scheme with Some s => setScheme s new_URI | None => new_URI end).
  assert (Hport : entry_port uri0 (entry_text None host port) =
                  Ret (setHost host (setPort (default 0%Z port) uri0), host)).
  { unfold entry_text. simpl app. destruct port as [p|]; simpl.
    - apply entry_port_number; auto.
    - rewrite app_nil_r. by apply entry_port_host. }
  exists (setHost host (setPort (default 0%Z port) uri0)). split.
  - unfold ProxyEntryToURI. destruct scheme as [s|]; simpl in uri0.
    + unfold entry_text. rewrite <- app_assoc, find_scheme by auto.
      rewrite !substr_Ret by (rewrite !length_app; simpl; lia). rewrite !res_bind_ret.
      rewrite drop_0, take_app_length, <- drop_drop, drop_app_length. apply Hport.
    + destruct (find_no_scheme host (IntToChars (default 0%Z port))) as [H1 H2];
        [done|apply dec_digits|].
      assert (find (entry_text None host port) (lit "://") 0 = None) as ->; [|apply Hport].
      unfold entry_text. simpl app. destruct port; [done|by rewrite app_nil_r].
  - assert (Hscheme : getScheme uri0 = map tolower (default [] scheme)).
    { subst uri0. destruct scheme; [apply getScheme_setScheme|apply getScheme_new]. }
    rewrite getHost_setHost, getScheme_setHost, getScheme_setPort, getPort_setHost, getPort_setPort, Hscheme.
    + done.
    + destruct port; simpl; [auto|lia].
Qed.

Lemma proxy_entry_roundtrip_witness :
  entry_text (Some (lit "HTTP")) (lit "proxy.local") (Some 8080%Z) = lit "HTTP://proxy.local:8080" /\
  exists uri : @URI plain_URI, ProxyEntryToURI (lit "HTTP://proxy.local:8080") = Ret (uri, lit "proxy.local") /\
    getHost uri = lit "proxy.local" /\ getScheme uri = lit "http" /\ getPort uri = 8080%Z.
Proof.
  split; [by vm_compute|].
  apply (proxy_entry_roundtrip (P := plain_URI) (Some (lit "HTTP")) (lit "proxy.local") (Some 8080%Z)).
  - intros s [= <-]. by apply (bool_decide_unpack _); vm_compute.
  - by apply (bool_decide_unpack _); vm_compute.
  - done.
  - by intros p [= <-].
Defined.

(** The "accepting port" 0 that an entry with a scheme is given comes back as
    the well-known port: the entry [http://a.de] does not bypass port 8080. *)
Lemma entry_port_not_accepting :
  (uri ← ProxyEntryToURI (P := plain_URI) (lit "http://a.de"); Ret (getPort (PocoURI := plain_URI) uri.1)) = Ret 80%Z.
Proof. by vm_compute. Qed.

(** ** The choice of a proxy *)

(** What [GetProxyForURLImpl] picks among the answers of libproxy. *)
Definition chosen_proxy {P : PocoURI} (uri : URI) (infos : list URI) : option URI :=
  if decide (Exists (fun i => getScheme i = lit "direct") infos) then None
  else match last (filter (fun i => getScheme i = getScheme uri) infos) with
       | Some i => Some i
       | None => head infos
       end.

Lemma impl_loop_spec {P : PocoURI} (uri : URI) proxies infos p :
  Forall2 (fun text i => parse_URI text = Ret i) proxies infos ->
  impl_loop uri proxies p =
    Ret (if decide (Exists (fun i => getScheme i = lit "direct") infos) then inl tt
         else inr (match last (filter (fun i => getScheme i = getScheme uri) infos) with
                   | Some i => Some (proxy_at i)
                   | None => p
                   end)).
Proof.
  intros H. revert p. induction H as [|text i proxies infos Hi H IH]; intros p; cbn [impl_loop]; [done|].
  rewrite Hi, res_bind_ret. destruct (decide (getScheme i = lit "direct")) as [Hd|Hd].
  { destruct (decide (Exists _ (i :: infos))) as [|[]]; [done|by left]. }
  rewrite filter_cons. destruct (decide (getScheme i = getScheme uri)) as [He|He]; rewrite IH.
  all: destruct (decide (Exists _ infos)) as [Hx|Hx], (decide (Exists _ (i :: infos))) as [Hy|Hy].
  all: rewrite Exists_cons in Hy; try tauto.
  rewrite last_cons. by destruct (last _).
Qed.

(** Without a "direct" among the answers, the last one with the scheme of the
    URL is taken, or else the first one. *)
Lemma get_proxy_impl_spec {P : PocoURI} (get_proxies : str -> list str) (uri : URI) infos :
  Forall2 (fun text i => parse_URI text = Ret i) (get_proxies (c_str (URI_toString uri))) infos ->
  GetProxyForURLImpl get_proxies uri = Ret (proxy_at <$> chosen_proxy uri infos).
Proof.
  intros H. unfold GetProxyForURLImpl, chosen_proxy. rewrite (impl_loop_spec _ _ infos) by done.
  rewrite res_bind_ret. destruct (decide _); [done|]. destruct (last _); [done|].
  destruct H as [|text i proxies infos Hi H]; [done|]. by rewrite Hi.
Qed.
