(* ===== verification/Host.v ===== *)
(** * Host: module providers, modules and the life of the host process
    (api/host.cpp, api/module.h, host/linux/host.cpp)

    A module is code outside of this model. What counts here is what its
    functions ([Initialize], [Start], [Stop], [Unload]) call on the host: the
    parameter [behaviour] gives these calls. The calls of the host come back
    to the modules, so the functions are written against [op], the host calls
    as the modules see them, and [host_op] ties the knot with a fuel for the
    depth. *)

From S2P Require Import Prelude CppString FileUtils UrlUtils BootUtils EnvironmentUtils.
From S2P Require Import Application Logger.
From stdpp Require Import options.

(** The functions of a [Module] that the host calls. *)
Inductive lifecycle := INITIALIZE | START | STOP | UNLOAD.
#[export] Instance lifecycle_eq_dec : EqDecision lifecycle.
Proof. solve_decision. Defined.

(** A [Module] and a [ModuleProvider], by address. The host is provider 0. *)
Abbreviation ModuleId := nat.
Abbreviation ProviderId := N.
Definition host_provider : ProviderId := 0%N.

Record Module_ := { m_path : str; m_name : str; m_version : str }.

(** What other code calls on the host. [Fail] is an exception that it throws. *)
Inductive host_call :=
  | AddProvider (p : ProviderId)
  | RemoveProvider (p : ProviderId)
  | Unregister (m : ModuleId)
  | ExitHost (code : Z)
  | Fail_ (e : exn).

Record hstate := {
  h_boot : bstate;
  h_application : Application;
  h_environ : environ;
  h_modules : list Module_;                (* every module created *)
  loadedModules : list ModuleId;
  module_providers : list ProviderId;
  module_paths : list str;
  invalid_module_files : list str;
  autoScan : bool;
  running : bool;
  exitCode : Z;
  gtk_quit : bool;                         (* [gtk_main_quit] was called *)
  h_trace : list (lifecycle * ModuleId);   (* the calls of modules' functions, in order *)
  h_log : list (Level * str)
}.
Abbreviation HM := (ST hstate).

(** *** Updates of the fields *)
Definition with_app b a env (s : hstate) : hstate :=
  {| h_boot := b; h_application := a; h_environ := env; h_modules := h_modules s;
     loadedModules := loadedModules s; module_providers := module_providers s;
     module_paths := module_paths s; invalid_module_files := invalid_module_files s;
     autoScan := autoScan s; running := running s; exitCode := exitCode s; gtk_quit := gtk_quit s;
     h_trace := h_trace s; h_log := h_log s |}.
Definition with_modules ms loaded trace (s : hstate) : hstate :=
  {| h_boot := h_boot s; h_application := h_application s; h_environ := h_environ s; h_modules := ms;
     loadedModules := loaded; module_providers := module_providers s;
     module_paths := module_paths s; invalid_module_files := invalid_module_files s;
     autoScan := autoScan s; running := running s; exitCode := exitCode s; gtk_quit := gtk_quit s;
     h_trace := trace; h_log := h_log s |}.
Definition with_scan providers files auto (s : hstate) : hstate :=
  {| h_boot := h_boot s; h_application := h_application s; h_environ := h_environ s;
     h_modules := h_modules s; loadedModules := loadedModules s; module_providers := providers;
     module_paths := module_paths s; invalid_module_files := files;
     autoScan := auto; running := running s; exitCode := exitCode s; gtk_quit := gtk_quit s;
     h_trace := h_trace s; h_log := h_log s |}.
Definition with_run run code quit log (s : hstate) : hstate :=
  {| h_boot := h_boot s; h_application := h_application s; h_environ := h_environ s;
     h_modules := h_modules s; loadedModules := loadedModules s;
     module_providers := module_providers s;
     module_paths := module_paths s; invalid_module_files := invalid_module_files s;
     autoScan := autoScan s; running := run; exitCode := code; gtk_quit := quit;
     h_trace := h_trace s; h_log := log |}.

Definition with_providers f s :=
  with_scan (f (module_providers s)) (invalid_module_files s) (autoScan s) s.
Definition with_invalid f s :=
  with_scan (module_providers s) (f (invalid_module_files s)) (autoScan s) s.
Definition with_autoScan b s := with_scan (module_providers s) (invalid_module_files s) b s.
Definition with_loaded f s := with_modules (h_modules s) (f (loadedModules s)) (h_trace s) s.
Definition with_trace f s := with_modules (h_modules s) (loadedModules s) (f (h_trace s)) s.
Definition log (level : Level) (text : str) : HM unit :=
  modify (fun s => with_run (running s) (exitCode s) (gtk_quit s) (h_log s ++ [(level, text)]) s).

(** What is outside of the host. *)
Record HostWorld := {
  behaviour : lifecycle -> ModuleId -> hstate -> list host_call;
  (* a provider's IsModule and CreateModule; the latter can return null *)
  provider_IsModule : ProviderId -> str -> bool;
  provider_CreateModule : ProviderId -> str -> res (option Module_);
  (* dlopen and dlsym of a shared object: the value of the exception, or the
     name and version that its CreateModule gives to the new module *)
  native_module : str -> option N + (str * str);
  dir_entries : str -> res (list (str * (bool * bool)));  (* path, isDirectory, isHidden *)
  path_parent : str -> str;                (* Poco::Path::parent *)
  manifest_libpath : str -> option str;    (* the property "libpath" of a manifest *)
  split_libpath : str -> list str;         (* Poco::StringTokenizer with TOK_TRIM *)
  display_exception : option N -> str;     (* DisplayString of an exception's value *)
  fire_exit : hstate -> bool;              (* FireRootEvent(Event::EXIT) *)
  ui_calls : list host_call                (* what the jobs and handlers of the UI loop call *)
}.

Definition module_suffix : str := lit "module.so".

Definition the_module (m : ModuleId) : HM Module_ := fun s =>
  (match h_modules s !! m with Some x => Ret x | None => Undef end, s).
Definition on_boot {A} (m : BM A) : HM A := fun s =>
  let '(r, b) := m (h_boot s) in (r, with_app b (h_application s) (h_environ s) s).
Definition set_application (a : Application) : HM unit :=
  modify (fun s => with_app (h_boot s) a (h_environ s) s).
Definition on_environ {A} (m : EM A) : HM A := fun s =>
  let '(r, env) := m (h_environ s) in (r, with_app (h_boot s) (h_application s) env s).

(** [Host::IsModule] *)
Definition Host_IsModule (filename : str) : bool :=
  (length module_suffix <? length filename) &&
  bool_decide (drop (length filename - length module_suffix) filename = module_suffix).

Section Host.
Context (W : HostWorld) (op : host_call -> HM unit).

(** [LinuxHost::CreateModule]: the new module is given the directory. *)
Definition LinuxHost_CreateModule (path : str) : res (option Module_) :=
  match native_module W path with
  | inl value => Throw (ValueException value)
  | inr (name, version) =>
      Ret (Some {| m_path := GetDirectory path; m_name := name; m_version := version |})
  end.

Definition IsModule_of (p : ProviderId) (path : str) : bool :=
  if decide (p = host_provider) then Host_IsModule path else provider_IsModule W p path.
Definition CreateModule_of (p : ProviderId) (path : str) : res (option Module_) :=
  if decide (p = host_provider) then LinuxHost_CreateModule path else provider_CreateModule W p path.

(** A call of a function of a module. *)
Definition notify (l : lifecycle) (m : ModuleId) : HM unit :=
  modify (with_trace (fun t => t ++ [(l, m)]));;
  calls ← gets (behaviour W l m);
  st_fold (fun _ c => op c) tt calls.

(** ** Providers *)

Definition FindModuleProvider (filename : str) : HM (option ProviderId) :=
  providers ← gets module_providers;
  mret (list_find (fun p => IsModule_of p filename = true) providers ≫= fun ip => Some ip.2).

Fixpoint remove_first (p : ProviderId) (l : list ProviderId) : list ProviderId :=
  match l with
  | [] => []
  | q :: l' => if decide (p = q) then l' else q :: remove_first p l'
  end.
Definition RemoveModuleProvider (p : ProviderId) : HM unit :=
  modify (with_providers (remove_first p)).

Definition AddInvalidModuleFile (path : str) : HM unit :=
  modify (with_invalid (fun files => if decide (path ∈ files) then files else files ++ [path])).

(** ** Modules *)

Fixpoint find_module (P : Module_ -> bool) (l : list ModuleId) : HM (option ModuleId) :=
  match l with
  | [] => mret None
  | m :: rest => x ← the_module m; if P x then mret (Some m) else find_module P rest
  end.
Definition GetModuleByPath (path : str) : HM (option ModuleId) :=
  loaded ← gets loadedModules; find_module (fun x => bool_decide (m_path x = path)) loaded.
Definition GetModuleByName (name : str) : HM (option ModuleId) :=
  loaded ← gets loadedModules; find_module (fun x => bool_decide (m_name x = name)) loaded.

(** [Host::ReadModuleManifest]: the directories of "libpath" are put in front
    of the library path. *)
Definition LIB_PATH_ENV : str := lit "LD_LIBRARY_PATH".
Fixpoint prepend_libs (moduleTopDir : str) (libs : list str) (newLibPath : str) : res str :=
  match libs with
  | [] => Ret newLibPath
  | lib :: rest =>
      path ← Join [moduleTopDir; lib];
      prepend_libs moduleTopDir rest (path ++ lit ":" ++ newLibPath)
  end.
Definition ReadModuleManifest (modulePath : str) : HM unit :=
  let moduleTopDir := path_parent W modulePath in
  manifestPath ← lift (Join [moduleTopDir; MANIFEST_FILENAME]);
  match manifest_libpath W manifestPath with
  | None => mret tt
  | Some libPath =>
      known ← on_environ (Has LIB_PATH_ENV);
      old ← (if known : bool then on_environ (Get LIB_PATH_ENV) else mret []);
      newLibPath ← lift (prepend_libs moduleTopDir (split_libpath W libPath) old);
      on_environ (Set_ LIB_PATH_ENV newLibPath)
  end.

Definition could_not_load (path : str) (e : exn) : str :=
  lit "Could not load module (" ++ path ++ lit ")" ++
  match e with
  | ValueException v => lit ": " ++ display_exception W v
  | StdException what => lit ": " ++ what
  | _ => []
  end.

(** The second part of the [try] block of [LoadModule], with its handlers: the
    variable [module] is set, and returned whatever happens. *)
Definition initialize_module (path : str) (m : ModuleId) (x : Module_) : HM (option ModuleId) :=
  try_catch
    (notify INITIALIZE m;;
     modify (with_loaded (fun l => l ++ [m]));;
     a ← gets h_application;
     a ← on_boot (UsingModule a (m_name x) (m_version x) path);
     set_application a;;
     log LINFO (lit "Loaded module = " ++ m_name x);;
     mret (Some m))
    (fun e => log LERROR (could_not_load path e);; mret (Some m)).

(** [Host::LoadModule], but for [CopyModuleAppResources]. *)
Definition LoadModule (path : str) (provider : ProviderId) : HM (option ModuleId) :=
  known ← GetModuleByPath path;
  match known with
  | Some _ => log LWARN (lit "Module cannot be loaded twice: " ++ path);; mret None
  | None =>
      try_catch
        (log LDEBUG (lit "Loading module: " ++ path);;
         ReadModuleManifest path;;
         created ← lift (CreateModule_of provider path);
         x ← some_or_undef created;
         ms ← gets h_modules;
         modify (fun s => with_modules (h_modules s ++ [x]) (loadedModules s) (h_trace s) s);;
         initialize_module path (length ms) x)
        (fun e => log LERROR (could_not_load path e);; mret None)
  end.

(** [StartModules] has its own copy of the list. *)
Definition StartModules (to_init : list ModuleId) : HM unit :=
  st_fold (fun _ m => notify START m) tt to_init.

(** The loop of [ScanInvalidModuleFiles]: the modules it loaded. Only this
    loop erases files, [i] is the iterator. *)
Fixpoint scan_loop (fuel : nat) (i : nat) (modulesLoaded : list ModuleId) : HM (list ModuleId) :=
  match fuel with
  | O => lift Fuel
  | S fuel' =>
      files ← gets invalid_module_files;
      match files !! i with
      | None => mret modulesLoaded
      | Some path =>
          provider ← FindModuleProvider path;
          match provider with
          | Some p =>
              m ← LoadModule path p;
              modify (with_invalid (delete i));;
              scan_loop fuel' i (modulesLoaded ++ match m with Some m => [m] | None => [] end)
          | None => scan_loop fuel' (S i) modulesLoaded
          end
      end
  end.

Fixpoint ScanInvalidModuleFiles (fuel : nat) : HM unit :=
  match fuel with
  | O => lift Fuel
  | S fuel' =>
      modify (with_autoScan false);;
      files ← gets invalid_module_files;
      modulesLoaded ← scan_loop (S (length files)) 0 [];
      (match modulesLoaded with
       | [] => mret tt
       | _ => StartModules modulesLoaded;; ScanInvalidModuleFiles fuel'
       end);;
      modify (with_autoScan true)
  end.
(** Every turn but the last erases a file. *)
Definition scan : HM unit :=
  files ← gets invalid_module_files; ScanInvalidModuleFiles (S (length files)).

Definition AddModuleProvider (p : ProviderId) : HM unit :=
  modify (with_providers (fun l => l ++ [p]));;
  auto ← gets autoScan;
  if auto : bool then scan else mret tt.

(** The components of the application with the path of the module go. *)
Fixpoint erase_components (path : str) (l : list SharedComponent) : HM (list SharedComponent) :=
  match l with
  | [] => mret []
  | p :: rest =>
      c ← on_boot (comp p);
      rest ← erase_components path rest;
      mret (if decide (path = c_path c) then rest else p :: rest)
  end.

Definition UnregisterModule (m : ModuleId) : HM unit :=
  x ← the_module m;
  log LNOTICE (lit "Unregistering: " ++ m_name x);;
  notify UNLOAD m;;
  modify (with_loaded (filter (fun m' => m <> m')));;
  a ← gets h_application;
  modules ← erase_components (m_path x) (a_modules a);
  set_application (with_components modules (a_sdks a) (a_runtime a) a).

(** [Host::Exit] and [LinuxHost::Exit], which leaves the UI loop even when the
    exit was cancelled. *)
Definition Host_Exit (code : Z) : HM unit :=
  log LNOTICE (lit "Received exit signal (" ++ lit (pretty code) ++ lit ")");;
  go ← gets (fire_exit W);
  if go : bool
  then modify (fun s => with_run false code (gtk_quit s) (h_log s) s)
  else log LNOTICE (lit "Exit signal canceled by event handler").
Definition LinuxHost_Exit (code : Z) : HM unit :=
  Host_Exit code;;
  modify (fun s => with_run (running s) (exitCode s) true (h_log s) s).

Definition host_step (c : host_call) : HM unit :=
  match c with
  | AddProvider p => AddModuleProvider p
  | RemoveProvider p => RemoveModuleProvider p
  | Unregister m => UnregisterModule m
  | ExitHost code => LinuxHost_Exit code
  | Fail_ e => throw e
  end.

(** ** Loading and unloading *)

Definition FindBasicModules (dir : str) : HM unit :=
  entries ← lift (dir_entries W dir);
  st_fold (fun _ '(fpath, (isDirectory, isHidden)) =>
    if negb isDirectory && negb isHidden then
      if Host_IsModule fpath then LoadModule fpath host_provider;; mret tt
      else AddInvalidModuleFile fpath
    else mret tt) tt entries.

Definition LoadModules : HM unit :=
  paths ← gets module_paths;
  st_fold (fun _ dir => FindBasicModules dir) tt paths;;
  scan;;
  loaded ← gets loadedModules;
  StartModules loaded;;
  modify (with_autoScan true).

(** The turns of the loops below are bounded by the number of modules and of
    providers, as long as the modules do not load others while they stop. *)
Fixpoint stop_loop (fuel i : nat) : HM unit :=
  match fuel with
  | O => lift Fuel
  | S fuel' =>
      loaded ← gets loadedModules;
      match loaded !! i with
      | None => mret tt
      | Some m => notify STOP m;; stop_loop fuel' (S i)
      end
  end.
Fixpoint unregister_loop (fuel : nat) : HM unit :=
  match fuel with
  | O => lift Fuel
  | S fuel' =>
      loaded ← gets loadedModules;
      match loaded with
      | [] => mret tt
      | m :: _ => UnregisterModule m;; unregister_loop fuel'
      end
  end.
Definition UnloadModules : HM unit :=
  loaded ← gets loadedModules;
  stop_loop (S (length loaded)) 0;; unregister_loop (S (length loaded)).

Fixpoint unload_providers (fuel : nat) : HM unit :=
  match fuel with
  | O => lift Fuel
  | S fuel' =>
      providers ← gets module_providers;
      match providers with
      | [] => mret tt
      | p :: _ => RemoveModuleProvider p;; unload_providers fuel'
      end
  end.
Definition UnloadModuleProviders : HM unit :=
  providers ← gets module_providers; unload_providers (S (length providers)).

(** [LinuxHost::RunLoop]: the UI loop, until [gtk_main_quit]. *)
Fixpoint gtk_main (calls : list host_call) : HM unit :=
  match calls with
  | [] => mret tt
  | c :: rest =>
      op c;;
      quit ← gets gtk_quit;
      if quit : bool then mret tt else gtk_main rest
  end.

(** [catch (ValueException)] *)
Definition catch_value {A} (m : HM A) (h : option N -> HM A) : HM A :=
  try_catch m (fun e => match e with ValueException v => h v | _ => throw e end).

(** [Host::Run], without the wait for a debugger and the profiler. [RunLoop]
    returns false on Linux. *)
Definition Run_ (runUILoop : bool) : HM Z :=
  loaded ← catch_value (AddModuleProvider host_provider;; LoadModules;; mret true)
    (fun v => log LERROR (display_exception W v);; mret false);
  if loaded : bool then
    catch_value
      (modify (fun s => with_run true (exitCode s) (gtk_quit s) (h_log s) s);;
       if runUILoop then gtk_main (ui_calls W) else mret tt)
      (fun v => log LERROR (lit "Caught exception in main loop: " ++ display_exception W v));;
    UnloadModuleProviders;;
    UnloadModules;;
    code ← gets exitCode;
    log LNOTICE (lit "Exiting with exit code: " ++ lit (pretty code));;
    mret code
  else mret 1%Z.
End Host.

(** Calls nested at most [n] deep. *)
Fixpoint host_op (W : HostWorld) (n : nat) : host_call -> HM unit :=
  match n with
  | O => fun _ => lift Fuel
  | S n' => host_step W (host_op W n')
  end.
