(* ===== verification/HostSetup.v ===== *)
(** * HostSetup: the constructor of the host and its command line
    (api/host.cpp, host/linux/host.cpp)

    The constructor puts the parts together: the global object and the
    registry of script evaluators, the application of the environment with its
    components, the options of the command line, the loggers and the profiler.
    Afterwards [Host::Run] of [Host] starts with the paths of modules that the
    boot program left in the environment. *)

From S2P Require Import Prelude CppString FileUtils BootUtils EnvironmentUtils Application Logger.
From S2P Require Import System Directories Host Heap Virtual StaticBound Wrappers Events Script ApiObjects.
From stdpp Require Import options.

Definition HOME_ENV : str := lit "KR_HOME".
Definition RUNTIME_ENV : str := lit "KR_RUNTIME".
Definition MODULES_ENV : str := lit "KR_MODULES".
Definition DEBUG_ENV : str := lit "KR_DEBUG".
Definition DEBUG_ARG : str := lit "--debug".
Definition ATTACH_DEBUGGER_ARG : str := lit "--attach-debugger".
Definition NO_CONSOLE_LOG_ARG : str := lit "--no-console-logging".
Definition NO_FILE_LOG_ARG : str := lit "--no-file-logging".
Definition PROFILE_ARG : str := lit "--profile".
Definition LOGPATH_ARG : str := lit "--logpath".
Definition BOOT_HOME_ARG : str := lit "--start".

(** ** The state *)

(** The fields of the host that only it uses; [application], [globalObject],
    [debug] and [profile] are in the heap, where the API reads them. *)
Record host_fields := {
  g_module_paths : list str;
  g_waitForDebugger : bool;
  g_profilePath : str;
  g_profileStream : option str;      (* the open file of the profile *)
  g_logFilePath : str;
  g_consoleLogging : bool;
  g_fileLogging : bool;
  g_logger : option N
}.
Record hosting := { g_heap : heap; g_host : host_fields }.
Abbreviation GM := (ST hosting).

Definition new_host_fields : host_fields :=
  {| g_module_paths := []; g_waitForDebugger := false; g_profilePath := []; g_profileStream := None;
     g_logFilePath := []; g_consoleLogging := true; g_fileLogging := true; g_logger := None |}.

Definition g_with_heap h (g : hosting) := {| g_heap := h; g_host := g_host g |}.
Definition g_with_host f (g : hosting) := {| g_heap := g_heap g; g_host := f (g_host g) |}.
Definition with_module_paths l f :=
  {| g_module_paths := l; g_waitForDebugger := g_waitForDebugger f; g_profilePath := g_profilePath f;
     g_profileStream := g_profileStream f; g_logFilePath := g_logFilePath f;
     g_consoleLogging := g_consoleLogging f; g_fileLogging := g_fileLogging f; g_logger := g_logger f |}.
Definition with_options wait console file f :=
  {| g_module_paths := g_module_paths f; g_waitForDebugger := wait; g_profilePath := g_profilePath f;
     g_profileStream := g_profileStream f; g_logFilePath := g_logFilePath f;
     g_consoleLogging := console; g_fileLogging := file; g_logger := g_logger f |}.
Definition with_profile path stream f :=
  {| g_module_paths := g_module_paths f; g_waitForDebugger := g_waitForDebugger f; g_profilePath := path;
     g_profileStream := stream; g_logFilePath := g_logFilePath f;
     g_consoleLogging := g_consoleLogging f; g_fileLogging := g_fileLogging f; g_logger := g_logger f |}.
Definition with_logging path logger f :=
  {| g_module_paths := g_module_paths f; g_waitForDebugger := g_waitForDebugger f;
     g_profilePath := g_profilePath f; g_profileStream := g_profileStream f; g_logFilePath := path;
     g_consoleLogging := g_consoleLogging f; g_fileLogging := g_fileLogging f; g_logger := logger |}.

(** The fields that are in the heap. *)
Definition with_host application global debug s :=
  {| s_boot := s_boot s; s_searchPaths := s_searchPaths s; s_apps := s_apps s;
     s_application := application; s_global := global; s_environ := s_environ s;
     s_log := s_log s; s_evaluators := s_evaluators s; s_fs := s_fs s; s_debug := debug;
     s_js := s_js s; s_py := s_py s; s_rb := s_rb s; s_php := s_php s |}.
Definition with_application p s := with_host p (s_global s) (s_debug s) s.
Definition with_global o s := with_host (s_application s) o (s_debug s) s.
Definition with_debug b s := with_host (s_application s) (s_global s) b s.
Definition with_profiling b h :=
  {| next := next h; vals := vals h; objs := objs h; listeners := listeners h;
     listenerMap := listenerMap h; currentId := currentId h; root := root h; profiling := b;
     jobs := jobs h; output := output h; sys := sys h |}.

Definition on_heap {A} (m : M A) : GM A := zoom g_heap g_with_heap m.
Definition set_sys (f : System -> System) : GM unit := on_heap (modify (with_sys f)).
Definition set_host (f : host_fields -> host_fields) : GM unit := modify (g_with_host f).
Definition host {A} (f : host_fields -> A) : GM A := gets (fun g => f (g_host g)).

Section HostSetup.
Context (W : World) (V : VOps).
(** Opening the log file (after making its directories) and the profile. *)
Context (open_log : str -> res bool) (open_profile : str -> res unit).
#[local] Abbreviation product := (PRODUCT_NAME (w_machine (outside W))).

(** [this->application] *)
Definition current : M Application :=
  p ← gets (fun h => s_application (sys h)); the_app p.

(** ** The parts of the constructor *)

Definition SetupGlobalObject : GM unit :=
  o ← on_heap (new_object [] StaticBoundObject);
  set_sys (with_global o);;
  on_heap (SetEventConstants V o);;
  on_heap Script_Initialize.

(** The loggers are not initialised; the format lacks its argument. The
    environment is Poco's, whose [get] throws for a variable that is not there:
    it is only asked for those that are. *)
Definition AssertEnvironmentVariable (variable : str) : GM unit :=
  known ← on_heap (on_environ (Has variable));
  if known : bool then mret tt
  else on_heap (on_log (Logger_Get product (lit "Host")));; lift Undef.

(** Resolve the dependencies of an application; the runtime is the running one. *)
Definition resolve_components (p : N) : M unit :=
  a ← the_app p; paths ← SearchPaths W; fs ← the_fs;
  '(a, _) ← on_boot (ResolveDependencies fs paths a);
  put_app p a;;
  match a_runtime a with
  | Some r => on_boot (set_version r (PRODUCT_VERSION (w_machine (outside W))))
  | None => mret tt
  end.

(** The code if the process exits. *)
Definition SetupApplication (argv : list str) : GM (option Z) :=
  AssertEnvironmentVariable HOME_ENV;;
  AssertEnvironmentVariable RUNTIME_ENV;;
  AssertEnvironmentVariable MODULES_ENV;;
  applicationHome ← on_heap (on_environ (Get HOME_ENV));
  modulePaths ← on_heap (on_environ (Get MODULES_ENV));
  fs ← on_heap the_fs;
  app ← lift (NewApplication fs applicationHome);
  match app with
  | None =>
      on_heap (log_line (lit "stderr") (lit "Could not load the application at: " ++ applicationHome));;
      mret (Some 105%Z)
  | Some a =>
      p ← on_heap (new_app (AddArguments argv a));
      set_sys (with_application p);;
      on_heap (resolve_components p);;
      paths ← host g_module_paths;
      paths ← lift (Tokenize modulePaths paths (lit ":") true);
      set_host (with_module_paths paths);;
      mret None
  end.

(** [--start]: another application takes the place. *)
Definition start_other (a : Application) : M unit :=
  fs ← the_fs;
  newApp ← lift (NewApplication fs (GetArgumentValue a BOOT_HOME_ARG));
  match newApp with
  | None => mret tt
  | Some b =>
      p ← new_app (SetArguments (a_arguments a) b);
      resolve_components p;;
      modify (with_sys (with_application p))
  end.

Definition ParseCommandLineArguments : GM unit :=
  a ← on_heap current;
  let has := HasArgument a in
  (if has DEBUG_ARG then set_sys (with_debug true) else mret tt);;
  set_host (fun f => with_options (g_waitForDebugger f || has ATTACH_DEBUGGER_ARG)
                       (g_consoleLogging f && negb (has NO_CONSOLE_LOG_ARG))
                       (g_fileLogging f && negb (has NO_FILE_LOG_ARG)) f);;
  (if has PROFILE_ARG then
     let path := GetArgumentValue a PROFILE_ARG in
     set_host (fun f => with_profile path (g_profileStream f) f);;
     on_heap (modify (with_profiling (bool_decide (path <> []))))
   else mret tt);;
  (if has LOGPATH_ARG
   then set_host (fun f => with_logging (GetArgumentValue a LOGPATH_ARG) (g_logger f) f)
   else mret tt);;
  if has BOOT_HOME_ARG then on_heap (start_other a) else mret tt.

(** The variable wins over the command line. *)
Definition debug_from_environment : GM unit :=
  known ← on_heap (on_environ (Has DEBUG_ENV));
  if known : bool then
    debug_val ← on_heap (on_environ (Get DEBUG_ENV));
    set_sys (with_debug (bool_decide (debug_val ∈ [lit "true"; lit "yes"; lit "1"])))
  else mret tt.

(** An empty path is for no file. *)
Definition log_file_path (fileLogging : bool) (logFilePath : str) : M str :=
  if fileLogging then
    match logFilePath with
    | [] =>
        a ← current; machine ← the_machine W;
        dataDir ← on_fs (GetApplicationDataDirectory (w_mkdir (outside W)) machine (a_id a));
        lift (Join [dataDir; lit "tiapp.log"])
    | _ => mret logFilePath
    end
  else mret [].

Definition SetupLogging : GM unit :=
  file ← host g_fileLogging;
  path ← host g_logFilePath;
  path ← on_heap (log_file_path file path);
  set_host (fun f => with_logging path (g_logger f) f);;
  a ← on_heap current;
  debug ← on_heap (gets (fun h => s_debug (sys h)));
  console ← host g_consoleLogging;
  on_heap (on_log (Logger_Initialize product open_log console path
                     (GetLevel_of_string debug (a_logLevel a))));;
  logger ← on_heap (on_log (Logger_Get product (lit "Host")));
  set_host (fun f => with_logging (g_logFilePath f) (Some logger) f).

(** [logger->Info(...)]: the text after [printf]. *)
Definition host_log (level : Level) (text : str) : GM unit :=
  logger ← host g_logger;
  logger ← lift (match logger with Some l => Ret l | None => Undef end);
  on_heap (on_log (Log_at_format (w_format (outside W)) (w_callback (outside W)) (vFuel V)
                     level logger text)).

Definition SetupProfiling : GM unit :=
  profile ← on_heap (gets profiling);
  if profile : bool then
    path ← host g_profilePath;
    lift (open_profile path);;
    set_host (with_profile path (Some path));;
    o ← on_heap (gets (fun h => s_global (sys h)));
    w ← on_heap (new_ProfiledBoundObject V o);
    set_sys (with_global w);;
    host_log LINFO (lit "Starting Profiler. Output going to " ++ c_str path)
  else mret tt.

Definition StopProfiling : GM unit :=
  profile ← on_heap (gets profiling);
  if profile : bool then
    host_log LINFO (lit "Stopping Profiler");;
    set_host (fun f => with_profile (g_profilePath f) None f);;
    on_heap (modify (with_profiling false))
  else mret tt.

(** The initializers of the members. *)
Definition initialise : GM unit :=
  set_host (fun _ => new_host_fields);;
  set_sys (with_host 0 0 false);;
  on_heap (modify (with_profiling false)).

(** [Host::Host]: the code if the process exits. *)
Definition new_Host (argv : list str) : GM (option Z) :=
  initialise;;
  SetupGlobalObject;;
  exited ← SetupApplication argv;
  match exited with
  | Some code => mret (Some code)
  | None =>
      ParseCommandLineArguments;;
      debug_from_environment;;
      SetupLogging;;
      SetupProfiling;;
      mret None
  end.

(** ** What the host tells *)

Definition Host_GetApplicationHomePath : M str := a ← current; mret (a_path a).
Definition GetRuntimePath : M str :=
  a ← current; r ← some_or_undef (a_runtime a); c ← on_boot (comp r); mret (c_path c).
Definition GetApplicationID : M str := a ← current; mret (a_id a).
Definition GetApplicationGUID : M str := a ← current; mret (a_guid a).
Definition GetCommandLineArgCount : M nat := a ← current; mret (length (a_arguments a)).
(** A negative index is a large one for [at]. *)
Definition GetCommandLineArg (index : Z) : M (option str) :=
  a ← current;
  if (index <? Z.of_nat (length (a_arguments a)))%Z then
    if (index <? 0)%Z then throw out_of_range
    else arg ← some_or_undef (a_arguments a !! Z.to_nat index); mret (Some (c_str arg))
  else mret None.

(** ** The run *)

(** The host as [Host::Run] finds it. *)
Definition host_state (g : hosting) (a : Application) : hstate :=
  {| h_boot := s_boot (sys (g_heap g)); h_application := a; h_environ := s_environ (sys (g_heap g));
     h_modules := []; loadedModules := []; module_providers := [];
     module_paths := g_module_paths (g_host g); invalid_module_files := []; autoScan := false;
     running := false; exitCode := 0; gtk_quit := false; h_trace := []; h_log := [] |}.

(** [Execute] of host/linux/host.cpp: the constructor, then [Run] with the
    calls of modules nested at most [n] deep. The state of the run is kept. *)
Definition LinuxHost_Execute (HW : HostWorld) (n : nat) (argv : list str) : GM (Z * option hstate) :=
  exited ← new_Host argv;
  match exited with
  | Some code => mret (code, None)
  | None =>
      a ← on_heap current;
      g ← gets id;
      let '(r, s) := Run_ HW (host_op HW n) true (host_state g a) in
      code ← lift r; mret (code, Some s)
  end.
End HostSetup.
