(* ===== verification/HostLaws.v ===== *)
(** * HostLaws: what the host promises of the life of modules

    The scan of module files ends and leaves no file that a provider accepts;
    every module that was loaded is initialized, started, stopped and unloaded
    in this order; the modules are all stopped before the first is unloaded. *)

From S2P Require Import Prelude CppString FileUtils UrlUtils BootUtils EnvironmentUtils.
From S2P Require Import Application ApplicationLaws Logger Host.
From stdpp Require Import options.

(** ** Well-behaved modules

    Modules do not unregister modules themselves, and while they stop and
    unload they do not add providers, which would load more modules; they may
    throw. *)
Definition loads (c : host_call) : Prop := forall m, c <> Unregister m.
Definition winds_down (c : host_call) : Prop := match c with AddProvider _ | Unregister _ => False | _ => True end.

Class Tame (W : HostWorld) : Prop := {
  tame_calls l m s : Forall loads (behaviour W l m s);
  tame_stop l m s : l = STOP \/ l = UNLOAD -> Forall winds_down (behaviour W l m s);
  tame_ui : Forall loads (ui_calls W);
  tame_create p path : provider_CreateModule W p path <> Fuel;
  tame_entries dir : dir_entries W dir <> Fuel
}.

(** ** Scanning *)

(** While [autoScan] is off nothing scans: the list of files stays, and the
    nested calls end. *)
Abbreviation calm := (within false (fun s => autoScan s = false)
  (fun s s' => invalid_module_files s' = invalid_module_files s)).
#[export] Instance same_files_preorder :
  PreOrder (fun s s' => invalid_module_files s' = invalid_module_files s).
Proof. split; [done|]. intros ???. congruence. Qed.

Lemma calm_modify f :
  (forall s, autoScan (f s) = autoScan s /\ invalid_module_files (f s) = invalid_module_files s) ->
  calm (modify f).
Proof. intros Hf. apply within_modify; [apply _|]. intros s. destruct (Hf s). intuition congruence. Qed.
Lemma calm_lift {A} (r : res A) : r <> Fuel -> calm (lift r : HM A).
Proof. apply within_lift, _. Qed.

(** Computations over other states that never run out of fuel. *)
Abbreviation ends := (within false (fun _ => True) (fun _ _ => True)).
#[local] Instance any_preorder {S} : PreOrder (fun _ _ : S => True).
Proof. done. Qed.

Lemma ends_run {S A} (m : ST S A) s : ends m -> (m s).1 <> Fuel.
Proof. intros Hm. by destruct (Hm s I) as (_ & _ & [|]). Qed.

Lemma modify_ends {S} (f : S -> S) : ends (modify f).
Proof. by apply within_modify; [apply _|]. Qed.
#[local] Hint Resolve modify_ends : within.

Lemma Has_ends name : ends (Has name).
Proof. unfold Has, Get. within. Qed.
Lemma Get_ends name : ends (Get name).
Proof. unfold Has, Get. within. Qed.
Lemma Set_ends name v : ends (Set_ name v).
Proof. unfold Set_. within. Qed.

Lemma comp_ends p : ends (comp p).
Proof. intros s _. unfold comp. simpl. destruct (_ !! _); by repeat split; right. Qed.
#[local] Hint Resolve comp_ends : within.
Lemma UsingModule_ends a n v p : ends (UsingModule a n v p).
Proof.
  assert (forall l, ends (update_module l n v)).
  { intros l. induction l as [|q l IH]; simpl; unfold set_version; within. }
  unfold UsingModule. within. intros s _. repeat split. by right.
Qed.

Lemma Join_ends args : Join args <> Fuel.
Proof.
  unfold Join. generalize (filter (fun p : str => p <> []) (map c_str args)). intros l.
  generalize true, ([] : str). induction l as [|p l IH]; intros b acc; [done|].
  cbn [join_loop]. rewrite Trim_spec, res_bind_ret. unfold join_strip_last.
  destruct (last _); [|done]. rewrite res_bind_ret. apply IH.
Qed.
Lemma prepend_libs_ends top libs acc : prepend_libs top libs acc <> Fuel.
Proof.
  revert acc. induction libs as [|lib libs IH]; intros acc; simpl; [done|].
  destruct (Join _) eqn:E; try done; [apply IH|]. by apply Join_ends in E.
Qed.

Lemma on_environ_calm {A} (m : EM A) : ends m -> calm (on_environ m).
Proof.
  intros Hm s Hs. unfold on_environ. pose proof (ends_run m (h_environ s) Hm). destruct (m _) as [r env].
  repeat split; [done|by right].
Qed.
Lemma on_boot_calm {A} (m : BM A) : ends m -> calm (on_boot m).
Proof.
  intros Hm s Hs. unfold on_boot. pose proof (ends_run m (h_boot s) Hm). destruct (m _) as [r b].
  repeat split; [done|by right].
Qed.
#[export] Hint Resolve calm_modify calm_lift on_environ_calm on_boot_calm Has_ends Get_ends Set_ends
  comp_ends UsingModule_ends Join_ends prepend_libs_ends : within.

Lemma log_calm level text : calm (log level text).
Proof. by apply calm_modify. Qed.
Lemma the_module_calm m : calm (the_module m).
Proof. intros s Hs. unfold the_module. simpl. destruct (_ !! _); by repeat split; [|right]. Qed.
#[export] Hint Resolve log_calm the_module_calm : within.

Lemma find_module_calm P l : calm (find_module P l).
Proof. induction l as [|m l IH]; simpl; within. Qed.
#[export] Hint Resolve find_module_calm : within.

(** With [autoScan] off, a call on the host reaches no module. *)
Section HostCalls.
Context (W : HostWorld) (op : host_call -> HM unit).

Lemma AddModuleProvider_calm p : calm (AddModuleProvider W op p).
Proof.
  unfold AddModuleProvider. apply within_bind; [apply _|by apply calm_modify|]. intros _.
  apply (within_gets_bind _ _ _ (fun b => b = false)); [done|]. intros _ ->. within.
Qed.
Lemma host_step_calm c : loads c -> calm (host_step W op c).
Proof.
  destruct c as [p|p|m|code|e]; intros Hc; simpl.
  - apply AddModuleProvider_calm.
  - by apply calm_modify.
  - by destruct (Hc m).
  - unfold LinuxHost_Exit, Host_Exit. within.
  - within.
Qed.
End HostCalls.

Lemma host_op_S W n c : host_op W (S n) c = host_step W (host_op W n) c.
Proof. done. Qed.
Lemma host_op_calm W n c : loads c -> calm (host_op W (S n) c).
Proof. apply host_step_calm. Qed.

Section Calm.
Context (W : HostWorld) `{HW : !Tame W} (op : host_call -> HM unit).
Context (Hop : forall c, loads c -> calm (op c)).
#[local] Set Default Proof Using "Type*".

Lemma notify_calm l m : calm (notify W op l m).
Proof.
  unfold notify. apply within_bind; [apply _|by apply calm_modify|]. intros _.
  apply (within_gets_bind _ _ _ (Forall loads)); [intros; apply tame_calls|]. intros calls Hcalls.
  apply within_st_fold; [apply _|]. intros _ c Hc. apply Hop. by eapply Forall_forall in Hcalls.
Qed.

Lemma ReadModuleManifest_calm path : calm (ReadModuleManifest W path).
Proof. unfold ReadModuleManifest. within. Qed.

Lemma CreateModule_ends p path : CreateModule_of W p path <> Fuel.
Proof.
  unfold CreateModule_of, LinuxHost_CreateModule. case_decide; [|apply tame_create].
  by destruct (native_module _ _) as [|[]].
Qed.
#[local] Hint Resolve notify_calm ReadModuleManifest_calm CreateModule_ends : within.

Lemma LoadModule_calm path p : calm (LoadModule W op path p).
Proof.
  unfold LoadModule, initialize_module, GetModuleByPath, set_application. within.
Qed.
#[local] Hint Resolve LoadModule_calm : within.

Lemma FindModuleProvider_calm path : calm (FindModuleProvider W path).
Proof. unfold FindModuleProvider. within. Qed.
Lemma StartModules_calm l : calm (StartModules W op l).
Proof. unfold StartModules. within. Qed.

Definition unclaimed (s : hstate) (path : str) : Prop :=
  Forall (fun p => IsModule_of W p path = false) (module_providers s).

Lemma FindModuleProvider_run path s :
  exists r, FindModuleProvider W path s = (Ret r, s) /\ (r = None -> unclaimed s path) /\
    (forall p, r = Some p -> p ∈ module_providers s /\ IsModule_of W p path = true).
Proof.
  unfold FindModuleProvider. eexists. split; [reflexivity|].
  destruct (list_find _ _) as [[k p]|] eqn:E; simpl; split; try done.
  - intros p' [= <-]. apply list_find_Some in E as (Hk & Hp & _).
    by apply list_elem_of_lookup_2 in Hk.
  - intros _. apply list_find_None in E. unfold unclaimed. eapply Forall_impl; [exact E|].
    intros q Hq. by apply not_true_is_false.
Qed.

End Calm.

(** ** A module that cannot even be created leaves the providers alone *)

#[local] Instance same_providers_preorder :
  PreOrder (fun s s' => module_providers s' = module_providers s).
Proof. split; [done|]. intros ???. congruence. Qed.
Abbreviation same_providers := (within true (fun _ : hstate => True)
  (fun s s' => module_providers s' = module_providers s)).

Lemma same_modify f : (forall s, module_providers (f s) = module_providers s) -> same_providers (modify f).
Proof. intros Hf. by apply within_modify; [apply _|]. Qed.
Lemma same_lift {A} (r : res A) : same_providers (lift r : HM A).
Proof. intros s _. repeat split. by left. Qed.
Lemma same_environ {A} (m : EM A) : same_providers (on_environ m).
Proof. intros s _. unfold on_environ. destruct (m _). repeat split. by left. Qed.
#[local] Hint Resolve same_modify same_lift same_environ : within.

Definition only_some {A} (m : HM (option A)) : Prop := forall s s', m s <> (Ret None, s').
Lemma only_some_bind {A B} (m : HM A) (f : A -> HM (option B)) :
  (forall a, only_some (f a)) -> only_some (m ≫= f).
Proof. intros Hf s s' (a & s1 & _ & E)%st_bind_Ret_inv. by apply Hf in E. Qed.

(** When [m] throws or returns null, the providers are those from before. *)
Definition early {A} (m : HM (option A)) : Prop := forall s,
  match m s with
  | (Throw _, s') | (Ret None, s') => module_providers s' = module_providers s
  | _ => True
  end.
Lemma early_bind {A B} (m : HM A) (f : A -> HM (option B)) :
  same_providers m -> (forall a, early (f a)) -> early (m ≫= f).
Proof.
  intros Hm Hf s. destruct (Hm s I) as (_ & Hs & _). unfold mbind, st_bind.
  destruct (m s) as [[a| | |] s1]; simpl in *; try done.
  specialize (Hf a s1). destruct (f a s1) as [[[]| | |] s2]; try done; congruence.
Qed.
Lemma early_caught {A} (m : HM (option A)) k : only_some m ->
  (forall e s, exists x s', k e s = (Ret (Some x), s')) -> early (try_catch m k).
Proof.
  intros Hm Hk s. unfold try_catch. destruct (m s) as [[[]| | |] s1] eqn:E; try done.
  - by apply Hm in E.
  - by destruct (Hk e s1) as (x & s' & ->).
Qed.

Lemma LoadModule_None W op path p s s' :
  LoadModule W op path p s = (Ret None, s') -> module_providers s' = module_providers s.
Proof.
  unfold LoadModule. intros (known & s1 & Hk & E)%st_bind_Ret_inv.
  assert (s1 = s) as ->.
  { unfold GetModuleByPath in Hk. apply st_bind_Ret_inv in Hk as (l & s2 & [= <- <-] & Hk).
    revert Hk. generalize (fun x => bool_decide (m_path x = path)) as Q. intros Q.
    induction (loadedModules s) as [|m l IH]; simpl; [by intros [= _ ->]|].
    intros (x & s2 & Hx & Hk)%st_bind_Ret_inv. unfold the_module in Hx. simplify_eq.
    destruct (Q x); [by injection Hk|auto]. }
  destruct known as [m|].
  { apply st_bind_Ret_inv in E as (u & s2 & [= <- <-] & [= <-]). done. }
  match type of E with try_catch ?m ?k s = _ => assert (Hm : early m); [|set (m0 := m) in *] end.
  { unfold ReadModuleManifest. repeat (apply early_bind; [by within|intros ?]).
    apply early_caught; [repeat (apply only_some_bind; intros ?); by intros ???|].
    intros e s2. by do 2 eexists. }
  specialize (Hm s). unfold try_catch in E. destruct (m0 s) as [[[]| | |] s1]; simplify_eq; [done|].
  by apply st_bind_Ret_inv in E as (u & s2 & [= <- <-] & [= <-]).
Qed.

(** ** The scan ends and is complete *)
Section Scan.
Context (W : HostWorld) `{HW : !Tame W} (op : host_call -> HM unit).
Context (Hop : forall c, loads c -> calm (op c)).
#[local] Set Default Proof Using "Type*".

Lemma calm_run {A} (m : HM A) s : calm m -> autoScan s = false ->
  autoScan (m s).2 = false /\ invalid_module_files (m s).2 = invalid_module_files s /\ (m s).1 <> Fuel.
Proof. intros Hm Hs. destruct (Hm s Hs) as (? & ? & [|]); done. Qed.

(** What a scan leaves: [l] are the modules that were loaded on top of [acc]. *)
Definition scanned (s : hstate) (acc : list ModuleId) (r : res (list ModuleId)) (s' : hstate) : Prop :=
  autoScan s' = false /\ r <> Fuel /\
  length (invalid_module_files s') <= length (invalid_module_files s) /\
  forall l, r = Ret l ->
    (acc <> [] -> l <> []) /\
    (l = [] -> Forall (unclaimed W s') (invalid_module_files s')) /\
    (acc = [] -> l <> [] -> length (invalid_module_files s') < length (invalid_module_files s)).

Lemma scan_loop_spec fuel i acc s :
  autoScan s = false -> i <= length (invalid_module_files s) ->
  length (invalid_module_files s) - i < fuel ->
  (acc = [] -> Forall (unclaimed W s) (take i (invalid_module_files s))) ->
  scanned s acc (scan_loop W op fuel i acc s).1 (scan_loop W op fuel i acc s).2.
Proof.
  revert i acc s. induction fuel as [|fuel IH]; intros i acc s Hs Hi Hfuel Hprev; [lia|].
  cbn [scan_loop]. step (eq_refl : gets invalid_module_files s = _).
  destruct (invalid_module_files s !! i) as [path|] eqn:Hpath.
  2:{ apply lookup_ge_None in Hpath. rewrite take_ge in Hprev by done.
      split_and!; [done..|]. intros l [= <-]. split_and!; [done|auto|done]. }
  apply lookup_lt_Some in Hpath as Hlt.
  destruct (FindModuleProvider_run W path s) as (r & Hr & Hnone & _). step Hr. destruct r as [p|].
  - pose proof (calm_run (LoadModule W op path p) s ltac:(by apply LoadModule_calm) Hs) as (Hs1 & Hf1 & Hr1).
    unfold mbind at 1 3, st_bind. destruct (LoadModule W op path p s) as [[m| | |] s1] eqn:Hload; simpl in *.
    2-4: by split_and!; [|try done|rewrite Hf1|].
    step (eq_refl : modify _ s1 = _). set (s2 := with_invalid (delete i) s1).
    assert (Hlen : S (length (invalid_module_files s2)) = length (invalid_module_files s)).
    { simpl. rewrite Hf1, length_delete by (by eexists). lia. }
    destruct (IH i (acc ++ match m with Some m => [m] | None => [] end) s2) as (H1 & H2 & H3 & H4);
      [done|lia|lia| |].
    { intros [-> Hm]%app_eq_nil. destruct m; [done|]. apply LoadModule_None in Hload.
      simpl. rewrite Hf1, delete_take_drop, take_app_length' by (rewrite length_take; lia). unfold unclaimed. simpl. rewrite Hload. by apply Hprev. }
    split_and!; [done|done|lia|]. intros l Hl. destruct (H4 l Hl) as (Ha & Hb & Hc). split_and!.
    + intros Hacc. apply Ha. by destruct acc.
    + done.
    + intros _ _. lia.
  - apply IH; [done|lia|lia|]. intros Hacc. rewrite (take_S_r _ _ _ Hpath).
    apply Forall_app. auto.
Qed.

Lemma Scan_spec fuel s :
  length (invalid_module_files s) < fuel ->
  let '(r, s') := ScanInvalidModuleFiles W op fuel s in
  r <> Fuel /\
  (r = Ret tt -> autoScan s' = true /\ Forall (unclaimed W s') (invalid_module_files s')).
Proof.
  revert s. induction fuel as [|fuel IH]; intros s Hfuel; [lia|]. cbn [ScanInvalidModuleFiles].
  step (eq_refl : modify _ s = _). set (s0 := with_autoScan false s).
  step (eq_refl : gets invalid_module_files s0 = _).
  destruct (scan_loop_spec (S (length (invalid_module_files s0))) 0 [] s0) as (H1 & H2 & H3 & H4);
    [done|lia|lia|by rewrite take_0|].
  unfold mbind at 1, st_bind at 1.
  destruct (scan_loop W op _ 0 [] s0) as [[l| | |] s1] eqn:Hloop; simpl in *; try done.
  destruct (H4 l eq_refl) as (_ & Hb & Hc). destruct l as [|m l].
  { step (eq_refl : (mret tt : HM unit) s1 = _). simpl. split; [done|]. intros _. auto. }
  pose proof (calm_run (StartModules W op (m :: l)) s1 (StartModules_calm W op Hop _) H1) as (_ & Hf & Hr).
  rewrite st_bind_assoc. unfold mbind at 1, st_bind at 1.
  destruct (StartModules W op (m :: l) s1) as [[[]| | |] s2]; simpl in *; try done.
  specialize (IH s2). unfold mbind, st_bind.
  destruct (ScanInvalidModuleFiles W op fuel s2) as [r s3]. rewrite Hf in IH.
  destruct IH as [Hr3 H5]; [specialize (Hc eq_refl ltac:(done)); simpl in *; lia|].
  destruct r as [[]| | |]; simpl; try done. split; [done|]. intros _. by destruct (H5 eq_refl).
Qed.
End Scan.

Lemma scan_run W op s :
  scan W op s = ScanInvalidModuleFiles W op (S (length (invalid_module_files s))) s.
Proof. done. Qed.

(** C23: The scan of the files that no provider had accepted always ends, and
    when it returns, none of the files that are still waiting is accepted by a
    provider that is registered then, also when modules that it loaded
    registered new providers. Registering a provider therefore leaves no file
    behind that it could load. This needs modules that do not unregister
    modules. *)
Theorem scan_complete W `{!Tame W} (n : nat) (s : hstate) (p : ProviderId) :
  (let '(r, s') := scan W (host_op W (S n)) s in
   r <> Fuel /\
   (r = Ret tt -> autoScan s' = true /\ Forall (unclaimed W s') (invalid_module_files s'))) /\
  (let '(r, s') := host_op W (S (S n)) (AddProvider p) s in
   r <> Fuel /\
   (r = Ret tt -> autoScan s = true -> Forall (unclaimed W s') (invalid_module_files s'))).
Proof.
  assert (Hscan : forall s, let '(r, s') := scan W (host_op W (S n)) s in r <> Fuel /\
    (r = Ret tt -> autoScan s' = true /\ Forall (unclaimed W s') (invalid_module_files s'))).
  { intros s'. rewrite scan_run. apply (Scan_spec W _ (host_op_calm W n)). lia. }
  split; [apply Hscan|]. rewrite (host_op_S W (S n)). cbn [host_step]. unfold AddModuleProvider.
  step (eq_refl : modify _ s = _). set (s1 := with_providers _ s). step (eq_refl : gets autoScan s1 = _).
  change (autoScan s1) with (autoScan s). destruct (autoScan s); [|done].
  specialize (Hscan s1). destruct (scan _ _ s1) as [r s2]. naive_solver.
Qed.


(** ** A world with a native module that provides for script modules *)

Definition python : ProviderId := 5%N.
Definition demo_world (initialize_script : list host_call) : HostWorld := {|
  behaviour l m _ :=
    match l, m with
    | INITIALIZE, 0 => [AddProvider python]
    | INITIALIZE, _ => initialize_script
    | UNLOAD, 0 => [RemoveProvider python]
    | _, _ => []
    end;
  provider_IsModule _ path := bool_decide (path = lit "/m/app.py");
  provider_CreateModule _ _ := Ret (Some {| m_path := lit "/m"; m_name := lit "app"; m_version := lit "1" |});
  native_module path := inr (lit "python", lit "1");
  dir_entries _ := Ret [(lit "/m/pymodule.so", (false, false)); (lit "/m/app.py", (false, false))];
  path_parent _ := lit "/m/";
  manifest_libpath _ := None;
  split_libpath _ := [];
  display_exception _ := [];
  fire_exit _ := false;
  ui_calls := [ExitHost 3; AddProvider 9%N]
|}.
#[export] Instance demo_world_tame : Tame (demo_world []).
Proof.
  constructor; try done.
  - intros l m s. by destruct l, m; repeat constructor.
  - intros l m s [-> | ->]; destruct m; repeat constructor.
  - by repeat constructor.
Qed.

Definition demo_host (paths : list str) : hstate :=
  {| h_boot := empty_bstate; h_application := demo_app; h_environ := []; h_modules := [];
     loadedModules := []; module_providers := []; module_paths := paths; invalid_module_files := [];
     autoScan := false; running := false; exitCode := 0; gtk_quit := false; h_trace := []; h_log := [] |}.

Definition demo_run (script : list host_call) (paths : list str) : res Z * hstate :=
  Run_ (demo_world script) (host_op (demo_world script) 3) true (demo_host paths).

(** The script module is started by the scan that loaded it and again when all
    modules are started. *)
Lemma script_module_started_twice :
  h_trace (demo_run [] [lit "/m"]).2 =
    [(INITIALIZE, 0); (INITIALIZE, 1); (START, 1); (START, 0); (START, 1);
     (STOP, 0); (STOP, 1); (UNLOAD, 0); (UNLOAD, 1)].
Proof. by vm_compute. Qed.

(** A module whose [Initialize] throws is started all the same. *)
Lemma failed_module_is_started :
  filter (fun e => e.2 = 1) (h_trace (demo_run [Fail_ out_of_range] [lit "/m"]).2) =
    [(INITIALIZE, 1); (START, 1)].
Proof. by vm_compute. Qed.

(** [LoadModule] registers the component under the path of the file and
    [UnregisterModule] looks for the directory: the component stays. *)
Lemma unregistered_component_stays :
  let s := (demo_run [] [lit "/m"]).2 in
  loadedModules s = [] /\ map (fun p => c_path <$> comps (h_boot s) !! p) (a_modules (h_application s)) =
    [Some (lit "/m/pymodule.so"); Some (lit "/m/app.py")].
Proof. by vm_compute. Qed.

(** The path of a native module is its directory, which is compared with the
    file: the same file is loaded once for each spelling of its directory. *)
Lemma native_module_loaded_twice :
  filter (fun e => e.1 = INITIALIZE) (h_trace (demo_run [] [lit "/m"; lit "/m/"]).2) =
    [(INITIALIZE, 0); (INITIALIZE, 1); (INITIALIZE, 2)] /\
  m_path <$> h_modules (demo_run [] [lit "/m"; lit "/m/"]).2 !! 0 = Some (lit "/m") /\
  m_name <$> h_modules (demo_run [] [lit "/m"; lit "/m/"]).2 !! 1 = Some (lit "python").
Proof. by vm_compute. Qed.

(** An exit that an event handler cancelled still leaves the UI loop: the call
    after it is not reached and the host ends with code 0. *)
Lemma cancelled_exit_exits :
  (demo_run [] [lit "/m"]).1 = Ret 0%Z /\ running (demo_run [] [lit "/m"]).2 = true /\
  gtk_quit (demo_run [] [lit "/m"]).2 = true.
Proof. by vm_compute. Qed.

Lemma scan_complete_witness :
  let s := with_invalid (fun _ => [lit "/m/app.py"; lit "/m/readme"]) (with_autoScan true (demo_host [])) in
  exists s', host_op (demo_world []) 2 (AddProvider python) s = (Ret tt, s') /\
    Forall (unclaimed (demo_world []) s') (invalid_module_files s') /\
    invalid_module_files s' = [lit "/m/readme"].
Proof.
  intros s. pose proof (scan_complete (demo_world []) 0 s python) as [_ H].
  destruct (host_op _ _ _ s) as [r s'] eqn:E. destruct H as [_ H].
  assert (r = Ret tt) as -> by (change r with (fst (r, s')); rewrite <- E; by vm_compute).
  exists s'. split_and!; [done|by apply H|].
  change s' with (snd (Ret tt, s')). rewrite <- E. by vm_compute.
Defined.
