(* ===== verification/StartLaws.v ===== *)
(** * StartLaws: every loaded module is started

    What a call on the host loads is started before the call returns, unless
    it throws; so are all modules when [LoadModules] returns. *)

From S2P Require Import Prelude CppString FileUtils UrlUtils BootUtils EnvironmentUtils.
From S2P Require Import Application ApplicationLaws Logger Host HostLaws.
From stdpp Require Import options.

Definition started (s : hstate) (m : ModuleId) : Prop := (START, m) ∈ h_trace s.

(** Calls of functions are noted for good, and what is loaded stays so. *)
Definition keeps (s s' : hstate) : Prop :=
  h_trace s `prefix_of` h_trace s' /\ loadedModules s `prefix_of` loadedModules s'.
#[export] Instance keeps_preorder : PreOrder keeps.
Proof. split; [done|]. intros s1 s2 s3 [? ?] [? ?]. split; by etrans. Qed.
Lemma keeps_started s s' m : keeps s s' -> started s m -> started s' m.
Proof. intros [[t E] _] Hm. unfold started. rewrite E. apply elem_of_app. by left. Qed.

Abbreviation keeping := (within true (fun _ => True) keeps).
(** Nothing is loaded; only modules' functions may be called. *)
Abbreviation idle := (within true (fun s => autoScan s = false)
  (fun s s' => h_trace s `prefix_of` h_trace s' /\ loadedModules s' = loadedModules s)).
#[export] Instance idle_preorder :
  PreOrder (fun s s' => h_trace s `prefix_of` h_trace s' /\ loadedModules s' = loadedModules s).
Proof. split; [done|]. intros s1 s2 s3 [? ?] [? ?]. split; [by etrans|congruence]. Qed.

(** Operations that touch neither. *)
Definition aside (f : hstate -> hstate) : Prop :=
  forall s, h_trace (f s) = h_trace s /\ loadedModules (f s) = loadedModules s /\ autoScan (f s) = autoScan s.
Lemma aside_keeping f : aside f -> keeping (modify f).
Proof. intros Hf. apply within_modify; [apply _|]. intros s _. destruct (Hf s) as (E1 & E2 & _). unfold keeps. by rewrite E1, E2. Qed.
Lemma aside_idle f : aside f -> idle (modify f).
Proof. intros Hf. apply within_modify; [apply _|]. intros s Hs. destruct (Hf s) as (E1 & E2 & E3). by rewrite E1, E2, E3. Qed.
Lemma free_keeping {A} (m : HM A) :
  (forall s, h_trace (m s).2 = h_trace s /\ loadedModules (m s).2 = loadedModules s /\ autoScan (m s).2 = autoScan s) ->
  keeping m /\ idle m.
Proof.
  intros Hm. split; intros s Hs; destruct (Hm s) as (E1 & E2 & E3); unfold keeps; rewrite ?E1, ?E2, ?E3;
    split_and!; try done; by left.
Qed.
Lemma lift_free {A} (r : res A) : keeping (lift r : HM A) /\ idle (lift r : HM A).
Proof. by apply free_keeping. Qed.
Lemma environ_free {A} (m : EM A) : keeping (on_environ m) /\ idle (on_environ m).
Proof. apply free_keeping. intros s. unfold on_environ. by destruct (m _). Qed.
Lemma boot_free {A} (m : BM A) : keeping (on_boot m) /\ idle (on_boot m).
Proof. apply free_keeping. intros s. unfold on_boot. by destruct (m _). Qed.
Lemma module_free m : keeping (the_module m) /\ idle (the_module m).
Proof. by apply free_keeping. Qed.
Lemma log_free level text : keeping (log level text) /\ idle (log level text).
Proof. by apply free_keeping. Qed.
Lemma application_free a : keeping (set_application a) /\ idle (set_application a).
Proof. by apply free_keeping. Qed.
#[local] Hint Resolve aside_keeping aside_idle : within.
#[local] Hint Extern 1 (aside _) => (intros ?; done) : within.
#[local] Hint Extern 1 (within _ _ _ (lift _)) => apply lift_free : within.
#[local] Hint Extern 1 (within _ _ _ (on_environ _)) => apply environ_free : within.
#[local] Hint Extern 1 (within _ _ _ (on_boot _)) => apply boot_free : within.
#[local] Hint Extern 1 (within _ _ _ (the_module _)) => apply module_free : within.
#[local] Hint Extern 1 (within _ _ _ (log _ _)) => apply log_free : within.
#[local] Hint Extern 1 (within _ _ _ (set_application _)) => apply application_free : within.

Lemma find_module_free P l : keeping (find_module P l) /\ idle (find_module P l).
Proof. split; induction l as [|m l IH]; simpl; within. Qed.
#[local] Hint Extern 1 (within _ _ _ (find_module _ _)) => apply find_module_free : within.

(** [m] starts what it loads, but for [pend], when it returns. *)
Definition starts {A} (P : hstate -> Prop) (m : HM A) (pend : A -> list ModuleId) : Prop :=
  forall s a s', P s -> m s = (Ret a, s') ->
    forall x, x ∈ loadedModules s' -> x ∈ loadedModules s \/ started s' x \/ x ∈ pend a.
Abbreviation nothing := (fun _ => []).
Abbreviation always := (fun _ : hstate => True).

Lemma starts_same {A} P (m : HM A) pend :
  (forall s, P s -> loadedModules (m s).2 = loadedModules s) -> starts P m pend.
Proof. intros Hm s a s' Hs E x Hx. left. specialize (Hm s Hs). rewrite E in Hm. simpl in Hm. by rewrite <- Hm. Qed.
Lemma starts_bind {A B} (P : hstate -> Prop) (m : HM A) (f : A -> HM B) pend :
  starts P m nothing -> (forall a s s', P s -> m s = (Ret a, s') -> P s') ->
  (forall a, starts P (f a) pend) -> (forall a, keeping (f a)) -> starts P (m ≫= f) pend.
Proof.
  intros Hm HP Hf Hk s b s2 Hs (a & s1 & E1 & E2)%st_bind_Ret_inv x Hx.
  destruct (Hf a s1 b s2) with x as [Hx1|?]; [by eapply HP|done|done| |by right].
  destruct (Hm s a s1 Hs E1 x Hx1) as [?|[Hst|H]]; [by left| |by apply not_elem_of_nil in H].
  right. left. destruct (Hk a s1 I) as (_ & K & _). rewrite E2 in K. by eapply keeps_started.
Qed.
(** A pending list that is started next. *)
Lemma starts_then {A B} (P : hstate -> Prop) (m : HM A) (f : A -> HM B) pend :
  starts P m pend -> (forall a, starts always (f a) nothing) -> (forall a, keeping (f a)) ->
  (forall a s b s' x, f a s = (Ret b, s') -> x ∈ pend a -> started s' x) -> starts P (m ≫= f) nothing.
Proof.
  intros Hm Hf Hk Hp s b s2 Hs (a & s1 & E1 & E2)%st_bind_Ret_inv x Hx.
  destruct (Hf a s1 b s2 I E2 x Hx) as [Hx1|[?|H]]; [|by right; left|by apply not_elem_of_nil in H].
  destruct (Hm s a s1 Hs E1 x Hx1) as [?|[Hst|H]]; [by left| |by right; left; eapply Hp].
  right. left. destruct (Hk a s1 I) as (_ & K & _). rewrite E2 in K. by eapply keeps_started.
Qed.

Section Starting.
Context (W : HostWorld) `{HW : !Tame W} (op : host_call -> HM unit).
Context (Hkeep : forall c, loads c -> keeping (op c)).
#[local] Set Default Proof Using "Type*".

Lemma notify_keeping l m : keeping (notify W op l m).
Proof.
  unfold notify. apply within_bind; [apply _| |].
  { apply within_modify; [apply _|]. intros s _. split; [done|]. split; simpl; [by eexists|done]. }
  intros _. apply (within_gets_bind _ _ _ (Forall loads)); [intros; apply tame_calls|]. intros calls Hcalls.
  apply within_st_fold; [apply _|]. intros _ c Hc. apply Hkeep. by eapply Forall_forall in Hcalls.
Qed.
#[local] Hint Resolve notify_keeping : within.

Lemma initialize_keeping path m x : keeping (initialize_module W op path m x).
Proof.
  unfold initialize_module. within. apply within_modify; [apply _|]. intros s _. split; [done|].
  split; [done|]. simpl. by eexists.
Qed.
Lemma manifest_free path : keeping (ReadModuleManifest W path) /\ idle (ReadModuleManifest W path).
Proof. unfold ReadModuleManifest. split; within. Qed.
#[local] Hint Extern 1 (within _ _ _ (ReadModuleManifest _ _)) => apply manifest_free : within.
#[local] Hint Resolve initialize_keeping : within.
Lemma LoadModule_keeping path p : keeping (LoadModule W op path p).
Proof. unfold LoadModule, GetModuleByPath. within. Qed.
#[local] Hint Resolve LoadModule_keeping : within.
Lemma FindModuleProvider_keeping path : keeping (FindModuleProvider W path).
Proof. unfold FindModuleProvider. within. Qed.
#[local] Hint Resolve FindModuleProvider_keeping : within.
Lemma scan_loop_keeping fuel : forall i acc, keeping (scan_loop W op fuel i acc).
Proof. induction fuel as [|fuel IH]; intros i acc; cbn [scan_loop]; within. Qed.
Lemma StartModules_keeping l : keeping (StartModules W op l).
Proof. unfold StartModules. within. Qed.
#[local] Hint Resolve scan_loop_keeping StartModules_keeping : within.
Lemma autoScan_keeping b : keeping (modify (with_autoScan b)).
Proof. by apply within_modify; [apply _|]. Qed.
#[local] Hint Resolve autoScan_keeping : within.
Lemma Scan_keeping fuel : keeping (ScanInvalidModuleFiles W op fuel).
Proof. induction fuel as [|fuel IH]; cbn [ScanInvalidModuleFiles]; within. Qed.
#[local] Hint Resolve Scan_keeping : within.
Lemma Add_keeping p : keeping (AddModuleProvider W op p).
Proof. unfold AddModuleProvider, scan. within. Qed.

Lemma host_step_keeping c : loads c -> keeping (host_step W op c).
Proof.
  destruct c as [p|p|m|code|e]; intros Hc; simpl; [apply Add_keeping|by apply aside_keeping|by destruct (Hc m)| |within].
  unfold LinuxHost_Exit, Host_Exit. within.
Qed.

Context (Hidle : forall c, loads c -> idle (op c)).
Lemma notify_idle l m : idle (notify W op l m).
Proof.
  unfold notify. apply within_bind; [apply _| |].
  { apply within_modify; [apply _|]. intros s Hs. split; [done|]. split; simpl; [by eexists|done]. }
  intros _. apply (within_gets_bind _ _ _ (Forall loads)); [intros; apply tame_calls|]. intros calls Hcalls.
  apply within_st_fold; [apply _|]. intros _ c Hc. apply Hidle. by eapply Forall_forall in Hcalls.
Qed.
#[local] Hint Resolve notify_idle : within.
Lemma host_step_idle c : loads c -> idle (host_step W op c).
Proof.
  destruct c as [p|p|m|code|e]; intros Hc; simpl; [|by apply aside_idle|by destruct (Hc m)| |within].
  - unfold AddModuleProvider. apply within_bind; [apply _|by apply aside_idle|]. intros _.
    apply (within_gets_bind _ _ _ (fun b => b = false)); [done|]. intros _ ->. within.
  - unfold LinuxHost_Exit, Host_Exit. within.
Qed.

(** While nothing scans, a module may be loaded and nothing else. *)
Definition loads_only (pend : list ModuleId) (s s' : hstate) : Prop :=
  forall x, x ∈ loadedModules s' -> x ∈ loadedModules s \/ x ∈ pend.
#[local] Instance loads_only_preorder pend : PreOrder (loads_only pend).
Proof.
  split; [by left|]. intros s1 s2 s3 H1 H2 x Hx. destruct (H2 x Hx) as [H|H]; [by apply H1|by right].
Qed.
Abbreviation single pend := (within true (fun s => autoScan s = false) (loads_only pend)).
Lemma idle_single {A} (m : HM A) pend : idle m -> single pend m.
Proof. intros Hm s Hs. destruct (Hm s Hs) as (H1 & (_ & H2) & H3). split_and!; [done| |done]. intros x. rewrite H2. by left. Qed.

Lemma initialize_single path m x : single [m] (initialize_module W op path m x).
Proof.
  unfold initialize_module. apply within_try_catch; [apply _| |].
  - apply within_bind; [apply _|apply idle_single; within|]. intros _.
    apply within_bind; [apply _| |intros _; apply idle_single; within].
    apply within_modify; [apply _|]. intros s Hs. split; [done|]. intros y. simpl.
    intros [?|?]%elem_of_app; [by left|by right].
  - intros e. apply idle_single. within.
Qed.

(** The module that is answered is the one that may have been loaded. *)
Definition loads_result (m : HM (option ModuleId)) : Prop := forall s, autoScan s = false ->
  match m s with
  | (Ret r, s') => loads_only (option_list r) s s'
  | (Throw _, s') => loadedModules s' = loadedModules s
  | _ => True
  end.
Lemma loads_result_bind {A} (m : HM A) f : idle m -> (forall a, loads_result (f a)) -> loads_result (m ≫= f).
Proof.
  intros Hm Hf s Hs. destruct (Hm s Hs) as (Hs1 & (_ & E) & _). unfold mbind, st_bind.
  destruct (m s) as [[a| | |] s1]; simpl in *; try done. specialize (Hf a s1 Hs1).
  destruct (f a s1) as [[r|e| |] s2]; try done; [|congruence]. intros x Hx. rewrite <- E. by apply Hf.
Qed.
Lemma loads_result_none (m : HM (option ModuleId)) : idle m -> loads_result m.
Proof.
  intros Hm s Hs. destruct (Hm s Hs) as (_ & (_ & E) & _). destruct (m s) as [[r|e| |] s1]; simpl in *; try done.
  intros x. rewrite E. by left.
Qed.

Lemma initialize_result path m x : loads_result (initialize_module W op path m x).
Proof.
  intros s Hs. destruct (initialize_single path m x s Hs) as (_ & H & _).
  assert (forall r s', initialize_module W op path m x s = (r, s') -> (exists e, r = Throw e) \/ r = Ret (Some m) \/
    r = Undef \/ r = Fuel) as Hr.
  { intros r s'. unfold initialize_module, try_catch.
    match goal with |- context [match ?M s with _ => _ end] => destruct (M s) as [[o|e| |] s1] eqn:E end;
      [|intros [= <- _]; by right; left|intros [= <- _]; auto..].
    intros [= <- _]. right. left. by repeat (apply st_bind_Ret_inv in E as (? & ? & _ & E)); injection E as <-. }
  assert (forall e s', initialize_module W op path m x s <> (Throw e, s')) as Ht.
  { intros e s'. unfold initialize_module, try_catch.
    by match goal with |- context [match ?M s with _ => _ end] => destruct (M s) as [[o|e'| |] s1] end. }
  destruct (initialize_module W op path m x s) as [r s'] eqn:E.
  destruct (Hr r s' eq_refl) as [[e ->]|[->|[-> | ->]]]; [by destruct (Ht e s')| |done|done]. exact H.
Qed.
(** The scan stays off. *)
#[local] Instance true_preorder : PreOrder (fun _ _ : hstate => True).
Proof. done. Qed.
Abbreviation scanless := (within true (fun s => autoScan s = false) (fun _ _ => True)).
Lemma idle_scanless {A} (m : HM A) : idle m -> scanless m.
Proof. intros Hm s Hs. destruct (Hm s Hs) as (? & _ & ?). done. Qed.
Lemma initialize_scanless path m x : scanless (initialize_module W op path m x).
Proof. intros s Hs. destruct (initialize_single path m x s Hs) as (? & _ & ?). done. Qed.
(** The part of [LoadModule] whose exceptions it catches. *)
Definition load_body (path : str) (p : ProviderId) : HM (option ModuleId) :=
  log LDEBUG (lit "Loading module: " ++ path);;
  ReadModuleManifest W path;;
  created ← lift (CreateModule_of W p path);
  x ← some_or_undef created;
  ms ← gets h_modules;
  modify (fun s => with_modules (h_modules s ++ [x]) (loadedModules s) (h_trace s) s);;
  initialize_module W op path (length ms) x.
Lemma load_body_scanless path p : scanless (load_body path p).
Proof.
  unfold load_body. repeat (apply within_bind; [apply _|apply idle_scanless; within|intros ?]).
  apply initialize_scanless.
Qed.
Lemma LoadModule_scanless path p : scanless (LoadModule W op path p).
Proof.
  unfold LoadModule, GetModuleByPath. apply within_bind; [apply _|apply idle_scanless; within|].
  intros [m|]; [apply idle_scanless; within|]. apply within_try_catch; [apply _|apply load_body_scanless|].
  intros e. apply idle_scanless. within.
Qed.
Lemma LoadModule_result path p : loads_result (LoadModule W op path p).
Proof.
  unfold LoadModule, GetModuleByPath. apply loads_result_bind; [within|]. intros [m|].
  { apply loads_result_none. within. }
  assert (forall (m : HM (option ModuleId)) k, loads_result m -> (forall e, idle (k e)) ->
    (forall s, autoScan s = false -> autoScan (m s).2 = false) -> loads_result (try_catch m k)) as Hcatch.
  { intros m k Hm Hk Ha s Hs. specialize (Hm s Hs). specialize (Ha s Hs). unfold try_catch.
    destruct (m s) as [[r|e| |] s1]; try done. simpl in Ha. destruct (Hk e s1 Ha) as (_ & (_ & E) & _).
    destruct (k e s1) as [[r|e'| |] s2]; simpl in *; try done; [|congruence]. intros x. rewrite E, Hm. by left. }
  apply Hcatch.
  - repeat (apply loads_result_bind; [within|intros ?]). apply initialize_result.
  - intros e. within.
  - intros s Hs. by destruct (load_body_scanless path p s Hs).
Qed.
Lemma LoadModule_starts path p :
  starts (fun s => autoScan s = false) (LoadModule W op path p) (fun r => option_list r).
Proof.
  intros s r s' Hs E x Hx. pose proof (LoadModule_result path p s Hs) as H. rewrite E in H.
  destruct (H x Hx); auto.
Qed.

Lemma scan_loop_starts fuel : forall i acc s l s',
  autoScan s = false -> scan_loop W op fuel i acc s = (Ret l, s') ->
  (forall x, x ∈ acc -> x ∈ l) /\ loads_only l s s'.
Proof.
  induction fuel as [|fuel IH]; intros i acc s l s' Hs; [done|]. cbn [scan_loop].
  intros (files & s0 & [= <- <-] & E)%st_bind_Ret_inv.
  destruct (invalid_module_files s !! i) as [path|]; [|injection E as <- <-; split; [done|by left]].
  apply st_bind_Ret_inv in E as (r & s1 & Ef & E).
  destruct (FindModuleProvider_run W path s) as (r' & Hr & _). rewrite Hr in Ef. injection Ef as <- <-.
  destruct r' as [p|]; [|by apply (IH (S i))].
  apply st_bind_Ret_inv in E as (m & s2 & El & E). apply st_bind_Ret_inv in E as (u & s3 & Em & E).
  pose proof (LoadModule_result path p s Hs) as Hl. rewrite El in Hl.
  assert (autoScan s3 = false) as Hs3.
  { injection Em as _ <-. simpl. destruct (LoadModule_scanless path p s Hs) as (H & _). by rewrite El in H. }
  destruct (IH i _ s3 l s' Hs3 E) as [Hacc Hsub]. injection Em as _ <-.
  split; [intros x Hx; apply Hacc, elem_of_app; by left|].
  intros x Hx. destruct (Hsub x Hx) as [H|H]; [|by right]. destruct (Hl x H) as [?|Hm]; [by left|right].
  apply Hacc, elem_of_app. right. by destruct m.
Qed.

Context (Hstarts : forall c, loads c -> starts always (op c) nothing).
Lemma fold_starts l : Forall loads l -> starts always (st_fold (fun _ c => op c) tt l) nothing.
Proof.
  induction 1 as [|c l Hc Hl IH]; [by apply starts_same|]. cbn [st_fold].
  apply starts_bind; [by apply Hstarts|done|intros []; exact IH|]. intros [].
  apply within_st_fold; [apply _|]. intros _ c' Hc'. apply Hkeep. by eapply Forall_forall in Hl.
Qed.
Lemma notify_starts l m : starts always (notify W op l m) nothing.
Proof.
  intros s a s' _ E x Hx. unfold notify in E.
  apply st_bind_Ret_inv in E as (u & s1 & [= <- <-] & E). apply st_bind_Ret_inv in E as (calls & s2 & [= <- <-] & E).
  exact (fold_starts _ (tame_calls l m _) _ a s' I E x Hx).
Qed.
Lemma notify_START m s a s' : notify W op START m s = (Ret a, s') -> started s' m.
Proof.
  intros E. unfold notify in E.
  apply st_bind_Ret_inv in E as (u & s1 & [= <- <-] & E). apply st_bind_Ret_inv in E as (calls & s2 & [= <- <-] & E).
  assert (keeping (st_fold (fun _ c => op c) tt (behaviour W START m (with_trace (fun t => t ++ [(START, m)]) s)))) as Hk.
  { apply within_st_fold; [apply _|]. intros _ c Hc. apply Hkeep. pose proof (tame_calls START m
      (with_trace (fun t => t ++ [(START, m)]) s)) as Ht. by eapply Forall_forall in Ht. }
  destruct (Hk (with_trace (fun t => t ++ [(START, m)]) s) I) as (_ & K & _). rewrite E in K. simpl in K.
  eapply keeps_started; [exact K|]. unfold started. simpl. apply elem_of_app. right. by left.
Qed.
Lemma StartModules_starts l : starts always (StartModules W op l) nothing.
Proof.
  unfold StartModules. induction l as [|m l IH]; [by apply starts_same|]. cbn [st_fold].
  apply starts_bind; [apply notify_starts|done|intros []; exact IH|]. intros []. apply (StartModules_keeping l).
Qed.
Lemma StartModules_all l s a s' x : StartModules W op l s = (Ret a, s') -> x ∈ l -> started s' x.
Proof.
  unfold StartModules. revert s. induction l as [|m l IH]; intros s; [by intros _ ?%not_elem_of_nil|]. cbn [st_fold].
  intros ([] & s1 & E1 & E2)%st_bind_Ret_inv [->|Hx]%elem_of_cons; [|by eapply IH].
  apply notify_START in E1. destruct (StartModules_keeping l s1 I) as (_ & K & _).
  unfold StartModules in K. rewrite E2 in K. by eapply keeps_started.
Qed.

Lemma Scan_starts fuel : starts always (ScanInvalidModuleFiles W op fuel) nothing.
Proof.
  induction fuel as [|fuel IH]; [by intros s a s' _|]. cbn [ScanInvalidModuleFiles].
  intros s a s' _ E x Hx.
  apply st_bind_Ret_inv in E as (u & s1 & [= <- <-] & E). apply st_bind_Ret_inv in E as (files & s2 & [= <- <-] & E).
  apply st_bind_Ret_inv in E as (l & s2 & El & E). apply st_bind_Ret_inv in E as (u' & s3 & Em & E).
  injection E as _ <-. change (x ∈ loadedModules s3) in Hx. change (started (with_autoScan true s3) x) with (started s3 x).
  destruct (scan_loop_starts _ _ _ (with_autoScan false s) l s2 eq_refl El) as [_ Hsub].
  destruct l as [|m l]; [injection Em as _ <-; destruct (Hsub x Hx) as [?|?]; [by left|set_solver]|].
  apply st_bind_Ret_inv in Em as (u'' & s4 & Es & Em).
  assert (started s4 x -> started s3 x) as H43.
  { destruct (Scan_keeping fuel s4 I) as (_ & K & _). rewrite Em in K. by apply keeps_started. }
  destruct (IH s4 u' s3 I Em x Hx) as [H|[?|?]]; [|by right; left|set_solver].
  destruct (StartModules_starts (m :: l) s2 u'' s4 I Es x H) as [H2|[?|?]]; [|by right; left; apply H43|set_solver].
  destruct (Hsub x H2) as [?|?]; [by left|]. right. left. apply H43. by eapply StartModules_all.
Qed.

Lemma host_step_starts c : loads c -> starts always (host_step W op c) nothing.
Proof.
  destruct c as [p|p|m|code|e]; intros Hc; simpl; [|by apply starts_same|by destruct (Hc m)| |by intros s a s' _].
  - intros s a s' _ E x Hx. unfold AddModuleProvider in E.
    apply st_bind_Ret_inv in E as (u & s1 & [= <- <-] & E). apply st_bind_Ret_inv in E as (b & s2 & [= <- <-] & E).
    destruct (autoScan _); [|injection E as <- <-; by left]. exact (Scan_starts _ _ a s' I E x Hx).
  - apply starts_same. intros s _. unfold LinuxHost_Exit, Host_Exit, mbind, st_bind, gets, log, modify. simpl.
    by destruct (fire_exit W _).
Qed.
End Starting.

(** For the calls at any depth. *)
Section Depth.
Context (W : HostWorld) `{HW : !Tame W}.
#[local] Set Default Proof Using "Type*".
Lemma host_op_keeping n c : loads c -> keeping (host_op W n c).
Proof.
  revert c. induction n as [|n IH]; intros c Hc; [apply lift_free|]. rewrite host_op_S. by apply host_step_keeping.
Qed.
Lemma host_op_idle n c : loads c -> idle (host_op W n c).
Proof.
  revert c. induction n as [|n IH]; intros c Hc; [apply lift_free|]. rewrite host_op_S.
  apply host_step_idle; try done; intros; by apply host_op_keeping.
Qed.
Lemma host_op_starts n c : loads c -> starts always (host_op W n c) nothing.
Proof.
  revert c. induction n as [|n IH]; intros c Hc; [by intros s a s' _|]. rewrite host_op_S.
  apply host_step_starts; try done; intros; [by apply host_op_keeping|by apply host_op_idle].
Qed.

Lemma LoadModules_started n s a s' :
  LoadModules W (host_op W n) s = (Ret a, s') -> forall x, x ∈ loadedModules s' -> started s' x.
Proof.
  intros E x Hx. unfold LoadModules in E.
  do 2 (apply st_bind_Ret_inv in E as (? & ? & _ & E)).
  apply st_bind_Ret_inv in E as (? & s1 & _ & E). apply st_bind_Ret_inv in E as (l & s2 & [= <- <-] & E).
  apply st_bind_Ret_inv in E as (u & s3 & Es & E). injection E as _ <-.
  change (started s3 x). change (x ∈ loadedModules s3) in Hx.
  destruct (StartModules_starts W _ (host_op_keeping n) (host_op_idle n) (host_op_starts n) _ _ _ _ I Es x Hx)
    as [H|[?|?]]; [|done|set_solver].
  eapply (StartModules_all W _ (host_op_keeping n) (host_op_idle n) (host_op_starts n)); [exact Es|exact H].
Qed.
End Depth.
