(* ===== verification/LifecycleLaws.v ===== *)
(** * LifecycleLaws: the life of every module, from [Initialize] to [Unload]

    [loading] is the invariant of the host while modules are loaded: it says
    which functions of each module have been called so far. Unloading runs
    from any such state. *)

From S2P Require Import Prelude CppString FileUtils UrlUtils BootUtils EnvironmentUtils.
From S2P Require Import Application ApplicationLaws Logger Host HostLaws StartLaws.
From stdpp Require Import options.

(** The functions of [m] that were called, in order. *)
Definition events (m : ModuleId) (s : hstate) : list lifecycle :=
  map fst (filter (fun e => e.2 = m) (h_trace s)).

Record loading (s : hstate) : Prop := {
  ld_distinct : NoDup (loadedModules s);
  ld_alive : Forall (fun m => m < length (h_modules s)) (loadedModules s);
  ld_trace : Forall (fun e => e.2 < length (h_modules s)) (h_trace s);
  ld_events m : m < length (h_modules s) -> exists k, events m s = INITIALIZE :: replicate k START;
  ld_components : valid (h_boot s) (a_modules (h_application s))
}.

(** Modules are only added, and loaded modules are new ones. *)
Definition further (s s' : hstate) : Prop :=
  h_modules s `prefix_of` h_modules s' /\
  forall m, m ∈ loadedModules s' -> m ∈ loadedModules s \/ length (h_modules s) <= m.
#[export] Instance further_preorder : PreOrder further.
Proof.
  split; [by intros s; split; [|auto]|]. intros s1 s2 s3 [Hp1 H1] [Hp2 H2]. split; [by etrans|].
  intros m Hm. apply H2 in Hm as [Hm|Hm]; [auto|]. right.
  apply prefix_length in Hp1. lia.
Qed.

Abbreviation loads_on := (within true loading further).

(** What does not touch modules keeps the invariant. *)
Definition same_core (s s' : hstate) : Prop :=
  h_modules s' = h_modules s /\ loadedModules s' = loadedModules s /\ h_trace s' = h_trace s /\
  (valid (h_boot s) (a_modules (h_application s)) -> valid (h_boot s') (a_modules (h_application s'))).

Lemma loading_core s s' : loading s -> same_core s s' -> loading s' /\ further s s'.
Proof.
  intros [H1 H2 H3 H4 H5] (Em & El & Et & Hv). split.
  - constructor; unfold events in *; rewrite ?Em, ?El, ?Et; auto.
  - split; [rewrite Em; reflexivity|]. rewrite El. auto.
Qed.

Lemma core_modify f : (forall s, same_core s (f s)) -> loads_on (modify f).
Proof. intros Hf. apply within_modify; [apply _|]. intros s Hs. by apply loading_core. Qed.
Lemma core_lift {A} (r : res A) : loads_on (lift r : HM A).
Proof. intros s Hs. split_and!; [done|reflexivity|by left]. Qed.
Lemma core_environ {A} (m : EM A) : loads_on (on_environ m).
Proof.
  intros s Hs. unfold on_environ. destruct (m _) as [r e]. simpl.
  assert (same_core s (with_app (h_boot s) (h_application s) e s)) as Hc by done.
  destruct (loading_core _ _ Hs Hc). auto.
Qed.
Lemma core_module m : loads_on (the_module m).
Proof. intros s Hs. unfold the_module. split_and!; [done|reflexivity|by left]. Qed.
Lemma core_log level text : loads_on (log level text).
Proof. by apply core_modify. Qed.
Lemma core_autoScan b : loads_on (modify (with_autoScan b)).
Proof. by apply core_modify. Qed.
Lemma core_invalid f : loads_on (modify (with_invalid f)).
Proof. by apply core_modify. Qed.
Lemma core_providers f : loads_on (modify (with_providers f)).
Proof. by apply core_modify. Qed.
Lemma core_run f g q l : loads_on (modify (fun s => with_run (f s) (g s) (q s) (l s) s)).
Proof. by apply core_modify. Qed.
#[export] Hint Resolve core_autoScan core_invalid core_providers core_run core_lift core_environ
  core_module core_log : within.

Lemma core_find_module P l : loads_on (find_module P l).
Proof. induction l as [|m l IH]; simpl; within. Qed.
Lemma core_get_module path : loads_on (GetModuleByPath path).
Proof. unfold GetModuleByPath. within. apply core_find_module. Qed.
Lemma core_manifest W path : loads_on (ReadModuleManifest W path).
Proof. unfold ReadModuleManifest. within. Qed.
Lemma core_find_provider W path : loads_on (FindModuleProvider W path).
Proof. unfold FindModuleProvider. within. Qed.
#[export] Hint Resolve core_get_module core_manifest core_find_provider : within.

(** ** Components *)

Lemma using_module_valid a b n v p :
  valid b (a_modules a) ->
  exists a' b', UsingModule a n v p b = (Ret a', b') /\ valid b' (a_modules a').
Proof.
  intros Hv. destruct (using_module_spec a b n v p Hv) as (a' & b' & E & H & _).
  exists a', b'. split; [done|]. destruct (module_named _ _ _) as [q|].
  - destruct H as [-> H]. unfold valid in *. by rewrite H, length_alter.
  - destruct H as [-> H]. unfold valid in *. simpl. rewrite H, length_app. simpl. apply Forall_app. split.
    + eapply Forall_impl; [exact Hv|]. simpl. lia.
    + constructor; [lia|constructor].
Qed.

Lemma using_loads_on {A} (n v p : str) (k : HM A) :
  loads_on k ->
  loads_on (a ← gets h_application; a ← on_boot (UsingModule a n v p); set_application a;; k).
Proof.
  intros Hk s Hs. step (eq_refl : gets h_application s = _).
  destruct (using_module_valid (h_application s) (h_boot s) n v p (ld_components _ Hs)) as (a' & b' & E & Hv).
  assert (Hb : on_boot (UsingModule (h_application s) n v p) s =
    (Ret a', with_app b' (h_application s) (h_environ s) s)) by (unfold on_boot; by rewrite E).
  step Hb. unfold set_application. step (eq_refl : modify _ _ = _).
  destruct (loading_core s (with_app b' a' (h_environ s) s)) as [Hl Hf]; [done|done|].
  destruct (Hk _ Hl) as (? & ? & ?). split_and!; [done|by etrans|by left].
Qed.

(** ** Pointwise rules, with a fixed earlier state [s0] and a postcondition *)
Definition okay {A} (s0 : hstate) (m : HM A) (Q : A -> hstate -> Prop) (s : hstate) : Prop :=
  loading (m s).2 /\ further s0 (m s).2 /\ forall a s', m s = (Ret a, s') -> Q a s'.
Abbreviation anything := (fun _ _ => True).

Lemma okay_within {A} s0 (m : HM A) s : loads_on m -> loading s -> further s0 s -> okay s0 m anything s.
Proof. intros Hm Hs Hf. destruct (Hm s Hs) as (? & ? & _). split_and!; [done|by etrans|done]. Qed.
Lemma within_okay {A} (m : HM A) Q : (forall s, loading s -> okay s m Q s) -> loads_on m.
Proof. intros Hm s Hs. destruct (Hm s Hs) as (? & ? & _). split_and!; [done|done|by left]. Qed.

Lemma okay_bind {A B} s0 (m : HM A) (f : A -> HM B) Q R s :
  okay s0 m Q s ->
  (forall a s', loading s' -> further s0 s' -> Q a s' -> okay s0 (f a) R s') -> okay s0 (m ≫= f) R s.
Proof.
  intros (Hl & Hf & HQ) Hk. unfold okay, mbind, st_bind.
  destruct (m s) as [[a| | |] s1]; simpl in *; [|by split_and!..]. apply Hk; auto.
Qed.
Lemma okay_catch {A} s0 (m : HM A) k Q s :
  okay s0 m Q s ->
  (forall e s', loading s' -> further s0 s' -> okay s0 (k e) Q s') -> okay s0 (try_catch m k) Q s.
Proof.
  intros (Hl & Hf & HQ) Hk. unfold okay, try_catch.
  destruct (m s) as [[a| | |] s1]; simpl in *; [|by apply Hk|by split_and!..].
  split_and!; [done|done|]. intros a' s' [= <- <-]. auto.
Qed.
Lemma okay_ret {A} s0 (a : A) (Q : A -> hstate -> Prop) s :
  loading s -> further s0 s -> Q a s -> okay s0 (mret a) Q s.
Proof. intros ???. split_and!; [done..|]. by intros a' s' [= <- <-]. Qed.

Lemma further_length s s' : further s s' -> length (h_modules s) <= length (h_modules s').
Proof. intros [Hp _]. by apply prefix_length in Hp. Qed.

Lemma okay_base {A} s0 s1 (m : HM A) Q s : further s0 s1 -> okay s1 m Q s -> okay s0 m Q s.
Proof. intros Hf (? & ? & ?). split_and!; [done|by etrans|done]. Qed.
Lemma okay_within_from {A} s0 (m : HM A) s : loads_on m -> loading s -> further s0 s ->
  okay s0 m (fun _ s' => further s s') s.
Proof.
  intros Hm Hs Hf. destruct (Hm s Hs) as (? & H & _). split_and!; [done|by etrans|].
  intros a s' E. by rewrite E in H.
Qed.

(** ** The calls of modules' functions *)

Definition push (e : lifecycle * ModuleId) (s : hstate) : hstate := with_trace (fun t => t ++ [e]) s.

Lemma events_push l m m' s :
  events m' (push (l, m) s) = events m' s ++ (if decide (m = m') then [l] else []).
Proof.
  unfold events, push. simpl. rewrite filter_app, map_app, filter_cons. simpl. by case_decide.
Qed.

Lemma start_core s m :
  loading s -> m < length (h_modules s) -> loading (push (START, m) s) /\ further s (push (START, m) s).
Proof.
  intros [H1 H2 H3 H4 H5] Hm. split; [|by split; [|auto]].
  constructor; try done.
  - simpl. apply Forall_app. split; [done|]. by constructor.
  - intros m' Hm'. destruct (H4 m' Hm') as [k Hk]. rewrite events_push, Hk.
    destruct (decide (m = m')); [exists (S k)|exists k; by rewrite app_nil_r].
    by rewrite replicate_S_end.
Qed.

Lemma create_core s x : loading s ->
  let s' := push (INITIALIZE, length (h_modules s))
              (with_modules (h_modules s ++ [x]) (loadedModules s) (h_trace s) s) in
  loading s' /\ further s s'.
Proof.
  intros [H1 H2 H3 H4 H5] s'.
  assert (Hlen : length (h_modules s') = S (length (h_modules s))) by (simpl; rewrite length_app; simpl; lia).
  split; [|by split; [by apply prefix_app_r|auto]].
  constructor; try done.
  - rewrite Hlen. eapply Forall_impl; [exact H2|]. simpl. lia.
  - rewrite Hlen. simpl. apply Forall_app. split; [|constructor; [simpl; lia|constructor]].
    eapply Forall_impl; [exact H3|]. simpl. lia.
  - intros m Hm. subst s'. rewrite events_push.
    destruct (decide (length (h_modules s) = m)) as [<-|Hne].
    + exists 0. change (events _ _) with (events (length (h_modules s)) s).
      assert (events (length (h_modules s)) s = []) as ->; [|done]. unfold events.
      destruct (filter _ (h_trace s)) as [|e l] eqn:E; [done|].
      assert (e ∈ filter (fun e => e.2 = length (h_modules s)) (h_trace s)) as He by (rewrite E; by left).
      apply list_elem_of_filter in He as [He Hin]. rewrite Forall_forall in H3. specialize (H3 _ Hin). lia.
    + destruct (H4 m) as [k Hk]; [simpl in *; lia|]. exists k. rewrite app_nil_r. exact Hk.
Qed.

Lemma loaded_core s m :
  loading s -> m ∉ loadedModules s -> m < length (h_modules s) -> loading (with_loaded (fun l => l ++ [m]) s).
Proof.
  intros [H1 H2 H3 H4 H5] Hm Hlen. constructor; try done; simpl.
  - apply NoDup_app. split_and!; [done| |apply NoDup_singleton].
    intros x Hx ->%list_elem_of_singleton. done.
  - apply Forall_app. split; [done|]. by constructor.
Qed.

Section Loading.
Context (W : HostWorld) `{HW : !Tame W} (op : host_call -> HM unit).
Context (Hop : forall c, loads c -> loads_on (op c)).
#[local] Set Default Proof Using "Type*".

Lemma calls_loads_on l m : loads_on (calls ← gets (behaviour W l m); st_fold (fun _ c => op c) tt calls).
Proof.
  apply (within_gets_bind _ _ _ (Forall loads)); [intros; apply tame_calls|]. intros calls Hcalls.
  apply within_st_fold; [apply _|]. intros _ c Hc. apply Hop. by eapply Forall_forall in Hcalls.
Qed.

Lemma start_okay s0 m s : loading s -> further s0 s -> m < length (h_modules s) ->
  okay s0 (notify W op START m) anything s.
Proof.
  intros Hs Hf Hm. destruct (start_core s m Hs Hm) as [Hs1 Hf1].
  apply (okay_within s0 _ (push (START, m) s) (calls_loads_on START m)); [done|by etrans].
Qed.

Lemma StartModules_okay s0 l s : loading s -> further s0 s -> Forall (fun m => m < length (h_modules s)) l ->
  okay s0 (StartModules W op l) anything s.
Proof.
  unfold StartModules. revert s. induction l as [|m l IH]; intros s Hs Hf Hl.
  { by apply okay_ret. }
  apply Forall_cons in Hl as [Hm Hl]. simpl.
  apply (okay_bind _ _ _ (fun _ s' => further s s')).
  - destruct (start_okay s m s Hs ltac:(reflexivity) Hm) as (H1 & H2 & _). split_and!; [done|by etrans|].
    intros a s' E. by rewrite E in H2.
  - intros [] s' Hs' Hf' Hss. apply IH; [done|done|]. eapply Forall_impl; [exact Hl|]. simpl.
    apply further_length in Hss. lia.
Qed.

(** From the creation of a module to the end of its [Initialize]. *)
Definition registration (path : str) (m : ModuleId) (x : Module_) : HM (option ModuleId) :=
  a ← gets h_application;
  a ← on_boot (UsingModule a (m_name x) (m_version x) path);
  set_application a;;
  log LINFO (lit "Loaded module = " ++ m_name x);;
  mret (Some m).

Definition is_result {A} (m : HM A) (v : A) : Prop := forall s a s', m s = (Ret a, s') -> a = v.
Lemma is_result_bind {A B} (m : HM A) (f : A -> HM B) v : (forall a, is_result (f a) v) -> is_result (m ≫= f) v.
Proof. intros Hf s a s' (b & s1 & _ & E)%st_bind_Ret_inv. by apply Hf in E. Qed.

(** The modules that exist when [m] does: a state that has [m] already. *)
Definition with_new (m : ModuleId) (s : hstate) : hstate := with_loaded (fun l => l ++ [m]) s.

Lemma okay_some (b : hstate) (m : ModuleId) (t : HM (option ModuleId)) s :
  (forall s', further b s' -> m < length (h_modules s')) ->
  loads_on t -> is_result t (Some m) -> loading s -> further b s ->
  okay b t (fun r s' => forall m', r = Some m' -> m' < length (h_modules s')) s.
Proof.
  intros Halive Ht Hr Hs Hf. destruct (okay_within b t s Ht Hs Hf) as (H1 & H2 & _). split_and!; [done..|].
  intros r s' E m' ->. apply Hr in E as E'. injection E' as ->. apply Halive. by rewrite E in H2.
Qed.

Lemma registration_loads_on path m x : loads_on (registration path m x).
Proof. apply using_loads_on. within. Qed.

(** After the calls of [Initialize] the module is noted. *)
Lemma note_okay b s1 m (t : HM (option ModuleId)) s2 :
  (forall s', further b s' -> m < length (h_modules s')) -> b = with_new m s1 -> m ∉ loadedModules s1 ->
  m < length (h_modules s1) ->
  loads_on t -> is_result t (Some m) -> loading s2 -> further b s2 -> further s1 s2 ->
  okay b (modify (with_new m);; t) (fun r s' => forall m', r = Some m' -> m' < length (h_modules s')) s2.
Proof.
  intros Halive Hb Hm Hlt Ht Hr Hs2 Hf2 H12.
  assert (Hnew : m ∉ loadedModules s2) by (intros H; apply H12 in H as [?|?]; [done|lia]).
  apply (okay_some b m t (with_new m s2)); try done.
  - apply loaded_core; auto.
  - split; [apply Hf2|]. simpl. intros m' [Hm'|Hm']%elem_of_app; [by apply Hf2|].
    apply list_elem_of_singleton in Hm' as ->. left. rewrite Hb. simpl. apply elem_of_app. right. by left.
Qed.

Lemma initialize_okay s0 s path x : loading s -> further s0 s ->
  let m := length (h_modules s) in
  okay s0 (initialize_module W op path m x)
    (fun r s' => forall m', r = Some m' -> m' < length (h_modules s'))
    (with_modules (h_modules s ++ [x]) (loadedModules s) (h_trace s) s).
Proof.
  intros Hs Hf m. destruct (create_core s x Hs) as [Hs1 Hf1]. set (s1 := push _ _) in Hs1, Hf1.
  set (b := with_new m s1).
  assert (Hb : further s0 b).
  { split; [etrans; [apply Hf|apply Hf1]|]. simpl. intros m' [Hm'|Hm']%elem_of_app; [by apply Hf|].
    apply list_elem_of_singleton in Hm' as ->. right. by apply further_length. }
  assert (Hb1 : further b s1) by (split; [done|]; intros m' Hm'; left; apply elem_of_app; by left).
  assert (Halive : forall s', further b s' -> m < length (h_modules s')).
  { intros s' H%further_length. simpl in H. rewrite length_app in H. simpl in H. unfold m. lia. }
  assert (Hm : m ∉ loadedModules s1).
  { intros Hm. pose proof (ld_alive _ Hs) as Ha. rewrite Forall_forall in Ha. specialize (Ha _ Hm). simpl in Ha. lia. }
  apply (okay_base _ b); [done|].
  set (calls := calls ← gets (behaviour W INITIALIZE m); st_fold (fun _ c => op c) tt calls).
  set (handler := fun e => log LERROR (could_not_load W path e);; mret (Some m)).
  enough (okay b (try_catch (calls;; modify (with_new m);; registration path m x) handler)
    (fun r s' => forall m', r = Some m' -> m' < length (h_modules s')) s1) as H by exact H.
  apply okay_catch.
  - eapply okay_bind; [apply okay_within_from; [apply calls_loads_on|done|done]|].
    intros [] s2 Hs2 Hf2 H12. eapply note_okay; try done.
    + apply (Halive s1 Hb1).
    + apply registration_loads_on.
    + repeat (apply is_result_bind; intros ?). by intros ? ? ? [= <- _].
  - intros e s2 Hs2 Hf2. apply (okay_some b m); try done; [unfold handler; within|].
    apply is_result_bind. by intros ? ? ? ? [= <- _].
Qed.

Lemma LoadModule_okay s0 s path p : loading s -> further s0 s ->
  okay s0 (LoadModule W op path p) (fun r s' => forall m, r = Some m -> m < length (h_modules s')) s.
Proof.
  intros Hs Hf. unfold LoadModule.
  eapply okay_bind; [by apply okay_within; [apply core_get_module|..]|]. intros [m|] s1 Hs1 Hf1 _.
  { eapply okay_bind; [by apply okay_within; [apply core_log|..]|]. intros [] s2 Hs2 Hf2 _.
    by apply okay_ret. }
  apply okay_catch.
  - eapply okay_bind; [by apply okay_within; [apply core_log|..]|]. intros [] s2 Hs2 Hf2 _.
    eapply okay_bind; [by apply okay_within; [apply core_manifest|..]|]. intros [] s3 Hs3 Hf3 _.
    eapply okay_bind; [by apply okay_within; [apply core_lift|..]|]. intros created s4 Hs4 Hf4 _.
    eapply okay_bind; [by apply okay_within; [apply core_lift|..]|]. intros x s5 Hs5 Hf5 _.
    exact (initialize_okay s0 s5 path x Hs5 Hf5).
  - intros e s2 Hs2 Hf2. eapply okay_bind; [by apply okay_within; [apply core_log|..]|].
    intros [] s3 Hs3 Hf3 _. by apply okay_ret.
Qed.

Lemma scan_loop_okay fuel i acc s0 s : loading s -> further s0 s ->
  Forall (fun m => m < length (h_modules s)) acc ->
  okay s0 (scan_loop W op fuel i acc) (fun l s' => Forall (fun m => m < length (h_modules s')) l) s.
Proof.
  revert i acc s0 s. induction fuel as [|fuel IH]; intros i acc s0 s Hs Hf Hacc; cbn [scan_loop].
  { by split_and!. }
  apply (okay_bind _ _ _ (fun _ s' => s' = s)); [by split_and!; try done; intros a s' [= _ <-]|].
  intros files ? _ _ ->. destruct (files !! i) as [path|]; [|by apply okay_ret].
  destruct (FindModuleProvider_run W path s) as (r & Hr & _).
  apply (okay_bind _ _ _ (fun _ s' => s' = s)).
  { split_and!; try rewrite Hr; try done. by intros a s' [= _ <-]. }
  intros [p|] ? _ _ ->; [|by apply IH].
  apply (okay_bind _ _ _ (fun r s' => Forall (fun m => m < length (h_modules s')) acc /\
                             forall m, r = Some m -> m < length (h_modules s'))).
  { destruct (LoadModule_okay s s path p Hs ltac:(reflexivity)) as (H1 & H2 & H3).
    split_and!; [done|by etrans|]. intros r' s' E. split; [|by apply H3]. rewrite E in H2. apply further_length in H2.
    eapply Forall_impl; [exact Hacc|]. simpl in *. lia. }
  intros m s1 Hs1 Hf1 [Hacc1 Hm]. apply (okay_bind _ _ _ (fun _ s' => h_modules s' = h_modules s1)).
  { destruct (core_invalid (delete i) s1 Hs1) as (H1 & H2 & _).
    split_and!; [done|by etrans|]. by intros a s' [= _ <-]. }
  intros [] s2 Hs2 Hf2 E. apply IH; [done|done|]. rewrite E. apply Forall_app. split; [done|].
  destruct m; [constructor; [by apply Hm|constructor]|constructor].
Qed.

Lemma Scan_loads_on fuel : loads_on (ScanInvalidModuleFiles W op fuel).
Proof.
  induction fuel as [|fuel IH]; cbn [ScanInvalidModuleFiles]; [by apply core_lift|].
  apply within_bind; [apply _|by apply core_modify|]. intros _.
  apply within_bind; [apply _|apply within_gets, _|]. intros files.
  apply (within_okay _ anything). intros s Hs.
  eapply okay_bind; [by apply scan_loop_okay|]. intros [|m l] s1 Hs1 Hf1 Hl.
  - apply okay_within; [|done..]. within.
  - eapply okay_bind; [|intros [] s2 Hs2 Hf2 _; by apply okay_within; [by apply core_modify|..]].
    eapply okay_bind; [by apply StartModules_okay|]. intros [] s2 Hs2 Hf2 _. by apply okay_within.
Qed.

Lemma AddModuleProvider_loads_on p : loads_on (AddModuleProvider W op p).
Proof. unfold AddModuleProvider, scan. within; by apply Scan_loads_on. Qed.

Lemma host_step_loads_on c : loads c -> loads_on (host_step W op c).
Proof.
  destruct c as [p|p|m|code|e]; intros Hc; simpl.
  - apply AddModuleProvider_loads_on.
  - by apply core_modify.
  - by destruct (Hc m).
  - unfold LinuxHost_Exit, Host_Exit. within.
  - apply core_lift.
Qed.

Lemma LoadModules_loads_on : loads_on (LoadModules W op).
Proof.
  unfold LoadModules. apply within_bind; [apply _|apply within_gets, _|]. intros paths.
  apply within_bind; [apply _|apply within_st_fold; [apply _|]; intros _ dir _|].
  { unfold FindBasicModules. apply within_bind; [apply _|apply core_lift|]. intros entries.
    apply within_st_fold; [apply _|]. intros _ (path & d & h) _.
    destruct (negb d && negb h); [|by within]. destruct (Host_IsModule path).
    - apply within_bind; [apply _| |by within]. apply (within_okay _ _ (fun s Hs => LoadModule_okay s s path _ Hs ltac:(reflexivity))).
    - unfold AddInvalidModuleFile. by apply core_modify. }
  intros _. apply within_bind; [apply _|unfold scan; within; by apply Scan_loads_on|]. intros _.
  apply (within_okay _ anything). intros s Hs.
  apply (okay_bind _ _ _ (fun l s' => s' = s /\ l = loadedModules s)).
  { split_and!; [done|reflexivity|]. by intros a s' [= <- <-]. }
  intros l ? _ _ [-> ->]. eapply okay_bind; [apply StartModules_okay; [done|reflexivity|apply ld_alive, Hs]|].
  intros [] s1 Hs1 Hf1 _. by apply okay_within; [by apply core_modify|..].
Qed.
End Loading.

Lemma host_op_loads_on W `{!Tame W} n c : loads c -> loads_on (host_op W n c).
Proof.
  revert c. induction n as [|n IH]; intros c Hc; [by apply core_lift|]. rewrite host_op_S.
  by apply host_step_loads_on.
Qed.

(** ** Winding down *)
Section Unloading.
Context (W : HostWorld) `{HW : !Tame W} (n : nat).
#[local] Set Default Proof Using "Type*".
#[local] Abbreviation op := (host_op W (S n)).

(** A module that stops or unloads may remove providers, exit and throw; it
    changes nothing else. *)
Record wound (s s' : hstate) : Prop := {
  wd_boot : h_boot s' = h_boot s;
  wd_application : h_application s' = h_application s;
  wd_modules : h_modules s' = h_modules s;
  wd_loaded : loadedModules s' = loadedModules s;
  wd_trace : h_trace s' = h_trace s
}.
#[local] Instance wound_preorder : PreOrder wound.
Proof using Type. split; [done|]. intros s1 s2 s3 [] []. split; congruence. Qed.
Abbreviation winds := (within true (fun _ => True) wound).
Lemma host_op_winds c : winds_down c -> winds (op c).
Proof using Type.
  rewrite host_op_S. destruct c as [p|p|m|code|e]; simpl; [done|..|done| |]; intros _.
  - by apply within_modify; [apply _|].
  - unfold LinuxHost_Exit, Host_Exit, log. within; by apply within_modify; [apply _|].
  - within.
Qed.
Lemma notify_winds_down l m s : l = STOP \/ l = UNLOAD -> wound (push (l, m) s) (notify W op l m s).2.
Proof.
  intros Hl. pose proof (tame_stop l m (push (l, m) s) Hl) as Hcalls. unfold notify.
  step (eq_refl : modify _ s = _). change (with_trace _ s) with (push (l, m) s).
  step (eq_refl : gets (behaviour W l m) _ = _).
  assert (winds (st_fold (fun _ c => op c) tt (behaviour W l m (push (l, m) s)))) as Hw.
  { apply within_st_fold; [apply _|]. intros _ c Hc. apply host_op_winds. by eapply Forall_forall in Hcalls. }
  by destruct (Hw (push (l, m) s) I) as (_ & H & _).
Qed.

(** The modules from [i] on are stopped, up to the first that throws. *)
Lemma stop_loop_run fuel i s :
  length (loadedModules s) - i < fuel ->
  exists r s' ms, stop_loop W op fuel i s = (r, s') /\ ms `prefix_of` drop i (loadedModules s) /\
    (r = Ret tt -> ms = drop i (loadedModules s)) /\
    wound (with_trace (fun t => t ++ map (pair STOP) ms) s) s'.
Proof.
  revert i s. induction fuel as [|fuel IH]; intros i s Hlen; [lia|]. cbn [stop_loop].
  step (eq_refl : gets loadedModules s = _). destruct (loadedModules s !! i) as [m|] eqn:Hm.
  - apply lookup_lt_Some in Hm as Hi. pose proof (notify_winds_down STOP m s ltac:(by left)) as Hw.
    rewrite (drop_S _ _ _ Hm). unfold mbind at 1, st_bind at 1.
    destruct (notify W op STOP m s) as [[[]|e| |] s1]; simpl in Hw; destruct Hw as [H1 H2 H3 H4 H5].
    2-4: eexists _, s1, [m]; split_and!; [done|apply prefix_cons, prefix_nil|done|by split].
    destruct (IH (S i) s1) as (r & s' & ms & E & Hp & Hr & [K1 K2 K3 K4 K5]); rewrite ?H4 in *; [simpl in *; lia|].
    exists r, s', (m :: ms). split_and!; [done|by apply prefix_cons|intros Hr'; f_equal; by apply Hr|].
    split; simpl in *; rewrite ?K1, ?K2, ?K3, ?K4, ?K5, ?H1, ?H2, ?H3, ?H4, ?H5; try done.
    simpl. by rewrite <- app_assoc.
  - exists (Ret tt), s, []. apply lookup_ge_None in Hm. rewrite drop_ge by done. split_and!; [done..|].
    split; simpl; by rewrite ?app_nil_r.
Qed.

Lemma erase_components_run path s l : valid (h_boot s) l ->
  erase_components path l s =
    (Ret (filter (fun p => c_path <$> comps (h_boot s) !! p <> Some path) l), s).
Proof.
  induction 1 as [|p l [c Hc]%lookup_lt_is_Some_2 _ IH]; [done|]. cbn [erase_components].
  assert (E : on_boot (comp p) s = (Ret c, s)) by (unfold on_boot, comp; rewrite Hc; by destruct s).
  step E. step IH. rewrite filter_cons, Hc. simpl. unfold mret, st_ret. do 2 f_equal.
  destruct (decide (path = c_path c)) as [->|Hne].
  - rewrite decide_False; [done|]. intros H. by apply H.
  - rewrite decide_True; [done|]. intros [= E']. by apply Hne.
Qed.

(** What [UnregisterModule] does: the module is forgotten unless its [Unload]
    throws. *)
Record unregistered (m : ModuleId) (path : str) (s s' : hstate) : Prop := {
  ur_boot : h_boot s' = h_boot s;
  ur_modules : h_modules s' = h_modules s;
  ur_trace : h_trace s' = h_trace s ++ [(UNLOAD, m)];
  ur_loaded : loadedModules s' = filter (fun m' => m <> m') (loadedModules s);
  ur_components : a_modules (h_application s')
    = filter (fun p => c_path <$> comps (h_boot s) !! p <> Some path) (a_modules (h_application s))
}.

Lemma UnregisterModule_run m s x :
  h_modules s !! m = Some x -> valid (h_boot s) (a_modules (h_application s)) ->
  exists r s', UnregisterModule W op m s = (r, s') /\
    (r = Ret tt /\ unregistered m (m_path x) s s' \/ r <> Ret tt /\ wound (push (UNLOAD, m) s) s').
Proof.
  intros Hx Hv. unfold UnregisterModule.
  assert (E : the_module m s = (Ret x, s)) by (unfold the_module; by rewrite Hx). step E. clear E.
  step (eq_refl : log LNOTICE _ s = _). set (s1 := with_run _ _ _ _ s).
  pose proof (notify_winds_down UNLOAD m s1 ltac:(by right)) as Hw. unfold mbind at 1, st_bind at 1.
  destruct (notify W op UNLOAD m s1) as [[[]|e| |] s2]; simpl in Hw; destruct Hw as [H1 H2 H3 H4 H5].
  2-4: eexists _, s2; split; [done|right; split; [done|by split]].
  step (eq_refl : modify _ _ = _). step (eq_refl : gets h_application _ = _).
  erewrite st_bind_Ret; [|apply erase_components_run; simpl; rewrite H1, H2; exact Hv].
  eexists _, _. split; [done|left]. split; [done|]. split; simpl; rewrite ?H1, ?H2, ?H3, ?H4, ?H5; done.
Qed.

(** The paths of modules, and the components that have none of some paths. *)
Definition paths_of (s : hstate) (l : list ModuleId) : list str := omap (fun m => m_path <$> h_modules s !! m) l.
Definition without_paths (s : hstate) (paths : list str) : list SharedComponent :=
  filter (fun p => Forall (fun path => c_path <$> comps (h_boot s) !! p <> Some path) paths)
    (a_modules (h_application s)).

(** [s'] is [s] with the functions [es] called and all modules unloaded. *)
Record unloaded (s : hstate) (es : list (lifecycle * ModuleId)) (s' : hstate) : Prop := {
  ul_loaded : loadedModules s' = [];
  ul_trace : h_trace s' = h_trace s ++ es;
  ul_modules : h_modules s' = h_modules s;
  ul_components : a_modules (h_application s') = without_paths s (paths_of s (loadedModules s))
}.

Lemma filter_NoDup_head (m : ModuleId) l : NoDup (m :: l) -> filter (fun m' => m <> m') (m :: l) = l.
Proof.
  intros [Hm _]%NoDup_cons. rewrite filter_cons_False by (intros H; by apply H).
  apply filter_keeps. apply Forall_forall. by intros m' Hm' ->.
Qed.

Lemma without_paths_step s path paths :
  filter (fun p => Forall (fun path => c_path <$> comps (h_boot s) !! p <> Some path) paths)
    (filter (fun p => c_path <$> comps (h_boot s) !! p <> Some path) (a_modules (h_application s))) =
  without_paths s (path :: paths).
Proof.
  unfold without_paths. rewrite list_filter_filter. apply list_filter_iff. intros p.
  rewrite Forall_cons. tauto.
Qed.

Lemma unregister_loop_run fuel s :
  NoDup (loadedModules s) -> Forall (fun m => m < length (h_modules s)) (loadedModules s) ->
  valid (h_boot s) (a_modules (h_application s)) -> length (loadedModules s) < fuel ->
  exists r s', unregister_loop W op fuel s = (r, s') /\
    (r = Ret tt /\ unloaded s (map (pair UNLOAD) (loadedModules s)) s' \/
     r <> Ret tt /\ exists ms, ms `prefix_of` loadedModules s /\ h_trace s' = h_trace s ++ map (pair UNLOAD) ms).
Proof.
  revert s. induction fuel as [|fuel IH]; intros s Hnd Ha Hv Hlen; [lia|]. cbn [unregister_loop].
  step (eq_refl : gets loadedModules s = _). destruct (loadedModules s) as [|m l] eqn:El.
  { exists (Ret tt), s. split; [done|left]. split; [done|]. constructor; rewrite ?El, ?app_nil_r; try done.
    symmetry. unfold without_paths. apply filter_keeps. by apply Forall_forall. }
  apply Forall_cons in Ha as [[x Hx]%lookup_lt_is_Some_2 Ha].
  destruct (UnregisterModule_run m s x Hx Hv) as (r & s1 & E & [[-> [U1 U2 U3 U4 U5]]|[Hr Hw]]).
  2:{ unfold mbind, st_bind. rewrite E. destruct r as [[]|e| |]; [done|..].
      all: eexists _, s1; split; [done|right]; split; [done|]; exists [m];
        split; [apply prefix_cons, prefix_nil|]; by rewrite (wd_trace _ _ Hw). }
  step E. assert (El1 : loadedModules s1 = l) by (rewrite U4, El; by apply filter_NoDup_head).
  destruct (IH s1) as (r & s' & Hs' & H); rewrite ?El1, ?U1, ?U2; try done.
  - by apply NoDup_cons in Hnd as [_ ?].
  - rewrite U5. unfold valid in *. rewrite Forall_forall in *. intros p [_ Hp]%list_elem_of_filter. by apply Hv.
  - simpl in Hlen. lia.
  - exists r, s'. split; [done|]. destruct H as [[-> [H1 H2 H3 H4]]|[Hr (ms & Hp & Ht)]]; [left|right]; split; try done.
    + split; [done| |by rewrite H3|].
      * rewrite H2, El1, U3. simpl. by rewrite <- app_assoc.
      * rewrite H4, El1, El. unfold paths_of at 2. cbn [omap list_omap]. rewrite Hx. simpl.
        rewrite <- without_paths_step. unfold without_paths, paths_of. by rewrite U1, U2, U5.
    + exists (m :: ms). rewrite El1 in Hp. split; [by apply prefix_cons|]. rewrite Ht, U3. simpl. by rewrite <- app_assoc.
Qed.

(** What has been called when unloading threw: the modules [stops] were
    stopped, the modules [unloads] unloaded, the latter only after all. *)
Definition interrupted (l stops unloads : list ModuleId) : Prop :=
  stops `prefix_of` l /\ unloads `prefix_of` l /\ (unloads = [] \/ stops = l).

Lemma UnloadModules_run s : loading s ->
  exists r s', UnloadModules W op s = (r, s') /\
    (r = Ret tt /\ unloaded s (map (pair STOP) (loadedModules s) ++ map (pair UNLOAD) (loadedModules s)) s' \/
     r <> Ret tt /\ exists stops unloads, interrupted (loadedModules s) stops unloads /\
       h_trace s' = h_trace s ++ map (pair STOP) stops ++ map (pair UNLOAD) unloads).
Proof.
  intros Hs. unfold UnloadModules. step (eq_refl : gets loadedModules s = _).
  destruct (stop_loop_run (S (length (loadedModules s))) 0 s ltac:(lia)) as (r & s1 & ms & E & Hp & Hr & [K1 K2 K3 K4 K5]).
  rewrite drop_0 in Hp, Hr. simpl in K1, K2, K3, K4, K5. unfold mbind, st_bind. rewrite E.
  destruct r as [[]|e| |]; [specialize (Hr eq_refl) as ->|..].
  2-4: eexists _, s1; split; [done|right]; split; [done|]; exists ms, []; split;
    [split_and!; [done|apply prefix_nil|by left]|by rewrite app_nil_r].
  destruct (unregister_loop_run (S (length (loadedModules s))) s1) as (r & s' & Hs' & H); rewrite ?K1, ?K2, ?K3, ?K4.
  - apply Hs.
  - apply Hs.
  - apply Hs.
  - simpl. lia.
  - exists r, s'. split; [done|]. destruct H as [[-> [H1 H2 H3 H4]]|[Hne (us & Hus & Ht)]]; [left|right]; split; try done.
    + split; [done|by rewrite H2, K5, K4, <- app_assoc|by rewrite H3|].
      rewrite H4, K4. unfold without_paths, paths_of. by rewrite K1, K2, K3.
    + exists (loadedModules s), us. rewrite K4 in Hus. split; [split_and!; [done|done|by right]|].
      by rewrite Ht, K5, <- app_assoc.
Qed.
End Unloading.

(** Unloading from a state that loading has reached: when it returns, every
    loaded module was stopped, in the order of loading, before the first one was
    unloaded, in the same order; no module is loaded any more, and the
    application has lost the components that have the path of an unloaded
    module, and no others. The modules may remove their providers meanwhile. *)
Theorem unload_modules_order W `{!Tame W} (n : nat) (s s' : hstate) :
  loading s -> UnloadModules W (host_op W (S n)) s = (Ret tt, s') ->
  h_trace s' = h_trace s ++ map (pair STOP) (loadedModules s) ++ map (pair UNLOAD) (loadedModules s) /\
  loadedModules s' = [] /\ h_modules s' = h_modules s /\
  a_modules (h_application s') = without_paths s (paths_of s (loadedModules s)).
Proof.
  intros Hs E. destruct (UnloadModules_run W n s Hs) as (r & s1 & E' & [[-> []]|[Hr _]]); [|congruence].
  rewrite E' in E. injection E as <-. done.
Qed.

(** ** A whole run *)

(** What happens to a module in the life of the host. *)
Definition lived (es : list lifecycle) : Prop :=
  exists k last, last `prefix_of` [STOP; UNLOAD] /\ (es = [] \/ es = INITIALIZE :: replicate k START ++ last).

Lemma events_map (l : lifecycle) (m : ModuleId) ms : NoDup ms ->
  map fst (filter (fun e => e.2 = m) (map (pair l) ms)) = if decide (m ∈ ms) then [l] else [].
Proof.
  induction 1 as [|m' ms Hm _ IH]; [done|]. simpl. rewrite filter_cons. simpl.
  destruct (decide (m' = m)) as [->|Hne]; simpl.
  - rewrite IH, decide_False by done. by rewrite decide_True by by left.
  - rewrite IH. apply decide_ext. rewrite elem_of_cons. naive_solver.
Qed.

Lemma loading_lived s m : loading s -> lived (events m s).
Proof.
  intros Hs. destruct (decide (m < length (h_modules s))) as [Hm|Hm].
  - destruct (ld_events _ Hs m Hm) as [k Hk]. exists k, []. rewrite app_nil_r.
    split; [apply prefix_nil|auto].
  - exists 0, []. split; [apply prefix_nil|]. left. unfold events. destruct (filter _ _) as [|e l] eqn:E; [done|].
    assert (e ∈ filter (fun e => e.2 = m) (h_trace s)) as He by (rewrite E; by left).
    apply list_elem_of_filter in He as [<- Hin]. pose proof (ld_trace _ Hs) as Ht.
    rewrite Forall_forall in Ht. by specialize (Ht _ Hin).
Qed.

Lemma events_unloading s s' m stops unloads : NoDup stops -> NoDup unloads ->
  h_trace s' = h_trace s ++ map (pair STOP) stops ++ map (pair UNLOAD) unloads ->
  events m s' = events m s ++ (if decide (m ∈ stops) then [STOP] else []) ++
                              (if decide (m ∈ unloads) then [UNLOAD] else []).
Proof. intros H1 H2 Ht. unfold events. by rewrite Ht, !filter_app, !map_app, !events_map. Qed.

Lemma prefix_NoDup {A} (l1 l2 : list A) : l1 `prefix_of` l2 -> NoDup l2 -> NoDup l1.
Proof. intros [k ->] H. by apply NoDup_app in H as [? _]. Qed.
Lemma interrupted_lived s s' m stops unloads : loading s ->
  interrupted (loadedModules s) stops unloads ->
  h_trace s' = h_trace s ++ map (pair STOP) stops ++ map (pair UNLOAD) unloads -> lived (events m s').
Proof.
  intros Hs (Hst & Hun & Hor) Ht. pose proof (ld_distinct _ Hs) as Hnd.
  rewrite (events_unloading s s' m stops unloads) by (done || by eapply prefix_NoDup).
  destruct (decide (m ∈ stops)) as [H1|H1].
  - pose proof (ld_alive _ Hs) as Ha. rewrite Forall_forall in Ha.
    assert (m ∈ loadedModules s) as Hm by (destruct Hst as [k ->]; apply elem_of_app; by left).
    destruct (ld_events _ Hs m (Ha _ Hm)) as [k ->]. exists k, ([STOP] ++ if decide (m ∈ unloads) then [UNLOAD] else []).
    split; [|by right]. case_decide; apply prefix_cons; [done|apply prefix_nil].
  - rewrite decide_False; [rewrite !app_nil_r; by apply loading_lived|]. intros H2.
    destruct Hor as [-> | ->]; [by apply not_elem_of_nil in H2|]. apply H1.
    destruct Hun as [k E]. rewrite E. apply elem_of_app. by left.
Qed.

(** The whole life of a loaded module, which was started at least once if it
    was started before the unloading. *)
Lemma unloaded_events s s' m : loading s ->
  unloaded s (map (pair STOP) (loadedModules s) ++ map (pair UNLOAD) (loadedModules s)) s' ->
  m ∈ loadedModules s ->
  exists k, events m s' = INITIALIZE :: replicate k START ++ [STOP; UNLOAD] /\ (started s m -> 0 < k).
Proof.
  intros Hs [_ Ht _ _] Hm. pose proof (ld_alive _ Hs) as Ha. rewrite Forall_forall in Ha.
  destruct (ld_events _ Hs m (Ha _ Hm)) as [k Hk]. exists k. split.
  - rewrite (events_unloading s s' m _ _ (ld_distinct _ Hs) (ld_distinct _ Hs) Ht), Hk.
    by rewrite !decide_True by done.
  - intros Hst. destruct k as [|k]; [|lia]. exfalso.
    assert (START ∈ events m s) as Hin.
    { unfold events. apply list_elem_of_fmap. exists (START, m). split; [done|]. by apply list_elem_of_filter. }
    rewrite Hk in Hin. simpl in Hin. apply elem_of_cons in Hin as [?|?]; [done|]. by eapply not_elem_of_nil.
Qed.

Lemma catch_value_loads_on {A} (m : HM A) h :
  loads_on m -> (forall v, loads_on (h v)) -> loads_on (catch_value m h).
Proof.
  intros Hm Hh. unfold catch_value. apply within_try_catch; [apply _|done|]. intros [| | | |]; [done|..].
  all: by apply core_lift.
Qed.

Section Running.
Context (W : HostWorld) `{HW : !Tame W} (n : nat).
#[local] Set Default Proof Using "Type*".
#[local] Abbreviation op := (host_op W (S n)).

Lemma gtk_main_loads_on calls : Forall loads calls -> loads_on (gtk_main op calls).
Proof.
  induction 1 as [|c calls Hc _ IH]; simpl; [within|].
  apply within_bind; [apply _|by apply (host_op_loads_on W (S n))|]. intros _. within.
Qed.

Lemma unload_providers_loads_on fuel : loads_on (unload_providers fuel).
Proof. induction fuel as [|fuel IH]; simpl; [by apply core_lift|]. unfold RemoveModuleProvider. within. Qed.

(** The two phases of a run before the modules are unloaded. *)
Definition startup : HM bool :=
  catch_value (AddModuleProvider W op host_provider;; LoadModules W op;; mret true)
    (fun v => log LERROR (display_exception W v);; mret false).
Definition main_loop (runUILoop : bool) : HM unit :=
  catch_value
    (modify (fun s => with_run true (exitCode s) (gtk_quit s) (h_log s) s);;
     if runUILoop then gtk_main op (ui_calls W) else mret tt)
    (fun v => log LERROR (lit "Caught exception in main loop: " ++ display_exception W v)).

Lemma startup_loads_on : loads_on startup.
Proof.
  unfold startup. apply catch_value_loads_on; [|within].
  apply within_bind; [apply _|apply (AddModuleProvider_loads_on W op (host_op_loads_on W (S n)))|]. intros _.
  apply within_bind; [apply _|apply (LoadModules_loads_on W op (host_op_loads_on W (S n)))|]. within.
Qed.
Lemma main_loop_loads_on runUILoop : loads_on (main_loop runUILoop).
Proof.
  unfold main_loop. apply catch_value_loads_on; [|within].
  apply within_bind; [apply _|within|]. intros _.
  destruct runUILoop; [apply gtk_main_loads_on, tame_ui|within].
Qed.

(** All modules are started when the loading has succeeded, and stay so. *)
Lemma startup_started s s1 : startup s = (Ret true, s1) -> forall m, m ∈ loadedModules s1 -> started s1 m.
Proof.
  unfold startup, catch_value, try_catch. intros E m Hm.
  destruct ((AddModuleProvider W op host_provider;; LoadModules W op;; mret true) s) as [[b|e| |] s2] eqn:Es; try done.
  - injection E as -> ->. apply st_bind_Ret_inv in Es as (u & s3 & _ & Es).
    apply st_bind_Ret_inv in Es as (u' & s4 & Es & [= <-]). by eapply LoadModules_started.
  - by destruct e.
Qed.
Lemma main_loop_keeping runUILoop : keeping (main_loop runUILoop).
Proof.
  unfold main_loop, catch_value. apply within_try_catch; [apply _| |intros []; first [by apply lift_free|by apply aside_keeping]].
  apply within_bind; [apply _|by apply aside_keeping|]. intros _. destruct runUILoop; [|within].
  pose proof (tame_ui (W := W)) as Hui. induction Hui as [|c calls Hc _ IH]; simpl; [within|].
  apply within_bind; [apply _|by apply (host_op_keeping W (S n))|]. intros _. within.
Qed.
Lemma UnloadModuleProviders_keeping : keeping UnloadModuleProviders.
Proof.
  assert (forall fuel, keeping (unload_providers fuel)) as Hu.
  { induction fuel as [|fuel IH]; simpl; [apply lift_free|]. unfold RemoveModuleProvider. within. by apply aside_keeping. }
  unfold UnloadModuleProviders. within.
Qed.
End Running.

(** C4: Whatever modules do (but for unregistering each other, and for adding
    providers while they stop) and however the run of the host ends, also when
    a [Stop] or [Unload] throws: no function of a module is called before its
    [Initialize], it is stopped and unloaded at most once, in this order, and
    nothing is called after its [Stop] but its [Unload]. When the run returns,
    it is with code 1 because loading failed, or all loaded modules have been
    stopped, then all unloaded, and each of them has had its whole life; those
    that were loaded when loading had succeeded have all been started. *)
Theorem module_lifecycle W `{!Tame W} (n : nat) (runUILoop : bool) (s : hstate) :
  h_modules s = [] -> loadedModules s = [] -> h_trace s = [] ->
  valid (h_boot s) (a_modules (h_application s)) ->
  let '(r, s') := Run_ W (host_op W (S n)) runUILoop s in
  (forall m, lived (events m s')) /\
  (forall code, r = Ret code ->
     code = 1%Z /\ (exists s1, startup W n s = (Ret false, s1)) \/
     loadedModules s' = [] /\ code = exitCode s' /\
     exists t l s1, h_trace s' = t ++ map (pair STOP) l ++ map (pair UNLOAD) l /\
       startup W n s = (Ret true, s1) /\ loadedModules s1 `prefix_of` l /\
       forall m, m ∈ l -> exists k, events m s' = INITIALIZE :: replicate k START ++ [STOP; UNLOAD] /\
         (m ∈ loadedModules s1 -> 0 < k)).
Proof.
  intros Hm Hl Ht Hv.
  assert (Hs : loading s).
  { constructor; rewrite ?Hm, ?Hl, ?Ht; try done; [constructor..|]. intros m Hlt. simpl in Hlt. lia. }
  change (Run_ W (host_op W (S n)) runUILoop) with
    (loaded ← startup W n;
     if loaded : bool then
       main_loop W n runUILoop;; UnloadModuleProviders;; UnloadModules W (host_op W (S n));;
       code ← gets exitCode;
       log LNOTICE (lit "Exiting with exit code: " ++ lit (pretty code));; mret code
     else mret 1%Z).
  destruct (startup_loads_on W n s Hs) as (Hs1 & _). unfold mbind at 1, st_bind at 1.
  pose proof (startup_started W n s) as Hst.
  destruct (startup W n s) as [[[]| | |] s1]; simpl in Hs1.
  2: split; [intros m; by apply loading_lived|]; intros code [= <-]; left; split; [done|by eexists].
  2-4: split; [intros m; by apply loading_lived|done].
  destruct (main_loop_loads_on W n runUILoop s1 Hs1) as (Hs2 & _). unfold mbind at 1, st_bind at 1.
  destruct (main_loop_keeping W n runUILoop s1 I) as (_ & K2 & _).
  destruct (main_loop W n runUILoop s1) as [[[]| | |] s2]; simpl in Hs2, K2.
  2-4: split; [intros m; by apply loading_lived|done].
  assert (Hp : loads_on UnloadModuleProviders).
  { unfold UnloadModuleProviders. within; apply unload_providers_loads_on. }
  destruct (Hp s2 Hs2) as (Hs3 & _). unfold mbind at 1, st_bind at 1.
  destruct (UnloadModuleProviders_keeping s2 I) as (_ & K3 & _).
  destruct (UnloadModuleProviders s2) as [[[]| | |] s3]; simpl in Hs3, K3.
  2-4: split; [intros m; by apply loading_lived|done].
  destruct (UnloadModules_run W n s3 Hs3) as (r & s4 & E & [[-> Hu]|[Hr (stops & unloads & Hi & Htr)]]).
  2:{ unfold mbind at 1, st_bind at 1. rewrite E. destruct r as [[]|e| |]; [done|..].
      all: split; [intros m; by eapply interrupted_lived|done]. }
  step E. split.
  { intros m. eapply (interrupted_lived s3 _ m (loadedModules s3) (loadedModules s3)); [done| |apply Hu].
    by split_and!; [..|right]. }
  intros code [= <-]. right. split_and!; [apply Hu|done|]. exists (h_trace s3), (loadedModules s3), s1.
  assert (keeps s1 s3) as K by by etrans. split_and!; [apply Hu|done|apply K|].
  intros m Hm'. destruct (unloaded_events s3 s4 m Hs3 Hu Hm') as (k & Hk & Hst'). exists k. split; [exact Hk|].
  intros Hm1. apply Hst'. eapply keeps_started; [exact K|]. by apply (Hst s1).
Qed.

Lemma module_lifecycle_witness :
  (demo_run [] [lit "/m"]).1 = Ret 0%Z /\
  events 1 (demo_run [] [lit "/m"]).2 = [INITIALIZE; START; START; STOP; UNLOAD] /\
  forall m, lived (events m (demo_run [] [lit "/m"]).2).
Proof.
  split_and!; [by vm_compute..|]. unfold demo_run.
  pose proof (module_lifecycle (demo_world []) 2 true (demo_host [lit "/m"]) eq_refl eq_refl eq_refl
    ltac:(constructor)) as H.
  destruct (Run_ (demo_world []) (host_op (demo_world []) 3) true (demo_host [lit "/m"])) as [r s].
  by destruct H.
Defined.

Lemma unload_modules_order_witness :
  let s := with_modules [{| m_path := lit "/a"; m_name := lit "a"; m_version := [] |}] [0] [(INITIALIZE, 0)]
             (demo_host []) in
  loading s /\ exists s', UnloadModules (demo_world []) (host_op (demo_world []) 1) s = (Ret tt, s') /\
    h_trace s' = [(INITIALIZE, 0); (STOP, 0); (UNLOAD, 0)] /\ loadedModules s' = [].
Proof.
  intros s. assert (Hs : loading s).
  { constructor; try done; repeat constructor; try done.
    - by intros ?%not_elem_of_nil.
    - intros [|m] Hm; [by exists 0|]. simpl in Hm. lia. }
  split; [done|]. eexists. split; [vm_compute; reflexivity|].
  destruct (unload_modules_order (demo_world []) 0 s _ Hs ltac:(vm_compute; reflexivity)) as (Ht & Hl & _).
  split; [exact Ht|exact Hl].
Defined.
