(* ===== verification/BootLaws.v ===== *)
(** * BootLaws: what the boot program promises

    The program is replaced by the second process only when every dependency
    is resolved and the application is installed; the environment that it
    leaves is the one that the second process starts the host from. *)

From S2P Require Import Prelude CppString FileUtils BootUtils EnvironmentUtils Application Logger.
From S2P Require Import System Directories Boot.
From stdpp Require Import options.

(** ** Runs of the parts *)

Lemma zoom_inv {S T A} (get : S -> T) (set : T -> S -> S) (m : ST T A) s r s' :
  zoom get set m s = (r, s') -> exists t, m (get s) = (r, t) /\ s' = set t s.
Proof. unfold zoom. destruct (m (get s)) as [r0 t]. intros [= <- <-]. eauto. Qed.

(** [env'] is [env] with one more value. *)
Definition sets (env : environ) (name value : str) (env' : environ) : Prop :=
  forall m, getenv env' m = if decide (m = name) then Some value else getenv env m.

Lemma Set__run name value env :
  valid_name name = true -> no_nul name ->
  exists env', Set_ name value env = (Ret tt, env') /\ sets env name (c_str value) env'.
Proof.
  intros Hv Hn. unfold Set_, gets, mbind, st_bind, setenv. simpl. rewrite (c_str_id name Hn), Hv.
  eexists. split; [done|]. intros m. rewrite getenv_app, getenv_removed. simpl.
  rewrite split_entry_print by by apply valid_name_spec. case_decide as Hm.
  - subst m. by rewrite decide_True.
  - rewrite decide_False by done. by destruct (getenv env m).
Qed.

Lemma p_with_boot_id p : p_with_boot (p_boot p) p = p.
Proof. by destruct p. Qed.
Lemma p_with_environ_id p : p_with_environ (p_environ p) p = p.
Proof. by destruct p. Qed.

Lemma comp_inv r p c p' :
  on_boot_ (comp r) p = (Ret c, p') -> comps (p_boot p) !! r = Some c /\ p' = p.
Proof.
  intros (s & E & ->)%zoom_inv. unfold comp in E. destruct (comps (p_boot p) !! r); [|done].
  injection E as <- <-. by rewrite p_with_boot_id.
Qed.

Lemma app_inv p a p' : app_ p = (Ret a, p') -> p_app p = Some a /\ p' = p.
Proof.
  unfold app_, gets, some_or_undef, lift, mbind, st_bind. destruct (p_app p); [|done]. by intros [= -> ->].
Qed.

(** [p'] is [p] with another environment. *)
Definition env_only (p p' : process) : Prop := p' = p_with_environ (p_environ p') p.

Lemma env_only_trans p1 p2 p3 : env_only p1 p2 -> env_only p2 p3 -> env_only p1 p3.
Proof. unfold env_only. intros -> ->. by destruct p1. Qed.
Lemma env_only_refl p : env_only p p.
Proof. unfold env_only. by rewrite p_with_environ_id. Qed.

(** The variables that the boot program sets. *)
Definition boot_names : list str :=
  [BOOTSTRAP_ENV; lit "KR_HOME"; lit "KR_RUNTIME"; lit "KR_MODULES"; lit "LD_LIBRARY_PATH"].
Lemma boot_names_ok name : name ∈ boot_names -> valid_name name = true /\ no_nul name.
Proof.
  revert name. apply Forall_forall. unfold boot_names, no_nul.
  repeat (constructor; [split; [reflexivity|apply (bool_decide_unpack _); vm_compute; reflexivity]|]).
  constructor.
Qed.

Lemma set_inv name value p u p' :
  name ∈ boot_names -> on_environ_ (Set_ name value) p = (Ret u, p') ->
  env_only p p' /\ sets (p_environ p) name (c_str value) (p_environ p').
Proof.
  intros [Hv Hn]%boot_names_ok (env & E & ->)%zoom_inv.
  destruct (Set__run name value (p_environ p) Hv Hn) as (env' & E' & Hs).
  rewrite E' in E. injection E as _ <-. done.
Qed.

Lemma get_inv name p v p' :
  on_environ_ (Get name) p = (Ret v, p') -> v = default [] (getenv (p_environ p) (c_str name)) /\ p' = p.
Proof.
  intros (env & E & ->)%zoom_inv. unfold Get, gets, mbind, st_bind, mret, st_ret in E. injection E as <- <-.
  rewrite p_with_environ_id. split; [|done]. by destruct (getenv _ _).
Qed.

(** The paths of components. *)
Definition paths_of (s : bstate) (ps : list SharedComponent) : list str :=
  omap (fun p => c_path <$> comps s !! p) ps.

Lemma paths_inv ms : forall p l p',
  st_map (fun m => c ← on_boot_ (comp m); mret (c_path c)) ms p = (Ret l, p') ->
  l = paths_of (p_boot p) ms /\ p' = p.
Proof.
  induction ms as [|m ms IH]; intros p l p' E; [by injection E as <- <-|]. simpl in E.
  apply st_bind_Ret_inv in E as (path & p1 & E1 & E).
  apply st_bind_Ret_inv in E1 as (c & p2 & [Hc ->]%comp_inv & E1). injection E1 as <- <-.
  apply st_bind_Ret_inv in E as (l' & p3 & [-> ->]%IH & E). injection E as <- <-.
  unfold paths_of. simpl. by rewrite Hc.
Qed.

(** The text of KR_MODULES and of LD_LIBRARY_PATH. *)
Definition module_list (s : bstate) (a : Application) : str :=
  concat (map (fun path => path ++ MODULE_SEPARATOR) (paths_of s (a_modules a))).
Definition library_path (s : bstate) (a : Application) (runtime : str) (current : str) : str :=
  runtime ++ lit ":" ++ module_list s a
  ++ match current with [] => [] | current => lit ":" ++ current end.

(** The environment of the second process. *)
Record launch_env (env : environ) (s : bstate) (a : Application) (runtime : str) (env' : environ) : Prop := {
  le_boot : getenv env' BOOTSTRAP_ENV = Some (lit "YES");
  le_home : getenv env' (lit "KR_HOME") = Some (c_str (a_path a));
  le_runtime : getenv env' (lit "KR_RUNTIME") = Some (c_str runtime);
  le_modules : getenv env' (lit "KR_MODULES") = Some (c_str (module_list s a));
  le_libraries : getenv env' (lit "LD_LIBRARY_PATH")
    = Some (c_str (library_path s a runtime (default [] (getenv env (lit "LD_LIBRARY_PATH")))));
  le_other n : n ∉ boot_names -> getenv env' n = getenv env n
}.

Section Runs.
Context (W : BootWorld) (argv : list str).

Lemma library_path_inv ms a r c p p' :
  p_app p = Some a -> a_runtime a = Some r -> comps (p_boot p) !! r = Some c ->
  BootstrapPlatformSpecific ms p = (Ret tt, p') ->
  env_only p p' /\
  sets (p_environ p) (lit "LD_LIBRARY_PATH")
    (c_str (c_path c ++ lit ":" ++ ms ++
            match default [] (getenv (p_environ p) (lit "LD_LIBRARY_PATH")) with
            | [] => [] | current => lit ":" ++ current end)) (p_environ p').
Proof.
  intros Ha Hr Hc E. unfold BootstrapPlatformSpecific in E.
  apply st_bind_Ret_inv in E as (a' & p0 & [Ha' ->]%app_inv & E).
  rewrite Ha in Ha'. injection Ha' as <-.
  apply st_bind_Ret_inv in E as (r' & p3 & Er & E). unfold some_or_undef, lift in Er. rewrite Hr in Er.
  injection Er as <- <-.
  apply st_bind_Ret_inv in E as (c' & p3 & [Hc' ->]%comp_inv & E).
  rewrite Hc in Hc'. injection Hc' as <-.
  apply st_bind_Ret_inv in E as (cur & p3 & [-> ->]%get_inv & E).
  apply set_inv in E as [O S]; [|unfold boot_names; set_solver]. split; [done|].
  rewrite (c_str_id (lit "LD_LIBRARY_PATH")) in S by (apply boot_names_ok; unfold boot_names; set_solver).
  destruct (default [] (getenv (p_environ p) (lit "LD_LIBRARY_PATH"))); [by rewrite app_nil_r|].
  by rewrite <- !app_assoc in S.
Qed.

Lemma launch_env_sets env e1 e2 e3 e4 e5 s a runtime :
  sets env BOOTSTRAP_ENV (c_str (lit "YES")) e1 -> sets e1 (lit "KR_HOME") (c_str (a_path a)) e2 ->
  sets e2 (lit "KR_RUNTIME") (c_str runtime) e3 -> sets e3 (lit "KR_MODULES") (c_str (module_list s a)) e4 ->
  sets e4 (lit "LD_LIBRARY_PATH")
    (c_str (library_path s a runtime (default [] (getenv env (lit "LD_LIBRARY_PATH"))))) e5 ->
  launch_env env s a runtime e5.
Proof.
  intros S1 S2 S3 S4 S5.
  split; [..|intros n Hn; unfold boot_names in Hn];
    rewrite S5, ?S4, ?S3, ?S2, ?S1; repeat case_decide; try done; set_solver.
Qed.

Lemma Launch_inv p p' :
  Launch W argv p = (Ret Replaced, p') ->
  exists a r c, p_app p = Some a /\ a_runtime a = Some r /\ comps (p_boot p) !! r = Some c /\
    bw_exec W argv = None /\ env_only p p' /\
    launch_env (p_environ p) (p_boot p) a (c_path c) (p_environ p').
Proof.
  unfold Launch. intros E.
  apply st_bind_Ret_inv in E as (a & p0 & [Ha ->]%app_inv & E).
  apply st_bind_Ret_inv in E as (paths & p0 & [-> ->]%paths_inv & E).
  apply st_bind_Ret_inv in E as (u1 & p1 & [O1 S1]%set_inv & E); [|unfold boot_names; set_solver].
  apply st_bind_Ret_inv in E as (u2 & p2 & [O2 S2]%set_inv & E); [|unfold boot_names; set_solver].
  assert (env_only p p2) as O by (by eapply env_only_trans).
  apply st_bind_Ret_inv in E as (r & p3 & Er & E).
  unfold some_or_undef, lift in Er. destruct (a_runtime a) as [r'|] eqn:Hr; [|done].
  injection Er as <- <-.
  apply st_bind_Ret_inv in E as (c & p3 & [Hc ->]%comp_inv & E).
  assert (comps (p_boot p) !! r' = Some c) as Hc0 by (by rewrite O in Hc).
  apply st_bind_Ret_inv in E as (u3 & p3 & [O3 S3]%set_inv & E); [|unfold boot_names; set_solver].
  apply st_bind_Ret_inv in E as (u4 & p4 & [O4 S4]%set_inv & E); [|unfold boot_names; set_solver].
  apply st_bind_Ret_inv in E as (u5 & p5 & Epl & E).
  assert (env_only p p4) as O' by (eapply env_only_trans; [exact O|by eapply env_only_trans]).
  destruct u5. apply (library_path_inv _ a r' c) in Epl as [O5 S5];
    [|by rewrite O'|done|by rewrite O'].
  apply st_bind_Ret_inv in E as (err & p6 & Eb & E). unfold Blastoff in Eb. injection Eb as <- <-.
  destruct (bw_exec W argv) eqn:Hexec; [by apply st_bind_Ret_inv in E as (? & ? & _ & [=])|].
  injection E as <-.
  exists a, r', c. split_and!; [done|done|done|done|by eapply env_only_trans|].
  apply (launch_env_sets _ (p_environ p1) (p_environ p2) (p_environ p3) (p_environ p4)); [done..|].
  assert (getenv (p_environ p4) (lit "LD_LIBRARY_PATH") = getenv (p_environ p) (lit "LD_LIBRARY_PATH")) as El
    by (rewrite S4, S3, S2, S1; repeat case_decide; done).
  unfold library_path. rewrite El in S5. by destruct (default [] _).
Qed.

(** ** The way to [Launch] *)

(** What an operation keeps: the environment; the application and the
    components as well. *)
Definition same_environ : relation process := fun p p' => p_environ p' = p_environ p.
Definition same_plan : relation process := fun p p' =>
  p_environ p' = p_environ p /\ p_app p' = p_app p /\ p_boot p' = p_boot p.
#[local] Instance same_environ_preorder : PreOrder same_environ.
Proof. split; [done|]. unfold same_environ. congruence. Qed.
#[local] Instance same_plan_preorder : PreOrder same_plan.
Proof. split; [done|]. unfold same_plan. intros ???. naive_solver congruence. Qed.

Abbreviation keeps R := (within true (fun _ : process => True) R).
Lemma keeps_inv {A} R (m : PM A) p r p' : keeps R m -> m p = (r, p') -> R p p'.
Proof. intros H E. destruct (H p I) as (_ & HR & _). by rewrite E in HR. Qed.

Lemma keeps_zoom {T A} R (get : process -> T) set (m : ST T A) :
  (forall p t, R p (set t p)) -> keeps R (zoom get set m).
Proof. intros HR p _. unfold zoom. destruct (m (get p)) as [r t]. simpl. repeat split; [done|by left]. Qed.
Lemma keeps_lift {A} R `{!PreOrder R} (r : res A) : keeps R (lift r).
Proof. intros p _. repeat split; [reflexivity|by left]. Qed.

Lemma comp_plan r : keeps same_plan (on_boot_ (comp r)).
Proof.
  intros p _. unfold on_boot_, zoom, comp. simpl. rewrite p_with_boot_id.
  repeat split; try reflexivity. by left.
Qed.

Ltac keeps1 :=
  match goal with
  | |- forall _, _ => intros ?
  | |- within _ _ _ (_ ≫= _) => apply within_bind; [apply _| |]
  | |- within _ _ _ (st_fold _ _ _) => apply within_st_fold; [apply _|]
  | |- within _ _ _ (match ?x with _ => _ end) => destruct x
  | |- within _ _ _ (gets _) => apply (within_gets _ _ _)
  | |- within _ _ _ (mret _) => apply (keeps_lift _ (Ret _))
  | |- within _ _ _ (some_or_undef _) => apply (keeps_lift _ _)
  | |- within _ _ _ (lift _) => apply (keeps_lift _ _)
  | |- within _ _ _ (modify _) => apply (within_modify _ _ _); by intros
  | |- within _ _ _ (on_boot_ (comp _)) => apply comp_plan
  | |- within _ _ _ (zoom _ _ _) => apply keeps_zoom; by intros
  end.
Ltac keeps := repeat keeps1.

Lemma Resolve_environ : keeps same_environ (Resolve W).
Proof. unfold Resolve, app_, the_machine_, set_app, on_boot_. keeps. Qed.
Lemma FindUpdate_environ : keeps same_environ (FindUpdate W argv).
Proof. unfold FindUpdate, app_, the_machine_, on_fs_. keeps. Qed.
Lemma RunInstaller_environ missing : keeps same_environ (Boot_RunInstaller W missing).
Proof. unfold Boot_RunInstaller, app_, the_machine_, set_app, ShowError, act. keeps. Qed.
Lemma Installed_plan : keeps same_plan (Installed W).
Proof. unfold Installed, app_, the_machine_, on_fs_. keeps. Qed.
Lemma print_resolution_plan missing : keeps same_plan (print_resolution missing).
Proof. unfold print_resolution, app_, act. keeps. Qed.
Lemma needs_install_plan force missing : keeps same_plan (needs_install W force missing).
Proof. unfold needs_install. destruct force; keeps; apply Installed_plan. Qed.

(** The last resolution left nothing open, and the application is installed. *)
Record ready (env : environ) (s : bstate) (a : Application) (fs : FS) : Prop := {
  rd_resolved : exists fs0 paths a0 s0, ResolveDependencies fs0 paths a0 s0 = (Ret (a, []), s);
  rd_installed : exists fs0,
    IsInstalled (bw_mkdir W) (with_environment env (bw_machine W)) a fs0 = (Ret true, fs)
}.

Lemma Resolve_inv p missing p' :
  Resolve W p = (Ret missing, p') ->
  exists a, p_app p' = Some a /\ p_environ p' = p_environ p /\
    exists fs0 paths a0 s0, ResolveDependencies fs0 paths a0 s0 = (Ret (a, missing), p_boot p').
Proof.
  intros E. pose proof (keeps_inv _ _ _ _ _ Resolve_environ E) as Henv. unfold Resolve in E.
  apply st_bind_Ret_inv in E as (a0 & p0 & [Ha0 ->]%app_inv & E). unfold the_machine_ in E. st_inv.
  match type of E with (let '(_, _) := ?x in _) _ = _ => destruct x as [a mi] end.
  match goal with H : on_boot_ _ _ = _ |- _ => apply zoom_inv in H as (s & Er & ->) end.
  unfold set_app in E. st_inv. exists a. split; [done|]. split; [done|]. eauto 10.
Qed.

Lemma Proceed_inv p missing p' :
  (forall a, p_app p = Some a -> exists fs0 paths a0 s0,
     ResolveDependencies fs0 paths a0 s0 = (Ret (a, missing), p_boot p)) ->
  Proceed W argv missing p = (Ret Replaced, p') ->
  exists q a, p_app q = Some a /\ p_environ q = p_environ p /\
    ready (p_environ q) (p_boot q) a (p_fs q) /\ Launch W argv q = (Ret Replaced, p').
Proof.
  unfold Proceed. intros Hres E. apply st_bind_Ret_inv in E as (bad & q & Eb & E).
  destruct bad; [done|]. destruct missing; [|done].
  apply st_bind_Ret_inv in Eb as (b & q0 & Ei & Eb).
  injection Eb as Eb <-. destruct b; [clear Eb|done].
  pose proof (keeps_inv _ _ _ _ _ Installed_plan Ei) as (Henv & Happ & Hboot).
  unfold Installed in Ei. apply st_bind_Ret_inv in Ei as (a & p0 & [Ha ->]%app_inv & Ei).
  unfold the_machine_ in Ei. st_inv. apply zoom_inv in Ei as (fs & Ei & ->).
  eexists _, a. split_and!; [| | |exact E]; [done|done|].
  split; [by apply Hres|]. eexists. exact Ei.
Qed.

Lemma Continue_inv p missing p' :
  (forall a, p_app p = Some a -> exists fs0 paths a0 s0,
     ResolveDependencies fs0 paths a0 s0 = (Ret (a, missing), p_boot p)) ->
  Continue W argv missing p = (Ret Replaced, p') ->
  exists q a, p_app q = Some a /\ p_environ q = p_environ p /\
    ready (p_environ q) (p_boot q) a (p_fs q) /\ Launch W argv q = (Ret Replaced, p').
Proof.
  unfold Continue. intros Hres E. apply st_bind_Ret_inv in E as (a & p0 & [Ha ->]%app_inv & E).
  apply st_bind_Ret_inv in E as (u & p1 & E1 & E).
  assert (same_plan p p1) as (He1 & Ha1 & Hb1).
  { destruct (HasArgument a (lit "debug")).
    - exact (keeps_inv _ _ _ _ _ (print_resolution_plan _) E1).
    - by injection E1 as _ <-. }
  apply st_bind_Ret_inv in E as (install & p2 & E2 & E).
  apply (keeps_inv _ _ _ _ _ (needs_install_plan _ _)) in E2 as (He2 & Ha2 & Hb2).
  destruct install.
  - apply st_bind_Ret_inv in E as (ok & p3 & E3 & E).
    apply (keeps_inv _ _ _ _ _ (RunInstaller_environ _)) in E3. destruct ok; [|done].
    apply st_bind_Ret_inv in E as (missing' & p4 & (a' & Ha' & He4 & Hr)%Resolve_inv & E).
    apply Proceed_inv in E as (q & b & ? & ? & ? & ?); [|intros b; rewrite Ha'; by intros [= <-]].
    exists q, b. split_and!; [done|unfold same_environ in *; congruence|done|done].
  - apply Proceed_inv in E as (q & b & ? & ? & ? & ?); [|by rewrite Hb2, Hb1, Ha2, Ha1].
    exists q, b. split_and!; [done|congruence|done|done].
Qed.

Lemma FindUpdate_kept p u p' : FindUpdate W argv p = (Ret u, p') -> p_environ p' = p_environ p.
Proof. exact (keeps_inv _ _ _ _ _ FindUpdate_environ). Qed.

Lemma Bootstrap_inv p p' :
  Bootstrap W argv p = (Ret Replaced, p') ->
  exists q a, p_app q = Some a /\ p_environ q = p_environ p /\
    ready (p_environ q) (p_boot q) a (p_fs q) /\ Launch W argv q = (Ret Replaced, p').
Proof.
  unfold Bootstrap. intros E. apply st_bind_Ret_inv in E as (home & p1 & E1 & E).
  assert (p_environ p1 = p_environ p) as He1.
  { refine (keeps_inv same_environ _ _ _ _ _ E1). unfold GetApplicationHomePath. keeps. }
  st_inv. destruct (IsFile _ _); [|done]. st_inv.
  match type of E with (match ?x with _ => _ end) _ = _ => destruct x; [|done] end.
  unfold set_app in E. st_inv. 
  match goal with H : FindUpdate _ _ _ = _ |- _ => apply FindUpdate_kept in H as He2 end.
  match goal with H : Resolve _ _ = _ |- _ => apply Resolve_inv in H as (b & Hb & He3 & Hr) end.
  apply Continue_inv in E as (q & c & ? & He & ? & ?); [|intros c; rewrite Hb; by intros [= <-]].
  exists q, c. split_and!; [done| |done|done]. simpl in He2. congruence.
Qed.

(** ** The second process *)

Lemma Has_run name env : no_nul name -> Has name env = (Ret (bool_decide (is_Some (getenv env name))), env).
Proof. intros Hn. unfold Has. by rewrite (c_str_id name Hn). Qed.

Lemma StartHost_run q runtime khost lib host :
  getenv (p_environ q) (lit "KR_RUNTIME") = Some runtime ->
  Join [runtime; lit "libkhost.so"] = Ret khost -> IsFile (p_fs q) khost = true ->
  bw_dlopen W (p_fs q) (c_str khost) = inr lib -> bw_Execute W lib = Some host ->
  StartHost W argv q = (Ret (host argv), q).
Proof.
  intros Hr Hj Hf Hl He. unfold StartHost. erewrite st_bind_Ret; [|reflexivity]. rewrite Hr.
  erewrite st_bind_Ret; [|unfold lift; by rewrite Hj]. erewrite st_bind_Ret; [|reflexivity].
  by rewrite Hf, Hl, He.
Qed.

Lemma main_second q :
  is_Some (getenv (p_environ q) BOOTSTRAP_ENV) ->
  main W argv q = (code ← StartHost W argv; mret (Returned code))
                    (p_with_environ (unsetenv (p_environ q) BOOTSTRAP_ENV) q).
Proof.
  intros Hb. unfold main. destruct (boot_names_ok BOOTSTRAP_ENV) as [_ Hn]; [by left|].
  erewrite st_bind_Ret; [|apply zoom_Ret, (Has_run _ _ Hn)]. rewrite bool_decide_true by done.
  rewrite p_with_environ_id. reflexivity.
Qed.

Lemma main_first p : ~ is_Some (getenv (p_environ p) BOOTSTRAP_ENV) -> main W argv p = Bootstrap W argv p.
Proof.
  intros Hb. unfold main. destruct (boot_names_ok BOOTSTRAP_ENV) as [_ Hn]; [by left|].
  erewrite st_bind_Ret; [|apply zoom_Ret, (Has_run _ _ Hn)]. rewrite bool_decide_false by done.
  by rewrite p_with_environ_id.
Qed.
End Runs.

Lemma unset_boot env n :
  getenv (unsetenv env BOOTSTRAP_ENV) n = if decide (n = BOOTSTRAP_ENV) then None else getenv env n.
Proof.
  destruct (boot_names_ok BOOTSTRAP_ENV) as [Hv _]; [by left|].
  unfold unsetenv. rewrite Hv. apply getenv_removed.
Qed.

(** What is known when the program is replaced. *)
Lemma main_launch W argv p p' :
  main W argv p = (Ret Replaced, p') ->
  exists a r c,
    p_app p' = Some a /\ a_runtime a = Some r /\ comps (p_boot p') !! r = Some c /\
    ready W (p_environ p) (p_boot p') a (p_fs p') /\ bw_exec W argv = None /\
    launch_env (p_environ p) (p_boot p') a (c_path c) (p_environ p').
Proof.
  intros E. assert (Bootstrap W argv p = (Ret Replaced, p')) as (q0 & a & Ha & He & Hr & EL)%Bootstrap_inv.
  { destruct (decide (is_Some (getenv (p_environ p) BOOTSTRAP_ENV))) as [Hb|Hb].
    - rewrite main_second in E by done. by apply st_bind_Ret_inv in E as (? & ? & _ & [=]).
    - by rewrite main_first in E. }
  apply Launch_inv in EL as (a' & r & c & Ha' & Hrt & Hc & Hx & O & L).
  rewrite Ha in Ha'. injection Ha' as <-. rewrite He in Hr, L.
  exists a, r, c. rewrite O. by cbn [p_with_environ p_app p_boot p_fs p_environ].
Qed.

(** C5: the hand-over from the boot process to the host. The first process is
    replaced only after a resolution that left no dependency open, of an
    application that is installed and has a runtime; execv has then not
    failed. The environment that the program is started in again has
    KR_BOOTSTRAPPED, KR_HOME, KR_RUNTIME, KR_MODULES and LD_LIBRARY_PATH from
    that application, and every other variable as it was. A process with that
    environment, and with a host library in the runtime's directory that can
    be loaded, runs the host, without KR_BOOTSTRAPPED and with every other
    variable as it was, and returns its code. *)
Theorem boot_hands_over W argv p p' :
  main W argv p = (Ret Replaced, p') ->
  exists a r c,
    p_app p' = Some a /\ a_runtime a = Some r /\ comps (p_boot p') !! r = Some c /\
    ready W (p_environ p) (p_boot p') a (p_fs p') /\ bw_exec W argv = None /\
    launch_env (p_environ p) (p_boot p') a (c_path c) (p_environ p') /\
    forall W2 argv2 q khost lib host,
      p_environ q = p_environ p' -> Join [c_str (c_path c); lit "libkhost.so"] = Ret khost ->
      IsFile (p_fs q) khost = true -> bw_dlopen W2 (p_fs q) (c_str khost) = inr lib ->
      bw_Execute W2 lib = Some host ->
      exists q', main W2 argv2 q = (Ret (Returned (host argv2)), q') /\
        forall n, getenv (p_environ q') n
                  = if decide (n = BOOTSTRAP_ENV) then None else getenv (p_environ p') n.
Proof.
  intros (a & r & c & Ha & Hrt & Hc & Hr & Hx & L)%main_launch. exists a, r, c.
  split_and!; try done. intros W2 argv2 q khost lib host Hq Hj Hf Hl Hh.
  rewrite main_second by (rewrite Hq, (le_boot _ _ _ _ _ L); by eexists).
  eexists. split.
  - erewrite st_bind_Ret; [reflexivity|].
    eapply StartHost_run; try done. cbn [p_with_environ p_environ]. rewrite unset_boot.
    rewrite Hq, (le_runtime _ _ _ _ _ L). done.
  - intros n. cbn [p_with_environ p_environ]. rewrite unset_boot. by rewrite Hq.
Qed.

(** An installed application with a runtime. *)
Definition demo_boot_fs : FS :=
  fs_of [(lit "/app/demo", []); (lit "/app/.installed", []);
         (lit "/app/manifest", lit "#appid:com.demo" ++ ["010"%char] ++ lit "runtime:0.8");
         (lit "/home/user/.kroll/runtime/linux/0.8/libkhost.so", [])]
        [(lit "/app", [lit "demo"; lit "manifest"]); (lit "/home/user/.kroll", [lit "runtime"]);
         (lit "/home/user/.kroll/runtime/linux", [lit "0.8"]);
         (lit "/home/user/.kroll/runtime/linux/0.8", [lit "libkhost.so"])].
Definition demo_process : process :=
  {| p_fs := demo_boot_fs; p_environ := [lit "HOME=/home/user"];
     p_boot := {| comps := []; installedComponents := [] |}; p_searchPaths := [];
     p_applicationHome := []; p_updateFile := []; p_app := None; p_actions := [] |}.
Definition demo_boot_world : BootWorld :=
  {| bw_machine := w_machine quiet_system; bw_realpath _ path := path; bw_link := None;
     bw_mkdir fs _ := (fs, true); bw_install _ _ fs := fs; bw_exec _ := None;
     bw_dlopen _ _ := inr 1%N; bw_Execute _ := Some (fun args => Z.of_nat (length args)) |}.
Definition demo_argv : list str := [lit "/app/demo"; lit "--x"].
Definition demo_booted : process := (main demo_boot_world demo_argv demo_process).2.

Lemma run_outcome {S A} (x : res A * S) r : x.1 = r -> x = (r, x.2).
Proof. destruct x. simpl. by intros ->. Qed.

Lemma boot_hands_over_witness :
  main demo_boot_world demo_argv demo_process = (Ret Replaced, demo_booted) /\
  getenv (p_environ demo_booted) (lit "KR_HOME") = Some (lit "/app") /\
  exists q',
    main demo_boot_world demo_argv demo_booted = (Ret (Returned 2%Z), q').
Proof.
  assert (main demo_boot_world demo_argv demo_process = (Ret Replaced, demo_booted)) as E
    by (unfold demo_booted; apply run_outcome; vm_compute; reflexivity).
  split; [exact E|]. split; [vm_compute; reflexivity|].
  destruct (boot_hands_over _ _ _ _ E) as (a & r & c & Ha & Hr & Hc & _ & _ & L & H).
  destruct (H demo_boot_world demo_argv demo_booted
    (lit "/home/user/.kroll/runtime/linux/0.8/libkhost.so") 1%N (fun args => Z.of_nat (length args)))
    as (q' & E' & _); [reflexivity| |vm_compute; reflexivity..|].
  - assert (Some (c_str (c_path c)) = Some (lit "/home/user/.kroll/runtime/linux/0.8")) as [= ->]
      by (rewrite <- (le_runtime _ _ _ _ _ L); vm_compute; reflexivity).
    vm_compute. reflexivity.
  - exists q'. exact E'.
Defined.
