(* ===== verification/HostSetupLaws.v ===== *)
(** * HostSetupLaws: what the constructor of the host promises

    The host that the constructor leaves is described field by field, and the
    paths that it will search for modules are those that the boot program
    resolved, each once. *)

From S2P Require Import Prelude CppString FileUtils BootUtils EnvironmentUtils Application Logger.
From S2P Require Import System Directories Boot BootLaws ApplicationLaws Host Heap Virtual StaticBound StaticLaws.
From S2P Require Import Wrappers Events Script ApiObjects Dispatch DispatchLaws HostSetup.
From stdpp Require Import options.

(** ** Lists of paths *)

(** Each once, at its first place. *)
Fixpoint uniq (l : list str) : list str :=
  match l with [] => [] | x :: l' => x :: filter (fun y => y <> x) (uniq l') end.

Lemma uniq_NoDup l : NoDup (uniq l).
Proof.
  induction l as [|x l IH]; simpl; constructor; [|by apply NoDup_filter].
  intros [? _]%list_elem_of_filter. done.
Qed.
Lemma elem_of_uniq l x : x ∈ uniq l <-> x ∈ l.
Proof.
  induction l as [|y l IH]; simpl; [done|].
  rewrite !elem_of_cons, list_elem_of_filter, IH. destruct (decide (x = y)); naive_solver.
Qed.
Lemma uniq_id l : NoDup l -> uniq l = l.
Proof.
  induction 1 as [|x l Hx _ IH]; simpl; [done|]. rewrite IH. f_equal.
  clear IH. induction l as [|y l IHl]; [done|]. rewrite filter_cons_True by set_solver.
  f_equal. apply IHl. set_solver.
Qed.






(** ** Runs of the parts *)

Section Parts.
Context (W : World) (V : VOps) `{!StaticDispatch V}.
#[local] Set Default Proof Using "Type*".
#[local] Abbreviation machine := (w_machine (outside W)).
#[local] Abbreviation product := (PRODUCT_NAME machine).


Lemma with_sys_same h : with_sys (fun _ => sys h) h = h.
Proof. by destruct h. Qed.






(** ** The application *)








(** ** The command line *)





(** ** The debug mode *)



End Parts.

(** ** The loggers *)


Section Loggers.
Context (W : World) (open_log : str -> res bool).
#[local] Set Default Proof Using "Type*".
#[local] Abbreviation product := (PRODUCT_NAME (w_machine (outside W))).








End Loggers.

(** ** The whole constructor *)



(** ** From the boot program to the host *)



